(* ===== verification/_CoqProject ===== *)
-Q . S2P
Prelude.v
Mm.v
CLib.v
Hw.v
Cpu.v
Font.v
Gfx.v
Render.v
Backend.v
Irq.v
Serial.v
Ata.v
FatTbl.v
FatUni.v
Fat.v
FatChain.v
FatFile.v
FatRead.v
FatWrite.v
FatSync.v
FatLfn.v
FatDir.v
FatTable.v
FatScan.v
FatItems.v
FatGrow.v
FatEdit.v
FatReg.v
FatObj.v
FatMount.v
FatName.v
FatApi.v
FatWalk.v
FatList.v
FatOpen.v
FatTree.v
FatCreate.v
FatUnlink.v
FatMkdir.v
FatRename.v
FatDisk.v
Nic.v
Fs.v
Cursor.v
Theme.v
NetMon.v
Ui.v
Explorer.v
Browser.v
Edit.v
FatEditor.v
Image.v
View.v
Boot.v
Shutdown.v
Shell.v
Panels.v
Desktop.v
Start.v
