(* ===== verification/Prelude.v ===== *)
(** * Nao: a verification development of the kernel and its applications

    Nao is a 32-bit hobby operating system in C: a kernel that boots into a
    graphical desktop with a handful of applications. This library models the
    system's own code and FatFs, the file system it is linked with (the other
    vendored libraries are interfaces), and proves the properties
    that make each part correct.

    ** The system and the files that model it

    The files are listed in dependency order; each mirrors one part of the
    sources, with one definition per C function (loops are separate fixpoints)
    under the names of the source.

    - Prelude: machine integers with explicit wrap-around ([u8] ... [i32]),
      the outcome type [res] ([Ok], [Fault] = access outside an object or
      another undefined operation, [Spin] = a deliberate endless loop,
      [NoFuel] = recursion budget exhausted), arrays with checked accesses,
      counted loops, and the shared automation.
    - Mm (mm.c): the kernel heap. The headers form a map from addresses, as
      the pointer-linked list in the array does; an abstract first-fit
      allocator on block lists is the specification.
    - CLib (kernel.c, diskio.c): the freestanding C library: memory and string
      routines, number conversion and the two formatters.
    - Hw: port input/output as a state monad over a device interface (classes
      [Ports], [HasDev]) with a recording device for witnesses.
    - Cpu (gdt.c, idt.c): segment and interrupt descriptor tables.
    - Font, Gfx, Render (font.h, gui.c, putpixel of kernel.c): glyphs, the
      clipped and blended drawing primitives and the replay of a Nuklear
      command list.
    - Irq (idt.c): PIC set-up, keyboard ring, PS/2 mouse and [isr_handler].
    - Serial, Ata, Nic (serial.c; diskio.c; rtl8139.c and
      network/port/netif_driver.c): the device drivers, each over a class that
      states how its device answers ([Uart], [AtaDrive], [RtlRing], [PciBus])
      with a concrete device as an instance. The disk driver runs with the
      IRQ 14 handler of Irq in the loop.
    - FatTbl, FatUni (ffunicode.c): the tables of code page 932 and of upper
      case, and the conversions [ff_uni2oem], [ff_oem2uni], [ff_wtoupper],
      [tchar2uni], [put_utf].
    - Fat, FatChain (ff.c): the disk window, the allocation table of FAT12,
      FAT16 and FAT32 volumes, and cluster chains. The drive is the class
      [BlockDev] with the contract [BlockLaws]; a RAM drive with bad sectors is
      an instance.
    - FatFile (ff.c): an open file: [f_read], [f_write], [f_lseek],
      [f_truncate], [f_sync], [f_close]. FatRead, FatWrite and FatSync hold the
      invariants of an open file and the theorems on reading, writing and
      closing.
    - FatLfn (ff.c): long names in entries: comparing, collecting, storing,
      the checksum and the numbered short names.
    - FatDir (ff.c): a directory as a sequence of entries: [dir_sdi],
      [dir_next], [dir_alloc], [dir_read], [dir_find], [dir_register],
      [dir_remove]. FatTable gives the sectors and the entries of a directory,
      FatScan and FatItems what searching and reading see of them as a list of
      objects, FatGrow and FatEdit how the entries change, FatReg the naming
      of a new object, FatObj the resulting theorems.
    - FatMount (ff.c): [check_fs], [find_volume], [mount_volume], [f_mount].
    - FatName (ff.c): [create_name], from a segment of a path to a name, and
      [get_fileinfo], from an entry to the names programs see.
    - FatApi (ff.c): [follow_path] and the functions that take a path:
      [f_open], [f_opendir], [f_readdir], [f_closedir], [f_stat], [f_unlink],
      [f_mkdir], [f_rename], [f_getfree]. FatWalk holds the tree of
      directories and the theorem on paths, FatList the one on listing
      directories, FatOpen and FatTree what opening a file finds and what
      stays as it is when one file changes, FatCreate the theorems on files
      named by a path, FatUnlink, FatMkdir and FatRename those on removing,
      creating a directory and renaming.
    - FatDisk: the driver of Ata discharges [BlockLaws], so the theorems hold
      of FatFs over the driver it is linked with.
    - Fs: FatFs as the applications call it: operations ([FatFs]), promises
      about files ([FatFsLaws]: contents are bytes, fewer than 2^32) and
      directories ([DirLaws]), and two in-memory volumes: one of files, which
      discharges both, and one of directories.
    - Cursor (cursor_loader.c, ani_loader.c): static and animated cursors.
    - Theme, NetMon (kernel.c): the theme file and the ping monitor.
    - Ui: what an application exchanges with Nuklear in a frame, the pointer
      lock of the desktop, strings in fixed arrays.
    - Explorer, Browser, Edit, View (explorer.c, naobrowse.c, naoedit.c,
      naoview.c): the applications, each as a function from the answers of one
      frame to the next state. FatEditor runs the editor on the FatFs of
      FatApi and FatFile instead of on the interface.
    - Image (kernel.c): the arena handed to the picture decoder and the two
      picture loaders; the decoder is an interface ([Decoder],
      [DecoderLaws]).
    - Backend (nuklear_backend.c, gui.c): the direct command replay with
      scaled images, the font width and the allocator hooks.
    - Boot (boot_screen.h), Shutdown (sys_shutdown of kernel.c): the first and
      the last screen.
    - Shell, Panels (kernel.c): the launcher, keyboard input, taskbar and
      start menu; the system monitor and the theme mixer.
    - Desktop (kernel.c): one iteration of the main loop of [kernel_main] as
      the composition of the components it calls.
    - Start (kernel.c, gui.c): [kernel_main] from power-on to the main loop.

    ** State and interaction

    Global variables of a C file become a record; a function that changes them
    takes and returns the record. Interrupt handlers and drivers share the
    record of Irq. Widgets are immediate-mode: the answers of Nuklear in a
    frame are a record of inputs over which the theorems quantify, so they
    hold for every user. FatFs, lwIP, stb_image and the devices are classes or
    parameters; the theorems of the clients are proved against their laws,
    and a concrete instance shows that the laws can hold.

    ** What the theorems show

    - Heap: [kmalloc] and [kfree] refine the abstract first-fit allocator, for
      every 32-bit size: the allocator is asked for the granted size, which is
      the request rounded up to 8 except for the seven requests above
      0xFFFFFFF8, whose rounding wraps to 0; after any history of calls the
      granted regions are in bounds and disjoint; the statistics are exact.
    - C library: functional correctness of [memmove], the formatter
      [mini_snprintf] and the number round trip, within the buffers.
    - Interrupts: the keyboard ring is a bounded FIFO under every
      interleaving, every vector is acknowledged to the right controllers, a
      mouse packet moves the pointer by its movement within the screen.
    - Drawing: the primitives change exactly the pixels they should and stay
      in the buffer; a whole command list stays inside the scissors.
    - Drivers: sectors and frames are transferred exactly, for every device
      latency; the serial log transmits the formatted text.
    - FatFs: storing and loading a table entry are inverse and touch no other
      entry; stretching and cutting a chain change exactly the clusters they
      should and keep the free count; no dirty sector is lost when a write
      fails; reads and writes move exactly the bytes of the file through the
      mix of cached, partial and direct sectors; after closing, the medium alone
      holds the file, also for a volume mounted afresh; all of it over the
      interrupt-driven disk driver. Mounting accepts exactly the drives whose
      boot sector has the signatures and fields of a FAT volume, and takes the
      layout these give; that the layout fits the drive is not tested by the
      code, and the consistency of the layout is stated for those that do.
    - Names, directories and paths: converting a character of the code page
      and back is the identity; a directory refines a list of named objects
      under searching, registering and removing; the name a listing shows is
      accepted as a path; following a path refines a walk over the tree of
      directories, errors included, and changes nothing; opening and reading a
      directory lists its objects.
    - Files by path: opening and reading delivers the bytes of the file the
      path names; a file created or overwritten by its path, written and closed
      is read back unchanged, the other files and the directories being kept;
      [f_unlink], [f_mkdir] and [f_rename] change the tree of directories as
      their results say, keep every other file, and leave nothing unsaved.
    - Files: the theme survives a save and a load; a text the editor saved,
      through the modelled FatFs, is what it opens again, or a prefix of it on
      a full volume; the cursor loader decodes every file, of either depth and
      of any length, and overruns its array exactly for a picture of more than
      4096 bytes; the animation loader decodes what the file holds; the
      explorer's listing and navigation refine directory contents and a stack
      of names.
    - Applications: frames are safe for all answers of Nuklear, but for the
      overruns and the unbounded deletion that the theorems name; the browser's
      history refines a list with a cursor and a page is shown as its text
      outside tags; the editor touches the disk only for a confirmed operation
      and 30 ticks after it; the viewer shows exactly the decoded picture, reports
      each failure and never leaks heap memory.
    - Pictures: the arena's regions are disjoint and in bounds for requests of
      at most 4290772988 bytes, which is the exact bound; pictures are loaded
      upright.
    - Desktop: a queued program is always opened, all keyboard input is
      delivered, the monitor's numbers are exact, the mixer keeps theme and
      style in step, a frame shows exactly the back buffer. The whole frame
      keeps the invariant of every component ([desktop_ok]), of the buffers and
      of the network driver ([machine_ok]) and refines the launcher, and it
      returns for every input of a frame ([frame_in_ok]) but for the cases of
      [frame_blocked]: a number in the theme file that is no int, an explorer
      path or deletion that is too deep or too large, a picture for which the
      heap has no room, a picture file of nearly 4 GiB. The volume must have
      readable directories ([dir_media_ok]) with fewer entries than the fuel.
    - From power-on: the start establishes that invariant when the video mode
      fits the buffers and the cursor picture its array, so it holds in every
      frame of every run; the start completes on a bare disk without a network
      card; boot screen and shutdown complete with the screens stated.
    - A few theorems state what the code does where it departs from its
      intent (an overrun, a hang, a file that cannot be deleted).

    ** Bounds and fuel

    Loops whose trip count is known use [for_up] or recursion on data. The
    others take fuel: the number of headers plus one for the heap walks, the
    length of the text for parsers, the number of clusters for removing a
    chain and twice that for finding a free one, one more than the number of
    bytes for a transfer and of clusters for a seek, 65536 visited entries for a
    directory (its limit is 2 MB), the length of the path for following it, one
    more than the long-name buffer for making a short name, three foldings for the checksum, 32 reads
    for the keyboard ring, and a parameter where the environment decides
    (device polling, directory length, readings of the tick counter in the
    boot screen's waits); the theorems state how much is enough, so that no
    result depends on [NoFuel].

    ** What is not modelled

    Log lines sent with [serial_printf] by other components are left out of
    their state (the routine itself is modelled in Serial). Of FatFs [f_mkfs]
    is outside, and the code that ffconf.h disables (exFAT, relative paths,
    file locks, reentrancy, other code pages). [f_stat], [f_getfree]
    and opening at the end of a file are modelled, but no theorem is about
    them, and the one on [f_rename] is about paths that end in one directory. The applications see FatFs through the interface
    of Fs, whose laws are not derived from the theorems about ff.c; only the
    editor is also run on ff.c itself (FatEditor). The interrupt handlers run
    between frames and in the drivers' waits: reading one character from the
    keyboard ring is atomic, and the timer's own drawing is not interleaved
    with the copy to the screen. The disk answers every command after some
    number of polls and without errors, so that the driver's settling loop of
    1000 nops after a drive is selected has no counterpart. The other
    vendored code (nuklear.h, stb_image.h, the lwIP stack) is outside, and so are
    boot.asm (entry point, interrupt stubs, reset) and the floating-point and
    character-class stubs [pow], [ldexp] and [__ctype_b_loc] of kernel.c that
    only vendored code calls. Nuklear's own heap blocks are those present when
    the main loop begins; what its buffers grow to later is not followed. *)

From Stdlib Require Import ZArith Lia Bool.
From stdpp Require Import base list gmap.
From stdpp Require Import options.

#[global] Open Scope Z_scope.

(** ** Machine integers

    A [w]-bit C integer is a [Z]; every conversion or arithmetic operation
    that C performs at a fixed width is followed by the corresponding wrap. *)

Definition wrap (w z : Z) : Z := z mod 2 ^ w.

Definition swrap (w z : Z) : Z :=
  let m := z mod 2 ^ w in if m <? 2 ^ (w - 1) then m else m - 2 ^ w.

Definition u8 (z : Z) : Z := wrap 8 z.
Definition u16 (z : Z) : Z := wrap 16 z.
Definition u32 (z : Z) : Z := wrap 32 z.
Definition i8 (z : Z) : Z := swrap 8 z.
Definition i16 (z : Z) : Z := swrap 16 z.
Definition i32 (z : Z) : Z := swrap 32 z.

(** C truth of an integer. *)
Definition truth (z : Z) : bool := negb (z =? 0).

Lemma wrap_small w z : 0 <= z < 2 ^ w -> wrap w z = z.
Proof. apply Z.mod_small. Qed.

Lemma wrap_bound w z : 0 <= w -> 0 <= wrap w z < 2 ^ w.
Proof. intros ?. apply Z.mod_pos_bound. lia. Qed.

Lemma u8_small z : 0 <= z < 256 -> u8 z = z.
Proof. apply (wrap_small 8). Qed.
Lemma u16_small z : 0 <= z < 65536 -> u16 z = z.
Proof. apply (wrap_small 16). Qed.
Lemma u32_small z : 0 <= z < 4294967296 -> u32 z = z.
Proof. apply (wrap_small 32). Qed.
Lemma u8_bound z : 0 <= u8 z < 256.
Proof. apply (wrap_bound 8). lia. Qed.
Lemma u16_bound z : 0 <= u16 z < 65536.
Proof. apply (wrap_bound 16). lia. Qed.
Lemma u32_bound z : 0 <= u32 z < 4294967296.
Proof. apply (wrap_bound 32). lia. Qed.

Lemma swrap_small w z :
  0 < w -> - 2 ^ (w - 1) <= z < 2 ^ (w - 1) -> swrap w z = z.
Proof.
  intros Hw Hz. unfold swrap.
  assert (2 ^ w = 2 * 2 ^ (w - 1)) as Hpow.
  { rewrite <- Z.pow_succ_r by lia. f_equal. lia. }
  destruct (Z.ltb_spec z 0) as [Hneg|Hpos].
  - replace (z mod 2 ^ w) with (z + 2 ^ w).
    + destruct (Z.ltb_spec (z + 2 ^ w) (2 ^ (w - 1))); lia.
    + apply Z.mod_unique with (-1); lia.
  - rewrite Z.mod_small by lia.
    destruct (Z.ltb_spec z (2 ^ (w - 1))); lia.
Qed.

Lemma swrap_bound w z :
  0 < w -> - 2 ^ (w - 1) <= swrap w z < 2 ^ (w - 1).
Proof.
  intros Hw. unfold swrap.
  assert (2 ^ w = 2 * 2 ^ (w - 1)) as Hpow.
  { rewrite <- Z.pow_succ_r by lia. f_equal. lia. }
  assert (0 < 2 ^ (w - 1)) by lia.
  pose proof (Z.mod_pos_bound z (2 ^ w) ltac:(lia)).
  destruct (Z.ltb_spec (z mod 2 ^ w) (2 ^ (w - 1))); lia.
Qed.

Lemma i8_small z : -128 <= z < 128 -> i8 z = z.
Proof. apply (swrap_small 8). lia. Qed.
Lemma i16_small z : -32768 <= z < 32768 -> i16 z = z.
Proof. apply (swrap_small 16). lia. Qed.
Lemma i32_small z : -2147483648 <= z < 2147483648 -> i32 z = z.
Proof. apply (swrap_small 32). lia. Qed.
Lemma i8_bound z : -128 <= i8 z < 128.
Proof. apply (swrap_bound 8). lia. Qed.
Lemma i16_bound z : -32768 <= i16 z < 32768.
Proof. apply (swrap_bound 16). lia. Qed.
Lemma i32_bound z : -2147483648 <= i32 z < 2147483648.
Proof. apply (swrap_bound 32). lia. Qed.

(** [byteb z] : [z] fits an unsigned byte. *)
Definition is_byte (z : Z) : Prop := 0 <= z < 256.

(** Extracting and joining bytes with the shifts and masks the C uses. *)
Lemma land_255 z : Z.land z 255 = z mod 256.
Proof. change 255 with (Z.ones 8). rewrite Z.land_ones by lia. done. Qed.
Lemma land_65535 z : Z.land z 65535 = z mod 65536.
Proof. change 65535 with (Z.ones 16). rewrite Z.land_ones by lia. done. Qed.

Lemma lor_disjoint_add lo hi n :
  0 <= n -> 0 <= lo < 2 ^ n -> Z.lor lo (Z.shiftl hi n) = lo + hi * 2 ^ n.
Proof.
  intros Hn Hlo. rewrite Z.shiftl_mul_pow2 by lia.
  rewrite <- Z.add_lor_land.
  replace (Z.land lo (hi * 2 ^ n)) with 0; [lia|].
  symmetry. apply Z.bits_inj'. intros i Hi.
  rewrite Z.land_spec, Z.bits_0.
  destruct (Z.ltb_spec i n).
  - rewrite Z.mul_pow2_bits_low by lia. apply andb_false_r.
  - rewrite <- (Z.mod_small lo (2 ^ n)) by lia.
    rewrite Z.mod_pow2_bits_high by lia. done.
Qed.

(** Clearing the low [n] bits: [x & ~(2^n - 1)]. *)
Lemma land_clear_low x n w :
  0 <= n <= w -> 0 <= x < 2 ^ w ->
  Z.land x (2 ^ w - 2 ^ n) = 2 ^ n * (x / 2 ^ n).
Proof.
  intros Hn Hx.
  assert (2 ^ w - 2 ^ n = Z.shiftl (Z.ones (w - n)) n) as ->.
  { rewrite Z.shiftl_mul_pow2, Z.ones_equiv by lia.
    replace (2 ^ w) with (2 ^ (w - n) * 2 ^ n);
      [unfold Z.pred; ring | rewrite <- Z.pow_add_r by lia; f_equal; lia]. }
  rewrite Z.mul_comm, <- Z.shiftr_div_pow2, <- Z.shiftl_mul_pow2 by lia.
  apply Z.bits_inj'. intros i Hi.
  rewrite Z.land_spec. rewrite !Z.shiftl_spec by lia.
  destruct (Z.ltb_spec i n) as [Hlt|Hge].
  - rewrite !(Z.testbit_neg_r _ (i - n)) by lia. apply andb_false_r.
  - rewrite Z.shiftr_spec by lia. replace (i - n + n) with i by lia.
    destruct (Z.ltb_spec i w) as [Hiw|Hiw].
    + rewrite Z.ones_spec_low by lia. apply andb_true_r.
    + rewrite <- (Z.mod_small x (2 ^ w)) by lia.
      rewrite Z.mod_pow2_bits_high by lia. done.
Qed.

(** ** Outcomes of C code

    [Ok a] normal return; [Fault] an access outside the object it addresses
    or another undefined operation; [Spin] a deliberate [while(1);] panic;
    [NoFuel] the model's recursion budget ran out (excluded by theorems that
    state the result). *)

Inductive res (A : Type) : Type :=
| Ok (a : A)
| Fault
| Spin
| NoFuel.
Arguments Ok {A} _.
Arguments Fault {A}.
Arguments Spin {A}.
Arguments NoFuel {A}.

#[global] Instance res_ret : MRet res := fun _ a => Ok a.
#[global] Instance res_bind : MBind res := fun _ _ f m =>
  match m with Ok a => f a | Fault => Fault | Spin => Spin | NoFuel => NoFuel end.
#[global] Instance res_fmap : FMap res := fun _ _ f m =>
  match m with Ok a => Ok (f a) | Fault => Fault | Spin => Spin | NoFuel => NoFuel end.

(** A lookup in C memory: absent means out of bounds. *)
Definition or_fault {A} (o : option A) : res A :=
  match o with Some a => Ok a | None => Fault end.

Lemma bind_Ok {A B} (f : A -> res B) (a : A) : (Ok a ≫= f) = f a.
Proof. done. Qed.

Lemma bind_Ok_inv {A B} (m : res A) (f : A -> res B) b :
  m ≫= f = Ok b -> exists a, m = Ok a /\ f a = Ok b.
Proof. destruct m; simpl; intros; try discriminate. eauto. Qed.

(** ** Arrays

    A C array is a [list Z]; [rd] and [wr] are the bounds-checked element
    accesses. *)

Definition rd (b : list Z) (i : Z) : res Z :=
  if i <? 0 then Fault else or_fault (b !! Z.to_nat i).

Definition wr (b : list Z) (i v : Z) : res (list Z) :=
  if (0 <=? i) && (i <? Z.of_nat (length b))
  then Ok (<[Z.to_nat i := v]> b) else Fault.

(** Total reading, for specifications: 0 outside the array. *)
Definition get (b : list Z) (i : Z) : Z := nth (Z.to_nat i) b 0.

Abbreviation zlen b := (Z.of_nat (length b)).

Lemma rd_in b i : 0 <= i < zlen b -> rd b i = Ok (get b i).
Proof.
  intros Hi. unfold rd, get.
  destruct (Z.ltb_spec i 0); [lia|].
  rewrite (nth_lookup b), (list_lookup_lookup_total_lt b) by lia. done.
Qed.

Lemma rd_out b i : ~ (0 <= i < zlen b) -> rd b i = Fault.
Proof.
  intros Hi. unfold rd. destruct (Z.ltb_spec i 0); [done|].
  rewrite lookup_ge_None_2 by lia. done.
Qed.

Lemma rd_Ok_inv b i v : rd b i = Ok v -> 0 <= i < zlen b /\ get b i = v.
Proof.
  intros H. destruct (decide (0 <= i < zlen b)) as [Hi|Hi].
  - rewrite rd_in in H by lia. split; [lia|congruence].
  - rewrite rd_out in H by lia. done.
Qed.

Lemma wr_in b i v :
  0 <= i < zlen b -> wr b i v = Ok (<[Z.to_nat i := v]> b).
Proof.
  intros Hi. unfold wr.
  destruct (Z.leb_spec 0 i); [|lia]. destruct (Z.ltb_spec i (zlen b)); [done|lia].
Qed.

Lemma wr_length b i v b' : wr b i v = Ok b' -> length b' = length b.
Proof. unfold wr. destruct (_ && _); [|done]. intros [= <-]. by rewrite length_insert. Qed.

Lemma wr_out b i v : ~ (0 <= i < zlen b) -> wr b i v = Fault.
Proof.
  intros Hi. unfold wr.
  destruct (Z.leb_spec 0 i); [|done]. destruct (Z.ltb_spec i (zlen b)); [lia|done].
Qed.

Lemma get_insert_eq b i v :
  0 <= i < zlen b -> get (<[Z.to_nat i := v]> b) i = v.
Proof.
  intros Hi. unfold get. rewrite nth_lookup, list_lookup_insert_eq by lia. done.
Qed.

Lemma get_insert_ne b i j v :
  0 <= i -> 0 <= j -> i <> j -> get (<[Z.to_nat i := v]> b) j = get b j.
Proof.
  intros Hi Hj Hne. unfold get.
  rewrite !nth_lookup, list_lookup_insert_ne by lia. done.
Qed.

Lemma get_app_l a b i : 0 <= i < zlen a -> get (a ++ b) i = get a i.
Proof. intros Hi. unfold get. apply app_nth1. lia. Qed.

Lemma get_app_r a b i :
  zlen a <= i -> get (a ++ b) i = get b (i - zlen a).
Proof.
  intros Hi. unfold get. rewrite app_nth2 by lia. f_equal. lia.
Qed.

Lemma get_take (n : nat) l i : 0 <= i < Z.of_nat n -> get (take n l) i = get l i.
Proof. intros Hi. unfold get. rewrite !nth_lookup, lookup_take_lt by lia. done. Qed.
Lemma get_drop (n : nat) l i : 0 <= i -> get (drop n l) i = get l (Z.of_nat n + i).
Proof. intros Hi. unfold get. rewrite !nth_lookup, lookup_drop. do 2 f_equal. lia. Qed.

Lemma get_eq_ext a b :
  length a = length b -> (forall i, 0 <= i < zlen a -> get a i = get b i) -> a = b.
Proof.
  intros Hlen Hget. apply (nth_ext _ _ 0 0); [done|].
  intros n Hn. specialize (Hget (Z.of_nat n) ltac:(lia)).
  unfold get in Hget. rewrite Nat2Z.id in Hget. done.
Qed.

(** Little-endian fields of a byte array. *)
Definition le16 (b : list Z) (i : Z) : Z := get b i + get b (i + 1) * 256.
Definition le32 (b : list Z) (i : Z) : Z :=
  get b i + get b (i + 1) * 256 + get b (i + 2) * 65536 + get b (i + 3) * 16777216.

Lemma get_byte b i : Forall is_byte b -> 0 <= get b i < 256.
Proof.
  intros Hb. unfold get. destruct (decide (Z.to_nat i < length b)%nat).
  - apply (proj1 (Forall_nth is_byte 0 b) Hb). lia.
  - rewrite nth_overflow by lia. lia.
Qed.

Lemma le16_bound b i : Forall is_byte b -> 0 <= le16 b i < 65536.
Proof. intros Hb. unfold le16. pose proof (get_byte b i Hb). pose proof (get_byte b (i + 1) Hb). lia. Qed.

Lemma le32_bound b i : Forall is_byte b -> 0 <= le32 b i < 4294967296.
Proof.
  intros Hb. unfold le32. pose proof (get_byte b i Hb). pose proof (get_byte b (i + 1) Hb).
  pose proof (get_byte b (i + 2) Hb). pose proof (get_byte b (i + 3) Hb). lia.
Qed.

(** ** Counted loops

    [for_up n lo body s] is [for (i = lo; i < lo + n; i++) s = body(i, s)]. *)

Fixpoint for_up {S : Type} (n : nat) (lo : Z) (body : Z -> S -> res S) (s : S) : res S :=
  match n with
  | O => Ok s
  | Datatypes.S n' => s' ← body lo s; for_up n' (lo + 1) body s'
  end.

Lemma for_up_inv {S : Type} (I : Z -> S -> Prop) n lo body s :
  (forall i s, lo <= i < lo + Z.of_nat n -> I i s ->
     exists s', body i s = Ok s' /\ I (i + 1) s') ->
  I lo s ->
  exists s', for_up n lo body s = Ok s' /\ I (lo + Z.of_nat n) s'.
Proof.
  revert lo s. induction n as [|n IH]; intros lo s Hstep HI; cbn [for_up].
  - exists s. split; [done|]. rewrite Z.add_0_r. done.
  - destruct (Hstep lo s ltac:(lia) HI) as (s1 & Hb & HI1).
    rewrite Hb. simpl.
    destruct (IH (lo + 1) s1) as (s2 & Hr & HI2); [|done|].
    + intros i s' Hi. apply Hstep. lia.
    + exists s2. split; [done|].
      replace (lo + Z.of_nat (Datatypes.S n)) with (lo + 1 + Z.of_nat n) by lia. done.
Qed.

(** What every iteration that returns keeps, a loop that returns keeps. *)
Lemma for_up_keeps {S : Type} (P : S -> Prop) n lo body s s' :
  (forall i s s', P s -> body i s = Ok s' -> P s') -> for_up n lo body s = Ok s' -> P s -> P s'.
Proof.
  intros Hb. revert lo s. induction n as [|n IH]; intros lo s Hr Hs; cbn [for_up] in Hr; [by injection Hr as <-|].
  destruct (body lo s) as [s1| | |] eqn:E; [|done..]. cbn in Hr. apply (IH _ _ Hr). by apply (Hb lo s).
Qed.

(** Loops with equal bodies are equal. *)
Lemma for_up_ext {S : Type} n lo (f g : Z -> S -> res S) s :
  (forall i s, lo <= i < lo + Z.of_nat n -> f i s = g i s) ->
  for_up n lo f s = for_up n lo g s.
Proof.
  revert lo s. induction n as [|n IH]; intros lo s Heq; simpl; [done|].
  rewrite (Heq lo s) by lia. destruct (g lo s) as [s'| | |]; simpl; try reflexivity.
  apply IH. intros. apply Heq. lia.
Qed.

(** ** Automation *)

Create HintDb nao.

#[export] Hint Resolve u8_bound u16_bound u32_bound i8_bound i16_bound i32_bound : nao.
#[export] Hint Rewrite @length_insert @length_app @length_replicate @bind_Ok : nao.

(** [lia] with quotients and remainders by constants. *)
Ltac dlia := Z.to_euclidean_division_equations; lia.

(** Case analysis on every integer comparison in the goal. *)
Ltac zcases :=
  repeat match goal with
  | |- context [?a <? ?b] => destruct (Z.ltb_spec a b)
  | |- context [?a <=? ?b] => destruct (Z.leb_spec a b)
  | |- context [?a =? ?b] => destruct (Z.eqb_spec a b)
  end.

(** Split the hypotheses' monadic binds that returned. *)
Ltac inv_ok :=
  repeat match goal with
  | H : mbind _ ?m = Ok _ |- _ =>
      let a := fresh "a" in let E := fresh "E" in
      apply bind_Ok_inv in H as (a & E & H)
  | H : Ok _ = Ok _ |- _ => injection H as H; try subst
  | H : Fault = Ok _ |- _ => discriminate H
  | H : Spin = Ok _ |- _ => discriminate H
  | H : NoFuel = Ok _ |- _ => discriminate H
  end.
