(* ===== verification/Mm.v ===== *)
(** * Mm: the kernel heap (mm.c)

    [kmalloc]/[kfree]/[get_used_memory] over the pointer-linked headers that
    live inside [kernel_heap_space], an abstract allocator over a list of
    blocks, and the refinement between the two. The header store maps the
    address of a [struct block_header] to its contents; addresses are those of
    the running kernel, so the array's address is a parameter. *)

From Stdlib Require Import ZArith Lia Bool.
From stdpp Require Import base list gmap sorting.
From S2P Require Import Prelude.
From stdpp Require Import options.

(** [sizeof(struct block_header)] on i386: 4 + 1 (+3 padding) + 4. *)
Definition HDR : Z := 12.
(** [sizeof(kernel_heap_space)]. *)
Definition HEAP_BYTES : Z := 4 * 1024 * 1024.

Record block_header := mk_header { size : Z; is_free : Z; next : Z }.

Record mm_state := mk_mm { mem : gmap Z block_header; mm_initialized : Z }.

(** [#define ALIGN(size) (((size) + 7) & ~7)] at [uint32_t]. *)
Definition ALIGN (sz : Z) : Z := Z.land (u32 (sz + 7)) 4294967288.

(** Iteration budget of the list walks: one more than the number of headers
    ever written; [chain_length] shows that it is enough. *)
Definition mem_fuel (m : gmap Z block_header) : nat := S (map_size m).
Arguments mem_fuel : simpl never.

Section Concrete.
Context (kernel_heap_space : Z).

Definition heap_start : Z := kernel_heap_space.

Definition init_mm (st : mm_state) : mm_state :=
  mk_mm (<[heap_start := mk_header (HEAP_BYTES - HDR) 1 0]> (mem st)) 1.

(** The split and the return of the block found by the first-fit search. *)
Definition take_block (needed cur : Z) (h : block_header) (m : gmap Z block_header)
  : gmap Z block_header :=
  if u32 (needed + HDR + 8) <=? size h then
    let nb := cur + HDR + needed in
    let m := <[nb := mk_header (u32 (size h - needed - HDR)) 1 (next h)]> m in
    <[cur := mk_header needed 0 nb]> m
  else <[cur := mk_header (size h) 0 (next h)]> m.

(** The first-fit search loop; [Spin] is the out-of-memory [while(1);]. *)
Fixpoint kmalloc_loop (fuel : nat) (needed cur : Z) (m : gmap Z block_header)
  : res (gmap Z block_header * Z) :=
  match fuel with
  | O => NoFuel
  | S fuel =>
      if cur =? 0 then Spin else
      h ← or_fault (m !! cur);
      if truth (is_free h) && (needed <=? size h)
      then Ok (take_block needed cur h m, cur + HDR)
      else kmalloc_loop fuel needed (next h) m
  end.

Definition kmalloc (sz : Z) (st : mm_state) : res (mm_state * Z) :=
  let st := if truth (mm_initialized st) then st else init_mm st in
  r ← kmalloc_loop (mem_fuel (mem st)) (ALIGN sz) heap_start (mem st);
  Ok (mk_mm r.1 (mm_initialized st), r.2).

(** The coalescing loop of [kfree]. *)
Fixpoint coalesce_loop (fuel : nat) (cur : Z) (m : gmap Z block_header)
  : res (gmap Z block_header) :=
  match fuel with
  | O => NoFuel
  | S fuel =>
      if cur =? 0 then Ok m else
      h ← or_fault (m !! cur);
      if negb (next h =? 0) && truth (is_free h) then
        hn ← or_fault (m !! next h);
        if truth (is_free hn) then
          coalesce_loop fuel cur
            (<[cur := mk_header (u32 (size h + (HDR + size hn))) (is_free h) (next hn)]> m)
        else coalesce_loop fuel (next h) m
      else coalesce_loop fuel (next h) m
  end.

Definition kfree (ptr : Z) (st : mm_state) : res mm_state :=
  if ptr =? 0 then Ok st else
  h ← or_fault (mem st !! (ptr - HDR));
  let m := <[ptr - HDR := mk_header (size h) 1 (next h)]> (mem st) in
  m' ← coalesce_loop (mem_fuel m) heap_start m;
  Ok (mk_mm m' (mm_initialized st)).

Definition get_total_memory : Z := 4 * 1024 * 1024.

Fixpoint used_loop (fuel : nat) (cur used_bytes : Z) (m : gmap Z block_header) : res Z :=
  match fuel with
  | O => NoFuel
  | S fuel =>
      if cur =? 0 then Ok used_bytes else
      h ← or_fault (m !! cur);
      let used_bytes := u32 (used_bytes + HDR) in
      let used_bytes := if truth (is_free h) then used_bytes
                        else u32 (used_bytes + size h) in
      used_loop fuel (next h) used_bytes m
  end.

Definition get_used_memory (st : mm_state) : res Z :=
  if truth (mm_initialized st)
  then used_loop (mem_fuel (mem st)) heap_start 0 (mem st)
  else Ok 0.

End Concrete.

(** The state at boot: [mm_initialized = 0], the array in BSS. *)
Definition mm_boot : mm_state := mk_mm ∅ 0.

(** ** The abstract allocator: a list of consecutive blocks *)

Record block := mk_block { baddr : Z; bsize : Z; bfree : bool }.

Definition bend (b : block) : Z := baddr b + HDR + bsize b.

(** First fit over the list. *)
Definition split_block (n : Z) (b : block) : list block :=
  if n + HDR + 8 <=? bsize b
  then [mk_block (baddr b) n false;
        mk_block (baddr b + HDR + n) (bsize b - n - HDR) true]
  else [mk_block (baddr b) (bsize b) false].

Fixpoint a_alloc (n : Z) (l : list block) : option (Z * list block) :=
  match l with
  | [] => None
  | b :: l =>
      if bfree b && (n <=? bsize b) then Some (baddr b + HDR, split_block n b ++ l)
      else match a_alloc n l with
           | Some (p, l') => Some (p, b :: l')
           | None => None
           end
  end.

(** Release the block at address [a]. *)
Definition a_mark (a : Z) (l : list block) : list block :=
  map (fun b => if baddr b =? a then mk_block (baddr b) (bsize b) true else b) l.

(** Merge adjacent free blocks: [a_merge b l] puts [b] in front of the merged [l]. *)
Fixpoint a_merge (b : block) (l : list block) : list block :=
  match l with
  | [] => [b]
  | c :: l =>
      if bfree b && bfree c
      then a_merge (mk_block (baddr b) (bsize b + (HDR + bsize c)) true) l
      else b :: a_merge c l
  end.

Definition a_coalesce (l : list block) : list block :=
  match l with [] => [] | b :: l => a_merge b l end.

Definition a_free (p : Z) (l : list block) : list block :=
  a_coalesce (a_mark (p - HDR) l).

(** Bytes counted as used: every header and every active payload. *)
Definition a_used (l : list block) : Z :=
  foldr (fun b s => HDR + (if bfree b then 0 else bsize b) + s) 0 l.

(** ** The representation invariant *)

(** The [next] chain from address [a] spells out the list [l]. *)
Inductive chain (m : gmap Z block_header) : Z -> list block -> Prop :=
| chain_nil : chain m 0 []
| chain_cons a h l :
    a <> 0 -> m !! a = Some h -> chain m (next h) l ->
    chain m a (mk_block a (size h) (truth (is_free h)) :: l).

(** The blocks of [l] tile the byte range [lo, hi) with no gap and no overlap. *)
Fixpoint tiles (lo hi : Z) (l : list block) : Prop :=
  match l with
  | [] => lo = hi
  | b :: l => baddr b = lo /\ 0 <= bsize b /\ tiles (bend b) hi l
  end.

(** [heap_repr base st l]: the initialised heap [st] is the tiling [l]. *)
Definition heap_repr (base : Z) (st : mm_state) (l : list block) : Prop :=
  truth (mm_initialized st) = true /\
  0 < base /\ base + HEAP_BYTES < 4294967296 /\
  chain (mem st) base l /\ tiles base (base + HEAP_BYTES) l.

(** No two neighbours are both free. *)
Fixpoint no_adjacent_free (l : list block) : Prop :=
  match l with
  | b :: ((c :: _) as l') => (bfree b && bfree c = false) /\ no_adjacent_free l'
  | _ => True
  end.

(** ** Lemmas on tilings and chains *)

Lemma tiles_le lo hi l : tiles lo hi l -> lo <= hi.
Proof.
  revert lo. induction l as [|b l IH]; simpl; intros lo H; [lia|].
  destruct H as (<- & Hs & Ht). apply IH in Ht. unfold bend, HDR in *. lia.
Qed.

Lemma tiles_elem lo hi l b :
  tiles lo hi l -> b ∈ l -> lo <= baddr b /\ 0 <= bsize b /\ bend b <= hi.
Proof.
  revert lo. induction l as [|c l IH]; simpl; intros lo H Hin.
  - by apply not_elem_of_nil in Hin.
  - destruct H as (Ha & Hs & Ht).
    pose proof (tiles_le _ _ _ Ht).
    apply elem_of_cons in Hin as [->|Hin]; [lia|].
    destruct (IH _ Ht Hin) as (? & ? & ?). unfold bend, HDR in *. lia.
Qed.

Lemma tiles_disjoint lo hi l b c :
  tiles lo hi l -> b ∈ l -> c ∈ l -> baddr b <> baddr c ->
  bend b <= baddr c \/ bend c <= baddr b.
Proof.
  revert lo. induction l as [|d l IH]; simpl; intros lo H Hb Hc Hne.
  - by apply not_elem_of_nil in Hb.
  - destruct H as (Ha & Hs & Ht).
    apply elem_of_cons in Hb as [->|Hb]; apply elem_of_cons in Hc as [->|Hc]; [done| | |eauto].
    + destruct (tiles_elem _ _ _ _ Ht Hc). lia.
    + destruct (tiles_elem _ _ _ _ Ht Hb). lia.
Qed.

Lemma tiles_app lo mid hi l l' :
  tiles lo mid l -> tiles mid hi l' -> tiles lo hi (l ++ l').
Proof.
  revert lo. induction l as [|b l IH]; simpl; intros lo H H'; [by subst|].
  destruct H as (? & ? & ?). eauto.
Qed.

Lemma chain_head m a b l : chain m a (b :: l) -> baddr b = a /\ a <> 0.
Proof. intros H. by inversion H. Qed.

(** A chain only depends on the headers at its own addresses. *)
Lemma chain_agree m m' a l :
  (forall b, b ∈ l -> m' !! baddr b = m !! baddr b) -> chain m a l -> chain m' a l.
Proof.
  intros Heq H. induction H as [|a h l Ha Hm Hc IH]; [constructor|].
  constructor; [done| |].
  - rewrite <- Hm. apply (Heq (mk_block a (size h) (truth (is_free h)))). left.
  - apply IH. intros b Hb. apply Heq. by right.
Qed.

Lemma chain_above m m' lo hi a l :
  tiles lo hi l -> (forall x, lo <= x -> m' !! x = m !! x) -> chain m a l -> chain m' a l.
Proof.
  intros Ht Heq. apply chain_agree. intros b Hb. apply Heq.
  by destruct (tiles_elem _ _ _ _ Ht Hb).
Qed.

Lemma chain_dom m a l b : chain m a l -> b ∈ l -> is_Some (m !! baddr b).
Proof.
  induction 1 as [|a h l Ha Hm Hc IH]; intros Hin.
  - by apply not_elem_of_nil in Hin.
  - apply elem_of_cons in Hin as [->|Hin]; [simpl; eauto|eauto].
Qed.

Lemma tiles_NoDup lo hi l : tiles lo hi l -> NoDup (baddr <$> l).
Proof.
  revert lo. induction l as [|b l IH]; simpl; intros lo H; [constructor|].
  destruct H as (Ha & Hs & Ht). constructor; [|eauto].
  intros (c & Hc & Hin)%list_elem_of_fmap.
  destruct (tiles_elem _ _ _ _ Ht Hin). unfold bend, HDR in *. lia.
Qed.

(** The chain is no longer than the store: the loops' fuel is enough. *)
Lemma chain_length m a lo hi l :
  chain m a l -> tiles lo hi l -> (length l < mem_fuel m)%nat.
Proof.
  intros Hc Ht. apply tiles_NoDup in Ht. unfold mem_fuel. apply le_n_S.
  change (map_size m) with (base.size m). rewrite <- size_dom.
  rewrite <- (length_fmap baddr), <- (size_list_to_set (C:=gset Z)) by done.
  apply subseteq_size. intros x Hx.
  apply elem_of_list_to_set, list_elem_of_fmap in Hx as (b & -> & Hb).
  apply elem_of_dom. by eapply chain_dom.
Qed.

(** ** [kmalloc] *)

Lemma ALIGN_spec sz :
  0 <= sz <= 4294967288 -> ALIGN sz = 8 * ((sz + 7) / 8).
Proof.
  intros H. unfold ALIGN. rewrite u32_small by lia.
  change 4294967288 with (2 ^ 32 - 2 ^ 3). apply (land_clear_low _ 3 32); lia.
Qed.

Lemma ALIGN_ge sz : 0 <= sz <= 4294967288 -> sz <= ALIGN sz < sz + 8.
Proof. intros H. rewrite ALIGN_spec by lia. dlia. Qed.

(** What [ALIGN] makes of a 32-bit size: rounded up to a multiple of 8, but 0
    for the last seven values, which wrap. *)
Definition granted (sz : Z) : Z := if sz <=? 4294967288 then 8 * ((sz + 7) / 8) else 0.

Lemma ALIGN_granted sz : 0 <= sz < 4294967296 -> ALIGN sz = granted sz /\ 0 <= granted sz <= 4294967288 /\ (sz <= 4294967288 -> sz <= granted sz < sz + 8).
Proof.
  intros H. unfold granted. destruct (Z.leb_spec sz 4294967288) as [Hs|Hs]; [rewrite ALIGN_spec by lia; split; [done|dlia]|].
  split; [|lia]. unfold ALIGN. assert (u32 (sz + 7) = sz + 7 - 4294967296) as -> by (unfold u32, wrap; change (2 ^ 32) with 4294967296; symmetry; apply Z.mod_unique with 1; lia).
  change 4294967288 with (2 ^ 32 - 2 ^ 3). rewrite (land_clear_low _ 3 32) by (try split; try done; lia).
  rewrite (Z.div_small (sz + 7 - 4294967296)) by (change (2 ^ 3) with 8; lia). done.
Qed.

Lemma take_block_chain n a h m lo hi l :
  a <> 0 -> m !! a = Some h -> chain m (next h) l -> a = lo ->
  tiles (lo + HDR + size h) hi l -> hi - lo <= HEAP_BYTES ->
  0 < lo -> 0 <= n <= size h ->
  let b := mk_block a (size h) true in
  chain (take_block n a h m) a (split_block n b ++ l) /\
  (forall x, x < lo -> take_block n a h m !! x = m !! x).
Proof.
  intros Ha Hm Hc -> Ht Hhi Hlo Hn b. unfold take_block, split_block, HDR, HEAP_BYTES in *.
  pose proof (tiles_le _ _ _ Ht). rewrite u32_small by lia. simpl.
  destruct (Z.leb_spec (n + 12 + 8) (size h)); simpl.
  - rewrite u32_small by lia. split.
    + set (h1 := mk_header n 0 (lo + 12 + n)).
      set (h2 := mk_header (size h - n - 12) 1 (next h)).
      apply (chain_cons _ lo h1); [done|by rewrite lookup_insert_eq|].
      apply (chain_cons _ (lo + 12 + n) h2); [lia| |].
      * rewrite lookup_insert_ne by lia. by rewrite lookup_insert_eq.
      * eapply chain_above; [exact Ht| |exact Hc].
        intros x Hx. by rewrite !lookup_insert_ne by lia.
    + intros x Hx. by rewrite !lookup_insert_ne by lia.
  - split.
    + apply (chain_cons _ lo (mk_header (size h) 0 (next h))); [done|by rewrite lookup_insert_eq|].
      eapply chain_above; [exact Ht| |exact Hc].
      intros x Hx. by rewrite lookup_insert_ne by lia.
    + intros x Hx. by rewrite lookup_insert_ne by lia.
Qed.

(** What the search loop does to a chain, on both outcomes. *)
Definition malloc_outcome (m : gmap Z block_header) (a lo n : Z) (l : list block)
  (r : res (gmap Z block_header * Z)) : Prop :=
  match a_alloc n l with
  | None => r = Spin
  | Some (p, l') =>
      exists m', r = Ok (m', p) /\ chain m' a l' /\ (forall x, x < lo -> m' !! x = m !! x)
  end.

Lemma kmalloc_loop_refines fuel m a lo hi l n :
  chain m a l -> tiles lo hi l -> 0 < lo -> hi - lo <= HEAP_BYTES -> 0 <= n ->
  (length l < fuel)%nat ->
  malloc_outcome m a lo n l (kmalloc_loop fuel n a m).
Proof.
  intros Hc. revert fuel lo. unfold malloc_outcome.
  induction Hc as [|a h l Ha Hm Hc IH]; intros fuel lo Ht Hlo Hhi Hn Hf;
    destruct fuel as [|fuel]; simpl in *; try lia; [done|].
  destruct Ht as (-> & Hs & Ht).
  destruct (Z.eqb_spec lo 0) as [->|_]; [done|]. rewrite Hm. simpl.
  destruct (truth (is_free h) && (n <=? size h)) eqn:Hfit.
  - apply andb_true_iff in Hfit as [Hfr Hle]. apply Z.leb_le in Hle. rewrite Hfr.
    destruct (take_block_chain n lo h m lo hi l) as [Hc' Hag]; try done.
    eexists. split; [done|]. split; [exact Hc'|exact Hag].
  - unfold bend, HDR in Ht; simpl in Ht.
    specialize (IH fuel (lo + 12 + size h) Ht ltac:(lia) ltac:(lia) Hn ltac:(lia)).
    destruct (a_alloc n l) as [[p l']|]; [|done].
    destruct IH as (m' & -> & Hc' & Hag). exists m'. split; [done|]. split.
    + constructor; [done| |done]. rewrite Hag by lia. done.
    + intros x Hx. apply Hag. lia.
Qed.

Lemma split_block_tiles n b hi l :
  bfree b = true -> 0 <= n <= bsize b -> tiles (bend b) hi l ->
  tiles (baddr b) hi (split_block n b ++ l).
Proof.
  intros Hf Hn Ht. unfold split_block. zcases; simpl.
  - unfold bend, HDR in *; simpl in *.
    replace (baddr b + 12 + n + 12 + (bsize b - n - 12)) with (baddr b + 12 + bsize b) by lia.
    repeat split; try lia. done.
  - unfold bend in *; simpl. repeat split; try lia. done.
Qed.

Lemma a_alloc_tiles n lo hi l p l' :
  tiles lo hi l -> 0 <= n -> a_alloc n l = Some (p, l') -> tiles lo hi l'.
Proof.
  intros Ht Hn. revert lo l' Ht.
  induction l as [|b l IH]; simpl; intros lo l' Ht H; [done|].
  destruct Ht as (<- & Hs & Ht).
  destruct (bfree b && (n <=? bsize b)) eqn:Hfit.
  - apply andb_true_iff in Hfit as [Hfr Hle]. apply Z.leb_le in Hle.
    injection H as <- <-. by apply split_block_tiles.
  - destruct (a_alloc n l) as [[q l1]|]; [|done]. injection H as <- <-.
    simpl. split; [done|]. split; [done|]. by apply IH.
Qed.

(** The block handed out, and the blocks left alone. *)
Lemma a_alloc_new n l p l' :
  0 <= n -> a_alloc n l = Some (p, l') ->
  exists b, b ∈ l' /\ baddr b + HDR = p /\ bfree b = false /\ n <= bsize b /\
    (exists c, c ∈ l /\ baddr c = baddr b /\ bfree c = true) /\
    (forall c, c ∈ l' -> bfree c = false -> c = b \/ c ∈ l) /\
    (forall c, c ∈ l -> bfree c = false -> c ∈ l').
Proof.
  intros Hn. revert l'. induction l as [|d l IH]; simpl; intros l' H; [done|].
  destruct (bfree d && (n <=? bsize d)) eqn:Hfit.
  - apply andb_true_iff in Hfit as [Hfr Hle]. apply Z.leb_le in Hle.
    injection H as <- <-. unfold split_block.
    destruct (Z.leb_spec (n + HDR + 8) (bsize d)); simpl; eexists; (split; [left|]); simpl.
    all: split; [done|]. all: split; [done|]. all: split; [lia|].
    all: split; [exists d; split; [left|done]|].
    all: split; intros c Hc Hcf; rewrite !elem_of_cons in Hc; rewrite ?elem_of_cons;
      repeat destruct Hc as [->|Hc]; simpl in *; try discriminate; try congruence; tauto.
  - destruct (a_alloc n l) as [[q l1]|]; [|done]. injection H as <- <-.
    destruct (IH _ eq_refl) as (b & Hb & Hp & Hbf & Hsz & (c & Hc & Hca & Hcf) & Hold & Hkeep).
    exists b. split; [by right|]. repeat (split; [done|]).
    split; [exists c; split; [by right|done]|]. split.
    + intros e He Hef. apply elem_of_cons in He as [->|He]; [right; left|].
      destruct (Hold _ He Hef); [by left|right; by right].
    + intros e He Hef. apply elem_of_cons in He as [->|He]; [left|right; auto].
Qed.

Lemma kmalloc_refines_all base st l sz :
  heap_repr base st l -> 0 <= sz < 4294967296 ->
  match a_alloc (granted sz) l with
  | None => kmalloc base sz st = Spin
  | Some (p, l') => exists st', kmalloc base sz st = Ok (st', p) /\ heap_repr base st' l'
  end.
Proof.
  intros (Hi & Hb & Hlt & Hc & Ht) Hsz. unfold kmalloc. rewrite Hi.
  destruct (ALIGN_granted sz Hsz) as (-> & Hg & _).
  pose proof (kmalloc_loop_refines (mem_fuel (mem st)) _ _ _ _ _ (granted sz)
                Hc Ht Hb ltac:(lia) ltac:(lia)) as Hout.
  pose proof (chain_length _ _ _ _ _ Hc Ht).
  specialize (Hout ltac:(lia)). unfold malloc_outcome in Hout. unfold heap_start.
  destruct (a_alloc (granted sz) l) as [[p l']|] eqn:Ha; [|by rewrite Hout].
  destruct Hout as (m' & -> & Hc' & _). simpl. eexists. split; [done|].
  split; [done|]. split; [done|]. split; [done|]. split; [done|].
  eapply a_alloc_tiles; [exact Ht| |exact Ha]. lia.
Qed.

(** The same for the sizes that do not wrap. *)
Lemma kmalloc_refines_aux base st l sz :
  heap_repr base st l -> 0 <= sz <= 4294967288 ->
  match a_alloc (ALIGN sz) l with
  | None => kmalloc base sz st = Spin
  | Some (p, l') => exists st', kmalloc base sz st = Ok (st', p) /\ heap_repr base st' l'
  end.
Proof. intros Hr Hsz. destruct (ALIGN_granted sz ltac:(lia)) as [-> _]. apply kmalloc_refines_all; [done|lia]. Qed.

(** The first allocation initialises the heap to one free block. *)
Lemma init_mm_repr base st :
  0 < base -> base + HEAP_BYTES < 4294967296 ->
  heap_repr base (init_mm base st) [mk_block base (HEAP_BYTES - HDR) true].
Proof.
  intros Hb Hlt. unfold init_mm, heap_start, HEAP_BYTES, HDR in *.
  split; [done|]. split; [done|]. split; [done|]. split.
  - apply (chain_cons _ base (mk_header (4 * 1024 * 1024 - 12) 1 0)); [lia| |constructor].
    apply lookup_insert_eq.
  - cbn [tiles]. unfold bend, HDR, HEAP_BYTES. cbn [baddr bsize]. lia.
Qed.

(** ** [kfree] *)

Lemma chain_mark m a l x h :
  chain m a l -> m !! x = Some h ->
  chain (<[x := mk_header (size h) 1 (next h)]> m) a (a_mark x l).
Proof.
  intros Hc Hx. induction Hc as [|a h' l Ha Hm Hc IH]; simpl; [constructor|].
  destruct (Z.eqb_spec a x) as [->|Hne].
  - assert (h' = h) as -> by congruence.
    apply (chain_cons _ x (mk_header (size h) 1 (next h))); [done|apply lookup_insert_eq|done].
  - apply chain_cons; [done| |done]. by rewrite lookup_insert_ne.
Qed.

Lemma a_mark_tiles lo hi x l : tiles lo hi l -> tiles lo hi (a_mark x l).
Proof.
  revert lo. induction l as [|b l IH]; simpl; intros lo H; [done|].
  destruct H as (? & ? & ?). destruct (baddr b =? x); simpl; eauto.
Qed.

Lemma a_merge_tiles lo hi b l : tiles lo hi (b :: l) -> tiles lo hi (a_merge b l).
Proof.
  revert lo b. induction l as [|c l IH]; intros lo b H; simpl; [done|].
  destruct H as (Ha & Hs & Hca & Hcs & Ht).
  destruct (bfree b && bfree c).
  - apply IH. simpl. unfold bend, HDR in *. simpl. split; [done|]. split; [lia|].
    replace (baddr b + 12 + (bsize b + (12 + bsize c))) with (baddr c + 12 + bsize c) by lia.
    done.
  - split; [done|]. split; [done|]. apply IH. split; [done|]. split; done.
Qed.

Lemma coalesce_loop_refines fuel m a lo hi b l :
  chain m a (b :: l) -> tiles lo hi (b :: l) -> 0 < lo -> hi - lo <= HEAP_BYTES ->
  (S (length l) < fuel)%nat ->
  exists m', coalesce_loop fuel a m = Ok m' /\ chain m' a (a_merge b l) /\
    (forall x, x < lo -> m' !! x = m !! x).
Proof.
  revert fuel m a lo b. induction l as [|c l IH]; intros fuel m a lo b Hc Ht Hlo Hhi Hf;
    (destruct fuel as [|fuel]; [simpl in *; lia|]);
    inversion Hc as [|? h ? Ha Hm Hc' Heq1 Heq2]; subst; simpl.
  - inversion Hc'; subst. destruct (Z.eqb_spec a 0); [done|]. rewrite Hm. simpl.
    replace (next h) with 0 by done. simpl.
    destruct fuel as [|fuel]; [simpl in *; lia|]. simpl. eauto.
  - destruct Ht as (Hba & Hs & Hca & Hcs & Ht). simpl in Hba, Hs. subst a.
    destruct (Z.eqb_spec lo 0); [lia|]. rewrite Hm. simpl.
    inversion Hc' as [|? hn ? Hna Hnm Hnc Heq1 Heq2]; subst.
    destruct (Z.eqb_spec (next h) 0); [done|]. simpl.
    unfold bend, HDR, HEAP_BYTES in *. simpl in *.
    pose proof (tiles_le _ _ _ Ht).
    destruct (truth (is_free h)) eqn:Hfr; simpl.
    + rewrite Hnm. simpl. destruct (truth (is_free hn)) eqn:Hnfr.
      * rewrite u32_small by lia.
        set (h' := mk_header (size h + (12 + size hn)) (is_free h) (next hn)).
        set (b' := mk_block lo (size h + (12 + size hn)) true).
        destruct (IH fuel (<[lo := h']> m) lo lo b') as (m' & Hr & Hch & Hag); try lia.
        { unfold b'. rewrite <- Hfr.
          apply (chain_cons _ lo h'); [done|apply lookup_insert_eq|].
          eapply chain_above; [exact Ht| |exact Hnc].
          intros x Hx. rewrite lookup_insert_ne by lia. done. }
        { unfold b'. simpl. unfold bend, HDR. simpl. split; [done|]. split; [lia|].
          replace (lo + 12 + (size h + (12 + size hn))) with (next h + 12 + size hn) by lia.
          done. }
        exists m'. split; [done|]. split; [exact Hch|].
        intros x Hx. rewrite Hag by lia. rewrite lookup_insert_ne by lia. done.
      * destruct (IH fuel m (next h) (next h) (mk_block (next h) (size hn) false))
          as (m' & Hr & Hch & Hag); try lia.
        { rewrite <- Hnfr. by constructor. }
        { simpl. unfold bend, HDR. simpl. done. }
        exists m'. split; [done|]. split; [|intros x Hx; apply Hag; lia].
        rewrite <- Hfr. constructor; [done| |done]. rewrite Hag by lia. done.
    + destruct (IH fuel m (next h) (next h) (mk_block (next h) (size hn) (truth (is_free hn))))
        as (m' & Hr & Hch & Hag); try lia.
      { by constructor. }
      { simpl. unfold bend, HDR. simpl. done. }
      exists m'. split; [done|]. split; [|intros x Hx; apply Hag; lia].
      rewrite <- Hfr. constructor; [done| |done]. rewrite Hag by lia. done.
Qed.

Lemma kfree_refines_aux base st l b :
  heap_repr base st l -> b ∈ l ->
  exists st', kfree base (baddr b + HDR) st = Ok st' /\
    heap_repr base st' (a_free (baddr b + HDR) l).
Proof.
  intros (Hi & Hb & Hlt & Hc & Ht) Hin.
  destruct (tiles_elem _ _ _ _ Ht Hin) as (Hlo & _ & _).
  destruct (chain_dom _ _ _ _ Hc Hin) as [h Hh].
  unfold kfree, a_free. replace (baddr b + HDR - HDR) with (baddr b) by lia.
  destruct (Z.eqb_spec (baddr b + HDR) 0); [unfold HDR in *; lia|].
  rewrite Hh. cbn [or_fault]. rewrite bind_Ok. cbv zeta.
  pose proof (chain_mark _ _ _ _ _ Hc Hh) as Hcm.
  pose proof (a_mark_tiles _ _ (baddr b) _ Ht) as Htm.
  pose proof (chain_length _ _ _ _ _ Hcm Htm) as Hlen.
  destruct (a_mark (baddr b) l) as [|c l'] eqn:Hml.
  { destruct l; [by apply not_elem_of_nil in Hin|done]. }
  edestruct (coalesce_loop_refines (mem_fuel (<[baddr b:=mk_header (size h) 1 (next h)]> (mem st))))
    as (m' & Hr & Hc' & _); [exact Hcm|exact Htm|lia|lia|simpl in Hlen; lia|].
  unfold heap_start. rewrite Hr, bind_Ok. eexists. split; [done|].
  split; [done|]. split; [done|]. split; [done|]. split; [done|].
  by apply a_merge_tiles.
Qed.

(** ** Coalescing *)

Lemma a_merge_head b l : exists s l', a_merge b l = mk_block (baddr b) s (bfree b) :: l'.
Proof.
  revert b. induction l as [|c l IH]; intros b; simpl; [by destruct b; eauto|].
  destruct (bfree b && bfree c) eqn:H.
  - apply andb_true_iff in H as [-> _]. apply (IH (mk_block _ _ true)).
  - destruct b; eauto.
Qed.

Lemma a_merge_no_adjacent b l : no_adjacent_free (a_merge b l).
Proof.
  revert b. induction l as [|c l IH]; intros b; simpl; [done|].
  destruct (bfree b && bfree c) eqn:H; [apply IH|].
  specialize (IH c). destruct (a_merge_head c l) as (s & l' & E).
  rewrite E in IH |- *. split; [exact H|exact IH].
Qed.

Lemma a_merge_keeps b l c : c ∈ b :: l -> bfree c = false -> c ∈ a_merge b l.
Proof.
  revert b. induction l as [|d l IH]; intros b Hin Hf; simpl; [done|].
  apply elem_of_cons in Hin as [->|Hin]; [rewrite Hf; left|].
  destruct (bfree b && bfree d) eqn:H; [|right; by apply IH].
  apply andb_true_iff in H as [_ Hd].
  apply elem_of_cons in Hin as [->|Hin]; [congruence|]. apply IH; [by right|done].
Qed.

Lemma a_merge_no_new b l c : c ∈ a_merge b l -> bfree c = false -> c ∈ b :: l.
Proof.
  revert b. induction l as [|d l IH]; intros b Hin Hf; simpl in *; [done|].
  destruct (bfree b && bfree d) eqn:H.
  - apply IH in Hin; [|done]. apply elem_of_cons in Hin as [->|Hin]; [done|].
    right. by right.
  - apply elem_of_cons in Hin as [->|Hin]; [left|]. right. by apply IH.
Qed.

Lemma a_mark_spec x l c :
  c ∈ a_mark x l <-> exists b, b ∈ l /\
    c = if baddr b =? x then mk_block (baddr b) (bsize b) true else b.
Proof.
  unfold a_mark. rewrite list_elem_of_In, in_map_iff.
  split; intros (b & H1 & H2); exists b; rewrite ?list_elem_of_In in *; done.
Qed.

(** The active blocks after [kfree]: all others. *)
Lemma a_free_active p l c :
  bfree c = false ->
  c ∈ a_free p l <-> c ∈ l /\ baddr c <> p - HDR.
Proof.
  intros Hf. unfold a_free, a_coalesce.
  assert (c ∈ a_mark (p - HDR) l <-> c ∈ l /\ baddr c <> p - HDR) as Hm.
  { rewrite a_mark_spec. split.
    - intros (b & Hb & ->). destruct (Z.eqb_spec (baddr b) (p - HDR)); done.
    - intros [Hc Hne]. exists c. split; [done|].
      destruct (Z.eqb_spec (baddr c) (p - HDR)); done. }
  rewrite <- Hm. destruct (a_mark (p - HDR) l) as [|b l']; [done|].
  split; [intros; by apply a_merge_no_new|intros; by apply a_merge_keeps].
Qed.

Lemma a_merge_id b l : no_adjacent_free (b :: l) -> a_merge b l = b :: l.
Proof.
  revert b. induction l as [|c l IH]; intros b H; simpl; [done|].
  destruct H as [-> H]. by rewrite IH.
Qed.

Lemma a_merge_cons b c l :
  bfree b && bfree c = false -> a_merge b (c :: l) = b :: a_coalesce (c :: l).
Proof. intros H. simpl. by rewrite H. Qed.

Lemma a_mark_absent x l : (forall b, b ∈ l -> baddr b <> x) -> a_mark x l = l.
Proof.
  induction l as [|b l IH]; simpl; intros H; [done|].
  destruct (Z.eqb_spec (baddr b) x) as [E|_].
  - destruct (H b); [left|done].
  - f_equal. apply IH. intros c Hc. apply H. by right.
Qed.

(** Releasing what was just allocated gives the block list back. *)
Lemma a_alloc_free n lo hi l p l' :
  tiles lo hi l -> 0 <= n -> no_adjacent_free l -> a_alloc n l = Some (p, l') ->
  a_free p l' = l /\
  (head (a_mark (p - HDR) l') ≫= Some ∘ bfree) = (head l ≫= Some ∘ bfree).
Proof.
  intros Ht Hn. revert lo p l' Ht.
  induction l as [|b l IH]; simpl; intros lo p l' Ht Hna H; [done|].
  destruct Ht as (Ha & Hs & Ht).
  destruct (bfree b && (n <=? bsize b)) eqn:Hfit.
  - apply andb_true_iff in Hfit as [Hfr Hle]. apply Z.leb_le in Hle.
    injection H as <- <-. unfold a_free.
    replace (baddr b + HDR - HDR) with (baddr b) by lia.
    assert (a_mark (baddr b) l = l) as Hml.
    { apply a_mark_absent. intros c Hc.
      destruct (tiles_elem _ _ _ _ Ht Hc). unfold bend, HDR in *. lia. }
    unfold split_block, HDR. destruct b as [ba bs bf]; simpl in *; subst bf.
    destruct (Z.leb_spec (n + 12 + 8) bs); simpl; rewrite Z.eqb_refl; simpl.
    + destruct (Z.eqb_spec (ba + 12 + n) ba); [lia|]. simpl. rewrite Hml.
      replace (n + (HDR + (bs - n - 12))) with bs by (unfold HDR; lia). split; [|done].
      by apply a_merge_id.
    + rewrite Hml. split; [|done]. by apply a_merge_id.
  - destruct (a_alloc n l) as [[q l1]|] eqn:Hal; [|done]. injection H as <- <-.
    assert (no_adjacent_free l) as Hnl by (destruct l; [done|apply Hna]).
    destruct (IH _ _ _ Ht Hnl eq_refl) as [Hfree Hhead].
    destruct (a_alloc_new _ _ _ _ Hn Hal) as (x & _ & Hp & _ & _ & (c & Hc & Hca & _) & _ & _).
    destruct (tiles_elem _ _ _ _ Ht Hc).
    unfold a_free. simpl. destruct (Z.eqb_spec (baddr b) (q - HDR)) as [E|_].
    { unfold bend, HDR in *. lia. }
    simpl. split; [|done]. unfold a_free in Hfree.
    destruct l as [|d l]; [done|].
    destruct (a_mark (q - HDR) l1) as [|e l2]; [done|]. simpl in Hhead.
    injection Hhead as Hhead.
    rewrite a_merge_cons by (rewrite Hhead; apply Hna). by rewrite Hfree.
Qed.

(** ** Accounting *)

Definition a_free_bytes (l : list block) : Z :=
  foldr (fun b s => (if bfree b then bsize b else 0) + s) 0 l.

Lemma used_plus_free lo hi l :
  tiles lo hi l -> a_used l + a_free_bytes l = hi - lo /\ 0 <= a_used l <= hi - lo.
Proof.
  revert lo. induction l as [|b l IH]; simpl; intros lo H; [lia|].
  destruct H as (<- & Hs & Ht). destruct (IH _ Ht). unfold bend, HDR in *.
  destruct (bfree b); lia.
Qed.

Lemma used_loop_spec fuel m a lo hi l acc :
  chain m a l -> tiles lo hi l -> 0 <= acc -> acc + (hi - lo) <= HEAP_BYTES ->
  (length l < fuel)%nat ->
  used_loop fuel a acc m = Ok (acc + a_used l).
Proof.
  intros Hc. revert fuel lo acc. unfold HEAP_BYTES.
  induction Hc as [|a h l Ha Hm Hc IH]; intros fuel lo acc Ht Hacc Hle Hf;
    destruct fuel as [|fuel]; simpl in *; try lia.
  - f_equal. lia.
  - destruct Ht as (-> & Hs & Ht). destruct (Z.eqb_spec lo 0); [done|].
    rewrite Hm. simpl. pose proof (tiles_le _ _ _ Ht). unfold bend, HDR in *; simpl in *.
    rewrite (u32_small (acc + 12)) by lia.
    destruct (truth (is_free h)); [|rewrite (u32_small (acc + 12 + size h)) by lia].
    all: erewrite IH; [|exact Ht|lia|lia|lia]; f_equal; unfold a_used, HDR; simpl; lia.
Qed.

(** The walk over the whole heap. *)
Lemma used_memory_aux base st l :
  heap_repr base st l ->
  get_used_memory base st = Ok (a_used l) /\
  a_used l + a_free_bytes l = get_total_memory.
Proof.
  intros (Hi & Hb & Hlt & Hc & Ht). unfold get_used_memory. rewrite Hi.
  destruct (used_plus_free _ _ _ Ht) as [Hsum Hle].
  pose proof (chain_length _ _ _ _ _ Hc Ht).
  unfold heap_start. split; [|unfold get_total_memory, HEAP_BYTES in *; lia].
  rewrite (used_loop_spec _ _ _ _ _ _ _ Hc Ht); [f_equal; lia|lia|lia|lia].
Qed.

(** ** Histories of allocations and releases *)

(** [reach base st live]: [st] is the heap after some history of [kmalloc]
    calls of any 32-bit sizes and of [kfree] calls on pointers obtained from [kmalloc] and not yet released; [live] maps each
    such pointer to its requested size. *)
Inductive reach (base : Z) : mm_state -> gmap Z Z -> Prop :=
| reach_boot : reach base mm_boot ∅
| reach_malloc st live sz st' p :
    reach base st live -> 0 <= sz < 4294967296 ->
    kmalloc base sz st = Ok (st', p) -> reach base st' (<[p := sz]> live)
| reach_free st live p st' :
    reach base st live -> is_Some (live !! p) ->
    kfree base p st = Ok st' -> reach base st' (delete p live).

(** The invariant of every history. *)
Definition live_ok (l : list block) (live : gmap Z Z) : Prop :=
  forall p sz, live !! p = Some sz ->
    exists b, b ∈ l /\ baddr b + HDR = p /\ bfree b = false /\ 0 <= sz < 4294967296 /\ granted sz <= bsize b.

Definition hist_ok (base : Z) (st : mm_state) (live : gmap Z Z) : Prop :=
  (truth (mm_initialized st) = false /\ live = ∅) \/
  exists l, heap_repr base st l /\ no_adjacent_free l /\ live_ok l live.

Lemma split_no_adjacent n b l :
  bfree b = true -> no_adjacent_free (b :: l) -> no_adjacent_free (split_block n b ++ l).
Proof.
  intros Hf H. unfold split_block. destruct l as [|c l]; zcases; simpl in *; try done;
    rewrite Hf in H; naive_solver.
Qed.

Lemma a_alloc_no_adjacent n l p l' :
  no_adjacent_free l -> a_alloc n l = Some (p, l') ->
  no_adjacent_free l' /\ (forall b, head l' = Some b -> bfree b = true ->
    exists c, head l = Some c /\ bfree c = true).
Proof.
  revert l'. induction l as [|b l IH]; simpl; intros l' Hna H; [done|].
  destruct (bfree b && (n <=? bsize b)) eqn:Hfit.
  - apply andb_true_iff in Hfit as [Hfr _]. injection H as <- <-.
    split; [by apply split_no_adjacent|]. intros c Hc Hcf.
    unfold split_block in Hc. destruct (n + HDR + 8 <=? bsize b); simpl in Hc;
      injection Hc as <-; done.
  - destruct (a_alloc n l) as [[q l1]|] eqn:Hal; [|done]. injection H as <- <-.
    assert (no_adjacent_free l) as Hnl by (destruct l; [done|apply Hna]).
    destruct (IH _ Hnl eq_refl) as [H1 Hh]. split; [|intros c Hc ?; injection Hc as <-; eauto].
    destruct l1 as [|c l1]; [done|]. simpl. split; [|done].
    destruct (bfree b) eqn:Hb, (bfree c) eqn:Hc; try done. simpl.
    destruct (Hh c eq_refl Hc) as (d & Hd & Hdf). destruct l; [done|].
    injection Hd as ->. destruct Hna as [Hbd _]. rewrite Hdf in Hbd. done.
Qed.

Lemma kmalloc_boot base sz st :
  truth (mm_initialized st) = false ->
  kmalloc base sz st = kmalloc base sz (init_mm base st).
Proof. intros H. unfold kmalloc. rewrite H. done. Qed.

Lemma hist_ok_malloc base st l live sz st' p :
  heap_repr base st l -> no_adjacent_free l -> live_ok l live ->
  0 <= sz < 4294967296 -> kmalloc base sz st = Ok (st', p) ->
  hist_ok base st' (<[p := sz]> live).
Proof.
  intros Hr Hna Hl Hsz Hk. right.
  pose proof (kmalloc_refines_all base st l sz Hr Hsz) as Href.
  destruct (ALIGN_granted sz Hsz) as (_ & Hg & _).
  destruct (a_alloc (granted sz) l) as [[q l']|] eqn:Ha; [|congruence].
  destruct Href as (st1 & Hk1 & Hr1). rewrite Hk in Hk1. injection Hk1 as <- <-.
  exists l'. split; [done|]. split; [by eapply a_alloc_no_adjacent|].
  destruct (a_alloc_new (granted sz) _ _ _ ltac:(lia) Ha) as (b & Hb & Hp & Hbf & Hbs & _ & _ & Hkeep).
  intros q s Hq. apply lookup_insert_Some in Hq as [[<- <-]|[Hne Hq]].
  - exists b. split; [done|]. split; [done|]. split; [done|]. lia.
  - destruct (Hl _ _ Hq) as (c & Hc & ? & ? & ?). exists c. auto.
Qed.

Lemma hist_ok_step base st live :
  0 < base -> base + HEAP_BYTES < 4294967296 -> reach base st live -> hist_ok base st live.
Proof.
  intros Hb Hlt. induction 1 as [|st live sz st' p Hr IH Hsz Hk|st live p st' Hr IH Hp Hk].
  - by left.
  - destruct IH as [[Hi ->]|(l & Hrep & Hna & Hl)]; [|by eapply hist_ok_malloc].
    rewrite kmalloc_boot in Hk by done.
    eapply hist_ok_malloc; [by apply init_mm_repr|done| |done|done].
    intros q s Hq. by apply lookup_empty_Some in Hq.
  - destruct IH as [[Hi ->]|(l & Hrep & Hna & Hl)]; [by destruct Hp|].
    destruct Hp as [s Hs]. destruct (Hl _ _ Hs) as (b & Hbin & <- & Hbf & _).
    destruct (kfree_refines_aux _ _ _ _ Hrep Hbin) as (st1 & Hk1 & Hrep1).
    rewrite Hk in Hk1. injection Hk1 as <-. right. eexists. split; [exact Hrep1|].
    split.
    + unfold a_free, a_coalesce. destruct (a_mark _ l); [done|]. apply a_merge_no_adjacent.
    + intros q t Hq. apply lookup_delete_Some in Hq as [Hne Hq].
      destruct (Hl _ _ Hq) as (c & Hc & <- & Hcf & Hcs). exists c.
      split; [|done]. apply a_free_active; [done|]. split; [done|]. lia.
Qed.

(** ** Properties *)

(** C1: on every heap that represents a block list and for every 32-bit size,
    [kmalloc] behaves as the abstract first-fit allocator asked for the
    granted size: the requested size rounded up to a multiple of 8 if it is at
    most 0xFFFFFFF8, and 0 for the seven larger values, whose rounding wraps.
    It returns the pointer and the heap the abstract allocator returns, and
    enters the out-of-memory [while(1);] exactly when no free block has the
    granted size; it never faults and never loops for another reason. *)
Theorem kmalloc_refines base st l sz :
  heap_repr base st l -> 0 <= sz < 4294967296 ->
  match a_alloc (granted sz) l with
  | None => kmalloc base sz st = Spin
  | Some (p, l') => exists st', kmalloc base sz st = Ok (st', p) /\ heap_repr base st' l'
  end.
Proof. apply kmalloc_refines_all. Qed.

(** C3: [kfree] of a block's pointer terminates without a fault, yields the
    abstract release-and-coalesce of the block list, and leaves no two
    adjacent free blocks. *)
Theorem kfree_refines base st l b :
  heap_repr base st l -> b ∈ l ->
  exists st', kfree base (baddr b + HDR) st = Ok st' /\
    heap_repr base st' (a_free (baddr b + HDR) l) /\
    no_adjacent_free (a_free (baddr b + HDR) l).
Proof.
  intros Hr Hb. destruct (kfree_refines_aux _ _ _ _ Hr Hb) as (st' & Hk & Hr').
  exists st'. split; [done|]. split; [done|].
  unfold a_free, a_coalesce. destruct (a_mark _ l); [done|]. apply a_merge_no_adjacent.
Qed.

(** C2: after any history of [kmalloc] calls, of any 32-bit sizes, and [kfree]
    calls, the granted bytes of every live pointer lie inside
    [kernel_heap_space], those of two live pointers are disjoint, none covers
    the block header in front of another one, and releasing any live pointer
    succeeds. The granted bytes are at least the requested ones for requests
    of at most 0xFFFFFFF8 bytes; a larger request (whose rounding wraps) is
    granted nothing. *)
Theorem heap_history_safe base st live p sz :
  0 < base -> base + HEAP_BYTES < 4294967296 ->
  reach base st live -> live !! p = Some sz ->
  (sz <= 4294967288 -> sz <= granted sz) /\
  base + HDR <= p /\ p + granted sz <= base + HEAP_BYTES /\
  (forall q sq, live !! q = Some sq -> q <> p -> p + granted sz <= q - HDR \/ q + granted sq <= p - HDR) /\
  exists st', kfree base p st = Ok st'.
Proof.
  intros Hb Hlt Hr Hp.
  destruct (hist_ok_step _ _ _ Hb Hlt Hr) as [[_ ->]|(l & Hrep & _ & Hl)]; [done|].
  destruct (Hl _ _ Hp) as (b & Hbin & <- & Hbf & Hsz & Hbs). destruct (ALIGN_granted sz Hsz) as (_ & Hg & Hge).
  pose proof Hrep as (_ & _ & _ & _ & Ht).
  destruct (tiles_elem _ _ _ _ Ht Hbin) as (? & ? & ?).
  split; [intros; lia|]. split; [lia|]. split; [unfold bend in *; lia|]. split.
  - intros q sq Hq Hne. destruct (Hl _ _ Hq) as (c & Hcin & <- & _ & _ & Hcs).
    destruct (tiles_disjoint _ _ _ b c Ht Hbin Hcin ltac:(lia));
      unfold bend, HDR in *; [left|right]; lia.
  - destruct (kfree_refines_aux _ _ _ _ Hrep Hbin) as (st' & Hk & _). eauto.
Qed.

(** Releasing the pointer that [kmalloc] has just returned restores the
    block list the heap had before the allocation: no memory leaks and no
    fragmentation remains. *)
Theorem kmalloc_kfree_roundtrip base st l sz st' p :
  heap_repr base st l -> no_adjacent_free l -> 0 <= sz <= 4294967288 ->
  kmalloc base sz st = Ok (st', p) ->
  exists st'', kfree base p st' = Ok st'' /\ heap_repr base st'' l.
Proof.
  intros Hr Hna Hsz Hk. pose proof (kmalloc_refines_aux _ _ _ _ Hr Hsz) as Href.
  pose proof (ALIGN_ge sz Hsz). pose proof Hr as (_ & _ & _ & _ & Ht).
  destruct (a_alloc (ALIGN sz) l) as [[q l']|] eqn:Ha; [|congruence].
  destruct Href as (st1 & Hk1 & Hr1). rewrite Hk in Hk1. injection Hk1 as <- <-.
  destruct (a_alloc_new (ALIGN sz) _ _ _ ltac:(lia) Ha) as (b & Hb & <- & _).
  destruct (kfree_refines_aux _ _ _ _ Hr1 Hb) as (st2 & Hk2 & Hr2).
  exists st2. split; [done|].
  destruct (a_alloc_free (ALIGN sz) _ _ _ _ _ Ht ltac:(lia) Hna Ha) as [Hf _].
  by rewrite Hf in Hr2.
Qed.

(** [get_used_memory] terminates and returns, without 32-bit overflow, the
    bytes of all headers and all active payloads; together with the free
    payloads they are exactly [get_total_memory]. *)
Theorem used_memory_exact base st l :
  heap_repr base st l ->
  get_used_memory base st = Ok (a_used l) /\
  a_used l + a_free_bytes l = get_total_memory.
Proof. apply used_memory_aux. Qed.

(** *** Witnesses *)

(** A heap at 0x100000 after the implicit initialisation. *)
Definition w_base : Z := 1048576.
Definition w_blocks : list block := [mk_block w_base (HEAP_BYTES - HDR) true].
Definition w_heap : mm_state := init_mm w_base mm_boot.

Lemma w_heap_repr : heap_repr w_base w_heap w_blocks.
Proof. apply init_mm_repr; reflexivity. Qed.

Definition w_heap1 : mm_state :=
  match kmalloc w_base 100 w_heap with Ok (st, _) => st | _ => w_heap end.

Lemma w_heap1_repr : heap_repr w_base w_heap1
  [mk_block w_base 104 false; mk_block (w_base + 116) (HEAP_BYTES - 128) true].
Proof.
  destruct (kmalloc_refines_aux _ _ _ 100 w_heap_repr ltac:(lia)) as (st & Hk & Hr). unfold w_heap1. rewrite Hk. exact Hr.
Qed.

Lemma kmalloc_refines_witness :
  exists st', kmalloc w_base 100 w_heap = Ok (st', w_base + 12) /\
    heap_repr w_base st'
      [mk_block w_base 104 false; mk_block (w_base + 116) (HEAP_BYTES - 128) true].
Proof.
  exact (kmalloc_refines w_base w_heap w_blocks 100 w_heap_repr
           ltac:(split; [discriminate|reflexivity])).
Defined.

Lemma kfree_refines_witness :
  exists st', kfree w_base (w_base + 12) w_heap1 = Ok st' /\
    heap_repr w_base st' w_blocks /\ no_adjacent_free w_blocks.
Proof.
  exact (kfree_refines _ _ _ _ w_heap1_repr ltac:(left)).
Defined.

Lemma w_reach1 : reach w_base w_heap1 {[w_base + 12 := 100]}.
Proof.
  replace {[w_base + 12 := 100]} with (<[w_base + 12 := 100]> (∅ : gmap Z Z)) by done.
  apply (reach_malloc w_base mm_boot ∅ 100); [constructor|lia|]. vm_compute. done.
Qed.

Lemma heap_history_safe_witness :
  exists st', kfree w_base (w_base + 12) w_heap1 = Ok st'.
Proof.
  destruct (heap_history_safe w_base w_heap1 {[w_base + 12 := 100]} (w_base + 12) 100
              ltac:(reflexivity) ltac:(reflexivity) w_reach1 ltac:(reflexivity))
    as (_ & _ & _ & _ & H). exact H.
Defined.

Lemma kmalloc_kfree_roundtrip_witness :
  exists st'', kfree w_base (w_base + 12) w_heap1 = Ok st'' /\ heap_repr w_base st'' w_blocks.
Proof.
  apply (kmalloc_kfree_roundtrip w_base w_heap w_blocks 100 w_heap1 (w_base + 12)).
  - exact w_heap_repr.
  - exact I.
  - split; discriminate.
  - vm_compute. reflexivity.
Defined.

Lemma used_memory_exact_witness :
  get_used_memory w_base w_heap = Ok 12 /\ 12 + (HEAP_BYTES - 12) = get_total_memory.
Proof. exact (used_memory_exact w_base w_heap w_blocks w_heap_repr). Defined.
