(* ===== verification/CLib.v ===== *)
(** * CLib: the freestanding C library (kernel.c, diskio.c)

    The kernel links without a C library, so kernel.c and diskio.c define the
    string and memory routines that the drivers, FatFs, Nuklear and lwIP call.
    Memory is a bounds-checked byte array; a [char*] that the code only moves
    forward is the list of bytes from the pointer to the end of its object. *)

From Stdlib Require Import ZArith Lia Bool.
From Stdlib Require Import Ascii String.
From stdpp Require Import base list.
From S2P Require Import Prelude.
From stdpp Require Import options.

(** Bytes of a string literal, and the literal as C stores it. *)
Definition bytes (s : string) : list Z :=
  map (fun a => Z.of_N (N_of_ascii a)) (list_ascii_of_string s).
Definition lit (s : string) : list Z := bytes s ++ [0].

(** ** Memory blocks *)

(** [memcpy(m + d, m + s, n)] inside one object [m]. *)
Definition memcpy (m : list Z) (d s n : Z) : res (list Z) :=
  for_up (Z.to_nat n) 0 (fun i m => v ← rd m (s + i); wr m (d + i) v) m.

(** Counting down: [for (i = n; i > 0; i--) body(i)]. *)
Fixpoint for_down {S : Type} (n : nat) (body : Z -> S -> res S) (s : S) : res S :=
  match n with
  | O => Ok s
  | Datatypes.S n' => s' ← body (Z.of_nat n) s; for_down n' body s'
  end.

Definition memmove (m : list Z) (d s n : Z) : res (list Z) :=
  if d <? s
  then for_up (Z.to_nat n) 0 (fun i m => v ← rd m (s + i); wr m (d + i) v) m
  else for_down (Z.to_nat n) (fun i m => v ← rd m (s + (i - 1)); wr m (d + (i - 1)) v) m.

Definition memset (m : list Z) (s c n : Z) : res (list Z) :=
  for_up (Z.to_nat n) 0 (fun i m => wr m (s + i) (u8 c)) m.

Fixpoint memcmp_loop (n : nat) (i : Z) (p1 p2 : list Z) : res Z :=
  match n with
  | O => Ok 0
  | Datatypes.S n' =>
      a ← rd p1 i; b ← rd p2 i;
      if negb (a =? b) then Ok (a - b) else memcmp_loop n' (i + 1) p1 p2
  end.
Definition memcmp (s1 s2 : list Z) (n : Z) : res Z := memcmp_loop (Z.to_nat n) 0 s1 s2.

(** ** Strings *)

(** [Ok None] is the null pointer; [Ok (Some s)] the pointer to the suffix [s]. *)
Fixpoint strchr (s : list Z) (c : Z) : res (option (list Z)) :=
  match s with
  | [] => Fault
  | x :: s' =>
      if negb (i8 x =? i8 c)
      then if x =? 0 then Ok None else strchr s' c
      else Ok (Some s)
  end.

Fixpoint strlen_loop (s : list Z) (len : Z) : res Z :=
  match s with
  | [] => Fault
  | c :: s' => if negb (c =? 0) then strlen_loop s' (u32 (len + 1)) else Ok len
  end.
Definition strlen (s : list Z) : res Z := strlen_loop s 0.

Fixpoint strncmp_loop (n : nat) (s1 s2 : list Z) : res Z :=
  match n with
  | O => Ok 0
  | Datatypes.S n' =>
      match s1, s2 with
      | a :: s1', b :: s2' =>
          if negb (a =? b) || (a =? 0)
          then Ok (if i8 a <? i8 b then -1 else if i8 b <? i8 a then 1 else 0)
          else strncmp_loop n' s1' s2'
      | _, _ => Fault
      end
  end.
Definition strncmp (s1 s2 : list Z) (n : Z) : res Z := strncmp_loop (Z.to_nat n) s1 s2.

Fixpoint strcmp (s1 s2 : list Z) : res Z :=
  match s1, s2 with
  | a :: s1', b :: s2' =>
      if negb (a =? 0) && (a =? b) then strcmp s1' s2' else Ok (a - b)
  | _, _ => Fault
  end.

(** [strtol]: result and the [endptr] suffix; signed overflow is undefined. *)
Fixpoint strtol_loop (nptr : list Z) (result : Z) : res (Z * list Z) :=
  match nptr with
  | [] => Fault
  | c :: rest =>
      if (48 <=? i8 c) && (i8 c <=? 57) then
        let r := result * 10 + (i8 c - 48) in
        if r <=? 2147483647 then strtol_loop rest r else Fault
      else Ok (result, nptr)
  end.
Definition strtol (nptr : list Z) : res (Z * list Z) := strtol_loop nptr 0.

(** [strcpy(dest + i, src)]: copies through the terminator. *)
Fixpoint strcpy_loop (src : list Z) (dest : list Z) (i : Z) : res (list Z) :=
  match src with
  | [] => Fault
  | c :: src' =>
      dest' ← wr dest i c;
      if c =? 0 then Ok dest' else strcpy_loop src' dest' (i + 1)
  end.
Definition strcpy (dest src : list Z) : res (list Z) := strcpy_loop src dest 0.

(** [strncpy]: copy up to [n] bytes, then zero-fill up to [n]. *)
Fixpoint strncpy_loop (n : nat) (src dest : list Z) (i : Z) : res (list Z) :=
  match n with
  | O => Ok dest
  | Datatypes.S n' =>
      match src with
      | [] => Fault
      | c :: src' =>
          if negb (c =? 0)
          then dest' ← wr dest i c; strncpy_loop n' src' dest' (i + 1)
          else for_up n i (fun j d => wr d j 0) dest
      end
  end.
Definition strncpy (dest src : list Z) (n : Z) : res (list Z) :=
  strncpy_loop (Z.to_nat n) src dest 0.

(** [abs]: the negation of INT_MIN is undefined. *)
Definition abs (j : Z) : res Z :=
  if j <? 0 then (if j =? -2147483648 then Fault else Ok (- j)) else Ok j.

(** ** Number formatting *)

(** [while (v > 0) { temp[i++] = v % 10 + '0'; v /= 10; }] into an array of
    [cap] chars; the digits come out least significant first. *)
Fixpoint digits_loop (fuel : nat) (v : Z) (temp : list Z) (cap : Z) : res (list Z) :=
  match fuel with
  | O => NoFuel
  | Datatypes.S fuel =>
      if 0 <? v then
        if zlen temp <? cap
        then digits_loop fuel (v / 10) (temp ++ [v mod 10 + 48]) cap
        else Fault
      else Ok temp
  end.

(** Writing [temp] backwards: [while (i > 0) buffer[j++] = temp[--i];] *)
Fixpoint put_all (out : list Z) (buf : list Z) (j : Z) : res (list Z) :=
  match out with
  | [] => Ok buf
  | c :: out' => buf' ← wr buf j c; put_all out' buf' (j + 1)
  end.

Definition mini_itoa (value : Z) (buffer : list Z) : res (list Z) :=
  if value =? 0 then b ← wr buffer 0 48; wr b 1 0
  else
    temp ← digits_loop 12 value [] 12;
    b ← put_all (rev temp) buffer 0;
    wr b (zlen temp) 0.

(** A variadic argument: an [int]/[unsigned] or a [const char*] ([None] = NULL). *)
Inductive varg :=
| VInt (z : Z)
| VStr (s : option (list Z)).

(** [while (cond src && idx < size - 1) buf[idx++] = *src++;] over the bytes [s]
    of a terminated string. *)
Fixpoint put_str (s : list Z) (buf : list Z) (idx lim : Z) : res (list Z * Z) :=
  match s with
  | [] => Fault
  | c :: s' =>
      if negb (c =? 0) && (idx <? lim)
      then b ← wr buf idx c; put_str s' b (idx + 1) lim
      else Ok (buf, idx)
  end.

(** [while (digits_count > 0 && idx < size - 1) buf[idx++] = scratch[--digits_count];] *)
Fixpoint put_digits (ds : list Z) (buf : list Z) (idx lim : Z) : res (list Z * Z) :=
  match ds with
  | [] => Ok (buf, idx)
  | c :: ds' =>
      if idx <? lim
      then b ← wr buf idx c; put_digits ds' b (idx + 1) lim
      else Ok (buf, idx)
  end.

Definition put_char (c : Z) (buf : list Z) (idx : Z) : res (list Z * Z) :=
  b ← wr buf idx c; Ok (b, idx + 1).

(** The [%d]/[%u] branch of [mini_snprintf]: [long] is 32 bits wide here. *)
Definition put_number (signed : bool) (z : Z) (buf : list Z) (idx lim : Z)
  : res (list Z * Z) :=
  r ← (if signed then
         let sval := i32 z in
         if sval <? 0 then
           r ← (if idx <? lim then put_char 45 buf idx else Ok (buf, idx));
           if sval =? -2147483648 then Fault else Ok (r, - sval)
         else Ok ((buf, idx), sval)
       else Ok ((buf, idx), i32 (u32 z)));
  let '((buf, idx), val) := r in
  ds ← (if val =? 0 then Ok [48] else digits_loop 12 val [] 12);
  put_digits (rev ds) buf idx lim.

Definition take_int (args : list varg) : res (Z * list varg) :=
  match args with VInt z :: args' => Ok (z, args') | _ => Fault end.
Definition take_str (args : list varg) : res (option (list Z) * list varg) :=
  match args with VStr s :: args' => Ok (s, args') | _ => Fault end.

(** The format loop of [mini_snprintf]; [lim] is [buffer_size - 1]. *)
Fixpoint mini_snprintf_loop (p : list Z) (args : list varg) (buf : list Z) (idx lim : Z)
  : res (list Z * Z) :=
  match p with
  | [] => Fault
  | c :: p' =>
      if negb (c =? 0) && (idx <? lim) then
        if c =? 37 then
          match p' with
          | [] => Fault
          | f :: p'' =>
              if f =? 0 then Ok (buf, idx)
              else if f =? 115 then
                a ← take_str args;
                r ← put_str (match a.1 with Some s => s | None => lit "(null)" end) buf idx lim;
                mini_snprintf_loop p'' a.2 r.1 r.2 lim
              else if (f =? 100) || (f =? 117) then
                a ← take_int args;
                r ← put_number (f =? 100) a.1 buf idx lim;
                mini_snprintf_loop p'' a.2 r.1 r.2 lim
              else
                r ← put_char f buf idx;
                mini_snprintf_loop p'' args r.1 r.2 lim
          end
        else
          r ← put_char c buf idx;
          mini_snprintf_loop p' args r.1 r.2 lim
      else Ok (buf, idx)
  end.

(** [mini_snprintf]: the buffer and the returned length; [None] is a NULL [buf]. *)
Definition mini_snprintf (buf : option (list Z)) (buffer_size : Z) (format : list Z)
  (args : list varg) : res (option (list Z) * Z) :=
  match buf with
  | None => Ok (None, 0)
  | Some b =>
      if buffer_size =? 0 then Ok (Some b, 0) else
      r ← mini_snprintf_loop format args b 0 (buffer_size - 1);
      b' ← wr r.1 r.2 0;
      Ok (Some b', r.2)
  end.

(** The second formatter, [snprintf]: every number is unsigned, a NULL string
    prints nothing, a lone ['%'] at the end is copied. *)
Fixpoint snprintf_loop (p : list Z) (args : list varg) (buf : list Z) (idx lim : Z)
  : res (list Z * Z) :=
  match p with
  | [] => Fault
  | c :: p' =>
      if negb (c =? 0) && (idx <? lim) then
        match p' with
        | [] => Fault
        | f :: p'' =>
            if (c =? 37) && negb (f =? 0) then
              if f =? 115 then
                a ← take_str args;
                r ← put_str (match a.1 with Some s => s | None => [0] end) buf idx lim;
                snprintf_loop p'' a.2 r.1 r.2 lim
              else if (f =? 100) || (f =? 117) then
                a ← take_int args;
                num_buf ← mini_itoa (u32 a.1) (replicate 16 0);
                r ← put_str num_buf buf idx lim;
                snprintf_loop p'' a.2 r.1 r.2 lim
              else
                r ← put_char f buf idx;
                snprintf_loop p'' args r.1 r.2 lim
            else
              r ← put_char c buf idx;
              snprintf_loop p' args r.1 r.2 lim
        end
      else Ok (buf, idx)
  end.

Definition snprintf (buf : list Z) (size : Z) (format : list Z) (args : list varg)
  : res (list Z * Z) :=
  if size =? 0 then Ok (buf, 0) else
  r ← snprintf_loop format args buf 0 (size - 1);
  b ← wr r.1 r.2 0;
  Ok (b, r.2).

Example snprintf_ex :
  snprintf (replicate 12 0) 12 (lit "n=%d%%") [VInt 42] =
  Ok (bytes "n=42%" ++ replicate 7 0, 5).
Proof. reflexivity. Qed.

Example mini_snprintf_ex :
  mini_snprintf (Some (replicate 8 1)) 6 (lit "a%db%s") [VInt (-73); VStr (Some (lit "xyz"))] =
  Ok (Some (bytes "a-73b" ++ [0; 1; 1]), 5).
Proof. reflexivity. Qed.

(** ** Block operations *)

Lemma for_down_inv {S : Type} (I : Z -> S -> Prop) n body s :
  (forall i s, 0 < i <= Z.of_nat n -> I i s ->
     exists s', body i s = Ok s' /\ I (i - 1) s') ->
  I (Z.of_nat n) s ->
  exists s', for_down n body s = Ok s' /\ I 0 s'.
Proof.
  revert s. induction n as [|n IH]; intros s Hstep HI; [by exists s|].
  cbn [for_down]. destruct (Hstep (Z.of_nat (Datatypes.S n)) s ltac:(lia) HI) as (s1 & Hb & HI1).
  rewrite Hb, bind_Ok. apply IH; [intros; apply Hstep; [lia|done]|].
  replace (Z.of_nat n) with (Z.of_nat (Datatypes.S n) - 1) by lia. done.
Qed.

(** [moved m d s lo hi m']: bytes [d+lo .. d+hi) of [m'] are bytes
    [s+lo .. s+hi) of [m]; the rest is unchanged. *)
Definition moved (m : list Z) (d s lo hi : Z) (m' : list Z) : Prop :=
  length m' = length m /\
  forall j, 0 <= j < zlen m ->
    get m' j = if (d + lo <=? j) && (j <? d + hi) then get m (s + (j - d)) else get m j.

Lemma moved_refl m d s k : moved m d s k k m.
Proof.
  split; [done|]. intros j Hj. zcases; simpl; try done; lia.
Qed.

(** Copying one more byte, at offset [i], extends the copied range, provided
    the source byte has not been overwritten. *)
Lemma moved_step m d s lo hi m' i lo' hi' :
  0 <= d + i < zlen m -> 0 <= s + i < zlen m -> moved m d s lo hi m' ->
  get m' (s + i) = get m (s + i) ->
  (forall j, (lo' <= j < hi') <-> (lo <= j < hi \/ j = i)) ->
  exists m'', (v ← rd m' (s + i); wr m' (d + i) v) = Ok m'' /\ moved m d s lo' hi' m''.
Proof.
  intros Hd Hs [Hlen Hget] Hsrc Hrange.
  rewrite rd_in by lia. rewrite bind_Ok, wr_in by lia. eexists. split; [done|].
  split; [by rewrite length_insert|]. intros j Hj.
  destruct (decide (j = d + i)) as [->|Hne].
  - rewrite get_insert_eq by lia. rewrite Hsrc.
    assert (lo' <= i < hi') by (apply Hrange; lia).
    zcases; simpl; try lia. f_equal. lia.
  - rewrite get_insert_ne by lia. rewrite Hget by lia. pose proof (Hrange (j - d)).
    destruct ((d + lo <=? j) && (j <? d + hi)) eqn:E1,
             ((d + lo' <=? j) && (j <? d + hi')) eqn:E2; try done; exfalso; lia.
Qed.

Lemma copy_forward m d s n :
  0 <= d -> 0 <= s -> 0 <= n -> d + n <= zlen m -> s + n <= zlen m ->
  d <= s \/ s + n <= d ->
  exists m', for_up (Z.to_nat n) 0 (fun i m => v ← rd m (s + i); wr m (d + i) v) m = Ok m' /\
    moved m d s 0 n m'.
Proof.
  intros Hd Hs Hn Hdn Hsn Hor.
  destruct (for_up_inv (fun i m' => moved m d s 0 i m') (Z.to_nat n) 0
              (fun i m => v ← rd m (s + i); wr m (d + i) v) m) as (m' & Hr & HI).
  - intros i m' Hi HI. eapply moved_step; [lia|lia|exact HI| |intros j; lia].
    destruct HI as [_ Hget]. rewrite Hget by lia. zcases; simpl; try done; lia.
  - apply moved_refl.
  - exists m'. split; [done|]. replace (0 + Z.of_nat (Z.to_nat n)) with n in HI by lia. done.
Qed.

Lemma copy_backward m d s n :
  0 <= d -> 0 <= s -> 0 <= n -> d + n <= zlen m -> s + n <= zlen m -> s <= d ->
  exists m',
    for_down (Z.to_nat n) (fun i m => v ← rd m (s + (i - 1)); wr m (d + (i - 1)) v) m = Ok m' /\
    moved m d s 0 n m'.
Proof.
  intros Hd Hs Hn Hdn Hsn Hor.
  apply (for_down_inv (fun i m' => moved m d s i n m')).
  - intros i m' Hi HI. eapply (moved_step _ _ _ _ _ _ (i - 1)); [lia|lia|exact HI| |intros j; lia].
    destruct HI as [_ Hget]. rewrite Hget by lia. zcases; simpl; try done; lia.
  - replace (Z.of_nat (Z.to_nat n)) with n by lia. apply moved_refl.
Qed.

Lemma memset_spec_aux m s c n :
  0 <= s -> 0 <= n -> s + n <= zlen m ->
  exists m', memset m s c n = Ok m' /\ length m' = length m /\
    forall j, 0 <= j < zlen m ->
      get m' j = if (s <=? j) && (j <? s + n) then u8 c else get m j.
Proof.
  intros Hs Hn Hsn. unfold memset.
  destruct (for_up_inv (fun i m' => length m' = length m /\ forall j, 0 <= j < zlen m ->
      get m' j = if (s <=? j) && (j <? s + i) then u8 c else get m j)
      (Z.to_nat n) 0 (fun i m => wr m (s + i) (u8 c)) m) as (m' & Hr & HI).
  - intros i m' Hi [Hlen Hget]. rewrite wr_in by lia. eexists. split; [done|].
    split; [by rewrite length_insert|]. intros j Hj.
    destruct (decide (j = s + i)) as [->|Hne].
    + rewrite get_insert_eq by lia. zcases; simpl; try done; lia.
    + rewrite get_insert_ne by lia. rewrite Hget by lia. zcases; simpl; try done; lia.
  - split; [done|]. intros j Hj. zcases; simpl; try done; lia.
  - exists m'. split; [done|]. replace (0 + Z.of_nat (Z.to_nat n)) with n in HI by lia. done.
Qed.

Lemma memcmp_loop_spec n i p1 p2 :
  0 <= i -> i + Z.of_nat n <= zlen p1 -> i + Z.of_nat n <= zlen p2 ->
  exists r, memcmp_loop n i p1 p2 = Ok r /\
    (r = 0 <-> forall j, i <= j < i + Z.of_nat n -> get p1 j = get p2 j).
Proof.
  revert i. induction n as [|n IH]; intros i Hi H1 H2; cbn [memcmp_loop].
  - exists 0. split; [done|]. split; [lia|done].
  - rewrite !rd_in by lia. rewrite !bind_Ok.
    destruct (Z.eqb_spec (get p1 i) (get p2 i)) as [E|E]; simpl.
    + destruct (IH (i + 1)) as (r & Hr & Hiff); [lia|lia|lia|].
      exists r. split; [done|]. rewrite Hiff. split; intros H j Hj.
      * destruct (decide (j = i)) as [->|]; [done|apply H; lia].
      * apply H. lia.
    + eexists. split; [done|]. split; intros H; [lia|]. specialize (H i ltac:(lia)). lia.
Qed.

(** ** Terminated strings *)

(** [cstr s str]: the bytes at [s] hold the C string [str]. *)
Definition cstr (s str : list Z) : Prop :=
  exists rest, s = str ++ 0 :: rest /\ Forall (fun c => c <> 0) str.

(** The content up to the terminator, if there is one. *)
Fixpoint until_nul (s : list Z) : option (list Z) :=
  match s with
  | [] => None
  | c :: s' => if c =? 0 then Some [] else (cons c) <$> until_nul s'
  end.

Lemma until_nul_cstr s str : until_nul s = Some str <-> cstr s str.
Proof.
  unfold cstr. revert str. induction s as [|c s IH]; intros str; simpl.
  - split; [done|]. intros (rest & H & _). by destruct str.
  - destruct (Z.eqb_spec c 0) as [->|Hc].
    + split; [intros [= <-]; by exists s|]. intros (rest & H & Hf).
      destruct str as [|x str]; [done|]. inversion Hf; simplify_eq/=.
    + split.
      * destruct (until_nul s) as [t|]; [|done]. simpl. intros [= <-].
        destruct (proj1 (IH t) eq_refl) as (rest & -> & Hf). exists rest. split; [done|].
        by constructor.
      * intros (rest & H & Hf). destruct str as [|x str]; simplify_eq/=.
        inversion Hf; subst.
        assert (until_nul (str ++ 0 :: rest) = Some str) as -> by (apply IH; eauto). done.
Qed.

Lemma until_nul_lit str :
  Forall (fun c => c <> 0) str -> forall rest, until_nul (str ++ 0 :: rest) = Some str.
Proof. intros H rest. apply until_nul_cstr. by exists rest. Qed.

Lemma strlen_cstr_aux s str len :
  until_nul s = Some str -> 0 <= len -> len + zlen str < 4294967296 ->
  strlen_loop s len = Ok (len + zlen str).
Proof.
  revert str len. induction s as [|c s IH]; intros str len H Hl Hb; simpl in *; [done|].
  destruct (c =? 0); [injection H as <-; simpl; f_equal; lia|].
  destruct (until_nul s) as [t|]; [|done]. injection H as <-. simpl in *.
  rewrite u32_small by lia. rewrite (IH t) by (done || lia). f_equal. lia.
Qed.

(** ** Decimal numbers *)

Definition is_digit (c : Z) : Prop := 48 <= c <= 57.

Fixpoint rdigits (fuel : nat) (v : Z) : list Z :=
  match fuel with
  | O => []
  | Datatypes.S fuel => if 0 <? v then (v mod 10 + 48) :: rdigits fuel (v / 10) else []
  end.

(** The decimal notation of a 32-bit number. *)
Definition decimal (v : Z) : list Z := if v =? 0 then [48] else rev (rdigits 11 v).

Definition dec_value (ds : list Z) : Z := fold_left (fun acc c => acc * 10 + (c - 48)) ds 0.

Lemma rdigits_digit fuel v : Forall is_digit (rdigits fuel v).
Proof.
  revert v. induction fuel as [|fuel IH]; intros v; simpl; [constructor|].
  destruct (0 <? v); constructor; [|apply IH].
  unfold is_digit. pose proof (Z.mod_pos_bound v 10). lia.
Qed.

Lemma decimal_digit v : Forall is_digit (decimal v).
Proof.
  unfold decimal. destruct (v =? 0); [repeat constructor; lia|].
  apply Forall_rev, rdigits_digit.
Qed.

Lemma decimal_nonzero v : Forall (fun c => c <> 0) (decimal v).
Proof. eapply Forall_impl; [apply decimal_digit|]. unfold is_digit. simpl. lia. Qed.

Lemma rdigits_length fuel v n :
  0 <= v < 10 ^ Z.of_nat n -> (length (rdigits fuel v) <= n)%nat.
Proof.
  revert v n. induction fuel as [|fuel IH]; intros v n Hv; simpl; [lia|].
  destruct (Z.ltb_spec 0 v); simpl; [|lia].
  destruct n as [|n]; [simpl in Hv; lia|].
  rewrite Nat2Z.inj_succ, Z.pow_succ_r in Hv by lia.
  apply le_n_S, IH. split; dlia.
Qed.

Lemma dec_value_app ds c :
  dec_value (ds ++ [c]) = dec_value ds * 10 + (c - 48).
Proof. unfold dec_value. by rewrite fold_left_app. Qed.

Lemma rdigits_value fuel v :
  0 <= v < 10 ^ Z.of_nat fuel -> dec_value (rev (rdigits fuel v)) = v.
Proof.
  revert v. induction fuel as [|fuel IH]; intros v Hv; cbn [rdigits]; [simpl in Hv; cbn; lia|].
  destruct (Z.ltb_spec 0 v); [|cbn; lia].
  rewrite Nat2Z.inj_succ, Z.pow_succ_r in Hv by lia.
  cbn [rev]. rewrite dec_value_app, IH by (split; dlia). dlia.
Qed.

Lemma decimal_value v : 0 <= v < 4294967296 -> dec_value (decimal v) = v.
Proof.
  intros Hv. unfold decimal. destruct (Z.eqb_spec v 0) as [->|]; [done|].
  apply rdigits_value. change (10 ^ Z.of_nat 11) with 100000000000. lia.
Qed.

Lemma digits_loop_spec fuel v temp cap :
  0 <= v < 10 ^ Z.of_nat fuel -> zlen temp + zlen (rdigits fuel v) <= cap ->
  digits_loop (Datatypes.S fuel) v temp cap = Ok (temp ++ rdigits fuel v).
Proof.
  revert v temp. induction fuel as [|fuel IH]; intros v temp Hv Hcap.
  - simpl in Hv. assert (v = 0) as -> by lia. simpl. by rewrite app_nil_r.
  - cbn [digits_loop rdigits] in *. destruct (Z.ltb_spec 0 v); [|by rewrite app_nil_r].
    cbn [length] in Hcap. destruct (Z.ltb_spec (zlen temp) cap); [|lia].
    rewrite Nat2Z.inj_succ, Z.pow_succ_r in Hv by lia.
    specialize (IH (v / 10) (temp ++ [v mod 10 + 48])). cbn [digits_loop] in IH.
    rewrite IH; [by rewrite <- app_assoc|split; dlia|rewrite length_app; simpl; lia].
Qed.

Lemma digits_loop_32 v :
  0 <= v < 4294967296 -> digits_loop 12 v [] 12 = Ok (rdigits 11 v) /\
  (length (rdigits 11 v) <= 10)%nat.
Proof.
  intros Hv. pose proof (rdigits_length 11 v 10).
  change (10 ^ Z.of_nat 10) with 10000000000 in H. specialize (H ltac:(lia)).
  split; [|done]. apply (digits_loop_spec 11 v []); [|cbn [length]; lia].
  change (10 ^ Z.of_nat 11) with 100000000000. lia.
Qed.

Lemma digit_i8 c : is_digit c -> i8 c = c.
Proof. intros H. apply i8_small. unfold is_digit in H. lia. Qed.

Lemma dec_fold_mono ds acc :
  Forall is_digit ds -> 0 <= acc ->
  acc <= fold_left (fun acc c => acc * 10 + (c - 48)) ds acc.
Proof.
  revert acc. induction ds as [|c ds IH]; intros acc Hd Hacc; simpl; [lia|].
  inversion Hd as [|? ? Hc Hd']; subst. unfold is_digit in Hc.
  specialize (IH (acc * 10 + (c - 48)) Hd' ltac:(lia)). lia.
Qed.

(** [strtol] consumes a run of digits. *)
Lemma strtol_loop_digits ds c rest acc :
  Forall is_digit ds -> ~ is_digit (i8 c) -> 0 <= acc ->
  fold_left (fun acc c => acc * 10 + (c - 48)) ds acc <= 2147483647 ->
  strtol_loop (ds ++ c :: rest) acc =
    Ok (fold_left (fun acc c => acc * 10 + (c - 48)) ds acc, c :: rest).
Proof.
  revert acc. induction ds as [|d ds IH]; intros acc Hd Hc Hacc Hle; simpl in *.
  - unfold is_digit in Hc. destruct (Z.leb_spec 48 (i8 c)), (Z.leb_spec (i8 c) 57);
      simpl; try done; lia.
  - inversion Hd as [|? ? Hd1 Hd']; subst. rewrite (digit_i8 d) by done.
    unfold is_digit in Hd1.
    pose proof (dec_fold_mono ds (acc * 10 + (d - 48)) Hd' ltac:(lia)).
    destruct (Z.leb_spec 48 d); [|lia]. destruct (Z.leb_spec d 57); [|lia]. simpl.
    destruct (Z.leb_spec (acc * 10 + (d - 48)) 2147483647); [|lia].
    apply IH; done || lia.
Qed.

Lemma strtol_decimal v c rest :
  0 <= v <= 2147483647 -> ~ is_digit (i8 c) ->
  strtol (decimal v ++ c :: rest) = Ok (v, c :: rest).
Proof.
  intros Hv Hc. unfold strtol.
  pose proof (decimal_value v ltac:(lia)) as Hval. unfold dec_value in Hval.
  rewrite strtol_loop_digits; [by rewrite Hval|apply decimal_digit|done|lia|lia].
Qed.

(** ** What a format denotes *)

(** The text of an integer argument: [%d] of INT_MIN is undefined; [%u] goes
    through a 32-bit [long], so values with the top bit set have no digits. *)
Definition show_int (signed : bool) (z : Z) : option (list Z) :=
  if signed then
    let v := i32 z in
    if v =? -2147483648 then None
    else if v <? 0 then Some (45 :: decimal (- v)) else Some (decimal v)
  else
    let v := i32 (u32 z) in Some (if v <? 0 then [] else decimal v).

(** The whole text a format and its arguments denote, before truncation. *)
Fixpoint render (p : list Z) (args : list varg) : option (list Z) :=
  match p with
  | [] => None
  | c :: p' =>
      if c =? 0 then Some []
      else if c =? 37 then
        match p' with
        | [] => None
        | f :: p'' =>
            if f =? 0 then Some []
            else if f =? 115 then
              match args with
              | VStr s :: args' =>
                  t ← until_nul (match s with Some s => s | None => lit "(null)" end);
                  r ← render p'' args'; Some (t ++ r)
              | _ => None
              end
            else if (f =? 100) || (f =? 117) then
              match args with
              | VInt z :: args' =>
                  t ← show_int (f =? 100) z; r ← render p'' args'; Some (t ++ r)
              | _ => None
              end
            else r ← render p'' args; Some (f :: r)
        end
      else r ← render p' args; Some (c :: r)
  end.

(** The buffer after the bytes [w] have been written to its front. *)
Definition filled (buf w : list Z) : list Z := w ++ drop (length w) buf.

Lemma filled_wr buf w c :
  zlen w < zlen buf -> wr (filled buf w) (zlen w) c = Ok (filled buf (w ++ [c])).
Proof.
  intros Hlt. unfold filled. rewrite wr_in.
  2: { rewrite length_app, length_drop. lia. }
  f_equal. rewrite Nat2Z.id, length_app, <- app_assoc. simpl.
  replace (length w) with (length w + 0)%nat at 1 by lia.
  rewrite insert_app_r. f_equal.
  destruct (drop (length w) buf) as [|x rest] eqn:E.
  - apply (f_equal length) in E. rewrite length_drop in E. simpl in E. lia.
  - simpl. f_equal. rewrite <- drop_drop, E. done.
Qed.

(** Text appended at the write index and cut at [lim]. *)
Lemma take_app_take (lim : nat) (w a b : list Z) :
  take lim (take lim (w ++ a) ++ b) = take lim (w ++ a ++ b).
Proof.
  rewrite (app_assoc w a b). generalize (w ++ a) as x. intros x.
  destruct (decide (length x <= lim)%nat).
  - by rewrite (take_ge x) by lia.
  - rewrite !take_app_le; [by rewrite take_take, Nat.min_id|lia|rewrite length_take; lia].
Qed.

Section Emit.
#[local] Set Default Proof Using "All".
Context (buf : list Z) (lim : Z).
Context (Hlim : 0 <= lim < zlen buf).

(** [r] is the state after appending [out] to [w] and cutting at [lim]. *)
Definition emitted (w out : list Z) (r : res (list Z * Z)) : Prop :=
  let w' := take (Z.to_nat lim) (w ++ out) in
  r = Ok (filled buf w', zlen w').

Lemma put_char_emitted w c :
  zlen w < lim -> emitted w [c] (put_char c (filled buf w) (zlen w)).
Proof.
  intros Hw. unfold emitted, put_char. rewrite filled_wr by lia. rewrite bind_Ok.
  rewrite take_ge by (rewrite length_app; simpl; lia).
  rewrite length_app. simpl. do 2 f_equal. lia.
Qed.

Lemma full_emitted w out :
  zlen w = lim -> emitted w out (Ok (filled buf w, zlen w)).
Proof.
  intros Hw. unfold emitted. replace (Z.to_nat lim) with (length w) by lia.
  by rewrite take_app_length.
Qed.

Lemma put_digits_emitted ds w :
  zlen w <= lim -> emitted w ds (put_digits ds (filled buf w) (zlen w) lim).
Proof.
  revert w. induction ds as [|c ds IH]; intros w Hw; simpl.
  - unfold emitted. rewrite app_nil_r, take_ge by lia. done.
  - destruct (Z.ltb_spec (zlen w) lim); [|apply full_emitted; lia].
    rewrite filled_wr by lia. rewrite bind_Ok.
    replace (zlen w + 1) with (zlen (w ++ [c])) by (rewrite length_app; simpl; lia).
    replace (emitted w (c :: ds)) with (emitted (w ++ [c]) ds)
      by (unfold emitted; by rewrite <- app_assoc).
    apply IH. rewrite length_app. simpl. lia.
Qed.

Lemma put_str_emitted s str w :
  until_nul s = Some str -> zlen w <= lim ->
  emitted w str (put_str s (filled buf w) (zlen w) lim).
Proof.
  revert str w. induction s as [|c s IH]; intros str w Hs Hw; simpl in *; [done|].
  destruct (Z.eqb_spec c 0); simpl.
  - injection Hs as <-. unfold emitted. rewrite app_nil_r, take_ge by lia. done.
  - destruct (until_nul s) as [t|] eqn:Et; [|done]. injection Hs as <-.
    destruct (Z.ltb_spec (zlen w) lim); [|apply full_emitted; lia].
    rewrite filled_wr by lia. rewrite bind_Ok.
    replace (zlen w + 1) with (zlen (w ++ [c])) by (rewrite length_app; simpl; lia).
    replace (emitted w (c :: t)) with (emitted (w ++ [c]) t)
      by (unfold emitted; by rewrite <- app_assoc).
    apply IH; [done|]. rewrite length_app. simpl. lia.
Qed.

Lemma emitted_inv w out r :
  zlen w <= lim -> emitted w out r ->
  exists w', r = Ok (filled buf w', zlen w') /\ zlen w' <= lim /\
    forall out', take (Z.to_nat lim) (w' ++ out') = take (Z.to_nat lim) (w ++ out ++ out').
Proof.
  intros Hw Hr. exists (take (Z.to_nat lim) (w ++ out)). split; [done|].
  split; [rewrite length_take; lia|]. intros out'. apply take_app_take.
Qed.

Lemma digits_val v :
  0 <= v < 4294967296 ->
  exists ds, (if v =? 0 then Ok [48] else digits_loop 12 v [] 12) = Ok ds /\ rev ds = decimal v.
Proof.
  intros Hv. unfold decimal. destruct (v =? 0); [by eexists|].
  destruct (digits_loop_32 v Hv) as [-> _]. eauto.
Qed.

Lemma put_number_emitted signed z t w :
  show_int signed z = Some t -> zlen w <= lim ->
  emitted w t (put_number signed z (filled buf w) (zlen w) lim).
Proof.
  intros Ht Hw. unfold put_number, show_int in *.
  destruct signed.
  - pose proof (i32_bound z). destruct (Z.eqb_spec (i32 z) (-2147483648)) as [|Hmin]; [done|].
    destruct (Z.ltb_spec (i32 z) 0); injection Ht as <-.
    + assert (emitted w [45] (if zlen w <? lim then put_char 45 (filled buf w) (zlen w)
                              else Ok (filled buf w, zlen w))) as He.
      { destruct (Z.ltb_spec (zlen w) lim); [by apply put_char_emitted|apply full_emitted; lia]. }
      destruct (emitted_inv _ _ _ Hw He) as (w' & -> & Hw' & Htk). rewrite !bind_Ok.
      destruct (digits_val (- i32 z) ltac:(lia)) as (ds & -> & Hds).
      rewrite bind_Ok, Hds. unfold emitted. rewrite (put_digits_emitted _ _ Hw').
      rewrite Htk. done.
    + rewrite bind_Ok. destruct (digits_val (i32 z) ltac:(lia)) as (ds & -> & Hds).
      rewrite bind_Ok, Hds. by apply put_digits_emitted.
  - injection Ht as <-. rewrite bind_Ok. pose proof (i32_bound (u32 z)).
    destruct (Z.ltb_spec (i32 (u32 z)) 0).
    + destruct (Z.eqb_spec (i32 (u32 z)) 0); [lia|]. cbn [digits_loop].
      destruct (Z.ltb_spec 0 (i32 (u32 z))); [lia|]. rewrite bind_Ok. by apply put_digits_emitted.
    + destruct (digits_val (i32 (u32 z)) ltac:(lia)) as (ds & -> & Hds).
      rewrite bind_Ok, Hds. by apply put_digits_emitted.
Qed.

(** One format item, then the rest. *)
Lemma emitted_bind w t out' r (k : list Z * Z -> res (list Z * Z)) :
  zlen w <= lim -> emitted w t r ->
  (forall w', zlen w' <= lim -> emitted w' out' (k (filled buf w', zlen w'))) ->
  emitted w (t ++ out') (r ≫= k).
Proof.
  intros Hw Hr Hk. destruct (emitted_inv _ _ _ Hw Hr) as (w' & -> & Hw' & Htk).
  rewrite bind_Ok. unfold emitted. rewrite <- Htk. by apply Hk.
Qed.

Lemma mini_snprintf_loop_emitted p args out w :
  render p args = Some out -> zlen w <= lim ->
  emitted w out (mini_snprintf_loop p args (filled buf w) (zlen w) lim).
Proof.
  remember (length p) as n eqn:Hn. revert p args out w Hn.
  induction n as [n IH] using lt_wf_ind. intros p args out w -> Hr Hw.
  destruct p as [|c p]; simpl in Hr |- *; [done|].
  destruct (Z.eqb_spec c 0); simpl.
  { injection Hr as <-. unfold emitted. rewrite app_nil_r, take_ge by lia. done. }
  destruct (Z.ltb_spec (zlen w) lim); [|apply full_emitted; lia].
  destruct (Z.eqb_spec c 37).
  - destruct p as [|f p]; [done|]. destruct (f =? 0).
    { injection Hr as <-. unfold emitted. rewrite app_nil_r, take_ge by lia. done. }
    destruct (f =? 115); [|destruct ((f =? 100) || (f =? 117))].
    + destruct args as [|[z|s] args]; [done|done|]. simpl.
      destruct (until_nul _) as [t|] eqn:Et in Hr; [|done]. simpl in Hr.
      destruct (render p args) as [r|] eqn:Er; [|done]. injection Hr as <-.
      apply emitted_bind; [done|by apply put_str_emitted|].
      intros w' Hw'. eapply IH; [|done|done|done]. simpl. lia.
    + destruct args as [|[z|s] args]; [done| |done]. simpl.
      destruct (show_int _ z) as [t|] eqn:Et; [|done]. simpl in Hr.
      destruct (render p args) as [r|] eqn:Er; [|done]. injection Hr as <-.
      apply emitted_bind; [done|by apply put_number_emitted|].
      intros w' Hw'. eapply IH; [|done|done|done]. simpl. lia.
    + destruct (render p args) as [r|] eqn:Er; [|done]. injection Hr as <-.
      apply (emitted_bind w [f]); [done|by apply put_char_emitted|].
      intros w' Hw'. eapply IH; [|done|done|done]. simpl. lia.
  - destruct (render p args) as [r|] eqn:Er; [|done]. injection Hr as <-.
    apply (emitted_bind w [c]); [done|by apply put_char_emitted|].
    intros w' Hw'. eapply IH; [|done|done|done]. simpl. lia.
Qed.

End Emit.

(** A non-negative [int]. *)
Definition nat31 (v : Z) : Prop := 0 <= v < 2147483648.

Lemma show_nat31 v : nat31 v -> show_int true v = Some (decimal v).
Proof.
  unfold nat31. intros Hv. unfold show_int. rewrite i32_small by lia.
  destruct (Z.eqb_spec v (-2147483648)); [lia|]. destruct (Z.ltb_spec v 0); [lia|done].
Qed.

Lemma mini_snprintf_render buf size fmt args out :
  0 < size <= zlen buf -> render fmt args = Some out ->
  let w := take (Z.to_nat (size - 1)) out in
  mini_snprintf (Some buf) size fmt args = Ok (Some (filled buf (w ++ [0])), zlen w).
Proof.
  intros Hsz Hr w. unfold mini_snprintf. destruct (Z.eqb_spec size 0); [lia|].
  pose proof (mini_snprintf_loop_emitted buf (size - 1) ltac:(lia) fmt args out [] Hr) as He.
  unfold emitted in He. simpl in He. specialize (He ltac:(lia)).
  change (filled buf []) with buf in He. change (Z.of_nat 0) with 0 in He. rewrite He, bind_Ok. cbn [fst snd]. fold w.
  rewrite filled_wr; [by rewrite bind_Ok|]. unfold w. rewrite length_take. lia.
Qed.

Lemma put_all_filled out buf w :
  zlen w + zlen out <= zlen buf ->
  put_all out (filled buf w) (zlen w) = Ok (filled buf (w ++ out)).
Proof.
  revert w. induction out as [|c out IH]; intros w Hl; simpl in *.
  - by rewrite app_nil_r.
  - rewrite filled_wr by lia. rewrite bind_Ok.
    replace (zlen w + 1) with (zlen (w ++ [c])) by (rewrite length_app; simpl; lia).
    rewrite IH by (rewrite length_app; simpl; lia). by rewrite <- app_assoc.
Qed.

Lemma decimal_length32 v : 0 <= v < 4294967296 -> 0 < zlen (decimal v) <= 10.
Proof.
  intros Hv. unfold decimal. destruct (Z.eqb_spec v 0); [simpl; lia|].
  rewrite length_rev. destruct (digits_loop_32 v Hv) as [_ Hl]. cbn [rdigits].
  destruct (Z.ltb_spec 0 v); [|lia]. cbn [rdigits] in Hl. destruct (Z.ltb_spec 0 v); [|lia]. cbn [length] in *. lia.
Qed.

Lemma mini_itoa_filled v buf :
  0 <= v < 4294967296 -> 11 <= zlen buf -> mini_itoa v buf = Ok (filled buf (decimal v ++ [0])).
Proof.
  intros Hv Hb. unfold mini_itoa, decimal. destruct (Z.eqb_spec v 0).
  - pose proof (filled_wr buf [] 48 ltac:(simpl; lia)) as H48.
    change (filled buf []) with buf in H48. change (zlen []) with 0 in H48.
    rewrite H48, bind_Ok. apply (filled_wr buf [48]). simpl. lia.
  - destruct (digits_loop_32 v ltac:(lia)) as [-> Hlen]. rewrite bind_Ok.
    pose proof (put_all_filled (rev (rdigits 11 v)) buf []) as Hput.
    change (filled buf []) with buf in Hput. change (zlen []) with 0 in Hput.
    rewrite Hput by (rewrite length_rev; lia). rewrite bind_Ok.
    rewrite <- (length_rev (rdigits 11 v)). apply filled_wr. rewrite length_rev. lia.
Qed.

(** ** Properties *)

(** [memmove] copies [n] bytes correctly for every overlap of the two
    regions: it never leaves its object, the destination ends up with the
    bytes the source held before the call, and no other byte changes. *)
Theorem memmove_correct m d s n :
  0 <= d -> 0 <= s -> 0 <= n -> d + n <= zlen m -> s + n <= zlen m ->
  exists m', memmove m d s n = Ok m' /\ length m' = length m /\
    forall j, 0 <= j < zlen m ->
      get m' j = if (d <=? j) && (j <? d + n) then get m (s + (j - d)) else get m j.
Proof.
  intros Hd Hs Hn Hdn Hsn. unfold memmove.
  assert (forall m', moved m d s 0 n m' -> length m' = length m /\
    forall j, 0 <= j < zlen m ->
      get m' j = if (d <=? j) && (j <? d + n) then get m (s + (j - d)) else get m j) as Hm.
  { intros m' [Hl Hg]. split; [done|]. intros j Hj. rewrite Hg by lia.
    by replace (d + 0) with d by lia. }
  destruct (Z.ltb_spec d s).
  - destruct (copy_forward m d s n) as (m' & -> & H'); [lia..|left; lia|]. eauto.
  - destruct (copy_backward m d s n) as (m' & -> & H'); [lia..|]. eauto.
Qed.

(** C9: [mini_snprintf] writes exactly the text the format denotes, cut to
    [buffer_size - 1] bytes, followed by a terminator, and returns the number
    of bytes before it; the bytes of the buffer after the terminator keep their
    values, so it never writes past [buffer_size]. *)
Theorem mini_snprintf_truncates buf size fmt args out :
  0 < size <= zlen buf -> render fmt args = Some out ->
  let w := take (Z.to_nat (size - 1)) out in
  mini_snprintf (Some buf) size fmt args =
    Ok (Some (w ++ [0] ++ drop (length w + 1) buf), zlen w).
Proof.
  intros Hsz Hr w. rewrite (mini_snprintf_render _ _ _ _ out) by done.
  fold w. unfold filled. rewrite length_app, <- app_assoc. done.
Qed.

(** The decimal text that [mini_itoa] leaves in a buffer of at least 11
    bytes is read back by [strtol] as the same number, with [endptr] on the
    terminator, for every value that fits [long]. *)
Theorem itoa_strtol_roundtrip v buf :
  0 <= v <= 2147483647 -> 11 <= zlen buf ->
  exists rest, mini_itoa v buf = Ok (decimal v ++ 0 :: rest) /\
    strtol (decimal v ++ 0 :: rest) = Ok (v, 0 :: rest).
Proof.
  intros Hv Hb. exists (drop (length (decimal v ++ [0])) buf). rewrite mini_itoa_filled by lia.
  unfold filled. rewrite <- app_assoc. split; [done|]. apply strtol_decimal; [lia|].
  change (i8 0) with 0. unfold is_digit. lia.
Qed.

(** [mini_snprintf] prints no digits at all for a [%u] argument of 2^31 or
    more, because the value goes through a 32-bit signed [long]. *)
Theorem mini_snprintf_u_high_bit buf size z :
  2 <= size <= zlen buf -> 2147483648 <= z < 4294967296 ->
  mini_snprintf (Some buf) size (lit "%u") [VInt z] = Ok (Some ([0] ++ drop 1 buf), 0).
Proof.
  intros Hsz Hz. assert (i32 (u32 z) = z - 4294967296) as Hi.
  { rewrite u32_small by lia. unfold i32, swrap. change (2 ^ (32 - 1)) with 2147483648.
    change (2 ^ 32) with 4294967296. rewrite Z.mod_small by lia.
    destruct (Z.ltb_spec z 2147483648); lia. }
  rewrite (mini_snprintf_render _ _ _ _ []); [by rewrite take_nil|lia|].
  change (render (lit "%u") [VInt z]) with (t ← show_int false z; r ← Some []; Some (t ++ r)).
  unfold show_int. rewrite Hi. destruct (Z.ltb_spec (z - 4294967296) 0); [done|lia].
Qed.

(** [memcmp] reads only the first [n] bytes of each operand and returns 0
    exactly when they agree. *)
Theorem memcmp_zero_iff p1 p2 n :
  0 <= n -> n <= zlen p1 -> n <= zlen p2 ->
  exists r, memcmp p1 p2 n = Ok r /\
    (r = 0 <-> forall j, 0 <= j < n -> get p1 j = get p2 j).
Proof.
  intros Hn H1 H2. unfold memcmp.
  destruct (memcmp_loop_spec (Z.to_nat n) 0 p1 p2) as (r & Hr & Hiff); [lia..|].
  exists r. split; [done|]. rewrite Hiff.
  by replace (0 + Z.of_nat (Z.to_nat n)) with n by lia.
Qed.

(** *** Witnesses *)

Lemma memmove_correct_witness :
  exists m', memmove [1; 2; 3; 4; 5; 6] 2 1 3 = Ok m' /\ get m' 4 = 4.
Proof.
  destruct (memmove_correct [1; 2; 3; 4; 5; 6] 2 1 3) as (m' & H & _ & Hg);
    [lia|lia|lia|simpl; lia|simpl; lia|].
  exists m'. split; [exact H|]. rewrite Hg by (simpl; lia). reflexivity.
Defined.

Lemma mini_snprintf_truncates_witness :
  mini_snprintf (Some (replicate 8 1)) 6 (lit "v=%d %s")
    [VInt (-73); VStr (Some (lit "xyz"))] = Ok (Some (bytes "v=-73" ++ [0; 1; 1]), 5).
Proof.
  apply (mini_snprintf_truncates (replicate 8 1) 6 (lit "v=%d %s")
    [VInt (-73); VStr (Some (lit "xyz"))] (bytes "v=-73 xyz")).
  - vm_compute. split; [reflexivity|discriminate].
  - vm_compute. reflexivity.
Defined.

Lemma itoa_strtol_roundtrip_witness :
  exists rest, mini_itoa 1979 (replicate 16 7) = Ok (decimal 1979 ++ 0 :: rest) /\
    strtol (decimal 1979 ++ 0 :: rest) = Ok (1979, 0 :: rest).
Proof. apply itoa_strtol_roundtrip; [lia|simpl; lia]. Defined.

Lemma mini_snprintf_u_high_bit_witness :
  mini_snprintf (Some (replicate 4 9)) 4 (lit "%u") [VInt 3000000000] = Ok (Some [0; 9; 9; 9], 0).
Proof. apply (mini_snprintf_u_high_bit (replicate 4 9) 4); simpl; lia. Defined.

Lemma memcmp_zero_iff_witness :
  exists r, memcmp [1; 2; 3] [1; 2; 4] 3 = Ok r /\
    (r = 0 <-> forall j, 0 <= j < 3 -> get [1; 2; 3] j = get [1; 2; 4] j).
Proof. apply memcmp_zero_iff; simpl; lia. Defined.
