(* ===== verification/Hw.v ===== *)
(** * Hw: port I/O and the state monad of the drivers

    The inline-assembly wrappers [inb]/[outb]/[inw]/[outw]/[inl]/[outl] that
    serial.c, idt.c, diskio.c and rtl8139.c each define talk to hardware. The
    hardware is a parameter: a type of device states with the effect of every
    port access ([Ports]). A driver runs in the monad [M S] of computations
    over its own variables and the device. *)

From Stdlib Require Import ZArith Lia Bool.
From stdpp Require Import base list.
From S2P Require Import Prelude.
From stdpp Require Import options.

(** ** Stateful computations *)

Definition M (S A : Type) : Type := S -> res (A * S).

#[global] Instance M_ret {S} : MRet (M S) := fun _ a s => Ok (a, s).
#[global] Instance M_bind {S} : MBind (M S) := fun _ _ f m s =>
  match m s with
  | Ok (a, s') => f a s'
  | Fault => Fault | Spin => Spin | NoFuel => NoFuel
  end.

Definition gets {S A} (f : S -> A) : M S A := fun s => Ok (f s, s).
Definition modify {S} (f : S -> S) : M S unit := fun s => Ok (tt, f s).
Definition lift {S A} (r : res A) : M S A := fun s =>
  match r with Ok a => Ok (a, s) | Fault => Fault | Spin => Spin | NoFuel => NoFuel end.
Definition panic {S A} : M S A := fun _ => Spin.
Definition skip {S} : M S unit := mret tt.
Definition when {S} (b : bool) (m : M S unit) : M S unit := if b then m else skip.

(** [for (i = lo; i < lo + n; i++) body(i)] *)
Fixpoint m_for {S} (n : nat) (lo : Z) (body : Z -> M S unit) : M S unit :=
  match n with
  | O => skip
  | Datatypes.S n' => body lo ≫= fun _ => m_for n' (lo + 1) body
  end.

Lemma m_bind_Ok {S A B} (m : M S A) (f : A -> M S B) s a s' :
  m s = Ok (a, s') -> (m ≫= f) s = f a s'.
Proof. intros H. unfold mbind, M_bind. by rewrite H. Qed.

Lemma m_bind_inv {S A B} (m : M S A) (f : A -> M S B) s b s'' :
  (m ≫= f) s = Ok (b, s'') -> exists a s', m s = Ok (a, s') /\ f a s' = Ok (b, s'').
Proof.
  unfold mbind, M_bind. destruct (m s) as [[a s']| | |] eqn:E; intros H; try done. eauto.
Qed.

Lemma m_for_inv {S} (I : Z -> S -> Prop) n lo (body : Z -> M S unit) s :
  (forall i s, lo <= i < lo + Z.of_nat n -> I i s ->
     exists s', body i s = Ok (tt, s') /\ I (i + 1) s') ->
  I lo s ->
  exists s', m_for n lo body s = Ok (tt, s') /\ I (lo + Z.of_nat n) s'.
Proof.
  revert lo s. induction n as [|n IH]; intros lo s Hstep HI.
  - exists s. split; [done|]. rewrite Z.add_0_r. done.
  - destruct (Hstep lo s ltac:(lia) HI) as (s1 & Hb & HI1).
    cbn [m_for]. rewrite (m_bind_Ok _ _ _ _ _ Hb).
    destruct (IH (lo + 1) s1) as (s2 & Hr & HI2); [|done|].
    + intros i s' Hi. apply Hstep. lia.
    + exists s2. split; [done|].
      replace (lo + Z.of_nat (Datatypes.S n)) with (lo + 1 + Z.of_nat n) by lia. done.
Qed.

(** ** Ports *)

(** One access to a port and the device's next state. *)
Class Ports (D : Type) := {
  p_inb : Z -> D -> Z * D;
  p_outb : Z -> Z -> D -> D;
  p_inw : Z -> D -> Z * D;
  p_outw : Z -> Z -> D -> D;
  p_inl : Z -> D -> Z * D;
  p_outl : Z -> Z -> D -> D
}.

(** A state that contains a device. *)
Class HasDev (S D : Type) := {
  dev : S -> D;
  set_dev : D -> S -> S
}.

(** The laws of the two accessors, for proofs that follow the device. *)
Class HasDevLaws (S D : Type) `{HasDev S D} := {
  dev_set : forall d s, dev (set_dev d s) = d;
  set_set : forall d d' s, set_dev d (set_dev d' s) = set_dev d s;
  set_get : forall s, set_dev (dev s) s = s
}.

#[global] Instance dev_self (D : Type) : HasDev D D | 10 :=
  { dev := fun d => d; set_dev := fun d _ => d }.
#[global] Instance dev_self_laws (D : Type) : HasDevLaws D D | 10.
Proof. split; done. Qed.

Section Access.
Context {S D : Type} `{HasDev S D} `{Ports D}.

Definition inb (port : Z) : M S Z := fun s =>
  let r := p_inb (u16 port) (dev s) in Ok (u8 r.1, set_dev r.2 s).
Definition outb (port val : Z) : M S unit := fun s =>
  Ok (tt, set_dev (p_outb (u16 port) (u8 val) (dev s)) s).
Definition inw (port : Z) : M S Z := fun s =>
  let r := p_inw (u16 port) (dev s) in Ok (u16 r.1, set_dev r.2 s).
Definition outw (port val : Z) : M S unit := fun s =>
  Ok (tt, set_dev (p_outw (u16 port) (u16 val) (dev s)) s).
Definition inl (port : Z) : M S Z := fun s =>
  let r := p_inl (u16 port) (dev s) in Ok (u32 r.1, set_dev r.2 s).
Definition outl (port val : Z) : M S unit := fun s =>
  Ok (tt, set_dev (p_outl (u16 port) (u32 val) (dev s)) s).

End Access.

(** ** A recording device

    Reads are answered from a list of bytes (0 when it is exhausted); writes
    are logged, oldest first. It serves the concrete runs. *)

Record tape := mk_tape { t_in : list Z; t_log : list (Z * Z) }.

Definition tape_in (d : tape) : Z * tape :=
  match t_in d with
  | [] => (0, d)
  | v :: r => (v, mk_tape r (t_log d))
  end.
Definition tape_out (port v : Z) (d : tape) : tape := mk_tape (t_in d) (t_log d ++ [(port, v)]).

#[global] Instance tape_ports : Ports tape := {
  p_inb := fun _ => tape_in; p_outb := tape_out;
  p_inw := fun _ => tape_in; p_outw := tape_out;
  p_inl := fun _ => tape_in; p_outl := tape_out
}.
