(* ===== verification/Cpu.v ===== *)
(** * Cpu: descriptor tables (gdt.c, idt.c)

    The packed entries of the global and interrupt descriptor tables, the
    routines that fill them, and the decoding the processor applies. *)

From Stdlib Require Import ZArith Lia Bool.
From stdpp Require Import base list.
From S2P Require Import Prelude.
From stdpp Require Import options.

(** ** Global descriptor table *)

Record gdt_entry := mk_gdt {
  limit_low : Z; base_low : Z; base_middle : Z; access : Z; granularity : Z; base_high : Z
}.

Record gdt_ptr := mk_gdt_ptr { gp_limit : Z; gp_base : Z }.

Definition gdt_zero : gdt_entry := mk_gdt 0 0 0 0 0 0.

(** [gdt_set_gate]: writing outside the five entries is out of bounds. *)
Definition gdt_set_gate (num base limit acc gran : Z) (t : list gdt_entry)
  : res (list gdt_entry) :=
  if (0 <=? num) && (num <? zlen t) then
    let g := Z.land (Z.shiftr limit 16) 15 in
    Ok (<[Z.to_nat num :=
      mk_gdt (Z.land limit 65535) (Z.land base 65535) (Z.land (Z.shiftr base 16) 255)
             acc (Z.lor g (Z.land gran 240)) (Z.land (Z.shiftr base 24) 255)]> t)
  else Fault.

(** [init_gdt]: [addr] is the address of [gdt_entries]. *)
Definition init_gdt (addr : Z) : res (gdt_ptr * list gdt_entry) :=
  let p := mk_gdt_ptr (u16 (8 * 5 - 1)) addr in
  t ← gdt_set_gate 0 0 0 0 0 (replicate 5 gdt_zero);
  t ← gdt_set_gate 1 0 4294967295 154 207 t;
  t ← gdt_set_gate 2 0 4294967295 146 207 t;
  t ← gdt_set_gate 3 0 4294967295 250 207 t;
  t ← gdt_set_gate 4 0 4294967295 242 207 t;
  Ok (p, t).

(** How the processor reads an entry back. *)
Definition gdt_base (e : gdt_entry) : Z :=
  Z.lor (base_low e) (Z.lor (Z.shiftl (base_middle e) 16) (Z.shiftl (base_high e) 24)).
Definition gdt_limit (e : gdt_entry) : Z :=
  Z.lor (limit_low e) (Z.shiftl (Z.land (granularity e) 15) 16).
Definition gdt_flags (e : gdt_entry) : Z := Z.shiftr (granularity e) 4.
(** Limit in bytes: page-granular when the G flag is set. *)
Definition gdt_limit_bytes (e : gdt_entry) : Z :=
  if Z.testbit (granularity e) 7 then gdt_limit e * 4096 + 4095 else gdt_limit e.

(** ** Interrupt descriptor table *)

Record idt_entry := mk_idt {
  i_base_low : Z; i_sel : Z; i_always0 : Z; i_flags : Z; i_base_high : Z
}.

Record idt_ptr := mk_idt_ptr { ip_limit : Z; ip_base : Z }.

Definition idt_zero : idt_entry := mk_idt 0 0 0 0 0.

Definition idt_set_gate (num base sel flags : Z) (t : list idt_entry) : res (list idt_entry) :=
  if u8 num <? zlen t then
    Ok (<[Z.to_nat (u8 num) :=
      mk_idt (Z.land base 65535) sel 0 flags (Z.land (Z.shiftr base 16) 65535)]> t)
  else Fault.

(** Addresses of the assembly stubs of boot.asm. *)
Record stubs := mk_stubs { isr0 : Z; isr3 : Z; irq0 : Z; irq1 : Z; irq12 : Z; irq14 : Z }.

(** The table part of [init_idt] before [pic_remap]. *)
Definition init_idt_exceptions (st : stubs) (t : list idt_entry) : res (list idt_entry) :=
  t ← for_up 256 0 (fun i t => idt_set_gate i 0 0 0 t) t;
  t ← idt_set_gate 0 (isr0 st) 8 142 t;
  idt_set_gate 3 (isr3 st) 8 142 t.

(** The table part of [init_idt] after [pic_remap]. *)
Definition init_idt_irqs (st : stubs) (t : list idt_entry) : res (list idt_entry) :=
  t ← idt_set_gate 32 (irq0 st) 8 142 t;
  t ← idt_set_gate 33 (irq1 st) 8 142 t;
  t ← idt_set_gate 44 (irq12 st) 8 142 t;
  idt_set_gate 46 (irq14 st) 8 142 t.

Definition idt_pointer (addr : Z) : idt_ptr := mk_idt_ptr (u16 (8 * 256 - 1)) addr.

Definition idt_base (e : idt_entry) : Z := Z.lor (i_base_low e) (Z.shiftl (i_base_high e) 16).

(** ** Decoding lemmas *)

Lemma split_32 b :
  0 <= b < 4294967296 ->
  Z.lor (Z.land b 65535) (Z.shiftl (Z.land (Z.shiftr b 16) 65535) 16) = b.
Proof.
  intros Hb. rewrite !land_65535, Z.shiftr_div_pow2 by lia.
  rewrite lor_disjoint_add by (change (2 ^ 16) with 65536; dlia || lia).
  change (2 ^ 16) with 65536. rewrite (Z.mod_small (b / 65536)) by dlia. dlia.
Qed.

Lemma split_24 b :
  0 <= b < 4294967296 ->
  Z.lor (Z.land b 65535)
    (Z.lor (Z.shiftl (Z.land (Z.shiftr b 16) 255) 16) (Z.shiftl (Z.land (Z.shiftr b 24) 255) 24)) = b.
Proof.
  intros Hb. rewrite land_65535, !land_255, !Z.shiftr_div_pow2 by lia.
  rewrite (Z.shiftl_mul_pow2 _ 16) by lia.
  rewrite (lor_disjoint_add _ _ 24).
  2: lia. 2: { change (2 ^ 16) with 65536; change (2 ^ 24) with 16777216; dlia. }
  replace (b / 2 ^ 16 mod 256 * 2 ^ 16 + b / 2 ^ 24 mod 256 * 2 ^ 24)
    with (Z.shiftl (b / 65536) 16).
  - rewrite lor_disjoint_add by (change (2 ^ 16) with 65536; dlia || lia).
    change (2 ^ 16) with 65536. dlia.
  - rewrite Z.shiftl_mul_pow2 by lia.
    change (2 ^ 16) with 65536; change (2 ^ 24) with 16777216. dlia.
Qed.

Lemma split_20 l g :
  0 <= l < 4294967296 -> 
  Z.lor (Z.land l 65535)
    (Z.shiftl (Z.land (Z.lor (Z.land (Z.shiftr l 16) 15) (Z.land g 240)) 15) 16) = l mod 1048576.
Proof.
  intros Hl. rewrite Z.land_lor_distr_l, <- !Z.land_assoc.
  change (Z.land 240 15) with 0. change (Z.land 15 15) with 15. rewrite Z.land_0_r, Z.lor_0_r.
  rewrite land_65535. change 15 with (Z.ones 4). rewrite Z.land_ones by lia.
  rewrite Z.shiftr_div_pow2 by lia.
  rewrite lor_disjoint_add by (change (2 ^ 16) with 65536; dlia || lia).
  change (2 ^ 16) with 65536. change (2 ^ 4) with 16. dlia.
Qed.

Lemma flags_nibble l g :
  0 <= g < 256 ->
  Z.shiftr (Z.lor (Z.land (Z.shiftr l 16) 15) (Z.land g 240)) 4 = g / 16.
Proof.
  intros Hg. rewrite Z.shiftr_lor, !Z.shiftr_land.
  change (Z.shiftr 15 4) with 0. change (Z.shiftr 240 4) with (Z.ones 4).
  rewrite Z.land_0_r, Z.lor_0_l, Z.land_ones, Z.shiftr_div_pow2 by lia.
  change (2 ^ 4) with 16. apply Z.mod_small. dlia.
Qed.

(** ** Properties *)

(** Every GDT entry that [gdt_set_gate] writes decodes, the way the
    processor reads it, to the base, the low 20 bits of the limit, the access
    byte and the flag nibble it was called with, and no other entry changes. *)
Theorem gdt_gate_decodes num base limit acc gran t :
  0 <= num < zlen t -> 0 <= base < 4294967296 -> 0 <= limit < 4294967296 -> 0 <= gran < 256 ->
  exists e, gdt_set_gate num base limit acc gran t = Ok (<[Z.to_nat num := e]> t) /\
    gdt_base e = base /\ gdt_limit e = limit mod 1048576 /\
    access e = acc /\ gdt_flags e = gran / 16.
Proof.
  intros Hn Hb Hl Hg. unfold gdt_set_gate.
  destruct (Z.leb_spec 0 num); [|lia]. destruct (Z.ltb_spec num (zlen t)); [|lia]. simpl.
  eexists. split; [done|]. unfold gdt_base, gdt_limit, gdt_flags. simpl.
  rewrite split_24, split_20, flags_nibble by lia. done.
Qed.

(** [init_gdt] installs the null descriptor and four flat segments: each
    starts at 0 and spans all 4 GiB, with the kernel/user, code/data access
    bytes in the order boot.asm's selectors 0x08 and 0x10 rely on. *)
Theorem init_gdt_flat addr :
  exists t, init_gdt addr = Ok (mk_gdt_ptr 39 addr, t) /\ length t = 5%nat /\
    t !! 0%nat = Some gdt_zero /\
    forall i acc, (i, acc) ∈ [(1%nat, 154); (2%nat, 146); (3%nat, 250); (4%nat, 242)] ->
      exists e, t !! i = Some e /\ gdt_base e = 0 /\
        gdt_limit_bytes e = 4294967295 /\ access e = acc.
Proof.
  eexists. split; [reflexivity|]. split; [done|]. split; [done|].
  intros i acc H. repeat (apply elem_of_cons in H as [H|H]; [simplify_eq; eexists; by split|]).
  by apply not_elem_of_nil in H.
Qed.

Lemma idt_set_gate_len num base sel flags t t' :
  idt_set_gate num base sel flags t = Ok t' -> length t' = length t.
Proof.
  unfold idt_set_gate. destruct (u8 num <? zlen t); [|done].
  intros [= <-]. by rewrite length_insert.
Qed.

Lemma idt_clear t :
  length t = 256%nat ->
  for_up 256 0 (fun i t => idt_set_gate i 0 0 0 t) t = Ok (replicate 256 idt_zero).
Proof.
  intros Hlen.
  destruct (for_up_inv (fun i t' => length t' = 256%nat /\
      forall j, (j < Z.to_nat i)%nat -> t' !! j = Some idt_zero) 256 0
      (fun i t => idt_set_gate i 0 0 0 t) t) as (t' & Hr & Hl & Hz).
  - intros i t' Hi [Hl Hz]. unfold idt_set_gate. rewrite u8_small by lia.
    destruct (Z.ltb_spec i (zlen t')); [|lia]. eexists. split; [done|].
    split; [by rewrite length_insert|]. intros j Hj.
    destruct (decide (j = Z.to_nat i)) as [->|Hne].
    + rewrite list_lookup_insert_eq by lia. done.
    + rewrite list_lookup_insert_ne by lia. apply Hz. lia.
  - split; [done|]. intros j Hj. simpl in Hj. lia.
  - rewrite Hr. f_equal. apply list_eq_same_length with (n := 256%nat); [done|done|].
    intros j x y Hj Hx Hy. rewrite Hz in Hx by (simpl; lia).
    apply lookup_replicate in Hy as [-> _]. congruence.
Qed.

(** The two table phases of [init_idt] leave 256 entries: the six used vectors
    decode to their stubs, all others are clear. *)
Lemma idt_tables st t :
  length t = 256%nat ->
  Forall (fun a => 0 <= a < 4294967296) [isr0 st; isr3 st; irq0 st; irq1 st; irq12 st; irq14 st] ->
  exists t1 t2, init_idt_exceptions st t = Ok t1 /\ init_idt_irqs st t1 = Ok t2 /\
    length t2 = 256%nat /\
    (forall v a, (v, a) ∈ [(0%nat, isr0 st); (3%nat, isr3 st); (32%nat, irq0 st);
                           (33%nat, irq1 st); (44%nat, irq12 st); (46%nat, irq14 st)] ->
       exists e, t2 !! v = Some e /\ idt_base e = a /\ i_sel e = 8 /\ i_flags e = 142) /\
    (forall v, (v < 256)%nat -> v ∉ [0; 3; 32; 33; 44; 46]%nat -> t2 !! v = Some idt_zero).
Proof.
  intros Hlen Ha. unfold init_idt_exceptions, init_idt_irqs.
  rewrite idt_clear by done. rewrite bind_Ok. 
  eexists _, _. split; [reflexivity|]. split; [reflexivity|]. split; [reflexivity|]. split.
  - intros v a H. rewrite !Forall_cons in Ha. destruct_and!.
    repeat (apply elem_of_cons in H as [H|H];
      [injection H as -> ->; eexists; split; [reflexivity|];
       split; [by apply split_32|done]|]).
    by apply not_elem_of_nil in H.
  - intros v Hv Hni. rewrite !not_elem_of_cons in Hni.
    change (u8 0) with 0; change (u8 3) with 3; change (u8 32) with 32; change (u8 33) with 33;
      change (u8 44) with 44; change (u8 46) with 46.
    rewrite !list_lookup_insert_ne by (simpl; lia). by apply lookup_replicate_2.
Qed.

(** *** Witnesses *)

Lemma gdt_gate_decodes_witness :
  exists e, gdt_set_gate 1 305419896 4294967295 154 207 (replicate 5 gdt_zero) =
      Ok (<[1%nat := e]> (replicate 5 gdt_zero)) /\
    gdt_base e = 305419896 /\ gdt_limit e = 4294967295 mod 1048576 /\
    access e = 154 /\ gdt_flags e = 207 / 16.
Proof. apply (gdt_gate_decodes 1); simpl; lia. Defined.
