(* ===== verification/Font.v ===== *)
(** * Font: the 8x8 bitmap font (font.h)

    [font_bitmap] row by row, indexed by ASCII code; codes without a
    designated initialiser are blank. *)

From Stdlib Require Import ZArith.
From stdpp Require Import base list.
From S2P Require Import Prelude.
From stdpp Require Import options.

Definition font_bitmap : list (list Z) := [
  [0; 0; 0; 0; 0; 0; 0; 0];
  [0; 0; 0; 0; 0; 0; 0; 0];
  [0; 0; 0; 0; 0; 0; 0; 0];
  [0; 0; 0; 0; 0; 0; 0; 0];
  [0; 0; 0; 0; 0; 0; 0; 0];
  [0; 0; 0; 0; 0; 0; 0; 0];
  [0; 0; 0; 0; 0; 0; 0; 0];
  [0; 0; 0; 0; 0; 0; 0; 0];
  [0; 0; 0; 0; 0; 0; 0; 0];
  [0; 0; 0; 0; 0; 0; 0; 0];
  [0; 0; 0; 0; 0; 0; 0; 0];
  [0; 0; 0; 0; 0; 0; 0; 0];
  [0; 0; 0; 0; 0; 0; 0; 0];
  [0; 0; 0; 0; 0; 0; 0; 0];
  [0; 0; 0; 0; 0; 0; 0; 0];
  [0; 0; 0; 0; 0; 0; 0; 0];
  [0; 0; 0; 0; 0; 0; 0; 0];
  [0; 0; 0; 0; 0; 0; 0; 0];
  [0; 0; 0; 0; 0; 0; 0; 0];
  [0; 0; 0; 0; 0; 0; 0; 0];
  [0; 0; 0; 0; 0; 0; 0; 0];
  [0; 0; 0; 0; 0; 0; 0; 0];
  [0; 0; 0; 0; 0; 0; 0; 0];
  [0; 0; 0; 0; 0; 0; 0; 0];
  [0; 0; 0; 0; 0; 0; 0; 0];
  [0; 0; 0; 0; 0; 0; 0; 0];
  [0; 0; 0; 0; 0; 0; 0; 0];
  [0; 0; 0; 0; 0; 0; 0; 0];
  [0; 0; 0; 0; 0; 0; 0; 0];
  [0; 0; 0; 0; 0; 0; 0; 0];
  [0; 0; 0; 0; 0; 0; 0; 0];
  [0; 0; 0; 0; 0; 0; 0; 0];
  [0; 0; 0; 0; 0; 0; 0; 0];
  [8; 8; 8; 8; 8; 0; 8; 0];
  [36; 36; 36; 0; 0; 0; 0; 0];
  [36; 36; 126; 36; 126; 36; 36; 0];
  [8; 62; 72; 60; 10; 62; 8; 0];
  [66; 70; 8; 16; 32; 98; 66; 0];
  [28; 34; 36; 24; 42; 36; 26; 0];
  [8; 8; 16; 0; 0; 0; 0; 0];
  [12; 16; 32; 32; 32; 16; 12; 0];
  [48; 8; 4; 4; 4; 8; 48; 0];
  [0; 20; 8; 62; 8; 20; 0; 0];
  [0; 8; 8; 62; 8; 8; 0; 0];
  [0; 0; 0; 0; 0; 12; 4; 8];
  [0; 0; 0; 62; 0; 0; 0; 0];
  [0; 0; 0; 0; 0; 12; 12; 0];
  [0; 2; 4; 8; 16; 32; 64; 0];
  [28; 34; 38; 42; 50; 34; 28; 0];
  [8; 24; 8; 8; 8; 8; 28; 0];
  [28; 34; 2; 12; 16; 32; 62; 0];
  [62; 2; 4; 14; 4; 34; 28; 0];
  [4; 12; 20; 36; 62; 4; 4; 0];
  [62; 32; 60; 2; 2; 34; 28; 0];
  [28; 32; 60; 34; 34; 34; 28; 0];
  [62; 2; 4; 8; 16; 16; 16; 0];
  [28; 34; 34; 28; 34; 34; 28; 0];
  [28; 34; 34; 30; 2; 2; 28; 0];
  [0; 12; 12; 0; 12; 12; 0; 0];
  [0; 12; 12; 0; 12; 4; 8; 0];
  [4; 8; 16; 32; 16; 8; 4; 0];
  [0; 0; 62; 0; 62; 0; 0; 0];
  [32; 16; 8; 4; 8; 16; 32; 0];
  [28; 34; 2; 4; 8; 0; 8; 0];
  [28; 34; 74; 86; 78; 32; 28; 0];
  [16; 40; 68; 68; 124; 68; 68; 0];
  [56; 36; 36; 56; 36; 36; 56; 0];
  [24; 36; 64; 64; 64; 36; 24; 0];
  [56; 36; 36; 36; 36; 36; 56; 0];
  [124; 64; 64; 120; 64; 64; 124; 0];
  [124; 64; 64; 120; 64; 64; 64; 0];
  [24; 36; 64; 78; 68; 36; 24; 0];
  [68; 68; 68; 124; 68; 68; 68; 0];
  [62; 8; 8; 8; 8; 8; 62; 0];
  [31; 2; 2; 2; 2; 34; 28; 0];
  [68; 76; 80; 96; 80; 76; 68; 0];
  [64; 64; 64; 64; 64; 64; 124; 0];
  [68; 108; 84; 84; 68; 68; 68; 0];
  [68; 100; 84; 76; 68; 68; 68; 0];
  [56; 68; 68; 68; 68; 68; 56; 0];
  [56; 36; 36; 56; 64; 64; 64; 0];
  [56; 68; 68; 68; 76; 66; 61; 0];
  [56; 36; 36; 56; 48; 40; 68; 0];
  [28; 34; 48; 28; 2; 34; 28; 0];
  [126; 8; 8; 8; 8; 8; 8; 0];
  [68; 68; 68; 68; 68; 68; 56; 0];
  [68; 68; 68; 68; 40; 16; 16; 0];
  [68; 68; 68; 84; 84; 108; 68; 0];
  [68; 68; 40; 16; 40; 68; 68; 0];
  [68; 68; 40; 16; 16; 16; 16; 0];
  [126; 2; 4; 8; 16; 32; 126; 0];
  [60; 32; 32; 32; 32; 32; 60; 0];
  [0; 64; 32; 16; 8; 4; 2; 0];
  [60; 4; 4; 4; 4; 4; 60; 0];
  [8; 20; 34; 0; 0; 0; 0; 0];
  [0; 0; 0; 0; 0; 0; 126; 0];
  [16; 8; 4; 0; 0; 0; 0; 0];
  [0; 0; 60; 2; 62; 66; 62; 0];
  [64; 64; 92; 98; 66; 98; 92; 0];
  [0; 0; 60; 64; 64; 66; 60; 0];
  [2; 2; 58; 70; 66; 70; 58; 0];
  [0; 0; 60; 66; 126; 64; 60; 0];
  [28; 34; 32; 120; 32; 32; 32; 0];
  [0; 0; 58; 70; 58; 2; 60; 64];
  [64; 64; 92; 98; 66; 66; 66; 0];
  [8; 0; 24; 8; 8; 8; 28; 0];
  [4; 0; 12; 4; 4; 4; 36; 24];
  [64; 64; 68; 72; 112; 72; 68; 0];
  [24; 8; 8; 8; 8; 8; 28; 0];
  [0; 0; 108; 84; 84; 68; 68; 0];
  [0; 0; 92; 98; 66; 66; 66; 0];
  [0; 0; 60; 66; 66; 66; 60; 0];
  [0; 0; 92; 98; 66; 98; 92; 64];
  [0; 0; 58; 70; 66; 70; 58; 2];
  [0; 0; 92; 98; 64; 64; 64; 0];
  [0; 0; 62; 64; 60; 2; 124; 0];
  [8; 8; 62; 8; 8; 10; 4; 0];
  [0; 0; 66; 66; 66; 70; 58; 0];
  [0; 0; 66; 66; 36; 36; 16; 0];
  [0; 0; 68; 68; 84; 84; 40; 0];
  [0; 0; 66; 36; 16; 36; 66; 0];
  [0; 0; 66; 66; 62; 2; 60; 64];
  [0; 0; 126; 8; 16; 32; 126; 0];
  [12; 16; 16; 32; 16; 16; 12; 0];
  [8; 8; 8; 8; 8; 8; 8; 0];
  [48; 8; 8; 4; 8; 8; 48; 0];
  [50; 76; 0; 0; 0; 0; 0; 0];
  [0; 0; 0; 0; 0; 0; 0; 0]
].

(** [font_bitmap[c][row]] *)
Definition font_row (c row : Z) : res Z :=
  glyph ← or_fault (font_bitmap !! Z.to_nat c); rd glyph row.

Lemma font_row_ok c row : 0 <= c < 128 -> 0 <= row < 8 -> exists d, font_row c row = Ok d.
Proof.
  intros Hc Hr. unfold font_row.
  assert (Forall (fun g : list Z => length g = 8%nat) font_bitmap) as Hf
    by (unfold font_bitmap; repeat constructor).
  destruct (lookup_lt_is_Some_2 font_bitmap (Z.to_nat c)) as [g Hg];
    [change (length font_bitmap) with 128%nat; lia|].
  rewrite Hg. cbn [or_fault]. rewrite bind_Ok.
  rewrite Forall_lookup in Hf. specialize (Hf _ _ Hg). simpl in Hf.
  rewrite rd_in by lia. eauto.
Qed.
