(* ===== verification/Gfx.v ===== *)
(** * Gfx: pixels, clipping and blending (kernel.c, idt.c, font.h, gui.c)

    A frame buffer is an array of 32-bit words; [putpixel] computes a byte
    address from the pitch. The drawing loops all visit a rectangle pixel by
    pixel; [for_rect_painted] gives their common behaviour. *)

From Stdlib Require Import ZArith Lia Bool.
From stdpp Require Import base list.
From S2P Require Import Prelude Font.
From stdpp Require Import options.

(** [putpixel]: addresses are computed modulo 2^32; the word must be aligned
    and inside the buffer. *)
Definition putpixel (fb : list Z) (x y color pitch : Z) : res (list Z) :=
  let off := u32 (u32 (y * pitch) + x * 4) in
  if off mod 4 =? 0 then wr fb (off / 4) color else Fault.

(** The nested loops over the rows and columns of a rectangle. *)
Definition for_rect (x y w h : Z) (body : Z -> Z -> list Z -> res (list Z)) (fb : list Z)
  : res (list Z) :=
  for_up (Z.to_nat h) y (fun yy fb =>
    for_up (Z.to_nat w) x (fun xx fb => body xx yy fb) fb) fb.

(** ** Drawing in the interrupt handler (idt.c) *)

(** [idt_draw_rect]; [None] is a null [gfx_framebuffer]. *)
Definition idt_draw_rect (fb : option (list Z)) (gfx_width gfx_height gfx_pitch : Z)
  (x y w h color : Z) : res (option (list Z)) :=
  match fb with
  | None => Ok None
  | Some fb =>
      fb' ← for_rect x y w h (fun cx cy fb =>
        if (0 <=? cx) && (cx <? i32 gfx_width) && (0 <=? cy) && (cy <? i32 gfx_height)
        then putpixel fb cx cy color gfx_pitch
        else Ok fb) fb;
      Ok (Some fb')
  end.

(** ** Characters (font.h) *)

Definition draw_char (fb : list Z) (x y c color pitch : Z) : res (list Z) :=
  if 127 <? u8 c then Ok fb else
  for_up 8 0 (fun row fb =>
    row_data ← font_row (u8 c) row;
    for_up 8 0 (fun col fb =>
      if truth (Z.land row_data (Z.shiftr 128 col))
      then putpixel fb (x + col) (y + row) color pitch
      else Ok fb) fb) fb.

(** ** The Nuklear back end (gui.c) *)

Record scissor := mk_scissor { scissor_x : Z; scissor_y : Z; scissor_w : Z; scissor_h : Z }.

Record rgba := mk_rgba { c_r : Z; c_g : Z; c_b : Z; c_a : Z }.

(** [(r << 16) | (g << 8) | b] *)
Definition pack (r g b : Z) : Z := Z.lor (Z.lor (Z.shiftl r 16) (Z.shiftl g 8)) b.

(** [uint8_t out = ((c * a) + (bg * (255 - a))) / 255] *)
Definition blend_channel (c bg a : Z) : Z := u8 (Z.quot (c * a + bg * (255 - a)) 255).

Definition blend (col : rgba) (bg_pixel : Z) : Z :=
  let bg_r := u8 (Z.land (Z.shiftr bg_pixel 16) 255) in
  let bg_g := u8 (Z.land (Z.shiftr bg_pixel 8) 255) in
  let bg_b := u8 (Z.land bg_pixel 255) in
  pack (blend_channel (c_r col) bg_r (c_a col))
       (blend_channel (c_g col) bg_g (c_a col))
       (blend_channel (c_b col) bg_b (c_a col)).

Definition in_scissor (s : scissor) (x y : Z) : bool :=
  (scissor_x s <=? x) && (x <? scissor_x s + scissor_w s) &&
  (scissor_y s <=? y) && (y <? scissor_y s + scissor_h s).

Definition in_screen (gfx_width gfx_height x y : Z) : bool :=
  (0 <=? x) && (x <? i32 gfx_width) && (0 <=? y) && (y <? i32 gfx_height).

(** The opaque/blended/transparent write at the end of both rectangle loops. *)
Definition plot (gfx_width : Z) (col : rgba) (x y : Z) (fb : list Z) : res (list Z) :=
  let target_pitch := u32 (gfx_width * 4) in
  if c_a col =? 255 then putpixel fb x y (pack (c_r col) (c_g col) (c_b col)) target_pitch
  else if 0 <? c_a col then
    bg ← rd fb (u32 (u32 (y * gfx_width) + x));
    putpixel fb x y (blend col bg) target_pitch
  else Ok fb.

Definition idt_draw_rect_target (gfx_width gfx_height : Z) (s : scissor)
  (x y w h : Z) (col : rgba) (fb : list Z) : res (list Z) :=
  for_rect x y w h (fun cx cy fb =>
    if in_scissor s cx cy then
      if in_screen gfx_width gfx_height cx cy then plot gfx_width col cx cy fb else Ok fb
    else Ok fb) fb.

Definition ROUND_TOP_LEFT : Z := 1.
Definition ROUND_TOP_RIGHT : Z := 2.
Definition ROUND_BOTTOM_LEFT : Z := 4.
Definition ROUND_BOTTOM_RIGHT : Z := 8.
Definition ROUND_ALL_CORNERS : Z := 15.

(** The corner a pixel belongs to and the centre of its arc, if any. *)
Definition corner_centre (x y w h rounding corner_flags cx cy : Z) : option (Z * Z) :=
  if truth (Z.land corner_flags ROUND_TOP_LEFT) && ((cx <? x + rounding) && (cy <? y + rounding))
  then Some (x + rounding, y + rounding)
  else if truth (Z.land corner_flags ROUND_TOP_RIGHT) &&
          ((x + w - rounding <=? cx) && (cy <? y + rounding))
  then Some (x + w - rounding - 1, y + rounding)
  else if truth (Z.land corner_flags ROUND_BOTTOM_LEFT) &&
          ((cx <? x + rounding) && (y + h - rounding <=? cy))
  then Some (x + rounding, y + h - rounding - 1)
  else if truth (Z.land corner_flags ROUND_BOTTOM_RIGHT) &&
          ((x + w - rounding <=? cx) && (y + h - rounding <=? cy))
  then Some (x + w - rounding - 1, y + h - rounding - 1)
  else None.

(** Whether the rounded-rectangle loop skips ([continue]) a pixel. *)
Definition rounded_skip (x y w h rounding : Z) (filled : bool) (corner_flags cx cy : Z) : bool :=
  match corner_centre x y w h rounding corner_flags cx cy with
  | Some (ox, oy) =>
      let dx := cx - ox in let dy := cy - oy in
      let dist_sq := i32 (dx * dx + dy * dy) in
      let r_sq := i32 (rounding * rounding) in
      if filled then r_sq <? dist_sq
      else let inner_r := rounding - 1 in (r_sq <? dist_sq) || (dist_sq <? i32 (inner_r * inner_r))
  | None =>
      negb filled && ((x <? cx) && (cx <? x + w - 1) && (y <? cy) && (cy <? y + h - 1))
  end.

Definition idt_draw_rect_rounded_target (gfx_width gfx_height : Z) (s : scissor)
  (x y w h rounding : Z) (col : rgba) (filled : bool) (corner_flags : Z) (fb : list Z)
  : res (list Z) :=
  for_rect x y w h (fun cx cy fb =>
    if in_scissor s cx cy then
      if in_screen gfx_width gfx_height cx cy then
        if rounded_skip x y w h rounding filled corner_flags cx cy then Ok fb
        else plot gfx_width col cx cy fb
      else Ok fb
    else Ok fb) fb.

(** One glyph of an NK_COMMAND_TEXT: every set bit is a 1x1 rectangle. *)
Definition draw_glyph (gfx_width gfx_height : Z) (s : scissor) (char_x char_y ch : Z) (col : rgba)
  (fb : list Z) : res (list Z) :=
  for_up 8 0 (fun row fb =>
    for_up 8 0 (fun c fb =>
      let pixel_x := char_x + c in let pixel_y := char_y + row in
      if in_scissor s pixel_x pixel_y then
        if u8 ch <=? 127 then
          row_data ← font_row (u8 ch) row;
          if truth (Z.land row_data (Z.shiftr 128 c))
          then idt_draw_rect_target gfx_width gfx_height s pixel_x pixel_y 1 1 col fb
          else Ok fb
        else Ok fb
      else Ok fb) fb) fb.

(** The pixel loop of NK_COMMAND_IMAGE. *)
Definition draw_image (gfx_width gfx_height : Z) (s : scissor)
  (start_x start_y img_w img_h : Z) (source_pixels : list Z) (fb : list Z) : res (list Z) :=
  for_rect 0 0 img_w img_h (fun xo yo fb =>
    let pixel_x := start_x + xo in let pixel_y := start_y + yo in
    if in_scissor s pixel_x pixel_y then
      if in_screen gfx_width gfx_height pixel_x pixel_y then
        raw ← rd source_pixels (yo * img_w + xo);
        let a := u8 (Z.land (Z.shiftr raw 24) 255) in
        if a =? 255 then
          putpixel fb pixel_x pixel_y (Z.land raw 16777215) (u32 (gfx_width * 4))
        else if 0 <? a then
          bg ← rd fb (u32 (u32 (pixel_y * gfx_width) + pixel_x));
          putpixel fb pixel_x pixel_y
            (blend (mk_rgba (u8 (Z.land (Z.shiftr raw 16) 255)) (u8 (Z.land (Z.shiftr raw 8) 255))
                            (u8 (Z.land raw 255)) a) bg)
            (u32 (gfx_width * 4))
        else Ok fb
      else Ok fb
    else Ok fb) fb.

(** ** Painting a rectangle *)

(** The word of pixel (x, y) of a [W]-pixel-wide buffer. *)
Definition pix (W : Z) (fb : list Z) (x y : Z) : Z := get fb (y * W + x).

Lemma pix_index_inj W x y x' y' :
  0 <= x < W -> 0 <= x' < W -> y * W + x = y' * W + x' -> x = x' /\ y = y'.
Proof. intros Hx Hx' H. assert (y = y') by nia. subst. lia. Qed.

Lemma pix_index_bound W H x y : 0 <= x < W -> 0 <= y < H -> 0 <= y * W + x < W * H.
Proof. nia. Qed.

Section Paint.
#[local] Set Default Proof Using "Type".
Context (W H : Z).
Context (c : Z -> Z -> bool) (g : Z -> Z -> Z -> Z).

(** [fb'] is [fb] with [g] applied to the pixels of the region [R] that
    satisfy [c]; words past the screen are untouched. *)
Definition painted (R : Z -> Z -> bool) (fb fb' : list Z) : Prop :=
  length fb' = length fb /\
  (forall x y, 0 <= x < W -> 0 <= y < H ->
     pix W fb' x y = if R x y && c x y then g x y (pix W fb x y) else pix W fb x y) /\
  (forall i, W * H <= i -> get fb' i = get fb i).

(** A loop body that updates its own pixel when [c] holds and nothing else,
    for the pixels of the region [R]. *)
Definition plots (R : Z -> Z -> bool) (body : Z -> Z -> list Z -> res (list Z)) : Prop :=
  forall x y fb, R x y = true -> W * H <= zlen fb ->
    body x y fb = Ok (if c x y then <[Z.to_nat (y * W + x) := g x y (pix W fb x y)]> fb else fb).

Definition clipped : Prop := forall x y, c x y = true -> 0 <= x < W /\ 0 <= y < H.

Lemma painted_none R fb : (forall x y, R x y = false) -> painted R fb fb.
Proof. intros HR. split; [done|]. split; [|done]. intros x y _ _. by rewrite HR. Qed.

Lemma painted_ext R R' fb fb' :
  (forall x y, R x y = R' x y) -> painted R fb fb' -> painted R' fb fb'.
Proof.
  intros HR (Hl & Hp & Ho). split; [done|]. split; [|done].
  intros x y Hx Hy. rewrite <- HR. auto.
Qed.

Lemma painted_step body Q R R' fb fb1 x y :
  plots Q body -> Q x y = true -> clipped -> W * H <= zlen fb -> painted R fb fb1 -> R x y = false ->
  (forall x' y', R' x' y' = R x' y' || ((x' =? x) && (y' =? y))) ->
  exists fb2, body x y fb1 = Ok fb2 /\ painted R' fb fb2.
Proof.
  intros Hb HQ Hclip Hlen (Hl & Hp & Ho) HR HR'. rewrite Hb by first [done|lia]. eexists. split; [done|].
  destruct (c x y) eqn:Hc.
  - destruct (Hclip _ _ Hc) as [Hx Hy]. pose proof (pix_index_bound W H x y Hx Hy).
    split; [by rewrite length_insert|]. split.
    + intros x' y' Hx' Hy'. rewrite HR'. unfold pix at 1.
      pose proof (pix_index_bound W H x' y' Hx' Hy').
      destruct (decide (x' = x /\ y' = y)) as [[-> ->]|Hne].
      * rewrite get_insert_eq by lia. rewrite HR, Hc, !Z.eqb_refl. simpl.
        rewrite Hp by done. by rewrite HR.
      * rewrite get_insert_ne; [|lia|lia|].
        2: { intros E. apply Hne. destruct (pix_index_inj _ _ _ _ _ Hx Hx' E). done. }
        replace ((x' =? x) && (y' =? y)) with false
          by (destruct (Z.eqb_spec x' x), (Z.eqb_spec y' y); simpl; tauto).
        rewrite orb_false_r. by apply Hp.
    + intros i Hi. rewrite get_insert_ne by lia. auto.
  - split; [done|]. split; [|done]. intros x' y' Hx' Hy'. rewrite HR', Hp by done.
    destruct (Z.eqb_spec x' x) as [->|], (Z.eqb_spec y' y) as [->|]; simpl;
      rewrite ?orb_false_r; try done. by rewrite Hc, !andb_false_r.
Qed.

Definition in_rect (x0 y0 w h x y : Z) : bool :=
  (x0 <=? x) && (x <? x0 + w) && (y0 <=? y) && (y <? y0 + h).

(** The common theorem of the rectangle loops: they terminate inside the
    buffer, visit each pixel once and leave everything else alone. *)
Lemma for_rect_painted body x0 y0 w h fb :
  plots (in_rect x0 y0 w h) body -> clipped -> W * H <= zlen fb ->
  exists fb', for_rect x0 y0 w h body fb = Ok fb' /\ painted (in_rect x0 y0 w h) fb fb'.
Proof.
  intros Hb Hclip Hlen. unfold for_rect.
  edestruct (for_up_inv (fun yy fb' => painted (in_rect x0 y0 w (yy - y0)) fb fb')
              (Z.to_nat h) y0) as (fb' & Hr & HI); [| |exists fb'; split; [exact Hr|]].
  - intros yy fb1 Hyy Hp1.
    edestruct (for_up_inv (fun xx fb' => painted (fun x y =>
        in_rect x0 y0 w (yy - y0) x y || ((x0 <=? x) && (x <? xx) && (y =? yy))) fb fb')
        (Z.to_nat w) x0 (fun xx => body xx yy) fb1) as (fb2 & Hr2 & HI2).
    + intros xx fb2 Hxx Hp2. eapply painted_step; [done| |done|done|exact Hp2| |].
      * unfold in_rect. zcases; simpl; try done; lia.
      * unfold in_rect. zcases; simpl; try done; lia.
      * intros x' y'. unfold in_rect. zcases; simpl; try done; lia.
    + eapply painted_ext; [|exact Hp1]. intros x y. unfold in_rect.
      zcases; simpl; try done; lia.
    + exists fb2. split; [exact Hr2|]. eapply painted_ext; [|exact HI2].
      intros x y. unfold in_rect. zcases; simpl; try done; lia.
  - apply painted_none. intros x y. unfold in_rect. zcases; simpl; try done; lia.
  - eapply painted_ext; [|exact HI]. intros x y. unfold in_rect.
    zcases; simpl; try done; lia.
Qed.

End Paint.

(** ** Screens *)

(** The dimensions for which no address computation wraps. *)
Definition screen_ok (W H : Z) : Prop := 0 < W < 2147483648 /\ 0 < H < 2147483648 /\ 4 * (W * H) < 4294967296.

Lemma in_screen_spec W H x y :
  screen_ok W H -> in_screen W H x y = true <-> 0 <= x < W /\ 0 <= y < H.
Proof.
  intros (HW & HH & _). unfold in_screen. rewrite !i32_small by lia.
  rewrite !andb_true_iff, !Z.leb_le, !Z.ltb_lt. lia.
Qed.

Lemma screen_index W H x y :
  screen_ok W H -> 0 <= x < W -> 0 <= y < H ->
  u32 (u32 (y * W) + x) = y * W + x /\
  u32 (u32 (y * u32 (W * 4)) + x * 4) = 4 * (y * W + x).
Proof.
  intros (HW & HH & HWH) Hx Hy. pose proof (pix_index_bound W H x y Hx Hy).
  assert (W * 4 <= 4 * (W * H)) by nia. assert (0 <= y * W) by nia.
  rewrite (u32_small (W * 4)) by lia. rewrite (u32_small (y * W)) by lia.
  rewrite (u32_small (y * (W * 4))) by nia. rewrite !u32_small by lia. lia.
Qed.

Lemma putpixel_screen W H fb x y color :
  screen_ok W H -> 0 <= x < W -> 0 <= y < H -> W * H <= zlen fb ->
  putpixel fb x y color (u32 (W * 4)) = Ok (<[Z.to_nat (y * W + x) := color]> fb).
Proof.
  intros HS Hx Hy Hlen. pose proof (pix_index_bound W H x y Hx Hy).
  destruct (screen_index W H x y HS Hx Hy) as [_ E]. unfold putpixel. rewrite E.
  rewrite Z.mul_comm, Z.mod_mul, Z.div_mul by lia. simpl. apply wr_in. lia.
Qed.

(** The colour a plotted pixel ends up with. *)
Definition composite (col : rgba) (bg : Z) : Z :=
  if c_a col =? 255 then pack (c_r col) (c_g col) (c_b col)
  else if 0 <? c_a col then blend col bg else bg.

Lemma plot_spec W H col x y fb :
  screen_ok W H -> 0 <= x < W -> 0 <= y < H -> W * H <= zlen fb ->
  plot W col x y fb = Ok (<[Z.to_nat (y * W + x) := composite col (pix W fb x y)]> fb).
Proof.
  intros HS Hx Hy Hlen. pose proof (pix_index_bound W H x y Hx Hy).
  unfold plot, composite, pix. destruct (c_a col =? 255); [by eapply putpixel_screen|].
  destruct (0 <? c_a col).
  - destruct (screen_index W H x y HS Hx Hy) as [-> _]. rewrite rd_in by lia.
    rewrite bind_Ok. by eapply putpixel_screen.
  - f_equal. symmetry. apply list_insert_id.
    unfold get. rewrite nth_lookup.
    destruct (lookup_lt_is_Some_2 fb (Z.to_nat (y * W + x))) as [v Hv]; [lia|].
    by rewrite Hv.
Qed.

(** A rectangle body guarded by clipping and by a further test [k]. *)
Lemma clipped_plots W H s k col R :
  screen_ok W H ->
  let c := fun x y => in_scissor s x y && in_screen W H x y && k x y in
  plots W H c (fun _ _ => composite col) R (fun x y fb =>
    if in_scissor s x y then
      if in_screen W H x y then if negb (k x y) then Ok fb else plot W col x y fb else Ok fb
    else Ok fb) /\ clipped W H c.
Proof.
  intros HS c. split.
  - intros x y fb _ Hlen. unfold c. destruct (in_scissor s x y); [|done].
    destruct (in_screen W H x y) eqn:Hin; [|done]. apply (in_screen_spec _ _ _ _ HS) in Hin.
    destruct (k x y); simpl; [|done]. destruct Hin. by apply (plot_spec W H).
  - intros x y Hc. unfold c in Hc. rewrite !andb_true_iff in Hc.
    destruct Hc as [[_ Hin] _]. by apply (in_screen_spec _ _ _ _ HS) in Hin.
Qed.

Lemma rect_target_painted W H s x y w h col fb :
  screen_ok W H -> W * H <= zlen fb ->
  exists fb', idt_draw_rect_target W H s x y w h col fb = Ok fb' /\
    painted W H (fun px py => in_scissor s px py && in_screen W H px py)
      (fun _ _ => composite col) (in_rect x y w h) fb fb'.
Proof.
  intros HS Hlen. destruct (clipped_plots W H s (fun _ _ => true) col (in_rect x y w h) HS) as [Hp Hc].
  apply (for_rect_painted W H).
  - intros px py fb1 HR Hl. specialize (Hp px py fb1 HR Hl). simpl in Hp.
    rewrite andb_true_r in Hp. exact Hp.
  - intros px py Hin. apply Hc. by rewrite andb_true_r.
  - done.
Qed.

Lemma rounded_target_painted W H s x y w h rounding col filled flags fb :
  screen_ok W H -> W * H <= zlen fb ->
  exists fb', idt_draw_rect_rounded_target W H s x y w h rounding col filled flags fb = Ok fb' /\
    painted W H (fun px py => in_scissor s px py && in_screen W H px py &&
                    negb (rounded_skip x y w h rounding filled flags px py))
      (fun _ _ => composite col) (in_rect x y w h) fb fb'.
Proof.
  intros HS Hlen.
  destruct (clipped_plots W H s (fun px py => negb (rounded_skip x y w h rounding filled flags px py))
              col (in_rect x y w h) HS) as [Hp Hc].
  apply (for_rect_painted W H); [|done|done].
  intros px py fb1 HR Hl. specialize (Hp px py fb1 HR Hl). simpl in Hp.
  rewrite negb_involutive in Hp. exact Hp.
Qed.

(** ** Blending *)

(** The three channels of a pixel word. *)
Definition chan_r (p : Z) : Z := Z.land (Z.shiftr p 16) 255.
Definition chan_g (p : Z) : Z := Z.land (Z.shiftr p 8) 255.
Definition chan_b (p : Z) : Z := Z.land p 255.

Lemma pack_sum r g b :
  is_byte r -> is_byte g -> is_byte b -> pack r g b = r * 65536 + g * 256 + b.
Proof.
  unfold is_byte. intros Hr Hg Hb. unfold pack.
  rewrite <- Z.lor_assoc, (Z.lor_comm (Z.shiftl g 8)), (lor_disjoint_add b g 8) by lia.
  rewrite Z.lor_comm, lor_disjoint_add by lia. lia.
Qed.

Lemma pack_channels r g b :
  is_byte r -> is_byte g -> is_byte b ->
  chan_r (pack r g b) = r /\ chan_g (pack r g b) = g /\ chan_b (pack r g b) = b.
Proof.
  intros Hr Hg Hb. rewrite pack_sum by done. unfold is_byte in *.
  unfold chan_r, chan_g, chan_b. rewrite !land_255, !Z.shiftr_div_pow2 by lia.
  change (2 ^ 16) with 65536. change (2 ^ 8) with 256. dlia.
Qed.

Lemma chan_byte p : is_byte (chan_r p) /\ is_byte (chan_g p) /\ is_byte (chan_b p).
Proof.
  unfold is_byte, chan_r, chan_g, chan_b. rewrite !land_255.
  pose proof (Z.mod_pos_bound (Z.shiftr p 16) 256). pose proof (Z.mod_pos_bound (Z.shiftr p 8) 256).
  pose proof (Z.mod_pos_bound p 256). lia.
Qed.

(** The weighted mean of two bytes lies between them. *)
Lemma blend_channel_between c bg a :
  is_byte c -> is_byte bg -> is_byte a ->
  Z.min c bg <= blend_channel c bg a <= Z.max c bg /\ is_byte (blend_channel c bg a).
Proof.
  unfold is_byte, blend_channel. intros Hc Hbg Ha.
  rewrite Z.quot_div_nonneg by nia.
  assert (255 * Z.min c bg <= c * a + bg * (255 - a)) as Hlo by nia.
  assert (c * a + bg * (255 - a) <= 255 * Z.max c bg) as Hhi by nia.
  assert (Z.min c bg <= (c * a + bg * (255 - a)) / 255 <= Z.max c bg) as Hm
    by (split; [apply Z.div_le_lower_bound|apply Z.div_le_upper_bound]; lia).
  rewrite u8_small by lia. lia.
Qed.

Definition rgba_ok (col : rgba) : Prop :=
  is_byte (c_r col) /\ is_byte (c_g col) /\ is_byte (c_b col) /\ is_byte (c_a col).

Definition between (a b x : Z) : Prop := Z.min a b <= x <= Z.max a b.

(** Alpha compositing never overflows a channel into its neighbour: each
    channel of the pixel [plot] stores lies between the corresponding channels of the
    drawing colour and of the background; an opaque colour replaces the
    pixel and a fully transparent one keeps it. *)
Theorem composite_between (col : rgba) (bg : Z) :
  rgba_ok col ->
  between (c_r col) (chan_r bg) (chan_r (composite col bg)) /\
  between (c_g col) (chan_g bg) (chan_g (composite col bg)) /\
  between (c_b col) (chan_b bg) (chan_b (composite col bg)) /\
  (c_a col = 255 -> chan_r (composite col bg) = c_r col /\ chan_g (composite col bg) = c_g col /\
                    chan_b (composite col bg) = c_b col) /\
  (c_a col = 0 -> composite col bg = bg).
Proof.
  intros (Hr & Hg & Hb & Ha). unfold composite, between.
  destruct (pack_channels _ _ _ Hr Hg Hb) as (Er & Eg & Eb).
  destruct (chan_byte bg) as (Br & Bg & Bb).
  destruct (Z.eqb_spec (c_a col) 255) as [E255|N255]; [rewrite Er, Eg, Eb; lia|].
  destruct (Z.ltb_spec 0 (c_a col)); [|lia].
  unfold blend. fold (chan_r bg) (chan_g bg) (chan_b bg).
  rewrite !u8_small by (unfold is_byte in *; lia).
  destruct (blend_channel_between _ _ _ Hr Br Ha) as [? R].
  destruct (blend_channel_between _ _ _ Hg Bg Ha) as [? G].
  destruct (blend_channel_between _ _ _ Hb Bb Ha) as [? B].
  destruct (pack_channels _ _ _ R G B) as (-> & -> & ->). lia.
Qed.

Lemma composite_between_witness :
  rgba_ok (mk_rgba 200 10 0 128) /\
  composite (mk_rgba 200 10 0 128) (pack 100 20 255) = pack 150 14 127 /\
  between 200 100 (chan_r (composite (mk_rgba 200 10 0 128) (pack 100 20 255))).
Proof.
  assert (rgba_ok (mk_rgba 200 10 0 128)) as Hok by (unfold rgba_ok, is_byte; simpl; lia).
  split; [exact Hok|]. split; [vm_compute; reflexivity|].
  apply (composite_between (mk_rgba 200 10 0 128) (pack 100 20 255) Hok).
Defined.

(** ** The rectangle primitives *)

(** [idt_draw_rect_target] composites the colour onto exactly the pixels that
    lie in the rectangle, in the scissor and on the screen; it terminates
    without leaving the buffer and every other word is unchanged. *)
Theorem rect_target_exact (W H : Z) (s : scissor) (x y w h : Z) (col : rgba) (fb : list Z) :
  screen_ok W H -> W * H <= zlen fb ->
  exists fb', idt_draw_rect_target W H s x y w h col fb = Ok fb' /\
    length fb' = length fb /\
    (forall px py, 0 <= px < W -> 0 <= py < H ->
       pix W fb' px py =
         if in_rect x y w h px py && in_scissor s px py
         then composite col (pix W fb px py) else pix W fb px py) /\
    (forall i, W * H <= i -> get fb' i = get fb i).
Proof.
  intros HS Hlen. destruct (rect_target_painted W H s x y w h col fb HS Hlen)
    as (fb' & Hr & Hl & Hp & Ho).
  exists fb'. split; [done|]. split; [done|]. split; [|done].
  intros px py Hx Hy. rewrite (Hp px py Hx Hy).
  rewrite (proj2 (in_screen_spec W H px py HS)) by done. by rewrite andb_true_r.
Qed.

Definition fb_demo : list Z := replicate 16 0.

Lemma screen_ok_demo : screen_ok 4 4.
Proof. unfold screen_ok. lia. Qed.

Lemma rect_target_exact_witness :
  exists fb', idt_draw_rect_target 4 4 (mk_scissor 0 0 4 3) 2 1 8 8 (mk_rgba 255 0 0 255) fb_demo = Ok fb' /\
    pix 4 fb' 3 2 = 16711680 /\ pix 4 fb' 3 3 = 0.
Proof.
  destruct (rect_target_exact 4 4 (mk_scissor 0 0 4 3) 2 1 8 8 (mk_rgba 255 0 0 255) fb_demo
              screen_ok_demo ltac:(vm_compute; discriminate)) as (fb' & Hr & _ & Hp & _).
  exists fb'. split; [exact Hr|].
  split; (etransitivity; [apply Hp; lia|vm_compute; reflexivity]).
Defined.

(** [idt_draw_rect_rounded_target] in filled mode, with corners that do not
    meet and a radius whose square is an [int], omits from the rectangle exactly the pixels of the flagged corner
    squares that lie outside the corner's disc; nothing outside the
    rectangle, the scissor or the screen changes. *)
Theorem rounded_filled_exact (W H : Z) (s : scissor) (x y w h r : Z) (col : rgba) (fb : list Z) :
  screen_ok W H -> W * H <= zlen fb -> 0 <= r < 32768 -> 2 * r <= w -> 2 * r <= h ->
  exists fb', idt_draw_rect_rounded_target W H s x y w h r col true ROUND_ALL_CORNERS fb = Ok fb' /\
    length fb' = length fb /\
    forall px py, 0 <= px < W -> 0 <= py < H ->
      let dx := if px <? x + r then px - (x + r)
                else if x + w - r <=? px then px - (x + w - r - 1) else 0 in
      let dy := if py <? y + r then py - (y + r)
                else if y + h - r <=? py then py - (y + h - r - 1) else 0 in
      let corner := ((px <? x + r) || (x + w - r <=? px)) && ((py <? y + r) || (y + h - r <=? py)) in
      pix W fb' px py =
        if in_rect x y w h px py && in_scissor s px py && negb (corner && (r * r <? dx * dx + dy * dy))
        then composite col (pix W fb px py) else pix W fb px py.
Proof.
  intros HS Hlen Hr Hw Hh.
  destruct (rounded_target_painted W H s x y w h r col true ROUND_ALL_CORNERS fb HS Hlen)
    as (fb' & Hrun & Hl & Hp & _).
  exists fb'. split; [done|]. split; [done|]. intros px py Hx Hy dx dy corner.
  rewrite (Hp px py Hx Hy).
  rewrite (proj2 (in_screen_spec W H px py HS)) by done. rewrite andb_true_r.
  destruct (in_rect x y w h px py) eqn:Ein; [|done]. cbn [andb].
  assert (rounded_skip x y w h r true ROUND_ALL_CORNERS px py = corner && (r * r <? dx * dx + dy * dy)) as ->; [|done].
  assert (-r <= dx <= r /\ -r <= dy <= r) as [Bx By].
  { unfold in_rect in Ein. rewrite !andb_true_iff in Ein. unfold dx, dy.
    destruct (Z.ltb_spec px (x + r)), (Z.leb_spec (x + w - r) px), (Z.ltb_spec py (y + r)), (Z.leb_spec (y + h - r) py); lia. }
  assert (0 <= dx * dx + dy * dy < 2147483648) by nia. assert (0 <= r * r < 2147483648) by nia.
  unfold rounded_skip, corner_centre, corner. revert dx dy Bx By H0. simpl.
  destruct (Z.ltb_spec px (x + r)), (Z.ltb_spec py (y + r)), (Z.leb_spec (x + w - r) px),
    (Z.leb_spec (y + h - r) py); simpl; intros; rewrite ?i32_small by lia; try done; try lia.
Qed.

Lemma rounded_filled_exact_witness :
  exists fb', idt_draw_rect_rounded_target 8 8 (mk_scissor 0 0 8 8) 0 0 8 8 3 (mk_rgba 0 0 9 255)
                true ROUND_ALL_CORNERS (replicate 64 0) = Ok fb' /\
    pix 8 fb' 0 0 = 0 /\ pix 8 fb' 7 7 = 0 /\ pix 8 fb' 6 6 = 9.
Proof.
  destruct (rounded_filled_exact 8 8 (mk_scissor 0 0 8 8) 0 0 8 8 3 (mk_rgba 0 0 9 255) (replicate 64 0)
              ltac:(unfold screen_ok; lia) ltac:(vm_compute; discriminate)
              ltac:(lia) ltac:(lia) ltac:(lia)) as (fb' & Hr & _ & Hp).
  exists fb'. split; [exact Hr|].
  repeat split; (etransitivity; [apply Hp; lia|vm_compute; reflexivity]).
Defined.
