(* ===== verification/Render.v ===== *)
(** * Render: replaying a Nuklear command list (gui.c)

    [nk_os_render_target] walks the command list Nuklear produced for a frame
    and draws each command under the current scissor rectangle. The command
    list is data here (Nuklear itself is third-party code); its fields have
    the 16-bit ranges of nuklear.h, so no [int] expression below overflows. *)

From Stdlib Require Import ZArith Lia Bool.
From Stdlib Require Import Floats.SpecFloat.
From stdpp Require Import base list.
From S2P Require Import Prelude Font Gfx.
From stdpp Require Import options.

(** ** Commands *)

Inductive nk_command :=
| NK_COMMAND_RECT (rounding x y w h : Z) (color : rgba)
| NK_COMMAND_LINE (begin_x begin_y end_x end_y : Z) (color : rgba)
| NK_COMMAND_SCISSOR (x y w h : Z)
| NK_COMMAND_RECT_FILLED (rounding x y w h : Z) (color : rgba)
| NK_COMMAND_TEXT (x y length : Z) (string : list Z) (foreground : rgba)
| NK_COMMAND_IMAGE (x y w h : Z) (handle : option (list Z))
| NK_COMMAND_OTHER.

(** The floating-point operations of the line loop. Their precision is the
    compiler's choice on the x87 ([-m32] without [-ffloat-store]), so they
    are an interface. *)
Class FloatOps (F : Type) := {
  f_of_int : Z -> F;
  f_div : F -> F -> F;
  f_add : F -> F -> F;
  f_to_int : F -> Z
}.

(** IEEE single precision as an instance. *)
Definition sf_trunc (f : spec_float) : Z :=
  match f with
  | S754_finite sg m e =>
      let v := if 0 <=? e then Z.shiftl (Zpos m) e else Z.shiftr (Zpos m) (- e) in
      if sg then - v else v
  | _ => 0
  end.
#[global] Instance binary32_ops : FloatOps spec_float := {
  f_of_int z := binary_normalize 24 128 z 0 false;
  f_div := SFdiv 24 128;
  f_add := SFadd 24 128;
  f_to_int := sf_trunc
}.

Section Render.
Context {F : Type} {FO : FloatOps F}.
Context (gfx_width gfx_height : Z).
(** [ctx->style.window.header.normal.data.color.{r,g}] *)
Context (header_r header_g : Z).

(** The stepping loop of NK_COMMAND_LINE. *)
Definition draw_line (s : scissor) (bx by_ ex ey : Z) (col : rgba) (fb : list Z) : res (list Z) :=
  let dx := ex - bx in
  let dy := ey - by_ in
  let abs_dx := if dx <? 0 then - dx else dx in
  let abs_dy := if dy <? 0 then - dy else dy in
  let steps := if abs_dy <? abs_dx then abs_dx else abs_dy in
  if steps =? 0 then idt_draw_rect_target gfx_width gfx_height s bx by_ 1 1 col fb
  else
    let x_inc := f_div (f_of_int dx) (f_of_int steps) in
    let y_inc := f_div (f_of_int dy) (f_of_int steps) in
    '(_, _, fb') ← for_up (Z.to_nat (steps + 1)) 0 (fun _ '(current_x, current_y, fb) =>
        fb' ← idt_draw_rect_target gfx_width gfx_height s (f_to_int current_x) (f_to_int current_y)
                1 1 col fb;
        Ok (f_add current_x x_inc, f_add current_y y_inc, fb'))
      (f_of_int bx, f_of_int by_, fb);
    Ok fb'.

(** The outline of NK_COMMAND_RECT without rounding: four bars. *)
Definition draw_outline (s : scissor) (x y w h : Z) (col : rgba) (fb : list Z) : res (list Z) :=
  fb ← idt_draw_rect_target gfx_width gfx_height s x y w 1 col fb;
  fb ← idt_draw_rect_target gfx_width gfx_height s x (y + h - 1) w 1 col fb;
  fb ← idt_draw_rect_target gfx_width gfx_height s x y 1 h col fb;
  idt_draw_rect_target gfx_width gfx_height s (x + w - 1) y 1 h col fb.

(** The character loop of NK_COMMAND_TEXT. *)
Definition draw_text (s : scissor) (x y length : Z) (string : list Z) (col : rgba) (fb : list Z)
  : res (list Z) :=
  for_up (Z.to_nat length) 0 (fun i fb =>
    ch ← rd string i;
    draw_glyph gfx_width gfx_height s (x + i * 8) y ch col fb) fb.

(** One iteration of [nk_foreach]: the [switch] on the command type. *)
Definition render_command (cmd : nk_command) (st : scissor * list Z) : res (scissor * list Z) :=
  let '(s, fb) := st in
  match cmd with
  | NK_COMMAND_RECT rounding x y w h col =>
      fb' ← (if 0 <? rounding then
               let flags := if h <? 35 then Z.lor ROUND_TOP_LEFT ROUND_TOP_RIGHT else ROUND_ALL_CORNERS in
               idt_draw_rect_rounded_target gfx_width gfx_height s x y w h rounding col false flags fb
             else draw_outline s x y w h col fb);
      Ok (s, fb')
  | NK_COMMAND_LINE bx by_ ex ey col => fb' ← draw_line s bx by_ ex ey col fb; Ok (s, fb')
  | NK_COMMAND_SCISSOR x y w h => Ok (mk_scissor x y w h, fb)
  | NK_COMMAND_RECT_FILLED rounding x y w h col =>
      fb' ← (if 0 <? rounding then
               let flags := if (h <? 35) && (c_r col =? header_r) && (c_g col =? header_g)
                            then Z.lor ROUND_TOP_LEFT ROUND_TOP_RIGHT else ROUND_ALL_CORNERS in
               idt_draw_rect_rounded_target gfx_width gfx_height s x y w h rounding col true flags fb
             else idt_draw_rect_target gfx_width gfx_height s x y w h col fb);
      Ok (s, fb')
  | NK_COMMAND_TEXT x y len str col => fb' ← draw_text s x y len str col fb; Ok (s, fb')
  | NK_COMMAND_IMAGE x y w h handle =>
      match handle with
      | None => Ok (s, fb)
      | Some source_pixels =>
          fb' ← draw_image gfx_width gfx_height s x y w h source_pixels fb; Ok (s, fb')
      end
  | NK_COMMAND_OTHER => Ok (s, fb)
  end.

Fixpoint render_commands (cmds : list nk_command) (st : scissor * list Z) : res (scissor * list Z) :=
  match cmds with
  | [] => Ok st
  | c :: r => st' ← render_command c st; render_commands r st'
  end.

Definition nk_os_render_target (cmds : list nk_command) (target_buffer : list Z)
  : res (scissor * list Z) :=
  render_commands cmds (mk_scissor 0 0 (i32 gfx_width) (i32 gfx_height), target_buffer).

End Render.

(** ** Framing *)

(** [fb'] differs from [fb] at most in the screen pixels that satisfy [c]. *)
Definition frame (W H : Z) (c : Z -> Z -> bool) (fb fb' : list Z) : Prop :=
  length fb' = length fb /\
  (forall x y, 0 <= x < W -> 0 <= y < H -> c x y = false -> pix W fb' x y = pix W fb x y) /\
  (forall i, W * H <= i -> get fb' i = get fb i).

Lemma frame_refl W H c fb : frame W H c fb fb.
Proof. done. Qed.

Lemma frame_trans W H c a b d : frame W H c a b -> frame W H c b d -> frame W H c a d.
Proof.
  intros (L1 & P1 & O1) (L2 & P2 & O2). split; [congruence|]. split.
  - intros x y Hx Hy Hc. rewrite P2, P1 by done. done.
  - intros i Hi. rewrite O2, O1 by done. done.
Qed.

Lemma painted_frame W H c c' g R fb fb' :
  (forall x y, c x y = true -> c' x y = true) -> painted W H c g R fb fb' -> frame W H c' fb fb'.
Proof.
  intros Hc (L & P & O). split; [done|]. split; [|done].
  intros x y Hx Hy Hf. rewrite P by done.
  destruct (c x y) eqn:E; [rewrite Hc in Hf by done; done|]. by rewrite andb_false_r.
Qed.

(** [act] terminates and changes only pixels satisfying [c]. *)
Definition framed (W H : Z) (c : Z -> Z -> bool) (act : list Z -> res (list Z)) : Prop :=
  forall fb, W * H <= zlen fb -> exists fb', act fb = Ok fb' /\ frame W H c fb fb'.

Lemma framed_id W H c : framed W H c (fun fb => Ok fb).
Proof. intros fb _. exists fb. split; [done|apply frame_refl]. Qed.

Lemma framed_bind W H c f g :
  framed W H c f -> framed W H c g -> framed W H c (fun fb => fb' ← f fb; g fb').
Proof.
  intros Hf Hg fb Hl. destruct (Hf fb Hl) as (fb1 & E1 & F1).
  destruct (Hg fb1) as (fb2 & E2 & F2); [by rewrite (proj1 F1)|].
  exists fb2. rewrite E1, bind_Ok. split; [done|]. eapply frame_trans; eauto.
Qed.

Lemma framed_for_up W H c n lo body :
  (forall i, lo <= i < lo + Z.of_nat n -> framed W H c (body i)) -> framed W H c (for_up n lo body).
Proof.
  revert lo. induction n as [|n IH]; intros lo Hb; [apply framed_id|].
  cbn [for_up]. apply framed_bind; [apply Hb; lia|]. apply IH. intros i Hi. apply Hb. lia.
Qed.

Lemma framed_if W H c (b : bool) f g :
  framed W H c f -> framed W H c g -> framed W H c (fun fb => if b then f fb else g fb).
Proof. by destruct b. Qed.

(** ** Images *)

(** The word an image pixel [raw] leaves over the background [bg]. *)
Definition shade (raw bg : Z) : Z :=
  let a := u8 (Z.land (Z.shiftr raw 24) 255) in
  if a =? 255 then Z.land raw 16777215
  else if 0 <? a then
    blend (mk_rgba (u8 (Z.land (Z.shiftr raw 16) 255)) (u8 (Z.land (Z.shiftr raw 8) 255))
                   (u8 (Z.land raw 255)) a) bg
  else bg.

Lemma for_up_shift {S} n k lo (f : Z -> S -> res S) s :
  for_up n lo (fun i => f (k + i)) s = for_up n (k + lo) f s.
Proof.
  revert lo s. induction n as [|n IH]; intros lo s; cbn [for_up]; [done|].
  destruct (f (k + lo) s) as [s'| | |]; [|done..]. rewrite !bind_Ok, IH. f_equal. lia.
Qed.

Lemma for_rect_shift x y w h body fb :
  for_rect 0 0 w h (fun xo yo => body (x + xo) (y + yo)) fb = for_rect x y w h body fb.
Proof.
  unfold for_rect. transitivity (for_up (Z.to_nat h) (y + 0) (fun yy fb0 =>
    for_up (Z.to_nat w) x (fun xx fb1 => body xx yy fb1) fb0) fb); [|f_equal; lia].
  rewrite <- for_up_shift. apply for_up_ext. intros i s _.
  transitivity (for_up (Z.to_nat w) (x + 0) (fun xx fb1 => body xx (y + i) fb1) s); [|f_equal; lia].
  by rewrite <- for_up_shift.
Qed.

(** The body of the image loop as a function of the screen pixel. *)
Definition image_body (W H : Z) (s : scissor) (x0 y0 w : Z) (src : list Z) (px py : Z)
  (fb : list Z) : res (list Z) :=
  if in_scissor s px py then
    if in_screen W H px py then
      raw ← rd src ((py - y0) * w + (px - x0));
      let a := u8 (Z.land (Z.shiftr raw 24) 255) in
      if a =? 255 then putpixel fb px py (Z.land raw 16777215) (u32 (W * 4))
      else if 0 <? a then
        bg ← rd fb (u32 (u32 (py * W) + px));
        putpixel fb px py
          (blend (mk_rgba (u8 (Z.land (Z.shiftr raw 16) 255)) (u8 (Z.land (Z.shiftr raw 8) 255))
                          (u8 (Z.land raw 255)) a) bg) (u32 (W * 4))
      else Ok fb
    else Ok fb
  else Ok fb.

Lemma draw_image_loop W H s x0 y0 w h src fb :
  draw_image W H s x0 y0 w h src fb = for_rect x0 y0 w h (image_body W H s x0 y0 w src) fb.
Proof.
  rewrite <- for_rect_shift. unfold draw_image, for_rect. apply for_up_ext. intros yo s1 _.
  apply for_up_ext. intros xo s2 _. unfold image_body.
  replace (x0 + xo - x0) with xo by lia. by replace (y0 + yo - y0) with yo by lia.
Qed.

Lemma list_insert_pix W H fb x y :
  0 <= x < W -> 0 <= y < H -> W * H <= zlen fb ->
  <[Z.to_nat (y * W + x) := pix W fb x y]> fb = fb.
Proof.
  intros Hx Hy Hl. pose proof (pix_index_bound W H x y Hx Hy). apply list_insert_id.
  unfold pix, get. rewrite nth_lookup.
  destruct (lookup_lt_is_Some_2 fb (Z.to_nat (y * W + x))) as [v Hv]; [lia|]. by rewrite Hv.
Qed.

Lemma image_plots W H s x0 y0 w h src :
  screen_ok W H -> w * h <= zlen src ->
  plots W H (fun px py => in_scissor s px py && in_screen W H px py)
    (fun px py bg => shade (get src ((py - y0) * w + (px - x0))) bg)
    (in_rect x0 y0 w h) (image_body W H s x0 y0 w src).
Proof.
  intros HS Hsrc x y fb HR Hl. unfold image_body.
  destruct (in_scissor s _ _); [|done]. destruct (in_screen W H _ _) eqn:Hin; [|done]. simpl andb.
  apply (in_screen_spec _ _ _ _ HS) in Hin as [HX HY]. cbv iota.
  assert (0 <= x - x0 < w /\ 0 <= y - y0 < h) as [Ax Ay].
  { revert HR. unfold in_rect. zcases; simpl; intros; try done; lia. }
  pose proof (pix_index_bound W H _ _ HX HY). pose proof (pix_index_bound w h _ _ Ax Ay).
  rewrite (rd_in src) by lia. rewrite bind_Ok.
  unfold shade. destruct (_ =? 255); [by apply (putpixel_screen W H)|].
  destruct (0 <? _); [|by rewrite (list_insert_pix W H)].
  destruct (screen_index W H _ _ HS HX HY) as [-> _]. rewrite rd_in by lia.
  rewrite bind_Ok. by apply (putpixel_screen W H).
Qed.

Lemma draw_image_painted W H s x0 y0 w h src fb :
  screen_ok W H -> w * h <= zlen src -> W * H <= zlen fb ->
  exists fb', draw_image W H s x0 y0 w h src fb = Ok fb' /\
    painted W H (fun px py => in_scissor s px py && in_screen W H px py)
      (fun px py bg => shade (get src ((py - y0) * w + (px - x0))) bg)
      (in_rect x0 y0 w h) fb fb'.
Proof.
  intros HS Hsrc Hl. rewrite draw_image_loop. apply for_rect_painted; [by apply image_plots| |done].
  intros px py Hc. apply andb_true_iff in Hc as [_ Hin].
  by apply (in_screen_spec _ _ _ _ HS) in Hin.
Qed.

(** ** Every command respects the scissor *)

Section Commands.
#[local] Set Default Proof Using "All".
Context {F : Type} {FO : FloatOps F}.
Context (W H header_r header_g : Z) (HS : screen_ok W H).

Lemma rect_framed s x y w h col :
  framed W H (in_scissor s) (idt_draw_rect_target W H s x y w h col).
Proof.
  intros fb Hl. destruct (rect_target_painted W H s x y w h col fb HS Hl) as (fb' & E & P).
  exists fb'. split; [done|]. eapply painted_frame; [|done].
  intros px py Hc. by apply andb_true_iff in Hc as [? _].
Qed.

Lemma rounded_framed s x y w h r col filled flags :
  framed W H (in_scissor s) (idt_draw_rect_rounded_target W H s x y w h r col filled flags).
Proof.
  intros fb Hl.
  destruct (rounded_target_painted W H s x y w h r col filled flags fb HS Hl) as (fb' & E & P).
  exists fb'. split; [done|]. eapply painted_frame; [|done].
  intros px py Hc. rewrite !andb_true_iff in Hc. tauto.
Qed.

Lemma image_framed s x y w h src :
  w * h <= zlen src -> framed W H (in_scissor s) (draw_image W H s x y w h src).
Proof.
  intros Hsrc fb Hl.
  destruct (draw_image_painted W H s x y w h src fb HS Hsrc Hl) as (fb' & E & P).
  exists fb'. split; [done|]. eapply painted_frame; [|done].
  intros px py Hc. by apply andb_true_iff in Hc as [? _].
Qed.

Lemma glyph_framed s x y ch col : framed W H (in_scissor s) (draw_glyph W H s x y ch col).
Proof.
  apply framed_for_up. intros row Hrow. apply framed_for_up. intros c Hc. cbv zeta.
  apply framed_if; [|apply framed_id]. destruct (Z.leb_spec (u8 ch) 127); [|apply framed_id].
  intros fb Hl. pose proof (u8_bound ch).
  destruct (font_row_ok (u8 ch) row) as (rowd & Er); [lia..|].
  rewrite Er, bind_Ok. destruct (truth _); [by apply rect_framed|by apply framed_id].
Qed.

Lemma text_framed s x y len str col :
  len <= zlen str -> framed W H (in_scissor s) (draw_text W H s x y len str col).
Proof.
  intros Hlen. apply framed_for_up. intros i Hi fb Hl.
  rewrite rd_in, bind_Ok by lia. by apply glyph_framed.
Qed.

Lemma outline_framed s x y w h col : framed W H (in_scissor s) (draw_outline W H s x y w h col).
Proof.
  unfold draw_outline. repeat (apply framed_bind; [apply rect_framed|]). apply rect_framed.
Qed.

Lemma line_framed s bx by_ ex ey col : framed W H (in_scissor s) (draw_line W H s bx by_ ex ey col).
Proof.
  intros fb Hl. unfold draw_line. destruct (_ =? 0); [by apply rect_framed|].
  set (n := Z.to_nat _). set (xi := f_div _ _). set (yi := f_div (f_of_int (ey - by_)) _).
  match goal with |- context [for_up n 0 ?b ?s0] =>
    destruct (for_up_inv (fun _ (st : F * F * list Z) => frame W H (in_scissor s) fb st.2) n 0 b s0)
      as ([[cx cy] fb'] & E & P) end; [|apply frame_refl|rewrite E, bind_Ok; by exists fb'].
  intros i [[cx cy] fb1] _ P1. cbn [snd] in P1.
  destruct (rect_framed s (f_to_int cx) (f_to_int cy) 1 1 col fb1) as (fb2 & E2 & P2);
    [by rewrite (proj1 P1)|].
  cbv beta iota. rewrite E2, bind_Ok. eexists. split; [reflexivity|]. cbn [snd].
  eapply frame_trans; eauto.
Qed.

(** The data a command refers to is as long as its fields claim. *)
Definition command_ok (cmd : nk_command) : bool :=
  match cmd with
  | NK_COMMAND_TEXT _ _ len str _ => len <=? zlen str
  | NK_COMMAND_IMAGE _ _ w h (Some src) => w * h <=? zlen src
  | _ => true
  end.

(** The scissor in force after a command. *)
Definition next_scissor (s : scissor) (cmd : nk_command) : scissor :=
  match cmd with NK_COMMAND_SCISSOR x y w h => mk_scissor x y w h | _ => s end.

Definition draws (cmd : nk_command) : bool :=
  match cmd with NK_COMMAND_SCISSOR _ _ _ _ => false | _ => true end.

Lemma render_command_framed cmd s fb :
  command_ok cmd = true -> W * H <= zlen fb ->
  exists fb', render_command W H header_r header_g cmd (s, fb) = Ok (next_scissor s cmd, fb') /\
    frame W H (in_scissor s) fb fb' /\ (draws cmd = false -> fb' = fb).
Proof.
  intros Hok Hl.
  assert (forall act, framed W H (in_scissor s) act -> next_scissor s cmd = s -> draws cmd = true ->
    exists fb', (fb' ← act fb; Ok (s, fb')) = Ok (next_scissor s cmd, fb') /\
      frame W H (in_scissor s) fb fb' /\ (draws cmd = false -> fb' = fb)) as K.
  { intros act Ha -> Hd. destruct (Ha fb Hl) as (fb' & -> & P). exists fb'. rewrite Hd. done. }
  destruct cmd as [r x y w h c|bx by_ ex ey c|x y w h|r x y w h c|x y l str c|x y w h [src|]|];
    cbn [render_command next_scissor command_ok] in *.
  - destruct (0 <? r); apply K; auto using outline_framed. apply rounded_framed.
  - apply K; [apply line_framed|done..].
  - exists fb. split; [done|]. split; [apply frame_refl|done].
  - destruct (0 <? r); apply K; auto using rect_framed. apply rounded_framed.
  - apply Z.leb_le in Hok. apply K; auto using text_framed.
  - apply Z.leb_le in Hok. apply K; auto using image_framed.
  - exists fb. split; [done|]. split; [apply frame_refl|done].
  - exists fb. split; [done|]. split; [apply frame_refl|done].
Qed.

End Commands.

(** Whether some drawing command of the list may reach pixel (x, y). *)
Fixpoint visible (s : scissor) (cmds : list nk_command) (x y : Z) : bool :=
  match cmds with
  | [] => false
  | NK_COMMAND_SCISSOR sx sy sw sh :: r => visible (mk_scissor sx sy sw sh) r x y
  | _ :: r => in_scissor s x y || visible s r x y
  end.

Lemma render_target_aux {F : Type} {FO : FloatOps F} (W H hr hg : Z)
  (cmds : list nk_command) (fb : list Z) :
  screen_ok W H -> W * H <= zlen fb -> forallb command_ok cmds = true ->
  exists s' fb', nk_os_render_target W H hr hg cmds fb = Ok (s', fb') /\
    length fb' = length fb /\
    (forall x y, 0 <= x < W -> 0 <= y < H ->
       visible (mk_scissor 0 0 W H) cmds x y = false -> pix W fb' x y = pix W fb x y) /\
    (forall i, W * H <= i -> get fb' i = get fb i).
Proof.
  intros HS Hl Hok. unfold nk_os_render_target.
  rewrite !i32_small by (destruct HS as (? & ? & ?); lia).
  generalize (mk_scissor 0 0 W H). revert fb Hl.
  induction cmds as [|c r IH]; intros fb Hl s; cbn [render_commands].
  { exists s, fb. done. }
  simpl in Hok. apply andb_true_iff in Hok as [Hc Hr].
  destruct (render_command_framed W H hr hg HS c s fb Hc Hl) as (fb1 & -> & (L1 & P1 & O1) & Hs).
  rewrite bind_Ok.
  destruct (IH Hr fb1 ltac:(by rewrite L1) (next_scissor s c)) as (s' & fb2 & -> & L2 & P2 & O2).
  exists s', fb2. split; [done|]. split; [congruence|].
  split; [|intros i Hi; rewrite O2, O1 by done; done].
  intros x y Hx Hy Hv.
  assert (pix W fb1 x y = pix W fb x y /\ visible (next_scissor s c) r x y = false) as [E1 E2].
  { destruct c; cbn [visible next_scissor] in *; try (apply orb_false_iff in Hv as [? ?]; auto).
    by rewrite Hs. }
  rewrite P2 by done. done.
Qed.

(** C30: replaying any command list whose text and images are as long as they
    claim terminates without touching memory outside the screen buffer, and
    changes no pixel that lies outside every scissor rectangle in force when
    a drawing command runs. *)
Theorem render_target_clipped {F : Type} {FO : FloatOps F} (W H hr hg : Z)
  (cmds : list nk_command) (fb : list Z) :
  screen_ok W H -> W * H <= zlen fb -> forallb command_ok cmds = true ->
  exists s' fb', nk_os_render_target W H hr hg cmds fb = Ok (s', fb') /\
    length fb' = length fb /\
    (forall x y, 0 <= x < W -> 0 <= y < H ->
       visible (mk_scissor 0 0 W H) cmds x y = false -> pix W fb' x y = pix W fb x y) /\
    (forall i, W * H <= i -> get fb' i = get fb i).
Proof. apply render_target_aux. Qed.

Definition demo_cmds : list nk_command :=
  [NK_COMMAND_SCISSOR 1 1 2 2; NK_COMMAND_RECT_FILLED 0 0 0 8 8 (mk_rgba 1 2 3 255);
   NK_COMMAND_LINE 0 0 3 1 (mk_rgba 9 9 9 255);
   NK_COMMAND_TEXT 0 0 1 [65] (mk_rgba 255 255 255 255);
   NK_COMMAND_IMAGE 2 2 1 1 (Some [4278190335])].

Lemma render_target_clipped_witness :
  exists s' fb', nk_os_render_target 4 4 0 0 demo_cmds fb_demo = Ok (s', fb') /\
    pix 4 fb' 0 0 = 0 /\ pix 4 fb' 2 2 = 255.
Proof.
  destruct (render_target_clipped (F := spec_float) 4 4 0 0 demo_cmds fb_demo screen_ok_demo
    ltac:(vm_compute; discriminate) ltac:(vm_compute; reflexivity)) as (s' & fb' & E & _ & P & _).
  exists s', fb'. split; [exact E|]. split.
  - rewrite P; [vm_compute; reflexivity|lia|lia|vm_compute; reflexivity].
  - vm_compute in E. injection E as _ <-. reflexivity.
Defined.

(** An NK_COMMAND_IMAGE blits its pixel array unscaled: pixel (x, y) of
    the image, if visible, replaces or blends with the screen pixel at the
    image's origin plus (x, y), according to its alpha byte. *)
Theorem image_command_exact {F : Type} {FO : FloatOps F} (W H hr hg : Z) (s : scissor)
  (x y w h : Z) (src fb : list Z) :
  screen_ok W H -> W * H <= zlen fb -> w * h <= zlen src ->
  exists fb', render_command W H hr hg (NK_COMMAND_IMAGE x y w h (Some src)) (s, fb) = Ok (s, fb') /\
    forall px py, 0 <= px < W -> 0 <= py < H ->
      pix W fb' px py =
        if in_rect x y w h px py && in_scissor s px py
        then shade (get src ((py - y) * w + (px - x))) (pix W fb px py) else pix W fb px py.
Proof.
  intros HS Hl Hsrc. destruct (draw_image_painted W H s x y w h src fb HS Hsrc Hl)
    as (fb' & E & _ & P & _).
  exists fb'. cbn [render_command]. rewrite E, bind_Ok. split; [done|].
  intros px py Hx Hy. rewrite P by done.
  rewrite (proj2 (in_screen_spec W H px py HS)) by done. by rewrite andb_true_r.
Qed.

Lemma image_command_exact_witness :
  exists fb', render_command 4 4 0 0 (NK_COMMAND_IMAGE 3 3 2 2 (Some [4278190335; 0; 0; 7]))
                (mk_scissor 0 0 4 4, fb_demo) = Ok (mk_scissor 0 0 4 4, fb') /\ pix 4 fb' 3 3 = 255.
Proof.
  destruct (image_command_exact (F := spec_float) 4 4 0 0 (mk_scissor 0 0 4 4) 3 3 2 2
    [4278190335; 0; 0; 7] fb_demo screen_ok_demo ltac:(vm_compute; discriminate)
    ltac:(vm_compute; discriminate)) as (fb' & E & P).
  exists fb'. split; [exact E|]. etransitivity; [apply P; lia|vm_compute; reflexivity].
Defined.
