(* ===== verification/Backend.v ===== *)
(** * Backend: the direct Nuklear back end (nuklear_backend.c) and the hooks of gui.c

    [nk_os_render] draws rectangles and scaled images straight into the frame
    buffer; [init_nk_backend] gives Nuklear the font metrics and the kernel
    heap. *)

From Stdlib Require Import ZArith Lia Bool.
From stdpp Require Import base list.
From S2P Require Import Prelude Mm Gfx Render.
From stdpp Require Import options.

(** ** Hooks (gui.c) *)

(** The width of [len] characters in whole pixels. *)
Definition os_font_get_text_width (len : Z) : Z := len * 8.

Definition nk_kmalloc_hook (base : Z) (old_ptr size : Z) (st : mm_state) : res (mm_state * Z) := kmalloc base size st.

Definition nk_kfree_hook (base : Z) (ptr : Z) (st : mm_state) : res mm_state := kfree base ptr st.

(** ** Commands *)

(** The commands the back end tells apart; an image carries its own size. *)
Inductive os_command :=
| OS_SCISSOR
| OS_RECT (x y w h : Z) (color : rgba)
| OS_RECT_FILLED (x y w h : Z) (color : rgba)
| OS_IMAGE (x y w h : Z) (handle : option (list Z)) (img_w img_h : Z)
| OS_OTHER.

Section Direct.
Context (gfx_width gfx_height gfx_pitch : Z).

(** The nearest source coordinate. *)
Definition nearest (d src_n dst_n : Z) : Z :=
  let s := Z.quot (i32 (d * src_n)) dst_n in if src_n <=? s then src_n - 1 else s.

Definition draw_scaled (x0 y0 dst_w dst_h : Z) (pixels : list Z) (src_w src_h : Z) (fb : list Z) : res (list Z) :=
  if (dst_w <=? 0) || (dst_h <=? 0) || (src_w <=? 0) || (src_h <=? 0) then Ok fb
  else
    for_rect 0 0 dst_w dst_h (fun x y fb =>
      let src_y := nearest y src_h dst_h in
      let src_x := nearest x src_w dst_w in
      pixel ← rd pixels (src_y * src_w + src_x);
      let dst_x := x0 + x in let dst_y := y0 + y in
      if (0 <=? dst_x) && (dst_x <? i32 gfx_width) && (0 <=? dst_y) && (dst_y <? i32 gfx_height)
      then putpixel fb dst_x dst_y pixel gfx_pitch else Ok fb) fb.

(** One iteration of [nk_foreach]; [None] is a null frame buffer. *)
Definition os_command_draw (cmd : os_command) (fb : option (list Z)) : res (option (list Z)) :=
  match cmd with
  | OS_RECT x y w h c | OS_RECT_FILLED x y w h c =>
      idt_draw_rect fb gfx_width gfx_height gfx_pitch x y w h (pack (c_r c) (c_g c) (c_b c))
  | OS_IMAGE x y w h (Some pixels) src_w src_h =>
      match fb with
      | Some fb => fb ← draw_scaled x y w h pixels src_w src_h fb; Ok (Some fb)
      | None => Fault
      end
  | OS_IMAGE _ _ _ _ None _ _ | OS_SCISSOR | OS_OTHER => Ok fb
  end.

Fixpoint nk_os_render (cmds : list os_command) (fb : option (list Z)) : res (option (list Z)) :=
  match cmds with [] => Ok fb | c :: r => fb ← os_command_draw c fb; nk_os_render r fb end.

End Direct.

(** ** Scaling *)

Lemma nearest_spec d src dst :
  0 <= d < dst -> 0 < src < 32768 -> dst < 32768 ->
  nearest d src dst = d * src / dst /\ 0 <= nearest d src dst < src.
Proof.
  intros Hd Hs Hdst. unfold nearest. assert (0 <= d * src < 2147483648) by nia. rewrite i32_small, Z.quot_div_nonneg by lia.
  assert (0 <= d * src / dst < src) by (split; [apply Z.div_pos; lia|apply Z.div_lt_upper_bound; nia]).
  cbv zeta. destruct (Z.leb_spec src (d * src / dst)); lia.
Qed.

(** The source pixel shown at the offset ([x], [y]) of a scaled image. *)
Definition scaled (pixels : list Z) (src_w src_h dst_w dst_h x y : Z) : Z :=
  get pixels ((y * src_h / dst_h) * src_w + x * src_w / dst_w).

Lemma draw_scaled_painted W H x0 y0 dw dh pixels sw sh fb :
  screen_ok W H -> W * H <= zlen fb -> 0 < dw < 32768 -> 0 < dh < 32768 -> 0 < sw < 32768 -> 0 < sh < 32768 ->
  sw * sh <= zlen pixels ->
  exists fb', draw_scaled W H (u32 (W * 4)) x0 y0 dw dh pixels sw sh fb = Ok fb' /\
    painted W H (fun px py => in_screen W H px py) (fun px py _ => scaled pixels sw sh dw dh (px - x0) (py - y0))
      (in_rect x0 y0 dw dh) fb fb'.
Proof.
  intros HS Hlen Hdw Hdh Hsw Hsh Hpx. unfold draw_scaled.
  destruct (_ || _) eqn:E; [rewrite !orb_true_iff, !Z.leb_le in E; lia|]. clear E.
  set (body := fun px py (fb : list Z) =>
    pixel ← rd pixels (nearest (py - y0) sh dh * sw + nearest (px - x0) sw dw);
    if in_screen W H px py then putpixel fb px py pixel (u32 (W * 4)) else Ok fb).
  match goal with |- context [for_rect 0 0 dw dh ?b fb] => assert (for_rect 0 0 dw dh b fb = for_rect x0 y0 dw dh body fb) as -> end.
  { rewrite <- (for_rect_shift x0 y0 dw dh body fb). unfold for_rect. apply for_up_ext. intros y s _. apply for_up_ext. intros x s' _.
    unfold body, in_screen. by rewrite !Z.add_simpl_l. }
  apply for_rect_painted; [| |done].
  - intros px py f HR Hf. unfold in_rect in HR. rewrite !andb_true_iff in HR.
    destruct (nearest_spec (py - y0) sh dh ltac:(lia) Hsh ltac:(lia)) as [Ey By].
    destruct (nearest_spec (px - x0) sw dw ltac:(lia) Hsw ltac:(lia)) as [Ex Bx].
    pose proof (pix_index_bound sw sh _ _ Bx By). unfold body. rewrite rd_in by lia. rewrite bind_Ok.
    destruct (in_screen W H px py) eqn:Hin; [|done]. apply (in_screen_spec _ _ _ _ HS) in Hin as [Hx Hy].
    rewrite (putpixel_screen W H) by done. unfold scaled. by rewrite Ex, Ey.
  - intros px py Hin. by apply (in_screen_spec _ _ _ _ HS) in Hin.
Qed.

(** An image command of the direct back end shows the nearest source pixel
    at every visible destination pixel, never reads outside the image nor
    writes outside the screen, and leaves all other pixels alone; at the
    image's own size it is a plain copy. *)
Theorem scaled_image_exact (W H x0 y0 dw dh sw sh : Z) (pixels fb : list Z) :
  screen_ok W H -> W * H <= zlen fb -> 0 < dw < 32768 -> 0 < dh < 32768 -> 0 < sw < 32768 -> 0 < sh < 32768 ->
  sw * sh <= zlen pixels ->
  exists fb', nk_os_render W H (u32 (W * 4)) [OS_IMAGE x0 y0 dw dh (Some pixels) sw sh] (Some fb) = Ok (Some fb') /\
    length fb' = length fb /\
    (forall x y, 0 <= x < W -> 0 <= y < H -> pix W fb' x y =
       if in_rect x0 y0 dw dh x y then scaled pixels sw sh dw dh (x - x0) (y - y0) else pix W fb x y) /\
    (dw = sw -> dh = sh -> forall x y, 0 <= x < W -> 0 <= y < H -> in_rect x0 y0 dw dh x y = true ->
       pix W fb' x y = get pixels ((y - y0) * sw + (x - x0))).
Proof.
  intros HS Hlen Hdw Hdh Hsw Hsh Hpx.
  destruct (draw_scaled_painted W H x0 y0 dw dh pixels sw sh fb HS Hlen Hdw Hdh Hsw Hsh Hpx) as (fb' & Hr & Hl & Hp & _).
  exists fb'. cbn [nk_os_render os_command_draw]. rewrite Hr, !bind_Ok.
  assert (forall x y, 0 <= x < W -> 0 <= y < H -> pix W fb' x y =
       if in_rect x0 y0 dw dh x y then scaled pixels sw sh dw dh (x - x0) (y - y0) else pix W fb x y) as Hpix.
  { intros x y Hx Hy. rewrite Hp by done. assert (in_screen W H x y = true) as -> by (by apply in_screen_spec). by rewrite andb_true_r. }
  split; [done|]. split; [done|]. split; [exact Hpix|]. intros -> -> x y Hx Hy Hin. rewrite Hpix, Hin by done.
  unfold scaled. rewrite !Z.div_mul by lia. done.
Qed.

Lemma scaled_image_exact_witness :
  exists fb', nk_os_render 4 4 (u32 16) [OS_IMAGE (-1) 1 4 2 (Some [10; 20]) 2 1] (Some (replicate 16 0)) = Ok (Some fb') /\
    pix 4 fb' 0 1 = 10 /\ pix 4 fb' 1 2 = 20 /\ pix 4 fb' 3 1 = 0.
Proof.
  destruct (scaled_image_exact 4 4 (-1) 1 4 2 2 1 [10; 20] (replicate 16 0)) as (fb' & Hr & _ & Hp & _).
  - unfold screen_ok. lia.
  - cbn. lia.
  - lia.
  - lia.
  - lia.
  - lia.
  - cbn. lia.
  - exists fb'. split; [exact Hr|]. rewrite !Hp by lia. vm_compute. auto.
Defined.
