(* ===== verification/Irq.v ===== *)
(** * Irq: interrupt handling, keyboard ring and PS/2 mouse (idt.c)

    The variables of idt.c are grouped by device: the keyboard ring with the
    shift flag, the mouse packet assembler with the pointer, and the linear
    framebuffer description the timer handler draws through. The handlers run
    in the monad of [Hw] over a port device. Log lines are not modelled. *)

From Stdlib Require Import ZArith Lia Bool.
From stdpp Require Import base list.
From S2P Require Import Prelude Hw Cpu Gfx.
From stdpp Require Import options.

(** ** Keyboard ring *)

Module Keyboard.

Record kbd := mk_kbd {
  keyboard_buffer : list Z; keyboard_head : Z; keyboard_tail : Z; shift_pressed : bool
}.

Definition kbd_boot : kbd := mk_kbd (replicate 32 0) 0 0 false.

Definition keyboard_push_char (c : Z) (k : kbd) : res kbd :=
  let next := Z.rem (keyboard_head k + 1) 32 in
  if negb (next =? keyboard_tail k) then
    b ← wr (keyboard_buffer k) (keyboard_head k) c;
    Ok (mk_kbd b next (keyboard_tail k) (shift_pressed k))
  else Ok k.

Definition keyboard_pop_char (k : kbd) : res (Z * kbd) :=
  if keyboard_head k =? keyboard_tail k then Ok (0, k)
  else
    c ← rd (keyboard_buffer k) (keyboard_tail k);
    Ok (c, mk_kbd (keyboard_buffer k) (keyboard_head k) (Z.rem (keyboard_tail k + 1) 32)
                  (shift_pressed k)).

(** Regular USA layout (no Shift). *)
Definition scancode_to_ascii_normal : list Z :=
  [0; 27; 49; 50; 51; 52; 53; 54; 55; 56; 57; 48; 45; 61; 8;
   9; 113; 119; 101; 114; 116; 121; 117; 105; 111; 112; 91; 93; 10;
   0; 97; 115; 100; 102; 103; 104; 106; 107; 108; 59; 39; 96; 0; 92;
   122; 120; 99; 118; 98; 110; 109; 44; 46; 47; 0; 42; 0; 32].

(** Shifted USA layout (Shift held down). *)
Definition scancode_to_ascii_shift : list Z :=
  [0; 27; 33; 64; 35; 36; 37; 94; 38; 42; 40; 41; 95; 43; 8;
   9; 81; 87; 69; 82; 84; 89; 85; 73; 79; 80; 123; 125; 10;
   0; 65; 83; 68; 70; 71; 72; 74; 75; 76; 58; 34; 126; 0; 124;
   90; 88; 67; 86; 66; 78; 77; 60; 62; 63; 0; 42; 0; 32].

(** The scancode part of the IRQ 1 branch of [isr_handler]. *)
Definition keyboard_scancode (scancode : Z) (k : kbd) : res kbd :=
  if (scancode =? 42) || (scancode =? 54) then
    Ok (mk_kbd (keyboard_buffer k) (keyboard_head k) (keyboard_tail k) true)
  else if (scancode =? 170) || (scancode =? 182) then
    Ok (mk_kbd (keyboard_buffer k) (keyboard_head k) (keyboard_tail k) false)
  else if negb (truth (Z.land scancode 128)) then
    if scancode <? zlen scancode_to_ascii_normal then
      ascii ← (if shift_pressed k then rd scancode_to_ascii_shift scancode
               else rd scancode_to_ascii_normal scancode);
      if negb (ascii =? 0) then keyboard_push_char ascii k else Ok k
    else Ok k
  else Ok k.

(** *** The ring as a bounded queue *)

Definition ring_len (k : kbd) : Z := (keyboard_head k - keyboard_tail k) mod 32.

Definition ring (k : kbd) : list Z :=
  map (fun i => get (keyboard_buffer k) ((keyboard_tail k + Z.of_nat i) mod 32))
      (seq 0 (Z.to_nat (ring_len k))).

Record kbd_ok (k : kbd) : Prop := {
  ko_len : length (keyboard_buffer k) = 32%nat;
  ko_head : 0 <= keyboard_head k < 32;
  ko_tail : 0 <= keyboard_tail k < 32
}.

(** Specification: a FIFO queue that refuses a 32nd element. *)
Definition q_push (c : Z) (q : list Z) : list Z := if decide (length q < 31)%nat then q ++ [c] else q.
Definition q_pop (q : list Z) : Z * list Z := match q with [] => (0, []) | c :: r => (c, r) end.

Lemma ring_length k : length (ring k) = Z.to_nat (ring_len k).
Proof. unfold ring. by rewrite length_map, length_seq. Qed.

Lemma kbd_boot_ok : kbd_ok kbd_boot.
Proof. split; simpl; done || lia. Qed.

Lemma push_spec c k :
  kbd_ok k ->
  exists k', keyboard_push_char c k = Ok k' /\ kbd_ok k' /\ ring k' = q_push c (ring k) /\
    shift_pressed k' = shift_pressed k.
Proof.
  intros Hk. pose proof Hk as [Hl Hh Ht]. unfold keyboard_push_char.
  rewrite Z.rem_mod_nonneg by lia. set (next := (keyboard_head k + 1) mod 32).
  assert (0 <= next < 32) by (apply Z.mod_pos_bound; lia).
  pose proof (Z.mod_pos_bound (keyboard_head k - keyboard_tail k) 32 ltac:(lia)) as Hb.
  unfold q_push. rewrite ring_length. unfold ring_len.
  destruct (Z.eqb_spec next (keyboard_tail k)) as [E|N]; simpl.
  - exists k. split; [done|]. split; [done|]. rewrite decide_False; [done|].
    assert ((keyboard_head k - keyboard_tail k) mod 32 = 31) as -> by (unfold next in E; dlia). lia.
  - rewrite wr_in, bind_Ok by lia. eexists. split; [done|].
    split; [split; simpl; rewrite ?length_insert; done || lia|].
    assert ((next - keyboard_tail k) mod 32 = (keyboard_head k - keyboard_tail k) mod 32 + 1) as E
      by (unfold next in *; dlia).
    rewrite decide_True by (unfold next in *; dlia).
    split; [|done]. unfold ring, ring_len. simpl. rewrite E, Z2Nat.inj_add, Nat.add_1_r by lia.
    rewrite seq_S, map_app. f_equal.
    + apply map_ext_in. intros i Hi. apply in_seq in Hi. rewrite get_insert_ne; [done|lia| |].
      * apply Z.mod_pos_bound. lia.
      * dlia.
    + simpl. f_equal. rewrite Z2Nat.id by lia.
      replace ((keyboard_tail k + _) mod 32) with (keyboard_head k) by dlia.
      apply get_insert_eq. lia.
Qed.

Lemma pop_spec k :
  kbd_ok k ->
  exists k', keyboard_pop_char k = Ok ((q_pop (ring k)).1, k') /\ kbd_ok k' /\
    ring k' = (q_pop (ring k)).2 /\ shift_pressed k' = shift_pressed k.
Proof.
  intros Hk. pose proof Hk as [Hl Hh Ht]. unfold keyboard_pop_char.
  pose proof (Z.mod_pos_bound (keyboard_head k - keyboard_tail k) 32 ltac:(lia)) as Hb.
  destruct (Z.eqb_spec (keyboard_head k) (keyboard_tail k)) as [E|N].
  - exists k. assert (ring k = []) as ->; [|done].
    unfold ring, ring_len. rewrite E, Z.sub_diag. done.
  - rewrite rd_in, bind_Ok by lia. rewrite Z.rem_mod_nonneg by lia.
    set (next := (keyboard_tail k + 1) mod 32).
    assert (0 <= next < 32) by (apply Z.mod_pos_bound; lia).
    assert ((keyboard_head k - keyboard_tail k) mod 32 = (keyboard_head k - next) mod 32 + 1) as E
      by (unfold next in *; dlia).
    pose proof (Z.mod_pos_bound (keyboard_head k - next) 32 ltac:(lia)).
    assert (ring k = get (keyboard_buffer k) (keyboard_tail k) ::
      map (fun i => get (keyboard_buffer k) ((next + Z.of_nat i) mod 32))
          (seq 0 (Z.to_nat ((keyboard_head k - next) mod 32)))) as ->.
    { unfold ring, ring_len. rewrite E, Z2Nat.inj_add, Nat.add_1_r by lia. simpl.
      f_equal; [f_equal; rewrite Z.add_0_r; apply Z.mod_small; lia|].
      rewrite <- seq_shift, map_map. apply map_ext. intros i. f_equal. unfold next. dlia. }
    eexists. split; [done|]. split; [split; simpl; done || lia|]. done.
Qed.

(** *** The keyboard against its specification *)

(** What the interrupt handler and the main loop may do to the ring, in any
    interleaving. *)
Inductive kevent := Scan (scancode : Z) | Pop.

Fixpoint kbd_run (evs : list kevent) (k : kbd) : res (list Z * kbd) :=
  match evs with
  | [] => Ok ([], k)
  | Scan sc :: r => k' ← keyboard_scancode sc k; kbd_run r k'
  | Pop :: r =>
      '(c, k1) ← keyboard_pop_char k; '(out, k2) ← kbd_run r k1; Ok (c :: out, k2)
  end.

Inductive key := KShift (down : bool) | KChar (plain shifted : Z) | KNone.

(** The meaning of a set-1 scancode. *)
Definition key_of (sc : Z) : key :=
  if (sc =? 42) || (sc =? 54) then KShift true
  else if (sc =? 170) || (sc =? 182) then KShift false
  else if sc <? 58 then
    if get scancode_to_ascii_normal sc =? 0 then KNone
    else KChar (get scancode_to_ascii_normal sc) (get scancode_to_ascii_shift sc)
  else KNone.

Fixpoint spec_run (evs : list kevent) (shift : bool) (q : list Z) : list Z * (bool * list Z) :=
  match evs with
  | [] => ([], (shift, q))
  | Scan sc :: r =>
      match key_of sc with
      | KShift b => spec_run r b q
      | KChar p s => spec_run r shift (q_push (if shift then s else p) q)
      | KNone => spec_run r shift q
      end
  | Pop :: r =>
      let '(out, st) := spec_run r shift (q_pop q).2 in ((q_pop q).1 :: out, st)
  end.

(** The two layout tables have the same shape. *)
Lemma tables_agree i :
  0 <= i < 58 ->
  (get scancode_to_ascii_normal i =? 0) = (get scancode_to_ascii_shift i =? 0).
Proof.
  intros Hi.
  assert (forallb (fun n => eqb (get scancode_to_ascii_normal (Z.of_nat n) =? 0)
                        (get scancode_to_ascii_shift (Z.of_nat n) =? 0)) (seq 0 58) = true) as H
    by (vm_compute; reflexivity).
  rewrite forallb_forall in H. specialize (H (Z.to_nat i)). rewrite Z2Nat.id in H by lia.
  apply eqb_prop, H, in_seq. lia.
Qed.

Lemma low_scancode sc : 0 <= sc < 256 -> truth (Z.land sc 128) = (128 <=? sc).
Proof.
  intros Hs.
  assert (forallb (fun n => eqb (truth (Z.land (Z.of_nat n) 128)) (128 <=? Z.of_nat n)) (seq 0 256) = true)
    as H by (vm_compute; reflexivity).
  rewrite forallb_forall in H. specialize (H (Z.to_nat sc)). rewrite Z2Nat.id in H by lia.
  apply eqb_prop, H, in_seq. lia.
Qed.

Lemma scancode_spec sc k :
  kbd_ok k -> is_byte sc ->
  exists k', keyboard_scancode sc k = Ok k' /\ kbd_ok k' /\
    match key_of sc with
    | KShift b => shift_pressed k' = b /\ ring k' = ring k
    | KChar p s => shift_pressed k' = shift_pressed k /\
                   ring k' = q_push (if shift_pressed k then s else p) (ring k)
    | KNone => k' = k
    end.
Proof.
  intros Hk Hb. unfold is_byte in Hb. unfold keyboard_scancode, key_of.
  change (zlen scancode_to_ascii_normal) with 58.
  destruct ((sc =? 42) || (sc =? 54)); [eexists; split; [done|]; split; [by destruct Hk|done]|].
  destruct ((sc =? 170) || (sc =? 182)); [eexists; split; [done|]; split; [by destruct Hk|done]|].
  rewrite low_scancode by lia.
  destruct (Z.leb_spec 128 sc), (Z.ltb_spec sc 58); simpl; try lia; try (by exists k).
  pose proof (tables_agree sc ltac:(lia)) as T.
  destruct (shift_pressed k) eqn:Es; rewrite rd_in, bind_Ok by (simpl; lia); rewrite ?T;
    destruct (Z.eqb_spec (get scancode_to_ascii_shift sc) 0); rewrite ?T; simpl; try (by exists k).
  - destruct (push_spec (get scancode_to_ascii_shift sc) k Hk) as (k' & E & ? & ? & ?).
    exists k'. rewrite E. split; [done|]. split; [done|]. split; congruence.
  - destruct (push_spec (get scancode_to_ascii_normal sc) k Hk) as (k' & E & ? & ? & ?).
    exists k'. rewrite E. split; [done|]. split; [done|]. split; congruence.
Qed.

Definition event_ok (e : kevent) : Prop := match e with Scan sc => is_byte sc | Pop => True end.

Lemma kbd_run_spec evs k :
  kbd_ok k -> Forall event_ok evs ->
  exists k', kbd_run evs k = Ok ((spec_run evs (shift_pressed k) (ring k)).1, k') /\ kbd_ok k' /\
    (spec_run evs (shift_pressed k) (ring k)).2 = (shift_pressed k', ring k').
Proof.
  intros Hk Hev. revert k Hk. induction Hev as [|[sc|] r Hev _ IH]; intros k Hk; cbn [kbd_run spec_run].
  - by exists k.
  - destruct (scancode_spec sc k Hk Hev) as (k1 & -> & Hk1 & Hm). rewrite bind_Ok.
    destruct (IH k1 Hk1) as (k2 & E2 & Hk2 & Hs). exists k2.
    destruct (key_of sc); [destruct Hm as [<- <-]|destruct Hm as [<- <-]|subst k1]; done.
  - destruct (pop_spec k Hk) as (k1 & -> & Hk1 & Hr & Hs). rewrite bind_Ok.
    destruct (IH k1 Hk1) as (k2 & -> & Hk2 & Hs2). rewrite Hr, Hs in Hs2 |- *.
    destruct (spec_run r _ _) as [out st]. exists k2. done.
Qed.

(** C28: for every interleaving of keyboard interrupts and reads from the main
    loop, the ring buffer never leaves its array and the characters read
    are those of a FIFO queue of capacity 31 into which each key press puts
    its (shifted) character: nothing is reordered or duplicated, and only
    characters arriving at a full queue are lost. *)
Theorem keyboard_refines_queue (evs : list kevent) :
  Forall event_ok evs ->
  exists k, kbd_run evs kbd_boot = Ok ((spec_run evs false []).1, k) /\ kbd_ok k /\
    (spec_run evs false []).2 = (shift_pressed k, ring k) /\ (length (ring k) <= 31)%nat.
Proof.
  intros Hev. destruct (kbd_run_spec evs kbd_boot kbd_boot_ok Hev) as (k & E & Hk & Hs).
  exists k. split; [exact E|]. split; [done|]. split; [exact Hs|].
  rewrite ring_length. unfold ring_len.
  pose proof (Z.mod_pos_bound (keyboard_head k - keyboard_tail k) 32). lia.
Qed.

Lemma keyboard_refines_queue_witness :
  exists k, kbd_run [Scan 42; Scan 30; Scan 170; Scan 48; Pop; Pop; Pop] kbd_boot = Ok ([65; 98; 0], k) /\
    kbd_ok k.
Proof.
  destruct (keyboard_refines_queue [Scan 42; Scan 30; Scan 170; Scan 48; Pop; Pop; Pop])
    as (k & E & Hk & _).
  { repeat constructor; simpl; unfold is_byte; lia. }
  exists k. split; [exact E|exact Hk].
Defined.

End Keyboard.

(** ** Mouse packets *)

Module Mouse.

Record mouse := mk_mouse {
  mouse_x : Z; mouse_y : Z; mouse_left_clicked : Z; mouse_right_clicked : Z;
  mouse_cycle : Z; mouse_packet : list Z
}.

Definition mouse_boot : mouse := mk_mouse 500 400 0 0 0 (replicate 3 0).

(** Appending a byte at [mouse_cycle], unless it cannot start a packet. *)
Definition mouse_collect (mouse_byte : Z) (m : mouse) : res mouse :=
  if (mouse_cycle m =? 0) && negb (truth (Z.land mouse_byte 8)) then
    Ok (mk_mouse (mouse_x m) (mouse_y m) (mouse_left_clicked m) (mouse_right_clicked m) 0 (mouse_packet m))
  else
    p ← wr (mouse_packet m) (mouse_cycle m) (i8 mouse_byte);
    Ok (mk_mouse (mouse_x m) (mouse_y m) (mouse_left_clicked m) (mouse_right_clicked m)
                 (u8 (mouse_cycle m + 1)) p).

(** [int16_t rel = byte; if (flags & bit) rel |= 0xFF00;] *)
Definition mouse_rel (flags bit byte : Z) : Z :=
  if truth (Z.land flags bit) then i16 (Z.lor byte 65280) else i16 byte.

(** The pointer update once a packet is complete. *)
Definition mouse_commit (gfx_width gfx_height : Z) (m : mouse) : res mouse :=
  p0 ← rd (mouse_packet m) 0;
  p1 ← rd (mouse_packet m) 1;
  p2 ← rd (mouse_packet m) 2;
  let flags := u8 p0 in
  let x := i32 (mouse_x m + mouse_rel flags 16 p1) in
  let y := i32 (mouse_y m - mouse_rel flags 32 p2) in
  let x := if x <? 0 then 0 else x in
  let y := if y <? 0 then 0 else y in
  let x := if i32 (i32 gfx_width - 10) <? x then i32 (u32 (gfx_width - 10)) else x in
  let y := if i32 (i32 gfx_height - 10) <? y then i32 (u32 (gfx_height - 10)) else y in
  Ok (mk_mouse x y (Z.land flags 1) (if truth (Z.land flags 2) then 1 else 0) 0 (mouse_packet m)).

(** A byte from the auxiliary device. *)
Definition mouse_byte_in (gfx_width gfx_height mouse_byte : Z) (m : mouse) : res mouse :=
  m ← mouse_collect mouse_byte m;
  if mouse_cycle m =? 3 then mouse_commit gfx_width gfx_height m else Ok m.

(** *** Invariant *)

Record mouse_ok (W H : Z) (m : mouse) : Prop := {
  mo_x : 0 <= mouse_x m <= W - 10;
  mo_y : 0 <= mouse_y m <= H - 10;
  mo_cycle : 0 <= mouse_cycle m < 3;
  mo_len : length (mouse_packet m) = 3%nat
}.

Definition mouse_screen (W H : Z) : Prop := 10 <= W < 65536 /\ 10 <= H < 65536.

Definition clamp (lo hi x : Z) : Z := Z.max lo (Z.min hi x).

Lemma mouse_rel_bound flags bit byte : -32768 <= mouse_rel flags bit byte < 32768.
Proof. unfold mouse_rel. destruct (truth _); apply i16_bound. Qed.

Lemma commit_clamps W H m :
  mouse_screen W H -> 0 <= mouse_x m <= W - 10 -> 0 <= mouse_y m <= H - 10 ->
  length (mouse_packet m) = 3%nat ->
  mouse_commit W H m = Ok (mk_mouse
    (clamp 0 (W - 10) (mouse_x m + mouse_rel (u8 (get (mouse_packet m) 0)) 16 (get (mouse_packet m) 1)))
    (clamp 0 (H - 10) (mouse_y m - mouse_rel (u8 (get (mouse_packet m) 0)) 32 (get (mouse_packet m) 2)))
    (Z.land (u8 (get (mouse_packet m) 0)) 1)
    (if truth (Z.land (u8 (get (mouse_packet m) 0)) 2) then 1 else 0) 0 (mouse_packet m)).
Proof.
  intros [HW HH] Hx Hy Hl. unfold mouse_commit. rewrite !rd_in by lia. rewrite !bind_Ok.
  set (f := u8 _).
  pose proof (mouse_rel_bound f 16 (get (mouse_packet m) 1)).
  pose proof (mouse_rel_bound f 32 (get (mouse_packet m) 2)).
  rewrite (u32_small (W - 10)), (u32_small (H - 10)) by lia.
  rewrite (i32_small W), (i32_small H), !(i32_small (W - 10)), !(i32_small (H - 10)) by lia.
  rewrite !i32_small by lia. unfold clamp.
  do 2 f_equal; match goal with |- context [?v <? 0] => destruct (Z.ltb_spec v 0) end; zcases; lia.
Qed.

Lemma mouse_byte_ok W H b m :
  mouse_screen W H -> mouse_ok W H m ->
  exists m', mouse_byte_in W H b m = Ok m' /\ mouse_ok W H m'.
Proof.
  intros HS [Hx Hy Hc Hl]. unfold mouse_byte_in, mouse_collect.
  destruct ((mouse_cycle m =? 0) && _) eqn:E.
  { rewrite bind_Ok. eexists. split; [done|]. split; simpl; done || lia. }
  rewrite wr_in, !bind_Ok by lia. cbn [mouse_cycle]. rewrite u8_small by lia.
  destruct (Z.eqb_spec (mouse_cycle m + 1) 3).
  - eexists. split; [apply commit_clamps; simpl; rewrite ?length_insert; done|].
    destruct HS. split; simpl; rewrite ?length_insert; unfold clamp; done || lia.
  - eexists. split; [done|]. split; simpl; rewrite ?length_insert; done || lia.
Qed.

(** *** What a packet means *)

(** The signed 9-bit movement of a PS/2 packet: a magnitude byte and the
    sign bit in the flags byte. *)
Definition ps2_delta (sign : bool) (byte : Z) : Z := if sign then byte - 256 else byte.

Lemma mouse_rel_decodes flags bit byte :
  is_byte byte ->
  mouse_rel flags bit (i8 byte) =
    if truth (Z.land flags bit) || (byte <? 128)
    then ps2_delta (truth (Z.land flags bit)) byte
    else byte - 256.
Proof.
  intros Hb. unfold is_byte in Hb. unfold mouse_rel, ps2_delta.
  assert (i8 byte = if byte <? 128 then byte else byte - 256) as E8.
  { unfold i8, swrap. rewrite Z.mod_small by (change (2 ^ 8) with 256; lia). done. }
  destruct (truth _); simpl.
  - rewrite E8. assert (forallb (fun n => let b := Z.of_nat n in
      i16 (Z.lor (if b <? 128 then b else b - 256) 65280) =? b - 256) (seq 0 256) = true) as T
      by (vm_compute; reflexivity).
    rewrite forallb_forall in T. specialize (T (Z.to_nat byte)). rewrite Z2Nat.id in T by lia.
    apply Z.eqb_eq, T, in_seq. lia.
  - rewrite i16_small by (pose proof (i8_bound byte); lia). rewrite E8. by destruct (byte <? 128).
Qed.

(** The three-byte run, in terms of [mouse_rel]. *)
Lemma packet_run W H b0 b1 b2 m :
  mouse_screen W H -> mouse_ok W H m -> mouse_cycle m = 0 -> is_byte b0 -> truth (Z.land b0 8) = true ->
  (m1 ← mouse_byte_in W H b0 m; m2 ← mouse_byte_in W H b1 m1; mouse_byte_in W H b2 m2) =
  Ok (mk_mouse (clamp 0 (W - 10) (mouse_x m + mouse_rel b0 16 (i8 b1)))
        (clamp 0 (H - 10) (mouse_y m - mouse_rel b0 32 (i8 b2)))
        (Z.land b0 1) (if truth (Z.land b0 2) then 1 else 0) 0 [i8 b0; i8 b1; i8 b2]).
Proof.
  intros HS [Hx Hy Hc Hl] E0 H0 Hm.
  destruct m as [x y l r c p]. cbn [mouse_x mouse_y mouse_cycle mouse_packet] in *. subst c.
  destruct p as [|q0 [|q1 [|q2 [|]]]]; try done.
  assert (mouse_byte_in W H b0 (mk_mouse x y l r 0 [q0; q1; q2]) =
          Ok (mk_mouse x y l r 1 [i8 b0; q1; q2])) as ->.
  { unfold mouse_byte_in, mouse_collect. cbn [mouse_cycle mouse_packet]. rewrite Hm. reflexivity. }
  rewrite bind_Ok.
  change (mouse_byte_in W H b1 (mk_mouse x y l r 1 [i8 b0; q1; q2]))
    with (Ok (mk_mouse x y l r 2 [i8 b0; i8 b1; q2])). rewrite bind_Ok.
  change (mouse_byte_in W H b2 (mk_mouse x y l r 2 [i8 b0; i8 b1; q2]))
    with (mouse_commit W H (mk_mouse x y l r 3 [i8 b0; i8 b1; i8 b2])).
  rewrite commit_clamps by done. cbn [mouse_x mouse_y mouse_packet].
  change (get [i8 b0; i8 b1; i8 b2] 0) with (i8 b0).
  change (get [i8 b0; i8 b1; i8 b2] 1) with (i8 b1).
  change (get [i8 b0; i8 b1; i8 b2] 2) with (i8 b2).
  assert (u8 (i8 b0) = b0) as ->; [|done].
  unfold is_byte in H0. unfold u8, i8, swrap, wrap.
  rewrite (Z.mod_small b0) by (change (2 ^ 8) with 256; lia).
  change (2 ^ (8 - 1)) with 128. change (2 ^ 8) with 256. destruct (Z.ltb_spec b0 128); dlia.
Qed.

(** Three bytes of a PS/2 packet whose first has its marker bit set move the
    pointer by the packet's 9-bit movement, clamped to the screen, set the
    two buttons and return to the start of a packet, provided that neither
    positive movement exceeds 127. *)
Theorem mouse_packet_moves (W H b0 b1 b2 : Z) (m : mouse) :
  mouse_screen W H -> mouse_ok W H m -> mouse_cycle m = 0 ->
  is_byte b0 -> is_byte b1 -> is_byte b2 -> truth (Z.land b0 8) = true ->
  (truth (Z.land b0 16) || (b1 <? 128) = true) -> (truth (Z.land b0 32) || (b2 <? 128) = true) ->
  exists m', (m1 ← mouse_byte_in W H b0 m; m2 ← mouse_byte_in W H b1 m1; mouse_byte_in W H b2 m2) = Ok m' /\
    mouse_x m' = clamp 0 (W - 10) (mouse_x m + ps2_delta (truth (Z.land b0 16)) b1) /\
    mouse_y m' = clamp 0 (H - 10) (mouse_y m - ps2_delta (truth (Z.land b0 32)) b2) /\
    mouse_left_clicked m' = Z.land b0 1 /\
    mouse_right_clicked m' = (if truth (Z.land b0 2) then 1 else 0) /\
    mouse_cycle m' = 0.
Proof.
  intros HS Hok E0 H0 H1 H2 Hm S1 S2. rewrite packet_run by done.
  rewrite !mouse_rel_decodes by done. rewrite S1, S2. eexists. split; [reflexivity|]. done.
Qed.

Lemma mouse_packet_moves_witness :
  exists m', (m1 ← mouse_byte_in 1024 768 25 mouse_boot; m2 ← mouse_byte_in 1024 768 250 m1;
              mouse_byte_in 1024 768 5 m2) = Ok m' /\ mouse_x m' = 494 /\ mouse_y m' = 395.
Proof.
  destruct (mouse_packet_moves 1024 768 25 250 5 mouse_boot) as (m' & E & Ex & Ey & _);
    try reflexivity; try (unfold is_byte; lia).
  - unfold mouse_screen. lia.
  - split; simpl; done || lia.
  - exists m'. split; [exact E|]. split; [rewrite Ex; reflexivity|rewrite Ey; reflexivity].
Defined.

(** a rightward movement of 128 to 255 counts (sign bit clear) is decoded as a
    movement to the left: the packet byte is stored in an [int8_t], and only
    the set sign bit is merged back. *)
Theorem mouse_large_motion_reversed (W H b0 b1 : Z) (m : mouse) :
  mouse_screen W H -> mouse_ok W H m -> mouse_cycle m = 0 ->
  is_byte b0 -> truth (Z.land b0 8) = true -> truth (Z.land b0 16) = false -> 128 <= b1 < 256 ->
  exists m', (m1 ← mouse_byte_in W H b0 m; m2 ← mouse_byte_in W H b1 m1; mouse_byte_in W H 0 m2) = Ok m' /\
    mouse_x m' <= mouse_x m /\
    mouse_x m' = clamp 0 (W - 10) (mouse_x m + ps2_delta false b1 - 256).
Proof.
  intros HS Hok E0 H0 Hm S1 Hb. rewrite packet_run by done.
  rewrite mouse_rel_decodes by (unfold is_byte; lia). rewrite S1. simpl orb.
  destruct (Z.ltb_spec b1 128); [lia|]. eexists. split; [reflexivity|].
  cbn [mouse_x]. destruct Hok. unfold clamp, ps2_delta. lia.
Qed.

Lemma mouse_large_motion_reversed_witness :
  exists m', (m1 ← mouse_byte_in 1024 768 8 mouse_boot; m2 ← mouse_byte_in 1024 768 200 m1;
              mouse_byte_in 1024 768 0 m2) = Ok m' /\ mouse_x m' = 444.
Proof.
  destruct (mouse_large_motion_reversed 1024 768 8 200 mouse_boot) as (m' & E & _ & Ex);
    try reflexivity; try (unfold is_byte; lia).
  - unfold mouse_screen. lia.
  - split; simpl; done || lia.
  - exists m'. split; [exact E|]. rewrite Ex. reflexivity.
Defined.

End Mouse.

(** ** Interrupt controllers and start-up *)

Section Controllers.
Context {S D : Type} `{HasDev S D} `{Ports D}.

Definition pic_remap : M S unit :=
  _ ← inb 33;
  _ ← inb 161;
  _ ← outb 32 17;
  _ ← outb 160 17;
  _ ← outb 33 32;
  _ ← outb 161 40;
  _ ← outb 33 4;
  _ ← outb 161 2;
  _ ← outb 33 1;
  _ ← outb 161 1;
  _ ← outb 33 0;
  outb 161 0.

(** [while (timeout--) if (ready) return;] *)
Fixpoint mouse_poll (timeout : nat) (ready : Z -> bool) : M S unit :=
  match timeout with
  | O => skip
  | Datatypes.S t => st ← inb 100; if ready st then skip else mouse_poll t ready
  end.

Definition mouse_wait (type : Z) : M S unit :=
  let timeout := Z.to_nat 100000 in
  if type =? 0 then mouse_poll timeout (fun st => Z.land st 1 =? 1)
  else mouse_poll timeout (fun st => Z.land st 2 =? 0).

Definition mouse_write (write : Z) : M S unit :=
  _ ← mouse_wait 1;
  _ ← outb 100 212;
  _ ← mouse_wait 1;
  outb 96 write.

Definition mouse_read : M S Z :=
  _ ← mouse_wait 0;
  inb 96.

Definition init_mouse : M S unit :=
  _ ← mouse_wait 1;
  _ ← outb 100 168;
  _ ← mouse_wait 1;
  _ ← outb 100 32;
  _ ← mouse_wait 0;
  v ← inb 96;
  let status := u8 (Z.lor v 2) in
  _ ← mouse_wait 1;
  _ ← outb 100 96;
  _ ← mouse_wait 1;
  _ ← outb 96 status;
  _ ← mouse_write 246;
  _ ← mouse_read;
  _ ← mouse_write 244;
  _ ← mouse_read;
  skip.

(** [init_idt]: the table is cleared, the exception gates set, the PICs
    remapped, the IRQ gates set and the mouse started; the loaded pointer
    is returned ([idt_load] is the [lidt] instruction). *)
Definition init_idt (st : stubs) (addr : Z) (idt : list idt_entry) : M S (idt_ptr * list idt_entry) :=
  idt ← lift (init_idt_exceptions st idt);
  _ ← pic_remap;
  idt ← lift (init_idt_irqs st idt);
  _ ← init_mouse;
  mret (idt_pointer addr, idt).

End Controllers.

(** ** The interrupt handler *)

Import Keyboard Mouse.

Record video := mk_video {
  gfx_framebuffer : option (list Z); gfx_width : Z; gfx_height : Z; gfx_pitch : Z
}.

Record irq_state (D : Type) := mk_irq {
  s_kbd : kbd; s_mouse : mouse; s_video : video;
  timer_ticks : Z; ide_interrupt_fired : Z; s_dev : D
}.
Arguments mk_irq {D}.
Arguments s_kbd {D}. Arguments s_mouse {D}. Arguments s_video {D}.
Arguments timer_ticks {D}. Arguments ide_interrupt_fired {D}. Arguments s_dev {D}.

#[global] Instance irq_dev D : HasDev (irq_state D) D := {
  dev := s_dev;
  set_dev d s := mk_irq (s_kbd s) (s_mouse s) (s_video s) (timer_ticks s) (ide_interrupt_fired s) d
}.
#[global] Instance irq_dev_laws D : HasDevLaws (irq_state D) D.
Proof. split; [done|done|by intros []]. Qed.

Section Handler.
Context {D : Type} `{Ports D}.
Abbreviation IM := (M (irq_state D)).

Definition set_kbd (k : kbd) : IM unit := modify (fun s =>
  mk_irq k (s_mouse s) (s_video s) (timer_ticks s) (ide_interrupt_fired s) (s_dev s)).
Definition set_mouse (m : mouse) : IM unit := modify (fun s =>
  mk_irq (s_kbd s) m (s_video s) (timer_ticks s) (ide_interrupt_fired s) (s_dev s)).
Definition set_video (v : video) : IM unit := modify (fun s =>
  mk_irq (s_kbd s) (s_mouse s) v (timer_ticks s) (ide_interrupt_fired s) (s_dev s)).
Definition set_ticks (t : Z) : IM unit := modify (fun s =>
  mk_irq (s_kbd s) (s_mouse s) (s_video s) t (ide_interrupt_fired s) (s_dev s)).
Definition set_ide (v : Z) : IM unit := modify (fun s =>
  mk_irq (s_kbd s) (s_mouse s) (s_video s) (timer_ticks s) v (s_dev s)).

(** The blinking square of the timer interrupt. *)
Definition blink (color : Z) : IM unit :=
  v ← gets s_video;
  fb ← lift (idt_draw_rect (gfx_framebuffer v) (gfx_width v) (gfx_height v) (gfx_pitch v)
               (i32 (u32 (gfx_width v - 30))) 10 20 20 color);
  set_video (mk_video fb (gfx_width v) (gfx_height v) (gfx_pitch v)).

Definition timer_irq : IM unit :=
  t ← gets timer_ticks;
  let t := u32 (t + 1) in
  _ ← set_ticks t;
  _ ← (if t mod 18 =? 0 then blink 65280
       else if t mod 18 =? 9 then blink 11062 else skip);
  outb 32 32.

Definition keyboard_irq : IM unit :=
  scancode ← inb 96;
  k ← gets s_kbd;
  k' ← lift (keyboard_scancode scancode k);
  _ ← set_kbd k';
  outb 32 32.

Definition mouse_irq : IM unit :=
  status ← inb 100;
  _ ← (if truth (Z.land status 1) then
         mouse_byte ← inb 96;
         if truth (Z.land status 32) then
           m ← gets s_mouse;
           v ← gets s_video;
           m' ← lift (mouse_byte_in (gfx_width v) (gfx_height v) mouse_byte m);
           set_mouse m'
         else skip
       else skip);
  _ ← outb 160 32;
  outb 32 32.

Definition ide_irq : IM unit :=
  _ ← inb 503;
  _ ← set_ide 1;
  _ ← outb 160 32;
  outb 32 32.

Definition isr_handler (int_no : Z) : IM unit :=
  if int_no =? 32 then timer_irq
  else if int_no =? 33 then keyboard_irq
  else if int_no =? 44 then mouse_irq
  else if int_no =? 46 then ide_irq
  else if (32 <=? int_no) && (int_no <=? 47) then
    _ ← when (40 <=? int_no) (outb 160 32);
    outb 32 32
  else panic.

End Handler.

(** ** What the handler guarantees *)

(** A usable mode: rows of [gfx_pitch] bytes, all inside the mapped buffer. *)
Definition video_ok (v : video) : Prop :=
  mouse_screen (gfx_width v) (gfx_height v) /\
  gfx_pitch v mod 4 = 0 /\ 4 * gfx_width v <= gfx_pitch v /\
  gfx_height v * gfx_pitch v < 4294967296 /\
  match gfx_framebuffer v with
  | None => True
  | Some fb => gfx_height v * gfx_pitch v <= 4 * zlen fb
  end.

(** [idt_draw_rect] on such a mode fills exactly the visible part. *)
Lemma idt_draw_rect_painted W H P fb x y w h color :
  0 < W <= P -> 0 < H -> P < 1073741824 -> H * (4 * P) < 4294967296 -> P * H <= zlen fb ->
  exists fb', idt_draw_rect (Some fb) W H (4 * P) x y w h color = Ok (Some fb') /\
    painted P H (in_screen W H) (fun _ _ _ => color) (in_rect x y w h) fb fb'.
Proof.
  intros HW HH HP HB Hl. assert (H < 1073741824) by nia.
  assert (forall px py, in_screen W H px py = true -> 0 <= px < W /\ 0 <= py < H) as Hin.
  { intros px py. unfold in_screen. rewrite !i32_small by lia. zcases; simpl; intros; lia || done. }
  destruct (for_rect_painted P H (in_screen W H) (fun _ _ _ => color)
    (fun cx cy fb => if in_screen W H cx cy then putpixel fb cx cy color (4 * P) else Ok fb)
    x y w h fb) as (fb' & E & Hp); [| |done|].
  - intros px py fb1 _ Hl1. destruct (in_screen W H px py) eqn:E; [|done].
    apply Hin in E as [Hx Hy]. unfold putpixel.
    assert (0 <= py * (4 * P) /\ py * (4 * P) + px * 4 < H * (4 * P)) by nia.
    rewrite (u32_small (py * (4 * P))) by lia. rewrite u32_small by lia.
    replace (py * (4 * P) + px * 4) with ((py * P + px) * 4) by ring.
    rewrite Z.mod_mul, Z.div_mul by lia. simpl. apply wr_in. nia.
  - intros px py E. apply Hin in E. lia.
  - exists fb'. split; [|done]. unfold idt_draw_rect. unfold in_screen in E. by rewrite E.
Qed.

Record irq_ok {D} (s : irq_state D) : Prop := {
  io_kbd : kbd_ok (s_kbd s);
  io_mouse : mouse_ok (gfx_width (s_video s)) (gfx_height (s_video s)) (s_mouse s);
  io_video : video_ok (s_video s)
}.

Section HandlerSpec.
#[local] Set Default Proof Using "Type".
Context {D : Type} `{Ports D}.

(** Device states reachable by port reads alone. *)
Inductive reads : D -> D -> Prop :=
| reads_refl d : reads d d
| reads_inb d d' port : reads d d' -> reads d (p_inb port d').2.

(** The End-Of-Interrupt commands due for a vector: the slave PIC first when
    it raised the interrupt, the master always. *)
Definition eoi (int_no : Z) (d : D) : D :=
  if 40 <=? int_no then p_outb 32 32 (p_outb 160 32 d) else p_outb 32 32 d.

Lemma blink_ok color (s : irq_state D) :
  irq_ok s ->
  exists fb, blink color s = Ok (tt, mk_irq (s_kbd s) (s_mouse s)
      (mk_video fb (gfx_width (s_video s)) (gfx_height (s_video s)) (gfx_pitch (s_video s)))
      (timer_ticks s) (ide_interrupt_fired s) (s_dev s)) /\
    video_ok (mk_video fb (gfx_width (s_video s)) (gfx_height (s_video s)) (gfx_pitch (s_video s))).
Proof.
  intros [_ _ Hv]. destruct s as [k m [fb W Ht P] t i d]. unfold video_ok in *. simpl in *.
  destruct Hv as (HS & HP4 & HWP & HB & Hfb). unfold blink, mbind, M_bind, gets, lift. simpl.
  destruct fb as [fb|]; simpl; [|by exists None].
  assert (exists Q, P = 4 * Q) as [Q ->] by (exists (P / 4); dlia).
  destruct HS as [HW HH].
  destruct (idt_draw_rect_painted W Ht Q fb (i32 (u32 (W - 30))) 10 20 20 color)
    as (fb' & E & (Hl & _)); [lia|lia|nia|lia|lia|].
  exists (Some fb'). unfold idt_draw_rect in E.
  destruct (for_rect _ _ _ _ _ _) as [b| | |]; try done. injection E as ->. simpl.
  split; [done|]. rewrite Hl. unfold mouse_screen. split_and!; done || lia.
Qed.

Lemma isr_timer (s : irq_state D) :
  irq_ok s -> exists s', timer_irq s = Ok (tt, s') /\ irq_ok s' /\
    s_dev s' = p_outb 32 32 (s_dev s) /\ timer_ticks s' = u32 (timer_ticks s + 1).
Proof.
  intros Hok. unfold timer_irq.
  set (t := u32 (timer_ticks s + 1)).
  set (s1 := mk_irq (s_kbd s) (s_mouse s) (s_video s) t (ide_interrupt_fired s) (s_dev s)).
  assert (irq_ok s1) as Hok1 by (destruct Hok; split; done).
  assert (forall color, exists s', (blink color ≫= fun _ => outb 32 32) s1 = Ok (tt, s') /\ irq_ok s' /\
    s_dev s' = p_outb 32 32 (s_dev s) /\ timer_ticks s' = t) as K.
  { intros color. destruct (blink_ok color s1 Hok1) as (fb & E & Hv).
    rewrite (m_bind_Ok _ _ _ _ _ E). eexists. split; [reflexivity|]. split; [|done].
    destruct Hok1. split; done. }
  change (exists s', ((if t mod 18 =? 0 then blink 65280
    else if t mod 18 =? 9 then blink 11062 else skip) ≫= fun _ => outb 32 32) s1 = Ok (tt, s') /\ irq_ok s' /\
    s_dev s' = p_outb 32 32 (s_dev s) /\ timer_ticks s' = t).
  destruct (_ =? 0); [apply K|]. destruct (_ =? 9); [apply K|].
  eexists. split; [reflexivity|]. split; [|done]. by destruct Hok1.
Qed.

Lemma isr_keyboard (s : irq_state D) :
  irq_ok s -> exists s' d', keyboard_irq s = Ok (tt, s') /\ irq_ok s' /\ reads (s_dev s) d' /\
    s_dev s' = p_outb 32 32 d'.
Proof.
  intros [Hk Hm Hv]. destruct s as [k m v t i d]. simpl in *.
  set (r := p_inb 96 d).
  destruct (scancode_spec (u8 r.1) k Hk (u8_bound _)) as (k' & E & Hk' & _).
  exists (mk_irq k' m v t i (p_outb 32 32 r.2)), r.2. split.
  - unfold keyboard_irq, mbind, M_bind, lift, gets, inb. simpl.
    change (u16 96) with 96. fold r. rewrite E. done.
  - split; [by split|]. split; [|done]. apply reads_inb, reads_refl.
Qed.

Lemma isr_mouse (s : irq_state D) :
  irq_ok s -> exists s' d', mouse_irq s = Ok (tt, s') /\ irq_ok s' /\ reads (s_dev s) d' /\
    s_dev s' = p_outb 32 32 (p_outb 160 32 d').
Proof.
  intros [Hk Hm Hv]. destruct s as [k m v t i d]. simpl in *.
  set (r := p_inb 100 d). set (r' := p_inb 96 r.2).
  destruct (mouse_byte_ok (gfx_width v) (gfx_height v) (u8 r'.1) m (proj1 Hv) Hm) as (m' & E & Hm').
  assert (reads d r.2) as R1 by apply reads_inb, reads_refl.
  assert (reads d r'.2) as R2 by (unfold r'; by apply reads_inb).
  unfold mouse_irq, mbind, M_bind, lift, gets, inb.
  cbn [dev set_dev irq_dev s_kbd s_mouse s_video timer_ticks ide_interrupt_fired s_dev].
  change (u16 100) with 100. fold r. change (u16 96) with 96. fold r'.
  destruct (truth (Z.land (u8 r.1) 1)); [destruct (truth (Z.land (u8 r.1) 32))|].
  - cbn [s_kbd s_mouse s_video timer_ticks ide_interrupt_fired s_dev]. fold r'. rewrite E.
    exists (mk_irq k m' v t i (p_outb 32 32 (p_outb 160 32 r'.2))), r'.2. split; [done|]. by split.
  - exists (mk_irq k m v t i (p_outb 32 32 (p_outb 160 32 r'.2))), r'.2. split; [done|]. by split.
  - exists (mk_irq k m v t i (p_outb 32 32 (p_outb 160 32 r.2))), r.2. split; [done|]. by split.
Qed.

End HandlerSpec.

(** C29: for every hardware vector (32 to 47) the handler returns, keeps the
    keyboard ring, the packet assembler, the pointer and the framebuffer
    within their bounds, and, after port reads only, acknowledges the
    interrupt exactly once: to the slave PIC first if the vector is 40 or
    above, then to the master. Any other vector halts the machine. *)
Theorem isr_handler_acknowledges {D : Type} `{Ports D} (int_no : Z) (s : irq_state D) :
  irq_ok s ->
  if (32 <=? int_no) && (int_no <=? 47)
  then exists s' d', isr_handler int_no s = Ok (tt, s') /\ irq_ok s' /\
         reads (s_dev s) d' /\ s_dev s' = eoi int_no d'
  else isr_handler int_no s = Spin.
Proof.
  intros Hok. unfold isr_handler, eoi.
  destruct (Z.eqb_spec int_no 32) as [->|N32].
  { simpl. destruct (isr_timer s Hok) as (s' & E & Hok' & Hd & _).
    exists s', (s_dev s). split; [done|]. split; [done|]. split; [apply reads_refl|done]. }
  destruct (Z.eqb_spec int_no 33) as [->|N33]; [exact (isr_keyboard s Hok)|].
  destruct (Z.eqb_spec int_no 44) as [->|N44]; [exact (isr_mouse s Hok)|].
  destruct (Z.eqb_spec int_no 46) as [->|N46].
  { simpl. destruct s as [k m v t i d]. eexists _, _. split; [reflexivity|].
    destruct Hok. split; [done|]. split; [apply reads_inb, reads_refl|done]. }
  destruct ((32 <=? int_no) && (int_no <=? 47)); [|done].
  destruct s as [k m v t i d]. destruct (40 <=? int_no);
    (eexists _, _; split; [reflexivity|]; destruct Hok; split; [done|]; split; [apply reads_refl|done]).
Qed.

Definition demo_irq (input : list Z) : irq_state tape :=
  mk_irq kbd_boot mouse_boot (mk_video None 1024 768 4096) 17 0 (mk_tape input []).

Lemma demo_irq_ok input : irq_ok (demo_irq input).
Proof.
  split; [apply kbd_boot_ok|split; simpl; done || lia|].
  unfold video_ok, mouse_screen. simpl. split_and!; done || lia.
Qed.

Lemma isr_handler_acknowledges_witness :
  exists s', isr_handler 33 (demo_irq [30]) = Ok (tt, s') /\ irq_ok s' /\
    ring (s_kbd s') = [97] /\ t_log (s_dev s') = [(32, 32)].
Proof.
  destruct (isr_handler_acknowledges 33 (demo_irq [30]) (demo_irq_ok [30])) as (s' & d' & E & Hok & _).
  exists s'. split; [exact E|]. split; [exact Hok|].
  vm_compute in E. injection E as <-. split; reflexivity.
Defined.

(** ** Start-up *)

Lemma mouse_poll_tape t ready i l :
  exists i', mouse_poll t ready (mk_tape i l) = Ok (tt, mk_tape i' l).
Proof.
  revert i. induction t as [|t IH]; intros i; [by exists i|]. cbn [mouse_poll].
  destruct i as [|v r]; unfold mbind, M_bind, inb; cbn -[u8].
  - destruct (ready _); [by exists []|apply IH].
  - destruct (ready _); [by exists r|apply IH].
Qed.

Lemma mouse_wait_tape ty i l : exists i', mouse_wait ty (mk_tape i l) = Ok (tt, mk_tape i' l).
Proof. unfold mouse_wait. destruct (ty =? 0); apply mouse_poll_tape. Qed.

Lemma outb_tape port v i l : outb port v (mk_tape i l) = Ok (tt, mk_tape i (l ++ [(u16 port, u8 v)])).
Proof. done. Qed.

Lemma inb_tape port i l : exists v i', inb port (mk_tape i l) = Ok (u8 v, mk_tape i' l).
Proof. destruct i as [|v r]; [by exists 0, []|by exists v, r]. Qed.

(** Step through a driver run on a tape. *)
Ltac tape_step :=
  match goal with
  | |- context [(mouse_wait ?ty ≫= _) (mk_tape ?i ?l)] =>
      let i' := fresh "i" in let E := fresh "E" in
      destruct (mouse_wait_tape ty i l) as (i' & E); rewrite (m_bind_Ok _ _ _ _ _ E); clear E
  | |- context [(outb ?p ?v ≫= _) (mk_tape ?i ?l)] =>
      rewrite (m_bind_Ok _ _ _ _ _ (outb_tape p v i l))
  | |- context [(inb ?p ≫= _) (mk_tape ?i ?l)] =>
      let v := fresh "v" in let i' := fresh "i" in let E := fresh "E" in
      destruct (inb_tape p i l) as (v & i' & E); rewrite (m_bind_Ok _ _ _ _ _ E); clear E
  end.

Lemma mouse_write_tape b i l :
  exists i', mouse_write b (mk_tape i l) = Ok (tt, mk_tape i' ((l ++ [(100, 212)]) ++ [(96, u8 b)])).
Proof. unfold mouse_write. repeat tape_step. eexists. reflexivity. Qed.

Lemma mouse_read_tape i l : exists v i', mouse_read (mk_tape i l) = Ok (v, mk_tape i' l).
Proof.
  unfold mouse_read. tape_step. destruct (inb_tape 96 i0 l) as (v & i' & E). eauto.
Qed.

Lemma pic_remap_tape i l :
  exists i', pic_remap (mk_tape i l) = Ok (tt, mk_tape i' (l ++
    [(32, 17); (160, 17); (33, 32); (161, 40); (33, 4); (161, 2); (33, 1); (161, 1); (33, 0); (161, 0)])).
Proof.
  unfold pic_remap. repeat tape_step. eexists. rewrite outb_tape, <- !app_assoc. reflexivity.
Qed.

Lemma init_mouse_tape i l :
  exists v i', init_mouse (mk_tape i l) = Ok (tt, mk_tape i' (l ++
    [(100, 168); (100, 32); (100, 96); (96, u8 (Z.lor (u8 v) 2));
     (100, 212); (96, 246); (100, 212); (96, 244)])).
Proof.
  unfold init_mouse. do 6 tape_step. cbv zeta. do 4 tape_step.
  match goal with |- context [(mouse_write ?b ≫= _) (mk_tape ?i ?l)] =>
    destruct (mouse_write_tape b i l) as (j1 & E1); rewrite (m_bind_Ok _ _ _ _ _ E1); clear E1 end.
  match goal with |- context [(mouse_read ≫= _) (mk_tape ?i ?l)] =>
    destruct (mouse_read_tape i l) as (w1 & j2 & E1); rewrite (m_bind_Ok _ _ _ _ _ E1); clear E1 end.
  match goal with |- context [(mouse_write ?b ≫= _) (mk_tape ?i ?l)] =>
    destruct (mouse_write_tape b i l) as (j3 & E1); rewrite (m_bind_Ok _ _ _ _ _ E1); clear E1 end.
  match goal with |- context [(mouse_read ≫= _) (mk_tape ?i ?l)] =>
    destruct (mouse_read_tape i l) as (w2 & j4 & E1); rewrite (m_bind_Ok _ _ _ _ _ E1); clear E1 end.
  exists v, j4. rewrite (u8_small (u8 (Z.lor (u8 v) 2))) by apply u8_bound.
  rewrite <- !app_assoc. reflexivity.
Qed.

(** Whatever the controllers answer, [init_idt] returns (the controller
    waits are bounded). It leaves a table in which the divide and breakpoint
    exceptions and the timer, keyboard, mouse and IDE interrupts are kernel
    interrupt gates to their stubs and every other vector is clear; it programs
    the two PICs to vectors 32 and 40 in cascade with every line unmasked,
    then enables the auxiliary port, its interrupt and mouse streaming, with
    no other port write. *)
Theorem init_idt_programs (st : stubs) (addr : Z) (idt : list idt_entry) (i : list Z) (l : list (Z * Z)) :
  length idt = 256%nat ->
  Forall (fun a => 0 <= a < 4294967296) [isr0 st; isr3 st; irq0 st; irq1 st; irq12 st; irq14 st] ->
  exists v t i', init_idt st addr idt (mk_tape i l) = Ok ((mk_idt_ptr 2047 addr, t), mk_tape i' (l ++
    [(32, 17); (160, 17); (33, 32); (161, 40); (33, 4); (161, 2); (33, 1); (161, 1); (33, 0); (161, 0);
     (100, 168); (100, 32); (100, 96); (96, u8 (Z.lor (u8 v) 2));
     (100, 212); (96, 246); (100, 212); (96, 244)])) /\
    length t = 256%nat /\
    (forall n a, (n, a) ∈ [(0%nat, isr0 st); (3%nat, isr3 st); (32%nat, irq0 st);
                           (33%nat, irq1 st); (44%nat, irq12 st); (46%nat, irq14 st)] ->
       exists e, t !! n = Some e /\ idt_base e = a /\ i_sel e = 8 /\ i_flags e = 142) /\
    (forall n, (n < 256)%nat -> n ∉ [0; 3; 32; 33; 44; 46]%nat -> t !! n = Some idt_zero).
Proof.
  intros Hl Ha. destruct (idt_tables st idt Hl Ha) as (t1 & t2 & E1 & E2 & Hlen & Hv & Hz).
  destruct (pic_remap_tape i l) as (i1 & Ep).
  destruct (init_mouse_tape i1 (l ++ [(32, 17); (160, 17); (33, 32); (161, 40); (33, 4); (161, 2);
    (33, 1); (161, 1); (33, 0); (161, 0)])) as (v & i2 & Em).
  exists v, t2, i2. split; [|done]. unfold init_idt.
  rewrite E1. rewrite (m_bind_Ok (lift (Ok t1)) _ _ t1 (mk_tape i l) eq_refl).
  rewrite (m_bind_Ok _ _ _ _ _ Ep), E2.
  rewrite (m_bind_Ok (lift (Ok t2)) _ _ t2 _ eq_refl), (m_bind_Ok _ _ _ _ _ Em).
  rewrite <- app_assoc. reflexivity.
Qed.

Lemma init_idt_programs_witness :
  exists t i', init_idt (mk_stubs 1 2 3 4 5 6) 0 (replicate 256 idt_zero) (mk_tape [] []) =
    Ok ((mk_idt_ptr 2047 0, t), i') /\ t !! 7%nat = Some idt_zero.
Proof.
  destruct (init_idt_programs (mk_stubs 1 2 3 4 5 6) 0 (replicate 256 idt_zero) [] [])
    as (v & t & i' & E & _ & _ & Hz).
  - reflexivity.
  - repeat (constructor; [simpl; lia|]). constructor.
  - exists t. eexists. split; [exact E|]. apply Hz; [lia|].
    rewrite !not_elem_of_cons. repeat split; try lia. apply not_elem_of_nil.
Defined.
