(* ===== verification/Serial.v ===== *)
(** * Serial: the COM1 log (serial.c)

    The driver polls the line status register before each byte. The UART is a
    parameter with the 16550's documented behaviour ([Uart]): while a byte is
    in transit bit 5 of the status is clear, and it is set after a bounded
    number of polls; a byte written then is transmitted. *)

From Stdlib Require Import ZArith Lia Bool String.
From stdpp Require Import base list.
From S2P Require Import Prelude CLib Hw.
From stdpp Require Import options.

Definition COM1 : Z := 1016.

Section Serial.
Context {S D : Type} `{HasDev S D} `{Ports D}.

Definition init_serial : M S unit :=
  _ ← outb (COM1 + 1) 0;
  _ ← outb (COM1 + 3) 128;
  _ ← outb (COM1 + 0) 3;
  _ ← outb (COM1 + 1) 0;
  _ ← outb (COM1 + 3) 3;
  _ ← outb (COM1 + 2) 199;
  outb (COM1 + 4) 11.

Definition is_transmit_empty : M S Z :=
  v ← inb (COM1 + 5);
  mret (Z.land v 32).

(** [while (is_transmit_empty() == 0);] *)
Fixpoint wait_transmit (fuel : nat) : M S unit :=
  match fuel with
  | O => lift NoFuel
  | Datatypes.S f => e ← is_transmit_empty; if e =? 0 then wait_transmit f else skip
  end.

Context (fuel : nat).

Definition write_serial_char (a : Z) : M S unit :=
  _ ← wait_transmit fuel;
  outb COM1 a.

Fixpoint write_serial_string (s : list Z) : M S unit :=
  match s with
  | [] => lift Fault
  | c :: s' => if c =? 0 then skip else _ ← write_serial_char c; write_serial_string s'
  end.

(** [for (j = i - 1; j >= 0; j--) write_serial_char(buf[j]);] *)
Fixpoint write_all (cs : list Z) : M S unit :=
  match cs with
  | [] => skip
  | c :: r => _ ← write_serial_char c; write_all r
  end.

Definition serial_print_int (num : Z) : M S unit :=
  if num =? 0 then write_serial_char 48
  else
    num ← (if num <? 0 then
             _ ← write_serial_char 45;
             if num =? -2147483648 then lift Fault else mret (- num)
           else mret num);
    buf ← lift (digits_loop 33 num [] 32);
    write_all (rev buf).

Fixpoint serial_printf (format : list Z) (args : list varg) : M S unit :=
  match format with
  | [] => lift Fault
  | c :: p =>
      if c =? 0 then skip
      else
        match p with
        | f :: p' =>
            if (c =? 37) && negb (f =? 0) then
              if f =? 115 then
                match args with
                | VStr (Some s) :: args' => _ ← write_serial_string s; serial_printf p' args'
                | _ => lift Fault
                end
              else if f =? 100 then
                match args with
                | VInt d :: args' => _ ← serial_print_int (i32 d); serial_printf p' args'
                | _ => lift Fault
                end
              else if f =? 99 then
                match args with
                | VInt d :: args' => _ ← write_serial_char (i8 d); serial_printf p' args'
                | _ => lift Fault
                end
              else serial_printf p' args
            else _ ← write_serial_char c; serial_printf p args
        | [] => lift Fault
        end
  end.

End Serial.

(** ** The UART *)

Class Uart (D : Type) `{Ports D} := {
  sent : D -> list Z;
  busy : D -> nat;
  max_busy : nat;
  uart_status : forall d, let r := p_inb 1021 d in
    sent r.2 = sent d /\ busy r.2 = Nat.pred (busy d) /\
    (Z.land (u8 r.1) 32 = 0 <-> busy d <> O);
  uart_send : forall d v, busy d = O ->
    sent (p_outb 1016 v d) = sent d ++ [v] /\ (busy (p_outb 1016 v d) <= max_busy)%nat
}.

(** A transmitter that needs [k] polls per byte. *)
Record uart := mk_uart { u_sent : list Z; u_left : nat }.
Definition uart_delay : nat := 3.

#[global] Instance uart_ports : Ports uart := {
  p_inb port d := if port =? 1021 then (match u_left d with O => 32 | _ => 0 end,
                                        mk_uart (u_sent d) (Nat.pred (u_left d))) else (0, d);
  p_outb port v d := if port =? 1016 then mk_uart (u_sent d ++ [v]) uart_delay else d;
  p_inw _ d := (0, d); p_outw _ _ d := d; p_inl _ d := (0, d); p_outl _ _ d := d
}.

#[global] Instance uart_laws : Uart uart.
Proof.
  refine {| sent := u_sent; busy := u_left; max_busy := uart_delay |}.
  - intros [l n]. simpl. split; [done|]. split; [done|]. destruct n; simpl; split; done.
  - intros [l n] v Hb. simpl in *. split; [done|]. unfold uart_delay. lia.
Defined.

(** The digits do not depend on surplus fuel. *)
Lemma rdigits_fuel f1 f2 v n :
  0 <= v < 10 ^ Z.of_nat n -> (n <= f1)%nat -> (n <= f2)%nat -> rdigits f1 v = rdigits f2 v.
Proof.
  revert f1 f2 v. induction n as [|n IH]; intros f1 f2 v Hv H1 H2.
  - assert (v = 0) as -> by (simpl in Hv; lia). by destruct f1, f2.
  - destruct f1 as [|f1], f2 as [|f2]; try lia. cbn [rdigits]. destruct (0 <? v); [|done].
    rewrite Nat2Z.inj_succ, Z.pow_succ_r in Hv by lia. f_equal. apply IH; [split; dlia|lia|lia].
Qed.

Section Emit.
#[local] Set Default Proof Using "All".
Context {D : Type} `{Uart D} (fuel : nat) (Hfuel : (max_busy < fuel)%nat).

(** [prints m out]: [m] returns, having transmitted exactly [out]. *)
Definition prints (m : M D unit) (out : list Z) : Prop :=
  forall d, (busy d <= max_busy)%nat ->
    exists d', m d = Ok (tt, d') /\ sent d' = sent d ++ out /\ (busy d' <= max_busy)%nat.

Lemma prints_skip : prints skip [].
Proof. intros d Hb. exists d. by rewrite app_nil_r. Qed.

Lemma prints_bind m k o1 o2 :
  prints m o1 -> prints (k tt) o2 -> prints (m ≫= k) (o1 ++ o2).
Proof.
  intros H1 H2 d Hb. destruct (H1 d Hb) as (d1 & E1 & S1 & B1).
  destruct (H2 d1 B1) as (d2 & E2 & S2 & B2).
  exists d2. rewrite (m_bind_Ok _ _ _ _ _ E1). split; [done|]. by rewrite S2, S1, app_assoc.
Qed.

Lemma wait_transmit_ready n (d : D) :
  (busy d < n)%nat -> exists d', wait_transmit n d = Ok (tt, d') /\ sent d' = sent d /\ busy d' = O.
Proof.
  revert d. induction n as [|n IH]; intros d Hb; [lia|]. cbn [wait_transmit].
  destruct (uart_status d) as (Hs & Hn & Hz).
  unfold is_transmit_empty, mbind, M_bind, inb. change (u16 (COM1 + 5)) with 1021.
  cbn [dev set_dev dev_self mret M_ret].
  set (r := p_inb 1021 d) in *.
  destruct (Z.eqb_spec (Z.land (u8 r.1) 32) 0) as [E|N].
  - apply Hz in E. destruct (IH r.2) as (d' & E' & S' & B'); [lia|].
    exists d'. split; [exact E'|]. split; [congruence|done].
  - exists r.2. split; [done|]. split; [done|].
    destruct (decide (busy d = O)); [lia|tauto].
Qed.

Lemma prints_char a : prints (write_serial_char fuel a) [u8 a].
Proof.
  intros d Hb.
  destruct (wait_transmit_ready fuel d) as (d1 & E & Hs & Hb1); [lia|].
  destruct (uart_send d1 (u8 a) Hb1) as [Hs2 Hb2]. unfold write_serial_char. rewrite (m_bind_Ok _ _ _ _ _ E). eexists. split; [reflexivity|].
  change (u16 COM1) with 1016. cbn [dev set_dev dev_self]. by rewrite Hs2, Hs.
Qed.

Lemma prints_string s str :
  cstr s str -> prints (write_serial_string fuel s) (u8 <$> str).
Proof.
  intros (rest & -> & Hnz). induction Hnz as [|c str Hc _ IH]; cbn [app write_serial_string fmap list_fmap].
  - apply prints_skip.
  - destruct (Z.eqb_spec c 0); [done|]. apply (prints_bind _ _ [u8 c]); [apply prints_char|done].
Qed.

Lemma prints_all cs : prints (write_all fuel cs) (u8 <$> cs).
Proof.
  induction cs as [|c cs IH]; [apply prints_skip|].
  apply (prints_bind _ _ [u8 c]); [apply prints_char|done].
Qed.

Lemma decimal_u8 v : u8 <$> decimal v = decimal v.
Proof.
  pose proof (decimal_digit v) as Hd. induction Hd as [|c r Hc _ IH]; [done|].
  cbn [fmap list_fmap]. rewrite IH, u8_small; [done|]. unfold is_digit in Hc. lia.
Qed.

(** The text of a signed integer. *)
Definition show_signed (v : Z) : list Z := if v <? 0 then 45 :: decimal (- v) else decimal v.

Lemma prints_int v :
  -2147483648 < v < 2147483648 -> prints (serial_print_int fuel v) (show_signed v).
Proof.
  intros Hv. unfold serial_print_int, show_signed.
  assert (forall n, 0 < n < 2147483648 ->
    prints (buf ← lift (digits_loop 33 n [] 32); write_all fuel (rev buf)) (decimal n)) as K.
  { intros n Hn.
    assert (digits_loop 33 n [] 32 = Ok (rdigits 32 n) /\ rev (rdigits 32 n) = decimal n) as [E R].
    { split.
      - apply (digits_loop_spec 32 n []); [split; [lia|]|].
        + etransitivity; [apply Hn|]. reflexivity.
        + pose proof (rdigits_length 32 n 10). change (10 ^ Z.of_nat 10) with 10000000000 in *.
          cbn [length]. lia.
      - unfold decimal. destruct (Z.eqb_spec n 0); [lia|]. f_equal.
        apply (rdigits_fuel 32 11 n 10); [change (10 ^ Z.of_nat 10) with 10000000000; lia|lia|lia]. }
    rewrite E. intros d Hb. rewrite (m_bind_Ok (lift (Ok _)) _ d (rdigits 32 n) d eq_refl), R.
    destruct (prints_all (decimal n) d Hb) as (d' & E' & S' & B'). exists d'.
    by rewrite decimal_u8 in S'. }
  destruct (Z.eqb_spec v 0) as [->|N]; [apply (prints_char 48)|].
  destruct (Z.ltb_spec v 0).
  - destruct (Z.eqb_spec v (-2147483648)); [lia|]. intros d Hb.
    destruct (prints_char 45 d Hb) as (d1 & E1 & S1 & B1).
    destruct (K (- v) ltac:(lia) d1 B1) as (d2 & E2 & S2 & B2).
    exists d2. split; [|split; [by rewrite S2, S1, <- app_assoc|done]].
    rewrite <- E2. unfold mbind at 1, M_bind at 1. rewrite (m_bind_Ok _ _ _ _ _ E1). done.
  - exact (K v ltac:(lia)).
Qed.

(** What [serial_printf] prints: [%s], [%d] and [%c] consume an argument; any
    other conversion is dropped together with its letter. *)
Fixpoint log_text (format : list Z) (args : list varg) : option (list Z) :=
  match format with
  | [] => None
  | c :: p =>
      if c =? 0 then Some []
      else
        match p with
        | f :: p' =>
            if (c =? 37) && negb (f =? 0) then
              if f =? 115 then
                match args with
                | VStr (Some s) :: args' =>
                    t ← until_nul s; r ← log_text p' args'; Some ((u8 <$> t) ++ r)
                | _ => None
                end
              else if f =? 100 then
                match args with
                | VInt d :: args' =>
                    if i32 d =? -2147483648 then None
                    else r ← log_text p' args'; Some (show_signed (i32 d) ++ r)
                | _ => None
                end
              else if f =? 99 then
                match args with
                | VInt d :: args' => r ← log_text p' args'; Some (u8 (i8 d) :: r)
                | _ => None
                end
              else log_text p' args
            else r ← log_text p args; Some (u8 c :: r)
        | [] => None
        end
  end.

Lemma prints_format format args out :
  log_text format args = Some out -> prints (serial_printf fuel format args) out.
Proof.
  revert args out. induction format as [format IH] using (induction_ltof1 _ (@length Z)).
  unfold ltof in IH. intros args out. destruct format as [|c p]; cbn [log_text serial_printf]; [done|].
  destruct (c =? 0); [intros [= <-]; apply prints_skip|].
  destruct p as [|f p']; [done|].
  destruct ((c =? 37) && negb (f =? 0)).
  - destruct (f =? 115); [|destruct (f =? 100); [|destruct (f =? 99)]].
    + destruct args as [|[z|[s|]] args']; try done. intros E.
      apply bind_Some in E as (t & Et & E). apply bind_Some in E as (r & Er & [= <-]).
      apply prints_bind; [|apply IH; [simpl; lia|done]].
      by apply prints_string, until_nul_cstr.
    + destruct args as [|[z|s] args']; try done. destruct (Z.eqb_spec (i32 z) (-2147483648)); [done|].
      intros E. apply bind_Some in E as (r & Er & [= <-]). pose proof (i32_bound z).
      apply prints_bind; [apply prints_int; lia|apply IH; [simpl; lia|done]].
    + destruct args as [|[z|s] args']; try done. intros E. apply bind_Some in E as (r & Er & [= <-]).
      apply (prints_bind _ _ [_]); [apply prints_char|apply IH; [simpl; lia|done]].
    + intros E. apply IH; [simpl; lia|done].
  - intros E. apply bind_Some in E as (r & Er & [= <-]).
    apply (prints_bind _ _ [_]); [apply prints_char|apply IH; [simpl; lia|done]].
Qed.

End Emit.

(** On a UART that finishes each byte within a bounded number of polls,
    [serial_printf] returns and transmits exactly the text its format
    denotes: literal characters, strings, characters and signed decimal
    numbers in order. *)
Theorem serial_printf_transmits {D : Type} `{Uart D} (fuel : nat) (format : list Z) (args : list varg)
  (out : list Z) (d : D) :
  (max_busy < fuel)%nat -> (busy d <= max_busy)%nat -> log_text format args = Some out ->
  exists d', serial_printf fuel format args d = Ok (tt, d') /\ sent d' = sent d ++ out.
Proof.
  intros Hf Hb Ht. destruct (prints_format fuel Hf format args out Ht d Hb) as (d' & E & S & _).
  by exists d'.
Qed.

Lemma serial_printf_transmits_witness :
  exists d', serial_printf 10 (lit "IRQ %d: %s%u!") [VInt (-14); VStr (Some (lit "ok"))] (mk_uart [] 2) =
    Ok (tt, d') /\ u_sent d' = bytes "IRQ -14: ok!".
Proof.
  destruct (serial_printf_transmits (D := uart) 10 (lit "IRQ %d: %s%u!")
    [VInt (-14); VStr (Some (lit "ok"))] (bytes "IRQ -14: ok!") (mk_uart [] 2)) as (d' & E & S).
  - simpl. unfold uart_delay. lia.
  - simpl. unfold uart_delay. lia.
  - vm_compute. reflexivity.
  - exists d'. split; [exact E|exact S].
Defined.
