(* ===== verification/Ata.v ===== *)
(** * Ata: the PIO disk driver (diskio.c)

    The driver runs with interrupts enabled: whenever the drive asserts its
    interrupt line, [isr_handler 46] (Irq) runs before the next instruction.
    [irq_point] is that delivery; the port accesses of the driver and the
    iterations of its wait loops are followed by one. The drive is a
    parameter whose view is an ATA PIO automaton ([AtaDrive]); the latencies
    of its commands are arbitrary. Log lines are not modelled. *)

From Stdlib Require Import ZArith Lia Bool.
From stdpp Require Import base list.
From S2P Require Import Prelude Hw Irq.
From stdpp Require Import options.

Definition ATA_REG_DATA : Z := 496.
Definition ATA_REG_FEATURES : Z := 497.
Definition ATA_REG_SECTOR_COUNT : Z := 498.
Definition ATA_REG_LBA_LOW : Z := 499.
Definition ATA_REG_LBA_MID : Z := 500.
Definition ATA_REG_LBA_HIGH : Z := 501.
Definition ATA_REG_DRIVE : Z := 502.
Definition ATA_REG_COMMAND : Z := 503.
Definition ATA_REG_STATUS : Z := 503.
Definition ATA_CMD_READ : Z := 32.
Definition ATA_CMD_WRITE : Z := 48.
Definition ATA_STATUS_BSY : Z := 128.
Definition ATA_STATUS_DRQ : Z := 8.

Inductive DRESULT := RES_OK | RES_ERROR | RES_WRPRT | RES_NOTRDY | RES_PARERR.
Definition STA_NOINIT : Z := 1.

(** ** The drive *)

Inductive phase :=
| Idle
| RdBusy (n : nat) (lba : Z)
| RdData (ws : list Z)
| WrBusy (n : nat) (lba : Z)
| WrData (lba : Z) (ws : list Z)
| WrCommit (n : nat) (lba : Z) (ws : list Z).

(** Task file, protocol phase, interrupt line and medium of a PIO drive. [a_delay]
    gives the latency of each busy period, chosen by the drive. *)
Record ata := mk_ata {
  a_count : Z; a_low : Z; a_mid : Z; a_high : Z; a_drive : Z;
  a_phase : phase; a_irq : bool; a_delay : nat; a_disk : Z -> list Z
}.

Definition with_phase (p : phase) (irq : bool) (a : ata) : ata :=
  mk_ata (a_count a) (a_low a) (a_mid a) (a_high a) (a_drive a) p irq (a_delay a) (a_disk a).

(** The passage of a little time. *)
Definition advance (a : ata) : ata :=
  match a_phase a with
  | RdBusy (S n) lba => with_phase (RdBusy n lba) (a_irq a) a
  | RdBusy O lba => with_phase (RdData (a_disk a lba)) true a
  | WrBusy (S n) lba => with_phase (WrBusy n lba) (a_irq a) a
  | WrBusy O lba => with_phase (WrData lba []) (a_irq a) a
  | WrCommit (S n) lba ws => with_phase (WrCommit n lba ws) (a_irq a) a
  | WrCommit O lba ws =>
      mk_ata (a_count a) (a_low a) (a_mid a) (a_high a) (a_drive a) Idle true (a_delay a)
             (fun k => if k =? lba then ws else a_disk a k)
  | Idle | RdData _ | WrData _ _ => a
  end.

Definition a_status (a : ata) : Z :=
  match a_phase a with
  | RdBusy _ _ | WrBusy _ _ | WrCommit _ _ _ => 192
  | RdData _ | WrData _ _ => 72
  | Idle => 64
  end.

Definition clear_irq (a : ata) : ata := with_phase (a_phase a) false a.

Definition a_lba (a : ata) : Z :=
  a_low a + a_mid a * 256 + a_high a * 65536 + (a_drive a mod 16) * 16777216.

(** A command is accepted when idle, for one sector, in LBA mode. *)
Definition a_command (cmd : Z) (a : ata) : ata :=
  match a_phase a with
  | Idle =>
      if (a_count a =? 1) && (a_drive a / 16 =? 14) then
        if cmd =? 32 then with_phase (RdBusy (a_delay a) (a_lba a)) (a_irq a) a
        else if cmd =? 48 then with_phase (WrBusy (a_delay a) (a_lba a)) (a_irq a) a
        else a
      else a
  | _ => a
  end.

Definition a_out (port v : Z) (a : ata) : ata :=
  let '(mk_ata c l m h d p i n k) := a in
  if port =? 498 then mk_ata v l m h d p i n k
  else if port =? 499 then mk_ata c v m h d p i n k
  else if port =? 500 then mk_ata c l v h d p i n k
  else if port =? 501 then mk_ata c l m v d p i n k
  else if port =? 502 then mk_ata c l m h v p i n k
  else if port =? 503 then a_command v a
  else a.

Definition a_in_data (a : ata) : Z * ata :=
  match a_phase a with
  | RdData [w] => (w, with_phase Idle (a_irq a) a)
  | RdData (w :: ws) => (w, with_phase (RdData ws) (a_irq a) a)
  | _ => (0, a)
  end.

Definition a_out_data (v : Z) (a : ata) : ata :=
  match a_phase a with
  | WrData lba ws =>
      if (length ws + 1 =? 256)%nat then with_phase (WrCommit (a_delay a) lba (ws ++ [v])) (a_irq a) a
      else with_phase (WrData lba (ws ++ [v])) (a_irq a) a
  | _ => a
  end.

(** What the driver relies on. *)
Class AtaDrive (D : Type) `{Ports D} := {
  view : D -> ata;
  tick : D -> D;
  intrq : D -> bool;
  v_intrq : forall d, intrq d = a_irq (view d);
  v_tick : forall d, view (tick d) = advance (view d);
  v_status : forall d, let r := p_inb 503 d in
    r.1 = a_status (view d) /\ view r.2 = advance (clear_irq (view d));
  v_out : forall port v d, 496 < port -> view (p_outb port v d) = a_out port v (view d);
  v_pic : forall port v d, port < 496 -> view (p_outb port v d) = view d;
  v_in_data : forall d, let r := p_inw 496 d in (r.1, view r.2) = a_in_data (view d);
  v_out_data : forall v d, view (p_outw 496 v d) = a_out_data v (view d)
}.

(** The automaton itself as a drive. *)
#[global] Instance ata_ports : Ports ata := {
  p_inb port a := if port =? 503 then (a_status a, advance (clear_irq a)) else (0, a);
  p_outb port v a := if 496 <? port then a_out port v a else a;
  p_inw port a := if port =? 496 then a_in_data a else (0, a);
  p_outw port v a := if port =? 496 then a_out_data v a else a;
  p_inl _ a := (0, a);
  p_outl _ _ a := a
}.
#[global] Instance ata_self : AtaDrive ata.
Proof.
  refine {| view := fun a => a; tick := advance; intrq := a_irq |}; try done.
  - intros port v d Hp. simpl. destruct (Z.ltb_spec 496 port); [done|lia].
  - intros port v d Hp. simpl. destruct (Z.ltb_spec 496 port); [lia|done].
  - intros d. simpl. by destruct (a_in_data d).
Defined.

(** ** The driver *)

Section Driver.
Context {D : Type} `{AtaDrive D}.
Abbreviation DM := (M (irq_state D)).

(** Delivery of a pending IRQ 14. *)
Definition irq_point : DM unit :=
  d ← gets s_dev;
  when (intrq d) (isr_handler 46).

Definition inb_i (port : Z) : DM Z := v ← inb port; _ ← irq_point; mret v.
Definition outb_i (port v : Z) : DM unit := _ ← outb port v; irq_point.
Definition inw_i (port : Z) : DM Z := v ← inw port; _ ← irq_point; mret v.
Definition outw_i (port v : Z) : DM unit := _ ← outw port v; irq_point.

(** [asm volatile("nop")] in a wait loop: time passes. *)
Definition nop : DM unit :=
  _ ← modify (fun s => set_dev (tick (s_dev s)) s);
  irq_point.

Definition disk_status (pdrv : Z) : Z := if negb (pdrv =? 0) then STA_NOINIT else 0.

Definition disk_initialize (pdrv : Z) : DM Z :=
  if negb (pdrv =? 0) then mret STA_NOINIT
  else
    _ ← outb_i 1014 0;
    _ ← inb_i ATA_REG_STATUS;
    mret 0.

(** The settling loop of a thousand [nop]s has no effect on an idle drive. *)
Definition ata_select_master (sector : Z) : DM unit :=
  outb_i ATA_REG_DRIVE (Z.lor 224 (Z.land (Z.shiftr sector 24) 15)).

Fixpoint ata_wait_loop (fuel : nat) (loop_counter : Z) : DM unit :=
  match fuel with
  | O => lift NoFuel
  | S f =>
      fired ← gets ide_interrupt_fired;
      if truth fired then skip
      else
        _ ← nop;
        let loop_counter := u32 (loop_counter + 1) in
        _ ← when (loop_counter mod 50000000 =? 0)
              (_ ← inb_i ATA_REG_STATUS; _ ← inb_i ATA_REG_STATUS; skip);
        ata_wait_loop f loop_counter
  end.

Context (fuel : nat).

Definition ata_wait_interrupt : DM unit :=
  _ ← ata_wait_loop fuel 0;
  set_ide 0.

(** [while (cond(status = inb(ATA_REG_STATUS))) nop;] *)
Fixpoint ata_poll (f : nat) (again : Z -> bool) : DM unit :=
  match f with
  | O => lift NoFuel
  | S f =>
      status ← inb_i ATA_REG_STATUS;
      if again status then _ ← nop; ata_poll f again else skip
  end.

Definition status_delay : DM unit :=
  _ ← inb_i ATA_REG_STATUS; _ ← inb_i ATA_REG_STATUS;
  _ ← inb_i ATA_REG_STATUS; _ ← inb_i ATA_REG_STATUS; skip.

Definition ata_poll_drq : DM unit :=
  _ ← status_delay;
  _ ← ata_poll fuel (fun status => truth (Z.land status ATA_STATUS_BSY));
  ata_poll fuel (fun status => negb (truth (Z.land status ATA_STATUS_DRQ))).

(** The task-file writes shared by both directions, up to the command. *)
Definition ata_issue (current_sector cmd : Z) : DM unit :=
  _ ← ata_select_master current_sector;
  _ ← outb_i ATA_REG_FEATURES 0;
  _ ← outb_i ATA_REG_SECTOR_COUNT 1;
  _ ← outb_i ATA_REG_LBA_LOW (u8 current_sector);
  _ ← outb_i ATA_REG_LBA_MID (u8 (Z.shiftr current_sector 8));
  _ ← outb_i ATA_REG_LBA_HIGH (u8 (Z.shiftr current_sector 16));
  _ ← set_ide 0;
  _ ← outb_i ATA_REG_COMMAND cmd;
  status_delay.

(** [*ptr++ = inw(ATA_REG_DATA)] for [n] words at byte offset [off]. *)
Fixpoint read_words (n : nat) (off : Z) (buff : list Z) : DM (list Z) :=
  match n with
  | O => mret buff
  | S n =>
      w ← inw_i ATA_REG_DATA;
      buff ← lift (wr buff off (u8 w));
      buff ← lift (wr buff (off + 1) (u8 (Z.shiftr w 8)));
      read_words n (off + 2) buff
  end.

(** [outw(ATA_REG_DATA, *ptr++)] *)
Fixpoint write_words (n : nat) (off : Z) (buff : list Z) : DM unit :=
  match n with
  | O => skip
  | S n =>
      lo ← lift (rd buff off);
      hi ← lift (rd buff (off + 1));
      _ ← outw_i ATA_REG_DATA (lo + hi * 256);
      write_words n (off + 2) buff
  end.

Definition read_sector (current_sector off : Z) (buff : list Z) : DM (list Z) :=
  _ ← ata_issue current_sector ATA_CMD_READ;
  _ ← ata_wait_interrupt;
  read_words 256 off buff.

Fixpoint disk_read_loop (count : nat) (sector off : Z) (buff : list Z) : DM (list Z) :=
  match count with
  | O => mret buff
  | S n =>
      buff ← read_sector (u32 sector) off buff;
      disk_read_loop n (sector + 1) (off + 512) buff
  end.

Definition disk_read (pdrv : Z) (buff : list Z) (sector count : Z) : DM (DRESULT * list Z) :=
  if negb (pdrv =? 0) then mret (RES_PARERR, buff)
  else buff ← disk_read_loop (Z.to_nat count) sector 0 buff; mret (RES_OK, buff).

Definition write_sector (current_sector off : Z) (buff : list Z) : DM unit :=
  _ ← ata_issue current_sector ATA_CMD_WRITE;
  _ ← ata_poll_drq;
  _ ← write_words 256 off buff;
  _ ← ata_wait_interrupt;
  _ ← inb_i ATA_REG_STATUS;
  skip.

Fixpoint disk_write_loop (count : nat) (sector off : Z) (buff : list Z) : DM unit :=
  match count with
  | O => skip
  | S n =>
      _ ← write_sector (u32 sector) off buff;
      disk_write_loop n (sector + 1) (off + 512) buff
  end.

Definition disk_write (pdrv : Z) (buff : list Z) (sector count : Z) : DM DRESULT :=
  if negb (pdrv =? 0) then mret RES_PARERR
  else _ ← disk_write_loop (Z.to_nat count) sector 0 buff; mret RES_OK.

End Driver.

(** [disk_ioctl]: the result and the value stored through [buff]. *)
Definition disk_ioctl (pdrv cmd : Z) : DRESULT * option Z :=
  if negb (pdrv =? 0) then (RES_PARERR, None)
  else if cmd =? 0 then (RES_OK, None)
  else if cmd =? 1 then (RES_OK, Some 20480)
  else if cmd =? 2 then (RES_OK, Some 512)
  else if cmd =? 3 then (RES_OK, Some 1)
  else (RES_PARERR, None).

Definition get_fattime : Z :=
  u32 (Z.lor (Z.lor (Z.shiftl (2026 - 1980) 25) (Z.shiftl 6 21)) (Z.shiftl 28 16)).

(** ** Running the driver against the view *)

Section Runs.
#[local] Set Default Proof Using "Type".
Context {D : Type} `{AtaDrive D}.

(** The driver-visible state: the drive's view and the interrupt flag. *)
Definition at_ (a : ata) (f : Z) (s : irq_state D) : Prop :=
  view (s_dev s) = a /\ ide_interrupt_fired s = f.

(** Everything the disk driver must not disturb. *)
Definition same_rest (s s' : irq_state D) : Prop :=
  s_kbd s' = s_kbd s /\ s_mouse s' = s_mouse s /\ s_video s' = s_video s /\
  timer_ticks s' = timer_ticks s.

Definition run {A} (m : M (irq_state D) A) (c : ata * Z) (x : A) (c' : ata * Z) : Prop :=
  forall s, at_ c.1 c.2 s -> exists s', m s = Ok (x, s') /\ at_ c'.1 c'.2 s' /\ same_rest s s'.

Lemma run_bind {A B} (m : M (irq_state D) A) (k : A -> M (irq_state D) B) c x c1 y c2 :
  run m c x c1 -> run (k x) c1 y c2 -> run (m ≫= k) c y c2.
Proof.
  intros H1 H2 s Hs. destruct (H1 s Hs) as (s1 & E1 & A1 & (R1 & R2 & R3 & R4)).
  destruct (H2 s1 A1) as (s2 & E2 & A2 & (Q1 & Q2 & Q3 & Q4)).
  exists s2. rewrite (m_bind_Ok _ _ _ _ _ E1). split; [done|]. split; [done|].
  unfold same_rest. split_and!; congruence.
Qed.

Lemma run_ret {A} (x : A) c : run (mret x) c x c.
Proof. intros s Hs. exists s. done. Qed.

Lemma run_lift {A} (x : A) r c : r = Ok x -> run (lift r) c x c.
Proof. intros -> s Hs. exists s. done. Qed.

Lemma run_set_ide v a f : run (set_ide v) (a, f) tt (a, v).
Proof. intros s [Hv Hf]. eexists. split; [reflexivity|]. by split. Qed.

(** The effect of a pending interrupt. *)
Definition settle (c : ata * Z) : ata * Z :=
  if a_irq c.1 then (advance (clear_irq c.1), 1) else c.

Lemma run_irq_point c : run irq_point c tt (settle c).
Proof.
  intros s [Hv Hf]. unfold irq_point, settle. destruct c as [a f]. simpl in *. subst a f.
  unfold mbind, M_bind, gets. rewrite v_intrq.
  destruct (a_irq (view (s_dev s))); simpl; [|by exists s].
  destruct (v_status (s_dev s)) as [_ V].
  eexists. split; [reflexivity|]. split; [|done]. split; [|done]. simpl.
  rewrite !v_pic by reflexivity. exact V.
Qed.

Definition poke (c : ata * Z) : ata * Z := settle (advance c.1, c.2).
Definition quiet (c : ata * Z) : Prop := a_irq c.1 = false.

Lemma clear_quiet a : a_irq a = false -> clear_irq a = a.
Proof. destruct a. unfold clear_irq, with_phase. simpl. by intros ->. Qed.

Lemma run_status c : quiet c -> run (inb_i ATA_REG_STATUS) c (u8 (a_status c.1)) (poke c).
Proof.
  intros Hq. unfold inb_i, poke. eapply run_bind; [|eapply run_bind; [apply run_irq_point|apply run_ret]].
  intros s [Hv Hf]. destruct (v_status (s_dev s)) as [V1 V2].
  eexists. split; [unfold inb; change (u16 ATA_REG_STATUS) with 503;
    change (dev s) with (s_dev s); rewrite V1, Hv; reflexivity|].
  split; [|done]. split; [|done]. simpl. rewrite V2, Hv. by rewrite clear_quiet.
Qed.

Lemma run_nop c : run nop c tt (poke c).
Proof.
  unfold nop, poke. eapply run_bind; [|apply run_irq_point].
  intros s [Hv Hf]. eexists. split; [reflexivity|]. split; [|done]. split; [|done].
  simpl. by rewrite v_tick, Hv.
Qed.

Lemma run_outb port v a f :
  496 < port < 65536 -> is_byte v -> a_irq (a_out port v a) = false ->
  run (outb_i port v) (a, f) tt (a_out port v a, f).
Proof.
  intros Hp Hb Hq. unfold outb_i.
  replace (a_out port v a, f) with (settle (a_out port v a, f)) by (unfold settle; simpl; by rewrite Hq).
  eapply run_bind; [|apply run_irq_point].
  intros s [Hv Hf]. eexists. split; [reflexivity|]. split; [|done]. split; [|done].
  simpl in *. rewrite u16_small, u8_small by (unfold is_byte in Hb; lia). rewrite v_out by lia. by rewrite Hv.
Qed.

Lemma settle_quiet c : quiet c -> settle c = c.
Proof. unfold settle, quiet. by intros ->. Qed.

Lemma run_inw c :
  quiet c -> run (inw_i ATA_REG_DATA) c (u16 (a_in_data c.1).1) ((a_in_data c.1).2, c.2).
Proof.
  intros Hq. unfold inw_i.
  rewrite <- (settle_quiet ((a_in_data c.1).2, c.2)).
  - eapply run_bind; [|eapply run_bind; [apply run_irq_point|apply run_ret]].
    intros s [Hv Hf]. pose proof (v_in_data (s_dev s)) as V. cbv zeta in V. rewrite Hv in V.
    eexists. unfold inw. change (u16 ATA_REG_DATA) with 496.
    split; [change (dev s) with (s_dev s); rewrite <- V; reflexivity|]. split; [|done]. split; [|done].
    rewrite <- V. reflexivity.
  - unfold quiet, a_in_data in *. destruct (a_phase c.1) as [| |[|? []]| | |]; done.
Qed.

Lemma run_outw v c :
  quiet c -> 0 <= v < 65536 -> run (outw_i ATA_REG_DATA v) c tt (a_out_data v c.1, c.2).
Proof.
  intros Hq Hv. unfold outw_i. rewrite <- (settle_quiet (a_out_data v c.1, c.2)).
  - eapply run_bind; [|apply run_irq_point].
    intros s [Hs Hf]. eexists. split; [reflexivity|]. split; [|done]. split; [|done].
    simpl. rewrite (u16_small v) by lia. change (u16 ATA_REG_DATA) with 496. by rewrite v_out_data, Hs.
  - unfold quiet, a_out_data in *. destruct (a_phase c.1); simpl; [done|done|done|done| |done].
    by destruct (_ =? _)%nat.
Qed.

(** *** Waiting *)

(** A busy family [P] that after its latency ends in [a1] with an interrupt. *)
Record ends_with_irq (P : nat -> ata) (a1 : ata) : Prop := {
  ew_quiet : forall n, a_irq (P n) = false;
  ew_quiet1 : a_irq a1 = false;
  ew_step : forall n f, poke (P (S n), f) = (P n, f);
  ew_last : forall f, poke (P O, f) = (a1, 1);
  ew_stay : forall f, poke (a1, f) = (a1, f)
}.

(** Still busy with the flag clear, or finished with the flag set. *)
Inductive pending (P : nat -> ata) (a1 : ata) : nat -> ata * Z -> Prop :=
| pend_busy n : pending P a1 (S n) (P n, 0)
| pend_done : pending P a1 0 (a1, 1).

Lemma pending_quiet P a1 n c : ends_with_irq P a1 -> pending P a1 n c -> quiet c.
Proof. intros HE []; apply HE. Qed.

Lemma pending_poke P a1 n c :
  ends_with_irq P a1 -> pending P a1 n c -> pending P a1 (Nat.pred n) (poke c).
Proof.
  intros HE Hp. destruct Hp as [[|n]|]; simpl.
  - rewrite (ew_last _ _ HE). constructor.
  - rewrite (ew_step _ _ HE). constructor.
  - rewrite (ew_stay _ _ HE). constructor.
Qed.

Lemma pending_delay P a1 n c :
  ends_with_irq P a1 -> pending P a1 n c ->
  exists c' n', run status_delay c tt c' /\ pending P a1 n' c' /\ (n' <= n)%nat.
Proof.
  intros HE Hp. exists (poke (poke (poke (poke c)))), (Nat.pred (Nat.pred (Nat.pred (Nat.pred n)))).
  assert (pending P a1 (Nat.pred n) (poke c)) as H1 by by apply pending_poke.
  assert (pending P a1 (Nat.pred (Nat.pred n)) (poke (poke c))) as H2 by by apply pending_poke.
  assert (pending P a1 (Nat.pred (Nat.pred (Nat.pred n))) (poke (poke (poke c)))) as H3 by by apply pending_poke.
  split; [|split; [by apply pending_poke|lia]]. unfold status_delay.
  eapply run_bind; [eapply run_status, (pending_quiet _ _ _ _ HE Hp)|].
  eapply run_bind; [eapply run_status, (pending_quiet _ _ _ _ HE H1)|].
  eapply run_bind; [eapply run_status, (pending_quiet _ _ _ _ HE H2)|].
  eapply run_bind; [eapply run_status, (pending_quiet _ _ _ _ HE H3)|]. apply run_ret.
Qed.

Lemma run_gets_flag c : run (gets ide_interrupt_fired) c c.2 c.
Proof. intros s [Hv Hf]. exists s. unfold gets. by rewrite Hf. Qed.

Lemma wait_loop_ends P a1 fuel n c k :
  ends_with_irq P a1 -> pending P a1 n c -> (n < fuel)%nat ->
  run (ata_wait_loop fuel k) c tt (a1, 1).
Proof.
  intros HE. revert n c k. induction fuel as [|fuel IH]; intros n c k Hp Hf; [lia|].
  cbn [ata_wait_loop]. eapply run_bind; [apply run_gets_flag|].
  destruct Hp as [n|]; [|apply run_ret]. cbn [snd].
  eapply run_bind; [apply run_nop|]. cbv zeta.
  pose proof (pending_poke P a1 _ (P n, 0) HE (pend_busy _ _ n)) as Hp1.
  destruct (_ =? 0); cbn [when].
  - pose proof (pending_poke _ _ _ _ HE Hp1) as Hp2. pose proof (pending_poke _ _ _ _ HE Hp2) as Hp3.
    eapply run_bind; [|eapply IH; [exact Hp3|simpl; lia]].
    eapply run_bind; [apply run_status, (pending_quiet _ _ _ _ HE Hp1)|].
    eapply run_bind; [apply run_status, (pending_quiet _ _ _ _ HE Hp2)|apply run_ret].
  - eapply run_bind; [apply run_ret|]. eapply IH; [exact Hp1|simpl; lia].
Qed.

Lemma wait_interrupt_ends P a1 fuel n c :
  ends_with_irq P a1 -> pending P a1 n c -> (n < fuel)%nat ->
  run (ata_wait_interrupt fuel) c tt (a1, 0).
Proof.
  intros HE Hp Hf. eapply run_bind; [by eapply wait_loop_ends|apply run_set_ide].
Qed.

(** *** Issuing a command *)

(** An idle drive without a pending interrupt. *)
Definition idle (a : ata) : Prop := a_phase a = Idle /\ a_irq a = false.

(** The drive with its task file addressing one sector. *)
Definition addressed (a : ata) (s : Z) (p : phase) : ata :=
  mk_ata 1 (u8 s) (u8 (Z.shiftr s 8)) (u8 (Z.shiftr s 16))
    (Z.lor 224 (Z.land (Z.shiftr s 24) 15)) p false (a_delay a) (a_disk a).

Lemma select_byte s :
  0 <= s < 268435456 -> Z.lor 224 (Z.land (Z.shiftr s 24) 15) = 224 + s / 16777216.
Proof.
  intros Hs. rewrite Z.shiftr_div_pow2 by lia. change (2 ^ 24) with 16777216.
  assert (0 <= s / 16777216 < 16) as Hb by dlia.
  change 15 with (Z.ones 4). rewrite Z.land_ones by lia. change (2 ^ 4) with 16. rewrite Z.mod_small by lia.
  change 224 with (Z.shiftl 14 4). rewrite Z.lor_comm, lor_disjoint_add by (change (2 ^ 4) with 16; lia).
  change (2 ^ 4) with 16. change (Z.shiftl 14 4) with 224. lia.
Qed.

Lemma addressed_lba a s p : 0 <= s < 268435456 -> a_lba (addressed a s p) = s.
Proof.
  intros Hs. unfold a_lba, addressed. cbn [a_low a_mid a_high a_drive]. rewrite select_byte by done.
  rewrite !Z.shiftr_div_pow2 by lia. unfold u8, wrap.
  change (2 ^ 8) with 256. change (2 ^ 16) with 65536. dlia.
Qed.

Lemma run_issue a f s cmd c' :
  idle a -> 0 <= s < 268435456 -> cmd = 32 \/ cmd = 48 ->
  run status_delay (addressed a s (if cmd =? 32 then RdBusy (a_delay a) s else WrBusy (a_delay a) s), 0) tt c' ->
  run (ata_issue s cmd) (a, f) tt c'.
Proof.
  intros [Hp Hq] Hs Hcmd Hd. unfold ata_issue, ata_select_master.
  pose proof (select_byte s Hs) as Hsel.
  assert (is_byte (Z.lor 224 (Z.land (Z.shiftr s 24) 15))) as Hsb
    by (rewrite Hsel; unfold is_byte; dlia).
  destruct a as [c l m h d p i n k]. simpl in Hp, Hq. subst p i.
  eapply run_bind; [apply run_outb; [done|done|done]|].
  eapply run_bind; [apply run_outb; [done|unfold is_byte; lia|done]|].
  eapply run_bind; [apply run_outb; [done|unfold is_byte; lia|done]|].
  eapply run_bind; [apply run_outb; [done|apply u8_bound|done]|].
  eapply run_bind; [apply run_outb; [done|apply u8_bound|done]|].
  eapply run_bind; [apply run_outb; [done|apply u8_bound|done]|].
  eapply run_bind; [apply run_set_ide|].
  match goal with |- run _ (?A, _) _ _ => change A with (addressed (mk_ata c l m h d Idle false n k) s Idle) end.
  assert (a_out ATA_REG_COMMAND cmd (addressed (mk_ata c l m h d Idle false n k) s Idle) =
    addressed (mk_ata c l m h d Idle false n k) s (if cmd =? 32 then RdBusy n s else WrBusy n s)) as E.
  { transitivity (a_command cmd (addressed (mk_ata c l m h d Idle false n k) s Idle)); [done|].
    unfold a_command. rewrite addressed_lba by done. cbn [addressed a_phase a_count a_drive a_delay a_irq].
    rewrite Hsel. replace ((224 + s / 16777216) / 16) with 14 by dlia. simpl ((1 =? 1) && (14 =? 14)).
    destruct Hcmd as [-> | ->]; done. }
  eapply run_bind; [apply run_outb; [done|unfold is_byte; lia|by rewrite E]|]. rewrite E. exact Hd.
Qed.

Lemma read_family a s : ends_with_irq (fun n => addressed a s (RdBusy n s)) (addressed a s (RdData (a_disk a s))).
Proof. split; done. Qed.

Definition commit (a : ata) (s : Z) (ws : list Z) : ata :=
  mk_ata (a_count a) (a_low a) (a_mid a) (a_high a) (a_drive a) Idle false (a_delay a)
    (fun k => if k =? s then ws else a_disk a k).

Lemma commit_family a s ws :
  ends_with_irq (fun n => addressed a s (WrCommit n s ws)) (commit (addressed a s Idle) s ws).
Proof. split; done. Qed.

(** *** Reading a sector *)

Definition word_ok (w : Z) : Prop := 0 <= w < 65536.
Definition sector_ok (ws : list Z) : Prop := length ws = 256%nat /\ Forall word_ok ws.

(** The buffer after storing words at byte offset [off]. *)
Fixpoint put_words (off : Z) (ws buff : list Z) : list Z :=
  match ws with
  | [] => buff
  | w :: r => put_words (off + 2) r
                (<[Z.to_nat (off + 1) := w / 256]> (<[Z.to_nat off := w mod 256]> buff))
  end.

Lemma put_words_length off ws buff : length (put_words off ws buff) = length buff.
Proof.
  revert off buff. induction ws as [|w r IH]; intros; simpl; [done|]. by rewrite IH, !length_insert.
Qed.

(** Byte [i] of a sector of words, little-endian. *)
Definition word_byte (ws : list Z) (i : Z) : Z :=
  if Z.even i then get ws (i / 2) mod 256 else get ws (i / 2) / 256.

Lemma word_byte_cons w r i :
  0 <= i -> word_byte (w :: r) i = if i =? 0 then w mod 256 else if i =? 1 then w / 256 else word_byte r (i - 2).
Proof.
  intros Hi. destruct (Z.eqb_spec i 0) as [->|]; [done|]. destruct (Z.eqb_spec i 1) as [->|]; [done|].
  unfold word_byte. rewrite Z.even_sub. change (Z.even 2) with true. destruct (Z.even i); cbn [eqb];
    (replace (get (w :: r) (i / 2)) with (get r ((i - 2) / 2)); [done|]);
    unfold get; (replace (Z.to_nat (i / 2)) with (S (Z.to_nat ((i - 2) / 2))) by dlia); done.
Qed.

Lemma put_words_get off ws buff i :
  0 <= off -> off + 2 * zlen ws <= zlen buff -> 0 <= i ->
  get (put_words off ws buff) i =
    if (off <=? i) && (i <? off + 2 * zlen ws) then word_byte ws (i - off) else get buff i.
Proof.
  intros Hoff Hl Hi. revert off buff Hoff Hl. induction ws as [|w r IH]; intros off buff Hoff Hl; cbn [put_words length] in *.
  - destruct (Z.leb_spec off i), (Z.ltb_spec i (off + 2 * Z.of_nat 0)); simpl; try done; lia.
  - rewrite IH by (rewrite ?length_insert; lia).
    destruct (Z.eqb_spec i off) as [->|N0].
    { destruct (Z.leb_spec (off + 2) off); [lia|]. simpl.
      rewrite get_insert_ne, get_insert_eq by lia. rewrite Z.sub_diag.
      destruct (Z.leb_spec off off), (Z.ltb_spec off (off + 2 * Z.of_nat (S (length r)))); simpl; try lia; done. }
    destruct (Z.eqb_spec i (off + 1)) as [->|N1].
    { destruct (Z.leb_spec (off + 2) (off + 1)); [lia|]. simpl.
      rewrite get_insert_eq by (rewrite length_insert; lia). replace (off + 1 - off) with 1 by lia.
      destruct (Z.leb_spec off (off + 1)), (Z.ltb_spec (off + 1) (off + 2 * Z.of_nat (S (length r)))); simpl; try lia; done. }
    rewrite !get_insert_ne by lia.
    destruct (Z.leb_spec (off + 2) i), (Z.leb_spec off i); simpl; try lia; try done.
    replace (off + 2 + 2 * zlen r) with (off + 2 * Z.of_nat (S (length r))) by lia.
    destruct (i <? _); [|done]. rewrite word_byte_cons by lia.
    destruct (Z.eqb_spec (i - off) 0), (Z.eqb_spec (i - off) 1); try lia. f_equal. lia.
Qed.

Lemma run_read_words a s f ws off buff :
  ws <> [] -> Forall word_ok ws -> 0 <= off -> off + 2 * zlen ws <= zlen buff ->
  run (read_words (length ws) off buff) (addressed a s (RdData ws), f) (put_words off ws buff)
      (addressed a s Idle, f).
Proof.
  intros Hne Hok. revert off buff. induction Hok as [|w r Hw Hr IH]; intros off buff Hoff Hl; [done|].
  cbn [length read_words put_words]. cbn [length] in Hl. unfold word_ok in Hw.
  eapply run_bind; [by apply run_inw|].
  assert ((a_in_data (addressed a s (RdData (w :: r)))).1 = w) as Ew by (by destruct r).
  assert ((a_in_data (addressed a s (RdData (w :: r)))).2 =
    addressed a s (match r with [] => Idle | _ => RdData r end)) as Es by (by destruct r).
  cbn [fst snd]. rewrite Ew, Es, u16_small by lia.
  eapply run_bind; [apply run_lift, wr_in; lia|].
  eapply run_bind; [apply run_lift, wr_in; rewrite length_insert; lia|].
  unfold u8, wrap. change (2 ^ 8) with 256. rewrite Z.shiftr_div_pow2 by lia. change (2 ^ 8) with 256.
  rewrite (Z.mod_small (w / 256)) by dlia.
  destruct r as [|w2 r]; [apply run_ret|].
  apply IH; [done|lia|]. rewrite !length_insert. lia.
Qed.

Lemma run_read_sector fuel a f s off buff :
  idle a -> 0 <= s < 268435456 -> sector_ok (a_disk a s) -> (a_delay a + 1 < fuel)%nat ->
  0 <= off -> off + 512 <= zlen buff ->
  run (read_sector fuel s off buff) (a, f) (put_words off (a_disk a s) buff) (addressed a s Idle, 0).
Proof.
  intros Hid Hs [Hlen Hok] Hf Hoff Hl. unfold read_sector.
  destruct (pending_delay (fun n => addressed a s (RdBusy n s)) (addressed a s (RdData (a_disk a s)))
    (S (a_delay a)) _ (read_family a s) (pend_busy _ _ (a_delay a))) as (c & n & R & Hp & Hn).
  eapply run_bind; [by apply (run_issue a f s ATA_CMD_READ); auto|].
  eapply run_bind; [eapply wait_interrupt_ends; [apply read_family|exact Hp|lia]|].
  rewrite <- Hlen. apply run_read_words; [by destruct (a_disk a s)|done|done|lia].
Qed.

(** The buffer after reading [n] consecutive sectors. *)
Fixpoint put_sectors (disk : Z -> list Z) (n : nat) (sector off : Z) (buff : list Z) : list Z :=
  match n with
  | O => buff
  | S n => put_sectors disk n (sector + 1) (off + 512) (put_words off (disk sector) buff)
  end.

Lemma put_sectors_length disk n sector off buff : length (put_sectors disk n sector off buff) = length buff.
Proof.
  revert sector off buff. induction n as [|n IH]; intros; simpl; [done|]. by rewrite IH, put_words_length.
Qed.

Lemma put_sectors_get disk n sector off buff i :
  (forall k, sector <= k < sector + Z.of_nat n -> sector_ok (disk k)) ->
  0 <= off -> off + 512 * Z.of_nat n <= zlen buff -> 0 <= i ->
  get (put_sectors disk n sector off buff) i =
    if (off <=? i) && (i <? off + 512 * Z.of_nat n)
    then word_byte (disk (sector + (i - off) / 512)) ((i - off) mod 512) else get buff i.
Proof.
  intros Hd Hoff Hl Hi. revert sector off buff Hd Hoff Hl.
  induction n as [|n IH]; intros sector off buff Hd Hoff Hl; cbn [put_sectors].
  - destruct (Z.leb_spec off i), (Z.ltb_spec i (off + 512 * Z.of_nat 0)); simpl; try done; lia.
  - destruct (Hd sector ltac:(lia)) as [Hlen _].
    rewrite IH; [|intros k Hk; apply Hd; lia|lia|rewrite put_words_length; lia].
    rewrite put_words_get by lia. rewrite Hlen. change (2 * Z.of_nat 256) with 512.
    replace (off + 512 + 512 * Z.of_nat n) with (off + 512 * Z.of_nat (S n)) by lia.
    destruct (Z.leb_spec (off + 512) i), (Z.leb_spec off i), (Z.ltb_spec i (off + 512)),
      (Z.ltb_spec i (off + 512 * Z.of_nat (S n))); simpl; try done; try lia.
    + replace (sector + 1 + (i - (off + 512)) / 512) with (sector + (i - off) / 512) by dlia.
      f_equal. dlia.
    + replace ((i - off) / 512) with 0 by dlia. replace ((i - off) mod 512) with (i - off) by dlia.
      by rewrite Z.add_0_r.
Qed.

Lemma run_disk_read_loop fuel n a f sector off buff :
  idle a -> 0 <= sector -> sector + Z.of_nat n <= 268435456 ->
  (forall k, sector <= k < sector + Z.of_nat n -> sector_ok (a_disk a k)) ->
  (a_delay a + 1 < fuel)%nat -> 0 <= off -> off + 512 * Z.of_nat n <= zlen buff ->
  exists a' f', run (disk_read_loop fuel n sector off buff) (a, f)
                  (put_sectors (a_disk a) n sector off buff) (a', f') /\
    idle a' /\ a_disk a' = a_disk a /\ a_delay a' = a_delay a.
Proof.
  revert a f sector off buff. induction n as [|n IH]; intros a f sector off buff Hid Hs He Hd Hf Hoff Hl.
  - exists a, f. split; [apply run_ret|done].
  - cbn [disk_read_loop put_sectors]. rewrite u32_small by lia.
    edestruct (IH (addressed a sector Idle) 0 (sector + 1) (off + 512)) as (a' & f' & R & Hid' & Hd' & Hn').
    + done.
    + lia.
    + lia.
    + intros k Hk. apply Hd. lia.
    + exact Hf.
    + lia.
    + erewrite put_words_length. instantiate (1 := buff). lia.
    + exists a', f'. split; [|done]. eapply run_bind; [apply run_read_sector; auto; try lia; apply Hd; lia|].
      exact R.
Qed.

(** *** Writing a sector *)

(** The [n] little-endian words at byte offset [off]. *)
Fixpoint buf_words (n : nat) (off : Z) (buff : list Z) : list Z :=
  match n with
  | O => []
  | S n => (get buff off + get buff (off + 1) * 256) :: buf_words n (off + 2) buff
  end.

Lemma buf_words_length n off buff : length (buf_words n off buff) = n.
Proof. revert off. induction n as [|n IH]; intros; simpl; [done|]. by rewrite IH. Qed.

Lemma run_write_words a s f n ws off buff :
  Forall is_byte buff -> (0 < n)%nat -> (length ws + n = 256)%nat -> 0 <= off ->
  off + 2 * Z.of_nat n <= zlen buff ->
  run (write_words n off buff) (addressed a s (WrData s ws), f) tt
      (addressed a s (WrCommit (a_delay a) s (ws ++ buf_words n off buff)), f).
Proof.
  intros Hb Hn Hlen. revert ws off Hlen Hn.
  assert (forall i, 0 <= i < zlen buff -> is_byte (get buff i)) as Hg.
  { intros i Hi. unfold get. apply Forall_nth; [done|lia]. }
  induction n as [|n IH]; intros ws off Hlen Hn Hoff Hl; [lia|]. cbn [write_words buf_words].
  pose proof (Hg off ltac:(lia)) as B0. pose proof (Hg (off + 1) ltac:(lia)) as B1. unfold is_byte in B0, B1.
  eapply run_bind; [apply run_lift, rd_in; lia|]. eapply run_bind; [apply run_lift, rd_in; lia|].
  eapply run_bind; [apply run_outw; [done|lia]|]. cbn [fst snd].
  unfold a_out_data. cbn [a_phase addressed].
  destruct (Nat.eqb_spec (length ws + 1) 256) as [E|N].
  - assert (n = O) as -> by lia. apply run_ret.
  - change (with_phase ?p _ (mk_ata _ _ _ _ _ _ _ _ _)) with (addressed a s p).
    specialize (IH (ws ++ [get buff off + get buff (off + 1) * 256]) (off + 2)).
    rewrite <- app_assoc in IH. apply IH; [rewrite length_app; simpl; lia|lia|lia|lia].
Qed.

(** The write preparation: busy, then ready for data, without interrupt. *)
Inductive preparing (a : ata) (s : Z) : nat -> ata -> Prop :=
| prep_busy n : preparing a s (S n) (addressed a s (WrBusy n s))
| prep_ready : preparing a s 0 (addressed a s (WrData s [])).

Lemma preparing_poke a s n x f :
  preparing a s n x -> exists x', poke (x, f) = (x', f) /\ preparing a s (Nat.pred n) x' /\ a_irq x = false.
Proof.
  intros [[|k]|].
  - exists (addressed a s (WrData s [])). split; [done|]. split; [constructor|done].
  - exists (addressed a s (WrBusy k s)). split; [done|]. split; [constructor|done].
  - exists (addressed a s (WrData s [])). split; [done|]. split; [constructor|done].
Qed.

Lemma preparing_status a s n x f :
  preparing a s n x -> exists x', run (inb_i ATA_REG_STATUS) (x, f) (a_status x) (x', f) /\
    preparing a s (Nat.pred n) x'.
Proof.
  intros Hp. destruct (preparing_poke a s n x f Hp) as (x' & E & Hp' & Hq).
  exists x'. split; [|done]. rewrite <- E.
  replace (a_status x) with (u8 (a_status (x, f).1)) by (destruct Hp; done). by apply run_status.
Qed.

Lemma preparing_delay a s n x f :
  preparing a s n x -> exists n' x', run status_delay (x, f) tt (x', f) /\ preparing a s n' x' /\ (n' <= n)%nat.
Proof.
  intros K0. destruct (preparing_status a s _ _ f K0) as (x1 & R1 & K1).
  destruct (preparing_status a s _ _ f K1) as (x2 & R2 & K2).
  destruct (preparing_status a s _ _ f K2) as (x3 & R3 & K3).
  destruct (preparing_status a s _ _ f K3) as (x4 & R4 & K4).
  eexists _, x4. split; [|split; [exact K4|lia]]. unfold status_delay.
  eapply run_bind; [exact R1|]. eapply run_bind; [exact R2|].
  eapply run_bind; [exact R3|]. eapply run_bind; [exact R4|]. apply run_ret.
Qed.

Lemma poll_busy_ends fuel a s n x f :
  preparing a s n x -> (n < fuel)%nat ->
  run (ata_poll fuel (fun st => truth (Z.land st ATA_STATUS_BSY))) (x, f) tt (addressed a s (WrData s []), f).
Proof.
  revert n x. induction fuel as [|fuel IH]; intros n x Hp Hf; [lia|]. cbn [ata_poll].
  destruct (preparing_status a s n x f Hp) as (x1 & R1 & K1).
  eapply run_bind; [exact R1|]. destruct Hp as [n|].
  - change (truth (Z.land (a_status (addressed a s (WrBusy n s))) ATA_STATUS_BSY)) with true. cbv iota.
    destruct (preparing_poke a s _ x1 f K1) as (x2 & E2 & K2 & _).
    eapply run_bind; [apply run_nop|]. rewrite E2. eapply IH; [exact K2|simpl; lia].
  - inversion K1; subst. apply run_ret.
Qed.

Lemma run_poll_drq fuel a s n x f :
  preparing a s n x -> (n < fuel)%nat ->
  run (ata_poll_drq fuel) (x, f) tt (addressed a s (WrData s []), f).
Proof.
  intros Hp Hf. destruct (preparing_delay a s n x f Hp) as (n1 & x1 & R1 & K1 & Hn1).
  unfold ata_poll_drq. eapply run_bind; [exact R1|].
  eapply run_bind; [eapply poll_busy_ends; [exact K1|lia]|].
  destruct fuel as [|fuel]; [lia|]. cbn [ata_poll].
  eapply run_bind; [by apply run_status|]. apply run_ret.
Qed.

Lemma run_write_sector fuel a f s off buff :
  idle a -> 0 <= s < 268435456 -> (a_delay a + 1 < fuel)%nat -> Forall is_byte buff ->
  0 <= off -> off + 512 <= zlen buff ->
  run (write_sector fuel s off buff) (a, f) tt
      (commit (addressed a s Idle) s (buf_words 256 off buff), 0).
Proof.
  intros Hid Hs Hf Hb Hoff Hl. unfold write_sector.
  destruct (preparing_delay a s _ _ 0 (prep_busy a s (a_delay a))) as (n1 & x1 & R1 & K1 & Hn1).
  eapply run_bind; [by apply (run_issue a f s ATA_CMD_WRITE); auto|].
  eapply run_bind; [eapply run_poll_drq; [exact K1|lia]|].
  eapply run_bind; [apply run_write_words; [done|lia|done|done|lia]|].
  eapply run_bind; [eapply (wait_interrupt_ends _ _ fuel (S (a_delay a)) _
    (commit_family a s (buf_words 256 off buff)) (pend_busy _ _ (a_delay a))); lia|].
  eapply run_bind; [by apply run_status|]. apply run_ret.
Qed.

(** The medium after writing [n] consecutive sectors. *)
Definition overwritten (disk : Z -> list Z) (n : nat) (sector off : Z) (buff : list Z) (k : Z) : list Z :=
  if (sector <=? k) && (k <? sector + Z.of_nat n)
  then buf_words 256 (off + 512 * (k - sector)) buff else disk k.

Lemma run_disk_write_loop fuel n a f sector off buff :
  idle a -> 0 <= sector -> sector + Z.of_nat n <= 268435456 -> (a_delay a + 1 < fuel)%nat ->
  Forall is_byte buff -> 0 <= off -> off + 512 * Z.of_nat n <= zlen buff ->
  exists a' f', run (disk_write_loop fuel n sector off buff) (a, f) tt (a', f') /\
    idle a' /\ (forall k, a_disk a' k = overwritten (a_disk a) n sector off buff k) /\ a_delay a' = a_delay a.
Proof.
  revert a f sector off. induction n as [|n IH]; intros a f sector off Hid Hs He Hf Hb Hoff Hl.
  - exists a, f. split; [apply run_ret|]. split; [done|]. split; [|done]. intros k. unfold overwritten.
    destruct (Z.leb_spec sector k), (Z.ltb_spec k (sector + Z.of_nat 0)); simpl; try done; lia.
  - cbn [disk_write_loop]. rewrite u32_small by lia.
    edestruct (IH (commit (addressed a sector Idle) sector (buf_words 256 off buff)) 0 (sector + 1) (off + 512))
      as (a' & f' & R & Hid' & Hd' & Hn'); [done|lia|lia|done|done|lia|lia|].
    exists a', f'. split; [eapply run_bind; [apply run_write_sector; auto; lia|exact R]|].
    split; [done|]. split; [|done]. intros k. rewrite Hd'. unfold overwritten, commit, addressed. cbn [a_disk].
    destruct (Z.leb_spec (sector + 1) k), (Z.leb_spec sector k), (Z.ltb_spec k (sector + 1 + Z.of_nat n)),
      (Z.ltb_spec k (sector + Z.of_nat (S n))), (Z.eqb_spec k sector); cbn [andb]; try done; try lia.
    + f_equal. lia.
    + subst k. f_equal. lia.
Qed.

End Runs.

(** A disk all of whose sectors are 256 words. *)
Definition disk_ok (disk : Z -> list Z) (sector count : Z) : Prop :=
  forall k, sector <= k < sector + count -> sector_ok (disk k).

(** C31: [disk_read] of [count] sectors terminates for every drive latency,
    returns RES_OK with byte [i] of the buffer equal to byte [i mod 512] of
    sector [sector + i / 512], leaves the rest of the buffer and the medium
    unchanged and the drive idle. The transfer synchronises with the drive only through the
    IRQ 14 handler. *)
Theorem disk_read_correct {D : Type} `{AtaDrive D} (fuel : nat) (buff : list Z) (sector count : Z)
  (s : irq_state D) :
  idle (view (s_dev s)) -> (a_delay (view (s_dev s)) + 1 < fuel)%nat ->
  0 <= sector -> 0 <= count -> sector + count <= 268435456 -> 512 * count <= zlen buff ->
  disk_ok (a_disk (view (s_dev s))) sector count ->
  exists buff' s', disk_read fuel 0 buff sector count s = Ok ((RES_OK, buff'), s') /\
    length buff' = length buff /\
    (forall i, 0 <= i < 512 * count ->
       get buff' i = word_byte (a_disk (view (s_dev s)) (sector + i / 512)) (i mod 512)) /\
    (forall i, 512 * count <= i -> get buff' i = get buff i) /\
    idle (view (s_dev s')) /\ a_disk (view (s_dev s')) = a_disk (view (s_dev s)) /\ same_rest s s'.
Proof.
  intros Hid Hf Hs Hc He Hl Hd.
  destruct (run_disk_read_loop fuel (Z.to_nat count) (view (s_dev s)) (ide_interrupt_fired s) sector 0 buff)
    as (a' & f' & R & Hid' & Hd' & _); rewrite ?Z2Nat.id by lia; try done; try lia.
  destruct (R s) as (s' & E & [Hv _] & Hr); [done|].
  exists (put_sectors (a_disk (view (s_dev s))) (Z.to_nat count) sector 0 buff), s'.
  cbn [fst] in Hv. subst a'.
  split; [unfold disk_read; cbn [Z.eqb negb]; by rewrite (m_bind_Ok _ _ _ _ _ E)|].
  split; [apply put_sectors_length|].
  split; [|split; [|done]]; intros i Hi; rewrite put_sectors_get; rewrite ?Z2Nat.id by lia; try done; try lia.
  - destruct (Z.leb_spec 0 i), (Z.ltb_spec i (0 + 512 * count)); try lia. simpl. by rewrite Z.sub_0_r.
  - destruct (Z.leb_spec 0 i), (Z.ltb_spec i (0 + 512 * count)); try lia. done.
Qed.

(** C32: [disk_write] of [count] sectors terminates for every drive latency,
    returns RES_OK and stores exactly the buffer's bytes in the addressed
    sectors; every other sector keeps its contents. *)
Theorem disk_write_correct {D : Type} `{AtaDrive D} (fuel : nat) (buff : list Z) (sector count : Z)
  (s : irq_state D) :
  idle (view (s_dev s)) -> (a_delay (view (s_dev s)) + 1 < fuel)%nat ->
  0 <= sector -> 0 <= count -> sector + count <= 268435456 -> 512 * count <= zlen buff ->
  Forall is_byte buff ->
  exists s', disk_write fuel 0 buff sector count s = Ok (RES_OK, s') /\
    (forall k, a_disk (view (s_dev s')) k =
       if (sector <=? k) && (k <? sector + count)
       then buf_words 256 (512 * (k - sector)) buff else a_disk (view (s_dev s)) k) /\
    idle (view (s_dev s')) /\ same_rest s s'.
Proof.
  intros Hid Hf Hs Hc He Hl Hb.
  destruct (run_disk_write_loop fuel (Z.to_nat count) (view (s_dev s)) (ide_interrupt_fired s) sector 0 buff)
    as (a' & f' & R & Hid' & Hd' & _); rewrite ?Z2Nat.id by lia; try done; try lia.
  destruct (R s) as (s' & E & [Hv _] & Hr); [done|]. cbn [fst] in Hv. subst a'. exists s'.
  split; [unfold disk_write; cbn [Z.eqb negb]; by rewrite (m_bind_Ok _ _ _ _ _ E)|].
  split; [|done]. intros k. rewrite Hd'. unfold overwritten. by rewrite Z2Nat.id.
Qed.

(** *** Runs on a concrete drive *)

Definition demo_drive (delay : nat) : irq_state ata :=
  mk_irq Keyboard.kbd_boot Mouse.mouse_boot (mk_video None 1024 768 4096) 0 1
    (mk_ata 0 0 0 0 0 Idle false delay (fun k => replicate 256 (k mod 65536))).

Lemma disk_read_correct_witness :
  exists buff' s', disk_read 20 0 (replicate 1024 0) 258 2 (demo_drive 7) = Ok ((RES_OK, buff'), s') /\
    get buff' 0 = 2 /\ get buff' 513 = 1.
Proof.
  destruct (disk_read_correct 20 (replicate 1024 0) 258 2 (demo_drive 7))
    as (buff' & s' & E & _ & G & _).
  - split; reflexivity.
  - simpl. lia.
  - lia.
  - lia.
  - lia.
  - rewrite length_replicate. lia.
  - intros k Hk. split; [done|]. apply Forall_replicate. unfold word_ok. simpl. dlia.
  - exists buff', s'. split; [exact E|]. split; (rewrite G by lia; reflexivity).
Defined.

Lemma disk_write_correct_witness :
  exists s', disk_write 20 0 (replicate 512 7) 5 1 (demo_drive 3) = Ok (RES_OK, s') /\
    a_disk (view (s_dev s')) 6 = replicate 256 6.
Proof.
  destruct (disk_write_correct 20 (replicate 512 7) 5 1 (demo_drive 3)) as (s' & E & Hd & _).
  - split; reflexivity.
  - simpl. lia.
  - lia.
  - lia.
  - lia.
  - rewrite length_replicate. lia.
  - apply Forall_replicate. unfold is_byte. lia.
  - exists s'. split; [exact E|]. rewrite Hd. reflexivity.
Defined.
