(* ===== verification/FatUni.v ===== *)
(** * FatUni: character conversion (ffunicode.c)

    The conversions between Shift_JIS (code page 932) and Unicode, a binary
    search in tables of pairs, and the up-case conversion of Unicode with its
    compressed tables. The theorems: the search finds exactly the pairs of the
    table, the two tables are inverse to each other, and up-case conversion is
    total on the basic plane. *)

From Stdlib Require Import ZArith Lia Bool.
From stdpp Require Import base list list_numbers sorting pmap fin_maps.
From S2P Require Import Prelude FatTbl.
From stdpp Require Import options.

(** ** Code page *)

Definition FF_CODE_PAGE : Z := 932.

(** The loop over the bounds [li] and [hi] of the search, [n] times. *)
Fixpoint cp_search (n : nat) (p : list Z) (key li hi : Z) : res Z :=
  match n with
  | O => Ok 0
  | S n =>
      let i := u32 (li + u32 (hi - li) / 2) in
      k ← rd p (i * 2);
      if key =? k then rd p (i * 2 + 1)
      else if k <? key then cp_search n p key i hi
      else cp_search n p key li i
  end.

(** [sizeof tbl / 4 - 1] *)
Definition last_pair (p : list Z) : Z := u32 (2 * zlen p / 4 - 1).

Definition ff_uni2oem (uni cp : Z) : res Z :=
  if uni <? 0x80 then Ok (u16 uni)
  else if (uni <? 0x10000) && (cp =? FF_CODE_PAGE) then cp_search 16 uni2oem932 (u16 uni) 0 (last_pair uni2oem932)
  else Ok 0.

Definition ff_oem2uni (oem cp : Z) : res Z :=
  if oem <? 0x80 then Ok oem
  else if cp =? FF_CODE_PAGE then cp_search 16 oem2uni932 oem 0 (last_pair oem2uni932)
  else Ok 0.

(** ** Up-case conversion *)

Definition cvt1 : list Z :=
  [0x0061; 0x031A;
   0x00E0; 0x0317;
   0x00F8; 0x0307;
   0x00FF; 0x0001; 0x0178;
   0x0100; 0x0130;
   0x0132; 0x0106;
   0x0139; 0x0110;
   0x014A; 0x012E;
   0x0179; 0x0106;
   0x0180; 0x004D; 0x0243; 0x0181; 0x0182; 0x0182; 0x0184; 0x0184; 0x0186; 0x0187; 0x0187; 0x0189; 0x018A; 0x018B; 0x018B; 0x018D; 0x018E; 0x018F; 0x0190; 0x0191; 0x0191; 0x0193; 0x0194; 0x01F6; 0x0196; 0x0197; 0x0198; 0x0198; 0x023D; 0x019B; 0x019C; 0x019D; 0x0220; 0x019F; 0x01A0; 0x01A0; 0x01A2; 0x01A2; 0x01A4; 0x01A4; 0x01A6; 0x01A7; 0x01A7; 0x01A9; 0x01AA; 0x01AB; 0x01AC; 0x01AC; 0x01AE; 0x01AF; 0x01AF; 0x01B1; 0x01B2; 0x01B3; 0x01B3; 0x01B5; 0x01B5; 0x01B7; 0x01B8; 0x01B8; 0x01BA; 0x01BB; 0x01BC; 0x01BC; 0x01BE; 0x01F7; 0x01C0; 0x01C1; 0x01C2; 0x01C3; 0x01C4; 0x01C5; 0x01C4; 0x01C7; 0x01C8; 0x01C7; 0x01CA; 0x01CB; 0x01CA;
   0x01CD; 0x0110;
   0x01DD; 0x0001; 0x018E;
   0x01DE; 0x0112;
   0x01F3; 0x0003; 0x01F1; 0x01F4; 0x01F4;
   0x01F8; 0x0128;
   0x0222; 0x0112;
   0x023A; 0x0009; 0x2C65; 0x023B; 0x023B; 0x023D; 0x2C66; 0x023F; 0x0240; 0x0241; 0x0241;
   0x0246; 0x010A;
   0x0253; 0x0040; 0x0181; 0x0186; 0x0255; 0x0189; 0x018A; 0x0258; 0x018F; 0x025A; 0x0190; 0x025C; 0x025D; 0x025E; 0x025F; 0x0193; 0x0261; 0x0262; 0x0194; 0x0264; 0x0265; 0x0266; 0x0267; 0x0197; 0x0196; 0x026A; 0x2C62; 0x026C; 0x026D; 0x026E; 0x019C; 0x0270; 0x0271; 0x019D; 0x0273; 0x0274; 0x019F; 0x0276; 0x0277; 0x0278; 0x0279; 0x027A; 0x027B; 0x027C; 0x2C64; 0x027E; 0x027F; 0x01A6; 0x0281; 0x0282; 0x01A9; 0x0284; 0x0285; 0x0286; 0x0287; 0x01AE; 0x0244; 0x01B1; 0x01B2; 0x0245; 0x028D; 0x028E; 0x028F; 0x0290; 0x0291; 0x01B7;
   0x037B; 0x0003; 0x03FD; 0x03FE; 0x03FF;
   0x03AC; 0x0004; 0x0386; 0x0388; 0x0389; 0x038A;
   0x03B1; 0x0311;
   0x03C2; 0x0002; 0x03A3; 0x03A3;
   0x03C4; 0x0308;
   0x03CC; 0x0003; 0x038C; 0x038E; 0x038F;
   0x03D8; 0x0118;
   0x03F2; 0x000A; 0x03F9; 0x03F3; 0x03F4; 0x03F5; 0x03F6; 0x03F7; 0x03F7; 0x03F9; 0x03FA; 0x03FA;
   0x0430; 0x0320;
   0x0450; 0x0710;
   0x0460; 0x0122;
   0x048A; 0x0136;
   0x04C1; 0x010E;
   0x04CF; 0x0001; 0x04C0;
   0x04D0; 0x0144;
   0x0561; 0x0426;
   0x0000].

Definition cvt2 : list Z :=
  [0x1D7D; 0x0001; 0x2C63;
   0x1E00; 0x0196;
   0x1EA0; 0x015A;
   0x1F00; 0x0608;
   0x1F10; 0x0606;
   0x1F20; 0x0608;
   0x1F30; 0x0608;
   0x1F40; 0x0606;
   0x1F51; 0x0007; 0x1F59; 0x1F52; 0x1F5B; 0x1F54; 0x1F5D; 0x1F56; 0x1F5F;
   0x1F60; 0x0608;
   0x1F70; 0x000E; 0x1FBA; 0x1FBB; 0x1FC8; 0x1FC9; 0x1FCA; 0x1FCB; 0x1FDA; 0x1FDB; 0x1FF8; 0x1FF9; 0x1FEA; 0x1FEB; 0x1FFA; 0x1FFB;
   0x1F80; 0x0608;
   0x1F90; 0x0608;
   0x1FA0; 0x0608;
   0x1FB0; 0x0004; 0x1FB8; 0x1FB9; 0x1FB2; 0x1FBC;
   0x1FCC; 0x0001; 0x1FC3;
   0x1FD0; 0x0602;
   0x1FE0; 0x0602;
   0x1FE5; 0x0001; 0x1FEC;
   0x1FF3; 0x0001; 0x1FFC;
   0x214E; 0x0001; 0x2132;
   0x2170; 0x0210;
   0x2184; 0x0001; 0x2183;
   0x24D0; 0x051A;
   0x2C30; 0x042F;
   0x2C60; 0x0102;
   0x2C67; 0x0106; 0x2C75; 0x0102;
   0x2C80; 0x0164;
   0x2D00; 0x0826;
   0xFF41; 0x031A;
   0x0000].

(** The conversion of a character in the block that starts at [bc], whose
    table, if it has one, begins at [p]. *)
Definition up_block (cmd uc bc : Z) (p : list Z) : res Z :=
  if cmd =? 0 then rd p (uc - bc)
  else Ok (if cmd =? 1 then u16 (uc - Z.land (uc - bc) 1)
           else if cmd =? 2 then u16 (uc - 16)
           else if cmd =? 3 then u16 (uc - 32)
           else if cmd =? 4 then u16 (uc - 48)
           else if cmd =? 5 then u16 (uc - 26)
           else if cmd =? 6 then u16 (uc + 8)
           else if cmd =? 7 then u16 (uc - 80)
           else if cmd =? 8 then u16 (uc - 0x1C60)
           else uc).

(** The loop over the blocks; [p] is the rest of the table. *)
Fixpoint up_loop (fuel : nat) (p : list Z) (uc : Z) : res Z :=
  match fuel with
  | O => NoFuel
  | S fuel =>
      match p with
      | bc :: p =>
          if (bc =? 0) || (uc <? bc) then Ok uc
          else
            match p with
            | nc :: p =>
                let cmd := Z.shiftr nc 8 in
                let nc := Z.land nc 0xFF in
                if uc <? bc + nc then up_block cmd uc bc p
                else up_loop fuel (if cmd =? 0 then drop (Z.to_nat nc) p else p) uc
            | [] => Fault
            end
      | [] => Fault
      end
  end.

Definition ff_wtoupper (uni : Z) : res Z :=
  if uni <? 0x10000 then
    let p := if uni <? 0x1000 then cvt1 else cvt2 in
    up_loop (length p) p uni
  else Ok uni.

(** ** Characters of the interface: bytes of the code page *)

Definition dbc_1st (c : Z) : bool := (129 <=? c) && ((c <=? 159) || ((224 <=? c) && (c <=? 252))).
Definition dbc_2nd (c : Z) : bool :=
  (64 <=? c) && ((c <=? 126) || ((128 <=? c) && (c <=? 252)) || ((0 <=? c) && (c <=? 0))).

Definition BAD_CHAR : Z := 0xFFFFFFFF.

(** One character of a string: its code and the rest, which is the string
    itself when it cannot be decoded. *)
Definition tchar2uni (str : list Z) : res (Z * list Z) :=
  match str with
  | [] => Fault
  | wc :: p =>
      x ← (if dbc_1st wc then
             match p with
             | [] => Fault
             | sb :: p => Ok (if dbc_2nd sb then Some (u16 (Z.shiftl wc 8 + sb), p) else None)
             end
           else Ok (Some (wc, p)));
      match x with
      | None => Ok (BAD_CHAR, str)
      | Some (wc, p) =>
          if wc =? 0 then Ok (0, p)
          else
            uc ← ff_oem2uni wc FF_CODE_PAGE;
            Ok (if uc =? 0 then (BAD_CHAR, str) else (uc, p))
      end
  end.

(** A character stored at index [at_] of a buffer with room for [szb] bytes:
    the number of bytes, 0 when it has no code or does not fit. *)
Definition put_utf (chr : Z) (buf : list Z) (at_ szb : Z) : res (Z * list Z) :=
  wc ← ff_uni2oem chr FF_CODE_PAGE;
  if 0x100 <=? wc then
    if szb <? 2 then Ok (0, buf)
    else buf ← wr buf at_ (u8 (Z.shiftr wc 8)); buf ← wr buf (at_ + 1) (u8 wc); Ok (2, buf)
  else if (wc =? 0) || (szb <? 1) then Ok (0, buf)
  else buf ← wr buf at_ (u8 wc); Ok (1, buf).

(** ** The search in a table *)

Fixpoint pairs_of (p : list Z) : list (Z * Z) :=
  match p with
  | a :: b :: p => (a, b) :: pairs_of p
  | _ => []
  end.

(** The pairs in front of the closing zeros. *)
Definition code_pairs (p : list Z) : list (Z * Z) := take (Z.to_nat (last_pair p)) (pairs_of p).

Lemma pairs_get p i a b : pairs_of p !! i = Some (a, b) -> get p (2 * Z.of_nat i) = a /\ get p (2 * Z.of_nat i + 1) = b /\ 2 * Z.of_nat i + 1 < zlen p.
Proof.
  revert p. induction i as [|i IH]; intros [|x [|y p]] Hi; cbn [pairs_of] in Hi; try (rewrite lookup_nil in Hi; done).
  - injection Hi as -> ->. split; [done|]. split; [done|]. cbn [length]. lia.
  - cbn [lookup list_lookup] in Hi. destruct (IH p Hi) as (E1 & E2 & L). unfold get in *. cbn [length].
    replace (Z.to_nat (2 * Z.of_nat (S i))) with (S (S (Z.to_nat (2 * Z.of_nat i)))) by lia.
    replace (Z.to_nat (2 * Z.of_nat (S i) + 1)) with (S (S (Z.to_nat (2 * Z.of_nat i + 1)))) by lia. cbn [nth]. split; [done|]. split; [done|]. lia.
Qed.

Lemma sorted_lookup (l : list Z) i j a b : StronglySorted Z.lt l -> l !! i = Some a -> l !! j = Some b -> (i < j)%nat -> a < b.
Proof.
  intros Hs. revert i j. induction Hs as [|x l Hs IH Hx]; [done|]; intros [|i] [|j] Ei Ej Hij; try lia; cbn [lookup list_lookup] in *.
  - injection Ei as ->. rewrite Forall_forall in Hx. by apply Hx, list_elem_of_lookup_2 with j.
  - apply (IH i j); [done|done|lia].
Qed.

Section Search.
(** A table [p] that begins with the pairs [ps], in order of their keys. *)
Context (p : list Z) (ps : list (Z * Z)).
Context (Hps : forall i, 0 <= i < Z.of_nat (length ps) -> pairs_of p !! Z.to_nat i = ps !! Z.to_nat i).
Context (Hsort : StronglySorted Z.lt ps.*1) (Hlen : 0 < Z.of_nat (length ps) < 32768).
#[local] Set Default Proof Using "All".

Lemma table_at i : 0 <= i < Z.of_nat (length ps) -> exists a b, ps !! Z.to_nat i = Some (a, b) /\ rd p (i * 2) = Ok a /\ rd p (i * 2 + 1) = Ok b.
Proof.
  intros Hi. destruct (lookup_lt_is_Some_2 ps (Z.to_nat i)) as [[a b] E]; [lia|]. exists a, b. split; [done|]. pose proof E as E'. rewrite <- Hps in E' by lia.
  destruct (pairs_get _ _ _ _ E') as (G1 & G2 & L). rewrite Z2Nat.id in * by lia.
  rewrite !rd_in, !(Z.mul_comm i) by lia. by rewrite G1, G2.
Qed.

Lemma keys_lt i j a b a' b' : ps !! i = Some (a, b) -> ps !! j = Some (a', b') -> (i < j)%nat -> a < a'.
Proof.
  intros Ei Ej Hij. apply (sorted_lookup (ps.*1) i j a a'); [done|by rewrite list_lookup_fmap, Ei|by rewrite list_lookup_fmap, Ej|done].
Qed.

Lemma middle li hi : 0 <= li <= hi -> hi <= Z.of_nat (length ps) -> u32 (li + u32 (hi - li) / 2) = li + (hi - li) / 2.
Proof. intros H1 H2. rewrite (u32_small (hi - li)) by lia. rewrite u32_small; [done|dlia]. Qed.

Lemma search_hit n : forall li hi j key v, 0 <= li <= j -> j < hi <= Z.of_nat (length ps) -> hi - li <= 2 ^ Z.of_nat n -> ps !! Z.to_nat j = Some (key, v) ->
  cp_search (S n) p key li hi = Ok v.
Proof.
  induction n as [|n IH]; intros li hi j key v Hl Hh Hn Ej.
  - assert (hi - li = 1) as E1 by (change (2 ^ Z.of_nat 0) with 1 in Hn; lia). assert (j = li) as -> by lia. cbn [cp_search]. rewrite middle, E1 by lia. change (1 / 2) with 0. rewrite Z.add_0_r.
    destruct (table_at li) as (a & b & E & R1 & R2); [lia|]. rewrite Ej in E. injection E as <- <-. by rewrite R1, bind_Ok, Z.eqb_refl.
  - assert (2 ^ Z.of_nat (S n) = 2 * 2 ^ Z.of_nat n) as E2 by (rewrite Nat2Z.inj_succ, Z.pow_succ_r by lia; done).
    cbn [cp_search]. rewrite middle by lia. set (i := li + (hi - li) / 2). assert (0 <= i < Z.of_nat (length ps) /\ li <= i < hi) as [Hi Hi'] by (subst i; split; dlia).
    destruct (table_at i) as (a & b & E & R1 & R2); [lia|]. rewrite R1, bind_Ok.
    destruct (Z.eqb_spec key a) as [->|Hne].
    + destruct (Z.lt_trichotomy i j) as [Hlt|[->|Hlt]].
      * pose proof (keys_lt _ _ _ _ _ _ E Ej ltac:(lia)). lia.
      * rewrite Ej in E. injection E as <-. done.
      * pose proof (keys_lt _ _ _ _ _ _ Ej E ltac:(lia)). lia.
    + assert (i <> j) as Hij by (intros ->; rewrite Ej in E; by injection E).
      destruct (Z.ltb_spec a key).
      * assert (i < j). { destruct (Z.lt_ge_cases i j); [done|]. pose proof (keys_lt _ _ _ _ _ _ Ej E ltac:(lia)). lia. }
        apply (IH i hi j); [lia|lia|subst i; dlia|done].
      * assert (j < i). { destruct (Z.lt_ge_cases j i); [done|]. pose proof (keys_lt _ _ _ _ _ _ E Ej ltac:(lia)). lia. }
        apply (IH li i j); [lia|lia|subst i; dlia|done].
Qed.

Lemma search_miss n : forall li hi key, 0 <= li <= hi -> hi <= Z.of_nat (length ps) -> li < Z.of_nat (length ps) -> key ∉ ps.*1 -> cp_search n p key li hi = Ok 0.
Proof.
  induction n as [|n IH]; intros li hi key Hl Hh Hl' Hk; [done|]. cbn [cp_search]. rewrite middle by lia. set (i := li + (hi - li) / 2).
  assert (0 <= i < Z.of_nat (length ps) /\ li <= i <= hi) as [Hi Hi'] by (subst i; split; dlia).
  destruct (table_at i) as (a & b & E & R1 & R2); [lia|]. rewrite R1, bind_Ok. rewrite (proj2 (Z.eqb_neq key a)).
  - destruct (a <? key); apply IH; (lia || done).
  - intros ->. apply Hk, list_elem_of_fmap. exists (a, b). split; [done|]. by apply list_elem_of_lookup_2 in E.
Qed.

Lemma search_exact key hi : hi = Z.of_nat (length ps) -> (exists v, (key, v) ∈ ps /\ cp_search 16 p key 0 hi = Ok v) \/ (key ∉ ps.*1 /\ cp_search 16 p key 0 hi = Ok 0).
Proof.
  intros ->. destruct (decide (key ∈ ps.*1)) as [Hin|Hout].
  - left. apply list_elem_of_fmap in Hin as ([k v] & -> & Hin). exists v. split; [done|]. apply list_elem_of_lookup in Hin as [j Ej].
    pose proof (lookup_lt_Some _ _ _ Ej). apply (search_hit 15 0 _ (Z.of_nat j)); [lia|lia|change (2 ^ Z.of_nat 15) with 32768; lia|by rewrite Nat2Z.id].
  - right. split; [done|]. apply search_miss; (lia || done).
Qed.

End Search.

(** ** The tables of the code page *)

Fixpoint increasing (l : list Z) : bool :=
  match l with
  | a :: (b :: _) as l => (a <? b) && increasing l
  | _ => true
  end.

Lemma increasing_sorted l : increasing l = true -> StronglySorted Z.lt l.
Proof.
  intros H. apply Sorted_StronglySorted; [exact Z.lt_trans|]. induction l as [|a [|b l] IH]; [constructor|repeat constructor|].
  cbn [increasing] in H. apply andb_true_iff in H as [H1 H2]. apply Z.ltb_lt in H1. constructor; [by apply IH|by constructor].
Qed.

Lemma sorted_unique (ps : list (Z * Z)) a b b' : increasing ps.*1 = true -> (a, b) ∈ ps -> (a, b') ∈ ps -> b = b'.
Proof.
  intros Hs Hb Hb'. apply increasing_sorted in Hs. apply list_elem_of_lookup in Hb as [i Ei]. apply list_elem_of_lookup in Hb' as [j Ej].
  assert (forall i j b b', ps !! i = Some (a, b) -> ps !! j = Some (a, b') -> ~ (i < j)%nat) as Hno.
  { intros i' j' c c' E E' Hlt. assert (a < a); [|lia]. apply (sorted_lookup (ps.*1) i' j'); [done|by rewrite list_lookup_fmap, E|by rewrite list_lookup_fmap, E'|done]. }
  pose proof (Hno _ _ _ _ Ei Ej). pose proof (Hno _ _ _ _ Ej Ei). replace j with i in Ej by lia. rewrite Ei in Ej. by injection Ej.
Qed.

Definition unicode_to_sjis : list (Z * Z) := code_pairs uni2oem932.
Definition sjis_to_unicode : list (Z * Z) := code_pairs oem2uni932.

(** Every pair of the first list is found, swapped, in the second. *)
Definition inverse_in (ps qs : list (Z * Z)) : bool :=
  let m : Pmap Z := list_to_map ((fun x => (Z.to_pos x.1, x.2)) <$> qs) in
  forallb (fun x => (0 <? x.1) && (0 <? x.2) && match m !! Z.to_pos x.2 with Some y => y =? x.1 | None => false end) ps.

Lemma inverse_in_ok ps qs a b : inverse_in ps qs = true -> inverse_in qs ps = true -> (a, b) ∈ ps -> (b, a) ∈ qs.
Proof.
  unfold inverse_in. intros H1 H2 Hin. rewrite forallb_forall in H1, H2. pose proof (H1 (a, b) (proj1 (list_elem_of_In _ _) Hin)) as E. cbn [fst snd] in E.
  destruct (list_to_map _ !! Z.to_pos b) as [y|] eqn:El in E; [|by rewrite andb_false_r in E].
  apply andb_true_iff in E as [E Ey]. apply Z.eqb_eq in Ey as ->. apply andb_true_iff in E as [Ea Eb]. apply Z.ltb_lt in Ea, Eb.
  apply elem_of_list_to_map_2, list_elem_of_fmap in El as ([b' a'] & Eq & Hin'). cbn [fst snd] in Eq. injection Eq as Ep ->.
  pose proof (H2 _ (proj1 (list_elem_of_In _ _) Hin')) as E2. cbn [fst snd] in E2. apply andb_true_iff in E2 as [E2 _]. apply andb_true_iff in E2 as [E2 _]. apply Z.ltb_lt in E2.
  replace b with b' by lia. done.
Qed.

(** A code is one byte that begins no pair, or a first and a second byte. *)
Definition sjis_code (o : Z) : bool :=
  if o <? 256 then (128 <=? o) && negb (dbc_1st o) else (o <? 65536) && dbc_1st (o / 256) && dbc_2nd (o mod 256).

Lemma unicode_sorted : increasing unicode_to_sjis.*1 = true.
Proof. vm_compute. reflexivity. Qed.
Lemma sjis_sorted : increasing sjis_to_unicode.*1 = true.
Proof. vm_compute. reflexivity. Qed.
Lemma unicode_inverse : inverse_in unicode_to_sjis sjis_to_unicode = true.
Proof. vm_compute. reflexivity. Qed.
Lemma sjis_inverse : inverse_in sjis_to_unicode unicode_to_sjis = true.
Proof. vm_compute. reflexivity. Qed.
Lemma sjis_codes : forallb (fun x => sjis_code x.1 && (128 <=? x.2) && ((x.2 <? 0xD800) || ((0xE000 <=? x.2) && (x.2 <? 65535)))) sjis_to_unicode = true.
Proof. vm_compute. reflexivity. Qed.
Lemma unicode_size : (last_pair uni2oem932, length unicode_to_sjis) = (7389, Z.to_nat 7389).
Proof. vm_compute. reflexivity. Qed.
Lemma sjis_size : (last_pair oem2uni932, length sjis_to_unicode) = (7389, Z.to_nat 7389).
Proof. vm_compute. reflexivity. Qed.

Lemma put_hiragana : put_utf 0x3042 [65; 0; 0; 0] 1 3 = Ok (2, [65; 130; 160; 0]).
Proof. vm_compute. reflexivity. Qed.

#[global] Opaque uni2oem932 oem2uni932.

Lemma tables_inverse u o : (u, o) ∈ unicode_to_sjis <-> (o, u) ∈ sjis_to_unicode.
Proof.
  split.
  - exact (inverse_in_ok _ _ u o unicode_inverse sjis_inverse).
  - exact (inverse_in_ok _ _ o u sjis_inverse unicode_inverse).
Qed.

(** No surrogate and no filler has a code. *)
Lemma table_codes u o : (u, o) ∈ unicode_to_sjis -> sjis_code o = true /\ 128 <= u < 65535 /\ ~ (0xD800 <= u <= 0xDFFF).
Proof.
  intros Hin. apply (proj1 (tables_inverse u o)) in Hin. pose proof sjis_codes as B. rewrite forallb_forall in B. specialize (B _ (proj1 (list_elem_of_In _ _) Hin)). cbn [fst snd] in B.
  apply andb_true_iff in B as [B L2]. apply andb_true_iff in B as [B L1]. apply Z.leb_le in L1. rewrite orb_true_iff, andb_true_iff, Z.leb_le, !Z.ltb_lt in L2. split; [exact B|lia].
Qed.

Lemma code_pairs_at p i : 0 <= i < Z.of_nat (length (code_pairs p)) -> pairs_of p !! Z.to_nat i = code_pairs p !! Z.to_nat i.
Proof. intros Hi. unfold code_pairs in *. rewrite length_take in Hi. rewrite lookup_take_lt; [reflexivity|lia]. Qed.

Lemma table_search tbl n key : increasing (code_pairs tbl).*1 = true -> (last_pair tbl, length (code_pairs tbl)) = (n, Z.to_nat n) -> 0 < n < 32768 ->
  (exists v, (key, v) ∈ code_pairs tbl /\ cp_search 16 tbl key 0 (last_pair tbl) = Ok v) \/ (key ∉ (code_pairs tbl).*1 /\ cp_search 16 tbl key 0 (last_pair tbl) = Ok 0).
Proof.
  intros Hs He Hn. injection He as E1 E2. apply (search_exact tbl (code_pairs tbl)); [intros i Hi; by apply code_pairs_at|by apply increasing_sorted|lia|lia].
Qed.

Lemma uni2oem_exact u : 128 <= u < 65536 ->
  (exists o, (u, o) ∈ unicode_to_sjis /\ ff_uni2oem u FF_CODE_PAGE = Ok o) \/ (u ∉ unicode_to_sjis.*1 /\ ff_uni2oem u FF_CODE_PAGE = Ok 0).
Proof.
  intros Hu. unfold ff_uni2oem. rewrite (proj2 (Z.ltb_ge u 128)), (proj2 (Z.ltb_lt u 65536)), (u16_small u) by lia. change (true && (FF_CODE_PAGE =? FF_CODE_PAGE)) with true. cbv iota.
  apply (table_search uni2oem932 7389); [exact unicode_sorted|exact unicode_size|lia].
Qed.

Lemma oem2uni_exact o : 128 <= o ->
  (exists u, (o, u) ∈ sjis_to_unicode /\ ff_oem2uni o FF_CODE_PAGE = Ok u) \/ (o ∉ sjis_to_unicode.*1 /\ ff_oem2uni o FF_CODE_PAGE = Ok 0).
Proof.
  intros Ho. unfold ff_oem2uni. rewrite (proj2 (Z.ltb_ge o 128)) by lia. change (FF_CODE_PAGE =? FF_CODE_PAGE) with true. cbv iota.
  apply (table_search oem2uni932 7389); [exact sjis_sorted|exact sjis_size|lia].
Qed.

(** ** Characters *)

Lemma uni2oem_total u : 0 <= u < 65536 -> exists o, ff_uni2oem u FF_CODE_PAGE = Ok o.
Proof.
  intros Hu. destruct (Z.lt_ge_cases u 128).
  - exists (u16 u). unfold ff_uni2oem. by rewrite (proj2 (Z.ltb_lt u 128)).
  - destruct (uni2oem_exact u) as [(o & _ & E)|[_ E]]; [lia|by exists o|by exists 0].
Qed.

(** A Unicode character with the code [o], both nonzero. *)
Lemma uni2oem_cases u o : 0 < u < 65536 -> 0 < o -> ff_uni2oem u FF_CODE_PAGE = Ok o ->
  (u = o /\ u < 128) \/ (128 <= u /\ sjis_code o = true /\ (u, o) ∈ unicode_to_sjis).
Proof.
  intros Hu Ho E. destruct (Z.lt_ge_cases u 128).
  - left. unfold ff_uni2oem in E. rewrite (proj2 (Z.ltb_lt u 128)), u16_small in E by lia. injection E as ->. done.
  - right. destruct (uni2oem_exact u) as [(o' & Hin & E')|[_ E']]; [lia| |rewrite E in E'; injection E' as ->; lia].
    rewrite E in E'. injection E' as <-. destruct (table_codes u o Hin) as [Hc _]. done.
Qed.

Lemma sjis_high o : sjis_code o = true -> 128 <= o < 65536.
Proof.
  unfold sjis_code, dbc_1st. intros H. destruct (Z.ltb_spec o 256).
  - apply andb_true_iff in H as [H _]. apply Z.leb_le in H. lia.
  - apply andb_true_iff in H as [H _]. apply andb_true_iff in H as [H _]. apply Z.ltb_lt in H. lia.
Qed.

Lemma oem2uni_of u o : 0 < u < 65536 -> 0 < o -> ff_uni2oem u FF_CODE_PAGE = Ok o -> ff_oem2uni o FF_CODE_PAGE = Ok u.
Proof.
  intros Hu Ho E. destruct (uni2oem_cases u o Hu Ho E) as [[-> Hl]|(Hl & Hc & Hin)].
  - unfold ff_oem2uni. by rewrite (proj2 (Z.ltb_lt o 128)) by lia.
  - destruct (sjis_high o Hc). apply (proj1 (tables_inverse u o)) in Hin.
    destruct (oem2uni_exact o) as [(u' & Hin' & E')|[Hout _]]; [lia| |exfalso; apply Hout, list_elem_of_fmap; by exists (o, u)].
    rewrite E'. f_equal. exact (sorted_unique _ _ _ _ sjis_sorted Hin' Hin).
Qed.

(** Bytes stored at the front of the rest of a buffer. *)
Lemma drop_insert_head (b : list Z) i x : 0 <= i < zlen b -> drop (Z.to_nat i) (<[Z.to_nat i := x]> b) = x :: drop (Z.to_nat (i + 1)) b.
Proof.
  intros Hi. rewrite drop_insert_ge by lia. rewrite Nat.sub_diag. destruct (lookup_lt_is_Some_2 b (Z.to_nat i)) as [y Ey]; [lia|].
  rewrite (drop_S _ _ _ Ey). cbn [insert list_insert]. by replace (Z.to_nat (i + 1)) with (S (Z.to_nat i)) by lia.
Qed.

Lemma sjis_bytes o : 256 <= o -> sjis_code o = true -> u8 (Z.shiftr o 8) = o / 256 /\ u8 o = o mod 256 /\ dbc_1st (o / 256) = true /\ dbc_2nd (o mod 256) = true /\
  u16 (Z.shiftl (o / 256) 8 + o mod 256) = o.
Proof.
  intros Ho Hc. destruct (sjis_high o Hc) as [_ Hm]. unfold sjis_code in Hc. rewrite (proj2 (Z.ltb_ge o 256)) in Hc by lia.
  apply andb_true_iff in Hc as [Hc H2]. apply andb_true_iff in Hc as [_ H1]. rewrite Z.shiftr_div_pow2, Z.shiftl_mul_pow2 by lia. change (2 ^ 8) with 256.
  rewrite u8_small by dlia. split; [done|]. split; [done|]. split; [done|]. split; [done|]. rewrite u16_small; dlia.
Qed.

(** Names shown are names accepted. A character of the basic plane that
    has a code is stored in one or two bytes, and reading these bytes back as
    part of a path gives the character and consumes just them; one without a
    code, or for which the room is too small, leaves the buffer alone. *)
Theorem char_roundtrip (chr at_ szb : Z) (buf : list Z) :
  0 < chr < 65536 -> 0 <= at_ -> at_ + szb <= zlen buf ->
  exists n buf' o, ff_uni2oem chr FF_CODE_PAGE = Ok o /\ put_utf chr buf at_ szb = Ok (n, buf') /\ length buf' = length buf /\
    ((n = 0 /\ buf' = buf /\ (o = 0 \/ szb < (if o <? 256 then 1 else 2))) \/
     (0 < n <= szb /\ tchar2uni (drop (Z.to_nat at_) buf') = Ok (chr, drop (Z.to_nat (at_ + n)) buf) /\ take (Z.to_nat at_) buf' = take (Z.to_nat at_) buf)).
Proof.
  intros Hc Ha Hb. destruct (uni2oem_total chr) as [o Eo]; [lia|]. unfold put_utf. rewrite Eo, bind_Ok. destruct (Z.leb_spec 256 o) as [Hw|Hw].
  - destruct (Z.ltb_spec szb 2). { exists 0, buf, o. repeat (split; [done|]). left. split; [done|]. split; [done|]. right. destruct (Z.ltb_spec o 256); lia. }
    rewrite wr_in by lia. rewrite bind_Ok, wr_in by (rewrite length_insert; lia). rewrite bind_Ok. eexists 2, _, o. split; [done|]. split; [reflexivity|].
    split; [by rewrite !length_insert|]. right. split; [lia|]. split.
    + destruct (uni2oem_cases chr o Hc ltac:(lia) Eo) as [[? ?]|(_ & Hs & _)]; [lia|]. destruct (sjis_bytes o Hw Hs) as (-> & -> & D1 & D2 & Es).
      rewrite list_insert_insert_ne by lia. rewrite drop_insert_head by (rewrite length_insert; lia). rewrite drop_insert_head by lia.
      unfold tchar2uni. rewrite D1, D2, bind_Ok, Es, (proj2 (Z.eqb_neq o 0)) by lia. rewrite (oem2uni_of chr o Hc) by (done || lia). rewrite bind_Ok.
      rewrite (proj2 (Z.eqb_neq chr 0)) by lia. by replace (at_ + 1 + 1) with (at_ + 2) by lia.
    + rewrite !take_insert_ge by lia. done.
  - destruct ((o =? 0) || (szb <? 1)) eqn:Ez.
    { exists 0, buf, o. repeat (split; [done|]). left. split; [done|]. split; [done|]. apply orb_true_iff in Ez as [Ez|Ez]; [left; by apply Z.eqb_eq|right].
      apply Z.ltb_lt in Ez. rewrite (proj2 (Z.ltb_lt o 256)); lia. }
    apply orb_false_iff in Ez as [E0 Es]. apply Z.eqb_neq in E0. apply Z.ltb_ge in Es.
    assert (0 < o /\ dbc_1st o = false) as [Hp Hd].
    { destruct (Z.lt_ge_cases chr 128) as [Hl|Hl].
      - unfold ff_uni2oem in Eo. rewrite (proj2 (Z.ltb_lt chr 128)), u16_small in Eo by lia. injection Eo as ->. split; [lia|]. unfold dbc_1st. by rewrite (proj2 (Z.leb_gt 129 o)) by lia.
      - destruct (uni2oem_exact chr) as [(o' & Hin & E')|[_ E']]; [lia| |congruence]. rewrite Eo in E'. injection E' as <-. destruct (table_codes _ _ Hin) as [Hs _].
        pose proof (sjis_high _ Hs). split; [lia|]. unfold sjis_code in Hs. rewrite (proj2 (Z.ltb_lt o 256)) in Hs by lia. apply andb_true_iff in Hs as [_ Hs]. by apply negb_true_iff. }
    rewrite wr_in, u8_small by lia. rewrite bind_Ok. eexists 1, _, o. split; [done|]. split; [reflexivity|]. split; [by rewrite length_insert|]. right. split; [lia|]. split.
    + rewrite drop_insert_head by lia. unfold tchar2uni. rewrite Hd, bind_Ok, (proj2 (Z.eqb_neq o 0)), (oem2uni_of chr o Hc Hp Eo) by done. rewrite bind_Ok.
      by rewrite (proj2 (Z.eqb_neq chr 0)) by lia.
    + rewrite take_insert_ge by lia. done.
Qed.

Lemma char_roundtrip_witness :
  exists n buf', put_utf 0x3042 [65; 0; 0; 0] 1 3 = Ok (n, buf') /\ tchar2uni (drop 1 buf') = Ok (0x3042, [0]).
Proof.
  destruct (char_roundtrip 0x3042 1 3 [65; 0; 0; 0]) as (n & buf' & o & E & Ep & _ & Hr); [lia|lia|vm_compute; congruence|].
  rewrite put_hiragana in Ep. injection Ep as <- <-. exists 2, [65; 130; 160; 0]. split; [exact put_hiragana|]. destruct Hr as [[? _]|(_ & Et & _)]; [discriminate|exact Et].
Defined.

(** ** Up-case conversion is total *)

(** What a block subtracts at most. *)
Definition up_shift (cmd : Z) : Z :=
  if cmd =? 1 then 1 else if cmd =? 2 then 16 else if cmd =? 3 then 32 else if cmd =? 4 then 48 else if cmd =? 5 then 26
  else if cmd =? 7 then 80 else if cmd =? 8 then 0x1C60 else 0.

Definition block_checked (cmd nc bc : Z) (p : list Z) : bool :=
  (0 <? bc) && (bc + nc + 8 <=? 65536) &&
  (if cmd =? 0 then (nc <=? zlen p) && forallb (fun x => (0 <? x) && (x <? 65536)) (take (Z.to_nat nc) p) else up_shift cmd <? bc).

Fixpoint up_checked (fuel : nat) (p : list Z) : bool :=
  match fuel with
  | O => false
  | S fuel =>
      match p with
      | bc :: p =>
          if bc =? 0 then true
          else
            match p with
            | nc :: p =>
                let cmd := Z.shiftr nc 8 in
                let nc := Z.land nc 0xFF in
                block_checked cmd nc bc p && up_checked fuel (if cmd =? 0 then drop (Z.to_nat nc) p else p)
            | [] => false
            end
      | [] => false
      end
  end.

Lemma up_block_ok cmd nc bc p uc : block_checked cmd nc bc p = true -> bc <= uc < bc + nc -> exists r, up_block cmd uc bc p = Ok r /\ 0 < r < 65536.
Proof.
  unfold block_checked, up_block. intros Hb Hu. apply andb_true_iff in Hb as [Hb Hc]. apply andb_true_iff in Hb as [H1 H2]. apply Z.ltb_lt in H1. apply Z.leb_le in H2.
  destruct (cmd =? 0).
  - apply andb_true_iff in Hc as [Hl Hf]. apply Z.leb_le in Hl. rewrite rd_in by lia. eexists. split; [reflexivity|]. rewrite forallb_forall in Hf.
    destruct (lookup_lt_is_Some_2 p (Z.to_nat (uc - bc))) as [x Ex]; [lia|]. replace (get p (uc - bc)) with x by (unfold get; by rewrite (nth_lookup_Some _ _ _ _ Ex)).
    specialize (Hf x). rewrite andb_true_iff, Z.ltb_lt, Z.ltb_lt in Hf. apply Hf, list_elem_of_In, list_elem_of_lookup. exists (Z.to_nat (uc - bc)). rewrite lookup_take_lt; [done|lia].
  - apply Z.ltb_lt in Hc. unfold up_shift in Hc. eexists. split; [reflexivity|].
    assert (0 <= Z.land (uc - bc) 1 <= 1) by (replace (Z.land (uc - bc) 1) with ((uc - bc) mod 2) by (symmetry; exact (Z.land_ones (uc - bc) 1 ltac:(lia))); dlia).
    revert Hc. repeat match goal with |- context [if ?b then _ else _] => destruct b end; intros; rewrite ?u16_small; lia.
Qed.

Lemma up_loop_ok fuel : forall p uc, up_checked fuel p = true -> 0 < uc < 65536 -> exists r, up_loop fuel p uc = Ok r /\ 0 < r < 65536.
Proof.
  induction fuel as [|fuel IH]; intros [|bc [|nc p]] uc Hc Hu; cbn [up_checked up_loop] in *; try done.
  - destruct (bc =? 0); [|done]. by exists uc.
  - destruct (bc =? 0); [by exists uc|]. cbn [orb]. destruct (Z.ltb_spec uc bc) as [|Hbc]; [by exists uc|]. cbv zeta in *. apply andb_true_iff in Hc as [Hb Hc].
    destruct (Z.ltb_spec uc (bc + Z.land nc 0xFF)); [by apply (up_block_ok _ (Z.land nc 0xFF))|]. by apply IH.
Qed.

(** The upper-case character, for a unit of a name. *)
Definition upper (c : Z) : Z := match ff_wtoupper c with Ok r => r | _ => 0 end.

Lemma wtoupper_ok c : 0 <= c < 65536 -> ff_wtoupper c = Ok (upper c) /\ 0 <= upper c < 65536 /\ (upper c = 0 <-> c = 0).
Proof.
  intros Hc. destruct (decide (c = 0)) as [->|Hne]; [vm_compute; split; [done|split; [done|done]]|].
  assert (exists r, ff_wtoupper c = Ok r /\ 0 < r < 65536) as (r & E & Hr).
  { unfold ff_wtoupper. rewrite (proj2 (Z.ltb_lt c 65536)) by lia. cbv zeta. destruct (c <? 0x1000); apply up_loop_ok; (lia || (vm_compute; reflexivity)). }
  unfold upper. rewrite E. split; [done|]. lia.
Qed.

Lemma upper_0 : upper 0 = 0.
Proof. vm_compute. reflexivity. Qed.

Lemma upper_nonzero c : 0 < c < 65536 -> upper c <> 0.
Proof. intros Hc. destruct (wtoupper_ok c) as (_ & _ & Hz); [lia|]. rewrite Hz. lia. Qed.
