(* ===== verification/Fat.v ===== *)
(** * Fat: the FAT layer of FatFs (ff.c)

    The file system object with its one-sector window, the window's write-back,
    and the accesses to the file allocation table of FAT12, FAT16 and FAT32
    volumes. The physical drive is an interface ([BlockDev]); a drive that works
    promises [BlockLaws]. The configuration is that of ffconf.h: no exFAT, 512
    byte sectors, no tiny mode, no locking. *)

From Stdlib Require Import ZArith Lia Bool.
From stdpp Require Import base list.
From S2P Require Import Prelude Hw Ata.
From stdpp Require Import options.

(** ** Result codes *)

Inductive FRESULT :=
| FR_OK | FR_DISK_ERR | FR_INT_ERR | FR_NOT_READY | FR_NO_FILE | FR_NO_PATH | FR_INVALID_NAME | FR_DENIED | FR_EXIST
| FR_INVALID_OBJECT | FR_WRITE_PROTECTED | FR_INVALID_DRIVE | FR_NOT_ENABLED | FR_NO_FILESYSTEM | FR_MKFS_ABORTED
| FR_TIMEOUT | FR_LOCKED | FR_NOT_ENOUGH_CORE | FR_TOO_MANY_OPEN_FILES | FR_INVALID_PARAMETER.

#[global] Instance FRESULT_eq_dec : EqDecision FRESULT.
Proof. solve_decision. Defined.

#[global] Instance DRESULT_eq_dec : EqDecision DRESULT.
Proof. solve_decision. Defined.

(** [res == FR_OK] and [... == RES_OK] *)
Definition fr_ok (r : FRESULT) : bool := bool_decide (r = FR_OK).
Definition res_ok (r : DRESULT) : bool := bool_decide (r = RES_OK).

(** ** The drive below *)

(** Sector reads yield the result code and the bytes then in the buffer. *)
Class BlockDev (D : Type) := {
  bd_read : Z -> Z -> M D (DRESULT * list Z);
  bd_write : list Z -> Z -> Z -> M D DRESULT;
  bd_sync : M D DRESULT;
  bd_status : D -> Z;
  bd_init : M D Z
}.

Definition bd_noinit {D : Type} `{BlockDev D} (d : D) : bool := truth (Z.land (bd_status d) STA_NOINIT).

(** ** The file system object *)

Definition SS : Z := 512.
Definition FS_FAT12 : Z := 1.
Definition FS_FAT16 : Z := 2.
Definition FS_FAT32 : Z := 3.

(** The part of [FATFS] that is fixed while the volume is mounted. *)
Record geometry := mk_geo {
  fs_type : Z; pdrv : Z; n_fats : Z; fs_id : Z; n_rootdir : Z; csize : Z; n_fatent : Z; fsize : Z;
  volbase : Z; fatbase : Z; dirbase : Z; database : Z
}.

(** The disk access window. *)
Record window := mk_window { wflag : Z; winsect : Z; win : list Z }.

(** Allocation information. *)
Record alloc := mk_alloc { last_clst : Z; free_clst : Z; fsi_flag : Z }.

Record FATFS := mk_fs { fs_geo : geometry; fs_win : window; fs_alloc : alloc }.

(** A mounted volume: the object and the drive it lives on. *)
Record vol (D : Type) := mk_vol { v_fs : FATFS; v_dev : D }.
Arguments mk_vol {D} _ _.
Arguments v_fs {D} _.
Arguments v_dev {D} _.

Section Fat.
Context {D : Type} `{BlockDev D}.
Abbreviation VM := (M (vol D)).

Definition geo : VM geometry := gets (fun v => fs_geo (v_fs v)).
Definition wnd : VM window := gets (fun v => fs_win (v_fs v)).
Definition alc : VM alloc := gets (fun v => fs_alloc (v_fs v)).

Definition set_wnd (w : window) : VM unit := modify (fun v => mk_vol (mk_fs (fs_geo (v_fs v)) w (fs_alloc (v_fs v))) (v_dev v)).
Definition set_alc (a : alloc) : VM unit := modify (fun v => mk_vol (mk_fs (fs_geo (v_fs v)) (fs_win (v_fs v)) a) (v_dev v)).

(** A call of the drive. *)
Definition drive {A} (m : M D A) : VM A := fun v =>
  match m (v_dev v) with
  | Ok (a, d) => Ok (a, mk_vol (v_fs v) d)
  | Fault => Fault | Spin => Spin | NoFuel => NoFuel
  end.

(** ** Words in the window *)

Definition ld_word (b : list Z) (i : Z) : res Z :=
  p1 ← rd b (i + 1); p0 ← rd b i; Ok (u16 (Z.lor (Z.shiftl p1 8) p0)).

Definition ld_dword (b : list Z) (i : Z) : res Z :=
  p3 ← rd b (i + 3); p2 ← rd b (i + 2); p1 ← rd b (i + 1); p0 ← rd b i;
  let rv := u32 (Z.lor (Z.shiftl p3 8) p2) in
  let rv := u32 (Z.lor (Z.shiftl rv 8) p1) in
  Ok (u32 (Z.lor (Z.shiftl rv 8) p0)).

Definition st_word (b : list Z) (i val : Z) : res (list Z) :=
  b ← wr b i (u8 val); wr b (i + 1) (u8 (Z.shiftr val 8)).

Definition st_dword (b : list Z) (i val : Z) : res (list Z) :=
  b ← wr b i (u8 val); b ← wr b (i + 1) (u8 (Z.shiftr val 8));
  b ← wr b (i + 2) (u8 (Z.shiftr (Z.shiftr val 8) 8));
  wr b (i + 3) (u8 (Z.shiftr (Z.shiftr (Z.shiftr val 8) 8) 8)).

(** ** The window *)

Definition sync_window : VM FRESULT :=
  w ← wnd;
  if truth (wflag w) then
    r ← drive (bd_write (win w) (winsect w) 1);
    if res_ok r then
      _ ← set_wnd (mk_window 0 (winsect w) (win w));
      g ← geo;
      _ ← when ((u32 (winsect w - fatbase g) <? fsize g) && (n_fats g =? 2))
             (_ ← drive (bd_write (win w) (u32 (winsect w + fsize g)) 1); skip);
      mret FR_OK
    else mret FR_DISK_ERR
  else mret FR_OK.

Definition move_window (sect : Z) : VM FRESULT :=
  w ← wnd;
  if negb (sect =? winsect w) then
    res ← sync_window;
    if fr_ok res then
      x ← drive (bd_read sect 1);
      w ← wnd;
      if res_ok x.1 then _ ← set_wnd (mk_window (wflag w) sect x.2); mret FR_OK
      else _ ← set_wnd (mk_window (wflag w) 4294967295 x.2); mret FR_DISK_ERR
    else mret res
  else mret FR_OK.

(** Reading and writing the window; a write marks it dirty. *)
Definition win_get (f : list Z -> res Z) : VM Z := w ← wnd; lift (f (win w)).
Definition win_put (f : list Z -> res (list Z)) : VM unit :=
  w ← wnd; b ← lift (f (win w)); set_wnd (mk_window 1 (winsect w) b).

(** [FSI_*] offsets *)
Definition sync_fs : VM FRESULT :=
  res ← sync_window;
  if fr_ok res then
    a ← alc; g ← geo;
    _ ← when (fsi_flag a =? 1)
      (_ ← set_alc (mk_alloc (last_clst a) (free_clst a) 0);
       when (fs_type g =? FS_FAT32)
         (w ← wnd;
          b ← lift (b ← st_dword (replicate 512 0) 0 1096897106;
                    b ← st_dword b 484 1631679090;
                    b ← st_dword b 488 (free_clst a);
                    b ← st_dword b 492 (last_clst a);
                    st_dword b 498 2857697280);
          _ ← set_wnd (mk_window (wflag w) (u32 (volbase g + 1)) b);
          _ ← drive (bd_write b (u32 (volbase g + 1)) 1); skip));
    r ← drive bd_sync;
    mret (if res_ok r then FR_OK else FR_DISK_ERR)
  else mret res.

(** ** Clusters and the table *)

Definition clst2sect (g : geometry) (clst : Z) : Z :=
  let clst := u32 (clst - 2) in
  if u32 (n_fatent g - 2) <=? clst then 0
  else u32 (database g + csize g * clst).

Definition DISK_ERROR : Z := 4294967295.

Definition get_fat (clst : Z) : VM Z :=
  g ← geo;
  if (clst <? 2) || (n_fatent g <=? clst) then mret 1
  else if fs_type g =? FS_FAT12 then
    let bc := u32 (clst + clst / 2) in
    r ← move_window (u32 (fatbase g + bc / SS));
    if fr_ok r then
      wc ← win_get (fun b => rd b (bc mod SS));
      let bc := u32 (bc + 1) in
      r ← move_window (u32 (fatbase g + bc / SS));
      if fr_ok r then
        hi ← win_get (fun b => rd b (bc mod SS));
        let wc := Z.lor wc (Z.shiftl hi 8) in
        mret (if truth (Z.land clst 1) then Z.shiftr wc 4 else Z.land wc 4095)
      else mret DISK_ERROR
    else mret DISK_ERROR
  else if fs_type g =? FS_FAT16 then
    r ← move_window (u32 (fatbase g + clst / (SS / 2)));
    if fr_ok r then win_get (fun b => ld_word b (u32 (clst * 2) mod SS)) else mret DISK_ERROR
  else if fs_type g =? FS_FAT32 then
    r ← move_window (u32 (fatbase g + clst / (SS / 4)));
    if fr_ok r then v ← win_get (fun b => ld_dword b (u32 (clst * 4) mod SS)); mret (Z.land v 268435455) else mret DISK_ERROR
  else mret 1.

Definition put_fat (clst val : Z) : VM FRESULT :=
  g ← geo;
  if (2 <=? clst) && (clst <? n_fatent g) then
    if fs_type g =? FS_FAT12 then
      let bc := u32 (clst + clst / 2) in
      r ← move_window (u32 (fatbase g + bc / SS));
      if fr_ok r then
        _ ← win_put (fun b => p ← rd b (bc mod SS);
               wr b (bc mod SS) (u8 (if truth (Z.land clst 1) then Z.lor (Z.land p 15) (Z.shiftl (u8 val) 4) else u8 val)));
        let bc := u32 (bc + 1) in
        r ← move_window (u32 (fatbase g + bc / SS));
        if fr_ok r then
          _ ← win_put (fun b => p ← rd b (bc mod SS);
                 wr b (bc mod SS) (u8 (if truth (Z.land clst 1) then u8 (Z.shiftr val 4)
                                       else Z.lor (Z.land p 240) (Z.land (u8 (Z.shiftr val 8)) 15))));
          mret FR_OK
        else mret r
      else mret r
    else if fs_type g =? FS_FAT16 then
      r ← move_window (u32 (fatbase g + clst / (SS / 2)));
      if fr_ok r then _ ← win_put (fun b => st_word b (u32 (clst * 2) mod SS) (u16 val)); mret FR_OK else mret r
    else if fs_type g =? FS_FAT32 then
      r ← move_window (u32 (fatbase g + clst / (SS / 4)));
      if fr_ok r then
        _ ← win_put (fun b =>
               old ← ld_dword b (u32 (clst * 4) mod SS);
               st_dword b (u32 (clst * 4) mod SS) (Z.lor (Z.land val 268435455) (Z.land old 4026531840)));
        mret FR_OK
      else mret r
    else mret FR_INT_ERR
  else mret FR_INT_ERR.

End Fat.

(** ** Entries of a table

    The table as a function from byte offsets; what an entry is and what
    storing one changes. *)

Definition entry_of (ty : Z) (f : Z -> Z) (c : Z) : Z :=
  if ty =? FS_FAT12 then
    let w := f (c + c / 2) + f (c + c / 2 + 1) * 256 in if Z.odd c then w / 16 else w mod 4096
  else if ty =? FS_FAT16 then f (c * 2) + f (c * 2 + 1) * 256
  else (f (c * 4) + f (c * 4 + 1) * 256 + f (c * 4 + 2) * 65536 + f (c * 4 + 3) * 16777216) mod 268435456.

Definition upd (f : Z -> Z) (k x : Z) : Z -> Z := fun j => if j =? k then x else f j.

(** The number of bytes from the first byte of entry [c] to its end. *)
Definition entry_lo (ty c : Z) : Z := if ty =? FS_FAT12 then c + c / 2 else if ty =? FS_FAT16 then c * 2 else c * 4.
Definition entry_len (ty : Z) : Z := if ty =? FS_FAT12 then 2 else if ty =? FS_FAT16 then 2 else 4.

Definition put_of (ty : Z) (f : Z -> Z) (c val : Z) : Z -> Z :=
  if ty =? FS_FAT12 then
    let bc := c + c / 2 in
    if Z.odd c then upd (upd f bc (f bc mod 16 + 16 * (val mod 16))) (bc + 1) (val / 16 mod 256)
    else upd (upd f bc (val mod 256)) (bc + 1) (f (bc + 1) / 16 * 16 + val / 256 mod 16)
  else if ty =? FS_FAT16 then upd (upd f (c * 2) (val mod 256)) (c * 2 + 1) (val / 256 mod 256)
  else
    upd (upd (upd (upd f (c * 4) (val mod 256)) (c * 4 + 1) (val / 256 mod 256)) (c * 4 + 2) (val / 65536 mod 256))
      (c * 4 + 3) (f (c * 4 + 3) / 16 * 16 + val / 16777216 mod 16).

(** The value an entry keeps of what is stored. *)
Definition fat_mask (ty val : Z) : Z := if ty =? FS_FAT12 then val mod 4096 else if ty =? FS_FAT16 then val mod 65536 else val mod 268435456.

Lemma upd_eq f k x : upd f k x k = x.
Proof. unfold upd. by rewrite Z.eqb_refl. Qed.
Lemma upd_ne f k x j : j <> k -> upd f k x j = f j.
Proof. intros Hne. unfold upd. by rewrite (proj2 (Z.eqb_neq _ _) Hne). Qed.

Lemma odd_mod c : Z.odd c = (c mod 2 =? 1).
Proof. rewrite Zmod_odd. by destruct (Z.odd c). Qed.

(** Storing an entry changes that entry and no other one, although two
    neighbours of a FAT12 table share a byte. *)
Lemma entry_put ty f c c' val :
  (forall k, 0 <= k -> 0 <= f k < 256) -> 0 <= c -> 0 <= c' ->
  entry_of ty (put_of ty f c val) c' = if c' =? c then fat_mask ty val else entry_of ty f c'.
Proof.
  intros Hf Hc Hc'. unfold entry_of, put_of, fat_mask. rewrite !odd_mod. destruct (ty =? FS_FAT12); [|destruct (ty =? FS_FAT16)].
  - pose proof (Hf (c + c / 2) ltac:(dlia)) as B0. pose proof (Hf (c + c / 2 + 1) ltac:(dlia)) as B1.
    pose proof (Hf (c' + c' / 2) ltac:(dlia)) as B2. pose proof (Hf (c' + c' / 2 + 1) ltac:(dlia)) as B3.
    destruct (Z.eqb_spec c' c) as [->|Hne].
    + destruct (Z.eqb_spec (c mod 2) 1); rewrite !upd_eq, (upd_ne _ (c + c / 2 + 1)), upd_eq by lia.
      * generalize dependent (f (c + c / 2)). intros. dlia.
      * generalize dependent (f (c + c / 2 + 1)). intros. dlia.
    + destruct (Z.eqb_spec (c mod 2) 1) as [Ho|Ho], (Z.eqb_spec (c' mod 2) 1) as [Ho'|Ho'].
      * rewrite !upd_ne by dlia. done.
      * destruct (decide (c' = c - 1)) as [E|N]; [|rewrite !upd_ne by dlia; done].
        replace (c' + c' / 2 + 1) with (c + c / 2) in * by dlia. rewrite (upd_ne _ (c + c / 2 + 1) _ (c + c / 2)), upd_eq, !upd_ne by dlia.
        generalize dependent (f (c + c / 2)). generalize dependent (f (c' + c' / 2)). intros. dlia.
      * destruct (decide (c' = c + 1)) as [E|N]; [|rewrite !upd_ne by dlia; done].
        replace (c' + c' / 2) with (c + c / 2 + 1) in * by dlia. rewrite upd_eq, !upd_ne by dlia.
        generalize dependent (f (c + c / 2 + 1)). generalize dependent (f (c + c / 2 + 1 + 1)). intros. dlia.
      * rewrite !upd_ne by dlia. done.
  - destruct (Z.eqb_spec c' c) as [->|Hne].
    + rewrite upd_eq, (upd_ne _ (c * 2 + 1)), upd_eq by lia. dlia.
    + rewrite !upd_ne by lia. done.
  - destruct (Z.eqb_spec c' c) as [->|Hne].
    + repeat first [rewrite upd_eq | rewrite upd_ne by lia].
      pose proof (Hf (c * 4 + 3) ltac:(lia)). generalize dependent (f (c * 4 + 3)). intros. dlia.
    + rewrite !upd_ne by lia. done.
Qed.

(** An entry depends on its own bytes only. *)
Lemma entry_ext ty f g c : (forall k, entry_lo ty c <= k < entry_lo ty c + entry_len ty -> f k = g k) -> entry_of ty f c = entry_of ty g c.
Proof.
  unfold entry_of, entry_lo, entry_len. destruct (ty =? FS_FAT12); [|destruct (ty =? FS_FAT16)]; intros E; rewrite !E by lia; done.
Qed.

(** ** Words *)

Lemma lor_byte hi lo : 0 <= lo < 256 -> Z.lor (Z.shiftl hi 8) lo = hi * 256 + lo.
Proof. intros Hl. rewrite Z.lor_comm, (lor_disjoint_add _ _ 8) by lia. change (2 ^ 8) with 256. lia. Qed.

Lemma ld_word_ok b i : Forall is_byte b -> 0 <= i -> i + 2 <= zlen b -> ld_word b i = Ok (le16 b i).
Proof.
  intros Hb Hi Hl. unfold ld_word, le16. rewrite !rd_in by lia. rewrite !bind_Ok.
  pose proof (get_byte b i Hb). pose proof (get_byte b (i + 1) Hb). rewrite lor_byte, u16_small by lia. f_equal. lia.
Qed.

Lemma ld_dword_ok b i : Forall is_byte b -> 0 <= i -> i + 4 <= zlen b -> ld_dword b i = Ok (le32 b i).
Proof.
  intros Hb Hi Hl. unfold ld_dword, le32. rewrite !rd_in by lia. rewrite !bind_Ok. cbv zeta.
  pose proof (get_byte b i Hb). pose proof (get_byte b (i + 1) Hb). pose proof (get_byte b (i + 2) Hb). pose proof (get_byte b (i + 3) Hb).
  rewrite (lor_byte (get b (i + 3))) by lia. rewrite (u32_small (get b (i + 3) * 256 + _)) by lia.
  rewrite (lor_byte (_ + get b (i + 2))) by lia. rewrite (u32_small (_ + get b (i + 1))) by lia.
  rewrite lor_byte by lia. rewrite u32_small by lia. f_equal. lia.
Qed.

(** A stored word, byte by byte. *)
Lemma st_word_ok b i val : 0 <= i -> i + 2 <= zlen b -> 0 <= val ->
  exists b', st_word b i val = Ok b' /\ length b' = length b /\
    forall j, 0 <= j -> get b' j = upd (upd (get b) i (val mod 256)) (i + 1) (val / 256 mod 256) j.
Proof.
  intros Hi Hl Hv. unfold st_word. rewrite wr_in by lia. rewrite bind_Ok, wr_in by (rewrite length_insert; lia).
  eexists. split; [reflexivity|]. split; [by rewrite !length_insert|]. intros j Hj. unfold upd. unfold u8, wrap. rewrite Z.shiftr_div_pow2 by lia.
  change (2 ^ 8) with 256. destruct (Z.eqb_spec j (i + 1)) as [->|N1]; [by rewrite get_insert_eq by (rewrite length_insert; lia)|].
  rewrite get_insert_ne by lia. destruct (Z.eqb_spec j i) as [->|N2]; [by rewrite get_insert_eq by lia|by rewrite get_insert_ne by lia].
Qed.

Lemma st_dword_ok b i val : 0 <= i -> i + 4 <= zlen b -> 0 <= val ->
  exists b', st_dword b i val = Ok b' /\ length b' = length b /\
    forall j, 0 <= j -> get b' j = upd (upd (upd (upd (get b) i (val mod 256)) (i + 1) (val / 256 mod 256)) (i + 2) (val / 65536 mod 256))
      (i + 3) (val / 16777216 mod 256) j.
Proof.
  intros Hi Hl Hv. unfold st_dword. rewrite wr_in by lia. rewrite bind_Ok, wr_in by (rewrite length_insert; lia).
  rewrite bind_Ok, wr_in by (rewrite !length_insert; lia). rewrite bind_Ok, wr_in by (rewrite !length_insert; lia).
  eexists. split; [reflexivity|]. split; [by rewrite !length_insert|]. intros j Hj. unfold upd, u8, wrap. rewrite !Z.shiftr_div_pow2 by lia.
  change (2 ^ 8) with 256. rewrite !Z.div_div by lia. change (256 * 256 * 256) with 16777216. change (256 * 256) with 65536.
  destruct (Z.eqb_spec j (i + 3)) as [->|N3]; [by rewrite get_insert_eq by (rewrite !length_insert; lia)|]. rewrite get_insert_ne by lia.
  destruct (Z.eqb_spec j (i + 2)) as [->|N2]; [by rewrite get_insert_eq by (rewrite !length_insert; lia)|]. rewrite get_insert_ne by lia.
  destruct (Z.eqb_spec j (i + 1)) as [->|N1]; [by rewrite get_insert_eq by (rewrite !length_insert; lia)|]. rewrite get_insert_ne by lia.
  destruct (Z.eqb_spec j i) as [->|N0]; [by rewrite get_insert_eq by lia|by rewrite get_insert_ne by lia].
Qed.

(** ** A drive that works *)

(** [bd_sector d s] is the content of sector [s]; a ready drive carries out
    every access inside its [bd_size] sectors. *)
Class BlockLaws (D : Type) `{BlockDev D} := {
  bd_ready : D -> Prop;
  bd_size : D -> Z;
  bd_sector : D -> Z -> list Z;
  bd_ready_init : forall d, bd_ready d -> bd_status d = 0;
  bd_init_ok : forall d, bd_ready d -> exists d', bd_init d = Ok (0, d') /\ bd_ready d' /\ bd_size d' = bd_size d /\ bd_sector d' = bd_sector d;
  bd_sector_ok : forall d s, bd_ready d -> 0 <= s < bd_size d -> length (bd_sector d s) = 512%nat /\ Forall is_byte (bd_sector d s);
  bd_read_ok : forall d s n, bd_ready d -> 0 <= s -> 0 < n -> s + n <= bd_size d ->
    exists data d', bd_read s n d = Ok ((RES_OK, data), d') /\ zlen data = 512 * n /\
      (forall k, 0 <= k < n -> take 512 (drop (Z.to_nat (512 * k)) data) = bd_sector d (s + k)) /\
      bd_ready d' /\ bd_size d' = bd_size d /\ bd_sector d' = bd_sector d;
  bd_write_ok : forall d data s n, bd_ready d -> 0 <= s -> 0 < n -> s + n <= bd_size d ->
    zlen data = 512 * n -> Forall is_byte data ->
    exists d', bd_write data s n d = Ok (RES_OK, d') /\ bd_ready d' /\ bd_size d' = bd_size d /\
      forall t, bd_sector d' t = if (s <=? t) && (t <? s + n) then take 512 (drop (Z.to_nat (512 * (t - s))) data) else bd_sector d t;
  bd_sync_ok : forall d, bd_ready d -> exists d', bd_sync d = Ok (RES_OK, d') /\ bd_ready d' /\ bd_size d' = bd_size d /\ bd_sector d' = bd_sector d
}.

(** ** The volume as its readers see it *)

(** Bits per entry. *)
Definition fat_bits (g : geometry) : Z := if fs_type g =? FS_FAT12 then 12 else if fs_type g =? FS_FAT16 then 16 else 32.

(** The largest value of an entry; it marks the end of a chain. *)
Definition fat_max (g : geometry) : Z := if fs_type g =? FS_FAT12 then 4095 else if fs_type g =? FS_FAT16 then 65535 else 268435455.

(** A consistent layout on a drive of [size] sectors. *)
Record geo_ok (g : geometry) (size : Z) : Prop := {
  go_type : fs_type g = FS_FAT12 \/ fs_type g = FS_FAT16 \/ fs_type g = FS_FAT32;
  go_fats : n_fats g = 1 \/ n_fats g = 2;
  go_ents : 2 < n_fatent g <= fat_max g - 8;
  go_fits : n_fatent g * fat_bits g <= fsize g * 4096;
  go_csize : 0 < csize g;
  go_pow2 : exists k, 0 <= k <= 7 /\ csize g = 2 ^ k;
  go_vol : 0 <= volbase g;
  go_base : volbase g < fatbase g;
  go_info : fs_type g = FS_FAT32 -> volbase g + 1 < fatbase g;
  go_data : fatbase g + fsize g * n_fats g <= database g;
  go_size : database g + csize g * (n_fatent g - 2) <= size;
  go_max : size < 4294967295
}.

(** The second copy of the table. *)
Definition mirror (g : geometry) (s : Z) : Prop := n_fats g = 2 /\ fatbase g + fsize g <= s < fatbase g + 2 * fsize g.

Section View.
Context {D : Type} `{BlockLaws D}.

Abbreviation v_geo v := (fs_geo (v_fs v)).
Abbreviation v_win v := (fs_win (v_fs v)).

(** The current content of a sector: the window hides the drive. *)
Definition vsec (v : vol D) (s : Z) : list Z := if s =? winsect (v_win v) then win (v_win v) else bd_sector (v_dev v) s.

Record win_ok (v : vol D) : Prop := {
  wo_len : length (win (v_win v)) = 512%nat;
  wo_bytes : Forall is_byte (win (v_win v));
  wo_sect : 0 <= winsect (v_win v);
  wo_clean : truth (wflag (v_win v)) = false ->
    winsect (v_win v) = 4294967295 \/ (winsect (v_win v) < bd_size (v_dev v) /\ win (v_win v) = bd_sector (v_dev v) (winsect (v_win v)));
  wo_dirty : truth (wflag (v_win v)) = true -> winsect (v_win v) < bd_size (v_dev v) /\ ~ mirror (v_geo v) (winsect (v_win v))
}.

(** Both copies of the table agree on the drive. *)
Definition mirrored (v : vol D) : Prop :=
  n_fats (v_geo v) = 2 -> forall k, 0 <= k < fsize (v_geo v) ->
    bd_sector (v_dev v) (fatbase (v_geo v) + fsize (v_geo v) + k) = bd_sector (v_dev v) (fatbase (v_geo v) + k).

Record vol_ok (v : vol D) : Prop := {
  vo_ready : bd_ready (v_dev v);
  vo_geo : geo_ok (v_geo v) (bd_size (v_dev v));
  vo_win : win_ok v;
  vo_mirror : mirrored v
}.

(** Sectors the window may be moved to. *)
Definition reachable (v : vol D) (s : Z) : Prop := 0 <= s < bd_size (v_dev v) /\ ~ mirror (v_geo v) s.

(** Same layout and same content outside the second copy. *)
Definition same_view (v v' : vol D) : Prop :=
  fs_geo (v_fs v') = v_geo v /\ bd_size (v_dev v') = bd_size (v_dev v) /\ forall s, reachable v s -> vsec v' s = vsec v s.

Lemma same_view_refl v : same_view v v.
Proof. done. Qed.

Lemma same_view_trans v1 v2 v3 : same_view v1 v2 -> same_view v2 v3 -> same_view v1 v3.
Proof.
  intros (E1 & S1 & V1) (E2 & S2 & V2). split; [congruence|]. split; [congruence|]. intros s Hs. rewrite V2, V1; [done|done|].
  unfold reachable. by rewrite E1, S1.
Qed.

#[local] Set Default Proof Using "Type*".

Lemma vsec_ok v s : vol_ok v -> 0 <= s < bd_size (v_dev v) -> length (vsec v s) = 512%nat /\ Forall is_byte (vsec v s).
Proof. intros [Hr Hg [Hl Hb _ _ _] _] Hs. unfold vsec. destruct (_ =? _); [done|by apply bd_sector_ok]. Qed.

Lemma drive_Ok {A} (m : M D A) v a d : m (v_dev v) = Ok (a, d) -> drive m v = Ok (a, mk_vol (v_fs v) d).
Proof. intros E. unfold drive. by rewrite E. Qed.

Lemma bind_wnd {B} (k : window -> M (vol D) B) v : (wnd ≫= k) v = k (v_win v) v.
Proof. done. Qed.
Lemma bind_geo {B} (k : geometry -> M (vol D) B) v : (geo ≫= k) v = k (v_geo v) v.
Proof. done. Qed.
Lemma bind_alc {B} (k : alloc -> M (vol D) B) v : (alc ≫= k) v = k (fs_alloc (v_fs v)) v.
Proof. done. Qed.
Lemma bind_set_wnd {B} w (k : unit -> M (vol D) B) v :
  (set_wnd w ≫= k) v = k tt (mk_vol (mk_fs (v_geo v) w (fs_alloc (v_fs v))) (v_dev v)).
Proof. done. Qed.
Lemma bind_set_alc {B} a (k : unit -> M (vol D) B) v :
  (set_alc a ≫= k) v = k tt (mk_vol (mk_fs (v_geo v) (v_win v) a) (v_dev v)).
Proof. done. Qed.
Lemma bind_drive {A B} (m : M D A) (k : A -> M (vol D) B) v a d :
  m (v_dev v) = Ok (a, d) -> (drive m ≫= k) v = k a (mk_vol (v_fs v) d).
Proof. intros E. apply m_bind_Ok. by apply drive_Ok. Qed.
Lemma bind_mret {A B} (a : A) (k : A -> M (vol D) B) v : (mret a ≫= k) v = k a v.
Proof. done. Qed.

Lemma in_fat g s : 0 <= fatbase g < 4294967296 -> 0 <= s < 4294967296 ->
  (u32 (s - fatbase g) <? fsize g) = true -> 0 <= fsize g < 4294967296 - fatbase g -> fatbase g <= s < fatbase g + fsize g.
Proof.
  intros Hb Hs Hlt Hf. apply Z.ltb_lt in Hlt. destruct (Z.le_gt_cases (fatbase g) s).
  - rewrite u32_small in Hlt by lia. lia.
  - replace (u32 (s - fatbase g)) with (s - fatbase g + 4294967296) in Hlt; [lia|].
    unfold u32, wrap. apply Z.mod_unique with (-1); lia.
Qed.

(** One sector written: the drive's content afterwards. *)
Lemma write_one (d : D) data s : bd_ready d -> 0 <= s < bd_size d -> length data = 512%nat -> Forall is_byte data ->
  exists d', bd_write data s 1 d = Ok (RES_OK, d') /\ bd_ready d' /\ bd_size d' = bd_size d /\
    forall t, bd_sector d' t = if t =? s then data else bd_sector d t.
Proof.
  intros Hv Hs Hl Hb. destruct (bd_write_ok d data s 1 Hv) as (d' & E & Hr & Hz & Ht); [lia|lia|lia|lia|done|].
  exists d'. split; [done|]. split; [done|]. split; [done|]. intros t. rewrite Ht. destruct (Z.eqb_spec t s) as [->|Hne].
  - replace ((s <=? s) && (s <? s + 1)) with true by (symmetry; apply andb_true_iff; split; [apply Z.leb_le|apply Z.ltb_lt]; lia).
    rewrite Z.sub_diag. change (Z.to_nat (512 * 0)) with 0%nat. rewrite drop_0. apply take_ge. lia.
  - destruct (Z.leb_spec s t), (Z.ltb_spec t (s + 1)); cbn [andb]; try done. lia.
Qed.

Lemma geo_fat g size : geo_ok g size -> 0 <= fatbase g /\ 0 < fsize g /\ fatbase g + fsize g <= database g /\
  (n_fats g = 2 -> fatbase g + 2 * fsize g <= database g) /\ database g < size.
Proof.
  intros [Ht Hf He Hfit Hc _ Hv Hb _ Hd Hs _]. unfold fat_bits in Hfit.
  assert (0 < fsize g) by (destruct (fs_type g =? FS_FAT12); [nia|]; destruct (fs_type g =? FS_FAT16); nia).
  destruct Hf as [Hf|Hf]; rewrite Hf in Hd; repeat split; intros; nia.
Qed.

Lemma sync_window_ok v : vol_ok v ->
  exists v', sync_window v = Ok (FR_OK, v') /\ vol_ok v' /\ same_view v v' /\ fs_alloc (v_fs v') = fs_alloc (v_fs v) /\
    v_win v' = mk_window 0 (winsect (v_win v)) (win (v_win v)).
Proof.
  intros Hv. pose proof Hv as [Hr Hg [Hl Hb Hs Hclean Hdirty] Hm]. pose proof (geo_fat _ _ Hg) as (F1 & F2 & F3 & F4 & F5).
  pose proof (go_max _ _ Hg) as Hmax. unfold sync_window.
  rewrite bind_wnd. destruct v as [[g [wf ws wb] al] d]. cbn [fs_geo fs_win v_fs v_dev wflag winsect win fs_alloc] in *.
  destruct (truth wf) eqn:Ewf.
  - destruct (Hdirty eq_refl) as [Hin Hnm]. destruct (write_one d wb ws Hr ltac:(lia) Hl Hb) as (d1 & E1 & R1 & Z1 & C1).
    rewrite (bind_drive _ _ (mk_vol _ d) _ _ E1). change (res_ok RES_OK) with true. cbv iota.
    rewrite bind_set_wnd, bind_geo. cbn [v_fs v_dev fs_geo fs_alloc].
    destruct ((u32 (ws - fatbase g) <? fsize g) && (n_fats g =? 2)) eqn:Ein; cbn [when].
    + apply andb_true_iff in Ein as [Ein En]. apply Z.eqb_eq in En. specialize (F4 En).
      apply in_fat in Ein; [|lia..]. destruct (write_one d1 wb (ws + fsize g) R1) as (d2 & E2 & R2 & Z2 & C2); [lia|done|done|].
      rewrite (u32_small (ws + fsize g)) by lia.
      erewrite (m_bind_Ok (drive _ ≫= _)); [|rewrite (bind_drive _ _ (mk_vol _ d1) _ _ E2); reflexivity].
      eexists. split; [reflexivity|]. split; [|split; [split; [done|split; [cbn; congruence|]]|done]].
      * split; cbn [v_fs v_dev fs_geo fs_win]; [done|by rewrite Z2, Z1|split; cbn [v_fs v_dev fs_geo fs_win winsect win wflag]; try done|].
        -- intros _. right. rewrite C2, C1. rewrite Z2, Z1. split; [done|]. destruct (ws =? ws + fsize g); [done|]. by rewrite Z.eqb_refl.
        -- intros Hn k Hk. cbn [v_fs v_dev fs_geo]. specialize (Hm Hn k Hk). cbn [v_fs v_dev fs_geo] in Hn, Hm, Hk. rewrite !C2, !C1.
           destruct (Z.eqb_spec (fatbase g + fsize g + k) (ws + fsize g)), (Z.eqb_spec (fatbase g + k) (ws + fsize g)); try lia.
           ++ replace (fatbase g + k =? ws) with true by (symmetry; apply Z.eqb_eq; lia). done.
           ++ destruct (Z.eqb_spec (fatbase g + fsize g + k) ws), (Z.eqb_spec (fatbase g + k) ws); try lia. exact Hm.
      * intros t [_ Ht]. unfold vsec. cbn [v_fs v_dev fs_win winsect win]. destruct (Z.eqb_spec t ws) as [->|Hne]; [done|].
        rewrite C2, C1. destruct (Z.eqb_spec t (ws + fsize g)) as [->|_]; [|by rewrite (proj2 (Z.eqb_neq t ws))].
        destruct Ht. split; cbn [v_fs fs_geo]; [done|lia].
    + eexists. split; [reflexivity|]. split; [|split; [split; [done|split; [done|]]|done]].
      * split; cbn [v_fs v_dev fs_geo fs_win]; [done|by rewrite Z1|split; cbn [v_fs v_dev fs_geo fs_win winsect win wflag]; try done|].
        -- intros _. right. rewrite C1, Z1, Z.eqb_refl. done.
        -- intros Hn k Hk. cbn [v_fs v_dev fs_geo]. specialize (Hm Hn k Hk). cbn [v_fs v_dev fs_geo] in Hn, Hm, Hk. rewrite !C1.
           rewrite Hn in Ein. change (2 =? 2) with true in Ein. rewrite andb_true_r in Ein. apply Z.ltb_ge in Ein. specialize (F4 Hn).
           destruct (Z.eqb_spec (fatbase g + fsize g + k) ws) as [E|_]; [destruct Hnm; split; [done|lia]|].
           destruct (Z.eqb_spec (fatbase g + k) ws) as [E|_]; [|done]. rewrite u32_small in Ein by lia. lia.
      * intros t [_ Ht]. unfold vsec. cbn [v_fs v_dev fs_win winsect win]. rewrite C1. by destruct (t =? ws).
  - exists (mk_vol (mk_fs g (mk_window wf ws wb) al) d). split; [done|]. split; [done|]. split; [done|]. split; [done|].
    cbn [v_fs fs_win]. f_equal. unfold truth in Ewf. apply negb_false_iff, Z.eqb_eq in Ewf. done.
Qed.

Lemma read_one (d : D) s : bd_ready d -> 0 <= s < bd_size d ->
  exists d', bd_read s 1 d = Ok ((RES_OK, bd_sector d s), d') /\ bd_ready d' /\ bd_size d' = bd_size d /\ bd_sector d' = bd_sector d.
Proof.
  intros Hr Hs. destruct (bd_read_ok d s 1 Hr) as (data & d' & E & Hl & Hd & Hr' & Hz & Hc); [lia..|]. exists d'.
  specialize (Hd 0 ltac:(lia)). rewrite Z.add_0_r in Hd. change (Z.to_nat (512 * 0)) with 0%nat in Hd.
  rewrite drop_0, take_ge in Hd by lia. subst data. done.
Qed.

Lemma move_window_ok v s : vol_ok v -> reachable v s ->
  exists v', move_window s v = Ok (FR_OK, v') /\ vol_ok v' /\ same_view v v' /\ fs_alloc (v_fs v') = fs_alloc (v_fs v) /\
    winsect (v_win v') = s /\ win (v_win v') = vsec v s.
Proof.
  intros Hv [Hs Hnm]. unfold move_window. rewrite bind_wnd. destruct (Z.eqb_spec s (winsect (v_win v))) as [->|Hne]; cbn [negb].
  - exists v. split; [done|]. split; [done|]. split; [apply same_view_refl|]. split; [done|]. split; [done|]. unfold vsec. by rewrite Z.eqb_refl.
  - destruct (sync_window_ok v Hv) as (v1 & E1 & Hv1 & (G1 & Z1 & V1) & A1 & W1). rewrite (m_bind_Ok _ _ _ _ _ E1).
    change (fr_ok FR_OK) with true. cbv iota. pose proof Hv1 as [R1 O1 [L1 B1 S1 C1 _] M1].
    destruct (read_one (v_dev v1) s R1 ltac:(lia)) as (d2 & E2 & R2 & Z2 & C2). rewrite (bind_drive _ _ _ _ _ E2), bind_wnd.
    cbn [fst snd v_fs]. change (res_ok RES_OK) with true. cbv iota. rewrite bind_set_wnd, W1. cbn [v_fs v_dev wflag winsect win].
    assert (bd_sector (v_dev v1) s = vsec v s) as Es.
    { rewrite <- (V1 s (conj Hs Hnm)). unfold vsec. rewrite W1. cbn [winsect]. by rewrite (proj2 (Z.eqb_neq _ _) Hne). }
    destruct (bd_sector_ok (v_dev v1) s R1 ltac:(lia)) as [Ls Bs].
    eexists. split; [reflexivity|]. split; [|split; [split; [|split]|split; [|split]]]; cbn [v_fs v_dev fs_geo fs_win fs_alloc winsect win]; try done.
    + split; cbn [v_fs v_dev fs_geo fs_win]; [done|by rewrite Z2| |].
      * split; cbn [v_fs v_dev fs_geo fs_win winsect win wflag]; [done|done|lia| |done]. intros _. right. rewrite Z2, C2. split; [lia|done].
      * unfold mirrored. cbn [v_fs v_dev fs_geo]. rewrite C2. exact M1.
    + congruence.
    + intros t Ht. rewrite <- (V1 t Ht). unfold vsec. cbn [v_fs v_dev fs_win winsect win]. rewrite W1, C2. cbn [winsect win].
      destruct (Z.eqb_spec t s) as [->|_]; [by rewrite (proj2 (Z.eqb_neq _ _) Hne)|]. destruct (Z.eqb_spec t (winsect (v_win v))) as [->|_]; [|done].
      rewrite W1 in C1. cbn [wflag winsect win] in C1. destruct (C1 eq_refl) as [Hinv|[_ Hw]]; [|by rewrite Hw].
      destruct Ht as [Ht _]. pose proof (go_max _ _ (vo_geo v Hv)). lia.
Qed.

(** ** The table *)

Definition fat_byte (v : vol D) (k : Z) : Z :=
  if (0 <=? k) && (k <? 512 * fsize (v_geo v)) then get (vsec v (fatbase (v_geo v) + k / 512)) (k mod 512) else 0.

Definition entry (v : vol D) (c : Z) : Z := entry_of (fs_type (v_geo v)) (fat_byte v) c.

Definition in_table (g : geometry) (s : Z) : Prop := fatbase g <= s < fatbase g + fsize g.

Lemma fat_reachable v k : vol_ok v -> 0 <= k < 512 * fsize (v_geo v) -> reachable v (fatbase (v_geo v) + k / 512).
Proof.
  intros Hv Hk. pose proof (geo_fat _ _ (vo_geo v Hv)) as (F1 & F2 & F3 & F4 & F5). split; [dlia|]. intros [Hn Hm]. dlia.
Qed.

Lemma fat_byte_in v k : 0 <= k < 512 * fsize (v_geo v) -> fat_byte v k = get (vsec v (fatbase (v_geo v) + k / 512)) (k mod 512).
Proof. intros Hk. unfold fat_byte. rewrite (proj2 (Z.leb_le 0 k)), (proj2 (Z.ltb_lt _ _)) by lia. done. Qed.

Lemma fat_byte_bound v k : vol_ok v -> 0 <= fat_byte v k < 256.
Proof.
  intros Hv. unfold fat_byte. destruct (Z.leb_spec 0 k), (Z.ltb_spec k (512 * fsize (v_geo v))); cbn [andb]; try lia.
  apply get_byte. destruct (fat_reachable v k Hv) as [Hr _]; [lia|]. by apply vsec_ok.
Qed.

Lemma same_view_bytes v v' k : vol_ok v -> same_view v v' -> fat_byte v' k = fat_byte v k.
Proof.
  intros Hv (G & Z & V). unfold fat_byte. rewrite G. destruct (Z.leb_spec 0 k), (Z.ltb_spec k (512 * fsize (v_geo v))); cbn [andb]; try done.
  by rewrite V by (apply fat_reachable; [done|lia]).
Qed.

Lemma same_view_entry v v' c : vol_ok v -> same_view v v' -> entry v' c = entry v c.
Proof. intros Hv Hs. unfold entry. destruct (Hs) as (-> & _ & _). apply entry_ext. intros k _. by apply same_view_bytes. Qed.

(** The bytes of an entry lie inside the table. *)
Lemma entry_range g size c : geo_ok g size -> 2 <= c < n_fatent g ->
  0 <= entry_lo (fs_type g) c /\ entry_lo (fs_type g) c + entry_len (fs_type g) <= 512 * fsize g.
Proof.
  intros Hg Hc. pose proof (go_fits _ _ Hg) as Hf. unfold fat_bits in Hf. unfold entry_lo, entry_len.
  destruct (fs_type g =? FS_FAT12); [dlia|]. destruct (fs_type g =? FS_FAT16); lia.
Qed.

Lemma entry_bound v c : vol_ok v -> 0 <= entry v c <= fat_max (v_geo v).
Proof.
  intros Hv. unfold entry, entry_of, fat_max. pose proof (fat_byte_bound v (c + c / 2) Hv). pose proof (fat_byte_bound v (c + c / 2 + 1) Hv).
  pose proof (fat_byte_bound v (c * 2) Hv). pose proof (fat_byte_bound v (c * 2 + 1) Hv).
  destruct (_ =? FS_FAT12); [destruct (Z.odd c); dlia|]. destruct (_ =? FS_FAT16); [lia|].
  pose proof (Z.mod_pos_bound (fat_byte v (c * 4) + fat_byte v (c * 4 + 1) * 256 + fat_byte v (c * 4 + 2) * 65536 + fat_byte v (c * 4 + 3) * 16777216) 268435456). lia.
Qed.

(** Moving the window to the sector of byte [k] of the table. *)
Lemma move_fat v k : vol_ok v -> 0 <= k < 512 * fsize (v_geo v) ->
  exists v', move_window (u32 (fatbase (v_geo v) + k / 512)) v = Ok (FR_OK, v') /\ vol_ok v' /\ same_view v v' /\
    fs_alloc (v_fs v') = fs_alloc (v_fs v) /\ winsect (v_win v') = fatbase (v_geo v) + k / 512 /\
    (forall j, 512 * (k / 512) <= j < 512 * (k / 512) + 512 -> get (win (v_win v')) (j mod 512) = fat_byte v j).
Proof.
  intros Hv Hk. pose proof (fat_reachable v k Hv Hk) as Hr. pose proof (go_max _ _ (vo_geo v Hv)).
  pose proof (geo_fat _ _ (vo_geo v Hv)) as (F1 & _). rewrite u32_small by (destruct Hr as [Hr _]; dlia).
  destruct (move_window_ok v _ Hv Hr) as (v' & E & Hv' & Hs & Ha & Hw & Hb). exists v'. split; [done|]. split; [done|]. split; [done|].
  split; [done|]. split; [done|]. intros j Hj. rewrite fat_byte_in by dlia. rewrite Hb. do 3 f_equal. dlia.
Qed.

Lemma odd_land c : truth (Z.land c 1) = Z.odd c.
Proof. change 1 with (Z.ones 1). rewrite Z.land_ones by lia. change (2 ^ 1) with 2. rewrite Zmod_odd. by destruct (Z.odd c). Qed.

Lemma bind_win_get {B} f (k : Z -> M (vol D) B) v x : f (win (v_win v)) = Ok x -> ((win_get f : M (vol D) Z) ≫= k) v = k x v.
Proof. intros E. apply m_bind_Ok. unfold win_get. rewrite bind_wnd, E. done. Qed.

Lemma win_get_ok f v x : f (win (v_win v)) = Ok x -> (win_get f : M (vol D) Z) v = Ok (x, v).
Proof. intros E. unfold win_get. rewrite bind_wnd, E. done. Qed.

Lemma clst_range g size c : geo_ok g size -> 2 <= c < n_fatent g -> (c <? 2) || (n_fatent g <=? c) = false /\ (2 <=? c) && (c <? n_fatent g) = true /\ c < 268435448.
Proof.
  intros Hg Hc. pose proof (go_ents _ _ Hg) as He. unfold fat_max in He.
  rewrite (proj2 (Z.ltb_ge c 2)), (proj2 (Z.leb_gt _ c)), (proj2 (Z.leb_le 2 c)), (proj2 (Z.ltb_lt c _)) by lia.
  split; [done|]. split; [done|]. destruct (_ =? FS_FAT12); [|destruct (_ =? FS_FAT16)]; lia.
Qed.

Lemma table_sector g k : 0 <= k < 512 * fsize g -> in_table g (fatbase g + k / 512).
Proof. intros Hk. unfold in_table. dlia. Qed.

(** [get_fat] reads the entry and changes nothing but the window. *)
Lemma get_fat_ok v c : vol_ok v -> 2 <= c < n_fatent (v_geo v) ->
  exists v', get_fat c v = Ok (entry v c, v') /\ vol_ok v' /\ same_view v v' /\ fs_alloc (v_fs v') = fs_alloc (v_fs v) /\
    in_table (v_geo v) (winsect (v_win v')).
Proof.
  intros Hv Hc. pose proof (entry_range _ _ c (vo_geo v Hv) Hc) as Hr. destruct (clst_range _ _ c (vo_geo v Hv) Hc) as (B1 & _ & Hc32).
  unfold get_fat. rewrite bind_geo, B1. unfold entry, entry_of. unfold entry_lo, entry_len in Hr. pose proof (fat_byte_bound v) as HB.
  destruct (go_type _ _ (vo_geo v Hv)) as [E|[E|E]]; rewrite E in *; cbn [Z.eqb FS_FAT12 FS_FAT16 FS_FAT32 Pos.eqb] in *; unfold SS; cbv zeta.
  - rewrite (u32_small (c + c / 2)) by dlia. destruct (move_fat v (c + c / 2) Hv ltac:(lia)) as (v1 & E1 & Hv1 & S1 & A1 & W1 & G1).
    rewrite (m_bind_Ok _ _ _ _ _ E1). change (fr_ok FR_OK) with true. cbv iota.
    rewrite (bind_win_get _ _ v1 (fat_byte v (c + c / 2))) by (rewrite rd_in, G1; [done|dlia|rewrite (wo_len _ (vo_win _ Hv1)); dlia]).
    rewrite (u32_small (c + c / 2 + 1)) by dlia. destruct S1 as (Gv1 & Zv1 & Vv1). rewrite <- Gv1.
    destruct (move_fat v1 (c + c / 2 + 1) Hv1) as (v2 & E2 & Hv2 & S2 & A2 & W2 & G2); [rewrite Gv1; dlia|].
    rewrite (m_bind_Ok _ _ _ _ _ E2). change (fr_ok FR_OK) with true. cbv iota.
    assert (same_view v v1) as S1 by done.
    rewrite (bind_win_get _ _ v2 (fat_byte v (c + c / 2 + 1)))
      by (rewrite rd_in, G2; [by rewrite (same_view_bytes v v1) | dlia | rewrite (wo_len _ (vo_win _ Hv2)); dlia]).
    exists v2. split; [|split; [done|split; [by eapply same_view_trans|split; [congruence|rewrite W2, Gv1; apply table_sector; lia]]]].
    rewrite (lor_disjoint_add _ _ 8 ltac:(lia) (HB _ Hv)). change (2 ^ 8) with 256. rewrite odd_land.
    change 4095 with (Z.ones 12). rewrite Z.land_ones by lia. change (2 ^ 12) with 4096. rewrite Z.shiftr_div_pow2 by lia. change (2 ^ 4) with 16.
    by destruct (Z.odd c).
  - change (512 / 2) with 256. replace (c / 256) with (c * 2 / 512) by dlia. rewrite (u32_small (c * 2)) by lia.
    destruct (move_fat v (c * 2) Hv ltac:(lia)) as (v1 & E1 & Hv1 & S1 & A1 & W1 & G1). rewrite (m_bind_Ok _ _ _ _ _ E1).
    change (fr_ok FR_OK) with true. cbv iota. exists v1. split; [|split; [done|split; [done|split; [done|rewrite W1; apply table_sector; lia]]]]. apply win_get_ok.
    destruct (vo_win _ Hv1) as [L1 Y1 _ _ _]. rewrite ld_word_ok by (done || dlia). unfold le16. f_equal.
    rewrite <- (G1 (c * 2)), <- (G1 (c * 2 + 1)) by dlia. repeat f_equal. dlia.
  - change (512 / 4) with 128. replace (c / 128) with (c * 4 / 512) by dlia. rewrite (u32_small (c * 4)) by lia.
    destruct (move_fat v (c * 4) Hv ltac:(lia)) as (v1 & E1 & Hv1 & S1 & A1 & W1 & G1). rewrite (m_bind_Ok _ _ _ _ _ E1).
    change (fr_ok FR_OK) with true. cbv iota. exists v1. split; [|split; [done|split; [done|split; [done|rewrite W1; apply table_sector; lia]]]].
    destruct (vo_win _ Hv1) as [L1 Y1 _ _ _]. rewrite (bind_win_get _ _ v1 (le32 (win (v_win v1)) (c * 4 mod 512))) by (apply ld_dword_ok; [done|dlia..]).
    change 268435455 with (Z.ones 28). rewrite Z.land_ones by lia. change (2 ^ 28) with 268435456. unfold mret, M_ret. do 2 f_equal. f_equal. unfold le32.
    rewrite <- (G1 (c * 4)), <- (G1 (c * 4 + 1)), <- (G1 (c * 4 + 2)), <- (G1 (c * 4 + 3)) by dlia. repeat f_equal; dlia.
Qed.

(** What a change of the table leaves alone. *)
Definition table_step (v v' : vol D) : Prop :=
  v_geo v' = v_geo v /\ bd_size (v_dev v') = bd_size (v_dev v) /\ fs_alloc (v_fs v') = fs_alloc (v_fs v) /\
  in_table (v_geo v) (winsect (v_win v')) /\
  forall s, reachable v s -> ~ in_table (v_geo v) s -> vsec v' s = vsec v s.

Lemma view_table_step v v' k : same_view v v' -> fs_alloc (v_fs v') = fs_alloc (v_fs v) ->
  0 <= k < 512 * fsize (v_geo v) -> winsect (v_win v') = fatbase (v_geo v) + k / 512 -> table_step v v'.
Proof. intros (G & Z & V) A Hk W. split; [done|]. split; [done|]. split; [done|]. split; [|auto]. rewrite W. by apply table_sector. Qed.

Lemma table_step_trans v1 v2 v3 : table_step v1 v2 -> table_step v2 v3 -> table_step v1 v3.
Proof.
  intros (G1 & Z1 & A1 & _ & V1) (G2 & Z2 & A2 & W2 & V2). rewrite G1 in W2. split; [congruence|]. split; [congruence|]. split; [congruence|]. split; [done|]. intros s Hs Hn.
  rewrite V2, V1; [done..| |by rewrite G1]. unfold reachable. by rewrite G1, Z1.
Qed.

Lemma bind_win_put {B} f (k : unit -> M (vol D) B) v b : f (win (v_win v)) = Ok b ->
  ((win_put f : M (vol D) unit) ≫= k) v = k tt (mk_vol (mk_fs (v_geo v) (mk_window 1 (winsect (v_win v)) b) (fs_alloc (v_fs v))) (v_dev v)).
Proof. intros E. apply m_bind_Ok. unfold win_put. rewrite bind_wnd, E. done. Qed.

(** Changing the window while it shows a sector of the table; [F] is the
    table afterwards. *)
Lemma poke_fat v b q (F : Z -> Z) : vol_ok v -> 0 <= q < fsize (v_geo v) -> winsect (v_win v) = fatbase (v_geo v) + q ->
  length b = 512%nat -> Forall is_byte b -> (forall j, 0 <= j < 512 -> get b j = F (512 * q + j)) ->
  (forall k, 0 <= k < 512 * fsize (v_geo v) -> k / 512 <> q -> F k = fat_byte v k) ->
  let v' := mk_vol (mk_fs (v_geo v) (mk_window 1 (winsect (v_win v)) b) (fs_alloc (v_fs v))) (v_dev v) in
  vol_ok v' /\ table_step v v' /\ winsect (v_win v') = winsect (v_win v) /\ win (v_win v') = b /\
  (forall k, 0 <= k < 512 * fsize (v_geo v) -> fat_byte v' k = F k).
Proof.
  intros Hv Hq Hw Hl Hb HF HF' v'. pose proof (fat_reachable v (512 * q) Hv ltac:(lia)) as [Hr1 Hr2].
  replace (512 * q / 512) with q in Hr1, Hr2 by dlia. rewrite <- Hw in Hr1, Hr2. destruct Hv as [Hrd Hg [_ _ Hs _ _] Hm].
  split; [|split; [|split; [done|split; [done|]]]].
  - split; [done|done| |done]. split; cbn [v_fs v_dev v' fs_win fs_geo win winsect wflag]; try done. intros _. split; [lia|done].
  - split; [done|]. split; [done|]. split; [done|]. split; [cbn [v_fs v' fs_win winsect]; rewrite Hw; unfold in_table; lia|].
    intros t _ Ht. unfold vsec. cbn [v_fs v_dev v' fs_win win winsect].
    destruct (Z.eqb_spec t (winsect (v_win v))) as [->|_]; [|done]. destruct Ht. unfold in_table. rewrite Hw. lia.
  - intros k Hk. rewrite fat_byte_in by done. cbn [v_fs v_dev v' fs_win fs_geo]. unfold vsec. cbn [v_fs v_dev v' fs_win win winsect]. rewrite Hw.
    destruct (Z.eqb_spec (fatbase (v_geo v) + k / 512) (fatbase (v_geo v) + q)) as [E|N].
    + rewrite HF by dlia. f_equal. dlia.
    + rewrite HF' by lia. rewrite fat_byte_in by done. unfold vsec. rewrite Hw. by rewrite (proj2 (Z.eqb_neq _ _) N).
Qed.

(** One byte of the table. *)
Lemma poke_byte v k x : vol_ok v -> 0 <= k < 512 * fsize (v_geo v) -> winsect (v_win v) = fatbase (v_geo v) + k / 512 -> is_byte x ->
  let v' := mk_vol (mk_fs (v_geo v) (mk_window 1 (winsect (v_win v)) (<[Z.to_nat (k mod 512) := x]> (win (v_win v)))) (fs_alloc (v_fs v))) (v_dev v) in
  vol_ok v' /\ table_step v v' /\ (forall j, 0 <= j < 512 * fsize (v_geo v) -> fat_byte v' j = upd (fat_byte v) k x j).
Proof.
  intros Hv Hk Hw Hx v'. destruct (vo_win v Hv) as [Hl Hb _ _ _].
  destruct (poke_fat v (<[Z.to_nat (k mod 512) := x]> (win (v_win v))) (k / 512) (upd (fat_byte v) k x) Hv) as (V & T & _ & _ & B); [dlia|done|..|done].
  - by rewrite length_insert.
  - by apply Forall_insert.
  - intros j Hj. unfold upd. destruct (Z.eqb_spec (512 * (k / 512) + j) k) as [E|N].
    + replace j with (k mod 512) by dlia. rewrite get_insert_eq by dlia. done.
    + rewrite get_insert_ne by dlia. rewrite fat_byte_in by dlia. unfold vsec. replace ((512 * (k / 512) + j) / 512) with (k / 512) by dlia.
      rewrite Hw, Z.eqb_refl. f_equal. dlia.
  - intros j Hj Hn. unfold upd. destruct (Z.eqb_spec j k) as [->|_]; [done|done].
Qed.

(** The two bytes [put_fat] stores on FAT12. *)
Definition put12_lo (c p val : Z) : Z := u8 (if truth (Z.land c 1) then Z.lor (Z.land p 15) (Z.shiftl (u8 val) 4) else u8 val).
Definition put12_hi (c p val : Z) : Z :=
  u8 (if truth (Z.land c 1) then u8 (Z.shiftr val 4) else Z.lor (Z.land p 240) (Z.land (u8 (Z.shiftr val 8)) 15)).

Lemma put12_lo_eq c p val : 0 <= p < 256 -> put12_lo c p val = if Z.odd c then p mod 16 + 16 * (val mod 16) else val mod 256.
Proof.
  intros Hp. unfold put12_lo. rewrite odd_land. destruct (Z.odd c).
  - change 15 with (Z.ones 4). rewrite Z.land_ones by lia. change (2 ^ 4) with 16. rewrite (lor_disjoint_add _ _ 4) by (change (2 ^ 4) with 16; dlia).
    change (2 ^ 4) with 16. unfold u8, wrap. change (2 ^ 8) with 256. dlia.
  - unfold u8, wrap. change (2 ^ 8) with 256. dlia.
Qed.

Lemma put12_hi_eq c p val : 0 <= p < 256 -> put12_hi c p val = if Z.odd c then val / 16 mod 256 else p / 16 * 16 + val / 256 mod 16.
Proof.
  intros Hp. unfold put12_hi. rewrite odd_land. rewrite !Z.shiftr_div_pow2 by lia. change (2 ^ 4) with 16. change (2 ^ 8) with 256. destruct (Z.odd c).
  - unfold u8, wrap. change (2 ^ 8) with 256. dlia.
  - pose proof (land_clear_low p 4 8 ltac:(lia) Hp) as E. change (2 ^ 8 - 2 ^ 4) with 240 in E. change (2 ^ 4) with 16 in E. rewrite E.
    change 15 with (Z.ones 4). rewrite Z.land_ones by lia. change (2 ^ 4) with 16. rewrite Z.lor_comm.
    replace (16 * (p / 16)) with (Z.shiftl (p / 16) 4) by (rewrite Z.shiftl_mul_pow2 by lia; lia).
    rewrite (lor_disjoint_add _ _ 4) by (change (2 ^ 4) with 16; dlia). change (2 ^ 4) with 16. unfold u8, wrap. change (2 ^ 8) with 256. dlia.
Qed.

Definition wrote (c val : Z) (v v' : vol D) : Prop :=
  vol_ok v' /\ table_step v v' /\ forall k, 0 <= k < 512 * fsize (v_geo v) -> fat_byte v' k = put_of (fs_type (v_geo v)) (fat_byte v) c val k.

Lemma put_fat12 v c val : vol_ok v -> 2 <= c < n_fatent (v_geo v) -> fs_type (v_geo v) = FS_FAT12 ->
  exists v', put_fat c val v = Ok (FR_OK, v') /\ wrote c val v v'.
Proof.
  intros Hv Hc Ht. pose proof (entry_range _ _ c (vo_geo v Hv) Hc) as Hr. destruct (clst_range _ _ c (vo_geo v Hv) Hc) as (_ & B1 & Hc32).
  unfold put_fat, wrote. rewrite bind_geo, B1. rewrite Ht in Hr |- *. unfold entry_lo, entry_len in Hr. unfold put_of.
  change (FS_FAT12 =? FS_FAT12) with true in *. cbv beta iota zeta in *. unfold SS.
  assert (c + c / 2 < 4000000000) as Hbc by dlia. rewrite (u32_small (c + c / 2)) by lia. set (bc := c + c / 2) in *. rewrite (u32_small (bc + 1)) by lia.
  destruct (move_fat v bc Hv ltac:(lia)) as (v1 & E1 & Hv1 & S1 & A1 & W1 & G1). rewrite (m_bind_Ok _ _ _ _ _ E1).
  change (fr_ok FR_OK) with true. cbv iota. pose proof S1 as (Gv1 & Zv1 & _).
  destruct (vo_win _ Hv1) as [L1 _ _ _ _]. pose proof (fat_byte_bound v bc Hv) as Hp0.
  rewrite (bind_win_put _ _ v1 (<[Z.to_nat (bc mod 512) := put12_lo c (fat_byte v bc) val]> (win (v_win v1))))
    by (rewrite rd_in by dlia; rewrite G1 by dlia; rewrite bind_Ok; apply wr_in; dlia).
  destruct (poke_byte v1 bc (put12_lo c (fat_byte v bc) val) Hv1) as (Hv2 & T2 & B2); [rewrite Gv1; lia|by rewrite Gv1|apply u8_bound|].
  set (v2 := mk_vol (mk_fs (v_geo v1) _ _) _) in *. assert (v_geo v2 = v_geo v) as Gv2 by done. rewrite <- Gv2.
  destruct (move_fat v2 (bc + 1) Hv2) as (v3 & E3 & Hv3 & S3 & A3 & W3 & G3); [rewrite Gv2; lia|]. rewrite (m_bind_Ok _ _ _ _ _ E3).
  change (fr_ok FR_OK) with true. cbv iota. pose proof S3 as (Gv3 & Zv3 & _). destruct (vo_win _ Hv3) as [L3 _ _ _ _].
  assert (fat_byte v2 (bc + 1) = fat_byte v (bc + 1)) as Hp1.
  { rewrite B2 by (rewrite Gv1; lia). rewrite upd_ne by lia. by apply same_view_bytes. }
  rewrite (bind_win_put _ _ v3 (<[Z.to_nat ((bc + 1) mod 512) := put12_hi c (fat_byte v (bc + 1)) val]> (win (v_win v3))))
    by (rewrite rd_in by dlia; rewrite G3 by dlia; rewrite Hp1, bind_Ok; apply wr_in; dlia).
  destruct (poke_byte v3 (bc + 1) (put12_hi c (fat_byte v (bc + 1)) val) Hv3) as (Hv4 & T4 & B4); [rewrite Gv3, Gv2; lia|by rewrite Gv3|apply u8_bound|].
  eexists. split; [reflexivity|]. split; [exact Hv4|]. split.
  { eapply table_step_trans; [apply (view_table_step v v1 bc); (done || lia)|]. eapply table_step_trans; [exact T2|].
    eapply table_step_trans; [apply (view_table_step v2 v3 (bc + 1)); (done || (rewrite Gv2; lia))|]. exact T4. }
  pose proof (fat_byte_bound v (bc + 1) Hv). intros k Hk. rewrite Gv2 in Hk. rewrite B4 by (rewrite Gv3, Gv2; lia). rewrite put12_hi_eq by done. unfold upd.
  rewrite (same_view_bytes v2 v3) by done. rewrite B2 by (rewrite Gv1; lia). unfold upd.
  rewrite put12_lo_eq by done. destruct (Z.odd c), (k =? bc + 1), (k =? bc); try done; by apply same_view_bytes.
Qed.

Lemma win_bytes b' (F : Z -> Z) q : length b' = 512%nat -> (forall j, 0 <= j < 512 -> get b' j = F (512 * q + j)) ->
  (forall k, 0 <= F k < 256) -> Forall is_byte b'.
Proof.
  intros Hl HF Hb. apply Forall_forall. intros x Hx. apply list_elem_of_lookup in Hx as (n & Hn).
  pose proof (lookup_lt_Some _ _ _ Hn). specialize (HF (Z.of_nat n) ltac:(lia)). unfold get in HF. rewrite Nat2Z.id, (nth_lookup_Some _ _ _ _ Hn) in HF.
  unfold is_byte. rewrite HF. apply Hb.
Qed.

(** Positions in the window and in the table. *)
Lemma sect_eqb k d j : 0 <= j < 512 -> 0 <= d -> k mod 512 + d < 512 -> (512 * (k / 512) + j =? k + d) = (j =? k mod 512 + d).
Proof. intros Hj Hd Hk. destruct (Z.eqb_spec (512 * (k / 512) + j) (k + d)), (Z.eqb_spec j (k mod 512 + d)); dlia. Qed.
Lemma sect_eqb0 k j : 0 <= j < 512 -> (512 * (k / 512) + j =? k) = (j =? k mod 512).
Proof. intros Hj. destruct (Z.eqb_spec (512 * (k / 512) + j) k), (Z.eqb_spec j (k mod 512)); dlia. Qed.

(** The value [put_fat] stores on FAT32 keeps the upper four bits. *)
Lemma put32_val val old : 0 <= val < 4294967296 -> 0 <= old < 4294967296 ->
  Z.lor (Z.land val 268435455) (Z.land old 4026531840) = val mod 268435456 + old / 268435456 * 268435456.
Proof.
  intros Hv Ho. pose proof (land_clear_low old 28 32 ltac:(lia) Ho) as E. change (2 ^ 32 - 2 ^ 28) with 4026531840 in E.
  change (2 ^ 28) with 268435456 in E. rewrite E. change 268435455 with (Z.ones 28). rewrite Z.land_ones by lia. change (2 ^ 28) with 268435456.
  replace (268435456 * (old / 268435456)) with (Z.shiftl (old / 268435456) 28) by (rewrite Z.shiftl_mul_pow2 by lia; lia).
  rewrite (lor_disjoint_add _ _ 28) by (change (2 ^ 28) with 268435456; dlia). done.
Qed.

Lemma put_fat16 v c val : vol_ok v -> 2 <= c < n_fatent (v_geo v) -> fs_type (v_geo v) = FS_FAT16 -> 0 <= val < 4294967296 ->
  exists v', put_fat c val v = Ok (FR_OK, v') /\ wrote c val v v'.
Proof.
  intros Hv Hc Ht Hval. pose proof (entry_range _ _ c (vo_geo v Hv) Hc) as Hr. destruct (clst_range _ _ c (vo_geo v Hv) Hc) as (_ & B1 & Hc32).
  unfold put_fat, wrote. rewrite bind_geo, B1. rewrite Ht in Hr |- *. unfold entry_lo, entry_len in Hr. unfold put_of.
  change (FS_FAT16 =? FS_FAT12) with false in *. change (FS_FAT16 =? FS_FAT16) with true in *. cbv beta iota zeta in *. unfold SS.
  change (512 / 2) with 256. replace (c / 256) with (c * 2 / 512) by dlia. rewrite (u32_small (c * 2)) by lia.
  destruct (move_fat v (c * 2) Hv ltac:(lia)) as (v1 & E1 & Hv1 & S1 & A1 & W1 & G1). rewrite (m_bind_Ok _ _ _ _ _ E1).
  change (fr_ok FR_OK) with true. cbv iota. pose proof S1 as (Gv1 & Zv1 & _). destruct (vo_win _ Hv1) as [L1 Y1 _ _ _].
  destruct (st_word_ok (win (v_win v1)) (c * 2 mod 512) (u16 val)) as (b & Eb & Lb & Gb); [dlia|dlia|apply u16_bound|].
  rewrite (bind_win_put _ _ v1 b Eb). set (F := upd (upd (fat_byte v) (c * 2) (val mod 256)) (c * 2 + 1) (val / 256 mod 256)).
  assert (u16 val mod 256 = val mod 256 /\ u16 val / 256 mod 256 = val / 256 mod 256) as [Ev1 Ev2].
  { unfold u16, wrap. change (2 ^ 16) with 65536. split; dlia. }
  assert (forall j, 0 <= j < 512 -> get b j = F (512 * (c * 2 / 512) + j)) as HF.
  { intros j Hj. rewrite Gb by lia. rewrite Ev1, Ev2. unfold F, upd.
    rewrite (sect_eqb (c * 2) 1), sect_eqb0 by dlia.
    destruct (_ =? _); [done|]. destruct (_ =? _); [done|]. rewrite <- G1 by lia. f_equal. dlia. }
  destruct (poke_fat v1 b (c * 2 / 512) F Hv1) as (Hv2 & T2 & _ & _ & B2); [rewrite Gv1; dlia|by rewrite Gv1|by rewrite Lb| |done| |].
  - apply (win_bytes b F (c * 2 / 512)); [by rewrite Lb|done|]. intros k. unfold F, upd. pose proof (fat_byte_bound v k Hv). destruct (_ =? _); [dlia|]. destruct (_ =? _); [dlia|done].
  - intros k Hk Hn. unfold F. rewrite !upd_ne by dlia. symmetry. by apply same_view_bytes.
  - eexists. split; [reflexivity|]. split; [exact Hv2|]. split; [eapply table_step_trans; [apply (view_table_step v v1 (c * 2)); (done || lia)|exact T2]|].
    intros k Hk. apply B2. by rewrite Gv1.
Qed.

Lemma put_fat32 v c val : vol_ok v -> 2 <= c < n_fatent (v_geo v) -> fs_type (v_geo v) = FS_FAT32 -> 0 <= val < 4294967296 ->
  exists v', put_fat c val v = Ok (FR_OK, v') /\ wrote c val v v'.
Proof.
  intros Hv Hc Ht Hval. pose proof (entry_range _ _ c (vo_geo v Hv) Hc) as Hr. destruct (clst_range _ _ c (vo_geo v Hv) Hc) as (_ & B1 & Hc32).
  unfold put_fat, wrote. rewrite bind_geo, B1. rewrite Ht in Hr |- *. unfold entry_lo, entry_len in Hr. unfold put_of.
  change (FS_FAT32 =? FS_FAT12) with false in *. change (FS_FAT32 =? FS_FAT16) with false in *. change (FS_FAT32 =? FS_FAT32) with true in *.
  cbv beta iota zeta in *. unfold SS. change (512 / 4) with 128. replace (c / 128) with (c * 4 / 512) by dlia. rewrite (u32_small (c * 4)) by lia.
  destruct (move_fat v (c * 4) Hv ltac:(lia)) as (v1 & E1 & Hv1 & S1 & A1 & W1 & G1). rewrite (m_bind_Ok _ _ _ _ _ E1).
  change (fr_ok FR_OK) with true. cbv iota. pose proof S1 as (Gv1 & Zv1 & _). destruct (vo_win _ Hv1) as [L1 Y1 _ _ _].
  set (old := le32 (win (v_win v1)) (c * 4 mod 512)). assert (0 <= old < 4294967296) as Hold by (by apply le32_bound).
  set (val' := Z.lor (Z.land val 268435455) (Z.land old 4026531840)). pose proof (put32_val val old Hval Hold) as Ev. fold val' in Ev.
  assert (old / 16777216 = fat_byte v (c * 4 + 3)) as Eo.
  { unfold old, le32. rewrite <- (G1 (c * 4 + 3)) by dlia. replace ((c * 4 + 3) mod 512) with (c * 4 mod 512 + 3) by dlia.
    pose proof (get_byte _ (c * 4 mod 512) Y1). pose proof (get_byte _ (c * 4 mod 512 + 1) Y1). pose proof (get_byte _ (c * 4 mod 512 + 2) Y1). dlia. }
  destruct (st_dword_ok (win (v_win v1)) (c * 4 mod 512) val') as (b & Eb & Lb & Gb); [dlia|dlia|dlia|].
  rewrite (bind_win_put _ _ v1 b) by (rewrite ld_dword_ok by (done || dlia); rewrite bind_Ok; exact Eb).
  set (F := upd (upd (upd (upd (fat_byte v) (c * 4) (val mod 256)) (c * 4 + 1) (val / 256 mod 256)) (c * 4 + 2) (val / 65536 mod 256))
      (c * 4 + 3) (fat_byte v (c * 4 + 3) / 16 * 16 + val / 16777216 mod 16)).
  assert (val' mod 256 = val mod 256 /\ val' / 256 mod 256 = val / 256 mod 256 /\ val' / 65536 mod 256 = val / 65536 mod 256 /\
    val' / 16777216 mod 256 = fat_byte v (c * 4 + 3) / 16 * 16 + val / 16777216 mod 16) as (V1 & V2 & V3 & V4).
  { rewrite Ev, <- Eo. clearbody old. repeat split; dlia. }
  assert (forall j, 0 <= j < 512 -> get b j = F (512 * (c * 4 / 512) + j)) as HF.
  { intros j Hj. rewrite Gb by lia. rewrite V1, V2, V3, V4. unfold F, upd.
    rewrite (sect_eqb (c * 4) 3), (sect_eqb (c * 4) 2), (sect_eqb (c * 4) 1), sect_eqb0 by dlia.
    repeat (destruct (_ =? _); [done|]). rewrite <- G1 by lia. f_equal. dlia. }
  destruct (poke_fat v1 b (c * 4 / 512) F Hv1) as (Hv2 & T2 & _ & _ & B2); [rewrite Gv1; dlia|by rewrite Gv1|by rewrite Lb| |done| |].
  - apply (win_bytes b F (c * 4 / 512)); [by rewrite Lb|done|]. intros k. unfold F, upd. pose proof (fat_byte_bound v k Hv).
    pose proof (fat_byte_bound v (c * 4 + 3) Hv). repeat (destruct (_ =? _); [dlia|]). done.
  - intros k Hk Hn. unfold F. rewrite !upd_ne by dlia. symmetry. by apply same_view_bytes.
  - eexists. split; [reflexivity|]. split; [exact Hv2|]. split; [eapply table_step_trans; [apply (view_table_step v v1 (c * 4)); (done || lia)|exact T2]|].
    intros k Hk. apply B2. by rewrite Gv1.
Qed.

(** [put_fat] changes one entry. *)
Lemma put_fat_ok v c val : vol_ok v -> 2 <= c < n_fatent (v_geo v) -> 0 <= val < 4294967296 ->
  exists v', put_fat c val v = Ok (FR_OK, v') /\ vol_ok v' /\ table_step v v' /\
    forall c', 2 <= c' < n_fatent (v_geo v) -> entry v' c' = if c' =? c then fat_mask (fs_type (v_geo v)) val else entry v c'.
Proof.
  intros Hv Hc Hval. assert (exists v', put_fat c val v = Ok (FR_OK, v') /\ wrote c val v v') as (v' & E & Hv' & T & B).
  { destruct (go_type _ _ (vo_geo v Hv)) as [Ht|[Ht|Ht]]; [by apply put_fat12|by apply put_fat16|by apply put_fat32]. }
  exists v'. split; [done|]. split; [done|]. split; [done|]. intros c' Hc'. destruct T as (G & _). unfold entry. rewrite G.
  rewrite <- (entry_put (fs_type (v_geo v)) (fat_byte v) c c' val) by (lia || intros; by apply fat_byte_bound).
  apply entry_ext. intros k Hk. pose proof (entry_range _ _ c' (vo_geo v Hv) Hc') as Hr. apply B. lia.
Qed.

(** ** Writing everything back *)

(** The five stores of the FSInfo sector. *)
Lemma fsinfo_ok fc lc : 0 <= fc < 4294967296 -> 0 <= lc < 4294967296 ->
  exists b, (b ← st_dword (replicate 512 0) 0 1096897106; b ← st_dword b 484 1631679090; b ← st_dword b 488 fc;
             b ← st_dword b 492 lc; st_dword b 498 2857697280) = Ok b /\ length b = 512%nat /\ Forall is_byte b.
Proof.
  intros Hf Hl. assert (forall b i val, length b = 512%nat /\ Forall is_byte b -> 0 <= i -> i + 4 <= 512 -> 0 <= val ->
    exists b', st_dword b i val = Ok b' /\ length b' = 512%nat /\ Forall is_byte b') as St.
  { intros b i val [Lb Bb] Hi Hi4 Hval. destruct (st_dword_ok b i val) as (b' & E & L & G); [lia|lia|lia|]. exists b'. split; [done|].
    split; [lia|]. apply (Forall_nth is_byte 0). intros k Hk. replace k with (Z.to_nat (Z.of_nat k)) by lia. fold (get b' (Z.of_nat k)).
    rewrite G by lia. unfold upd, is_byte. repeat (destruct (_ =? _); [dlia|]). by apply get_byte. }
  destruct (St (replicate 512 0) 0 1096897106) as (b1 & E1 & B1); [split; [apply length_replicate|apply Forall_replicate; unfold is_byte; lia]|lia..|].
  destruct (St b1 484 1631679090) as (b2 & E2 & B2); [done|lia..|]. destruct (St b2 488 fc) as (b3 & E3 & B3); [done|lia..|].
  destruct (St b3 492 lc) as (b4 & E4 & B4); [done|lia..|]. destruct (St b4 498 2857697280) as (b5 & E5 & B5); [done|lia..|].
  exists b5. rewrite E1, bind_Ok, E2, bind_Ok, E3, bind_Ok, E4, bind_Ok. done.
Qed.

(** The allocation information fits its fields. *)
Definition alloc_fits (v : vol D) : Prop :=
  0 <= free_clst (fs_alloc (v_fs v)) < 4294967296 /\ 0 <= last_clst (fs_alloc (v_fs v)) < 4294967296.

(** The FSInfo sector, which [sync_fs] rewrites when the count of free
    clusters of a FAT32 volume changed. *)
Definition info_sector (v : vol D) (s : Z) : Prop :=
  fs_type (v_geo v) = FS_FAT32 /\ fsi_flag (fs_alloc (v_fs v)) = 1 /\ s = volbase (v_geo v) + 1.

(** Replacing a clean window by a sector that is on the drive. *)
Lemma clean_window v s b d : vol_ok v -> truth (wflag (v_win v)) = false -> 0 <= s < bd_size (v_dev v) -> ~ in_table (v_geo v) s -> ~ mirror (v_geo v) s ->
  length b = 512%nat -> Forall is_byte b -> bd_ready d -> bd_size d = bd_size (v_dev v) ->
  (forall t, bd_sector d t = if t =? s then b else bd_sector (v_dev v) t) ->
  forall a, vol_ok (mk_vol (mk_fs (v_geo v) (mk_window (wflag (v_win v)) s b) a) d).
Proof.
  intros [_ G _ M] Hw Hs Ht Hm Lb Bb R Zd C a. split; cbn [v_fs v_dev fs_geo fs_win]; [done|by rewrite Zd| |].
  - split; cbn [v_fs v_dev fs_geo fs_win wflag winsect win]; [done|done|lia| |by rewrite Hw].
    intros _. right. rewrite C, Zd, Z.eqb_refl. split; [lia|done].
  - intros Hn k Hk. cbn [v_fs v_dev fs_geo] in *. rewrite !C, (M Hn k Hk).
    destruct (Z.eqb_spec (fatbase (v_geo v) + fsize (v_geo v) + k) s) as [<-|_]; [destruct Hm; split; [done|lia]|].
    destruct (Z.eqb_spec (fatbase (v_geo v) + k) s) as [<-|_]; [destruct Ht; unfold in_table; lia|done].
Qed.

Lemma clean_on_drive v s : vol_ok v -> truth (wflag (v_win v)) = false -> 0 <= s < bd_size (v_dev v) -> bd_sector (v_dev v) s = vsec v s.
Proof.
  intros Hv Hw Hs. unfold vsec. destruct (Z.eqb_spec s (winsect (v_win v))) as [->|_]; [|done].
  destruct (wo_clean _ (vo_win v Hv) Hw) as [E|[_ E]]; [|done]. pose proof (go_max _ _ (vo_geo v Hv)). lia.
Qed.

(** A drive with the same content. *)
Lemma same_drive v a d : vol_ok v -> bd_ready d -> bd_size d = bd_size (v_dev v) -> bd_sector d = bd_sector (v_dev v) ->
  vol_ok (mk_vol (mk_fs (v_geo v) (v_win v) a) d).
Proof.
  intros [_ G [L B S C Di] M] R Zd Cd. split; cbn [v_fs v_dev fs_geo fs_win]; [done|by rewrite Zd| |].
  - split; cbn [v_fs v_dev fs_geo fs_win]; rewrite ?Zd, ?Cd; done.
  - unfold mirrored. cbn [v_fs v_dev fs_geo]. by rewrite Cd.
Qed.

Lemma sync_fs_ok v : vol_ok v -> alloc_fits v ->
  exists v', sync_fs v = Ok (FR_OK, v') /\ vol_ok v' /\ v_geo v' = v_geo v /\ bd_size (v_dev v') = bd_size (v_dev v) /\
    last_clst (fs_alloc (v_fs v')) = last_clst (fs_alloc (v_fs v)) /\ free_clst (fs_alloc (v_fs v')) = free_clst (fs_alloc (v_fs v)) /\
    truth (wflag (v_win v')) = false /\ (winsect (v_win v') = winsect (v_win v) \/ winsect (v_win v') = volbase (v_geo v) + 1) /\
    forall s, reachable v s -> ~ info_sector v s -> vsec v' s = vsec v s.
Proof.
  intros Hv [Hf Hl]. destruct (sync_window_ok v Hv) as (v1 & E1 & Hv1 & (G1 & Z1 & V1) & A1 & W1). unfold sync_fs. rewrite (m_bind_Ok _ _ _ _ _ E1).
  change (fr_ok FR_OK) with true. cbv iota. rewrite bind_alc, bind_geo, A1.
  assert (truth (wflag (v_win v1)) = false) as F1 by (by rewrite W1).
  destruct (Z.eqb_spec (fsi_flag (fs_alloc (v_fs v))) 1) as [Ei|Ei]; cbn [when]; [destruct (Z.eqb_spec (fs_type (v_geo v1)) FS_FAT32) as [Et|Et]; cbn [when]|].
  - destruct (fsinfo_ok (free_clst (fs_alloc (v_fs v))) (last_clst (fs_alloc (v_fs v))) Hf Hl) as (b & Eb & Lb & Bb).
    pose proof (geo_fat _ _ (vo_geo v1 Hv1)) as (K1 & K2 & K3 & K4 & K5). pose proof (go_max _ _ (vo_geo v1 Hv1)). pose proof (go_vol _ _ (vo_geo v1 Hv1)).
    pose proof (go_info _ _ (vo_geo v1 Hv1) Et). rewrite (u32_small (volbase (v_geo v1) + 1)) by lia.
    destruct (write_one (v_dev v1) b (volbase (v_geo v1) + 1) (vo_ready v1 Hv1)) as (d2 & E2 & R2 & Z2 & C2); [lia|done|done|].
    destruct (bd_sync_ok d2 R2) as (d3 & E3 & R3 & Z3 & C3).
    eexists. split.
    { erewrite (m_bind_Ok (set_alc _ ≫= _)); [|rewrite bind_set_alc, bind_wnd; cbn [v_fs fs_win fs_geo v_dev fs_alloc];
        erewrite (m_bind_Ok (lift _)); [|by rewrite Eb]; rewrite bind_set_wnd; cbn [v_fs fs_win fs_geo v_dev fs_alloc];
        rewrite (bind_drive _ _ (mk_vol _ (v_dev v1)) _ _ E2); reflexivity].
      rewrite (bind_drive _ _ (mk_vol _ d2) _ _ E3). reflexivity. }
    assert (forall t, bd_sector d3 t = if t =? volbase (v_geo v1) + 1 then b else bd_sector (v_dev v1) t) as C by (intros t; by rewrite C3, C2).
    split; [apply (clean_window v1); [exact Hv1|exact F1|lia|unfold in_table; lia|unfold mirror; lia|exact Lb|exact Bb|exact R3|congruence|exact C]|].
    cbn [v_fs v_dev fs_geo fs_win fs_alloc free_clst last_clst wflag]. split; [done|]. split; [congruence|]. split; [done|]. split; [done|]. split; [done|].
    split; [right; cbn [winsect]; by rewrite G1|]. intros s Hs Hn. rewrite <- (V1 s Hs), <- (clean_on_drive v1 s Hv1 F1) by (rewrite Z1; apply Hs). unfold vsec. cbn [v_fs v_dev fs_win winsect win].
    assert (s <> volbase (v_geo v1) + 1) as Hne by (intros ->; apply Hn; unfold info_sector; rewrite <- G1; auto).
    rewrite C, (proj2 (Z.eqb_neq _ _) Hne). done.
  - destruct (bd_sync_ok (v_dev v1) (vo_ready v1 Hv1)) as (d3 & E3 & R3 & Z3 & C3).
    eexists. split; [erewrite (m_bind_Ok (set_alc _ ≫= _)) by reflexivity; rewrite (bind_drive _ _ (mk_vol _ (v_dev v1)) _ _ E3); reflexivity|].
    split; [by apply same_drive|]. repeat (split; [done || (cbn; congruence) || (left; cbn; by rewrite W1)|]).
    intros s Hs _. rewrite <- (V1 s Hs). unfold vsec. cbn [v_fs v_dev fs_win]. by rewrite C3.
  - destruct (bd_sync_ok (v_dev v1) (vo_ready v1 Hv1)) as (d3 & E3 & R3 & Z3 & C3).
    eexists. split; [erewrite (m_bind_Ok skip) by reflexivity; rewrite (bind_drive _ _ v1 _ _ E3); reflexivity|].
    split; [destruct v1 as [[g1 w1 a1] d1]; by apply (same_drive (mk_vol (mk_fs g1 w1 a1) d1))|].
    repeat (split; [done || (cbn; congruence) || (left; cbn; by rewrite W1)|]).
    intros s Hs _. rewrite <- (V1 s Hs). unfold vsec. cbn [v_fs v_dev fs_win]. by rewrite C3.
Qed.

End View.

(** ** Errors of the drive *)

Section Failures.
Context {D : Type} `{BlockDev D}.

Lemma drive_inv {A} (m : M D A) (v v' : vol D) a : drive m v = Ok (a, v') -> m (v_dev v) = Ok (a, v_dev v') /\ v_fs v' = v_fs v.
Proof. unfold drive. destruct (m (v_dev v)) as [[? ?]| | |]; intros E; [|done..]. injection E as <- <-. done. Qed.

(** What a write-back did, whatever the drive answers. *)
Lemma sync_window_cases (v v' : vol D) r : sync_window v = Ok (r, v') ->
  (r = FR_DISK_ERR /\ v_fs v' = v_fs v /\ truth (wflag (fs_win (v_fs v))) = true) \/
  (r = FR_OK /\ truth (wflag (fs_win (v_fs v'))) = false /\
   (truth (wflag (fs_win (v_fs v))) = true ->
      exists d, bd_write (win (fs_win (v_fs v))) (winsect (fs_win (v_fs v))) 1 (v_dev v) = Ok (RES_OK, d))).
Proof.
  unfold sync_window. intros E. apply m_bind_inv in E as (w & v0 & Ew & E). injection Ew as <- <-.
  destruct (truth _) eqn:Et; [|injection E as <- <-; by right].
  apply m_bind_inv in E as (x & v1 & Ex & E). apply drive_inv in Ex as [Ex Ef].
  destruct (res_ok x) eqn:Eo; [|injection E as <- <-; by left]. apply bool_decide_eq_true in Eo as ->. right.
  apply m_bind_inv in E as (? & v2 & E2 & E). injection E2 as <- <-. apply m_bind_inv in E as (g & v3 & E3 & E). injection E3 as <- <-.
  apply m_bind_inv in E as (? & v4 & E4 & E). injection E as <- <-. split; [done|]. split; [|intros _; by exists (v_dev v1)].
  destruct (_ && _) in E4; cbn [when] in E4; [|injection E4 as <- <-; done].
  apply m_bind_inv in E4 as (? & v5 & E5 & E4). apply drive_inv in E5 as [_ E5]. injection E4 as <- <-. by rewrite E5.
Qed.

(** C22: for any drive, working or not: when the window cannot be moved, no
    modified sector is lost. Either the write-back failed, and the file system
    object is exactly as before with the window still marked dirty; or the
    modified sector was accepted by the drive, the new one could not be read,
    and the window is marked as showing nothing. *)
Theorem window_never_lost (v v' : vol D) (sect : Z) (r : FRESULT) :
  move_window sect v = Ok (r, v') -> r <> FR_OK ->
  r = FR_DISK_ERR /\
  ((v_fs v' = v_fs v /\ truth (wflag (fs_win (v_fs v))) = true) \/
   (winsect (fs_win (v_fs v')) = 4294967295 /\ truth (wflag (fs_win (v_fs v'))) = false /\
    (truth (wflag (fs_win (v_fs v))) = true ->
       exists d, bd_write (win (fs_win (v_fs v))) (winsect (fs_win (v_fs v))) 1 (v_dev v) = Ok (RES_OK, d)))).
Proof.
  unfold move_window. intros E Hr. apply m_bind_inv in E as (w & v0 & Ew & E). injection Ew as <- <-.
  destruct (negb _); [|by injection E as <- <-]. apply m_bind_inv in E as (x & v1 & Ex & E).
  apply sync_window_cases in Ex as [(-> & Ef & Et)|(-> & Et & Ed)]; cbn [fr_ok] in E.
  - injection E as <- <-. split; [done|]. by left.
  - apply m_bind_inv in E as (y & v2 & Ey & E). apply drive_inv in Ey as [_ Ef].
    apply m_bind_inv in E as (w & v3 & Ew & E). injection Ew as <- <-. destruct (res_ok y.1).
    + apply m_bind_inv in E as (? & ? & _ & E). by injection E as <- <-.
    + apply m_bind_inv in E as (? & v4 & E4 & E). injection E4 as <- <-. injection E as <- <-.
      split; [done|]. right. cbn [v_fs fs_win winsect wflag]. by rewrite Ef.
Qed.

End Failures.

(** ** A drive in memory

    It serves the concrete runs; [r_bad] marks sectors that cannot be accessed. *)

Record ram := mk_ram { r_size : Z; r_bad : Z -> bool; r_sec : Z -> list Z }.

Definition ram_able (r : ram) (s n : Z) : bool := forallb (fun t => negb (r_bad r t) && (0 <=? t) && (t <? r_size r)) (seqZ s n).

#[global] Instance ram_dev : BlockDev ram := {
  bd_read := fun s n r =>
    if ram_able r s n then Ok ((RES_OK, concat (map (r_sec r) (seqZ s n))), r) else Ok ((RES_ERROR, []), r);
  bd_write := fun data s n r =>
    if ram_able r s n
    then Ok (RES_OK, mk_ram (r_size r) (r_bad r)
           (fun t => if (s <=? t) && (t <? s + n) then take 512 (drop (Z.to_nat (512 * (t - s))) data) else r_sec r t))
    else Ok (RES_ERROR, r);
  bd_sync := fun r => Ok (RES_OK, r);
  bd_status := fun _ => 0;
  bd_init := fun r => Ok (0, r)
}.

Definition ram_ready (r : ram) : Prop :=
  forall s, 0 <= s < r_size r -> r_bad r s = false /\ length (r_sec r s) = 512%nat /\ Forall is_byte (r_sec r s).

Lemma ram_able_ok r s n : ram_ready r -> 0 <= s -> s + n <= r_size r -> ram_able r s n = true.
Proof.
  intros Hr Hs Hn. unfold ram_able. apply forallb_forall. intros t Ht. apply list_elem_of_In, elem_of_seqZ in Ht.
  destruct (Hr t ltac:(lia)) as (-> & _). cbn [negb andb]. apply andb_true_iff. split; [apply Z.leb_le|apply Z.ltb_lt]; lia.
Qed.

(** Blocks of equal size. *)
Lemma concat_block (m : nat) (ll : list (list Z)) : forall k b, Forall (fun x => length x = m) ll -> ll !! k = Some b ->
  take m (drop (m * k) (concat ll)) = b.
Proof.
  induction ll as [|x ll IH]; intros [|k] b Hl Hk; try done; apply Forall_cons in Hl as [Hx Hl]; cbn [concat].
  - injection Hk as ->. rewrite Nat.mul_0_r, drop_0, take_app_le by lia. by rewrite take_ge by lia.
  - rewrite drop_app_ge by nia. rewrite Hx. replace (m * S k - m)%nat with (m * k)%nat by nia. by apply IH.
Qed.

Lemma length_blocks (m : nat) (ll : list (list Z)) : Forall (fun x => length x = m) ll -> length (concat ll) = (m * length ll)%nat.
Proof. induction 1 as [|x ll Hx _ IH]; cbn [concat length]; [lia|]. rewrite length_app, IH, Hx. lia. Qed.

#[global] Instance ram_laws : BlockLaws ram.
Proof.
  refine {| bd_ready := ram_ready; bd_size := r_size; bd_sector := r_sec |}.
  - done.
  - intros d Hd. by exists d.
  - intros d s Hd Hs. by apply Hd.
  - intros d s n Hd Hs Hn He. cbn [bd_read ram_dev]. rewrite ram_able_ok by done. eexists _, d. split; [reflexivity|].
    assert (Forall (fun x => length x = 512%nat) (map (r_sec d) (seqZ s n))) as Hl.
    { apply Forall_forall. intros x Hx. apply list_elem_of_fmap in Hx as (t & -> & Ht). apply elem_of_seqZ in Ht. apply Hd. lia. }
    split; [rewrite (length_blocks 512) by done; rewrite length_map, length_seqZ; lia|]. split; [|done]. intros k Hk.
    replace (Z.to_nat (512 * k)) with (512 * Z.to_nat k)%nat by lia. apply concat_block; [done|].
    rewrite list_lookup_fmap, lookup_seqZ_lt by lia. cbn. do 2 f_equal. lia.
  - intros d data s n Hd Hs Hn He Hl Hb. cbn [bd_write ram_dev]. rewrite ram_able_ok by done. eexists. split; [reflexivity|].
    split; [|done]. intros t Ht. cbn [r_size r_bad r_sec] in *. destruct (Hd t Ht) as (Hbad & Hlen & Hby). split; [done|].
    destruct (Z.leb_spec s t), (Z.ltb_spec t (s + n)); cbn [andb]; try done. split; [rewrite length_take, length_drop; lia|].
    by apply Forall_take, Forall_drop.
  - intros d Hd. by exists d.
Defined.

(** ** Properties *)

Section Claims.
Context {D : Type} `{BlockLaws D}.
#[local] Set Default Proof Using "Type*".

(** Storing a value in entry [c] of the table and reading any entry [c']
    back: entry [c] gives the value cut to the entry's width, every other entry
    what it gave before, on FAT12 (where entries share bytes and may straddle
    two sectors), FAT16 and FAT32. Sectors outside the table keep their
    content and the volume stays consistent. *)
Theorem fat_put_get (v : vol D) (c c' val : Z) :
  vol_ok v -> 2 <= c < n_fatent (fs_geo (v_fs v)) -> 2 <= c' < n_fatent (fs_geo (v_fs v)) -> 0 <= val < 4294967296 ->
  exists v1 v2 old v3,
    get_fat c' v = Ok (old, v3) /\
    put_fat c val v = Ok (FR_OK, v1) /\
    get_fat c' v1 = Ok (if c' =? c then fat_mask (fs_type (fs_geo (v_fs v))) val else old, v2) /\
    vol_ok v1 /\ fs_alloc (v_fs v1) = fs_alloc (v_fs v) /\
    forall s, reachable v s -> ~ in_table (fs_geo (v_fs v)) s -> vsec v1 s = vsec v s.
Proof.
  intros Hv Hc Hc' Hval. destruct (get_fat_ok v c' Hv Hc') as (v3 & E3 & _). destruct (put_fat_ok v c val Hv Hc Hval) as (v1 & E1 & Hv1 & (G & _ & A & _ & T) & Hent).
  destruct (get_fat_ok v1 c' Hv1) as (v2 & E2 & _); [by rewrite G|]. exists v1, v2, (entry v c'), v3. rewrite <- (Hent c' Hc'). done.
Qed.

(** After [sync_fs] nothing depends on the window any more: a volume
    mounted afresh from the drive alone, whatever its window buffer holds, is
    consistent and has the same table, every sector but FSInfo holds the
    content it had through the window, and so does the second copy of the
    table. *)
Theorem sync_durable (v : vol D) (b : list Z) :
  vol_ok v -> alloc_fits v -> length b = 512%nat -> Forall is_byte b ->
  exists v', sync_fs v = Ok (FR_OK, v') /\
    let cold := mk_vol (mk_fs (fs_geo (v_fs v)) (mk_window 0 4294967295 b) (fs_alloc (v_fs v))) (v_dev v') in
    vol_ok cold /\
    (forall c, 2 <= c < n_fatent (fs_geo (v_fs v)) -> entry cold c = entry v c) /\
    (forall s, reachable v s -> ~ info_sector v s -> bd_sector (v_dev v') s = vsec v s) /\
    (n_fats (fs_geo (v_fs v)) = 2 -> forall k, 0 <= k < fsize (fs_geo (v_fs v)) ->
       bd_sector (v_dev v') (fatbase (fs_geo (v_fs v)) + fsize (fs_geo (v_fs v)) + k) = vsec v (fatbase (fs_geo (v_fs v)) + k)).
Proof.
  intros Hv Ha Lb Bb. destruct (sync_fs_ok v Hv Ha) as (v' & E & Hv' & G & Zd & _ & _ & Hw & _ & Hs). exists v'. split; [done|]. cbv zeta.
  pose proof Hv' as [R' G' _ M']. pose proof (vo_geo v Hv) as Hg. pose proof (geo_fat _ _ Hg) as (F1 & F2 & F3 & F4 & F5).
  assert (forall s, reachable v s -> ~ info_sector v s -> bd_sector (v_dev v') s = vsec v s) as Hd.
  { intros s Hr Hn. rewrite <- (Hs s Hr Hn). apply clean_on_drive; [done|done|]. rewrite Zd. apply Hr. }
  assert (forall k, 0 <= k < 512 * fsize (fs_geo (v_fs v)) -> ~ info_sector v (fatbase (fs_geo (v_fs v)) + k / 512)) as Hi.
  { intros k Hk (Ht & _ & E'). pose proof (go_info _ _ Hg Ht). dlia. }
  split; [|split; [|split; [exact Hd|]]].
  - split; cbn [v_fs v_dev fs_geo fs_win]; [done|by rewrite <- G| |].
    + split; cbn [v_fs v_dev fs_geo fs_win wflag winsect win]; [done|done|lia|by left|done].
    + unfold mirrored. cbn [v_fs v_dev fs_geo]. rewrite <- G. exact M'.
  - intros c Hc. unfold entry. cbn [v_fs fs_geo]. apply entry_ext. intros k Hk. pose proof (entry_range _ _ c Hg Hc).
    rewrite !fat_byte_in by (cbn [v_fs fs_geo]; lia). f_equal. cbn [v_fs fs_geo]. rewrite <- Hd; [|apply fat_reachable; [done|lia]|apply Hi; lia].
    unfold vsec. cbn [v_fs v_dev fs_win winsect]. destruct (Z.eqb_spec (fatbase (fs_geo (v_fs v)) + k / 512) 4294967295); [|done].
    pose proof (go_max _ _ Hg). dlia.
  - intros Hn k Hk. unfold mirrored in M'. rewrite G in M'. rewrite M' by done.
    replace k with (512 * k / 512) by (rewrite Z.mul_comm, Z.div_mul by lia; done). apply Hd; [apply fat_reachable; [done|lia]|apply Hi; lia].
Qed.

End Claims.

(** *** Concrete runs

    A FAT12 volume with two copies of a table of two sectors; entry 341 lies
    in both sectors. *)

Definition demo_geo : geometry := mk_geo FS_FAT12 0 2 1 16 1 600 2 0 1 5 6.

(** A blank volume on a drive. *)
Definition blank {D : Type} (d : D) : vol D :=
  mk_vol (mk_fs demo_geo (mk_window 0 4294967295 (replicate 512 0)) (mk_alloc 0 598 0)) d.

Lemma zero_sector : length (replicate 512 0) = 512%nat /\ Forall is_byte (replicate 512 0).
Proof. split; [apply length_replicate|]. apply Forall_replicate. unfold is_byte. lia. Qed.

Lemma blank_ok {D : Type} `{BlockLaws D} (d : D) : bd_ready d -> 640 <= bd_size d < 4294967295 -> (forall s, 1 <= s -> bd_sector d s = replicate 512 0) -> vol_ok (blank d).
Proof.
  intros Hr Hz Hs. destruct zero_sector as [L B]. split.
  - exact Hr.
  - split; cbn [blank v_fs v_dev fs_geo]; cbn; try lia; [|by intros]. exists 0. lia.
  - split; [exact L|exact B|cbn; lia|by left|done].
  - intros _ k Hk. cbn [blank v_fs v_dev fs_geo demo_geo fatbase fsize] in *. by rewrite !Hs by lia.
Qed.

Definition demo_ram : ram := mk_ram 640 (fun _ => false) (fun _ => replicate 512 0).
Definition demo_vol : vol ram := blank demo_ram.

Lemma demo_ram_ok : bd_ready demo_ram.
Proof. intros s Hs. split; [done|exact zero_sector]. Qed.

Lemma demo_vol_ok : vol_ok demo_vol.
Proof. apply blank_ok; [exact demo_ram_ok|cbn; lia|done]. Qed.

Lemma fat_put_get_witness :
  exists v1 v2 v3, put_fat 341 2748 demo_vol = Ok (FR_OK, v1) /\ get_fat 341 v1 = Ok (2748, v2) /\ get_fat 342 v1 = Ok (0, v3).
Proof.
  destruct (fat_put_get demo_vol 341 341 2748 demo_vol_ok) as (v1 & v2 & old & _ & _ & E1 & E2 & _); [cbn; lia..|].
  exists v1, v2. vm_compute in E1. injection E1 as <-. eexists. split; [vm_compute; reflexivity|]. split; [exact E2|]. vm_compute. reflexivity.
Defined.

(** The store above, synchronised: bytes 511 and 512 of both copies. *)
Lemma sync_durable_witness :
  exists v1 v', put_fat 341 2748 demo_vol = Ok (FR_OK, v1) /\ sync_fs v1 = Ok (FR_OK, v') /\
    get (r_sec (v_dev v') 1) 511 = 192 /\ get (r_sec (v_dev v') 3) 511 = 192 /\ get (r_sec (v_dev v') 4) 0 = 171.
Proof.
  destruct (put_fat_ok demo_vol 341 2748 demo_vol_ok) as (v1 & E1 & Hv1 & (_ & _ & A & _) & _); [cbn; lia..|].
  destruct zero_sector as [L B].
  destruct (sync_durable v1 (replicate 512 0) Hv1) as (v' & E & _); [unfold alloc_fits; rewrite A; cbn; lia|exact L|exact B|].
  exists v1, v'. split; [exact E1|]. split; [exact E|]. vm_compute in E1. injection E1 as <-. vm_compute in E. injection E as <-.
  vm_compute. done.
Defined.

(** A window whose sector can be written but the next one not read, and one
    that cannot be written back. *)
Definition demo_dirty (bad : Z) : vol ram :=
  mk_vol (mk_fs demo_geo (mk_window 1 6 (replicate 512 7)) (mk_alloc 0 598 0)) (mk_ram 640 (fun s => s =? bad) (fun _ => replicate 512 0)).

Lemma window_never_lost_witness :
  (exists v', move_window 7 (demo_dirty 6) = Ok (FR_DISK_ERR, v') /\ v_fs v' = v_fs (demo_dirty 6)) /\
  (exists v', move_window 7 (demo_dirty 7) = Ok (FR_DISK_ERR, v') /\ truth (wflag (fs_win (v_fs v'))) = false /\ r_sec (v_dev v') 6 = replicate 512 7).
Proof.
  split; eexists.
  - split; [vm_compute; reflexivity|]. match goal with |- v_fs ?v = _ => destruct (window_never_lost (demo_dirty 6) v 7 FR_DISK_ERR) as (_ & [[E _]|[E _]]) end;
      [vm_compute; reflexivity|done|exact E|done].
  - split; [vm_compute; reflexivity|]. match goal with |- truth (wflag (fs_win (v_fs ?v))) = _ /\ _ =>
      destruct (window_never_lost (demo_dirty 7) v 7 FR_DISK_ERR) as (_ & [[E _]|(_ & E & _)]) end; [vm_compute; reflexivity|done|done|].
    split; [exact E|vm_compute; reflexivity].
Defined.
