(* ===== verification/FatChain.v ===== *)
(** * FatChain: cluster chains (ff.c)

    Freeing and stretching the chains of clusters that the table links. *)

From Stdlib Require Import ZArith Lia Bool.
From stdpp Require Import base list sets.
From S2P Require Import Prelude Hw Ata Fat.
From stdpp Require Import options.

(** Outcome of the choice of a cluster: a value to return, or a free one. *)
Inductive picked := Give (r : Z) | Found (ncl : Z).

Section Chains.
Context {D : Type} `{BlockDev D}.
Abbreviation VM := (M (vol D)).

(** ** Removing a chain *)

(** [if (fs->free_clst < fs->n_fatent - 2) { fs->free_clst++; fs->fsi_flag |= 1; }] *)
Definition count_up : VM unit :=
  g ← geo; a ← alc;
  when (free_clst a <? u32 (n_fatent g - 2)) (set_alc (mk_alloc (last_clst a) (free_clst a + 1) (Z.lor (fsi_flag a) 1))).

(** The [do ... while] loop. *)
Fixpoint remove_loop (fuel : nat) (clst : Z) : VM FRESULT :=
  match fuel with
  | O => lift NoFuel
  | S fuel =>
      nxt ← get_fat clst;
      if nxt =? 0 then mret FR_OK
      else if nxt =? 1 then mret FR_INT_ERR
      else if nxt =? DISK_ERROR then mret FR_DISK_ERR
      else
        res ← put_fat clst 0;
        if fr_ok res then
          _ ← count_up;
          g ← geo;
          if nxt <? n_fatent g then remove_loop fuel nxt else mret FR_OK
        else mret res
  end.

Definition remove_chain (fuel : nat) (clst pclst : Z) : VM FRESULT :=
  g ← geo;
  if (clst <? 2) || (n_fatent g <=? clst) then mret FR_INT_ERR
  else
    res ← (if negb (pclst =? 0) then put_fat pclst 4294967295 else mret FR_OK);
    if fr_ok res then remove_loop fuel clst else mret res.

(** ** Stretching a chain *)

(** The search for a free cluster. *)
Fixpoint find_free (fuel : nat) (scl ncl : Z) : VM picked :=
  match fuel with
  | O => lift NoFuel
  | S fuel =>
      g ← geo;
      let ncl := u32 (ncl + 1) in
      if (n_fatent g <=? ncl) && (scl <? 2) then mret (Give 0)
      else
        let ncl := if n_fatent g <=? ncl then 2 else ncl in
        cs ← get_fat ncl;
        if cs =? 0 then mret (Found ncl)
        else if (cs =? 1) || (cs =? DISK_ERROR) then mret (Give cs)
        else if ncl =? scl then mret (Give 0)
        else find_free fuel scl ncl
  end.

(** The cluster after [clst] when it is free, else a search from the last
    allocated cluster or from [scl]. *)
Definition choose_cluster (fuel : nat) (clst scl : Z) : VM picked :=
  g ← geo; a ← alc;
  if scl =? clst then
    let ncl := u32 (scl + 1) in
    let ncl := if n_fatent g <=? ncl then 2 else ncl in
    cs ← get_fat ncl;
    if (cs =? 1) || (cs =? DISK_ERROR) then mret (Give cs)
    else if negb (cs =? 0) then
      let cs := last_clst a in
      let scl := if (2 <=? cs) && (cs <? n_fatent g) then cs else scl in
      find_free fuel scl scl
    else mret (Found ncl)
  else find_free fuel scl scl.

(** Linking the new cluster and the allocation information. *)
Definition link_cluster (clst ncl : Z) : VM Z :=
  g ← geo;
  res ← put_fat ncl 4294967295;
  res ← (if fr_ok res && negb (clst =? 0) then put_fat clst ncl else mret res);
  if fr_ok res then
    a ← alc;
    let counted := (0 <? free_clst a) && (free_clst a <=? u32 (n_fatent g - 2)) in
    _ ← set_alc (mk_alloc ncl (if counted then free_clst a - 1 else free_clst a) (if counted then Z.lor (fsi_flag a) 1 else fsi_flag a));
    mret ncl
  else mret (if bool_decide (res = FR_DISK_ERR) then DISK_ERROR else 1).

Definition stretch (fuel : nat) (clst scl : Z) : VM Z :=
  a ← alc;
  if free_clst a =? 0 then mret 0
  else
    x ← choose_cluster fuel clst scl;
    match x with Give r => mret r | Found ncl => link_cluster clst ncl end.

Definition create_chain (fuel : nat) (clst : Z) : VM Z :=
  g ← geo; a ← alc;
  if clst =? 0 then
    let scl := last_clst a in
    stretch fuel clst (if (scl =? 0) || (n_fatent g <=? scl) then 1 else scl)
  else
    cs ← get_fat clst;
    if cs <? 2 then mret 1
    else if cs =? DISK_ERROR then mret cs
    else if cs <? n_fatent g then mret cs
    else stretch fuel clst clst.

End Chains.

(** ** Chains as lists *)

(** [links n f c l]: following [f] from [c] visits exactly [l] and then a
    value that is no cluster ([n] or above). *)
Fixpoint links (n : Z) (f : Z -> Z) (c : Z) (l : list Z) : Prop :=
  match l with
  | [] => n <= c
  | x :: r => x = c /\ 2 <= c < n /\ links n f (f c) r
  end.

Lemma links_det n f l1 : forall c l2, links n f c l1 -> links n f c l2 -> l1 = l2.
Proof.
  induction l1 as [|x l1 IH]; intros c [|y l2]; cbn [links]; intros H1 H2; [done|lia|lia|].
  destruct H1 as (-> & _ & H1), H2 as (-> & _ & H2). f_equal. by eapply IH.
Qed.

Lemma links_suffix n f l1 : forall c x l2, links n f c (l1 ++ x :: l2) -> links n f x (x :: l2).
Proof.
  induction l1 as [|y l1 IH]; intros c x l2; cbn [app links]; [by intros (-> & ? & ?)|]. intros (_ & _ & Hl). by eapply IH.
Qed.

Lemma links_NoDup n f l : forall c, links n f c l -> NoDup l.
Proof.
  induction l as [|x l IH]; intros c Hl; [constructor|]. constructor.
  - intros Hin. apply list_elem_of_split in Hin as (l1 & l2 & ->). pose proof Hl as Hl'.
    change (x :: l1 ++ x :: l2) with ((x :: l1) ++ x :: l2) in Hl'. apply links_suffix in Hl'.
    destruct Hl as (-> & Hc & Hl). assert (links n f c (c :: l1 ++ c :: l2)) as H1 by (cbn [links]; auto).
    pose proof (links_det _ _ _ _ _ H1 Hl') as E. apply (f_equal length) in E. cbn in E. rewrite length_app in E. cbn in E. lia.
  - destruct Hl as (_ & _ & Hl). by eapply IH.
Qed.

Lemma links_ext n f g l : forall c, (forall x, x ∈ l -> f x = g x) -> links n f c l -> links n g c l.
Proof.
  induction l as [|x l IH]; intros c He; cbn [links]; [done|]. intros (-> & Hc & Hl). split; [done|]. split; [done|].
  rewrite <- He by left. apply IH; [|done]. intros y Hy. apply He. by right.
Qed.

Lemma links_range n f l : forall c x, links n f c l -> x ∈ l -> 2 <= x < n.
Proof.
  induction l as [|y l IH]; intros c x Hl Hx; [by apply elem_of_nil in Hx|]. destruct Hl as (-> & Hc & Hl).
  apply elem_of_cons in Hx as [->|Hx]; [done|]. by eapply IH.
Qed.

(** Extending a chain at its end. *)
Lemma links_snoc n f g l : forall c x e, links n f c (l ++ [x]) -> 2 <= e < n -> g x = e -> n <= g e ->
  (forall y, y ∈ l -> g y = f y) -> links n g c (l ++ [x; e]).
Proof.
  induction l as [|y l IH]; intros c x e; cbn [app links].
  - intros (-> & Hc & _) He <- Hg _. auto.
  - intros (-> & Hc & Hl) He Hx Hg Hy. split; [done|]. split; [done|]. rewrite Hy by left. apply IH; try done. intros z Hz. apply Hy. by right.
Qed.

(** A chain is no longer than the volume has clusters. *)
Lemma links_length n f c l : links n f c l -> (length l <= Z.to_nat (n - 2))%nat.
Proof.
  intros Hl. rewrite <- (length_seqZ 2 (n - 2)). apply submseteq_length, NoDup_submseteq; [by eapply links_NoDup|].
  intros x Hx. apply elem_of_seqZ. pose proof (links_range _ _ _ _ _ Hl Hx). lia.
Qed.

(** Cutting a chain after [p]. *)
Lemma links_cut n f g l : forall c p r, links n f c (l ++ p :: r) -> n <= g p -> (forall y, y ∈ l -> g y = f y) -> links n g c (l ++ [p]).
Proof.
  induction l as [|y l IH]; intros c p r; cbn [app links].
  - intros (-> & Hc & _) Hg _. auto.
  - intros (-> & Hc & Hl) Hg Hy. split; [done|]. split; [done|]. rewrite Hy by left. eapply IH; try done. intros z Hz. apply Hy. by right.
Qed.

(** ** Counting free clusters *)

Definition clusters (n : Z) : list Z := seqZ 2 (n - 2).
Definition free_count (n : Z) (f : Z -> Z) : Z := zlen (filter (fun c => f c = 0) (clusters n)).

Lemma elem_clusters n c : c ∈ clusters n <-> 2 <= c < n.
Proof. unfold clusters. rewrite elem_of_seqZ. lia. Qed.

Lemma count_ext (f g : Z -> Z) l : (forall x, x ∈ l -> f x = g x) -> length (filter (fun c => f c = 0) l) = length (filter (fun c => g c = 0) l).
Proof.
  induction l as [|x l IH]; intros He; [done|]. rewrite !filter_cons. rewrite (He x) by left.
  assert (length (filter (fun c => f c = 0) l) = length (filter (fun c => g c = 0) l)) as E by (apply IH; intros; apply He; by right).
  destruct (decide _); cbn [length]; congruence.
Qed.

(** Changing one entry. *)
Lemma count_upd (f g : Z -> Z) l x : NoDup l -> x ∈ l -> (forall y, y ∈ l -> y <> x -> g y = f y) ->
  Z.of_nat (length (filter (fun c => g c = 0) l)) =
  Z.of_nat (length (filter (fun c => f c = 0) l)) + (if g x =? 0 then 1 else 0) - (if f x =? 0 then 1 else 0).
Proof.
  induction l as [|y l IH]; intros Hn Hx He; [by apply elem_of_nil in Hx|]. apply NoDup_cons in Hn as [Hy Hn]. rewrite !filter_cons.
  destruct (decide (y = x)) as [->|Hne].
  - pose proof (count_ext g f l ltac:(intros z Hz; apply He; [by right|intros ->; done])) as E.
    destruct (Z.eqb_spec (g x) 0), (Z.eqb_spec (f x) 0); repeat destruct (decide _); cbn [length]; try lia; done.
  - apply elem_of_cons in Hx as [->|Hx]; [done|]. rewrite (He y) by (left || done).
    specialize (IH Hn Hx ltac:(intros; apply He; [by right|done])). destruct (decide (f y = 0)); cbn [length]; lia.
Qed.

Lemma free_count_upd n f g x : 2 <= x < n -> (forall y, 2 <= y < n -> y <> x -> g y = f y) ->
  free_count n g = free_count n f + (if g x =? 0 then 1 else 0) - (if f x =? 0 then 1 else 0).
Proof.
  intros Hx He. apply count_upd; [apply NoDup_seqZ|by apply elem_clusters|]. intros y Hy. apply elem_clusters in Hy. auto.
Qed.

Lemma free_count_ext n f g : (forall y, 2 <= y < n -> g y = f y) -> free_count n g = free_count n f.
Proof. intros He. unfold free_count. f_equal. apply count_ext. intros y Hy. apply elem_clusters in Hy. auto. Qed.

Lemma free_count_bound n f x : 2 <= x < n -> f x <> 0 -> 0 <= free_count n f < n - 2.
Proof.
  intros Hx Hf. split; [unfold free_count; lia|].
  pose proof (free_count_upd n f (fun y => if y =? x then 0 else f y) x Hx) as E. cbv beta in E.
  rewrite Z.eqb_refl in E. rewrite (proj2 (Z.eqb_neq _ _) Hf) in E. change (0 =? 0) with true in E. cbv iota in E.
  assert (free_count n (fun y => if y =? x then 0 else f y) <= n - 2) as Hle.
  { unfold free_count, clusters. pose proof (length_filter (fun c => (if c =? x then 0 else f c) = 0) (seqZ 2 (n - 2))) as Hl. rewrite length_seqZ in Hl. lia. }
  rewrite E in Hle; [lia|]. intros y _ Hy. by rewrite (proj2 (Z.eqb_neq _ _) Hy).
Qed.

Lemma free_count_pos n f x : 2 <= x < n -> f x = 0 -> 0 < free_count n f <= n - 2.
Proof.
  intros Hx Hf. unfold free_count. split.
  - assert (x ∈ filter (fun c => f c = 0) (clusters n)) as Hin by (apply list_elem_of_filter; split; [done|by apply elem_clusters]).
    destruct (filter _ _) as [|y r]; [by apply elem_of_nil in Hin|]. cbn [length]. lia.
  - unfold clusters. pose proof (length_filter (fun c => f c = 0) (seqZ 2 (n - 2))) as Hl. rewrite length_seqZ in Hl. lia.
Qed.

(** Freeing a set of used clusters. *)
Lemma free_count_freed n l : forall f g, NoDup l -> (forall x, x ∈ l -> 2 <= x < n /\ f x <> 0) ->
  (forall x, 2 <= x < n -> g x = if bool_decide (x ∈ l) then 0 else f x) -> free_count n g = free_count n f + zlen l.
Proof.
  induction l as [|y l IH]; intros f g Hnd Hl Hg.
  - rewrite (free_count_ext n f g); [cbn; lia|]. intros x Hx. rewrite Hg by done. by rewrite bool_decide_false by apply not_elem_of_nil.
  - apply NoDup_cons in Hnd as [Hy Hnd]. destruct (Hl y ltac:(by left)) as [Hr Hu].
    set (h := fun x => if x =? y then 0 else f x). assert (forall x, x <> y -> h x = f x) as Hh by (intros x Hx; unfold h; by rewrite (proj2 (Z.eqb_neq _ _) Hx)).
    assert (h y = 0) as Hhy by (unfold h; by rewrite Z.eqb_refl).
    rewrite (IH h g Hnd).
    + rewrite (free_count_upd n f h y Hr) by auto. rewrite Hhy, (proj2 (Z.eqb_neq _ _) Hu). change (0 =? 0) with true. cbn [length]. lia.
    + intros x Hx. assert (x <> y) by (intros ->; done). rewrite Hh by done. apply Hl. by right.
    + intros x Hx. rewrite Hg by done. destruct (decide (x = y)) as [->|Hne].
      * rewrite bool_decide_true by left. rewrite Hhy. by destruct (bool_decide _).
      * rewrite Hh by done. erewrite bool_decide_ext; [done|]. rewrite elem_of_cons. naive_solver.
Qed.

(** ** The operations on a volume *)

Section Ops.
Context {D : Type} `{BlockLaws D}.
#[local] Set Default Proof Using "Type*".

Abbreviation v_geo v := (fs_geo (v_fs v)).
Abbreviation v_al v := (fs_alloc (v_fs v)).
Abbreviation nent v := (n_fatent (v_geo v)).

(** Same layout and same sectors outside the table; the window stays or moves
    into the table. *)
Definition data_step (v v' : vol D) : Prop :=
  v_geo v' = v_geo v /\ bd_size (v_dev v') = bd_size (v_dev v) /\
  (forall s, reachable v s -> ~ in_table (v_geo v) s -> vsec v' s = vsec v s) /\
  (winsect (fs_win (v_fs v')) = winsect (fs_win (v_fs v)) \/ in_table (v_geo v) (winsect (fs_win (v_fs v')))).

Lemma data_step_refl v : data_step v v.
Proof. split; [done|]. split; [done|]. split; [done|]. by left. Qed.

#[local] Hint Resolve data_step_refl : core.

Lemma data_step_trans v1 v2 v3 : data_step v1 v2 -> data_step v2 v3 -> data_step v1 v3.
Proof.
  intros (G1 & Z1 & V1 & W1) (G2 & Z2 & V2 & W2). rewrite G1 in W2. split; [congruence|]. split; [congruence|]. split.
  - intros s Hs Hn. rewrite V2, V1; [done..| |by rewrite G1]. unfold reachable. by rewrite G1, Z1.
  - destruct W2 as [->|W2]; [done|by right].
Qed.

Lemma view_data_step v v' : same_view v v' -> in_table (v_geo v) (winsect (fs_win (v_fs v'))) -> data_step v v'.
Proof. intros (G & Z & V) W. split; [done|]. split; [done|]. split; [auto|by right]. Qed.

Lemma table_data_step v v' : table_step v v' -> data_step v v'.
Proof. intros (G & Z & _ & W & V). split; [done|]. split; [done|]. split; [done|by right]. Qed.

(** The number of free clusters is unknown or exact. *)
Definition alloc_ok (v : vol D) : Prop :=
  alloc_fits v /\ (nent v - 2 < free_clst (v_al v) \/ free_clst (v_al v) = free_count (nent v) (entry v)).

(** A volume whose table holds no reserved value 1. *)
Record fat_ok (v : vol D) : Prop := {
  fo_vol : vol_ok v;
  fo_ones : forall c, 2 <= c < nent v -> entry v c <> 1;
  fo_alloc : alloc_ok v
}.

Lemma nent_bound v : vol_ok v -> 2 < nent v < 268435448 /\ nent v < fat_max (v_geo v).
Proof.
  intros Hv. pose proof (go_ents _ _ (vo_geo v Hv)) as He. unfold fat_max in *. destruct (_ =? FS_FAT12); [lia|]. destruct (_ =? FS_FAT16); lia.
Qed.

Lemma eoc_mask v : vol_ok v -> fat_mask (fs_type (v_geo v)) 4294967295 = fat_max (v_geo v).
Proof. intros _. unfold fat_mask, fat_max. destruct (_ =? FS_FAT12); [done|]. by destruct (_ =? FS_FAT16). Qed.

Lemma small_mask v c : vol_ok v -> 0 <= c < nent v -> fat_mask (fs_type (v_geo v)) c = c.
Proof.
  intros Hv Hc. destruct (nent_bound v Hv) as [_ Hn]. unfold fat_mask, fat_max in *. destruct (_ =? FS_FAT12); [|destruct (_ =? FS_FAT16)];
    apply Z.mod_small; lia.
Qed.

Lemma fat_ok_view v v' : same_view v v' -> fs_alloc (v_fs v') = v_al v -> vol_ok v' -> fat_ok v -> fat_ok v'.
Proof.
  intros S A Hv' [Hv H1 Ha]. pose proof S as (G & Z & _). split; [done| |].
  - intros c Hc. rewrite G in Hc. rewrite (same_view_entry v v') by done. by apply H1.
  - unfold alloc_ok, alloc_fits in *. rewrite A, G. rewrite (free_count_ext _ (entry v) (entry v')); [done|]. intros y _. by apply same_view_entry.
Qed.

(** [get_fat] on such a volume. *)
Lemma get_fat_step v c : fat_ok v -> 2 <= c < nent v ->
  exists v', get_fat c v = Ok (entry v c, v') /\ fat_ok v' /\ same_view v v' /\ fs_alloc (v_fs v') = v_al v /\ data_step v v'.
Proof.
  intros Hv Hc. destruct (get_fat_ok v c (fo_vol v Hv) Hc) as (v' & E & Hv' & S & A & W). exists v'. split; [done|].
  split; [by apply (fat_ok_view v)|]. split; [done|]. split; [done|]. by apply view_data_step.
Qed.

Lemma vol_ok_alc v a : vol_ok v -> vol_ok (mk_vol (mk_fs (v_geo v) (fs_win (v_fs v)) a) (v_dev v)).
Proof. intros [R G [] M]. split; try done. Qed.

Lemma entry_alc v a c : entry (mk_vol (mk_fs (v_geo v) (fs_win (v_fs v)) a) (v_dev v)) c = entry v c.
Proof. done. Qed.

(** One entry stored: everything but the count of free clusters. *)
Lemma put_step v c val : fat_ok v -> 2 <= c < nent v -> 0 <= val < 4294967296 -> fat_mask (fs_type (v_geo v)) val <> 1 ->
  exists v', put_fat c val v = Ok (FR_OK, v') /\ vol_ok v' /\ data_step v v' /\ v_al v' = v_al v /\
    (forall x, 2 <= x < nent v -> entry v' x <> 1) /\
    (forall x, 2 <= x < nent v -> entry v' x = if x =? c then fat_mask (fs_type (v_geo v)) val else entry v x).
Proof.
  intros [Hv H1 Ha] Hc Hval Hm. destruct (put_fat_ok v c val Hv Hc Hval) as (v' & E & Hv' & T & He). exists v'. split; [done|]. split; [done|].
  split; [by apply table_data_step|]. split; [apply T|]. split; [|done]. intros x Hx. rewrite He by done. destruct (x =? c); [done|by apply H1].
Qed.

(** A used entry given another used value. *)
Lemma relink v c val : fat_ok v -> 2 <= c < nent v -> 0 <= val < 4294967296 ->
  fat_mask (fs_type (v_geo v)) val <> 1 -> fat_mask (fs_type (v_geo v)) val <> 0 -> entry v c <> 0 ->
  exists v', put_fat c val v = Ok (FR_OK, v') /\ fat_ok v' /\ data_step v v' /\ v_al v' = v_al v /\
    (forall x, 2 <= x < nent v -> entry v' x = if x =? c then fat_mask (fs_type (v_geo v)) val else entry v x).
Proof.
  intros Hf Hc Hval Hm1 Hm0 Hu. destruct (put_step v c val Hf Hc Hval Hm1) as (v' & E & Hv' & T & A & O & He). exists v'. split; [done|].
  split; [|done]. pose proof T as (G & _). split; [done|by rewrite G|]. destruct Hf as [_ _ Ha]. unfold alloc_ok, alloc_fits in *. rewrite A, G.
  rewrite (free_count_upd _ (entry v) (entry v') c Hc) by (intros y Hy Hne; rewrite He by done; by rewrite (proj2 (Z.eqb_neq _ _) Hne)).
  rewrite (He c Hc), Z.eqb_refl, (proj2 (Z.eqb_neq _ _) Hm0), (proj2 (Z.eqb_neq _ _) Hu). lia.
Qed.

(** A used entry freed, and counted. *)
Lemma free_one v c : fat_ok v -> 2 <= c < nent v -> entry v c <> 0 ->
  exists v1 v2, put_fat c 0 v = Ok (FR_OK, v1) /\ count_up v1 = Ok (tt, v2) /\ fat_ok v2 /\ data_step v v2 /\ last_clst (v_al v2) = last_clst (v_al v) /\
    (forall x, 2 <= x < nent v -> entry v2 x = if x =? c then 0 else entry v x).
Proof.
  intros Hf Hc Hu. pose proof (nent_bound v (fo_vol v Hf)) as [Hn _].
  assert (fat_mask (fs_type (v_geo v)) 0 = 0) as M0 by (apply small_mask; [apply Hf|lia]).
  destruct (put_step v c 0 Hf Hc) as (v1 & E & Hv1 & T & A & O & He); [lia|by rewrite M0|]. pose proof T as (G & _ & _).
  rewrite M0 in He. exists v1. unfold count_up. rewrite bind_geo, bind_alc, A, G. rewrite (u32_small (nent v - 2)) by lia.
  pose proof (free_count_bound (nent v) (entry v) c Hc Hu) as Hb. destruct (fo_alloc v Hf) as [[Hfr Hla] Hex].
  assert (free_count (nent v) (entry v1) = free_count (nent v) (entry v) + 1) as Hcnt.
  { rewrite (free_count_upd _ (entry v) (entry v1) c Hc) by (intros y Hy Hne; rewrite He by done; by rewrite (proj2 (Z.eqb_neq _ _) Hne)).
    rewrite (He c Hc), Z.eqb_refl, (proj2 (Z.eqb_neq _ _) Hu). change (0 =? 0) with true. cbv iota. lia. }
  destruct (Z.ltb_spec (free_clst (v_al v)) (nent v - 2)); cbn [when].
  - eexists. split; [done|]. split; [reflexivity|]. split; [|split; [exact T|split; [done|exact He]]]. split; [by apply vol_ok_alc|intros x Hx; rewrite entry_alc; apply O; by rewrite <- G|].
    unfold alloc_ok, alloc_fits. cbn [v_fs fs_geo fs_alloc free_clst last_clst].
    rewrite (free_count_ext _ (entry v1)) by (intros; apply entry_alc). rewrite G. lia.
  - exists v1. split; [done|]. split; [done|]. split; [|split; [exact T|split; [by rewrite A|exact He]]]. split; [done|by rewrite G|].
    unfold alloc_ok, alloc_fits. rewrite A, G, Hcnt. lia.
Qed.

(** *** Removing *)

Lemma remove_loop_ok l : forall fuel v c, fat_ok v -> links (nent v) (entry v) c l -> l <> [] -> (length l <= fuel)%nat ->
  exists v', remove_loop fuel c v = Ok (FR_OK, v') /\ fat_ok v' /\ data_step v v' /\ last_clst (v_al v') = last_clst (v_al v) /\
    forall x, 2 <= x < nent v -> entry v' x = if bool_decide (x ∈ l) then 0 else entry v x.
Proof.
  induction l as [|y l IH]; intros fuel v c Hf Hl Hne Hfu; [done|]. destruct fuel as [|fuel]; [cbn in Hfu; lia|]. cbn [remove_loop].
  pose proof (links_NoDup _ _ _ _ Hl) as Hy. apply NoDup_cons in Hy as [Hy _]. destruct Hl as (-> & Hc & Hl). destruct (nent_bound v (fo_vol v Hf)) as [Hn Hn'].
  destruct (get_fat_step v c Hf Hc) as (v0 & E0 & Hf0 & S0 & A0 & D0). rewrite (m_bind_Ok _ _ _ _ _ E0).
  assert (2 <= entry v c) as Hnx by (destruct l as [|z l]; cbn [links] in Hl; lia). pose proof (entry_bound v c (fo_vol v Hf)) as Hb.
  assert (fat_max (v_geo v) < 4294967295) by (unfold fat_max; destruct (_ =? FS_FAT12); [|destruct (_ =? FS_FAT16)]; lia). unfold DISK_ERROR.
  rewrite (proj2 (Z.eqb_neq (entry v c) 0)), (proj2 (Z.eqb_neq (entry v c) 1)), (proj2 (Z.eqb_neq (entry v c) 4294967295)) by lia.
  pose proof S0 as (G0 & _ & _). assert (forall x, entry v0 x = entry v x) as En0 by (intros x; apply same_view_entry; [apply Hf|done]).
  destruct (free_one v0 c Hf0) as (v1 & v2 & E1 & E2 & Hf2 & T2 & L2 & He2); [by rewrite G0|rewrite En0; lia|].
  rewrite (m_bind_Ok _ _ _ _ _ E1). change (fr_ok FR_OK) with true. cbv iota. rewrite (m_bind_Ok _ _ _ _ _ E2), bind_geo.
  pose proof (data_step_trans _ _ _ D0 T2) as T. pose proof T as (G2 & _ & _). rewrite G2, A0 in *. rewrite G0 in He2.
  assert (forall x, 2 <= x < nent v -> entry v2 x = if x =? c then 0 else entry v x) as He by (intros x Hx; rewrite He2, En0 by done; done).
  destruct l as [|z l].
  - cbn [links] in Hl. rewrite (proj2 (Z.ltb_ge _ _) Hl). exists v2. split; [done|]. split; [done|]. split; [done|]. split; [done|]. intros x Hx.
    rewrite He by done. destruct (Z.eqb_spec x c) as [->|Hxc]; [by rewrite bool_decide_true by left|].
    by rewrite bool_decide_false by (rewrite list_elem_of_singleton; done).
  - pose proof Hl as (Ez & Hz & _). rewrite (proj2 (Z.ltb_lt (entry v c) (nent v))) by lia.
    destruct (IH fuel v2 (entry v c) Hf2) as (v3 & E3 & Hf3 & T3 & L3 & He3); [|done|cbn in *; lia|].
    + rewrite G2. apply (links_ext _ (entry v)); [|done]. intros x Hx. rewrite He by (by eapply links_range). destruct (Z.eqb_spec x c) as [->|]; done.
    + exists v3. split; [done|]. split; [done|]. split; [by eapply data_step_trans|]. split; [congruence|]. rewrite G2 in He3. intros x Hx. rewrite He3, He by done.
      destruct (Z.eqb_spec x c) as [->|Hxc]; [rewrite (bool_decide_true (c ∈ c :: _)) by left; by destruct (bool_decide _)|].
      erewrite bool_decide_ext; [done|]. rewrite (elem_of_cons _ x c). naive_solver.
Qed.

(** *** Searching *)

(** The outcome of a search: a free cluster, or there is none. *)
Definition searched (v : vol D) (x : picked) : Prop :=
  match x with
  | Found c => 2 <= c < nent v /\ entry v c = 0
  | Give r => r = 0 /\ forall c, 2 <= c < nent v -> entry v c <> 0
  end.

(** What a search leaves behind. *)
Definition looked (v v' : vol D) : Prop := fat_ok v' /\ same_view v v' /\ v_al v' = v_al v /\ data_step v v'.

Lemma looked_trans v1 v2 v3 : looked v1 v2 -> looked v2 v3 -> looked v1 v3.
Proof. intros (_ & S1 & A1 & D1) (F & S2 & A2 & D2). split; [done|]. split; [by eapply same_view_trans|]. split; [congruence|]. by eapply data_step_trans. Qed.

Lemma looked_entry v v' c : fat_ok v -> looked v v' -> entry v' c = entry v c.
Proof. intros Hf (_ & S & _). apply same_view_entry; [apply Hf|done]. Qed.

Lemma searched_looked v v' x : fat_ok v -> looked v v' -> searched v' x -> searched v x.
Proof.
  intros Hf Hl. pose proof Hl as (_ & (G & _) & _). unfold searched. rewrite G. destruct x as [r|c].
  - intros [-> Hn]. split; [done|]. intros c Hc. rewrite <- (looked_entry v v') by done. auto.
  - by rewrite (looked_entry v v').
Qed.

(** Looking at an entry: it is neither 1 nor the error value. *)
Lemma probe v c : fat_ok v -> 2 <= c < nent v ->
  exists v', get_fat c v = Ok (entry v c, v') /\ looked v v' /\ (entry v c =? 1) || (entry v c =? DISK_ERROR) = false.
Proof.
  intros Hf Hc. destruct (get_fat_step v c Hf Hc) as (v' & E & L). exists v'. split; [done|]. split; [done|].
  pose proof (fo_ones v Hf c Hc). pose proof (entry_bound v c (fo_vol v Hf)) as Hb. unfold DISK_ERROR.
  rewrite (proj2 (Z.eqb_neq _ 1)), (proj2 (Z.eqb_neq _ 4294967295)); [done| |done].
  unfold fat_max in Hb. destruct (_ =? FS_FAT12); [|destruct (_ =? FS_FAT16)]; lia.
Qed.

(** After the wrap-around: the clusters up to [scl] remain. *)
Lemma find_low k : forall fuel v scl ncl, fat_ok v -> 2 <= ncl < scl -> scl < nent v -> scl - ncl <= Z.of_nat k -> (k <= fuel)%nat ->
  (forall c, scl < c < nent v \/ 2 <= c <= ncl -> entry v c <> 0) ->
  exists x v', find_free fuel scl ncl v = Ok (x, v') /\ looked v v' /\ searched v x.
Proof.
  induction k as [|k IH]; intros fuel v scl ncl Hf Hn Hs Hk Hfu Hu; [lia|]. destruct fuel as [|fuel]; [lia|]. cbn [find_free]. rewrite bind_geo.
  destruct (nent_bound v (fo_vol v Hf)) as [Hb _]. rewrite (u32_small (ncl + 1)) by lia.
  rewrite (proj2 (Z.leb_gt (nent v) (ncl + 1))) by lia. cbn [andb].
  destruct (probe v (ncl + 1) Hf ltac:(lia)) as (v1 & E1 & L1 & Hst). rewrite (m_bind_Ok _ _ _ _ _ E1), Hst.
  destruct (Z.eqb_spec (entry v (ncl + 1)) 0) as [Ez|Ez]; [exists (Found (ncl + 1)), v1; split; [done|]; split; [done|]; split; [lia|done]|].
  assert (forall c, 2 <= c <= ncl + 1 -> entry v c <> 0) as Hu' by (intros c Hc; destruct (decide (c = ncl + 1)) as [->|]; [done|apply Hu; lia]).
  destruct (Z.eqb_spec (ncl + 1) scl) as [Es|Es].
  - exists (Give 0), v1. split; [done|]. split; [done|]. split; [done|]. intros c Hc. destruct (decide (c <= ncl + 1)); [apply Hu'; lia|apply Hu; lia].
  - pose proof L1 as (F1 & (G1 & _) & _). destruct (IH fuel v1 scl (ncl + 1) F1) as (x & v2 & E2 & L2 & S2); [lia|by rewrite G1|lia|lia| |].
    + rewrite G1. intros c Hc. rewrite (looked_entry v v1) by done. destruct Hc; [apply Hu; lia|by apply Hu'].
    + exists x, v2. split; [done|]. split; [by eapply looked_trans|]. by apply (searched_looked v v1).
Qed.

(** From [scl] on: the clusters above come first. *)
Lemma find_high k : forall fuel v scl ncl, fat_ok v -> 1 <= scl <= ncl -> ncl < nent v -> nent v - ncl <= Z.of_nat k -> (k + Z.to_nat scl <= fuel)%nat ->
  (forall c, scl < c <= ncl -> entry v c <> 0) ->
  exists x v', find_free fuel scl ncl v = Ok (x, v') /\ looked v v' /\ searched v x.
Proof.
  induction k as [|k IH]; intros fuel v scl ncl Hf Hs Hn Hk Hfu Hu; [lia|]. destruct fuel as [|fuel]; [lia|]. cbn [find_free]. rewrite bind_geo.
  destruct (nent_bound v (fo_vol v Hf)) as [Hb _]. rewrite (u32_small (ncl + 1)) by lia.
  destruct (Z.leb_spec (nent v) (ncl + 1)) as [Hw|Hw]; cbn [andb].
  - assert (ncl = nent v - 1) as -> by lia. destruct (Z.ltb_spec scl 2).
    + exists (Give 0), v. split; [done|]. split; [done|]. split; [done|]. intros c Hc. apply Hu. lia.
    + destruct (probe v 2 Hf ltac:(lia)) as (v1 & E1 & L1 & Hst). rewrite (m_bind_Ok _ _ _ _ _ E1), Hst.
      destruct (Z.eqb_spec (entry v 2) 0) as [Ez|Ez]; [exists (Found 2), v1; split; [done|]; split; [done|]; split; [lia|done]|].
      assert (forall c, scl < c < nent v \/ 2 <= c <= 2 -> entry v c <> 0) as Hu' by (intros c Hc; destruct (decide (c = 2)) as [->|]; [done|apply Hu; lia]).
      destruct (Z.eqb_spec 2 scl) as [<-|Es].
      * exists (Give 0), v1. split; [done|]. split; [done|]. split; [done|]. intros c Hc. apply Hu'. lia.
      * pose proof L1 as (F1 & (G1 & _) & _). destruct (find_low (Z.to_nat scl) fuel v1 scl 2 F1) as (x & v2 & E2 & L2 & S2); [lia|rewrite G1; lia|lia|lia| |].
        -- rewrite G1. intros c Hc. rewrite (looked_entry v v1) by done. by apply Hu'.
        -- exists x, v2. split; [done|]. split; [by eapply looked_trans|]. by apply (searched_looked v v1).
  - destruct (probe v (ncl + 1) Hf ltac:(lia)) as (v1 & E1 & L1 & Hst). rewrite (m_bind_Ok _ _ _ _ _ E1), Hst.
    destruct (Z.eqb_spec (entry v (ncl + 1)) 0) as [Ez|Ez]; [exists (Found (ncl + 1)), v1; split; [done|]; split; [done|]; split; [lia|done]|].
    rewrite (proj2 (Z.eqb_neq (ncl + 1) scl)) by lia. pose proof L1 as (F1 & (G1 & _) & _).
    destruct (IH fuel v1 scl (ncl + 1) F1) as (x & v2 & E2 & L2 & S2); [lia|rewrite G1; lia|rewrite G1; lia|lia| |].
    + intros c Hc. rewrite (looked_entry v v1) by done. destruct (decide (c = ncl + 1)) as [->|]; [done|apply Hu; lia].
    + exists x, v2. split; [done|]. split; [by eapply looked_trans|]. by apply (searched_looked v v1).
Qed.

(** *** Stretching *)

Lemma choose_ok fuel v clst scl : fat_ok v -> 1 <= scl < nent v -> (scl = clst -> 2 <= scl) -> (2 * Z.to_nat (nent v) <= fuel)%nat ->
  exists x v', choose_cluster fuel clst scl v = Ok (x, v') /\ looked v v' /\ searched v x.
Proof.
  intros Hf Hs Hsc Hfu. destruct (nent_bound v (fo_vol v Hf)) as [Hb _]. unfold choose_cluster. rewrite bind_geo, bind_alc.
  assert (forall v1 scl, looked v v1 -> 1 <= scl < nent v -> exists x v', find_free fuel scl scl v1 = Ok (x, v') /\ looked v v' /\ searched v x) as Hfind.
  { intros v1 sc L1 Hsc1. pose proof L1 as (F1 & (G1 & _) & _).
    destruct (find_high (Z.to_nat (nent v - sc)) fuel v1 sc sc F1) as (x & v2 & E2 & L2 & S2); [lia|rewrite G1; lia|rewrite G1; lia|lia|lia|].
    exists x, v2. split; [done|]. split; [by eapply looked_trans|]. by apply (searched_looked v v1). }
  destruct (Z.eqb_spec scl clst) as [->|Hne]; [|apply Hfind; [done|lia]]. specialize (Hsc eq_refl). rewrite (u32_small (clst + 1)) by lia.
  set (n1 := if nent v <=? clst + 1 then 2 else clst + 1). assert (2 <= n1 < nent v) as Hn1 by (unfold n1; destruct (Z.leb_spec (nent v) (clst + 1)); lia).
  destruct (probe v n1 Hf Hn1) as (v1 & E1 & L1 & Hst). rewrite (m_bind_Ok _ _ _ _ _ E1), Hst.
  destruct (Z.eqb_spec (entry v n1) 0) as [Ez|Ez]; cbn [negb]; [by exists (Found n1), v1|]. apply Hfind; [done|].
  destruct (Z.leb_spec 2 (last_clst (v_al v))), (Z.ltb_spec (last_clst (v_al v)) (nent v)); cbn [andb]; lia.
Qed.

(** The new cluster ends the chain and follows [clst]; nothing else changes. *)
Definition appended (v : vol D) (clst ncl : Z) (v' : vol D) : Prop :=
  2 <= ncl < nent v /\ entry v ncl = 0 /\ in_table (v_geo v) (winsect (fs_win (v_fs v'))) /\
  forall x, 2 <= x < nent v -> entry v' x = if x =? ncl then fat_max (v_geo v) else if x =? clst then ncl else entry v x.

Lemma link_ok v clst ncl : fat_ok v -> 2 <= ncl < nent v -> entry v ncl = 0 -> clst = 0 \/ (2 <= clst < nent v /\ entry v clst <> 0) ->
  exists v', link_cluster clst ncl v = Ok (ncl, v') /\ fat_ok v' /\ data_step v v' /\ last_clst (v_al v') = ncl /\ appended v clst ncl v'.
Proof.
  intros Hf Hn Hz Hc. pose proof Hf as [Hv Ho [[Hfr Hla] Hex]]. destruct (nent_bound v Hv) as [Hb Hm]. unfold link_cluster. rewrite bind_geo.
  destruct (put_fat_ok v ncl 4294967295 Hv Hn ltac:(lia)) as (v1 & E1 & Hv1 & T1 & He1). rewrite (m_bind_Ok _ _ _ _ _ E1), eoc_mask in * by done.
  change (fr_ok FR_OK) with true. cbn [andb]. pose proof T1 as (G1 & _ & A1 & _).
  assert (free_count (nent v) (entry v1) = free_count (nent v) (entry v) - 1) as Hcnt.
  { rewrite (free_count_upd _ (entry v) (entry v1) ncl Hn) by (intros y Hy Hne; rewrite He1 by done; by rewrite (proj2 (Z.eqb_neq _ _) Hne)).
    rewrite He1, Z.eqb_refl, Hz, (proj2 (Z.eqb_neq (fat_max _) 0)) by (done || lia). change (0 =? 0) with true. cbv iota. lia. }
  assert (exists v2, (if negb (clst =? 0) then put_fat clst ncl else mret FR_OK) v1 = Ok (FR_OK, v2) /\ vol_ok v2 /\ table_step v v2 /\
    (forall x, 2 <= x < nent v -> entry v2 x = if x =? ncl then fat_max (v_geo v) else if x =? clst then ncl else entry v x) /\
    free_count (nent v) (entry v2) = free_count (nent v) (entry v1)) as (v2 & E2 & Hv2 & T2 & He2 & Hcnt2).
  { destruct Hc as [->|[Hc Hu]].
    - exists v1. split; [done|]. split; [done|]. split; [done|]. split; [|done]. intros x Hx. rewrite He1 by done. destruct (x =? ncl); [done|].
      destruct (Z.eqb_spec x 0); [lia|done].
    - rewrite (proj2 (Z.eqb_neq clst 0)) by lia. cbn [negb]. destruct (put_fat_ok v1 clst ncl Hv1) as (v2 & E2 & Hv2 & T2 & He2); [by rewrite G1|lia|].
      rewrite G1, small_mask in He2 by (done || lia). assert (clst <> ncl) as Hcn by (intros ->; done).
      exists v2. split; [done|]. split; [done|]. split; [by eapply table_step_trans|]. split.
      + intros x Hx. rewrite He2, He1 by done. destruct (Z.eqb_spec x clst) as [->|]; [|done]. by rewrite (proj2 (Z.eqb_neq _ _) Hcn).
      + rewrite (free_count_upd _ (entry v1) (entry v2) clst Hc) by (intros y Hy Hne; rewrite He2 by done; by rewrite (proj2 (Z.eqb_neq _ _) Hne)).
        rewrite He2, He1, Z.eqb_refl, (proj2 (Z.eqb_neq _ _) Hcn), (proj2 (Z.eqb_neq _ _) Hu), (proj2 (Z.eqb_neq ncl 0)) by (done || lia). lia. }
  rewrite (m_bind_Ok _ _ _ _ _ E2). change (fr_ok FR_OK) with true. cbv iota. rewrite bind_alc, bind_set_alc.
  pose proof T2 as (G2 & _ & A2 & _). rewrite A2, (u32_small (nent v - 2)) by lia. pose proof (free_count_pos _ _ _ Hn Hz) as Hpos.
  eexists. split; [reflexivity|]. split; [|split; [by apply table_data_step in T2|split; [done|split; [done|split; [done|split; [apply T2|exact He2]]]]]].
  split; [by apply vol_ok_alc| |].
  - intros x Hx. rewrite entry_alc. cbn [v_fs fs_geo] in Hx. rewrite G2 in Hx. rewrite He2 by done.
    destruct (x =? ncl); [lia|]. destruct (x =? clst); [lia|by apply Ho].
  - unfold alloc_ok, alloc_fits. cbn [v_fs fs_geo fs_alloc free_clst last_clst]. rewrite (free_count_ext _ (entry v2)) by (intros; apply entry_alc).
    rewrite G2. destruct (Z.ltb_spec 0 (free_clst (v_al v))), (Z.leb_spec (free_clst (v_al v)) (nent v - 2)); cbn [andb]; lia.
Qed.

(** The volume has no free cluster. *)
Definition full (v : vol D) : Prop := forall c, 2 <= c < nent v -> entry v c <> 0.

(** Outcome of a request for another cluster. *)
Definition stretched (v : vol D) (clst r : Z) (v' : vol D) : Prop :=
  (r = 0 /\ full v /\ looked v v') \/ (2 <= r /\ last_clst (v_al v') = r /\ appended v clst r v').

Lemma stretch_ok fuel v clst scl : fat_ok v -> 1 <= scl < nent v -> clst = 0 \/ (clst = scl /\ 2 <= clst < nent v /\ entry v clst <> 0) ->
  (2 * Z.to_nat (nent v) <= fuel)%nat ->
  exists r v', stretch fuel clst scl v = Ok (r, v') /\ fat_ok v' /\ data_step v v' /\ stretched v clst r v'.
Proof.
  intros Hf Hs Hc Hfu. destruct (nent_bound v (fo_vol v Hf)) as [Hb _]. unfold stretch. rewrite bind_alc.
  destruct (Z.eqb_spec (free_clst (v_al v)) 0) as [Ez|Ez].
  - exists 0, v. split; [done|]. split; [done|]. split; [done|]. left. split; [done|]. split; [|done]. intros c Hc' He.
    pose proof (free_count_pos _ _ _ Hc' He). destruct (fo_alloc v Hf) as [_ [Hu|Hu]]; lia.
  - destruct (choose_ok fuel v clst scl Hf Hs) as (x & v1 & E1 & L1 & S1); [lia|done|]. rewrite (m_bind_Ok _ _ _ _ _ E1).
    pose proof L1 as (F1 & V1 & A1 & D1). pose proof V1 as (G1 & _). destruct x as [r|ncl].
    + destruct S1 as [-> Hfull]. exists 0, v1. split; [done|]. split; [done|]. split; [done|]. by left.
    + destruct S1 as [Hn Hz]. destruct (link_ok v1 clst ncl F1) as (v2 & E2 & F2 & T2 & L2 & Hap); [by rewrite G1|by rewrite (looked_entry v v1)| |].
      { destruct Hc as [->|(_ & Hc & Hu)]; [by left|right]. rewrite G1, (looked_entry v v1) by done. done. }
      exists ncl, v2. split; [done|]. split; [done|]. split; [eapply data_step_trans; [done|done]|]. right. split; [lia|]. split; [done|].
      destruct Hap as (_ & _ & Hw & He). split; [done|]. split; [done|]. rewrite G1 in Hw, He. split; [done|]. intros x Hx. rewrite He by done. by rewrite (looked_entry v v1).
Qed.

(** [create_chain] on a consistent volume: with [clst] 0 for a new chain. *)
Lemma create_chain_ok fuel v clst : fat_ok v -> clst = 0 \/ (2 <= clst < nent v /\ entry v clst <> 0) -> (2 * Z.to_nat (nent v) <= fuel)%nat ->
  exists r v', create_chain fuel clst v = Ok (r, v') /\ fat_ok v' /\ data_step v v' /\
    ((clst <> 0 /\ 2 <= entry v clst < nent v /\ r = entry v clst /\ looked v v') \/
     ((clst <> 0 -> nent v <= entry v clst) /\ stretched v clst r v')).
Proof.
  intros Hf Hc Hfu. destruct (nent_bound v (fo_vol v Hf)) as [Hb _]. unfold create_chain. rewrite bind_geo, bind_alc.
  destruct (fo_alloc v Hf) as [[_ Hla] _]. destruct (Z.eqb_spec clst 0) as [->|Hne].
  - destruct (stretch_ok fuel v 0 (if (last_clst (v_al v) =? 0) || (nent v <=? last_clst (v_al v)) then 1 else last_clst (v_al v)) Hf)
      as (r & v' & E & F & T & S); [|by left|done|].
    { destruct (Z.eqb_spec (last_clst (v_al v)) 0), (Z.leb_spec (nent v) (last_clst (v_al v))); cbn [orb]; lia. }
    exists r, v'. split; [done|]. split; [done|]. split; [done|]. by right.
  - destruct Hc as [?|[Hc Hu]]; [done|]. destruct (probe v clst Hf Hc) as (v1 & E1 & L1 & Hst). rewrite (m_bind_Ok _ _ _ _ _ E1).
    apply orb_false_iff in Hst as [Hs1 Hs2]. apply Z.eqb_neq in Hs1. pose proof (entry_bound v clst (fo_vol v Hf)).
    rewrite (proj2 (Z.ltb_ge (entry v clst) 2)), Hs2 by lia. pose proof L1 as (F1 & V1 & A1 & D1). pose proof V1 as (G1 & _).
    destruct (Z.ltb_spec (entry v clst) (nent v)).
    + exists (entry v clst), v1. split; [done|]. split; [done|]. split; [done|]. left. split; [done|]. split; [lia|done].
    + destruct (stretch_ok fuel v1 clst clst F1) as (r & v' & E & F & T & S); [rewrite G1; lia|right; rewrite G1, (looked_entry v v1) by done; done|by rewrite G1|].
      exists r, v'. split; [done|]. split; [done|]. split; [eapply data_step_trans; [done|done]|]. right. split; [done|].
      destruct S as [(-> & Hfull & L2)|(Hr & HL & Hn & Hz & Hw & He)].
      * left. split; [done|]. split; [|by eapply looked_trans]. intros c Hc'. rewrite <- (looked_entry v v1) by done. apply Hfull. by rewrite G1.
      * right. rewrite G1 in Hn, Hw, He. rewrite (looked_entry v v1) in Hz by done. split; [done|]. split; [done|]. split; [done|]. split; [done|]. split; [done|].
        intros x Hx. rewrite He by done. by rewrite (looked_entry v v1).
Qed.

Lemma remove_chain_ok fuel v c l p : fat_ok v -> links (nent v) (entry v) c l -> l <> [] -> (Z.to_nat (nent v) <= fuel)%nat ->
  p = 0 \/ (2 <= p < nent v /\ entry v p <> 0 /\ p ∉ l) ->
  exists v', remove_chain fuel c p v = Ok (FR_OK, v') /\ fat_ok v' /\ data_step v v' /\ last_clst (v_al v') = last_clst (v_al v) /\
    (forall x, 2 <= x < nent v -> entry v' x = if bool_decide (x ∈ l) then 0 else if x =? p then fat_max (v_geo v) else entry v x).
Proof.
  intros Hf Hl Hne Hfu Hp. destruct (nent_bound v (fo_vol v Hf)) as [Hb Hm]. pose proof (links_length _ _ _ _ Hl) as Hlen.
  assert (2 <= c < nent v) as Hc by (destruct l; [done|apply Hl]). destruct (clst_range _ _ c (vo_geo v (fo_vol v Hf)) Hc) as (B1 & _).
  unfold remove_chain. rewrite bind_geo, B1.
  assert (exists v1, (if negb (p =? 0) then put_fat p 4294967295 else mret FR_OK) v = Ok (FR_OK, v1) /\ fat_ok v1 /\ data_step v v1 /\ v_al v1 = v_al v /\
    forall x, 2 <= x < nent v -> entry v1 x = if x =? p then fat_max (v_geo v) else entry v x) as (v1 & E1 & F1 & T1 & A1 & He1).
  { destruct Hp as [->|(Hp & Hu & _)].
    - exists v. split; [done|]. split; [done|]. split; [done|]. split; [done|]. intros x Hx. by rewrite (proj2 (Z.eqb_neq x 0)) by lia.
    - rewrite (proj2 (Z.eqb_neq p 0)) by lia. cbn [negb]. rewrite <- (eoc_mask v) by apply Hf. apply relink; rewrite ?eoc_mask by apply Hf; (done || lia). }
  rewrite (m_bind_Ok _ _ _ _ _ E1). change (fr_ok FR_OK) with true. cbv iota. pose proof T1 as (G1 & _).
  destruct (remove_loop_ok l fuel v1 c F1) as (v2 & E2 & F2 & T2 & L2 & He2); [|done|lia|].
  - rewrite G1. apply (links_ext _ (entry v)); [|done]. intros x Hx. rewrite He1 by (by eapply links_range).
    destruct (Z.eqb_spec x p) as [->|]; [|done]. pose proof (links_range _ _ _ _ _ Hl Hx). destruct Hp as [?|(_ & _ & Hn)]; [lia|done].
  - exists v2. split; [done|]. split; [done|]. split; [by eapply data_step_trans|]. split; [congruence|]. rewrite G1 in He2. intros x Hx.
    rewrite He2 by done. by rewrite He1.
Qed.

(** A used chain has no free cluster in it. *)
Lemma links_used v c l x : fat_ok v -> links (nent v) (entry v) c l -> x ∈ l -> 2 <= entry v x.
Proof.
  intros Hf Hl Hx. apply list_elem_of_split in Hx as (l1 & l2 & ->). apply links_suffix in Hl. destruct Hl as (_ & Hx & Hl).
  destruct (nent_bound v (fo_vol v Hf)). destruct l2; cbn [links] in Hl; lia.
Qed.

(** Truncating a chain after cluster [p]: the chain ends at [p], each
    cluster behind it is free, every other entry and every sector outside the
    table is as before, and the count of free clusters grows by exactly the
    clusters freed (and the stored count stays exact when it was known). As
    much fuel as the volume has clusters is enough. *)
Theorem chain_truncated (fuel : nat) (v : vol D) (s p c : Z) (l1 l2 : list Z) :
  fat_ok v -> links (nent v) (entry v) s (l1 ++ p :: c :: l2) -> (Z.to_nat (nent v) <= fuel)%nat ->
  exists v', remove_chain fuel c p v = Ok (FR_OK, v') /\ fat_ok v' /\ data_step v v' /\
    links (nent v) (entry v') s (l1 ++ [p]) /\
    (forall x, x ∈ c :: l2 -> entry v' x = 0) /\
    (forall x, 2 <= x < nent v -> x <> p -> x ∉ c :: l2 -> entry v' x = entry v x) /\
    free_count (nent v) (entry v') = free_count (nent v) (entry v) + zlen (c :: l2).
Proof.
  intros Hf Hl Hfu. pose proof (links_NoDup _ _ _ _ Hl) as Hnd. pose proof (links_suffix _ _ _ _ _ _ Hl) as Hp.
  assert (forall x, x ∈ l1 ++ p :: c :: l2 -> 2 <= x < nent v) as Hr by (intros x Hx; exact (links_range _ _ _ _ _ Hl Hx)).
  assert (p ∈ l1 ++ p :: c :: l2) as Hin by set_solver. apply NoDup_app in Hnd as (_ & Hd & Hnd). apply NoDup_cons in Hnd as [Hpn Hnd].
  destruct (remove_chain_ok fuel v c (c :: l2) p Hf) as (v' & E & F & T & _ & He); [|done|done| |].
  { destruct Hp as (_ & _ & Hp). pose proof Hp as (E & _). rewrite <- E in Hp. exact Hp. }
  { right. split; [by apply Hr|]. split; [|done]. pose proof (links_used _ _ _ _ Hf Hl Hin). lia. }
  exists v'. split; [done|]. split; [done|]. split; [done|].
  assert (forall x, x ∈ c :: l2 -> entry v' x = 0) as Hz.
  { intros x Hx. rewrite He by (apply Hr; set_solver). by rewrite bool_decide_true. }
  assert (forall x, 2 <= x < nent v -> x <> p -> x ∉ c :: l2 -> entry v' x = entry v x) as Hsame.
  { intros x Hx Hxp Hxn. rewrite He by done. by rewrite bool_decide_false, (proj2 (Z.eqb_neq _ _) Hxp). }
  split; [|split; [done|split; [done|]]].
  - eapply (links_cut _ (entry v)); [exact Hl| |].
    + rewrite He by (by apply Hr). rewrite bool_decide_false, Z.eqb_refl by done. destruct (nent_bound v (fo_vol v Hf)). lia.
    + intros y Hy. apply Hsame; [apply Hr; set_solver|intros ->; apply (Hd p Hy); left|]. intros Hy'. apply (Hd y Hy). by right.
  - rewrite (free_count_freed _ (c :: l2) (fun x => if x =? p then fat_max (v_geo v) else entry v x) (entry v') Hnd).
    + f_equal. rewrite (free_count_upd _ (entry v) _ p) by (first [by apply Hr | intros y _ Hy; by rewrite (proj2 (Z.eqb_neq _ _) Hy)]).
      pose proof (links_used _ _ _ _ Hf Hl Hin). destruct (nent_bound v (fo_vol v Hf)).
      rewrite Z.eqb_refl, (proj2 (Z.eqb_neq (fat_max _) 0)), (proj2 (Z.eqb_neq (entry v p) 0)) by lia. lia.
    + intros x Hx. split; [apply Hr; set_solver|]. destruct (Z.eqb_spec x p) as [->|]; [done|].
      assert (x ∈ l1 ++ p :: c :: l2) as Hxi by set_solver. pose proof (links_used _ _ _ _ Hf Hl Hxi). lia.
    + intros x Hx. by apply He.
Qed.

(** Stretching a chain whose last cluster is [x]: [create_chain] returns
    0 exactly when the volume has no free cluster, and then changes no entry;
    otherwise it returns a cluster that was free, the chain continues with it
    and ends there, every chain that does not contain [x] is as before, and
    one free cluster less is counted. Twice as much fuel as the volume has
    clusters is enough. *)
Theorem chain_stretched (fuel : nat) (v : vol D) (s x : Z) (l : list Z) :
  fat_ok v -> links (nent v) (entry v) s (l ++ [x]) -> (2 * Z.to_nat (nent v) <= fuel)%nat ->
  exists r v', create_chain fuel x v = Ok (r, v') /\ fat_ok v' /\ data_step v v' /\
    (r = 0 <-> full v) /\
    (r = 0 -> forall c, 2 <= c < nent v -> entry v' c = entry v c) /\
    (r <> 0 -> 2 <= r < nent v /\ entry v r = 0 /\ links (nent v) (entry v') s (l ++ [x; r]) /\
       (forall s' l', links (nent v) (entry v) s' l' -> x ∉ l' -> links (nent v) (entry v') s' l') /\
       free_count (nent v) (entry v') = free_count (nent v) (entry v) - 1).
Proof.
  intros Hf Hl Hfu. assert (x ∈ l ++ [x]) as Hin by set_solver. pose proof (links_range _ _ _ _ _ Hl Hin) as Hx.
  pose proof (links_used _ _ _ _ Hf Hl Hin) as Hu. pose proof (links_suffix _ _ l _ x [] Hl) as (_ & _ & Hend). cbn [links] in Hend.
  destruct (nent_bound v (fo_vol v Hf)) as [Hb Hm].
  destruct (create_chain_ok fuel v x Hf) as (r & v' & E & F & T & [(_ & ? & _)|(_ & [(-> & Hfull & L)|(Hr & _ & Hn & Hz & _ & He)])]); [right; lia|done|lia| |].
  - exists 0, v'. split; [done|]. split; [done|]. split; [done|]. split; [done|]. split; [|done]. intros _ c _. by apply looked_entry.
  - assert (forall l' : list Z, (forall y, y ∈ l' -> 2 <= y < nent v /\ entry v y <> 0 /\ y <> x) -> forall y, y ∈ l' -> entry v' y = entry v y) as Hkeep.
    { intros l' Hk y Hy. destruct (Hk y Hy) as (Hy1 & Hy2 & Hy3). rewrite He by done.
      rewrite (proj2 (Z.eqb_neq y r)), (proj2 (Z.eqb_neq y x)); [done|done|]. intros ->. done. }
    assert (r <> x) as Hrx by (intros ->; lia).
    exists r, v'. split; [done|]. split; [done|]. split; [done|]. split; [split; [lia|intros Hfull; by destruct (Hfull r Hn)]|]. split; [lia|].
    intros _. split; [done|]. split; [done|]. split; [|split].
    + eapply (links_snoc _ (entry v)); [exact Hl|done| | |apply Hkeep].
      * rewrite He, (proj2 (Z.eqb_neq x r)), Z.eqb_refl by (done || lia). done.
      * rewrite He, Z.eqb_refl by done. lia.
      * intros y Hy. assert (y ∈ l ++ [x]) as Hyi by set_solver. split; [by eapply links_range|].
        pose proof (links_used _ _ _ _ Hf Hl Hyi). split; [lia|]. intros ->.
        pose proof (links_NoDup _ _ _ _ Hl) as Hnd. apply NoDup_app in Hnd as (_ & Hd & _). apply (Hd x Hy). left.
    + intros s' l' Hl' Hx'. apply (links_ext _ (entry v)); [|done]. intros y Hy. symmetry. revert y Hy. apply Hkeep. intros y Hy.
      split; [by eapply links_range|]. pose proof (links_used _ _ _ _ Hf Hl' Hy). split; [lia|]. intros ->. done.
    + rewrite (free_count_upd _ (fun y => if y =? x then r else entry v y) (entry v') r Hn).
      * rewrite He, Z.eqb_refl, (proj2 (Z.eqb_neq r x)), Hz, (proj2 (Z.eqb_neq (fat_max _) 0)) by (done || lia). change (0 =? 0) with true. cbv iota.
        rewrite (free_count_upd _ (entry v) _ x Hx) by (intros y _ Hy; by rewrite (proj2 (Z.eqb_neq _ _) Hy)).
        rewrite Z.eqb_refl, (proj2 (Z.eqb_neq r 0)), (proj2 (Z.eqb_neq (entry v x) 0)) by lia. lia.
      * intros y Hy Hne. rewrite He by done. by rewrite (proj2 (Z.eqb_neq _ _) Hne).
Qed.

End Ops.

(** *** Concrete runs *)

Lemma get_zeros n i : get (replicate n 0) i = 0.
Proof. unfold get. destruct (nth_in_or_default (Z.to_nat i) (replicate n 0) 0) as [Hin|E]; [|done]. apply list_elem_of_In, elem_of_replicate in Hin. tauto. Qed.

Lemma blank_entry {D : Type} `{BlockLaws D} (d : D) c : (forall s, 1 <= s -> bd_sector d s = replicate 512 0) -> entry (blank d) c = 0.
Proof.
  intros Hs. assert (forall k, fat_byte (blank d) k = 0) as Hz.
  { intros k. unfold fat_byte. cbn [blank v_fs fs_geo demo_geo fatbase fsize]. destruct (Z.leb_spec 0 k), (k <? _); cbn [andb]; try done. unfold vsec, blank. cbn [v_fs v_dev fs_win win winsect].
    rewrite Hs by dlia. destruct (_ =? 4294967295); apply get_zeros. }
  unfold entry, entry_of. cbn [blank v_fs fs_geo demo_geo fs_type]. rewrite !Hz. by destruct (Z.odd c).
Qed.

Lemma blank_fat_ok {D : Type} `{BlockLaws D} (d : D) : bd_ready d -> 640 <= bd_size d < 4294967295 -> (forall s, 1 <= s -> bd_sector d s = replicate 512 0) -> fat_ok (blank d).
Proof.
  intros Hr Hz Hs. split; [by apply blank_ok|intros c _; by rewrite blank_entry|]. split; [unfold alloc_fits; cbn; lia|]. right.
  rewrite (free_count_ext _ (fun _ => 0)) by (intros; by apply blank_entry). reflexivity.
Qed.

Lemma demo_fat_ok : fat_ok demo_vol.
Proof. apply blank_fat_ok; [exact demo_ram_ok|cbn; lia|done]. Qed.

(** A chain of one cluster, then of two. *)
Lemma demo_one : exists v1, create_chain 1200 0 demo_vol = Ok (2, v1) /\ fat_ok v1 /\ fs_geo (v_fs v1) = demo_geo /\ links 600 (entry v1) 2 [2].
Proof.
  destruct (create_chain_ok 1200 demo_vol 0 demo_fat_ok) as (r & v1 & E1 & F1 & (G1 & _) & Hc); [by left|cbn; lia|].
  assert (r = 2) as -> by (vm_compute in E1; by injection E1 as <-). destruct Hc as [[? _]|(_ & [[? _]|(_ & _ & Hn & _ & _ & He)])]; [done|done|].
  exists v1. split; [done|]. split; [done|]. split; [done|]. cbn [links]. split; [done|]. split; [lia|]. rewrite He by (cbn; lia). cbn. lia.
Qed.

Lemma demo_two : exists v1 v2, create_chain 1200 0 demo_vol = Ok (2, v1) /\ create_chain 1200 2 v1 = Ok (3, v2) /\
  fat_ok v2 /\ fs_geo (v_fs v2) = demo_geo /\ links 600 (entry v2) 2 [2; 3].
Proof.
  destruct demo_one as (v1 & E1 & F1 & G1 & _ & _ & L1). assert (600 <= entry v1 2) as L by exact L1.
  destruct (create_chain_ok 1200 v1 2 F1) as (r & v2 & E2 & F2 & (G2 & _) & Hc); [right; rewrite G1; cbn; lia|rewrite G1; cbn; lia|].
  assert (r = 3) as -> by (vm_compute in E1; injection E1 as <-; vm_compute in E2; by injection E2 as <-).
  rewrite G1 in Hc. destruct Hc as [(_ & ? & _)|(_ & [[? _]|(_ & _ & Hn & _ & _ & He)])]; [cbn in *; lia|done|]. rewrite G1 in He.
  exists v1, v2. split; [done|]. split; [done|]. split; [done|]. split; [congruence|]. cbn [links].
  assert (entry v2 2 = 3 /\ entry v2 3 = 4095) as [-> ->] by (split; rewrite He by (cbn; lia); reflexivity). lia.
Qed.

Lemma chain_stretched_witness :
  exists v1 v2, create_chain 1200 0 demo_vol = Ok (2, v1) /\ create_chain 1200 2 v1 = Ok (3, v2) /\ links 600 (entry v2) 2 [2; 3].
Proof.
  destruct demo_one as (v1 & E1 & F1 & G1 & L1).
  destruct (chain_stretched 1200 v1 2 2 [] F1) as (r & v2 & E2 & F2 & _ & _ & _ & Hr); [rewrite G1; exact L1|rewrite G1; cbn; lia|].
  assert (r = 3) as -> by (vm_compute in E1; injection E1 as <-; vm_compute in E2; by injection E2 as <-).
  destruct (Hr ltac:(lia)) as (_ & _ & L & _). rewrite G1 in L. exists v1, v2. done.
Defined.

Lemma chain_truncated_witness :
  exists v2 v3, fs_geo (v_fs v2) = demo_geo /\ links 600 (entry v2) 2 [2; 3] /\ remove_chain 600 3 2 v2 = Ok (FR_OK, v3) /\
    links 600 (entry v3) 2 [2] /\ entry v3 3 = 0.
Proof.
  destruct demo_two as (v1 & v2 & _ & _ & F2 & G2 & L2).
  destruct (chain_truncated 600 v2 2 2 3 [] [] F2) as (v3 & E3 & _ & _ & L3 & Z3 & _); [rewrite G2; exact L2|rewrite G2; cbn; lia|].
  rewrite G2 in L3. exists v2, v3. split; [done|]. split; [done|]. split; [done|]. split; [done|]. apply Z3. left.
Defined.
