(* ===== verification/FatFile.v ===== *)
(** * FatFile: open files (ff.c)

    Reading, writing, seeking, truncating, synchronising and closing a file
    through its cluster chain and its one-sector buffer: [f_read], [f_write],
    [f_lseek], [f_truncate], [f_sync], [f_close]. *)

From Stdlib Require Import ZArith Lia Bool.
From stdpp Require Import base list sets.
From S2P Require Import Prelude Hw Ata Fat FatChain.
From stdpp Require Import options.

(** ** File objects *)

Definition FA_READ : Z := 1.
Definition FA_WRITE : Z := 2.
Definition FA_MODIFIED : Z := 64.
Definition FA_DIRTY : Z := 128.

(** [o_fs]: the pointer to the file system object is not null. *)
Record FFOBJID := mk_obj { o_fs : bool; o_id : Z; o_attr : Z; o_stat : Z; sclust : Z; objsize : Z }.

(** [dir_ptr] is an offset into the window's buffer. *)
Record FIL := mk_fil {
  f_obj : FFOBJID; f_flag : Z; f_err : FRESULT; fptr : Z; clust : Z; f_sect : Z; dir_sect : Z; dir_ptr : Z; f_buf : list Z
}.

Definition fil_obj (o : FFOBJID) (f : FIL) : FIL :=
  mk_fil o (f_flag f) (f_err f) (fptr f) (clust f) (f_sect f) (dir_sect f) (dir_ptr f) (f_buf f).
Definition fil_flag (x : Z) (f : FIL) : FIL :=
  mk_fil (f_obj f) x (f_err f) (fptr f) (clust f) (f_sect f) (dir_sect f) (dir_ptr f) (f_buf f).
Definition fil_err (x : FRESULT) (f : FIL) : FIL :=
  mk_fil (f_obj f) (f_flag f) x (fptr f) (clust f) (f_sect f) (dir_sect f) (dir_ptr f) (f_buf f).
Definition fil_fptr (x : Z) (f : FIL) : FIL :=
  mk_fil (f_obj f) (f_flag f) (f_err f) x (clust f) (f_sect f) (dir_sect f) (dir_ptr f) (f_buf f).
Definition fil_clust (x : Z) (f : FIL) : FIL :=
  mk_fil (f_obj f) (f_flag f) (f_err f) (fptr f) x (f_sect f) (dir_sect f) (dir_ptr f) (f_buf f).
Definition fil_cache (s : Z) (b : list Z) (f : FIL) : FIL :=
  mk_fil (f_obj f) (f_flag f) (f_err f) (fptr f) (clust f) s (dir_sect f) (dir_ptr f) b.
Definition obj_sclust (x : Z) (o : FFOBJID) : FFOBJID := mk_obj (o_fs o) (o_id o) (o_attr o) (o_stat o) x (objsize o).
Definition obj_size (x : Z) (o : FFOBJID) : FFOBJID := mk_obj (o_fs o) (o_id o) (o_attr o) (o_stat o) (sclust o) x.

(** An open file and the volume it lives on. *)
Record open_file (D : Type) := mk_open { of_vol : vol D; of_fil : FIL }.
Arguments mk_open {D} _ _.
Arguments of_vol {D} _.
Arguments of_fil {D} _.

(** What one pass of a transfer loop did: [ABORT], no free cluster, or bytes
    transferred. *)
Inductive moved := Stop (r : FRESULT) | NoRoom | Moved (n : Z).

(** Position of a seek: [ABORT], or a cluster and an offset from its start. *)
Inductive sought := Failed (r : FRESULT) | At (clst ofs : Z).

(** [memcpy(buff + off, data, length data)] into a buffer. *)
Definition store (buff : list Z) (off : Z) (data : list Z) : res (list Z) :=
  if (0 <=? off) && (off + zlen data <=? zlen buff)
  then Ok (take (Z.to_nat off) buff ++ data ++ drop (Z.to_nat (off + zlen data)) buff) else Fault.

(** [n] bytes at [off]. *)
Definition fetch (buff : list Z) (off n : Z) : res (list Z) :=
  if (0 <=? off) && (0 <=? n) && (off + n <=? zlen buff) then Ok (take (Z.to_nat n) (drop (Z.to_nat off) buff)) else Fault.

Section File.
Context {D : Type} `{BlockDev D}.
Abbreviation FM := (M (open_file D)).

(** ** Access to the parts of the state *)

Definition onvol {A} (m : M (vol D) A) : FM A := fun x =>
  match m (of_vol x) with
  | Ok (a, v) => Ok (a, mk_open v (of_fil x))
  | Fault => Fault | Spin => Spin | NoFuel => NoFuel
  end.
Definition fil : FM FIL := gets of_fil.
Definition set_fil (k : FIL -> FIL) : FM unit := modify (fun x => mk_open (of_vol x) (k (of_fil x))).

Definition has (flag bit : Z) : bool := truth (Z.land flag bit).

(** [ABORT(fs, res)]: the error sticks to the file. *)
Definition abort (r : FRESULT) : FM FRESULT := _ ← set_fil (fil_err r); mret r.

Definition validate : FM FRESULT :=
  f ← fil; g ← onvol geo; x ← gets (fun x => bd_noinit (v_dev (of_vol x)));
  mret (if o_fs (f_obj f) && truth (fs_type g) && (o_id (f_obj f) =? fs_id g) && negb x then FR_OK else FR_INVALID_OBJECT).

(** [validate] and the sticky error. *)
Definition check_file : FM FRESULT :=
  res ← validate; f ← fil; mret (if fr_ok res then f_err f else res).

(** Writing back the file's buffer: [true] when there is no error. *)
Definition flush : FM bool :=
  f ← fil;
  if has (f_flag f) FA_DIRTY then
    r ← onvol (drive (bd_write (f_buf f) (f_sect f) 1));
    if res_ok r then _ ← set_fil (fun f => fil_flag (Z.land (f_flag f) 127) f); mret true else mret false
  else mret true.

(** Filling the buffer from [sect]; the sector number is set by the caller. *)
Definition fill (sect : Z) : FM bool :=
  x ← onvol (drive (bd_read sect 1));
  _ ← set_fil (fun f => fil_cache (f_sect f) x.2 f);
  mret (res_ok x.1).

(** ** Reading *)

(** The cluster of the file pointer, on a cluster boundary. *)
Definition read_follow : FM FRESULT :=
  f ← fil;
  clst ← (if fptr f =? 0 then mret (sclust (f_obj f)) else onvol (get_fat (clust f)));
  if clst <? 2 then abort FR_INT_ERR
  else if clst =? DISK_ERROR then abort FR_DISK_ERR
  else _ ← set_fil (fil_clust clst); mret FR_OK.

(** Copying from the buffer up to the end of the sector. *)
Definition read_part (btr br : Z) (buff : list Z) : FM (moved * list Z) :=
  f ← fil;
  let rcnt := SS - fptr f mod SS in
  let rcnt := if btr <? rcnt then btr else rcnt in
  data ← lift (fetch (f_buf f) (fptr f mod SS) rcnt);
  buff ← lift (store buff br data);
  mret (Moved rcnt, buff).

(** Whole sectors, directly into the caller's buffer. *)
Definition read_direct (sect csect cc br : Z) (buff : list Z) : FM (moved * list Z) :=
  f ← fil; g ← onvol geo;
  let cc := if csize g <? u32 (csect + cc) then u32 (csize g - csect) else cc in
  x ← onvol (drive (bd_read sect cc));
  buff ← lift (store buff br x.2);
  if res_ok x.1 then
    buff ← (if has (f_flag f) FA_DIRTY && (u32 (f_sect f - sect) <? cc)
            then lift (store buff (br + u32 (f_sect f - sect) * SS) (f_buf f)) else mret buff);
    mret (Moved (u32 (SS * cc)), buff)
  else r ← abort FR_DISK_ERR; mret (Stop r, buff).

Definition read_step (btr br : Z) (buff : list Z) : FM (moved * list Z) :=
  f ← fil; g ← onvol geo;
  if fptr f mod SS =? 0 then
    let csect := Z.land (fptr f / SS) (csize g - 1) in
    r ← (if csect =? 0 then read_follow else mret FR_OK);
    if fr_ok r then
      f ← fil;
      let sect := clst2sect g (clust f) in
      if sect =? 0 then r ← abort FR_INT_ERR; mret (Stop r, buff)
      else
        let sect := u32 (sect + csect) in
        let cc := btr / SS in
        if 0 <? cc then read_direct sect csect cc br buff
        else
          ok ← (if negb (f_sect f =? sect) then b ← flush; if (b : bool) then fill sect else mret false else mret true);
          if (ok : bool) then _ ← set_fil (fun f => fil_cache sect (f_buf f) f); read_part btr br buff
          else r ← abort FR_DISK_ERR; mret (Stop r, buff)
    else mret (Stop r, buff)
  else read_part btr br buff.

Fixpoint read_loop (fuel : nat) (btr br : Z) (buff : list Z) : FM (FRESULT * Z * list Z) :=
  match fuel with
  | O => lift NoFuel
  | S fuel =>
      if btr =? 0 then mret (FR_OK, br, buff)
      else
        x ← read_step btr br buff;
        match x.1 with
        | Moved rcnt =>
            _ ← set_fil (fun f => fil_fptr (u32 (fptr f + rcnt)) f);
            read_loop fuel (u32 (btr - rcnt)) (u32 (br + rcnt)) x.2
        | Stop r => mret (r, br, x.2)
        | NoRoom => mret (FR_OK, br, x.2)
        end
  end.

(** The result, the value of [*br] and the buffer. *)
Definition f_read (fuel : nat) (buff : list Z) (btr : Z) : FM (FRESULT * Z * list Z) :=
  res ← check_file;
  if negb (fr_ok res) then mret (res, 0, buff)
  else
    f ← fil;
    if negb (has (f_flag f) FA_READ) then mret (FR_DENIED, 0, buff)
    else
      let remain := u32 (objsize (f_obj f) - fptr f) in
      let btr := if remain <? btr then remain else btr in
      read_loop fuel btr 0 buff.

(** ** Writing *)

Section Stretching.
(** Fuel of the cluster searches. *)
Context (cfuel : nat).

(** The cluster found or allocated becomes the current one, and the first one
    of an empty file; [None] when the volume is full. *)
Definition take_cluster (clst : Z) : FM (option FRESULT) :=
  if clst =? 0 then mret None
  else if clst =? 1 then r ← abort FR_INT_ERR; mret (Some r)
  else if clst =? DISK_ERROR then r ← abort FR_DISK_ERR; mret (Some r)
  else
    _ ← set_fil (fil_clust clst);
    _ ← set_fil (fun f => if sclust (f_obj f) =? 0 then fil_obj (obj_sclust clst (f_obj f)) f else f);
    mret (Some FR_OK).

(** The cluster of the file pointer, on a cluster boundary, allocated when
    there is none. *)
Definition write_follow : FM (option FRESULT) :=
  f ← fil;
  clst ← (if fptr f =? 0 then
            let clst := sclust (f_obj f) in
            if clst =? 0 then onvol (create_chain cfuel 0) else mret clst
          else onvol (create_chain cfuel (clust f)));
  take_cluster clst.

(** Copying into the buffer up to the end of the sector. *)
Definition write_part (btw bw : Z) (wbuff : list Z) : FM moved :=
  f ← fil;
  let wcnt := SS - fptr f mod SS in
  let wcnt := if btw <? wcnt then btw else wcnt in
  data ← lift (fetch wbuff bw wcnt);
  b ← lift (store (f_buf f) (fptr f mod SS) data);
  _ ← set_fil (fun f => fil_flag (Z.lor (f_flag f) FA_DIRTY) (fil_cache (f_sect f) b f));
  mret (Moved wcnt).

(** Whole sectors, directly from the caller's buffer. *)
Definition write_direct (sect csect cc bw : Z) (wbuff : list Z) : FM moved :=
  f ← fil; g ← onvol geo;
  let cc := if csize g <? u32 (csect + cc) then u32 (csize g - csect) else cc in
  data ← lift (fetch wbuff bw (SS * cc));
  r ← onvol (drive (bd_write data sect cc));
  if res_ok r then
    _ ← (if u32 (f_sect f - sect) <? cc
         then b ← lift (fetch wbuff (bw + u32 (f_sect f - sect) * SS) SS);
              set_fil (fun f => fil_flag (Z.land (f_flag f) 127) (fil_cache (f_sect f) b f))
         else skip);
    mret (Moved (u32 (SS * cc)))
  else r ← abort FR_DISK_ERR; mret (Stop r).

Definition write_step (btw bw : Z) (wbuff : list Z) : FM moved :=
  f ← fil; g ← onvol geo;
  if fptr f mod SS =? 0 then
    let csect := Z.land (fptr f / SS) (csize g - 1) in
    o ← (if csect =? 0 then write_follow else mret (Some FR_OK));
    match o with
    | None => mret NoRoom
    | Some r =>
        if fr_ok r then
          ok ← flush;
          if (ok : bool) then
            f ← fil;
            let sect := clst2sect g (clust f) in
            if sect =? 0 then r ← abort FR_INT_ERR; mret (Stop r)
            else
              let sect := u32 (sect + csect) in
              let cc := btw / SS in
              if 0 <? cc then write_direct sect csect cc bw wbuff
              else
                ok ← (if negb (f_sect f =? sect) && (fptr f <? objsize (f_obj f)) then fill sect else mret true);
                if (ok : bool) then _ ← set_fil (fun f => fil_cache sect (f_buf f) f); write_part btw bw wbuff
                else r ← abort FR_DISK_ERR; mret (Stop r)
          else r ← abort FR_DISK_ERR; mret (Stop r)
        else mret (Stop r)
    end
  else write_part btw bw wbuff.

(** [fp->fptr += wcnt] and the growth of the file. *)
Definition grow (wcnt : Z) (f : FIL) : FIL :=
  let p := u32 (fptr f + wcnt) in
  fil_fptr p (fil_obj (obj_size (if objsize (f_obj f) <? p then p else objsize (f_obj f)) (f_obj f)) f).

(** [None] as result: the loop was left normally or by its [break]. *)
Fixpoint write_loop (fuel : nat) (btw bw : Z) (wbuff : list Z) : FM (option FRESULT * Z) :=
  match fuel with
  | O => lift NoFuel
  | S fuel =>
      if btw =? 0 then mret (None, bw)
      else
        x ← write_step btw bw wbuff;
        match x with
        | Moved wcnt => _ ← set_fil (grow wcnt); write_loop fuel (u32 (btw - wcnt)) (u32 (bw + wcnt)) wbuff
        | NoRoom => mret (None, bw)
        | Stop r => mret (Some r, bw)
        end
  end.

Definition f_write (fuel : nat) (wbuff : list Z) (btw : Z) : FM (FRESULT * Z) :=
  res ← check_file;
  if negb (fr_ok res) then mret (res, 0)
  else
    f ← fil;
    if negb (has (f_flag f) FA_WRITE) then mret (FR_DENIED, 0)
    else
      let btw := if u32 (fptr f + btw) <? fptr f then u32 (4294967295 - fptr f) else btw in
      x ← write_loop fuel btw 0 wbuff;
      match x.1 with
      | Some r => mret (r, x.2)
      | None => _ ← set_fil (fun f => fil_flag (Z.lor (f_flag f) FA_MODIFIED) f); mret (FR_OK, x.2)
      end.

(** ** Seeking *)

(** The loop over the clusters. *)
Fixpoint seek_loop (fuel : nat) (bcs ofs clst : Z) : FM sought :=
  match fuel with
  | O => lift NoFuel
  | S fuel =>
      if bcs <? ofs then
        let ofs := u32 (ofs - bcs) in
        _ ← set_fil (fun f => fil_fptr (u32 (fptr f + bcs)) f);
        f ← fil; g ← onvol geo;
        clst ← (if has (f_flag f) FA_WRITE then onvol (create_chain cfuel clst) else onvol (get_fat clst));
        if has (f_flag f) FA_WRITE && (clst =? 0) then mret (At clst 0)
        else if clst =? DISK_ERROR then r ← abort FR_DISK_ERR; mret (Failed r)
        else if (clst <=? 1) || (n_fatent g <=? clst) then r ← abort FR_INT_ERR; mret (Failed r)
        else _ ← set_fil (fil_clust clst); seek_loop fuel bcs ofs clst
      else mret (At clst ofs)
  end.

(** Where the search for the target cluster starts: the current cluster, or
    the first one of the file. *)
Definition seek_start (bcs ifptr ofs : Z) : FM sought :=
  f ← fil;
  if (0 <? ifptr) && ((ifptr - 1) / bcs <=? (ofs - 1) / bcs) then
    let p := Z.land (ifptr - 1) (u32 (Z.lnot (bcs - 1))) in
    _ ← set_fil (fil_fptr p); mret (At (clust f) (u32 (ofs - p)))
  else
    let clst := sclust (f_obj f) in
    if clst =? 0 then
      clst ← onvol (create_chain cfuel 0);
      if clst =? 1 then r ← abort FR_INT_ERR; mret (Failed r)
      else if clst =? DISK_ERROR then r ← abort FR_DISK_ERR; mret (Failed r)
      else
        _ ← set_fil (fun f => fil_obj (obj_sclust clst (f_obj f)) f);
        _ ← set_fil (fil_clust clst); mret (At clst ofs)
    else _ ← set_fil (fil_clust clst); mret (At clst ofs).

(** The file pointer and the sector it lies in, 0 on a sector boundary. *)
Definition seek_place (fuel : nat) (ifptr ofs : Z) : FM (FRESULT * Z) :=
  if 0 <? ofs then
    g ← onvol geo;
    let bcs := u32 (csize g * SS) in
    x ← seek_start bcs ifptr ofs;
    match x with
    | Failed r => mret (r, 0)
    | At clst ofs =>
        if negb (clst =? 0) then
          x ← seek_loop fuel bcs ofs clst;
          match x with
          | Failed r => mret (r, 0)
          | At clst ofs =>
              _ ← set_fil (fun f => fil_fptr (u32 (fptr f + ofs)) f);
              if truth (ofs mod SS) then
                let nsect := clst2sect g clst in
                if nsect =? 0 then r ← abort FR_INT_ERR; mret (r, 0)
                else mret (FR_OK, u32 (nsect + ofs / SS))
              else mret (FR_OK, 0)
          end
        else mret (FR_OK, 0)
    end
  else mret (FR_OK, 0).

Definition f_lseek (fuel : nat) (ofs : Z) : FM FRESULT :=
  res ← check_file;
  if negb (fr_ok res) then mret res
  else
    f ← fil;
    let ofs := if (objsize (f_obj f) <? ofs) && negb (has (f_flag f) FA_WRITE) then objsize (f_obj f) else ofs in
    let ifptr := fptr f in
    _ ← set_fil (fil_fptr 0);
    x ← seek_place fuel ifptr ofs;
    if fr_ok x.1 then
      _ ← set_fil (fun f => if objsize (f_obj f) <? fptr f
             then fil_flag (Z.lor (f_flag f) FA_MODIFIED) (fil_obj (obj_size (fptr f) (f_obj f)) f) else f);
      f ← fil;
      if truth (fptr f mod SS) && negb (x.2 =? f_sect f) then
        ok ← flush;
        if (ok : bool) then
          ok ← fill x.2;
          if (ok : bool) then _ ← set_fil (fun f => fil_cache x.2 (f_buf f) f); mret FR_OK
          else abort FR_DISK_ERR
        else abort FR_DISK_ERR
      else mret FR_OK
    else mret x.1.

(** ** Truncating *)

Definition f_truncate : FM FRESULT :=
  res ← check_file;
  if negb (fr_ok res) then mret res
  else
    f ← fil;
    if negb (has (f_flag f) FA_WRITE) then mret FR_DENIED
    else if fptr f <? objsize (f_obj f) then
      res ← (if fptr f =? 0 then
               res ← onvol (remove_chain cfuel (sclust (f_obj f)) 0);
               _ ← set_fil (fun f => fil_obj (obj_sclust 0 (f_obj f)) f); mret res
             else
               ncl ← onvol (get_fat (clust f)); g ← onvol geo;
               if ncl =? DISK_ERROR then mret FR_DISK_ERR
               else if ncl =? 1 then mret FR_INT_ERR
               else if ncl <? n_fatent g then onvol (remove_chain cfuel ncl (clust f))
               else mret FR_OK);
      _ ← set_fil (fun f => fil_flag (Z.lor (f_flag f) FA_MODIFIED) (fil_obj (obj_size (fptr f) (f_obj f)) f));
      res ← (if fr_ok res then ok ← flush; mret (if (ok : bool) then FR_OK else FR_DISK_ERR) else mret res);
      if fr_ok res then mret FR_OK else abort res
    else mret FR_OK.

End Stretching.

(** ** The directory entry *)

Definition DIR_Attr : Z := 11.
Definition DIR_LstAccDate : Z := 18.
Definition DIR_FstClusHI : Z := 20.
Definition DIR_ModTime : Z := 22.
Definition DIR_FstClusLO : Z := 26.
Definition DIR_FileSize : Z := 28.
Definition AM_ARC : Z := 32.

Definition ld_clust (g : geometry) (b : list Z) (dir : Z) : res Z :=
  cl ← ld_word b (dir + DIR_FstClusLO);
  if fs_type g =? FS_FAT32 then hi ← ld_word b (dir + DIR_FstClusHI); Ok (Z.lor cl (u32 (Z.shiftl hi 16))) else Ok cl.

Definition st_clust (g : geometry) (b : list Z) (dir cl : Z) : res (list Z) :=
  b ← st_word b (dir + DIR_FstClusLO) (u16 cl);
  if fs_type g =? FS_FAT32 then st_word b (dir + DIR_FstClusHI) (u16 (Z.shiftr cl 16)) else Ok b.

(** The fields [f_sync] updates in the entry at offset [dir]. *)
Definition put_entry (g : geometry) (o : FFOBJID) (tm dir : Z) (b : list Z) : res (list Z) :=
  a ← rd b (dir + DIR_Attr);
  b ← wr b (dir + DIR_Attr) (Z.lor a AM_ARC);
  b ← st_clust g b dir (sclust o);
  b ← st_dword b (dir + DIR_FileSize) (objsize o);
  b ← st_dword b (dir + DIR_ModTime) tm;
  st_word b (dir + DIR_LstAccDate) 0.

Definition f_sync : FM FRESULT :=
  res ← validate;
  if fr_ok res then
    f ← fil;
    if has (f_flag f) FA_MODIFIED then
      ok ← flush;
      if (ok : bool) then
        let tm := get_fattime in
        res ← onvol (move_window (dir_sect f));
        if fr_ok res then
          f ← fil; g ← onvol geo;
          _ ← onvol (win_put (put_entry g (f_obj f) tm (dir_ptr f)));
          res ← onvol sync_fs;
          _ ← set_fil (fun f => fil_flag (Z.land (f_flag f) 191) f);
          mret res
        else mret res
      else mret FR_DISK_ERR
    else mret res
  else mret res.

Definition f_close : FM FRESULT :=
  res ← f_sync;
  if fr_ok res then
    res ← validate;
    if fr_ok res then
      _ ← set_fil (fun f => let o := f_obj f in fil_obj (mk_obj false (o_id o) (o_attr o) (o_stat o) (sclust o) (objsize o)) f);
      mret res
    else mret res
  else mret res.

End File.
