(* ===== verification/FatRead.v ===== *)
(** * FatRead: the content of a file, and what reading it returns

    The sectors of a file along its cluster chain, the invariant that ties the
    file object's position and buffer to them, and the functional behaviour of
    [f_read] and [f_lseek]. *)

From Stdlib Require Import ZArith Lia Bool.
From stdpp Require Import base list sets.
From S2P Require Import Prelude Hw Ata Fat FatChain FatFile.
From stdpp Require Import options.

(** ** Chains by position *)

Lemma links_head n f c l : links n f c l -> l <> [] -> get l 0 = c.
Proof. destruct l as [|x l]; [done|]. by intros (-> & _). Qed.

Lemma get_cons_S (x : Z) l i : 0 <= i -> get (x :: l) (i + 1) = get l i.
Proof. intros Hi. unfold get. replace (Z.to_nat (i + 1)) with (S (Z.to_nat i)) by lia. done. Qed.

Lemma get_in (l : list Z) i : 0 <= i < zlen l -> get l i ∈ l.
Proof. intros Hi. unfold get. apply list_elem_of_In, nth_In. lia. Qed.

(** The next cluster of the chain, and its end. *)
Lemma links_next n f l : forall c i, links n f c l -> 0 <= i < zlen l - 1 -> f (get l i) = get l (i + 1).
Proof.
  induction l as [|x l IH]; intros c i Hl Hi; [cbn in Hi; lia|]. destruct Hl as (-> & Hc & Hl). cbn [length] in Hi.
  rewrite get_cons_S by lia. destruct (decide (i = 0)) as [->|Hn].
  - change (get (c :: l) 0) with c. symmetry. eapply links_head; [exact Hl|]. intros ->. cbn in Hi. lia.
  - replace i with (i - 1 + 1) at 1 by lia. rewrite get_cons_S by lia. rewrite (IH _ (i - 1) Hl) by lia. f_equal. lia.
Qed.

Lemma links_last n f l : forall c, links n f c l -> l <> [] -> n <= f (get l (zlen l - 1)).
Proof.
  induction l as [|x l IH]; intros c Hl Hne; [done|]. destruct Hl as (-> & Hc & Hl). cbn [length]. destruct l as [|y l].
  - exact Hl.
  - replace (Z.of_nat (S (length (y :: l))) - 1) with (zlen (y :: l) - 1 + 1) by (cbn [length]; lia). rewrite get_cons_S by (cbn [length]; lia).
    by eapply IH.
Qed.

(** A chain around position [i]. *)
Lemma split_at (l : list Z) i : 0 <= i < zlen l -> l = take (Z.to_nat i) l ++ get l i :: drop (Z.to_nat (i + 1)) l.
Proof.
  intros Hi. rewrite <- (take_drop (Z.to_nat i) l) at 1. f_equal. replace (Z.to_nat (i + 1)) with (S (Z.to_nat i)) by lia. apply drop_S. unfold get.
  destruct (nth_lookup_or_length l (Z.to_nat i) 0); [done|lia].
Qed.

Lemma take_S_at (l : list Z) i : 0 <= i < zlen l -> take (Z.to_nat (i + 1)) l = take (Z.to_nat i) l ++ [get l i].
Proof.
  intros Hi. rewrite (split_at l i Hi) at 1. replace (Z.to_nat (i + 1)) with (length (take (Z.to_nat i) l) + 1)%nat by (rewrite length_take; lia).
  rewrite take_app_add. done.
Qed.

(** ** Pieces of buffers *)

Lemma store_ok buff off data : 0 <= off -> off + zlen data <= zlen buff ->
  exists b, store buff off data = Ok b /\ length b = length buff /\
    forall i, 0 <= i -> get b i = if (off <=? i) && (i <? off + zlen data) then get data (i - off) else get buff i.
Proof.
  intros Ho Hl. unfold store. rewrite (proj2 (Z.leb_le 0 off)), (proj2 (Z.leb_le _ _)) by lia. eexists. split; [reflexivity|].
  split; [rewrite !length_app, length_take, length_drop; lia|]. intros i Hi. destruct (Z.leb_spec off i); cbn [andb].
  - rewrite get_app_r by (rewrite length_take; lia). rewrite length_take. replace (i - Z.of_nat (Z.to_nat off `min` length buff)) with (i - off) by lia.
    destruct (Z.ltb_spec i (off + zlen data)); [by rewrite get_app_l by lia|]. rewrite get_app_r by lia. rewrite get_drop by lia. f_equal. lia.
  - rewrite get_app_l by (rewrite length_take; lia). apply get_take. lia.
Qed.

Lemma fetch_ok buff off n : 0 <= off -> 0 <= n -> off + n <= zlen buff ->
  exists d, fetch buff off n = Ok d /\ zlen d = n /\ forall i, 0 <= i < n -> get d i = get buff (off + i).
Proof.
  intros Ho Hn Hl. unfold fetch. rewrite (proj2 (Z.leb_le 0 off)), (proj2 (Z.leb_le 0 n)), (proj2 (Z.leb_le _ _)) by lia. cbn [andb].
  eexists. split; [reflexivity|]. split; [rewrite length_take, length_drop; lia|]. intros i Hi. rewrite get_take, get_drop by lia. f_equal. lia.
Qed.

Lemma block_get (data b : list Z) k i : take 512 (drop (Z.to_nat (512 * k)) data) = b -> 0 <= k -> i / 512 = k -> get data i = get b (i mod 512).
Proof. intros <- Hk Hi. rewrite get_take, get_drop by dlia. f_equal. dlia. Qed.

(** ** Sectors of the data area *)

Section Sectors.
Context (g : geometry) (size : Z).
Hypothesis Hg : geo_ok g size.
#[local] Set Default Proof Using "All".

Definition data_sector (s : Z) : Prop := database g <= s < database g + csize g * (n_fatent g - 2).

Lemma csize_small : 0 < csize g <= 128.
Proof.
  destruct (go_pow2 _ _ Hg) as (k & Hk & ->). assert (2 ^ k <= 2 ^ 7) by (apply Z.pow_le_mono_r; lia).
  assert (0 < 2 ^ k) by (apply Z.pow_pos_nonneg; lia). change (2 ^ 7) with 128 in *. lia.
Qed.

(** Sector offset in the cluster. *)
Lemma csect_mod j : 0 <= j -> Z.land j (csize g - 1) = j mod csize g.
Proof.
  intros Hj. destruct (go_pow2 _ _ Hg) as (k & Hk & ->). replace (2 ^ k - 1) with (Z.ones k) by (rewrite Z.ones_equiv; lia).
  apply Z.land_ones. lia.
Qed.

Lemma data_nonzero s : data_sector s -> 0 < s < 4294967295.
Proof.
  intros Hs. unfold data_sector in Hs. pose proof (geo_fat _ _ Hg) as (F1 & F2 & F3 & _). pose proof (go_size _ _ Hg). pose proof (go_max _ _ Hg).
  lia.
Qed.

Lemma data_not_table s : data_sector s -> ~ in_table g s.
Proof. intros Hs Ht. unfold data_sector in Hs. unfold in_table in Ht. pose proof (geo_fat _ _ Hg) as (F1 & F2 & F3 & _). lia. Qed.

Lemma data_not_mirror s : data_sector s -> ~ mirror g s.
Proof. intros Hs [Hn Hm]. unfold data_sector in Hs. pose proof (geo_fat _ _ Hg) as (F1 & F2 & F3 & F4 & _). specialize (F4 Hn). lia. Qed.

Lemma clst2sect_ok c : 2 <= c < n_fatent g -> clst2sect g c = database g + csize g * (c - 2) /\ data_sector (clst2sect g c) /\
  data_sector (clst2sect g c + csize g - 1).
Proof.
  intros Hc. assert (data_sector (database g + csize g * (c - 2)) /\ data_sector (database g + csize g * (c - 2) + csize g - 1)) as [H1 H2].
  { pose proof csize_small. unfold data_sector. nia. }
  pose proof (data_nonzero _ H1). pose proof (go_ents _ _ Hg) as He. unfold fat_max in He.
  assert (n_fatent g < 268435448) by (destruct (_ =? FS_FAT12); [|destruct (_ =? FS_FAT16)]; lia).
  unfold clst2sect. rewrite (u32_small (c - 2)), (u32_small (n_fatent g - 2)) by lia.
  rewrite (proj2 (Z.leb_gt _ _)) by lia. rewrite u32_small by lia. done.
Qed.

(** Sector [j] of a file with chain [l], which has [nsec l] sectors. *)
Definition fsect (l : list Z) (j : Z) : Z := clst2sect g (get l (j / csize g)) + j mod csize g.
Definition nsec (l : list Z) : Z := csize g * zlen l.

Definition in_range (l : list Z) : Prop := NoDup l /\ forall x, x ∈ l -> 2 <= x < n_fatent g.

Lemma index_in l j : 0 <= j < nsec l -> 0 <= j / csize g < zlen l /\ 0 <= j mod csize g < csize g.
Proof.
  intros Hj. unfold nsec in Hj. pose proof csize_small. split; [|apply Z.mod_pos_bound; lia]. split; [apply Z.div_pos; lia|].
  apply Z.div_lt_upper_bound; lia.
Qed.

Lemma fsect_data l j : in_range l -> 0 <= j < nsec l -> data_sector (fsect l j) /\ fsect l j = database g + csize g * (get l (j / csize g) - 2) + j mod csize g.
Proof.
  intros [_ Hl] Hj. destruct (index_in l j Hj) as [Hi Hm]. destruct (clst2sect_ok (get l (j / csize g))) as (E & D1 & D2); [apply Hl, get_in; done|].
  unfold fsect. rewrite E in *. split; [|lia]. unfold data_sector in *. lia.
Qed.

Lemma fsect_inj l i j : in_range l -> 0 <= i < nsec l -> 0 <= j < nsec l -> fsect l i = fsect l j -> i = j.
Proof.
  intros Hl Hi Hj E. destruct (fsect_data l i Hl Hi) as [_ Ei]. destruct (fsect_data l j Hl Hj) as [_ Ej]. rewrite Ei, Ej in E.
  destruct (index_in l i Hi) as [Ii Mi]. destruct (index_in l j Hj) as [Ij Mj]. destruct Hl as [Hnd Hl].
  pose proof csize_small. assert (get l (i / csize g) = get l (j / csize g) /\ i mod csize g = j mod csize g) as [Eg Em].
  { destruct (Z.div_mod_unique (csize g) (get l (i / csize g) - 2) (get l (j / csize g) - 2) (i mod csize g) (j mod csize g)); lia. }
  assert (i / csize g = j / csize g) as Eq.
  { unfold get in Eg. apply (NoDup_nth l 0) in Eg; [lia| |lia|lia]. by apply NoDup_ListNoDup. }
  rewrite (Z.div_mod i (csize g)), (Z.div_mod j (csize g)) by lia. congruence.
Qed.

(** Sectors of one cluster are consecutive. *)
Lemma fsect_add l j k : 0 <= j -> 0 <= k -> j mod csize g + k < csize g -> fsect l (j + k) = fsect l j + k.
Proof.
  intros Hj Hk Hm. pose proof csize_small. unfold fsect.
  assert ((j + k) / csize g = j / csize g /\ (j + k) mod csize g = j mod csize g + k) as [-> ->]; [|lia].
  pose proof (Z.div_mod j (csize g) ltac:(lia)) as E. pose proof (Z.mod_pos_bound j (csize g) ltac:(lia)).
  split; [symmetry; apply Z.div_unique with (j mod csize g + k)|symmetry; apply Z.mod_unique with (j / csize g)]; lia.
Qed.

Lemma fsect_app l r j : 0 <= j < nsec l -> fsect (l ++ r) j = fsect l j.
Proof. intros Hj. destruct (index_in l j Hj) as [Hi _]. unfold fsect. by rewrite get_app_l. Qed.

End Sectors.

(** ** The invariant of an open file *)

Section Invariant.
Context {D : Type} `{BlockLaws D}.
#[local] Set Default Proof Using "Type*".

Abbreviation v_geo v := (fs_geo (v_fs v)).
Abbreviation v_al v := (fs_alloc (v_fs v)).
Abbreviation nent v := (n_fatent (v_geo v)).
Abbreviation x_geo x := (v_geo (of_vol x)).

(** The chain of a file that starts at [s]; an empty file has none. *)
Definition chain (v : vol D) (s : Z) (l : list Z) : Prop := match l with [] => s = 0 | _ => links (nent v) (entry v) s l end.

(** The current content of a sector: the file's buffer hides the volume. *)
Definition fsec (x : open_file D) (s : Z) : list Z := if s =? f_sect (of_fil x) then f_buf (of_fil x) else vsec (of_vol x) s.

(** Byte [k] of the file. *)
Definition fbyte (x : open_file D) (l : list Z) (k : Z) : Z := get (fsec x (fsect (x_geo x) l (k / 512))) (k mod 512).

Record core (x : open_file D) (l : list Z) : Prop := {
  co_vol : fat_ok (of_vol x);
  co_chain : chain (of_vol x) (sclust (f_obj (of_fil x))) l;
  co_size : 0 <= objsize (f_obj (of_fil x)) < 4294967296 /\ objsize (f_obj (of_fil x)) <= 512 * nsec (x_geo x) l;
  co_cache : f_sect (of_fil x) = 0 \/ exists j, 0 <= j < nsec (x_geo x) l /\ f_sect (of_fil x) = fsect (x_geo x) l j;
  co_buf : length (f_buf (of_fil x)) = 512%nat /\ Forall is_byte (f_buf (of_fil x));
  co_clean : has (f_flag (of_fil x)) FA_DIRTY = false -> f_sect (of_fil x) <> 0 -> f_buf (of_fil x) = vsec (of_vol x) (f_sect (of_fil x));
  co_dirty : has (f_flag (of_fil x)) FA_DIRTY = true -> f_sect (of_fil x) <> 0;
  co_apart : forall j, 0 <= j < nsec (x_geo x) l -> fsect (x_geo x) l j <> winsect (fs_win (v_fs (of_vol x)))
}.

(** The file pointer with the cluster and the buffer that belong to it. *)
Record placed (x : open_file D) (l : list Z) : Prop := {
  pl_ptr : 0 <= fptr (of_fil x) <= objsize (f_obj (of_fil x));
  pl_clust : 0 < fptr (of_fil x) -> clust (of_fil x) = get l ((fptr (of_fil x) - 1) / 512 / csize (x_geo x));
  pl_sect : fptr (of_fil x) mod 512 <> 0 -> f_sect (of_fil x) = fsect (x_geo x) l (fptr (of_fil x) / 512)
}.

(** Same file and same content; nothing else on the volume changed. *)
Record same_file (l : list Z) (x x' : open_file D) : Prop := {
  sf_obj : f_obj (of_fil x') = f_obj (of_fil x);
  sf_err : f_err (of_fil x') = f_err (of_fil x);
  sf_dir : dir_sect (of_fil x') = dir_sect (of_fil x) /\ dir_ptr (of_fil x') = dir_ptr (of_fil x);
  sf_mode : forall b, b = FA_READ \/ b = FA_WRITE \/ b = FA_MODIFIED -> has (f_flag (of_fil x')) b = has (f_flag (of_fil x)) b;
  sf_geo : x_geo x' = x_geo x;
  sf_dev : bd_size (v_dev (of_vol x')) = bd_size (v_dev (of_vol x));
  sf_al : v_al (of_vol x') = v_al (of_vol x);
  sf_table : forall c, 2 <= c < nent (of_vol x) -> entry (of_vol x') c = entry (of_vol x) c;
  sf_bytes : forall k, 0 <= k < 512 * nsec (x_geo x) l -> fbyte x' l k = fbyte x l k;
  sf_frame : forall s, reachable (of_vol x) s -> ~ in_table (x_geo x) s -> (forall j, 0 <= j < nsec (x_geo x) l -> s <> fsect (x_geo x) l j) ->
    vsec (of_vol x') s = vsec (of_vol x) s
}.

Lemma same_file_refl l x : same_file l x x.
Proof. by split. Qed.

Lemma same_file_trans l x y z : same_file l x y -> same_file l y z -> same_file l x z.
Proof.
  intros [O1 E1 [D1 P1] M1 G1 S1 A1 T1 B1 F1] [O2 E2 [D2 P2] M2 G2 S2 A2 T2 B2 F2]. split; try congruence.
  - split; congruence.
  - intros b Hb. rewrite M2, M1 by done. done.
  - intros c Hc. rewrite T2, T1; [done|done|by rewrite G1].
  - intros k Hk. rewrite B2, B1; [done|done|by rewrite G1].
  - intros s Hs Ht Hj. rewrite F2, F1; [done|done..| |by rewrite G1|by rewrite G1]. unfold reachable. by rewrite G1, S1.
Qed.

Lemma co_geo x l : core x l -> geo_ok (x_geo x) (bd_size (v_dev (of_vol x))).
Proof. intros Hc. apply (vo_geo _ (fo_vol _ (co_vol x l Hc))). Qed.

Lemma chain_range v s l : chain v s l -> in_range (v_geo v) l.
Proof.
  destruct l as [|c l]; intros Hl; [split; [constructor|]; intros x Hx; by apply elem_of_nil in Hx|].
  split; [by eapply links_NoDup|]. intros x Hx. exact (links_range _ _ _ _ _ Hl Hx).
Qed.

Lemma co_range x l : core x l -> in_range (x_geo x) l.
Proof. intros Hc. eapply chain_range, (co_chain x l Hc). Qed.

Lemma data_reachable v s : vol_ok v -> data_sector (v_geo v) s -> reachable v s.
Proof.
  intros Hv Hs. pose proof (vo_geo v Hv) as Hg. split; [|by eapply data_not_mirror]. pose proof (data_nonzero _ _ Hg s Hs).
  unfold data_sector in Hs. pose proof (go_size _ _ Hg). lia.
Qed.

(** A sector of the file: inside the data area. *)
Lemma co_sector x l j : core x l -> 0 <= j < nsec (x_geo x) l ->
  data_sector (x_geo x) (fsect (x_geo x) l j) /\ reachable (of_vol x) (fsect (x_geo x) l j).
Proof.
  intros Hc Hj. destruct (fsect_data _ _ (co_geo x l Hc) l j (co_range x l Hc) Hj) as [Hd _]. split; [done|].
  apply data_reachable; [apply (co_vol x l Hc)|done].
Qed.

Lemma chain_ext v v' s l : v_geo v' = v_geo v -> (forall c, 2 <= c < nent v -> entry v' c = entry v c) -> chain v s l -> chain v' s l.
Proof.
  destruct l as [|c l]; intros G E; cbn [chain]; [done|]. intros Hl. rewrite G. apply (links_ext _ (entry v)); [|done].
  intros y Hy. symmetry. apply E. exact (links_range _ _ _ _ _ Hl Hy).
Qed.

(** A volume that was only looked at. *)
Lemma core_looked x v' f' l : core x l -> looked (of_vol x) v' -> f_obj f' = f_obj (of_fil x) -> f_flag f' = f_flag (of_fil x) ->
  f_err f' = f_err (of_fil x) -> f_sect f' = f_sect (of_fil x) -> f_buf f' = f_buf (of_fil x) ->
  dir_sect f' = dir_sect (of_fil x) -> dir_ptr f' = dir_ptr (of_fil x) ->
  core (mk_open v' f') l /\ same_file l x (mk_open v' f').
Proof.
  intros Hc (F & S & A & T) Eo Ef Ee Es Eb Ed Ep. pose proof T as (G & Zd & V & W). pose proof (co_geo x l Hc) as Hg.
  assert (forall c, entry v' c = entry (of_vol x) c) as He by (intros c; apply same_view_entry; [apply (co_vol x l Hc)|done]).
  assert (forall j, 0 <= j < nsec (x_geo x) l -> vsec v' (fsect (x_geo x) l j) = vsec (of_vol x) (fsect (x_geo x) l j)) as Hv.
  { intros j Hj. destruct (co_sector x l j Hc Hj) as [Hd Hr]. apply V; [done|by eapply data_not_table]. }
  pose proof Hc as [Cv Cc Cs Ca Cb Cl Cd Cp]. split.
  - split; cbn [of_vol of_fil]; rewrite ?Eo, ?Ef, ?Es, ?Eb, ?G; try done.
    + by apply (chain_ext (of_vol x)).
    + intros Hd Hn. rewrite Cl by done. destruct Ca as [?|(j & Hj & ->)]; [done|]. by rewrite Hv.
    + intros j Hj. destruct W as [->|W]; [by apply Cp|]. intros E. rewrite <- E in W. destruct (co_sector x l j Hc Hj) as [Hd _].
      by apply (data_not_table _ _ Hg _ Hd).
  - split; cbn [of_vol of_fil]; rewrite ?Eo, ?Ef; try done.
    + intros k Hk. unfold fbyte, fsec. cbn [of_vol of_fil]. rewrite G, Es, Eb. f_equal. rewrite Hv; [done|]. dlia.
    + intros s Hs Ht _. by apply V.
Qed.

(** ** The monad *)

Lemma onvol_Ok {A} (m : M (vol D) A) x a v : m (of_vol x) = Ok (a, v) -> onvol m x = Ok (a, mk_open v (of_fil x)).
Proof. intros E. unfold onvol. by rewrite E. Qed.
Lemma bind_onvol {A B} (m : M (vol D) A) (k : A -> M (open_file D) B) x a v :
  m (of_vol x) = Ok (a, v) -> (onvol m ≫= k) x = k a (mk_open v (of_fil x)).
Proof. intros E. apply m_bind_Ok. by apply onvol_Ok. Qed.
Lemma bind_fil {B} (k : FIL -> M (open_file D) B) x : (fil ≫= k) x = k (of_fil x) x.
Proof. done. Qed.
Lemma bind_fgeo {B} (k : geometry -> M (open_file D) B) x : (onvol geo ≫= k) x = k (x_geo x) x.
Proof. by destruct x. Qed.
Lemma bind_set_fil {B} h (k : unit -> M (open_file D) B) x : (set_fil h ≫= k) x = k tt (mk_open (of_vol x) (h (of_fil x))).
Proof. done. Qed.
Lemma bind_fret {A B} (a : A) (k : A -> M (open_file D) B) x : (mret a ≫= k) x = k a x.
Proof. done. Qed.
Lemma bind_flift {A B} (r : res A) (k : A -> M (open_file D) B) x a : r = Ok a -> (lift r ≫= k) x = k a x.
Proof. intros ->. done. Qed.

(** Reading without moving anything. *)
Lemma looked_same_drive v d : fat_ok v -> bd_ready d -> bd_size d = bd_size (v_dev v) -> bd_sector d = bd_sector (v_dev v) -> looked v (mk_vol (v_fs v) d).
Proof.
  intros Hf Rd Zd Cd. assert (same_view v (mk_vol (v_fs v) d)) as S.
  { split; [done|]. split; [done|]. intros s _. unfold vsec. cbn [v_fs v_dev]. by rewrite Cd. }
  assert (vol_ok (mk_vol (v_fs v) d)) as Hv'.
  { pose proof (same_drive v (v_al v) d (fo_vol _ Hf) Rd Zd Cd) as Hs. by destruct (v_fs v). }
  split; [by apply (fat_ok_view v)|]. split; [done|]. split; [done|]. split; [done|]. split; [done|]. split; [|by left]. intros s Hs _. by apply S.
Qed.

(** ** Writing data sectors *)

(** Sectors [s ..] of the data area written, none of them in the window. *)
Lemma data_write v data s n : fat_ok v -> 0 < n -> data_sector (v_geo v) s -> data_sector (v_geo v) (s + n - 1) ->
  (forall t, s <= t < s + n -> t <> winsect (fs_win (v_fs v))) -> zlen data = 512 * n -> Forall is_byte data ->
  exists d, bd_write data s n (v_dev v) = Ok (RES_OK, d) /\ fat_ok (mk_vol (v_fs v) d) /\ bd_size d = bd_size (v_dev v) /\
    (forall t, vsec (mk_vol (v_fs v) d) t = if (s <=? t) && (t <? s + n) then take 512 (drop (Z.to_nat (512 * (t - s))) data) else vsec v t) /\
    (forall c, entry (mk_vol (v_fs v) d) c = entry v c).
Proof.
  intros Hf Hn Hs Hs' Hw Hl Hb. pose proof Hf as [Hv Ho Ha]. pose proof Hv as [Hr Hg [W1 W2 W3 W4 W5] Hm].
  pose proof (data_nonzero _ _ Hg s Hs). pose proof (geo_fat _ _ Hg) as (F1 & F2 & F3 & F4 & F5). pose proof (go_size _ _ Hg). unfold data_sector in Hs, Hs'.
  destruct (bd_write_ok (v_dev v) data s n Hr) as (d & E & Rd & Zd & Cd); [lia|lia|lia|done|done|]. exists d. split; [done|].
  assert (forall t, t < database (v_geo v) -> bd_sector d t = bd_sector (v_dev v) t) as Hlow.
  { intros t Ht. rewrite Cd. by rewrite (proj2 (Z.leb_gt s t)) by lia. }
  assert (forall t, vsec (mk_vol (v_fs v) d) t = if (s <=? t) && (t <? s + n) then take 512 (drop (Z.to_nat (512 * (t - s))) data) else vsec v t) as Hvs.
  { intros t. unfold vsec. cbn [v_fs v_dev]. rewrite Cd. destruct (Z.eqb_spec t (winsect (fs_win (v_fs v)))) as [->|_]; [|done].
    destruct ((s <=? _) && (_ <? s + n)) eqn:Eb; [|done]. apply andb_true_iff in Eb as [B1 B2]. apply Z.leb_le in B1. apply Z.ltb_lt in B2. by destruct (Hw (winsect (fs_win (v_fs v))) ltac:(lia)). }
  assert (forall k, fat_byte (mk_vol (v_fs v) d) k = fat_byte v k) as Hfb.
  { intros k. unfold fat_byte. cbn [v_fs]. destruct (Z.leb_spec 0 k), (Z.ltb_spec k (512 * fsize (v_geo v))); cbn [andb]; try done. rewrite Hvs.
    rewrite (proj2 (Z.leb_gt s _)) by dlia. done. }
  assert (forall c, entry (mk_vol (v_fs v) d) c = entry v c) as Hent by (intros c; apply entry_ext; intros; apply Hfb).
  split; [|done]. split; [split|..]; cbn [v_fs v_dev].
  - done.
  - by rewrite Zd.
  - split; cbn [v_fs v_dev]; rewrite ?Zd; try done. intros Hc. destruct (W4 Hc) as [?|[? E']]; [by left|right]. split; [done|].
    rewrite E', Cd. destruct ((s <=? _) && (_ <? s + n)) eqn:Eb; [|done]. apply andb_true_iff in Eb as [B1 B2]. apply Z.leb_le in B1. apply Z.ltb_lt in B2.
    by destruct (Hw (winsect (fs_win (v_fs v))) ltac:(lia)).
  - intros Hn2 k Hk. cbn [v_fs v_dev] in *. rewrite !Hlow by (specialize (F4 Hn2); lia). by apply Hm.
  - intros c Hc. rewrite Hent. by apply Ho.
  - unfold alloc_ok in *. rewrite (free_count_ext _ (entry v)); [done|]. intros y _. apply Hent.
Qed.

(** *** The file's buffer *)

Lemma has_mask b flag : b = FA_READ \/ b = FA_WRITE \/ b = FA_MODIFIED -> has (Z.land flag 127) b = has flag b.
Proof. intros Hb. unfold has. rewrite <- Z.land_assoc. destruct Hb as [->|[->| ->]]; done. Qed.
Lemma has_clear flag : has (Z.land flag 127) FA_DIRTY = false.
Proof. unfold has. rewrite <- Z.land_assoc. change (Z.land 127 FA_DIRTY) with 0. by rewrite Z.land_0_r. Qed.

(** Writing the buffer back changes neither the file nor anything else. *)
Lemma flush_ok x l : core x l -> exists v' fl, flush x = Ok (true, mk_open v' (fil_flag fl (of_fil x))) /\
  core (mk_open v' (fil_flag fl (of_fil x))) l /\ same_file l x (mk_open v' (fil_flag fl (of_fil x))) /\ has fl FA_DIRTY = false.
Proof.
  intros Hc. unfold flush. rewrite bind_fil. destruct (has (f_flag (of_fil x)) FA_DIRTY) eqn:Ed.
  - pose proof Hc as [Cv Cc Cs Ca [Cl Cb] _ Cd Cp]. destruct Ca as [?|(j & Hj & Es)]; [by destruct (Cd Ed)|].
    destruct (co_sector x l j Hc Hj) as [Hd Hr]. rewrite Es.
    destruct (data_write (of_vol x) (f_buf (of_fil x)) (fsect (x_geo x) l j) 1 Cv) as (d & E & Fd & Zd & Vd & Td);
      [lia|done|by replace (_ + 1 - 1) with (fsect (x_geo x) l j) by lia|intros t Ht; replace t with (fsect (x_geo x) l j) by lia; by apply Cp|lia|done|].
    assert (forall t, vsec (mk_vol (v_fs (of_vol x)) d) t = if t =? fsect (x_geo x) l j then f_buf (of_fil x) else vsec (of_vol x) t) as Hvs.
    { intros t. rewrite Vd. destruct (Z.eqb_spec t (fsect (x_geo x) l j)) as [->|Hne].
      - rewrite (proj2 (Z.leb_le _ _)), (proj2 (Z.ltb_lt _ _)), Z.sub_diag by lia. cbn [andb]. change (Z.to_nat (512 * 0)) with 0%nat. rewrite drop_0. by rewrite take_ge by lia.
      - destruct (Z.leb_spec (fsect (x_geo x) l j) t), (Z.ltb_spec t (fsect (x_geo x) l j + 1)); cbn [andb]; try done. lia. }
    eexists _, _. split; [rewrite (bind_onvol _ _ x _ _ (drive_Ok _ (of_vol x) _ _ E)); change (res_ok RES_OK) with true; cbv iota; by rewrite bind_set_fil|].
    split; [|split; [|apply has_clear]].
    + split; cbn [of_vol of_fil fil_flag f_obj f_flag f_sect f_buf v_fs]; try done.
      * by apply (chain_ext (of_vol x)).
      * right. eauto.
      * rewrite has_clear. intros _ _. rewrite Es, Hvs, Z.eqb_refl. done.
      * by rewrite has_clear.
    + split; try done; cbn [of_vol of_fil fil_flag f_flag].
      * intros b Hb. by apply has_mask.
      * intros k Hk. unfold fbyte, fsec. cbn [of_vol of_fil fil_flag f_sect f_buf v_fs]. rewrite Hvs, Es. by destruct (_ =? _).
      * intros s Hs Ht Hn. rewrite Hvs. by rewrite (proj2 (Z.eqb_neq _ _)) by (by apply Hn).
  - exists (of_vol x), (f_flag (of_fil x)). destruct x as [v []]. split; [done|]. split; [done|]. split; [apply same_file_refl|done].
Qed.

(** Filling a clean buffer from sector [j] of the file. *)
Lemma fill_buf_ok x l j : core x l -> has (f_flag (of_fil x)) FA_DIRTY = false -> 0 <= j < nsec (x_geo x) l ->
  exists v' b, fill (fsect (x_geo x) l j) x = Ok (true, mk_open v' (fil_cache (f_sect (of_fil x)) b (of_fil x))) /\
    let x' := mk_open v' (fil_cache (fsect (x_geo x) l j) b (of_fil x)) in core x' l /\ same_file l x x'.
Proof.
  intros Hc Hcl Hj. pose proof Hc as [Cv Cc Cs Ca [Cl Cb] Cln _ Cp]. destruct (co_sector x l j Hc Hj) as [Hd [Hr _]].
  destruct (read_one (v_dev (of_vol x)) (fsect (x_geo x) l j) (vo_ready _ (fo_vol _ Cv)) Hr) as (d & E & Rd & Zd & Cd).
  assert (bd_sector (v_dev (of_vol x)) (fsect (x_geo x) l j) = vsec (of_vol x) (fsect (x_geo x) l j)) as Evs.
  { unfold vsec. by rewrite (proj2 (Z.eqb_neq _ _) (Cp j Hj)). }
  assert (looked (of_vol x) (mk_vol (v_fs (of_vol x)) d)) as Hlk by (by apply looked_same_drive).
  eexists _, _. split.
  { unfold fill. rewrite (bind_onvol _ _ x _ _ (drive_Ok _ (of_vol x) _ _ E)). rewrite bind_set_fil. reflexivity. }
  cbv zeta. destruct (core_looked x (mk_vol (v_fs (of_vol x)) d) (of_fil x) l Hc Hlk) as [K1 S1]; try done.
  pose proof K1 as [Kv Kc Ks _ _ _ _ Kp]. destruct (vsec_ok (of_vol x) (fsect (x_geo x) l j) (fo_vol _ Cv) Hr) as [Lv Bv].
  assert (vsec (mk_vol (v_fs (of_vol x)) d) (fsect (x_geo x) l j) = vsec (of_vol x) (fsect (x_geo x) l j)) as Ev2.
  { unfold vsec. cbn [v_fs v_dev]. by rewrite Cd. }
  cbn [snd]. rewrite Evs. split.
  - split; cbn [of_vol of_fil fil_cache f_obj f_flag f_sect f_buf] in *; try done; [right; eauto|by rewrite Hcl].
  - eapply same_file_trans; [exact S1|]. split; try done. intros k Hk. unfold fbyte, fsec. cbn [of_vol of_fil fil_cache f_sect f_buf v_fs] in *.
    destruct (Z.eqb_spec (fsect (x_geo x) l (k / 512)) (fsect (x_geo x) l j)) as [->|_].
    + destruct (Z.eqb_spec (fsect (x_geo x) l j) (f_sect (of_fil x))) as [Ef|_]; [|by rewrite Ev2]. f_equal. rewrite Cln; [by rewrite Ef|done|].
      rewrite <- Ef. pose proof (data_nonzero _ _ (co_geo x l Hc) _ Hd). lia.
    + destruct (Z.eqb_spec (fsect (x_geo x) l (k / 512)) (f_sect (of_fil x))) as [Ef|_]; [|done]. f_equal. rewrite Cln; [|done|].
      * rewrite <- Ef. unfold vsec. cbn [v_fs v_dev]. by rewrite Cd.
      * rewrite <- Ef. destruct (co_sector x l (k / 512) Hc) as [Hd' _]; [dlia|]. pose proof (data_nonzero _ _ (co_geo x l Hc) _ Hd'). lia.
Qed.

(** ** Reading *)

(** The cluster of the file pointer on a cluster boundary. *)
Lemma follow_ok x l : core x l -> placed x l -> fptr (of_fil x) mod 512 = 0 -> fptr (of_fil x) / 512 mod csize (x_geo x) = 0 ->
  fptr (of_fil x) < objsize (f_obj (of_fil x)) ->
  exists v', read_follow x = Ok (FR_OK, mk_open v' (fil_clust (get l (fptr (of_fil x) / 512 / csize (x_geo x))) (of_fil x))) /\
    core (mk_open v' (fil_clust (get l (fptr (of_fil x) / 512 / csize (x_geo x))) (of_fil x))) l /\
    same_file l x (mk_open v' (fil_clust (get l (fptr (of_fil x) / 512 / csize (x_geo x))) (of_fil x))).
Proof.
  intros Hc [Hp Hcl _] H512 Hcs Hlt. pose proof (co_geo x l Hc) as Hg. pose proof (csize_small _ _ Hg) as Hsm. destruct (co_size x l Hc) as [_ Hsz].
  set (j := fptr (of_fil x) / 512) in *. assert (fptr (of_fil x) = 512 * j) as Ej by (unfold j; dlia).
  destruct (index_in _ _ Hg l j) as [Hi _]; [unfold nsec in *; lia|]. set (i := j / csize (x_geo x)) in *.
  assert (j = csize (x_geo x) * i) as Eji by (unfold i; pose proof (Z.div_mod j (csize (x_geo x)) ltac:(lia)); lia).
  pose proof (co_chain x l Hc) as Hch. assert (l <> []) as Hne by (intros ->; cbn in Hi; lia).
  assert (links (nent (of_vol x)) (entry (of_vol x)) (sclust (f_obj (of_fil x))) l) as Hl by (destruct l; [done|exact Hch]).
  destruct (co_range x l Hc) as [_ Hr]. pose proof (Hr _ (get_in l i Hi)) as Hri. destruct (nent_bound _ (fo_vol _ (co_vol x l Hc))) as [Hn _].
  unfold read_follow. rewrite bind_fil. unfold DISK_ERROR.
  assert (exists v', (if fptr (of_fil x) =? 0 then mret (sclust (f_obj (of_fil x))) else onvol (get_fat (clust (of_fil x)))) x =
    Ok (get l i, mk_open v' (of_fil x)) /\ looked (of_vol x) v') as (v' & E & L).
  { destruct (Z.eqb_spec (fptr (of_fil x)) 0) as [E0|E0].
    - exists (of_vol x). split; [|split; [apply (co_vol x l Hc)|split; [done|split; [done|apply data_step_refl]]]]. destruct x as [v f]. cbn [of_vol of_fil] in *.
      replace i with 0 by nia. by rewrite (links_head _ _ _ _ Hl).
    - assert (0 < i) by nia. assert (clust (of_fil x) = get l (i - 1)) as Ec.
      { rewrite Hcl by lia. f_equal. replace ((fptr (of_fil x) - 1) / 512) with (j - 1) by dlia. symmetry. apply Z.div_unique with (csize (x_geo x) - 1); lia. }
      assert (0 <= i - 1 < zlen l) as Hi1 by lia. pose proof (Hr _ (get_in l (i - 1) Hi1)) as Hri1.
      destruct (probe (of_vol x) (clust (of_fil x)) (co_vol x l Hc)) as (v' & E & L & _); [by rewrite Ec|]. exists v'. split; [|done].
      apply onvol_Ok. rewrite E, Ec, (links_next _ _ _ _ _ Hl) by lia. do 3 f_equal. lia. }
  rewrite (m_bind_Ok _ _ _ _ _ E). rewrite (proj2 (Z.ltb_ge (get l i) 2)), (proj2 (Z.eqb_neq (get l i) 4294967295)) by lia. rewrite bind_set_fil.
  exists v'. split; [done|]. by apply core_looked.
Qed.

(** What a transfer of [n] bytes to offset [br] of the caller's buffer must
    have done. *)
Definition read_from (x : open_file D) (l : list Z) (p br n : Z) (buff buff' : list Z) : Prop :=
  length buff' = length buff /\
  forall i, 0 <= i -> get buff' i = if (br <=? i) && (i <? br + n) then fbyte x l (p + (i - br)) else get buff i.

(** Copying from the buffer. *)
Lemma read_part_ok x l btr br buff : core x l -> 0 <= fptr (of_fil x) -> fptr (of_fil x) + btr <= objsize (f_obj (of_fil x)) ->
  f_sect (of_fil x) = fsect (x_geo x) l (fptr (of_fil x) / 512) -> 0 < btr -> 0 <= br -> br + btr <= zlen buff ->
  exists n buff', read_part btr br buff x = Ok ((Moved n, buff'), x) /\ 0 < n <= btr /\ n <= 512 - fptr (of_fil x) mod 512 /\
    (n = btr \/ (fptr (of_fil x) + n) mod 512 = 0) /\ read_from x l (fptr (of_fil x)) br n buff buff'.
Proof.
  intros Hc Hp Hend Hs Hb Hbr Hl. destruct (co_buf x l Hc) as [Lb _]. unfold read_part. rewrite bind_fil. unfold SS.
  set (n := if btr <? 512 - fptr (of_fil x) mod 512 then btr else 512 - fptr (of_fil x) mod 512).
  assert (0 < n <= btr /\ n <= 512 - fptr (of_fil x) mod 512 /\ (n = btr \/ (fptr (of_fil x) + n) mod 512 = 0)) as (Hn & Hn' & He).
  { unfold n. destruct (Z.ltb_spec btr (512 - fptr (of_fil x) mod 512)); dlia. }
  destruct (fetch_ok (f_buf (of_fil x)) (fptr (of_fil x) mod 512) n) as (data & E1 & L1 & G1); [dlia|lia|dlia|].
  rewrite (bind_flift _ _ _ _ E1). destruct (store_ok buff br data) as (b & E2 & L2 & G2); [lia|lia|]. rewrite (bind_flift _ _ _ _ E2).
  exists n, b. split; [done|]. split; [done|]. split; [done|]. split; [done|]. split; [done|]. intros i Hi. rewrite G2 by done. rewrite L1.
  destruct (Z.leb_spec br i), (Z.ltb_spec i (br + n)); cbn [andb]; try done. rewrite G1 by lia. unfold fbyte, fsec.
  replace ((fptr (of_fil x) + (i - br)) / 512) with (fptr (of_fil x) / 512) by dlia. rewrite <- Hs, Z.eqb_refl. f_equal. dlia.
Qed.

(** The sector in the buffer, among [n] sectors from [s] on. *)
Lemma cached_in s t n size : 0 < s -> s + n <= size -> size < 4294967295 -> 0 < t < 4294967295 -> 0 <= n <= 128 ->
  (u32 (t - s) <? n) = true -> s <= t < s + n /\ u32 (t - s) = t - s.
Proof.
  intros Hs Hn Hz Ht Hn' Hlt. apply Z.ltb_lt in Hlt. destruct (Z.le_gt_cases s t).
  - rewrite u32_small in * by lia. lia.
  - replace (u32 (t - s)) with (t - s + 4294967296) in Hlt; [lia|]. unfold u32, wrap. apply Z.mod_unique with (-1); lia.
Qed.

(** What the file holds in a sector, from the drive and the buffer. *)
Lemma fsec_drive x l j : core x l -> 0 <= j < nsec (x_geo x) l -> fsec x (fsect (x_geo x) l j) =
  if has (f_flag (of_fil x)) FA_DIRTY && (fsect (x_geo x) l j =? f_sect (of_fil x)) then f_buf (of_fil x) else bd_sector (v_dev (of_vol x)) (fsect (x_geo x) l j).
Proof.
  intros Hc Hj. pose proof Hc as [Cv Cc Cs Ca _ Cl Cd Cp]. destruct (co_sector x l j Hc Hj) as [Hd _]. pose proof (data_nonzero _ _ (co_geo x l Hc) _ Hd).
  unfold fsec, vsec. rewrite (proj2 (Z.eqb_neq _ _) (Cp j Hj)). destruct (Z.eqb_spec (fsect (x_geo x) l j) (f_sect (of_fil x))) as [E|_]; [|by rewrite andb_false_r].
  rewrite andb_true_r. destruct (has _ _) eqn:Ed; [done|]. rewrite Cl by (done || lia). rewrite <- E. unfold vsec. by rewrite (proj2 (Z.eqb_neq _ _) (Cp j Hj)).
Qed.

Lemma read_direct_ok x l j cc br buff : core x l -> 0 <= j -> 0 < cc -> 512 * (j + cc) <= objsize (f_obj (of_fil x)) -> 0 <= br -> br + 512 * cc <= zlen buff ->
  exists n buff' v', read_direct (fsect (x_geo x) l j) (j mod csize (x_geo x)) cc br buff x = Ok ((Moved (512 * n), buff'), mk_open v' (of_fil x)) /\
    0 < n <= cc /\ j mod csize (x_geo x) + n <= csize (x_geo x) /\ core (mk_open v' (of_fil x)) l /\ same_file l x (mk_open v' (of_fil x)) /\
    read_from x l (512 * j) br (512 * n) buff buff'.
Proof.
  intros Hc Hj Hcc Hend Hbr Hl. pose proof (co_geo x l Hc) as Hg. pose proof (csize_small _ _ Hg) as Hsm. destruct (co_size x l Hc) as [Hsz Hns].
  destruct (index_in _ _ Hg l j) as [_ Hm]; [lia|]. unfold read_direct. rewrite bind_fil, bind_fgeo.
  rewrite (u32_small (j mod _ + cc)), (u32_small (csize (x_geo x) - _)) by lia.
  set (n := if csize (x_geo x) <? j mod csize (x_geo x) + cc then csize (x_geo x) - j mod csize (x_geo x) else cc).
  assert (0 < n <= cc /\ j mod csize (x_geo x) + n <= csize (x_geo x)) as [Hn Hn'] by (unfold n; destruct (Z.ltb_spec (csize (x_geo x)) (j mod csize (x_geo x) + cc)); lia).
  assert (forall k, 0 <= k < n -> 0 <= j + k < nsec (x_geo x) l /\ fsect (x_geo x) l (j + k) = fsect (x_geo x) l j + k) as Hk.
  { intros k Hk. split; [lia|]. apply (fsect_add _ _ Hg); lia. }
  destruct (co_sector x l (j + (n - 1)) Hc) as [_ [Hr _]]; [lia|]. destruct (Hk (n - 1) ltac:(lia)) as [_ E1]. rewrite E1 in Hr.
  destruct (co_sector x l j Hc) as [Hd [Hr0 _]]; [lia|]. pose proof (data_nonzero _ _ Hg _ Hd) as Hd0.
  destruct (bd_read_ok (v_dev (of_vol x)) (fsect (x_geo x) l j) n (vo_ready _ (fo_vol _ (co_vol x l Hc)))) as (data & d & E & Ld & Bd & Rd & Zd & Cd); [lia|lia|lia|].
  rewrite (bind_onvol _ _ x _ _ (drive_Ok _ (of_vol x) _ _ E)). cbn [fst snd].
  destruct (store_ok buff br data) as (b1 & E2 & L2 & G2); [lia|lia|]. rewrite (bind_flift _ _ _ _ E2). change (res_ok RES_OK) with true. cbv iota.
  destruct (co_buf x l Hc) as [Lb _]. pose proof (go_max _ _ Hg) as Hmax.
  assert (forall i, 0 <= i < 512 * n -> get data i = get (bd_sector (v_dev (of_vol x)) (fsect (x_geo x) l (j + i / 512))) (i mod 512)) as Gd.
  { intros i Hi. destruct (Hk (i / 512) ltac:(dlia)) as [_ ->]. apply (block_get data _ (i / 512)); [apply Bd; dlia|dlia|done]. }
  assert (forall i, 0 <= i -> fbyte x l (512 * j + i) = get (fsec x (fsect (x_geo x) l (j + i / 512))) (i mod 512)) as Hfb.
  { intros i Hi. unfold fbyte. replace ((512 * j + i) / 512) with (j + i / 512) by dlia. f_equal. dlia. }
  destruct (core_looked x (mk_vol (v_fs (of_vol x)) d) (of_fil x) l Hc) as [K S]; [by apply looked_same_drive; [apply (co_vol x l Hc)|..]|done..|].
  rewrite (u32_small (SS * n)) by (unfold SS; lia). exists n. unfold SS.
  destruct (has (f_flag (of_fil x)) FA_DIRTY && (u32 (f_sect (of_fil x) - fsect (x_geo x) l j) <? n)) eqn:Eo.
  - apply andb_true_iff in Eo as [Ed Elt]. destruct (co_cache x l Hc) as [?|(j' & Hj' & Es)]; [by destruct (co_dirty x l Hc Ed)|].
    destruct (co_sector x l j' Hc Hj') as [Hd' _]. pose proof (data_nonzero _ _ Hg _ Hd') as Hd0'. rewrite <- Es in Hd0'.
    destruct (cached_in (fsect (x_geo x) l j) (f_sect (of_fil x)) n (bd_size (v_dev (of_vol x)))) as [Hin ->]; [lia|lia|done|done|lia|done|]. set (k := f_sect (of_fil x) - fsect (x_geo x) l j) in *.
    destruct (store_ok b1 (br + k * 512) (f_buf (of_fil x))) as (b2 & E3 & L3 & G3); [lia|rewrite Lb, L2; lia|]. rewrite (bind_flift _ _ _ _ E3).
    exists b2, (mk_vol (v_fs (of_vol x)) d). split; [done|]. split; [done|]. split; [done|]. split; [done|]. split; [done|]. split; [congruence|].
    intros i Hi. rewrite G3, G2 by done. rewrite Ld, Lb. destruct (Z.leb_spec br i), (Z.ltb_spec i (br + 512 * n)); cbn [andb].
    + rewrite Hfb by lia. rewrite (fsec_drive x l) by (done || (apply Hk; dlia)). rewrite Ed. cbn [andb].
      destruct (Hk ((i - br) / 512) ltac:(dlia)) as [_ Ek]. rewrite Gd by lia.
      destruct (Z.leb_spec (br + k * 512) i), (Z.ltb_spec i (br + k * 512 + Z.of_nat 512)), (Z.eqb_spec (fsect (x_geo x) l (j + (i - br) / 512)) (f_sect (of_fil x)));
        cbn [andb]; try done; try (rewrite Ek in *; dlia). f_equal. rewrite Ek in *. dlia.
    + destruct (Z.leb_spec (br + k * 512) i), (Z.ltb_spec i (br + k * 512 + Z.of_nat 512)); cbn [andb]; try done. lia.
    + destruct (Z.leb_spec (br + k * 512) i), (Z.ltb_spec i (br + k * 512 + Z.of_nat 512)); cbn [andb]; try done. lia.
    + destruct (Z.leb_spec (br + k * 512) i), (Z.ltb_spec i (br + k * 512 + Z.of_nat 512)); cbn [andb]; try done. lia.
  - rewrite bind_fret. exists b1, (mk_vol (v_fs (of_vol x)) d).
    split; [done|]. split; [done|]. split; [done|]. split; [done|]. split; [done|]. split; [done|].
    intros i Hi. rewrite G2 by done. rewrite Ld. destruct (Z.leb_spec br i), (Z.ltb_spec i (br + 512 * n)); cbn [andb]; try done.
    rewrite Hfb by lia. rewrite (fsec_drive x l) by (done || (apply Hk; dlia)). rewrite Gd by lia.
    destruct (has (f_flag (of_fil x)) FA_DIRTY); [|done]. cbn [andb] in *. destruct (Z.eqb_spec (fsect (x_geo x) l (j + (i - br) / 512)) (f_sect (of_fil x))) as [Es|_]; [|done].
    destruct (Hk ((i - br) / 512) ltac:(dlia)) as [_ Ek]. rewrite <- Es, Ek in Eo. replace (fsect (x_geo x) l j + (i - br) / 512 - fsect (x_geo x) l j) with ((i - br) / 512) in Eo by lia.
    rewrite u32_small in Eo by dlia. apply Z.ltb_ge in Eo. dlia.
Qed.

(** On a sector boundary: the cluster of the file pointer is known. *)
Lemma locate_ok x l : core x l -> placed x l -> fptr (of_fil x) mod 512 = 0 -> fptr (of_fil x) < objsize (f_obj (of_fil x)) ->
  exists v' c, (if Z.land (fptr (of_fil x) / 512) (csize (x_geo x) - 1) =? 0 then read_follow else mret FR_OK) x = Ok (FR_OK, mk_open v' (fil_clust c (of_fil x))) /\
    c = get l (fptr (of_fil x) / 512 / csize (x_geo x)) /\
    core (mk_open v' (fil_clust c (of_fil x))) l /\ same_file l x (mk_open v' (fil_clust c (of_fil x))).
Proof.
  intros Hc Hp H512 Hlt. pose proof (co_geo x l Hc) as Hg. pose proof (csize_small _ _ Hg) as Hsm. destruct (pl_ptr x l Hp) as [Hp0 _].
  rewrite (csect_mod _ _ Hg) by dlia. destruct (Z.eqb_spec (fptr (of_fil x) / 512 mod csize (x_geo x)) 0) as [E0|E0].
  - destruct (follow_ok x l Hc Hp H512 E0 Hlt) as (v' & E & K & S). exists v', (get l (fptr (of_fil x) / 512 / csize (x_geo x))). done.
  - assert (fptr (of_fil x) = 512 * (fptr (of_fil x) / 512)) as Ej by dlia. set (j := fptr (of_fil x) / 512) in *.
    assert (0 < j) by (destruct (decide (j = 0)) as [E|]; [rewrite E, Z.mod_0_l in E0 by lia; done|lia]).
    assert (clust (of_fil x) = get l (j / csize (x_geo x))) as Ec.
    { rewrite (pl_clust x l Hp) by lia. f_equal. replace ((fptr (of_fil x) - 1) / 512) with (j - 1) by dlia. symmetry.
      pose proof (Z.div_mod j (csize (x_geo x)) ltac:(lia)). pose proof (Z.mod_pos_bound j (csize (x_geo x)) ltac:(lia)).
      apply Z.div_unique with (j mod csize (x_geo x) - 1); lia. }
    exists (of_vol x), (clust (of_fil x)). assert (mk_open (of_vol x) (fil_clust (clust (of_fil x)) (of_fil x)) = x) as -> by (by destruct x as [v []]).
    split; [done|]. split; [done|]. split; [done|apply same_file_refl].
Qed.

(** Sector [j] of the file is in the buffer, or brought there. *)
Lemma load_ok x l j : core x l -> 0 <= j < nsec (x_geo x) l ->
  exists v' fl b, (if negb (f_sect (of_fil x) =? fsect (x_geo x) l j) then b ← flush; (if (b : bool) then fill (fsect (x_geo x) l j) else mret false) else mret true) x =
    Ok (true, mk_open v' (fil_cache (f_sect (of_fil x)) b (fil_flag fl (of_fil x)))) /\
    let x' := mk_open v' (fil_cache (fsect (x_geo x) l j) b (fil_flag fl (of_fil x))) in core x' l /\ same_file l x x'.
Proof.
  intros Hc Hj. destruct (Z.eqb_spec (f_sect (of_fil x)) (fsect (x_geo x) l j)) as [Es|Es]; cbn [negb].
  - exists (of_vol x), (f_flag (of_fil x)), (f_buf (of_fil x)). cbv zeta. rewrite <- Es.
    assert (mk_open (of_vol x) (fil_cache (f_sect (of_fil x)) (f_buf (of_fil x)) (fil_flag (f_flag (of_fil x)) (of_fil x))) = x) as -> by (by destruct x as [? []]).
    split; [done|]. split; [done|apply same_file_refl].
  - destruct (flush_ok x l Hc) as (v2 & fl & E2 & K2 & S2 & Hcl). rewrite (m_bind_Ok _ _ _ _ _ E2). cbv iota.
    assert (v_geo v2 = x_geo x) as G2 by apply S2.
    destruct (fill_buf_ok (mk_open v2 (fil_flag fl (of_fil x))) l j K2 Hcl) as (v3 & b & E3 & K3 & S3); [cbn [of_vol]; by rewrite G2|].
    cbn [of_vol of_fil] in E3, K3, S3. rewrite G2 in E3, K3, S3. exists v3, fl, b. split; [exact E3|]. cbv zeta. split; [done|by eapply same_file_trans].
Qed.

(** The state after a step: the position belongs to the pointer [p]. *)
Definition arrived (x : open_file D) (l : list Z) (p : Z) : Prop :=
  clust (of_fil x) = get l ((p - 1) / 512 / csize (x_geo x)) /\ (p mod 512 <> 0 -> f_sect (of_fil x) = fsect (x_geo x) l (p / 512)).

Lemma read_step_ok x l btr br buff : core x l -> placed x l -> 0 < btr -> fptr (of_fil x) + btr <= objsize (f_obj (of_fil x)) -> 0 <= br -> br + btr <= zlen buff ->
  exists n buff' x', read_step btr br buff x = Ok ((Moved n, buff'), x') /\ 0 < n <= btr /\ core x' l /\ same_file l x x' /\
    fptr (of_fil x') = fptr (of_fil x) /\ arrived x' l (fptr (of_fil x) + n) /\ read_from x l (fptr (of_fil x)) br n buff buff'.
Proof.
  intros Hc Hp Hb Hend Hbr Hl. pose proof (co_geo x l Hc) as Hg. pose proof (csize_small _ _ Hg) as Hsm. destruct (pl_ptr x l Hp) as [Hp0 _].
  destruct (co_size x l Hc) as [Hsz Hns]. unfold read_step. rewrite bind_fil, bind_fgeo. unfold SS.
  destruct (Z.eqb_spec (fptr (of_fil x) mod 512) 0) as [E0|E0].
  - destruct (locate_ok x l Hc Hp E0 ltac:(lia)) as (v1 & c & E1 & Ec & K1 & S1). rewrite (m_bind_Ok _ _ _ _ _ E1). change (fr_ok FR_OK) with true. cbv iota.
    rewrite bind_fil. cbn [of_fil fil_clust clust fptr]. rewrite (csect_mod _ _ Hg) by dlia.
    set (x1 := mk_open v1 (fil_clust c (of_fil x))) in *. assert (x_geo x1 = x_geo x) as G1 by apply S1.
    assert (fptr (of_fil x) = 512 * (fptr (of_fil x) / 512)) as Ej by dlia. set (j := fptr (of_fil x) / 512) in *. assert (0 <= j < nsec (x_geo x) l) as Hj by lia.
    destruct (fsect_data _ _ Hg l j (co_range x l Hc) Hj) as [Hd _]. pose proof (data_nonzero _ _ Hg _ Hd) as Hd0.
    destruct (index_in _ _ Hg l j Hj) as [Hi Hm]. destruct (clst2sect_ok _ _ Hg (get l (j / csize (x_geo x)))) as (_ & Hcd & _); [apply (co_range x l Hc), get_in; done|].
    rewrite Ec, (proj2 (Z.eqb_neq (clst2sect _ _) 0)) by (pose proof (data_nonzero _ _ Hg _ Hcd); lia).
    change (clst2sect (x_geo x) (get l (j / csize (x_geo x))) + j mod csize (x_geo x)) with (fsect (x_geo x) l j). rewrite u32_small by lia.
    destruct (Z.ltb_spec 0 (btr / 512)) as [Hcc|Hcc].
    + destruct (read_direct_ok x1 l j (btr / 512) br buff K1) as (n & buff' & v' & E2 & Hn & Hn' & K2 & S2 & R2); [lia|done|cbn [of_fil x1 fil_clust f_obj]; dlia|lia|dlia|].
      rewrite G1 in E2, Hn'. exists (512 * n), buff', (mk_open v' (of_fil x1)). split; [exact E2|]. split; [dlia|]. split; [done|].
      split; [by eapply same_file_trans|]. split; [done|]. split.
      * assert (v_geo v' = x_geo x) as G3 by (rewrite <- G1; apply S2). split; cbn [of_vol of_fil x1 fil_clust clust f_sect]; rewrite G3.
        -- rewrite Ec. f_equal.
           replace ((fptr (of_fil x) + 512 * n - 1) / 512) with (j + (n - 1)) by dlia.
           pose proof (Z.div_mod j (csize (x_geo x)) ltac:(lia)). apply Z.div_unique with (j mod csize (x_geo x) + (n - 1)); lia.
        -- intros Hne. destruct Hne. dlia.
      * destruct R2 as [L2 R2]. split; [done|]. intros i Hi'. rewrite R2 by done. destruct (Z.leb_spec br i), (Z.ltb_spec i (br + 512 * n)); cbn [andb]; try done.
        rewrite (sf_bytes _ _ _ S1) by dlia. f_equal. lia.
    + destruct (load_ok x1 l j K1) as (v2 & fl & b & E2 & K2 & S2); [by rewrite G1|]. rewrite G1 in E2, K2, S2.
      rewrite (m_bind_Ok _ _ _ _ _ E2). cbv iota. rewrite bind_set_fil. cbn [of_vol of_fil fil_cache f_buf f_sect fil_flag].
      pose proof (same_file_trans _ _ _ _ S1 S2) as S. set (x2 := mk_open v2 (fil_cache (fsect (x_geo x) l j) b (fil_flag fl (of_fil x1)))) in *.
      assert (x_geo x2 = x_geo x) as G2 by apply S.
      destruct (read_part_ok x2 l btr br buff K2) as (n & buff' & E3 & Hn & Hn' & He & R3); [done|by rewrite (sf_obj _ _ _ S)|by rewrite G2|done|done|done|].
      cbn [x2 x1 of_fil fil_cache fil_flag fil_clust fptr] in Hn', He, R3. exists n, buff', x2. split; [exact E3|]. split; [done|]. split; [done|]. split; [done|].
      split; [done|]. split.
      * split.
        -- cbn [x2 x1 of_fil fil_cache fil_flag fil_clust clust]. rewrite Ec, G2. do 2 f_equal. dlia.
        -- intros Hne. cbn [x2 of_fil fil_cache f_sect]. rewrite G2. f_equal. dlia.
      * destruct R3 as [L3 R3]. split; [done|]. intros i Hi'. rewrite R3 by done. destruct (Z.leb_spec br i), (Z.ltb_spec i (br + n)); cbn [andb]; try done.
        rewrite (sf_bytes _ _ _ S) by dlia. done.
  - destruct (read_part_ok x l btr br buff Hc) as (n & buff' & E1 & Hn & Hn' & He & R); [done|done|by apply (pl_sect x l Hp)|done|done|done|].
    exists n, buff', x. split; [done|]. split; [done|]. split; [done|]. split; [apply same_file_refl|]. split; [done|]. split; [|done]. split.
    + rewrite (pl_clust x l Hp) by dlia. do 2 f_equal. dlia.
    + intros Hne. rewrite (pl_sect x l Hp) by done. f_equal. dlia.
Qed.

(** Moving the pointer to where a step arrived. *)
Lemma advance_ok x l p : core x l -> 0 <= p <= objsize (f_obj (of_fil x)) -> (0 < p -> arrived x l p) ->
  core (mk_open (of_vol x) (fil_fptr p (of_fil x))) l /\ placed (mk_open (of_vol x) (fil_fptr p (of_fil x))) l.
Proof.
  intros [Cv Cc Cs Ca Cb Cl Cd Cp] Hp Har. split; [by split|]. split; cbn [of_vol of_fil fil_fptr fptr f_obj clust f_sect]; [done|by intros; apply Har|].
  intros Hne. apply Har; [|done]. destruct (decide (p = 0)) as [->|]; [done|lia].
Qed.

Lemma read_loop_ok l fuel : forall x btr br buff, core x l -> placed x l -> 0 <= btr -> fptr (of_fil x) + btr <= objsize (f_obj (of_fil x)) ->
  0 <= br -> br + btr <= zlen buff -> br + btr < 4294967296 -> (Z.to_nat btr < fuel)%nat ->
  exists buff' x', read_loop fuel btr br buff x = Ok ((FR_OK, br + btr, buff'), x') /\ core x' l /\ placed x' l /\ same_file l x x' /\
    fptr (of_fil x') = fptr (of_fil x) + btr /\ read_from x l (fptr (of_fil x)) br btr buff buff'.
Proof.
  induction fuel as [|fuel IH]; intros x btr br buff Hc Hp Hb Hend Hbr Hl H32 Hfu; [lia|]. cbn [read_loop].
  destruct (Z.eqb_spec btr 0) as [->|Hne].
  - exists buff, x. rewrite !Z.add_0_r. split; [done|]. split; [done|]. split; [done|]. split; [apply same_file_refl|]. split; [done|]. split; [done|].
    intros i Hi. destruct (Z.leb_spec br i), (Z.ltb_spec i (br + 0)); cbn [andb]; try done. lia.
  - destruct (read_step_ok x l btr br buff Hc Hp ltac:(lia) Hend Hbr Hl) as (n & b1 & x1 & E1 & Hn & K1 & S1 & P1 & A1 & [L1 R1]).
    rewrite (m_bind_Ok _ _ _ _ _ E1). cbn [fst snd]. rewrite bind_set_fil, P1. pose proof (pl_ptr x l Hp) as [Hp0 _]. destruct (co_size x l Hc) as [Hsz _].
    rewrite (u32_small (fptr (of_fil x) + n)), (u32_small (btr - n)), (u32_small (br + n)) by lia.
    destruct (advance_ok x1 l (fptr (of_fil x) + n) K1) as [K2 P2]; [rewrite (sf_obj _ _ _ S1); lia|done|].
    set (x2 := mk_open (of_vol x1) (fil_fptr (fptr (of_fil x) + n) (of_fil x1))) in *.
    assert (same_file l x x2) as S2 by (eapply same_file_trans; [exact S1|by split]).
    destruct (IH x2 (btr - n) (br + n) b1 K2 P2) as (b2 & x3 & E3 & K3 & P3 & S3 & F3 & [L3 R3]); [lia|rewrite (sf_obj _ _ _ S2); cbn; lia|lia|lia|lia|lia|].
    exists b2, x3. replace (br + n + (btr - n)) with (br + btr) in E3 by lia. split; [exact E3|]. split; [done|]. split; [done|].
    split; [by eapply same_file_trans|]. split; [rewrite F3; cbn; lia|]. split; [congruence|]. intros i Hi. rewrite R3, R1 by done. cbn [x2 of_fil fil_fptr fptr].
    destruct (Z.leb_spec (br + n) i), (Z.ltb_spec i (br + n + (btr - n))), (Z.leb_spec br i), (Z.ltb_spec i (br + n)), (Z.ltb_spec i (br + btr)); cbn [andb]; try done; try lia.
    rewrite (sf_bytes _ _ _ S2); [f_equal; lia|]. destruct (co_size x l Hc) as [_ ?]. lia.
Qed.

(** A file object that [validate] accepts, without a sticky error. *)
Definition live (x : open_file D) : Prop :=
  o_fs (f_obj (of_fil x)) = true /\ o_id (f_obj (of_fil x)) = fs_id (x_geo x) /\ f_err (of_fil x) = FR_OK.

Lemma validate_ok x : vol_ok (of_vol x) -> o_fs (f_obj (of_fil x)) = true -> o_id (f_obj (of_fil x)) = fs_id (x_geo x) -> validate x = Ok (FR_OK, x).
Proof.
  intros Hv Hf Hi. unfold validate. rewrite bind_fil, bind_fgeo. rewrite Hf, Hi, Z.eqb_refl. erewrite (m_bind_Ok (gets _)) by reflexivity.
  unfold bd_noinit. rewrite (bd_ready_init _ (vo_ready _ Hv)). destruct (go_type _ _ (vo_geo _ Hv)) as [E|[E|E]]; by rewrite E.
Qed.

Lemma check_ok x : vol_ok (of_vol x) -> live x -> check_file x = Ok (FR_OK, x).
Proof. intros Hv (Hf & Hi & He). unfold check_file. rewrite (m_bind_Ok _ _ _ _ _ (validate_ok x Hv Hf Hi)), bind_fil, He. done. Qed.

Lemma live_same l x x' : live x -> same_file l x x' -> live x'.
Proof. intros (Hf & Hi & He) S. unfold live. rewrite (sf_obj _ _ _ S), (sf_geo _ _ _ S), (sf_err _ _ _ S). done. Qed.

Lemma f_read_ok (fuel : nat) x l buff btr : core x l -> placed x l -> live x -> has (f_flag (of_fil x)) FA_READ = true -> 0 <= btr < 4294967296 ->
  let n := Z.min btr (objsize (f_obj (of_fil x)) - fptr (of_fil x)) in n <= zlen buff -> (Z.to_nat n < fuel)%nat ->
  exists buff' x', f_read fuel buff btr x = Ok ((FR_OK, n, buff'), x') /\ core x' l /\ placed x' l /\ same_file l x x' /\
    fptr (of_fil x') = fptr (of_fil x) + n /\ read_from x l (fptr (of_fil x)) 0 n buff buff'.
Proof.
  intros Hc Hp Hv Hr Hb n Hl Hfu. unfold f_read. rewrite (m_bind_Ok _ _ _ _ _ (check_ok x (fo_vol _ (co_vol x l Hc)) Hv)). change (fr_ok FR_OK) with true. cbn [negb].
  rewrite bind_fil, Hr. cbn [negb]. pose proof (pl_ptr x l Hp) as Hp0. destruct (co_size x l Hc) as [Hsz _]. rewrite u32_small by lia.
  replace (if _ <? btr then _ else btr) with n by (unfold n; destruct (Z.ltb_spec (objsize (f_obj (of_fil x)) - fptr (of_fil x)) btr); lia).
  apply read_loop_ok; (done || lia).
Qed.

(** C19: [f_read] of [btr] bytes returns exactly the bytes of the file from the
    file pointer on, as many as the file has left and no more, whatever mix of
    partial sectors, whole sectors read directly, cluster boundaries and
    unsaved data in the buffer they lie in. The rest of the caller's buffer,
    the file, its content and every other sector and entry of the volume are
    unchanged, and the pointer is behind the last byte read. Fuel above the
    number of bytes is enough. *)
Theorem f_read_exact (fuel : nat) (x : open_file D) (l buff : list Z) (btr : Z) :
  core x l -> placed x l -> live x -> has (f_flag (of_fil x)) FA_READ = true -> 0 <= btr < 4294967296 ->
  let n := Z.min btr (objsize (f_obj (of_fil x)) - fptr (of_fil x)) in
  n <= zlen buff -> (Z.to_nat n < fuel)%nat ->
  exists buff' x', f_read fuel buff btr x = Ok ((FR_OK, n, buff'), x') /\
    length buff' = length buff /\
    (forall i, 0 <= i < n -> get buff' i = fbyte x l (fptr (of_fil x) + i)) /\
    (forall i, n <= i -> get buff' i = get buff i) /\
    fptr (of_fil x') = fptr (of_fil x) + n /\
    core x' l /\ placed x' l /\ live x' /\ same_file l x x'.
Proof.
  intros Hc Hp Hv Hr Hb n Hl Hfu. destruct (f_read_ok fuel x l buff btr Hc Hp Hv Hr Hb Hl Hfu) as (b & x' & E & K & P & S & F & [L R]). fold n in E, F, R.
  pose proof (pl_ptr x l Hp) as Hp0. exists b, x'. split; [exact E|]. split; [done|].
  split; [|split; [|split; [done|split; [done|split; [done|split; [by eapply live_same|done]]]]]]; intros i Hi; rewrite R by lia.
  - rewrite (proj2 (Z.leb_le 0 i)), (proj2 (Z.ltb_lt i (0 + n))) by lia. cbn [andb]. f_equal. lia.
  - rewrite (proj2 (Z.ltb_ge i (0 + n))) by lia. by rewrite andb_false_r.
Qed.

(** ** Seeking *)

(** The next cluster of a chain, followed in read or in write mode. *)
Lemma next_ok cfuel x l i : core x l -> 0 <= i < zlen l - 1 -> (2 * Z.to_nat (nent (of_vol x)) <= cfuel)%nat ->
  exists v', (if has (f_flag (of_fil x)) FA_WRITE then onvol (create_chain cfuel (get l i)) else onvol (get_fat (get l i))) x =
    Ok (get l (i + 1), mk_open v' (of_fil x)) /\ looked (of_vol x) v'.
Proof.
  intros Hc Hi Hfu. pose proof (co_chain x l Hc) as Hch. assert (links (nent (of_vol x)) (entry (of_vol x)) (sclust (f_obj (of_fil x))) l) as Hl by (destruct l; [cbn in Hi; lia|exact Hch]).
  destruct (co_range x l Hc) as [_ Hr]. assert (0 <= i < zlen l) as Hi0 by lia. assert (0 <= i + 1 < zlen l) as Hi1 by lia.
  pose proof (Hr _ (get_in l i Hi0)) as Hc0. pose proof (Hr _ (get_in l (i + 1) Hi1)) as Hc1. pose proof (links_next _ _ _ _ _ Hl Hi) as En.
  destruct (has _ _).
  - destruct (create_chain_ok cfuel (of_vol x) (get l i) (co_vol x l Hc)) as (r & v' & E & _ & _ & [(_ & _ & -> & L)|(Hno & _)]); [right; rewrite En; lia|done| |].
    + exists v'. split; [|done]. apply onvol_Ok. by rewrite E, En.
    + specialize (Hno ltac:(lia)). rewrite En in Hno. lia.
  - destruct (probe (of_vol x) (get l i) (co_vol x l Hc) Hc0) as (v' & E & L & _). exists v'. split; [|done]. apply onvol_Ok. by rewrite E, En.
Qed.

(** The loop over the clusters, from cluster [i] on: [ofs] is counted from the
    start of that cluster. *)
Lemma seek_loop_ok cfuel l fuel : forall x i ofs, core x l -> 0 <= i -> 0 < ofs ->
  512 * (csize (x_geo x) * i) + ofs <= objsize (f_obj (of_fil x)) -> fptr (of_fil x) = 512 * (csize (x_geo x) * i) ->
  clust (of_fil x) = get l i -> (2 * Z.to_nat (nent (of_vol x)) <= cfuel)%nat -> (Z.to_nat (zlen l - i) < fuel)%nat ->
  exists x' i' ofs', seek_loop cfuel fuel (512 * csize (x_geo x)) ofs (get l i) x = Ok (At (get l i') ofs', x') /\ core x' l /\ same_file l x x' /\
    0 <= i' < zlen l /\ 0 < ofs' <= 512 * csize (x_geo x) /\ 512 * (csize (x_geo x) * i') + ofs' = 512 * (csize (x_geo x) * i) + ofs /\
    fptr (of_fil x') = 512 * (csize (x_geo x) * i') /\ clust (of_fil x') = get l i'.
Proof.
  induction fuel as [|fuel IH]; intros x i ofs Hc Hi Ho Hend Hp Hcl Hcf Hfu; [lia|]. cbn [seek_loop]. pose proof (co_geo x l Hc) as Hg.
  pose proof (csize_small _ _ Hg) as Hsm. destruct (co_size x l Hc) as [Hsz Hns]. unfold nsec in Hns. assert (i < zlen l) as Hil by nia.
  destruct (Z.ltb_spec (512 * csize (x_geo x)) ofs) as [Hlt|Hge].
  - rewrite bind_set_fil, bind_fil, bind_fgeo. cbn [of_vol of_fil fil_fptr f_flag fptr]. rewrite (u32_small (ofs - _)), (u32_small (_ + 512 * csize (x_geo x))) by nia.
    set (x1 := mk_open (of_vol x) (fil_fptr (fptr (of_fil x) + 512 * csize (x_geo x)) (of_fil x))).
    assert (core x1 l) as K1 by (destruct Hc; by split). assert (same_file l x x1) as S1 by (by split).
    assert (0 <= i < zlen l - 1) as Hi1 by nia. destruct (next_ok cfuel x1 l i K1 Hi1 Hcf) as (v2 & E2 & L2). rewrite (m_bind_Ok _ _ _ _ _ E2).
    assert (0 <= i + 1 < zlen l) as Hi2 by lia. pose proof (proj2 (co_range x l Hc) _ (get_in l (i + 1) Hi2)) as Hr. destruct (nent_bound _ (fo_vol _ (co_vol x l Hc))) as [Hn _].
    unfold DISK_ERROR. rewrite (proj2 (Z.eqb_neq _ 0)), (proj2 (Z.eqb_neq _ 4294967295)), (proj2 (Z.leb_gt _ 1)), (proj2 (Z.leb_gt (nent (of_vol x)) _)) by lia.
    rewrite andb_false_r. cbn [orb]. rewrite bind_set_fil. cbn [of_vol of_fil].
    destruct (core_looked x1 v2 (fil_clust (get l (i + 1)) (of_fil x1)) l K1 L2) as [K2 S2]; [done..|].
    pose proof (same_file_trans _ _ _ _ S1 S2) as S. assert (v_geo v2 = x_geo x) as G2 by apply S.
    destruct (IH (mk_open v2 (fil_clust (get l (i + 1)) (of_fil x1))) (i + 1) (ofs - 512 * csize (x_geo x)) K2) as (x' & i' & ofs' & E & K & S' & R);
      cbn [of_vol of_fil x1 fil_clust fil_fptr f_obj fptr clust]; rewrite ?G2; try done; try lia.
    cbn [of_vol] in E, R. rewrite G2 in E, R. exists x', i', ofs'. split; [exact E|]. split; [done|]. split; [by eapply same_file_trans|].
    destruct R as (R1 & R2 & R3 & R4). split; [done|]. split; [done|]. split; [lia|done].
  - exists x, i, ofs. split; [done|]. split; [done|]. split; [apply same_file_refl|]. split; [lia|]. done.
Qed.

(** Where the walk starts. *)
Lemma seek_start_ok cfuel x l ifptr ofs : core x l -> 0 < ofs <= objsize (f_obj (of_fil x)) -> fptr (of_fil x) = 0 ->
  0 <= ifptr <= objsize (f_obj (of_fil x)) -> (0 < ifptr -> clust (of_fil x) = get l ((ifptr - 1) / 512 / csize (x_geo x))) ->
  exists f' i, seek_start cfuel (512 * csize (x_geo x)) ifptr ofs x = Ok (At (get l i) (ofs - 512 * (csize (x_geo x) * i)), mk_open (of_vol x) f') /\
    core (mk_open (of_vol x) f') l /\ same_file l x (mk_open (of_vol x) f') /\ 0 <= i < zlen l /\ 0 < ofs - 512 * (csize (x_geo x) * i) /\
    fptr f' = 512 * (csize (x_geo x) * i) /\ clust f' = get l i.
Proof.
  intros Hc Ho Hf Hif Hcl. pose proof (co_geo x l Hc) as Hg. pose proof (csize_small _ _ Hg) as Hsm. destruct (co_size x l Hc) as [Hsz Hns].
  unfold seek_start. rewrite bind_fil. assert (0 < 512 * csize (x_geo x)) as Hbcs by lia.
  assert (forall m, exists f' i, (if sclust (f_obj (of_fil x)) =? 0 then m else _ ← set_fil (fil_clust (sclust (f_obj (of_fil x)))); mret (At (sclust (f_obj (of_fil x))) ofs)) x =
      Ok (At (get l i) (ofs - 512 * (csize (x_geo x) * i)), mk_open (of_vol x) f') /\
    core (mk_open (of_vol x) f') l /\ same_file l x (mk_open (of_vol x) f') /\ 0 <= i < zlen l /\ 0 < ofs - 512 * (csize (x_geo x) * i) /\
    fptr f' = 512 * (csize (x_geo x) * i) /\ clust f' = get l i) as Hfirst.
  { intros m. unfold nsec in Hns. assert (0 <= 0 < zlen l) as H0l by nia. assert (get l 0 = sclust (f_obj (of_fil x))) as E0.
    { pose proof (co_chain x l Hc) as Hch. destruct l; [cbn in H0l; lia|]. by apply (links_head _ _ _ _ Hch). }
    pose proof (proj2 (co_range x l Hc) _ (get_in l 0 H0l)) as Hr. rewrite <- E0, (proj2 (Z.eqb_neq _ 0)) by lia. rewrite bind_set_fil.
    exists (fil_clust (get l 0) (of_fil x)), 0. replace (ofs - 512 * (csize (x_geo x) * 0)) with ofs by lia. split; [done|]. split; [destruct Hc; by split|].
    split; [by split|]. split; [done|]. split; [lia|]. cbn [fil_clust fptr clust]. split; [lia|done]. }
  destruct (Z.ltb_spec 0 ifptr) as [Hpos|Hpos]; cbn [andb]; [destruct (Z.leb_spec ((ifptr - 1) / (512 * csize (x_geo x))) ((ofs - 1) / (512 * csize (x_geo x)))) as [Hle|Hgt]|].
  - set (i := (ifptr - 1) / (512 * csize (x_geo x))) in *.
    assert (Z.land (ifptr - 1) (u32 (Z.lnot (512 * csize (x_geo x) - 1))) = 512 * (csize (x_geo x) * i)) as Eland.
    { destruct (go_pow2 _ _ Hg) as (k & Hk & Ek). assert (512 * csize (x_geo x) = 2 ^ (9 + k)) as Eb by (rewrite Ek, Z.pow_add_r by lia; done).
      replace (u32 (Z.lnot (512 * csize (x_geo x) - 1))) with (2 ^ 32 - 2 ^ (9 + k)).
      - rewrite land_clear_low by lia. unfold i. rewrite <- Eb. lia.
      - unfold u32, wrap, Z.lnot. change (2 ^ 32) with 4294967296. apply Z.mod_unique with (-1); lia. }
    rewrite Eland. assert (0 <= i) by (apply Z.div_pos; lia). pose proof (Z.mul_div_le (ifptr - 1) (512 * csize (x_geo x)) Hbcs) as Hm1. fold i in Hm1.
    pose proof (Z.mul_div_le (ofs - 1) (512 * csize (x_geo x)) Hbcs) as Hm2. assert (512 * (csize (x_geo x) * i) <= ofs - 1) as Hm3 by nia.
    rewrite bind_set_fil, u32_small by lia. unfold nsec in Hns. assert (i < zlen l) as Hil by nia.
    assert (clust (of_fil x) = get l i) as Ec by (rewrite (Hcl Hpos), Z.div_div by lia; done). rewrite Ec.
    exists (fil_fptr (512 * (csize (x_geo x) * i)) (of_fil x)), i. split; [done|]. split; [destruct Hc; by split|]. split; [by split|]. split; [done|]. split; [lia|]. done.
  - exact (Hfirst _).
  - exact (Hfirst _).
Qed.

(** The target: its cluster, and its sector when it lies inside one. *)
Lemma seek_place_ok cfuel fuel x l ifptr ofs : core x l -> 0 <= ofs <= objsize (f_obj (of_fil x)) -> fptr (of_fil x) = 0 ->
  0 <= ifptr <= objsize (f_obj (of_fil x)) -> (0 < ifptr -> clust (of_fil x) = get l ((ifptr - 1) / 512 / csize (x_geo x))) ->
  (2 * Z.to_nat (nent (of_vol x)) <= cfuel)%nat -> (length l < fuel)%nat ->
  exists x' nsect, seek_place cfuel fuel ifptr ofs x = Ok ((FR_OK, nsect), x') /\ core x' l /\ same_file l x x' /\ fptr (of_fil x') = ofs /\
    (0 < ofs -> clust (of_fil x') = get l ((ofs - 1) / 512 / csize (x_geo x))) /\ (ofs mod 512 <> 0 -> nsect = fsect (x_geo x) l (ofs / 512)).
Proof.
  intros Hc Ho Hf Hif Hcl Hcf Hfu. pose proof (co_geo x l Hc) as Hg. pose proof (csize_small _ _ Hg) as Hsm. destruct (co_size x l Hc) as [Hsz Hns]. unfold nsec in Hns.
  unfold seek_place. destruct (Z.ltb_spec 0 ofs) as [Hpos|Hz].
  - rewrite bind_fgeo. unfold SS. rewrite (u32_small (csize (x_geo x) * 512)) by lia. replace (csize (x_geo x) * 512) with (512 * csize (x_geo x)) by lia.
    destruct (seek_start_ok cfuel x l ifptr ofs Hc ltac:(lia) Hf Hif Hcl) as (f1 & i & E1 & K1 & S1 & Hi & Ho1 & Hf1 & Hc1). rewrite (m_bind_Ok _ _ _ _ _ E1).
    pose proof (proj2 (co_range x l Hc) _ (get_in l i Hi)) as Hr. rewrite (proj2 (Z.eqb_neq (get l i) 0)) by lia. cbn [negb].
    pose proof (sf_obj _ _ _ S1) as O1. cbn [of_fil] in O1.
    destruct (seek_loop_ok cfuel l fuel (mk_open (of_vol x) f1) i (ofs - 512 * (csize (x_geo x) * i)) K1) as (x2 & i2 & ofs2 & E2 & K2 & S2 & Hi2 & Ho2 & Et & Hf2 & Hc2);
      cbn [of_vol of_fil]; rewrite ?O1; try done; try lia.
    cbn [of_vol] in E2, Ho2, Et, Hf2. rewrite (m_bind_Ok _ _ _ _ _ E2), bind_set_fil, Hf2.
    assert (512 * (csize (x_geo x) * i2) + ofs2 = ofs) as Et' by lia. rewrite Et', (u32_small ofs) by lia.
    pose proof (proj2 (co_range x l Hc) _ (get_in l i2 Hi2)) as Hr2. destruct (clst2sect_ok _ _ Hg _ Hr2) as (_ & Hd & _). pose proof (data_nonzero _ _ Hg _ Hd) as Hd0.
    pose proof (same_file_trans _ _ _ _ S1 S2) as S. set (x3 := mk_open (of_vol x2) (fil_fptr ofs (of_fil x2))).
    assert (core x3 l) as K3 by (destruct K2; by split). assert (same_file l x x3) as S3 by (eapply same_file_trans; [exact S|by split]).
    assert (clust (of_fil x3) = get l ((ofs - 1) / 512 / csize (x_geo x))) as Ec.
    { cbn [x3 of_fil fil_fptr clust]. rewrite Hc2. f_equal. rewrite Z.div_div by lia. apply Z.div_unique with (ofs2 - 1); lia. }
    unfold truth. destruct (Z.eqb_spec (ofs2 mod 512) 0) as [E0|E0]; cbn [negb].
    + exists x3, 0. split; [done|]. split; [done|]. split; [done|]. split; [done|]. split; [done|]. intros Hne. destruct Hne.
      rewrite <- Et', Z.mul_comm, Z.add_comm. by rewrite Z.mod_add by lia.
    + rewrite (proj2 (Z.eqb_neq _ 0)) by lia. assert (ofs2 / 512 < csize (x_geo x)) as Hlt by dlia.
      assert (0 <= ofs2 / 512) as Hge by dlia. assert (ofs / 512 = csize (x_geo x) * i2 + ofs2 / 512) as Ej by (symmetry; apply Z.div_unique with (ofs2 mod 512); dlia).
      assert (fsect (x_geo x) l (ofs / 512) = clst2sect (x_geo x) (get l i2) + ofs2 / 512) as Ef.
      { unfold fsect. rewrite Ej. replace ((csize (x_geo x) * i2 + ofs2 / 512) / csize (x_geo x)) with i2 by (apply Z.div_unique with (ofs2 / 512); lia).
        f_equal. symmetry. apply Z.mod_unique with i2; lia. }
      destruct (clst2sect_ok _ _ Hg _ Hr2) as (_ & _ & Hd'). pose proof (data_nonzero _ _ Hg _ Hd') as Hd0'.
      exists x3, (fsect (x_geo x) l (ofs / 512)). split; [rewrite Ef, u32_small by lia; done|]. done.
  - exists x, 0. split; [done|]. split; [done|]. split; [apply same_file_refl|]. split; [lia|]. split; [lia|]. intros Hne. replace ofs with 0 in Hne by lia. done.
Qed.

(** Seeking inside a file, or beyond its end in read mode: the pointer is
    at the offset asked for, cut at the end of the file, with the cluster and
    the buffer that belong to it; unsaved data of the old position is written
    back, and the file, its content and the rest of the volume are unchanged. Fuel
    above the number of clusters of the file is enough. *)
Lemma f_lseek_ok (cfuel fuel : nat) (x : open_file D) (l : list Z) (ofs : Z) :
  core x l -> placed x l -> live x -> 0 <= ofs ->
  (ofs <= objsize (f_obj (of_fil x)) \/ has (f_flag (of_fil x)) FA_WRITE = false) ->
  (2 * Z.to_nat (n_fatent (fs_geo (v_fs (of_vol x)))) <= cfuel)%nat -> (length l < fuel)%nat ->
  exists x', f_lseek cfuel fuel ofs x = Ok (FR_OK, x') /\ fptr (of_fil x') = Z.min ofs (objsize (f_obj (of_fil x))) /\
    core x' l /\ placed x' l /\ live x' /\ same_file l x x'.
Proof.
  intros Hc Hp Hv Ho Hm Hcf Hfu. unfold f_lseek. rewrite (m_bind_Ok _ _ _ _ _ (check_ok x (fo_vol _ (co_vol x l Hc)) Hv)). change (fr_ok FR_OK) with true. cbn [negb].
  rewrite bind_fil. set (t := Z.min ofs (objsize (f_obj (of_fil x)))). destruct (co_size x l Hc) as [Hsz Hns].
  replace (if (objsize (f_obj (of_fil x)) <? ofs) && _ then _ else ofs) with t.
  2: { unfold t. destruct (Z.ltb_spec (objsize (f_obj (of_fil x))) ofs); cbn [andb]; [|lia]. destruct Hm as [?| ->]; [lia|]. cbn [negb]. lia. }
  rewrite bind_set_fil. set (x0 := mk_open (of_vol x) (fil_fptr 0 (of_fil x))).
  assert (core x0 l) as K0 by (destruct Hc; by split). assert (same_file l x x0) as S0 by (by split).
  destruct (seek_place_ok cfuel fuel x0 l (fptr (of_fil x)) t K0) as (x1 & nsect & E1 & K1 & S1 & F1 & C1 & N1); [cbn; lia|done|apply (pl_ptr x l Hp)|apply (pl_clust x l Hp)|done|done|].
  rewrite (m_bind_Ok _ _ _ _ _ E1). cbn [fst snd]. change (fr_ok FR_OK) with true. cbv iota. rewrite bind_set_fil, bind_fil.
  pose proof (same_file_trans _ _ _ _ S0 S1) as S. assert (f_obj (of_fil x1) = f_obj (of_fil x)) as O1 by apply S. assert (x_geo x1 = x_geo x) as G1 by apply S.
  rewrite O1, F1, (proj2 (Z.ltb_ge _ t)) by lia. cbn [of_fil]. rewrite F1. assert (mk_open (of_vol x1) (of_fil x1) = x1) as -> by (by destruct x1).
  cbn [x0 of_vol] in C1, N1. unfold truth, SS. destruct (Z.eqb_spec (t mod 512) 0) as [E0|E0]; cbn [negb andb]; [|specialize (N1 E0); destruct (Z.eqb_spec nsect (f_sect (of_fil x1))) as [Es|Es]; cbn [negb]].
  - exists x1. split; [done|]. split; [done|]. split; [done|]. split; [|split; [by eapply live_same|done]].
    split; rewrite ?F1, ?O1, ?G1; [lia|done|done].
  - exists x1. split; [done|]. split; [done|]. split; [done|]. split; [|split; [by eapply live_same|done]].
    split; rewrite ?F1, ?O1, ?G1; [lia|done|]. intros _. by rewrite <- Es.
  - destruct (flush_ok x1 l K1) as (v2 & fl & E2 & K2 & S2 & Hcl). rewrite (m_bind_Ok _ _ _ _ _ E2). cbv iota. assert (v_geo v2 = x_geo x) as G2 by (rewrite <- G1; apply S2).
    destruct (fill_buf_ok (mk_open v2 (fil_flag fl (of_fil x1))) l (t / 512) K2 Hcl) as (v3 & b & E3 & K3 & S3); [cbn [of_vol]; rewrite G2; dlia|].
    cbn [of_vol of_fil] in E3, K3, S3. rewrite G2, <- N1 in E3, K3, S3. rewrite (m_bind_Ok _ _ _ _ _ E3). cbv iota. rewrite bind_set_fil. cbn [of_vol of_fil].
    pose proof (same_file_trans _ _ _ _ S (same_file_trans _ _ _ _ S2 S3)) as S4.
    exists (mk_open v3 (fil_cache nsect b (fil_flag fl (of_fil x1)))). split; [done|]. split; [exact F1|]. split; [done|].
    split; [|split; [by eapply live_same|done]]. assert (v_geo v3 = x_geo x) as G3 by apply S4.
    split; cbn [of_vol of_fil fil_cache fil_flag fptr f_obj clust f_sect]; rewrite ?F1, ?O1, ?G3; [lia|done|done].
Qed.

End Invariant.
