(* ===== verification/FatWrite.v ===== *)
(** * FatWrite: what writing does to a file

    The functional behaviour of [f_write]: the file afterwards is the file
    before with the bytes written at the file pointer, grown along newly
    allocated clusters where needed, and every other file is untouched. *)

From Stdlib Require Import ZArith Lia Bool.
From stdpp Require Import base list sets.
From S2P Require Import Prelude Hw Ata Fat FatChain FatFile FatRead.
From stdpp Require Import options.

Section Writing.
Context {D : Type} `{BlockLaws D}.
#[local] Set Default Proof Using "Type*".

Abbreviation v_geo v := (fs_geo (v_fs v)).
Abbreviation nent v := (n_fatent (v_geo v)).
Abbreviation x_geo x := (v_geo (of_vol x)).
Abbreviation x_size x := (objsize (f_obj (of_fil x))).

(** The identity of a file object: what no transfer changes. *)
Definition ident (x : open_file D) := (o_fs (f_obj (of_fil x)), o_id (f_obj (of_fil x)), f_err (of_fil x), dir_sect (of_fil x), dir_ptr (of_fil x)).

(** The file may have grown from chain [l] to [l'] and have new content;
    clusters it took were free, and entries and sectors of others are as
    before. *)
Record ext_file (l : list Z) (x : open_file D) (l' : list Z) (x' : open_file D) : Prop := {
  ef_app : exists r, l' = l ++ r;
  ef_ident : ident x' = ident x;
  ef_mode : forall b, b = FA_READ \/ b = FA_WRITE \/ b = FA_MODIFIED -> has (f_flag (of_fil x')) b = has (f_flag (of_fil x)) b;
  ef_geo : x_geo x' = x_geo x;
  ef_dev : bd_size (v_dev (of_vol x')) = bd_size (v_dev (of_vol x));
  ef_fresh : forall c, c ∈ l' -> c ∈ l \/ (2 <= c < nent (of_vol x) /\ entry (of_vol x) c = 0);
  ef_table : forall c, 2 <= c < nent (of_vol x) -> c ∉ l' -> entry (of_vol x') c = entry (of_vol x) c;
  ef_frame : forall s, reachable (of_vol x) s -> ~ in_table (x_geo x) s -> (forall j, 0 <= j < nsec (x_geo x) l' -> s <> fsect (x_geo x) l' j) ->
    vsec (of_vol x') s = vsec (of_vol x) s
}.

Lemma same_ext l x x' : same_file l x x' -> ext_file l x l x'.
Proof.
  intros [O E [D1 D2] M G S A T B F]. split; try done.
  - exists []. by rewrite app_nil_r.
  - unfold ident. by rewrite O, E, D1, D2.
  - intros c Hc. by left.
  - intros c Hc _. by apply T.
Qed.

Lemma ext_refl l x : ext_file l x l x.
Proof. apply same_ext, same_file_refl. Qed.

Lemma nsec_app g l r : nsec g (l ++ r) = nsec g l + nsec g r.
Proof. unfold nsec. rewrite length_app. lia. Qed.

Lemma ext_trans l1 l2 l3 x1 x2 x3 : geo_ok (x_geo x1) (bd_size (v_dev (of_vol x1))) -> ext_file l1 x1 l2 x2 -> ext_file l2 x2 l3 x3 -> ext_file l1 x1 l3 x3.
Proof.
  intros Hg [[r1 ->] I1 M1 G1 S1 R1 T1 F1] [[r2 ->] I2 M2 G2 S2 R2 T2 F2]. pose proof (csize_small _ _ Hg) as Hsm. split; try congruence.
  - exists (r1 ++ r2). by rewrite app_assoc.
  - intros b Hb. rewrite M2, M1 by done. done.
  - intros c Hc. destruct (decide (c ∈ l1)) as [?|Hn]; [by left|right].
    destruct (decide (c ∈ l1 ++ r1)) as [Hin|Hn1]; [by destruct (R1 c Hin)|]. destruct (R2 c Hc) as [?|[Hr Hz]]; [done|]. rewrite G1 in Hr.
    split; [done|]. rewrite <- T1; done.
  - intros c Hc Hn. rewrite T2, T1; [done|done| |by rewrite G1|done]. intros Hin. apply Hn, elem_of_app. by left.
  - intros s Hs Ht Hj. rewrite F2, F1; [done|done|done| |unfold reachable; by rewrite G1, S1|by rewrite G1|by rewrite G1].
    intros j Hj1. rewrite <- (fsect_app _ _ Hg _ r2) by done. apply Hj. rewrite nsec_app. unfold nsec in *. lia.
Qed.

(** Bytes of the file in a longer chain. *)
Lemma fbyte_app x l r k : geo_ok (x_geo x) (bd_size (v_dev (of_vol x))) -> 0 <= k < 512 * nsec (x_geo x) l -> fbyte x (l ++ r) k = fbyte x l k.
Proof. intros Hg Hk. unfold fbyte. rewrite (fsect_app _ _ Hg) by dlia. done. Qed.

(** ** A new cluster at the end of the chain *)

Lemma chain_app v v' s l r : fat_ok v -> chain v s l -> appended v (if decide (l = []) then 0 else get l (zlen l - 1)) r v' -> v_geo v' = v_geo v ->
  chain v' (if decide (l = []) then r else s) (l ++ [r]) /\ r ∉ l.
Proof.
  intros Hf Hch (Hr & Hz & _ & He) G. destruct (nent_bound v (fo_vol v Hf)) as [Hb Hm]. destruct (decide (l = [])) as [->|Hne].
  - cbn [app chain links]. rewrite G. split; [|apply not_elem_of_nil]. split; [done|]. split; [done|]. rewrite He, Z.eqb_refl by done. lia.
  - assert (links (nent v) (entry v) s l) as Hl by (by destruct l). destruct (exists_last Hne) as (l0 & z & ->).
    assert (r ∉ l0 ++ [z]) as Hrl. { intros Hin. pose proof (links_used _ _ _ _ Hf Hl Hin). lia. }
    assert (get (l0 ++ [z]) (zlen (l0 ++ [z]) - 1) = z) as Elast.
    { rewrite length_app. cbn [length]. rewrite get_app_r by lia. by replace (Z.of_nat (length l0 + 1) - 1 - zlen l0) with 0 by lia. }
    rewrite Elast in He. split; [|done]. assert (links (nent v) (entry v') s (l0 ++ [z; r])) as Hl'.
    { assert (2 <= z < nent v) as Hz' by (eapply links_range; [exact Hl|set_solver]). eapply (links_snoc _ (entry v)); [exact Hl|done| | |].
      - rewrite He by done. rewrite (proj2 (Z.eqb_neq z r)), Z.eqb_refl by set_solver. done.
      - rewrite He, Z.eqb_refl by done. lia.
      - intros y Hy. rewrite He by (eapply links_range; [exact Hl|set_solver]). rewrite (proj2 (Z.eqb_neq y r)) by set_solver.
        rewrite (proj2 (Z.eqb_neq y z)); [done|]. intros ->. pose proof (links_NoDup _ _ _ _ Hl) as Hnd. apply NoDup_app in Hnd as (_ & Hd & _). apply (Hd z Hy). set_solver. }
    rewrite <- app_assoc. cbn [app]. unfold chain. rewrite G. by destruct l0.
Qed.

(** The parts of a file object that allocation does not touch. *)
Definition same_fil (f f' : FIL) : Prop :=
  f_flag f' = f_flag f /\ f_err f' = f_err f /\ fptr f' = fptr f /\ f_sect f' = f_sect f /\ f_buf f' = f_buf f /\ dir_sect f' = dir_sect f /\ dir_ptr f' = dir_ptr f /\
  o_fs (f_obj f') = o_fs (f_obj f) /\ o_id (f_obj f') = o_id (f_obj f) /\ objsize (f_obj f') = objsize (f_obj f).

Lemma append_ok x l r v' f' : core x l -> appended (of_vol x) (if decide (l = []) then 0 else get l (zlen l - 1)) r v' -> fat_ok v' -> data_step (of_vol x) v' ->
  same_fil (of_fil x) f' -> sclust (f_obj f') = (if decide (l = []) then r else sclust (f_obj (of_fil x))) ->
  core (mk_open v' f') (l ++ [r]) /\ ext_file l x (l ++ [r]) (mk_open v' f') /\
  (forall k, 0 <= k < 512 * nsec (x_geo x) l -> fbyte (mk_open v' f') (l ++ [r]) k = fbyte x l k).
Proof.
  intros Hc Hap Hf' (G & Zd & V & _) (Efl & Eer & _ & Ese & Ebu & Eds & Edp & Eof & Eoi & Eos) Esc. pose proof (co_geo x l Hc) as Hg. pose proof (csize_small _ _ Hg) as Hsm.
  destruct (chain_app (of_vol x) v' (sclust (f_obj (of_fil x))) l r (co_vol x l Hc) (co_chain x l Hc) Hap G) as [Hch Hrl]. rewrite <- Esc in Hch.
  pose proof (chain_range _ _ _ Hch) as Hrange. rewrite G in Hrange. destruct Hap as (Hr & Hz & Hw & He). pose proof Hc as [Cv Cc Cs Ca Cb Cl Cd Cp].
  assert (forall j, 0 <= j < nsec (x_geo x) l -> fsect (x_geo x) (l ++ [r]) j = fsect (x_geo x) l j) as Hfs by (intros; by apply (fsect_app _ _ Hg)).
  assert (forall j, 0 <= j < nsec (x_geo x) l -> vsec v' (fsect (x_geo x) l j) = vsec (of_vol x) (fsect (x_geo x) l j)) as Hv.
  { intros j Hj. destruct (co_sector x l j Hc Hj) as [Hd Hre]. apply V; [done|by eapply data_not_table]. }
  assert (nsec (x_geo x) l <= nsec (x_geo x) (l ++ [r])) as Hns by (rewrite nsec_app; unfold nsec; cbn [length]; lia).
  split; [|split].
  - split; cbn [of_vol of_fil]; rewrite ?Efl, ?Ese, ?Ebu, ?Eos, ?G; try done.
    + lia.
    + destruct Ca as [?|(j & Hj & E)]; [by left|right]. exists j. split; [lia|]. by rewrite Hfs.
    + intros Hd Hn. rewrite Cl by done. destruct Ca as [?|(j & Hj & ->)]; [done|]. by rewrite Hv.
    + intros j Hj E. destruct (fsect_data _ _ Hg (l ++ [r]) j Hrange Hj) as [Hd _]. rewrite E in Hd. by apply (data_not_table _ _ Hg _ Hd).
  - split; cbn [of_vol of_fil]; rewrite ?Efl; try done.
    + by exists [r].
    + unfold ident. cbn [of_fil]. by rewrite Eof, Eoi, Eer, Eds, Edp.
    + intros c Hin. apply elem_of_app in Hin as [?|Hin]; [by left|right]. apply list_elem_of_singleton in Hin as ->. done.
    + intros c Hc' Hn. rewrite He by done. rewrite (proj2 (Z.eqb_neq c r)) by set_solver. destruct (decide (l = [])) as [->|Hne]; [by rewrite (proj2 (Z.eqb_neq c 0)) by lia|].
      rewrite (proj2 (Z.eqb_neq c _)); [done|]. intros ->. apply Hn, elem_of_app. left. apply get_in. destruct l; [done|cbn [length]; lia].
    + intros t Ht Hnt _. by apply V.
  - intros k Hk. unfold fbyte, fsec. cbn [of_vol of_fil]. rewrite G, Ese, Ebu, Hfs by dlia. f_equal. rewrite Hv; [done|dlia].
Qed.

(** ** The cluster of the file pointer *)

(** [x1] with chain [l1] is ready to be written at sector [j]. *)
Definition at_sector (x : open_file D) (l : list Z) (j : Z) (x1 : open_file D) (l1 : list Z) : Prop :=
  core x1 l1 /\ ext_file l x l1 x1 /\ (forall k, 0 <= k < 512 * nsec (x_geo x) l -> fbyte x1 l1 k = fbyte x l k) /\
  0 <= j < nsec (x_geo x) l1 /\ clust (of_fil x1) = get l1 (j / csize (x_geo x)) /\
  fptr (of_fil x1) = fptr (of_fil x) /\ x_size x1 = x_size x.

Section Following.
Context (cfuel : nat) (x : open_file D) (l : list Z) (j : Z).
Hypothesis Hc : core x l.
Hypothesis Hp : placed x l.
Hypothesis Hj : fptr (of_fil x) = 512 * j.
Hypothesis Hfu : (2 * Z.to_nat (nent (of_vol x)) <= cfuel)%nat.
#[local] Set Default Proof Using "All".

(** An allocated cluster is followed. *)
Lemma follow_old c v' : looked (of_vol x) v' -> c = get l (j / csize (x_geo x)) -> 0 <= j < nsec (x_geo x) l ->
  at_sector x l j (mk_open v' (fil_clust c (of_fil x))) l.
Proof.
  intros L -> Hjn. destruct (core_looked x v' (fil_clust (get l (j / csize (x_geo x))) (of_fil x)) l Hc L) as [K S]; [done..|].
  split; [done|]. split; [by apply same_ext|]. split; [apply (sf_bytes _ _ _ S)|]. done.
Qed.

(** What taking a cluster yields: the volume was full, or the file is ready. *)
Definition taken (o : option FRESULT) (x1 : open_file D) : Prop :=
  (o = None /\ full (of_vol x) /\ exists v', x1 = mk_open v' (of_fil x) /\ looked (of_vol x) v') \/
  (o = Some FR_OK /\ exists l1, at_sector x l j x1 l1).

Lemma head_clust : l <> [] -> 0 <= 0 < zlen l /\ sclust (f_obj (of_fil x)) = get l 0 /\ 2 <= get l 0 < nent (of_vol x).
Proof.
  intros Hne. assert (0 <= 0 < zlen l) as H0l by (destruct l; [done|cbn [length]; lia]). split; [done|]. split; [|by apply (co_range x l Hc), get_in].
  pose proof (co_chain x l Hc) as Hch. destruct l; [done|]. symmetry. by apply (links_head _ _ _ _ Hch).
Qed.

Lemma take_old r v' : 0 <= j / csize (x_geo x) < zlen l -> j mod csize (x_geo x) = 0 -> looked (of_vol x) v' -> r = get l (j / csize (x_geo x)) ->
  exists o x1, take_cluster r (mk_open v' (of_fil x)) = Ok (o, x1) /\ taken o x1.
Proof.
  intros Hi Hm L Er. pose proof (csize_small _ _ (co_geo x l Hc)) as Hsm. destruct (nent_bound _ (fo_vol _ (co_vol x l Hc))) as [Hn _].
  assert (l <> []) as Hne by (intros E; rewrite E in Hi; cbn in Hi; lia). destruct (head_clust Hne) as (_ & Es & Hg0).
  pose proof (proj2 (co_range x l Hc) _ (get_in l _ Hi)) as Hr. rewrite <- Er in Hr. unfold take_cluster, DISK_ERROR.
  rewrite (proj2 (Z.eqb_neq r 0)), (proj2 (Z.eqb_neq r 1)), (proj2 (Z.eqb_neq r 4294967295)) by lia. rewrite !bind_set_fil.
  cbn [of_vol of_fil fil_clust f_obj]. rewrite Es, (proj2 (Z.eqb_neq (get l 0) 0)) by lia. eexists _, _. split; [reflexivity|]. right. split; [done|]. exists l.
  apply follow_old; [done|done|]. pose proof (Z.div_mod j (csize (x_geo x)) ltac:(lia)). unfold nsec. nia.
Qed.

Lemma take_new r v' : stretched (of_vol x) (if decide (l = []) then 0 else get l (zlen l - 1)) r v' -> fat_ok v' -> data_step (of_vol x) v' ->
  j = csize (x_geo x) * zlen l -> exists o x1, take_cluster r (mk_open v' (of_fil x)) = Ok (o, x1) /\ taken o x1.
Proof.
  intros [(-> & Hfull & L)|(Hr2 & _ & Hap)] F T Ei; [exists None, (mk_open v' (of_fil x)); split; [done|]; left; eauto|].
  pose proof (csize_small _ _ (co_geo x l Hc)) as Hsm. destruct (nent_bound _ (fo_vol _ (co_vol x l Hc))) as [Hn _]. pose proof Hap as (Hrn & _).
  unfold take_cluster, DISK_ERROR. rewrite (proj2 (Z.eqb_neq r 0)), (proj2 (Z.eqb_neq r 1)), (proj2 (Z.eqb_neq r 4294967295)) by lia. rewrite !bind_set_fil.
  cbn [of_vol of_fil]. eexists _, _. split; [reflexivity|]. right. split; [done|]. exists (l ++ [r]). cbn [fil_clust f_obj].
  set (f1 := if sclust (f_obj (of_fil x)) =? 0 then fil_obj (obj_sclust r (f_obj (of_fil x))) (fil_clust r (of_fil x)) else fil_clust r (of_fil x)).
  assert (same_fil (of_fil x) f1 /\ clust f1 = r /\ sclust (f_obj f1) = if decide (l = []) then r else sclust (f_obj (of_fil x))) as (Sf & Ec & Esc).
  { unfold f1. destruct (decide (l = [])) as [El|El].
    - pose proof (co_chain x l Hc) as Hch. rewrite El in Hch. cbn [chain] in Hch. by rewrite Hch.
    - destruct (head_clust El) as (_ & Es & Hg0). by rewrite (proj2 (Z.eqb_neq (sclust (f_obj (of_fil x))) 0)) by lia. }
  destruct (append_ok x l r v' f1 Hc Hap F T Sf Esc) as (K & Ex & B). split; [done|]. split; [done|]. split; [done|]. split; [|split; [|split; apply Sf]].
  - rewrite nsec_app. unfold nsec. cbn [length]. nia.
  - change (clust f1 = get (l ++ [r]) (j / csize (x_geo x))). rewrite Ec, Ei, Z.mul_comm, Z.div_mul, get_app_r by lia. by rewrite Z.sub_diag.
Qed.

(** The cluster of the file pointer: the next one of the chain, or a new one
    for a file that has none or behind its last one. *)
Lemma write_follow_ok : j mod csize (x_geo x) = 0 -> exists o x1, write_follow cfuel x = Ok (o, x1) /\ taken o x1.
Proof.
  intros Hm. pose proof (csize_small _ _ (co_geo x l Hc)) as Hsm. destruct (co_size x l Hc) as [Hsz Hns]. destruct (pl_ptr x l Hp) as [Hp0 Hp1].
  set (i := j / csize (x_geo x)). assert (j = csize (x_geo x) * i) as Ej by (unfold i; pose proof (Z.div_mod j (csize (x_geo x)) ltac:(lia)); lia).
  assert (0 <= i <= zlen l) as Hi by (unfold nsec in Hns; nia). destruct (co_range x l Hc) as [_ Hr].
  unfold write_follow. rewrite bind_fil. destruct (Z.eqb_spec (fptr (of_fil x)) 0) as [E0|E0].
  - assert (i = 0) as Ei by nia. destruct (decide (l = [])) as [El|El].
    + assert (sclust (f_obj (of_fil x)) = 0) as -> by (pose proof (co_chain x l Hc) as Hch; by rewrite El in Hch). change (0 =? 0) with true. cbv iota.
      destruct (create_chain_ok cfuel (of_vol x) 0 (co_vol x l Hc)) as (r & v' & E & F & T & [[? _]|[_ St]]); [by left|done|done|].
      rewrite (bind_onvol _ _ x _ _ E). apply take_new; [by rewrite decide_True|done|done|rewrite El; cbn [length]; lia].
    + destruct (head_clust El) as (H0l & Es & Hg0). rewrite Es, (proj2 (Z.eqb_neq (get l 0) 0)) by lia. rewrite bind_fret.
      assert (looked (of_vol x) (of_vol x)) as Lr by (split; [apply (co_vol x l Hc)|split; [done|split; [done|apply data_step_refl]]]).
      assert (take_cluster (get l 0) x = take_cluster (get l 0) (mk_open (of_vol x) (of_fil x))) as -> by (by destruct x). apply take_old; [fold i; lia|done|done|]. fold i. by rewrite Ei.
  - assert (0 < i) by nia. assert (clust (of_fil x) = get l (i - 1)) as Ec.
    { rewrite (pl_clust x l Hp) by lia. f_equal. replace ((fptr (of_fil x) - 1) / 512) with (j - 1) by dlia. symmetry. apply Z.div_unique with (csize (x_geo x) - 1); lia. }
    assert (0 <= i - 1 < zlen l) as Hi1 by lia. pose proof (Hr _ (get_in l (i - 1) Hi1)) as Hr1. pose proof (co_chain x l Hc) as Hch.
    assert (l <> []) as Hne by (intros E; rewrite E in Hi1; cbn in Hi1; lia).
    assert (links (nent (of_vol x)) (entry (of_vol x)) (sclust (f_obj (of_fil x))) l) as Hl by (destruct l; [done|exact Hch]).
    pose proof (links_used _ _ _ _ (co_vol x l Hc) Hl (get_in l (i - 1) Hi1)) as Hu.
    destruct (create_chain_ok cfuel (of_vol x) (clust (of_fil x)) (co_vol x l Hc)) as (r & v' & E & F & T & St); [right; rewrite Ec; lia|done|].
    rewrite (bind_onvol _ _ x _ _ E). rewrite Ec in St. destruct (decide (i < zlen l)) as [Hil|Hil].
    + assert (entry (of_vol x) (get l (i - 1)) = get l i) as En by (rewrite (links_next _ _ _ _ _ Hl) by lia; f_equal; lia).
      assert (0 <= i < zlen l) as Hi2 by lia. pose proof (Hr _ (get_in l i Hi2)). destruct St as [(_ & _ & -> & L)|[Hno _]].
      * rewrite En. by apply take_old.
      * specialize (Hno ltac:(lia)). rewrite En in Hno. lia.
    + assert (i = zlen l) as Ei by lia. rewrite Ei in *. pose proof (links_last _ _ _ _ Hl Hne) as Hlast. destruct St as [(_ & ? & _)|[_ St]]; [lia|].
      apply take_new; [by rewrite decide_False|done|done|done].
Qed.

End Following.

(** ** Whole sectors *)

Lemma within_cluster g size l j n : geo_ok g size -> 0 <= j < nsec g l -> 0 <= n -> j mod csize g + n <= csize g -> j + n <= nsec g l.
Proof.
  intros Hg Hj Hn Hm. pose proof (csize_small _ _ Hg). destruct (index_in _ _ Hg l j Hj) as [Hi _]. pose proof (Z.div_mod j (csize g) ltac:(lia)). unfold nsec in *. nia.
Qed.

Lemma fetch_bytes b off n d : Forall is_byte b -> fetch b off n = Ok d -> Forall is_byte d.
Proof. intros Hb. unfold fetch. destruct (_ && _); [|done]. intros E. injection E as <-. by apply Forall_take, Forall_drop. Qed.

(** A piece of a piece. *)
Lemma fetch_fetch b off m d k : fetch b off m = Ok d -> 0 <= k -> 512 * k + 512 <= m -> fetch b (off + k * 512) 512 = Ok (take 512 (drop (Z.to_nat (512 * k)) d)).
Proof.
  unfold fetch. destruct (Z.leb_spec 0 off), (Z.leb_spec 0 m), (Z.leb_spec (off + m) (zlen b)); cbn [andb]; try done. intros E Hk Hm. injection E as <-.
  rewrite (proj2 (Z.leb_le 0 (off + k * 512))), (proj2 (Z.leb_le (off + k * 512 + 512) _)) by lia. cbn [andb]. change (0 <=? 512) with true. cbv iota. f_equal.
  apply get_eq_ext; [rewrite !length_take, !length_drop, length_take, length_drop; lia|]. intros i Hi. rewrite length_take, length_drop in Hi.
  change (Z.to_nat 512) with 512%nat in *. rewrite !get_take by lia. rewrite !get_drop by lia. rewrite get_take by lia. rewrite get_drop by lia. f_equal. lia.
Qed.

(** Sectors [j .. j + n) of the file, in one cluster, written on the drive. *)
Lemma file_write x l j n data : core x l -> 0 <= j < nsec (x_geo x) l -> 0 < n -> j mod csize (x_geo x) + n <= csize (x_geo x) ->
  zlen data = 512 * n -> Forall is_byte data ->
  exists d, bd_write data (fsect (x_geo x) l j) n (v_dev (of_vol x)) = Ok (RES_OK, d) /\ fat_ok (mk_vol (v_fs (of_vol x)) d) /\ bd_size d = bd_size (v_dev (of_vol x)) /\
    (forall c, entry (mk_vol (v_fs (of_vol x)) d) c = entry (of_vol x) c) /\
    (forall i, 0 <= i < nsec (x_geo x) l -> vsec (mk_vol (v_fs (of_vol x)) d) (fsect (x_geo x) l i) =
       if (j <=? i) && (i <? j + n) then take 512 (drop (Z.to_nat (512 * (i - j))) data) else vsec (of_vol x) (fsect (x_geo x) l i)) /\
    (forall s, (forall i, 0 <= i < nsec (x_geo x) l -> s <> fsect (x_geo x) l i) -> vsec (mk_vol (v_fs (of_vol x)) d) s = vsec (of_vol x) s).
Proof.
  intros Hc Hj Hn Hn' Ld Hdb. pose proof (co_geo x l Hc) as Hg. destruct (index_in _ _ Hg l j Hj) as [_ Hm].
  pose proof (within_cluster _ _ l j n Hg Hj ltac:(lia) Hn') as Hjn.
  assert (forall k, 0 <= k < n -> 0 <= j + k < nsec (x_geo x) l /\ fsect (x_geo x) l (j + k) = fsect (x_geo x) l j + k) as Hk.
  { intros k Hk. split; [lia|]. apply (fsect_add _ _ Hg); lia. }
  destruct (co_sector x l j Hc Hj) as [Hd _]. destruct (co_sector x l (j + (n - 1)) Hc) as [Hd' _]; [lia|]. destruct (Hk (n - 1) ltac:(lia)) as [_ Ek]. rewrite Ek in Hd'.
  assert (forall t, fsect (x_geo x) l j <= t < fsect (x_geo x) l j + n -> exists k, 0 <= k < n /\ t = fsect (x_geo x) l (j + k)) as Ht.
  { intros t Ht. exists (t - fsect (x_geo x) l j). split; [lia|]. rewrite (proj2 (Hk (t - fsect (x_geo x) l j) ltac:(lia))). lia. }
  destruct (data_write (of_vol x) data (fsect (x_geo x) l j) n (co_vol x l Hc)) as (d & Ew & Fd & Zd & Vd & Td);
    [lia|done|by replace (fsect (x_geo x) l j + n - 1) with (fsect (x_geo x) l j + (n - 1)) by lia| |done|done|].
  { intros t Hti. destruct (Ht t Hti) as (k & Hkn & ->). apply (co_apart x l Hc). by apply Hk. }
  exists d. split; [done|]. split; [done|]. split; [done|]. split; [done|]. split.
  - intros i Hi. rewrite Vd. destruct ((fsect (x_geo x) l j <=? fsect (x_geo x) l i) && (fsect (x_geo x) l i <? fsect (x_geo x) l j + n)) eqn:Ein.
    + apply andb_true_iff in Ein as [I1 I2]. apply Z.leb_le in I1. apply Z.ltb_lt in I2. destruct (Ht (fsect (x_geo x) l i) ltac:(lia)) as (k & Hkn & Et).
      pose proof (fsect_inj _ _ Hg l _ _ (co_range x l Hc) Hi (proj1 (Hk k Hkn)) Et) as ->. rewrite (proj2 (Z.leb_le _ _)), (proj2 (Z.ltb_lt _ _)) by lia. cbn [andb].
      do 3 f_equal. rewrite (proj2 (Hk k Hkn)). lia.
    + destruct (Z.leb_spec j i), (Z.ltb_spec i (j + n)); cbn [andb]; try done. destruct (Hk (i - j) ltac:(lia)) as [_ Ei]. replace (j + (i - j)) with i in Ei by lia.
      rewrite Ei, (proj2 (Z.leb_le _ _)), (proj2 (Z.ltb_lt _ _)) in Ein by lia. done.
  - intros s Hs. rewrite Vd. destruct ((fsect (x_geo x) l j <=? s) && (s <? fsect (x_geo x) l j + n)) eqn:Ein; [|done].
    apply andb_true_iff in Ein as [I1 I2]. apply Z.leb_le in I1. apply Z.ltb_lt in I2. destruct (Ht s ltac:(lia)) as (k & Hkn & Et). by destruct (Hs (j + k) (proj1 (Hk k Hkn))).
Qed.

(** A clean buffer shows what the volume holds. *)
Lemma fsec_clean x l i : core x l -> has (f_flag (of_fil x)) FA_DIRTY = false -> 0 <= i < nsec (x_geo x) l -> fsec x (fsect (x_geo x) l i) = vsec (of_vol x) (fsect (x_geo x) l i).
Proof.
  intros Hc Hcl Hi. rewrite (fsec_drive x l i Hc Hi), Hcl. cbn [andb]. unfold vsec. by rewrite (proj2 (Z.eqb_neq _ _) (co_apart x l Hc i Hi)).
Qed.

(** The cached sector is not among those written, or is. *)
Lemma cache_case x l j n : core x l -> 0 <= j < nsec (x_geo x) l -> 0 < n -> j mod csize (x_geo x) + n <= csize (x_geo x) ->
  if u32 (f_sect (of_fil x) - fsect (x_geo x) l j) <? n
  then exists i, j <= i < j + n /\ f_sect (of_fil x) = fsect (x_geo x) l i /\ u32 (f_sect (of_fil x) - fsect (x_geo x) l j) = i - j
  else f_sect (of_fil x) = 0 \/ exists i, 0 <= i < nsec (x_geo x) l /\ ~ (j <= i < j + n) /\ f_sect (of_fil x) = fsect (x_geo x) l i.
Proof.
  intros Hc Hj Hn Hn'. pose proof (co_geo x l Hc) as Hg. pose proof (csize_small _ _ Hg) as Hsm. destruct (index_in _ _ Hg l j Hj) as [_ Hm].
  pose proof (within_cluster _ _ l j n Hg Hj ltac:(lia) Hn') as Hjn. destruct (co_sector x l j Hc Hj) as [Hd _]. pose proof (data_nonzero _ _ Hg _ Hd) as Hd0.
  destruct (co_sector x l (j + (n - 1)) Hc) as [_ [Hr' _]]; [lia|]. rewrite (fsect_add _ _ Hg) in Hr' by lia. pose proof (go_max _ _ Hg) as Hmax.
  destruct (u32 _ <? n) eqn:Elt.
  - destruct (co_cache x l Hc) as [E0|(i & Hi & Ei)].
    + rewrite E0 in Elt. apply Z.ltb_lt in Elt. replace (u32 (0 - fsect (x_geo x) l j)) with (4294967296 - fsect (x_geo x) l j) in Elt; [lia|].
      unfold u32, wrap. apply Z.mod_unique with (-1); lia.
    + destruct (co_sector x l i Hc Hi) as [Hdi _]. pose proof (data_nonzero _ _ Hg _ Hdi) as Hdi0. rewrite <- Ei in Hdi0.
      destruct (cached_in (fsect (x_geo x) l j) (f_sect (of_fil x)) n (bd_size (v_dev (of_vol x)))) as [Hin Eu]; [lia|lia|done|done|lia|done|]. rewrite Eu.
      exists (j + (f_sect (of_fil x) - fsect (x_geo x) l j)). split; [lia|]. rewrite (fsect_add _ _ Hg) by lia. lia.
  - destruct (co_cache x l Hc) as [E0|(i & Hi & Ei)]; [by left|right]. exists i. split; [done|]. split; [|done]. intros Hin. apply Z.ltb_ge in Elt.
    replace i with (j + (i - j)) in Ei by lia. rewrite (fsect_add _ _ Hg) in Ei by lia. rewrite Ei in Elt.
    replace (fsect (x_geo x) l j + (i - j) - fsect (x_geo x) l j) with (i - j) in Elt by lia. rewrite u32_small in Elt by lia. lia.
Qed.

Lemma write_direct_ok x l j cc bw wbuff : core x l -> has (f_flag (of_fil x)) FA_DIRTY = false -> 0 <= j < nsec (x_geo x) l -> 0 < cc ->
  512 * (j + cc) < 4294967296 -> 0 <= bw -> bw + 512 * cc <= zlen wbuff -> Forall is_byte wbuff ->
  exists n v' fl b, write_direct (fsect (x_geo x) l j) (j mod csize (x_geo x)) cc bw wbuff x = Ok (Moved (512 * n), mk_open v' (fil_flag fl (fil_cache (f_sect (of_fil x)) b (of_fil x)))) /\
    let x' := mk_open v' (fil_flag fl (fil_cache (f_sect (of_fil x)) b (of_fil x))) in
    0 < n <= cc /\ j mod csize (x_geo x) + n <= csize (x_geo x) /\ core x' l /\ ext_file l x l x' /\
    forall k, 0 <= k < 512 * nsec (x_geo x) l -> fbyte x' l k = if (512 * j <=? k) && (k <? 512 * (j + n)) then get wbuff (bw + (k - 512 * j)) else fbyte x l k.
Proof.
  intros Hc Hcl Hj Hcc H32 Hbw Hl Hby. pose proof (co_geo x l Hc) as Hg. pose proof (csize_small _ _ Hg) as Hsm. destruct (index_in _ _ Hg l j Hj) as [_ Hm].
  unfold write_direct. rewrite bind_fil, bind_fgeo. rewrite (u32_small (j mod _ + cc)), (u32_small (csize (x_geo x) - _)) by lia. unfold SS.
  set (n := if csize (x_geo x) <? j mod csize (x_geo x) + cc then csize (x_geo x) - j mod csize (x_geo x) else cc).
  assert (0 < n <= cc /\ j mod csize (x_geo x) + n <= csize (x_geo x)) as [Hn Hn'] by (unfold n; destruct (Z.ltb_spec (csize (x_geo x)) (j mod csize (x_geo x) + cc)); lia).
  destruct (fetch_ok wbuff bw (512 * n)) as (data & E1 & L1 & G1); [lia|lia|lia|]. rewrite (bind_flift _ _ _ _ E1). pose proof (fetch_bytes _ _ _ _ Hby E1) as Hdb.
  destruct (file_write x l j n data Hc Hj ltac:(lia) Hn' L1 Hdb) as (d & Ew & Fd & Zd & Td & Vd & Od).
  rewrite (bind_onvol _ _ x _ _ (drive_Ok _ (of_vol x) _ _ Ew)). change (res_ok RES_OK) with true. cbv iota. rewrite (u32_small (512 * n)) by lia.
  pose proof Hc as [Cv Cc Cs Ca [Cb1 Cb2] Cln Cd Cp]. set (v' := mk_vol (v_fs (of_vol x)) d) in *.
  assert (exists fl b, (if u32 (f_sect (of_fil x) - fsect (x_geo x) l j) <? n then b ← lift (fetch wbuff (bw + u32 (f_sect (of_fil x) - fsect (x_geo x) l j) * 512) 512);
      set_fil (fun f => fil_flag (Z.land (f_flag f) 127) (fil_cache (f_sect f) b f)) else skip) (mk_open v' (of_fil x)) =
      Ok (tt, mk_open v' (fil_flag fl (fil_cache (f_sect (of_fil x)) b (of_fil x)))) /\ (length b = 512%nat /\ Forall is_byte b) /\ has fl FA_DIRTY = false /\
      (forall m, m = FA_READ \/ m = FA_WRITE \/ m = FA_MODIFIED -> has fl m = has (f_flag (of_fil x)) m) /\ (f_sect (of_fil x) <> 0 -> b = vsec v' (f_sect (of_fil x)))) as (fl & b & E2 & Hb & Hfl & Hmd & Hbv).
  { pose proof (cache_case x l j n Hc Hj ltac:(lia) Hn') as Hcase. destruct (u32 _ <? n).
    - destruct Hcase as (i & Hi & Ei & Eu). rewrite Eu. pose proof (fetch_fetch _ _ _ _ (i - j) E1 ltac:(lia) ltac:(lia)) as Ef. rewrite (bind_flift _ _ _ _ Ef).
      eexists _, _. split; [reflexivity|]. split; [split; [rewrite length_take, length_drop; lia|by apply Forall_take, Forall_drop]|]. split; [apply has_clear|].
      split; [intros; by apply has_mask|]. intros _. pose proof (within_cluster _ _ l j n Hg Hj ltac:(lia) Hn'). rewrite Ei, Vd by lia.
      rewrite (proj2 (Z.leb_le _ _)), (proj2 (Z.ltb_lt _ _)) by lia. done.
    - exists (f_flag (of_fil x)), (f_buf (of_fil x)). assert (fil_flag (f_flag (of_fil x)) (fil_cache (f_sect (of_fil x)) (f_buf (of_fil x)) (of_fil x)) = of_fil x) as -> by (by destruct (of_fil x)).
      split; [done|]. split; [done|]. split; [done|]. split; [done|]. intros Hs0. destruct Hcase as [?|(i & Hi & Hni & Ei)]; [done|]. rewrite (Cln Hcl Hs0), Ei, Vd by done.
      destruct (Z.leb_spec j i), (Z.ltb_spec i (j + n)); cbn [andb]; try done. lia. }
  erewrite (m_bind_Ok (if _ <? n then _ else _)) by exact E2. exists n, v', fl, b. split; [done|]. cbv zeta. split; [done|]. split; [done|].
  assert (core (mk_open v' (fil_flag fl (fil_cache (f_sect (of_fil x)) b (of_fil x)))) l) as K.
  { split; cbn [of_vol of_fil fil_flag fil_cache f_obj f_flag f_sect f_buf]; try done; [by apply (chain_ext (of_vol x))|by rewrite Hfl]. }
  split; [done|]. split.
  - split; try done; [exists []; by rewrite app_nil_r|by intros; left|]. intros t Ht Hnt Hnj. by apply Od.
  - intros k Hk. pose proof (fsec_clean _ l (k / 512) K Hfl ltac:(cbn; dlia)) as Ek. unfold fbyte. cbn [of_vol v' v_fs] in *. rewrite Ek, Vd by dlia.
    rewrite (fsec_clean x l) by (done || dlia).
    destruct (Z.leb_spec j (k / 512)), (Z.ltb_spec (k / 512) (j + n)), (Z.leb_spec (512 * j) k), (Z.ltb_spec k (512 * (j + n))); cbn [andb]; try done; try dlia.
    rewrite get_take, get_drop by dlia. replace (Z.of_nat (Z.to_nat (512 * (k / 512 - j))) + k mod 512) with (k - 512 * j) by dlia. apply G1. lia.
Qed.

(** ** Parts of sectors *)

(** The file object with its buffer marked dirty. *)
Definition dirtied (x : open_file D) : open_file D := mk_open (of_vol x) (fil_flag (Z.lor (f_flag (of_fil x)) FA_DIRTY) (of_fil x)).

Lemma has_dirtied flag : has (Z.lor flag FA_DIRTY) FA_DIRTY = true.
Proof.
  unfold has, truth. apply negb_true_iff, Z.eqb_neq. intros E. assert (Z.testbit (Z.land (Z.lor flag FA_DIRTY) FA_DIRTY) 7 = false) as Hb by (rewrite E; apply Z.bits_0).
  rewrite Z.land_spec, Z.lor_spec in Hb. change (Z.testbit FA_DIRTY 7) with true in Hb. by rewrite orb_true_r in Hb.
Qed.

Lemma has_mode_dirtied flag m : m = FA_READ \/ m = FA_WRITE \/ m = FA_MODIFIED -> has (Z.lor flag FA_DIRTY) m = has flag m.
Proof. intros Hm. unfold has. rewrite Z.land_lor_distr_l. destruct Hm as [->|[->| ->]]; (change (Z.land FA_DIRTY _) with 0; by rewrite Z.lor_0_r). Qed.

(** A dirty buffer may hold anything. *)
Lemma core_buffer x l s b : core x l -> (exists j, 0 <= j < nsec (x_geo x) l /\ s = fsect (x_geo x) l j) -> length b = 512%nat -> Forall is_byte b ->
  core (mk_open (of_vol x) (fil_flag (Z.lor (f_flag (of_fil x)) FA_DIRTY) (fil_cache s b (of_fil x)))) l.
Proof.
  intros Hc (j & Hj & ->) Lb Bb. destruct (co_sector x l j Hc Hj) as [Hd _]. pose proof (data_nonzero _ _ (co_geo x l Hc) _ Hd).
  destruct Hc as [Cv Cc Cs Ca Cb Cl Cd Cp]. split; cbn [of_vol of_fil fil_flag fil_cache f_obj f_flag f_sect f_buf]; try done.
  - right. eauto.
  - by rewrite has_dirtied.
  - lia.
Qed.

Lemma write_part_ok x l btw bw wbuff : core (dirtied x) l -> 0 <= fptr (of_fil x) < 512 * nsec (x_geo x) l -> f_sect (of_fil x) = fsect (x_geo x) l (fptr (of_fil x) / 512) ->
  0 < btw -> 0 <= bw -> bw + btw <= zlen wbuff -> Forall is_byte wbuff ->
  exists n b, write_part btw bw wbuff x = Ok (Moved n, dirtied (mk_open (of_vol x) (fil_cache (f_sect (of_fil x)) b (of_fil x)))) /\
    let x' := dirtied (mk_open (of_vol x) (fil_cache (f_sect (of_fil x)) b (of_fil x))) in
    0 < n <= btw /\ n <= 512 - fptr (of_fil x) mod 512 /\ core x' l /\ ext_file l x l x' /\
    forall k, 0 <= k < 512 * nsec (x_geo x) l -> fbyte x' l k =
      if (fptr (of_fil x) <=? k) && (k <? fptr (of_fil x) + n) then get wbuff (bw + (k - fptr (of_fil x))) else fbyte x l k.
Proof.
  intros Hc Hp Hs Hb Hbw Hl Hby. destruct (co_buf _ _ Hc) as [Lb Bb]. cbn [dirtied of_fil fil_flag f_buf] in Lb, Bb. unfold write_part. rewrite bind_fil. unfold SS.
  set (n := if btw <? 512 - fptr (of_fil x) mod 512 then btw else 512 - fptr (of_fil x) mod 512).
  assert (0 < n <= btw /\ n <= 512 - fptr (of_fil x) mod 512) as (Hn & Hn') by (unfold n; destruct (Z.ltb_spec btw (512 - fptr (of_fil x) mod 512)); dlia).
  destruct (fetch_ok wbuff bw n) as (data & E1 & L1 & G1); [lia|lia|lia|]. rewrite (bind_flift _ _ _ _ E1). pose proof (fetch_bytes _ _ _ _ Hby E1) as Hdb.
  destruct (store_ok (f_buf (of_fil x)) (fptr (of_fil x) mod 512) data) as (b & E2 & L2 & G2); [dlia|dlia|]. rewrite (bind_flift _ _ _ _ E2), bind_set_fil.
  assert (Forall is_byte b) as Bb'.
  { apply (Forall_nth is_byte 0). intros i Hi. replace i with (Z.to_nat (Z.of_nat i)) by lia. fold (get b (Z.of_nat i)). rewrite G2 by lia.
    destruct (_ && _); by apply get_byte. }
  exists n, b. split; [done|]. cbv zeta. split; [done|]. split; [done|].
  assert (core (dirtied (mk_open (of_vol x) (fil_cache (f_sect (of_fil x)) b (of_fil x)))) l) as K.
  { pose proof (core_buffer (dirtied x) l (f_sect (of_fil x)) b Hc) as K. cbn [dirtied of_vol of_fil fil_flag f_flag fil_cache] in K. rewrite <- Z.lor_assoc, Z.lor_diag in K.
    apply K; [|congruence|done]. exists (fptr (of_fil x) / 512). split; [dlia|done]. }
  split; [done|]. split.
  - split; try done; [exists []; by rewrite app_nil_r|intros m Hm; by apply has_mode_dirtied|by intros; left].
  - intros k Hk. unfold fbyte, fsec. cbn [dirtied of_vol of_fil fil_flag fil_cache f_sect f_buf]. rewrite Hs.
    assert (in_range (x_geo x) l) as Hr by apply (co_range _ _ Hc). pose proof (co_geo _ _ Hc) as Hg. cbn [dirtied of_vol] in Hg.
    destruct (Z.eqb_spec (fsect (x_geo x) l (k / 512)) (fsect (x_geo x) l (fptr (of_fil x) / 512))) as [E|Ne].
    + apply (fsect_inj _ _ Hg l) in E; [|done|dlia|dlia]. rewrite G2 by dlia. rewrite L1.
      destruct (Z.leb_spec (fptr (of_fil x) mod 512) (k mod 512)), (Z.ltb_spec (k mod 512) (fptr (of_fil x) mod 512 + n)), (Z.leb_spec (fptr (of_fil x)) k), (Z.ltb_spec k (fptr (of_fil x) + n));
        cbn [andb]; try done; try dlia. rewrite G1 by dlia. f_equal. dlia.
    + destruct (Z.leb_spec (fptr (of_fil x)) k), (Z.ltb_spec k (fptr (of_fil x) + n)); cbn [andb]; try done.
      destruct Ne. f_equal. dlia.
Qed.

(** Filling the buffer, unless it holds the sector or the file ends here. *)
Lemma prepare_ok x l j : core x l -> has (f_flag (of_fil x)) FA_DIRTY = false -> 0 <= j < nsec (x_geo x) l -> fptr (of_fil x) = 512 * j ->
  exists v' b, (if negb (f_sect (of_fil x) =? fsect (x_geo x) l j) && (fptr (of_fil x) <? x_size x) then fill (fsect (x_geo x) l j) else mret true) x =
      Ok (true, mk_open v' (fil_cache (f_sect (of_fil x)) b (of_fil x))) /\
    let x' := mk_open v' (fil_cache (fsect (x_geo x) l j) b (of_fil x)) in
    core (dirtied x') l /\ ext_file l x l x' /\ forall k, 0 <= k < x_size x -> fbyte x' l k = fbyte x l k.
Proof.
  intros Hc Hcl Hj Hp. destruct (co_size x l Hc) as [Hsz Hns]. pose proof (co_buf x l Hc) as [Lb Bb].
  destruct (negb (f_sect (of_fil x) =? fsect (x_geo x) l j) && (fptr (of_fil x) <? x_size x)) eqn:Ef.
  - destruct (fill_buf_ok x l j Hc Hcl Hj) as (v' & b & E & K & S). exists v', b. split; [done|]. cbv zeta. split; [|split; [by apply same_ext|intros k Hk; apply (sf_bytes _ _ _ S); lia]].
    destruct (co_buf _ _ K) as [Lb' Bb']. assert (x_geo (mk_open v' (fil_cache (fsect (x_geo x) l j) b (of_fil x))) = x_geo x) as G by apply S.
    pose proof (core_buffer _ l (fsect (x_geo x) l j) b K) as K'. apply K'; [|done|done]. rewrite G. eauto.
  - exists (of_vol x), (f_buf (of_fil x)). cbv zeta. assert (mk_open (of_vol x) (fil_cache (f_sect (of_fil x)) (f_buf (of_fil x)) (of_fil x)) = x) as -> by (by destruct x as [? []]).
    split; [done|]. split; [apply (core_buffer x l (fsect (x_geo x) l j) (f_buf (of_fil x)) Hc); [eauto|done|done]|]. split; [split; try done; [exists []; by rewrite app_nil_r|by intros; left]|].
    intros k Hk. unfold fbyte, fsec. cbn [of_vol of_fil fil_cache f_sect f_buf]. apply andb_false_iff in Ef as [Ef|Ef].
    + apply negb_false_iff, Z.eqb_eq in Ef. by rewrite Ef.
    + apply Z.ltb_ge in Ef. destruct (Z.eqb_spec (fsect (x_geo x) l (k / 512)) (fsect (x_geo x) l j)) as [E|_].
      * apply (fsect_inj _ _ (co_geo x l Hc) l) in E; [dlia|apply (co_range x l Hc)|dlia|done].
      * destruct (Z.eqb_spec (fsect (x_geo x) l (k / 512)) (f_sect (of_fil x))) as [E|_]; [|done].
        pose proof (fsec_clean x l (k / 512) Hc Hcl ltac:(dlia)) as Ec. unfold fsec in Ec. rewrite E, Z.eqb_refl in Ec. by rewrite E, Ec.
Qed.

(** ** One pass of the loop *)

(** The file [x2] with chain [l2] is [x] with [n] bytes of [wbuff] from [bw] on
    written at the pointer, and the pointer behind them. *)
Record wrote (x : open_file D) (l : list Z) (bw : Z) (wbuff : list Z) (n : Z) (x2 : open_file D) (l2 : list Z) : Prop := {
  wr_core : core x2 l2;
  wr_placed : placed x2 l2;
  wr_ext : ext_file l x l2 x2;
  wr_ptr : fptr (of_fil x2) = fptr (of_fil x) + n;
  wr_size : x_size x2 = Z.max (x_size x) (fptr (of_fil x) + n);
  wr_bytes : forall k, 0 <= k < x_size x2 -> fbyte x2 l2 k =
    if (fptr (of_fil x) <=? k) && (k <? fptr (of_fil x) + n) then get wbuff (bw + (k - fptr (of_fil x))) else fbyte x l k
}.

Lemma grow_ok x l x1 l1 n bw wbuff : core x l -> placed x l -> core x1 l1 -> ext_file l x l1 x1 -> fptr (of_fil x1) = fptr (of_fil x) -> x_size x1 = x_size x ->
  0 < n -> fptr (of_fil x) + n <= 512 * nsec (x_geo x) l1 -> fptr (of_fil x) + n < 4294967296 -> arrived x1 l1 (fptr (of_fil x) + n) ->
  (forall k, 0 <= k < Z.max (x_size x) (fptr (of_fil x) + n) -> fbyte x1 l1 k =
    if (fptr (of_fil x) <=? k) && (k <? fptr (of_fil x) + n) then get wbuff (bw + (k - fptr (of_fil x))) else fbyte x l k) ->
  wrote x l bw wbuff n (mk_open (of_vol x1) (grow n (of_fil x1))) l1.
Proof.
  intros Hc Hp K1 Ex Ep Es Hn Hend H32 [A1 A2] B. pose proof (pl_ptr x l Hp) as Hp0. pose proof (ef_geo _ _ _ _ Ex) as G. unfold grow. rewrite Ep, Es, u32_small by lia.
  assert ((if x_size x <? fptr (of_fil x) + n then fptr (of_fil x) + n else x_size x) = Z.max (x_size x) (fptr (of_fil x) + n)) as -> by (destruct (Z.ltb_spec (x_size x) (fptr (of_fil x) + n)); lia).
  destruct (co_size x1 l1 K1) as [Hsz Hns]. rewrite Es in Hsz, Hns. split.
  - destruct K1 as [Cv Cc Cs Ca Cb Cl Cd Cp]. split; try done. cbn [of_vol of_fil fil_fptr fil_obj f_obj obj_size objsize]. rewrite G in *. lia.
  - split; cbn [of_vol of_fil fil_fptr fil_obj f_obj obj_size objsize fptr clust f_sect]; [lia|done|done].
  - destruct Ex as [X1 X2 X3 X4 X5 X6 X7 X8]. by split.
  - done.
  - done.
  - exact B.
Qed.

(** Outcome of a pass. *)
Definition passed (x : open_file D) (l : list Z) (btw bw : Z) (wbuff : list Z) (m : moved) (x1 : open_file D) : Prop :=
  (m = NoRoom /\ full (of_vol x) /\ exists v', x1 = mk_open v' (of_fil x) /\ looked (of_vol x) v') \/
  (exists n l1, m = Moved n /\ 0 < n <= btw /\ wrote x l bw wbuff n (mk_open (of_vol x1) (grow n (of_fil x1))) l1).

Section Step.
Context (cfuel : nat) (x : open_file D) (l : list Z) (btw bw : Z) (wbuff : list Z).
Hypothesis Hc : core x l.
Hypothesis Hp : placed x l.
Hypothesis Hfu : (2 * Z.to_nat (nent (of_vol x)) <= cfuel)%nat.
Hypothesis Hb : 0 < btw.
Hypothesis H32 : fptr (of_fil x) + btw < 4294967296.
Hypothesis Hbw : 0 <= bw.
Hypothesis Hl : bw + btw <= zlen wbuff.
Hypothesis Hby : Forall is_byte wbuff.
#[local] Set Default Proof Using "All".

(** Inside a sector. *)
Lemma step_inside : fptr (of_fil x) mod 512 <> 0 -> exists m x1, write_part btw bw wbuff x = Ok (m, x1) /\ passed x l btw bw wbuff m x1.
Proof.
  intros Hne. pose proof (pl_ptr x l Hp) as Hp0. destruct (co_size x l Hc) as [Hsz Hns]. assert (0 <= fptr (of_fil x) / 512 < nsec (x_geo x) l) as Hj by dlia.
  pose proof (co_buf x l Hc) as [Lb Bb]. pose proof (pl_sect x l Hp Hne) as Es.
  destruct (write_part_ok x l btw bw wbuff) as (n & b & E & Hn & Hn' & K & Ex & B); [|dlia|done|done|done|done|done|].
  { pose proof (core_buffer x l (f_sect (of_fil x)) (f_buf (of_fil x)) Hc) as K. unfold dirtied. destruct x as [v []]. apply K; [eauto|done|done]. }
  eexists _, _. split; [exact E|]. right. exists n, l. split; [done|]. split; [done|]. apply grow_ok; try done; [lia|dlia|lia| |].
  - split; cbn [dirtied of_vol of_fil fil_flag fil_cache clust f_sect].
    + rewrite (pl_clust x l Hp) by dlia. do 2 f_equal. dlia.
    + intros Hne'. rewrite Es. f_equal. dlia.
  - intros k Hk. apply B. dlia.
Qed.

(** On a sector boundary, with the cluster known and the buffer written back. *)
Lemma step_sector x1 l1 j : at_sector x l j x1 l1 -> fptr (of_fil x) = 512 * j -> has (f_flag (of_fil x1)) FA_DIRTY = false ->
  exists m x', (if 0 <? btw / 512 then write_direct (fsect (x_geo x) l1 j) (j mod csize (x_geo x)) (btw / 512) bw wbuff
    else ok ← (if negb (f_sect (of_fil x1) =? fsect (x_geo x) l1 j) && (fptr (of_fil x1) <? x_size x1) then fill (fsect (x_geo x) l1 j) else mret true);
         if (ok : bool) then _ ← set_fil (fun f => fil_cache (fsect (x_geo x) l1 j) (f_buf f) f); write_part btw bw wbuff
         else r ← abort FR_DISK_ERR; mret (Stop r)) x1 = Ok (m, x') /\ passed x l btw bw wbuff m x'.
Proof.
  intros (K1 & Ex1 & B1 & Hj & Ec & Ep1 & Es1) Ep Hcl. pose proof (pl_ptr x l Hp) as Hp0. pose proof (ef_geo _ _ _ _ Ex1) as G1. pose proof (co_geo x l Hc) as Hg.
  pose proof (csize_small _ _ Hg) as Hsm. destruct (co_size x l Hc) as [Hsz Hns]. rewrite <- G1 in Hj.
  assert (geo_ok (x_geo x1) (bd_size (v_dev (of_vol x1)))) as Hg1 by (by apply (co_geo x1 l1)).
  destruct (Z.ltb_spec 0 (btw / 512)) as [Hcc|Hcc].
  - destruct (write_direct_ok x1 l1 j (btw / 512) bw wbuff K1 Hcl Hj Hcc) as (n & v' & fl & b & E & Hn & Hn' & K2 & Ex2 & B2); [dlia|done|dlia|done|].
    rewrite G1 in E, Hn', B2, Hj. pose proof (within_cluster _ _ l1 j n Hg Hj ltac:(lia) Hn') as Hjn.
    eexists _, _. split; [exact E|]. right. exists (512 * n), l1. split; [done|]. split; [dlia|]. apply grow_ok; try done; [by eapply ext_trans|lia|lia|dlia| |].
    + split; [|intros Hne; destruct Hne; dlia]. cbn [of_vol of_fil fil_flag fil_cache clust]. pose proof (ef_geo _ _ _ _ Ex2) as G2. cbn [of_vol] in G2. rewrite Ec, G2, G1. f_equal.
      replace ((fptr (of_fil x) + 512 * n - 1) / 512) with (j + (n - 1)) by dlia. destruct (index_in _ _ Hg l1 j Hj) as [_ Hm].
      pose proof (Z.div_mod j (csize (x_geo x)) ltac:(lia)). apply Z.div_unique with (j mod csize (x_geo x) + (n - 1)); lia.
    + intros k Hk. assert (nsec (x_geo x) l <= nsec (x_geo x) l1) by (destruct (ef_app _ _ _ _ Ex1) as [r ->]; rewrite nsec_app; unfold nsec; nia). rewrite B2 by lia.
      replace (512 * (j + n)) with (fptr (of_fil x) + 512 * n) by lia. rewrite <- Ep.
      destruct (Z.leb_spec (fptr (of_fil x)) k), (Z.ltb_spec k (fptr (of_fil x) + 512 * n)); cbn [andb]; try done; apply B1; lia.
  - destruct (prepare_ok x1 l1 j K1 Hcl Hj ltac:(lia)) as (v2 & b2 & E2 & K2 & Ex2 & B2). rewrite G1 in E2, K2, Ex2, B2, Hj. rewrite (m_bind_Ok _ _ _ _ _ E2). cbv iota.
    rewrite bind_set_fil. cbn [of_vol of_fil fil_cache f_buf]. pose proof (ef_geo _ _ _ _ Ex2) as G2. cbn [of_vol] in G2. set (x2 := mk_open v2 (fil_cache (fsect (x_geo x) l1 j) b2 (of_fil x1))) in *.
    assert (x_geo x2 = x_geo x) as G by (cbn; congruence). assert (fptr (of_fil x2) = fptr (of_fil x)) as Ep2 by exact Ep1.
    destruct (write_part_ok x2 l1 btw bw wbuff K2) as (n & b3 & E3 & Hn & Hn' & K3 & Ex3 & B3); [rewrite Ep2, G; lia|rewrite Ep2, G; cbn; f_equal; dlia|done|done|done|done|].
    rewrite Ep2, ?G in Hn', B3. eexists _, _. split; [exact E3|]. right. exists n, l1. split; [done|]. split; [done|].
    assert (geo_ok (x_geo x2) (bd_size (v_dev (of_vol x2)))) as Hg2 by (apply (co_geo _ _ K2)).
    apply grow_ok; try done; [eapply ext_trans; [exact Hg|exact Ex1|eapply ext_trans; [exact Hg1|exact Ex2|exact Ex3]]|lia|dlia|lia| |].
    + split.
      * change (clust (of_fil x1) = get l1 ((fptr (of_fil x) + n - 1) / 512 / csize (v_geo v2))). rewrite Ec. change (v_geo v2) with (x_geo x2). rewrite G. do 2 f_equal. dlia.
      * intros Hne. change (fsect (x_geo x) l1 j = fsect (x_geo x2) l1 ((fptr (of_fil x) + n) / 512)). rewrite G. f_equal. dlia.
    + intros k Hk. assert (nsec (x_geo x) l <= nsec (x_geo x) l1) by (destruct (ef_app _ _ _ _ Ex1) as [r ->]; rewrite nsec_app; unfold nsec; nia).
      assert (fptr (of_fil x) mod 512 = 0) as Hm0 by (rewrite Ep, Z.mul_comm; by apply Z.mod_mul). rewrite B3 by (rewrite G; lia).
      destruct (Z.leb_spec (fptr (of_fil x)) k), (Z.ltb_spec k (fptr (of_fil x) + n)); cbn [andb]; try done; (rewrite B2 by lia; apply B1; lia).
Qed.

Lemma write_step_ok : exists m x1, write_step cfuel btw bw wbuff x = Ok (m, x1) /\ passed x l btw bw wbuff m x1.
Proof.
  pose proof (pl_ptr x l Hp) as Hp0. pose proof (co_geo x l Hc) as Hg. pose proof (csize_small _ _ Hg) as Hsm. destruct (co_size x l Hc) as [Hsz Hns].
  unfold write_step. rewrite bind_fil, bind_fgeo. unfold SS. destruct (Z.eqb_spec (fptr (of_fil x) mod 512) 0) as [E0|E0]; [|by apply step_inside].
  set (j := fptr (of_fil x) / 512). assert (fptr (of_fil x) = 512 * j) as Ej by (unfold j; dlia). rewrite (csect_mod _ _ Hg) by dlia.
  assert (exists o x1, (if j mod csize (x_geo x) =? 0 then write_follow cfuel else mret (Some FR_OK)) x = Ok (o, x1) /\ taken x l j o x1) as (o & x1 & E1 & [(-> & Hfull & Hv)|(-> & l1 & A1)]).
  { destruct (Z.eqb_spec (j mod csize (x_geo x)) 0) as [Em|Em]; [by apply write_follow_ok|]. exists (Some FR_OK), x. split; [done|]. right. split; [done|]. exists l.
    assert (0 < j) by (destruct (decide (j = 0)) as [E|]; [rewrite E, Z.mod_0_l in Em by lia; done|lia]).
    pose proof (Z.div_mod j (csize (x_geo x)) ltac:(lia)) as Hdm. pose proof (Z.mod_pos_bound j (csize (x_geo x)) ltac:(lia)) as Hmb.
    assert (j <> csize (x_geo x) * zlen l) by (intros E; apply Em; rewrite E, Z.mul_comm; apply Z.mod_mul; lia).
    split; [done|]. split; [apply ext_refl|]. split; [done|]. split; [unfold nsec in *; lia|]. split; [|done]. rewrite (pl_clust x l Hp) by lia. f_equal.
    replace ((fptr (of_fil x) - 1) / 512) with (j - 1) by dlia. symmetry. apply Z.div_unique with (j mod csize (x_geo x) - 1); lia. }
  - rewrite (m_bind_Ok _ _ _ _ _ E1). eexists _, _. split; [reflexivity|]. by left.
  - rewrite (m_bind_Ok _ _ _ _ _ E1). change (fr_ok FR_OK) with true. cbv iota. pose proof A1 as (K1 & Ex1 & B1 & Hj & Ec & Sf).
    destruct (flush_ok x1 l1 K1) as (v2 & fl & E2 & K2 & S2 & Hcl). rewrite (m_bind_Ok _ _ _ _ _ E2). cbv iota. rewrite bind_fil. cbn [of_fil fil_flag clust f_sect fptr f_obj].
    pose proof (ef_geo _ _ _ _ Ex1) as G1. destruct (index_in _ _ Hg l1 j Hj) as [Hi _]. pose proof (proj2 (co_range x1 l1 K1) _ (get_in l1 _ Hi)) as Hr. rewrite G1 in Hr.
    destruct (clst2sect_ok _ _ Hg _ Hr) as (_ & Hd & _). pose proof (data_nonzero _ _ Hg _ Hd). rewrite Ec, (proj2 (Z.eqb_neq (clst2sect _ _) 0)) by lia.
    change (clst2sect (x_geo x) (get l1 (j / csize (x_geo x))) + j mod csize (x_geo x)) with (fsect (x_geo x) l1 j).
    destruct (co_sector x1 l1 j K1) as [Hd' _]; [by rewrite G1|]. rewrite G1 in Hd'. pose proof (data_nonzero _ _ Hg _ Hd'). rewrite u32_small by lia.
    apply (step_sector (mk_open v2 (fil_flag fl (of_fil x1))) l1 j); [|done|done]. split; [done|]. split; [by eapply ext_trans; [exact Hg|exact Ex1|apply same_ext]|].
    split; [intros k Hk; rewrite <- B1 by done; apply (sf_bytes _ _ _ S2); rewrite G1; destruct (ef_app _ _ _ _ Ex1) as [r ->]; rewrite nsec_app; unfold nsec in *; nia|].
    split; [done|]. split; [done|]. apply Sf.
Qed.

End Step.

(** ** The loop *)

Lemma wrote_nothing x l bw wbuff v' : core x l -> placed x l -> looked (of_vol x) v' -> wrote x l bw wbuff 0 (mk_open v' (of_fil x)) l.
Proof.
  intros Hc Hp L. destruct (core_looked x v' (of_fil x) l Hc L) as [K S]; [done..|]. pose proof (pl_ptr x l Hp) as Hp0. destruct (co_size x l Hc) as [_ Hns].
  assert (v_geo v' = x_geo x) as G by apply S. split; cbn [of_fil]; [done| |by apply same_ext|lia|lia|].
  - destruct Hp as [P1 P2 P3]. split; cbn [of_vol of_fil]; rewrite ?G; done.
  - intros k Hk. destruct (Z.leb_spec (fptr (of_fil x)) k), (Z.ltb_spec k (fptr (of_fil x) + 0)); cbn [andb]; try lia; apply (sf_bytes _ _ _ S); lia.
Qed.

Lemma wrote_trans x l bw wbuff n x2 l2 n' x3 l3 : core x l -> 0 <= n -> 0 <= n' -> wrote x l bw wbuff n x2 l2 -> wrote x2 l2 (bw + n) wbuff n' x3 l3 ->
  wrote x l bw wbuff (n + n') x3 l3.
Proof.
  intros Hc Hn Hn' [K2 P2 E2 F2 S2 B2] [K3 P3 E3 F3 S3 B3]. split; [done|done|by eapply ext_trans; [apply (co_geo x l Hc)|..]|lia|lia|].
  intros k Hk. rewrite B3, F2 by done.
  destruct (Z.leb_spec (fptr (of_fil x) + n) k), (Z.ltb_spec k (fptr (of_fil x) + n + n')), (Z.leb_spec (fptr (of_fil x)) k), (Z.ltb_spec k (fptr (of_fil x) + (n + n')));
    cbn [andb]; try lia; try (f_equal; lia); rewrite B2 by lia;
    destruct (Z.leb_spec (fptr (of_fil x)) k), (Z.ltb_spec k (fptr (of_fil x) + n)); cbn [andb]; try done; lia.
Qed.

Lemma write_loop_ok cfuel wbuff fuel : forall x l btw bw, core x l -> placed x l -> (2 * Z.to_nat (nent (of_vol x)) <= cfuel)%nat -> 0 <= btw ->
  fptr (of_fil x) + btw < 4294967296 -> 0 <= bw -> bw + btw <= zlen wbuff -> bw + btw < 4294967296 -> Forall is_byte wbuff -> (Z.to_nat btw < fuel)%nat ->
  exists n x' l', write_loop cfuel fuel btw bw wbuff x = Ok ((None, bw + n), x') /\ 0 <= n <= btw /\ (n = btw \/ full (of_vol x')) /\ wrote x l bw wbuff n x' l'.
Proof.
  induction fuel as [|fuel IH]; intros x l btw bw Hc Hp Hcf Hb H32 Hbw Hl Hl32 Hby Hfu; [lia|]. cbn [write_loop].
  assert (looked (of_vol x) (of_vol x)) as Lr by (split; [apply (co_vol x l Hc)|split; [done|split; [done|apply data_step_refl]]]).
  destruct (Z.eqb_spec btw 0) as [->|Hne].
  - exists 0, x, l. rewrite Z.add_0_r. split; [done|]. split; [lia|]. split; [by left|]. pose proof (wrote_nothing x l bw wbuff _ Hc Hp Lr) as W. by destruct x.
  - destruct (write_step_ok cfuel x l btw bw wbuff Hc Hp Hcf ltac:(lia) H32 Hbw Hl Hby) as (m & x1 & E1 & [(-> & Hfull & v' & -> & L)|(n & l1 & -> & Hn & W1)]);
      rewrite (m_bind_Ok _ _ _ _ _ E1).
    + exists 0, (mk_open v' (of_fil x)), l. rewrite Z.add_0_r. split; [done|]. split; [lia|]. split; [right|by apply wrote_nothing].
      intros c Hc'. cbn [of_vol] in *. pose proof L as (_ & (G & _) & _). rewrite G in Hc'. rewrite (looked_entry (of_vol x) v') by (done || apply (co_vol x l Hc)). by apply Hfull.
    + rewrite bind_set_fil. pose proof (pl_ptr x l Hp) as Hp0. rewrite (u32_small (btw - n)), (u32_small (bw + n)) by lia. pose proof W1 as [K1 P1 Ex1 F1 S1 B1].
      destruct (IH _ l1 (btw - n) (bw + n) K1 P1) as (n' & x3 & l3 & E3 & Hn' & Hfin & W3); rewrite ?F1, ?(ef_geo _ _ _ _ Ex1); try lia; try done.
      exists (n + n'), x3, l3. rewrite Z.add_assoc. split; [exact E3|]. split; [lia|]. split; [destruct Hfin; [left; lia|by right]|].
      eapply wrote_trans; [exact Hc|lia|lia|exact W1|exact W3].
Qed.

Lemma has_modified flag m : has (Z.lor flag FA_MODIFIED) m = has flag m || has FA_MODIFIED m.
Proof.
  unfold has, truth. rewrite Z.land_lor_distr_l, <- negb_andb. f_equal. apply Bool.eq_iff_eq_true. rewrite andb_true_iff, !Z.eqb_eq. apply Z.lor_eq_0_iff.
Qed.

(** Setting the change flag. *)
Lemma modified_ok x l : core x l -> placed x l -> core (mk_open (of_vol x) (fil_flag (Z.lor (f_flag (of_fil x)) FA_MODIFIED) (of_fil x))) l /\
  placed (mk_open (of_vol x) (fil_flag (Z.lor (f_flag (of_fil x)) FA_MODIFIED) (of_fil x))) l.
Proof.
  intros [Cv Cc Cs Ca Cb Cl Cd Cp] [P1 P2 P3]. split; [|by split]. split; cbn [of_vol of_fil fil_flag f_obj f_flag f_sect f_buf]; try done;
    rewrite has_modified; change (has FA_MODIFIED FA_DIRTY) with false; by rewrite orb_false_r.
Qed.

(** The file object with the change flag set. *)
Definition touched (x : open_file D) : open_file D := mk_open (of_vol x) (fil_flag (Z.lor (f_flag (of_fil x)) FA_MODIFIED) (of_fil x)).

Lemma f_write_ok cfuel fuel x l wbuff btw : core x l -> placed x l -> live x -> has (f_flag (of_fil x)) FA_WRITE = true -> 0 <= btw < 4294967296 -> btw <= zlen wbuff ->
  Forall is_byte wbuff -> (2 * Z.to_nat (nent (of_vol x)) <= cfuel)%nat -> (Z.to_nat btw < fuel)%nat ->
  let t := Z.min btw (4294967295 - fptr (of_fil x)) in
  exists n x' l', f_write cfuel fuel wbuff btw x = Ok ((FR_OK, n), touched x') /\ 0 <= n <= t /\ (n = t \/ full (of_vol x')) /\ wrote x l 0 wbuff n x' l'.
Proof.
  intros Hc Hp Hv Hw Hb Hl Hby Hcf Hfu t. unfold f_write. rewrite (m_bind_Ok _ _ _ _ _ (check_ok x (fo_vol _ (co_vol x l Hc)) Hv)). change (fr_ok FR_OK) with true. cbn [negb].
  rewrite bind_fil, Hw. cbn [negb]. set (p := fptr (of_fil x)) in *. pose proof (pl_ptr x l Hp) as Hp0. fold p in Hp0. destruct (co_size x l Hc) as [Hsz _].
  assert ((if u32 (p + btw) <? p then u32 (4294967295 - p) else btw) = t) as ->.
  { unfold t. rewrite (u32_small (4294967295 - p)) by lia. destruct (decide (p + btw < 4294967296)) as [Hlt|Hge].
    - rewrite u32_small by lia. rewrite (proj2 (Z.ltb_ge _ _)) by lia. lia.
    - replace (u32 (p + btw)) with (p + btw - 4294967296) by (unfold u32, wrap; apply Z.mod_unique with 1; lia). rewrite (proj2 (Z.ltb_lt _ _)) by lia. lia. }
  destruct (write_loop_ok cfuel wbuff fuel x l t 0 Hc Hp Hcf) as (n & x1 & l1 & E & Hn & Hfin & W); [lia|unfold t, p; lia|lia|lia|lia|done|lia|].
  rewrite (m_bind_Ok _ _ _ _ _ E). cbn [fst snd]. rewrite bind_set_fil. exists n, x1, l1. done.
Qed.

Lemma live_ext l x l' x' : live x -> ext_file l x l' x' -> live (touched x').
Proof.
  intros (V1 & V2 & V3) Ex. pose proof (ef_ident _ _ _ _ Ex) as I. unfold ident in I. injection I as I1 I2 I3 _ _. unfold live.
  cbn [touched of_vol of_fil fil_flag f_obj f_err]. rewrite I1, I2, I3, (ef_geo _ _ _ _ Ex). done.
Qed.

(** C18: [f_write] of [btw] bytes. It writes [n] of them: all, cut so that the
    file stays below 4 GiB, or fewer exactly because no cluster is free. The
    file then holds the [n] bytes at the old file pointer and its old content
    elsewhere, has grown just as far as the write reaches, and the pointer is
    behind them: whatever mix of partial sectors, whole sectors written
    directly, clusters taken from the free ones and data waiting in the buffer.
    Its chain is the old one followed by clusters that were free, the object
    still names the same file; the entries of
    all other clusters and the sectors of everything else are unchanged. *)
Theorem f_write_exact (cfuel fuel : nat) (x : open_file D) (l wbuff : list Z) (btw : Z) :
  core x l -> placed x l -> live x -> has (f_flag (of_fil x)) FA_WRITE = true -> 0 <= btw < 4294967296 -> btw <= zlen wbuff -> Forall is_byte wbuff ->
  (2 * Z.to_nat (n_fatent (fs_geo (v_fs (of_vol x)))) <= cfuel)%nat -> (Z.to_nat btw < fuel)%nat ->
  let p := fptr (of_fil x) in
  exists n x' r, f_write cfuel fuel wbuff btw x = Ok ((FR_OK, n), x') /\
    0 <= n <= Z.min btw (4294967295 - p) /\ (n = Z.min btw (4294967295 - p) \/ full (of_vol x')) /\
    core x' (l ++ r) /\ placed x' (l ++ r) /\ live x' /\ ident x' = ident x /\ has (f_flag (of_fil x')) FA_MODIFIED = true /\
    fptr (of_fil x') = p + n /\ objsize (f_obj (of_fil x')) = Z.max (objsize (f_obj (of_fil x))) (p + n) /\
    (forall k, 0 <= k < objsize (f_obj (of_fil x')) ->
       fbyte x' (l ++ r) k = if (p <=? k) && (k <? p + n) then get wbuff (k - p) else fbyte x l k) /\
    (forall c, c ∈ r -> entry (of_vol x) c = 0) /\
    (forall c, 2 <= c < n_fatent (fs_geo (v_fs (of_vol x))) -> c ∉ l ++ r -> entry (of_vol x') c = entry (of_vol x) c) /\
    (forall s, reachable (of_vol x) s -> ~ in_table (fs_geo (v_fs (of_vol x))) s ->
       (forall j, 0 <= j < nsec (fs_geo (v_fs (of_vol x))) (l ++ r) -> s <> fsect (fs_geo (v_fs (of_vol x))) (l ++ r) j) -> vsec (of_vol x') s = vsec (of_vol x) s).
Proof.
  intros Hc Hp Hv Hw Hb Hl Hby Hcf Hfu p. destruct (f_write_ok cfuel fuel x l wbuff btw Hc Hp Hv Hw Hb Hl Hby Hcf Hfu) as (n & x1 & l1 & E & Hn & Hfin & [K P Ex F S B]).
  destruct (modified_ok x1 l1 K P) as [K' P']. destruct (ef_app _ _ _ _ Ex) as [r ->]. exists n, (touched x1), r.
  split; [exact E|]. split; [done|]. split; [exact Hfin|]. split; [done|]. split; [done|]. split; [by eapply live_ext|]. split; [exact (ef_ident _ _ _ _ Ex)|].
  split; [cbn [touched of_fil fil_flag f_flag]; rewrite has_modified; by rewrite orb_true_r|]. split; [exact F|]. split; [exact S|]. split; [exact B|].
  split; [|split; [apply (ef_table _ _ _ _ Ex)|apply (ef_frame _ _ _ _ Ex)]].
  intros c Hcr. destruct (ef_fresh _ _ _ _ Ex c) as [Hin|[_ Hz]]; [apply elem_of_app; by right| |done].
  pose proof (proj1 (co_range x1 (l ++ r) K)) as Hnd. apply NoDup_app in Hnd as (_ & Hd & _). by destruct (Hd c Hin).
Qed.

(** What [f_write] accepted is what [f_read] delivers: after writing,
    seeking back to where the write began and reading as many bytes as were
    written, the caller's buffer starts with exactly those bytes. *)
Lemma write_then_read (cfuel fuel : nat) (x : open_file D) (l wbuff buff : list Z) (btw : Z) :
  core x l -> placed x l -> live x -> has (f_flag (of_fil x)) FA_WRITE = true -> has (f_flag (of_fil x)) FA_READ = true ->
  0 <= btw < 4294967296 -> btw <= zlen wbuff -> btw <= zlen buff -> Forall is_byte wbuff ->
  (2 * Z.to_nat (n_fatent (fs_geo (v_fs (of_vol x)))) <= cfuel)%nat -> (Z.to_nat btw < fuel)%nat ->
  exists n x1 x2 buff' x3,
    f_write cfuel fuel wbuff btw x = Ok ((FR_OK, n), x1) /\
    (n = Z.min btw (4294967295 - fptr (of_fil x)) \/ full (of_vol x1)) /\
    f_lseek cfuel cfuel (fptr (of_fil x)) x1 = Ok (FR_OK, x2) /\
    f_read fuel buff n x2 = Ok ((FR_OK, n, buff'), x3) /\
    take (Z.to_nat n) buff' = take (Z.to_nat n) wbuff /\ bd_ready (v_dev (of_vol x3)).
Proof.
  intros Hc Hp Hv Hw Hr Hb Hl Hlb Hby Hcf Hfu. destruct (f_write_ok cfuel fuel x l wbuff btw Hc Hp Hv Hw Hb Hl Hby Hcf Hfu) as (n & x1 & l1 & E & Hn & Hfin & [K P Ex F S B]).
  destruct (modified_ok x1 l1 K P) as [K' P']. pose proof (live_ext _ _ _ _ Hv Ex) as V'. pose proof (pl_ptr x l Hp) as Hp0. pose proof (ef_geo _ _ _ _ Ex) as G.
  assert (length l1 < cfuel)%nat as Hlen.
  { pose proof (co_chain x1 l1 K) as Hch. destruct (nent_bound _ (fo_vol _ (co_vol x1 l1 K))) as [Hnb _]. rewrite G in Hnb.
    destruct l1 as [|c l1]; [cbn; lia|]. pose proof (links_length _ _ _ _ Hch) as Hll. rewrite G in Hll. lia. }
  destruct (f_lseek_ok cfuel cfuel (touched x1) l1 (fptr (of_fil x)) K' P' V') as (x2 & E2 & F2 & K2 & P2 & V2 & S2);
    [lia|left; cbn [touched of_fil fil_flag f_obj]; lia|cbn [touched of_vol]; by rewrite G|done|].
  cbn [touched of_fil fil_flag f_obj] in F2. rewrite Z.min_l in F2 by lia. pose proof (sf_obj _ _ _ S2) as O2. cbn [touched of_fil fil_flag f_obj] in O2.
  assert (n = Z.min n (x_size x2 - fptr (of_fil x2))) as En by (rewrite O2, F2; lia).
  destruct (f_read_ok fuel x2 l1 buff n K2 P2 V2) as (b & x3 & E3 & K3 & _ & _ & _ & [Lb Rb]); [|lia|rewrite <- En; lia|rewrite <- En; lia|].
  { rewrite (sf_mode _ _ _ S2) by (by left). cbn [touched of_fil fil_flag f_flag]. rewrite has_modified. change (has FA_MODIFIED FA_READ) with false. rewrite orb_false_r.
    rewrite (ef_mode _ _ _ _ Ex) by (by left). done. }
  rewrite <- En in E3, Rb. exists n, (touched x1), x2, b, x3. split; [done|]. split; [done|]. split; [done|]. split; [done|]. split; [|apply K3].
  apply get_eq_ext; [rewrite !length_take; lia|]. intros i Hi. rewrite length_take in Hi. rewrite !get_take by lia. rewrite Rb by lia.
  rewrite (proj2 (Z.leb_le 0 i)), (proj2 (Z.ltb_lt i (0 + n))) by lia. cbn [andb]. rewrite F2, Z.sub_0_r. destruct (co_size x1 l1 K) as [_ Hns].
  rewrite (sf_bytes _ _ _ S2) by (cbn [touched of_vol]; lia). change (fbyte (touched x1) l1 (fptr (of_fil x) + i)) with (fbyte x1 l1 (fptr (of_fil x) + i)).
  rewrite B by lia. rewrite (proj2 (Z.leb_le _ _)), (proj2 (Z.ltb_lt _ _)) by lia. cbn [andb]. f_equal. lia.
Qed.

End Writing.

(** *** Concrete runs

    An empty file opened for reading and writing on the FAT12 volume. *)

Definition fresh_file {D : Type} (d : D) : open_file D :=
  mk_open (blank d) (mk_fil (mk_obj true 1 32 0 0 0) 3 FR_OK 0 0 0 5 64 (replicate 512 0)).

Lemma fresh_file_ok {D : Type} `{BlockLaws D} (d : D) : bd_ready d -> 640 <= bd_size d < 4294967295 -> (forall s, 1 <= s -> bd_sector d s = replicate 512 0) ->
  core (fresh_file d) [] /\ placed (fresh_file d) [] /\ live (fresh_file d).
Proof.
  intros Hr Hz Hs. assert (nsec demo_geo [] = 0) as E0 by reflexivity. split; [|split; [|done]].
  - split; [by apply blank_fat_ok|done| |by left|exact zero_sector|done|done|].
    + change (fs_geo (v_fs (of_vol (fresh_file d)))) with demo_geo. rewrite E0. cbn. lia.
    + intros j Hj. change (fs_geo (v_fs (of_vol (fresh_file d)))) with demo_geo in Hj. rewrite E0 in Hj. lia.
  - split; cbn; [lia|lia|done].
Qed.

Definition demo_file : open_file ram := fresh_file demo_ram.

Lemma demo_file_ok : core demo_file [] /\ placed demo_file [] /\ live demo_file.
Proof. apply fresh_file_ok; [exact demo_ram_ok|cbn; lia|done]. Qed.

Definition demo_data : list Z := map (fun k => k mod 251) (seqZ 0 1700).

Lemma demo_data_ok : Forall is_byte demo_data.
Proof.
  apply Forall_forall. intros b Hb. apply list_elem_of_fmap in Hb as (k & -> & _). unfold is_byte. dlia.
Qed.

(** Fuel for the searches and for the transfers. *)
Definition cf : nat := Z.to_nat 1200.
Definition rf : nat := Z.to_nat 1701.

Lemma demo_fuel : (2 * Z.to_nat (n_fatent demo_geo) <= cf)%nat /\ (Z.to_nat 1700 < rf)%nat.
Proof. unfold cf, rf. cbn [demo_geo n_fatent]. lia. Qed.

Lemma demo_len : 1700 <= zlen demo_data.
Proof. unfold demo_data. rewrite length_map, length_seqZ. lia. Qed.

(** Everything is accepted. *)
Lemma demo_count n x' : f_write cf rf demo_data 1700 demo_file = Ok ((FR_OK, n), x') -> n = 1700.
Proof.
  assert (match f_write cf rf demo_data 1700 demo_file with Ok (r, _) => r.2 | _ => 0 end = 1700) as E by (vm_compute; reflexivity).
  intros E'. rewrite E' in E. exact E.
Qed.

Lemma f_write_exact_witness :
  exists x' r, f_write cf rf demo_data 1700 demo_file = Ok ((FR_OK, 1700), x') /\ objsize (f_obj (of_fil x')) = 1700 /\ fbyte x' r 1699 = 193.
Proof.
  destruct demo_file_ok as (K & P & V).
  destruct (f_write_exact cf rf demo_file [] demo_data 1700 K P V) as (n & x' & r & E & _ & _ & K' & _ & _ & _ & _ & _ & S & B & _);
    [done|lia|apply demo_len|apply demo_data_ok|apply demo_fuel|apply demo_fuel|].
  pose proof (demo_count _ _ E) as ->. exists x', r. split; [exact E|].
  change (objsize (f_obj (of_fil demo_file))) with 0 in *. change (fptr (of_fil demo_file)) with 0 in *. change (Z.max 0 (0 + 1700)) with 1700 in S.
  split; [exact S|]. change ([] ++ r) with r in B. rewrite B by lia. reflexivity.
Defined.

(** The file written. *)
Lemma demo_written : exists x1 l1, f_write cf rf demo_data 1700 demo_file = Ok ((FR_OK, 1700), touched x1) /\ wrote demo_file [] 0 demo_data 1700 x1 l1.
Proof.
  destruct demo_file_ok as (K & P & V).
  destruct (f_write_ok cf rf demo_file [] demo_data 1700 K P V) as (n & x1 & l1 & E1 & _ & _ & W); [exact eq_refl|lia|apply demo_len|apply demo_data_ok|apply demo_fuel|apply demo_fuel|].
  pose proof (demo_count _ _ E1) as ->. exists x1, l1. split; [exact E1|exact W].
Qed.

(** Its pointer moved back into it. *)
Lemma demo_sought :
  exists x1 x2 l1, f_write cf rf demo_data 1700 demo_file = Ok ((FR_OK, 1700), x1) /\ f_lseek cf cf 500 x1 = Ok (FR_OK, x2) /\
    core x2 l1 /\ placed x2 l1 /\ live x2 /\ has (f_flag (of_fil x2)) FA_READ = true /\ has (f_flag (of_fil x2)) FA_WRITE = true /\ objsize (f_obj (of_fil x2)) = 1700 /\ fptr (of_fil x2) = 500 /\ fs_geo (v_fs (of_vol x2)) = demo_geo.
Proof.
  destruct demo_written as (x1 & l1 & E1 & [K1 P1 X1 F1 S1 _]). destruct demo_file_ok as (_ & _ & V).
  assert (objsize (f_obj (of_fil x1)) = 1700) as S1' by exact S1. clear S1 F1.
  destruct (modified_ok x1 l1 K1 P1) as [K1' P1']. pose proof (ef_geo _ _ _ _ X1) as G. change (fs_geo (v_fs (of_vol demo_file))) with demo_geo in G.
  assert (length l1 < cf)%nat as Hlen.
  { destruct l1 as [|c l1]; [unfold cf; cbn [length]; lia|]. pose proof (links_length _ _ _ _ (co_chain _ _ K1)) as Hll. rewrite G in Hll. cbn [demo_geo n_fatent] in Hll. unfold cf. lia. }
  destruct (f_lseek_ok cf cf (touched x1) l1 500 K1' P1' (live_ext _ _ _ _ V X1)) as (x2 & E2 & F2 & K2 & P2 & V2 & S2);
    [lia|left; cbn [touched of_fil fil_flag f_obj]; lia|cbn [touched of_vol]; rewrite G; apply demo_fuel|exact Hlen|].
  pose proof (sf_obj _ _ _ S2) as O2. cbn [touched of_fil fil_flag f_obj] in F2, O2. rewrite S1' in F2. exists (touched x1), x2, l1.
  split; [exact E1|]. split; [exact E2|]. split; [exact K2|]. split; [exact P2|]. split; [exact V2|].
  assert (forall m, m = FA_READ \/ m = FA_WRITE -> has (f_flag (of_fil x2)) m = has (f_flag (of_fil demo_file)) m) as Hm.
  { intros m Hm. rewrite (sf_mode _ _ _ S2) by tauto. cbn [touched of_fil fil_flag f_flag]. rewrite has_modified.
    rewrite (ef_mode _ _ _ _ X1) by tauto. by destruct Hm as [->| ->]. }
  split; [apply Hm; by left|]. split; [apply Hm; by right|]. rewrite O2. split; [exact S1'|]. split; [exact F2|].
  rewrite (sf_geo _ _ _ S2). exact G.
Qed.

(** Reading across several clusters of a file that still has unsaved data, up
    to its end. *)
Lemma f_read_exact_witness :
  exists x1 x2 buff x3, f_write cf rf demo_data 1700 demo_file = Ok ((FR_OK, 1700), x1) /\ f_lseek cf cf 500 x1 = Ok (FR_OK, x2) /\
    f_read rf (replicate 1500 7) 1500 x2 = Ok ((FR_OK, 1200, buff), x3) /\ get buff 1200 = 7.
Proof.
  destruct demo_sought as (x1 & x2 & l1 & E1 & E2 & K2 & P2 & V2 & R2 & _ & O2 & F2 & _).
  assert (Z.min 1500 (objsize (f_obj (of_fil x2)) - fptr (of_fil x2)) = 1200) as En by (rewrite O2, F2; reflexivity).
  destruct (f_read_exact rf x2 l1 (replicate 1500 7) 1500 K2 P2 V2 R2) as (b & x3 & E3 & _ & _ & R & _); [lia|rewrite En, length_replicate; lia|rewrite En; unfold rf; lia|].
  rewrite En in E3, R. exists x1, x2, b, x3. split; [exact E1|]. split; [exact E2|]. split; [exact E3|]. rewrite R by lia. reflexivity.
Defined.
