(* ===== verification/FatSync.v ===== *)
(** * FatSync: files made durable

    [f_sync] and [f_close]: the buffer, the directory entry, the window, the
    table and its copy are on the drive when the call returns. [f_truncate]
    cuts a file at its pointer. *)

From Stdlib Require Import ZArith Lia Bool.
From stdpp Require Import base list sets.
From S2P Require Import Prelude Hw Ata Fat FatChain FatFile FatRead FatWrite.
From stdpp Require Import options.

(** ** Fields of a directory entry *)

Definition sector_data (b : list Z) : Prop := length b = 512%nat /\ Forall is_byte b.

(** [b'] is [b] except for the bytes from [lo] to [hi]. *)
Definition only (lo hi : Z) (b b' : list Z) : Prop := forall j, 0 <= j -> ~ (lo <= j < hi) -> get b' j = get b j.

Lemma sector_of_get b b' : sector_data b -> length b' = length b -> (forall j, 0 <= j < 512 -> 0 <= get b' j < 256) -> sector_data b'.
Proof.
  intros [L B] L' G. split; [congruence|]. apply (Forall_nth is_byte 0). intros k Hk. replace k with (Z.to_nat (Z.of_nat k)) by lia. fold (get b' (Z.of_nat k)). apply G. lia.
Qed.

Lemma st_word_field b i val : sector_data b -> 0 <= i -> i + 2 <= 512 -> 0 <= val < 65536 ->
  exists b', st_word b i val = Ok b' /\ sector_data b' /\ le16 b' i = val /\ only i (i + 2) b b'.
Proof.
  intros [L B] Hi Hl Hv. destruct (st_word_ok b i val) as (b' & E & L' & G); [lia|lia|lia|]. exists b'. split; [done|]. split; [|split].
  - apply (sector_of_get b); [done|done|]. intros j Hj. rewrite G by lia. unfold upd. repeat (destruct (_ =? _); [dlia|]). by apply get_byte.
  - unfold le16. rewrite !G by lia. rewrite upd_eq, (upd_ne _ (i + 1)), upd_eq by lia. dlia.
  - intros j Hj Hn. rewrite G by done. rewrite !upd_ne by lia. done.
Qed.

Lemma st_dword_field b i val : sector_data b -> 0 <= i -> i + 4 <= 512 -> 0 <= val < 4294967296 ->
  exists b', st_dword b i val = Ok b' /\ sector_data b' /\ le32 b' i = val /\ only i (i + 4) b b'.
Proof.
  intros [L B] Hi Hl Hv. destruct (st_dword_ok b i val) as (b' & E & L' & G); [lia|lia|lia|]. exists b'. split; [done|]. split; [|split].
  - apply (sector_of_get b); [done|done|]. intros j Hj. rewrite G by lia. unfold upd. repeat (destruct (_ =? _); [dlia|]). by apply get_byte.
  - unfold le32. rewrite !G by lia. rewrite upd_eq. repeat (rewrite (upd_ne _ (i + 3)) by lia). rewrite upd_eq. repeat (rewrite (upd_ne _ (i + 2)) by lia).
    rewrite upd_eq, (upd_ne _ (i + 1)), upd_eq by lia. dlia.
  - intros j Hj Hn. rewrite G by done. rewrite !upd_ne by lia. done.
Qed.

Lemma le16_only lo hi b b' i : only lo hi b b' -> 0 <= i -> i + 2 <= lo \/ hi <= i -> le16 b' i = le16 b i.
Proof. intros O Hi Hd. unfold le16. rewrite !O by lia. done. Qed.
Lemma le32_only lo hi b b' i : only lo hi b b' -> 0 <= i -> i + 4 <= lo \/ hi <= i -> le32 b' i = le32 b i.
Proof. intros O Hi Hd. unfold le32. rewrite !O by lia. done. Qed.

(** Storing a cluster number and loading it again. *)
Lemma st_clust_ok g b dir cl : sector_data b -> 0 <= dir -> dir + 32 <= 512 -> 0 <= cl < 4294967296 -> fs_type g = FS_FAT32 \/ cl < 65536 ->
  exists b', st_clust g b dir cl = Ok b' /\ sector_data b' /\ ld_clust g b' dir = Ok cl /\ only (dir + 20) (dir + 28) b b' /\ le16 b' (dir + 22) = le16 b (dir + 22).
Proof.
  intros Hb Hd Hl Hc Ht. unfold st_clust, ld_clust, DIR_FstClusLO, DIR_FstClusHI.
  destruct (st_word_field b (dir + 26) (u16 cl) Hb) as (b1 & E1 & S1 & V1 & O1); [lia|lia|apply u16_bound|]. rewrite E1, bind_Ok.
  destruct (Z.eqb_spec (fs_type g) FS_FAT32) as [Ef|Ef].
  - destruct (st_word_field b1 (dir + 20) (u16 (Z.shiftr cl 16)) S1) as (b2 & E2 & S2 & V2 & O2); [lia|lia|apply u16_bound|]. rewrite E2. exists b2. split; [done|]. split; [done|].
    destruct S2 as [L2 B2]. rewrite !ld_word_ok by (done || lia). rewrite !bind_Ok, V2.
    rewrite (le16_only _ _ _ _ (dir + 26) O2) by lia. rewrite V1. split; [|split].
    + f_equal. unfold u16, u32, wrap. rewrite Z.shiftr_div_pow2, Z.shiftl_mul_pow2 by lia. change (2 ^ 16) with 65536. change (2 ^ 32) with 4294967296.
      rewrite (Z.mod_small (cl / 65536) 65536) by dlia. rewrite (Z.mod_small (cl / 65536 * 65536)) by dlia.
      replace (cl / 65536 * 65536) with (Z.shiftl (cl / 65536) 16) by (by rewrite Z.shiftl_mul_pow2 by lia).
      rewrite (lor_disjoint_add _ _ 16) by (change (2 ^ 16) with 65536; dlia). change (2 ^ 16) with 65536. dlia.
    + intros j Hj Hn. rewrite O2, O1 by lia. done.
    + rewrite (le16_only _ _ _ _ _ O2), (le16_only _ _ _ _ _ O1) by lia. done.
  - destruct Ht as [?|Hs]; [done|]. exists b1. split; [done|]. split; [done|]. destruct S1 as [L1 B1]. rewrite ld_word_ok by (done || lia). rewrite bind_Ok, V1, u16_small by lia.
    split; [done|]. split; [intros j Hj Hn; apply O1; lia|]. apply (le16_only _ _ _ _ _ O1); lia.
Qed.

(** The updated entry: the cluster, the size and the archive attribute; its
    name, its other fields and the rest of the sector are as before. *)
Lemma put_entry_ok g o tm dir b : sector_data b -> 0 <= dir -> dir + 32 <= 512 -> 0 <= sclust o < 4294967296 -> fs_type g = FS_FAT32 \/ sclust o < 65536 ->
  0 <= objsize o < 4294967296 -> 0 <= tm < 4294967296 ->
  exists b', put_entry g o tm dir b = Ok b' /\ sector_data b' /\ ld_clust g b' dir = Ok (sclust o) /\ le32 b' (dir + DIR_FileSize) = objsize o /\
    get b' (dir + DIR_Attr) = Z.lor (get b (dir + DIR_Attr)) AM_ARC /\ le32 b' (dir + DIR_ModTime) = tm /\
    (forall j, 0 <= j -> j < dir + 11 \/ dir + 11 < j < dir + 18 \/ dir + 32 <= j -> get b' j = get b j).
Proof.
  intros Hb Hd Hl Hc Ht Hs Htm. unfold put_entry, DIR_Attr, DIR_FileSize, DIR_ModTime, DIR_LstAccDate. pose proof Hb as [L B]. pose proof (get_byte b (dir + 11) B) as Ba.
  rewrite rd_in, bind_Ok by lia. rewrite wr_in, bind_Ok by lia. set (b0 := <[Z.to_nat (dir + 11) := Z.lor (get b (dir + 11)) AM_ARC]> b).
  assert (0 <= Z.lor (get b (dir + 11)) AM_ARC < 256) as Ha.
  { split; [apply Z.lor_nonneg; unfold AM_ARC; lia|]. destruct (Z.eq_dec (Z.lor (get b (dir + 11)) AM_ARC) 0) as [->|Hne]; [lia|].
    apply Z.log2_lt_cancel. change (Z.log2 256) with 8. rewrite Z.log2_lor by (unfold AM_ARC; lia). apply Z.max_lub_lt; [|done].
    destruct (Z.eq_dec (get b (dir + 11)) 0) as [->|Hn0]; [done|]. apply Z.log2_lt_pow2; [lia|]. change (2 ^ 8) with 256. lia. }
  assert (sector_data b0) as S0 by (split; [unfold b0; by rewrite length_insert|by apply Forall_insert]).
  assert (only (dir + 11) (dir + 12) b b0) as O0 by (intros j Hj Hn; unfold b0; rewrite get_insert_ne by lia; done).
  destruct (st_clust_ok g b0 dir (sclust o) S0 Hd Hl Hc Ht) as (b1 & E1 & S1 & V1 & O1 & _). rewrite E1, bind_Ok.
  destruct (st_dword_field b1 (dir + 28) (objsize o) S1) as (b2 & E2 & S2 & V2 & O2); [lia|lia|done|]. rewrite E2, bind_Ok.
  destruct (st_dword_field b2 (dir + 22) tm S2) as (b3 & E3 & S3 & V3 & O3); [lia|lia|done|]. rewrite E3, bind_Ok.
  destruct (st_word_field b3 (dir + 18) 0 S3) as (b4 & E4 & S4 & V4 & O4); [lia|lia|lia|]. exists b4. split; [done|]. split; [done|]. split; [|split; [|split; [|split]]].
  - rewrite <- V1. unfold ld_clust, DIR_FstClusLO, DIR_FstClusHI. destruct S4 as [L4 B4], S1 as [L1 B1]. rewrite !ld_word_ok by (done || lia).
    rewrite (le16_only _ _ _ _ (dir + 26) O4), (le16_only _ _ _ _ (dir + 26) O3), (le16_only _ _ _ _ (dir + 26) O2) by lia.
    rewrite (le16_only _ _ _ _ (dir + 20) O4), (le16_only _ _ _ _ (dir + 20) O3), (le16_only _ _ _ _ (dir + 20) O2) by lia. done.
  - rewrite (le32_only _ _ _ _ _ O4), (le32_only _ _ _ _ _ O3) by lia. done.
  - rewrite O4, O3, O2, O1 by lia. unfold b0. rewrite get_insert_eq by lia. done.
  - rewrite (le32_only _ _ _ _ _ O4) by lia. done.
  - intros j Hj Hn. rewrite O4, O3, O2, O1, O0 by lia. done.
Qed.

Section Durable.
Context {D : Type} `{BlockLaws D}.
#[local] Set Default Proof Using "Type*".

Abbreviation v_geo v := (fs_geo (v_fs v)).
Abbreviation v_al v := (fs_alloc (v_fs v)).
Abbreviation nent v := (n_fatent (v_geo v)).
Abbreviation x_geo x := (v_geo (of_vol x)).

(** ** The window on a sector outside the table *)

(** The window's content replaced and marked dirty. *)
Definition with_window (b : list Z) (v : vol D) : vol D :=
  mk_vol (mk_fs (v_geo v) (mk_window 1 (winsect (fs_win (v_fs v))) b) (v_al v)) (v_dev v).

Lemma poke_window v b : fat_ok v -> reachable v (winsect (fs_win (v_fs v))) -> ~ in_table (v_geo v) (winsect (fs_win (v_fs v))) -> sector_data b ->
  fat_ok (with_window b v) /\ (forall c, 2 <= c < nent v -> entry (with_window b v) c = entry v c) /\
  (forall s, vsec (with_window b v) s = if s =? winsect (fs_win (v_fs v)) then b else vsec v s).
Proof.
  intros [Hv Ho Ha] [Hr Hm] Ht [Lb Bb]. assert (forall s, vsec (with_window b v) s = if s =? winsect (fs_win (v_fs v)) then b else vsec v s) as Hvs.
  { intros s. unfold vsec. cbn [with_window v_fs v_dev fs_win winsect win]. by destruct (s =? _). }
  assert (forall c, entry (with_window b v) c = entry v c) as He.
  { intros c. apply entry_ext. intros k _. unfold fat_byte. cbn [with_window v_fs fs_geo]. destruct (Z.leb_spec 0 k), (Z.ltb_spec k (512 * fsize (v_geo v))); cbn [andb]; try done.
    rewrite Hvs. destruct (Z.eqb_spec (fatbase (v_geo v) + k / 512) (winsect (fs_win (v_fs v)))) as [E|_]; [|done]. destruct Ht. rewrite <- E. apply table_sector. lia. }
  split; [|split; [by intros|done]]. split; [|intros c Hc; rewrite He; by apply Ho|].
  - destruct Hv as [R G [_ _ W3 _ _] M]. split; [done|done| |done]. split; cbn [with_window v_fs v_dev fs_win fs_geo winsect win wflag]; try done. intros _. split; [lia|done].
  - unfold alloc_ok in *. rewrite (free_count_ext _ (entry v)) by (intros; apply He). done.
Qed.

(** A volume whose window is clean is the same without it. *)
Definition cold (b : list Z) (v : vol D) : vol D := mk_vol (mk_fs (v_geo v) (mk_window 0 4294967295 b) (v_al v)) (v_dev v).

Lemma cold_ok v b : fat_ok v -> truth (wflag (fs_win (v_fs v))) = false -> sector_data b ->
  fat_ok (cold b v) /\ (forall c, entry (cold b v) c = entry v c) /\ forall s, 0 <= s < bd_size (v_dev v) -> vsec (cold b v) s = vsec v s.
Proof.
  intros [Hv Ho Ha] Hw [Lb Bb]. pose proof (go_max _ _ (vo_geo v Hv)) as Hmax.
  assert (forall s, 0 <= s < bd_size (v_dev v) -> vsec (cold b v) s = vsec v s) as Hvs.
  { intros s Hs. rewrite <- (clean_on_drive v s Hv Hw Hs). unfold vsec. cbn [cold v_fs v_dev fs_win winsect]. by rewrite (proj2 (Z.eqb_neq s 4294967295)) by lia. }
  assert (forall c, entry (cold b v) c = entry v c) as He.
  { intros c. apply entry_ext. intros k _. unfold fat_byte. cbn [cold v_fs fs_geo]. destruct (Z.leb_spec 0 k), (Z.ltb_spec k (512 * fsize (v_geo v))); cbn [andb]; try done.
    rewrite Hvs; [done|]. apply (fat_reachable v k Hv). lia. }
  split; [|done]. split; [|intros c Hc; rewrite He; by apply Ho|].
  - destruct Hv as [R G W M]. split; [done|done| |done]. split; cbn [cold v_fs v_dev fs_win fs_geo winsect win wflag]; [done|done|lia|by left|done].
  - unfold alloc_ok in *. rewrite (free_count_ext _ (entry v)) by (intros; apply He). done.
Qed.

(** ** [f_sync] *)

(** Where the directory entry of the file lies: in a sector the window can
    show, apart from the table, FSInfo and the file itself. *)
Record dir_ok (x : open_file D) (l : list Z) : Prop := {
  do_reach : reachable (of_vol x) (dir_sect (of_fil x));
  do_table : ~ in_table (x_geo x) (dir_sect (of_fil x));
  do_info : dir_sect (of_fil x) <> volbase (x_geo x) + 1;
  do_apart : forall j, 0 <= j < nsec (x_geo x) l -> fsect (x_geo x) l j <> dir_sect (of_fil x);
  do_ptr : 0 <= dir_ptr (of_fil x) <= 480
}.

Lemma sclust_fits x l : core x l -> 0 <= sclust (f_obj (of_fil x)) < 4294967296 /\ (fs_type (x_geo x) = FS_FAT32 \/ sclust (f_obj (of_fil x)) < 65536).
Proof.
  intros Hc. pose proof (co_chain x l Hc) as Hch. pose proof (co_geo x l Hc) as Hg. pose proof (go_ents _ _ Hg) as He. unfold fat_max in He.
  assert (0 <= sclust (f_obj (of_fil x)) < n_fatent (x_geo x)) as Hs by (destruct l as [|c l]; [rewrite Hch; lia|destruct Hch as (<- & ? & _); lia]).
  destruct (go_type _ _ Hg) as [E|[E|E]]; rewrite E in *; cbn in He; (split; [lia|]); [right; lia|right; lia|by left].
Qed.

(** The table and the content of the file after the volume was synchronised. *)
Lemma synced v v' : fat_ok v -> vol_ok v' -> v_geo v' = v_geo v -> bd_size (v_dev v') = bd_size (v_dev v) ->
  last_clst (v_al v') = last_clst (v_al v) -> free_clst (v_al v') = free_clst (v_al v) ->
  (forall s, reachable v s -> ~ info_sector v s -> vsec v' s = vsec v s) -> fat_ok v' /\ forall c, entry v' c = entry v c.
Proof.
  intros [Hv Ho Ha] Hv' G Zd L F V. assert (forall c, entry v' c = entry v c) as He.
  { intros c. unfold entry. rewrite G. apply entry_ext. intros k _. unfold fat_byte. rewrite G. destruct (Z.leb_spec 0 k), (Z.ltb_spec k (512 * fsize (v_geo v))); cbn [andb]; try done.
    rewrite V; [done|apply fat_reachable; [done|lia]|]. intros (Ht & _ & E). pose proof (go_info _ _ (vo_geo v Hv) Ht). dlia. }
  split; [|done]. split; [done|intros c Hc; rewrite G in Hc; rewrite He; by apply Ho|].
  unfold alloc_ok, alloc_fits in *. rewrite G, L, F. rewrite (free_count_ext _ (entry v)) by (intros; apply He). done.
Qed.

(** A volume with the same table and the same file sectors. *)
Lemma core_same x v' f' l : core x l -> fat_ok v' -> v_geo v' = x_geo x -> (forall c, 2 <= c < nent (of_vol x) -> entry v' c = entry (of_vol x) c) ->
  (forall j, 0 <= j < nsec (x_geo x) l -> vsec v' (fsect (x_geo x) l j) = vsec (of_vol x) (fsect (x_geo x) l j) /\ fsect (x_geo x) l j <> winsect (fs_win (v_fs v'))) ->
  f_obj f' = f_obj (of_fil x) -> has (f_flag f') FA_DIRTY = has (f_flag (of_fil x)) FA_DIRTY -> f_sect f' = f_sect (of_fil x) -> f_buf f' = f_buf (of_fil x) ->
  core (mk_open v' f') l /\ forall k, 0 <= k < 512 * nsec (x_geo x) l -> fbyte (mk_open v' f') l k = fbyte x l k.
Proof.
  intros [Cv Cc Cs Ca Cb Cl Cd Cp] F G He Hs Eo Ef Es Eb. split.
  - split; cbn [of_vol of_fil]; rewrite ?Eo, ?Ef, ?Es, ?Eb, ?G; try done.
    + by apply (chain_ext (of_vol x)).
    + intros Hd Hn. rewrite Cl by done. destruct Ca as [?|(j & Hj & ->)]; [done|]. by rewrite (proj1 (Hs j Hj)).
    + intros j Hj. by apply Hs.
  - intros k Hk. unfold fbyte, fsec. cbn [of_vol of_fil]. rewrite G, Es, Eb. rewrite (proj1 (Hs (k / 512) ltac:(dlia))). done.
Qed.

Lemma has_saved flag m : m = FA_READ \/ m = FA_WRITE \/ m = FA_DIRTY -> has (Z.land flag 191) m = has flag m.
Proof. intros Hm. unfold has. rewrite <- Z.land_assoc. destruct Hm as [->|[->| ->]]; done. Qed.
Lemma has_unmodified flag : has (Z.land flag 191) FA_MODIFIED = false.
Proof. unfold has. rewrite <- Z.land_assoc. change (Z.land 191 FA_MODIFIED) with 0. by rewrite Z.land_0_r. Qed.

Lemma tm_fits : 0 <= get_fattime < 4294967296.
Proof. vm_compute. split; [discriminate|reflexivity]. Qed.

(** The window on the directory entry, the entry updated. *)
Lemma entry_updated x l : core x l -> dir_ok x l ->
  exists v2 v' b, move_window (dir_sect (of_fil x)) (of_vol x) = Ok (FR_OK, v2) /\ v_geo v2 = x_geo x /\
    win_put (put_entry (x_geo x) (f_obj (of_fil x)) get_fattime (dir_ptr (of_fil x))) v2 = Ok (tt, v') /\
    put_entry (x_geo x) (f_obj (of_fil x)) get_fattime (dir_ptr (of_fil x)) (vsec (of_vol x) (dir_sect (of_fil x))) = Ok b /\
    fat_ok v' /\ v_geo v' = x_geo x /\ bd_size (v_dev v') = bd_size (v_dev (of_vol x)) /\ winsect (fs_win (v_fs v')) = dir_sect (of_fil x) /\
    (forall c, 2 <= c < nent (of_vol x) -> entry v' c = entry (of_vol x) c) /\
    (forall s, reachable (of_vol x) s -> vsec v' s = if s =? dir_sect (of_fil x) then b else vsec (of_vol x) s).
Proof.
  intros Hc [Hr Ht _ _ Hp]. pose proof (co_vol x l Hc) as Hf. destruct (move_window_ok (of_vol x) _ (fo_vol _ Hf) Hr) as (v2 & E2 & Hv2 & S2 & A2 & W2 & B2).
  pose proof S2 as (G2 & Z2 & V2). assert (fat_ok v2) as F2 by (by apply (fat_ok_view (of_vol x))).
  destruct (vsec_ok (of_vol x) (dir_sect (of_fil x)) (fo_vol _ Hf) (proj1 Hr)) as [Lb Bb]. destruct (sclust_fits x l Hc) as [Hs1 Hs2]. destruct (co_size x l Hc) as [Hsz _].
  destruct (put_entry_ok (x_geo x) (f_obj (of_fil x)) get_fattime (dir_ptr (of_fil x)) (vsec (of_vol x) (dir_sect (of_fil x)))) as (b & Eb & Sb & _); [done|lia|lia|done|done|done|apply tm_fits|].
  destruct (poke_window v2 b F2) as (F3 & T3 & V3); [rewrite W2; unfold reachable; by rewrite G2, Z2|by rewrite W2, G2|done|]. exists v2, (with_window b v2), b. split; [done|]. split; [done|].
  split; [unfold win_put; rewrite bind_wnd, B2, Eb; done|].
  split; [done|]. split; [done|]. split; [done|]. split; [done|]. split; [done|]. split.
  - intros c Hcc. rewrite T3 by (by rewrite G2). apply same_view_entry; [apply Hf|done].
  - intros s Hs. rewrite V3, W2. destruct (s =? _); [done|]. by apply V2.
Qed.

Lemma f_sync_ok x l : core x l -> dir_ok x l -> o_fs (f_obj (of_fil x)) = true -> o_id (f_obj (of_fil x)) = fs_id (x_geo x) -> has (f_flag (of_fil x)) FA_MODIFIED = true ->
  exists v' fl b, f_sync x = Ok (FR_OK, mk_open v' (fil_flag fl (of_fil x))) /\ core (mk_open v' (fil_flag fl (of_fil x))) l /\
    has fl FA_MODIFIED = false /\ has fl FA_DIRTY = false /\ truth (wflag (fs_win (v_fs v'))) = false /\
    put_entry (x_geo x) (f_obj (of_fil x)) get_fattime (dir_ptr (of_fil x)) (vsec (of_vol x) (dir_sect (of_fil x))) = Ok b /\ vsec v' (dir_sect (of_fil x)) = b /\
    v_geo v' = x_geo x /\ bd_size (v_dev v') = bd_size (v_dev (of_vol x)) /\
    (forall c, 2 <= c < nent (of_vol x) -> entry v' c = entry (of_vol x) c) /\
    (forall k, 0 <= k < 512 * nsec (x_geo x) l -> fbyte (mk_open v' (fil_flag fl (of_fil x))) l k = fbyte x l k) /\
    (forall s, reachable (of_vol x) s -> ~ in_table (x_geo x) s -> s <> dir_sect (of_fil x) -> s <> volbase (x_geo x) + 1 ->
       (forall j, 0 <= j < nsec (x_geo x) l -> s <> fsect (x_geo x) l j) -> vsec v' s = vsec (of_vol x) s).
Proof.
  intros Hc Hdir Hfs Hid Hmod. unfold f_sync. rewrite (m_bind_Ok _ _ _ _ _ (validate_ok x (fo_vol _ (co_vol x l Hc)) Hfs Hid)). change (fr_ok FR_OK) with true. cbv iota.
  rewrite bind_fil, Hmod. destruct (flush_ok x l Hc) as (v1 & fl & E1 & K1 & S1 & Hcl). rewrite (m_bind_Ok _ _ _ _ _ E1). cbv iota zeta.
  set (x1 := mk_open v1 (fil_flag fl (of_fil x))) in *. pose proof (sf_geo _ _ _ S1) as G1. pose proof (sf_dev _ _ _ S1) as Z1. pose proof (sf_obj _ _ _ S1) as O1.
  assert (dir_ok x1 l) as Hdir1.
  { destruct Hdir as [R T I A P]. split; try done; cbn [x1 of_fil fil_flag dir_sect dir_ptr]; rewrite ?G1; try done. unfold reachable in *. by rewrite G1, Z1. }
  assert (vsec v1 (dir_sect (of_fil x)) = vsec (of_vol x) (dir_sect (of_fil x))) as Eds.
  { destruct Hdir as [R T I A P]. apply (sf_frame _ _ _ S1); [done|done|]. intros j Hj E. by apply (A j Hj). }
  destruct (entry_updated x1 l K1 Hdir1) as (v2 & v3 & b & E2 & G2 & E3 & Eb & F3 & G3 & Z3 & W3 & T3 & V3).
  cbn [x1 of_vol of_fil fil_flag f_obj dir_sect dir_ptr] in E2, E3, Eb, V3, G2, G3, Z3, W3, T3. assert (v_geo v1 = x_geo x) as G1' by exact G1. assert (bd_size (v_dev v1) = bd_size (v_dev (of_vol x))) as Z1' by exact Z1. rewrite G1', ?Eds in *.
  destruct (sync_fs_ok v3 (fo_vol _ F3)) as (v4 & E4 & Hv4 & G4 & Z4 & L4 & C4 & Hw4 & W4 & V4); [apply (proj1 (fo_alloc _ F3))|]. destruct (synced v3 v4 F3 Hv4 G4 Z4 L4 C4 V4) as [F4 T4].
  rewrite (bind_onvol _ _ x1 _ _ E2). change (fr_ok FR_OK) with true. cbv iota. rewrite bind_fil, bind_fgeo. cbn [of_vol of_fil x1 fil_flag f_obj dir_ptr]. rewrite G2.
  rewrite (bind_onvol _ _ (mk_open v2 _) _ _ E3), (bind_onvol _ _ (mk_open v3 _) _ _ E4), bind_set_fil. cbn [of_vol of_fil f_flag].
  assert (Z4' : bd_size (v_dev v4) = bd_size (v_dev (of_vol x))) by congruence.
  assert (forall s, reachable (of_vol x) s -> s <> volbase (x_geo x) + 1 -> vsec v4 s = if s =? dir_sect (of_fil x) then b else vsec v1 s) as Hvs.
  { intros s Hs Hi. rewrite V4; [apply V3; unfold reachable in *; by rewrite G1', Z1'|unfold reachable in *; by rewrite G3, Z3, Z1'|].
    intros (_ & _ & E). rewrite G3 in E. done. }
  pose proof (co_geo x l Hc) as Hg. pose proof (geo_fat _ _ Hg) as (Hf1 & Hf2 & Hf3 & _). pose proof (go_base _ _ Hg) as Hbase.
  assert (forall j, 0 <= j < nsec (x_geo x) l -> vsec v4 (fsect (x_geo x) l j) = vsec v1 (fsect (x_geo x) l j) /\ fsect (x_geo x) l j <> winsect (fs_win (v_fs v4))) as Hsec.
  { intros j Hj. destruct (co_sector x l j Hc Hj) as [Hd Hr]. pose proof (do_apart x l Hdir j Hj) as Hds. unfold data_sector in Hd. assert (fsect (x_geo x) l j <> volbase (x_geo x) + 1) by lia. split.
    - rewrite Hvs by (done || lia). by rewrite (proj2 (Z.eqb_neq _ _) Hds).
    - destruct W4 as [->| ->]; [by rewrite W3|by rewrite G3]. }
  destruct (core_same x1 v4 (fil_flag (Z.land fl 191) (of_fil x1)) l K1 F4) as [K4 B4];
    [cbn [x1 of_vol]; congruence| |cbn [x1 of_vol]; by rewrite G1'|done|cbn [x1 of_fil fil_flag f_flag]; apply has_saved; auto|done|done|].
  { cbn [x1 of_vol]. rewrite G1'. intros c Hcc. rewrite T4. by apply T3. }
  exists v4, (Z.land fl 191), b. split; [done|]. split; [done|]. split; [apply has_unmodified|]. split; [rewrite has_saved by auto; done|]. split; [done|]. split; [done|].
  split; [rewrite Hvs by (apply (do_reach x l Hdir) || apply (do_info x l Hdir)); by rewrite Z.eqb_refl|]. split; [congruence|]. split; [done|].
  split; [intros c Hcc; rewrite T4, T3 by done; by apply (sf_table _ _ _ S1)|]. cbn [x1 of_vol] in B4. rewrite G1' in B4. split.
  - intros k Hk. rewrite <- (sf_bytes _ _ _ S1) by done. by apply B4.
  - intros s Hs Ht Hne Hi Hj. rewrite Hvs by done. rewrite (proj2 (Z.eqb_neq _ _) Hne). by apply (sf_frame _ _ _ S1).
Qed.

(** A file object without its file system is refused. *)
Lemma closed_read x fuel buff btr : o_fs (f_obj (of_fil x)) = false -> f_read fuel buff btr x = Ok ((FR_INVALID_OBJECT, 0, buff), x).
Proof.
  intros Hf. unfold f_read. erewrite m_bind_Ok.
  2: { unfold check_file. erewrite m_bind_Ok; [|unfold validate; rewrite bind_fil, bind_fgeo, Hf; reflexivity]. rewrite bind_fil. reflexivity. }
  reflexivity.
Qed.

(** [f_close] of a changed file: the drive alone then holds the file. *)
Lemma f_close_ok x l : core x l -> dir_ok x l -> live x -> has (f_flag (of_fil x)) FA_MODIFIED = true ->
  exists v' f', f_close x = Ok (FR_OK, mk_open v' f') /\ o_fs (f_obj f') = false /\ fat_ok v' /\ truth (wflag (fs_win (v_fs v'))) = false /\
    v_geo v' = x_geo x /\ bd_size (v_dev v') = bd_size (v_dev (of_vol x)) /\ (forall c, 2 <= c < nent (of_vol x) -> entry v' c = entry (of_vol x) c) /\
    (forall s, 0 <= s < bd_size (v_dev (of_vol x)) -> bd_sector (v_dev v') s = vsec v' s) /\
    (forall k, 0 <= k < 512 * nsec (x_geo x) l -> get (bd_sector (v_dev v') (fsect (x_geo x) l (k / 512))) (k mod 512) = fbyte x l k) /\
    ld_clust (x_geo x) (bd_sector (v_dev v') (dir_sect (of_fil x))) (dir_ptr (of_fil x)) = Ok (sclust (f_obj (of_fil x))) /\
    le32 (bd_sector (v_dev v') (dir_sect (of_fil x))) (dir_ptr (of_fil x) + DIR_FileSize) = objsize (f_obj (of_fil x)) /\
    (forall j, 0 <= j -> j < dir_ptr (of_fil x) + 11 \/ dir_ptr (of_fil x) + 32 <= j ->
       get (bd_sector (v_dev v') (dir_sect (of_fil x))) j = get (vsec (of_vol x) (dir_sect (of_fil x))) j) /\
    (forall s, reachable (of_vol x) s -> ~ in_table (x_geo x) s -> s <> dir_sect (of_fil x) -> s <> volbase (x_geo x) + 1 ->
       (forall j, 0 <= j < nsec (x_geo x) l -> s <> fsect (x_geo x) l j) -> bd_sector (v_dev v') s = vsec (of_vol x) s) /\
    get (bd_sector (v_dev v') (dir_sect (of_fil x))) (dir_ptr (of_fil x) + DIR_Attr) = Z.lor (get (vsec (of_vol x) (dir_sect (of_fil x))) (dir_ptr (of_fil x) + DIR_Attr)) AM_ARC.
Proof.
  intros Hc Hd (Hfs & Hid & _) Hm. destruct (f_sync_ok x l Hc Hd Hfs Hid Hm) as (v' & fl & b & E & K & _ & Hcl & Hw & Eb & Ev & G & Zd & T & B & Fr).
  pose proof (co_vol _ _ K) as F. cbn [of_vol] in F. pose proof (do_reach x l Hd) as Hr. destruct (sclust_fits x l Hc) as [Hs1 Hs2]. destruct (co_size x l Hc) as [Hsz _].
  destruct (put_entry_ok (x_geo x) (f_obj (of_fil x)) get_fattime (dir_ptr (of_fil x)) (vsec (of_vol x) (dir_sect (of_fil x)))) as (b' & Eb' & _ & V1 & V2 & Va & _ & O);
    [by apply vsec_ok; [apply (co_vol x l Hc)|apply Hr]|apply (do_ptr x l Hd)|pose proof (do_ptr x l Hd); lia|done|done|done|apply tm_fits|].
  assert (b' = b) as -> by congruence. unfold f_close. rewrite (m_bind_Ok _ _ _ _ _ E). change (fr_ok FR_OK) with true. cbv iota.
  rewrite (m_bind_Ok _ _ _ _ _ (validate_ok (mk_open v' (fil_flag fl (of_fil x))) (fo_vol _ F) Hfs ltac:(cbn [of_vol of_fil fil_flag f_obj]; by rewrite G))).
  change (fr_ok FR_OK) with true. cbv iota. rewrite bind_set_fil. eexists _, _. split; [reflexivity|]. split; [done|]. cbn [of_vol]. do 5 (split; [done|]).
  assert (forall s, 0 <= s < bd_size (v_dev (of_vol x)) -> bd_sector (v_dev v') s = vsec v' s) as Hon by (intros s Hs; apply clean_on_drive; [apply F|done|by rewrite Zd]).
  assert (bd_sector (v_dev v') (dir_sect (of_fil x)) = b) as Eds by (rewrite Hon by apply Hr; exact Ev).
  split; [done|]. split; [|split; [by rewrite Eds|split; [by rewrite Eds|split; [intros j Hj Hn; rewrite Eds; apply O; lia|split; [|by rewrite Eds]]]]].
  - intros k Hk. destruct (co_sector x l (k / 512) Hc) as [_ [Hrk _]]; [dlia|]. rewrite Hon by done. rewrite <- B by done. unfold fbyte. cbn [of_vol]. rewrite G.
    pose proof (fsec_clean _ l (k / 512) K Hcl) as Ef. cbn [of_vol] in Ef. rewrite G in Ef. rewrite Ef by dlia. done.
  - intros s Hs Ht Hn1 Hn2 Hj. rewrite Hon by apply Hs. by apply Fr.
Qed.

(** C20: [f_close] of a changed file returns with everything on the drive: each
    sector of the file holds its bytes, unsaved ones included; the directory
    entry holds its first cluster and its size, its name and the other entries
    of the sector being as before; a volume mounted afresh from the drive
    alone is consistent and has the same table. The file object is dead: a
    later [f_read] is refused and changes nothing. *)
Theorem f_close_durable (x : open_file D) (l : list Z) :
  core x l -> dir_ok x l -> live x -> has (f_flag (of_fil x)) FA_MODIFIED = true ->
  let g := fs_geo (v_fs (of_vol x)) in let f := of_fil x in
  exists x', f_close x = Ok (FR_OK, x') /\
    let sector := bd_sector (v_dev (of_vol x')) in
    (forall k, 0 <= k < 512 * nsec g l -> get (sector (fsect g l (k / 512))) (k mod 512) = fbyte x l k) /\
    ld_clust g (sector (dir_sect f)) (dir_ptr f) = Ok (sclust (f_obj f)) /\
    le32 (sector (dir_sect f)) (dir_ptr f + DIR_FileSize) = objsize (f_obj f) /\
    (forall j, 0 <= j -> j < dir_ptr f + 11 \/ dir_ptr f + 32 <= j -> get (sector (dir_sect f)) j = get (vsec (of_vol x) (dir_sect f)) j) /\
    (forall b, sector_data b -> fat_ok (cold b (of_vol x')) /\
       forall c, 2 <= c < n_fatent g -> entry (cold b (of_vol x')) c = entry (of_vol x) c) /\
    (forall fuel buff btr, f_read fuel buff btr x' = Ok ((FR_INVALID_OBJECT, 0, buff), x')).
Proof.
  intros Hc Hd Hv Hm g f. destruct (f_close_ok x l Hc Hd Hv Hm) as (v' & f' & E & Hfs & F & Hw & _ & _ & T & _ & B & C & S & O & _).
  exists (mk_open v' f'). split; [exact E|]. cbv zeta. cbn [of_vol]. split; [exact B|]. split; [exact C|]. split; [exact S|]. split; [exact O|].
  split; [|intros; by apply closed_read]. intros b0 Hb0. destruct (cold_ok v' b0 F Hw Hb0) as (F' & T' & _). split; [done|]. intros c Hcc. rewrite T'. by apply T.
Qed.

(** ** [f_truncate] *)

(** The clusters a file of [p] bytes needs. *)
Definition clusters_for (g : geometry) (p : Z) : Z := if p =? 0 then 0 else (p - 1) / 512 / csize g + 1.

(** The chain cut behind the clusters that are still needed. *)
Definition cut (v : vol D) (l1 l2 : list Z) (s : Z) (v' : vol D) : Prop :=
  fat_ok v' /\ data_step v v' /\ chain v' s l1 /\ (forall c, c ∈ l2 -> entry v' c = 0) /\ (forall c, 2 <= c < nent v -> c ∉ l1 ++ l2 -> entry v' c = entry v c).

Lemma cut_all cfuel x l : core x l -> l <> [] -> (Z.to_nat (nent (of_vol x)) <= cfuel)%nat ->
  exists v', remove_chain cfuel (sclust (f_obj (of_fil x))) 0 (of_vol x) = Ok (FR_OK, v') /\ cut (of_vol x) [] l 0 v'.
Proof.
  intros Hc Hne Hfu. pose proof (co_chain x l Hc) as Hch. assert (links (nent (of_vol x)) (entry (of_vol x)) (sclust (f_obj (of_fil x))) l) as Hl by (by destruct l).
  destruct (remove_chain_ok cfuel (of_vol x) _ l 0 (co_vol x l Hc) Hl Hne Hfu) as (v' & E & F & T & _ & He); [by left|]. exists v'. split; [done|].
  split; [done|]. split; [done|]. split; [done|]. split.
  - intros c Hin. rewrite He by exact (links_range _ _ _ _ _ Hl Hin). by rewrite bool_decide_true.
  - intros c Hcc Hn. rewrite He by done. rewrite bool_decide_false, (proj2 (Z.eqb_neq c 0)) by (done || lia). done.
Qed.

Lemma cut_after cfuel x l i : core x l -> 0 <= i < zlen l - 1 -> (Z.to_nat (nent (of_vol x)) <= cfuel)%nat ->
  exists v', remove_chain cfuel (get l (i + 1)) (get l i) (of_vol x) = Ok (FR_OK, v') /\
    cut (of_vol x) (take (Z.to_nat (i + 1)) l) (drop (Z.to_nat (i + 1)) l) (sclust (f_obj (of_fil x))) v'.
Proof.
  intros Hc Hi Hfu. pose proof (co_chain x l Hc) as Hch. pose proof (co_vol x l Hc) as Hf. destruct (nent_bound _ (fo_vol _ Hf)) as [Hnb Hmx].
  assert (l <> []) as Hne by (intros ->; cbn in Hi; lia). assert (links (nent (of_vol x)) (entry (of_vol x)) (sclust (f_obj (of_fil x))) l) as Hl by (by destruct l).
  pose proof (links_NoDup _ _ _ _ Hl) as Hnd. assert (forall c, c ∈ l -> 2 <= c < nent (of_vol x)) as Hr by (intros c Hin; exact (links_range _ _ _ _ _ Hl Hin)).
  set (l1 := take (Z.to_nat i) l). set (l2 := drop (Z.to_nat (i + 1)) l). assert (0 <= i < zlen l) as Hi0 by lia. assert (0 <= i + 1 < zlen l) as Hi1 by lia.
  pose proof (split_at l i Hi0) as El. fold l1 l2 in El. rewrite (take_S_at l i Hi0). fold l1.
  assert (links (nent (of_vol x)) (entry (of_vol x)) (get l (i + 1)) l2) as Hl2.
  { rewrite <- (links_next _ _ _ _ _ Hl Hi). rewrite El in Hl. apply links_suffix in Hl. apply Hl. }
  rewrite El in Hnd. apply NoDup_app in Hnd as (_ & Hd & Hnd). apply NoDup_cons in Hnd as [Hpn _].
  assert (l2 <> []) as Hne2 by (intros E; assert (length l2 = 0%nat) as E0 by (by rewrite E); unfold l2 in E0; rewrite length_drop in E0; lia).
  destruct (remove_chain_ok cfuel (of_vol x) (get l (i + 1)) l2 (get l i) Hf Hl2 Hne2 Hfu) as (v' & E & F & T & _ & He).
  { right. pose proof (get_in l i Hi0) as Hin. split; [by apply Hr|]. split; [|done]. pose proof (links_used _ _ _ _ Hf Hl Hin). lia. }
  exists v'. split; [done|]. split; [done|]. split; [done|]. pose proof T as (G & _). split; [|split].
  - assert (links (nent v') (entry v') (sclust (f_obj (of_fil x))) (l1 ++ [get l i])) as Hcut.
    { rewrite G. rewrite El in Hl. eapply (links_cut _ (entry (of_vol x))); [exact Hl| |].
      - rewrite He by (apply Hr, get_in; done). rewrite bool_decide_false, Z.eqb_refl by done. lia.
      - intros y Hy. rewrite He by (apply Hr; rewrite El; set_solver). rewrite bool_decide_false by (intros Hy2; apply (Hd y Hy); set_solver).
        rewrite (proj2 (Z.eqb_neq y _)); [done|]. intros ->. apply (Hd _ Hy). left. }
    unfold chain. by destruct l1.
  - intros c Hin. rewrite He by (apply Hr; rewrite El; set_solver). by rewrite bool_decide_true.
  - intros c Hcc Hn. rewrite He by done. rewrite bool_decide_false by set_solver. rewrite (proj2 (Z.eqb_neq c (get l i))) by set_solver. done.
Qed.

(** Writing the buffer back to a data sector, of the file or not. *)
Lemma flush_raw (x : open_file D) : fat_ok (of_vol x) -> sector_data (f_buf (of_fil x)) ->
  (has (f_flag (of_fil x)) FA_DIRTY = true -> data_sector (x_geo x) (f_sect (of_fil x)) /\ f_sect (of_fil x) <> winsect (fs_win (v_fs (of_vol x)))) ->
  exists v' fl, flush x = Ok (true, mk_open v' (fil_flag fl (of_fil x))) /\ fat_ok v' /\ v_geo v' = x_geo x /\ (forall c, entry v' c = entry (of_vol x) c) /\
    has fl FA_DIRTY = false /\ (forall m, m = FA_READ \/ m = FA_WRITE \/ m = FA_MODIFIED -> has fl m = has (f_flag (of_fil x)) m) /\
    (forall t, vsec v' t = if has (f_flag (of_fil x)) FA_DIRTY && (t =? f_sect (of_fil x)) then f_buf (of_fil x) else vsec (of_vol x) t).
Proof.
  intros Hf [Lb Bb] Hd. unfold flush. rewrite bind_fil. destruct (has (f_flag (of_fil x)) FA_DIRTY) eqn:Ed.
  - destruct (Hd eq_refl) as [Hs Hw]. destruct (data_write (of_vol x) (f_buf (of_fil x)) (f_sect (of_fil x)) 1 Hf) as (d & E & Fd & Zd & Vd & Td);
      [lia|done|by replace (_ + 1 - 1) with (f_sect (of_fil x)) by lia|intros t Ht; by replace t with (f_sect (of_fil x)) by lia|lia|done|].
    eexists _, _. split; [rewrite (bind_onvol _ _ x _ _ (drive_Ok _ (of_vol x) _ _ E)); change (res_ok RES_OK) with true; cbv iota; by rewrite bind_set_fil|].
    split; [done|]. split; [done|]. split; [done|]. split; [apply has_clear|]. split; [intros; by apply has_mask|]. intros t. rewrite Vd. cbn [andb].
    destruct (Z.eqb_spec t (f_sect (of_fil x))) as [->|Hne].
    + rewrite (proj2 (Z.leb_le _ _)), (proj2 (Z.ltb_lt _ _)), Z.sub_diag by lia. cbn [andb]. change (Z.to_nat (512 * 0)) with 0%nat. rewrite drop_0. by rewrite take_ge by lia.
    + destruct (Z.leb_spec (f_sect (of_fil x)) t), (Z.ltb_spec t (f_sect (of_fil x) + 1)); cbn [andb]; try done. lia.
  - exists (of_vol x), (f_flag (of_fil x)). destruct x as [v []]. done.
Qed.

(** The table part of [f_truncate]. *)
Lemma truncate_table cfuel x l : core x l -> placed x l -> fptr (of_fil x) < objsize (f_obj (of_fil x)) -> (Z.to_nat (nent (of_vol x)) <= cfuel)%nat ->
  let m := clusters_for (x_geo x) (fptr (of_fil x)) in let s1 := if fptr (of_fil x) =? 0 then 0 else sclust (f_obj (of_fil x)) in
  exists v', (if fptr (of_fil x) =? 0 then
      res ← onvol (remove_chain cfuel (sclust (f_obj (of_fil x))) 0); _ ← set_fil (fun f => fil_obj (obj_sclust 0 (f_obj f)) f); mret res
    else
      ncl ← onvol (get_fat (clust (of_fil x))); g ← onvol geo;
      if ncl =? DISK_ERROR then mret FR_DISK_ERR else if ncl =? 1 then mret FR_INT_ERR
      else if ncl <? n_fatent g then onvol (remove_chain cfuel ncl (clust (of_fil x))) else mret FR_OK) x =
      Ok (FR_OK, mk_open v' (fil_obj (obj_sclust s1 (f_obj (of_fil x))) (of_fil x))) /\
    0 <= m <= zlen l /\ cut (of_vol x) (take (Z.to_nat m) l) (drop (Z.to_nat m) l) s1 v'.
Proof.
  intros Hc Hp Hlt Hfu m s1. pose proof (co_geo x l Hc) as Hg. pose proof (csize_small _ _ Hg) as Hsm. destruct (co_size x l Hc) as [Hsz Hns]. pose proof (pl_ptr x l Hp) as Hp0.
  unfold m, s1, clusters_for. destruct (Z.eqb_spec (fptr (of_fil x)) 0) as [E0|E0].
  - destruct (cut_all cfuel x l Hc) as (v' & E & C); [intros ->; unfold nsec in Hns; cbn in Hns; lia|done|]. exists v'.
    split; [rewrite (bind_onvol _ _ x _ _ E), bind_set_fil; done|]. split; [lia|]. exact C.
  - set (i := (fptr (of_fil x) - 1) / 512 / csize (x_geo x)). assert (clust (of_fil x) = get l i) as Ec by (apply (pl_clust x l Hp); lia).
    destruct (index_in _ _ Hg l ((fptr (of_fil x) - 1) / 512)) as [Hi _]; [dlia|]. fold i in Hi.
    assert (fil_obj (obj_sclust (sclust (f_obj (of_fil x))) (f_obj (of_fil x))) (of_fil x) = of_fil x) as -> by (by destruct (of_fil x) as [[] ? ? ? ? ? ? ? ?]).
    pose proof (co_chain x l Hc) as Hch. assert (l <> []) as Hne by (intros E; rewrite E in Hi; cbn in Hi; lia).
    assert (links (nent (of_vol x)) (entry (of_vol x)) (sclust (f_obj (of_fil x))) l) as Hl by (by destruct l).
    destruct (probe (of_vol x) (get l i) (co_vol x l Hc)) as (v1 & E1 & L1 & Hst); [by apply (co_range x l Hc), get_in|]. apply orb_false_iff in Hst as [Hst1 Hst2].
    rewrite Ec, (bind_onvol _ _ x _ _ E1), bind_fgeo, Hst2, Hst1. cbn [of_vol]. pose proof L1 as (F1 & (G1 & _) & _ & T1). rewrite G1.
    destruct (decide (i < zlen l - 1)) as [Hil|Hil].
    + rewrite (links_next _ _ _ _ _ Hl) by lia. assert (0 <= i + 1 < zlen l) as Hi1 by lia. pose proof (proj2 (co_range x l Hc) _ (get_in l (i + 1) Hi1)) as Hr1.
      rewrite (proj2 (Z.ltb_lt _ _)) by lia. destruct (core_looked x v1 (of_fil x) l Hc L1) as [K1 S1]; [done..|].
      destruct (cut_after cfuel (mk_open v1 (of_fil x)) l i K1) as (v' & E & F & T & Cc & Cz & Cs); [lia|cbn [of_vol]; by rewrite G1|]. exists v'.
      split; [exact (onvol_Ok _ (mk_open v1 (of_fil x)) _ _ E)|]. split; [lia|]. split; [done|]. split; [by eapply data_step_trans|]. split; [done|]. split; [done|].
      intros c Hcc Hn. cbn [of_vol] in Cs. rewrite G1 in Cs. rewrite Cs by done. by apply (sf_table _ _ _ S1).
    + assert (i = zlen l - 1) as Ei by lia. pose proof (links_last _ _ _ _ Hl Hne) as Hlast. rewrite Ei, (proj2 (Z.ltb_ge _ _)) by lia. exists v1. split; [done|]. split; [lia|].
      rewrite take_ge, drop_ge by lia. split; [done|]. split; [done|]. split; [|split; [intros c Hin; by apply elem_of_nil in Hin|intros; by apply looked_entry; [apply (co_vol x l Hc)|]]].
      apply (chain_ext (of_vol x)); [done|intros; by apply looked_entry; [apply (co_vol x l Hc)|]|done].
Qed.

(** C21: [f_truncate] cuts the file at its pointer: the size is the pointer, the
    bytes before it are unchanged, the chain keeps just the clusters they need,
    every cluster behind is free again and no other entry changes; unsaved data
    of the buffer reaches the drive. As much fuel as the volume has clusters is
    enough. *)
Theorem f_truncate_exact (cfuel : nat) (x : open_file D) (l : list Z) :
  core x l -> placed x l -> live x -> has (f_flag (of_fil x)) FA_WRITE = true -> fptr (of_fil x) < objsize (f_obj (of_fil x)) ->
  (Z.to_nat (n_fatent (fs_geo (v_fs (of_vol x)))) <= cfuel)%nat ->
  let m := Z.to_nat (clusters_for (fs_geo (v_fs (of_vol x))) (fptr (of_fil x))) in
  exists x', f_truncate cfuel x = Ok (FR_OK, x') /\ fat_ok (of_vol x') /\
    objsize (f_obj (of_fil x')) = fptr (of_fil x) /\ fptr (of_fil x') = fptr (of_fil x) /\
    has (f_flag (of_fil x')) FA_MODIFIED = true /\ has (f_flag (of_fil x')) FA_DIRTY = false /\
    length (take m l) = m /\ chain (of_vol x') (sclust (f_obj (of_fil x'))) (take m l) /\
    (forall c, c ∈ drop m l -> entry (of_vol x') c = 0) /\
    (forall c, 2 <= c < n_fatent (fs_geo (v_fs (of_vol x))) -> c ∉ l -> entry (of_vol x') c = entry (of_vol x) c) /\
    (forall k, 0 <= k < fptr (of_fil x) -> fbyte x' (take m l) k = fbyte x l k).
Proof.
  intros Hc Hp Hv Hw Hlt Hfu m. unfold f_truncate. rewrite (m_bind_Ok _ _ _ _ _ (check_ok x (fo_vol _ (co_vol x l Hc)) Hv)). change (fr_ok FR_OK) with true. cbn [negb].
  rewrite bind_fil, Hw, (proj2 (Z.ltb_lt _ _) Hlt). cbn [negb]. destruct (truncate_table cfuel x l Hc Hp Hlt Hfu) as (v1 & E1 & Hm & F1 & T1 & C1 & Z1 & S1).
  rewrite (m_bind_Ok _ _ _ _ _ E1), bind_set_fil. change (fr_ok FR_OK) with true. cbv iota. cbn [of_vol of_fil].
  set (s1 := if fptr (of_fil x) =? 0 then 0 else sclust (f_obj (of_fil x))) in *.
  match goal with |- context [mk_open v1 ?f] => set (f2 := f) end. pose proof T1 as (G1 & _ & V1 & W1). pose proof (co_geo x l Hc) as Hg.
  assert (forall j, 0 <= j < nsec (x_geo x) l -> vsec v1 (fsect (x_geo x) l j) = vsec (of_vol x) (fsect (x_geo x) l j) /\ fsect (x_geo x) l j <> winsect (fs_win (v_fs v1))) as Hsec.
  { intros j Hj. destruct (co_sector x l j Hc Hj) as [Hd Hr]. pose proof (data_not_table _ _ Hg _ Hd) as Hnt. split; [by apply V1|].
    destruct W1 as [->|W1]; [by apply (co_apart x l Hc)|by intros E; rewrite <- E in W1]. }
  destruct (flush_raw (mk_open v1 f2)) as (v2 & fl & E2 & F2 & G2 & T2 & Hcl & Hmd & V2); cbn [of_vol of_fil].
  { done. }
  { apply (co_buf x l Hc). }
  { intros Hdt. assert (has (f_flag (of_fil x)) FA_DIRTY = true) as Hdx.
    { cbn [f2 fil_flag f_flag fil_obj] in Hdt. rewrite has_modified in Hdt. by change (has FA_MODIFIED FA_DIRTY) with false in Hdt; rewrite orb_false_r in Hdt. }
    destruct (co_cache x l Hc) as [?|(j & Hj & Es)]; [by destruct (co_dirty x l Hc Hdx)|]. change (f_sect f2) with (f_sect (of_fil x)). rewrite Es, G1.
    split; [by apply (co_sector x l j Hc)|by apply Hsec]. }
  erewrite (m_bind_Ok (flush ≫= _)); [|rewrite (m_bind_Ok _ _ _ _ _ E2); reflexivity]. change (fr_ok FR_OK) with true. cbv iota. cbn [of_vol] in G2, T2, V2.
  eexists. split; [reflexivity|]. cbn [of_vol of_fil fil_flag f_obj f_flag fptr]. split; [done|]. split; [done|]. split; [done|].
  split; [rewrite Hmd by auto; cbn [of_fil f2 fil_flag f_flag fil_obj]; rewrite has_modified; apply orb_true_r|]. split; [done|].
  split; [rewrite length_take; unfold m; lia|]. split; [|split; [|split]].
  - change (chain v2 s1 (take m l)). apply (chain_ext v1); [done|by intros|exact C1].
  - intros c Hin. rewrite T2. by apply Z1.
  - intros c Hcc Hn. rewrite T2. apply S1; [done|]. by rewrite take_drop.
  - intros k Hk. pose proof (csize_small _ _ Hg) as Hsm. destruct (co_size x l Hc) as [Hsz Hns].
    assert (0 <= k / 512 < nsec (x_geo x) (take m l)) as Hj.
    { unfold nsec. rewrite length_take. replace (Z.of_nat (m `min` length l)) with (clusters_for (x_geo x) (fptr (of_fil x))) by (unfold m; lia). unfold clusters_for.
      rewrite (proj2 (Z.eqb_neq _ 0)) by lia. split; [dlia|]. assert (k / 512 <= (fptr (of_fil x) - 1) / 512) by dlia.
      pose proof (Z.div_mod ((fptr (of_fil x) - 1) / 512) (csize (x_geo x)) ltac:(lia)). pose proof (Z.mod_pos_bound ((fptr (of_fil x) - 1) / 512) (csize (x_geo x)) ltac:(lia)). lia. }
    unfold fbyte, fsec. cbn [of_vol of_fil fil_flag f_sect f_buf]. rewrite G2, G1. rewrite <- (fsect_app _ _ Hg (take m l) (drop m l)), take_drop by done. f_equal.
    change (f_sect f2) with (f_sect (of_fil x)). change (f_buf f2) with (f_buf (of_fil x)). destruct (_ =? f_sect (of_fil x)) eqn:Es; [done|]. rewrite V2. cbn [of_fil].
    change (f_sect f2) with (f_sect (of_fil x)). rewrite Es, andb_false_r. apply Hsec. dlia.
Qed.

End Durable.

(** *** Concrete run: the demonstration file written and closed. *)

Lemma f_close_durable_witness :
  exists x1 x', f_write cf rf demo_data 1700 demo_file = Ok ((FR_OK, 1700), x1) /\ f_close x1 = Ok (FR_OK, x') /\
    le32 (r_sec (v_dev (of_vol x')) 5) 92 = 1700 /\ f_read 9 [] 5 x' = Ok ((FR_INVALID_OBJECT, 0, []), x').
Proof.
  destruct demo_written as (x1 & l1 & E1 & [K1 P1 X1 F1 S1 _]). destruct demo_file_ok as (_ & _ & V).
  assert (objsize (f_obj (of_fil x1)) = 1700) as S1' by exact S1. clear S1 F1. pose proof (ef_geo _ _ _ _ X1) as G. pose proof (ef_dev _ _ _ _ X1) as Zd.
  change (fs_geo (v_fs (of_vol demo_file))) with demo_geo in G. change (bd_size (v_dev (of_vol demo_file))) with 640 in Zd.
  pose proof (ef_ident _ _ _ _ X1) as I. unfold ident in I. injection I as _ _ _ I1 I2. change (dir_sect (of_fil demo_file)) with 5 in I1. change (dir_ptr (of_fil demo_file)) with 64 in I2.
  destruct (modified_ok x1 l1 K1 P1) as [K1' _].
  destruct (f_close_durable (touched x1) l1 K1') as (x' & E2 & _ & _ & R2 & _ & _ & R6); [|exact (live_ext _ _ _ _ V X1)|cbn [touched of_fil fil_flag f_flag]; rewrite has_modified; apply orb_true_r|].
  - split; cbn [touched of_vol of_fil fil_flag dir_sect dir_ptr]; rewrite ?I1, ?I2, ?G.
    + split; [rewrite Zd; lia|rewrite G; unfold mirror; cbn; lia].
    + unfold in_table. cbn. lia.
    + cbn. lia.
    + intros j Hj Ej. destruct (co_sector x1 l1 j K1) as [Hdj _]; [by rewrite G|]. rewrite G, Ej in Hdj. unfold data_sector in Hdj. cbn in Hdj. lia.
    + lia.
  - exists (touched x1), x'. split; [exact E1|]. split; [exact E2|]. cbn [touched of_fil fil_flag dir_sect dir_ptr f_obj] in R2. rewrite I1, I2, S1' in R2.
    split; [exact R2|exact (R6 9%nat [] 5)].
Defined.

(** The demonstration file cut at byte 500: one cluster of its chain is kept. *)
Lemma f_truncate_exact_witness :
  exists x1 x2 x', f_write cf rf demo_data 1700 demo_file = Ok ((FR_OK, 1700), x1) /\ f_lseek cf cf 500 x1 = Ok (FR_OK, x2) /\
    f_truncate cf x2 = Ok (FR_OK, x') /\ objsize (f_obj (of_fil x')) = 500.
Proof.
  destruct demo_sought as (x1 & x2 & l1 & E1 & E2 & K2 & P2 & V2 & _ & W2 & O2 & F2 & G).
  destruct (f_truncate_exact cf x2 l1 K2 P2 V2 W2) as (x' & E & _ & R & _); [lia|rewrite G; pose proof demo_fuel; lia|].
  exists x1, x2, x'. split; [exact E1|]. split; [exact E2|]. split; [exact E|]. rewrite <- F2. exact R.
Defined.
