(* ===== verification/FatLfn.v ===== *)
(** * FatLfn: long and short names in directory entries (ff.c)

    A directory entry is 32 bytes at an offset of the window. A long name is
    kept in entries of 13 UTF-16 units each, in front of the short entry that
    bears its checksum. *)

From Stdlib Require Import ZArith Lia Bool.
From stdpp Require Import base list list_numbers sorting.
From S2P Require Import Prelude Hw FatUni Fat FatFile FatRead FatSync.
From stdpp Require Import options.

Definition LDIR_Ord : Z := 0.
Definition LDIR_Attr : Z := 11.
Definition LDIR_Type : Z := 12.
Definition LDIR_Chksum : Z := 13.
Definition LDIR_FstClusLO : Z := 26.
Definition LLEF : Z := 64.
Definition AM_LFN : Z := 15.
Definition FF_MAX_LFN : Z := 255.

(** Where the 13 characters are. *)
Definition LfnOfs : list Z := [1; 3; 5; 7; 9; 14; 16; 18; 20; 22; 24; 28; 30].

(** ** Comparing *)

(** The characters of an entry against the name from [ni] on: the last
    character and the next index, or no match. *)
Fixpoint cmp_chars (b : list Z) (dir : Z) (lfnbuf : list Z) (ofs : list Z) (pchr ni : Z) : res (option (Z * Z)) :=
  match ofs with
  | [] => Ok (Some (pchr, ni))
  | o :: ofs =>
      chr ← ld_word b (dir + o);
      if negb (pchr =? 0) then
        if FF_MAX_LFN + 1 <=? ni then Ok None
        else
          c ← rd lfnbuf ni;
          u ← ff_wtoupper chr; u' ← ff_wtoupper c;
          if negb (u =? u') then Ok None else cmp_chars b dir lfnbuf ofs chr (ni + 1)
      else if negb (chr =? 65535) then Ok None
      else cmp_chars b dir lfnbuf ofs pchr ni
  end.

Definition cmp_lfn (lfnbuf b : list Z) (dir : Z) : res bool :=
  cl ← ld_word b (dir + LDIR_FstClusLO);
  if negb (cl =? 0) then Ok false
  else
    ord ← rd b (dir + LDIR_Ord);
    x ← cmp_chars b dir lfnbuf LfnOfs 1 (u32 (u32 (Z.land ord 63 - 1) * 13));
    match x with
    | None => Ok false
    | Some (pchr, ni) =>
        if has ord LLEF && negb (pchr =? 0) then c ← rd lfnbuf ni; Ok (c =? 0) else Ok true
    end.

(** ** Picking *)

(** The buffer changes as far as the characters were stored. *)
Fixpoint pick_chars (b : list Z) (dir : Z) (ofs : list Z) (pchr ni : Z) (lfnbuf : list Z) : res (option (Z * Z) * list Z) :=
  match ofs with
  | [] => Ok (Some (pchr, ni), lfnbuf)
  | o :: ofs =>
      chr ← ld_word b (dir + o);
      if negb (pchr =? 0) then
        if FF_MAX_LFN + 1 <=? ni then Ok (None, lfnbuf)
        else lfnbuf ← wr lfnbuf ni chr; pick_chars b dir ofs chr (ni + 1) lfnbuf
      else if negb (chr =? 65535) then Ok (None, lfnbuf)
      else pick_chars b dir ofs pchr ni lfnbuf
  end.

Definition pick_lfn (lfnbuf b : list Z) (dir : Z) : res (bool * list Z) :=
  cl ← ld_word b (dir + LDIR_FstClusLO);
  if negb (cl =? 0) then Ok (false, lfnbuf)
  else
    ord ← rd b (dir + LDIR_Ord);
    x ← pick_chars b dir LfnOfs 1 (u32 (u32 (Z.land ord 191 - 1) * 13)) lfnbuf;
    match x.1 with
    | None => Ok (false, x.2)
    | Some (pchr, ni) =>
        if has ord LLEF && negb (pchr =? 0) then
          if FF_MAX_LFN + 1 <=? ni then Ok (false, x.2)
          else lfnbuf ← wr x.2 ni 0; Ok (true, lfnbuf)
        else Ok (true, x.2)
    end.

(** ** Storing *)

(** The characters of the entry: the name from [ni] on, its terminator and
    the filler; the last value of [chr] and the next index. *)
Fixpoint put_chars (lfn : list Z) (dir : Z) (ofs : list Z) (chr ni : Z) (b : list Z) : res (Z * Z * list Z) :=
  match ofs with
  | [] => Ok (chr, ni, b)
  | o :: ofs =>
      x ← (if negb (chr =? 65535) then c ← rd lfn ni; Ok (c, ni + 1) else Ok (chr, ni));
      let '(chr, ni) := x in
      b ← st_word b (dir + o) chr;
      put_chars lfn dir ofs (if chr =? 0 then 65535 else chr) ni b
  end.

Definition put_lfn (lfn : list Z) (dir ord sum : Z) (b : list Z) : res (list Z) :=
  b ← wr b (dir + LDIR_Chksum) sum;
  b ← wr b (dir + LDIR_Attr) AM_LFN;
  b ← wr b (dir + LDIR_Type) 0;
  b ← st_word b (dir + LDIR_FstClusLO) 0;
  x ← put_chars lfn dir LfnOfs 0 (u32 (u32 (ord - 1) * 13)) b;
  let '(chr, ni, b) := x in
  ord ← (if chr =? 65535 then Ok (Z.lor ord LLEF) else c ← rd lfn ni; Ok (if c =? 0 then Z.lor ord LLEF else ord));
  wr b (dir + LDIR_Ord) ord.

(** ** Checksum *)

Definition sum_step (sum c : Z) : Z := u8 (Z.shiftr sum 1 + Z.shiftl sum 7 + c).

Fixpoint sum_loop (n : nat) (b : list Z) (i sum : Z) : res Z :=
  match n with
  | O => Ok sum
  | S n => c ← rd b i; sum_loop n b (i + 1) (sum_step sum c)
  end.

Definition sum_sfn (b : list Z) (dir : Z) : res Z := sum_loop 11 b dir 0.

(** ** Short names with a number *)

(** One character of the hash. *)
Definition crc_bit (x : Z * Z) : Z * Z :=
  let crc := u32 (u32 (Z.shiftl x.1 1) + Z.land x.2 1) in
  (if has crc 65536 then Z.lxor crc 69665 else crc, Z.shiftr x.2 1).
Definition crc_char (crc wc : Z) : Z := (Nat.iter 16 crc_bit (crc, wc)).1.

Fixpoint crc_name (lfn : list Z) (crc : Z) : res Z :=
  match lfn with
  | [] => Fault
  | c :: lfn => if c =? 0 then Ok crc else crc_name lfn (crc_char crc c)
  end.

(** The suffix ["~"] and hexadecimal digits, right-aligned in 8 bytes: the
    index of its first character and the bytes. *)
Fixpoint num_suffix (i : nat) (seq : Z) (ns : list Z) : Z * list Z :=
  match i with
  | O => (0, <[0%nat := 126]> ns)
  | S i' =>
      let c := u8 (seq mod 16 + 48) in
      let c := if 57 <? c then u8 (c + 7) else c in
      let ns := <[i := c]> ns in
      let seq := seq / 16 in
      if negb (seq =? 0) then num_suffix i' seq ns else (Z.of_nat i', <[i' := 126]> ns)
  end.

(** Where the suffix is appended: behind the body, or so that it fits,
    without breaking a double-byte character. *)
Fixpoint suffix_place (fuel : nat) (dst : list Z) (i j : Z) : res Z :=
  match fuel with
  | O => NoFuel
  | S fuel =>
      if j <? i then
        c ← rd dst j;
        if c =? 32 then Ok j
        else if dbc_1st c then (if j =? i - 1 then Ok j else suffix_place fuel dst i (j + 2))
        else suffix_place fuel dst i (j + 1)
      else Ok j
  end.

(** [do dst[j++] = (i < 8) ? ns[i++] : ' '; while (j < 8)] *)
Fixpoint put_suffix (n : nat) (ns : list Z) (i j : Z) (dst : list Z) : res (list Z) :=
  match n with
  | O => Ok dst
  | S n =>
      c ← (if i <? 8 then rd ns i else Ok 32);
      dst ← wr dst j c;
      put_suffix n ns (if i <? 8 then i + 1 else i) (j + 1) dst
  end.

(** [dst] and [src] are names of 12 bytes, the last being the status. *)
Definition gen_numname (dst src lfn : list Z) (seq : Z) : res (list Z) :=
  name ← fetch src 0 11;
  dst ← store dst 0 name;
  seq ← (if 5 <? seq then crc_name lfn seq else Ok seq);
  let '(i, ns) := num_suffix 7 seq (replicate 8 0) in
  j ← suffix_place 8 dst i 0;
  put_suffix (Z.to_nat (Z.max 1 (8 - j))) ns i j dst.

(** ** Names in entries *)

(** The units of an entry set: the name, its terminator, the filler. *)
Definition name_unit (w : list Z) (i : Z) : Z := if i <? zlen w then get w i else if i =? zlen w then 0 else 65535.

(** The working buffer holds the name [w]. *)
Record named (w lfn : list Z) : Prop := {
  nm_chars : Forall (fun c => 0 < c < 65535) w;
  nm_len : 0 < zlen w <= 255;
  nm_size : length lfn = 256%nat;
  nm_units : Forall (fun c => 0 <= c < 65536) lfn;
  nm_at : forall i, 0 <= i <= zlen w -> get lfn i = name_unit w i
}.

Lemma unit_in w lfn i : named w lfn -> 0 <= i < zlen w -> 0 < name_unit w i < 65535 /\ name_unit w i = get w i.
Proof.
  intros [Hc _ _ _ _] Hi. unfold name_unit. rewrite (proj2 (Z.ltb_lt _ _)) by lia. split; [|done].
  apply (proj1 (Forall_nth (fun c => 0 < c < 65535) 0 w) Hc). lia.
Qed.

Lemma unit_end w i : i = zlen w -> name_unit w i = 0.
Proof. intros ->. unfold name_unit. by rewrite Z.ltb_irrefl, Z.eqb_refl. Qed.

Lemma unit_fill w i : zlen w < i -> name_unit w i = 65535.
Proof. intros Hi. unfold name_unit. rewrite (proj2 (Z.ltb_ge _ _)), (proj2 (Z.eqb_neq _ _)) by lia. done. Qed.

Lemma unit_bound w lfn i : named w lfn -> 0 <= i -> 0 <= name_unit w i < 65536.
Proof.
  intros Hn Hi. destruct (Z.lt_trichotomy i (zlen w)) as [Hlt|[E|Hgt]].
  - destruct (unit_in w lfn i Hn); lia.
  - rewrite unit_end by done. lia.
  - rewrite unit_fill by lia. lia.
Qed.

Lemma named_get w lfn i : named w lfn -> 0 <= get lfn i < 65536.
Proof.
  intros Hn. unfold get. destruct (nth_in_or_default (Z.to_nat i) lfn 0) as [Hin|E]; [|lia]. pose proof (nm_units _ _ Hn) as Hu. rewrite List.Forall_forall in Hu. by apply Hu.
Qed.

(** A buffer into which units of a name were stored. *)
Lemma units_by_get b' b w lfn : length b' = length b -> length b = 256%nat -> Forall (fun c => 0 <= c < 65536) b -> named w lfn ->
  (forall i, 0 <= i -> get b' i = name_unit w i \/ get b' i = get b i) -> Forall (fun c => 0 <= c < 65536) b'.
Proof.
  intros L Lb Hb Hn G. apply Forall_nth with (d := 0). intros i Hi. destruct (G (Z.of_nat i) ltac:(lia)) as [E|E]; unfold get in E; rewrite Nat2Z.id in E; rewrite E.
  - by apply (unit_bound w lfn); [done|lia].
  - apply (proj1 (Forall_nth _ 0 b) Hb). lia.
Qed.

(** The words at [ofs] lie apart from each other. *)
Definition apart (ofs : list Z) : Prop := StronglySorted (fun a b => a + 2 <= b) ofs /\ Forall (fun o => 0 <= o <= 30) ofs.

Lemma apart_cons o ofs : apart (o :: ofs) -> 0 <= o <= 30 /\ apart ofs /\ forall o', o' ∈ ofs -> o + 2 <= o' <= 30.
Proof.
  intros [S F]. apply StronglySorted_inv in S as [S Hs]. apply Forall_cons in F as [Ho F]. split; [done|]. split; [done|].
  intros o' Hin. rewrite Forall_forall in F, Hs. specialize (F o' Hin). specialize (Hs o' Hin). lia.
Qed.

Lemma LfnOfs_apart : apart LfnOfs.
Proof. split; repeat constructor; lia. Qed.

Section Chars.
Context (w lfn : list Z) (Hn : named w lfn) (dir : Z) (Hd : 0 <= dir).
#[local] Set Default Proof Using "Type*".

(** [put_chars] in front of unit [v]. *)
Definition putting (v chr ni : Z) : Prop := (v <= zlen w /\ chr <> 65535 /\ ni = v) \/ (zlen w < v /\ chr = 65535).

Lemma put_chars_ok ofs : dir <= 480 -> forall v chr ni b, apart ofs -> sector_data b -> 0 <= v -> putting v chr ni ->
  exists chr' ni' b', put_chars lfn dir ofs chr ni b = Ok (chr', ni', b') /\ sector_data b' /\ putting (v + zlen ofs) chr' ni' /\
    (forall t o, ofs !! t = Some o -> le16 b' (dir + o) = name_unit w (v + Z.of_nat t)) /\
    (forall j, 0 <= j -> (forall o, o ∈ ofs -> ~ (dir + o <= j < dir + o + 2)) -> get b' j = get b j).
Proof.
  intros Hd'. induction ofs as [|o ofs IH]; intros v chr ni b Ha Hb Hv Hp; cbn [put_chars].
  - exists chr, ni, b. split; [done|]. split; [done|]. split; [by rewrite Z.add_0_r|]. split; [intros t o; by rewrite lookup_nil|done].
  - destruct (apart_cons _ _ Ha) as (Ho & Ha' & Hsep). pose proof (nm_size _ _ Hn) as Hsz. pose proof (nm_len _ _ Hn) as Hlen.
    set (u := name_unit w v). pose proof (unit_bound w lfn v Hn Hv) as Hu. fold u in Hu.
    assert (exists ni1, (if negb (chr =? 65535) then c ← rd lfn ni; Ok (c, ni + 1) else Ok (chr, ni)) = Ok (u, ni1) /\
      putting (v + 1) (if u =? 0 then 65535 else u) ni1) as (ni1 & E1 & P1).
    { destruct Hp as [(H1 & H2 & ->)|(H1 & ->)].
      - rewrite (proj2 (Z.eqb_neq _ _) H2). cbn [negb]. rewrite rd_in by lia. rewrite bind_Ok, (nm_at _ _ Hn) by lia. exists (v + 1). split; [done|]. fold u.
        destruct (Z.eqb_spec u 0) as [E0|N0]; [right|left].
        + split; [|done]. destruct (decide (v = zlen w)); [lia|]. destruct (unit_in w lfn v Hn); [lia|]. unfold u in E0. lia.
        + assert (v <> zlen w) by (intros E; apply N0; unfold u; by apply unit_end). destruct (unit_in w lfn v Hn); [lia|]. unfold u. lia.
      - rewrite Z.eqb_refl. cbn [negb]. exists ni. unfold u. rewrite unit_fill by lia. split; [done|]. right. split; [lia|done]. }
    rewrite E1, bind_Ok. cbv beta iota. destruct (st_word_field b (dir + o) u Hb) as (b1 & E2 & S1 & V1 & O1); [lia|lia|lia|]. rewrite E2, bind_Ok.
    destruct (IH (v + 1) _ ni1 b1 Ha' S1 ltac:(lia) P1) as (chr' & ni' & b' & E3 & S3 & P3 & V3 & O3). exists chr', ni', b'. split; [exact E3|]. split; [done|].
    split; [cbn [length]; replace (v + Z.of_nat (S (length ofs))) with (v + 1 + zlen ofs) by lia; done|]. split.
    + intros [|t] o' Ht; [injection Ht as <-|].
      * rewrite Z.add_0_r. fold u. rewrite <- V1. unfold le16. rewrite !O3; [done|lia|intros o' Hin; specialize (Hsep o' Hin); lia|lia|intros o' Hin; specialize (Hsep o' Hin); lia].
      * rewrite (V3 t o') by done. f_equal. lia.
    + intros j Hj Hout. rewrite O3; [|done|intros o' Hin; apply Hout; by right]. apply O1; [done|]. specialize (Hout o ltac:(by left)). lia.
Qed.

(** [pick_chars] in front of unit [v]. *)
Definition picking (v pchr ni : Z) : Prop := (v <= zlen w /\ pchr <> 0 /\ ni = v) \/ (zlen w < v /\ pchr = 0).

Lemma picking_next v pchr ni : 0 <= v -> picking v pchr ni -> picking (v + 1) (if pchr =? 0 then pchr else name_unit w v) (if pchr =? 0 then ni else ni + 1).
Proof.
  intros Hv [(H1 & H2 & ->)|(H1 & ->)]; [|rewrite Z.eqb_refl; right; split; [lia|done]]. rewrite (proj2 (Z.eqb_neq _ _) H2).
  destruct (decide (v = zlen w)) as [E|N]; [right; split; [lia|by apply unit_end]|left]. destruct (unit_in w lfn v Hn); lia.
Qed.

Lemma pick_chars_ok b ofs : forall v pchr ni buf, Forall is_byte b -> dir + 32 <= zlen b -> apart ofs -> length buf = 256%nat -> 0 <= v -> picking v pchr ni ->
  (forall t o, ofs !! t = Some o -> le16 b (dir + o) = name_unit w (v + Z.of_nat t)) ->
  exists pchr' ni' buf', pick_chars b dir ofs pchr ni buf = Ok (Some (pchr', ni'), buf') /\ picking (v + zlen ofs) pchr' ni' /\ length buf' = 256%nat /\
    (forall i, 0 <= i -> get buf' i = if (v <=? i) && (i <? v + zlen ofs) && (i <=? zlen w) then name_unit w i else get buf i).
Proof.
  induction ofs as [|o ofs IH]; intros v pchr ni buf Hb Lb Ha Lf Hv Hp Hu; cbn [pick_chars].
  - exists pchr, ni, buf. split; [done|]. split; [by rewrite Z.add_0_r|]. split; [done|]. intros i Hi. cbn [length].
    destruct (Z.leb_spec v i), (Z.ltb_spec i (v + Z.of_nat 0)); cbn [andb]; try done; lia.
  - destruct (apart_cons _ _ Ha) as (Ho & Ha' & _). pose proof (Hu 0%nat o eq_refl) as Eu. change (Z.of_nat 0) with 0 in Eu. rewrite Z.add_0_r in Eu.
    rewrite ld_word_ok by (done || lia). rewrite bind_Ok, Eu. pose proof (picking_next v pchr ni Hv Hp) as Hp1. pose proof (nm_len _ _ Hn) as Hlen.
    assert (forall t o', ofs !! t = Some o' -> le16 b (dir + o') = name_unit w (v + 1 + Z.of_nat t)) as Hu' by (intros t o' Ht; rewrite (Hu (S t) o') by done; f_equal; lia).
    destruct Hp as [(H1 & H2 & ->)|(H1 & ->)].
    + rewrite (proj2 (Z.eqb_neq _ _) H2) in *. cbn [negb]. unfold FF_MAX_LFN. rewrite (proj2 (Z.leb_gt _ _)) by lia. rewrite wr_in by lia. rewrite bind_Ok.
      destruct (IH (v + 1) (name_unit w v) (v + 1) (<[Z.to_nat v := name_unit w v]> buf) Hb Lb Ha') as (pchr' & ni' & buf' & E & P & L' & G); [by rewrite length_insert|lia|done|done|].
      exists pchr', ni', buf'. split; [exact E|]. split; [cbn [length]; replace (v + Z.of_nat (S (length ofs))) with (v + 1 + zlen ofs) by lia; done|]. split; [done|].
      intros i Hi. rewrite G by done. cbn [length]. replace (v + Z.of_nat (S (length ofs))) with (v + 1 + zlen ofs) by lia.
      destruct (Z.eq_dec i v) as [->|Hne].
      * rewrite get_insert_eq by lia. rewrite (proj2 (Z.leb_gt _ _)), (proj2 (Z.leb_le v v)), (proj2 (Z.ltb_lt _ _)), (proj2 (Z.leb_le _ _)) by lia. done.
      * rewrite get_insert_ne by lia. destruct (Z.leb_spec (v + 1) i), (Z.leb_spec v i); try done; lia.
    + change (0 =? 0) with true in *. cbn [negb]. rewrite unit_fill by lia. change (65535 =? 65535) with true. cbn [negb].
      destruct (IH (v + 1) 0 ni buf Hb Lb Ha' Lf) as (pchr' & ni' & buf' & E & P & L' & G); [lia|done|done|].
      exists pchr', ni', buf'. split; [exact E|]. split; [cbn [length]; replace (v + Z.of_nat (S (length ofs))) with (v + 1 + zlen ofs) by lia; done|]. split; [done|].
      intros i Hi. rewrite G by done. destruct (Z.leb_spec i (zlen w)); [|by rewrite !andb_false_r].
      rewrite (proj2 (Z.leb_gt (v + 1) i)), (proj2 (Z.leb_gt v i)) by lia. done.
Qed.

End Chars.

(** ** Entries *)

(** Number of entries of a name. *)
Definition n_entries (w : list Z) : Z := (zlen w + 12) / 13.

(** The sector [b] holds at [dir] entry number [ord] of the set of [w]. *)
Record entry_for (w : list Z) (ord sum : Z) (b : list Z) (dir : Z) : Prop := {
  en_data : Forall is_byte b;
  en_dir : 0 <= dir /\ dir + 32 <= zlen b;
  en_ord : get b (dir + LDIR_Ord) = if zlen w <=? 13 * ord then ord + 64 else ord;
  en_attr : get b (dir + LDIR_Attr) = AM_LFN;
  en_sum : get b (dir + LDIR_Chksum) = sum;
  en_clus : le16 b (dir + LDIR_FstClusLO) = 0;
  en_units : forall t o, LfnOfs !! t = Some o -> le16 b (dir + o) = name_unit w (13 * (ord - 1) + Z.of_nat t)
}.

Lemma ord_bits ord : 1 <= ord <= 20 ->
  Z.lor ord LLEF = ord + 64 /\ Z.land (ord + 64) 63 = ord /\ Z.land ord 63 = ord /\ Z.land (ord + 64) 191 = ord /\ Z.land ord 191 = ord /\
  has (ord + 64) LLEF = true /\ has ord LLEF = false.
Proof.
  intros Ho. assert (forallb (fun o => (Z.lor o LLEF =? o + 64) && (Z.land (o + 64) 63 =? o) && (Z.land o 63 =? o) && (Z.land (o + 64) 191 =? o) && (Z.land o 191 =? o) &&
    has (o + 64) LLEF && negb (has o LLEF)) (seqZ 1 20) = true) as E by (vm_compute; reflexivity).
  rewrite forallb_forall in E. specialize (E ord ltac:(apply list_elem_of_In, elem_of_seqZ; lia)). repeat rewrite andb_true_iff in E. rewrite !Z.eqb_eq, negb_true_iff in E. tauto.
Qed.

Lemma ord_range w ord : 0 < zlen w <= 255 -> 1 <= ord <= n_entries w -> 1 <= ord <= 20 /\ 13 * (ord - 1) < zlen w.
Proof. unfold n_entries. intros Hw Ho. dlia. Qed.

Lemma wr_byte b i v : sector_data b -> 0 <= i < 512 -> is_byte v -> exists b', wr b i v = Ok b' /\ sector_data b' /\ get b' i = v /\ only i (i + 1) b b'.
Proof.
  intros [L B] Hi Hv. rewrite wr_in by lia. eexists. split; [reflexivity|]. split; [|split].
  - split; [by rewrite length_insert|]. by apply Forall_insert.
  - by rewrite get_insert_eq by lia.
  - intros j Hj Hn. by rewrite get_insert_ne by lia.
Qed.

Lemma put_lfn_ok w lfn dir ord sum b : named w lfn -> sector_data b -> 0 <= dir <= 480 -> 1 <= ord <= n_entries w -> is_byte sum ->
  exists b', put_lfn lfn dir ord sum b = Ok b' /\ entry_for w ord sum b' dir /\ only dir (dir + 32) b b' /\ sector_data b'.
Proof.
  intros Hn Hb Hd Ho Hs. destruct (ord_range w ord (nm_len _ _ Hn) Ho) as [Ho2 Hlt]. pose proof (ord_bits ord Ho2) as (B1 & _ & _ & _ & _ & _ & _).
  unfold put_lfn, LDIR_Chksum, LDIR_Attr, LDIR_Type, LDIR_FstClusLO, LDIR_Ord, AM_LFN. pose proof (nm_size _ _ Hn) as Hsz. pose proof (nm_len _ _ Hn) as Hlen.
  destruct (wr_byte b (dir + 13) sum Hb) as (b1 & E1 & S1 & V1 & O1); [lia|done|]. rewrite E1, bind_Ok.
  destruct (wr_byte b1 (dir + 11) 15 S1) as (b2 & E2 & S2 & V2 & O2); [lia|unfold is_byte; lia|]. rewrite E2, bind_Ok.
  destruct (wr_byte b2 (dir + 12) 0 S2) as (b3 & E3 & S3 & V3 & O3); [lia|unfold is_byte; lia|]. rewrite E3, bind_Ok.
  destruct (st_word_field b3 (dir + 26) 0 S3) as (b4 & E4 & S4 & V4 & O4); [lia|lia|lia|]. rewrite E4, bind_Ok.
  rewrite (u32_small (ord - 1)), u32_small by lia. replace ((ord - 1) * 13) with (13 * (ord - 1)) by lia.
  destruct (put_chars_ok w lfn Hn dir (proj1 Hd) LfnOfs (proj2 Hd) (13 * (ord - 1)) 0 (13 * (ord - 1)) b4 LfnOfs_apart S4) as (chr & ni & b5 & E5 & S5 & P5 & V5 & O5); [lia|left; lia|].
  rewrite E5, bind_Ok. cbv beta iota. replace (13 * (ord - 1) + zlen LfnOfs) with (13 * ord) in P5 by (cbn; lia).
  assert ((if chr =? 65535 then Ok (Z.lor ord LLEF) else c ← rd lfn ni; Ok (if c =? 0 then Z.lor ord LLEF else ord)) = Ok (if zlen w <=? 13 * ord then ord + 64 else ord)) as ->.
  { rewrite B1. destruct P5 as [(H1 & H2 & ->)|(H1 & ->)].
    - rewrite (proj2 (Z.eqb_neq _ _) H2). rewrite rd_in by lia. rewrite bind_Ok, (nm_at _ _ Hn) by lia. destruct (decide (13 * ord = zlen w)) as [E|N].
      + rewrite unit_end by done. rewrite (proj2 (Z.leb_le _ _)) by lia. done.
      + destruct (unit_in w lfn (13 * ord) Hn) as [Hu _]; [lia|]. rewrite (proj2 (Z.eqb_neq _ 0)), (proj2 (Z.leb_gt _ _)) by lia. done.
    - rewrite (proj2 (Z.leb_le _ _)) by lia. done. }
  rewrite bind_Ok. destruct (wr_byte b5 (dir + 0) (if zlen w <=? 13 * ord then ord + 64 else ord) S5) as (b6 & E6 & S6 & V6 & O6); [lia|unfold is_byte; destruct (_ <=? _); lia|].
  assert (forall o, o ∈ LfnOfs -> 1 <= o <= 10 \/ 14 <= o <= 24 \/ 28 <= o <= 30) as Hofs.
  { intros o Hin. unfold LfnOfs in Hin. repeat (apply elem_of_cons in Hin as [->|Hin]; [lia|]). by apply elem_of_nil in Hin. }
  assert (forall o, o ∈ LfnOfs -> o + 1 <= 10 \/ 14 <= o /\ o + 1 <= 25 \/ 28 <= o) as Hofs2.
  { intros o Hin. unfold LfnOfs in Hin. repeat (apply elem_of_cons in Hin as [->|Hin]; [lia|]). by apply elem_of_nil in Hin. }
  exists b6. split; [exact E6|]. split; [|split; [|done]].
  - split; [apply S6|rewrite (proj1 S6); lia|exact V6| | | |].
    + unfold LDIR_Attr. rewrite O6 by lia. rewrite O5; [|lia|intros o Hin; specialize (Hofs2 o Hin); lia]. rewrite O4, O3 by lia. exact V2.
    + unfold LDIR_Chksum. rewrite O6 by lia. rewrite O5; [|lia|intros o Hin; specialize (Hofs2 o Hin); lia]. rewrite O4, O3, O2 by lia. exact V1.
    + unfold LDIR_FstClusLO. rewrite (le16_only _ _ _ _ _ O6) by lia. rewrite <- V4. unfold le16.
      rewrite !O5; [done|lia|intros o Hin; specialize (Hofs2 o Hin); lia|lia|intros o Hin; specialize (Hofs2 o Hin); lia].
    + intros t o Ht. pose proof (list_elem_of_lookup_2 _ _ _ Ht) as Hin. specialize (Hofs o Hin). rewrite (le16_only _ _ _ _ _ O6) by lia. by apply V5.
  - intros j Hj Hout. rewrite O6 by lia. rewrite O5; [|done|intros o Hin; specialize (Hofs o Hin); lia]. rewrite O4, O3, O2, O1 by lia. done.
Qed.

Lemma pick_lfn_ok w lfn ord sum b dir buf : named w lfn -> 1 <= ord <= n_entries w -> entry_for w ord sum b dir -> length buf = 256%nat ->
  exists buf', pick_lfn buf b dir = Ok (true, buf') /\ length buf' = 256%nat /\
    forall i, 0 <= i -> get buf' i = if (13 * (ord - 1) <=? i) && (i <=? zlen w) && ((i <? 13 * ord) || (zlen w <=? 13 * ord)) then name_unit w i else get buf i.
Proof.
  intros Hn Ho He Lf. destruct (ord_range w ord (nm_len _ _ Hn) Ho) as [Ho2 Hlt]. pose proof (ord_bits ord Ho2) as (_ & _ & _ & B4 & B5 & B6 & B7). pose proof (nm_len _ _ Hn) as Hlen.
  destruct He as [B [Hd L] E0 _ _ E3 E4]. unfold pick_lfn. rewrite ld_word_ok by (done || (unfold LDIR_FstClusLO; lia)). rewrite bind_Ok, E3. cbn [Z.eqb negb].
  rewrite rd_in by (unfold LDIR_Ord; lia). rewrite bind_Ok, E0. set (ob := if zlen w <=? 13 * ord then ord + 64 else ord).
  replace (Z.land ob 191) with ord by (unfold ob; destruct (_ <=? _); done). rewrite (u32_small (ord - 1)), u32_small by lia. replace ((ord - 1) * 13) with (13 * (ord - 1)) by lia.
  destruct (pick_chars_ok w lfn Hn dir Hd b LfnOfs (13 * (ord - 1)) 1 (13 * (ord - 1)) buf B L LfnOfs_apart Lf) as (pchr & ni & buf1 & E & P & L1 & G); [lia|left; lia|done|].
  rewrite E, bind_Ok. cbn [fst snd]. replace (13 * (ord - 1) + zlen LfnOfs) with (13 * ord) in P, G by (cbn; lia).
  replace (has ob LLEF) with (zlen w <=? 13 * ord) by (unfold ob; by destruct (_ <=? _)). destruct (Z.leb_spec (zlen w) (13 * ord)) as [Hle|Hgt]; cbn [andb].
  - destruct P as [(H1 & H2 & ->)|(H1 & ->)].
    + rewrite (proj2 (Z.eqb_neq _ _) H2). cbn [negb]. unfold FF_MAX_LFN. rewrite (proj2 (Z.leb_gt _ _)) by lia. rewrite wr_in by lia. rewrite bind_Ok.
      eexists. split; [reflexivity|]. split; [by rewrite length_insert|]. intros i Hi. rewrite orb_true_r, andb_true_r. destruct (decide (i = 13 * ord)) as [->|Hne].
      * rewrite get_insert_eq by lia. rewrite (proj2 (Z.leb_le _ _)), (proj2 (Z.leb_le _ _)) by lia. cbn [andb]. by rewrite unit_end by lia.
      * rewrite get_insert_ne by lia. rewrite G by done. destruct (Z.leb_spec (13 * (ord - 1)) i), (Z.ltb_spec i (13 * ord)), (Z.leb_spec i (zlen w)); cbn [andb]; try done; lia.
    + change (0 =? 0) with true. cbn [negb]. exists buf1. split; [done|]. split; [done|]. intros i Hi. rewrite G by done. rewrite orb_true_r, andb_true_r.
      destruct (Z.leb_spec (13 * (ord - 1)) i), (Z.ltb_spec i (13 * ord)), (Z.leb_spec i (zlen w)); cbn [andb]; try done; lia.
  - exists buf1. split; [done|]. split; [done|]. intros i Hi. rewrite G by done. rewrite orb_false_r.
    destruct (Z.leb_spec (13 * (ord - 1)) i), (Z.ltb_spec i (13 * ord)), (Z.leb_spec i (zlen w)); cbn [andb]; try done; lia.
Qed.

(** ** Comparing a name with a stored one *)

Section Match.
Context (w lfn w2 lfn2 : list Z) (Hn : named w lfn) (Hn2 : named w2 lfn2).
#[local] Set Default Proof Using "Type*".

(** The stored name and the other agree from [lo] to [hi]. *)
Definition agree (lo hi : Z) : Prop := forall i, lo <= i < hi -> i <= zlen w -> upper (name_unit w i) = upper (get lfn2 i).

Lemma cmp_chars_ok b dir ofs : forall v pchr ni, Forall is_byte b -> dir + 32 <= zlen b -> 0 <= dir -> apart ofs -> 0 <= v -> picking w v pchr ni ->
  (forall t o, ofs !! t = Some o -> le16 b (dir + o) = name_unit w (v + Z.of_nat t)) ->
  exists o, cmp_chars b dir lfn2 ofs pchr ni = Ok o /\
    match o with Some (p, n) => agree v (v + zlen ofs) /\ picking w (v + zlen ofs) p n | None => ~ agree v (v + zlen ofs) end.
Proof.
  induction ofs as [|o ofs IH]; intros v pchr ni Hb Lb Hd Ha Hv Hp Hu; cbn [cmp_chars].
  - eexists. split; [reflexivity|]. cbn [length]. rewrite Z.add_0_r. split; [intros i Hi; lia|done].
  - destruct (apart_cons _ _ Ha) as (Ho & Ha' & _). pose proof (Hu 0%nat o eq_refl) as Eu. change (Z.of_nat 0) with 0 in Eu. rewrite Z.add_0_r in Eu.
    rewrite ld_word_ok by (done || lia). rewrite bind_Ok, Eu. pose proof (picking_next w lfn Hn v pchr ni Hv Hp) as Hp1. pose proof (nm_len _ _ Hn) as Hlen. pose proof (nm_size _ _ Hn2) as Hsz.
    assert (forall t o', ofs !! t = Some o' -> le16 b (dir + o') = name_unit w (v + 1 + Z.of_nat t)) as Hu' by (intros t o' Ht; rewrite (Hu (S t) o') by done; f_equal; lia).
    cbn [length]. replace (v + Z.of_nat (S (length ofs))) with (v + 1 + zlen ofs) by lia. destruct Hp as [(H1 & H2 & ->)|(H1 & ->)].
    + rewrite (proj2 (Z.eqb_neq _ _) H2) in *. cbn [negb]. unfold FF_MAX_LFN. rewrite (proj2 (Z.leb_gt _ _)) by lia. rewrite rd_in by lia. rewrite bind_Ok.
      destruct (wtoupper_ok (name_unit w v)) as (U1 & _); [by apply (unit_bound w lfn)|]. destruct (wtoupper_ok (get lfn2 v)) as (U2 & _); [by apply (named_get w2)|].
      rewrite U1, bind_Ok, U2, bind_Ok. destruct (Z.eqb_spec (upper (name_unit w v)) (upper (get lfn2 v))) as [Eq|Ne]; cbn [negb].
      2: { exists None. split; [done|]. intros Hag. apply Ne, Hag; lia. }
      destruct (IH (v + 1) (name_unit w v) (v + 1) Hb Lb Hd Ha') as (r & E & R); [lia|done|done|]. exists r. split; [exact E|]. destruct r as [[p n]|].
      * destruct R as [Ra Rp]. split; [|exact Rp]. intros i Hi Hl. destruct (decide (i = v)) as [->|]; [done|]. apply Ra; lia.
      * intros Hag. apply R. intros i Hi Hl. apply Hag; lia.
    + change (0 =? 0) with true in *. cbn [negb]. rewrite unit_fill by lia. change (65535 =? 65535) with true. cbn [negb].
      destruct (IH (v + 1) 0 ni Hb Lb Hd Ha') as (r & E & R); [lia|done|done|]. exists r. split; [exact E|]. destruct r as [[p n]|].
      * destruct R as [_ Rp]. split; [intros i Hi Hl; lia|exact Rp].
      * intros _. apply R. intros i Hi Hl. lia.
Qed.

Lemma cmp_lfn_ok ord sum b dir : 1 <= ord <= n_entries w -> entry_for w ord sum b dir ->
  exists r, cmp_lfn lfn2 b dir = Ok r /\ (r = true <-> agree (13 * (ord - 1)) (13 * ord) /\ (13 * ord = zlen w -> get lfn2 (zlen w) = 0)).
Proof.
  intros Ho He. destruct (ord_range w ord (nm_len _ _ Hn) Ho) as [Ho2 Hlt]. pose proof (ord_bits ord Ho2) as (_ & B2 & B3 & _ & _ & B6 & B7). pose proof (nm_len _ _ Hn) as Hlen.
  destruct He as [B [Hd L] E0 _ _ E3 E4]. unfold cmp_lfn. rewrite ld_word_ok by (done || (unfold LDIR_FstClusLO; lia)). rewrite bind_Ok, E3. cbn [Z.eqb negb].
  rewrite rd_in by (unfold LDIR_Ord; lia). rewrite bind_Ok, E0. set (ob := if zlen w <=? 13 * ord then ord + 64 else ord). pose proof (nm_size _ _ Hn2) as Hsz.
  replace (Z.land ob 63) with ord by (unfold ob; destruct (_ <=? _); done). rewrite (u32_small (ord - 1)), u32_small by lia. replace ((ord - 1) * 13) with (13 * (ord - 1)) by lia.
  destruct (cmp_chars_ok b dir LfnOfs (13 * (ord - 1)) 1 (13 * (ord - 1)) B L Hd LfnOfs_apart) as (r & E & R); [lia|left; lia|done|].
  rewrite E, bind_Ok. replace (13 * (ord - 1) + zlen LfnOfs) with (13 * ord) in R by (cbn; lia). destruct r as [[p n]|]; [|exists false; split; [done|]; split; [discriminate|tauto]].
  destruct R as [Ra Rp]. replace (has ob LLEF) with (zlen w <=? 13 * ord) by (unfold ob; by destruct (_ <=? _)). destruct Rp as [(H1 & H2 & ->)|(H1 & ->)].
  - rewrite (proj2 (Z.eqb_neq _ _) H2). cbn [negb]. rewrite andb_true_r. destruct (Z.leb_spec (zlen w) (13 * ord)) as [Hle|Hgt].
    + rewrite rd_in by lia. rewrite bind_Ok. replace (13 * ord) with (zlen w) by lia. eexists. split; [reflexivity|]. rewrite Z.eqb_eq. replace (13 * ord) with (zlen w) in Ra by lia. tauto.
    + exists true. split; [done|]. split; [|done]. intros _. split; [done|]. intros E'. lia.
  - change (0 =? 0) with true. cbn [negb]. rewrite andb_false_r. exists true. split; [done|]. split; [|done]. intros _. split; [done|]. intros E'. lia.
Qed.

(** All entries of the set match exactly when the names are equal up to case. *)
Lemma agree_all : (forall ord, 1 <= ord <= n_entries w -> agree (13 * (ord - 1)) (13 * ord) /\ (13 * ord = zlen w -> get lfn2 (zlen w) = 0)) <->
  length w2 = length w /\ forall i, 0 <= i < zlen w -> upper (get w i) = upper (get w2 i).
Proof.
  pose proof (nm_len _ _ Hn) as Hlen. pose proof (nm_len _ _ Hn2) as Hlen2. split.
  - intros Hall. assert (forall i, 0 <= i < zlen w -> upper (name_unit w i) = upper (get lfn2 i)) as Hin.
    { intros i Hi. destruct (Hall (i / 13 + 1)) as [Hag _]; [unfold n_entries; dlia|]. apply Hag; [dlia|lia]. }
    assert (get lfn2 (zlen w) = 0) as Hend.
    { destruct (Hall (n_entries w)) as [Hag Hz]; [unfold n_entries; dlia|]. destruct (decide (13 * n_entries w = zlen w)) as [E|N]; [by apply Hz|].
      specialize (Hag (zlen w) ltac:(unfold n_entries in *; dlia) ltac:(lia)). rewrite unit_end, upper_0 in Hag by done.
      destruct (decide (zlen w <= zlen w2)) as [Hle|Hgt].
      - rewrite (nm_at _ _ Hn2) in Hag |- * by lia. pose proof (unit_bound w2 lfn2 (zlen w) Hn2 ltac:(lia)) as Hb. destruct (decide (name_unit w2 (zlen w) = 0)) as [|Hne]; [done|].
        exfalso. apply (upper_nonzero (name_unit w2 (zlen w))); lia.
      - exfalso. pose proof (Hin (zlen w2) ltac:(lia)) as Hc. rewrite (nm_at _ _ Hn2), (unit_end w2), upper_0 in Hc by lia. destruct (unit_in w lfn (zlen w2) Hn) as [Hu _]; [lia|]. apply (upper_nonzero (name_unit w (zlen w2))); lia. }
    assert (zlen w2 = zlen w) as El.
    { destruct (Z.lt_trichotomy (zlen w2) (zlen w)) as [Hlt|[E|Hgt]]; [|done|].
      - exfalso. pose proof (Hin (zlen w2) ltac:(lia)) as Hc. rewrite (nm_at _ _ Hn2), (unit_end w2), upper_0 in Hc by lia. destruct (unit_in w lfn (zlen w2) Hn) as [Hu _]; [lia|]. apply (upper_nonzero (name_unit w (zlen w2))); lia.
      - exfalso. rewrite (nm_at _ _ Hn2) in Hend by lia. destruct (unit_in w2 lfn2 (zlen w) Hn2) as [Hu _]; lia. }
    split; [lia|]. intros i Hi. destruct (unit_in w lfn i Hn Hi) as [_ <-]. rewrite Hin by done. rewrite (nm_at _ _ Hn2) by lia. destruct (unit_in w2 lfn2 i Hn2) as [_ ->]; [lia|done].
  - intros [El Hin] ord Ho. assert (zlen w2 = zlen w) as El' by lia. split.
    + intros i Hi Hl. rewrite (nm_at _ _ Hn2) by lia. destruct (decide (i = zlen w)) as [->|Hne]; [by rewrite !unit_end by lia|].
      destruct (unit_in w lfn i Hn) as [_ ->]; [lia|]. destruct (unit_in w2 lfn2 i Hn2) as [_ ->]; [lia|]. apply Hin. lia.
    + intros _. rewrite (nm_at _ _ Hn2) by lia. by apply unit_end.
Qed.

End Match.

(** ** Entry sets *)

(** The entries [n] down to 1 of a name, as [dir_register] stores them, each
    shown with the sector it is stored in. *)
Fixpoint write_set (n : nat) (lfn : list Z) (sum dir : Z) (b : list Z) : res (list (list Z)) :=
  match n with
  | O => Ok []
  | S n' => e ← put_lfn lfn dir (Z.of_nat n) sum b; r ← write_set n' lfn sum dir b; Ok (e :: r)
  end.

(** Picking all of them, as [dir_read] does. *)
Fixpoint read_set (dir : Z) (es : list (list Z)) (buf : list Z) : res (bool * list Z) :=
  match es with
  | [] => Ok (true, buf)
  | e :: es => x ← pick_lfn buf e dir; if x.1 : bool then read_set dir es x.2 else Ok (false, x.2)
  end.

(** Comparing all of them, as [dir_find] does. *)
Fixpoint match_set (dir : Z) (lfn : list Z) (es : list (list Z)) : res bool :=
  match es with
  | [] => Ok true
  | e :: es => r ← cmp_lfn lfn e dir; if r : bool then match_set dir lfn es else Ok false
  end.

(** [es] are the entries [n] down to 1. *)
Fixpoint entry_set (w : list Z) (sum dir : Z) (n : nat) (es : list (list Z)) : Prop :=
  match n, es with
  | O, [] => True
  | S n', e :: es => entry_for w (Z.of_nat n) sum e dir /\ entry_set w sum dir n' es
  | _, _ => False
  end.

Lemma write_set_ok w lfn sum dir b n : named w lfn -> sector_data b -> 0 <= dir <= 480 -> is_byte sum -> Z.of_nat n <= n_entries w ->
  exists es, write_set n lfn sum dir b = Ok es /\ entry_set w sum dir n es.
Proof.
  intros Hn Hb Hd Hs. induction n as [|n IH]; intros Hle; cbn [write_set entry_set]; [by exists []|].
  destruct (put_lfn_ok w lfn dir (Z.of_nat (S n)) sum b Hn Hb Hd) as (e & E & He & _); [lia|done|]. rewrite E, bind_Ok.
  destruct IH as (es & E' & Hes); [lia|]. rewrite E', bind_Ok. exists (e :: es). split; [done|]. by split.
Qed.

Lemma read_set_ok w lfn sum dir n : forall es buf, named w lfn -> Z.of_nat n <= n_entries w -> entry_set w sum dir n es -> length buf = 256%nat ->
  exists buf', read_set dir es buf = Ok (true, buf') /\ length buf' = 256%nat /\
    forall i, 0 <= i -> get buf' i = if (i <=? zlen w) && ((i <? 13 * Z.of_nat n) || ((0 <? Z.of_nat n) && (zlen w <=? 13 * Z.of_nat n))) then name_unit w i else get buf i.
Proof.
  induction n as [|n IH]; intros [|e es] buf Hn Hle Hes Lf; cbn [entry_set read_set] in *; try done.
  - exists buf. split; [done|]. split; [done|]. intros i Hi. cbn [Z.of_nat]. change (0 <? 0) with false. cbn [andb]. rewrite orb_false_r, (proj2 (Z.ltb_ge _ _)), andb_false_r by lia. done.
  - destruct Hes as [He Hes]. destruct (pick_lfn_ok w lfn (Z.of_nat (S n)) sum e dir buf Hn) as (b1 & E1 & L1 & G1); [lia|done|done|]. rewrite E1, bind_Ok. cbn [fst snd].
    destruct (IH es b1 Hn ltac:(lia) Hes L1) as (b2 & E2 & L2 & G2). exists b2. split; [exact E2|]. split; [done|]. intros i Hi. rewrite G2, G1 by done.
    replace (13 * (Z.of_nat (S n) - 1)) with (13 * Z.of_nat n) by lia. rewrite (proj2 (Z.ltb_lt 0 (Z.of_nat (S n)))) by lia. cbn [andb].
    destruct (ord_range w (Z.of_nat (S n)) (nm_len _ _ Hn)) as [_ Hlt]; [lia|]. rewrite (proj2 (Z.leb_gt (zlen w) (13 * Z.of_nat n))) by lia. rewrite andb_false_r, orb_false_r.
    destruct (Z.leb_spec i (zlen w)), (Z.ltb_spec i (13 * Z.of_nat n)), (Z.leb_spec (13 * Z.of_nat n) i), (Z.ltb_spec i (13 * Z.of_nat (S n))), (Z.leb_spec (zlen w) (13 * Z.of_nat (S n))); cbn [andb orb]; try done; lia.
Qed.

Lemma match_set_ok w lfn w2 lfn2 sum dir n : named w lfn -> named w2 lfn2 ->
  forall es, Z.of_nat n <= n_entries w -> entry_set w sum dir n es ->
  exists r, match_set dir lfn2 es = Ok r /\
    (r = true <-> forall ord, 1 <= ord <= Z.of_nat n -> agree w lfn2 (13 * (ord - 1)) (13 * ord) /\ (13 * ord = zlen w -> get lfn2 (zlen w) = 0)).
Proof.
  intros Hn Hn2. induction n as [|n IH]; intros [|e es] Hle Hes; cbn [entry_set match_set] in *; try done.
  - exists true. split; [done|]. split; [|done]. intros _ ord Ho. lia.
  - destruct Hes as [He Hes]. destruct (cmp_lfn_ok w lfn w2 lfn2 Hn Hn2 (Z.of_nat (S n)) sum e dir) as (r & E & R); [lia|done|]. rewrite E, bind_Ok.
    destruct r.
    + destruct (IH es ltac:(lia) Hes) as (r & E' & R'). exists r. split; [done|]. rewrite R'. split; intros Hall ord Ho; [|apply Hall; lia].
      destruct (decide (ord = Z.of_nat (S n))) as [->|Hne]; [by apply R|apply Hall; lia].
    + exists false. split; [done|]. split; [discriminate|]. intros Hall. apply R, Hall. lia.
Qed.

(** ** Property *)

(** Long names. The entries of a name of 1 to 255 characters, written one
    by one from the last to the first, give the name back when they are picked
    in that order, whatever the buffer held before; and comparing them with a
    name that is looked for succeeds exactly when the two names have the same
    length and equal characters after up-case conversion. *)
Theorem long_name_exact (w lfn w2 lfn2 buf b : list Z) (sum dir : Z) :
  named w lfn -> named w2 lfn2 ->
  sector_data b -> 0 <= dir <= 480 -> is_byte sum -> length buf = 256%nat -> Forall (fun c => 0 <= c < 65536) buf ->
  exists es buf' r, write_set (Z.to_nat (n_entries w)) lfn sum dir b = Ok es /\ entry_set w sum dir (Z.to_nat (n_entries w)) es /\
    read_set dir es buf = Ok (true, buf') /\ named w buf' /\
    match_set dir lfn2 es = Ok r /\ (r = true <-> length w2 = length w /\ forall i, 0 <= i < zlen w -> upper (get w i) = upper (get w2 i)).
Proof.
  intros Hn Hn2 Hb Hd Hs Lb Ub. pose proof (nm_len _ _ Hn) as Hlen. assert (0 < n_entries w) as Hpos by (unfold n_entries; dlia).
  destruct (write_set_ok w lfn sum dir b (Z.to_nat (n_entries w)) Hn Hb Hd Hs) as (es & E & He); [lia|].
  destruct (read_set_ok w lfn sum dir (Z.to_nat (n_entries w)) es buf Hn) as (b2 & E2 & L2 & G2); [lia|done|done|].
  destruct (match_set_ok w lfn w2 lfn2 sum dir (Z.to_nat (n_entries w)) Hn Hn2 es) as (r & E3 & R3); [lia|done|].
  exists es, b2, r. split; [done|]. split; [done|]. split; [done|]. split; [|split; [done|]].
  - split; [apply Hn|apply Hn|done|apply (units_by_get b2 buf w lfn); [congruence|done|done|done|]; intros i Hi; rewrite G2 by lia; match goal with |- context [if ?b then _ else _] => destruct b end; [by left|by right]|]. intros i Hi. rewrite G2 by lia. rewrite Z2Nat.id by lia. rewrite (proj2 (Z.leb_le i _)), (proj2 (Z.ltb_lt 0 _)) by lia.
    rewrite (proj2 (Z.leb_le (zlen w) _)) by (unfold n_entries; dlia). cbn [andb]. by rewrite orb_true_r.
  - rewrite R3. rewrite Z2Nat.id by lia. by apply (agree_all w lfn w2 lfn2 Hn Hn2).
Qed.

(** *** Concrete run: a name of 14 characters needs two entries. *)

Definition demo_name (c : Z) : list Z := [c; 111; 110; 103; 32; 110; 97; 109; 101; 46; 116; 101; 120; 116].
Definition name_buf (w : list Z) : list Z := w ++ replicate (256 - length w) 0.

Lemma demo_named c : 0 < c < 65535 -> named (demo_name c) (name_buf (demo_name c)).
Proof.
  intros Hc. split; [repeat constructor; lia|cbn; lia|reflexivity|apply Forall_app; split; [repeat constructor; lia|apply Forall_replicate; lia]|]. intros i Hi. change (zlen (demo_name c)) with 14 in Hi. unfold name_unit. change (zlen (demo_name c)) with 14.
  destruct (Z.ltb_spec i 14).
  - unfold name_buf. by rewrite get_app_l by (change (zlen (demo_name c)) with 14; lia).
  - replace i with 14 by lia. reflexivity.
Qed.

Lemma long_name_exact_witness :
  exists es buf', write_set 2 (name_buf (demo_name 108)) 17 0 (replicate 512 0) = Ok es /\ read_set 0 es (replicate 256 7) = Ok (true, buf') /\
    take 15 buf' = demo_name 108 ++ [0] /\ match_set 0 (name_buf (demo_name 76)) es = Ok true.
Proof.
  destruct (long_name_exact (demo_name 108) (name_buf (demo_name 108)) (demo_name 76) (name_buf (demo_name 76)) (replicate 256 7) (replicate 512 0) 17 0)
    as (es & buf' & r & E & _ & E2 & N & E3 & R).
  - apply demo_named. lia.
  - apply demo_named. lia.
  - exact zero_sector.
  - lia.
  - unfold is_byte. lia.
  - reflexivity.
  - apply Forall_replicate. lia.
  - exists es, buf'. split; [exact E|]. split; [exact E2|]. split.
    + apply get_eq_ext; [rewrite length_take, (nm_size _ _ N); reflexivity|]. intros i Hi. rewrite length_take, (nm_size _ _ N) in Hi. change (Z.of_nat (15 `min` 256)) with 15 in Hi.
      rewrite get_take by lia. rewrite (nm_at _ _ N) by (change (zlen (demo_name 108)) with 14; lia). unfold name_unit. change (zlen (demo_name 108)) with 14. destruct (Z.ltb_spec i 14).
      * by rewrite get_app_l by (change (zlen (demo_name 108)) with 14; lia).
      * replace i with 14 by lia. reflexivity.
    + rewrite E3. f_equal. apply R. split; [reflexivity|]. intros i Hi. change (zlen (demo_name 108)) with 14 in Hi. assert (forallb (fun i => upper (get (demo_name 108) i) =? upper (get (demo_name 76) i)) (seqZ 0 14) = true) as F by (vm_compute; reflexivity).
      rewrite forallb_forall in F. apply Z.eqb_eq, F, list_elem_of_In, elem_of_seqZ. lia.
Defined.
