(* ===== verification/FatDir.v ===== *)
(** * FatDir: directories (ff.c)

    A directory is a table of 32-byte entries: the fixed root directory of a
    FAT12 or FAT16 volume, or the clusters of a chain. The directory object
    holds a position in the table; the entry it points to is read and changed
    in the disk window, so its pointer is an offset in the window. *)

From Stdlib Require Import ZArith Lia Bool.
From stdpp Require Import base list list_numbers.
From S2P Require Import Prelude CLib Hw FatUni Fat FatChain FatFile FatLfn.
From stdpp Require Import options.

Definition AM_VOL : Z := 8.
Definition AM_DIR : Z := 16.
Definition AM_MASK : Z := 63.
Definition NSFLAG : Z := 11.
Definition NS_LOSS : Z := 1.
Definition NS_LFN : Z := 2.
Definition NS_LAST : Z := 4.
Definition NS_BODY : Z := 8.
Definition NS_EXT : Z := 16.
Definition NS_DOT : Z := 32.
Definition NS_NOLFN : Z := 64.
Definition NS_NONAME : Z := 128.
Definition DIR_Name : Z := 0.
Definition DIR_NTres : Z := 12.
Definition SZDIRE : Z := 32.
Definition DDEM : Z := 0xE5.
Definition MAX_DIR : Z := 0x200000.

(** No block of entries: [blk_ofs] of an object without a long name. *)
Definition NO_BLOCK : Z := 0xFFFFFFFF.

(** ** The directory object *)

Record DIR := mk_DIR { d_obj : FFOBJID; dptr : Z; d_clust : Z; d_sect : Z; d_dir : Z; d_fn : list Z; blk_ofs : Z }.

Definition d_attr (a : Z) (d : DIR) : DIR :=
  let o := d_obj d in mk_DIR (mk_obj (o_fs o) (o_id o) a (o_stat o) (sclust o) (objsize o)) (dptr d) (d_clust d) (d_sect d) (d_dir d) (d_fn d) (blk_ofs d).
Definition d_ptr (x : Z) (d : DIR) : DIR := mk_DIR (d_obj d) x (d_clust d) (d_sect d) (d_dir d) (d_fn d) (blk_ofs d).
Definition d_cl (x : Z) (d : DIR) : DIR := mk_DIR (d_obj d) (dptr d) x (d_sect d) (d_dir d) (d_fn d) (blk_ofs d).
Definition d_sec (x : Z) (d : DIR) : DIR := mk_DIR (d_obj d) (dptr d) (d_clust d) x (d_dir d) (d_fn d) (blk_ofs d).
Definition d_at (x : Z) (d : DIR) : DIR := mk_DIR (d_obj d) (dptr d) (d_clust d) (d_sect d) x (d_fn d) (blk_ofs d).
Definition d_name (x : list Z) (d : DIR) : DIR := mk_DIR (d_obj d) (dptr d) (d_clust d) (d_sect d) (d_dir d) x (blk_ofs d).
Definition d_blk (x : Z) (d : DIR) : DIR := mk_DIR (d_obj d) (dptr d) (d_clust d) (d_sect d) (d_dir d) (d_fn d) x.

(** The object with its volume and the working buffer of long names. *)
Record work_dir (D : Type) := mk_work { wd_vol : vol D; wd_dp : DIR; wd_lfn : list Z }.
Arguments mk_work {D} _ _ _.
Arguments wd_vol {D} _.
Arguments wd_dp {D} _.
Arguments wd_lfn {D} _.

(** What an entry is to a search: the end of the table, the object, or an
    entry to pass, with the attribute it has and the state of the long-name
    sequence after it. *)
Inductive seen := AtEnd | Hit (attr blk : Z) | Pass (attr ord sum blk : Z).

(** ** Looking at an entry *)

(** The start of a long-name sequence at offset [dptr]: number, order,
    checksum and block after the entry with first byte [c] is taken. *)
Definition lfn_start (c chk dptr ord sum blk : Z) : Z * Z * Z * Z :=
  if has c LLEF then (Z.land c 191, Z.land c 191, chk, dptr) else (c, ord, sum, blk).

(** An entry against the name that is looked for, in [dir_find]. *)
Definition find_look (fn lfn b : list Z) (dir dptr ord sum blk : Z) : res seen :=
  c ← rd b (dir + DIR_Name);
  if c =? 0 then Ok AtEnd
  else
    a ← rd b (dir + DIR_Attr);
    let a := Z.land a AM_MASK in
    if (c =? DDEM) || (has a AM_VOL && negb (a =? AM_LFN)) then Ok (Pass a 255 sum NO_BLOCK)
    else if a =? AM_LFN then
      fl ← rd fn NSFLAG;
      if has fl NS_NOLFN then Ok (Pass a ord sum blk)
      else
        chk ← rd b (dir + LDIR_Chksum);
        let '(c, ord, sum, blk) := lfn_start c chk dptr ord sum blk in
        m ← (if (c =? ord) && (sum =? chk) then cmp_lfn lfn b dir else Ok false);
        Ok (Pass a (if m : bool then u8 (ord - 1) else 255) sum blk)
    else
      lm ← (if ord =? 0 then s ← sum_sfn b dir; Ok (sum =? s) else Ok false);
      if lm : bool then Ok (Hit a blk)
      else
        fl ← rd fn NSFLAG;
        sm ← (if has fl NS_LOSS then Ok false else r ← memcmp (drop (Z.to_nat dir) b) fn 11; Ok (r =? 0));
        if sm : bool then Ok (Hit a blk) else Ok (Pass a 255 sum NO_BLOCK).

(** An entry in [dir_read]; [vol] asks for the volume label. The buffer of
    long names collects the name. *)
Definition read_look (vol : bool) (lfn b : list Z) (dir dptr ord sum blk : Z) : res (seen * list Z) :=
  c ← rd b (dir + DIR_Name);
  if c =? 0 then Ok (AtEnd, lfn)
  else
    a ← rd b (dir + DIR_Attr);
    let a := Z.land a AM_MASK in
    if (c =? DDEM) || (c =? 46) || negb (eqb (Z.land a 223 =? AM_VOL) vol) then Ok (Pass a 255 sum blk, lfn)
    else if a =? AM_LFN then
      chk ← rd b (dir + LDIR_Chksum);
      let '(c, ord, sum, blk) := lfn_start c chk dptr ord sum blk in
      m ← (if (c =? ord) && (sum =? chk) then pick_lfn lfn b dir else Ok (false, lfn));
      Ok (Pass a (if m.1 : bool then u8 (ord - 1) else 255) sum blk, m.2)
    else
      valid ← (if ord =? 0 then s ← sum_sfn b dir; Ok (sum =? s) else Ok false);
      Ok (Hit a (if valid : bool then blk else NO_BLOCK), lfn).

(** [for (len = 0; lfnbuf[len]; len++)] *)
Fixpoint lfn_len (lfn : list Z) : res Z :=
  match lfn with
  | [] => Fault
  | c :: lfn => if c =? 0 then Ok 0 else n ← lfn_len lfn; Ok (n + 1)
  end.

(** The short entry: 32 zeros, then the name and its status bits. *)
Definition put_sfn (fn : list Z) (dir : Z) (b : list Z) : res (list Z) :=
  b ← store b dir (replicate 32 0);
  nm ← fetch fn 0 11;
  b ← store b (dir + DIR_Name) nm;
  fl ← rd fn NSFLAG;
  wr b (dir + DIR_NTres) (Z.land fl (NS_BODY + NS_EXT)).

Section Dir.
Context {D : Type} `{BlockDev D}.
Abbreviation VM := (M (vol D)).
Abbreviation DM := (M (work_dir D)).

Definition dvol {A} (m : VM A) : DM A := fun x =>
  match m (wd_vol x) with
  | Ok (a, v) => Ok (a, mk_work v (wd_dp x) (wd_lfn x))
  | Fault => Fault | Spin => Spin | NoFuel => NoFuel
  end.
Definition dp : DM DIR := gets wd_dp.
Definition set_dp (k : DIR -> DIR) : DM unit := modify (fun x => mk_work (wd_vol x) (k (wd_dp x)) (wd_lfn x)).
Definition lfnbuf : DM (list Z) := gets wd_lfn.
Definition set_lfn (l : list Z) : DM unit := modify (fun x => mk_work (wd_vol x) (wd_dp x) l).

(** ** Positions in the table *)

(** The sectors of a cluster written one by one; how many were. *)
Fixpoint clear_loop (k : nat) (sect n : Z) : VM Z :=
  match k with
  | O => mret n
  | S k =>
      w ← wnd;
      r ← drive (bd_write (win w) (u32 (sect + n)) 1);
      if res_ok r then clear_loop k sect (n + 1) else mret n
  end.

Definition dir_clear (clst : Z) : VM FRESULT :=
  r ← sync_window;
  if fr_ok r then
    g ← geo; w ← wnd;
    let sect := clst2sect g clst in
    _ ← set_wnd (mk_window (wflag w) sect (replicate 512 0));
    n ← clear_loop (Z.to_nat (csize g)) sect 0;
    mret (if n =? csize g then FR_OK else FR_DISK_ERR)
  else mret FR_DISK_ERR.

(** Following the chain to the cluster of an offset. *)
Fixpoint sdi_loop (fuel : nat) (csz ofs clst : Z) : VM sought :=
  match fuel with
  | O => lift NoFuel
  | S fuel =>
      if csz <=? ofs then
        g ← geo;
        clst ← get_fat clst;
        if clst =? DISK_ERROR then mret (Failed FR_DISK_ERR)
        else if (clst <? 2) || (n_fatent g <=? clst) then mret (Failed FR_INT_ERR)
        else sdi_loop fuel csz (ofs - csz) clst
      else mret (At clst ofs)
  end.

Definition dir_sdi (ofs : Z) : DM FRESULT :=
  if (MAX_DIR <=? ofs) || negb (ofs mod SZDIRE =? 0) then mret FR_INT_ERR
  else
    _ ← set_dp (d_ptr ofs);
    d ← dp; g ← dvol geo;
    let clst := sclust (d_obj d) in
    let clst := if (clst =? 0) && (FS_FAT32 <=? fs_type g) then dirbase g else clst in
    x ← (if clst =? 0 then
           if n_rootdir g <=? ofs / SZDIRE then mret (Failed FR_INT_ERR)
           else _ ← set_dp (d_sec (dirbase g)); mret (At 0 ofs)
         else
           let csz := u32 (csize g * SS) in
           x ← dvol (sdi_loop (S (Z.to_nat (ofs / csz))) csz ofs clst);
           match x with
           | Failed r => mret (Failed r)
           | At clst ofs => _ ← set_dp (d_sec (clst2sect g clst)); mret (At clst ofs)
           end);
    match x with
    | Failed r => mret r
    | At clst ofs =>
        _ ← set_dp (d_cl clst);
        d ← dp;
        if d_sect d =? 0 then mret FR_INT_ERR
        else
          _ ← set_dp (fun d => d_at (ofs mod SS) (d_sec (u32 (d_sect d + ofs / SS)) d));
          mret FR_OK
    end.

Section Moving.
(** The fuel of a search for a free cluster. *)
Context (cfuel : nat).

(** The next cluster of the table, which is stretched when [stretch] is set. *)
Definition next_cluster (stretch : bool) : DM FRESULT :=
  d ← dp; g ← dvol geo;
  clst ← dvol (get_fat (d_clust d));
  if clst <=? 1 then mret FR_INT_ERR
  else if clst =? DISK_ERROR then mret FR_DISK_ERR
  else
    x ← (if n_fatent g <=? clst then
           if negb stretch then _ ← set_dp (d_sec 0); mret (Failed FR_NO_FILE)
           else
             clst ← dvol (create_chain cfuel (d_clust d));
             if clst =? 0 then mret (Failed FR_DENIED)
             else if clst =? 1 then mret (Failed FR_INT_ERR)
             else if clst =? DISK_ERROR then mret (Failed FR_DISK_ERR)
             else
               r ← dvol (dir_clear clst);
               mret (if fr_ok r then At clst 0 else Failed FR_DISK_ERR)
         else mret (At clst 0));
    match x with
    | Failed r => mret r
    | At clst _ => _ ← set_dp (fun d => d_sec (clst2sect g clst) (d_cl clst d)); mret FR_OK
    end.

Definition dir_next (stretch : bool) : DM FRESULT :=
  d ← dp; g ← dvol geo;
  let ofs := u32 (dptr d + SZDIRE) in
  _ ← when (MAX_DIR <=? ofs) (set_dp (d_sec 0));
  d ← dp;
  if d_sect d =? 0 then mret FR_NO_FILE
  else
    r ← (if ofs mod SS =? 0 then
           _ ← set_dp (fun d => d_sec (u32 (d_sect d + 1)) d);
           if d_clust d =? 0 then
             if n_rootdir g <=? ofs / SZDIRE then _ ← set_dp (d_sec 0); mret FR_NO_FILE else mret FR_OK
           else if Z.land (ofs / SS) (csize g - 1) =? 0 then next_cluster stretch
           else mret FR_OK
         else mret FR_OK);
    if fr_ok r then _ ← set_dp (fun d => d_at (ofs mod SS) (d_ptr ofs d)); mret FR_OK
    else mret r.

(** ** Finding a block of free entries *)

Fixpoint alloc_loop (fuel : nat) (n_ent n : Z) : DM FRESULT :=
  match fuel with
  | O => lift NoFuel
  | S fuel =>
      d ← dp;
      r ← dvol (move_window (d_sect d));
      if fr_ok r then
        w ← dvol wnd;
        c ← lift (rd (win w) (d_dir d + DIR_Name));
        let free := (c =? DDEM) || (c =? 0) in
        let n := if free then u32 (n + 1) else 0 in
        if free && (n =? n_ent) then mret FR_OK
        else r ← dir_next true; if fr_ok r then alloc_loop fuel n_ent n else mret r
      else mret r
  end.

(** [dfuel] bounds the entries visited. *)
Definition dir_alloc (dfuel : nat) (n_ent : Z) : DM FRESULT :=
  r ← dir_sdi 0;
  r ← (if fr_ok r then alloc_loop dfuel n_ent 0 else mret r);
  mret (if bool_decide (r = FR_NO_FILE) then FR_DENIED else r).

(** ** Reading and searching *)

Fixpoint read_dir_loop (fuel : nat) (vol : bool) (ord sum : Z) : DM FRESULT :=
  match fuel with
  | O => lift NoFuel
  | S fuel =>
      d ← dp;
      r ← dvol (move_window (d_sect d));
      if fr_ok r then
        w ← dvol wnd; lfn ← lfnbuf;
        x ← lift (read_look vol lfn (win w) (d_dir d) (dptr d) ord sum (blk_ofs d));
        _ ← set_lfn x.2;
        match x.1 with
        | AtEnd => mret FR_NO_FILE
        | Hit a blk => _ ← set_dp (fun d => d_blk blk (d_attr a d)); mret FR_OK
        | Pass a ord sum blk =>
            _ ← set_dp (fun d => d_blk blk (d_attr a d));
            r ← dir_next false;
            if fr_ok r then
              d ← dp;
              if d_sect d =? 0 then mret FR_OK else read_dir_loop fuel vol ord sum
            else mret r
        end
      else mret r
  end.

Definition dir_read (dfuel : nat) (vol : bool) : DM FRESULT :=
  d ← dp;
  r ← (if d_sect d =? 0 then mret FR_NO_FILE else read_dir_loop dfuel vol 255 255);
  _ ← when (negb (fr_ok r)) (set_dp (d_sec 0));
  mret r.

Fixpoint find_loop (fuel : nat) (ord sum : Z) : DM FRESULT :=
  match fuel with
  | O => lift NoFuel
  | S fuel =>
      d ← dp;
      r ← dvol (move_window (d_sect d));
      if fr_ok r then
        w ← dvol wnd; lfn ← lfnbuf;
        x ← lift (find_look (d_fn d) lfn (win w) (d_dir d) (dptr d) ord sum (blk_ofs d));
        match x with
        | AtEnd => mret FR_NO_FILE
        | Hit a blk => _ ← set_dp (fun d => d_blk blk (d_attr a d)); mret FR_OK
        | Pass a ord sum blk =>
            _ ← set_dp (fun d => d_blk blk (d_attr a d));
            r ← dir_next false;
            if fr_ok r then find_loop fuel ord sum else mret r
        end
      else mret r
  end.

Definition dir_find (dfuel : nat) : DM FRESULT :=
  r ← dir_sdi 0;
  if fr_ok r then _ ← set_dp (d_blk NO_BLOCK); find_loop dfuel 255 255
  else mret r.

(** ** Registering *)

(** A numbered name that is not in use: [None] when there is none, else the
    result of the search that stopped the loop. *)
Fixpoint number_loop (dfuel k : nat) (n : Z) (sn : list Z) : DM (option FRESULT) :=
  match k with
  | O => mret None
  | S k =>
      d ← dp; lfn ← lfnbuf;
      fn ← lift (gen_numname (d_fn d) sn lfn n);
      _ ← set_dp (d_name fn);
      r ← dir_find dfuel;
      if fr_ok r then number_loop dfuel k (n + 1) sn else mret (Some r)
  end.

(** The long-name entries [n_ent] down to 1, from the current position on. *)
Fixpoint lfn_loop (n_ent : nat) (sum : Z) : DM FRESULT :=
  match n_ent with
  | O => mret FR_OK
  | S k =>
      d ← dp; lfn ← lfnbuf;
      r ← dvol (move_window (d_sect d));
      if fr_ok r then
        _ ← dvol (win_put (put_lfn lfn (d_dir d) (u8 (Z.of_nat n_ent)) sum));
        r ← dir_next false;
        if fr_ok r then (match k with O => mret FR_OK | S _ => lfn_loop k sum end) else mret r
      else mret r
  end.

(** The entries of the name [fn] in a block of free entries. *)
Definition put_object (dfuel : nat) (len : Z) (sn : list Z) : DM FRESULT :=
  fl ← lift (rd sn NSFLAG);
  let n_ent := if has fl NS_LFN then u32 (len + 12) / 13 + 1 else 1 in
  r ← dir_alloc dfuel n_ent;
  r ← (if fr_ok r && negb (n_ent - 1 =? 0) then
         d ← dp;
         r ← dir_sdi (u32 (dptr d - u32 ((n_ent - 1) * SZDIRE)));
         if fr_ok r then
           d ← dp;
           sum ← lift (sum_sfn (d_fn d) 0);
           lfn_loop (Z.to_nat (n_ent - 1)) sum
         else mret r
       else mret r);
  if fr_ok r then
    d ← dp;
    r ← dvol (move_window (d_sect d));
    _ ← when (fr_ok r) (dvol (win_put (put_sfn (d_fn d) (d_dir d))));
    mret r
  else mret r.

Definition dir_register (dfuel : nat) : DM FRESULT :=
  d ← dp;
  fl ← lift (rd (d_fn d) NSFLAG);
  if has fl (NS_DOT + NS_NONAME) then mret FR_INVALID_NAME
  else
    lfn ← lfnbuf;
    len ← lift (lfn_len lfn);
    let sn := d_fn d in
    if has fl NS_LOSS then
      fn ← lift (wr (d_fn d) NSFLAG NS_NOLFN);
      _ ← set_dp (d_name fn);
      x ← number_loop dfuel 99 1 sn;
      match x with
      | None => mret FR_DENIED
      | Some FR_NO_FILE =>
          d ← dp;
          fn ← lift (wr (d_fn d) NSFLAG fl);
          _ ← set_dp (d_name fn);
          put_object dfuel len sn
      | Some r => mret r
      end
    else put_object dfuel len sn.

(** ** Removing *)

Fixpoint remove_entries (fuel : nat) (last : Z) : DM FRESULT :=
  match fuel with
  | O => lift NoFuel
  | S fuel =>
      d ← dp;
      r ← dvol (move_window (d_sect d));
      if fr_ok r then
        _ ← dvol (win_put (fun b => wr b (d_dir d + DIR_Name) DDEM));
        if last <=? dptr d then mret FR_OK
        else r ← dir_next false; if fr_ok r then remove_entries fuel last else mret r
      else mret r
  end.

Definition dir_remove (dfuel : nat) : DM FRESULT :=
  d ← dp;
  let last := dptr d in
  r ← (if blk_ofs d =? NO_BLOCK then mret FR_OK else dir_sdi (blk_ofs d));
  if fr_ok r then
    r ← remove_entries dfuel last;
    mret (if bool_decide (r = FR_NO_FILE) then FR_INT_ERR else r)
  else mret r.

End Moving.
End Dir.
