(* ===== verification/FatTable.v ===== *)
(** * FatTable: the table of a directory as a list of entries

    What [dir_sdi] and [dir_next] reach through the window and the cluster
    chain is a numbered sequence of 32-byte entries, the slots of the
    directory. *)

From Stdlib Require Import ZArith Lia Bool.
From stdpp Require Import base list list_numbers.
From S2P Require Import Prelude Hw Fat FatChain FatFile FatRead FatSync FatLfn FatDir.
From stdpp Require Import options.

(** The fixed root directory, or a chain of clusters. *)
Inductive dtable := Static | Clusters (l : list Z).

#[global] Instance dtable_eq_dec : EqDecision dtable.
Proof. solve_decision. Defined.

Section Layout.
Context (g : geometry).

Definition dsects (t : dtable) : Z := match t with Static => n_rootdir g / 16 | Clusters l => nsec g l end.
Definition dsect (t : dtable) (j : Z) : Z := match t with Static => dirbase g + j | Clusters l => fsect g l j end.
Definition nslots (t : dtable) : Z := Z.min 65536 (16 * dsects t).

(** The fixed root directory lies between the tables and the data. *)
Record root_ok : Prop := {
  ro_ents : 0 < n_rootdir g < 65536 /\ n_rootdir g mod 16 = 0;
  ro_base : fatbase g + fsize g * n_fats g <= dirbase g;
  ro_end : dirbase g + n_rootdir g / 16 <= database g
}.

(** The first cluster of a directory that starts at [sc]; 0 is the root. *)
Definition head_of (sc : Z) : Z := if (sc =? 0) && (FS_FAT32 <=? fs_type g) then dirbase g else sc.

(** The directory object points to slot [i]. *)
Record at_slot (t : dtable) (d : DIR) (i : Z) : Prop := {
  as_in : 0 <= i < nslots t;
  as_ptr : dptr d = 32 * i;
  as_sect : d_sect d = dsect t (i / 16);
  as_dir : d_dir d = 32 * (i mod 16);
  as_clust : d_clust d = match t with Static => 0 | Clusters l => get l (i / 16 / csize g) end
}.

End Layout.

(** Everything of the object but its position. *)
Definition same_dp (d d' : DIR) : Prop := d_obj d' = d_obj d /\ d_fn d' = d_fn d /\ blk_ofs d' = blk_ofs d.

Lemma same_dp_trans d1 d2 d3 : same_dp d1 d2 -> same_dp d2 d3 -> same_dp d1 d3.
Proof. intros (? & ? & ?) (? & ? & ?). repeat split; congruence. Qed.

Section Walk.
Context {D : Type} `{BlockLaws D}.
#[local] Set Default Proof Using "Type*".

Abbreviation v_geo v := (fs_geo (v_fs v)).
Abbreviation v_al v := (fs_alloc (v_fs v)).
Abbreviation nent v := (n_fatent (v_geo v)).
Abbreviation x_geo x := (v_geo (wd_vol x)).

Definition table_at (v : vol D) (sc : Z) (t : dtable) : Prop :=
  match t with
  | Static => sc = 0 /\ fs_type (v_geo v) <> FS_FAT32 /\ root_ok (v_geo v)
  | Clusters l => l <> [] /\ links (nent v) (entry v) (head_of (v_geo v) sc) l
  end.

(** Entry [i] of the table. *)
Definition slot (v : vol D) (t : dtable) (i : Z) : list Z :=
  take 32 (drop (Z.to_nat (32 * (i mod 16))) (vsec v (dsect (v_geo v) t (i / 16)))).

(** The volume was only looked at; the window may have moved. *)
Definition peeked (v v' : vol D) : Prop := fat_ok v' /\ same_view v v' /\ v_al v' = v_al v.

Lemma looked_peeked v v' : looked v v' -> peeked v v'.
Proof. intros (F & S & A & _). done. Qed.

Lemma peeked_refl v : fat_ok v -> peeked v v.
Proof. intros Hf. split; [done|]. split; [apply same_view_refl|done]. Qed.

Lemma peeked_trans v1 v2 v3 : peeked v1 v2 -> peeked v2 v3 -> peeked v1 v3.
Proof. intros (_ & S1 & A1) (F & S2 & A2). split; [done|]. split; [by eapply same_view_trans|congruence]. Qed.

Lemma peeked_geo v v' : peeked v v' -> v_geo v' = v_geo v.
Proof. intros (_ & (G & _) & _). done. Qed.

Lemma peeked_entry v v' c : fat_ok v -> peeked v v' -> entry v' c = entry v c.
Proof. intros Hf (_ & S & _). apply same_view_entry; [apply Hf|done]. Qed.

Lemma peeked_table v v' sc t : fat_ok v -> peeked v v' -> table_at v sc t -> table_at v' sc t.
Proof.
  intros Hf Hp. pose proof (peeked_geo v v' Hp) as G. unfold table_at. rewrite G. destruct t as [|l]; [done|]. intros [Hne Hl]. split; [done|].
  apply (links_ext _ (entry v)); [|done]. intros c _. symmetry. by apply peeked_entry.
Qed.

Lemma table_range v sc l : table_at v sc (Clusters l) -> in_range (v_geo v) l.
Proof. intros [_ Hl]. split; [by eapply links_NoDup|]. intros c Hc. exact (links_range _ _ _ _ _ Hl Hc). Qed.

(** The sectors of a table are outside the allocation tables. *)
Lemma dsect_ok v sc t j : vol_ok v -> table_at v sc t -> 0 <= j < dsects (v_geo v) t ->
  reachable v (dsect (v_geo v) t j) /\ ~ in_table (v_geo v) (dsect (v_geo v) t j) /\ 0 < dsect (v_geo v) t j < 4294967295.
Proof.
  intros Hv Ht Hj. pose proof (vo_geo v Hv) as Hg. destruct t as [|l]; cbn [dsects dsect] in *.
  - destruct Ht as (_ & _ & [[E1 E2] B1 B2]). destruct (geo_fat _ _ Hg) as (F1 & F2 & F3 & F4 & F5). pose proof (go_size _ _ Hg). pose proof (go_max _ _ Hg). pose proof (go_csize _ _ Hg). pose proof (go_ents _ _ Hg).
    pose proof (go_fats _ _ Hg) as Hnf. assert (0 <= csize (v_geo v) * (nent v - 2)) by nia. assert (fatbase (v_geo v) + fsize (v_geo v) <= dirbase (v_geo v)) by (destruct Hnf as [Hnf|Hnf]; rewrite Hnf in *; lia).
    unfold reachable, in_table, mirror. split; [split; [lia|]|split; [lia|lia]]. intros [Hn Hm]. rewrite Hn in B1. lia.
  - destruct (fsect_data _ _ Hg l j (table_range v sc l Ht) Hj) as [Hd _]. split; [by apply data_reachable|]. split; [by eapply data_not_table|]. by eapply data_nonzero.
Qed.

Lemma slot_peeked v v' sc t i : fat_ok v -> peeked v v' -> table_at v sc t -> 0 <= i < nslots (v_geo v) t -> slot v' t i = slot v t i.
Proof.
  intros Hf Hp Ht Hi. unfold slot. rewrite (peeked_geo v v' Hp). do 2 f_equal. destruct Hp as (_ & (_ & _ & V) & _). apply V.
  eapply dsect_ok; [apply Hf|done|]. unfold nslots in Hi. dlia.
Qed.

Lemma move_window_peek v s : fat_ok v -> reachable v s ->
  exists v', move_window s v = Ok (FR_OK, v') /\ peeked v v' /\ winsect (fs_win (v_fs v')) = s /\ win (fs_win (v_fs v')) = vsec v s.
Proof.
  intros Hf Hs. destruct (move_window_ok v s (fo_vol v Hf) Hs) as (v' & E & Hv & S & A & W & B). exists v'. split; [done|]. split; [|done].
  split; [by apply (fat_ok_view v)|done].
Qed.

(** *** The monad *)

Lemma bind_dvol {A B} (m : M (vol D) A) (k : A -> M (work_dir D) B) x a v :
  m (wd_vol x) = Ok (a, v) -> (dvol m ≫= k) x = k a (mk_work v (wd_dp x) (wd_lfn x)).
Proof. intros E. apply m_bind_Ok. unfold dvol. by rewrite E. Qed.
Lemma bind_dp {B} (k : DIR -> M (work_dir D) B) x : (dp ≫= k) x = k (wd_dp x) x.
Proof. done. Qed.
Lemma bind_dgeo {B} (k : geometry -> M (work_dir D) B) x : (dvol geo ≫= k) x = k (x_geo x) x.
Proof. by destruct x. Qed.
Lemma bind_dwnd {B} (k : window -> M (work_dir D) B) x : (dvol wnd ≫= k) x = k (fs_win (v_fs (wd_vol x))) x.
Proof. by destruct x. Qed.
Lemma bind_set_dp {B} h (k : unit -> M (work_dir D) B) x : (set_dp h ≫= k) x = k tt (mk_work (wd_vol x) (h (wd_dp x)) (wd_lfn x)).
Proof. done. Qed.
Lemma bind_dret {A B} (a : A) (k : A -> M (work_dir D) B) x : (mret a ≫= k) x = k a x.
Proof. done. Qed.
Lemma bind_dlift {A B} (r : res A) (k : A -> M (work_dir D) B) x a : r = Ok a -> (lift r ≫= k) x = k a x.
Proof. intros ->. done. Qed.
Lemma bind_lfnbuf {B} (k : list Z -> M (work_dir D) B) x : (lfnbuf ≫= k) x = k (wd_lfn x) x.
Proof. done. Qed.

(** *** Setting the position *)

Lemma sdi_loop_ok l : forall fuel v j ofs csz, fat_ok v -> links (nent v) (entry v) (get l 0) l -> 0 < csz -> 0 <= ofs -> 0 <= j -> j + ofs / csz < zlen l -> (Z.to_nat (ofs / csz) < fuel)%nat ->
  exists v', sdi_loop fuel csz ofs (get l j) v = Ok (At (get l (j + ofs / csz)) (ofs mod csz), v') /\ peeked v v'.
Proof.
  induction fuel as [|fuel IH]; intros v j ofs csz Hf Hl Hc Ho Hj Hjl Hfu; [lia|]. cbn [sdi_loop]. destruct (Z.leb_spec csz ofs) as [Hge|Hlt].
  - assert (ofs / csz = (ofs - csz) / csz + 1) as Ed by (replace ofs with (ofs - csz + 1 * csz) at 1 by lia; rewrite Z.div_add by lia; lia).
    assert (0 <= (ofs - csz) / csz) by (apply Z.div_pos; lia). pose proof (links_range _ _ _ _ (get l j) Hl (get_in l j ltac:(lia))) as Hr.
    rewrite bind_geo. destruct (get_fat_step v (get l j) Hf Hr) as (v1 & E1 & F1 & S1 & A1 & _). rewrite (m_bind_Ok _ _ _ _ _ E1).
    rewrite (links_next _ _ _ _ _ Hl) by lia. pose proof (links_range _ _ _ _ (get l (j + 1)) Hl (get_in l (j + 1) ltac:(lia))) as Hr'. destruct (nent_bound v (fo_vol v Hf)) as [Hb _].
    rewrite (proj2 (Z.eqb_neq _ DISK_ERROR)) by (unfold DISK_ERROR; lia). rewrite (proj2 (Z.ltb_ge _ 2)), (proj2 (Z.leb_gt _ _)) by lia. cbn [orb].
    assert (peeked v v1) as P1 by (split; done).
    destruct (IH v1 (j + 1) (ofs - csz) csz F1) as (v2 & E2 & P2); [|done|lia|lia|lia|lia|].
    { rewrite (peeked_geo _ _ P1). apply (links_ext _ (entry v)); [|done]. intros c _. symmetry. by apply peeked_entry. }
    exists v2. split; [|by eapply peeked_trans]. rewrite E2, Ed. replace (ofs mod csz) with ((ofs - csz) mod csz); [by replace (j + 1 + (ofs - csz) / csz) with (j + ((ofs - csz) / csz + 1)) by lia|].
    replace ofs with (ofs - csz + 1 * csz) at 2 by lia. by rewrite Z.mod_add by lia.
  - exists v. split; [|by apply peeked_refl]. rewrite Z.div_small, Z.mod_small, Z.add_0_r by lia. done.
Qed.

Lemma csz_ok g size : geo_ok g size -> 0 < csize g <= 128 /\ u32 (csize g * SS) = 512 * csize g.
Proof. intros Hg. pose proof (csize_small _ _ Hg). unfold SS. rewrite u32_small; lia. Qed.

(** Slots, sectors and clusters of an offset. *)
Lemma slot_offsets i c : 0 <= i -> 0 < c -> 32 * i / (512 * c) = i / 16 / c /\ 32 * i mod (512 * c) / 512 = (i / 16) mod c /\
  32 * i mod (512 * c) mod 512 = 32 * (i mod 16) /\ 32 * i / 512 = i / 16 /\ 32 * i mod 512 = 32 * (i mod 16).
Proof.
  intros Hi Hc. assert (32 * i / 512 = i / 16) as E1 by dlia. assert (32 * i mod 512 = 32 * (i mod 16)) as E2 by dlia.
  assert (32 * i / (512 * c) = i / 16 / c) as E3 by (rewrite <- Z.div_div by lia; by rewrite E1).
  assert (32 * i mod (512 * c) = 512 * ((i / 16) mod c) + 32 * (i mod 16)) as E4 by (rewrite Z.rem_mul_r by lia; rewrite E1, E2; lia).
  rewrite E3, E4. repeat split; dlia.
Qed.

Lemma dir_sdi_ok x t i : fat_ok (wd_vol x) -> table_at (wd_vol x) (sclust (d_obj (wd_dp x))) t -> 0 <= i < nslots (x_geo x) t ->
  exists v' d', dir_sdi (32 * i) x = Ok (FR_OK, mk_work v' d' (wd_lfn x)) /\ peeked (wd_vol x) v' /\ at_slot (x_geo x) t d' i /\ same_dp (wd_dp x) d'.
Proof.
  intros Hf Ht Hi. pose proof (vo_geo _ (fo_vol _ Hf)) as Hg. destruct (csz_ok _ _ Hg) as [Hc Ecz]. unfold dir_sdi, MAX_DIR, SZDIRE.
  rewrite (proj2 (Z.leb_gt _ _)) by (unfold nslots in Hi; lia). replace (32 * i mod 32) with 0 by dlia. cbn [orb negb Z.eqb]. rewrite bind_set_dp, bind_dp, bind_dgeo.
  cbn [wd_vol wd_dp wd_lfn d_obj d_ptr]. fold (head_of (x_geo x) (sclust (d_obj (wd_dp x)))). destruct (slot_offsets i (csize (x_geo x))) as (O1 & O2 & O3 & O4 & O5); [lia|lia|].
  assert (0 <= i / 16 < dsects (x_geo x) t) as Hj by (unfold nslots in Hi; dlia). destruct (dsect_ok _ _ t (i / 16) (fo_vol _ Hf) Ht Hj) as (_ & _ & Hnz).
  destruct t as [|l]; cbn [dsects dsect] in *.
  - destruct Ht as (E0 & Hty & [[R1 R2] R3 R4]). assert (head_of (x_geo x) (sclust (d_obj (wd_dp x))) = 0) as ->.
    { unfold head_of. rewrite E0. destruct (go_type _ _ Hg) as [->|[->|?]]; done. }
    cbn [Z.eqb]. replace (32 * i / 32) with i by dlia. rewrite (proj2 (Z.leb_gt _ _)) by (unfold nslots in Hi; cbn [dsects] in Hi; dlia).
    rewrite (m_bind_Ok _ _ _ (At 0 (32 * i)) _ eq_refl). rewrite bind_set_dp, bind_dp. cbn [wd_vol wd_dp wd_lfn d_sect d_sec d_cl d_ptr].
    assert (0 < dirbase (x_geo x)). { destruct (geo_fat _ _ Hg) as (F1 & F2 & F3 & _). pose proof (go_fats _ _ Hg) as [Hn|Hn]; rewrite Hn in R3; lia. }
    rewrite (proj2 (Z.eqb_neq _ 0)) by lia. rewrite bind_set_dp. cbn [wd_vol wd_dp wd_lfn]. eexists _, _. split; [reflexivity|]. split; [by apply peeked_refl|]. split; [|done].
    unfold SS. split; cbn [dptr d_sect d_dir d_clust d_at d_sec d_cl d_ptr dsect]; [done|done| |done|done]. rewrite O4. apply u32_small. lia.
  - destruct Ht as [Hne Hl]. assert (2 <= head_of (x_geo x) (sclust (d_obj (wd_dp x))) < nent (wd_vol x)) as Hh by (destruct l; [done|apply Hl]).
    rewrite (proj2 (Z.eqb_neq _ 0)) by lia. cbv zeta. rewrite Ecz. rewrite <- (links_head _ _ _ _ Hl Hne) in Hl |- *.
    assert (0 <= i / 16 / csize (x_geo x) < zlen l) as Hk by (destruct (index_in _ _ Hg l (i / 16) Hj); done).
    destruct (sdi_loop_ok l (S (Z.to_nat (32 * i / (512 * csize (x_geo x))))) (wd_vol x) 0 (32 * i) (512 * csize (x_geo x)) Hf Hl) as (v1 & E1 & P1); [lia|lia|lia|lia|lia|].
    rewrite O1, Z.add_0_l in E1. pose proof (links_range _ _ _ _ _ Hl (get_in l _ Hk)) as Hr. destruct (clst2sect_ok _ _ Hg _ Hr) as (_ & D1 & _). pose proof (data_nonzero _ _ Hg _ D1) as Hz.
    erewrite m_bind_Ok; [|erewrite bind_dvol; [|cbn [wd_vol]; rewrite O1; exact E1]; cbv beta iota; rewrite bind_set_dp; reflexivity]. cbv beta iota.
    rewrite bind_set_dp, bind_dp. cbn [wd_vol wd_dp wd_lfn d_sect d_sec d_cl d_ptr]. rewrite (proj2 (Z.eqb_neq _ 0)) by lia. rewrite bind_set_dp. cbn [wd_vol wd_dp wd_lfn].
    eexists _, _. split; [reflexivity|]. split; [done|]. split; [|done].
    unfold SS. split; cbn [dptr d_sect d_dir d_clust d_at d_sec d_cl d_ptr dsect]; [done|done| |exact O3|done]. rewrite O2. unfold fsect in *. apply u32_small. lia.
Qed.

(** *** Moving on *)

Lemma csect_zero g size j : geo_ok g size -> 0 <= j -> Z.land j (csize g - 1) = j mod csize g.
Proof. intros Hg Hj. by apply (csect_mod _ _ Hg). Qed.

(** Inside the chain. *)
Lemma next_cluster_ok cfuel st x l k : fat_ok (wd_vol x) -> links (nent (wd_vol x)) (entry (wd_vol x)) (get l 0) l -> 0 <= k < zlen l - 1 -> d_clust (wd_dp x) = get l k ->
  exists v', next_cluster cfuel st x = Ok (FR_OK, mk_work v' (d_sec (clst2sect (x_geo x) (get l (k + 1))) (d_cl (get l (k + 1)) (wd_dp x))) (wd_lfn x)) /\ peeked (wd_vol x) v'.
Proof.
  intros Hf Hl Hk Ec. unfold next_cluster. rewrite bind_dp, bind_dgeo, Ec. pose proof (links_range _ _ _ _ _ Hl (get_in l k ltac:(lia))) as Hr.
  pose proof (links_range _ _ _ _ _ Hl (get_in l (k + 1) ltac:(lia))) as Hr'. destruct (nent_bound _ (fo_vol _ Hf)) as [Hb _].
  destruct (get_fat_step _ _ Hf Hr) as (v1 & E1 & F1 & S1 & A1 & _). rewrite (bind_dvol _ _ _ _ _ E1). rewrite (links_next _ _ _ _ _ Hl) by lia.
  rewrite (proj2 (Z.leb_gt _ 1)), (proj2 (Z.eqb_neq _ DISK_ERROR)), (proj2 (Z.leb_gt _ _)) by (unfold DISK_ERROR; lia). rewrite bind_dret. rewrite bind_set_dp. cbn [wd_vol wd_dp wd_lfn].
  eexists. split; [reflexivity|]. done.
Qed.

(** At its end. *)
Lemma next_cluster_end cfuel x l : fat_ok (wd_vol x) -> links (nent (wd_vol x)) (entry (wd_vol x)) (get l 0) l -> l <> [] -> d_clust (wd_dp x) = get l (zlen l - 1) ->
  exists v', next_cluster cfuel false x = Ok (FR_NO_FILE, mk_work v' (d_sec 0 (wd_dp x)) (wd_lfn x)) /\ peeked (wd_vol x) v'.
Proof.
  intros Hf Hl Hne Ec. unfold next_cluster. rewrite bind_dp, bind_dgeo, Ec. assert (0 < zlen l) by (destruct l; [done|cbn [length]; lia]).
  pose proof (links_range _ _ _ _ _ Hl (get_in l (zlen l - 1) ltac:(lia))) as Hr. destruct (nent_bound _ (fo_vol _ Hf)) as [Hb _].
  pose proof (links_last _ _ _ _ Hl Hne) as Hla. pose proof (entry_bound _ (get l (zlen l - 1)) (fo_vol _ Hf)) as He. destruct (probe _ _ Hf Hr) as (v1 & E1 & L1 & Hst).
  apply orb_false_iff in Hst as [_ Hd]. rewrite (bind_dvol _ _ _ _ _ E1), Hd. rewrite (proj2 (Z.leb_gt _ 1)), (proj2 (Z.leb_le _ _)) by lia. cbn [negb].
  rewrite (m_bind_Ok _ _ _ (Failed FR_NO_FILE) _ eq_refl). eexists. split; [reflexivity|]. by apply looked_peeked.
Qed.

Lemma table_links v sc l : table_at v sc (Clusters l) -> links (nent v) (entry v) (get l 0) l.
Proof. intros [Hne Hl]. by rewrite (links_head _ _ _ _ Hl Hne). Qed.

Lemma sect_nonzero x t i : fat_ok (wd_vol x) -> table_at (wd_vol x) (sclust (d_obj (wd_dp x))) t -> at_slot (x_geo x) t (wd_dp x) i ->
  0 < d_sect (wd_dp x) < 4294967295 /\ 0 <= i / 16 < dsects (x_geo x) t.
Proof.
  intros Hf Ht [Hi _ Es _ _]. assert (0 <= i / 16 < dsects (x_geo x) t) as Hj by (unfold nslots in Hi; dlia). rewrite Es.
  destruct (dsect_ok _ _ t (i / 16) (fo_vol _ Hf) Ht Hj) as (_ & _ & Hnz). done.
Qed.

(** The cluster that slot [i] is in. *)
Definition slot_clust (g : geometry) (t : dtable) (i : Z) : Z := match t with Static => 0 | Clusters l => get l (i / 16 / csize g) end.

Lemma same_sector i : 0 <= i -> (i + 1) mod 16 <> 0 -> (i + 1) / 16 = i / 16.
Proof. intros. dlia. Qed.

Lemma next_sector i : 0 <= i -> (i + 1) mod 16 = 0 -> (i + 1) / 16 = i / 16 + 1.
Proof. intros. dlia. Qed.

Lemma div_succ j c : 0 < c -> ((j + 1) mod c = 0 /\ (j + 1) / c = j / c + 1) \/ ((j + 1) mod c <> 0 /\ (j + 1) / c = j / c /\ j mod c + 1 < c).
Proof.
  intros Hc. pose proof (Z.div_mod j c ltac:(lia)) as Dm. pose proof (Z.mod_pos_bound j c Hc). destruct (decide (j mod c + 1 = c)) as [E|N]; [left|right].
  - assert (j + 1 = (j / c + 1) * c) as -> by nia. rewrite Z.mod_mul, Z.div_mul by lia. done.
  - assert ((j + 1) mod c = j mod c + 1) as -> by (symmetry; apply Z.mod_unique with (j / c); lia).
    assert ((j + 1) / c = j / c) as -> by (symmetry; apply Z.div_unique with (j mod c + 1); lia). lia.
Qed.

(** The sector change of [dir_next] before slot [i + 1]. *)
Definition cross (cfuel : nat) (st : bool) (i : Z) : M (work_dir D) FRESULT :=
  d ← dp; g ← dvol geo;
  (_ ← set_dp (fun d => d_sec (u32 (d_sect d + 1)) d);
   if d_clust d =? 0 then
     if n_rootdir g <=? i + 1 then _ ← set_dp (d_sec 0); mret FR_NO_FILE else mret FR_OK
   else if Z.land ((i + 1) / 16) (csize g - 1) =? 0 then next_cluster cfuel st
   else mret FR_OK).

Lemma cross_ok cfuel st x t i : fat_ok (wd_vol x) -> table_at (wd_vol x) (sclust (d_obj (wd_dp x))) t -> at_slot (x_geo x) t (wd_dp x) i -> i + 1 < nslots (x_geo x) t ->
  (i + 1) mod 16 = 0 ->
  exists v' d', cross cfuel st i x = Ok (FR_OK, mk_work v' d' (wd_lfn x)) /\ peeked (wd_vol x) v' /\ same_dp (wd_dp x) d' /\
    d_sect d' = dsect (x_geo x) t ((i + 1) / 16) /\ d_clust d' = slot_clust (x_geo x) t (i + 1).
Proof.
  intros Hf Ht Ha Hn Hm. destruct (sect_nonzero x t i Hf Ht Ha) as [Hs Hj]. destruct Ha as [Hi Ep Es Ed Ec]. pose proof (vo_geo _ (fo_vol _ Hf)) as Hg. destruct (csz_ok _ _ Hg) as [Hc _].
  pose proof (next_sector i ltac:(lia) Hm) as Eq. unfold cross. rewrite bind_dp, bind_dgeo, bind_set_dp, Ec. unfold slot_clust in *.
  destruct t as [|l]; cbn [dsects dsect] in *.
  - cbn [Z.eqb]. destruct Ht as (_ & _ & [[R1 R2] _ _]). rewrite (proj2 (Z.leb_gt _ _)) by (unfold nslots in Hn; cbn [dsects] in Hn; dlia).
    eexists _, _. split; [reflexivity|]. split; [by apply peeked_refl|]. split; [done|]. cbn [d_sect d_clust d_sec]. split; [|done]. rewrite u32_small by lia. lia.
  - pose proof (table_links _ _ _ Ht) as Hl. destruct (index_in _ _ Hg l (i / 16) Hj) as [Hk Hmd]. pose proof (links_range _ _ _ _ _ Hl (get_in l _ Hk)) as Hr.
    rewrite (proj2 (Z.eqb_neq _ 0)) by lia. rewrite (csect_mod _ _ Hg) by dlia. rewrite Eq.
    assert (0 <= i / 16 + 1 < nsec (x_geo x) l) as Hj' by (unfold nslots in Hn; cbn [dsects] in Hn; dlia). destruct (index_in _ _ Hg l _ Hj') as [Hk' Hmd'].
    destruct (div_succ (i / 16) (csize (x_geo x)) ltac:(lia)) as [[E0 Ek]|(N0 & Ek & Hlt)]; [rewrite E0|rewrite (proj2 (Z.eqb_neq _ 0) N0)]; rewrite Ek in *.
    + cbn [Z.eqb].
      destruct (next_cluster_ok cfuel st (mk_work (wd_vol x) (d_sec (u32 (d_sect (wd_dp x) + 1)) (wd_dp x)) (wd_lfn x)) l (i / 16 / csize (x_geo x)) Hf Hl) as (v' & E & P); [lia|done|].
      eexists _, _. split; [exact E|]. split; [done|]. split; [done|]. cbn [wd_vol wd_dp d_sect d_clust d_sec d_cl]. split; [|done]. unfold fsect. rewrite Ek, E0. lia.
    + eexists _, _. split; [reflexivity|]. split; [by apply peeked_refl|]. split; [done|]. cbn [d_sect d_clust d_sec]. split; [|done].
      rewrite u32_small by lia. rewrite Es. cbn [dsect]. rewrite (fsect_add _ _ Hg) by lia. done.
Qed.

Lemma dir_next_eq cfuel st x t i : fat_ok (wd_vol x) -> table_at (wd_vol x) (sclust (d_obj (wd_dp x))) t -> at_slot (x_geo x) t (wd_dp x) i -> i + 1 < 65536 ->
  dir_next cfuel st x = (r ← (if (i + 1) mod 16 =? 0 then cross cfuel st i else mret FR_OK);
    if fr_ok r then _ ← set_dp (fun d => d_at (32 * ((i + 1) mod 16)) (d_ptr (32 * (i + 1)) d)); mret FR_OK else mret r) x.
Proof.
  intros Hf Ht Ha Hm. destruct (sect_nonzero x t i Hf Ht Ha) as [Hs Hj]. destruct Ha as [Hi Ep Es Ed Ec].
  unfold dir_next, SZDIRE, MAX_DIR, SS. rewrite bind_dp, bind_dgeo, Ep. rewrite u32_small by lia. cbv zeta. replace (32 * i + 32) with (32 * (i + 1)) by lia.
  rewrite (proj2 (Z.leb_gt 0x200000 (32 * (i + 1)))) by lia. cbn [when]. unfold skip. rewrite bind_dret, bind_dp. rewrite (proj2 (Z.eqb_neq _ 0)) by lia.
  destruct (slot_offsets (i + 1) 1) as (_ & _ & _ & O4 & O5); [lia|lia|]. rewrite O4, O5. replace (32 * (i + 1) / 32) with (i + 1) by dlia.
  replace (32 * ((i + 1) mod 16) =? 0) with ((i + 1) mod 16 =? 0) by (destruct (Z.eqb_spec ((i + 1) mod 16) 0), (Z.eqb_spec (32 * ((i + 1) mod 16)) 0); lia).
  destruct ((i + 1) mod 16 =? 0); [|done]. unfold cross. by destruct x.
Qed.

Lemma dir_next_ok cfuel st x t i : fat_ok (wd_vol x) -> table_at (wd_vol x) (sclust (d_obj (wd_dp x))) t -> at_slot (x_geo x) t (wd_dp x) i -> i + 1 < nslots (x_geo x) t ->
  exists v' d', dir_next cfuel st x = Ok (FR_OK, mk_work v' d' (wd_lfn x)) /\ peeked (wd_vol x) v' /\ at_slot (x_geo x) t d' (i + 1) /\ same_dp (wd_dp x) d'.
Proof.
  intros Hf Ht Ha Hn. rewrite (dir_next_eq cfuel st x t i Hf Ht Ha) by (unfold nslots in Hn; lia). destruct (Z.eqb_spec ((i + 1) mod 16) 0) as [E0|N0].
  - destruct (cross_ok cfuel st x t i Hf Ht Ha Hn E0) as (v' & d' & E & P & S & Es & Ec). rewrite (m_bind_Ok _ _ _ _ _ E). change (fr_ok FR_OK) with true. cbv iota. rewrite bind_set_dp.
    eexists _, _. split; [reflexivity|]. split; [done|]. split; [|done]. destruct Ha as [Hi _ _ _ _]. split; cbn [wd_dp dptr d_sect d_dir d_clust d_at d_ptr]; (done || lia).
  - rewrite bind_dret. change (fr_ok FR_OK) with true. cbv iota. rewrite bind_set_dp. eexists _, _. split; [reflexivity|]. split; [by apply peeked_refl|]. split; [|done].
    destruct Ha as [Hi Ep Es Ed Ec]. pose proof (same_sector i ltac:(lia) N0) as Eq. split; cbn [wd_dp dptr d_sect d_dir d_clust d_at d_ptr]; rewrite ?Eq; (done || lia).
Qed.

(** At the end of the table. *)
Lemma dir_next_end cfuel st x t i : st = false \/ t = Static \/ i + 1 = 65536 -> fat_ok (wd_vol x) -> table_at (wd_vol x) (sclust (d_obj (wd_dp x))) t -> at_slot (x_geo x) t (wd_dp x) i -> i + 1 = nslots (x_geo x) t ->
  exists v' d', dir_next cfuel st x = Ok (FR_NO_FILE, mk_work v' d' (wd_lfn x)) /\ peeked (wd_vol x) v' /\ d_sect d' = 0 /\ same_dp (wd_dp x) d'.
Proof.
  intros Hst Hf Ht Ha Hn. destruct (decide (i + 1 = 65536)) as [Em|Nm].
  - destruct Ha as [Hi Ep Es Ed Ec]. unfold dir_next, SZDIRE, MAX_DIR. rewrite bind_dp, bind_dgeo, Ep. rewrite u32_small by lia. cbv zeta. rewrite (proj2 (Z.leb_le 0x200000 (32 * i + 32))) by lia. cbn [when].
    rewrite bind_set_dp, bind_dp. cbn [wd_dp d_sect d_sec Z.eqb]. eexists _, _. split; [reflexivity|]. split; [by apply peeked_refl|done].
  - rewrite (dir_next_eq cfuel st x t i Hf Ht Ha) by (destruct Ha as [Hi _ _ _ _]; unfold nslots in *; lia). destruct (sect_nonzero x t i Hf Ht Ha) as [Hs Hj]. destruct Ha as [Hi Ep Es Ed Ec].
    assert (i + 1 = 16 * dsects (x_geo x) t) as En by (unfold nslots in *; lia). assert ((i + 1) mod 16 = 0) as -> by (rewrite En, Z.mul_comm; apply Z.mod_mul; lia). cbn [Z.eqb].
    pose proof (vo_geo _ (fo_vol _ Hf)) as Hg. destruct (csz_ok _ _ Hg) as [Hc _].
    assert (exists v' d', cross cfuel st i x = Ok (FR_NO_FILE, mk_work v' d' (wd_lfn x)) /\ peeked (wd_vol x) v' /\ d_sect d' = 0 /\ same_dp (wd_dp x) d') as (v' & d' & E & R).
    { unfold cross. rewrite bind_dp, bind_dgeo, bind_set_dp, Ec. destruct t as [|l]; cbn [dsects] in *.
      - cbn [Z.eqb]. destruct Ht as (_ & _ & [[R1 R2] _ _]). rewrite (proj2 (Z.leb_le _ _)) by dlia. rewrite bind_set_dp. eexists _, _. split; [reflexivity|]. split; [by apply peeked_refl|done].
      - pose proof (table_links _ _ _ Ht) as Hl. destruct (index_in _ _ Hg l (i / 16) Hj) as [Hk Hmd]. pose proof (links_range _ _ _ _ _ Hl (get_in l _ Hk)) as Hr.
        rewrite (proj2 (Z.eqb_neq _ 0)) by lia. replace ((i + 1) / 16) with (nsec (x_geo x) l) by dlia. rewrite (csect_mod _ _ Hg) by lia. unfold nsec at 1. rewrite Z.mul_comm, Z.mod_mul by lia. cbn [Z.eqb].
        assert (i / 16 = nsec (x_geo x) l - 1) as Eq by dlia. assert (i / 16 / csize (x_geo x) = zlen l - 1) as Ek.
        { rewrite Eq. unfold nsec. symmetry. apply Z.div_unique with (csize (x_geo x) - 1); lia. }
        assert (st = false) as -> by (destruct Hst as [?|[?|?]]; [done|discriminate|lia]).
        destruct (next_cluster_end cfuel (mk_work (wd_vol x) (d_sec (u32 (d_sect (wd_dp x) + 1)) (wd_dp x)) (wd_lfn x)) l Hf Hl) as (v' & E & P); [apply Ht|cbn [wd_dp d_clust d_sec]; by rewrite Ec, Ek|].
        eexists _, _. split; [exact E|]. split; [done|]. done. }
    rewrite (m_bind_Ok _ _ _ _ _ E). eexists _, _. split; [reflexivity|]. exact R.
Qed.

End Walk.
