(* ===== verification/FatScan.v ===== *)
(** * FatScan: searches as scans of the list of slots

    [dir_find] and [dir_read] act on the entry the window shows; here they are
    shown to be scans of the list of slots of the directory, and an entry is
    shown to be read within its 32 bytes only. *)

From Stdlib Require Import ZArith Lia Bool.
From stdpp Require Import base list list_numbers.
From S2P Require Import Prelude CLib Hw FatUni Fat FatChain FatFile FatRead FatSync FatLfn FatDir FatTable.
From stdpp Require Import options.

(** ** An entry is its 32 bytes *)

Section Local.
Context (b : list Z) (dir : Z) (Hb : length b = 512%nat) (Hd : 0 <= dir <= 480).
#[local] Set Default Proof Using "Type*".

Definition entry_at : list Z := take 32 (drop (Z.to_nat dir) b).

Lemma entry_len : length entry_at = 32%nat.
Proof. unfold entry_at. rewrite length_take, length_drop. lia. Qed.

Lemma entry_get o : 0 <= o < 32 -> get entry_at o = get b (dir + o).
Proof.
  intros Ho. unfold entry_at, get. destruct (lookup_lt_is_Some_2 b (Z.to_nat (dir + o))) as [y Ey]; [lia|].
  rewrite (nth_lookup_Some b _ _ _ Ey). apply nth_lookup_Some. rewrite lookup_take_lt, lookup_drop by lia. rewrite <- Ey. f_equal. lia.
Qed.

Lemma rd_entry o : 0 <= o < 32 -> rd b (dir + o) = rd entry_at (0 + o).
Proof. intros Ho. rewrite !rd_in by (rewrite ?entry_len; lia). by rewrite Z.add_0_l, entry_get. Qed.

Lemma ld_word_entry o : 0 <= o -> o + 2 <= 32 -> ld_word b (dir + o) = ld_word entry_at (0 + o).
Proof. intros H1 H2. unfold ld_word. rewrite <- !Z.add_assoc. rewrite !rd_entry by lia. done. Qed.

Lemma cmp_chars_entry lfn ofs : Forall (fun o => 0 <= o <= 30) ofs -> forall pchr ni, cmp_chars b dir lfn ofs pchr ni = cmp_chars entry_at 0 lfn ofs pchr ni.
Proof.
  induction ofs as [|o ofs IH]; intros Ho pchr ni; [done|]. apply Forall_cons in Ho as [Ho1 Ho2]. cbn [cmp_chars]. rewrite ld_word_entry by lia.
  destruct (ld_word entry_at (0 + o)) as [c| | |]; [rewrite !bind_Ok|done..]. destruct (negb (pchr =? 0)); [|by rewrite IH].
  destruct (FF_MAX_LFN + 1 <=? ni); [done|]. destruct (rd lfn ni) as [y| | |]; [rewrite !bind_Ok|done..]. destruct (ff_wtoupper c) as [u| | |]; [rewrite !bind_Ok|done..].
  destruct (ff_wtoupper y) as [u'| | |]; [rewrite !bind_Ok|done..]. by rewrite IH.
Qed.

Lemma pick_chars_entry ofs : Forall (fun o => 0 <= o <= 30) ofs -> forall pchr ni lfn, pick_chars b dir ofs pchr ni lfn = pick_chars entry_at 0 ofs pchr ni lfn.
Proof.
  induction ofs as [|o ofs IH]; intros Ho pchr ni lfn; [done|]. apply Forall_cons in Ho as [Ho1 Ho2]. cbn [pick_chars]. rewrite ld_word_entry by lia.
  destruct (ld_word entry_at (0 + o)) as [c| | |]; [rewrite !bind_Ok|done..]. destruct (negb (pchr =? 0)); [|by rewrite IH].
  destruct (FF_MAX_LFN + 1 <=? ni); [done|]. destruct (wr lfn ni c) as [y| | |]; [rewrite !bind_Ok|done..]. by rewrite IH.
Qed.

Lemma cmp_lfn_entry lfn : cmp_lfn lfn b dir = cmp_lfn lfn entry_at 0.
Proof.
  unfold cmp_lfn. unfold LDIR_FstClusLO, LDIR_Ord. rewrite ld_word_entry, rd_entry by lia.
  destruct (ld_word entry_at (0 + 26)) as [c| | |]; [rewrite !bind_Ok|done..]. destruct (negb (c =? 0)); [done|].
  destruct (rd entry_at (0 + 0)) as [o| | |]; [rewrite !bind_Ok|done..]. by rewrite cmp_chars_entry by apply LfnOfs_apart.
Qed.

Lemma pick_lfn_entry lfn : pick_lfn lfn b dir = pick_lfn lfn entry_at 0.
Proof.
  unfold pick_lfn. unfold LDIR_FstClusLO, LDIR_Ord. rewrite ld_word_entry, rd_entry by lia.
  destruct (ld_word entry_at (0 + 26)) as [c| | |]; [rewrite !bind_Ok|done..]. destruct (negb (c =? 0)); [done|].
  destruct (rd entry_at (0 + 0)) as [o| | |]; [rewrite !bind_Ok|done..]. by rewrite pick_chars_entry by apply LfnOfs_apart.
Qed.

Lemma sum_loop_entry n : forall k sum, 0 <= k -> k + Z.of_nat n <= 32 -> sum_loop n b (dir + k) sum = sum_loop n entry_at (0 + k) sum.
Proof.
  induction n as [|n IH]; intros k sum Hk Hn; [done|]. cbn [sum_loop]. rewrite rd_entry by lia. destruct (rd entry_at (0 + k)) as [c| | |]; [rewrite !bind_Ok|done..].
  rewrite <- !Z.add_assoc. apply IH; lia.
Qed.

Lemma sum_sfn_entry : sum_sfn b dir = sum_sfn entry_at 0.
Proof. unfold sum_sfn. rewrite <- (Z.add_0_r dir) at 1. apply (sum_loop_entry 11 0); cbn; lia. Qed.

Lemma memcmp_entry s : memcmp (drop (Z.to_nat dir) b) s 11 = memcmp (drop (Z.to_nat 0) entry_at) s 11.
Proof.
  unfold memcmp. change (Z.to_nat 0) with 0%nat. rewrite drop_0. assert (forall n i, 0 <= i -> i + Z.of_nat n <= 32 -> memcmp_loop n i (drop (Z.to_nat dir) b) s = memcmp_loop n i entry_at s) as L; [|apply L; cbn; lia].
  induction n as [|n IH]; intros i Hi Hn; [done|]. cbn [memcmp_loop]. assert (rd (drop (Z.to_nat dir) b) i = rd entry_at i) as ->.
  { rewrite !rd_in by (rewrite ?entry_len, ?length_drop; lia). f_equal. rewrite entry_get by lia. rewrite get_drop by lia. f_equal. lia. }
  destruct (rd entry_at i) as [x| | |]; [rewrite !bind_Ok|done..]. destruct (rd s i) as [y| | |]; [rewrite !bind_Ok|done..]. destruct (negb (x =? y)); [done|]. apply IH; lia.
Qed.

Lemma find_look_entry fn lfn p ord sum blk : find_look fn lfn b dir p ord sum blk = find_look fn lfn entry_at 0 p ord sum blk.
Proof. unfold find_look, DIR_Name, DIR_Attr, LDIR_Chksum. by rewrite !rd_entry, cmp_lfn_entry, sum_sfn_entry, memcmp_entry by lia. Qed.

Lemma read_look_entry vol lfn p ord sum blk : read_look vol lfn b dir p ord sum blk = read_look vol lfn entry_at 0 p ord sum blk.
Proof. unfold read_look, DIR_Name, DIR_Attr, LDIR_Chksum. by rewrite !rd_entry, pick_lfn_entry, sum_sfn_entry by lia. Qed.

End Local.

(** ** Scans *)

(** The slots from number [i] on, against a name: number, attribute and block
    of the first object found. *)
Fixpoint find_scan (fn lfn : list Z) (es : list (list Z)) (i ord sum blk : Z) : res (option (Z * Z * Z)) :=
  match es with
  | [] => Ok None
  | e :: es =>
      x ← find_look fn lfn e 0 (32 * i) ord sum blk;
      match x with
      | AtEnd => Ok None
      | Hit a blk => Ok (Some (i, a, blk))
      | Pass a ord sum blk => find_scan fn lfn es (i + 1) ord sum blk
      end
  end.

(** The next object, with the buffer of long names. *)
Fixpoint read_scan (vol : bool) (lfn : list Z) (es : list (list Z)) (i ord sum blk : Z) : res (option (Z * Z * Z) * list Z) :=
  match es with
  | [] => Ok (None, lfn)
  | e :: es =>
      x ← read_look vol lfn e 0 (32 * i) ord sum blk;
      match x.1 with
      | AtEnd => Ok (None, x.2)
      | Hit a blk => Ok (Some (i, a, blk), x.2)
      | Pass a ord sum blk => read_scan vol x.2 es (i + 1) ord sum blk
      end
  end.

(** The object up to its position, attribute and block. *)
Definition keeps (d d' : DIR) : Prop := d_fn d' = d_fn d /\ d_obj (d_attr 0 d') = d_obj (d_attr 0 d).

Lemma keeps_refl d : keeps d d.
Proof. done. Qed.

Lemma keeps_trans d1 d2 d3 : keeps d1 d2 -> keeps d2 d3 -> keeps d1 d3.
Proof. intros [? ?] [? ?]. split; congruence. Qed.

Lemma keeps_sclust d d' : keeps d d' -> sclust (d_obj d') = sclust (d_obj d).
Proof. intros [_ E]. apply (f_equal sclust) in E. exact E. Qed.

Lemma same_keeps d d' : same_dp d d' -> keeps d d'.
Proof. intros (E1 & E2 & _). split; [done|]. cbn [d_attr d_obj]. by rewrite E1. Qed.

Lemma attr_keeps a blk d : keeps d (d_blk blk (d_attr a d)).
Proof. done. Qed.

Lemma attr_at g t d i a blk : at_slot g t d i -> at_slot g t (d_blk blk (d_attr a d)) i.
Proof. intros []. by split. Qed.

Section Refine.
Context {D : Type} `{BlockLaws D}.
#[local] Set Default Proof Using "Type*".

Abbreviation v_geo v := (fs_geo (v_fs v)).
Abbreviation x_geo x := (v_geo (wd_vol x)).

(** The slots of a directory, in order. *)
Definition slots (v : vol D) (t : dtable) : list (list Z) := slot v t <$> seqZ 0 (nslots (v_geo v) t).

Lemma nslots_pos g t : 0 <= dsects g t -> 0 <= nslots g t.
Proof. unfold nslots. lia. Qed.

Lemma dsects_nonneg v sc t : vol_ok v -> table_at v sc t -> 0 < dsects (v_geo v) t.
Proof.
  intros Hv Ht. pose proof (vo_geo v Hv) as Hg. pose proof (csize_small _ _ Hg). destruct t as [|l]; cbn [dsects].
  - destruct Ht as (_ & _ & [[R1 R2] _ _]). dlia.
  - destruct Ht as [Hne _]. unfold nsec. destruct l; [done|]. cbn [length]. nia.
Qed.

Lemma drop_slots v t i : 0 <= i <= nslots (v_geo v) t -> drop (Z.to_nat i) (slots v t) = slot v t <$> seqZ i (nslots (v_geo v) t - i).
Proof.
  intros Hi. unfold slots. replace (nslots (v_geo v) t) with (i + (nslots (v_geo v) t - i)) at 1 by lia. rewrite seqZ_app by lia. rewrite fmap_app, drop_app_length'; [by rewrite Z.add_0_l|].
  rewrite length_fmap, length_seqZ. done.
Qed.

Lemma slots_cons v t i : 0 <= i < nslots (v_geo v) t -> drop (Z.to_nat i) (slots v t) = slot v t i :: drop (Z.to_nat (i + 1)) (slots v t).
Proof.
  intros Hi. rewrite !drop_slots by lia. rewrite (seqZ_cons i) by lia. cbn [fmap list_fmap]. by replace (Z.pred (nslots (v_geo v) t - i)) with (nslots (v_geo v) t - (i + 1)) by lia.
Qed.

Lemma slots_end v t i : nslots (v_geo v) t <= i -> drop (Z.to_nat i) (slots v t) = [].
Proof. intros Hi. apply drop_ge. unfold slots. rewrite length_fmap, length_seqZ. lia. Qed.

Lemma slots_peeked v v' sc t : fat_ok v -> peeked v v' -> table_at v sc t -> slots v' t = slots v t.
Proof.
  intros Hf Hp Ht. unfold slots. rewrite (peeked_geo v v' Hp). apply list_fmap_ext. intros k i Hi. apply list_elem_of_lookup_2, elem_of_seqZ in Hi.
  apply (slot_peeked v v' sc); (done || lia).
Qed.

(** The window on the current slot. *)
Lemma show_slot x t i : fat_ok (wd_vol x) -> table_at (wd_vol x) (sclust (d_obj (wd_dp x))) t -> at_slot (x_geo x) t (wd_dp x) i ->
  exists v', move_window (d_sect (wd_dp x)) (wd_vol x) = Ok (FR_OK, v') /\ peeked (wd_vol x) v' /\ winsect (fs_win (v_fs v')) = d_sect (wd_dp x) /\
    length (win (fs_win (v_fs v'))) = 512%nat /\ 0 <= d_dir (wd_dp x) <= 480 /\ entry_at (win (fs_win (v_fs v'))) (d_dir (wd_dp x)) = slot (wd_vol x) t i.
Proof.
  intros Hf Ht [Hi Ep Es Ed Ec]. assert (0 <= i / 16 < dsects (x_geo x) t) as Hj by (unfold nslots in Hi; dlia).
  destruct (dsect_ok _ _ t (i / 16) (fo_vol _ Hf) Ht Hj) as (Hr & _ & _). rewrite Es. destruct (move_window_peek _ _ Hf Hr) as (v' & E & P & W & B). exists v'. split; [done|]. split; [done|]. split; [done|].
  split; [rewrite B; apply (vsec_ok _ _ (fo_vol _ Hf) (proj1 Hr))|]. split; [rewrite Ed; dlia|]. unfold entry_at, slot. by rewrite B, Ed.
Qed.

(** The outcome of a search over the slots: the result code and where the
    object stands. *)
Definition stands (t : dtable) (x : work_dir D) (r : option (Z * Z * Z)) (fr : FRESULT) (v' : vol D) (d' : DIR) : Prop :=
  peeked (wd_vol x) v' /\ keeps (wd_dp x) d' /\
  match r with
  | Some (k, a, blk) => fr = FR_OK /\ at_slot (x_geo x) t d' k /\ o_attr (d_obj d') = a /\ blk_ofs d' = blk /\ winsect (fs_win (v_fs v')) = d_sect d'
  | None => fr = FR_NO_FILE
  end.

Lemma find_loop_ok cfuel t fuel : forall x i ord sum r, fat_ok (wd_vol x) -> table_at (wd_vol x) (sclust (d_obj (wd_dp x))) t -> at_slot (x_geo x) t (wd_dp x) i ->
  (Z.to_nat (nslots (x_geo x) t - i) <= fuel)%nat -> find_scan (d_fn (wd_dp x)) (wd_lfn x) (drop (Z.to_nat i) (slots (wd_vol x) t)) i ord sum (blk_ofs (wd_dp x)) = Ok r ->
  exists fr v' d', find_loop cfuel fuel ord sum x = Ok (fr, mk_work v' d' (wd_lfn x)) /\ stands t x r fr v' d'.
Proof.
  induction fuel as [|fuel IH]; intros x i ord sum r Hf Ht Ha Hfu Hs; [destruct Ha as [Hi _ _ _ _]; lia|]. cbn [find_loop]. pose proof (as_in _ _ _ _ Ha) as Hi. rewrite bind_dp.
  destruct (show_slot x t i Hf Ht Ha) as (v1 & E1 & P1 & W1 & L1 & Hd & B1). rewrite (bind_dvol _ _ _ _ _ E1). change (fr_ok FR_OK) with true. cbv iota. rewrite bind_dwnd, bind_lfnbuf. cbn [wd_vol wd_dp wd_lfn].
  rewrite (slots_cons _ _ _ Hi) in Hs. cbn [find_scan] in Hs. rewrite <- (as_ptr _ _ _ _ Ha), <- B1 in Hs. rewrite find_look_entry by done.
  destruct (find_look _ _ _ _ _ _ _ _) as [y| | |]; try discriminate Hs. rewrite bind_Ok in Hs. rewrite (bind_dlift _ _ _ y eq_refl). pose proof P1 as (F1 & _ & _). pose proof (peeked_geo _ _ P1) as G1.
  destruct y as [|a blk|a ord' sum' blk].
  - injection Hs as <-. eexists _, _, _. split; [reflexivity|]. split; [done|]. done.
  - injection Hs as <-. rewrite bind_set_dp. cbn [wd_vol wd_dp wd_lfn]. eexists _, _, _. split; [reflexivity|]. split; [done|]. split; [done|]. split; [done|]. split; [by apply attr_at|]. done.
  - rewrite bind_set_dp. cbn [wd_vol wd_dp wd_lfn]. set (d1 := d_blk blk (d_attr a (wd_dp x))). set (x1 := mk_work v1 d1 (wd_lfn x)).
    assert (at_slot (v_geo v1) t d1 i) as Ha1 by (rewrite G1; by apply attr_at). assert (table_at v1 (sclust (d_obj d1)) t) as Ht1 by (by apply (peeked_table (wd_vol x))).
    destruct (decide (i + 1 < nslots (x_geo x) t)) as [Hlt|Hge].
    + destruct (dir_next_ok cfuel false x1 t i F1 Ht1 Ha1) as (v2 & d2 & E2 & P2 & A2 & S2); [by cbn [x1 wd_vol]; rewrite G1|]. rewrite (m_bind_Ok _ _ _ _ _ E2). change (fr_ok FR_OK) with true. cbv iota.
      cbn [x1 wd_vol wd_dp wd_lfn] in *. pose proof S2 as (So & Sf & Sb). pose proof (peeked_trans _ _ _ P1 P2) as P12. pose proof P2 as (F2 & _ & _). pose proof (peeked_geo _ _ P2) as G2.
      destruct (IH (mk_work v2 d2 (wd_lfn x)) (i + 1) ord' sum' r) as (fr & v' & d' & E & P & K & R); cbn [wd_vol wd_dp wd_lfn].
      * done.
      * rewrite So. apply (peeked_table v1); [done|done|exact Ht1].
      * by rewrite G2.
      * rewrite G2, G1. lia.
      * rewrite Sf, Sb, (slots_peeked (wd_vol x) v2 (sclust (d_obj (wd_dp x)))) by done. exact Hs.
      * exists fr, v', d'. split; [exact E|]. split; [by eapply peeked_trans|]. split; [exact (keeps_trans _ _ _ (keeps_trans _ _ _ (attr_keeps a blk _) (same_keeps _ _ S2)) K)|].
        cbn [wd_vol] in R. rewrite G2, G1 in R. exact R.
    + destruct (dir_next_end cfuel false x1 t i (or_introl eq_refl) F1 Ht1 Ha1) as (v2 & d2 & E2 & P2 & Z2 & S2); [cbn [x1 wd_vol]; rewrite G1; lia|]. rewrite (m_bind_Ok _ _ _ _ _ E2).
      rewrite slots_end in Hs by lia. injection Hs as <-. cbn [x1 wd_vol wd_dp wd_lfn] in *. eexists _, _, _. split; [reflexivity|]. split; [by eapply peeked_trans|]. split; [|done].
      exact (keeps_trans _ _ _ (attr_keeps a blk _) (same_keeps _ _ S2)).
Qed.

Lemma dir_find_ok cfuel dfuel x t r : fat_ok (wd_vol x) -> table_at (wd_vol x) (sclust (d_obj (wd_dp x))) t -> (Z.to_nat (nslots (x_geo x) t) <= dfuel)%nat ->
  find_scan (d_fn (wd_dp x)) (wd_lfn x) (slots (wd_vol x) t) 0 255 255 NO_BLOCK = Ok r ->
  exists fr v' d', dir_find cfuel dfuel x = Ok (fr, mk_work v' d' (wd_lfn x)) /\ stands t x r fr v' d'.
Proof.
  intros Hf Ht Hfu Hs. pose proof (dsects_nonneg _ _ _ (fo_vol _ Hf) Ht) as Hpos. unfold dir_find. change 0 with (32 * 0) at 1.
  destruct (dir_sdi_ok x t 0 Hf Ht) as (v1 & d1 & E1 & P1 & A1 & S1); [unfold nslots; lia|]. rewrite (m_bind_Ok _ _ _ _ _ E1). change (fr_ok FR_OK) with true. cbv iota. rewrite bind_set_dp. cbn [wd_vol wd_dp wd_lfn].
  pose proof S1 as (So & Sf & _). pose proof P1 as (F1 & _ & _). pose proof (peeked_geo _ _ P1) as G1.
  destruct (find_loop_ok cfuel t dfuel (mk_work v1 (d_blk NO_BLOCK d1) (wd_lfn x)) 0 255 255 r) as (fr & v' & d' & E & P & K & R); cbn [wd_vol wd_dp wd_lfn d_obj d_blk d_fn blk_ofs].
  - done.
  - rewrite So. by apply (peeked_table (wd_vol x)).
  - rewrite G1. destruct A1. by split.
  - rewrite G1. lia.
  - rewrite Sf, (slots_peeked (wd_vol x) v1 (sclust (d_obj (wd_dp x)))) by done. exact Hs.
  - exists fr, v', d'. split; [exact E|]. split; [by eapply peeked_trans|]. split; [exact (keeps_trans _ _ _ (same_keeps _ _ S1) K)|]. cbn [wd_vol] in R. by rewrite G1 in R.
Qed.

(** *** Reading *)

Lemma bind_set_lfn {B} l (k : unit -> M (work_dir D) B) x : (set_lfn l ≫= k) x = k tt (mk_work (wd_vol x) (wd_dp x) l).
Proof. done. Qed.

Lemma read_loop_scan cfuel vol t fuel : forall x i ord sum r lfn', fat_ok (wd_vol x) -> table_at (wd_vol x) (sclust (d_obj (wd_dp x))) t -> at_slot (x_geo x) t (wd_dp x) i ->
  (Z.to_nat (nslots (x_geo x) t - i) <= fuel)%nat -> read_scan vol (wd_lfn x) (drop (Z.to_nat i) (slots (wd_vol x) t)) i ord sum (blk_ofs (wd_dp x)) = Ok (r, lfn') ->
  exists fr v' d', read_dir_loop cfuel fuel vol ord sum x = Ok (fr, mk_work v' d' lfn') /\ stands t x r fr v' d'.
Proof.
  induction fuel as [|fuel IH]; intros x i ord sum r lfn' Hf Ht Ha Hfu Hs; [destruct Ha as [Hi _ _ _ _]; lia|]. cbn [read_dir_loop]. pose proof (as_in _ _ _ _ Ha) as Hi. rewrite bind_dp.
  destruct (show_slot x t i Hf Ht Ha) as (v1 & E1 & P1 & W1 & L1 & Hd & B1). rewrite (bind_dvol _ _ _ _ _ E1). change (fr_ok FR_OK) with true. cbv iota. rewrite bind_dwnd, bind_lfnbuf. cbn [wd_vol wd_dp wd_lfn].
  rewrite (slots_cons _ _ _ Hi) in Hs. cbn [read_scan] in Hs. rewrite <- (as_ptr _ _ _ _ Ha), <- B1 in Hs. rewrite read_look_entry by done.
  destruct (read_look _ _ _ _ _ _ _ _) as [[y l1]| | |]; try discriminate Hs. rewrite bind_Ok in Hs. rewrite (bind_dlift _ _ _ (y, l1) eq_refl). cbn [fst snd] in *. pose proof P1 as (F1 & _ & _). pose proof (peeked_geo _ _ P1) as G1.
  rewrite bind_set_lfn. cbn [wd_vol wd_dp]. destruct y as [|a blk|a ord' sum' blk].
  - injection Hs as <- <-. eexists _, _, _. split; [reflexivity|]. split; [done|]. done.
  - injection Hs as <- <-. rewrite bind_set_dp. cbn [wd_vol wd_dp wd_lfn]. eexists _, _, _. split; [reflexivity|]. split; [done|]. split; [done|]. split; [done|]. split; [by apply attr_at|]. done.
  - rewrite bind_set_dp. cbn [wd_vol wd_dp wd_lfn]. set (d1 := d_blk blk (d_attr a (wd_dp x))). set (x1 := mk_work v1 d1 l1).
    assert (at_slot (v_geo v1) t d1 i) as Ha1 by (rewrite G1; by apply attr_at). assert (table_at v1 (sclust (d_obj d1)) t) as Ht1 by (by apply (peeked_table (wd_vol x))).
    destruct (decide (i + 1 < nslots (x_geo x) t)) as [Hlt|Hge].
    + destruct (dir_next_ok cfuel false x1 t i F1 Ht1 Ha1) as (v2 & d2 & E2 & P2 & A2 & S2); [by cbn [x1 wd_vol]; rewrite G1|]. rewrite (m_bind_Ok _ _ _ _ _ E2). change (fr_ok FR_OK) with true. cbv iota.
      cbn [x1 wd_vol wd_dp wd_lfn] in *. pose proof S2 as (So & Sf & Sb). pose proof (peeked_trans _ _ _ P1 P2) as P12. pose proof P2 as (F2 & _ & _). pose proof (peeked_geo _ _ P2) as G2.
      assert (table_at v2 (sclust (d_obj d2)) t) as Ht2 by (rewrite So; by apply (peeked_table v1)). rewrite bind_dp. cbn [wd_dp].
      destruct (sect_nonzero (mk_work v2 d2 l1) t (i + 1)) as [Hnz _]; cbn [wd_vol wd_dp]; [done|done|by rewrite G2|]. cbn [wd_dp] in Hnz. rewrite (proj2 (Z.eqb_neq _ 0)) by lia.
      destruct (IH (mk_work v2 d2 l1) (i + 1) ord' sum' r lfn') as (fr & v' & d' & E & P & K & R); cbn [wd_vol wd_dp wd_lfn].
      * done.
      * done.
      * by rewrite G2.
      * rewrite G2, G1. lia.
      * rewrite Sb, (slots_peeked (wd_vol x) v2 (sclust (d_obj (wd_dp x)))) by done. exact Hs.
      * exists fr, v', d'. split; [exact E|]. split; [by eapply peeked_trans|]. split; [exact (keeps_trans _ _ _ (keeps_trans _ _ _ (attr_keeps a blk _) (same_keeps _ _ S2)) K)|].
        cbn [wd_vol] in R. rewrite G2, G1 in R. exact R.
    + destruct (dir_next_end cfuel false x1 t i (or_introl eq_refl) F1 Ht1 Ha1) as (v2 & d2 & E2 & P2 & Z2 & S2); [cbn [x1 wd_vol]; rewrite G1; lia|]. rewrite (m_bind_Ok _ _ _ _ _ E2).
      rewrite slots_end in Hs by lia. injection Hs as <- <-. cbn [x1 wd_vol wd_dp wd_lfn] in *. eexists _, _, _. split; [reflexivity|]. split; [by eapply peeked_trans|]. split; [|done].
      exact (keeps_trans _ _ _ (attr_keeps a blk _) (same_keeps _ _ S2)).
Qed.

(** Reading from the current position: the object is left at the entry found,
    or terminated. *)
Lemma dir_read_ok cfuel dfuel vol x t i r lfn' : fat_ok (wd_vol x) -> table_at (wd_vol x) (sclust (d_obj (wd_dp x))) t -> at_slot (x_geo x) t (wd_dp x) i ->
  (Z.to_nat (nslots (x_geo x) t) <= dfuel)%nat -> read_scan vol (wd_lfn x) (drop (Z.to_nat i) (slots (wd_vol x) t)) i 255 255 (blk_ofs (wd_dp x)) = Ok (r, lfn') ->
  exists fr v' d', dir_read cfuel dfuel vol x = Ok (fr, mk_work v' d' lfn') /\ stands t x r fr v' d' /\ (r = None -> d_sect d' = 0).
Proof.
  intros Hf Ht Ha Hfu Hs. destruct (sect_nonzero x t i Hf Ht Ha) as [Hnz _]. unfold dir_read. rewrite bind_dp, (proj2 (Z.eqb_neq _ 0)) by lia. pose proof (as_in _ _ _ _ Ha) as Hi.
  destruct (read_loop_scan cfuel vol t dfuel x i 255 255 r lfn' Hf Ht Ha ltac:(lia) Hs) as (fr & v' & d' & E & P & K & R). rewrite (m_bind_Ok _ _ _ _ _ E). destruct r as [[[k a] blk]|].
  - destruct R as (-> & R). eexists _, _, _. split; [reflexivity|]. split; [|done]. split; [done|]. split; [done|]. done.
  - subst fr. eexists _, _, _. split; [reflexivity|]. cbn [wd_vol wd_dp wd_lfn]. split; [|done]. split; [done|]. split; [|done]. destruct K as [K1 K2]. by split.
Qed.

End Refine.
