(* ===== verification/FatItems.v ===== *)
(** * FatItems: directories as lists of objects

    The slots of a directory hold objects: a short entry, with the entries of
    its long name in front if it has one, between deleted entries and volume
    labels. The searches find the first object that bears the name, and
    reading visits the objects in order. *)

From Stdlib Require Import ZArith Lia Bool.
From stdpp Require Import base list list_numbers.
From S2P Require Import Prelude CLib Hw FatUni Fat FatFile FatRead FatSync FatLfn FatDir FatScan.
From stdpp Require Import options.

(** ** Slots *)

Definition slot_data (e : list Z) : Prop := length e = 32%nat /\ Forall is_byte e.

(** The checksum of a short name. *)
Definition sfn_sum (s : list Z) : Z := match sum_sfn s 0 with Ok x => x | _ => 0 end.

Lemma sum_loop_ok n : forall b i sum, 0 <= i -> i + Z.of_nat n <= zlen b -> is_byte sum -> exists r, sum_loop n b i sum = Ok r /\ is_byte r.
Proof.
  induction n as [|n IH]; intros b i sum Hi Hn Hs; cbn [sum_loop]; [by exists sum|]. rewrite rd_in by lia. rewrite bind_Ok. apply IH; [lia|lia|]. apply u8_bound.
Qed.

Lemma sum_sfn_ok s : 11 <= zlen s -> sum_sfn s 0 = Ok (sfn_sum s) /\ is_byte (sfn_sum s).
Proof.
  intros Hl. destruct (sum_loop_ok 11 s 0 0) as (r & E & Hr); [lia|lia|unfold is_byte; lia|]. unfold sfn_sum, sum_sfn. by rewrite E.
Qed.

(** The checksum depends on the name only. *)
Lemma sum_loop_ext n : forall b b' i sum, (forall k, i <= k < i + Z.of_nat n -> rd b k = rd b' k) -> sum_loop n b i sum = sum_loop n b' i sum.
Proof.
  induction n as [|n IH]; intros b b' i sum Hk; cbn [sum_loop]; [done|]. rewrite (Hk i) by lia. destruct (rd b' i) as [c| | |]; [rewrite !bind_Ok|done..]. apply IH. intros k Hk'. apply Hk. lia.
Qed.

(** A name of 1 to 255 characters. *)
Definition wname (w : list Z) : Prop := Forall (fun c => 0 < c < 65535) w /\ 0 < zlen w <= 255.

Lemma named_wname w lfn : named w lfn -> wname w.
Proof. intros [? ? _ _ _]. done. Qed.

Lemma wname_named w : wname w -> named w (name_buf w).
Proof.
  intros [Hc Hl]. unfold name_buf. split; [done|done|rewrite length_app, length_replicate; lia| |].
  - apply Forall_app. split; [|apply Forall_replicate; lia]. eapply Forall_impl; [exact Hc|]. cbn. lia.
  - intros i Hi. unfold name_unit. destruct (Z.ltb_spec i (zlen w)); [by rewrite get_app_l by lia|]. rewrite get_app_r by lia. rewrite (proj2 (Z.eqb_eq i (zlen w))) by lia.
    replace (i - zlen w) with 0 by lia. unfold get. destruct (256 - length w)%nat eqn:E; [lia|done].
Qed.

(** Equal up to case. *)
Definition same_name (w w2 : list Z) : bool := bool_decide (upper <$> w = upper <$> w2).

Lemma same_name_iff w w2 : same_name w w2 = true <-> length w2 = length w /\ forall i, 0 <= i < zlen w -> upper (get w i) = upper (get w2 i).
Proof.
  unfold same_name. rewrite bool_decide_eq_true. split.
  - intros E. assert (length w2 = length w) as L by (apply (f_equal length) in E; rewrite !length_fmap in E; done). split; [done|]. intros i Hi. apply (f_equal (fun l => l !! Z.to_nat i)) in E.
    rewrite !list_lookup_fmap in E. destruct (lookup_lt_is_Some_2 w (Z.to_nat i)) as [a Ea]; [lia|]. destruct (lookup_lt_is_Some_2 w2 (Z.to_nat i)) as [b Eb]; [lia|].
    rewrite Ea, Eb in E. injection E as E. unfold get. by rewrite (nth_lookup_Some _ _ _ _ Ea), (nth_lookup_Some _ _ _ _ Eb).
  - intros [L Hi]. apply list_eq. intros i. rewrite !list_lookup_fmap. destruct (w !! i) as [a|] eqn:Ea.
    + pose proof (lookup_lt_Some _ _ _ Ea). destruct (lookup_lt_is_Some_2 w2 i) as [b Eb]; [lia|]. rewrite Eb. cbn. f_equal. specialize (Hi (Z.of_nat i) ltac:(lia)). unfold get in Hi.
      by rewrite Nat2Z.id, (nth_lookup_Some _ _ _ _ Ea), (nth_lookup_Some _ _ _ _ Eb) in Hi.
    + apply lookup_ge_None in Ea. by rewrite lookup_ge_None_2 by lia.
Qed.

(** All the entries of a long name agree with a name exactly when the names do. *)
Lemma match_entries w w2 lfn sum ls : wname w -> named w2 lfn -> entry_set w sum 0 (Z.to_nat (n_entries w)) ls -> match_set 0 lfn ls = Ok (same_name w w2).
Proof.
  intros Hw Hn Hs. pose proof (wname_named w Hw) as Hn1. assert (0 <= n_entries w) by (unfold n_entries; dlia).
  destruct (match_set_ok w _ w2 lfn sum 0 (Z.to_nat (n_entries w)) Hn1 Hn ls) as (r & E & R); [lia|done|]. rewrite E. f_equal. apply eq_bool_prop_intro. rewrite !Is_true_true, R, same_name_iff, Z2Nat.id by done.
  by apply (agree_all w _ w2 lfn Hn1 Hn).
Qed.

(** ** Objects *)

Inductive item := Gone (e : list Z) | Label (e : list Z) | Named (long : option (list Z)) (ls : list (list Z)) (s : list Z).

Definition attr_of (e : list Z) : Z := Z.land (get e DIR_Attr) AM_MASK.

Definition item_ok (it : item) : Prop :=
  match it with
  | Gone e => slot_data e /\ get e 0 = DDEM
  | Label e => slot_data e /\ get e 0 <> 0 /\ get e 0 <> DDEM /\ Z.land (attr_of e) 223 = AM_VOL
  | Named long ls s =>
      slot_data s /\ get s 0 <> 0 /\ get s 0 <> DDEM /\ has (attr_of s) AM_VOL = false /\ Forall slot_data ls /\
      match long with None => ls = [] | Some w => wname w /\ entry_set w (sfn_sum s) 0 (Z.to_nat (n_entries w)) ls end
  end.

(** The slots of an object. *)
Definition raw (it : item) : list (list Z) := match it with Gone e | Label e => [e] | Named _ ls s => ls ++ [s] end.

Definition unused (e : list Z) : Prop := slot_data e /\ get e 0 = 0.

(** The slots [es] hold the objects [its]; the rest was never used. *)
Definition laid (its : list item) (es : list (list Z)) : Prop :=
  Forall item_ok its /\ exists z, es = concat (raw <$> its) ++ z /\ Forall unused z.

Lemma rd_slot e o : slot_data e -> 0 <= o < 32 -> rd e (0 + o) = Ok (get e o).
Proof. intros [L _] Ho. rewrite rd_in by lia. done. Qed.

Section Find.
(** The name that is looked for: short name with status, and long name. *)
Context (fn lfn w2 : list Z) (fl : Z).
Context (Hfn : length fn = 12%nat) (Hfl : get fn NSFLAG = fl) (Hn : named w2 lfn).
#[local] Set Default Proof Using "Type*".

Definition long_match (long : option (list Z)) : bool := match long with Some w => negb (has fl NS_NOLFN) && same_name w w2 | None => false end.
Definition short_match (s : list Z) : bool := negb (has fl NS_LOSS) && bool_decide (take 11 s = take 11 fn).

Definition bears (it : item) : bool := match it with Named long _ s => long_match long || short_match s | _ => false end.

(** Where the block of an object begins that was found at slot [i]. *)
Definition block_of (it : item) (i : Z) : Z :=
  match it with Named (Some _) _ _ => if has fl NS_NOLFN then NO_BLOCK else 32 * i | _ => NO_BLOCK end.

(** The first object with the name: slot of its short entry, its attribute and block. *)
Fixpoint find_items (its : list item) (i : Z) : option (Z * Z * Z) :=
  match its with
  | [] => None
  | it :: its =>
      match it with
      | Named long ls s => if bears it then Some (i + zlen ls, attr_of s, block_of it i) else find_items its (i + zlen ls + 1)
      | _ => find_items its (i + 1)
      end
  end.

Lemma rd_flag : rd fn NSFLAG = Ok fl.
Proof. rewrite rd_in by (unfold NSFLAG; lia). by rewrite Hfl. Qed.

Lemma scan_unused z i ord sum blk : Forall unused z -> find_scan fn lfn z i ord sum blk = Ok None.
Proof.
  intros Hz. destruct z as [|e z]; [done|]. apply Forall_cons in Hz as [[He E0] _]. cbn [find_scan]. unfold find_look, DIR_Name. rewrite (rd_slot e 0 He) by lia. by rewrite bind_Ok, E0.
Qed.

(** An entry that is passed. *)
Lemma scan_pass e es i ord sum blk a ord' sum' blk' : find_look fn lfn e 0 (32 * i) ord sum blk = Ok (Pass a ord' sum' blk') ->
  find_scan fn lfn (e :: es) i ord sum blk = find_scan fn lfn es (i + 1) ord' sum' blk'.
Proof. intros E. cbn [find_scan]. by rewrite E, bind_Ok. Qed.

Lemma look_gone e i ord sum blk : slot_data e -> get e 0 = DDEM -> exists a, find_look fn lfn e 0 (32 * i) ord sum blk = Ok (Pass a 255 sum NO_BLOCK).
Proof.
  intros He E0. exists (attr_of e). unfold find_look, DIR_Name, DIR_Attr. rewrite !rd_slot by (done || lia). rewrite !bind_Ok, E0. done.
Qed.

Lemma look_label e i ord sum blk : slot_data e -> get e 0 <> 0 -> Z.land (attr_of e) 223 = AM_VOL -> exists a, find_look fn lfn e 0 (32 * i) ord sum blk = Ok (Pass a 255 sum NO_BLOCK).
Proof.
  intros He E0 Ea. exists (attr_of e). unfold find_look, DIR_Name, DIR_Attr. rewrite !rd_slot by (done || lia). rewrite !bind_Ok. rewrite (proj2 (Z.eqb_neq _ 0) E0). change (Z.land (get e 11) AM_MASK) with (attr_of e). cbv zeta.
  assert (has (attr_of e) AM_VOL && negb (attr_of e =? AM_LFN) = true) as ->; [|by rewrite orb_true_r].
  assert (0 <= attr_of e < 64) as Hb by (unfold attr_of, AM_MASK; change 63 with (Z.ones 6); rewrite Z.land_ones by lia; apply Z.mod_pos_bound; lia).
  assert (forallb (fun a => negb (Z.land a 223 =? 8) || (has a AM_VOL && negb (a =? AM_LFN))) (seqZ 0 64) = true) as F by (vm_compute; reflexivity).
  rewrite forallb_forall in F. specialize (F (attr_of e)). rewrite Ea in F. apply F, list_elem_of_In, elem_of_seqZ. lia.
Qed.

(** One entry of a long name. *)
Lemma look_long w sum e k i ord sum0 blk : wname w -> entry_for w k sum e 0 -> 1 <= k <= n_entries w -> slot_data e -> has fl NS_NOLFN = false ->
  exists r, cmp_lfn lfn e 0 = Ok r /\ find_look fn lfn e 0 (32 * i) ord sum0 blk =
    Ok (Pass AM_LFN (if (if k =? n_entries w then true else (k =? ord) && (sum0 =? sum)) && r then k - 1 else 255) (if k =? n_entries w then sum else sum0) (if k =? n_entries w then 32 * i else blk)).
Proof.
  intros Hw He Hk Hs Hno. pose proof (wname_named w Hw) as Hn1. destruct (cmp_lfn_ok w _ w2 lfn Hn1 Hn k sum e 0 Hk He) as (r & Er & _). exists r. split; [done|].
  destruct (ord_range w k (proj2 Hw) Hk) as [Hk2 Hlt]. pose proof (ord_bits k Hk2) as (_ & _ & _ & B4 & B5 & B6 & B7). destruct He as [_ _ E0 E1 E2 _ _]. rewrite Z.add_0_l in E0, E1, E2.
  assert (zlen w <=? 13 * k = (k =? n_entries w)) as Ez. { destruct (Z.leb_spec (zlen w) (13 * k)), (Z.eqb_spec k (n_entries w)); try done; unfold n_entries in *; exfalso; dlia. }
  rewrite Ez in E0. unfold LDIR_Ord in E0. unfold find_look, DIR_Name, DIR_Attr, LDIR_Chksum. rewrite !rd_slot by (done || lia). rewrite !bind_Ok. unfold LDIR_Attr, LDIR_Chksum in E1, E2. rewrite E1, E2.
  change (Z.land AM_LFN AM_MASK) with AM_LFN. change (has AM_LFN AM_VOL && negb (AM_LFN =? AM_LFN)) with false. rewrite orb_false_r. change (AM_LFN =? AM_LFN) with true. cbv iota zeta.
  assert (get e 0 =? 0 = false /\ get e 0 =? DDEM = false) as [-> ->]. { rewrite E0. unfold DDEM. split; apply Z.eqb_neq; destruct (k =? n_entries w); lia. }
  rewrite rd_flag, bind_Ok, Hno. cbv iota. rewrite ?bind_Ok. unfold lfn_start. rewrite E0. destruct (k =? n_entries w).
  - rewrite B6, B4, !Z.eqb_refl. cbn [andb]. rewrite Er, bind_Ok. destruct r; [|done]. rewrite u8_small by lia. done.
  - rewrite B7. destruct ((k =? ord) && (sum0 =? sum)) eqn:Eb; cbn [andb]; [|done]. apply andb_true_iff in Eb as [Eo _]. apply Z.eqb_eq in Eo as <-. rewrite Er, bind_Ok. destruct r; [|done]. rewrite u8_small by lia. done.
Qed.

(** The entries [k] down to 1: whether they all matched is seen in [ord]. *)
Lemma scan_set w sum es : wname w -> has fl NS_NOLFN = false -> forall k ls i ord sum0 blk, entry_set w sum 0 k ls -> Forall slot_data ls -> Z.of_nat k <= n_entries w ->
  (Z.of_nat k = n_entries w \/ (sum0 = sum /\ (ord = Z.of_nat k \/ ord = 255))) ->
  exists r, match_set 0 lfn ls = Ok r /\ find_scan fn lfn (ls ++ es) i ord sum0 blk =
    find_scan fn lfn es (i + zlen ls) (if (if Z.of_nat k =? n_entries w then true else Z.of_nat k =? ord) && r then 0 else 255) sum (if Z.of_nat k =? n_entries w then 32 * i else blk).
Proof.
  intros Hw Hno. assert (0 < n_entries w) as Hpos by (destruct Hw as [_ ?]; unfold n_entries; dlia).
  induction k as [|k IH]; intros [|e ls] i ord sum0 blk Hset Hsl Hk Hst; cbn [entry_set] in Hset; try done.
  - exists true. split; [done|]. cbn [app length]. rewrite Z.add_0_r. change (Z.of_nat 0) with 0 in *. rewrite (proj2 (Z.eqb_neq 0 (n_entries w))) by lia.
    destruct Hst as [?|[-> Ho]]; [lia|]. destruct Ho as [->| ->]; done.
  - destruct Hset as [He Hset]. apply Forall_cons in Hsl as [Hs1 Hsl]. destruct (look_long w sum e (Z.of_nat (S k)) i ord sum0 blk Hw He ltac:(lia) Hs1 Hno) as (r1 & Er & El).
    cbn [match_set app]. rewrite Er, bind_Ok. rewrite (scan_pass _ _ _ _ _ _ _ _ _ _ El). assert (Z.of_nat k =? n_entries w = false) as Ek by (apply Z.eqb_neq; lia).
    set (good := (if Z.of_nat (S k) =? n_entries w then true else (Z.of_nat (S k) =? ord) && (sum0 =? sum))). assert ((if Z.of_nat (S k) =? n_entries w then sum else sum0) = sum) as Esum.
    { destruct (Z.eqb_spec (Z.of_nat (S k)) (n_entries w)); [done|]. by destruct Hst as [?|[-> _]]. }
    rewrite Esum. destruct (IH ls (i + 1) (if good && r1 then Z.of_nat (S k) - 1 else 255) sum (if Z.of_nat (S k) =? n_entries w then 32 * i else blk) Hset Hsl ltac:(lia)) as (r & Em & Es).
    { right. split; [done|]. destruct (good && r1); [left; lia|by right]. }
    exists (if r1 then r else false). split; [destruct r1; [exact Em|done]|]. rewrite Es, Ek. cbn [length]. replace (i + 1 + zlen ls) with (i + Z.of_nat (S (length ls))) by lia. f_equal.
    assert (good = if Z.of_nat (S k) =? n_entries w then true else Z.of_nat (S k) =? ord) as <-.
    { unfold good. destruct (Z.eqb_spec (Z.of_nat (S k)) (n_entries w)); [done|]. destruct Hst as [?|[-> _]]; [done|]. by rewrite Z.eqb_refl, andb_true_r. }
    destruct good, r1; cbn [andb]; try (rewrite (proj2 (Z.eqb_neq (Z.of_nat k) 255)) by (destruct (ord_range w (Z.of_nat (S k)) (proj2 Hw) ltac:(lia)); lia); done).
    by rewrite (proj2 (Z.eqb_eq (Z.of_nat k) (Z.of_nat (S k) - 1))) by lia.
Qed.

(** Without the search for long names their entries are passed. *)
Lemma scan_set_nolfn w sum es : wname w -> has fl NS_NOLFN = true -> forall k ls i ord sum0 blk, entry_set w sum 0 k ls -> Forall slot_data ls -> Z.of_nat k <= n_entries w ->
  find_scan fn lfn (ls ++ es) i ord sum0 blk = find_scan fn lfn es (i + zlen ls) ord sum0 blk.
Proof.
  intros Hw Hno. induction k as [|k IH]; intros [|e ls] i ord sum0 blk Hset Hsl Hk; cbn [entry_set] in Hset; try done; cbn [app length]; [by rewrite Z.add_0_r|].
  destruct Hset as [He Hset]. apply Forall_cons in Hsl as [Hs1 Hsl]. rewrite (scan_pass _ _ _ _ _ _ AM_LFN ord sum0 blk); [rewrite (IH ls) by (done || lia); f_equal; lia|].
  destruct (ord_range w (Z.of_nat (S k)) (proj2 Hw) ltac:(lia)) as [Hk2 _]. destruct He as [_ _ E0 E1 _ _ _]. rewrite Z.add_0_l in E0, E1. unfold LDIR_Ord, LDIR_Attr in E0, E1.
  unfold find_look, DIR_Name, DIR_Attr. rewrite !rd_slot by (done || lia). rewrite !bind_Ok, E1.
  change (Z.land AM_LFN AM_MASK) with AM_LFN. change (has AM_LFN AM_VOL && negb (AM_LFN =? AM_LFN)) with false. rewrite orb_false_r. change (AM_LFN =? AM_LFN) with true. cbv iota zeta.
  assert (get e 0 =? 0 = false /\ get e 0 =? DDEM = false) as [-> ->]. { rewrite E0. unfold DDEM. split; apply Z.eqb_neq; destruct (_ <=? _); lia. }
  by rewrite rd_flag, bind_Ok, Hno.
Qed.

(** The short entry. *)
Lemma look_short s i ord sum blk : slot_data s -> get s 0 <> 0 -> get s 0 <> DDEM -> has (attr_of s) AM_VOL = false ->
  find_look fn lfn s 0 (32 * i) ord sum blk = Ok (if ((ord =? 0) && (sum =? sfn_sum s)) || short_match s then Hit (attr_of s) blk else Pass (attr_of s) 255 sum NO_BLOCK).
Proof.
  intros Hs N0 N1 Ha. pose proof Hs as [L _]. destruct (sum_sfn_ok s) as [Es _]; [lia|]. unfold find_look, DIR_Name. rewrite !rd_slot by (done || (unfold DIR_Attr; lia)). rewrite !bind_Ok.
  rewrite (proj2 (Z.eqb_neq _ 0) N0), (proj2 (Z.eqb_neq _ DDEM) N1). fold (attr_of s). cbv zeta. rewrite Ha. cbn [andb orb].
  assert (attr_of s =? AM_LFN = false) as ->. { apply Z.eqb_neq. intros E. by rewrite E in Ha. }
  assert ((if ord =? 0 then s' ← sum_sfn s 0; Ok (sum =? s') else Ok false) = Ok ((ord =? 0) && (sum =? sfn_sum s))) as ->.
  { destruct (ord =? 0); [|done]. by rewrite Es, bind_Ok. }
  rewrite bind_Ok. destruct ((ord =? 0) && (sum =? sfn_sum s)); cbn [orb]; [done|]. rewrite rd_flag, bind_Ok. unfold short_match. destruct (has fl NS_LOSS); cbn [negb andb]; [by rewrite bind_Ok|].
  unfold memcmp. destruct (memcmp_loop_spec (Z.to_nat 11) 0 (drop (Z.to_nat 0) s) fn) as (r & Er & Hr); [lia|rewrite length_drop; lia|lia|]. rewrite Er, !bind_Ok. rewrite drop_0 in Hr.
  assert ((r =? 0) = bool_decide (take 11 s = take 11 fn)) as ->; [|by destruct (bool_decide _)]. apply eq_bool_prop_intro. rewrite !Is_true_true, Z.eqb_eq, bool_decide_eq_true, Hr. change (0 + Z.of_nat (Z.to_nat 11)) with 11. split.
  - intros Hj. apply get_eq_ext; [rewrite !length_take; lia|]. intros j Hj'. rewrite length_take in Hj'. rewrite !get_take by lia. apply Hj. lia.
  - intros E j Hj. apply (f_equal (fun l => get l j)) in E. by rewrite !get_take in E by lia.
Qed.

(** The scan finds the first object with the name. *)
Lemma find_scan_items its z : Forall item_ok its -> Forall unused z -> forall i sum,
  find_scan fn lfn (concat (raw <$> its) ++ z) i 255 sum NO_BLOCK = Ok (find_items its i).
Proof.
  intros Hits Hz. induction Hits as [|it its Hit Hits IH]; intros i sum; [by apply scan_unused|]. cbn [fmap list_fmap concat]. destruct it as [e|e|long ls s]; cbn [raw find_items].
  - destruct Hit as [He E0]. destruct (look_gone e i 255 sum NO_BLOCK He E0) as [a Ea]. cbn [app]. by rewrite (scan_pass _ _ _ _ _ _ _ _ _ _ Ea), IH.
  - destruct Hit as (He & E0 & _ & Ea). destruct (look_label e i 255 sum NO_BLOCK He E0 Ea) as [a Ea']. cbn [app]. by rewrite (scan_pass _ _ _ _ _ _ _ _ _ _ Ea'), IH.
  - destruct Hit as (Hs & N0 & N1 & Ha & Hls & Hlong). rewrite <- !app_assoc. cbn [app].
    assert (exists ord sum' , find_scan fn lfn (ls ++ s :: concat (raw <$> its) ++ z) i 255 sum NO_BLOCK = find_scan fn lfn (s :: concat (raw <$> its) ++ z) (i + zlen ls) ord sum' (block_of (Named long ls s) i) /\
      (ord =? 0) && (sum' =? sfn_sum s) = long_match long) as (ord & sum' & -> & Eo).
    { unfold block_of, long_match. destruct long as [w|]; [|subst ls; exists 255, sum; cbn [app length]; by rewrite Z.add_0_r].
      destruct Hlong as [Hw Hset]. assert (0 < n_entries w) as Hpos by (destruct Hw as [_ ?]; unfold n_entries; dlia). destruct (has fl NS_NOLFN) eqn:Eno; cbn [negb andb].
      - exists 255, sum. split; [|done]. apply (scan_set_nolfn w (sfn_sum s) _ Hw Eno (Z.to_nat (n_entries w))); [done|done|lia].
      - destruct (scan_set w (sfn_sum s) (s :: concat (raw <$> its) ++ z) Hw Eno (Z.to_nat (n_entries w)) ls i 255 sum NO_BLOCK Hset Hls ltac:(lia) ltac:(left; lia)) as (r & Em & Es).
        rewrite (match_entries w w2 lfn _ ls Hw Hn Hset) in Em. injection Em as <-. rewrite Z2Nat.id, Z.eqb_refl in Es by lia. cbn [andb] in Es. eexists _, _. split; [exact Es|].
        destruct (same_name w w2); cbn [Z.eqb andb]; [by rewrite Z.eqb_refl|done]. }
    cbn [find_scan]. rewrite look_short by done. rewrite bind_Ok, Eo. cbn [bears]. destruct (long_match long || short_match s); [done|]. rewrite IH. f_equal.
Qed.

End Find.

(** ** Reading the objects in order *)

Definition units (lfn : list Z) : Prop := length lfn = 256%nat /\ Forall (fun c => 0 <= c < 65536) lfn.

(** An object that is delivered: not one of the dot entries. *)
Definition delivered (it : item) : bool := match it with Named _ _ s => negb (get s 0 =? 46) | _ => false end.

(** The first object delivered, with the slot where it begins and what follows it. *)
Fixpoint next_item (its : list item) (i : Z) : option (Z * item * list item) :=
  match its with
  | [] => None
  | it :: its => if delivered it then Some (i, it, its) else next_item its (i + zlen (raw it))
  end.

Definition read_result (o : option (Z * item * list item)) : option (Z * Z * Z) :=
  match o with
  | Some (i, Named long ls s, _) => Some (i + zlen ls, attr_of s, match long with Some _ => 32 * i | None => NO_BLOCK end)
  | _ => None
  end.

Lemma rscan_pass lfn lfn' e es i ord sum blk a ord' sum' blk' : read_look false lfn e 0 (32 * i) ord sum blk = Ok (Pass a ord' sum' blk', lfn') ->
  read_scan false lfn (e :: es) i ord sum blk = read_scan false lfn' es (i + 1) ord' sum' blk'.
Proof. intros E. cbn [read_scan]. by rewrite E, bind_Ok. Qed.

Lemma attr_bound e : 0 <= attr_of e < 64.
Proof. unfold attr_of, AM_MASK. change 63 with (Z.ones 6). rewrite Z.land_ones by lia. apply Z.mod_pos_bound. lia. Qed.

(** An entry without a long name that is passed or found. *)
Lemma rlook_plain lfn e i ord sum blk : slot_data e -> get e 0 <> 0 -> attr_of e <> AM_LFN \/ get e 0 = DDEM ->
  read_look false lfn e 0 (32 * i) ord sum blk =
    Ok (if (get e 0 =? DDEM) || (get e 0 =? 46) || (Z.land (attr_of e) 223 =? AM_VOL) then Pass (attr_of e) 255 sum blk
        else Hit (attr_of e) (if (ord =? 0) && (sum =? sfn_sum e) then blk else NO_BLOCK), lfn).
Proof.
  intros He N0 Ha. pose proof He as [L _]. destruct (sum_sfn_ok e) as [Es _]; [lia|]. unfold read_look, DIR_Name. rewrite !rd_slot by (done || (unfold DIR_Attr; lia)). rewrite !bind_Ok.
  rewrite (proj2 (Z.eqb_neq _ 0) N0). fold (attr_of e). cbv zeta. replace (negb (eqb (Z.land (attr_of e) 223 =? AM_VOL) false)) with (Z.land (attr_of e) 223 =? AM_VOL) by (by destruct (_ =? AM_VOL)).
  destruct ((get e 0 =? DDEM) || (get e 0 =? 46) || (Z.land (attr_of e) 223 =? AM_VOL)) eqn:Eb; [done|].
  destruct Ha as [Ha|Ha]; [|by rewrite Ha in Eb]. rewrite (proj2 (Z.eqb_neq _ _) Ha).
  destruct (ord =? 0); [by rewrite Es, !bind_Ok|by rewrite !bind_Ok].
Qed.

(** One entry of a long name. *)
Lemma rlook_long w sum e k i ord sum0 blk lfn : wname w -> entry_for w k sum e 0 -> 1 <= k <= n_entries w -> slot_data e -> length lfn = 256%nat ->
  k = n_entries w \/ (ord = k /\ sum0 = sum) ->
  exists lfn', pick_lfn lfn e 0 = Ok (true, lfn') /\ length lfn' = 256%nat /\
    read_look false lfn e 0 (32 * i) ord sum0 blk = Ok (Pass AM_LFN (k - 1) sum (if k =? n_entries w then 32 * i else blk), lfn').
Proof.
  intros Hw He Hk Hs Hl Hst. pose proof (wname_named w Hw) as Hn1. destruct (pick_lfn_ok w _ k sum e 0 lfn Hn1 Hk He Hl) as (lfn' & Ep & L' & _). exists lfn'. split; [done|]. split; [done|].
  destruct (ord_range w k (proj2 Hw) Hk) as [Hk2 Hlt]. pose proof (ord_bits k Hk2) as (_ & _ & _ & B4 & B5 & B6 & B7). destruct He as [_ _ E0 E1 E2 _ _]. rewrite Z.add_0_l in E0, E1, E2.
  assert (zlen w <=? 13 * k = (k =? n_entries w)) as Ez. { destruct (Z.leb_spec (zlen w) (13 * k)), (Z.eqb_spec k (n_entries w)); try done; unfold n_entries in *; exfalso; dlia. }
  rewrite Ez in E0. unfold LDIR_Ord in E0. unfold read_look, DIR_Name, DIR_Attr, LDIR_Chksum. rewrite !rd_slot by (done || lia). rewrite !bind_Ok. unfold LDIR_Attr, LDIR_Chksum in E1, E2. rewrite E1, E2.
  change (Z.land AM_LFN AM_MASK) with AM_LFN. change (negb (eqb (Z.land AM_LFN 223 =? AM_VOL) false)) with false. change (AM_LFN =? AM_LFN) with true. rewrite orb_false_r. cbv iota zeta.
  assert (get e 0 =? 0 = false /\ get e 0 =? DDEM = false /\ get e 0 =? 46 = false) as (-> & -> & ->). { rewrite E0. unfold DDEM. repeat split; apply Z.eqb_neq; destruct (k =? n_entries w); lia. }
  cbn [orb]. rewrite ?bind_Ok. unfold lfn_start. rewrite E0. destruct (Z.eqb_spec k (n_entries w)) as [Ek|Nk].
  - rewrite B6, B4, !Z.eqb_refl. cbn [andb]. rewrite Ep, bind_Ok. cbn [fst snd]. rewrite u8_small by lia. done.
  - destruct Hst as [?|[-> ->]]; [done|]. rewrite B7, !Z.eqb_refl. cbn [andb]. rewrite Ep, bind_Ok. cbn [fst snd]. rewrite u8_small by lia. done.
Qed.

Lemma rscan_set w sum es : wname w -> forall k ls i ord sum0 blk lfn, entry_set w sum 0 k ls -> Forall slot_data ls -> Z.of_nat k <= n_entries w -> length lfn = 256%nat ->
  (Z.of_nat k = n_entries w \/ (ord = Z.of_nat k /\ sum0 = sum)) ->
  exists lfn', read_set 0 ls lfn = Ok (true, lfn') /\ read_scan false lfn (ls ++ es) i ord sum0 blk =
    read_scan false lfn' es (i + zlen ls) 0 sum (if Z.of_nat k =? n_entries w then 32 * i else blk).
Proof.
  intros Hw. assert (0 < n_entries w) as Hpos by (destruct Hw as [_ ?]; unfold n_entries; dlia).
  induction k as [|k IH]; intros [|e ls] i ord sum0 blk lfn Hset Hsl Hk Hl Hst; cbn [entry_set] in Hset; try done.
  - exists lfn. split; [done|]. cbn [app length]. rewrite Z.add_0_r. change (Z.of_nat 0) with 0 in *. rewrite (proj2 (Z.eqb_neq 0 (n_entries w))) by lia. by destruct Hst as [?|[-> ->]]; [lia|].
  - destruct Hset as [He Hset]. apply Forall_cons in Hsl as [Hs1 Hsl].
    destruct (rlook_long w sum e (Z.of_nat (S k)) i ord sum0 blk lfn Hw He ltac:(lia) Hs1 Hl) as (l1 & Ep & L1 & El); [by destruct Hst; [left|right]|].
    cbn [read_set app]. rewrite Ep, bind_Ok. cbn [fst snd]. rewrite (rscan_pass _ _ _ _ _ _ _ _ _ _ _ _ El).
    destruct (IH ls (i + 1) (Z.of_nat (S k) - 1) sum (if Z.of_nat (S k) =? n_entries w then 32 * i else blk) l1 Hset Hsl ltac:(lia) L1) as (l2 & Er & Es); [right; split; [lia|done]|].
    exists l2. split; [done|]. rewrite Es. cbn [length]. rewrite (proj2 (Z.eqb_neq (Z.of_nat k) (n_entries w))) by lia. f_equal. lia.
Qed.

(** All the entries of a long name put the name into the buffer. *)
Lemma pick_entries w sum ls lfn lfn' : wname w -> units lfn -> entry_set w sum 0 (Z.to_nat (n_entries w)) ls -> read_set 0 ls lfn = Ok (true, lfn') -> named w lfn'.
Proof.
  intros Hw [Ll Ul] Hs E. pose proof (wname_named w Hw) as Hn1. pose proof (proj2 Hw) as Hlen. assert (0 < n_entries w) as Hpos by (destruct Hw as [_ ?]; unfold n_entries; dlia).
  destruct (read_set_ok w _ sum 0 (Z.to_nat (n_entries w)) ls lfn Hn1) as (b2 & E2 & L2 & G2); [lia|done|done|]. rewrite E in E2. injection E2 as <-. rewrite Z2Nat.id in G2 by lia.
  rewrite (proj2 (Z.ltb_lt 0 _)), (proj2 (Z.leb_le (zlen w) _)) in G2 by (unfold n_entries; dlia).
  split; [apply Hw|apply Hw|done| |].
  - apply (units_by_get lfn' lfn w (name_buf w)); [congruence|done|done|exact Hn1|]. intros i Hi. rewrite G2 by lia. match goal with |- context [if ?b then _ else _] => destruct b end; [by left|by right].
  - intros i Hi. rewrite G2 by lia. rewrite (proj2 (Z.leb_le i _)) by lia. cbn [andb]. by rewrite orb_true_r.
Qed.

Lemma named_units w lfn : named w lfn -> units lfn.
Proof. intros [_ _ L U _]. done. Qed.

(** The scan stops at the next object delivered, with its long name in the buffer. *)
Lemma read_scan_items its z : Forall item_ok its -> Forall unused z -> forall i sum blk lfn, units lfn ->
  exists lfn', read_scan false lfn (concat (raw <$> its) ++ z) i 255 sum blk = Ok (read_result (next_item its i), lfn') /\ units lfn' /\
    match next_item its i with Some (_, Named (Some w) _ _, _) => named w lfn' | _ => True end.
Proof.
  intros Hits Hz. induction Hits as [|it its Hit Hits IH]; intros i sum blk lfn Hu.
  - exists lfn. split; [|done]. cbn [fmap list_fmap concat app next_item read_result]. destruct z as [|e z]; [done|]. apply Forall_cons in Hz as [[He E0] _]. cbn [read_scan]. unfold read_look, DIR_Name.
    rewrite (rd_slot e 0 He) by lia. by rewrite bind_Ok, E0.
  - cbn [fmap list_fmap concat next_item]. destruct it as [e|e|long ls s]; cbn [raw delivered].
    + destruct Hit as [He E0]. cbn [app length]. change (Z.of_nat 1) with 1. pose proof (rlook_plain lfn e i 255 sum blk He ltac:(rewrite E0; done) (or_intror E0)) as El. rewrite E0 in El. cbn [orb] in El.
      rewrite (rscan_pass _ _ _ _ _ _ _ _ _ _ _ _ El). by apply IH.
    + destruct Hit as (He & E0 & N1 & Ea). cbn [app length]. change (Z.of_nat 1) with 1. pose proof (rlook_plain lfn e i 255 sum blk He E0) as El. rewrite Ea, Z.eqb_refl, orb_true_r in El.
      rewrite (rscan_pass _ _ _ _ _ _ _ _ _ _ _ _ (El ltac:(left; intros E; by rewrite E in Ea))). by apply IH.
    + destruct Hit as (Hs & N0 & N1 & Ha & Hls & Hlong). rewrite <- !app_assoc. cbn [app].
      assert (Z.land (attr_of s) 223 =? AM_VOL = false) as Ev.
      { apply Z.eqb_neq. intros E. pose proof (attr_bound s) as Hb. assert (forallb (fun a => negb (Z.land a 223 =? 8) || has a AM_VOL) (seqZ 0 64) = true) as F by (vm_compute; reflexivity).
        rewrite forallb_forall in F. specialize (F (attr_of s)). rewrite E, Ha in F. discriminate F. apply list_elem_of_In, elem_of_seqZ. lia. }
      assert (exists ord sum' blk' lfn', read_scan false lfn (ls ++ s :: concat (raw <$> its) ++ z) i 255 sum blk = read_scan false lfn' (s :: concat (raw <$> its) ++ z) (i + zlen ls) ord sum' blk' /\ units lfn' /\
        (if (ord =? 0) && (sum' =? sfn_sum s) then blk' else NO_BLOCK) = match long with Some _ => 32 * i | None => NO_BLOCK end /\ match long with Some w => named w lfn' | None => True end)
        as (ord & sum' & blk' & lfn' & -> & Hu' & Eb & Hnm).
      { destruct long as [w|]; [|subst ls; exists 255, sum, blk, lfn; cbn [app length]; by rewrite Z.add_0_r]. destruct Hlong as [Hw Hset].
        assert (0 < n_entries w) as Hpos by (destruct Hw as [_ ?]; unfold n_entries; dlia).
        destruct (rscan_set w (sfn_sum s) (s :: concat (raw <$> its) ++ z) Hw (Z.to_nat (n_entries w)) ls i 255 sum blk lfn Hset Hls ltac:(lia) (proj1 Hu) ltac:(left; lia)) as (lfn' & Er & Es).
        pose proof (pick_entries w _ ls lfn lfn' Hw Hu Hset Er) as Hn'. rewrite Z2Nat.id, Z.eqb_refl in Es by lia. eexists _, _, _, lfn'. split; [exact Es|]. split; [by eapply named_units|]. by rewrite !Z.eqb_refl. }
      pose proof (rlook_plain lfn' s (i + zlen ls) ord sum' blk' Hs N0 ltac:(left; intros E; by rewrite E in Ha)) as El. rewrite Ev, (proj2 (Z.eqb_neq _ DDEM) N1), orb_false_r in El. cbn [orb] in El.
      destruct (get s 0 =? 46); cbn [negb].
      * rewrite (rscan_pass _ _ _ _ _ _ _ _ _ _ _ _ El). rewrite length_app. cbn [length]. replace (i + Z.of_nat (length ls + 1)) with (i + zlen ls + 1) by lia. by apply IH.
      * exists lfn'. cbn [read_scan]. rewrite El, bind_Ok. cbn [fst snd read_result]. rewrite Eb. split; [done|]. split; [done|]. by destruct long.
Qed.
