(* ===== verification/FatGrow.v ===== *)
(** * FatGrow: changing entries and stretching a directory

    Storing into the window changes one slot of the list; when the search for
    free entries reaches the end of a chain, the table grows by a cluster of
    empty slots. *)

From Stdlib Require Import ZArith Lia Bool.
From stdpp Require Import base list list_numbers sets.
From S2P Require Import Prelude CLib Hw Ata Fat FatChain FatFile FatRead FatSync FatLfn FatDir FatTable FatScan FatItems.
From stdpp Require Import options.

Section Grow.
Context {D : Type} `{BlockLaws D}.
#[local] Set Default Proof Using "Type*".

Abbreviation v_geo v := (fs_geo (v_fs v)).
Abbreviation v_al v := (fs_alloc (v_fs v)).
Abbreviation nent v := (n_fatent (v_geo v)).
Abbreviation x_geo x := (v_geo (wd_vol x)).

(** ** A cluster of zeros *)

Lemma clear_loop_ok k : forall v sect n, fat_ok (cold (replicate 512 0) v) -> win (fs_win (v_fs v)) = replicate 512 0 -> 0 <= n ->
  (0 < Z.of_nat k -> data_sector (v_geo v) (sect + n) /\ data_sector (v_geo v) (sect + n + Z.of_nat k - 1)) ->
  exists d, clear_loop k sect n v = Ok (n + Z.of_nat k, mk_vol (v_fs v) d) /\ fat_ok (cold (replicate 512 0) (mk_vol (v_fs v) d)) /\ bd_size d = bd_size (v_dev v) /\
    (forall c, entry (cold (replicate 512 0) (mk_vol (v_fs v) d)) c = entry (cold (replicate 512 0) v) c) /\
    (forall t, bd_sector d t = if (sect + n <=? t) && (t <? sect + n + Z.of_nat k) then replicate 512 0 else bd_sector (v_dev v) t).
Proof.
  induction k as [|k IH]; intros v sect n Hf Hw Hn Hd; cbn [clear_loop].
  - exists (v_dev v). destruct v as [f d]. split; [by rewrite Z.add_0_r|]. split; [done|]. split; [done|]. split; [done|]. intros t. cbn [v_dev]. destruct (Z.leb_spec (sect + n) t), (Z.ltb_spec t (sect + n + Z.of_nat 0)); cbn [andb]; (done || lia).
  - destruct (Hd ltac:(lia)) as [D1 D2]. pose proof (vo_geo _ (fo_vol _ Hf)) as Hg. cbn [cold v_fs fs_geo v_dev] in Hg. pose proof (data_nonzero _ _ Hg _ D1) as Hnz.
    rewrite bind_wnd, Hw. rewrite u32_small by lia. destruct (data_write (cold (replicate 512 0) v) (replicate 512 0) (sect + n) 1 Hf) as (d1 & E1 & F1 & Z1 & V1 & En1).
    { lia. } { done. } { by replace (sect + n + 1 - 1) with (sect + n) by lia. }
    { intros t Ht. cbn [cold v_fs fs_win winsect]. lia. } { done. } { apply Forall_replicate. unfold is_byte. lia. }
    cbn [cold v_dev] in E1, Z1. rewrite (bind_drive _ _ _ _ _ E1). change (res_ok RES_OK) with true. cbv iota.
    assert (forall t, t <> 4294967295 -> bd_sector d1 t = if t =? sect + n then replicate 512 0 else bd_sector (v_dev v) t) as C1.
    { intros t Ht. specialize (V1 t). unfold vsec in V1. cbn [cold v_fs fs_win winsect v_dev] in V1. rewrite (proj2 (Z.eqb_neq _ _) Ht) in V1. rewrite V1.
      destruct (Z.eqb_spec t (sect + n)) as [->|Hne].
      - rewrite (proj2 (Z.leb_le _ _)), (proj2 (Z.ltb_lt _ _)) by lia. cbn [andb]. rewrite Z.sub_diag. change (Z.to_nat (512 * 0)) with 0%nat. by rewrite drop_0, take_ge by (rewrite length_replicate; lia).
      - destruct (Z.leb_spec (sect + n) t), (Z.ltb_spec t (sect + n + 1)); cbn [andb]; (done || lia). }
    assert (bd_sector d1 4294967295 = bd_sector (v_dev v) 4294967295) as C2.
    { pose proof (vo_ready _ (fo_vol _ Hf)) as Hr. cbn [cold v_dev] in Hr. destruct (bd_write_ok (v_dev v) (replicate 512 0) (sect + n) 1 Hr) as (d1' & E1' & _ & _ & C1'); [lia|lia|pose proof (go_size _ _ Hg); unfold data_sector in D1; lia|done|apply Forall_replicate; unfold is_byte; lia|].
      rewrite E1 in E1'. injection E1' as <-. rewrite C1'. by rewrite (proj2 (Z.ltb_ge 4294967295 (sect + n + 1))), andb_false_r by lia. }
    destruct (IH (mk_vol (v_fs v) d1) sect (n + 1) F1 Hw ltac:(lia)) as (d & E & F & Zs & En & C). { cbn [v_fs]. intros Hk. unfold data_sector in *. lia. }
    exists d. split; [rewrite E; do 2 f_equal; lia|]. split; [done|]. split; [cbn [v_dev] in Zs; congruence|]. split; [intros c; rewrite En; apply En1|]. intros t. rewrite C. cbn [v_dev].
    destruct (Z.eq_dec t 4294967295) as [->|Ht].
    + rewrite C2. rewrite !(proj2 (Z.ltb_ge 4294967295 _)) by (unfold data_sector in *; pose proof (go_size _ _ Hg); pose proof (go_max _ _ Hg); lia). by rewrite !andb_false_r.
    + rewrite C1 by done. destruct (Z.eqb_spec t (sect + n)), (Z.leb_spec (sect + (n + 1)) t), (Z.ltb_spec t (sect + (n + 1) + Z.of_nat k)), (Z.leb_spec (sect + n) t), (Z.ltb_spec t (sect + n + Z.of_nat (S k))); cbn [andb]; (done || lia).
Qed.

(** A window on a sector as the drive holds it. *)
Lemma warm_ok v s : fat_ok v -> reachable v s -> winsect (fs_win (v_fs v)) = 4294967295 -> truth (wflag (fs_win (v_fs v))) = false ->
  let v' := mk_vol (mk_fs (v_geo v) (mk_window 0 s (bd_sector (v_dev v) s)) (v_al v)) (v_dev v) in fat_ok v' /\ same_view v v'.
Proof.
  intros Hf [Hs Hm] Hw Hc v'. pose proof Hf as [Hv _ _]. pose proof Hv as [R G _ M]. pose proof (go_max _ _ G). destruct (bd_sector_ok _ s R Hs) as [Ls Bs].
  assert (same_view v v') as S.
  { split; [done|]. split; [done|]. intros t [Ht _]. unfold vsec. cbn [v' v_fs v_dev fs_win winsect win]. rewrite Hw, (proj2 (Z.eqb_neq t 4294967295)) by lia. by destruct (Z.eqb_spec t s) as [->|]. }
  split; [|done]. apply (fat_ok_view v); [done|done| |done]. split; cbn [v' v_fs v_dev fs_geo]; [done|done| |done].
  split; cbn [v' v_fs v_dev fs_win fs_geo wflag winsect win]; [done|done|lia| |done]. intros _. right. split; [lia|done].
Qed.

(** [dir_clear]: the cluster is filled with zeros, nothing else changes. *)
Lemma dir_clear_ok v c : fat_ok v -> 2 <= c < nent v ->
  exists v', dir_clear c v = Ok (FR_OK, v') /\ fat_ok v' /\ v_geo v' = v_geo v /\ bd_size (v_dev v') = bd_size (v_dev v) /\ v_al v' = v_al v /\
    (forall x, entry v' x = entry v x) /\
    (forall s, reachable v s -> vsec v' s = if (clst2sect (v_geo v) c <=? s) && (s <? clst2sect (v_geo v) c + csize (v_geo v)) then replicate 512 0 else vsec v s) /\
    winsect (fs_win (v_fs v')) = clst2sect (v_geo v) c /\ win (fs_win (v_fs v')) = replicate 512 0.
Proof.
  intros Hf Hc. pose proof (vo_geo _ (fo_vol _ Hf)) as Hg. pose proof (csize_small _ _ Hg) as Hcs. destruct (clst2sect_ok _ _ Hg c Hc) as (_ & D1 & D2). set (sect := clst2sect (v_geo v) c) in *.
  unfold dir_clear. destruct (sync_window_ok v (fo_vol v Hf)) as (v1 & E1 & Hv1 & S1 & A1 & W1). pose proof S1 as (G1 & Z1 & V1). rewrite (m_bind_Ok _ _ _ _ _ E1). change (fr_ok FR_OK) with true. cbv iota.
  assert (fat_ok v1) as F1 by (by apply (fat_ok_view v)). rewrite bind_geo, bind_wnd, W1, G1. cbn [wflag]. fold sect. cbv zeta. rewrite bind_set_wnd, A1.
  destruct (cold_ok v1 (replicate 512 0) F1) as (Fc & Ec & Vc); [by rewrite W1|exact zero_sector|].
  set (v2 := mk_vol _ _). destruct (clear_loop_ok (Z.to_nat (csize (v_geo v))) v2 sect 0) as (d & E & Fd & Zd & Ed & Cd).
  { unfold v2, cold. cbn [v_fs v_dev fs_geo fs_alloc]. unfold cold in Fc. rewrite A1 in Fc. exact Fc. } { done. } { lia. }
  { intros _. unfold v2. cbn [v_fs fs_geo]. rewrite G1, Z.add_0_r, Z2Nat.id by lia. done. }
  rewrite (m_bind_Ok _ _ _ _ _ E). rewrite Z2Nat.id by lia. rewrite Z.add_0_l, Z.eqb_refl. rewrite Z.add_0_r, Z2Nat.id in Cd by lia.
  assert (reachable (cold (replicate 512 0) (mk_vol (v_fs v2) d)) sect) as Hr by (apply data_reachable; [apply Fd|cbn [cold v_fs fs_geo v2]; by rewrite G1]).
  destruct (warm_ok _ sect Fd Hr eq_refl eq_refl) as [Fw Sw]. cbn [cold v_fs v_dev fs_geo fs_alloc v2] in Fw, Sw. rewrite Cd, (proj2 (Z.leb_le sect sect)), (proj2 (Z.ltb_lt sect _)) in Fw, Sw by lia. cbn [andb] in Fw, Sw.
  eexists. split; [reflexivity|]. cbn [v2 v_fs v_dev fs_geo fs_alloc]. split; [exact Fw|]. split; [exact G1|]. split; [cbn [v2 v_dev] in Zd; congruence|]. split; [done|]. split; [|split; [|done]].
  - intros x. etransitivity; [apply (same_view_entry _ _ x (fo_vol _ Fd) Sw)|]. rewrite (Ed x). unfold v2, cold. cbn [v_fs v_dev fs_geo fs_alloc]. unfold cold in Ec. rewrite A1 in Ec. rewrite Ec. by apply same_view_entry; [apply Hf|].
  - intros s Hs. pose proof (go_max _ _ Hg). destruct Hs as [Hs Hm]. unfold vsec at 1. cbn [v_fs v_dev fs_win winsect win]. rewrite Cd. destruct (Z.eqb_spec s sect) as [->|Hne].
    + rewrite (proj2 (Z.leb_le sect sect)), (proj2 (Z.ltb_lt sect _)) by lia. done.
    + destruct ((sect <=? s) && (s <? sect + csize (v_geo v))); [done|]. rewrite <- (V1 s (conj Hs Hm)), <- (Vc s) by (rewrite Z1; lia). unfold vsec. cbn [cold v_fs v_dev fs_win winsect v2]. by rewrite (proj2 (Z.eqb_neq s 4294967295)) by lia.
Qed.

(** ** Changes of a directory *)

Definition on_table (t : dtable) (c : Z) : Prop := match t with Static => False | Clusters l => c ∈ l end.

(** The directory at [sc] changed, and its table [t] perhaps grew to [t'] by
    clusters that were free; nothing else on the volume changed. *)
Record changed (sc : Z) (t t' : dtable) (v v' : vol D) : Prop := {
  ch_fat : fat_ok v';
  ch_geo : v_geo v' = v_geo v;
  ch_size : bd_size (v_dev v') = bd_size (v_dev v);
  ch_table : table_at v' sc t';
  ch_ext : t' = t \/ exists l r, t = Clusters l /\ t' = Clusters (l ++ r) /\ Forall (fun c => entry v c = 0) r;
  ch_entry : forall c, 2 <= c < nent v -> on_table t' c \/ entry v' c = entry v c;
  ch_frame : forall s, reachable v s -> ~ in_table (v_geo v) s -> (forall j, 0 <= j < dsects (v_geo v) t' -> s <> dsect (v_geo v) t' j) -> vsec v' s = vsec v s
}.

Lemma peeked_changed sc t v v' : fat_ok v -> table_at v sc t -> peeked v v' -> changed sc t t v v'.
Proof.
  intros Hf Ht Hp. pose proof Hp as (F & (G & Zs & V) & A). split; [done|done|done|by apply (peeked_table v)|by left| |].
  - intros c _. right. by apply peeked_entry.
  - intros s Hs _ _. by apply V.
Qed.

Lemma ext_sector g size l r j : geo_ok g size -> 0 <= j < dsects g (Clusters l) -> 0 <= j < dsects g (Clusters (l ++ r)) /\ dsect g (Clusters (l ++ r)) j = dsect g (Clusters l) j.
Proof.
  intros Hg Hj. pose proof (csize_small _ _ Hg). cbn [dsects dsect] in *. split; [unfold nsec in *; rewrite length_app; nia|by apply (fsect_app _ _ Hg)].
Qed.

Lemma ext_dsects v v' sc t t' j size : geo_ok (v_geo v) size -> changed sc t t' v v' -> 0 <= j < dsects (v_geo v) t -> 0 <= j < dsects (v_geo v) t' /\ dsect (v_geo v) t' j = dsect (v_geo v) t j.
Proof. intros Hg Hc Hj. destruct (ch_ext _ _ _ _ _ Hc) as [->|(l & r & -> & -> & _)]; [done|]. by eapply ext_sector. Qed.

Lemma ext_on v v' sc t t' c : changed sc t t' v v' -> on_table t c -> on_table t' c.
Proof. intros Hc Hon. destruct (ch_ext _ _ _ _ _ Hc) as [->|(l & r & -> & -> & _)]; [done|]. cbn [on_table] in *. set_solver. Qed.

Lemma on_used v sc t c : fat_ok v -> table_at v sc t -> on_table t c -> 2 <= c < nent v /\ entry v c <> 0.
Proof.
  intros Hf Ht Hon. destruct t as [|l]; [done|]. destruct Ht as [_ Hl]. cbn [on_table] in Hon. split; [exact (links_range _ _ _ _ _ Hl Hon)|]. pose proof (links_used _ _ _ _ Hf Hl Hon). lia.
Qed.

Lemma changed_trans sc t1 t2 t3 v1 v2 v3 : fat_ok v1 -> changed sc t1 t2 v1 v2 -> changed sc t2 t3 v2 v3 -> changed sc t1 t3 v1 v3.
Proof.
  intros Hf C1 C2. pose proof (ch_geo _ _ _ _ _ C1) as G1. pose proof (ch_geo _ _ _ _ _ C2) as G2. pose proof (ch_size _ _ _ _ _ C1) as Z1. pose proof (vo_geo _ (fo_vol _ Hf)) as Hg.
  split; [apply C2|congruence|rewrite (ch_size _ _ _ _ _ C2); done|apply C2| | |].
  - destruct (ch_ext _ _ _ _ _ C2) as [->|(l & r & -> & -> & Hr)]; [apply C1|]. right.
    assert (Forall (fun c => entry v1 c = 0) r) as Hr1.
    { rewrite Forall_forall in Hr |- *. intros c Hin. specialize (Hr c Hin). pose proof (ch_table _ _ _ _ _ C2) as Ht3. destruct (on_used v3 sc _ c (ch_fat _ _ _ _ _ C2) Ht3) as [Hrg _]; [cbn [on_table]; set_solver|]. rewrite G2, G1 in Hrg.
      destruct (ch_entry _ _ _ _ _ C1 c Hrg) as [Hon|E]; [|by rewrite <- E]. destruct (on_used v2 sc _ c (ch_fat _ _ _ _ _ C1) (ch_table _ _ _ _ _ C1) Hon); done. }
    destruct (ch_ext _ _ _ _ _ C1) as [E|(l1 & r1 & -> & E & Hr')]; [exists l, r; by rewrite E|]. injection E as ->. exists l1, (r1 ++ r). split; [done|]. rewrite app_assoc. split; [done|]. by apply Forall_app.
  - intros c Hc. destruct (ch_entry _ _ _ _ _ C2 c) as [Hon|E]; [by rewrite G1|by left|]. destruct (ch_entry _ _ _ _ _ C1 c Hc) as [Hon|E1]; [left; by apply (ext_on _ _ _ _ _ _ C2)|right; congruence].
  - intros s Hs Hn Hj. pose proof (ch_frame _ _ _ _ _ C2 s) as F2. rewrite G1 in F2. rewrite F2; [|unfold reachable; by rewrite G1, Z1|done|done].
    apply (ch_frame _ _ _ _ _ C1); [done|done|]. intros j Hj2. rewrite <- G1 in Hg, Hj2. destruct (ext_dsects _ _ _ _ _ _ _ Hg C2 Hj2) as [Hj3 E]. rewrite G1 in *. rewrite <- E. by apply Hj.
Qed.

(** ** One slot *)

Lemma dsect_inj v sc t i j : vol_ok v -> table_at v sc t -> 0 <= i < dsects (v_geo v) t -> 0 <= j < dsects (v_geo v) t -> dsect (v_geo v) t i = dsect (v_geo v) t j -> i = j.
Proof.
  intros Hv Ht Hi Hj E. destruct t as [|l]; cbn [dsect dsects] in *; [lia|]. apply (fsect_inj _ _ (vo_geo _ Hv) l); [by eapply table_range|done..].
Qed.

Lemma length_slots v t : 0 <= nslots (v_geo v) t -> length (slots v t) = Z.to_nat (nslots (v_geo v) t).
Proof. intros _. unfold slots. by rewrite length_fmap, length_seqZ. Qed.

Lemma lookup_slots v t k : (k < Z.to_nat (nslots (v_geo v) t))%nat -> slots v t !! k = Some (slot v t (Z.of_nat k)).
Proof. intros Hk. unfold slots. rewrite list_lookup_fmap, lookup_seqZ_lt by lia. cbn. by rewrite Z.add_0_l. Qed.

Lemma entry_only b b' dir d2 : length b = 512%nat -> length b' = 512%nat -> 0 <= d2 <= 480 -> only dir (dir + 32) b b' -> d2 + 32 <= dir \/ dir + 32 <= d2 -> entry_at b' d2 = entry_at b d2.
Proof.
  intros L L' Hd Ho Hs. apply get_eq_ext; [by rewrite !entry_len|]. intros i Hi. rewrite entry_len in Hi by done. rewrite !entry_get by (done || lia). apply Ho; lia.
Qed.

(** One sector of a directory changed within one slot. *)
Lemma slots_edit v v' sc t i b' : vol_ok v -> table_at v sc t -> 0 <= i < nslots (v_geo v) t -> v_geo v' = v_geo v -> length b' = 512%nat ->
  only (32 * (i mod 16)) (32 * (i mod 16) + 32) (vsec v (dsect (v_geo v) t (i / 16))) b' -> vsec v' (dsect (v_geo v) t (i / 16)) = b' ->
  (forall j, 0 <= j < dsects (v_geo v) t -> j <> i / 16 -> vsec v' (dsect (v_geo v) t j) = vsec v (dsect (v_geo v) t j)) ->
  slots v' t = <[Z.to_nat i := entry_at b' (32 * (i mod 16))]> (slots v t).
Proof.
  intros Hv Ht Hi G Hb Ho Eb Hj. assert (0 <= i / 16 < dsects (v_geo v) t) as Hj0 by (unfold nslots in Hi; dlia). destruct (dsect_ok _ _ t (i / 16) Hv Ht Hj0) as (Hr & _). destruct (vsec_ok _ _ Hv (proj1 Hr)) as [Lw _].
  apply list_eq. intros k. destruct (decide (k < Z.to_nat (nslots (v_geo v) t))%nat) as [Hk|Hk].
  - rewrite lookup_slots by (by rewrite G). assert (slot v' t (Z.of_nat k) = if Z.of_nat k =? i then entry_at b' (32 * (i mod 16)) else slot v t (Z.of_nat k)) as ->.
    { unfold slot. rewrite G. assert (0 <= Z.of_nat k / 16 < dsects (v_geo v) t) as Hj' by (unfold nslots in Hk; dlia).
      destruct (Z.eqb_spec (Z.of_nat k) i) as [->|Hne]; [by rewrite Eb|]. destruct (decide (Z.of_nat k / 16 = i / 16)) as [Eq|Hne2]; [|by rewrite Hj].
      rewrite Eq, Eb. fold (entry_at b' (32 * (Z.of_nat k mod 16))). fold (entry_at (vsec v (dsect (v_geo v) t (i / 16))) (32 * (Z.of_nat k mod 16))). apply (entry_only _ _ (32 * (i mod 16))); [done|done|dlia|done|dlia]. }
    destruct (Z.eqb_spec (Z.of_nat k) i) as [<-|Hne]; [rewrite Nat2Z.id, list_lookup_insert_eq; [done|rewrite length_slots; lia]|]. rewrite list_lookup_insert_ne by lia. by rewrite lookup_slots.
  - rewrite lookup_ge_None_2 by (rewrite length_slots; rewrite G; lia). symmetry. apply lookup_ge_None_2. rewrite length_insert, length_slots; lia.
Qed.

Lemma put_slot v sc t i b' : fat_ok v -> table_at v sc t -> 0 <= i < nslots (v_geo v) t -> winsect (fs_win (v_fs v)) = dsect (v_geo v) t (i / 16) -> sector_data b' ->
  only (32 * (i mod 16)) (32 * (i mod 16) + 32) (win (fs_win (v_fs v))) b' ->
  changed sc t t v (with_window b' v) /\ slots (with_window b' v) t = <[Z.to_nat i := entry_at b' (32 * (i mod 16))]> (slots v t).
Proof.
  intros Hf Ht Hi Hw Hb Ho. assert (0 <= i / 16 < dsects (v_geo v) t) as Hj by (unfold nslots in Hi; dlia). destruct (dsect_ok _ _ t (i / 16) (fo_vol _ Hf) Ht Hj) as (Hr & Hnt & _). rewrite <- Hw in Hr, Hnt.
  destruct (poke_window v b' Hf Hr Hnt Hb) as (F & E & V). assert (win (fs_win (v_fs v)) = vsec v (winsect (fs_win (v_fs v)))) as Ew by (unfold vsec; by rewrite Z.eqb_refl).
  destruct (vsec_ok _ _ (fo_vol _ Hf) (proj1 Hr)) as [Lw _]. rewrite <- Ew in Lw. split.
  - split; [done|done|done| |by left| |].
    + destruct t as [|l]; [exact Ht|]. destruct Ht as [Hne Hl]. split; [done|]. apply (links_ext _ (entry v)); [|done]. intros c Hc. symmetry. apply E. exact (links_range _ _ _ _ _ Hl Hc).
    + intros c Hc. right. by apply E.
    + intros s Hs _ Hd. rewrite V. destruct (Z.eqb_spec s (winsect (fs_win (v_fs v)))) as [->|]; [|done]. by destruct (Hd (i / 16)).
  - apply (slots_edit v _ sc); [apply Hf|done|done|done|apply Hb|by rewrite <- Hw, <- Ew| |].
    + rewrite V, Hw. by rewrite Z.eqb_refl.
    + intros j Hj' Hne. rewrite V, Hw. destruct (Z.eqb_spec (dsect (v_geo v) t j) (dsect (v_geo v) t (i / 16))) as [Eq|]; [|done]. apply (dsect_inj v sc) in Eq; [done|apply Hf|done..].
Qed.

(** ** Another cluster *)

Definition zero_slot : list Z := replicate 32 0.

Lemma get_last (l : list Z) c : get (l ++ [c]) (zlen l) = c.
Proof. rewrite get_app_r by lia. by rewrite Z.sub_diag. Qed.

(** A new cluster [c] behind the chain [l]: the table after it was linked and cleared. *)
Lemma grown_table sc l c v v2 v3 : fat_ok v -> table_at v sc (Clusters l) -> fat_ok v2 -> data_step v v2 -> appended v (get l (zlen l - 1)) c v2 ->
  fat_ok v3 -> v_geo v3 = v_geo v2 -> bd_size (v_dev v3) = bd_size (v_dev v2) -> (forall x, entry v3 x = entry v2 x) ->
  (forall s, reachable v2 s -> vsec v3 s = if (clst2sect (v_geo v2) c <=? s) && (s <? clst2sect (v_geo v2) c + csize (v_geo v2)) then replicate 512 0 else vsec v2 s) ->
  nslots (v_geo v) (Clusters l) < 65536 ->
  changed sc (Clusters l) (Clusters (l ++ [c])) v v3 /\ slots v3 (Clusters (l ++ [c])) = slots v (Clusters l) ++ replicate (Z.to_nat (16 * csize (v_geo v))) zero_slot /\
  nslots (v_geo v) (Clusters (l ++ [c])) = nslots (v_geo v) (Clusters l) + 16 * csize (v_geo v).
Proof.
  intros Hf Ht F2 (G2 & Z2 & V2 & _) (Hc & Hz & _ & He) F3 G3 Z3 E3 V3 Hn. pose proof (vo_geo _ (fo_vol _ Hf)) as Hg. pose proof (csize_small _ _ Hg) as Hcs. rewrite G2 in *.
  pose proof Ht as [Hne Hl]. assert (0 < zlen l) as Hlen by (destruct l; [done|cbn [length]; lia]).
  assert (c ∉ l) as Hcl by (intros Hin; pose proof (links_used _ _ _ _ Hf Hl Hin); lia). destruct (nent_bound _ (fo_vol _ Hf)) as [Hb Hm].
  assert (l = take (Z.to_nat (zlen l - 1)) l ++ [get l (zlen l - 1)]) as Esplit.
  { rewrite (split_at l (zlen l - 1)) at 1 by lia. rewrite (drop_ge l) by lia. done. }
  assert (table_at v3 sc (Clusters (l ++ [c]))) as Ht3.
  { split; [by destruct l|]. rewrite G3. rewrite Esplit in Hl |- *. rewrite <- app_assoc. cbn [app]. apply (links_snoc _ (entry v) (entry v3) _ _ (get l (zlen l - 1)) c Hl Hc).
    - rewrite E3, He, Z.eqb_refl. { destruct (Z.eqb_spec (get l (zlen l - 1)) c) as [E|]; [|done]. destruct Hcl. rewrite <- E. apply get_in. lia. } apply (links_range _ _ _ _ _ Hl). rewrite <- Esplit. apply get_in. lia.
    - rewrite E3, He, Z.eqb_refl by done. lia.
    - intros y Hy. assert (y ∈ l) as Hyl by (rewrite Esplit; set_solver). pose proof (links_range _ _ _ _ y Hl) as Hyr. rewrite <- Esplit in Hyr. rewrite E3, He by auto. rewrite (proj2 (Z.eqb_neq y c)) by (intros ->; done).
      destruct (Z.eqb_spec y (get l (zlen l - 1))) as [->|]; [|done]. exfalso. pose proof (links_NoDup _ _ _ _ Hl) as Hnd. apply NoDup_app in Hnd as (_ & Hd & _). apply (Hd _ Hy). set_solver. }
  pose proof (table_range v3 sc _ Ht3) as Hr3. rewrite G3 in Hr3.
  assert (nsec (v_geo v) (l ++ [c]) = nsec (v_geo v) l + csize (v_geo v)) as Ens by (unfold nsec; rewrite length_app; cbn [length]; lia).
  assert (nslots (v_geo v) (Clusters (l ++ [c])) = nslots (v_geo v) (Clusters l) + 16 * csize (v_geo v)) as Enl.
  { unfold nslots in *. cbn [dsects] in *. rewrite Ens. destruct (go_pow2 _ _ Hg) as (k & Hk & Ek). assert (nsec (v_geo v) l = csize (v_geo v) * zlen l) as Es by done. rewrite Ek in *.
    assert (exists q, 4096 = 2 ^ k * q) as [q Eq]. { exists (2 ^ (12 - k)). rewrite <- Z.pow_add_r by lia. by replace (k + (12 - k)) with 12 by lia. }
    assert (zlen l < q) by nia. nia. }
  assert (forall j, 0 <= j < nsec (v_geo v) l -> vsec v3 (fsect (v_geo v) (l ++ [c]) j) = vsec v (fsect (v_geo v) l j)) as Hold.
  { intros j Hj. rewrite (fsect_app _ _ Hg) by done. destruct (dsect_ok v sc _ j (fo_vol _ Hf) Ht Hj) as (Hr & Hnt & _). cbn [dsect] in *.
    rewrite V3 by (unfold reachable; by rewrite G2, Z2). rewrite V2 by done. destruct ((_ <=? _) && (_ <? _)) eqn:Eb; [|done]. exfalso. apply andb_true_iff in Eb as [B1 B2]. apply Z.leb_le in B1. apply Z.ltb_lt in B2.
    set (k := fsect (v_geo v) l j - clst2sect (v_geo v) c). assert (fsect (v_geo v) (l ++ [c]) (nsec (v_geo v) l + k) = fsect (v_geo v) (l ++ [c]) j) as Eq.
    { rewrite (fsect_app _ _ Hg l [c] j) by done. unfold fsect at 1. assert ((nsec (v_geo v) l + k) / csize (v_geo v) = zlen l /\ (nsec (v_geo v) l + k) mod csize (v_geo v) = k) as [-> ->].
      { unfold nsec. split; [symmetry; apply Z.div_unique with k|symmetry; apply Z.mod_unique with (zlen l)]; lia. } rewrite get_last. lia. }
    apply (fsect_inj _ _ Hg _ _ _ Hr3) in Eq; lia. }
  assert (forall j, nsec (v_geo v) l <= j < nsec (v_geo v) (l ++ [c]) -> vsec v3 (fsect (v_geo v) (l ++ [c]) j) = replicate 512 0) as Hnew.
  { intros j Hj. pose proof (dsect_ok v3 sc _ j (fo_vol _ F3) Ht3) as Hd. rewrite G3 in Hd. cbn [dsects dsect] in Hd. destruct Hd as (Hr & _ & _); [unfold nsec in *; lia|].
    assert (j / csize (v_geo v) = zlen l) as Ej. { unfold nsec in *. symmetry. apply Z.div_unique with (j - csize (v_geo v) * zlen l); lia. }
    rewrite V3 by (unfold reachable in *; by rewrite G2; rewrite G3, Z3 in Hr). unfold fsect. rewrite Ej, get_last. pose proof (Z.mod_pos_bound j (csize (v_geo v)) ltac:(lia)).
    rewrite (proj2 (Z.leb_le _ _)), (proj2 (Z.ltb_lt _ _)) by lia. done. }
  split; [|split; [|done]].
  - split; [done|congruence|congruence|done| | |].
    + right. exists l, [c]. split; [done|]. split; [done|]. by constructor.
    + intros x Hx. rewrite E3, He by done. cbn [on_table]. destruct (Z.eqb_spec x c) as [->|]; [left; set_solver|]. destruct (Z.eqb_spec x (get l (zlen l - 1))) as [->|]; [left|by right].
      apply elem_of_app. left. apply get_in. lia.
    + intros s Hs Hnt Hj. rewrite V3 by (unfold reachable; by rewrite G2, Z2). rewrite V2 by done. destruct ((_ <=? _) && (_ <? _)) eqn:Eb; [|done]. exfalso. apply andb_true_iff in Eb as [B1 B2]. apply Z.leb_le in B1. apply Z.ltb_lt in B2.
      set (k := s - clst2sect (v_geo v) c). apply (Hj (nsec (v_geo v) l + k)); cbn [dsects dsect]; [unfold nsec in *; lia|].
      unfold fsect. assert ((nsec (v_geo v) l + k) / csize (v_geo v) = zlen l /\ (nsec (v_geo v) l + k) mod csize (v_geo v) = k) as [-> ->].
      { unfold nsec. split; [symmetry; apply Z.div_unique with k|symmetry; apply Z.mod_unique with (zlen l)]; lia. } rewrite get_last. lia.
  - apply list_eq. intros k. assert (0 <= nslots (v_geo v) (Clusters l)) as Hpos by (unfold nslots; cbn [dsects]; unfold nsec; lia). assert (nslots (v_geo v) (Clusters l) = 16 * nsec (v_geo v) l) as Eo by (unfold nslots in *; cbn [dsects] in *; lia).
    destruct (decide (k < Z.to_nat (nslots (v_geo v) (Clusters (l ++ [c]))))%nat) as [Hk|Hk].
    + rewrite lookup_slots by (by rewrite G3). unfold slot. rewrite G3. cbn [dsect]. destruct (decide (k < Z.to_nat (nslots (v_geo v) (Clusters l)))%nat) as [Hk1|Hk1].
      * rewrite lookup_app_l by (rewrite length_slots; lia). rewrite lookup_slots by done. unfold slot. cbn [dsect]. rewrite Hold by dlia. done.
      * rewrite lookup_app_r, length_slots by (rewrite ?length_slots; lia). rewrite lookup_replicate_2 by lia. rewrite Hnew by dlia. rewrite drop_replicate, take_replicate. unfold zero_slot. do 2 f_equal. dlia.
    + rewrite !lookup_ge_None_2; [done| |rewrite length_slots; rewrite G3; lia]. rewrite length_app, length_slots, length_replicate by done. lia.
Qed.

(** The outcome of stretching: a full volume, or one more cluster. *)
Definition stretch_result (sc : Z) (l : list Z) (v : vol D) (fr : FRESULT) (c : Z) (v' : vol D) : Prop :=
  (fr = FR_DENIED /\ full v /\ peeked v v') \/
  (fr = FR_OK /\ changed sc (Clusters l) (Clusters (l ++ [c])) v v' /\ slots v' (Clusters (l ++ [c])) = slots v (Clusters l) ++ replicate (Z.to_nat (16 * csize (v_geo v))) zero_slot /\
   nslots (v_geo v) (Clusters (l ++ [c])) = nslots (v_geo v) (Clusters l) + 16 * csize (v_geo v)).

Lemma next_cluster_stretch cfuel sc x l : fat_ok (wd_vol x) -> table_at (wd_vol x) sc (Clusters l) -> d_clust (wd_dp x) = get l (zlen l - 1) ->
  nslots (x_geo x) (Clusters l) < 65536 -> (2 * Z.to_nat (nent (wd_vol x)) <= cfuel)%nat ->
  exists fr c v', next_cluster cfuel true x = Ok (fr, mk_work v' (if fr_ok fr then d_sec (clst2sect (x_geo x) c) (d_cl c (wd_dp x)) else wd_dp x) (wd_lfn x)) /\ stretch_result sc l (wd_vol x) fr c v'.
Proof.
  intros Hf Ht Ec Hn Hfu. pose proof (table_links _ _ _ Ht) as Hl. pose proof Ht as [Hne _]. assert (0 < zlen l) by (destruct l; [done|cbn [length]; lia]).
  unfold next_cluster. rewrite bind_dp, bind_dgeo, Ec. pose proof (get_in l (zlen l - 1) ltac:(lia)) as Hin. pose proof (links_range _ _ _ _ _ Hl Hin) as Hr. destruct (nent_bound _ (fo_vol _ Hf)) as [Hb _].
  pose proof (links_last _ _ _ _ Hl Hne) as Hla. pose proof (entry_bound _ (get l (zlen l - 1)) (fo_vol _ Hf)) as He. destruct (probe _ _ Hf Hr) as (v1 & E1 & L1 & Hst).
  apply orb_false_iff in Hst as [_ Hd]. rewrite (bind_dvol _ _ _ _ _ E1), Hd. rewrite (proj2 (Z.leb_gt _ 1)), (proj2 (Z.leb_le _ _)) by lia. cbn [negb wd_vol wd_dp wd_lfn].
  pose proof L1 as (F1 & S1 & A1 & D1). pose proof S1 as (G1 & Z1 & _). assert (forall y, entry v1 y = entry (wd_vol x) y) as En by (intros y; by apply looked_entry).
  destruct (create_chain_ok cfuel v1 (get l (zlen l - 1)) F1) as (r & v2 & E2 & F2 & D2 & Hcase). { right. rewrite G1, En. split; [done|]. lia. } { by rewrite G1. }
  destruct Hcase as [(_ & Hlt & _)|[_ Hst]]; [rewrite En, G1 in Hlt; lia|]. destruct Hst as [(-> & Hfull & L2)|(Hr2 & _ & Hap)].
  - exists FR_DENIED, 0, v2. split.
    + erewrite m_bind_Ok; [|rewrite (bind_dvol _ _ (mk_work v1 (wd_dp x) (wd_lfn x)) _ _ E2); cbn [Z.eqb]; reflexivity]. reflexivity.
    + left. split; [done|]. split; [|eapply peeked_trans; [by apply looked_peeked|by apply looked_peeked]]. intros c Hc. rewrite <- En. apply Hfull. by rewrite G1.
  - assert (appended (wd_vol x) (get l (zlen l - 1)) r v2) as Hap'.
    { destruct Hap as (P1 & P2 & P3 & P4). rewrite G1 in *. rewrite En in P2. split; [done|]. split; [done|]. split; [done|]. intros y Hy. rewrite P4 by done. by rewrite En. }
    pose proof Hap' as (Hrr & _). assert (v_geo v2 = x_geo x) as G2 by (destruct D2 as (G2 & _); congruence). destruct (dir_clear_ok v2 r F2) as (v3 & E3 & F3 & G3 & Z3 & A3 & En3 & V3 & _); [by rewrite G2|].
    destruct (grown_table sc l r (wd_vol x) v2 v3 Hf Ht F2 (data_step_trans _ _ _ D1 D2) Hap' F3 G3 Z3 En3 V3 Hn) as (C & Sl & Nl).
    exists FR_OK, r, v3. split; [|right; done]. erewrite m_bind_Ok; cycle 1.
    { rewrite (bind_dvol _ _ (mk_work v1 (wd_dp x) (wd_lfn x)) _ _ E2). rewrite (proj2 (Z.eqb_neq r 0)), (proj2 (Z.eqb_neq r 1)), (proj2 (Z.eqb_neq r DISK_ERROR)) by (unfold DISK_ERROR; lia). rewrite (bind_dvol _ _ (mk_work v2 (wd_dp x) (wd_lfn x)) _ _ E3). reflexivity. }
    change (fr_ok FR_OK) with true. cbv beta iota. rewrite bind_set_dp. reflexivity.
Qed.

Lemma dir_next_stretch cfuel x l i : fat_ok (wd_vol x) -> table_at (wd_vol x) (sclust (d_obj (wd_dp x))) (Clusters l) -> at_slot (x_geo x) (Clusters l) (wd_dp x) i ->
  i + 1 = nslots (x_geo x) (Clusters l) -> i + 1 < 65536 -> (2 * Z.to_nat (nent (wd_vol x)) <= cfuel)%nat ->
  exists fr c v' d', dir_next cfuel true x = Ok (fr, mk_work v' d' (wd_lfn x)) /\ stretch_result (sclust (d_obj (wd_dp x))) l (wd_vol x) fr c v' /\ same_dp (wd_dp x) d' /\
    (fr = FR_OK -> at_slot (x_geo x) (Clusters (l ++ [c])) d' (i + 1)).
Proof.
  intros Hf Ht Ha Hn Hm Hfu. rewrite (dir_next_eq cfuel true x _ i Hf Ht Ha Hm). destruct (sect_nonzero x _ i Hf Ht Ha) as [Hs Hj]. destruct Ha as [Hi Ep Es Ed Ec]. cbn [dsects] in Hj.
  pose proof (vo_geo _ (fo_vol _ Hf)) as Hg. pose proof (csize_small _ _ Hg) as Hc. assert (i + 1 = 16 * nsec (x_geo x) l) as En by (unfold nslots in *; cbn [dsects] in *; lia).
  assert ((i + 1) mod 16 = 0) as Em by (rewrite En, Z.mul_comm; apply Z.mod_mul; lia). assert ((i + 1) / 16 = nsec (x_geo x) l) as Eq by dlia. rewrite Em. cbn [Z.eqb].
  assert (i / 16 / csize (x_geo x) = zlen l - 1) as Ek. { assert (i / 16 = nsec (x_geo x) l - 1) as -> by dlia. unfold nsec. symmetry. apply Z.div_unique with (csize (x_geo x) - 1); lia. }
  rewrite Ek in Ec. set (x1 := mk_work (wd_vol x) (d_sec (u32 (d_sect (wd_dp x) + 1)) (wd_dp x)) (wd_lfn x)).
  destruct (next_cluster_stretch cfuel (sclust (d_obj (wd_dp x))) x1 l Hf Ht Ec) as (fr & c & v' & E & R); [cbn [x1 wd_vol]; lia|done|].
  assert (cross cfuel true i x = next_cluster cfuel true x1) as Ecr.
  { unfold cross. rewrite bind_dp, bind_dgeo, bind_set_dp, Ec. pose proof (table_links _ _ _ Ht) as Hl. pose proof (links_range _ _ _ _ _ Hl (get_in l (zlen l - 1) ltac:(destruct (index_in _ _ Hg l (i / 16) Hj); lia))) as Hr.
    rewrite (proj2 (Z.eqb_neq _ 0)) by lia. rewrite Eq, (csect_mod _ _ Hg) by lia. unfold nsec at 1. rewrite Z.mul_comm, Z.mod_mul by lia. done. }
  exists fr, c, v'. rewrite <- Ecr in E. cbn [x1 wd_vol wd_dp wd_lfn] in E, R. destruct R as [(-> & R)|(-> & C & Sl & Nl)].
  - eexists. rewrite (m_bind_Ok _ _ _ _ _ E). split; [reflexivity|]. split; [by left|]. split; [done|discriminate].
  - eexists. rewrite (m_bind_Ok _ _ _ _ _ E). change (fr_ok FR_OK) with true. cbv iota. rewrite bind_set_dp. split; [reflexivity|]. split; [right; done|]. split; [done|]. intros _. cbn [wd_dp].
    split; cbn [dptr d_sect d_dir d_clust d_at d_ptr d_sec d_cl]; [rewrite Nl; lia|lia| |lia|].
    + cbn [dsect]. rewrite Eq. unfold fsect, nsec. rewrite (Z.mul_comm (csize (x_geo x))), Z.div_mul, Z.mod_mul by lia. rewrite get_last. lia.
    + rewrite Eq. unfold nsec. rewrite (Z.mul_comm (csize (x_geo x))), Z.div_mul by lia. by rewrite get_last.
Qed.

End Grow.
