(* ===== verification/FatEdit.v ===== *)
(** * FatEdit: allocating, storing and removing entries

    [dir_alloc] finds the first block of free slots, stretching the table when
    there is none; [dir_register] fills such a block with the entries of an
    object, [dir_remove] marks the entries of one as deleted. *)

From Stdlib Require Import ZArith Lia Bool.
From stdpp Require Import base list list_numbers sets.
From S2P Require Import Prelude CLib Hw Ata Fat FatChain FatFile FatRead FatSync FatLfn FatDir FatTable FatScan FatItems FatGrow.
From stdpp Require Import options.

(** A slot that may be reused. *)
Definition free_slot (e : list Z) : bool := (get e 0 =? DDEM) || (get e 0 =? 0).

(** Slots [k - n + 1 .. k] are free. *)
Definition block_at (es : list (list Z)) (n k : Z) : Prop :=
  0 <= k - n + 1 /\ k < Z.of_nat (length es) /\ forall j e, k - n < j <= k -> es !! Z.to_nat j = Some e -> free_slot e = true.

Lemma block_app es z n k : block_at es n k -> block_at (es ++ z) n k.
Proof. intros (H1 & H2 & H3). split; [done|]. split; [rewrite length_app; lia|]. intros j e Hj. rewrite lookup_app_l by lia. by apply H3. Qed.

(** No block of [n] free slots ends before slot [i]. *)
Definition no_block (es : list (list Z)) (n i : Z) : Prop := forall k, k < i -> ~ block_at es n k.

Section Alloc.
Context {D : Type} `{BlockLaws D}.
#[local] Set Default Proof Using "Type*".

Abbreviation v_geo v := (fs_geo (v_fs v)).
Abbreviation nent v := (n_fatent (v_geo v)).
Abbreviation x_geo x := (v_geo (wd_vol x)).

(** The directory grew by [m] empty slots. *)
Definition grew (sc : Z) (t t' : dtable) (v v' : vol D) : Prop :=
  changed sc t t' v v' /\ exists m, slots v' t' = slots v t ++ replicate m zero_slot.

Lemma grew_peeked sc t v v' : fat_ok v -> table_at v sc t -> peeked v v' -> grew sc t t v v'.
Proof. intros Hf Ht Hp. split; [by apply peeked_changed|]. exists 0%nat. cbn [replicate]. rewrite app_nil_r. by apply (slots_peeked v v' sc). Qed.

Lemma grew_trans sc t1 t2 t3 v1 v2 v3 : fat_ok v1 -> grew sc t1 t2 v1 v2 -> grew sc t2 t3 v2 v3 -> grew sc t1 t3 v1 v3.
Proof.
  intros Hf [C1 [m1 S1]] [C2 [m2 S2]]. split; [by eapply changed_trans|]. exists (m1 + m2)%nat. by rewrite S2, S1, <- app_assoc, replicate_add.
Qed.

Definition alloc_done (t' : dtable) (n_ent : Z) (fr : FRESULT) (v' : vol D) (d' : DIR) : Prop :=
  (fr = FR_OK /\ exists k, at_slot (v_geo v') t' d' k /\ block_at (slots v' t') n_ent k /\ no_block (slots v' t') n_ent k /\ winsect (fs_win (v_fs v')) = d_sect d') \/
  (((fr = FR_NO_FILE /\ (t' = Static \/ nslots (v_geo v') t' = 65536)) \/ (fr = FR_DENIED /\ full v')) /\ no_block (slots v' t') n_ent (nslots (v_geo v') t')).

Lemma no_block_app es z n i : i <= Z.of_nat (length es) -> no_block es n i -> no_block (es ++ z) n i.
Proof.
  intros Hi Hno k Hk (H1 & H2 & H3). apply (Hno k Hk). split; [done|]. split; [lia|]. intros j e Hj Ej. apply (H3 j); [done|]. by rewrite lookup_app_l by (apply lookup_lt_Some in Ej; lia).
Qed.

(** One more slot without a block of [n_ent]. *)
Lemma no_block_next es n_ent n i e : 0 < n_ent -> 0 <= n < n_ent -> n <= i -> es !! Z.to_nat i = Some e ->
  n = i \/ (exists e', es !! Z.to_nat (i - n - 1) = Some e' /\ free_slot e' = false) -> no_block es n_ent i ->
  free_slot e = false \/ n + 1 < n_ent -> no_block es n_ent (i + 1).
Proof.
  intros Hn0 Hn Hi Ee Hmax Hno Hlast k Hk Hb. destruct (decide (k = i)) as [->|]; [|by apply (Hno k); [lia|]]. destruct Hb as (H1 & H2 & H3).
  destruct Hlast as [Hfr|Hlt]; [rewrite (H3 i e) in Hfr; [done|lia|done]|]. destruct Hmax as [->|(e' & Ee' & Hfr)]; [lia|]. rewrite (H3 (i - n - 1) e') in Hfr; [done|lia|done].
Qed.

Lemma alloc_loop_ok cfuel n_ent fuel : 0 < n_ent < 65536 -> forall x t i n, fat_ok (wd_vol x) -> table_at (wd_vol x) (sclust (d_obj (wd_dp x))) t -> at_slot (x_geo x) t (wd_dp x) i ->
  (2 * Z.to_nat (nent (wd_vol x)) <= cfuel)%nat -> 65536 - i <= Z.of_nat fuel -> 0 <= n < n_ent -> n <= i ->
  (forall j e, i - n <= j < i -> slots (wd_vol x) t !! Z.to_nat j = Some e -> free_slot e = true) ->
  n = i \/ (exists e', slots (wd_vol x) t !! Z.to_nat (i - n - 1) = Some e' /\ free_slot e' = false) -> no_block (slots (wd_vol x) t) n_ent i ->
  exists fr v' d' t', alloc_loop cfuel fuel n_ent n x = Ok (fr, mk_work v' d' (wd_lfn x)) /\ grew (sclust (d_obj (wd_dp x))) t t' (wd_vol x) v' /\ same_dp (wd_dp x) d' /\ alloc_done t' n_ent fr v' d'.
Proof.
  intros Hne. induction fuel as [|fuel IH]; intros x t i n Hf Ht Ha Hcf Hfu Hn Hni Hfree Hmax Hno; pose proof (as_in _ _ _ _ Ha) as Hi; [unfold nslots in Hi; lia|].
  cbn [alloc_loop]. rewrite bind_dp. destruct (show_slot x t i Hf Ht Ha) as (v1 & E1 & P1 & W1 & L1 & Hd & B1). rewrite (bind_dvol _ _ _ _ _ E1). change (fr_ok FR_OK) with true. cbv iota. rewrite bind_dwnd. cbn [wd_vol wd_dp wd_lfn].
  unfold DIR_Name. rewrite (rd_entry _ _ L1 Hd 0) by lia. rewrite B1. pose proof P1 as (F1 & _ & _). pose proof (peeked_geo _ _ P1) as G1. set (sc := sclust (d_obj (wd_dp x))) in *.
  pose proof (slots_peeked _ _ _ _ Hf P1 Ht) as Sl1. pose proof (peeked_table _ _ _ _ Hf P1 Ht) as Ht1. set (e := slot (wd_vol x) t i) in *.
  assert (slots (wd_vol x) t !! Z.to_nat i = Some e) as Ee by (rewrite lookup_slots by lia; rewrite Z2Nat.id by lia; done).
  assert (length e = 32%nat) as Le by (rewrite <- B1; by apply entry_len). rewrite rd_in by lia. rewrite Z.add_0_l. rewrite (bind_dlift _ _ _ (get e 0) eq_refl). fold (free_slot e). cbv zeta.
  set (n' := if free_slot e then u32 (n + 1) else 0). assert (n' = if free_slot e then n + 1 else 0) as En' by (unfold n'; destruct (free_slot e); [apply u32_small; lia|done]).
  destruct (free_slot e && (n' =? n_ent)) eqn:Edone.
  - apply andb_true_iff in Edone as [Ef Eq]. apply Z.eqb_eq in Eq. rewrite Ef in En'. eexists _, _, _, t. split; [reflexivity|]. split; [by apply grew_peeked|]. split; [done|]. left. split; [done|]. exists i.
    rewrite G1, Sl1. split; [done|]. split; [|split; [done|done]]. split; [lia|]. split; [rewrite length_slots; lia|]. intros j e' Hj Ej. destruct (decide (j = i)) as [->|]; [by rewrite Ee in Ej; injection Ej as <-|]. apply (Hfree j); [lia|done].
  - assert (0 <= n' < n_ent /\ (free_slot e = false \/ n + 1 < n_ent)) as [Hn' Hlast]. { rewrite En' in *. destruct (free_slot e); cbn [andb] in Edone; [|split; [lia|by left]]. apply Z.eqb_neq in Edone. split; [lia|right; lia]. }
    pose proof (no_block_next _ _ _ _ _ (proj1 Hne) Hn Hni Ee Hmax Hno Hlast) as Hno'. set (x1 := mk_work v1 (wd_dp x) (wd_lfn x)).
    assert (n' <= i + 1 /\ (forall j e0, i + 1 - n' <= j < i + 1 -> slots (wd_vol x) t !! Z.to_nat j = Some e0 -> free_slot e0 = true) /\
      (n' = i + 1 \/ exists e', slots (wd_vol x) t !! Z.to_nat (i + 1 - n' - 1) = Some e' /\ free_slot e' = false)) as (Hni' & Hfree' & Hmax').
    { rewrite En'. destruct (free_slot e) eqn:Ef.
      - split; [lia|]. split; [|destruct Hmax as [->|(e' & Ee' & Hfr)]; [by left|right; exists e'; by replace (i + 1 - (n + 1) - 1) with (i - n - 1) by lia]].
        intros j e0 Hj Ej. destruct (decide (j = i)) as [->|]; [by rewrite Ee in Ej; injection Ej as <-|]. apply (Hfree j); [lia|done].
      - split; [lia|]. split; [intros j e0 Hj; lia|]. right. exists e. by replace (i + 1 - 0 - 1) with i by lia. }
    destruct (decide (i + 1 < nslots (x_geo x) t)) as [Hlt|Hge]; [|destruct (decide (t = Static \/ i + 1 = 65536)) as [Hend|Hgrow]].
    + destruct (dir_next_ok cfuel true x1 t i F1 Ht1) as (v2 & d2 & E2 & P2 & A2 & S2); [cbn [x1 wd_vol wd_dp]; by rewrite G1|cbn [x1 wd_vol]; by rewrite G1|]. rewrite (m_bind_Ok _ _ _ _ _ E2). change (fr_ok FR_OK) with true. cbv iota.
      cbn [x1 wd_vol wd_dp wd_lfn] in *. pose proof S2 as (So & _). pose proof P2 as (F2 & _ & _). pose proof (peeked_geo _ _ P2) as G2. pose proof (slots_peeked _ _ _ _ F1 P2 Ht1) as Sl2.
      destruct (IH (mk_work v2 d2 (wd_lfn x)) t (i + 1) n') as (fr & v' & d' & t' & E & Gr & S & R); cbn [wd_vol wd_dp wd_lfn].
      * done.
      * rewrite So. by apply (peeked_table v1).
      * by rewrite G2.
      * by rewrite G2, G1.
      * lia.
      * done.
      * done.
      * by rewrite Sl2, Sl1.
      * by rewrite Sl2, Sl1.
      * by rewrite Sl2, Sl1.
      * cbn [wd_vol wd_dp wd_lfn] in *. rewrite So in Gr. exists fr, v', d', t'. split; [exact E|]. split; [|split; [by eapply same_dp_trans|done]].
        eapply grew_trans; [done|by apply grew_peeked|]. eapply grew_trans; [done|by apply grew_peeked|exact Gr].
    + destruct (dir_next_end cfuel true x1 t i ltac:(by right) F1 Ht1) as (v2 & d2 & E2 & P2 & Z2 & S2); [cbn [x1 wd_vol wd_dp]; by rewrite G1|cbn [x1 wd_vol]; rewrite G1; lia|]. rewrite (m_bind_Ok _ _ _ _ _ E2).
      cbn [x1 wd_vol wd_dp wd_lfn] in *. exists FR_NO_FILE, v2, d2, t. split; [reflexivity|]. split; [eapply grew_trans; [done|by apply grew_peeked|by apply grew_peeked]|]. split; [done|]. right.
      pose proof (peeked_geo _ _ P2) as G2. rewrite G2, G1, (slots_peeked _ _ _ _ F1 P2 Ht1), Sl1. replace (nslots (x_geo x) t) with (i + 1) by lia. split; [left; split; [done|]|done]. destruct Hend; [by left|by right].
    + destruct t as [|l]; [by destruct Hgrow; left|]. assert (i + 1 = nslots (x_geo x) (Clusters l)) as Heq by lia. assert (i + 1 <> 65536) as H65 by (intros E; apply Hgrow; by right).
      destruct (dir_next_stretch cfuel x1 l i F1 Ht1) as (fr & c & v2 & d2 & E2 & R2 & S2 & A2); [cbn [x1 wd_vol wd_dp]; by rewrite G1|cbn [x1 wd_vol]; by rewrite G1|unfold nslots in Heq; lia|cbn [x1 wd_vol]; by rewrite G1|].
      rewrite (m_bind_Ok _ _ _ _ _ E2). cbn [x1 wd_vol wd_dp wd_lfn] in *. fold sc in R2. destruct R2 as [(-> & Hfull & P2)|(-> & C2 & Sl2 & Nl2)].
      * exists FR_DENIED, v2, d2, (Clusters l). split; [reflexivity|]. split; [eapply grew_trans; [done|by apply grew_peeked|by apply grew_peeked]|]. split; [done|]. right.
        pose proof (peeked_geo _ _ P2) as G2. rewrite G2, G1, (slots_peeked _ _ _ _ F1 P2 Ht1), Sl1, <- Heq. split; [right; split; [done|]|done]. intros y Hy. rewrite (peeked_entry v1 v2) by done. apply Hfull. by rewrite G2 in Hy.
      * change (fr_ok FR_OK) with true. cbv iota. pose proof (ch_geo _ _ _ _ _ C2) as G2. pose proof S2 as (So & _). rewrite G1, Sl1 in *. specialize (A2 eq_refl).
        assert (Z.of_nat (length (slots (wd_vol x) (Clusters l))) = i + 1) as Lsl by (rewrite length_slots; lia).
        destruct (IH (mk_work v2 d2 (wd_lfn x)) (Clusters (l ++ [c])) (i + 1) n') as (fr & v' & d' & t' & E & Gr & S & R); cbn [wd_vol wd_dp wd_lfn].
        -- apply C2.
        -- rewrite So. apply C2.
        -- by rewrite G2.
        -- by rewrite G2.
        -- lia.
        -- done.
        -- done.
        -- rewrite Sl2. intros j e0 Hj. rewrite lookup_app_l by lia. by apply Hfree'.
        -- rewrite Sl2. destruct Hmax' as [?|(e' & Ee' & Hfr)]; [by left|right; exists e'; by rewrite lookup_app_l by (apply lookup_lt_Some in Ee'; done)].
        -- rewrite Sl2. apply no_block_app; [lia|done].
        -- cbn [wd_vol wd_dp wd_lfn] in *. rewrite So in Gr. exists fr, v', d', t'. split; [exact E|]. split; [|split; [by eapply same_dp_trans|done]].
           eapply grew_trans; [done|by apply grew_peeked|]. eapply grew_trans; [done| |exact Gr]. split; [exact C2|]. eexists. rewrite Sl1. exact Sl2.
Qed.

Lemma dir_alloc_ok cfuel dfuel n_ent x t : 0 < n_ent < 65536 -> fat_ok (wd_vol x) -> table_at (wd_vol x) (sclust (d_obj (wd_dp x))) t ->
  (2 * Z.to_nat (nent (wd_vol x)) <= cfuel)%nat -> 65536 <= Z.of_nat dfuel ->
  exists fr v' d' t', dir_alloc cfuel dfuel n_ent x = Ok (fr, mk_work v' d' (wd_lfn x)) /\ grew (sclust (d_obj (wd_dp x))) t t' (wd_vol x) v' /\ same_dp (wd_dp x) d' /\
    ((fr = FR_OK /\ exists k, at_slot (v_geo v') t' d' k /\ block_at (slots v' t') n_ent k /\ no_block (slots v' t') n_ent k) \/
     (fr = FR_DENIED /\ no_block (slots v' t') n_ent (nslots (v_geo v') t') /\ (t' = Static \/ nslots (v_geo v') t' = 65536 \/ full v'))).
Proof.
  intros Hne Hf Ht Hcf Hdf. pose proof (dsects_nonneg _ _ _ (fo_vol _ Hf) Ht) as Hpos. unfold dir_alloc. change 0 with (32 * 0) at 1.
  destruct (dir_sdi_ok x t 0 Hf Ht) as (v1 & d1 & E1 & P1 & A1 & S1); [unfold nslots; lia|]. rewrite (m_bind_Ok _ _ _ _ _ E1). change (fr_ok FR_OK) with true. cbv iota.
  pose proof S1 as (So & _). pose proof P1 as (F1 & _ & _). pose proof (peeked_geo _ _ P1) as G1.
  destruct (alloc_loop_ok cfuel n_ent dfuel Hne (mk_work v1 d1 (wd_lfn x)) t 0 0) as (fr & v' & d' & t' & E & Gr & S & R); cbn [wd_vol wd_dp wd_lfn].
  - done.
  - rewrite So. by apply (peeked_table (wd_vol x)).
  - by rewrite G1.
  - by rewrite G1.
  - lia.
  - lia.
  - lia.
  - intros j e Hj. lia.
  - by left.
  - intros k Hk (H1 & _). lia.
  - rewrite (m_bind_Ok _ _ _ _ _ E). cbn [wd_vol wd_dp wd_lfn] in *. rewrite So in Gr. assert (grew (sclust (d_obj (wd_dp x))) t t' (wd_vol x) v') as Gr' by (eapply grew_trans; [done|by apply grew_peeked|exact Gr]).
    exists (if bool_decide (fr = FR_NO_FILE) then FR_DENIED else fr), v', d', t'. split; [done|]. split; [done|]. split; [by eapply same_dp_trans|].
    destruct R as [(-> & k & A & B & N & _)|([[-> Hx]|[-> Hx]] & N)]; [left; split; [done|by exists k]|right..].
    + split; [done|]. split; [done|]. destruct Hx; [by left|right; by left].
    + split; [done|]. split; [done|]. right. by right.
Qed.

(** ** Storing the entries of an object *)

Lemma entry_for_slot w ord sum b dir : length b = 512%nat -> 0 <= dir <= 480 -> entry_for w ord sum b dir -> entry_for w ord sum (entry_at b dir) 0 /\ slot_data (entry_at b dir).
Proof.
  intros L Hd [B _ E0 E1 E2 E3 E4]. assert (slot_data (entry_at b dir)) as Hs. { split; [by apply entry_len|]. unfold entry_at. by apply Forall_take, Forall_drop. }
  assert (forall o, 0 <= o -> o + 2 <= 32 -> le16 (entry_at b dir) (0 + o) = le16 b (dir + o)) as Hle. { intros o H1 H2. unfold le16. rewrite !entry_get by lia. by replace (dir + (0 + o + 1)) with (dir + o + 1) by lia. }
  split; [|done]. split; [apply Hs|rewrite (proj1 Hs); lia| | | | |].
  - unfold LDIR_Ord in *. by rewrite entry_get by lia.
  - unfold LDIR_Attr in *. by rewrite entry_get by lia.
  - unfold LDIR_Chksum in *. by rewrite entry_get by lia.
  - unfold LDIR_FstClusLO in *. by rewrite Hle by lia.
  - intros k o Hk. assert (0 <= o <= 30) by (apply list_elem_of_lookup_2 in Hk; destruct LfnOfs_apart as [_ F]; rewrite Forall_forall in F; by apply F). rewrite Hle by lia. by apply E4.
Qed.

(** Replacing slots [i ..] by [ls]. *)
Definition splice (es : list (list Z)) (i : Z) (ls : list (list Z)) : list (list Z) := take (Z.to_nat i) es ++ ls ++ drop (Z.to_nat i + length ls) es.

Lemma splice_cons es i e ls : 0 <= i -> (Z.to_nat i < length es)%nat -> splice (<[Z.to_nat i := e]> es) (i + 1) ls = splice es i (e :: ls).
Proof.
  intros Hi Hl. unfold splice. rewrite insert_take_drop by done. replace (Z.to_nat (i + 1)) with (S (Z.to_nat i)) by lia. assert (length (take (Z.to_nat i) es) = Z.to_nat i) as Lt by (rewrite length_take; lia).
  rewrite take_app_ge, Lt by lia. replace (S (Z.to_nat i) - Z.to_nat i)%nat with 1%nat by lia. cbn [take]. rewrite take_0, <- app_assoc. cbn [app]. do 3 f_equal.
  rewrite drop_app_ge, Lt by lia. replace (S (Z.to_nat i) + length ls - Z.to_nat i)%nat with (S (length ls)) by lia. cbn [drop]. rewrite drop_drop. cbn [length]. f_equal. lia.
Qed.

Lemma splice_nil es i : splice es i [] = es.
Proof. unfold splice. cbn [app length]. rewrite Nat.add_0_r. apply take_drop. Qed.

Lemma splice_app es i l1 l2 : 0 <= i -> i + zlen l1 + zlen l2 <= zlen es -> splice (splice es i l1) (i + zlen l1) l2 = splice es i (l1 ++ l2).
Proof.
  intros Hi Hl. unfold splice. assert (length (take (Z.to_nat i) es) = Z.to_nat i) as Lt by (rewrite length_take; lia). rewrite app_assoc at 1. rewrite (app_assoc (take _ es)).
  rewrite take_app_length' by (rewrite length_app; lia). rewrite <- !app_assoc. do 3 f_equal. replace (Z.to_nat (i + zlen l1) + length l2)%nat with (length (take (Z.to_nat i) es ++ l1) + length l2)%nat by (rewrite length_app; lia).
  rewrite app_assoc, drop_app_add, drop_drop. f_equal. rewrite length_app. lia.
Qed.

Lemma changed_peek sc t v1 v2 v3 : fat_ok v1 -> changed sc t t v1 v2 -> peeked v2 v3 -> changed sc t t v1 v3 /\ slots v3 t = slots v2 t.
Proof.
  intros Hf C P. split; [|apply (slots_peeked _ _ sc); [apply C|done|apply C]]. eapply changed_trans; [done|exact C|]. apply peeked_changed; [apply C|apply C|done].
Qed.

(** An entry of the window changed in place. *)
Lemma write_slot x t i f b' : fat_ok (wd_vol x) -> table_at (wd_vol x) (sclust (d_obj (wd_dp x))) t -> at_slot (x_geo x) t (wd_dp x) i ->
  (forall b, length b = 512%nat -> Forall is_byte b -> entry_at b (32 * (i mod 16)) = slot (wd_vol x) t i -> exists b2, f b = Ok b2 /\ sector_data b2 /\ only (32 * (i mod 16)) (32 * (i mod 16) + 32) b b2 /\ b' b2) ->
  exists v1 v2 b2, move_window (d_sect (wd_dp x)) (wd_vol x) = Ok (FR_OK, v1) /\ win_put f v1 = Ok (tt, v2) /\ b' b2 /\ changed (sclust (d_obj (wd_dp x))) t t (wd_vol x) v2 /\
    slots v2 t = <[Z.to_nat i := entry_at b2 (32 * (i mod 16))]> (slots (wd_vol x) t) /\ winsect (fs_win (v_fs v2)) = d_sect (wd_dp x).
Proof.
  intros Hf Ht Ha Hfun. destruct (show_slot x t i Hf Ht Ha) as (v1 & E1 & P1 & W1 & L1 & Hd & B1). pose proof P1 as (F1 & _ & _). pose proof (peeked_geo _ _ P1) as G1. pose proof Ha as [Hi _ Es Ed _]. rewrite Ed in *.
  destruct (Hfun (win (fs_win (v_fs v1))) L1) as (b2 & E2 & Hb2 & Ho & Hq); [apply (vo_win _ (fo_vol _ F1))|done|]. set (sc := sclust (d_obj (wd_dp x))) in *.
  pose proof (peeked_table _ _ _ _ Hf P1 Ht) as Ht1. destruct (put_slot v1 sc t i b2 F1 Ht1) as [C Sl]; [by rewrite G1|rewrite G1; congruence|done|done|].
  exists v1, (with_window b2 v1), b2. split; [done|]. split; [unfold win_put; rewrite bind_wnd, E2; reflexivity|]. split; [done|]. split; [eapply changed_trans; [done|by apply peeked_changed|exact C]|]. split; [|done].
  rewrite Sl. f_equal. by apply (slots_peeked _ _ sc).
Qed.

End Alloc.
