(* ===== verification/FatReg.v ===== *)
(** * FatReg: the entries of an object stored and removed

    [lfn_loop] and [put_sfn] write the entries of an object into a block of
    free slots, [remove_entries] marks a block as deleted; the other slots
    and the rest of the volume stay. *)

From Stdlib Require Import ZArith Lia Bool.
From stdpp Require Import base list list_numbers.
From S2P Require Import Prelude CLib Hw Ata FatUni Fat FatChain FatFile FatRead FatSync FatLfn FatDir FatTable FatScan FatItems FatGrow FatEdit.
From stdpp Require Import options.

(** ** The short entry *)

(** A name of 11 bytes with its status byte. *)
Definition fname (fn : list Z) : Prop := length fn = 12%nat /\ Forall is_byte fn.

Definition sfn_entry (fn : list Z) : list Z := take 11 fn ++ 0 :: Z.land (get fn NSFLAG) (NS_BODY + NS_EXT) :: replicate 19 0.

Lemma land_byte a b : 0 <= a -> is_byte b -> is_byte (Z.land a b).
Proof.
  intros Ha [Hb1 Hb2]. pose proof (proj2 (Z.land_nonneg a b) (or_introl Ha)) as Hp. split; [done|]. rewrite Z.land_comm.
  destruct (decide (Z.land b a = 0)) as [->|Hn]; [lia|]. rewrite Z.land_comm in Hn. apply (Z.log2_lt_pow2 _ 8); [rewrite Z.land_comm; lia|].
  eapply Z.le_lt_trans; [apply Z.log2_land; lia|]. eapply Z.le_lt_trans; [apply Z.le_min_l|]. destruct (decide (b = 0)) as [->|]; [done|]. apply Z.log2_lt_pow2; lia.
Qed.

Lemma fname_get fn i : fname fn -> 0 <= i < 12 -> is_byte (get fn i).
Proof. intros [L F] Hi. unfold get. rewrite List.Forall_forall in F. apply F, nth_In. lia. Qed.

Lemma sfn_entry_data fn : fname fn -> slot_data (sfn_entry fn).
Proof.
  intros Hf. pose proof Hf as [L F]. unfold sfn_entry. split; [rewrite length_app; cbn [length]; rewrite length_take, length_replicate; lia|].
  apply Forall_app. split; [by apply Forall_take|]. apply Forall_cons. split; [unfold is_byte; lia|]. apply Forall_cons. split; [|apply Forall_replicate; unfold is_byte; lia].
  apply land_byte; [|unfold is_byte, NS_BODY, NS_EXT; lia]. apply (fname_get fn NSFLAG Hf). unfold NSFLAG. lia.
Qed.

Lemma sfn_entry_get fn i : fname fn -> 0 <= i < 11 -> get (sfn_entry fn) i = get fn i.
Proof. intros [L _] Hi. unfold sfn_entry. rewrite get_app_l by (rewrite length_take; lia). apply get_take. lia. Qed.

Lemma sfn_entry_sum fn : fname fn -> sfn_sum (sfn_entry fn) = sfn_sum fn.
Proof.
  intros Hf. unfold sfn_sum, sum_sfn. rewrite (sum_loop_ext 11 (sfn_entry fn) fn 0 0); [done|]. intros k Hk. pose proof (sfn_entry_data fn Hf) as [L _]. pose proof Hf as [L' _].
  rewrite !rd_in by lia. by rewrite sfn_entry_get.
Qed.

Lemma entry_at_app a e c dir : 0 <= dir -> length a = Z.to_nat dir -> length e = 32%nat -> entry_at (a ++ e ++ c) dir = e.
Proof. intros Hd La Le. unfold entry_at. rewrite <- La, drop_app_length, <- Le. apply take_app_length. Qed.

(** Bytes put into the middle of a sector. *)
Lemma only_app b dir e : 0 <= dir -> dir + zlen e <= zlen b -> only dir (dir + zlen e) b (take (Z.to_nat dir) b ++ e ++ drop (Z.to_nat (dir + zlen e)) b).
Proof.
  intros Hd Hl j Hj Hn. assert (length (take (Z.to_nat dir) b) = Z.to_nat dir) as Lt by (rewrite length_take; lia).
  destruct (decide (j < dir)) as [Hlt|]; [rewrite get_app_l by lia; apply get_take; lia|]. rewrite get_app_r by lia. rewrite get_app_r by lia. rewrite get_drop by lia. f_equal. lia.
Qed.

(** What [put_sfn] puts into a sector. *)
Lemma put_sfn_ok fn dir b : fname fn -> sector_data b -> 0 <= dir <= 480 ->
  exists b', put_sfn fn dir b = Ok b' /\ sector_data b' /\ only dir (dir + 32) b b' /\ entry_at b' dir = sfn_entry fn.
Proof.
  intros Hf [L B] Hd. pose proof Hf as [Lf Bf]. destruct (sfn_entry_data fn Hf) as [Ls Bs]. set (p := take (Z.to_nat dir) b). set (q := drop (Z.to_nat (dir + 32)) b).
  assert (length p = Z.to_nat dir) as Lp by (unfold p; rewrite length_take; lia). assert (length q = Z.to_nat (480 - dir)) as Lq by (unfold q; rewrite length_drop; lia).
  assert (put_sfn fn dir b = Ok (p ++ sfn_entry fn ++ q)) as E.
  { assert (store b dir (replicate 32 0) = Ok (p ++ replicate 32 0 ++ q)) as E1. { unfold store. rewrite length_replicate. rewrite (proj2 (Z.leb_le 0 dir)), (proj2 (Z.leb_le (dir + _) _)) by lia. done. }
    unfold put_sfn. rewrite E1, bind_Ok.
    unfold fetch. rewrite (proj2 (Z.leb_le (0 + 11) _)) by lia. cbn [andb Z.leb Z.compare]. rewrite bind_Ok. change (Z.to_nat 0) with 0%nat. rewrite drop_0. change (Z.to_nat 11) with 11%nat.
    assert (length (take 11 fn) = 11%nat) as Ln by (rewrite length_take; lia). unfold store, DIR_Name. rewrite Z.add_0_r, Ln, !length_app, length_replicate.
    rewrite (proj2 (Z.leb_le 0 dir)), (proj2 (Z.leb_le (dir + _) _)) by lia. cbn [andb]. rewrite bind_Ok. rewrite <- Lp, take_app_length.
    replace (Z.to_nat (dir + Z.of_nat 11)) with (length p + 11)%nat by lia. rewrite drop_app_add, drop_app_le by (rewrite length_replicate; lia). change (drop 11 (replicate 32 0)) with (replicate 21 0).
    rewrite rd_in by (unfold NSFLAG; lia). rewrite bind_Ok. unfold DIR_NTres. rewrite wr_in by (rewrite !length_app, length_replicate, Ln; lia). f_equal.
    replace (Z.to_nat (dir + 12)) with (length p + 12)%nat by lia. rewrite insert_app_r. f_equal. rewrite insert_app_r_alt by lia. rewrite Ln. unfold sfn_entry. rewrite <- app_assoc. f_equal. }
  exists (p ++ sfn_entry fn ++ q). split; [exact E|]. split; [|split].
  - split; [rewrite !length_app; lia|]. apply Forall_app. split; [by apply Forall_take|]. apply Forall_app. split; [done|by apply Forall_drop].
  - replace (dir + 32) with (dir + zlen (sfn_entry fn)) by lia. unfold p, q. replace (dir + 32) with (dir + zlen (sfn_entry fn)) by lia. apply only_app; lia.
  - apply entry_at_app; lia.
Qed.

(** ** Writing a block of slots *)

Section Blocks.
Context {D : Type} `{BlockLaws D}.
#[local] Set Default Proof Using "Type*".

Abbreviation v_geo v := (fs_geo (v_fs v)).
Abbreviation nent v := (n_fatent (v_geo v)).
Abbreviation x_geo x := (v_geo (wd_vol x)).

(** Slots [i ..] were replaced by [ls], and the object stands at slot [k]. *)
Definition wrote (t : dtable) (x : work_dir D) (i : Z) (ls : list (list Z)) (k : Z) (v' : vol D) (d' : DIR) : Prop :=
  changed (sclust (d_obj (wd_dp x))) t t (wd_vol x) v' /\ slots v' t = splice (slots (wd_vol x) t) i ls /\ at_slot (x_geo x) t d' k /\ same_dp (wd_dp x) d'.

(** A slot written, then the rest of the block from the next slot on. *)
Lemma wrote_cons t x i e ls k v2 v3 d3 v' d' : fat_ok (wd_vol x) -> at_slot (x_geo x) t (wd_dp x) i -> table_at (wd_vol x) (sclust (d_obj (wd_dp x))) t ->
  changed (sclust (d_obj (wd_dp x))) t t (wd_vol x) v2 -> slots v2 t = <[Z.to_nat i := e]> (slots (wd_vol x) t) -> peeked v2 v3 -> same_dp (wd_dp x) d3 ->
  wrote t (mk_work v3 d3 (wd_lfn x)) (i + 1) ls k v' d' -> wrote t x i (e :: ls) k v' d'.
Proof.
  intros Hf Ha Ht C2 S2 P3 S3 (C & Sl & A & S). cbn [wd_vol wd_dp wd_lfn] in *. pose proof S3 as (So & _). destruct (changed_peek _ _ _ _ _ Hf C2 P3) as [C3 Sl3]. rewrite So in C.
  pose proof (as_in _ _ _ _ Ha) as Hi. split; [by eapply changed_trans|]. split; [|split; [|by eapply same_dp_trans]].
  - rewrite Sl, Sl3, S2. apply splice_cons; [lia|]. rewrite length_slots by lia. lia.
  - by rewrite (ch_geo _ _ _ _ _ C3) in A.
Qed.

Lemma changed_slot g sc t v v' d i : changed sc t t v v' -> g = v_geo v -> at_slot g t d i -> at_slot (v_geo v') t d i.
Proof. intros C -> A. by rewrite (ch_geo _ _ _ _ _ C). Qed.

(** The long-name entries [n .. 1] in the slots from [i] on. *)
Lemma lfn_loop_ok cfuel t w sum n : is_byte sum -> Z.of_nat n <= n_entries w -> forall x i, named w (wd_lfn x) -> fat_ok (wd_vol x) -> table_at (wd_vol x) (sclust (d_obj (wd_dp x))) t ->
  at_slot (x_geo x) t (wd_dp x) i -> i + Z.of_nat n < nslots (x_geo x) t ->
  exists v' d' ls, lfn_loop cfuel n sum x = Ok (FR_OK, mk_work v' d' (wd_lfn x)) /\ wrote t x i ls (i + Z.of_nat n) v' d' /\ entry_set w sum 0 n ls /\ Forall slot_data ls /\ length ls = n.
Proof.
  intros Hsum. induction n as [|n IH]; intros Hn x i Hw Hf Ht Ha Hi; set (sc := sclust (d_obj (wd_dp x))) in *.
  - exists (wd_vol x), (wd_dp x), []. split; [by destruct x|]. split; [|done]. split; [by apply peeked_changed, peeked_refl|]. split; [by rewrite splice_nil|]. by rewrite Z.add_0_r.
  - cbn [lfn_loop]. rewrite bind_dp, bind_lfnbuf. destruct (ord_range w (Z.of_nat (S n)) (nm_len _ _ Hw) ltac:(lia)) as [Hk _]. rewrite (u8_small (Z.of_nat (S n))) by lia.
    pose proof (as_dir _ _ _ _ Ha) as Ed. pose proof (as_in _ _ _ _ Ha) as Hii. assert (0 <= 32 * (i mod 16) <= 480) as Hd by dlia.
    destruct (write_slot x t i (put_lfn (wd_lfn x) (d_dir (wd_dp x)) (Z.of_nat (S n)) sum) (fun b2 => sector_data b2 /\ entry_for w (Z.of_nat (S n)) sum b2 (32 * (i mod 16))) Hf Ht Ha)
      as (v1 & v2 & b2 & E1 & E2 & [[L2 _] Eb] & C2 & S2 & _).
    { intros b L B _. rewrite Ed. destruct (put_lfn_ok w (wd_lfn x) (32 * (i mod 16)) (Z.of_nat (S n)) sum b Hw) as (b' & E & He & Ho & Hs); [done|done|lia|done|]. by exists b'. }
    rewrite (bind_dvol _ _ _ _ _ E1). change (fr_ok FR_OK) with true. cbv iota. rewrite (bind_dvol _ _ (mk_work v1 (wd_dp x) (wd_lfn x)) _ _ E2). cbn [wd_vol wd_dp wd_lfn].
    destruct (entry_for_slot _ _ _ _ _ L2 Hd Eb) as [Ee He]. set (e := entry_at b2 (32 * (i mod 16))) in *.
    destruct (dir_next_ok cfuel false (mk_work v2 (wd_dp x) (wd_lfn x)) t i) as (v3 & d3 & E3 & P3 & A3 & S3); cbn [wd_vol wd_dp wd_lfn]; [apply C2|apply C2|by eapply changed_slot|rewrite (ch_geo _ _ _ _ _ C2); lia|].
    rewrite (m_bind_Ok _ _ _ _ _ E3). change (fr_ok FR_OK) with true. cbv iota. cbn [wd_vol wd_dp wd_lfn] in *. pose proof (peeked_geo _ _ P3) as G3. pose proof S3 as (So & _). pose proof (ch_geo _ _ _ _ _ C2) as G2.
    destruct (IH ltac:(lia) (mk_work v3 d3 (wd_lfn x)) (i + 1)) as (v' & d' & ls & E & R & Es & Fs & Ls); cbn [wd_vol wd_dp wd_lfn].
    + done.
    + apply P3.
    + rewrite So. apply (peeked_table v2); [apply C2|done|apply C2].
    + by rewrite G3.
    + rewrite G3, G2. lia.
    + exists v', d', (e :: ls). split; [|split; [|split; [by split|split; [by apply Forall_cons|cbn [length]; lia]]]].
      * destruct n as [|n]; [|exact E]. cbn [lfn_loop] in E. by injection E as <- <-.
      * replace (i + Z.of_nat (S n)) with (i + 1 + Z.of_nat n) by lia. by apply (wrote_cons t x i e ls _ v2 v3 d3).
Qed.

(** A slot marked as deleted. *)
Definition erased (e : list Z) : list Z := <[0%nat := DDEM]> e.

Lemma erased_data e : slot_data e -> slot_data (erased e) /\ get (erased e) 0 = DDEM.
Proof.
  intros [L B]. unfold erased. split; [split; [by rewrite length_insert|apply Forall_insert; [done|unfold is_byte, DDEM; lia]]|]. change 0%nat with (Z.to_nat 0). apply get_insert_eq. lia.
Qed.

Lemma erase_entry b dir : sector_data b -> 0 <= dir <= 480 -> exists b', wr b (dir + DIR_Name) DDEM = Ok b' /\ sector_data b' /\ only dir (dir + 32) b b' /\ entry_at b' dir = erased (entry_at b dir).
Proof.
  intros [L B] Hd. unfold DIR_Name. destruct (wr_byte b (dir + 0) DDEM) as (b' & E & Hb & Hg & Ho); [done|lia|unfold is_byte, DDEM; lia|]. exists b'. split; [done|]. split; [done|]. split; [intros j Hj Hn; apply Ho; lia|].
  rewrite wr_in in E by lia. injection E as <-. unfold entry_at, erased. rewrite Z.add_0_r. by rewrite drop_insert_ge, take_insert_lt, Nat.sub_diag by lia.
Qed.

(** The slots [i .. i + n] marked as deleted. *)
Lemma remove_entries_ok cfuel t n fuel : (n < fuel)%nat -> forall x i last, fat_ok (wd_vol x) -> table_at (wd_vol x) (sclust (d_obj (wd_dp x))) t -> at_slot (x_geo x) t (wd_dp x) i ->
  last = 32 * (i + Z.of_nat n) -> i + Z.of_nat n < nslots (x_geo x) t ->
  exists v' d', remove_entries cfuel fuel last x = Ok (FR_OK, mk_work v' d' (wd_lfn x)) /\
    wrote t x i (erased <$> take (S n) (drop (Z.to_nat i) (slots (wd_vol x) t))) (i + Z.of_nat n) v' d'.
Proof.
  revert fuel. induction n as [|n IH]; intros [|fuel] Hfu x i last Hf Ht Ha El Hi; try lia; set (sc := sclust (d_obj (wd_dp x))) in *; pose proof (as_in _ _ _ _ Ha) as Hii; pose proof (as_dir _ _ _ _ Ha) as Ed; pose proof (as_ptr _ _ _ _ Ha) as Ep; assert (0 <= 32 * (i mod 16) <= 480) as Hd by dlia;
    cbn [remove_entries]; rewrite bind_dp;
    (destruct (write_slot x t i (fun b => wr b (d_dir (wd_dp x) + DIR_Name) DDEM) (fun b2 => entry_at b2 (32 * (i mod 16)) = erased (slot (wd_vol x) t i)) Hf Ht Ha) as (v1 & v2 & b2 & E1 & E2 & Eb & C2 & S2 & _);
    [intros b L B <-; rewrite Ed; by apply erase_entry|]);
    rewrite (bind_dvol _ _ _ _ _ E1); change (fr_ok FR_OK) with true; cbv iota; rewrite (bind_dvol _ _ (mk_work v1 (wd_dp x) (wd_lfn x)) _ _ E2); cbn [wd_vol wd_dp wd_lfn]; rewrite Ep, Eb in *; rewrite (slots_cons (wd_vol x) t i) by lia; cbn [take fmap list_fmap].
  - rewrite (proj2 (Z.leb_le last (32 * i))) by lia. exists v2, (wd_dp x). split; [done|]. rewrite take_0. cbn [fmap list_fmap]. replace (i + Z.of_nat 0) with i by lia. split; [done|]. split; [|done].
    rewrite S2. rewrite <- splice_cons; [by rewrite splice_nil|lia|rewrite length_slots by lia; lia].
  - rewrite (proj2 (Z.leb_gt last (32 * i))) by lia.
    destruct (dir_next_ok cfuel false (mk_work v2 (wd_dp x) (wd_lfn x)) t i) as (v3 & d3 & E3 & P3 & A3 & S3); cbn [wd_vol wd_dp wd_lfn]; [apply C2|apply C2|by eapply changed_slot|rewrite (ch_geo _ _ _ _ _ C2); lia|].
    rewrite (m_bind_Ok _ _ _ _ _ E3). change (fr_ok FR_OK) with true. cbv iota. cbn [wd_vol wd_dp wd_lfn] in *. pose proof (peeked_geo _ _ P3) as G3. pose proof S3 as (So & _). pose proof (ch_geo _ _ _ _ _ C2) as G2.
    destruct (changed_peek _ _ _ _ _ Hf C2 P3) as [C3 Sl3].
    destruct (IH fuel ltac:(lia) (mk_work v3 d3 (wd_lfn x)) (i + 1) last) as (v' & d' & E & R); cbn [wd_vol wd_dp wd_lfn].
    + apply P3.
    + rewrite So. apply C3.
    + by rewrite G3.
    + lia.
    + rewrite G3, G2. lia.
    + exists v', d'. split; [exact E|]. replace (i + Z.of_nat (S n)) with (i + 1 + Z.of_nat n) by lia. apply (wrote_cons t x i _ _ _ v2 v3 d3); try done. cbn [wd_vol] in R.
      rewrite Sl3, S2, drop_insert_lt in R by lia. exact R.
Qed.

Lemma wrote_app t x i ls1 ls2 v1 d1 k v' d' : fat_ok (wd_vol x) -> 0 <= i -> i + zlen ls1 + zlen ls2 <= nslots (x_geo x) t -> wrote t x i ls1 (i + zlen ls1) v1 d1 ->
  wrote t (mk_work v1 d1 (wd_lfn x)) (i + zlen ls1) ls2 k v' d' -> wrote t x i (ls1 ++ ls2) k v' d'.
Proof.
  intros Hf Hi Hl (C1 & Sl1 & A1 & S1) (C & Sl & A & S). cbn [wd_vol wd_dp wd_lfn] in *. pose proof S1 as (So & _). rewrite So in C. split; [by eapply changed_trans|]. split; [|split; [|by eapply same_dp_trans]].
  - rewrite Sl, Sl1. apply splice_app; [done|]. rewrite length_slots by lia. lia.
  - by rewrite (ch_geo _ _ _ _ _ C1) in A.
Qed.

(** The short entry in slot [i]. *)
Lemma put_sfn_slot t x i : fname (d_fn (wd_dp x)) -> fat_ok (wd_vol x) -> table_at (wd_vol x) (sclust (d_obj (wd_dp x))) t -> at_slot (x_geo x) t (wd_dp x) i ->
  exists v', (r ← dvol (move_window (d_sect (wd_dp x))); _ ← when (fr_ok r) (dvol (win_put (put_sfn (d_fn (wd_dp x)) (d_dir (wd_dp x))))); mret r) x = Ok (FR_OK, mk_work v' (wd_dp x) (wd_lfn x)) /\
    wrote t x i [sfn_entry (d_fn (wd_dp x))] i v' (wd_dp x) /\ winsect (fs_win (v_fs v')) = d_sect (wd_dp x).
Proof.
  intros Hfn Hf Ht Ha. pose proof (as_dir _ _ _ _ Ha) as Ed. pose proof (as_in _ _ _ _ Ha) as Hi. assert (0 <= 32 * (i mod 16) <= 480) as Hd by dlia.
  destruct (write_slot x t i (put_sfn (d_fn (wd_dp x)) (d_dir (wd_dp x))) (fun b2 => entry_at b2 (32 * (i mod 16)) = sfn_entry (d_fn (wd_dp x))) Hf Ht Ha) as (v1 & v2 & b2 & E1 & E2 & Eb & C2 & S2 & W2).
  { intros b L B _. rewrite Ed. by apply put_sfn_ok. }
  rewrite (bind_dvol _ _ _ _ _ E1). change (fr_ok FR_OK) with true. cbn [when]. rewrite (bind_dvol _ _ (mk_work v1 (wd_dp x) (wd_lfn x)) _ _ E2). exists v2. split; [done|]. split; [|done]. split; [done|]. split; [|done].
  rewrite S2, Eb, <- splice_cons; [by rewrite splice_nil|lia|rewrite length_slots by lia; lia].
Qed.

(** The number of entries of an object with status [fl]. *)
Definition obj_slots (fl : Z) (w : list Z) : Z := if has fl NS_LFN then n_entries w + 1 else 1.

Lemma obj_slots_range fl w : wname w -> 1 <= obj_slots fl w <= 21.
Proof. intros [_ Hl]. unfold obj_slots, n_entries. destruct (has fl NS_LFN); dlia. Qed.

(** The entries of the object [fn], with long name [w], in the block that ends at slot [k]. *)
Definition stored (fl : Z) (w fn : list Z) (es : list (list Z)) (k : Z) (es' : list (list Z)) : Prop :=
  exists ls, es' = splice es (k + 1 - obj_slots fl w) (ls ++ [sfn_entry fn]) /\ Forall slot_data ls /\ entry_set w (sfn_sum fn) 0 (Z.to_nat (obj_slots fl w - 1)) ls.

Definition put_done (fl : Z) (w fn : list Z) (t t' : dtable) (v v' : vol D) (fr : FRESULT) (d' : DIR) : Prop :=
  let n := obj_slots fl w in
  exists m, let es := slots v t ++ replicate m zero_slot in
    (fr = FR_OK /\ exists k, block_at es n k /\ no_block es n k /\ stored fl w fn es k (slots v' t') /\ at_slot (v_geo v') t' d' k /\ winsect (fs_win (v_fs v')) = d_sect d') \/
    (fr = FR_DENIED /\ slots v' t' = es /\ no_block es n (nslots (v_geo v') t') /\ (t' = Static \/ nslots (v_geo v') t' = 65536 \/ full v')).

(** The entries in a block that was found. *)
Lemma put_block_ok cfuel fl t w x k : let n := obj_slots fl w in named w (wd_lfn x) -> fname (d_fn (wd_dp x)) -> fat_ok (wd_vol x) -> table_at (wd_vol x) (sclust (d_obj (wd_dp x))) t ->
  at_slot (x_geo x) t (wd_dp x) k -> 0 <= k - n + 1 ->
  exists v' d',
    (r ← (if negb (n - 1 =? 0) then
         d ← dp;
         r ← dir_sdi (u32 (dptr d - u32 ((n - 1) * SZDIRE)));
         if fr_ok r then d ← dp; sum ← lift (sum_sfn (d_fn d) 0); lfn_loop cfuel (Z.to_nat (n - 1)) sum
         else mret r
       else mret FR_OK);
     if fr_ok r then
       d ← dp;
       r ← dvol (move_window (d_sect d));
       _ ← when (fr_ok r) (dvol (win_put (put_sfn (d_fn d) (d_dir d))));
       mret r
     else mret r) x = Ok (FR_OK, mk_work v' d' (wd_lfn x)) /\
    changed (sclust (d_obj (wd_dp x))) t t (wd_vol x) v' /\ stored fl w (d_fn (wd_dp x)) (slots (wd_vol x) t) k (slots v' t) /\ at_slot (x_geo x) t d' k /\ same_dp (wd_dp x) d' /\ winsect (fs_win (v_fs v')) = d_sect d'.
Proof.
  intros n Hw Hfn Hf Ht Ha Hk. pose proof (obj_slots_range fl w (named_wname _ _ Hw)) as Hn. fold n in Hn. pose proof (as_in _ _ _ _ Ha) as Hi. pose proof (as_ptr _ _ _ _ Ha) as Ep. assert (nslots (x_geo x) t <= 65536) as Hmax by (unfold nslots; lia).
  assert (exists v1 d1 ls, (if negb (n - 1 =? 0) then d ← dp; r ← dir_sdi (u32 (dptr d - u32 ((n - 1) * SZDIRE))); if fr_ok r then d ← dp; sum ← lift (sum_sfn (d_fn d) 0); lfn_loop cfuel (Z.to_nat (n - 1)) sum else mret r else mret FR_OK) x =
      Ok (FR_OK, mk_work v1 d1 (wd_lfn x)) /\ wrote t x (k - n + 1) ls (k - n + 1 + zlen ls) v1 d1 /\ zlen ls = n - 1 /\ Forall slot_data ls /\ entry_set w (sfn_sum (d_fn (wd_dp x))) 0 (Z.to_nat (n - 1)) ls) as (v1 & d1 & ls & E1 & R1 & Ls & Fs & Es).
  { destruct (Z.eqb_spec (n - 1) 0) as [En|Nn]; cbn [negb].
    - exists (wd_vol x), (wd_dp x), []. rewrite En. split; [by destruct x|]. split; [|done]. split; [by apply peeked_changed, peeked_refl|]. split; [by rewrite splice_nil|]. cbn [length]. by replace (k - n + 1 + Z.of_nat 0) with k by lia.
    - rewrite bind_dp, Ep. unfold SZDIRE. rewrite (u32_small ((n - 1) * 32)), u32_small by lia. replace (32 * k - (n - 1) * 32) with (32 * (k - n + 1)) by lia.
      destruct (dir_sdi_ok x t (k - n + 1) Hf Ht) as (v1 & d1 & E1 & P1 & A1 & S1); [lia|]. rewrite (m_bind_Ok _ _ _ _ _ E1). change (fr_ok FR_OK) with true. cbv iota. rewrite bind_dp. cbn [wd_dp].
      pose proof S1 as (So & Sf & _). destruct (sum_sfn_ok (d_fn (wd_dp x))) as [Esum Hsum]; [rewrite (proj1 Hfn); lia|]. rewrite Sf, (bind_dlift _ _ _ _ Esum).
      assert (n - 1 = n_entries w) as Eq by (unfold n, obj_slots in *; destruct (has fl NS_LFN); lia). pose proof (peeked_geo _ _ P1) as G1.
      destruct (lfn_loop_ok cfuel t w (sfn_sum (d_fn (wd_dp x))) (Z.to_nat (n - 1)) Hsum ltac:(lia) (mk_work v1 d1 (wd_lfn x)) (k - n + 1)) as (v' & d' & ls & E & R & Es & Fs & Ls); cbn [wd_vol wd_dp wd_lfn].
      + done.
      + apply P1.
      + rewrite So. by apply (peeked_table (wd_vol x)).
      + by rewrite G1.
      + rewrite G1. lia.
      + exists v', d', ls. split; [exact E|]. split; [|split; [lia|done]]. replace (zlen ls) with (Z.of_nat (Z.to_nat (n - 1))) by lia. apply (wrote_app t x (k - n + 1) [] ls v1 d1).
        * done.
        * lia.
        * cbn [length]. lia.
        * rewrite Z.add_0_r. split; [by apply peeked_changed|]. split; [rewrite splice_nil; by apply (slots_peeked _ _ (sclust (d_obj (wd_dp x))))|done].
        * rewrite Z.add_0_r. exact R. }
  rewrite (m_bind_Ok _ _ _ _ _ E1). change (fr_ok FR_OK) with true. cbv iota. rewrite bind_dp. cbn [wd_dp]. pose proof R1 as (C1 & _ & A1 & (So & Sf & _)). pose proof (ch_geo _ _ _ _ _ C1) as G1.
  destruct (put_sfn_slot t (mk_work v1 d1 (wd_lfn x)) (k - n + 1 + zlen ls)) as (v' & E & R & W); cbn [wd_vol wd_dp wd_lfn]; [by rewrite Sf|apply C1|rewrite So; apply C1|by rewrite G1|].
  exists v', d1. split; [exact E|]. cbn [wd_vol wd_dp wd_lfn] in R, W. destruct (wrote_app t x (k - n + 1) ls [sfn_entry (d_fn d1)] v1 d1 _ v' d1 Hf Hk ltac:(cbn [length]; lia) R1 R) as (C & Sl & A & S). rewrite Sf in Sl.
  replace (k - n + 1 + zlen ls) with k in A by lia. split; [done|]. split; [|done]. exists ls. replace (k + 1 - obj_slots fl w) with (k - n + 1) by (unfold n; lia). done.
Qed.

Lemma put_object_ok cfuel dfuel w sn x t : named w (wd_lfn x) -> fname sn -> fname (d_fn (wd_dp x)) -> fat_ok (wd_vol x) -> table_at (wd_vol x) (sclust (d_obj (wd_dp x))) t ->
  (2 * Z.to_nat (nent (wd_vol x)) <= cfuel)%nat -> 65536 <= Z.of_nat dfuel ->
  exists fr v' d' t', put_object cfuel dfuel (zlen w) sn x = Ok (fr, mk_work v' d' (wd_lfn x)) /\ changed (sclust (d_obj (wd_dp x))) t t' (wd_vol x) v' /\ same_dp (wd_dp x) d' /\
    put_done (get sn NSFLAG) w (d_fn (wd_dp x)) t t' (wd_vol x) v' fr d'.
Proof.
  intros Hw Hsn Hfn Hf Ht Hcf Hdf. unfold put_object. rewrite (bind_dlift _ _ _ (get sn NSFLAG)) by (apply rd_in; rewrite (proj1 Hsn); unfold NSFLAG; lia). cbv zeta. set (fl := get sn NSFLAG).
  pose proof (obj_slots_range fl w (named_wname _ _ Hw)) as Hn. pose proof (nm_len _ _ Hw) as Hl. rewrite (u32_small (zlen w + 12)) by lia.
  change (if has fl NS_LFN then (zlen w + 12) / 13 + 1 else 1) with (obj_slots fl w). set (n := obj_slots fl w) in *.
  destruct (dir_alloc_ok cfuel dfuel n x t) as (fr & v1 & d1 & t' & E1 & [C1 [m Sl1]] & S1 & R1); [lia|done..|]. rewrite (m_bind_Ok _ _ _ _ _ E1). destruct R1 as [(-> & k & A1 & B1 & N1)|(-> & N1 & Hend)].
  - change (fr_ok FR_OK) with true. cbn [andb]. pose proof S1 as (So & Sf & _).
    destruct (put_block_ok cfuel fl t' w (mk_work v1 d1 (wd_lfn x)) k) as (v' & d' & E & C & St & A & S & W); cbn [wd_vol wd_dp wd_lfn]; [done|by rewrite Sf|apply C1|rewrite So; apply C1|done|apply B1|].
    cbn [wd_vol wd_dp wd_lfn] in *. rewrite Sf, Sl1 in St. rewrite So in C. rewrite Sl1 in B1, N1. exists FR_OK, v', d', t'. split; [exact E|]. split; [by eapply changed_trans|]. split; [by eapply same_dp_trans|].
    exists m. left. split; [done|]. exists k. split; [done|]. split; [done|]. split; [done|]. split; [by eapply changed_slot|done].
  - exists FR_DENIED, v1, d1, t'. split; [reflexivity|]. split; [done|]. split; [done|]. exists m. right. split; [done|]. split; [done|]. by rewrite <- Sl1.
Qed.

End Blocks.
