(* ===== verification/FatObj.v ===== *)
(** * FatObj: searching, registering and removing objects

    The directory operations on the objects of a directory: [dir_find] finds
    the first that bears the name, [dir_read] visits them in order,
    [dir_register] puts a new one into the first gap that is large enough,
    under a short name that is not in use, and [dir_remove] deletes one. *)

From Stdlib Require Import ZArith Lia Bool.
From stdpp Require Import base list list_numbers.
From S2P Require Import Prelude CLib Hw Ata FatUni Fat FatChain FatFile FatRead FatSync FatLfn FatDir FatTable FatScan FatItems FatGrow FatEdit FatReg.
From stdpp Require Import options.

(** ** Numbered names *)

Lemma named_split w lfn : named w lfn -> exists r, lfn = w ++ 0 :: r.
Proof.
  intros Hn. pose proof (nm_size _ _ Hn) as L. pose proof (nm_len _ _ Hn) as Hl. exists (drop (S (length w)) lfn). rewrite <- (take_drop (length w) lfn) at 1. f_equal.
  - apply get_eq_ext; [rewrite length_take; lia|]. intros i Hi. rewrite length_take in Hi. rewrite get_take, (nm_at _ _ Hn) by lia. unfold name_unit. by rewrite (proj2 (Z.ltb_lt i (zlen w))) by lia.
  - rewrite (drop_S _ (get lfn (zlen w))); [by rewrite (nm_at _ _ Hn), unit_end by lia|]. unfold get. rewrite Nat2Z.id. destruct (lookup_lt_is_Some_2 lfn (length w)) as [c Ec]; [lia|]. by rewrite (nth_lookup_Some _ _ _ _ Ec).
Qed.

Lemma lfn_len_ok w lfn : named w lfn -> lfn_len lfn = Ok (zlen w).
Proof.
  intros Hn. destruct (named_split w lfn Hn) as [r ->]. pose proof (nm_chars _ _ Hn) as Hc. clear Hn. induction Hc as [|c w Hc _ IH]; [done|].
  cbn [app lfn_len length]. rewrite (proj2 (Z.eqb_neq c 0)) by lia. rewrite IH, bind_Ok. f_equal. lia.
Qed.

Lemma crc_name_ok w lfn : named w lfn -> forall crc, exists c, crc_name lfn crc = Ok c.
Proof.
  intros Hn. destruct (named_split w lfn Hn) as [r ->]. pose proof (nm_chars _ _ Hn) as Hc. clear Hn. induction Hc as [|c w Hc _ IH]; intros crc; [by exists crc|].
  cbn [app crc_name]. rewrite (proj2 (Z.eqb_neq c 0)) by lia. apply IH.
Qed.

Lemma num_suffix_ok i : forall seq ns, length ns = 8%nat -> Forall is_byte ns -> (i < 8)%nat ->
  let x := num_suffix i seq ns in 0 <= x.1 <= Z.max 0 (Z.of_nat i - 1) /\ length x.2 = 8%nat /\ Forall is_byte x.2 /\ get x.2 x.1 = 126.
Proof.
  induction i as [|i IH]; intros seq ns L B Hi; cbn [num_suffix].
  - cbn [fst snd]. split; [lia|]. split; [by rewrite length_insert|]. split; [apply Forall_insert; [done|unfold is_byte; lia]|]. change 0%nat with (Z.to_nat 0). apply get_insert_eq. lia.
  - set (c := if 57 <? u8 (seq mod 16 + 48) then u8 (u8 (seq mod 16 + 48) + 7) else u8 (seq mod 16 + 48)). assert (is_byte c) as Hc by (unfold c; destruct (_ <? _); apply u8_bound). cbv zeta.
    assert (length (<[S i:=c]> ns) = 8%nat) as L' by (by rewrite length_insert). assert (Forall is_byte (<[S i:=c]> ns)) as B' by (by apply Forall_insert).
    destruct (negb (seq / 16 =? 0)); [destruct (IH (seq / 16) _ L' B' ltac:(lia)) as (X & Y); split; [lia|exact Y]|]. cbn [fst snd]. split; [lia|]. split; [by rewrite length_insert|].
    split; [apply Forall_insert; [done|unfold is_byte; lia]|]. pose proof (get_insert_eq (<[S i:=c]> ns) (Z.of_nat i) 126 ltac:(rewrite L'; lia)) as E. by rewrite Nat2Z.id in E.
Qed.

Lemma suffix_place_ok fuel : forall dst i j, i <= zlen dst -> 0 <= j <= i -> i - j < Z.of_nat fuel -> exists r, suffix_place fuel dst i j = Ok r /\ j <= r <= i.
Proof.
  induction fuel as [|fuel IH]; intros dst i j Hd Hj Hf; [lia|]. cbn [suffix_place]. destruct (Z.ltb_spec j i) as [Hlt|Hge]; [|exists j; split; [done|lia]]. rewrite rd_in by lia. rewrite bind_Ok.
  destruct (_ =? 32); [exists j; split; [done|lia]|]. destruct (dbc_1st _); [destruct (Z.eqb_spec j (i - 1)); [exists j; split; [done|lia]|]|].
  - destruct (IH dst i (j + 2)) as (r & E & R); [lia..|]. exists r. split; [done|lia].
  - destruct (IH dst i (j + 1)) as (r & E & R); [lia..|]. exists r. split; [done|lia].
Qed.

Lemma put_suffix_ok ns n : length ns = 8%nat -> Forall is_byte ns -> forall i j dst, fname dst -> 0 <= i -> 0 <= j -> j + Z.of_nat n <= 8 ->
  exists r, put_suffix n ns i j dst = Ok r /\ fname r /\ (forall k, 0 <= k -> ~ (j <= k < j + Z.of_nat n) -> get r k = get dst k) /\ ((0 < n)%nat -> i < 8 -> get r j = get ns i).
Proof.
  intros Ln Bn. induction n as [|n IH]; intros i j dst Hd Hi Hj Hn; cbn [put_suffix]; [exists dst; split; [done|]; split; [done|]; split; [done|lia]|]. pose proof Hd as [L B].
  assert (exists c, (if i <? 8 then rd ns i else Ok 32) = Ok c /\ is_byte c /\ (i < 8 -> c = get ns i)) as (c & -> & Hc & Ec).
  { destruct (Z.ltb_spec i 8); [|exists 32; split; [done|]; split; [unfold is_byte; lia|lia]]. rewrite rd_in by lia. exists (get ns i). split; [done|]. split; [|done]. unfold get. rewrite List.Forall_forall in Bn. apply Bn, nth_In. lia. }
  rewrite bind_Ok, wr_in by lia. rewrite bind_Ok. destruct (IH (if i <? 8 then i + 1 else i) (j + 1) (<[Z.to_nat j:=c]> dst)) as (r & E & Hr & Hk & _).
  - split; [by rewrite length_insert|by apply Forall_insert].
  - destruct (i <? 8); lia.
  - lia.
  - lia.
  - exists r. split; [done|]. split; [done|]. split.
    + intros k Hk0 Hk1. rewrite Hk by lia. by rewrite get_insert_ne by lia.
    + intros _ Hi8. rewrite Hk by lia. rewrite get_insert_eq by lia. by apply Ec.
Qed.

(** A numbered name keeps the status byte and starts as the name does, or with the tilde. *)
Lemma gen_numname_ok w dst src lfn seq : named w lfn -> fname dst -> fname src ->
  exists r, gen_numname dst src lfn seq = Ok r /\ fname r /\ get r NSFLAG = get dst NSFLAG /\ (get r 0 = get src 0 \/ get r 0 = 126).
Proof.
  intros Hn [Ld Bd] [Ls Bs]. unfold gen_numname, fetch. rewrite (proj2 (Z.leb_le (0 + 11) _)) by lia. cbn [andb Z.leb Z.compare]. rewrite bind_Ok. change (Z.to_nat 0) with 0%nat. rewrite drop_0. change (Z.to_nat 11) with 11%nat.
  assert (length (take 11 src) = 11%nat) as L11 by (rewrite length_take; lia). unfold store. rewrite L11. rewrite (proj2 (Z.leb_le (0 + _) _)) by lia. cbn [andb Z.leb Z.compare]. rewrite bind_Ok.
  change (Z.to_nat 0) with 0%nat. rewrite take_0. cbn [app]. change (Z.to_nat (0 + Z.of_nat 11)) with 11%nat. set (dst1 := take 11 src ++ drop 11 dst).
  assert (fname dst1) as Hd1. { split; [unfold dst1; rewrite length_app, L11, length_drop; lia|]. apply Forall_app. split; [by apply Forall_take|by apply Forall_drop]. }
  assert (exists seq', (if 5 <? seq then crc_name lfn seq else Ok seq) = Ok seq') as [seq' ->] by (destruct (5 <? seq); [by apply (crc_name_ok w)|by exists seq]). rewrite bind_Ok.
  destruct (num_suffix_ok 7 seq' (replicate 8 0)) as (Hi & Lns & Bns & Et); [done|apply Forall_replicate; unfold is_byte; lia|lia|]. destruct (num_suffix 7 seq' (replicate 8 0)) as [i ns]. cbn [fst snd] in *.
  destruct (suffix_place_ok 8 dst1 i 0) as (j & -> & Hj); [rewrite (proj1 Hd1); lia|lia|lia|]. rewrite bind_Ok.
  destruct (put_suffix_ok ns (Z.to_nat (Z.max 1 (8 - j))) Lns Bns i j dst1 Hd1) as (r & E & Hr & Hk & Hf); [lia..|]. exists r. split; [done|]. split; [done|]. unfold NSFLAG. split.
  - rewrite Hk by lia. unfold dst1. rewrite get_app_r by lia. rewrite L11, get_drop by lia. f_equal.
  - destruct (decide (j = 0)) as [->|]; [right; rewrite Hf by lia; done|left]. rewrite Hk by lia. unfold dst1. rewrite get_app_l by lia. apply get_take. lia.
Qed.

(** ** Objects in slots *)

Lemma entry_set_used w sum n : wname w -> Z.of_nat n <= n_entries w -> forall ls, entry_set w sum 0 n ls -> Forall (fun e => free_slot e = false) ls.
Proof.
  intros Hw. induction n as [|n IH]; intros Hn [|e ls] Hs; cbn [entry_set] in Hs; try done. destruct Hs as [He Hs]. apply Forall_cons. split; [|apply IH; [lia|done]].
  destruct (ord_range w (Z.of_nat (S n)) (proj2 Hw) ltac:(lia)) as [Hk _]. destruct He as [_ _ E0 _ _ _ _]. rewrite Z.add_0_l in E0. unfold LDIR_Ord in E0. unfold free_slot, DDEM. rewrite E0.
  rewrite !(proj2 (Z.eqb_neq _ _)); [done|destruct (_ <=? _); lia..].
Qed.

Lemma entry_set_len w sum dir n : forall ls, entry_set w sum dir n ls -> length ls = n.
Proof. induction n as [|n IH]; intros [|e ls] Hs; cbn [entry_set] in Hs; try done. cbn [length]. f_equal. apply IH, Hs. Qed.

(** Every slot of a label or an object is in use. *)
Lemma raw_used it : item_ok it -> match it with Gone _ => True | _ => Forall (fun e => free_slot e = false) (raw it) end.
Proof.
  unfold free_slot. destruct it as [e|e|long ls s]; cbn [item_ok raw]; [done|intros (_ & N0 & N1 & _)|intros (_ & N0 & N1 & _ & _ & Hl)].
  - apply Forall_singleton. by rewrite !(proj2 (Z.eqb_neq _ _)) by done.
  - apply Forall_app. split; [|apply Forall_singleton; by rewrite !(proj2 (Z.eqb_neq _ _)) by done]. destruct long as [w|]; [|by subst ls]. destruct Hl as [Hw Hs].
    apply (entry_set_used w (sfn_sum s) (Z.to_nat (n_entries w))); [done| |done]. destruct Hw as [_ ?]. unfold n_entries. dlia.
Qed.

Abbreviation raws its := (concat (raw <$> its)).

Lemma raws_app a b : raws (a ++ b) = raws a ++ raws b.
Proof. by rewrite fmap_app, concat_app. Qed.

Lemma raws_gone gs : raws (Gone <$> gs) = gs.
Proof. induction gs as [|e gs IH]; [done|]. cbn [fmap list_fmap concat raw app]. by f_equal. Qed.

(** Free slots at the start are deleted entries. *)
Lemma free_start its n : Forall item_ok its -> forall z, (forall j e, (j < n)%nat -> (raws its ++ z) !! j = Some e -> free_slot e = true) ->
  exists gs its2, its = (Gone <$> gs) ++ its2 /\ (length gs = n \/ (its2 = [] /\ (length gs <= n)%nat)).
Proof.
  intros Hits. revert its Hits. induction n as [|n IH]; intros its Hits z Hfree; [exists [], its; split; [done|by left]|]. destruct Hits as [|it its Hit Hits]; [exists [], []; split; [done|right; split; [done|cbn; lia]]|].
  pose proof (raw_used it Hit) as Hu. assert (forall e es, raw it = e :: es -> free_slot e = true) as H0. { intros e es E. apply (Hfree 0%nat); [lia|]. cbn [fmap list_fmap concat]. by rewrite E. }
  destruct it as [e|e|long ls s].
  - destruct (IH its Hits z) as (gs & its2 & -> & Hl).
    { intros j e' Hj Ej. apply (Hfree (S j)); [lia|exact Ej]. }
    exists (e :: gs), its2. split; [done|]. cbn [length]. destruct Hl as [<-|[-> Hl]]; [by left|right; split; [done|lia]].
  - specialize (H0 e [] eq_refl). cbn [raw] in Hu. apply Forall_cons in Hu as [Hu _]. congruence.
  - cbn [raw] in *. destruct ls as [|e ls]; cbn [app] in *; apply Forall_cons in Hu as [Hu _]; [specialize (H0 s [] eq_refl)|specialize (H0 e _ eq_refl)]; congruence.
Qed.

(** A block of free slots that starts before the unused ones holds deleted
    entries, and perhaps unused slots at the end. *)
Lemma free_block its : Forall item_ok its -> forall z p n, (0 < n)%nat -> (p <= length (raws its))%nat -> (p + n <= length (raws its ++ z))%nat ->
  (forall j e, (p <= j < p + n)%nat -> (raws its ++ z) !! j = Some e -> free_slot e = true) ->
  exists its1 gs its2, its = its1 ++ (Gone <$> gs) ++ its2 /\ length (raws its1) = p /\ (length gs = n \/ (its2 = [] /\ (length gs <= n)%nat)).
Proof.
  intros Hits. induction Hits as [|it its Hit Hits IH]; intros z p n Hn Hp Hl Hfree.
  - exists [], [], []. split; [done|]. cbn [fmap list_fmap concat length] in *. split; [lia|right; split; [done|lia]].
  - destruct (decide (p = 0)%nat) as [->|Np].
    { destruct (free_start (it :: its) n (Forall_cons_2 _ _ _ Hit Hits) z) as (gs & its2 & E & R); [intros j e Hj; apply Hfree; lia|]. by exists [], gs, its2. }
    cbn [fmap list_fmap concat] in *. rewrite <- app_assoc in Hl, Hfree. rewrite length_app in Hl, Hp. destruct (decide (length (raw it) <= p)%nat) as [Hge|Hlt].
    + destruct (IH z (p - length (raw it))%nat n) as (its1 & gs & its2 & -> & L & R); [done|lia|lia| |].
      * intros j e Hj Ej. apply (Hfree (length (raw it) + j)%nat); [lia|]. by rewrite lookup_app_r, Nat.add_sub' by lia.
      * exists (it :: its1), gs, its2. split; [done|]. split; [|done]. cbn [fmap list_fmap concat]. rewrite length_app. lia.
    + exfalso. destruct (lookup_lt_is_Some_2 (raw it) p) as [e Ee]; [lia|]. assert (free_slot e = true) as Ef by (apply (Hfree p); [lia|by rewrite lookup_app_l by lia]).
      pose proof (raw_used it Hit) as Hu. destruct it as [e0|e0|long ls s]; [cbn [raw length] in Hlt; lia| |]; rewrite (Forall_lookup_1 _ _ _ _ Hu Ee) in Ef; done.
Qed.

Lemma laid_grow its es m : laid its es -> laid its (es ++ replicate m zero_slot).
Proof.
  intros (Hi & z & -> & Hz). split; [done|]. exists (z ++ replicate m zero_slot). split; [by rewrite app_assoc|]. apply Forall_app. split; [done|]. apply Forall_replicate.
  split; [|done]. split; [done|]. apply Forall_replicate. unfold is_byte. lia.
Qed.

(** A short name that can be stored. *)
Definition storable (fn : list Z) : Prop := fname fn /\ get fn 0 <> 0 /\ get fn 0 <> DDEM.

Definition new_item (fl : Z) (w fn : list Z) (ls : list (list Z)) : item := Named (if has fl NS_LFN then Some w else None) ls (sfn_entry fn).

(** A place for the [n] slots of a new object behind [its1]: as many deleted
    slots, or the end of the directory with deleted slots before it. *)
Definition room_for (n : Z) (its its1 : list item) (gs : list (list Z)) (its2 : list item) : Prop :=
  its = its1 ++ (Gone <$> gs) ++ its2 /\ (zlen gs = n \/ (its2 = [] /\ zlen gs <= n)).

(** The first such place: no other one begins at an earlier slot. *)
Definition gap_for (n : Z) (its its1 : list item) (gs : list (list Z)) (its2 : list item) : Prop :=
  room_for n its its1 gs its2 /\ forall a gs' b, room_for n its a gs' b -> zlen (raws its1) <= zlen (raws a).

(** Such a place is a block of free slots, if the table reaches so far. *)
Lemma room_block n its z a gs b : Forall item_ok its -> Forall unused z -> 0 < n -> room_for n its a gs b -> zlen (raws a) + n <= zlen (raws its ++ z) ->
  block_at (raws its ++ z) n (zlen (raws a) + n - 1).
Proof.
  intros Hits Hz Hn [-> Hg] Hl. apply Forall_app in Hits as [_ Hits]. apply Forall_app in Hits as [Fg _]. split; [lia|]. split; [lia|]. intros j e Hj Ej.
  rewrite !raws_app, raws_gone, <- !app_assoc, lookup_app_r in Ej by lia. assert (e ∈ gs \/ e ∈ z) as [Hin|Hin].
  { destruct (decide (j - zlen (raws a) < zlen gs)); [rewrite lookup_app_l in Ej by lia; left; by eapply list_elem_of_lookup_2|]. destruct Hg as [Hg|[-> _]]; [lia|].
    cbn [fmap list_fmap concat app] in Ej. rewrite lookup_app_r in Ej by lia. right. by eapply list_elem_of_lookup_2. }
  - rewrite Forall_forall in Fg. specialize (Fg (Gone e) (list_elem_of_fmap_2 _ _ _ Hin)). destruct Fg as [_ E0]. unfold free_slot. rewrite E0. done.
  - rewrite Forall_forall in Hz. destruct (Hz e Hin) as [_ E0]. unfold free_slot. rewrite E0. done.
Qed.

Lemma new_item_ok fl w fn ls : wname w -> storable fn -> Forall slot_data ls -> entry_set w (sfn_sum fn) 0 (Z.to_nat (obj_slots fl w - 1)) ls -> item_ok (new_item fl w fn ls).
Proof.
  intros Hw (Hf & N0 & N1) Hls Hs. unfold new_item, item_ok. rewrite sfn_entry_get by (done || lia). split; [by apply sfn_entry_data|]. split; [done|]. split; [done|]. split.
  { unfold attr_of, sfn_entry, DIR_Attr. rewrite get_app_r by (rewrite length_take, (proj1 Hf); lia). rewrite length_take, (proj1 Hf). done. }
  split; [done|]. rewrite sfn_entry_sum by done. unfold obj_slots in Hs. destruct (has fl NS_LFN); [split; [done|]; by rewrite Z.add_simpl_r in Hs|]. cbn [Z.sub Z.to_nat] in Hs. by destruct ls.
Qed.

(** What storing does to the objects. *)
Lemma stored_laid its es es' fl w fn k : laid its es -> wname w -> storable fn -> block_at es (obj_slots fl w) k -> no_block es (obj_slots fl w) k -> stored fl w fn es k es' ->
  exists its1 gs its2 ls, gap_for (obj_slots fl w) its its1 gs its2 /\ laid (its1 ++ new_item fl w fn ls :: its2) es' /\ k = zlen (raws its1) + zlen ls.
Proof.
  intros (Hits & z & -> & Hz) Hw Hfn (B1 & B2 & B3) Hno (ls & -> & Fls & Hs). pose proof (obj_slots_range fl w Hw) as Hn. set (n := obj_slots fl w) in *.
  assert (k + 1 - n <= zlen (raws its)) as Hp.
  { destruct (Z.le_gt_cases (k + 1 - n) (zlen (raws its))) as [|Hgt]; [done|exfalso]. apply (Hno (k - 1)); [lia|]. split; [lia|]. split; [lia|]. intros j e Hj Ej. destruct (decide (j = k - n)) as [->|]; [|apply (B3 j); [lia|done]].
    rewrite lookup_app_r in Ej by lia. pose proof (Forall_lookup_1 _ _ _ _ Hz Ej) as [_ E0]. unfold free_slot. rewrite E0. done. }
  destruct (free_block its Hits z (Z.to_nat (k + 1 - n)) (Z.to_nat n)) as (its1 & gs & its2 & -> & L1 & R); [lia|lia|lia| |].
  { intros j e Hj Ej. apply (B3 (Z.of_nat j)); [lia|by rewrite Nat2Z.id]. }
  pose proof (entry_set_len _ _ _ _ _ Hs) as Lls. apply Forall_app in Hits as [F1 Hits]. apply Forall_app in Hits as [Fg F2].
  exists its1, gs, its2, ls. split; [|split; [|lia]].
  { split; [split; [done|]; destruct R as [R|[-> R]]; [left; lia|right; split; [done|lia]]|]. intros a gs' b Hroom. destruct (Z.le_gt_cases (zlen (raws its1)) (zlen (raws a))) as [|Hlt]; [done|exfalso].
    apply (Hno (zlen (raws a) + n - 1)); [lia|]. apply (room_block n _ z a gs' b); [|done|lia|done|lia]. apply Forall_app. split; [done|]. apply Forall_app. by split. }
  split.
  { apply Forall_app. split; [done|]. apply Forall_cons. split; [by apply new_item_ok|done]. }
  rewrite !raws_app, raws_gone. unfold splice. rewrite <- L1, <- !app_assoc, take_app_length, drop_app_add, length_app. cbn [length fmap list_fmap concat]. replace (length ls + 1)%nat with (Z.to_nat n) by lia.
  unfold new_item at 1. cbn [raw]. destruct R as [R|[-> R]].
  - exists z. split; [|done]. rewrite <- R, drop_app_length, <- !app_assoc. done.
  - exists (drop (Z.to_nat n - length gs) z). split; [|by apply Forall_drop]. cbn [fmap list_fmap concat app]. rewrite drop_app_ge by lia. rewrite app_nil_r, <- !app_assoc. done.
Qed.

(** ** The searches *)

(** An object uses the short name [nm]. *)
Definition used (its : list item) (nm : list Z) : Prop := exists long ls s, Named long ls s ∈ its /\ take 11 s = take 11 nm.

(** The name with number [q]. *)
Definition numbered (sn lfn : list Z) (q : Z) : res (list Z) := gen_numname (take 11 sn ++ [NS_NOLFN]) sn lfn q.
Definition taken (its : list item) (sn lfn : list Z) (q : Z) : Prop := exists r, numbered sn lfn q = Ok r /\ used its r.

Lemma fname_tail fn : fname fn -> drop 11 fn = [get fn NSFLAG].
Proof. intros [L _]. do 12 (destruct fn as [|? fn]; [done|]). destruct fn; done. Qed.

Lemma gen_numname_dst dst src lfn q : fname dst -> fname src -> get dst NSFLAG = NS_NOLFN -> gen_numname dst src lfn q = numbered src lfn q.
Proof.
  intros Hd [Ls Bs] E. unfold numbered, gen_numname, fetch. rewrite (proj2 (Z.leb_le (0 + 11) _)) by lia. cbn [andb Z.leb Z.compare]. rewrite !bind_Ok. change (Z.to_nat 0) with 0%nat. rewrite drop_0. change (Z.to_nat 11) with 11%nat.
  assert (length (take 11 src) = 11%nat) as L by (rewrite length_take; lia). unfold store. rewrite length_app, L. cbn [length]. rewrite (proj1 Hd). change (0 <=? 0) with true. cbn [andb]. change (0 + Z.of_nat 11 <=? Z.of_nat 12) with true. change (0 + Z.of_nat 11 <=? Z.of_nat (11 + 1)) with true.
  cbv iota. rewrite !bind_Ok. change (Z.to_nat 0) with 0%nat. rewrite !take_0. change (Z.to_nat (0 + Z.of_nat 11)) with 11%nat. rewrite fname_tail, E by done. by rewrite (drop_app_length' (take 11 src)) by lia.
Qed.

Lemma find_none fn w2 fl its : forall i, find_items fn w2 fl its i = None -> Forall (fun it => bears fn w2 fl it = false) its.
Proof.
  induction its as [|it its IH]; intros i E; [done|]. cbn [find_items] in E. apply Forall_cons. destruct it as [e|e|long ls s]; [split; [done|by eapply IH]..|]. destruct (bears fn w2 fl (Named long ls s)); [done|]. split; [done|by eapply IH].
Qed.

Lemma find_some fn w2 fl its : forall i r, find_items fn w2 fl its i = Some r -> exists it, it ∈ its /\ bears fn w2 fl it = true.
Proof.
  induction its as [|it its IH]; intros i r E; [done|]. cbn [find_items] in E. destruct (bears fn w2 fl it) eqn:Eb; [exists it; split; [apply elem_of_cons; by left|done]|].
  assert (exists j, find_items fn w2 fl its j = Some r) as [j Ej] by (destruct it; by eexists).
  destruct (IH j r Ej) as (it' & Hin & Hb). exists it'. split; [apply elem_of_cons; by right|done].
Qed.

Lemma find_skip fn w2 fl its1 : Forall (fun it => bears fn w2 fl it = false) its1 -> forall its i, find_items fn w2 fl (its1 ++ its) i = find_items fn w2 fl its (i + zlen (raws its1)).
Proof.
  intros Hb. induction Hb as [|it its1 Hit _ IH]; intros its i; [cbn [app fmap list_fmap concat length]; by rewrite Z.add_0_r|]. cbn [app find_items fmap list_fmap concat]. rewrite length_app.
  destruct it as [e|e|long ls s]; cbn [raw length]; [rewrite IH; f_equal; lia..|]. rewrite Hit, IH, length_app. cbn [length]. f_equal. lia.
Qed.

(** The short name [fn] that is stored for the name [sn]: itself, or with the
    first number that makes it unique when it does not determine the name. *)
Definition chosen (its : list item) (sn lfn fn : list Z) : Prop :=
  if has (get sn NSFLAG) NS_LOSS then
    get fn NSFLAG = get sn NSFLAG /\ ~ used its fn /\
    exists q r, 1 <= q < 100 /\ numbered sn lfn q = Ok r /\ take 11 fn = take 11 r /\ forall q', 1 <= q' < q -> taken its sn lfn q'
  else fn = sn.

(** The new object bears its name. *)
Lemma new_bears fn sn w fl ls its lfn : chosen its sn lfn fn -> get sn NSFLAG = fl -> has fl NS_NOLFN = false -> (has fl NS_LOSS = true -> has fl NS_LFN = true) -> fname sn -> bears sn w fl (new_item fl w fn ls) = true.
Proof.
  intros Hc Hfl Hno Hlo Hsn. unfold new_item, bears, long_match, short_match, chosen in *. rewrite Hfl in Hc. rewrite Hno. destruct (has fl NS_LFN); cbn [negb andb]; [unfold same_name; by rewrite bool_decide_true|].
  destruct (has fl NS_LOSS); [by specialize (Hlo eq_refl)|]. subst fn. cbn [negb andb orb]. apply bool_decide_eq_true_2. unfold sfn_entry. rewrite take_app_le by (rewrite length_take, (proj1 Hsn); lia). by rewrite take_take.
Qed.

(** What is in the directory, without the deleted entries. *)
Definition is_gone (it : item) : bool := match it with Gone _ => true | _ => false end.
Definition objects (its : list item) : list item := List.filter (fun it => negb (is_gone it)) its.

Lemma objects_app a b : objects (a ++ b) = objects a ++ objects b.
Proof. apply List.filter_app. Qed.

Lemma objects_gone gs : objects (Gone <$> gs) = [].
Proof. by induction gs. Qed.

(** Searching for a short name only. *)
Lemma bears_short fn w2 it : bears fn w2 NS_NOLFN it = true <-> exists long ls s, it = Named long ls s /\ take 11 s = take 11 fn.
Proof.
  split.
  - destruct it as [e|e|long ls s]; [done..|]. cbn [bears]. intros E. exists long, ls, s. split; [done|]. unfold long_match, short_match in E. change (has NS_NOLFN NS_NOLFN) with true in E. change (has NS_NOLFN NS_LOSS) with false in E.
    cbn [negb andb] in E. destruct long; cbn [orb] in E; by apply bool_decide_eq_true in E.
  - intros (long & ls & s & -> & E). cbn [bears]. unfold short_match. change (has NS_NOLFN NS_LOSS) with false. rewrite bool_decide_true by done. apply orb_true_r.
Qed.

Section Objects.
Context {D : Type} `{BlockLaws D}.
#[local] Set Default Proof Using "Type*".

Abbreviation v_geo v := (fs_geo (v_fs v)).
Abbreviation nent v := (n_fatent (v_geo v)).
Abbreviation x_geo x := (v_geo (wd_vol x)).

(** A directory with its objects, as an operation finds it. *)
Record dir_at (x : work_dir D) (t : dtable) (its : list item) : Prop := {
  da_fat : fat_ok (wd_vol x);
  da_table : table_at (wd_vol x) (sclust (d_obj (wd_dp x))) t;
  da_laid : laid its (slots (wd_vol x) t)
}.

Lemma find_laid cfuel dfuel x t its w fl : dir_at x t its -> fname (d_fn (wd_dp x)) -> get (d_fn (wd_dp x)) NSFLAG = fl -> named w (wd_lfn x) -> 65536 <= Z.of_nat dfuel ->
  exists fr v' d', dir_find cfuel dfuel x = Ok (fr, mk_work v' d' (wd_lfn x)) /\ stands t x (find_items (d_fn (wd_dp x)) w fl its 0) fr v' d'.
Proof.
  intros [Hf Ht (Hits & z & Es & Hz)] Hfn Hfl Hw Hd. apply (dir_find_ok cfuel dfuel x t _ Hf Ht); [unfold nslots; lia|]. rewrite Es. apply find_scan_items; try done. apply Hfn.
Qed.

(** The object after its name and attribute changed. *)
Definition same_place (d d' : DIR) : Prop := d_obj (d_attr 0 d') = d_obj (d_attr 0 d).

Lemma same_place_sclust d d' : same_place d d' -> sclust (d_obj d') = sclust (d_obj d).
Proof. unfold same_place. destruct d as [[] ? ? ? ? ? ?], d' as [[] ? ? ? ? ? ?]. cbn. congruence. Qed.

Lemma dir_at_peeked x v' d' lfn t its : dir_at x t its -> peeked (wd_vol x) v' -> same_place (wd_dp x) d' -> dir_at (mk_work v' d' lfn) t its.
Proof.
  intros [Hf Ht Hl] P S. split; cbn [wd_vol wd_dp]; [apply P|rewrite (same_place_sclust _ _ S); by apply (peeked_table (wd_vol x))|]. by rewrite (slots_peeked _ _ _ _ Hf P Ht).
Qed.

(** The outcome of the search for a number. *)
Definition numbering (its : list item) (sn lfn : list Z) (lo hi : Z) (o : option FRESULT) (fn : list Z) : Prop :=
  match o with
  | None => forall q, lo <= q < hi -> taken its sn lfn q
  | Some r => r = FR_NO_FILE /\ exists q, lo <= q < hi /\ numbered sn lfn q = Ok fn /\ ~ used its fn /\ forall q', lo <= q' < q -> taken its sn lfn q'
  end.

Lemma number_loop_ok cfuel dfuel t its w sn : fname sn -> 65536 <= Z.of_nat dfuel -> forall k n x, dir_at x t its -> fname (d_fn (wd_dp x)) -> get (d_fn (wd_dp x)) NSFLAG = NS_NOLFN -> named w (wd_lfn x) ->
  exists o v' d', number_loop cfuel dfuel k n sn x = Ok (o, mk_work v' d' (wd_lfn x)) /\ peeked (wd_vol x) v' /\ same_place (wd_dp x) d' /\ numbering its sn (wd_lfn x) n (n + Z.of_nat k) o (d_fn d').
Proof.
  intros Hsn Hdf. induction k as [|k IH]; intros n x Hda Hfn Hfl Hw; cbn [number_loop].
  - exists None, (wd_vol x), (wd_dp x). split; [by destruct x|]. split; [apply peeked_refl, Hda|]. split; [done|]. intros q Hq. lia.
  - rewrite bind_dp, bind_lfnbuf. destruct (gen_numname_ok w (d_fn (wd_dp x)) sn (wd_lfn x) n Hw Hfn Hsn) as (r & E & Hr & Er & _). rewrite (bind_dlift _ _ _ _ E), bind_set_dp.
    rewrite (gen_numname_dst _ _ _ _ Hfn Hsn Hfl) in E. set (x1 := mk_work (wd_vol x) (d_name r (wd_dp x)) (wd_lfn x)). rewrite Hfl in Er.
    assert (dir_at x1 t its) as Hda1 by (apply (dir_at_peeked x); [done|apply peeked_refl, Hda|done]).
    destruct (find_laid cfuel dfuel x1 t its w NS_NOLFN Hda1) as (fr & v1 & d1 & E1 & P1 & [K1 K2] & R1); [done|done|done|done|]. rewrite (m_bind_Ok _ _ _ _ _ E1). cbn [x1 wd_vol wd_dp wd_lfn d_fn d_name] in *.
    destruct (find_items r w NS_NOLFN its 0) as [[[i a] b]|] eqn:Ef.
    + destruct R1 as (-> & _). change (fr_ok FR_OK) with true. cbv iota. assert (taken its sn (wd_lfn x) n) as Htk.
      { exists r. split; [done|]. destruct (find_some _ _ _ _ _ _ Ef) as (it & Hin & Hb). apply bears_short in Hb as (long & ls & s & -> & Eq). by exists long, ls, s. }
      destruct (IH (n + 1) (mk_work v1 d1 (wd_lfn x))) as (o & v' & d' & E2 & P2 & S2 & R2); cbn [wd_vol wd_dp wd_lfn].
      * by apply (dir_at_peeked x).
      * by rewrite K1.
      * by rewrite K1.
      * done.
      * exists o, v', d'. split; [exact E2|]. cbn [wd_vol wd_dp wd_lfn] in *. split; [by eapply peeked_trans|]. split; [exact (eq_trans S2 K2)|]. unfold numbering in *. destruct o as [r'|].
        -- destruct R2 as (-> & q & Hq & Eq & Nu & Hall). split; [done|]. exists q. split; [lia|]. split; [done|]. split; [done|]. intros q' Hq'. destruct (decide (q' = n)) as [->|]; [done|apply Hall; lia].
        -- intros q Hq. destruct (decide (q = n)) as [->|]; [done|apply R2; lia].
    + subst fr. exists (Some FR_NO_FILE), v1, d1. split; [reflexivity|]. split; [done|]. split; [done|]. split; [done|]. exists n. rewrite K1. split; [lia|]. split; [done|]. split; [|intros q' Hq'; lia].
      intros (long & ls & s & Hin & Eq). pose proof (find_none _ _ _ _ _ Ef) as Hb. rewrite Forall_forall in Hb. specialize (Hb _ Hin). cbn beta in Hb.
      assert (bears r w NS_NOLFN (Named long ls s) = true) as Ht by (apply bears_short; eauto). congruence.
Qed.

(** The object is in the first gap that is large enough, or there is none and
    the directory cannot grow. *)
Definition registered (its : list item) (w sn fn : list Z) (t' : dtable) (v' : vol D) (fr : FRESULT) (d' : DIR) : Prop :=
  let fl := get sn NSFLAG in let n := obj_slots fl w in
  (fr = FR_OK /\ exists its1 gs its2 ls, gap_for n its its1 gs its2 /\ laid (its1 ++ new_item fl w fn ls :: its2) (slots v' t') /\ at_slot (v_geo v') t' d' (zlen (raws its1) + zlen ls) /\ winsect (fs_win (v_fs v')) = d_sect d') \/
  (fr = FR_DENIED /\ laid its (slots v' t') /\ no_block (slots v' t') n (nslots (v_geo v') t') /\ (t' = Static \/ nslots (v_geo v') t' = 65536 \/ full v')).

Lemma put_registered its w sn fn t t' v v' fr d' : laid its (slots v t) -> wname w -> storable fn -> put_done (get sn NSFLAG) w fn t t' v v' fr d' -> registered its w sn fn t' v' fr d'.
Proof.
  intros Hl Hw Hfn (m & [(-> & k & B & N & S & A & W)|(-> & Sl & N & R)]).
  - left. split; [done|]. destruct (stored_laid its _ _ _ _ _ _ (laid_grow _ _ m Hl) Hw Hfn B N S) as (its1 & gs & its2 & ls & G & L & ->). by exists its1, gs, its2, ls.
  - right. split; [done|]. rewrite Sl. split; [by apply laid_grow|]. done.
Qed.

Lemma used_ext its a b : take 11 a = take 11 b -> used its a <-> used its b.
Proof. intros E. unfold used. by rewrite E. Qed.

Lemma set_flag fn fl : fname fn -> is_byte fl -> exists fn', wr fn NSFLAG fl = Ok fn' /\ fname fn' /\ get fn' NSFLAG = fl /\ take 11 fn' = take 11 fn /\ get fn' 0 = get fn 0.
Proof.
  intros [L B] Hfl. unfold NSFLAG. rewrite wr_in by lia. eexists. split; [reflexivity|]. split; [split; [by rewrite length_insert|by apply Forall_insert]|]. split; [by rewrite get_insert_eq by lia|].
  split; [by rewrite take_insert_ge by lia|by rewrite get_insert_ne by lia].
Qed.

Lemma register_laid cfuel dfuel x t its w : let sn := d_fn (wd_dp x) in dir_at x t its -> storable sn -> has (get sn NSFLAG) (NS_DOT + NS_NONAME) = false -> named w (wd_lfn x) ->
  (2 * Z.to_nat (nent (wd_vol x)) <= cfuel)%nat -> 65536 <= Z.of_nat dfuel ->
  exists fr v' d' t', dir_register cfuel dfuel x = Ok (fr, mk_work v' d' (wd_lfn x)) /\ changed (sclust (d_obj (wd_dp x))) t t' (wd_vol x) v' /\ same_place (wd_dp x) d' /\
    ((exists fn, chosen its sn (wd_lfn x) fn /\ registered its w sn fn t' v' fr d') \/
     (fr = FR_DENIED /\ laid its (slots v' t') /\ has (get sn NSFLAG) NS_LOSS = true /\ forall q, 1 <= q < 100 -> taken its sn (wd_lfn x) q)).
Proof.
  intros sn Hda Hsn Hfl Hw Hcf Hdf. pose proof Hda as [Hf Ht Hl]. pose proof Hsn as (Hfn & N0 & N1). pose proof (named_wname _ _ Hw) as Hwn. unfold dir_register. rewrite bind_dp. fold sn.
  rewrite (bind_dlift _ _ _ (get sn NSFLAG)) by (apply rd_in; rewrite (proj1 Hfn); unfold NSFLAG; lia). rewrite Hfl. cbv iota. rewrite bind_lfnbuf, (bind_dlift _ _ _ _ (lfn_len_ok _ _ Hw)). cbv zeta.
  assert (is_byte (get sn NSFLAG)) as Hb by (apply fname_get; [done|unfold NSFLAG; lia]). unfold chosen. destruct (has (get sn NSFLAG) NS_LOSS).
  - destruct (set_flag sn NS_NOLFN Hfn) as (fn0 & E0 & Hf0 & Fl0 & _); [unfold is_byte, NS_NOLFN; lia|]. rewrite (bind_dlift _ _ _ _ E0), bind_set_dp.
    destruct (number_loop_ok cfuel dfuel t its w sn Hfn Hdf 99 1 (mk_work (wd_vol x) (d_name fn0 (wd_dp x)) (wd_lfn x))) as (o & v1 & d1 & E1 & P1 & S1 & R1); [by apply (dir_at_peeked x); [|apply peeked_refl|]|done..|].
    rewrite (m_bind_Ok _ _ _ _ _ E1). cbn [wd_vol wd_dp wd_lfn] in *. assert (same_place (wd_dp x) d1) as S1' by exact S1. destruct o as [r|].
    + destruct R1 as (-> & q & Hq & Eq & Nu & Hall). rewrite bind_dp. cbn [wd_dp].
      destruct (gen_numname_ok w (take 11 sn ++ [NS_NOLFN]) sn (wd_lfn x) q Hw) as (r & Er & Hr & _ & Hr0); [|done|].
      { split; [rewrite length_app, length_take, (proj1 Hfn); done|]. apply Forall_app. split; [apply Forall_take, Hfn|apply Forall_singleton; unfold is_byte, NS_NOLFN; lia]. }
      unfold numbered in Eq. rewrite Er in Eq. injection Eq as ->.
      destruct (set_flag (d_fn d1) (get sn NSFLAG) Hr Hb) as (fn & E2 & Hfn2 & Fl2 & Tk & G0). rewrite (bind_dlift _ _ _ _ E2), bind_set_dp. cbn [wd_vol wd_dp wd_lfn].
      pose proof (peeked_geo _ _ P1) as G1. pose proof (same_place_sclust _ _ S1') as Sc. pose proof (dir_at_peeked x v1 (d_name fn d1) (wd_lfn x) t its Hda P1 S1') as [Hf1 Ht1 Hl1].
      destruct (put_object_ok cfuel dfuel w sn (mk_work v1 (d_name fn d1) (wd_lfn x)) t Hw Hfn Hfn2 Hf1 Ht1) as (fr & v' & d' & t' & E & C & S & R); [cbn [wd_vol]; by rewrite G1|done|].
      cbn [wd_vol wd_dp wd_lfn d_obj d_fn d_name] in *. rewrite Sc in C. exists fr, v', d', t'. split; [exact E|]. split; [eapply changed_trans; [done|by apply peeked_changed|exact C]|].
      split; [unfold same_place, d_attr in *; destruct S as (So & _); cbn [d_obj d_name] in So; by rewrite So|]. left. exists fn. split.
      * split; [done|]. split; [by rewrite (used_ext its fn (d_fn d1) Tk)|]. exists q, (d_fn d1). split; [lia|]. done.
      * apply (put_registered its w sn fn t t' v1); [done|done| |done]. split; [done|]. rewrite G0. destruct Hr0 as [->| ->]; done.
    + exists FR_DENIED, v1, d1, t. split; [reflexivity|]. split; [by apply peeked_changed|]. split; [done|]. right. split; [done|]. rewrite (slots_peeked _ _ _ _ Hf P1 Ht). split; [done|]. split; [done|]. intros q Hq. apply R1. lia.
  - destruct (put_object_ok cfuel dfuel w sn x t Hw Hfn Hfn Hf Ht Hcf Hdf) as (fr & v' & d' & t' & E & C & S & R). exists fr, v', d', t'. split; [exact E|]. split; [done|].
    split; [unfold same_place, d_attr; destruct S as (-> & _); done|]. left. exists sn. split; [done|]. by apply (put_registered its w sn sn t t' (wd_vol x)).
Qed.

(** Deleting the slots of one object. *)
Lemma erase_laid its1 it its2 z : Forall item_ok (its1 ++ it :: its2) -> Forall unused z ->
  laid (its1 ++ (Gone <$> (erased <$> raw it)) ++ its2) (splice (raws (its1 ++ it :: its2) ++ z) (zlen (raws its1)) (erased <$> raw it)).
Proof.
  intros Hits Hz. apply Forall_app in Hits as [F1 Hits]. apply Forall_cons in Hits as [Hit F2]. split.
  - apply Forall_app. split; [done|]. apply Forall_app. split; [|done]. apply Forall_fmap, Forall_fmap. assert (Forall slot_data (raw it)) as Hr.
    { destruct it as [e|e|long ls s]; cbn [raw item_ok] in *; [apply Forall_singleton, Hit..|]. apply Forall_app. split; [apply Hit|apply Forall_singleton, Hit]. }
    eapply Forall_impl; [exact Hr|]. intros e He. by apply erased_data.
  - exists z. split; [|done]. rewrite !raws_app, raws_gone. cbn [fmap list_fmap concat]. unfold splice. rewrite Nat2Z.id, length_fmap, <- !app_assoc, take_app_length, drop_app_add, drop_app_length. done.
Qed.

Lemma remove_laid cfuel dfuel x t its1 long ls s its2 : let i := zlen (raws its1) in dir_at x t (its1 ++ Named long ls s :: its2) -> at_slot (x_geo x) t (wd_dp x) (i + zlen ls) ->
  blk_ofs (wd_dp x) = match long with Some _ => 32 * i | None => NO_BLOCK end -> 65536 <= Z.of_nat dfuel ->
  exists v' d', dir_remove cfuel dfuel x = Ok (FR_OK, mk_work v' d' (wd_lfn x)) /\ changed (sclust (d_obj (wd_dp x))) t t (wd_vol x) v' /\ same_dp (wd_dp x) d' /\
    laid (its1 ++ (Gone <$> (erased <$> raw (Named long ls s))) ++ its2) (slots v' t).
Proof.
  intros i [Hf Ht (Hits & z & Es & Hz)] Ha Hblk Hdf. pose proof (as_in _ _ _ _ Ha) as Hi. pose proof (as_ptr _ _ _ _ Ha) as Ep. assert (nslots (x_geo x) t <= 65536) as Hmax by (unfold nslots; lia).
  assert (match long with Some _ => True | None => ls = [] end) as Hlong. { apply Forall_app in Hits as [_ Hits]. apply Forall_cons in Hits as [(_ & _ & _ & _ & _ & Hlo) _]. by destruct long. }
  unfold dir_remove. rewrite bind_dp, Ep, Hblk. cbv zeta.
  assert (exists v1 d1, (if match long with Some _ => 32 * i | None => NO_BLOCK end =? NO_BLOCK then mret FR_OK else dir_sdi match long with Some _ => 32 * i | None => NO_BLOCK end) x = Ok (FR_OK, mk_work v1 d1 (wd_lfn x)) /\
    peeked (wd_vol x) v1 /\ at_slot (x_geo x) t d1 i /\ same_dp (wd_dp x) d1) as (v1 & d1 & E1 & P1 & A1 & S1).
  { destruct long as [w|].
    - rewrite (proj2 (Z.eqb_neq (32 * i) NO_BLOCK)) by (unfold NO_BLOCK; lia). apply dir_sdi_ok; [done|done|lia].
    - rewrite Z.eqb_refl. exists (wd_vol x), (wd_dp x). split; [by destruct x|]. split; [by apply peeked_refl|]. subst ls. cbn [length] in Ha. by rewrite Z.add_0_r in Ha. }
  rewrite (m_bind_Ok _ _ _ _ _ E1). change (fr_ok FR_OK) with true. cbv iota. pose proof S1 as (So & _). pose proof (peeked_geo _ _ P1) as G1. pose proof (slots_peeked _ _ _ _ Hf P1 Ht) as Sl1.
  destruct (remove_entries_ok cfuel t (length ls) dfuel ltac:(lia) (mk_work v1 d1 (wd_lfn x)) i (32 * (i + zlen ls))) as (v' & d' & E & C & Sl & _ & Sd); cbn [wd_vol wd_dp wd_lfn].
  - apply P1.
  - rewrite So. by apply (peeked_table (wd_vol x)).
  - by rewrite G1.
  - done.
  - rewrite G1. lia.
  - rewrite (m_bind_Ok _ _ _ _ _ E). exists v', d'. split; [reflexivity|]. cbn [wd_vol wd_dp wd_lfn] in *. rewrite So in C. split; [eapply changed_trans; [done|by apply peeked_changed|exact C]|]. split; [by eapply same_dp_trans|]. rewrite Sl, Sl1, Es.
    assert (take (S (length ls)) (drop (Z.to_nat i) (raws (its1 ++ Named long ls s :: its2) ++ z)) = raw (Named long ls s)) as ->; [|by apply erase_laid].
    unfold i. rewrite Nat2Z.id, raws_app, <- app_assoc, drop_app_length. cbn [fmap list_fmap concat raw]. rewrite <- app_assoc. apply take_app_length'. rewrite length_app. cbn. lia.
Qed.

(** ** Claims *)

(** C26: [dir_find] on a directory whose slots hold a list of objects, deleted
    entries and labels finds the first object that bears the name: by its long
    name up to case, or by its short name where the name looked for has one.
    It returns at the slot of the short entry, with the attribute and the
    start of the block of entries, else it reports that there is no such file;
    nothing on the volume changes. *)
Theorem dir_find_exact (cfuel dfuel : nat) (x : work_dir D) (t : dtable) (its : list item) (w : list Z) :
  dir_at x t its -> fname (d_fn (wd_dp x)) -> named w (wd_lfn x) -> 65536 <= Z.of_nat dfuel ->
  exists fr v' d', dir_find cfuel dfuel x = Ok (fr, mk_work v' d' (wd_lfn x)) /\
    stands t x (find_items (d_fn (wd_dp x)) w (get (d_fn (wd_dp x)) NSFLAG) its 0) fr v' d'.
Proof. intros Hda Hfn Hw Hd. by apply find_laid. Qed.

(** [dir_read] started at the slot behind some objects stops at the next
    object shown (no dot entry, label or deleted entry), with its attribute,
    the start of its entries and its long name in the working buffer; behind
    the last it reports the end and invalidates the position. Nothing on the
    volume changes. *)
Theorem dir_read_next (cfuel dfuel : nat) (x : work_dir D) (t : dtable) (its1 its2 : list item) :
  let i := zlen (raws its1) in
  dir_at x t (its1 ++ its2) -> at_slot (x_geo x) t (wd_dp x) i -> units (wd_lfn x) -> 65536 <= Z.of_nat dfuel ->
  exists fr v' d' lfn', dir_read cfuel dfuel false x = Ok (fr, mk_work v' d' lfn') /\ units lfn' /\
    stands t x (read_result (next_item its2 i)) fr v' d' /\
    match next_item its2 i with
    | Some (_, Named (Some w) _ _, _) => named w lfn'
    | Some _ => True
    | None => d_sect d' = 0
    end.
Proof.
  intros i [Hf Ht (Hits & z & Es & Hz)] Ha Hu Hd. apply Forall_app in Hits as [_ F2]. destruct (read_scan_items its2 z F2 Hz i 255 (blk_ofs (wd_dp x)) (wd_lfn x) Hu) as (lfn' & Er & Hu' & Hn).
  destruct (dir_read_ok cfuel dfuel false x t i (read_result (next_item its2 i)) lfn' Hf Ht Ha) as (fr & v' & d' & E & R & Hend).
  - unfold nslots. lia.
  - rewrite Es. unfold i at 1. rewrite Nat2Z.id, raws_app, <- app_assoc, drop_app_length. exact Er.
  - exists fr, v', d', lfn'. split; [exact E|]. split; [exact Hu'|]. split; [exact R|]. destruct (next_item its2 i) as [[[k it] rest]|]; [by destruct it as [| |[w|]]|by apply Hend].
Qed.

(** C25: [dir_register] puts the object into the first gap of deleted or
    unused slots that is large enough, with its short name made unique by the
    first free number if it does not determine the long name, and stays at its
    short entry; the directory may grow by free clusters. It is denied only if
    there is no such gap and the directory cannot grow, or if all numbers are
    taken. The other objects and the rest of the volume are as before. *)
Theorem dir_register_exact (cfuel dfuel : nat) (x : work_dir D) (t : dtable) (its : list item) (w : list Z) :
  let sn := d_fn (wd_dp x) in
  dir_at x t its -> storable sn -> has (get sn NSFLAG) (NS_DOT + NS_NONAME) = false -> named w (wd_lfn x) ->
  (2 * Z.to_nat (nent (wd_vol x)) <= cfuel)%nat -> 65536 <= Z.of_nat dfuel ->
  exists fr v' d' t', dir_register cfuel dfuel x = Ok (fr, mk_work v' d' (wd_lfn x)) /\ changed (sclust (d_obj (wd_dp x))) t t' (wd_vol x) v' /\
    ((exists fn, chosen its sn (wd_lfn x) fn /\ registered its w sn fn t' v' fr d') \/
     (fr = FR_DENIED /\ laid its (slots v' t') /\ has (get sn NSFLAG) NS_LOSS = true /\ forall q, 1 <= q < 100 -> taken its sn (wd_lfn x) q)).
Proof.
  intros sn Hda Hsn Hfl Hw Hcf Hdf. destruct (register_laid cfuel dfuel x t its w Hda Hsn Hfl Hw Hcf Hdf) as (fr & v' & d' & t' & E & C & _ & R). by exists fr, v', d', t'.
Qed.

(** The object with its name set. *)
Definition looking (sn : list Z) (x : work_dir D) : work_dir D := mk_work (wd_vol x) (d_name sn (wd_dp x)) (wd_lfn x).

(** An object that was registered under a name no object had is found by
    that name, at the entry where it was stored; once removed it is not found
    any more, and the directory holds the same objects as before, in the same
    order. *)
Theorem dir_create_find_remove (cfuel dfuel : nat) (x : work_dir D) (t : dtable) (its : list item) (w : list Z) :
  let sn := d_fn (wd_dp x) in let fl := get sn NSFLAG in
  dir_at x t its -> storable sn -> has fl (NS_DOT + NS_NONAME) = false -> has fl NS_NOLFN = false -> (has fl NS_LOSS = true -> has fl NS_LFN = true) ->
  named w (wd_lfn x) -> Forall (fun it => bears sn w fl it = false) its -> (2 * Z.to_nat (nent (wd_vol x)) <= cfuel)%nat -> 65536 <= Z.of_nat dfuel ->
  exists fr x1, dir_register cfuel dfuel x = Ok (fr, x1) /\ (fr = FR_OK \/ fr = FR_DENIED) /\
    (fr = FR_OK -> exists x2 x3 x4 t' its', dir_find cfuel dfuel (looking sn x1) = Ok (FR_OK, x2) /\ dptr (wd_dp x2) = dptr (wd_dp x1) /\
       dir_remove cfuel dfuel x2 = Ok (FR_OK, x3) /\ dir_find cfuel dfuel x3 = Ok (FR_NO_FILE, x4) /\
       laid its' (slots (wd_vol x4) t') /\ objects its' = objects its).
Proof.
  intros sn fl Hda Hsn Hdot Hno Hlo Hw Hnone Hcf Hdf. pose proof Hsn as (Hfn & _ & _). destruct (register_laid cfuel dfuel x t its w Hda Hsn Hdot Hw Hcf Hdf) as (fr & v1 & d1 & t' & E1 & C1 & S1 & R).
  exists fr, (mk_work v1 d1 (wd_lfn x)). split; [exact E1|]. destruct R as [(fn & Hch & [(-> & its1 & gs & its2 & ls & [[-> _] _] & L1 & A1 & _)|(-> & _)])|(-> & _)]; [|split; [by right|done]..].
  split; [by left|]. intros _. fold sn fl in L1. pose proof (new_bears fn sn w fl ls _ (wd_lfn x) Hch eq_refl Hno Hlo Hfn) as Hbn. apply Forall_app in Hnone as [B1 B2]. apply Forall_app in B2 as [_ B2].
  set (nw := new_item fl w fn ls) in *. set (x1 := looking sn (mk_work v1 d1 (wd_lfn x))). pose proof (same_place_sclust _ _ S1) as Sc.
  assert (dir_at x1 t' (its1 ++ nw :: its2)) as D1 by (split; cbn [x1 looking wd_vol wd_dp d_obj d_name]; [apply C1|rewrite Sc; apply C1|done]).
  destruct (find_laid cfuel dfuel x1 t' _ w fl D1 Hfn eq_refl Hw Hdf) as (fr2 & v2 & d2 & E2 & P2 & K2 & R2). cbn [x1 looking wd_vol wd_dp wd_lfn d_fn d_name] in *.
  rewrite find_skip in R2 by done. unfold nw, new_item in R2. cbn [find_items] in R2. fold (new_item fl w fn ls) in R2. fold nw in R2. rewrite Hbn in R2. destruct R2 as (-> & A2 & _ & Bk & _). rewrite Z.add_0_l in A2, Bk.
  pose proof (peeked_geo _ _ P2) as G2. destruct K2 as [K2 K2']. cbn [d_fn d_name] in K2.
  destruct (remove_laid cfuel dfuel (mk_work v2 d2 (wd_lfn x)) t' its1 (if has fl NS_LFN then Some w else None) ls (sfn_entry fn) its2) as (v3 & d3 & E3 & C3 & S3 & L3); cbn [wd_vol wd_dp wd_lfn].
  - apply (dir_at_peeked x1); [done|done|exact K2'].
  - by rewrite G2.
  - rewrite Bk. unfold nw, new_item, block_of. rewrite Hno. by destruct (has fl NS_LFN).
  - done.
  - cbn [wd_vol wd_dp wd_lfn] in *. pose proof S3 as (So3 & Sf3 & _). set (gone := erased <$> raw (Named (if has fl NS_LFN then Some w else None) ls (sfn_entry fn))) in *.
    assert (dir_at (mk_work v3 d3 (wd_lfn x)) t' (its1 ++ (Gone <$> gone) ++ its2)) as D3 by (split; cbn [wd_vol wd_dp]; [apply C3|rewrite So3; apply C3|done]).
    destruct (find_laid cfuel dfuel _ t' _ w fl D3) as (fr4 & v4 & d4 & E4 & P4 & _ & R4); cbn [wd_vol wd_dp wd_lfn]; [by rewrite Sf3, K2|by rewrite Sf3, K2|done|done|]. cbn [wd_vol wd_dp wd_lfn] in *.
    rewrite Sf3, K2 in R4. assert (find_items sn w fl (its1 ++ (Gone <$> gone) ++ its2) 0 = None) as En.
    { rewrite <- (app_nil_r (_ ++ _)). rewrite find_skip; [done|]. apply Forall_app. split; [done|]. apply Forall_app. split; [|done]. apply Forall_fmap, Forall_true. done. }
    rewrite En in R4. subst fr4. eexists _, _, _, t', _. split; [exact E2|]. split; [cbn [wd_dp]; by rewrite (as_ptr _ _ _ _ A2), (as_ptr _ _ _ _ A1)|]. split; [exact E3|]. split; [exact E4|].
    cbn [wd_vol]. rewrite (slots_peeked _ _ (sclust (d_obj d3)) _ (da_fat _ _ _ D3) P4 (da_table _ _ _ D3)). split; [exact L3|]. by rewrite !objects_app, !objects_gone.
Qed.

End Objects.

(** *** Concrete runs: the root directory of 16 entries of the blank volume. *)

Definition ncf : nat := Z.to_nat 1200.
Definition df : nat := Z.to_nat 65536.

(** [LONGNA  TEX], a name that does not determine the long name. *)
Definition demo_fn : list Z := [76; 79; 78; 71; 78; 65; 77; 69; 84; 69; 88; 7].
Definition demo_dir : work_dir ram :=
  mk_work demo_vol (mk_DIR (mk_obj true 1 0 0 0 0) 0 0 0 0 demo_fn 0) (name_buf (demo_name 76)).

Lemma demo_table : table_at demo_vol 0 Static.
Proof. split; [done|]. split; [done|]. split; vm_compute; [done|discriminate..]. Qed.

Lemma demo_slots : slots demo_vol Static = replicate 16 zero_slot.
Proof. vm_compute. reflexivity. Qed.

Lemma demo_dir_at : dir_at demo_dir Static [].
Proof.
  split; [exact demo_fat_ok|exact demo_table|]. split; [done|]. exists (replicate 16 zero_slot). split; [exact demo_slots|]. apply Forall_replicate. split; [|done]. split; [done|]. apply Forall_replicate. unfold is_byte. lia.
Qed.

Lemma demo_fn_ok : storable demo_fn.
Proof. split; [|done]. split; [done|]. repeat (apply Forall_cons; split; [unfold is_byte; lia|]). done. Qed.

Lemma demo_dir_named : named (demo_name 76) (wd_lfn demo_dir).
Proof. apply demo_named. lia. Qed.

Lemma demo_dir_fuel : (2 * Z.to_nat (n_fatent (fs_geo (v_fs (wd_vol demo_dir)))) <= ncf)%nat /\ 65536 <= Z.of_nat df.
Proof. unfold ncf, df. cbn [demo_dir wd_vol demo_vol blank v_fs fs_geo demo_geo n_fatent]. lia. Qed.

Lemma demo_result fr x : dir_register ncf df demo_dir = Ok (fr, x) -> fr = FR_OK.
Proof.
  assert (match dir_register ncf df demo_dir with Ok (r, _) => r | _ => FR_INT_ERR end = FR_OK) as Er by (vm_compute; reflexivity). intros E. by rewrite E in Er.
Qed.

(** Three slots are used: the short name gets number 1. *)
Lemma dir_register_exact_witness :
  exists v' d', dir_register ncf df demo_dir = Ok (FR_OK, mk_work v' d' (wd_lfn demo_dir)) /\ dptr d' = 64 /\
    take 11 (slot v' Static 2) = [76; 79; 78; 71; 78; 65; 126; 49; 84; 69; 88].
Proof.
  destruct (dir_register_exact ncf df demo_dir Static [] (demo_name 76) demo_dir_at demo_fn_ok eq_refl demo_dir_named (proj1 demo_dir_fuel) (proj2 demo_dir_fuel)) as (fr & v' & d' & t' & E & _ & _).
  exists v', d'. vm_compute in E. injection E as <- <- <-. split; [vm_compute; reflexivity|]. vm_compute. done.
Defined.

(** The directory with one object in it. *)
Lemma demo_registered : exists v' d' fn ls, dir_register ncf df demo_dir = Ok (FR_OK, mk_work v' d' (wd_lfn demo_dir)) /\ fs_geo (v_fs v') = demo_geo /\ same_place (wd_dp demo_dir) d' /\
  fat_ok v' /\ table_at v' 0 Static /\ laid [new_item 7 (demo_name 76) fn ls] (slots v' Static) /\ chosen [] demo_fn (wd_lfn demo_dir) fn /\ (get fn 0 = 76 \/ get fn 0 = 126).
Proof.
  destruct (register_laid ncf df demo_dir Static [] (demo_name 76) demo_dir_at demo_fn_ok eq_refl demo_dir_named (proj1 demo_dir_fuel) (proj2 demo_dir_fuel)) as (fr & v' & d' & t' & E & C & S & R).
  assert (fr = FR_OK) as -> by exact (demo_result _ _ E).
  assert (t' = Static) as -> by (destruct (ch_ext _ _ _ _ _ C) as [->|(l & r & E' & _)]; [done|discriminate E']).
  destruct R as [(fn & Hch & [(_ & its1 & gs & its2 & ls & [[Eg _] _] & L & A)|(E' & _)])|(E' & _)]; [|done..].
  destruct its1; [|discriminate Eg]. destruct gs; [|discriminate Eg]. destruct its2; [|discriminate Eg]. exists v', d', fn, ls. split; [exact E|]. split; [apply C|]. split; [exact S|]. split; [apply C|]. split; [apply C|].
  split; [exact L|]. split; [exact Hch|]. destruct Hch as (_ & _ & q & r & _ & Eq & Tk & _). destruct demo_fn_ok as (Hfn & _ & _).
  destruct (gen_numname_ok (demo_name 76) (take 11 demo_fn ++ [NS_NOLFN]) demo_fn (wd_lfn demo_dir) q demo_dir_named) as (r' & Er & _ & _ & Hr); [|done|].
  { split; [done|]. apply Forall_app. split; [apply Forall_take, Hfn|apply Forall_singleton; unfold is_byte, NS_NOLFN; lia]. }
  change (numbered demo_fn (wd_lfn demo_dir) q = Ok r) in Eq. unfold numbered in Eq. rewrite Er in Eq. injection Eq as ->. assert (get fn 0 = get r 0) as -> by (rewrite <- (get_take 11 fn), <- (get_take 11 r), Tk by lia; done). exact Hr.
Qed.

(** The object is found where it was stored. *)
Lemma dir_find_exact_witness :
  exists x1 x2, dir_register ncf df demo_dir = Ok (FR_OK, x1) /\ dir_find ncf df (looking demo_fn x1) = Ok (FR_OK, x2) /\ blk_ofs (wd_dp x2) = 0.
Proof.
  destruct demo_registered as (v1 & d1 & fn & ls & E1 & G1 & S1 & F1 & T1 & L1 & Hch & _). set (x1 := mk_work v1 d1 (wd_lfn demo_dir)). destruct demo_fn_ok as (Hfn & _ & _).
  assert (dir_at (looking demo_fn x1) Static [new_item 7 (demo_name 76) fn ls]) as D1 by (split; [exact F1|cbn [looking x1 wd_vol wd_dp d_obj d_name]; by rewrite (same_place_sclust _ _ S1)|exact L1]).
  destruct (dir_find_exact ncf df (looking demo_fn x1) Static _ (demo_name 76) D1 Hfn demo_dir_named (proj2 demo_dir_fuel)) as (fr & v' & d' & E & _ & _ & R).
  assert (bears demo_fn (demo_name 76) 7 (new_item 7 (demo_name 76) fn ls) = true) as Hb by (by apply (new_bears fn demo_fn _ 7 ls [] (wd_lfn demo_dir))).
  change (find_items _ _ _ _ _) with (if bears demo_fn (demo_name 76) 7 (new_item 7 (demo_name 76) fn ls) then Some (0 + zlen ls, attr_of (sfn_entry fn), 0) else None) in R. rewrite Hb in R.
  destruct R as (-> & _ & _ & B & _). exists x1, (mk_work v' d' (wd_lfn demo_dir)). split; [exact E1|]. split; [exact E|exact B].
Defined.

(** Reading from the first slot delivers the long name. *)
Definition at_start (fn : list Z) : DIR := mk_DIR (mk_obj true 1 0 0 0 0) 0 0 5 0 fn 0.

Lemma dir_read_next_witness :
  exists x1 x2, dir_register ncf df demo_dir = Ok (FR_OK, x1) /\ dir_read ncf df false (mk_work (wd_vol x1) (at_start demo_fn) (replicate 256 0)) = Ok (FR_OK, x2) /\ named (demo_name 76) (wd_lfn x2).
Proof.
  destruct demo_registered as (v1 & d1 & fn & ls & E1 & G1 & S1 & F1 & T1 & L1 & Hch & H0). set (x := mk_work v1 (at_start demo_fn) (replicate 256 0)). pose proof L1 as ([(Hs & _ & _ & _) _]%Forall_cons & _).
  assert (get (sfn_entry fn) 0 =? 46 = false) as Hdot.
  { apply Z.eqb_neq. unfold sfn_entry. destruct fn as [|c fn]; [destruct H0 as [H0|H0]; discriminate H0|]. change (get (take 11 (c :: fn) ++ _) 0) with (get (c :: fn) 0). lia. }
  destruct (dir_read_next ncf df x Static [] [new_item 7 (demo_name 76) fn ls]) as (fr & v' & d' & lfn' & E & _ & R & N).
  - split; [exact F1|exact T1|exact L1].
  - cbn [x wd_vol wd_dp]. rewrite G1. split; [vm_compute; split; [discriminate|reflexivity]|reflexivity..].
  - split; [apply length_replicate|]. apply Forall_replicate. lia.
  - apply demo_dir_fuel.
  - cbn [new_item next_item delivered] in R, N. rewrite Hdot in R, N. cbn [negb read_result] in R, N. destruct R as (_ & _ & -> & _). eexists _, _. split; [exact E1|]. split; [exact E|exact N].
Defined.

Lemma dir_create_find_remove_witness :
  exists x1 x2 x3 x4, dir_register ncf df demo_dir = Ok (FR_OK, x1) /\ dir_find ncf df (looking demo_fn x1) = Ok (FR_OK, x2) /\ dir_remove ncf df x2 = Ok (FR_OK, x3) /\ dir_find ncf df x3 = Ok (FR_NO_FILE, x4).
Proof.
  destruct (dir_create_find_remove ncf df demo_dir Static [] (demo_name 76) demo_dir_at demo_fn_ok eq_refl eq_refl (fun _ => eq_refl) demo_dir_named (Forall_nil_2 _) (proj1 demo_dir_fuel) (proj2 demo_dir_fuel)) as (fr & x1 & E1 & _ & R).
  assert (fr = FR_OK) as -> by exact (demo_result _ _ E1).
  destruct (R eq_refl) as (x2 & x3 & x4 & _ & _ & E2 & _ & E3 & E4 & _). exists x1, x2, x3, x4. exact (conj E1 (conj E2 (conj E3 E4))).
Defined.
