(* ===== verification/FatMount.v ===== *)
(** * FatMount: finding and mounting a volume (ff.c)

    [get_ldnumber], [check_fs], [find_volume], [mount_volume] and [f_mount],
    with the one logical drive of the configuration (FF_VOLUMES = 1, no exFAT,
    512-byte sectors). A failing mount leaves the fields of the object it has
    already set, with [fs_type] 0. *)

From Stdlib Require Import ZArith Lia Bool.
From stdpp Require Import base list list_numbers.
From S2P Require Import Prelude Hw CLib Ata Fat FatChain FatFile FatRead FatWrite FatSync.
From stdpp Require Import options.

(** ** Drive numbers *)

Definition IsTerminator (c : Z) : bool := u32 (i8 c) <? 32.
Definition IsDigit (c : Z) : bool := (48 <=? i8 c) && (i8 c <=? 57).

(** The scan for a colon: the character that ends it, the number of characters
    read and the rest of the path. *)
Fixpoint find_colon (n : Z) (rest : list Z) : res (Z * Z * list Z) :=
  match rest with
  | [] => Fault
  | chr :: rest => if negb (IsTerminator chr) && negb (i8 chr =? 58) then find_colon (n + 1) rest else Ok (chr, n + 1, rest)
  end.

(** The drive number, -1 when there is no such drive, and the rest of the path. *)
Definition get_ldnumber (path : list Z) : res (Z * list Z) :=
  x ← find_colon 0 path;
  let '(chr, n, rest) := x in
  if i8 chr =? 58 then
    tp ← rd path 0;
    let i := if IsDigit tp && (n =? 2) then i8 tp - 48 else 1 in
    if 1 <=? i then Ok (-1, path) else Ok (i, rest)
  else Ok (0, path).

(** ** Boot sectors *)

Definition BS_JmpBoot : Z := 0.
Definition BPB_BytsPerSec : Z := 11.
Definition BPB_SecPerClus : Z := 13.
Definition BPB_RsvdSecCnt : Z := 14.
Definition BPB_NumFATs : Z := 16.
Definition BPB_RootEntCnt : Z := 17.
Definition BPB_TotSec16 : Z := 19.
Definition BPB_FATSz16 : Z := 22.
Definition BPB_TotSec32 : Z := 32.
Definition BPB_FATSz32 : Z := 36.
Definition BPB_FSVer32 : Z := 42.
Definition BPB_RootClus32 : Z := 44.
Definition BPB_FSInfo32 : Z := 48.
Definition BS_FilSysType32 : Z := 82.
Definition BS_55AA : Z := 510.
Definition MBR_Table : Z := 446.

Definition MAX_FAT12 : Z := 4085.
Definition MAX_FAT16 : Z := 65525.
Definition MAX_FAT32 : Z := 268435445.

(** ["FAT32   "] *)
Definition fat32_name : list Z := [70; 65; 84; 51; 50; 32; 32; 32].

(** The tests on an early FAT boot sector, which lacks signature and name. *)
Definition bpb_proper (b : list Z) : res bool :=
  w ← ld_word b BPB_BytsPerSec;
  c ← rd b BPB_SecPerClus;
  if negb (((Z.land w (w - 1) =? 0) && (512 <=? w) && (w <=? 512)) && negb (c =? 0) && (Z.land c (c - 1) =? 0)) then Ok false
  else
    rsv ← ld_word b BPB_RsvdSecCnt;
    if rsv =? 0 then Ok false
    else
      nf ← rd b BPB_NumFATs;
      if negb (u32 (nf - 1) <=? 1) then Ok false
      else
        re ← ld_word b BPB_RootEntCnt;
        if re =? 0 then Ok false
        else
          t16 ← ld_word b BPB_TotSec16;
          t32 ← ld_dword b BPB_TotSec32;
          if negb ((128 <=? t16) || (65536 <=? t32)) then Ok false
          else fz ← ld_word b BPB_FATSz16; Ok (negb (fz =? 0)).

(** What a sector is: 0 a FAT boot sector, 2 another boot sector, 3 none. *)
Definition vbr_kind (b : list Z) : res Z :=
  sign ← ld_word b BS_55AA;
  jb ← rd b BS_JmpBoot;
  fat ← (if (jb =? 235) || (jb =? 233) || (jb =? 232) then
           m ← (if sign =? 43605 then memcmp (drop (Z.to_nat BS_FilSysType32) b) fat32_name 8 else Ok 1);
           if (sign =? 43605) && (m =? 0) then Ok true else bpb_proper b
         else Ok false);
  Ok (if fat : bool then 0 else if sign =? 43605 then 2 else 3).

(** Setting fields of the layout. *)
Definition g_type (x : Z) (g : geometry) : geometry :=
  mk_geo x (pdrv g) (n_fats g) (fs_id g) (n_rootdir g) (csize g) (n_fatent g) (fsize g) (volbase g) (fatbase g) (dirbase g) (database g).
Definition g_id (x : Z) (g : geometry) : geometry :=
  mk_geo (fs_type g) (pdrv g) (n_fats g) x (n_rootdir g) (csize g) (n_fatent g) (fsize g) (volbase g) (fatbase g) (dirbase g) (database g).
Definition g_pdrv (x : Z) (g : geometry) : geometry :=
  mk_geo (fs_type g) x (n_fats g) (fs_id g) (n_rootdir g) (csize g) (n_fatent g) (fsize g) (volbase g) (fatbase g) (dirbase g) (database g).
Definition g_fats (x : Z) (g : geometry) : geometry :=
  mk_geo (fs_type g) (pdrv g) x (fs_id g) (n_rootdir g) (csize g) (n_fatent g) (fsize g) (volbase g) (fatbase g) (dirbase g) (database g).
Definition g_rootdir (x : Z) (g : geometry) : geometry :=
  mk_geo (fs_type g) (pdrv g) (n_fats g) (fs_id g) x (csize g) (n_fatent g) (fsize g) (volbase g) (fatbase g) (dirbase g) (database g).
Definition g_csize (x : Z) (g : geometry) : geometry :=
  mk_geo (fs_type g) (pdrv g) (n_fats g) (fs_id g) (n_rootdir g) x (n_fatent g) (fsize g) (volbase g) (fatbase g) (dirbase g) (database g).
Definition g_fsize (x : Z) (g : geometry) : geometry :=
  mk_geo (fs_type g) (pdrv g) (n_fats g) (fs_id g) (n_rootdir g) (csize g) (n_fatent g) x (volbase g) (fatbase g) (dirbase g) (database g).
Definition g_dirbase (x : Z) (g : geometry) : geometry :=
  mk_geo (fs_type g) (pdrv g) (n_fats g) (fs_id g) (n_rootdir g) (csize g) (n_fatent g) (fsize g) (volbase g) (fatbase g) x (database g).
(** [n_fatent], [volbase], [fatbase] and [database]. *)
Definition g_limits (n vb fb db : Z) (g : geometry) : geometry :=
  mk_geo (fs_type g) (pdrv g) (n_fats g) (fs_id g) (n_rootdir g) (csize g) n (fsize g) vb fb (dirbase g) db.

(** The FAT sub-type of a volume of [nclst] clusters, 0 when there are too many. *)
Definition sub_type (nclst : Z) : Z :=
  if nclst <=? MAX_FAT12 then FS_FAT12 else if nclst <=? MAX_FAT16 then FS_FAT16 else if nclst <=? MAX_FAT32 then FS_FAT32 else 0.

(** The root directory and the needed size of the table, in bytes; [None] when
    the fields do not fit the sub-type. *)
Definition root_dir (fmt fasize : Z) (b : list Z) (g : geometry) : res (option Z * geometry) :=
  if fmt =? FS_FAT32 then
    ver ← ld_word b BPB_FSVer32;
    if negb (ver =? 0) || negb (n_rootdir g =? 0) then Ok (None, g)
    else rc ← ld_dword b BPB_RootClus32; Ok (Some (u32 (n_fatent g * 4)), g_dirbase rc g)
  else if n_rootdir g =? 0 then Ok (None, g)
  else Ok (Some (if fmt =? FS_FAT16 then u32 (n_fatent g * 2) else u32 (u32 (n_fatent g * 3) / 2 + Z.land (n_fatent g) 1)),
           g_dirbase (u32 (fatbase g + fasize)) g).

(** Analysing the boot sector [b] found at [bsect]: the sub-type, 0 for
    FR_NO_FILESYSTEM, and the layout as far as it was set. *)
Definition read_bpb (bsect : Z) (b : list Z) (g : geometry) : res (Z * geometry) :=
  bps ← ld_word b BPB_BytsPerSec;
  if negb (bps =? SS) then Ok (0, g)
  else
    f16 ← ld_word b BPB_FATSz16;
    fasize ← (if f16 =? 0 then ld_dword b BPB_FATSz32 else Ok f16);
    nf ← rd b BPB_NumFATs;
    let g := g_fats nf (g_fsize fasize g) in
    if negb (nf =? 1) && negb (nf =? 2) then Ok (0, g)
    else
      let fasize := u32 (fasize * nf) in
      cs ← rd b BPB_SecPerClus;
      let g := g_csize cs g in
      if (cs =? 0) || negb (Z.land cs (cs - 1) =? 0) then Ok (0, g)
      else
        re ← ld_word b BPB_RootEntCnt;
        let g := g_rootdir re g in
        if negb (re mod (SS / 32) =? 0) then Ok (0, g)
        else
          t16 ← ld_word b BPB_TotSec16;
          tsect ← (if t16 =? 0 then ld_dword b BPB_TotSec32 else Ok t16);
          nrsv ← ld_word b BPB_RsvdSecCnt;
          if nrsv =? 0 then Ok (0, g)
          else
            let sysect := u32 (nrsv + fasize + re / (SS / 32)) in
            if tsect <? sysect then Ok (0, g)
            else
              let nclst := u32 (tsect - sysect) / cs in
              let fmt := sub_type nclst in
              if (nclst =? 0) || (fmt =? 0) then Ok (0, g)
              else
                let g := g_limits (u32 (nclst + 2)) bsect (u32 (bsect + nrsv)) (u32 (bsect + sysect)) g in
                x ← root_dir fmt fasize b g;
                match x.1 with
                | None => Ok (0, x.2)
                | Some szbfat => Ok (if fsize x.2 <? u32 (szbfat + (SS - 1)) / SS then 0 else fmt, x.2)
                end.

(** ** Searching the drive *)

(** The registration of the file system object ([FatFs[0]]), the mount counter
    and the object with its drive. *)
Record ff (D : Type) := mk_ff { ff_reg : bool; Fsid : Z; ff_vol : vol D }.
Arguments mk_ff {D} _ _ _.
Arguments ff_reg {D} _.
Arguments Fsid {D} _.
Arguments ff_vol {D} _.

Section Mount.
Context {D : Type} `{BlockDev D}.
Abbreviation VM := (M (vol D)).
Abbreviation FFM := (M (ff D)).

Definition set_geo (k : geometry -> geometry) : VM unit :=
  modify (fun v => mk_vol (mk_fs (k (fs_geo (v_fs v))) (fs_win (v_fs v)) (fs_alloc (v_fs v))) (v_dev v)).

Definition check_fs (sect : Z) : VM Z :=
  w ← wnd;
  _ ← set_wnd (mk_window 0 4294967295 (win w));
  r ← move_window sect;
  if fr_ok r then win_get vbr_kind else mret 4.

(** The partitions still to be tried. *)
Fixpoint try_parts (part : Z) (pts : list Z) : VM Z :=
  match pts with
  | [] => lift Fault
  | p :: pts =>
      fmt ← (if negb (p =? 0) then check_fs p else mret 3);
      if (part =? 0) && (2 <=? fmt) && negb (bool_decide (pts = [])) then try_parts part pts else mret fmt
  end.

Definition mbr_entries (b : list Z) : res (list Z) :=
  p0 ← ld_dword b (MBR_Table + 8);
  p1 ← ld_dword b (MBR_Table + 24);
  p2 ← ld_dword b (MBR_Table + 40);
  p3 ← ld_dword b (MBR_Table + 56);
  Ok [p0; p1; p2; p3].

Definition find_volume (part : Z) : VM Z :=
  fmt ← check_fs 0;
  if negb (fmt =? 2) && ((3 <=? fmt) || (part =? 0)) then mret fmt
  else
    w ← wnd;
    pts ← lift (mbr_entries (win w));
    try_parts part (drop (Z.to_nat (if negb (part =? 0) then part - 1 else 0)) pts).

(** ** Mounting *)

Definition STA_PROTECT : Z := 4.

(** The FSInfo sector of a FAT32 volume. *)
Definition load_fsinfo (fmt bsect : Z) : VM unit :=
  _ ← set_alc (mk_alloc 4294967295 4294967295 128);
  fi ← (if fmt =? FS_FAT32 then win_get (fun b => ld_word b BPB_FSInfo32) else mret 0);
  if (fmt =? FS_FAT32) && (fi =? 1) then
    r ← move_window (u32 (bsect + 1));
    if fr_ok r then
      _ ← set_alc (mk_alloc 4294967295 4294967295 0);
      lead ← win_get (fun b => ld_dword b 0);
      struc ← win_get (fun b => ld_dword b 484);
      trail ← win_get (fun b => ld_dword b 498);
      if (lead =? 1096897106) && (struc =? 1631679090) && (trail =? 2857697280) then
        fc ← win_get (fun b => ld_dword b 488);
        lc ← win_get (fun b => ld_dword b 492);
        set_alc (mk_alloc lc fc 0)
      else skip
    else skip
  else skip.

Definition onfs {A} (m : VM A) : FFM A := fun x =>
  match m (ff_vol x) with
  | Ok (r, v) => Ok (r, mk_ff (ff_reg x) (Fsid x) v)
  | Fault => Fault | Spin => Spin | NoFuel => NoFuel
  end.

(** The attempt to mount: initialise the drive, find a volume, analyse it. *)
Definition mount_now (vol mode : Z) : FFM FRESULT :=
  _ ← onfs (set_geo (g_type 0));
  stat ← onfs (drive bd_init);
  if truth (Z.land stat STA_NOINIT) then mret FR_NOT_READY
  else if truth mode && truth (Z.land stat STA_PROTECT) then mret FR_WRITE_PROTECTED
  else
    fmt ← onfs (find_volume 0);
    if fmt =? 4 then mret FR_DISK_ERR
    else if 2 <=? fmt then mret FR_NO_FILESYSTEM
    else
      w ← onfs wnd; g ← onfs geo;
      let bsect := winsect w in
      x ← lift (read_bpb bsect (win w) g);
      _ ← onfs (set_geo (fun _ => x.2));
      if x.1 =? 0 then mret FR_NO_FILESYSTEM
      else
        _ ← onfs (load_fsinfo x.1 bsect);
        _ ← onfs (set_geo (g_type x.1));
        id ← gets Fsid;
        let id := u16 (id + 1) in
        _ ← modify (fun s => mk_ff (ff_reg s) id (ff_vol s));
        _ ← onfs (set_geo (g_id id));
        mret FR_OK.

(** The result and the rest of the path behind the drive number. *)
Definition mount_volume (path : list Z) (mode : Z) : FFM (FRESULT * list Z) :=
  x ← lift (get_ldnumber path);
  let '(vol, path) := x in
  if vol <? 0 then mret (FR_INVALID_DRIVE, path)
  else
    reg ← gets ff_reg;
    if negb reg then mret (FR_NOT_ENABLED, path)
    else
      let mode := Z.land mode 254 in
      g ← onfs geo;
      stat ← gets (fun s => bd_status (v_dev (ff_vol s)));
      if negb (fs_type g =? 0) && negb (truth (Z.land stat STA_NOINIT)) then
        mret (if truth mode && truth (Z.land stat STA_PROTECT) then FR_WRITE_PROTECTED else FR_OK, path)
      else r ← mount_now vol mode; mret (r, path).

(** [f_mount]; [fs] tells whether an object is given (the one of the model) or
    the null pointer. *)
Definition f_mount (fs : bool) (path : list Z) (opt : Z) : FFM FRESULT :=
  x ← lift (get_ldnumber path);
  if x.1 <? 0 then mret FR_INVALID_DRIVE
  else
    reg ← gets ff_reg;
    _ ← when reg (_ ← onfs (set_geo (g_type 0)); modify (fun s => mk_ff false (Fsid s) (ff_vol s)));
    _ ← when fs (_ ← onfs (set_geo (fun g => g_type 0 (g_pdrv (u8 x.1) g))); modify (fun s => mk_ff true (Fsid s) (ff_vol s)));
    if opt =? 0 then mret FR_OK
    else r ← mount_volume path 0; mret r.1.

End Mount.

(** ** What a boot sector describes *)

Section Bpb.
Context (b : list Z).

Definition bpb_fsize : Z := if le16 b BPB_FATSz16 =? 0 then le32 b BPB_FATSz32 else le16 b BPB_FATSz16.
Definition bpb_total : Z := if le16 b BPB_TotSec16 =? 0 then le32 b BPB_TotSec32 else le16 b BPB_TotSec16.

(** Reserved sectors, tables and root directory. *)
Definition bpb_system : Z := le16 b BPB_RsvdSecCnt + bpb_fsize * get b BPB_NumFATs + le16 b BPB_RootEntCnt / 16.

(** The same number in 32 bits, which is what the volume is judged by, and the
    clusters behind it. *)
Definition bpb_stored : Z := bpb_system mod 4294967296.
Definition bpb_clusters : Z := (bpb_total - bpb_stored) / get b BPB_SecPerClus.

(** The sub-type by the number of clusters: 1 FAT12, 2 FAT16, 3 FAT32. *)
Definition bpb_type : Z := if bpb_clusters <=? 4085 then 1 else if bpb_clusters <=? 65525 then 2 else 3.

(** Bits of a table entry of the sub-type. *)
Definition type_bits (ty : Z) : Z := if ty =? FS_FAT12 then 12 else if ty =? FS_FAT16 then 16 else 32.

(** A boot sector that describes a FAT volume. *)
Definition vbr_good : bool :=
  (le16 b BPB_BytsPerSec =? 512) && ((get b BPB_NumFATs =? 1) || (get b BPB_NumFATs =? 2)) &&
  existsb (fun k => get b BPB_SecPerClus =? 2 ^ k) [0; 1; 2; 3; 4; 5; 6; 7] &&
  (le16 b BPB_RootEntCnt mod 16 =? 0) && negb (le16 b BPB_RsvdSecCnt =? 0) && (bpb_stored <=? bpb_total) &&
  (0 <? bpb_clusters) && (bpb_clusters <=? 268435445) &&
  (if bpb_type =? FS_FAT32 then (le16 b BPB_FSVer32 =? 0) && (le16 b BPB_RootEntCnt =? 0) else negb (le16 b BPB_RootEntCnt =? 0)) &&
  ((bpb_clusters + 2) * type_bits bpb_type <=? bpb_fsize * 4096).

(** The layout it describes, at [bsect], in 32-bit sector numbers. *)
Definition bpb_layout (bsect : Z) (g : geometry) : geometry :=
  mk_geo (fs_type g) (pdrv g) (get b BPB_NumFATs) (fs_id g) (le16 b BPB_RootEntCnt) (get b BPB_SecPerClus) (bpb_clusters + 2) bpb_fsize
    bsect ((bsect + le16 b BPB_RsvdSecCnt) mod 4294967296)
    (if bpb_type =? FS_FAT32 then le32 b BPB_RootClus32 else (bsect + le16 b BPB_RsvdSecCnt + bpb_fsize * get b BPB_NumFATs) mod 4294967296)
    ((bsect + bpb_system) mod 4294967296).

(** The volume lies on a drive of [size] sectors: the sizes in the boot sector
    are no larger than it, and FSInfo has a sector of its own. *)
Record volume_at (bsect size : Z) : Prop := {
  va_start : 0 <= bsect;
  va_end : bsect + bpb_total <= size;
  va_system : bsect + bpb_system <= size;
  va_size : size < 4294967295;
  va_info : bpb_type = FS_FAT32 -> 2 <= le16 b BPB_RsvdSecCnt
}.

End Bpb.

Lemma pow2_byte c : is_byte c -> (c =? 0) || negb (Z.land c (c - 1) =? 0) = negb (existsb (fun k => c =? 2 ^ k) [0; 1; 2; 3; 4; 5; 6; 7]).
Proof.
  intros Hc. assert (forallb (fun c => eqb ((c =? 0) || negb (Z.land c (c - 1) =? 0)) (negb (existsb (fun k => c =? 2 ^ k) [0; 1; 2; 3; 4; 5; 6; 7]))) (seqZ 0 256) = true) as E
    by (vm_compute; reflexivity).
  rewrite forallb_forall in E. apply eqb_prop, E, list_elem_of_In, elem_of_seqZ. unfold is_byte in Hc. lia.
Qed.

Lemma pow2_exists c : existsb (fun k => c =? 2 ^ k) [0; 1; 2; 3; 4; 5; 6; 7] = true -> exists k, 0 <= k <= 7 /\ c = 2 ^ k.
Proof.
  intros E. apply existsb_exists in E as (k & Hk & E). apply Z.eqb_eq in E. exists k. split; [|done]. cbn in Hk. lia.
Qed.

Lemma sub_type_cases n : 0 <= n -> (n <= MAX_FAT32 /\ sub_type n <> 0) \/ (MAX_FAT32 < n /\ sub_type n = 0).
Proof.
  intros Hn. unfold sub_type, MAX_FAT12, MAX_FAT16, MAX_FAT32 in *. zcases; (left + right); (split; [lia|done]).
Qed.

Lemma land_1 n : Z.land n 1 = n mod 2.
Proof. change 1 with (Z.ones 1). by rewrite Z.land_ones. Qed.

(** The table needed, in sectors, against the size in bits. *)
Lemma table_fits ty n fs : ty = FS_FAT12 \/ ty = FS_FAT16 \/ ty = FS_FAT32 -> 0 <= n < 268435450 -> 0 <= fs ->
  let sz := if ty =? FS_FAT32 then n * 4 else if ty =? FS_FAT16 then n * 2 else n * 3 / 2 + Z.land n 1 in
  (fs <? (sz + 511) / 512) = negb (n * type_bits ty <=? fs * 4096).
Proof.
  intros Ht Hn Hf sz. pose proof (land_1 n) as En. subst sz. destruct Ht as [->|[->| ->]]; cbn; rewrite ?En; match goal with |- (?a <? ?b) = negb (?c <=? ?d) => destruct (Z.ltb_spec a b), (Z.leb_spec c d) end; try done; exfalso; dlia.
Qed.

Lemma bpb_bounds b : sector_data b -> 0 <= bpb_fsize b < 4294967296 /\ 0 <= bpb_total b < 4294967296 /\ 0 <= bpb_fsize b * get b BPB_NumFATs <= bpb_system b.
Proof.
  intros [_ Hb]. pose proof (get_byte b BPB_NumFATs Hb) as Hn.
  pose proof (le16_bound b BPB_FATSz16 Hb). pose proof (le32_bound b BPB_FATSz32 Hb). pose proof (le16_bound b BPB_TotSec16 Hb).
  pose proof (le32_bound b BPB_TotSec32 Hb). pose proof (le16_bound b BPB_RsvdSecCnt Hb). pose proof (le16_bound b BPB_RootEntCnt Hb).
  assert (0 <= bpb_fsize b < 4294967296) as Hf by (unfold bpb_fsize; destruct (_ =? 0); lia).
  split; [done|]. split; [unfold bpb_total; destruct (_ =? 0); lia|]. split; [apply Z.mul_nonneg_nonneg; lia|].
  unfold bpb_system. assert (0 <= le16 b BPB_RootEntCnt / 16) by dlia. lia.
Qed.

(** *** Reading fields of a sector *)

Ltac in_sector L := solve [assumption | rewrite ?L; vm_compute; congruence | rewrite ?L; split; vm_compute; congruence].
Ltac load L := match goal with
  | |- context [ld_word ?b ?i] => rewrite (ld_word_ok b i) by in_sector L
  | |- context [ld_dword ?b ?i] => rewrite (ld_dword_ok b i) by in_sector L
  | |- context [rd ?b ?i] => rewrite (rd_in b i) by in_sector L
  end; rewrite ?bind_Ok; cbv zeta.

Lemma root_dir_exact fmt fasize b g : sector_data b -> 0 <= n_fatent g < 268435450 ->
  exists o g', root_dir fmt fasize b g = Ok (o, g') /\ fs_type g' = fs_type g /\ fsize g' = fsize g /\
    if (if fmt =? FS_FAT32 then (le16 b BPB_FSVer32 =? 0) && (n_rootdir g =? 0) else negb (n_rootdir g =? 0))
    then o = Some (if fmt =? FS_FAT32 then n_fatent g * 4 else if fmt =? FS_FAT16 then n_fatent g * 2 else n_fatent g * 3 / 2 + Z.land (n_fatent g) 1) /\
         g' = g_dirbase (if fmt =? FS_FAT32 then le32 b BPB_RootClus32 else u32 (fatbase g + fasize)) g
    else o = None.
Proof.
  intros [L B] Hn. assert (0 <= Z.land (n_fatent g) 1 <= 1) as Hl by (rewrite land_1; dlia).
  unfold root_dir. destruct (fmt =? FS_FAT32).
  - load L. destruct (le16 b BPB_FSVer32 =? 0), (n_rootdir g =? 0); cbn [negb orb andb]; [load L|..]; eexists _, _; (split; [reflexivity|]); try done.
    rewrite u32_small by lia. done.
  - destruct (n_rootdir g =? 0); cbn [negb]; eexists _, _; (split; [reflexivity|]); try done.
    split; [done|]. split; [done|]. split; [|done].
    destruct (fmt =? FS_FAT16); [by rewrite u32_small by lia|]. rewrite (u32_small (n_fatent g * 3)), u32_small by dlia. done.
Qed.

Ltac refused := eexists; split; [reflexivity|]; split; [reflexivity|discriminate].

Lemma u32_layout a x y : u32 (u32 (a + x) + u32 y) = (a + x + y) mod 4294967296.
Proof. unfold u32, wrap. change (2 ^ 32) with 4294967296. rewrite Zplus_mod_idemp_l, Zplus_mod_idemp_r. done. Qed.

Lemma u32_sysect r f e : u32 (r + u32 f + e) = (r + f + e) mod 4294967296.
Proof. unfold u32, wrap. change (2 ^ 32) with 4294967296. replace (r + f mod 4294967296 + e) with (r + e + f mod 4294967296) by lia. rewrite Zplus_mod_idemp_r. f_equal. lia. Qed.

Lemma u32_base a x : u32 (a + x mod 4294967296) = (a + x) mod 4294967296.
Proof. unfold u32, wrap. change (2 ^ 32) with 4294967296. by rewrite Zplus_mod_idemp_r. Qed.

Lemma bpb_type_sub b : bpb_clusters b <= 268435445 -> sub_type (bpb_clusters b) = bpb_type b.
Proof.
  intros H. unfold sub_type, bpb_type, MAX_FAT12, MAX_FAT16, MAX_FAT32. destruct (_ <=? 4085); [done|]. destruct (_ <=? 65525); [done|].
  by rewrite (proj2 (Z.leb_le _ _) H).
Qed.

Lemma bpb_type_cases b : bpb_type b = FS_FAT12 /\ bpb_clusters b <= 4085 \/ bpb_type b = FS_FAT16 /\ bpb_clusters b <= 65525 \/ bpb_type b = FS_FAT32.
Proof. unfold bpb_type, FS_FAT12, FS_FAT16, FS_FAT32. zcases; auto. Qed.

Lemma read_bpb_exact b bsect g : sector_data b ->
  exists g', read_bpb bsect b g = Ok (if vbr_good b then bpb_type b else 0, g') /\ fs_type g' = fs_type g /\
    (vbr_good b = true -> g' = bpb_layout b bsect g).
Proof.
  intros Hs. pose proof Hs as [L B]. destruct (bpb_bounds b Hs) as (F0 & F1 & F2).
  pose proof (le16_bound b BPB_RsvdSecCnt B) as R0. pose proof (le16_bound b BPB_RootEntCnt B) as R1. pose proof (get_byte b BPB_SecPerClus B) as C0.
  assert (0 <= bpb_stored b < 4294967296) as S0 by (unfold bpb_stored; dlia).
  unfold read_bpb, vbr_good. repeat load L. change SS with 512. destruct (le16 b BPB_BytsPerSec =? 512); cbn [negb andb]; [|refused].
  assert ((if le16 b BPB_FATSz16 =? 0 then Ok (le32 b BPB_FATSz32) else Ok (le16 b BPB_FATSz16)) = Ok (bpb_fsize b)) as ->.
  { unfold bpb_fsize. by destruct (_ =? 0). }
  repeat (rewrite bind_Ok; cbv zeta). replace (negb (get b BPB_NumFATs =? 1) && negb (get b BPB_NumFATs =? 2)) with (negb ((get b BPB_NumFATs =? 1) || (get b BPB_NumFATs =? 2)))
    by (by destruct (_ =? 1), (_ =? 2)).
  destruct ((get b BPB_NumFATs =? 1) || _); cbn [negb andb]; [|refused].
  rewrite ?bind_Ok; cbv zeta; rewrite (pow2_byte (get b BPB_SecPerClus)) by (unfold is_byte; lia); destruct (existsb _ _) eqn:Ec; cbn [negb andb]; [|refused].
  apply pow2_exists in Ec as (kc & Hkc & Ec); assert (0 < get b BPB_SecPerClus) as Hcp by (rewrite Ec; apply Z.pow_pos_nonneg; lia).
  rewrite ?bind_Ok; cbv zeta; change (512 / 32) with 16; destruct (le16 b BPB_RootEntCnt mod 16 =? 0); cbn [negb andb]; [|refused].
  assert ((if le16 b BPB_TotSec16 =? 0 then Ok (le32 b BPB_TotSec32) else Ok (le16 b BPB_TotSec16)) = Ok (bpb_total b)) as ->
    by (unfold bpb_total; by destruct (_ =? 0)).
  repeat (rewrite bind_Ok; cbv zeta); destruct (le16 b BPB_RsvdSecCnt =? 0); cbn [negb andb]; [refused|].
  rewrite u32_sysect. change ((le16 b BPB_RsvdSecCnt + bpb_fsize b * get b BPB_NumFATs + le16 b BPB_RootEntCnt / 16) mod 4294967296) with (bpb_stored b).
  destruct (Z.ltb_spec (bpb_total b) (bpb_stored b)), (Z.leb_spec (bpb_stored b) (bpb_total b)); cbn [andb]; try lia; [refused|].
  rewrite (u32_small (bpb_total b - bpb_stored b)) by lia; fold (bpb_clusters b).
  assert (0 <= bpb_clusters b) as Hcl by (apply Z.div_pos; lia); destruct (Z.eqb_spec (bpb_clusters b) 0) as [E0|E0], (Z.ltb_spec 0 (bpb_clusters b)); cbn [orb andb]; try lia; [refused|].
  destruct (sub_type_cases (bpb_clusters b) Hcl) as [[Hm Ht]|[Hm Ht]];
    [rewrite (proj2 (Z.eqb_neq _ _) Ht), (proj2 (Z.leb_le _ 268435445) Hm); cbn [andb]|rewrite Ht, (proj2 (Z.leb_gt _ 268435445) Hm); cbn [andb]; refused].
  unfold MAX_FAT32 in Hm. rewrite (bpb_type_sub b Hm) in *. rewrite (u32_small (bpb_clusters b + 2)) by lia.
  match goal with |- context [root_dir _ ?fa _ ?g0] => destruct (root_dir_exact (bpb_type b) fa b g0 Hs) as (o & g' & -> & Gt & Gf & Hrd) end; [cbn; lia|].
  rewrite bind_Ok; cbn [fst snd]; cbn [g_limits g_rootdir g_csize g_fats g_fsize n_rootdir n_fatent fsize fs_type fatbase] in Gt, Gf, Hrd.
  match type of Hrd with if ?c then _ else _ => destruct c end; cbn [andb]; [destruct Hrd as [-> ->]|rewrite Hrd; eexists; split; [reflexivity|]; split; [assumption|discriminate]].
  match goal with |- context [fsize (g_dirbase ?x ?g0)] => change (fsize (g_dirbase x g0)) with (bpb_fsize b) end.
  assert (bpb_type b = FS_FAT12 \/ bpb_type b = FS_FAT16 \/ bpb_type b = FS_FAT32) as Hty by (destruct (bpb_type_cases b) as [[? _]|[[? _]|?]]; auto).
  match goal with |- context [u32 (?sz + (512 - 1))] => assert (0 <= sz < 4294966000) as Hsz end.
  { rewrite land_1; destruct (_ =? FS_FAT32); [lia|]; destruct (_ =? FS_FAT16); [lia|]; dlia. }
  rewrite u32_small by lia; change (512 - 1) with 511; rewrite (table_fits (bpb_type b) (bpb_clusters b + 2) (bpb_fsize b) Hty) by lia.
  eexists; split; [destruct (_ <=? _); cbn [negb]; reflexivity|]; split; [done|]; intros _.
  unfold bpb_layout, g_dirbase, g_limits, g_rootdir, g_csize, g_fats, g_fsize. cbn [fs_type pdrv n_fats fs_id n_rootdir csize n_fatent fsize volbase fatbase database].
  rewrite u32_layout. unfold bpb_stored at 1. rewrite u32_base. reflexivity.
Qed.

(** The layout of a good boot sector is consistent. *)
Lemma layout_ok b bsect size g : sector_data b -> volume_at b bsect size -> vbr_good b = true ->
  geo_ok (g_type (bpb_type b) (bpb_layout b bsect g)) size.
Proof.
  intros Hs [V1 V2 V3 V4 V5] Hg. unfold vbr_good in Hg. repeat rewrite andb_true_iff in Hg. destruct Hg as [[[[[[[[[G1 G2] G3] G4] G5] G6] G7] G8] G9] G10].
  apply pow2_exists in G3 as (k & Hk & Ec). assert (0 < get b BPB_SecPerClus) as Hcp by (rewrite Ec; apply Z.pow_pos_nonneg; lia).
  apply Z.leb_le in G6, G8, G10. apply Z.ltb_lt in G7. apply negb_true_iff, Z.eqb_neq in G5. apply orb_true_iff in G2. rewrite !Z.eqb_eq in G2. pose proof Hs as [_ B].
  pose proof (le16_bound b BPB_RsvdSecCnt B) as R1. pose proof (le16_bound b BPB_RootEntCnt B) as R2. destruct (bpb_bounds b Hs) as (F0 & F1 & F2).
  assert (0 <= le16 b BPB_RootEntCnt / 16) as R3 by dlia.
  assert (bpb_stored b = bpb_system b) as Es by (unfold bpb_stored; apply Z.mod_small; lia). rewrite Es in G6.
  assert (le16 b BPB_RsvdSecCnt <= bpb_system b) as R4 by (unfold bpb_system in *; lia).
  pose proof (Z.mul_div_le (bpb_total b - bpb_system b) (get b BPB_SecPerClus) Hcp) as Hd. rewrite <- Es in Hd at 1. fold (bpb_clusters b) in Hd.
  pose proof (bpb_type_cases b) as Hty.
  split; cbn [g_type bpb_layout fs_type n_fats n_fatent fsize csize volbase fatbase database]; rewrite ?(Z.mod_small (bsect + _)) by lia.
  - tauto.
  - done.
  - unfold fat_max. cbn [fs_type]. destruct Hty as [[-> ?]|[[-> ?]| ->]]; cbn; lia.
  - exact G10.
  - done.
  - by exists k.
  - done.
  - lia.
  - intros E. specialize (V5 E). lia.
  - unfold bpb_system. lia.
  - replace (bpb_clusters b + 2 - 2) with (bpb_clusters b) by lia. lia.
  - done.
Qed.

Lemma geo_ok_id g size i : geo_ok g size -> geo_ok (g_id i g) size.
Proof. intros []. split; done. Qed.

Lemma layout_order g size : geo_ok g size -> 0 <= volbase g < fatbase g /\ 0 < fsize g /\ fatbase g + fsize g <= database g /\ database g < size.
Proof.
  intros Hg. pose proof (go_size _ _ Hg) as Hs. pose proof (go_data _ _ Hg) as Hd. pose proof (go_ents _ _ Hg) as He. pose proof (go_csize _ _ Hg) as Hc. pose proof (go_fits _ _ Hg) as Hf.
  assert (0 < fsize g) as Hp by (unfold fat_bits in Hf; destruct (_ =? FS_FAT12); [lia|]; destruct (_ =? FS_FAT16); lia).
  split; [split; [apply Hg|apply Hg]|]. split; [done|]. split; [|nia]. destruct (go_fats _ _ Hg) as [N|N]; rewrite N in Hd; lia.
Qed.

(** ** The search *)

(** The fields by which a boot sector without the FAT32 name is told: 512-byte
    sectors, a power of two of them in a cluster, reserved sectors, one or two
    tables, root entries, at least 128 sectors, a 16-bit table size. *)
Definition fat_fields (b : list Z) : bool :=
  (le16 b 11 =? 512) && existsb (fun k => get b 13 =? 2 ^ k) [0; 1; 2; 3; 4; 5; 6; 7] && negb (le16 b 14 =? 0) &&
  ((get b 16 =? 1) || (get b 16 =? 2)) && negb (le16 b 17 =? 0) && ((128 <=? le16 b 19) || (65536 <=? le32 b 32)) && negb (le16 b 22 =? 0).

(** A FAT boot sector: a jump (EB, E9 or E8), then the signature 55 AA with the
    name "FAT32   " at 82, or fields that fit. *)
Definition fat_boot (b : list Z) : bool :=
  bool_decide (get b 0 ∈ [235; 233; 232]) &&
  ((le16 b 510 =? 43605) && bool_decide (take 8 (drop 82 b) = [70; 65; 84; 51; 50; 32; 32; 32]) || fat_fields b).

(** The kind of a sector: 0 a FAT boot sector, 2 another with the signature 55
    AA, 3 anything else. *)
Definition kind (b : list Z) : Z := if fat_boot b then 0 else if le16 b 510 =? 43605 then 2 else 3.

Lemma bpb_proper_exact b : sector_data b -> bpb_proper b = Ok (fat_fields b).
Proof.
  intros [L B]. unfold bpb_proper, fat_fields. repeat load L. pose proof (le16_bound b BPB_BytsPerSec B) as W. pose proof (get_byte b BPB_SecPerClus B) as C. pose proof (get_byte b BPB_NumFATs B) as N.
  change (le16 b 11) with (le16 b BPB_BytsPerSec). change (get b 13) with (get b BPB_SecPerClus). change (get b 16) with (get b BPB_NumFATs).
  replace ((Z.land (le16 b BPB_BytsPerSec) (le16 b BPB_BytsPerSec - 1) =? 0) && (512 <=? le16 b BPB_BytsPerSec) && (le16 b BPB_BytsPerSec <=? 512)) with (le16 b BPB_BytsPerSec =? 512).
  2: { destruct (Z.eqb_spec (le16 b BPB_BytsPerSec) 512) as [->|Hn]; [done|]. destruct (Z.leb_spec 512 (le16 b BPB_BytsPerSec)), (Z.leb_spec (le16 b BPB_BytsPerSec) 512); rewrite ?andb_false_r; try done. lia. }
  replace ((le16 b BPB_BytsPerSec =? 512) && negb (get b BPB_SecPerClus =? 0) && (Z.land (get b BPB_SecPerClus) (get b BPB_SecPerClus - 1) =? 0))
    with ((le16 b BPB_BytsPerSec =? 512) && existsb (fun k => get b BPB_SecPerClus =? 2 ^ k) [0; 1; 2; 3; 4; 5; 6; 7]).
  2: { rewrite <- (negb_involutive (existsb _ _)), <- (pow2_byte (get b BPB_SecPerClus)) by (unfold is_byte; lia). by destruct (_ =? 512), (get b BPB_SecPerClus =? 0), (_ =? 0). }
  destruct (_ && existsb _ _); cbn [negb andb]; [|done]. change (le16 b 14) with (le16 b BPB_RsvdSecCnt). destruct (le16 b BPB_RsvdSecCnt =? 0); cbn [negb andb]; [done|].
  replace (u32 (get b BPB_NumFATs - 1) <=? 1) with ((get b BPB_NumFATs =? 1) || (get b BPB_NumFATs =? 2)).
  2: { unfold u32, wrap. change (2 ^ 32) with 4294967296. destruct (Z.eqb_spec (get b BPB_NumFATs) 1) as [->|N1]; [done|]. destruct (Z.eqb_spec (get b BPB_NumFATs) 2) as [->|N2]; [done|]. symmetry. apply Z.leb_gt. dlia. }
  destruct ((get b BPB_NumFATs =? 1) || _); cbn [negb andb]; [|done]. change (le16 b 17) with (le16 b BPB_RootEntCnt). destruct (le16 b BPB_RootEntCnt =? 0); cbn [negb andb]; [done|].
  change (le16 b 19) with (le16 b BPB_TotSec16). change (le32 b 32) with (le32 b BPB_TotSec32). destruct ((128 <=? _) || _); cbn [negb andb]; done.
Qed.

Lemma named_exact b : sector_data b ->
  exists m, memcmp (drop (Z.to_nat BS_FilSysType32) b) fat32_name 8 = Ok m /\ (m =? 0) = bool_decide (take 8 (drop 82 b) = [70; 65; 84; 51; 50; 32; 32; 32]).
Proof.
  intros [L B]. change (Z.to_nat BS_FilSysType32) with 82%nat. set (l := drop 82 b). assert (8 <= length l)%nat as Hl by (subst l; rewrite length_drop; lia).
  destruct (memcmp_loop_spec 8 0 l fat32_name) as (m & E & Hm); [lia|lia|cbn; lia|]. exists m. split; [exact E|]. clear E.
  destruct l as [|c0 [|c1 [|c2 [|c3 [|c4 [|c5 [|c6 [|c7 l]]]]]]]]; cbn in Hl; try lia. clear Hl.
  cbn [take]. destruct (Z.eqb_spec m 0) as [->|Hn].
  - symmetry. apply bool_decide_eq_true. pose proof (proj1 Hm eq_refl) as G. repeat f_equal.
    + apply (G 0). lia.
    + apply (G 1). lia.
    + apply (G 2). lia.
    + apply (G 3). lia.
    + apply (G 4). lia.
    + apply (G 5). lia.
    + apply (G 6). lia.
    + apply (G 7). lia.
  - symmetry. apply bool_decide_eq_false. intros [= -> -> -> -> -> -> -> ->]. apply Hn, Hm. intros j Hj.
    assert (j = 0 \/ j = 1 \/ j = 2 \/ j = 3 \/ j = 4 \/ j = 5 \/ j = 6 \/ j = 7) as Hc by lia. destruct_or! Hc; subst j; reflexivity.
Qed.

Lemma jump_exact c : (c =? 235) || (c =? 233) || (c =? 232) = bool_decide (c ∈ [235; 233; 232]).
Proof.
  symmetry. destruct (Z.eqb_spec c 235) as [->|N1]; [done|]. destruct (Z.eqb_spec c 233) as [->|N2]; [done|]. destruct (Z.eqb_spec c 232) as [->|N3]; [done|].
  apply bool_decide_eq_false. rewrite !elem_of_cons, elem_of_nil. tauto.
Qed.

Lemma vbr_kind_total b : sector_data b -> vbr_kind b = Ok (kind b) /\ (kind b = 0 \/ kind b = 2 \/ kind b = 3).
Proof.
  intros Hs. pose proof Hs as [L B]. destruct (named_exact b Hs) as (m & Em & Hm). unfold vbr_kind, kind, fat_boot. repeat load L. rewrite Em, (bpb_proper_exact b Hs), <- Hm, <- jump_exact.
  change (le16 b 510) with (le16 b BS_55AA). change (get b 0) with (get b BS_JmpBoot).
  split; [|destruct (_ && _); [by left|]; destruct (_ =? 43605); auto].
  destruct ((get b BS_JmpBoot =? 235) || _ || _), (le16 b BS_55AA =? 43605); rewrite ?bind_Ok; cbn [andb orb]; try done.
  destruct (m =? 0); cbn [orb]; rewrite ?bind_Ok; done.
Qed.

(** The partition entries of a boot record. *)
Definition parts (b : list Z) : list Z := [le32 b (MBR_Table + 8); le32 b (MBR_Table + 24); le32 b (MBR_Table + 40); le32 b (MBR_Table + 56)].

Lemma mbr_entries_ok b : sector_data b -> mbr_entries b = Ok (parts b).
Proof. intros [L B]. unfold mbr_entries. repeat load L. done. Qed.

(** The first partition that starts with a FAT boot sector. *)
Definition first_vbr (sec : Z -> list Z) (pts : list Z) : option Z :=
  head (filter (fun p => p <> 0 /\ kind (sec p) = 0) pts).

(** Where the volume of a drive starts: in sector 0, or in the first such
    partition of a boot record. *)
Definition boot_place (sec : Z -> list Z) : option Z :=
  if kind (sec 0) =? 0 then Some 0 else if kind (sec 0) =? 2 then first_vbr sec (parts (sec 0)) else None.

Section Search.
Context {D : Type} `{BlockLaws D}.
#[local] Set Default Proof Using "Type*".

(** A drive as it is read: ready, of representable size, whose partition
    entries lie on it. *)
Record drive_ok (d : D) : Prop := {
  dk_ready : bd_ready d;
  dk_size : 0 < bd_size d < 4294967295;
  dk_parts : kind (bd_sector d 0) = 2 -> forall p, p ∈ parts (bd_sector d 0) -> p < bd_size d
}.

(** Only the window and the drive's internal state have changed. *)
Definition searching (v v' : vol D) : Prop :=
  fs_geo (v_fs v') = fs_geo (v_fs v) /\ fs_alloc (v_fs v') = fs_alloc (v_fs v) /\
  bd_ready (v_dev v') /\ bd_size (v_dev v') = bd_size (v_dev v) /\ bd_sector (v_dev v') = bd_sector (v_dev v).

(** The window shows sector [s], unchanged. *)
Definition shows (v : vol D) (s : Z) : Prop := fs_win (v_fs v) = mk_window 0 s (bd_sector (v_dev v) s).

Lemma searching_trans v1 v2 v3 : searching v1 v2 -> searching v2 v3 -> searching v1 v3.
Proof. intros (A1 & A2 & A3 & A4 & A5) (B1 & B2 & B3 & B4 & B5). unfold searching. split_and!; congruence. Qed.

Lemma load_sector v s : bd_ready (v_dev v) -> 0 <= s < bd_size (v_dev v) -> wflag (fs_win (v_fs v)) = 0 -> winsect (fs_win (v_fs v)) <> s ->
  exists v', move_window s v = Ok (FR_OK, v') /\ searching v v' /\ shows v' s.
Proof.
  intros Hr Hs Hw Hn. destruct (read_one (v_dev v) s Hr Hs) as (d' & E & Hr' & Hz & Hc).
  unfold move_window. rewrite bind_wnd, (proj2 (Z.eqb_neq s _)) by done. cbn [negb].
  rewrite (m_bind_Ok sync_window _ v FR_OK v) by (unfold sync_window; rewrite bind_wnd, Hw; reflexivity).
  change (fr_ok FR_OK) with true. cbv iota. rewrite (bind_drive _ _ _ _ _ E), bind_wnd. cbn [v_fs fst snd]. change (res_ok RES_OK) with true. cbv iota. rewrite bind_set_wnd.
  eexists. split; [reflexivity|]. split; [done|]. unfold shows. cbn [v_fs fs_win v_dev]. by rewrite Hw, Hc.
Qed.

Lemma sector_data_ok d s : bd_ready d -> 0 <= s < bd_size d -> sector_data (bd_sector d s).
Proof. intros Hr Hs. by apply bd_sector_ok. Qed.

Lemma check_fs_ok v s : bd_ready (v_dev v) -> 0 <= s < bd_size (v_dev v) -> bd_size (v_dev v) < 4294967295 ->
  exists v', check_fs s v = Ok (kind (bd_sector (v_dev v) s), v') /\ searching v v' /\ shows v' s.
Proof.
  intros Hr Hs Hz. unfold check_fs. rewrite bind_wnd, bind_set_wnd.
  match goal with |- context [move_window s ≫= _] => match goal with |- context [Ok _] => idtac end end.
  destruct (load_sector (mk_vol (mk_fs (fs_geo (v_fs v)) (mk_window 0 4294967295 (win (fs_win (v_fs v)))) (fs_alloc (v_fs v))) (v_dev v)) s) as (v' & E & S & W);
    [done|done|done|cbn; lia|].
  rewrite (m_bind_Ok _ _ _ _ _ E). change (fr_ok FR_OK) with true. cbv iota. exists v'. split; [|done].
  apply win_get_ok. rewrite W. cbn [win]. destruct S as (_ & _ & _ & _ & ->). cbn [v_dev]. by apply vbr_kind_total, sector_data_ok.
Qed.

Lemma try_parts_ok pts v : pts <> [] -> bd_ready (v_dev v) -> bd_size (v_dev v) < 4294967295 -> (forall p, p ∈ pts -> 0 <= p < bd_size (v_dev v)) ->
  exists k v', try_parts 0 pts v = Ok (k, v') /\ searching v v' /\
    match first_vbr (bd_sector (v_dev v)) pts with Some s => k = 0 /\ shows v' s | None => k = 2 \/ k = 3 end.
Proof.
  revert v. induction pts as [|p pts IH]; intros v Hne Hr Hz Hp; [done|]. cbn [try_parts].
  assert (exists k v1, (if negb (p =? 0) then check_fs p else mret 3) v = Ok (k, v1) /\ searching v v1 /\
    if bool_decide (p <> 0 /\ kind (bd_sector (v_dev v) p) = 0) then k = 0 /\ shows v1 p else k = 2 \/ k = 3) as (k & v1 & E1 & S1 & R1).
  { destruct (Z.eqb_spec p 0) as [->|Hn]; cbn [negb].
    - exists 3, v. split; [done|]. split; [done|]. rewrite bool_decide_false by tauto. by right.
    - destruct (check_fs_ok v p Hr) as (v1 & E1 & S1 & W1); [apply Hp; by left|done|]. eexists _, v1. split; [exact E1|]. split; [done|].
      destruct (vbr_kind_total (bd_sector (v_dev v) p)) as [_ Hk]; [apply sector_data_ok; [done|apply Hp; by left]|].
      case_bool_decide as Hd; [tauto|]. destruct Hk as [Hk|Hk]; [|done]. by destruct Hd. }
  rewrite (m_bind_Ok _ _ _ _ _ E1). change (0 =? 0) with true. cbn [andb]. unfold first_vbr. rewrite filter_cons.
  pose proof S1 as (_ & _ & Hr1 & Hz1 & Hs1). case_bool_decide as Hd.
  - destruct R1 as [-> W1]. change (2 <=? 0) with false. cbn [andb]. exists 0, v1. split; [done|]. split; [done|]. by rewrite decide_True.
  - rewrite decide_False by done. replace (2 <=? k) with true by (destruct R1 as [-> | ->]; done). cbn [andb].
    destruct (decide (pts = [])) as [->|Hpne]; [rewrite bool_decide_true by done; cbn [negb]; by exists k, v1|].
    rewrite bool_decide_false by done. cbn [negb]. destruct (IH v1 Hpne Hr1) as (k2 & v2 & E2 & S2 & R2); [lia|intros q Hq; rewrite Hz1; apply Hp; by right|].
    rewrite Hs1 in R2. exists k2, v2. split; [done|]. split; [by eapply searching_trans|done].
Qed.

Lemma find_volume_ok v : drive_ok (v_dev v) ->
  exists k v', find_volume 0 v = Ok (k, v') /\ searching v v' /\
    match boot_place (bd_sector (v_dev v)) with Some s => k = 0 /\ 0 <= s < bd_size (v_dev v) /\ shows v' s | None => k = 2 \/ k = 3 end.
Proof.
  intros [Hr Hz Hp]. unfold find_volume, boot_place. destruct (check_fs_ok v 0 Hr) as (v1 & E1 & S1 & W1); [lia|lia|]. rewrite (m_bind_Ok _ _ _ _ _ E1).
  pose proof (sector_data_ok (v_dev v) 0 Hr ltac:(lia)) as Hs0. destruct (vbr_kind_total _ Hs0) as [_ Hk]. pose proof S1 as (_ & _ & Hr1 & Hz1 & Hs1).
  destruct (Z.eqb_spec (kind (bd_sector (v_dev v) 0)) 0) as [->|N0]; [exists 0, v1; split; [done|]; split; [done|]; split; [done|]; split; [lia|done]|].
  destruct (Z.eqb_spec (kind (bd_sector (v_dev v) 0)) 2) as [E2|N2].
  - rewrite E2. cbn [negb andb]. rewrite bind_wnd, W1. cbn [win]. rewrite Hs1, mbr_entries_ok by done.
    change (0 =? 0) with true. cbn [negb Z.to_nat drop]. unfold lift. rewrite (m_bind_Ok _ _ _ (parts (bd_sector (v_dev v) 0)) v1) by done.
    assert (forall p, p ∈ parts (bd_sector (v_dev v) 0) -> 0 <= p) as Hpos.
    { destruct Hs0 as [_ B]. intros p Hin. unfold parts in Hin. repeat (apply elem_of_cons in Hin as [->|Hin]; [apply le32_bound; done|]). by apply elem_of_nil in Hin. }
    destruct (try_parts_ok (parts (bd_sector (v_dev v) 0)) v1) as (k & v2 & E & S2 & R2); [done|done|lia|intros p Hin; rewrite Hz1; split; [by apply Hpos|by apply Hp]|].
    exists k, v2. split; [exact E|]. split; [by eapply searching_trans|]. rewrite Hs1 in R2. destruct (first_vbr _ _) as [s|] eqn:Ef; [|done]. destruct R2 as [-> W2]. split; [done|]. split; [|done].
    unfold first_vbr in Ef. apply head_Some_elem_of, list_elem_of_filter in Ef as [_ Hin]. split; [by apply Hpos|by apply Hp].
  - destruct Hk as [Hk|[Hk|Hk]]; [done|done|]. rewrite Hk. exists 3, v1. split; [done|]. split; [done|by right].
Qed.

End Search.

(** ** Mounting a drive *)

(** The allocation information found with boot sector [b] at [s]. *)
Definition stored_alloc (sec : Z -> list Z) (s : Z) : alloc :=
  let fi := sec (s + 1) in
  if (bpb_type (sec s) =? FS_FAT32) && (le16 (sec s) BPB_FSInfo32 =? 1) then
    if (le32 fi 0 =? 1096897106) && (le32 fi 484 =? 1631679090) && (le32 fi 498 =? 2857697280)
    then mk_alloc (le32 fi 492) (le32 fi 488) 0 else mk_alloc 4294967295 4294967295 0
  else mk_alloc 4294967295 4294967295 128.

Section Mounting.
Context {D : Type} `{BlockLaws D}.
#[local] Set Default Proof Using "Type*".

(** A volume that has just been mounted: a clean window, and nothing hides the
    drive. *)
Definition opened (v : vol D) : Prop := exists t, 0 <= t < bd_size (v_dev v) /\ shows v t.

Lemma opened_view v t : opened v -> vsec v t = bd_sector (v_dev v) t.
Proof.
  intros (u & _ & W). unfold vsec, shows in *. rewrite W. cbn [winsect win]. destruct (Z.eqb_spec t u) as [E|_]; [by rewrite E|done].
Qed.

Lemma load_fsinfo_ok v s : shows v s -> bd_ready (v_dev v) -> 0 <= s -> s + 1 < bd_size (v_dev v) < 4294967295 ->
  exists v', load_fsinfo (bpb_type (bd_sector (v_dev v) s)) s v = Ok (tt, v') /\ fs_geo (v_fs v') = fs_geo (v_fs v) /\
    fs_alloc (v_fs v') = stored_alloc (bd_sector (v_dev v)) s /\
    bd_ready (v_dev v') /\ bd_size (v_dev v') = bd_size (v_dev v) /\ bd_sector (v_dev v') = bd_sector (v_dev v) /\ opened v'.
Proof.
  intros W Hr Hs Hz. unfold load_fsinfo, stored_alloc. set (b := bd_sector (v_dev v) s). pose proof (sector_data_ok (v_dev v) s Hr ltac:(lia)) as [L B]. fold b in L, B.
  rewrite bind_set_alc. destruct (bpb_type b =? FS_FAT32); cbn [andb].
  2: { rewrite bind_mret. change (0 =? 1) with false. cbv iota. eexists. split; [reflexivity|]. repeat (split; [done|]). exists s. split; [cbn; lia|exact W]. }
  rewrite (bind_win_get _ _ _ (le16 b BPB_FSInfo32)) by (cbn [v_fs fs_win]; rewrite W; cbn [win]; fold b; by load L).
  destruct (le16 b BPB_FSInfo32 =? 1); [|eexists; split; [reflexivity|]; repeat (split; [done|]); exists s; split; [cbn; lia|exact W]].
  rewrite u32_small by lia. match goal with |- context [(move_window _ ≫= _) ?v0] => destruct (load_sector v0 (s + 1)) as (v1 & E1 & S1 & W1) end;
    [done|cbn; lia|cbn [v_fs fs_win]; by rewrite W|cbn [v_fs fs_win]; rewrite W; cbn; lia|].
  rewrite (m_bind_Ok _ _ _ _ _ E1). change (fr_ok FR_OK) with true. cbv iota. rewrite bind_set_alc. destruct S1 as (G1 & _ & Hr1 & Hz1 & Hc1). cbn [v_fs v_dev fs_geo] in G1, Hz1, Hc1.
  unfold shows in W1. rewrite Hc1 in W1. set (fi := bd_sector (v_dev v) (s + 1)) in *. pose proof (sector_data_ok (v_dev v) (s + 1) Hr ltac:(lia)) as [Lf Bf]. fold fi in Lf, Bf.
  do 3 (erewrite bind_win_get; [|cbn [v_fs fs_win]; rewrite W1; cbn [win]; load Lf; reflexivity]).
  destruct ((le32 fi 0 =? _) && _ && _).
  - do 2 (erewrite bind_win_get; [|cbn [v_fs fs_win]; rewrite W1; cbn [win]; load Lf; reflexivity]). eexists. split; [reflexivity|].
    repeat (split; [done|]). exists (s + 1). cbn [v_dev]. split; [lia|]. unfold shows. cbn [v_fs fs_win v_dev]. by rewrite Hc1.
  - eexists. split; [reflexivity|]. repeat (split; [done|]). exists (s + 1). cbn [v_dev]. split; [lia|]. unfold shows. cbn [v_fs fs_win v_dev]. by rewrite Hc1.
Qed.

(** The object of a mounted volume. *)
Definition mounted_geo (sec : Z -> list Z) (s id : Z) (g : geometry) : geometry := g_id id (g_type (bpb_type (sec s)) (bpb_layout (sec s) s g)).

(** What mounting makes of the drive: the volume of [boot_place], when its
    boot sector is good. *)
Definition mount_result (d : D) (id : Z) (g : geometry) (r : FRESULT) (x' : ff D) : Prop :=
  bd_ready (v_dev (ff_vol x')) /\ bd_size (v_dev (ff_vol x')) = bd_size d /\ bd_sector (v_dev (ff_vol x')) = bd_sector d /\
  match boot_place (bd_sector d) with
  | Some s =>
      if vbr_good (bd_sector d s) then
        r = FR_OK /\ fs_geo (v_fs (ff_vol x')) = mounted_geo (bd_sector d) s (u16 (id + 1)) g /\
        (volume_at (bd_sector d s) s (bd_size d) -> geo_ok (fs_geo (v_fs (ff_vol x'))) (bd_size d)) /\
        fs_alloc (v_fs (ff_vol x')) = stored_alloc (bd_sector d) s /\ opened (ff_vol x') /\ Fsid x' = u16 (id + 1)
      else r = FR_NO_FILESYSTEM /\ fs_type (fs_geo (v_fs (ff_vol x'))) = 0
  | None => r = FR_NO_FILESYSTEM /\ fs_type (fs_geo (v_fs (ff_vol x'))) = 0
  end.

Lemma onfs_Ok {A} (m : M (vol D) A) x a v : m (ff_vol x) = Ok (a, v) -> onfs m x = Ok (a, mk_ff (ff_reg x) (Fsid x) v).
Proof. intros E. unfold onfs. by rewrite E. Qed.

Lemma bind_onfs {A B} (m : M (vol D) A) (k : A -> M (ff D) B) x a v : m (ff_vol x) = Ok (a, v) -> (onfs m ≫= k) x = k a (mk_ff (ff_reg x) (Fsid x) v).
Proof. intros E. apply m_bind_Ok. by apply onfs_Ok. Qed.

Lemma mount_now_ok vol mode x : drive_ok (v_dev (ff_vol x)) ->
  (forall s, boot_place (bd_sector (v_dev (ff_vol x))) = Some s -> s + 1 < bd_size (v_dev (ff_vol x))) ->
  exists r x', mount_now vol mode x = Ok (r, x') /\ ff_reg x' = ff_reg x /\ mount_result (v_dev (ff_vol x)) (Fsid x) (fs_geo (v_fs (ff_vol x))) r x'.
Proof.
  intros [Hr Hz Hp] Hv. set (d := v_dev (ff_vol x)) in *. unfold mount_now, mount_result. erewrite bind_onfs; [|reflexivity].
  destruct (bd_init_ok d Hr) as (d1 & E1 & Hr1 & Hz1 & Hc1). erewrite bind_onfs; [|apply drive_Ok; cbn [ff_vol v_dev]; exact E1].
  change (truth (Z.land 0 STA_NOINIT)) with false. change (truth (Z.land 0 STA_PROTECT)) with false. rewrite andb_false_r. cbv iota.
  cbn [ff_reg Fsid ff_vol v_fs v_dev].
  match goal with |- context [mk_ff (ff_reg x) (Fsid x) ?v0] => destruct (find_volume_ok v0) as (k & v2 & E2 & S2 & R2) end; cbn [v_dev v_fs ff_vol] in *.
  { split; [done|lia|]. rewrite Hc1, Hz1. exact Hp. }
  erewrite bind_onfs; [|exact E2]. destruct S2 as (G2 & _ & Hr2 & Hz2 & Hc2). cbn [v_dev v_fs fs_geo ff_vol ff_reg Fsid] in *. rewrite Hc1 in R2, Hc2. rewrite Hz1 in R2, Hz2.
  destruct (boot_place (bd_sector d)) as [s|].
  2: { replace (k =? 4) with false by (destruct R2 as [-> | ->]; done). replace (2 <=? k) with true by (destruct R2 as [-> | ->]; done).
    eexists _, _. split; [reflexivity|]. cbn [ff_reg ff_vol]. split; [done|]. split; [done|]. split; [done|]. split; [done|]. split; [done|]. by rewrite G2. }
  destruct R2 as (-> & Hs & W2). cbv beta. change (0 =? 4) with false. change (2 <=? 0) with false. cbv iota. specialize (Hv s eq_refl). cbn [ff_reg Fsid ff_vol].
  do 2 (erewrite bind_onfs; [|reflexivity]). cbn [ff_vol]. unfold shows in W2. rewrite Hc2 in W2. rewrite W2. cbn [winsect win].
  pose proof (sector_data_ok d s Hr Hs) as Hsd. destruct (read_bpb_exact (bd_sector d s) s (fs_geo (v_fs v2)) Hsd) as (g' & E3 & T3 & L3).
  rewrite E3. unfold lift at 1. erewrite m_bind_Ok; [|reflexivity]. cbn [fst snd]. erewrite bind_onfs; [|reflexivity]. cbn [ff_vol ff_reg Fsid].
  destruct (vbr_good (bd_sector d s)) eqn:Eg.
  2: { eexists _, _. split; [reflexivity|]. cbn [ff_reg ff_vol v_dev v_fs fs_geo]. repeat (split; [done|]). rewrite T3, G2. done. }
  pose proof (fun Ha => layout_ok (bd_sector d s) s (bd_size d) (fs_geo (v_fs v2)) Hsd Ha Eg) as Hgeo. rewrite (L3 eq_refl) in *.
  replace (bpb_type (bd_sector d s) =? 0) with false by (destruct (bpb_type_cases (bd_sector d s)) as [[-> _]|[[-> _]| ->]]; done). cbv iota.
  match goal with |- context [mk_ff (ff_reg x) (Fsid x) ?v0] => destruct (load_fsinfo_ok v0 s) as (v4 & E4 & G4 & A4 & Hr4 & Hz4 & Hc4 & O4) end; cbn [v_dev v_fs fs_geo fs_win] in *.
  { unfold shows. cbn [v_fs fs_win v_dev]. by rewrite Hc2, W2. }
  { done. } { apply Hs. } { rewrite Hz2. split; [exact Hv|lia]. }
  rewrite Hc2 in E4, A4, Hc4. erewrite bind_onfs; [|exact E4]. erewrite bind_onfs; [|reflexivity].
  eexists _, _. split; [reflexivity|]. cbn [ff_reg ff_vol v_dev v_fs fs_geo fs_alloc Fsid]. split; [done|]. split; [done|]. split; [congruence|]. split; [done|]. split; [done|].
  rewrite G4. unfold mounted_geo. rewrite G2. split; [done|]. split; [intros Ha; apply geo_ok_id; rewrite G2 in Hgeo; by apply Hgeo|]. split; [done|]. split; [exact O4|done].
Qed.

End Mounting.

(** ** Properties *)

Section Claims.
Context {D : Type} `{BlockLaws D}.
#[local] Set Default Proof Using "Type*".

Lemma f_mount_ok x path rest : drive_ok (v_dev (ff_vol x)) -> get_ldnumber path = Ok (0, rest) ->
  (forall s, boot_place (bd_sector (v_dev (ff_vol x))) = Some s -> s + 1 < bd_size (v_dev (ff_vol x))) ->
  exists r x', f_mount true path 1 x = Ok (r, x') /\ ff_reg x' = true /\ mount_result (v_dev (ff_vol x)) (Fsid x) (g_pdrv 0 (fs_geo (v_fs (ff_vol x)))) r x'.
Proof.
  intros Hd Hl Hv. unfold f_mount. rewrite Hl. unfold lift at 1. erewrite m_bind_Ok; [|reflexivity]. cbn [fst snd]. change (0 <? 0) with false. cbv iota.
  erewrite m_bind_Ok; [|reflexivity]. change (u8 0) with 0.
  assert (exists x1, (when (ff_reg x) (_ ← onfs (set_geo (g_type 0)); modify (fun s => mk_ff false (Fsid s) (ff_vol s))) : M (ff D) unit) x = Ok (tt, x1) /\
    v_dev (ff_vol x1) = v_dev (ff_vol x) /\ Fsid x1 = Fsid x /\ g_type 0 (g_pdrv 0 (fs_geo (v_fs (ff_vol x1)))) = g_type 0 (g_pdrv 0 (fs_geo (v_fs (ff_vol x))))) as (x1 & E1 & D1 & I1 & G1).
  { destruct (ff_reg x); eexists; (split; [reflexivity|]); done. }
  rewrite (m_bind_Ok _ _ _ _ _ E1). cbn [when].
  set (x2 := mk_ff true (Fsid x1) (mk_vol (mk_fs (g_type 0 (g_pdrv 0 (fs_geo (v_fs (ff_vol x1))))) (fs_win (v_fs (ff_vol x1))) (fs_alloc (v_fs (ff_vol x1)))) (v_dev (ff_vol x1)))).
  rewrite (m_bind_Ok (_ ≫= _) _ x1 tt x2) by done. change (1 =? 0) with false. cbv iota.
  destruct (mount_now_ok 0 0 x2) as (r & x' & E2 & R2 & M2); [cbn [x2 ff_vol v_dev]; by rewrite D1|cbn [x2 ff_vol v_dev]; by rewrite D1|].
  exists r, x'. split; [|split; [done|]].
  - rewrite (m_bind_Ok _ _ x2 (r, rest) x'); [done|]. unfold mount_volume. rewrite Hl. unfold lift. erewrite m_bind_Ok; [|reflexivity]. cbv beta iota. change (0 <? 0) with false. cbv iota.
    erewrite m_bind_Ok; [|reflexivity]. cbn [x2 ff_reg negb]. cbv zeta. change (Z.land 0 254) with 0. erewrite bind_onfs; [|reflexivity]. cbn [ff_vol v_fs fs_geo g_type fs_type ff_reg Fsid].
    erewrite m_bind_Ok; [|reflexivity]. change (fs_type (fs_geo (v_fs (ff_vol x2))) =? 0) with true. cbn [negb andb]. cbv iota. erewrite (m_bind_Ok (mount_now 0 0)); [reflexivity|exact E2].
  - cbn [x2 ff_vol v_dev v_fs fs_geo Fsid] in M2. rewrite D1, I1, G1 in M2. exact M2.
Qed.


(** A mounted volume whose copies of the table agree is consistent. *)
Lemma opened_ok v : bd_ready (v_dev v) -> geo_ok (fs_geo (v_fs v)) (bd_size (v_dev v)) -> opened v -> mirrored v -> vol_ok v.
Proof.
  intros Hr Hg (t & Ht & W) Hm. split; [done|done| |done]. destruct (sector_data_ok (v_dev v) t Hr Ht) as [L B]. unfold shows in W.
  split; rewrite W; cbn [win winsect wflag]; [done|done|lia| |done]. intros _. right. split; [lia|done].
Qed.

(** Two volumes with the same layout and sectors have the same entries. *)
Lemma entry_same (v v' : vol D) c : fs_type (fs_geo (v_fs v')) = fs_type (fs_geo (v_fs v)) -> fatbase (fs_geo (v_fs v')) = fatbase (fs_geo (v_fs v)) ->
  fsize (fs_geo (v_fs v')) = fsize (fs_geo (v_fs v)) -> vol_ok v -> (forall s, 0 <= s < bd_size (v_dev v) -> vsec v' s = vsec v s) -> entry v' c = entry v c.
Proof.
  intros T Fb Fs Hv Hs. unfold entry. rewrite T. apply entry_ext. intros k _. unfold fat_byte. rewrite Fb, Fs. destruct (Z.leb_spec 0 k), (Z.ltb_spec k (512 * fsize (fs_geo (v_fs v)))); cbn [andb]; try done.
  rewrite Hs; [done|]. apply (fat_reachable v k Hv). lia.
Qed.

(** C24: a file survives a restart. After [f_close] of a changed file on a
    volume that starts in sector 0, mounting the drive afresh succeeds with
    the same layout; the volume is consistent, follows the same cluster chain
    for the file, shows every byte of it, and the directory entry leads to the
    file's first cluster and size. *)
Theorem close_remount (x : open_file D) (l path rest : list Z) (reg : bool) (id : Z) :
  core x l -> dir_ok x l -> live x -> has (f_flag (of_fil x)) FA_MODIFIED = true ->
  let g := fs_geo (v_fs (of_vol x)) in let f := of_fil x in let boot := vsec (of_vol x) 0 in
  volbase g = 0 -> dir_sect f <> 0 -> kind boot = 0 -> vbr_good boot = true -> volume_at boot 0 (bd_size (v_dev (of_vol x))) ->
  g = mounted_geo (fun _ => boot) 0 (fs_id g) g -> get_ldnumber path = Ok (0, rest) ->
  exists x' y, f_close x = Ok (FR_OK, x') /\ f_mount true path 1 (mk_ff reg id (of_vol x')) = Ok (FR_OK, y) /\
    fs_geo (v_fs (ff_vol y)) = g_id (u16 (id + 1)) (g_pdrv 0 g) /\ vol_ok (ff_vol y) /\ (fs_type g <> FS_FAT32 -> fat_ok (ff_vol y)) /\
    chain (ff_vol y) (sclust (f_obj f)) l /\
    (forall k, 0 <= k < objsize (f_obj f) -> get (vsec (ff_vol y) (fsect g l (k / 512))) (k mod 512) = fbyte x l k) /\
    ld_clust g (vsec (ff_vol y) (dir_sect f)) (dir_ptr f) = Ok (sclust (f_obj f)) /\
    le32 (vsec (ff_vol y) (dir_sect f)) (dir_ptr f + DIR_FileSize) = objsize (f_obj f).
Proof.
  intros Hc Hd Hl Hm g f boot Hv0 Hds Hk Hg Hva Hgeq Hp. destruct (f_close_ok x l Hc Hd Hl Hm) as (v' & f' & E & _ & F & Hw & G & Zd & T & On & B & C & S & _ & Fr & _).
  pose proof (co_geo x l Hc) as Hgeo. fold g in Hgeo. destruct (layout_order _ _ Hgeo) as (Ho1 & Ho2 & Ho3 & Ho4).
  assert (bd_sector (v_dev v') 0 = boot) as Eb.
  { apply Fr; fold g; [split; [lia|unfold mirror; fold g; lia]|unfold in_table; lia|done|lia|].
    intros j Hj E0. destruct (co_sector x l j Hc Hj) as [Hdj _]. unfold data_sector in Hdj. fold g in Hdj. lia. }
  assert (boot_place (bd_sector (v_dev v')) = Some 0) as Hbp by (unfold boot_place; by rewrite Eb, Hk).
  destruct (f_mount_ok (mk_ff reg id v') path rest) as (r & y & Em & _ & Hr & Hz & Hcs & M); cbn [ff_vol Fsid] in *.
  { split; [apply F|rewrite Zd; pose proof (go_max _ _ Hgeo); lia|]. rewrite Eb, Hk. discriminate. }
  { done. }
  { intros s. rewrite Hbp. intros [= <-]. rewrite Zd. lia. }
  rewrite Hbp, Eb, Hg in M. destruct M as (-> & Mg & Mo & Ma & Mw & _). rewrite Zd in Mo. specialize (Mo Hva). rewrite G in Mg. fold g in Mg.
  assert (fs_geo (v_fs (ff_vol y)) = g_id (u16 (id + 1)) (g_pdrv 0 g)) as Gy.
  { rewrite Mg. unfold mounted_geo. rewrite Eb. rewrite Hgeq at 2. reflexivity. }
  assert (forall s, 0 <= s < bd_size (v_dev v') -> vsec (ff_vol y) s = vsec v' s) as Vy.
  { intros s Hs. rewrite (opened_view _ _ Mw), Hcs. apply On. by rewrite <- Zd. }
  assert (vol_ok (ff_vol y)) as Hvy.
  { apply opened_ok; [done|by rewrite Hz, Zd|done|]. unfold mirrored. rewrite Gy, Hcs. pose proof (vo_mirror _ (fo_vol _ F)) as Hmi. unfold mirrored in Hmi. rewrite G in Hmi. exact Hmi. }
  assert (forall c, entry (ff_vol y) c = entry v' c) as Ey by (intros c; apply entry_same; [by rewrite Gy, G..|apply F|done]).
  exists (mk_open v' f'), y. split; [done|]. split; [exact Em|]. split; [done|]. split; [done|].
  split; [|split; [|split; [|split]]].
  - intros Hty. split; [done| |].
    + intros c. rewrite Gy, Ey. intros Hcc. apply (fo_ones _ F). by rewrite G.
    + split; unfold alloc_fits; rewrite Ma, ?Gy; unfold stored_alloc.
      * rewrite Eb. replace (bpb_type boot =? FS_FAT32) with false; [cbn; lia|]. symmetry. apply Z.eqb_neq. intros E0. apply Hty. by rewrite Hgeq.
      * left. rewrite Eb. replace (bpb_type boot =? FS_FAT32) with false; [cbn; pose proof (go_ents _ _ Hgeo) as He; unfold fat_max in He; destruct (_ =? FS_FAT12); [lia|]; destruct (_ =? FS_FAT16); lia|].
        symmetry. apply Z.eqb_neq. intros E0. apply Hty. by rewrite Hgeq.
  - assert (chain v' (sclust (f_obj f)) l) as Hch by (apply (chain_ext (of_vol x)); [done|done|apply (co_chain x l Hc)]).
    destruct l as [|c l]; [exact Hch|]. cbn [chain] in *. rewrite Gy. rewrite G in Hch. apply (links_ext _ (entry v')); [intros; by rewrite Ey|exact Hch].
  - intros k Hk0. destruct (co_size x l Hc) as [_ Hsz]. fold f g in Hsz. rewrite <- B by (fold g; lia). fold g. destruct (co_sector x l (k / 512) Hc) as [_ [Hrk _]]; [fold g; dlia|].
    rewrite Vy by (fold g in Hrk; lia). by rewrite On.
  - rewrite Vy by (rewrite Zd; apply (do_reach x l Hd)). rewrite <- On by apply (do_reach x l Hd). exact C.
  - rewrite Vy by (rewrite Zd; apply (do_reach x l Hd)). rewrite <- On by apply (do_reach x l Hd). exact S.
Qed.

End Claims.

(** *** Concrete runs: a formatted RAM drive of 640 sectors. *)

(** The boot sector of [demo_geo]: 604 sectors, two tables of two sectors, a
    root directory of 16 entries, one sector per cluster. *)
Definition demo_boot : list Z :=
  [235; 60; 144] ++ replicate 8 0 ++ [0; 2; 1; 1; 0; 2; 16; 0; 92; 2; 248; 2; 0] ++ replicate 488 0.

Definition boot_disk : ram := mk_ram 640 (fun _ => false) (fun s => if s =? 0 then demo_boot else replicate 512 0).

Lemma demo_boot_ok : sector_data demo_boot.
Proof.
  split; [reflexivity|]. apply Forall_forall. intros c Hc. assert (forallb (fun c => (0 <=? c) && (c <? 256)) demo_boot = true) as E by (vm_compute; reflexivity).
  rewrite forallb_forall in E. apply list_elem_of_In, E in Hc. unfold is_byte. lia.
Qed.

Lemma boot_disk_ready : bd_ready boot_disk.
Proof. intros s _. split; [done|]. cbn [r_sec boot_disk]. destruct (s =? 0); [apply demo_boot_ok|exact zero_sector]. Qed.

Lemma boot_disk_place : boot_place (bd_sector boot_disk) = Some 0.
Proof. vm_compute. reflexivity. Qed.

Lemma demo_volume : volume_at demo_boot 0 640.
Proof. split; vm_compute; congruence. Qed.

(** "0:" *)
Definition demo_path : list Z := [48; 58; 0].


Lemma close_remount_witness :
  exists n x1 x2 y, f_write cf rf demo_data 1700 (fresh_file boot_disk) = Ok ((FR_OK, n), x1) /\ f_close x1 = Ok (FR_OK, x2) /\
    f_mount true demo_path 1 (mk_ff true 1 (of_vol x2)) = Ok (FR_OK, y) /\ fat_ok (ff_vol y) /\
    le32 (vsec (ff_vol y) 5) 92 = objsize (f_obj (of_fil x1)).
Proof.
  destruct (fresh_file_ok boot_disk boot_disk_ready) as (K & P & V); [cbn; lia|intros s Hs; cbn [bd_sector ram_laws r_sec boot_disk]; by rewrite (proj2 (Z.eqb_neq s 0)) by lia|].
  destruct (f_write_ok cf rf (fresh_file boot_disk) [] demo_data 1700 K P V) as (n & x1 & l1 & E1 & _ & _ & [K1 P1 X1 _ _ _]);
    [exact eq_refl|lia|apply demo_len|apply demo_data_ok|apply demo_fuel|apply demo_fuel|].
  destruct (modified_ok x1 l1 K1 P1) as [K1' _]. pose proof (ef_geo _ _ _ _ X1) as G. pose proof (ef_dev _ _ _ _ X1) as Zd. pose proof (ef_ident _ _ _ _ X1) as I. unfold ident in I. injection I as _ _ _ I1 I2.
  change (fs_geo (v_fs (of_vol (fresh_file boot_disk)))) with demo_geo in G. change (bd_size (v_dev (of_vol (fresh_file boot_disk)))) with 640 in Zd.
  change (dir_sect (of_fil (fresh_file boot_disk))) with 5 in I1. change (dir_ptr (of_fil (fresh_file boot_disk))) with 64 in I2.
  assert (forall j, 0 <= j < nsec demo_geo l1 -> 6 <= fsect demo_geo l1 j) as Hdata.
  { intros j Hj. destruct (co_sector x1 l1 j K1) as [Hd _]; [by rewrite G|]. rewrite G in Hd. unfold data_sector in Hd. cbn in Hd. lia. }
  assert (vsec (of_vol (touched x1)) 0 = demo_boot) as Eb.
  { change (of_vol (touched x1)) with (of_vol x1). rewrite (ef_frame _ _ _ _ X1 0); [reflexivity| | |]; change (fs_geo (v_fs (of_vol (fresh_file boot_disk)))) with demo_geo.
    - split; [cbn; lia|]. unfold mirror. cbn. lia.
    - unfold in_table. cbn. lia.
    - intros j Hj E0. specialize (Hdata j Hj). lia. }
  destruct (close_remount (touched x1) l1 demo_path [0] true 1 K1') as (x2 & y & E2 & E3 & _ & _ & Fy & _ & _ & _ & S).
  - split; cbn [touched of_vol of_fil fil_flag dir_sect dir_ptr]; rewrite ?I1, ?I2, ?G.
    + split; [rewrite Zd; lia|rewrite G; unfold mirror; cbn; lia].
    + unfold in_table. cbn. lia.
    + cbn. lia.
    + intros j Hj Ej. specialize (Hdata j Hj). lia.
    + lia.
  - exact (live_ext _ _ _ _ V X1).
  - cbn [touched of_fil fil_flag f_flag]. rewrite has_modified. apply orb_true_r.
  - cbn [touched of_vol]. rewrite G. reflexivity.
  - cbn [touched of_fil fil_flag dir_sect]. rewrite I1. lia.
  - rewrite Eb. vm_compute. reflexivity.
  - rewrite Eb. vm_compute. reflexivity.
  - rewrite Eb. cbn [touched of_vol]. rewrite Zd. exact demo_volume.
  - rewrite Eb. cbn [touched of_vol]. rewrite G. vm_compute. reflexivity.
  - vm_compute. reflexivity.
  - exists n, (touched x1), x2, y. split; [exact E1|]. split; [exact E2|]. split; [exact E3|]. cbn [touched of_vol of_fil fil_flag dir_sect dir_ptr f_obj] in Fy, S.
    rewrite G in Fy. split; [apply Fy; discriminate|]. rewrite I1, I2 in S. exact S.
Defined.
