(* ===== verification/FatName.v ===== *)
(** * FatName: names in paths and names delivered (ff.c)

    [create_name] takes the next segment of a path: its long name goes to the
    working buffer, its short name with the status byte to the directory
    object. [get_fileinfo] is the way back: from an entry and the buffer to the
    names a program sees. *)

From Stdlib Require Import ZArith Lia Bool.
From stdpp Require Import base list list_numbers sets.
From S2P Require Import Prelude CLib Hw FatUni Fat FatFile FatSync FatLfn FatDir FatScan FatItems FatReg FatObj FatMount.
From stdpp Require Import options.

Definition IsUpper (c : Z) : bool := (65 <=? c) && (c <=? 90).
Definition IsLower (c : Z) : bool := (97 <=? c) && (c <=? 122).
Definition IsSeparator (c : Z) : bool := (c =? 47) || (c =? 92).
Definition IsSurrogate (c : Z) : bool := (0xD800 <=? c) && (c <=? 0xDFFF).
Definition RDDEM : Z := 5.
Definition FF_LFN_BUF : Z := 255.
Definition FF_SFN_BUF : Z := 12.

(** Characters that a long name, or a short name, must not have. *)
Definition bad_lfn : list Z := [42; 58; 60; 62; 124; 34; 63; 127; 0].
Definition bad_sfn : list Z := [43; 44; 59; 61; 91; 93; 0].

(** Whether [strchr] finds the character. *)
Definition chr_in (s : list Z) (c : Z) : res bool := x ← strchr s c; Ok (match x with Some _ => true | None => false end).

(** ** [create_name] *)

(** The characters of the segment: [None] for a name that is not allowed, else
    the character that ended it, the rest of the path and the number of units
    in the buffer. *)
Fixpoint name_loop (fuel : nat) (p lfn : list Z) (di : Z) : res (option (Z * list Z * Z) * list Z) :=
  match fuel with
  | O => NoFuel
  | S fuel =>
      x ← tchar2uni p;
      let '(uc, p) := x in
      if uc =? BAD_CHAR then Ok (None, lfn)
      else
        y ← (if 0x10000 <=? uc then l ← wr lfn di (u16 (Z.shiftr uc 16)); Ok (di + 1, l) else Ok (di, lfn));
        let '(di, lfn) := y in
        let wc := u16 uc in
        if (wc <? 32) || IsSeparator wc then Ok (Some (wc, p, di), lfn)
        else
          bad ← (if wc <? 128 then chr_in bad_lfn wc else Ok false);
          if bad : bool then Ok (None, lfn)
          else if FF_MAX_LFN <=? di then Ok (None, lfn)
          else lfn ← wr lfn di wc; name_loop fuel p lfn (di + 1)
  end.

Fixpoint skip_seps (p : list Z) : res (list Z) :=
  match p with
  | [] => Fault
  | c :: p' => if IsSeparator c then skip_seps p' else Ok p
  end.

(** Trailing spaces and dots. *)
Fixpoint snip_tail (di : nat) (lfn : list Z) : res Z :=
  match di with
  | O => Ok 0
  | S k => wc ← rd lfn (Z.of_nat k); if negb (wc =? 32) && negb (wc =? 46) then Ok (Z.of_nat di) else snip_tail k lfn
  end.

(** Leading spaces. *)
Fixpoint lead_spaces (lfn : list Z) : res Z :=
  match lfn with
  | [] => Fault
  | c :: lfn => if c =? 32 then n ← lead_spaces lfn; Ok (n + 1) else Ok 0
  end.

(** Behind the last dot. *)
Fixpoint last_dot (di : nat) (lfn : list Z) : res Z :=
  match di with
  | O => Ok 0
  | S k => c ← rd lfn (Z.of_nat k); if c =? 46 then Ok (Z.of_nat di) else last_dot k lfn
  end.

(** The bits of a lossy conversion. *)
Definition lossy (cf : Z) : Z := Z.lor cf (Z.lor NS_LOSS NS_LFN).

(** A character of the long name: its bytes in the short name, and the status
    and capital flags after it. *)
Definition sfn_char (wc cf b : Z) : res (Z * Z * Z) :=
  x ← (if 128 <=? wc then u ← ff_wtoupper wc; o ← ff_uni2oem u FF_CODE_PAGE; Ok (o, Z.lor cf NS_LFN) else Ok (wc, cf));
  let '(wc, cf) := x in
  if 256 <=? wc then Ok (wc, cf, b)
  else
    bad ← (if wc =? 0 then Ok true else chr_in bad_sfn wc);
    Ok (if bad : bool then (95, lossy cf, b)
        else let b := if IsUpper wc then Z.lor b 2 else b in
             if IsLower wc then (wc - 32, cf, Z.lor b 1) else (wc, cf, b)).

(** The characters of the short name; [di] is the index behind the last dot. *)
Fixpoint sfn_loop (fuel : nat) (lfn : list Z) (di si i ni cf b : Z) (fn : list Z) : res (Z * Z * Z * list Z) :=
  match fuel with
  | O => NoFuel
  | S fuel =>
      wc ← rd lfn si;
      let si := si + 1 in
      if wc =? 0 then Ok (ni, cf, b, fn)
      else if (wc =? 32) || ((wc =? 46) && negb (si =? di)) then sfn_loop fuel lfn di si i ni (lossy cf) b fn
      else if (ni <=? i) || (si =? di) then
        if ni =? 11 then Ok (ni, lossy cf, b, fn)
        else
          let cf := if negb (si =? di) then lossy cf else cf in
          if di <? si then Ok (ni, cf, b, fn)
          else sfn_loop fuel lfn di di 8 11 cf (u8 (Z.shiftl b 2)) fn
      else
        x ← sfn_char wc cf b;
        let '(wc, cf', b') := x in
        if 256 <=? wc then
          if ni - 1 <=? i then sfn_loop fuel lfn di si ni ni (lossy cf') b' fn
          else
            fn ← wr fn i (u8 (Z.shiftr wc 8));
            fn ← wr fn (i + 1) (u8 wc);
            sfn_loop fuel lfn di si (i + 2) ni cf' b' fn
        else
          fn ← wr fn i (u8 wc);
          sfn_loop fuel lfn di si (i + 1) ni cf' b' fn
  end.

(** The status byte from the flags of capitals. *)
Definition case_flags (ni cf b : Z) : Z :=
  let b := if ni =? 8 then u8 (Z.shiftl b 2) else b in
  let cf := if (Z.land b 12 =? 12) || (Z.land b 3 =? 3) then Z.lor cf NS_LFN else cf in
  if has cf NS_LFN then cf
  else let cf := if has b 1 then Z.lor cf NS_EXT else cf in
       if has b 4 then Z.lor cf NS_BODY else cf.

(** The short name [fn] of the long name of [di] units in the buffer. *)
Definition make_sfn (lfn : list Z) (di cf : Z) (fn : list Z) : res (list Z) :=
  si ← lead_spaces lfn;
  c ← rd lfn si;
  let cf := if (0 <? si) || (c =? 46) then lossy cf else cf in
  di ← last_dot (Z.to_nat di) lfn;
  fn ← store fn 0 (replicate 11 32);
  x ← sfn_loop (S (length lfn)) lfn di si 0 8 cf 0 fn;
  let '(ni, cf, b, fn) := x in
  c ← rd fn 0;
  fn ← (if c =? DDEM then wr fn 0 RDDEM else Ok fn);
  wr fn NSFLAG (case_flags ni cf b).

(** The result, the name, the buffer and the rest of the path. *)
Definition create_name (fn lfn path : list Z) : res (FRESULT * list Z * list Z * list Z) :=
  x ← name_loop (S (length path)) path lfn 0;
  let '(o, lfn) := x in
  match o with
  | None => Ok (FR_INVALID_NAME, fn, lfn, path)
  | Some (wc, p, di) =>
      y ← (if wc <? 32 then Ok (NS_LAST, p)
           else p ← skip_seps p; c ← rd p 0; Ok (if IsTerminator c then NS_LAST else 0, p));
      let '(cf, p) := y in
      di ← snip_tail (Z.to_nat di) lfn;
      lfn ← wr lfn di 0;
      if di =? 0 then Ok (FR_INVALID_NAME, fn, lfn, p)
      else fn ← make_sfn lfn di cf fn; Ok (FR_OK, fn, lfn, p)
  end.

(** ** [get_fileinfo] *)

Record FILINFO := mk_filinfo { fi_size : Z; fi_date : Z; fi_time : Z; fi_attr : Z; fi_alt : list Z; fi_name : list Z }.

(** The long name: its length, 0 when it cannot be shown, and a surrogate that
    waits for its second half. *)
Fixpoint out_lfn (lfn : list Z) (hs di : Z) (name : list Z) : res (Z * Z * list Z) :=
  match lfn with
  | [] => Fault
  | wc :: lfn =>
      if wc =? 0 then Ok (di, hs, name)
      else if (hs =? 0) && IsSurrogate wc then out_lfn lfn wc di name
      else
        x ← put_utf (Z.lor (u32 (Z.shiftl hs 16)) wc) name di (FF_LFN_BUF - di);
        if x.1 =? 0 then Ok (0, hs, x.2) else out_lfn lfn 0 (di + x.1) x.2
  end.

(** The short name, with a dot in front of the extension. *)
Fixpoint out_sfn (n : nat) (b : list Z) (dir si di : Z) (alt : list Z) : res (Z * list Z) :=
  match n with
  | O => Ok (di, alt)
  | S n =>
      wc ← rd b (dir + si);
      let si := si + 1 in
      if wc =? 32 then out_sfn n b dir si di alt
      else
        let wc := if wc =? RDDEM then DDEM else wc in
        x ← (if (si =? 9) && (di <? FF_SFN_BUF) then a ← wr alt di 46; Ok (di + 1, a) else Ok (di, alt));
        let '(di, alt) := x in
        alt ← wr alt di wc;
        out_sfn n b dir si (di + 1) alt
  end.

(** The short name shown as the name, in the case that the flags [nt] tell. *)
Fixpoint copy_alt (alt : list Z) (di lcf nt : Z) (name : list Z) : res (Z * list Z) :=
  match alt with
  | [] => Fault
  | wc :: alt =>
      if wc =? 0 then Ok (di, name)
      else
        let lcf := if wc =? 46 then NS_EXT else lcf in
        let wc := if IsUpper wc && has nt lcf then wc + 32 else wc in
        name ← wr name di wc;
        copy_alt alt (di + 1) lcf nt name
  end.

(** The entry is at [dir] in the window [b]; [lfn] is the working buffer. *)
Definition get_fileinfo (d : DIR) (b lfn : list Z) (fno : FILINFO) : res FILINFO :=
  name ← wr (fi_name fno) 0 0;
  if d_sect d =? 0 then Ok (mk_filinfo (fi_size fno) (fi_date fno) (fi_time fno) (fi_attr fno) (fi_alt fno) name)
  else
    name ← (if negb (blk_ofs d =? NO_BLOCK) then
              x ← out_lfn lfn 0 0 name;
              let '(di, hs, name) := x in
              wr name (if negb (hs =? 0) then 0 else di) 0
            else Ok name);
    x ← out_sfn 11 b (d_dir d) 0 0 (fi_alt fno);
    let '(di, alt) := x in
    alt ← wr alt di 0;
    c ← rd name 0;
    y ← (if c =? 0 then
           nt ← rd b (d_dir d + DIR_NTres);
           x ← (if di =? 0 then name ← wr name 0 63; Ok (1, name) else copy_alt alt 0 NS_BODY nt name);
           let '(di, name) := x in
           name ← wr name di 0;
           alt ← (if nt =? 0 then wr alt 0 0 else Ok alt);
           Ok (name, alt)
         else Ok (name, alt));
    let '(name, alt) := y in
    a ← rd b (d_dir d + DIR_Attr);
    sz ← ld_dword b (d_dir d + DIR_FileSize);
    tm ← ld_word b (d_dir d + DIR_ModTime);
    dt ← ld_word b (d_dir d + DIR_ModTime + 2);
    Ok (mk_filinfo sz dt tm (Z.land a AM_MASK) alt name).

(** ** Characters of a path *)

(** A string: bytes up to a zero. *)
Definition string_at (p s r : list Z) : Prop := p = s ++ 0 :: r /\ Forall (fun c => 0 < c < 256) s.

Lemma chr_in_ok s c : 0 ∈ s -> exists r, chr_in s c = Ok r.
Proof.
  unfold chr_in. intros Hin. assert (exists o, strchr s c = Ok o) as [o ->]; [|rewrite bind_Ok; by eexists]. induction s as [|x s IH]; [by apply elem_of_nil in Hin|]. cbn [strchr].
  destruct (i8 x =? i8 c); cbn [negb]; [by eexists|]. destruct (Z.eqb_spec x 0) as [|Hx]; [by eexists|]. apply IH. apply elem_of_cons in Hin as [Hin|]; [congruence|done].
Qed.

(** What follows a code in the table. *)
Lemma oem2uni_value o u : 0 < o -> ff_oem2uni o FF_CODE_PAGE = Ok u -> u <> 0 -> 0 < u < 65535.
Proof.
  intros Ho E Hu. destruct (Z.lt_ge_cases o 128) as [Hl|Hl]; [unfold ff_oem2uni in E; rewrite (proj2 (Z.ltb_lt o 128)) in E by lia; injection E as <-; lia|].
  destruct (oem2uni_exact o Hl) as [(u' & Hin & E')|[_ E']]; [|congruence]. rewrite E in E'. injection E' as <-. apply (proj2 (tables_inverse u o)) in Hin. destruct (table_codes u o Hin) as (_ & Hb & _). lia.
Qed.

Lemma oem2uni_total o : 0 < o -> exists u, ff_oem2uni o FF_CODE_PAGE = Ok u.
Proof.
  intros Ho. destruct (Z.lt_ge_cases o 128) as [Hl|Hl]; [exists o; unfold ff_oem2uni; by rewrite (proj2 (Z.ltb_lt o 128)) by lia|]. destruct (oem2uni_exact o Hl) as [(u & _ & E)|[_ E]]; by eexists.
Qed.

(** One character of a string: the end, an undecodable one, or a character and the rest. *)
Lemma tchar2uni_string p s r : string_at p s r ->
  (s = [] /\ tchar2uni p = Ok (0, r)) \/ tchar2uni p = Ok (BAD_CHAR, p) \/ exists u s', tchar2uni p = Ok (u, s' ++ 0 :: r) /\ 0 < u < 65535 /\ (length s' < length s)%nat /\ Forall (fun c => 0 < c < 256) s'.
Proof.
  intros [-> Hs]. destruct Hs as [|c s Hc Hs]; [left; done|right]. cbn [app tchar2uni]. destruct (dbc_1st c) eqn:D1.
  - destruct Hs as [|c2 s Hc2 Hs]; cbn [app].
    + rewrite bind_Ok. change (dbc_2nd 0) with false. cbv iota. by left.
    + rewrite bind_Ok. destruct (dbc_2nd c2); [|by left]. assert (u16 (Z.shiftl c 8 + c2) = 256 * c + c2) as -> by (rewrite Z.shiftl_mul_pow2, u16_small by lia; lia). rewrite (proj2 (Z.eqb_neq _ 0)) by lia.
      destruct (oem2uni_total (256 * c + c2)) as [u E]; [lia|]. rewrite E, bind_Ok. destruct (Z.eqb_spec u 0) as [|Hu]; [by left|right]. exists u, s. split; [done|]. split; [by apply (oem2uni_value (256 * c + c2)); [lia|done|]|]. split; [cbn; lia|done].
  - rewrite bind_Ok. rewrite (proj2 (Z.eqb_neq c 0)) by lia. destruct (oem2uni_total c) as [u E]; [lia|]. rewrite E, bind_Ok. destruct (Z.eqb_spec u 0) as [|Hu]; [by left|right]. exists u, s. split; [done|]. split; [by apply (oem2uni_value c); [lia|done|]|]. split; [cbn; lia|done].
Qed.

(** ** The long name of a segment *)

(** Units written from index [di] on. *)
Definition put_units (lfn : list Z) (di : Z) (w lfn' : list Z) : Prop :=
  length lfn' = length lfn /\ forall j, 0 <= j -> get lfn' j = if (di <=? j) && (j <? di + zlen w) then get w (j - di) else get lfn j.

Lemma put_units_nil lfn di : put_units lfn di [] lfn.
Proof. split; [done|]. intros j Hj. destruct (Z.leb_spec di j), (Z.ltb_spec j (di + zlen (@nil Z))); cbn [andb length] in *; try done; lia. Qed.

Lemma put_units_cons lfn di c w lfn' : 0 <= di < zlen lfn -> put_units (<[Z.to_nat di := c]> lfn) (di + 1) w lfn' -> put_units lfn di (c :: w) lfn'.
Proof.
  intros Hd [L G]. rewrite length_insert in L. split; [done|]. intros j Hj. rewrite G by done. cbn [length]. destruct (decide (j = di)) as [->|Hne].
  - rewrite (proj2 (Z.leb_gt (di + 1) di)) by lia. cbn [andb]. rewrite get_insert_eq by lia. rewrite Z.leb_refl, (proj2 (Z.ltb_lt di _)) by lia. cbn [andb]. by rewrite Z.sub_diag.
  - rewrite get_insert_ne by lia. destruct (Z.leb_spec (di + 1) j), (Z.leb_spec di j), (Z.ltb_spec j (di + 1 + zlen w)), (Z.ltb_spec j (di + Z.of_nat (S (length w)))); cbn [andb]; try done; try lia.
    unfold get. by replace (Z.to_nat (j - di)) with (S (Z.to_nat (j - (di + 1)))) by lia.
Qed.

(** A character that may be in a long name. *)
Definition name_char (c : Z) : Prop := 32 <= c < 65535 /\ IsSeparator c = false /\ (c < 128 -> chr_in bad_lfn c = Ok false).

(** The segment ended at the end of the path or at a separator. *)
Definition ended (wc : Z) (p s r : list Z) : Prop := (wc < 32 /\ 0 <= wc) \/ (IsSeparator wc = true /\ exists s', string_at p s' r /\ (length s' < length s)%nat).

Lemma name_loop_ok fuel : forall p s r lfn di, string_at p s r -> (length s < fuel)%nat -> units lfn -> 0 <= di <= 255 ->
  exists o lfn', name_loop fuel p lfn di = Ok (o, lfn') /\ units lfn' /\
    match o with
    | None => True
    | Some (wc, p', di') => exists w, Forall name_char w /\ put_units lfn di w lfn' /\ di' = di + zlen w /\ di' <= 255 /\ ended wc p' s r
    end.
Proof.
  induction fuel as [|fuel IH]; intros p s r lfn di Hs Hf Hu Hd; [lia|]. cbn [name_loop]. pose proof Hu as [L U].
  assert (forall u, 0 <= u < 65535 -> (if 0x10000 <=? u then l ← wr lfn di (u16 (Z.shiftr u 16)); Ok (di + 1, l) else Ok (di, lfn)) = Ok (di, lfn)) as Hsur by (intros u Hb; by rewrite (proj2 (Z.leb_gt 0x10000 u)) by lia).
  destruct (tchar2uni_string p s r Hs) as [[-> E]|[E|(u & s' & E & Hb & Hl & Hs')]]; rewrite E, bind_Ok; cbv iota beta.
  - change (0 =? BAD_CHAR) with false. cbv iota. rewrite Hsur, bind_Ok by lia. cbv iota beta. change (u16 0) with 0. cbn [Z.ltb Z.compare orb]. eexists _, _. split; [reflexivity|]. split; [done|]. exists []. split; [done|].
    split; [apply put_units_nil|]. split; [cbn; lia|]. split; [lia|]. left. lia.
  - rewrite Z.eqb_refl. eexists None, lfn. done.
  - rewrite (proj2 (Z.eqb_neq u BAD_CHAR)) by (unfold BAD_CHAR; lia). rewrite Hsur, bind_Ok by lia. cbv iota beta. rewrite u16_small by lia. cbv zeta.
    destruct (Z.ltb_spec u 32) as [Hlo|Hlo]; cbn [orb].
    { eexists _, _. split; [reflexivity|]. split; [done|]. exists []. split; [done|]. split; [apply put_units_nil|]. split; [cbn; lia|]. split; [lia|]. left. lia. }
    destruct (IsSeparator u) eqn:Es.
    { eexists _, _. split; [reflexivity|]. split; [done|]. exists []. split; [done|]. split; [apply put_units_nil|]. split; [cbn; lia|]. split; [lia|]. right. split; [done|]. by exists s'. }
    assert (exists bad, (if u <? 128 then chr_in bad_lfn u else Ok false) = Ok bad) as [bad Eb] by (destruct (u <? 128); [apply chr_in_ok; unfold bad_lfn; set_solver|by exists false]). rewrite Eb, bind_Ok.
    destruct bad; [eexists None, lfn; done|]. unfold FF_MAX_LFN. destruct (Z.leb_spec 255 di); [eexists None, lfn; done|]. rewrite wr_in by lia. rewrite bind_Ok.
    destruct (IH (s' ++ 0 :: r) s' r (<[Z.to_nat di := u]> lfn) (di + 1)) as (o & lfn' & E' & Hu' & R); [done|lia|split; [by rewrite length_insert|apply Forall_insert; [done|lia]]|lia|].
    exists o, lfn'. split; [exact E'|]. split; [done|]. destruct o as [[[wc p'] di']|]; [|done]. destruct R as (w & Fw & Pw & -> & Hd' & En). exists (u :: w). split.
    { apply Forall_cons. split; [|done]. split; [lia|]. split; [done|]. intros Hl'. by rewrite (proj2 (Z.ltb_lt u 128)) in Eb by lia. }
    split; [apply put_units_cons; [lia|done]|]. cbn [length]. split; [lia|]. split; [lia|]. destruct En as [En|(En & s'' & Hs'' & Hl')]; [by left|right]. split; [done|]. exists s''. split; [done|lia].
Qed.

Lemma snip_tail_ok lfn k : Z.of_nat k <= zlen lfn ->
  exists n, snip_tail k lfn = Ok n /\ 0 <= n <= Z.of_nat k /\ (forall j, n <= j < Z.of_nat k -> get lfn j = 32 \/ get lfn j = 46) /\ (n = 0 \/ (get lfn (n - 1) <> 32 /\ get lfn (n - 1) <> 46)).
Proof.
  induction k as [|k IH]; intros Hk; cbn [snip_tail]; [exists 0; split; [done|]; split; [lia|]; split; [lia|by left]|]. rewrite rd_in by lia. rewrite bind_Ok.
  destruct (negb (get lfn (Z.of_nat k) =? 32) && negb (get lfn (Z.of_nat k) =? 46)) eqn:E.
  - exists (Z.of_nat (S k)). split; [done|]. split; [lia|]. split; [lia|]. right. replace (Z.of_nat (S k) - 1) with (Z.of_nat k) by lia. by rewrite andb_true_iff, !negb_true_iff, !Z.eqb_neq in E.
  - destruct IH as (n & En & Hn & Hj & Hl); [lia|]. exists n. split; [done|]. split; [lia|]. split; [|done]. intros j Hj'. destruct (decide (j = Z.of_nat k)) as [->|]; [|apply Hj; lia].
    rewrite andb_false_iff, !negb_false_iff, !Z.eqb_eq in E. done.
Qed.

Lemma last_dot_ok lfn k : Z.of_nat k <= zlen lfn -> exists n, last_dot k lfn = Ok n /\ 0 <= n <= Z.of_nat k.
Proof.
  induction k as [|k IH]; intros Hk; cbn [last_dot]; [exists 0; split; [done|lia]|]. rewrite rd_in by lia. rewrite bind_Ok. destruct (_ =? 46); [exists (Z.of_nat (S k)); split; [done|lia]|].
  destruct IH as (n & E & Hn); [lia|]. exists n. split; [done|lia].
Qed.

Lemma lead_spaces_ok lfn z : 0 <= z < zlen lfn -> get lfn z <> 32 -> exists n, lead_spaces lfn = Ok n /\ 0 <= n <= z.
Proof.
  revert z. induction lfn as [|c lfn IH]; intros z Hz Hg; [cbn [length] in Hz; lia|]. cbn [lead_spaces]. destruct (Z.eqb_spec c 32) as [->|]; [|exists 0; split; [done|lia]].
  assert (z <> 0) by (intros ->; done). destruct (IH (z - 1)) as (n & E & Hn); [cbn [length] in Hz; lia| |rewrite E, bind_Ok; exists (n + 1); split; [done|lia]].
  unfold get in *. by replace (Z.to_nat z) with (S (Z.to_nat (z - 1))) in Hg by lia.
Qed.

Lemma skip_seps_ok r s : Forall (fun c => 0 < c < 256) s -> exists s', skip_seps (s ++ 0 :: r) = Ok (s' ++ 0 :: r) /\ string_at (s' ++ 0 :: r) s' r /\ (length s' <= length s)%nat /\ (s' = [] \/ IsSeparator (get s' 0) = false).
Proof.
  intros Hs. induction Hs as [|c s Hc Hs IH]; cbn [app skip_seps]; [exists []; split; [done|]; split; [done|]; split; [lia|by left]|]. destruct (IsSeparator c) eqn:E.
  - destruct IH as (s' & E' & Hs' & Hl & H0). exists s'. split; [done|]. split; [done|]. split; [cbn; lia|done].
  - exists (c :: s). split; [done|]. split; [split; [done|by apply Forall_cons]|]. split; [done|by right].
Qed.

(** ** The short name *)

(** The status bits while the name is made: the last-segment bit [base], and a
    long name that is needed, or needed because the short name is lossy. *)
Definition cf_state (base cf : Z) : Prop := cf = base \/ cf = base + 2 \/ cf = base + 3.

Lemma cf_lossy base cf : base = 0 \/ base = 4 -> cf_state base cf -> cf_state base (lossy cf).
Proof. intros [->| ->] [->|[->| ->]]; vm_compute; auto. Qed.

Lemma cf_lfn base cf : base = 0 \/ base = 4 -> cf_state base cf -> cf_state base (Z.lor cf NS_LFN).
Proof. intros [->| ->] [->|[->| ->]]; vm_compute; auto. Qed.

Lemma sfn_char_ok base wc cf b : base = 0 \/ base = 4 -> cf_state base cf -> 0 < wc < 65535 -> exists o cf' b', sfn_char wc cf b = Ok (o, cf', b') /\ cf_state base cf' /\ 0 < o < 65536.
Proof.
  intros Hb Hc Hw. unfold sfn_char.
  assert (exists o cf1, (if 128 <=? wc then u ← ff_wtoupper wc; o ← ff_uni2oem u FF_CODE_PAGE; Ok (o, Z.lor cf NS_LFN) else Ok (wc, cf)) = Ok (o, cf1) /\ cf_state base cf1 /\ 0 <= o < 65536) as (o & cf1 & -> & Hc1 & Ho).
  { destruct (Z.leb_spec 128 wc); [|exists wc, cf; split; [done|]; split; [done|lia]]. destruct (wtoupper_ok wc) as (-> & Hu & Hz); [lia|]. rewrite bind_Ok. destruct (uni2oem_total (upper wc)) as [o E]; [lia|]. rewrite E, bind_Ok.
    exists o, (Z.lor cf NS_LFN). split; [done|]. split; [by apply cf_lfn|]. destruct (Z.lt_ge_cases (upper wc) 128).
    - unfold ff_uni2oem in E. rewrite (proj2 (Z.ltb_lt (upper wc) 128)), u16_small in E by lia. injection E as <-. lia.
    - destruct (uni2oem_exact (upper wc)) as [(o' & Hin & E')|[_ E']]; [lia| |rewrite E in E'; injection E' as ->; lia]. rewrite E in E'. injection E' as ->. destruct (table_codes _ _ Hin) as (Hs & _). pose proof (sjis_high o' Hs). lia. }
  rewrite bind_Ok. cbv iota beta. destruct (Z.leb_spec 256 o); [exists o, cf1, b; split; [done|]; split; [done|lia]|].
  assert (exists bad, (if o =? 0 then Ok true else chr_in bad_sfn o) = Ok bad /\ (bad = false -> o <> 0)) as (bad & -> & Hbad).
  { destruct (Z.eqb_spec o 0); [by exists true|]. destruct (chr_in_ok bad_sfn o) as [r E]; [unfold bad_sfn; set_solver|]. by exists r. }
  rewrite bind_Ok. destruct bad; [exists 95, (lossy cf1), b; split; [done|]; split; [by apply cf_lossy|lia]|]. specialize (Hbad eq_refl). cbv zeta.
  destruct (IsLower o) eqn:El; eexists _, cf1, _; (split; [reflexivity|]; split; [done|]); [|lia]. unfold IsLower in El. apply andb_true_iff in El as [El _]. apply Z.leb_le in El. lia.
Qed.

(** A name of 11 bytes in the making. *)
Definition sfn_state (fn : list Z) : Prop := length fn = 12%nat /\ Forall is_byte fn /\ get fn 0 <> 0.

Lemma sfn_put fn i c : sfn_state fn -> 0 <= i < 11 -> 0 < c < 256 -> exists fn', wr fn i (u8 c) = Ok fn' /\ sfn_state fn'.
Proof.
  intros (L & B & G) Hi Hc. rewrite u8_small by lia. rewrite wr_in by lia. eexists. split; [reflexivity|]. split; [by rewrite length_insert|]. split; [apply Forall_insert; [done|unfold is_byte; lia]|].
  destruct (decide (i = 0)) as [->|]; [rewrite get_insert_eq; lia|rewrite get_insert_ne by lia; done].
Qed.

Lemma sfn_put_any fn i c : sfn_state fn -> 0 < i < 11 -> exists fn', wr fn i (u8 c) = Ok fn' /\ sfn_state fn'.
Proof.
  intros (L & B & G) Hi. rewrite wr_in by lia. eexists. split; [reflexivity|]. split; [by rewrite length_insert|]. split; [apply Forall_insert; [done|apply u8_bound]|]. by rewrite get_insert_ne by lia.
Qed.

Lemma sfn_loop_ok base w lfn di fuel : base = 0 \/ base = 4 -> named w lfn -> 0 <= di <= zlen w -> forall si i ni cf b fn, zlen w - si < Z.of_nat fuel -> 0 <= si <= zlen w -> 0 <= i <= ni -> ni = 8 \/ ni = 11 -> cf_state base cf -> sfn_state fn ->
  exists ni' cf' b' fn', sfn_loop fuel lfn di si i ni cf b fn = Ok (ni', cf', b', fn') /\ cf_state base cf' /\ sfn_state fn'.
Proof.
  intros Hbase Hw Hdi. pose proof (nm_size _ _ Hw) as Lf. pose proof (nm_len _ _ Hw) as Hlen. induction fuel as [|fuel IH]; intros si i ni cf b fn Hfu Hsi Hi Hni Hcf Hfn; [lia|]. cbn [sfn_loop]. rewrite rd_in by lia. rewrite bind_Ok. cbv zeta.
  rewrite (nm_at _ _ Hw) by lia. destruct (Z.eqb_spec (name_unit w si) 0) as [E0|N0]; [exists ni, cf, b, fn; done|]. assert (si < zlen w) as Hlt. { destruct (decide (si = zlen w)) as [E|]; [|lia]. by rewrite unit_end in N0. }
  destruct (unit_in w lfn si Hw) as [Hu _]; [lia|]. destruct (_ || (_ && negb (si + 1 =? di))); [apply IH; try done; try lia; by apply cf_lossy|].
  destruct ((ni <=? i) || (si + 1 =? di)) eqn:Eend.
  - destruct (Z.eqb_spec ni 11); [eexists _, _, _, _; split; [reflexivity|]; split; [by apply cf_lossy|done]|]. assert (cf_state base (if negb (si + 1 =? di) then lossy cf else cf)) as Hcf' by (destruct (negb _); [by apply cf_lossy|done]).
    destruct (Z.ltb_spec di (si + 1)); [eexists _, _, _, _; split; [reflexivity|done]|]. apply IH; try done; try lia.
  - apply orb_false_iff in Eend as [En _]. apply Z.leb_gt in En. destruct (sfn_char_ok base (name_unit w si) cf b Hbase Hcf Hu) as (o & cf' & b' & E & Hcf' & Ho). rewrite E, bind_Ok. cbv iota beta. destruct (Z.leb_spec 256 o).
    + destruct (Z.leb_spec (ni - 1) i); [apply IH; try done; try lia; by apply cf_lossy|]. rewrite Z.shiftr_div_pow2 by lia. change (2 ^ 8) with 256.
      destruct (sfn_put fn i (o / 256) Hfn) as (fn1 & -> & Hf1); [lia|dlia|]. rewrite bind_Ok. destruct (sfn_put_any fn1 (i + 1) o Hf1) as (fn2 & -> & Hf2); [lia|]. rewrite bind_Ok. apply IH; try done; lia.
    + destruct (sfn_put fn i o Hfn) as (fn1 & -> & Hf1); [lia|lia|]. rewrite bind_Ok. apply IH; try done; lia.
Qed.

(** The status byte of a segment: the last one or not, never a dot entry, a
    search by short name only or an empty path; a lossy short name comes with a
    long name. *)
Record status_ok (last : bool) (fl : Z) : Prop := {
  st_byte : is_byte fl;
  st_last : has fl NS_LAST = last;
  st_dot : has fl (NS_DOT + NS_NONAME) = false;
  st_nolfn : has fl NS_NOLFN = false;
  st_loss : has fl NS_LOSS = true -> has fl NS_LFN = true
}.

Lemma status_bits (last : bool) fl : let base := if last then 4 else 0 in fl ∈ [base; base + 2; base + 3; base + 8; base + 16; base + 24] -> status_ok last fl.
Proof.
  cbv zeta. destruct last; intros Hin; repeat (apply elem_of_cons in Hin as [->|Hin]; [split; try (vm_compute; done); unfold is_byte; lia|]); by apply elem_of_nil in Hin.
Qed.

Lemma case_flags_ok (last : bool) ni cf b : cf_state (if last then 4 else 0) cf -> status_ok last (case_flags ni cf b).
Proof.
  intros Hc. apply status_bits. unfold case_flags. cbv zeta. set (b' := if ni =? 8 then u8 (Z.shiftl b 2) else b). destruct ((Z.land b' 12 =? 12) || (Z.land b' 3 =? 3)).
  - destruct last, Hc as [->|[->| ->]]; vm_compute; set_solver.
  - destruct (has b' 1), (has b' 4), last, Hc as [->|[->| ->]]; vm_compute; set_solver.
Qed.

Lemma make_sfn_ok last w lfn fn : named w lfn -> fname fn -> exists fn', make_sfn lfn (zlen w) (if last : bool then 4 else 0) fn = Ok fn' /\ storable fn' /\ status_ok last (get fn' NSFLAG).
Proof.
  intros Hw [L B]. pose proof (nm_size _ _ Hw) as Lf. pose proof (nm_len _ _ Hw) as Hlen. unfold make_sfn. set (base := if last then 4 else 0). assert (base = 0 \/ base = 4) as Hb by (unfold base; destruct last; auto).
  destruct (lead_spaces_ok lfn (zlen w)) as (si & -> & Hsi); [lia|rewrite (nm_at _ _ Hw), unit_end by lia; lia|]. rewrite bind_Ok, rd_in by lia. rewrite bind_Ok. cbv zeta.
  assert (cf_state base (if (0 <? si) || (get lfn si =? 46) then lossy base else base)) as Hcf by (destruct (_ || _); [apply cf_lossy; [done|by left]|by left]).
  destruct (last_dot_ok lfn (Z.to_nat (zlen w))) as (di & -> & Hdi); [lia|]. rewrite bind_Ok. unfold store. rewrite length_replicate. rewrite (proj2 (Z.leb_le (0 + Z.of_nat 11) _)) by lia. cbn [andb Z.leb Z.compare]. rewrite bind_Ok.
  change (Z.to_nat (0 + Z.of_nat 11)) with 11%nat. change (Z.to_nat 0) with 0%nat. rewrite take_0. cbn [app].
  destruct (sfn_loop_ok base w lfn di (S (length lfn)) Hb Hw ltac:(lia) si 0 8 (if (0 <? si) || (get lfn si =? 46) then lossy base else base) 0 (replicate 11 32 ++ drop 11 fn)) as (ni & cf & b & fn1 & E & Hcf1 & L1 & B1 & G1); [lia|lia|lia|by left|done| |].
  { split; [rewrite length_app, length_replicate, length_drop; lia|]. split; [|done]. apply Forall_app. split; [apply Forall_replicate; unfold is_byte; lia|by apply Forall_drop]. }
  rewrite E, bind_Ok. cbv iota beta. rewrite rd_in by lia. rewrite bind_Ok.
  assert (exists fn2, (if get fn1 0 =? DDEM then wr fn1 0 RDDEM else Ok fn1) = Ok fn2 /\ storable fn2) as (fn2 & -> & (L2 & B2) & N0 & N1).
  { destruct (Z.eqb_spec (get fn1 0) DDEM); [|exists fn1; done]. rewrite wr_in by lia. exists (<[Z.to_nat 0 := RDDEM]> fn1). split; [done|]. unfold storable. rewrite get_insert_eq by lia. split; [|done]. split; [by rewrite length_insert|]. apply Forall_insert; [done|unfold is_byte, RDDEM; lia]. }
  rewrite bind_Ok. pose proof (case_flags_ok last ni cf b Hcf1) as Hst. destruct (set_flag fn2 (case_flags ni cf b) (conj L2 B2) (st_byte _ _ Hst)) as (fn3 & -> & F3 & Gf & _ & G0). exists fn3. split; [done|]. split; [|by rewrite Gf]. split; [done|]. by rewrite G0.
Qed.

(** A name without its trailing spaces and dots. *)
Definition snipped (w0 w : list Z) : Prop :=
  exists t, w0 = w ++ t /\ Forall (fun c => c = 32 \/ c = 46) t /\ (w = [] \/ (get w (zlen w - 1) <> 32 /\ get w (zlen w - 1) <> 46)).

Lemma snip_ok lfn w0 : Forall name_char w0 -> zlen w0 <= 255 -> units lfn -> (forall j, 0 <= j < zlen w0 -> get lfn j = get w0 j) ->
  exists w lfn', snip_tail (length w0) lfn = Ok (zlen w) /\ wr lfn (zlen w) 0 = Ok lfn' /\ units lfn' /\ snipped w0 w /\ (w <> [] -> named w lfn').
Proof.
  intros Hc Hl [L U] Hg. destruct (snip_tail_ok lfn (length w0)) as (n & E & Hn & Hj & Hlast); [lia|]. assert (zlen (take (Z.to_nat n) w0) = n) as Lw by (rewrite length_take; lia).
  assert (forall j, 0 <= j < n -> get (take (Z.to_nat n) w0) j = get lfn j) as Hgw by (intros j Hj'; rewrite get_take, Hg by lia; done).
  exists (take (Z.to_nat n) w0). rewrite Lw, wr_in by lia. eexists. split; [done|]. split; [reflexivity|]. assert (units (<[Z.to_nat n := 0]> lfn)) as Hu by (split; [by rewrite length_insert|apply Forall_insert; [done|lia]]). split; [done|]. split.
  - exists (drop (Z.to_nat n) w0). split; [by rewrite take_drop|]. split.
    + apply Forall_lookup. intros k c Hk. rewrite lookup_drop in Hk. pose proof (lookup_lt_Some _ _ _ Hk) as Hlt. specialize (Hj (n + Z.of_nat k) ltac:(lia)). rewrite Hg in Hj by lia. unfold get in Hj.
      replace (Z.to_nat (n + Z.of_nat k)) with (Z.to_nat n + k)%nat in Hj by lia. by rewrite (nth_lookup_Some _ _ _ _ Hk) in Hj.
    + rewrite Lw. destruct Hlast as [->|Hlast]; [by left|right]. destruct (decide (n = 0)) as [->|]; [|by rewrite Hgw by lia]. unfold get in Hlast |- *. by rewrite take_0.
  - intros Hne. split.
    + eapply Forall_impl; [apply Forall_take, Hc|]. intros c (Hb & _). lia.
    + split; [|lia]. destruct (take (Z.to_nat n) w0); [done|cbn [length]; lia].
    + apply Hu.
    + apply Hu.
    + rewrite Lw. intros i Hi. destruct (decide (i = n)) as [->|]; [rewrite get_insert_eq by lia; by rewrite unit_end|]. rewrite get_insert_ne, <- Hgw by lia. unfold name_unit. by rewrite Lw, (proj2 (Z.ltb_lt i n)) by lia.
Qed.

(** What a segment gives: the long name [w] in the buffer, a short name that
    can be stored with its status, and the rest of the path. *)
Definition segment (s r : list Z) (w fn lfn p : list Z) (last : bool) : Prop :=
  named w lfn /\ storable fn /\ status_ok last (get fn NSFLAG) /\ Forall name_char w /\ get w (zlen w - 1) <> 32 /\ get w (zlen w - 1) <> 46 /\
  (last = false -> exists s', string_at p s' r /\ (length s' < length s)%nat /\ 32 <= get s' 0 /\ IsSeparator (get s' 0) = false).

Lemma terminator_byte c : 0 <= c < 256 -> IsTerminator c = (c <? 32).
Proof.
  intros Hc. assert (forallb (fun c => eqb (IsTerminator c) (c <? 32)) (seqZ 0 256) = true) as F by (vm_compute; reflexivity). rewrite forallb_forall in F. apply eqb_prop, F, list_elem_of_In, elem_of_seqZ. lia.
Qed.

(** What follows a segment. *)
Lemma seg_end_ok wc p s r : ended wc p s r -> exists last p', (if wc <? 32 then Ok (NS_LAST, p) else p ← skip_seps p; c ← rd p 0; Ok (if IsTerminator c then NS_LAST else 0, p)) = Ok (if last : bool then 4 else 0, p') /\
  (last = false -> exists s', string_at p' s' r /\ (length s' < length s)%nat /\ 32 <= get s' 0 /\ IsSeparator (get s' 0) = false).
Proof.
  intros En. destruct En as [En|(En & s1 & [-> Hs1] & Hl1)]; [rewrite (proj2 (Z.ltb_lt wc 32)) by lia; by exists true, p|]. assert (wc <? 32 = false) as -> by (unfold IsSeparator in En; apply Z.ltb_ge; lia).
  destruct (skip_seps_ok r s1 Hs1) as (s2 & -> & [_ Hs2] & Hl2 & H0). rewrite bind_Ok. destruct s2 as [|c s2].
  - exists true, (0 :: r). split; [done|done].
  - apply Forall_cons in Hs2 as [Hc Hs2]. exists (IsTerminator c), ((c :: s2) ++ 0 :: r). rewrite rd_in by (cbn [app length]; lia). rewrite bind_Ok. change (get ((c :: s2) ++ 0 :: r) 0) with c. split; [by destruct (IsTerminator c)|].
    rewrite terminator_byte by lia. intros Ht. apply Z.ltb_ge in Ht. exists (c :: s2). split; [split; [done|by apply Forall_cons]|]. split; [lia|]. split; [done|]. by destruct H0.
Qed.

Lemma create_name_ok fn lfn path s r : string_at path s r -> units lfn -> fname fn ->
  exists fr fn' lfn' p, create_name fn lfn path = Ok (fr, fn', lfn', p) /\ units lfn' /\ fname fn' /\
    ((fr = FR_INVALID_NAME /\ fn' = fn) \/ (fr = FR_OK /\ exists w last, segment s r w fn' lfn' p last)).
Proof.
  intros Hs Hu Hfn. unfold create_name. pose proof Hs as [Ep Fs]. destruct (name_loop_ok (S (length path)) path s r lfn 0 Hs) as (o & lfn1 & E & Hu1 & R); [rewrite Ep, length_app; cbn [length]; lia|done|lia|].
  rewrite E, bind_Ok. cbv iota beta. destruct o as [[[wc p] di]|]; [|eexists _, _, _, _; split; [reflexivity|]; split; [done|]; split; [done|by left]]. destruct R as (w0 & Fw & [_ Pu] & -> & Hd & En). rewrite Z.add_0_l in *.
  destruct (seg_end_ok wc p s r En) as (last & p' & -> & Hrest).
  rewrite bind_Ok. cbv iota beta. destruct (snip_ok lfn1 w0 Fw ltac:(lia) Hu1) as (w & lfn2 & Es & Ew & Hu2 & Hsn & Hn).
  { intros j Hj. rewrite Pu by lia. rewrite (proj2 (Z.leb_le 0 j)), (proj2 (Z.ltb_lt j _)) by lia. cbn [andb]. by rewrite Z.sub_0_r. }
  rewrite Nat2Z.id, Es, bind_Ok, Ew, bind_Ok. destruct (Z.eqb_spec (zlen w) 0) as [E0|N0]; [eexists _, _, _, _; split; [reflexivity|]; split; [done|]; split; [done|by left]|].
  assert (w <> []) as Hne by (intros ->; done). specialize (Hn Hne). destruct (make_sfn_ok last w lfn2 fn Hn Hfn) as (fn' & -> & Hst & Hfl). rewrite bind_Ok. eexists _, _, _, _. split; [reflexivity|]. split; [done|]. split; [apply Hst|]. right. split; [done|].
  exists w, last. split; [done|]. split; [done|]. split; [done|]. destruct Hsn as (t & -> & _ & Hlast). split; [by apply Forall_app in Fw as [Fw _]|]. destruct Hlast as [|[H1 H2]]; [done|]. split; [done|]. split; [done|]. exact Hrest.
Qed.

(** ** Names delivered *)

(** The bytes of a character, and of a name, in the code page. *)
Definition enc (c : Z) : list Z := match ff_uni2oem c FF_CODE_PAGE with Ok o => if 256 <=? o then [o / 256; o mod 256] else [o] | _ => [] end.
Definition enc_name (w : list Z) : list Z := concat (enc <$> w).

(** The character has a code. *)
Definition coded (c : Z) : Prop := exists o, ff_uni2oem c FF_CODE_PAGE = Ok o /\ o <> 0.

Lemma coded_bytes c : 0 < c < 65535 -> coded c -> exists o, ff_uni2oem c FF_CODE_PAGE = Ok o /\ 0 < o < 65536 /\ IsSurrogate c = false /\ enc c = (if 256 <=? o then [u8 (Z.shiftr o 8); u8 o] else [u8 o]) /\
  Forall (fun b => 0 < b < 256) (enc c) /\ forall r, tchar2uni (enc c ++ r) = Ok (c, r).
Proof.
  intros Hc (o & E & Ho). exists o. split; [done|].
  assert (0 <= o) as Hp. { destruct (Z.lt_ge_cases c 128); [unfold ff_uni2oem in E; rewrite (proj2 (Z.ltb_lt c 128)), u16_small in E by lia; injection E as <-; lia|]. destruct (uni2oem_exact c) as [(o' & Hin & E')|[_ E']]; [lia| |congruence]. rewrite E in E'. injection E' as <-. destruct (table_codes _ _ Hin) as (Hs & _). pose proof (sjis_high o Hs). lia. }
  pose proof (oem2uni_of c o ltac:(lia) ltac:(lia) E) as Eu. unfold enc. rewrite E. destruct (uni2oem_cases c o ltac:(lia) ltac:(lia) E) as [[-> Hl]|(Hl & Hs & Hin)].
  - rewrite (proj2 (Z.leb_gt 256 o)) by lia. rewrite u8_small by lia. split; [lia|]. split; [unfold IsSurrogate; rewrite (proj2 (Z.leb_gt 0xD800 o)) by lia; done|]. split; [done|]. split; [apply Forall_singleton; lia|].
    intros r. cbn [app tchar2uni]. assert (dbc_1st o = false) as -> by (unfold dbc_1st; rewrite (proj2 (Z.leb_gt 129 o)) by lia; done). rewrite bind_Ok, (proj2 (Z.eqb_neq o 0)) by lia. rewrite Eu, bind_Ok, (proj2 (Z.eqb_neq o 0)) by lia. done.
  - pose proof (sjis_high o Hs) as Hh. destruct (table_codes _ _ Hin) as (_ & _ & Hns). split; [lia|]. split; [unfold IsSurrogate; destruct (Z.leb_spec 0xD800 c), (Z.leb_spec c 0xDFFF); try done; lia|]. destruct (Z.leb_spec 256 o) as [Hw|Hw].
    + destruct (sjis_bytes o Hw Hs) as (E1 & E2 & D1 & D2 & E3). rewrite E1, E2. split; [done|]. assert (0 < o mod 256) by (unfold dbc_2nd in D2; dlia). split; [apply Forall_cons; split; [dlia|apply Forall_singleton; dlia]|].
      intros r. cbn [app tchar2uni]. rewrite D1, bind_Ok, D2, E3, (proj2 (Z.eqb_neq o 0)) by lia. rewrite Eu, bind_Ok, (proj2 (Z.eqb_neq c 0)) by lia. done.
    + rewrite u8_small by lia. split; [done|]. split; [apply Forall_singleton; lia|]. intros r. cbn [app tchar2uni]. unfold sjis_code in Hs. rewrite (proj2 (Z.ltb_lt o 256)) in Hs by lia. apply andb_true_iff in Hs as [_ Hs]. apply negb_true_iff in Hs.
      rewrite Hs, bind_Ok, (proj2 (Z.eqb_neq o 0)) by lia. rewrite Eu, bind_Ok, (proj2 (Z.eqb_neq c 0)) by lia. done.
Qed.

Lemma put_units_app a di u b v c : 0 <= di -> put_units a di u b -> put_units b (di + zlen u) v c -> put_units a di (u ++ v) c.
Proof.
  intros Hd [L1 G1] [L2 G2]. split; [congruence|]. intros j Hj. rewrite G2, G1 by done. rewrite length_app. destruct (Z.leb_spec (di + zlen u) j), (Z.ltb_spec j (di + zlen u + zlen v)), (Z.leb_spec di j), (Z.ltb_spec j (di + zlen u)), (Z.ltb_spec j (di + Z.of_nat (length u + length v))); cbn [andb]; try done; try lia.
  - rewrite get_app_r by lia. f_equal. lia.
  - by rewrite get_app_l by lia.
Qed.

Lemma put_units_one a di c : 0 <= di < zlen a -> put_units a di [c] (<[Z.to_nat di := c]> a).
Proof. intros Hd. apply put_units_cons; [done|]. apply put_units_nil. Qed.

(** A name at the start of the buffer that is terminated. *)
Lemma put_units_string a w b : zlen w < zlen a -> put_units a 0 w b -> exists r, <[length w := 0]> b = w ++ 0 :: r.
Proof.
  intros Hl [L G]. exists (drop (S (length w)) b). apply get_eq_ext; [rewrite length_insert, length_app; cbn [length]; rewrite length_drop; lia|]. intros j Hj. rewrite length_insert in Hj.
  pose proof (get_insert_eq b (zlen w) 0 ltac:(lia)) as Ge. rewrite Nat2Z.id in Ge. destruct (Z.lt_trichotomy j (zlen w)) as [Hlt|[->|Hgt]].
  - rewrite get_app_l by lia. pose proof (get_insert_ne b (zlen w) j 0) as Gn. rewrite Nat2Z.id in Gn. rewrite Gn, G by lia. rewrite (proj2 (Z.leb_le 0 j)), (proj2 (Z.ltb_lt j _)) by lia. cbn [andb]. by rewrite Z.sub_0_r.
  - rewrite Ge, get_app_r by lia. by rewrite Z.sub_diag.
  - pose proof (get_insert_ne b (zlen w) j 0) as Gn. rewrite Nat2Z.id in Gn. rewrite Gn, get_app_r by lia. unfold get. replace (Z.to_nat (j - zlen w)) with (S (Z.to_nat (j - zlen w - 1))) by lia. cbn [nth].
    change (nth (Z.to_nat (j - zlen w - 1)) (drop (S (length w)) b) 0) with (get (drop (S (length w)) b) (j - zlen w - 1)). rewrite get_drop by lia. unfold get. f_equal. lia.
Qed.

(** The characters of a name in a path. *)
Lemma name_loop_enc t wc rest : tchar2uni t = Ok (wc, rest) -> 0 <= wc < 65535 -> (wc < 32 \/ IsSeparator wc = true) -> forall w fuel lfn di, Forall name_char w -> Forall coded w -> (length w < fuel)%nat -> units lfn -> 0 <= di -> di + zlen w <= 255 ->
  exists lfn', name_loop fuel (enc_name w ++ t) lfn di = Ok (Some (wc, rest, di + zlen w), lfn') /\ put_units lfn di w lfn' /\ units lfn'.
Proof.
  intros Et Hwc Hend. induction w as [|c w IH]; intros [|fuel] lfn di Hn Hc Hf Hu Hd Hl; cbn [length] in *; try lia; cbn [name_loop]; pose proof Hu as [L U].
  - cbn [enc_name fmap list_fmap concat app]. rewrite Et, bind_Ok. cbv iota beta. rewrite (proj2 (Z.eqb_neq wc BAD_CHAR)) by (unfold BAD_CHAR; lia). rewrite (proj2 (Z.leb_gt 0x10000 wc)) by lia. rewrite bind_Ok. cbv iota beta. rewrite u16_small by lia. cbv zeta.
    assert ((wc <? 32) || IsSeparator wc = true) as ->. { destruct Hend as [Hend|Hend]; [rewrite (proj2 (Z.ltb_lt wc 32)) by lia; done|rewrite Hend; apply orb_true_r]. }
    exists lfn. split; [by rewrite Z.add_0_r|]. split; [apply put_units_nil|done].
  - apply Forall_cons in Hn as [Hn1 Hn]. apply Forall_cons in Hc as [Hc1 Hc]. destruct Hn1 as (Hb & Hs & Hbad). destruct (coded_bytes c ltac:(lia) Hc1) as (o & _ & _ & _ & _ & _ & Eu).
    unfold enc_name. cbn [fmap list_fmap concat]. rewrite <- app_assoc, Eu, bind_Ok. cbv iota beta. rewrite (proj2 (Z.eqb_neq c BAD_CHAR)) by (unfold BAD_CHAR; lia). rewrite (proj2 (Z.leb_gt 0x10000 c)) by lia. rewrite bind_Ok. cbv iota beta. rewrite u16_small by lia. cbv zeta.
    rewrite Hs, (proj2 (Z.ltb_ge c 32)) by lia. cbn [orb]. assert ((if c <? 128 then chr_in bad_lfn c else Ok false) = Ok false) as -> by (destruct (Z.ltb_spec c 128); [by apply Hbad|done]). rewrite bind_Ok. unfold FF_MAX_LFN. rewrite (proj2 (Z.leb_gt 255 di)) by lia. rewrite wr_in by lia. rewrite bind_Ok.
    destruct (IH fuel (<[Z.to_nat di := c]> lfn) (di + 1)) as (lfn' & E & P & Hu'); [done|done|lia|split; [by rewrite length_insert|apply Forall_insert; [done|lia]]|lia|lia|]. exists lfn'. split; [unfold enc_name in E; rewrite E; do 4 f_equal; lia|]. split; [by apply put_units_cons; [lia|]|done].
Qed.

(** A character that is delivered. *)
Lemma put_utf_enc c name di room : 0 < c < 65535 -> coded c -> 0 <= di -> zlen (enc c) <= room -> di + room <= zlen name ->
  exists name', put_utf c name di room = Ok (zlen (enc c), name') /\ put_units name di (enc c) name' /\ 0 < zlen (enc c).
Proof.
  intros Hc Hco Hd Hr Hl. destruct (coded_bytes c Hc Hco) as (o & Eo & Ho & _ & Ee & _). rewrite Ee in *. unfold put_utf. rewrite Eo, bind_Ok. destruct (Z.leb_spec 256 o); cbn [length] in *.
  - rewrite (proj2 (Z.ltb_ge room 2)) by lia. rewrite wr_in by lia. rewrite bind_Ok, wr_in by (rewrite length_insert; lia). rewrite bind_Ok. eexists. split; [reflexivity|]. split; [|lia]. apply put_units_cons; [lia|]. apply put_units_one. rewrite length_insert. lia.
  - rewrite (proj2 (Z.eqb_neq o 0)), (proj2 (Z.ltb_ge room 1)) by lia. cbn [orb]. rewrite wr_in by lia. rewrite bind_Ok. eexists. split; [reflexivity|]. split; [|lia]. apply put_units_one. lia.
Qed.

Lemma out_lfn_enc r w : Forall (fun c => 0 < c < 65535) w -> Forall coded w -> forall di name, zlen name = 256 -> 0 <= di -> di + zlen (enc_name w) <= 255 ->
  exists name', out_lfn (w ++ 0 :: r) 0 di name = Ok (di + zlen (enc_name w), 0, name') /\ put_units name di (enc_name w) name'.
Proof.
  intros Hw Hc. induction Hc as [|c w Hc1 Hc IH]; intros di name Hn Hd Hl.
  - exists name. cbn [app out_lfn]. split; [cbn; by rewrite Z.add_0_r|]. apply put_units_nil.
  - apply Forall_cons in Hw as [Hb Hw]. unfold enc_name in *. cbn [fmap list_fmap concat app out_lfn] in *. rewrite length_app in Hl. destruct (coded_bytes c Hb Hc1) as (_ & _ & _ & Hs & _).
    rewrite (proj2 (Z.eqb_neq c 0)) by lia. cbn [andb Z.eqb]. rewrite Hs. change (u32 (Z.shiftl 0 16)) with 0. rewrite Z.lor_0_l. cbn [andb].
    destruct (put_utf_enc c name di (FF_LFN_BUF - di) Hb Hc1 Hd) as (n1 & -> & P1 & Hz); [unfold FF_LFN_BUF; lia|unfold FF_LFN_BUF; lia|]. rewrite bind_Ok. cbn [fst snd]. rewrite (proj2 (Z.eqb_neq (zlen (enc c)) 0)) by lia.
    destruct (IH Hw (di + zlen (enc c)) n1) as (n2 & E & P2); [rewrite (proj1 P1); done|lia|lia|]. exists n2. split; [rewrite E; do 3 f_equal; rewrite length_app; lia|]. by eapply put_units_app.
Qed.

(** A stored byte as it is shown. *)
Definition shown_byte (c : Z) : Z := if c =? RDDEM then DDEM else c.

(** The text of a short name: body and extension without padding. *)
Definition sfn_text (s : list Z) : list Z :=
  let f l := shown_byte <$> List.filter (fun c => negb (c =? 32)) l in
  f (take 8 s) ++ (if get s 8 =? 32 then [] else [46]) ++ f (take 3 (drop 8 s)).

(** The bytes from index [si] on. *)
Fixpoint text_from (si : Z) (bs : list Z) : list Z :=
  match bs with
  | [] => []
  | c :: bs => (if c =? 32 then [] else (if si =? 8 then [46] else []) ++ [shown_byte c]) ++ text_from (si + 1) bs
  end.

Lemma text_plain si bs : si + zlen bs <= 8 \/ 8 < si -> text_from si bs = shown_byte <$> List.filter (fun c => negb (c =? 32)) bs.
Proof.
  revert si. induction bs as [|c bs IH]; intros si Hs; [done|]. cbn [text_from List.filter length] in *. rewrite IH by lia. destruct (c =? 32); cbn [negb app fmap list_fmap]; [done|]. rewrite (proj2 (Z.eqb_neq si 8)) by lia. done.
Qed.

Lemma text_app si a b : text_from si (a ++ b) = text_from si a ++ text_from (si + zlen a) b.
Proof. revert si. induction a as [|c a IH]; intros si; cbn [app text_from length]; [by rewrite Z.add_0_r|]. rewrite IH, <- app_assoc. do 3 f_equal. lia. Qed.

Lemma take_drop_11 (s : list Z) : take 11 s = take 8 s ++ take 3 (drop 8 s).
Proof. do 8 (destruct s as [|? s]; [done|]). cbn [take drop app]. done. Qed.

Lemma text_from_sfn s : 11 <= zlen s -> text_from 0 (take 11 s) = sfn_text s.
Proof.
  intros Hl. unfold sfn_text. rewrite (take_drop_11 s). rewrite text_app. rewrite text_plain by (rewrite length_take; lia). f_equal.
  rewrite length_take. replace (0 + Z.of_nat (8 `min` length s)) with 8 by lia. assert (get s 8 = get (drop 8 s) 0) as -> by (rewrite get_drop by lia; done). destruct (drop 8 s) as [|c t] eqn:Ed; [apply (f_equal length) in Ed; rewrite length_drop in Ed; cbn [length] in Ed; lia|].
  change (get (c :: t) 0) with c. cbn [take text_from]. rewrite (text_plain (8 + 1)) by lia. cbn [List.filter]. destruct (c =? 32); done.
Qed.

Lemma text_len si bs : 0 <= si -> zlen (text_from si bs) <= zlen bs + (if si <=? 8 then 1 else 0).
Proof.
  revert si. induction bs as [|c bs IH]; intros si Hs; cbn [text_from length]; [destruct (si <=? 8); lia|]. rewrite length_app. specialize (IH (si + 1) ltac:(lia)).
  destruct (Z.leb_spec si 8), (Z.leb_spec (si + 1) 8), (Z.eqb_spec si 8), (c =? 32); cbn [app length] in *; lia.
Qed.

Lemma out_sfn_ok b dir n : forall si di alt, 0 <= si -> 0 <= dir -> dir + si + Z.of_nat n <= zlen b -> 0 <= di -> di < 12 \/ 8 < si -> di + zlen (text_from si (take n (drop (Z.to_nat (dir + si)) b))) <= zlen alt ->
  (si <= 8 -> di <= si) ->
  exists alt', out_sfn n b dir si di alt = Ok (di + zlen (text_from si (take n (drop (Z.to_nat (dir + si)) b))), alt') /\ put_units alt di (text_from si (take n (drop (Z.to_nat (dir + si)) b))) alt'.
Proof.
  induction n as [|n IH]; intros si di alt Hsi Hdir Hb Hdi Hlt Hal Hle; cbn [out_sfn].
  - rewrite take_0. cbn [text_from length]. exists alt. split; [by rewrite Z.add_0_r|apply put_units_nil].
  - destruct (drop (Z.to_nat (dir + si)) b) as [|c t] eqn:Ed; [apply (f_equal length) in Ed; rewrite length_drop in Ed; cbn [length] in Ed; lia|]. assert (get b (dir + si) = c) as Ec by (pose proof (get_drop (Z.to_nat (dir + si)) b 0 ltac:(lia)) as G; rewrite Ed in G; rewrite Z2Nat.id, Z.add_0_r in G by lia; done).
    assert (drop (Z.to_nat (dir + (si + 1))) b = t) as Et by (replace (Z.to_nat (dir + (si + 1))) with (Z.to_nat (dir + si) + 1)%nat by lia; by rewrite <- drop_drop, Ed).
    rewrite rd_in by lia. rewrite bind_Ok, Ec. cbv zeta. cbn [take text_from] in *. destruct (Z.eqb_spec c 32); cbn [app] in *.
    + destruct (IH (si + 1) di alt) as (alt' & E & P); rewrite ?Et in *; [lia|lia|lia|lia|lia|done|lia|]. exists alt'. done.
    + fold (shown_byte c). replace (si + 1 =? 9) with (si =? 8) by (destruct (Z.eqb_spec si 8), (Z.eqb_spec (si + 1) 9); lia || done). destruct (Z.eqb_spec si 8) as [->|N8]; cbn [app andb length] in *.
      * unfold FF_SFN_BUF. rewrite (proj2 (Z.ltb_lt di 12)) by lia. rewrite wr_in by lia. rewrite !bind_Ok. cbv iota beta. rewrite wr_in by (rewrite length_insert; lia). rewrite bind_Ok.
        destruct (IH (8 + 1) (di + 1 + 1) (<[Z.to_nat (di + 1):=shown_byte c]> (<[Z.to_nat di:=46]> alt))) as (alt' & E & P); rewrite ?Et, ?length_insert in *; [lia|lia|lia|lia|lia|lia|lia|]. exists alt'. split; [rewrite E; do 2 f_equal; lia|].
        apply put_units_cons; [lia|]. apply put_units_cons; [rewrite length_insert; lia|done].
      * rewrite bind_Ok. cbv iota beta. rewrite wr_in by lia. rewrite bind_Ok. destruct (IH (si + 1) (di + 1) (<[Z.to_nat di:=shown_byte c]> alt)) as (alt' & E & P); rewrite ?Et, ?length_insert in *; [lia|lia|lia|lia|lia|lia|lia|]. exists alt'. split; [rewrite E; do 2 f_equal; lia|].
        apply put_units_cons; [lia|done].
Qed.

(** ** The names of an object *)

Definition codedb (c : Z) : bool := match ff_uni2oem c FF_CODE_PAGE with Ok o => negb (o =? 0) | _ => false end.

Lemma codedb_iff c : codedb c = true <-> coded c.
Proof.
  unfold codedb, coded. split.
  - intros E. destruct (ff_uni2oem c FF_CODE_PAGE) as [o| | |]; try done. exists o. split; [done|]. by apply negb_true_iff, Z.eqb_neq in E.
  - intros (o & -> & Ho). by rewrite (proj2 (Z.eqb_neq o 0) Ho).
Qed.

(** A long name as it is shown; nothing when it has no code or is too long. *)
Definition long_text (w : list Z) : list Z := if forallb codedb w && (zlen (enc_name w) <=? FF_LFN_BUF) then enc_name w else [].

(** The second half of a surrogate pair has no code. *)
Lemma out_lfn_half lfn hs di name : 0 < hs < 65536 -> Forall (fun c => 0 <= c < 65536) lfn -> lfn <> [] -> exists di' hs', out_lfn lfn hs di name = Ok (di', hs', name) /\ (di' = 0 \/ hs' <> 0).
Proof.
  intros Hh Hu Hne. destruct Hu as [|wc lfn Hw _]; [done|]. cbn [out_lfn]. destruct (wc =? 0); [exists di, hs; split; [done|lia]|]. rewrite (proj2 (Z.eqb_neq hs 0)) by lia. cbn [andb].
  assert (0x10000 <= Z.lor (u32 (Z.shiftl hs 16)) wc) as Hbig.
  { rewrite Z.shiftl_mul_pow2 by lia. rewrite u32_small by lia. etrans; [|apply (Z.le_trans _ (hs * 2 ^ 16))]; [reflexivity|lia|]. apply Z.ldiff_le; [apply Z.lor_nonneg; lia|]. apply Z.bits_inj'. intros n Hn. rewrite Z.ldiff_spec, Z.lor_spec, Z.bits_0. by destruct (Z.testbit (hs * 2 ^ 16) n). }
  unfold put_utf, ff_uni2oem. rewrite (proj2 (Z.ltb_ge _ 0x80)), (proj2 (Z.ltb_ge _ 0x10000)) by lia. cbn [andb]. rewrite bind_Ok. cbn [Z.leb Z.compare Z.eqb orb]. rewrite bind_Ok. cbn [fst snd Z.eqb]. exists 0, hs. split; [done|by left].
Qed.

Lemma put_utf_any c name di room : 0 < c < 65535 -> 0 <= di -> di + room <= zlen name ->
  (exists name', put_utf c name di room = Ok (zlen (enc c), name') /\ coded c /\ zlen (enc c) <= room /\ put_units name di (enc c) name' /\ 0 < zlen (enc c)) \/
  (put_utf c name di room = Ok (0, name) /\ (codedb c = false \/ room < zlen (enc c))).
Proof.
  intros Hc Hd Hl. destruct (codedb c) eqn:Ec.
  - apply codedb_iff in Ec. destruct (Z.le_gt_cases (zlen (enc c)) room) as [Hr|Hr].
    + left. destruct (put_utf_enc c name di room Hc Ec Hd Hr Hl) as (n1 & E & P & Hz). by exists n1.
    + right. split; [|by right]. destruct (coded_bytes c Hc Ec) as (o & Eo & Ho & _ & Ee & _). rewrite Ee in Hr. unfold put_utf. rewrite Eo, bind_Ok. destruct (Z.leb_spec 256 o); cbn [length] in Hr; [by rewrite (proj2 (Z.ltb_lt room 2)) by lia|].
      by rewrite (proj2 (Z.ltb_lt room 1)), orb_true_r by lia.
  - right. split; [|by left]. destruct (uni2oem_total c) as [o Eo]; [lia|]. unfold codedb in Ec. unfold put_utf. rewrite Eo in *. apply negb_false_iff, Z.eqb_eq in Ec. subst o. done.
Qed.

Lemma out_lfn_any r w : Forall (fun c => 0 <= c < 65536) r -> Forall (fun c => 0 < c < 65535) w -> forall di name, zlen name = 256 -> 0 <= di <= 255 ->
  exists di' hs name', out_lfn (w ++ 0 :: r) 0 di name = Ok (di', hs, name') /\ zlen name' = 256 /\
    if forallb codedb w && (di + zlen (enc_name w) <=? FF_LFN_BUF) then di' = di + zlen (enc_name w) /\ hs = 0 /\ put_units name di (enc_name w) name' else di' = 0 \/ hs <> 0.
Proof.
  intros Hr Hw. unfold FF_LFN_BUF. induction Hw as [|c w Hb Hw IH]; intros di name Hn Hd.
  - exists di, 0, name. cbn [app out_lfn forallb andb]. split; [done|]. split; [done|]. change (zlen (enc_name [])) with 0. rewrite Z.add_0_r. rewrite (proj2 (Z.leb_le di 255)) by lia. split; [done|]. split; [done|apply put_units_nil].
  - cbn [app out_lfn forallb]. rewrite (proj2 (Z.eqb_neq c 0)) by lia. cbn [Z.eqb andb]. unfold enc_name in *. cbn [fmap list_fmap concat]. rewrite length_app. destruct (IsSurrogate c) eqn:Es.
    + destruct (out_lfn_half (w ++ 0 :: r) c di name) as (di' & hs & E & Hf); [lia| |by destruct w|].
      { apply Forall_app. split; [eapply Forall_impl; [exact Hw|cbn; lia]|]. apply Forall_cons. split; [lia|done]. }
      exists di', hs, name. split; [done|]. split; [done|]. assert (codedb c = false) as ->; [|done]. destruct (codedb c) eqn:Ec; [|done]. apply codedb_iff in Ec. destruct (coded_bytes c Hb Ec) as (_ & _ & _ & Hns & _). congruence.
    + change (u32 (Z.shiftl 0 16)) with 0. rewrite Z.lor_0_l. unfold FF_LFN_BUF. destruct (put_utf_any c name di (255 - di) Hb) as [(n1 & -> & Hco & Hr1 & P1 & Hz)|[-> Hf]]; [lia|lia| |]; rewrite bind_Ok; cbn [fst snd].
      * rewrite (proj2 (Z.eqb_neq (zlen (enc c)) 0)) by lia. destruct (IH (di + zlen (enc c)) n1) as (di' & hs & n2 & E & L2 & R); [rewrite (proj1 P1); done|lia|]. exists di', hs, n2. split; [done|]. split; [done|]. apply codedb_iff in Hco. rewrite Hco. cbn [andb].
        replace (di + Z.of_nat (length (enc c) + length (concat (enc <$> w)))) with (di + zlen (enc c) + zlen (concat (enc <$> w))) by lia. destruct (forallb codedb w && _); [|done]. destruct R as (-> & -> & P2). split; [done|]. split; [done|]. eapply put_units_app; [lia|done|done].
      * cbn [Z.eqb]. exists 0, 0, name. split; [done|]. split; [done|]. assert (codedb c && forallb codedb w && (di + Z.of_nat (length (enc c) + length (concat (enc <$> w))) <=? 255) = false) as ->; [|by left].
        destruct Hf as [->|Hf]; [done|]. rewrite (proj2 (Z.leb_gt _ 255)) by lia. apply andb_false_r.
Qed.

(** The short name shown with the case that the flags tell, up to a zero. *)
Fixpoint cased (lcf nt : Z) (t : list Z) : list Z :=
  match t with
  | [] => []
  | c :: t => if c =? 0 then [] else let lcf := if c =? 46 then NS_EXT else lcf in (if IsUpper c && has nt lcf then c + 32 else c) :: cased lcf nt t
  end.

Lemma copy_alt_ok r nt t : forall di lcf name, 0 <= di -> di + zlen t <= zlen name -> exists name', copy_alt (t ++ 0 :: r) di lcf nt name = Ok (di + zlen (cased lcf nt t), name') /\ put_units name di (cased lcf nt t) name'.
Proof.
  induction t as [|c t IH]; intros di lcf name Hd Hl; cbn [app copy_alt cased length] in *; [exists name; split; [by rewrite Z.add_0_r|apply put_units_nil]|]. destruct (c =? 0); [exists name; split; [cbn [length]; by rewrite Z.add_0_r|apply put_units_nil]|]. cbv zeta.
  rewrite wr_in by lia. rewrite bind_Ok. set (c' := if IsUpper c && has nt (if c =? 46 then NS_EXT else lcf) then c + 32 else c). destruct (IH (di + 1) (if c =? 46 then NS_EXT else lcf) (<[Z.to_nat di := c']> name)) as (n2 & E & P); [lia|rewrite length_insert; lia|].
  exists n2. split; [rewrite E; do 2 f_equal; cbn [length]; lia|]. apply put_units_cons; [lia|done].
Qed.

Lemma cased_len lcf nt t : zlen (cased lcf nt t) <= zlen t.
Proof. revert lcf. induction t as [|c t IH]; intros lcf; cbn [cased length]; [lia|]. destruct (c =? 0); cbn [length]; [lia|]. specialize (IH (if c =? 46 then NS_EXT else lcf)). lia. Qed.

(** The name of an object that a program sees. *)
Definition shown_name (long : option (list Z)) (s : list Z) : list Z :=
  match match long with Some w => long_text w | None => [] end with
  | [] => if bool_decide (sfn_text s = []) then [63] else cased NS_BODY (get s DIR_NTres) (sfn_text s)
  | l => l
  end.

Lemma sfn_text_len s : 11 <= zlen s -> zlen (sfn_text s) <= 12.
Proof. intros Hl. rewrite <- text_from_sfn by done. etrans; [apply text_len; lia|]. rewrite length_take. change (0 <=? 8) with true. cbv iota. lia. Qed.

Lemma shown_len long s : 11 <= zlen s -> zlen (shown_name long s) <= 255.
Proof.
  intros Hl. pose proof (sfn_text_len s Hl) as H12. assert (zlen (match long with Some w => long_text w | None => [] end) <= 255) as Hlong.
  { destruct long as [w|]; [|cbn; lia]. unfold long_text, FF_LFN_BUF. destruct (forallb codedb w); cbn [andb]; [|cbn; lia]. destruct (Z.leb_spec (zlen (enc_name w)) 255); [lia|cbn; lia]. }
  unfold shown_name. destruct (match long with Some w => long_text w | None => [] end); [|done]. destruct (bool_decide _); [cbn; lia|]. etrans; [apply cased_len|lia].
Qed.

Lemma enc_name_first c w : Forall (fun c => 0 < c < 65535) (c :: w) -> forallb codedb (c :: w) = true -> exists b t, enc_name (c :: w) = b :: t /\ b <> 0.
Proof.
  intros Hw Hc. apply Forall_cons in Hw as [Hb _]. cbn [forallb] in Hc. apply andb_true_iff in Hc as [Hc _]. apply codedb_iff in Hc. destruct (coded_bytes c Hb Hc) as (o & _ & _ & _ & Ee & Fe & _). unfold enc_name. cbn [fmap list_fmap concat].
  destruct (enc c) as [|b t]; [destruct (256 <=? o); done|]. apply Forall_cons in Fe as [Hb1 _]. eexists b, _. split; [reflexivity|lia].
Qed.

(** Storing the long name, if there is one. *)
Lemma long_part d lfn name long : zlen name = 256 -> get name 0 = 0 -> match long with Some w => blk_ofs d <> NO_BLOCK /\ named w lfn | None => blk_ofs d = NO_BLOCK end ->
  exists name', (if negb (blk_ofs d =? NO_BLOCK) then x ← out_lfn lfn 0 0 name; let '(di, hs, name) := x in wr name (if negb (hs =? 0) then 0 else di) 0 else Ok name) = Ok name' /\ zlen name' = 256 /\
    match match long with Some w => long_text w | None => [] end with [] => get name' 0 = 0 | l => get name' 0 <> 0 /\ exists r, name' = l ++ 0 :: r end.
Proof.
  intros Hn H0 Hlong. destruct long as [w|]; [destruct Hlong as [Hb Hw]|rewrite Hlong, Z.eqb_refl; by exists name]. rewrite (proj2 (Z.eqb_neq _ _) Hb). cbn [negb]. destruct (named_split w lfn Hw) as [r ->]. pose proof (nm_chars _ _ Hw) as Hc. pose proof (nm_len _ _ Hw) as Hlen.
  assert (Forall (fun c => 0 <= c < 65536) r) as Hr. { pose proof (nm_units _ _ Hw) as U. apply Forall_app in U as [_ U]. by apply Forall_cons in U as [_ U]. }
  destruct (out_lfn_any r w Hr Hc 0 name Hn ltac:(lia)) as (di & hs & n1 & E & L1 & R). rewrite E, bind_Ok. cbv iota beta. unfold long_text. rewrite Z.add_0_l in R. destruct (forallb codedb w && (zlen (enc_name w) <=? FF_LFN_BUF)) eqn:Eok.
  - destruct R as (-> & -> & P1). cbn [Z.eqb negb]. apply andb_true_iff in Eok as [Ecod Elen]. apply Z.leb_le in Elen. unfold FF_LFN_BUF in Elen. rewrite wr_in by lia. eexists. split; [reflexivity|]. split; [by rewrite length_insert|]. rewrite Nat2Z.id.
    destruct (put_units_string name (enc_name w) n1 ltac:(lia) P1) as [r' ->]. destruct w as [|c w]; [cbn in Hlen; lia|]. destruct (enc_name_first c w Hc Ecod) as (b & t & -> & Hb0). split; [done|]. by exists r'.
  - assert ((if negb (hs =? 0) then 0 else di) = 0) as -> by (destruct (Z.eqb_spec hs 0); cbn [negb]; [by destruct R|done]). rewrite wr_in by lia. exists (<[Z.to_nat 0 := 0]> n1). split; [done|]. split; [by rewrite length_insert|]. apply get_insert_eq. lia.
Qed.

Lemma get_fileinfo_ok d b lfn fno long s : length b = 512%nat -> 0 <= d_dir d <= 480 -> entry_at b (d_dir d) = s -> Forall is_byte b -> d_sect d <> 0 -> zlen (fi_name fno) = 256 -> zlen (fi_alt fno) = 13 ->
  match long with Some w => blk_ofs d <> NO_BLOCK /\ named w lfn | None => blk_ofs d = NO_BLOCK end ->
  exists fno' r, get_fileinfo d b lfn fno = Ok fno' /\ fi_name fno' = shown_name long s ++ 0 :: r /\ fi_attr fno' = attr_of s /\ fi_size fno' = le32 s DIR_FileSize /\
    fi_time fno' = le16 s DIR_ModTime /\ fi_date fno' = le16 s (DIR_ModTime + 2) /\ zlen (fi_name fno') = 256 /\ zlen (fi_alt fno') = 13.
Proof.
  intros Lb Hd Es Hby Hsect Ln La Hlong. pose proof (entry_len b (d_dir d) Lb Hd) as Le. rewrite Es in Le. unfold get_fileinfo. rewrite wr_in by lia. rewrite bind_Ok, (proj2 (Z.eqb_neq _ 0) Hsect).
  destruct (long_part d lfn (<[Z.to_nat 0 := 0]> (fi_name fno)) long) as (n1 & -> & L1 & R1); [by rewrite length_insert|apply get_insert_eq; lia|done|]. rewrite bind_Ok.
  assert (text_from 0 (take 11 (drop (Z.to_nat (d_dir d + 0)) b)) = sfn_text s) as Et.
  { rewrite <- text_from_sfn by lia. f_equal. rewrite <- Es. unfold entry_at. rewrite take_take, Z.add_0_r. done. }
  pose proof (sfn_text_len s ltac:(lia)) as H12. destruct (out_sfn_ok b (d_dir d) 11 0 0 (fi_alt fno)) as (alt & Ea & Pa); rewrite ?Et in *; [lia|lia|lia|lia|lia|lia|lia|]. rewrite Z.add_0_l in Ea. rewrite Ea, bind_Ok. cbv iota beta.
  pose proof (proj1 Pa) as Lalt. rewrite (wr_in alt (zlen (sfn_text s)) 0) by lia. rewrite bind_Ok, Nat2Z.id. destruct (put_units_string (fi_alt fno) (sfn_text s) alt ltac:(lia) Pa) as [ra Era]. rewrite Era. rewrite (rd_in n1 0) by lia. rewrite bind_Ok.
  assert (zlen (sfn_text s ++ 0 :: ra) = 13) as Lalt2 by (rewrite <- Era, length_insert; lia).
  assert (exists name alt2, (if get n1 0 =? 0 then nt ← rd b (d_dir d + DIR_NTres); x ← (if zlen (sfn_text s) =? 0 then name ← wr n1 0 63; Ok (1, name) else copy_alt (sfn_text s ++ 0 :: ra) 0 NS_BODY nt n1); let '(di, name) := x in name ← wr name di 0; alt ← (if nt =? 0 then wr (sfn_text s ++ 0 :: ra) 0 0 else Ok (sfn_text s ++ 0 :: ra)); Ok (name, alt)
    else Ok (n1, sfn_text s ++ 0 :: ra)) = Ok (name, alt2) /\ zlen name = 256 /\ zlen alt2 = 13 /\ exists r, name = shown_name long s ++ 0 :: r) as (name & alt2 & -> & Lname & Lalt3 & r & Er).
  { unfold shown_name. destruct (match long with Some w => long_text w | None => [] end) as [|l0 lt].
    - rewrite R1. cbn [Z.eqb]. rewrite (rd_entry b (d_dir d) Lb Hd DIR_NTres) by (unfold DIR_NTres; lia). rewrite Es, rd_in by (unfold DIR_NTres; lia). rewrite Z.add_0_l, bind_Ok.
      assert (exists alt2, (if get s DIR_NTres =? 0 then wr (sfn_text s ++ 0 :: ra) 0 0 else Ok (sfn_text s ++ 0 :: ra)) = Ok alt2 /\ zlen alt2 = 13) as (alt2 & Ealt & Lalt3). { destruct (_ =? 0); [rewrite wr_in by lia; eexists; split; [reflexivity|by rewrite length_insert]|by eexists]. }
      destruct (bool_decide_reflect (sfn_text s = [])) as [E0|N0].
      + rewrite E0 in *. cbn [length Z.eqb] in *. change (Z.of_nat 0 =? 0) with true. cbv iota. rewrite (wr_in n1 0 63) by lia. rewrite !bind_Ok. cbv iota beta. rewrite (wr_in (<[Z.to_nat 0:=63]> n1) 1 0) by (rewrite length_insert; lia). rewrite bind_Ok, Ealt, bind_Ok. eexists _, alt2. split; [reflexivity|]. split; [by rewrite !length_insert|]. split; [done|].
        destruct n1 as [|x0 [|x1 n1]]; [cbn in L1; lia|cbn in L1; lia|]. by exists n1.
      + rewrite (proj2 (Z.eqb_neq (zlen (sfn_text s)) 0)) by (destruct (sfn_text s); [done|cbn [length]; lia]). destruct (copy_alt_ok ra (get s DIR_NTres) (sfn_text s) 0 NS_BODY n1) as (n2 & -> & P2); [lia|lia|]. rewrite bind_Ok. cbv iota beta. pose proof (cased_len NS_BODY (get s DIR_NTres) (sfn_text s)) as Hcl. pose proof (proj1 P2) as L2.
        rewrite Z.add_0_l, (wr_in n2 (zlen (cased NS_BODY (get s DIR_NTres) (sfn_text s))) 0) by lia. rewrite bind_Ok, Ealt, bind_Ok, Nat2Z.id. eexists _, alt2. split; [reflexivity|]. split; [rewrite length_insert; lia|]. split; [done|]. by apply (put_units_string n1); [lia|].
    - destruct R1 as [H0 [r ->]]. rewrite (proj2 (Z.eqb_neq _ 0) H0). eexists _, _. split; [reflexivity|]. split; [done|]. split; [done|]. by exists r. }
  rewrite bind_Ok. cbv iota beta. rewrite (rd_entry b (d_dir d) Lb Hd DIR_Attr) by (unfold DIR_Attr; lia). rewrite Es, rd_in by (unfold DIR_Attr; lia). rewrite Z.add_0_l, bind_Ok.
  assert (forall o, 0 <= o < 32 -> get b (d_dir d + o) = get s o) as Hg by (intros o Ho; rewrite <- Es; by rewrite entry_get by lia).
  rewrite ld_dword_ok by (done || (unfold DIR_FileSize; lia)). rewrite bind_Ok. rewrite !ld_word_ok by (done || (unfold DIR_ModTime; lia)). rewrite !bind_Ok. eexists _, r. split; [reflexivity|]. cbn [fi_name fi_alt fi_attr fi_size fi_time fi_date]. split; [done|]. split; [done|].
  unfold le32, le16, DIR_FileSize, DIR_ModTime. rewrite <- !Hg by lia. replace (d_dir d + 22 + 2) with (d_dir d + (22 + 2)) by lia. rewrite !Z.add_assoc. done.
Qed.

(** ** Names shown are names accepted *)

(** A long name that can be typed: its characters are allowed and have a code,
    it does not end in a space or dot and is not too long. *)
Record typeable (w : list Z) : Prop := {
  ty_chars : Forall name_char w;
  ty_coded : forallb codedb w = true;
  ty_len : 0 < zlen w <= 255;
  ty_bytes : zlen (enc_name w) <= FF_LFN_BUF;
  ty_last : get w (zlen w - 1) <> 32 /\ get w (zlen w - 1) <> 46
}.

Lemma snipped_id w0 w : snipped w0 w -> w0 <> [] -> get w0 (zlen w0 - 1) <> 32 -> get w0 (zlen w0 - 1) <> 46 -> w = w0.
Proof.
  intros (t & -> & Ht & _) Hne H1 H2. destruct t as [|c t] using rev_ind; [by rewrite app_nil_r|]. exfalso. apply Forall_app in Ht as [_ Ht]. apply Forall_cons in Ht as [Ht _].
  rewrite app_assoc, length_app in H1, H2. cbn [length] in H1, H2. replace (Z.of_nat (length (w ++ t) + 1) - 1) with (zlen (w ++ t)) in H1, H2 by lia. rewrite get_app_r in H1, H2 by lia. rewrite Z.sub_diag in H1, H2. change (get [c] 0) with c in H1, H2. lia.
Qed.

Lemma create_name_enc w fn lfn r : typeable w -> fname fn -> units lfn ->
  exists fn' lfn', create_name fn lfn (enc_name w ++ 0 :: r) = Ok (FR_OK, fn', lfn', r) /\ named w lfn' /\ storable fn' /\ status_ok true (get fn' NSFLAG).
Proof.
  intros [Hch Hco Hl Hb [H1 H2]] Hfn Hu. unfold create_name. assert (Forall coded w) as Hcd by (apply Forall_forall; intros c Hc; apply codedb_iff; rewrite forallb_forall in Hco; apply Hco; by apply list_elem_of_In).
  assert (length w <= length (enc_name w))%nat as Hlen.
  { clear -Hcd Hch. induction Hcd as [|c w Hc _ IH]; [done|]. apply Forall_cons in Hch as [(Hb & _) Hch]. unfold enc_name in *. cbn [fmap list_fmap concat length]. rewrite length_app. specialize (IH Hch). destruct (coded_bytes c ltac:(lia) Hc) as (o & _ & _ & _ & -> & _). destruct (256 <=? o); cbn [length]; lia. }
  destruct (name_loop_enc (0 :: r) 0 r) with (w := w) (fuel := S (length (enc_name w ++ 0 :: r))) (lfn := lfn) (di := 0) as (lfn1 & E & [_ P] & Hu1); [done|lia|by left|done|done|rewrite length_app; lia|done|lia|lia|]. rewrite E, bind_Ok. cbv iota beta. cbn [Z.ltb Z.compare]. rewrite bind_Ok. cbv iota beta. rewrite Z.add_0_l, Nat2Z.id.
  destruct (snip_ok lfn1 w Hch ltac:(lia) Hu1) as (w' & lfn2 & Es & Ew & Hu2 & Hsn & Hn); [intros j Hj; rewrite P by lia; rewrite (proj2 (Z.leb_le 0 j)), (proj2 (Z.ltb_lt j _)) by lia; cbn [andb]; by rewrite Z.sub_0_r|].
  assert (w <> []) as Hne by (intros ->; cbn in Hl; lia). rewrite (snipped_id w w' Hsn Hne H1 H2) in *. specialize (Hn Hne). rewrite Es, bind_Ok, Ew, bind_Ok. rewrite (proj2 (Z.eqb_neq (zlen w) 0)) by lia.
  destruct (make_sfn_ok true w lfn2 fn Hn Hfn) as (fn' & Em & Hst & Hfl). change (make_sfn lfn2 (zlen w) NS_LAST fn) with (make_sfn lfn2 (zlen w) 4 fn). rewrite Em, bind_Ok. exists fn', lfn2. done.
Qed.

(** C27: the name that [get_fileinfo] delivers for an object with a long name
    that can be typed, given back as a path, makes [create_name] put that long
    name into the buffer again, with a short name that can be stored and the
    status of a last segment: what a listing shows, opening accepts. *)
Theorem listed_name_accepted (d : DIR) (b lfn : list Z) (fno : FILINFO) (w fn0 lfn0 : list Z) :
  typeable w -> named w lfn -> blk_ofs d <> NO_BLOCK -> d_sect d <> 0 -> 0 <= d_dir d <= 480 -> length b = 512%nat -> Forall is_byte b ->
  zlen (fi_name fno) = 256 -> zlen (fi_alt fno) = 13 -> fname fn0 -> units lfn0 ->
  exists fno' r fn' lfn', get_fileinfo d b lfn fno = Ok fno' /\ fi_name fno' = enc_name w ++ 0 :: r /\
    create_name fn0 lfn0 (fi_name fno') = Ok (FR_OK, fn', lfn', r) /\ named w lfn' /\ storable fn' /\ status_ok true (get fn' NSFLAG).
Proof.
  intros Hty Hw Hblk Hsec Hd Lb Bb Ln La Hfn Hu. destruct (get_fileinfo_ok d b lfn fno (Some w) (entry_at b (d_dir d)) Lb Hd eq_refl Bb Hsec Ln La (conj Hblk Hw)) as (fno' & r & E & En & _).
  assert (shown_name (Some w) (entry_at b (d_dir d)) = enc_name w) as Es.
  { unfold shown_name, long_text. rewrite (ty_coded _ Hty), (proj2 (Z.leb_le _ _) (ty_bytes _ Hty)). cbn [andb]. pose proof (ty_len _ Hty) as Hl. destruct w as [|c w]; [cbn in Hl; lia|].
    destruct (enc_name_first c w (nm_chars _ _ Hw) (ty_coded _ Hty)) as (b0 & t & -> & _). done. }
  rewrite Es in En. destruct (create_name_enc w fn0 lfn0 r Hty Hfn Hu) as (fn' & lfn' & Ec & R). exists fno', r, fn', lfn'. split; [done|]. split; [done|]. rewrite En. done.
Qed.

(** A name with a double-byte character, U+3042. *)
Definition demo_wide : list Z := [97; 0x3042; 98].

Lemma listed_name_accepted_witness :
  exists fno' fn' lfn', get_fileinfo (mk_DIR (mk_obj true 1 32 0 0 0) 32 0 5 32 (replicate 12 32) 0) (replicate 512 65) (name_buf demo_wide) (mk_filinfo 0 0 0 0 (replicate 13 0) (replicate 256 0)) = Ok fno' /\
    take 5 (fi_name fno') = [97; 130; 160; 98; 0] /\ create_name (replicate 12 32) (replicate 256 0) (fi_name fno') = Ok (FR_OK, fn', lfn', drop 5 (fi_name fno')) /\ take 4 lfn' = [97; 0x3042; 98; 0].
Proof.
  assert (typeable demo_wide) as Hty.
  { split; [|vm_compute; reflexivity|cbn; lia|vm_compute; discriminate|split; discriminate]. repeat (apply Forall_cons; split; [split; [lia|split; [done|intros _; (vm_compute; reflexivity) || lia]]|]). done. }
  assert (units (replicate 256 0)) as Hu by (split; [done|apply Forall_replicate; lia]).
  destruct (listed_name_accepted (mk_DIR (mk_obj true 1 32 0 0 0) 32 0 5 32 (replicate 12 32) 0) (replicate 512 65) (name_buf demo_wide) (mk_filinfo 0 0 0 0 (replicate 13 0) (replicate 256 0)) demo_wide (replicate 12 32) (replicate 256 0) Hty) as (fno' & r & fn' & lfn' & E & En & Ec & Hn & _).
  - apply wname_named. split; [|cbn; lia]. repeat (apply Forall_cons; split; [lia|]). done.
  - done.
  - done.
  - cbn. lia.
  - done.
  - apply Forall_replicate. unfold is_byte. lia.
  - done.
  - done.
  - split; [done|]. apply Forall_replicate. unfold is_byte. lia.
  - exact Hu.
  - exists fno', fn', lfn'. assert (enc_name demo_wide = [97; 130; 160; 98]) as Ee by (vm_compute; reflexivity). rewrite Ee in En. split; [exact E|]. rewrite En in *. split; [reflexivity|]. split; [exact Ec|].
    destruct (named_split _ _ Hn) as [r' ->]. reflexivity.
Defined.
