(* ===== verification/FatApi.v ===== *)
(** * FatApi: paths and the functions that take them (ff.c)

    [follow_path] walks from the root directory to the object a path names;
    [f_open] and the functions on directories start with it. The state is the
    file system object with its drive and the static working buffer of long
    names. A directory object on the stack has any content at first: it is an
    argument. *)

From Stdlib Require Import ZArith Lia Bool.
From stdpp Require Import base list list_numbers.
From S2P Require Import Prelude CLib Hw Ata FatUni Fat FatChain FatFile FatLfn FatDir FatMount FatName.
From stdpp Require Import options.

Definition FA_CREATE_NEW : Z := 4.
Definition FA_CREATE_ALWAYS : Z := 8.
Definition FA_OPEN_ALWAYS : Z := 16.
Definition FA_SEEKEND : Z := 32.
Definition AM_RDO : Z := 1.
Definition DIR_CrtTime : Z := 14.

(** The fields of the object that the functions below set. *)
Definition d_start (cl : Z) (d : DIR) : DIR :=
  mk_DIR (obj_sclust cl (d_obj d)) (dptr d) (d_clust d) (d_sect d) (d_dir d) (d_fn d) (blk_ofs d).
Definition obj_fs (x : bool) (o : FFOBJID) : FFOBJID := mk_obj x (o_id o) (o_attr o) (o_stat o) (sclust o) (objsize o).
Definition obj_id (x : Z) (o : FFOBJID) : FFOBJID := mk_obj (o_fs o) x (o_attr o) (o_stat o) (sclust o) (objsize o).
Definition d_onobj (k : FFOBJID -> FFOBJID) (d : DIR) : DIR :=
  mk_DIR (k (d_obj d)) (dptr d) (d_clust d) (d_sect d) (d_dir d) (d_fn d) (blk_ofs d).

(** The entry of a new or overwritten file at [dir]: times, attribute, no
    cluster, no bytes; and the first cluster it had. *)
Definition new_entry (g : geometry) (tm dir : Z) (b : list Z) : res (Z * list Z) :=
  b ← st_dword b (dir + DIR_CrtTime) tm;
  b ← st_dword b (dir + DIR_ModTime) tm;
  cl ← ld_clust g b dir;
  b ← wr b (dir + DIR_Attr) AM_ARC;
  b ← st_clust g b dir 0;
  b ← st_dword b (dir + DIR_FileSize) 0;
  Ok (cl, b).

(** The dot entries of a new directory, in a cleared window. *)
Definition dot_entries (g : geometry) (tm dcl pcl : Z) (b : list Z) : res (list Z) :=
  b ← store b DIR_Name (replicate 11 32);
  b ← wr b DIR_Name 46;
  b ← wr b DIR_Attr AM_DIR;
  b ← st_dword b DIR_ModTime tm;
  b ← st_clust g b 0 dcl;
  e ← fetch b 0 SZDIRE;
  b ← store b SZDIRE e;
  b ← wr b (SZDIRE + 1) 46;
  st_clust g b SZDIRE pcl.

(** The entry of a new directory. *)
Definition dir_entry (g : geometry) (tm dcl dir : Z) (b : list Z) : res (list Z) :=
  b ← st_dword b (dir + DIR_ModTime) tm;
  b ← st_clust g b dir dcl;
  wr b (dir + DIR_Attr) AM_DIR.

(** The renamed entry: the old one but for the name. *)
Definition moved_entry (buf : list Z) (dir : Z) (b : list Z) : res (list Z) :=
  e ← fetch buf 13 (SZDIRE - 13);
  b ← store b (dir + 13) e;
  a ← rd buf DIR_Attr;
  wr b (dir + DIR_Attr) (if negb (has a AM_DIR) then Z.lor a AM_ARC else a).

Record fatfs (D : Type) := mk_fatfs { a_ff : ff D; a_lfn : list Z }.
Arguments mk_fatfs {D} _ _.
Arguments a_ff {D} _.
Arguments a_lfn {D} _.

Section Api.
Context {D : Type} `{BlockDev D}.
Abbreviation VM := (M (vol D)).
Abbreviation DM := (M (work_dir D)).
Abbreviation AM := (M (fatfs D)).

(** [cfuel] bounds the search for a free cluster, [dfuel] the entries of a
    directory that are visited. *)
Context (cfuel dfuel : nat).

(** ** Following a path *)

Fixpoint follow_loop (fuel : nat) (path : list Z) : DM FRESULT :=
  match fuel with
  | O => lift NoFuel
  | S fuel =>
      d ← dp; lfn ← lfnbuf;
      x ← lift (create_name (d_fn d) lfn path);
      let '(r, fn, lfn, path) := x in
      _ ← set_dp (d_name fn); _ ← set_lfn lfn;
      if negb (fr_ok r) then mret r
      else
        r ← dir_find cfuel dfuel;
        d ← dp;
        ns ← lift (rd (d_fn d) NSFLAG);
        if negb (fr_ok r) then mret (if bool_decide (r = FR_NO_FILE) && negb (has ns NS_LAST) then FR_NO_PATH else r)
        else if has ns NS_LAST then mret r
        else if negb (has (o_attr (d_obj d)) AM_DIR) then mret FR_NO_PATH
        else
          g ← dvol geo; w ← dvol wnd;
          cl ← lift (ld_clust g (win w) (dptr d mod SS));
          _ ← set_dp (d_start cl);
          follow_loop fuel path
  end.

Definition follow_path (path : list Z) : DM FRESULT :=
  path ← lift (skip_seps path);
  _ ← set_dp (d_start 0);
  c ← lift (rd path 0);
  if IsTerminator c then
    d ← dp;
    fn ← lift (wr (d_fn d) NSFLAG NS_NONAME);
    _ ← set_dp (d_name fn);
    dir_sdi 0
  else follow_loop (length path) path.

(** ** The state of the functions *)

Definition onff {A} (m : M (ff D) A) : AM A := fun s =>
  match m (a_ff s) with
  | Ok (a, x) => Ok (a, mk_fatfs x (a_lfn s))
  | Fault => Fault | Spin => Spin | NoFuel => NoFuel
  end.
Definition avol {A} (m : VM A) : AM A := onff (onfs m).

(** A step on a directory object. *)
Definition with_dir {A} (d : DIR) (m : DM A) : AM (A * DIR) := fun s =>
  match m (mk_work (ff_vol (a_ff s)) d (a_lfn s)) with
  | Ok (a, x) => Ok ((a, wd_dp x), mk_fatfs (mk_ff (ff_reg (a_ff s)) (Fsid (a_ff s)) (wd_vol x)) (wd_lfn x))
  | Fault => Fault | Spin => Spin | NoFuel => NoFuel
  end.

(** [validate] on a directory object. *)
Definition validate_dir (o : FFOBJID) : AM FRESULT :=
  g ← avol geo; x ← gets (fun s => bd_noinit (v_dev (ff_vol (a_ff s))));
  mret (if o_fs o && truth (fs_type g) && (o_id o =? fs_id g) && negb x then FR_OK else FR_INVALID_OBJECT).

(** ** Directories *)

(** The part of [f_opendir] behind the search for the volume. *)
Definition open_dir (path : list Z) : DM FRESULT :=
  r ← follow_path path;
  if fr_ok r then
    d ← dp; g ← dvol geo;
    ns ← lift (rd (d_fn d) NSFLAG);
    r ← (if has ns NS_NONAME then mret FR_OK
         else if has (o_attr (d_obj d)) AM_DIR then
           w ← dvol wnd;
           cl ← lift (ld_clust g (win w) (d_dir d));
           _ ← set_dp (d_start cl); mret FR_OK
         else mret FR_NO_PATH);
    if fr_ok r then _ ← set_dp (d_onobj (obj_id (fs_id g))); dir_sdi 0 else mret r
  else mret r.

Definition f_opendir (d : DIR) (path : list Z) : AM (FRESULT * DIR) :=
  x ← onff (mount_volume path 0);
  y ← (if fr_ok x.1 then
         y ← with_dir (d_onobj (obj_fs true) d) (open_dir x.2);
         mret (if bool_decide (y.1 = FR_NO_FILE) then FR_NO_PATH else y.1, y.2)
       else mret (x.1, d));
  mret (y.1, if fr_ok y.1 then y.2 else d_onobj (obj_fs false) y.2).

Definition f_closedir (d : DIR) : AM (FRESULT * DIR) :=
  r ← validate_dir (d_obj d);
  mret (r, if fr_ok r then d_onobj (obj_fs false) d else d).

(** The next object and its description. *)
Definition read_item (fno : FILINFO) : DM (FRESULT * FILINFO) :=
  r ← dir_read cfuel dfuel false;
  let r := if bool_decide (r = FR_NO_FILE) then FR_OK else r in
  if fr_ok r then
    d ← dp; w ← dvol wnd; lfn ← lfnbuf;
    fno ← lift (get_fileinfo d (win w) lfn fno);
    r ← dir_next cfuel false;
    mret (if bool_decide (r = FR_NO_FILE) then FR_OK else r, fno)
  else mret (r, fno).

(** [fno = None] is the null pointer: the directory is rewound. *)
Definition f_readdir (d : DIR) (fno : option FILINFO) : AM (FRESULT * DIR * option FILINFO) :=
  r ← validate_dir (d_obj d);
  if fr_ok r then
    match fno with
    | None => y ← with_dir d (dir_sdi 0); mret (y.1, y.2, None)
    | Some fno => y ← with_dir d (read_item fno); mret (y.1.1, y.2, Some y.1.2)
    end
  else mret (r, d, fno).

Definition f_stat (d : DIR) (path : list Z) (fno : option FILINFO) : AM (FRESULT * option FILINFO) :=
  x ← onff (mount_volume path 0);
  if fr_ok x.1 then
    y ← with_dir (d_onobj (obj_fs true) d)
      (r ← follow_path x.2;
       if fr_ok r then
         d ← dp;
         ns ← lift (rd (d_fn d) NSFLAG);
         if has ns NS_NONAME then mret (FR_INVALID_NAME, fno)
         else
           match fno with
           | None => mret (FR_OK, None)
           | Some f =>
               w ← dvol wnd; lfn ← lfnbuf;
               f ← lift (get_fileinfo d (win w) lfn f);
               mret (FR_OK, Some f)
           end
       else mret (r, fno));
    mret y.1
  else mret (x.1, fno).

(** ** Opening a file *)

(** The entry of a file that is created or overwritten. *)
Definition overwrite : DM FRESULT :=
  d ← dp; g ← dvol geo; w ← dvol wnd;
  x ← lift (new_entry g get_fattime (d_dir d) (win w));
  _ ← dvol (win_put (fun _ => Ok x.2));
  if negb (x.1 =? 0) then
    let sc := winsect w in
    r ← dvol (remove_chain cfuel x.1 0);
    if fr_ok r then
      r ← dvol (move_window sc);
      _ ← dvol (a ← alc; set_alc (mk_alloc (u32 (x.1 - 1)) (free_clst a) (fsi_flag a)));
      mret r
    else mret r
  else mret FR_OK.

(** The object at the end of the path, found or not, under the mode: the
    result and the mode, which tells whether the file is new. *)
Definition open_entry (r : FRESULT) (mode : Z) : DM (FRESULT * Z) :=
  if has mode (FA_CREATE_ALWAYS + FA_OPEN_ALWAYS + FA_CREATE_NEW) then
    x ← (if negb (fr_ok r) then
           r ← (if bool_decide (r = FR_NO_FILE) then dir_register cfuel dfuel else mret r);
           mret (r, Z.lor mode FA_CREATE_ALWAYS)
         else
           d ← dp;
           mret (if has (o_attr (d_obj d)) (AM_RDO + AM_DIR) then FR_DENIED
                 else if has mode FA_CREATE_NEW then FR_EXIST else FR_OK, mode));
    let '(r, mode) := x in
    if fr_ok r && has mode FA_CREATE_ALWAYS then r ← overwrite; mret (r, mode) else mret (r, mode)
  else
    d ← dp;
    mret (if fr_ok r then
            if has (o_attr (d_obj d)) AM_DIR then FR_NO_FILE
            else if has mode FA_WRITE && has (o_attr (d_obj d)) AM_RDO then FR_DENIED else FR_OK
          else r, mode).

(** The chain up to the end of the file. *)
Fixpoint append_loop (fuel : nat) (bcs ofs clst : Z) : VM (FRESULT * Z * Z) :=
  match fuel with
  | O => lift NoFuel
  | S fuel =>
      if bcs <? ofs then
        clst ← get_fat clst;
        if clst <=? 1 then mret (FR_INT_ERR, ofs - bcs, clst)
        else if clst =? DISK_ERROR then mret (FR_DISK_ERR, ofs - bcs, clst)
        else append_loop fuel bcs (ofs - bcs) clst
      else mret (FR_OK, ofs, clst)
  end.

(** Seeking to the end of the file. *)
Definition seek_end (f : FIL) : VM (FRESULT * FIL) :=
  g ← geo;
  let size := objsize (f_obj f) in
  let bcs := u32 (csize g * SS) in
  x ← append_loop (S (Z.to_nat (size / bcs))) bcs size (sclust (f_obj f));
  let '(r, ofs, clst) := x in
  let f := fil_clust clst (fil_fptr size f) in
  if fr_ok r && negb (ofs mod SS =? 0) then
    let sc := clst2sect g clst in
    if sc =? 0 then mret (FR_INT_ERR, f)
    else
      let sect := u32 (sc + ofs / SS) in
      x ← drive (bd_read sect 1);
      mret (if res_ok x.1 then FR_OK else FR_DISK_ERR, fil_cache sect x.2 f)
  else mret (r, f).

(** The file object for the entry. *)
Definition open_fil (mode : Z) (f : FIL) : DM (FRESULT * FIL) :=
  d ← dp; g ← dvol geo; w ← dvol wnd;
  let mode := if has mode FA_CREATE_ALWAYS then Z.lor mode FA_MODIFIED else mode in
  cl ← lift (ld_clust g (win w) (d_dir d));
  sz ← lift (ld_dword (win w) (d_dir d + DIR_FileSize));
  let o := f_obj f in
  let f := mk_fil (mk_obj true (fs_id g) (o_attr o) (o_stat o) cl sz) mode FR_OK 0 (clust f) 0 (winsect w) (d_dir d) (replicate 512 0) in
  if has mode FA_SEEKEND && (0 <? sz) then dvol (seek_end f) else mret (FR_OK, f).

(** The part of [f_open] behind the search for the volume. *)
Definition open_path (path : list Z) (mode : Z) (f : FIL) : DM (FRESULT * FIL) :=
  r ← follow_path path;
  d ← dp;
  ns ← lift (rd (d_fn d) NSFLAG);
  let r := if fr_ok r && has ns NS_NONAME then FR_INVALID_NAME else r in
  x ← open_entry r mode;
  if fr_ok x.1 then open_fil x.2 f else mret (x.1, f).

Definition f_open (d : DIR) (f : FIL) (path : list Z) (mode : Z) : AM (FRESULT * FIL) :=
  let mode := Z.land mode (FA_READ + FA_WRITE + FA_CREATE_ALWAYS + FA_CREATE_NEW + FA_OPEN_ALWAYS + FA_SEEKEND) in
  x ← onff (mount_volume path mode);
  y ← (if fr_ok x.1 then
         y ← with_dir (d_onobj (obj_fs true) d) (open_path x.2 mode f);
         mret y.1
       else mret (x.1, f));
  mret (y.1, if fr_ok y.1 then y.2 else fil_obj (obj_fs false (f_obj y.2)) y.2).

(** ** Removing, creating and renaming *)

(** A step on another directory object, the first one being kept. *)
Definition other_dir {A} (d : DIR) (m : DM A) : DM (A * DIR) := fun x =>
  match m (mk_work (wd_vol x) d (wd_lfn x)) with
  | Ok (a, y) => Ok ((a, wd_dp y), mk_work (wd_vol y) (wd_dp x) (wd_lfn y))
  | Fault => Fault | Spin => Spin | NoFuel => NoFuel
  end.

(** Whether the directory at [cl] is empty. *)
Definition check_empty (sdj : DIR) (cl : Z) : DM FRESULT :=
  y ← other_dir (d_start cl (d_onobj (obj_fs true) sdj))
    (r ← dir_sdi 0;
     if fr_ok r then
       r ← dir_read cfuel dfuel false;
       mret (match r with FR_OK => FR_DENIED | FR_NO_FILE => FR_OK | r => r end)
     else mret r);
  mret y.1.

(** [sdj] is the second object on the stack. *)
Definition unlink_path (sdj : DIR) (path : list Z) : DM FRESULT :=
  r ← follow_path path;
  if fr_ok r then
    d ← dp; g ← dvol geo;
    ns ← lift (rd (d_fn d) NSFLAG);
    let r := if has ns NS_NONAME then FR_INVALID_NAME else if has (o_attr (d_obj d)) AM_RDO then FR_DENIED else FR_OK in
    x ← (if fr_ok r then
           w ← dvol wnd;
           dclst ← lift (ld_clust g (win w) (d_dir d));
           r ← (if has (o_attr (d_obj d)) AM_DIR then check_empty sdj dclst else mret FR_OK);
           mret (r, dclst)
         else mret (r, 0));
    let '(r, dclst) := x in
    if fr_ok r then
      r ← dir_remove cfuel dfuel;
      r ← (if fr_ok r && negb (dclst =? 0) then dvol (remove_chain cfuel dclst 0) else mret r);
      if fr_ok r then dvol sync_fs else mret r
    else mret r
  else mret r.

Definition f_unlink (d sdj : DIR) (path : list Z) : AM FRESULT :=
  x ← onff (mount_volume path FA_WRITE);
  if fr_ok x.1 then y ← with_dir (d_onobj (obj_fs true) d) (unlink_path sdj x.2); mret y.1
  else mret x.1.

Definition mkdir_path (path : list Z) : DM FRESULT :=
  r ← follow_path path;
  let r := if fr_ok r then FR_EXIST else r in
  if bool_decide (r = FR_NO_FILE) then
    g ← dvol geo;
    dcl ← dvol (create_chain cfuel 0);
    let r := if dcl =? DISK_ERROR then FR_DISK_ERR else if dcl =? 1 then FR_INT_ERR else if dcl =? 0 then FR_DENIED else FR_OK in
    let tm := get_fattime in
    r ← (if fr_ok r then
           r ← dvol (dir_clear dcl);
           if fr_ok r then
             d ← dp;
             _ ← dvol (win_put (dot_entries g tm dcl (sclust (d_obj d))));
             dir_register cfuel dfuel
           else mret r
         else mret r);
    if fr_ok r then
      d ← dp;
      _ ← dvol (win_put (dir_entry g tm dcl (d_dir d)));
      dvol sync_fs
    else _ ← dvol (remove_chain cfuel dcl 0); mret r
  else mret r.

Definition f_mkdir (d : DIR) (path : list Z) : AM FRESULT :=
  x ← onff (mount_volume path FA_WRITE);
  if fr_ok x.1 then y ← with_dir (d_onobj (obj_fs true) d) (mkdir_path x.2); mret y.1
  else mret x.1.

(** The new entry of the object, whose old entry is [buf]; [dj] is the object
    of the old one. *)
Definition move_entry (buf : list Z) (dj : DIR) : DM FRESULT :=
  d ← dp; g ← dvol geo;
  _ ← dvol (win_put (moved_entry buf (d_dir d)));
  w ← dvol wnd;
  a ← lift (rd (win w) (d_dir d + DIR_Attr));
  if has a AM_DIR && negb (sclust (d_obj dj) =? sclust (d_obj d)) then
    cl ← lift (ld_clust g (win w) (d_dir d));
    let sect := clst2sect g cl in
    if sect =? 0 then mret FR_INT_ERR
    else
      r ← dvol (move_window sect);
      if fr_ok r then
        w ← dvol wnd;
        c ← lift (rd (win w) (SZDIRE + 1));
        _ ← when (c =? 46) (dvol (win_put (fun b => st_clust g b SZDIRE (sclust (d_obj d)))));
        mret r
      else mret r
  else mret FR_OK.

Definition rename_path (path_old path_new : list Z) : DM FRESULT :=
  r ← follow_path path_old;
  d ← dp;
  ns ← lift (rd (d_fn d) NSFLAG);
  let r := if fr_ok r && has ns (NS_DOT + NS_NONAME) then FR_INVALID_NAME else r in
  if fr_ok r then
    w ← dvol wnd;
    buf ← lift (fetch (win w) (d_dir d) SZDIRE);
    y ← other_dir d
      (r ← follow_path path_new;
       dn ← dp;
       let r := if fr_ok r then
                  if (sclust (d_obj dn) =? sclust (d_obj d)) && (dptr dn =? dptr d) then FR_NO_FILE else FR_EXIST
                else r in
       if bool_decide (r = FR_NO_FILE) then
         r ← dir_register cfuel dfuel;
         if fr_ok r then move_entry buf d else mret r
       else mret r);
    if fr_ok y.1 then
      r ← dir_remove cfuel dfuel;
      if fr_ok r then dvol sync_fs else mret r
    else mret y.1
  else mret r.

Definition f_rename (d : DIR) (path_old path_new : list Z) : AM FRESULT :=
  n ← lift (get_ldnumber path_new);
  x ← onff (mount_volume path_old FA_WRITE);
  if fr_ok x.1 then y ← with_dir (d_onobj (obj_fs true) d) (rename_path x.2 n.2); mret y.1
  else mret x.1.

(** ** Free clusters *)

(** The scan of a FAT12 table from entry [clst] on. *)
Fixpoint scan12 (n : nat) (clst nfree : Z) : VM (FRESULT * Z) :=
  match n with
  | O => mret (FR_OK, nfree)
  | S n =>
      stat ← get_fat clst;
      if stat =? DISK_ERROR then mret (FR_DISK_ERR, nfree)
      else if stat =? 1 then mret (FR_INT_ERR, nfree)
      else scan12 n (clst + 1) (if stat =? 0 then nfree + 1 else nfree)
  end.

(** The scan of [n] entries of a FAT16 or FAT32 table, sector by sector. *)
Fixpoint scan_sectors (n : nat) (ty sect i nfree : Z) : VM (FRESULT * Z) :=
  match n with
  | O => mret (FR_OK, nfree)
  | S n =>
      r ← (if i =? 0 then move_window sect else mret FR_OK);
      let sect := if i =? 0 then u32 (sect + 1) else sect in
      if fr_ok r then
        w ← wnd;
        free ← lift (if ty =? FS_FAT16 then e ← ld_word (win w) i; Ok (e =? 0)
                     else e ← ld_dword (win w) i; Ok (Z.land e 0x0FFFFFFF =? 0));
        scan_sectors n ty sect ((i + if ty =? FS_FAT16 then 2 else 4) mod SS) (if free : bool then nfree + 1 else nfree)
      else mret (r, nfree)
  end.

(** The result and, unless the scan failed, the number of free clusters. *)
Definition count_free : VM (FRESULT * option Z) :=
  g ← geo; a ← alc;
  if free_clst a <=? u32 (n_fatent g - 2) then mret (FR_OK, Some (free_clst a))
  else
    x ← (if fs_type g =? FS_FAT12 then scan12 (S (Z.to_nat (n_fatent g - 3))) 2 0
         else scan_sectors (S (Z.to_nat (n_fatent g - 1))) (fs_type g) (fatbase g) 0 0);
    if fr_ok x.1 then
      a ← alc;
      _ ← set_alc (mk_alloc (last_clst a) x.2 (Z.lor (fsi_flag a) 1));
      mret (FR_OK, Some x.2)
    else mret (x.1, None).

Definition f_getfree (path : list Z) : AM (FRESULT * option Z) :=
  x ← onff (mount_volume path 0);
  if fr_ok x.1 then avol count_free else mret (x.1, None).

End Api.
