(* ===== verification/FatWalk.v ===== *)
(** * FatWalk: paths as walks through directories

    A path is a sequence of segments, each a long name with its short name;
    [follow_path] looks them up one after the other, from the root directory
    into the directories found. *)

From Stdlib Require Import ZArith Lia Bool.
From stdpp Require Import base list list_numbers sets.
From S2P Require Import Prelude CLib Hw Ata FatUni Fat FatChain FatFile FatRead FatSync FatLfn FatDir FatTable FatScan FatItems FatGrow FatEdit FatReg FatObj FatMount FatName FatApi.
From stdpp Require Import options.

(** ** Segments do not depend on what the buffers held *)

(** The same unit stored in two buffers. *)
Lemma wr_two l1 l2 di c l1' : length l1 = length l2 -> wr l1 di c = Ok l1' -> exists l2', wr l2 di c = Ok l2' /\ length l2' = length l1' /\ length l1' = length l1 /\
  get l2' di = get l1' di /\ (forall j, 0 <= j -> j <> di -> get l1' j = get l1 j /\ get l2' j = get l2 j).
Proof.
  intros L E. destruct (decide (0 <= di < zlen l1)) as [Hd|Hd]; [|rewrite wr_out in E by done; done]. rewrite wr_in in E by done. injection E as <-. rewrite wr_in by lia. eexists. split; [reflexivity|]. rewrite !length_insert. split; [done|]. split; [done|].
  split; [by rewrite !get_insert_eq by lia|]. intros j Hj Hne. by rewrite !get_insert_ne by lia.
Qed.

Lemma name_loop_mono fuel : forall p l di o l', 0 <= di -> name_loop fuel p l di = Ok (o, l') -> length l' = length l /\ (forall j, 0 <= j < di -> get l' j = get l j) /\ match o with Some (_, _, di') => di <= di' | None => True end.
Proof.
  induction fuel as [|fuel IH]; intros p l di o l' Hd E; [done|]. cbn [name_loop] in E. destruct (tchar2uni p) as [[uc p']| | |]; try done. rewrite bind_Ok in E. cbv iota beta in E. destruct (uc =? BAD_CHAR); [by injection E as <- <-|].
  assert (exists di1 l1, (if 0x10000 <=? uc then l ← wr l di (u16 (Z.shiftr uc 16)); Ok (di + 1, l) else Ok (di, l)) = Ok (di1, l1) /\ length l1 = length l /\ (forall j, 0 <= j < di -> get l1 j = get l j) /\ di <= di1) as (di1 & l1 & E1 & L1 & G1 & D1).
  { destruct (0x10000 <=? uc); [|by exists di, l]. destruct (wr l di (u16 (Z.shiftr uc 16))) as [l1| | |] eqn:Ew; try done. rewrite bind_Ok. destruct (wr_two l l di _ l1 eq_refl Ew) as (m & _ & _ & L1 & _ & G). exists (di + 1), l1. split; [done|]. split; [done|]. split; [|lia]. intros j Hj. apply G; lia. }
  rewrite E1, bind_Ok in E. cbv iota beta zeta in E. destruct ((u16 uc <? 32) || IsSeparator (u16 uc)); [injection E as <- <-; done|]. destruct (if u16 uc <? 128 then chr_in bad_lfn (u16 uc) else Ok false) as [bad| | |]; try done. rewrite bind_Ok in E. destruct bad; [by injection E as <- <-|].
  destruct (FF_MAX_LFN <=? di1); [by injection E as <- <-|]. destruct (wr l1 di1 (u16 uc)) as [l2| | |] eqn:Ew; try done. rewrite bind_Ok in E. destruct (wr_two l1 l1 di1 _ l2 eq_refl Ew) as (m & _ & _ & L2 & _ & G2). destruct (IH p' l2 (di1 + 1) o l' ltac:(lia) E) as (L3 & G3 & D3).
  split; [congruence|]. split; [|destruct o as [[[wc q] di']|]; [lia|done]]. intros j Hj. rewrite G3 by lia. rewrite (proj1 (G2 j ltac:(lia) ltac:(lia))). by apply G1.
Qed.

Lemma name_loop_indep fuel : forall p l1 l2 di o l1', 0 <= di -> length l1 = length l2 -> name_loop fuel p l1 di = Ok (o, l1') -> exists l2', name_loop fuel p l2 di = Ok (o, l2') /\ length l2' = length l1' /\
  match o with Some (_, _, di') => forall j, di <= j < di' -> get l2' j = get l1' j | None => True end.
Proof.
  induction fuel as [|fuel IH]; intros p l1 l2 di o l1' Hd L E; [done|]. cbn [name_loop] in *. destruct (tchar2uni p) as [[uc p']| | |]; try done. rewrite !bind_Ok in *. cbv iota beta in *. destruct (uc =? BAD_CHAR); [injection E as <- <-; by exists l2|].
  assert (exists di1 m1 m2, (if 0x10000 <=? uc then l ← wr l1 di (u16 (Z.shiftr uc 16)); Ok (di + 1, l) else Ok (di, l1)) = Ok (di1, m1) /\ (if 0x10000 <=? uc then l ← wr l2 di (u16 (Z.shiftr uc 16)); Ok (di + 1, l) else Ok (di, l2)) = Ok (di1, m2) /\
    length m2 = length m1 /\ di <= di1 <= di + 1 /\ forall j, di <= j < di1 -> get m2 j = get m1 j) as (di1 & m1 & m2 & E1 & E2 & Lm & D1 & Gm).
  { destruct (0x10000 <=? uc); [|exists di, l1, l2; split; [done|]; split; [done|]; split; [done|]; split; [lia|]; intros j Hj; lia]. destruct (wr l1 di (u16 (Z.shiftr uc 16))) as [m1| | |] eqn:Ew; try done. destruct (wr_two l1 l2 di _ m1 L Ew) as (m2 & -> & L2 & _ & G & _). rewrite !bind_Ok.
    exists (di + 1), m1, m2. split; [done|]. split; [done|]. split; [done|]. split; [lia|]. intros j Hj. by replace j with di by lia. }
  rewrite E1, bind_Ok in E. rewrite E2, bind_Ok. cbv iota beta zeta in *. destruct ((u16 uc <? 32) || IsSeparator (u16 uc)); [injection E as <- <-; by exists m2|]. destruct (if u16 uc <? 128 then chr_in bad_lfn (u16 uc) else Ok false) as [bad| | |]; try done. rewrite bind_Ok in *. destruct bad; [injection E as <- <-; by exists m2|].
  destruct (FF_MAX_LFN <=? di1); [injection E as <- <-; by exists m2|]. destruct (wr m1 di1 (u16 uc)) as [n1| | |] eqn:Ew; try done. destruct (wr_two m1 m2 di1 _ n1 (eq_sym Lm) Ew) as (n2 & Ew2 & Ln & Ln1 & Gd & Gn). rewrite bind_Ok in E. rewrite Ew2, bind_Ok.
  destruct (IH p' n1 n2 (di1 + 1) o l1' ltac:(lia) (eq_sym Ln) E) as (l2' & E' & L' & G'). exists l2'. split; [done|]. split; [done|]. destruct o as [[[wc q] di']|]; [|done]. intros j Hj. destruct (decide (di1 + 1 <= j)) as [Hj1|Hj1]; [apply G'; lia|].
  destruct (name_loop_mono fuel p' n1 (di1 + 1) _ l1' ltac:(lia) E) as (_ & M1 & _). destruct (name_loop_mono fuel p' n2 (di1 + 1) _ l2' ltac:(lia) E') as (_ & M2 & _). rewrite M1, M2 by lia. destruct (decide (j = di1)) as [->|]; [done|]. destruct (Gn j ltac:(lia) ltac:(lia)) as [-> ->]. apply Gm. lia.
Qed.

Lemma rd_named w l1 l2 i : named w l1 -> named w l2 -> 0 <= i <= zlen w -> rd l1 i = rd l2 i.
Proof. intros H1 H2 Hi. pose proof (nm_size _ _ H1). pose proof (nm_size _ _ H2). pose proof (nm_len _ _ H1). rewrite !rd_in by lia. by rewrite (nm_at _ _ H1), (nm_at _ _ H2) by lia. Qed.

Lemma lead_spaces_indep w l1 l2 : named w l1 -> named w l2 -> lead_spaces l1 = lead_spaces l2.
Proof.
  intros H1 H2. destruct (named_split _ _ H1) as [r1 ->]. destruct (named_split _ _ H2) as [r2 ->]. clear H1 H2. induction w as [|c w IH]; [done|]. cbn [app lead_spaces]. by rewrite IH.
Qed.

Lemma last_dot_indep w l1 l2 k : named w l1 -> named w l2 -> Z.of_nat k <= zlen w -> last_dot k l1 = last_dot k l2.
Proof. intros H1 H2. induction k as [|k IH]; intros Hk; [done|]. cbn [last_dot]. rewrite (rd_named w l1 l2 _ H1 H2) by lia. rewrite IH by lia. done. Qed.

Lemma snip_tail_indep (l1 l2 : list Z) k : Z.of_nat k <= zlen l1 -> Z.of_nat k <= zlen l2 -> (forall j, 0 <= j < Z.of_nat k -> get l1 j = get l2 j) -> snip_tail k l1 = snip_tail k l2.
Proof. induction k as [|k IH]; intros H1 H2 Hg; [done|]. cbn [snip_tail]. rewrite !rd_in by lia. rewrite Hg by lia. rewrite IH by (lia || (intros; apply Hg; lia)). done. Qed.

(** Names that differ in the status byte at most. *)
Definition same_body (f1 f2 : list Z) : Prop := length f1 = 12%nat /\ length f2 = 12%nat /\ take 11 f1 = take 11 f2.

Lemma wr_body f1 f2 i c : same_body f1 f2 -> match wr f1 i c with Ok g1 => exists g2, wr f2 i c = Ok g2 /\ same_body g1 g2 | r => wr f2 i c = r end.
Proof.
  intros (L1 & L2 & E). destruct (decide (0 <= i < 12)) as [Hi|Hi]; [|by rewrite !wr_out by lia]. rewrite !wr_in by lia. eexists. split; [reflexivity|]. split; [by rewrite length_insert|]. split; [by rewrite length_insert|].
  destruct (decide (i < 11)); [by rewrite !take_insert_lt, E by lia|by rewrite !take_insert_ge by lia].
Qed.

Lemma sfn_loop_indep w l1 l2 di : named w l1 -> named w l2 -> di <= zlen w -> forall fuel si i ni cf b f1 f2 ni' cf' b' g1, same_body f1 f2 -> 0 <= si <= zlen w -> sfn_loop fuel l1 di si i ni cf b f1 = Ok (ni', cf', b', g1) ->
  exists g2, sfn_loop fuel l2 di si i ni cf b f2 = Ok (ni', cf', b', g2) /\ same_body g1 g2.
Proof.
  intros H1 H2 Hdi. induction fuel as [|fuel IH]; intros si i ni cf b f1 f2 ni' cf' b' g1 Hf Hsi E; [done|]. cbn [sfn_loop] in *. rewrite <- (rd_named w l1 l2 si H1 H2 Hsi). pose proof (nm_size _ _ H1) as Ls. pose proof (nm_len _ _ H1) as Hl. rewrite rd_in in * by lia. rewrite bind_Ok in *. cbv zeta in *.
  destruct (Z.eqb_spec (get l1 si) 0) as [|N0]; [injection E as <- <- <- <-; by exists f2|]. assert (si < zlen w) as Hlt. { destruct (decide (si = zlen w)) as [->|]; [|lia]. by rewrite (nm_at _ _ H1), unit_end in N0 by lia. }
  destruct (_ || (_ && negb (si + 1 =? di))); [apply (IH _ _ _ _ _ f1); try done; lia|]. destruct ((ni <=? i) || (si + 1 =? di)).
  - destruct (ni =? 11); [injection E as <- <- <- <-; by exists f2|]. destruct (Z.ltb_spec di (si + 1)); [injection E as <- <- <- <-; by exists f2|]. apply (IH _ _ _ _ _ f1); try done; lia.
  - destruct (sfn_char (get l1 si) cf b) as [[[wc cf1] b1]| | |]; try done. rewrite bind_Ok in *. cbv iota beta in *. destruct (256 <=? wc).
    + destruct (ni - 1 <=? i); [apply (IH _ _ _ _ _ f1); try done; lia|]. pose proof (wr_body f1 f2 i (u8 (Z.shiftr wc 8)) Hf) as W1. destruct (wr f1 i (u8 (Z.shiftr wc 8))) as [h1| | |]; try done. destruct W1 as (h2 & -> & Hh). rewrite bind_Ok in *.
      pose proof (wr_body h1 h2 (i + 1) (u8 wc) Hh) as W2. destruct (wr h1 (i + 1) (u8 wc)) as [k1| | |]; try done. destruct W2 as (k2 & -> & Hk). rewrite bind_Ok in *. apply (IH _ _ _ _ _ k1); try done; lia.
    + pose proof (wr_body f1 f2 i (u8 wc) Hf) as W1. destruct (wr f1 i (u8 wc)) as [h1| | |]; try done. destruct W1 as (h2 & -> & Hh). rewrite bind_Ok in *. apply (IH _ _ _ _ _ h1); try done; lia.
Qed.

Lemma make_sfn_indep w l1 l2 last f1 f2 : named w l1 -> named w l2 -> fname f1 -> fname f2 -> exists fn, make_sfn l1 (zlen w) (if last : bool then 4 else 0) f1 = Ok fn /\ make_sfn l2 (zlen w) (if last then 4 else 0) f2 = Ok fn.
Proof.
  intros H1 H2 [L1 B1] [L2 B2]. destruct (make_sfn_ok last w l1 f1 H1 (conj L1 B1)) as (fn & E & _). exists fn. split; [done|]. unfold make_sfn in *. pose proof (nm_size _ _ H1) as Ls. pose proof (nm_len _ _ H1) as Hl. rewrite <- (lead_spaces_indep w l1 l2 H1 H2).
  destruct (lead_spaces_ok l1 (zlen w)) as (si & Esi & Hsi); [lia|rewrite (nm_at _ _ H1), unit_end by lia; lia|]. rewrite Esi, bind_Ok in *. rewrite <- (rd_named w l1 l2 si H1 H2) by lia. rewrite (rd_in l1 si) in * by lia. rewrite bind_Ok in *. cbv zeta in *.
  rewrite <- (last_dot_indep w l1 l2 _ H1 H2) by lia. destruct (last_dot_ok l1 (Z.to_nat (zlen w))) as (di & Edi & Hdi); [lia|]. rewrite Edi, bind_Ok in *. unfold store in *. rewrite length_replicate, L1, L2 in *. change ((0 <=? 0) && (0 + Z.of_nat 11 <=? Z.of_nat 12)) with true in *. cbv iota in *. rewrite bind_Ok in *.
  change (Z.to_nat (0 + Z.of_nat 11)) with 11%nat in *. change (Z.to_nat 0) with 0%nat in *. rewrite take_0 in *. cbn [app] in *.
  match type of E with (?m ≫= _) = _ => destruct m as [[[[ni cf] b] g1]| | |] eqn:El; try done end.
  assert (same_body (replicate 11 32 ++ drop 11 f1) (replicate 11 32 ++ drop 11 f2)) as Hb by (unfold same_body; rewrite !length_app, !length_replicate, !length_drop, L1, L2; done).
  destruct (sfn_loop_indep w l1 l2 di H1 H2 ltac:(lia) _ _ _ _ _ _ _ _ _ _ _ _ Hb Hsi El) as (g2 & El2 & Lg1 & Lg2 & Tg).
  rewrite (nm_size _ _ H2), <- (nm_size _ _ H1), El2. rewrite bind_Ok in *. cbv iota beta in *. assert (get g2 0 = get g1 0) as G0 by (rewrite <- (get_take 11 g1), <- (get_take 11 g2), Tg by lia; done). rewrite (rd_in g1) in E by lia. rewrite (rd_in g2) by lia. rewrite bind_Ok in *. rewrite G0.
  assert (same_body g1 g2) as Hg by done. pose proof (wr_body g1 g2 0 RDDEM Hg) as W. rewrite (wr_in g1) in W by lia. destruct W as (h2 & W & Hh).
  assert (exists h1 h2, (if get g1 0 =? DDEM then wr g1 0 RDDEM else Ok g1) = Ok h1 /\ (if get g1 0 =? DDEM then wr g2 0 RDDEM else Ok g2) = Ok h2 /\ same_body h1 h2) as (k1 & k2 & Ek1 & Ek2 & Lk1 & Lk2 & Tk).
  { destruct (get g1 0 =? DDEM); [|by exists g1, g2]. rewrite (wr_in g1) by lia. eexists _, h2. split; [reflexivity|]. by split. }
  rewrite Ek1, bind_Ok in E. rewrite Ek2, bind_Ok. unfold NSFLAG in *. rewrite wr_in in * by lia. rewrite <- E. f_equal. rewrite !insert_take_drop by lia. change (Z.to_nat 11) with 11%nat. rewrite Tk. f_equal. f_equal. by rewrite !drop_ge by lia.
Qed.

Lemma create_name_indep path s r fn1 l1 fn2 l2 : string_at path s r -> units l1 -> units l2 -> fname fn1 -> fname fn2 ->
  exists fr f1 f2 m1 m2 p, create_name fn1 l1 path = Ok (fr, f1, m1, p) /\ create_name fn2 l2 path = Ok (fr, f2, m2, p) /\ (fr = FR_OK -> f1 = f2 /\ exists w, named w m1 /\ named w m2).
Proof.
  intros Hs Hu1 Hu2 Hf1 Hf2. unfold create_name. pose proof Hs as [Ep Fs]. destruct (name_loop_ok (S (length path)) path s r l1 0 Hs) as (o & k1 & E1 & Hk1 & R); [rewrite Ep, length_app; cbn [length]; lia|done|lia|].
  destruct (name_loop_indep (S (length path)) path l1 l2 0 o k1 ltac:(lia) ltac:(rewrite (proj1 Hu1), (proj1 Hu2); done) E1) as (k2 & E2 & Lk & Gk). rewrite E1, E2, !bind_Ok. cbv iota beta.
  destruct o as [[[wc p] di]|]; [|eexists _, _, _, _, _, _; split; [reflexivity|]; split; [reflexivity|done]]. destruct R as (w0 & Fw & [_ Pu] & -> & Hd & En). rewrite Z.add_0_l in *. destruct (seg_end_ok wc p s r En) as (last & p' & -> & _). rewrite !bind_Ok. cbv iota beta.
  assert (forall j, 0 <= j < zlen w0 -> get k1 j = get w0 j) as G1 by (intros j Hj; rewrite Pu by lia; rewrite (proj2 (Z.leb_le 0 j)), (proj2 (Z.ltb_lt j _)) by lia; cbn [andb]; by rewrite Z.sub_0_r).
  assert (units k2) as Hk2. { destruct (name_loop_ok (S (length path)) path s r l2 0 Hs) as (o2 & k2' & E2' & Hk2' & _); [rewrite Ep, length_app; cbn [length]; lia|done|lia|]. rewrite E2 in E2'. by injection E2' as _ <-. }
  destruct (snip_ok k1 w0 Fw ltac:(lia) Hk1 G1) as (w & m1 & Es1 & Ew1 & Hm1 & (t & Et & _) & Hn1).
  destruct (snip_ok k2 w0 Fw ltac:(lia) Hk2) as (w' & m2 & Es2 & Ew2 & Hm2 & (t' & Et' & _) & Hn2); [intros j Hj; rewrite Gk, G1 by lia; done|].
  assert (w' = w) as ->.
  { assert (zlen w' = zlen w) as Lw. { rewrite (snip_tail_indep k2 k1) in Es2; [rewrite Es1 in Es2; by injection Es2|rewrite (proj1 Hk2); lia|rewrite (proj1 Hk1); lia|intros j Hj; apply Gk; lia]. } rewrite Et' in Et. apply app_inj_1 in Et; [apply Et|lia]. }
  rewrite Nat2Z.id, Es1, Es2, !bind_Ok, Ew1, Ew2, !bind_Ok. destruct (Z.eqb_spec (zlen w) 0); [eexists _, _, _, _, _, _; split; [reflexivity|]; split; [reflexivity|done]|]. assert (w <> []) as Hne by (intros ->; done). specialize (Hn1 Hne). specialize (Hn2 Hne).
  destruct (make_sfn_indep w m1 m2 last fn1 fn2 Hn1 Hn2 Hf1 Hf2) as (fn & -> & ->). rewrite !bind_Ok. eexists _, fn, fn, m1, m2, p'. split; [reflexivity|]. split; [reflexivity|]. intros _. split; [done|]. by exists w.
Qed.

(** ** The segments of a path *)

Fixpoint lfn_text (lfn : list Z) : list Z := match lfn with [] => [] | c :: lfn => if c =? 0 then [] else c :: lfn_text lfn end.

Lemma named_text w lfn : named w lfn -> lfn_text lfn = w.
Proof.
  intros Hn. destruct (named_split w lfn Hn) as [r ->]. pose proof (nm_chars _ _ Hn) as Hc. clear Hn. induction Hc as [|c w Hc _ IH]; [done|]. cbn [app lfn_text]. rewrite (proj2 (Z.eqb_neq c 0)) by lia. by f_equal.
Qed.

(** The first segment of a path: long name, short name and the rest. *)
Definition parse (path : list Z) : option (list Z * list Z * list Z) :=
  match create_name (replicate 12 0) (replicate 256 0) path with Ok (FR_OK, fn, lfn, p) => Some (lfn_text lfn, fn, p) | _ => None end.

Definition is_last (fn : list Z) : bool := has (get fn NSFLAG) NS_LAST.

Lemma create_name_parse fn lfn path s r : string_at path s r -> units lfn -> fname fn ->
  exists fr fn' lfn' p, create_name fn lfn path = Ok (fr, fn', lfn', p) /\ units lfn' /\ fname fn' /\
    match parse path with None => fr = FR_INVALID_NAME | Some (w, f, p') => fr = FR_OK /\ fn' = f /\ p = p' /\ segment s r w f lfn' p (is_last f) end.
Proof.
  intros Hs Hu Hfn. assert (units (replicate 256 0)) as Hu0 by (split; [done|apply Forall_replicate; lia]). assert (fname (replicate 12 0)) as Hf0 by (split; [done|apply Forall_replicate; unfold is_byte; lia]).
  destruct (create_name_indep path s r (replicate 12 0) (replicate 256 0) fn lfn Hs Hu0 Hu Hf0 Hfn) as (fr & f1 & f2 & m1 & m2 & p & E1 & E2 & Hsame). unfold parse. rewrite E1.
  destruct (create_name_ok fn lfn path s r Hs Hu Hfn) as (fr' & f' & m' & p' & E2' & Hum & Hff & R). rewrite E2 in E2'. injection E2' as <- <- <- <-. exists fr, f2, m2, p. split; [done|]. split; [done|]. split; [done|].
  destruct R as [[-> _]|(-> & w & last & Sg)]; [done|]. destruct (Hsame eq_refl) as (-> & w' & Hn1 & Hn2). rewrite (named_text _ _ Hn1). split; [done|]. split; [done|]. split; [done|].
  pose proof Sg as (Hn & _ & St & _). assert (w' = w) as -> by (rewrite <- (named_text _ _ Hn2); by apply named_text). unfold is_last. by rewrite (st_last _ _ St).
Qed.

(** ** Directories below the root *)

(** The first cluster of the object with entry [s]. *)
Definition start_of (g : geometry) (s : list Z) : Z := match ld_clust g s 0 with Ok c => c | _ => 0 end.

Lemma ld_clust_slot g b dir : length b = 512%nat -> Forall is_byte b -> 0 <= dir <= 480 -> ld_clust g b dir = Ok (start_of g (entry_at b dir)).
Proof.
  intros L B Hd. unfold start_of, ld_clust, DIR_FstClusLO, DIR_FstClusHI. rewrite (ld_word_entry b dir L Hd 26), (ld_word_entry b dir L Hd 20) by lia. pose proof (entry_len b dir L Hd) as Le.
  assert (Forall is_byte (entry_at b dir)) as Be by (unfold entry_at; by apply Forall_take, Forall_drop). rewrite (ld_word_ok (entry_at b dir) (0 + 26)), (ld_word_ok (entry_at b dir) (0 + 20)) by (done || lia). rewrite !bind_Ok. by destruct (fs_type g =? FS_FAT32).
Qed.

(** The object that bears the name, with the slot where it begins. *)
Fixpoint find_obj (fn w : list Z) (its : list item) (i : Z) : option (Z * item) :=
  match its with
  | [] => None
  | it :: its => if bears fn w (get fn NSFLAG) it then Some (i, it) else find_obj fn w its (i + zlen (raw it))
  end.

Lemma find_obj_items fn w its : forall i, find_items fn w (get fn NSFLAG) its i =
  match find_obj fn w its i with Some (k, Named long ls s) => Some (k + zlen ls, attr_of s, block_of (get fn NSFLAG) (Named long ls s) k) | _ => None end.
Proof.
  induction its as [|it its IH]; intros i; [done|]. cbn [find_items find_obj]. destruct it as [e|e|long ls s]; cbn [raw length]; [apply IH..|]. destruct (bears _ _ _ _); [done|]. rewrite IH, length_app. cbn [length]. by replace (i + Z.of_nat (length ls + 1)) with (i + zlen ls + 1) by lia.
Qed.

Lemma find_obj_split fn w its : forall i k it, find_obj fn w its i = Some (k, it) -> exists its1 its2, its = its1 ++ it :: its2 /\ k = i + zlen (raws its1) /\ bears fn w (get fn NSFLAG) it = true /\ Forall (fun it => bears fn w (get fn NSFLAG) it = false) its1.
Proof.
  induction its as [|it0 its IH]; intros i k it E; [done|]. cbn [find_obj] in E. destruct (bears fn w (get fn NSFLAG) it0) eqn:Eb.
  - injection E as <- <-. exists [], its. split; [done|]. split; [cbn; lia|]. done.
  - destruct (IH _ _ _ E) as (its1 & its2 & -> & -> & Hb & Hf). exists (it0 :: its1), its2. split; [done|]. cbn [fmap list_fmap concat]. rewrite length_app. split; [lia|]. split; [done|]. by apply Forall_cons.
Qed.

Lemma find_obj_none fn w its : forall i, find_obj fn w its i = None -> Forall (fun it => bears fn w (get fn NSFLAG) it = false) its.
Proof. induction its as [|it its IH]; intros i E; [done|]. cbn [find_obj] in E. destruct (bears fn w (get fn NSFLAG) it) eqn:Eb; [done|]. apply Forall_cons. split; [done|]. by apply (IH _ E). Qed.

(** The slot of the short entry of an object. *)
Lemma laid_slot its1 long ls s its2 es : laid (its1 ++ Named long ls s :: its2) es -> es !! Z.to_nat (zlen (raws its1) + zlen ls) = Some s.
Proof.
  intros (_ & z & -> & _). rewrite raws_app. cbn [fmap list_fmap concat raw]. rewrite <- !app_assoc. rewrite lookup_app_r by lia. replace (Z.to_nat (zlen (raws its1) + zlen ls) - length (raws its1))%nat with (length ls) by lia.
  rewrite lookup_app_r by lia. by rewrite Nat.sub_diag.
Qed.

Section Walk.
Context {D : Type} `{BlockLaws D}.
#[local] Set Default Proof Using "Type*".

Abbreviation v_geo v := (fs_geo (v_fs v)).
Abbreviation nent v := (n_fatent (v_geo v)).
Abbreviation x_geo x := (v_geo (wd_vol x)).

(** The window shows the slot the object points to. *)
Lemma win_slot v t d k : at_slot (v_geo v) t d k -> winsect (fs_win (v_fs v)) = d_sect d -> entry_at (win (fs_win (v_fs v))) (d_dir d) = slot v t k.
Proof. intros [_ _ Es Ed _] Hw. unfold entry_at, slot, vsec. rewrite <- Es, Hw, Z.eqb_refl, Ed. done. Qed.

(** The slot of the short entry, after the window moved. *)
Lemma item_slot v v' sc t its1 long ls s its2 : let k := zlen (raws its1) + zlen ls in fat_ok v -> peeked v v' -> table_at v sc t -> laid (its1 ++ Named long ls s :: its2) (slots v t) -> k < nslots (v_geo v) t -> slot v' t k = s.
Proof.
  intros k Hf P Ht Hl Hk. pose proof (laid_slot _ _ _ _ _ _ Hl) as Lk. fold k in Lk. rewrite lookup_slots in Lk by lia. injection Lk as Lk. rewrite Z2Nat.id in Lk by lia. rewrite <- Lk. apply (slot_peeked _ _ sc); [done|done|done|lia].
Qed.

(** Directories by their first cluster; 0 is the root. *)
Context (dirs : Z -> option (dtable * list item)).

Record tree (v : vol D) : Prop := {
  tr_fat : fat_ok v;
  tr_root : is_Some (dirs 0);
  tr_dir : forall sc t its, dirs sc = Some (t, its) -> table_at v sc t /\ laid its (slots v t);
  tr_sub : forall sc t its long ls s, dirs sc = Some (t, its) -> Named long ls s ∈ its -> has (attr_of s) AM_DIR = true -> is_Some (dirs (start_of (v_geo v) s))
}.

Lemma tree_peeked v v' : tree v -> peeked v v' -> tree v'.
Proof.
  intros [Hf Hr Hd Hs] P. split; [apply P|done| |].
  - intros sc t its E. destruct (Hd _ _ _ E) as [Ht Hl]. split; [by apply (peeked_table v)|]. by rewrite (slots_peeked _ _ _ _ Hf P Ht).
  - rewrite (peeked_geo _ _ P). exact Hs.
Qed.

(** Where a path leads. *)
Inductive place := Origin | BadName | NoWay | Lost | Missing (sc : Z) (w fn : list Z) | There (sc : Z) (w fn : list Z) (i : Z) (it : item).

Fixpoint walk (g : geometry) (fuel : nat) (sc : Z) (path : list Z) : place :=
  match fuel, parse path, dirs sc with
  | S fuel, None, Some _ => BadName
  | S fuel, Some (w, fn, p), Some (_, its) =>
      match find_obj fn w its 0 with
      | None => if is_last fn then Missing sc w fn else NoWay
      | Some (i, it) =>
          if is_last fn then There sc w fn i it
          else match it with
               | Named _ _ s => if has (attr_of s) AM_DIR then walk g fuel (start_of g s) p else NoWay
               | _ => NoWay
               end
      end
  | _, _, _ => Lost
  end.

(** The object but for its place, attribute and name. *)
Definition kin (d d' : DIR) : Prop := d_obj (d_start 0 (d_attr 0 d')) = d_obj (d_start 0 (d_attr 0 d)).

(** The object as [follow_path] leaves it. *)
Definition arrived (pl : place) (fr : FRESULT) (v' : vol D) (d' : DIR) (lfn' : list Z) : Prop :=
  match pl with
  | Origin => fr = FR_OK /\ get (d_fn d') NSFLAG = NS_NONAME /\ sclust (d_obj d') = 0 /\ exists t its, dirs 0 = Some (t, its) /\ at_slot (v_geo v') t d' 0
  | BadName => fr = FR_INVALID_NAME
  | Lost => False
  | NoWay => fr = FR_NO_PATH
  | Missing sc w fn => fr = FR_NO_FILE /\ sclust (d_obj d') = sc /\ d_fn d' = fn /\ named w lfn' /\ storable fn /\ status_ok true (get fn NSFLAG) /\ exists t its, dirs sc = Some (t, its) /\ Forall (fun it => bears fn w (get fn NSFLAG) it = false) its
  | There sc w fn i it => fr = FR_OK /\ sclust (d_obj d') = sc /\ d_fn d' = fn /\ named w lfn' /\ status_ok true (get fn NSFLAG) /\ storable fn /\ winsect (fs_win (v_fs v')) = d_sect d' /\
      exists t its1 its2 long ls s, dirs sc = Some (t, its1 ++ it :: its2) /\ i = zlen (raws its1) /\ bears fn w (get fn NSFLAG) it = true /\ Forall (fun it => bears fn w (get fn NSFLAG) it = false) its1 /\ it = Named long ls s /\ at_slot (v_geo v') t d' (i + zlen ls) /\ o_attr (d_obj d') = attr_of s /\ blk_ofs d' = (match long with Some _ => 32 * i | None => NO_BLOCK end) /\
        slot v' t (i + zlen ls) = s
  end.

Lemma follow_loop_ok cfuel dfuel : 65536 <= Z.of_nat dfuel -> forall fuel x path s r, string_at path s r -> (length s < fuel)%nat -> tree (wd_vol x) -> is_Some (dirs (sclust (d_obj (wd_dp x)))) -> units (wd_lfn x) -> fname (d_fn (wd_dp x)) ->
  exists fr v' d' lfn', follow_loop cfuel dfuel fuel path x = Ok (fr, mk_work v' d' lfn') /\ peeked (wd_vol x) v' /\ units lfn' /\ fname (d_fn d') /\ kin (wd_dp x) d' /\
    arrived (walk (x_geo x) fuel (sclust (d_obj (wd_dp x))) path) fr v' d' lfn'.
Proof.
  intros Hdf. induction fuel as [|fuel IH]; intros x path s r Hs Hfu Htr [[t its] Edir] Hu Hfn; [lia|]. cbn [follow_loop walk]. rewrite bind_dp, bind_lfnbuf, Edir. pose proof (tr_fat _ Htr) as Hf.
  destruct (create_name_parse (d_fn (wd_dp x)) (wd_lfn x) path s r Hs Hu Hfn) as (fr & fn' & lfn1 & p & Ec & Hu1 & Hf1 & R). rewrite (bind_dlift _ _ _ _ Ec). cbv iota beta. rewrite bind_set_dp, bind_set_lfn. cbn [wd_vol wd_dp wd_lfn]. set (sc := sclust (d_obj (wd_dp x))) in *.
  destruct (parse path) as [[[w fn] p']|]; [|subst fr; change (fr_ok FR_INVALID_NAME) with false; eexists _, _, _, _; split; [reflexivity|]; split; [by apply peeked_refl|]; done].
  destruct R as (-> & -> & -> & Sg). pose proof Sg as (Hw & Hst & Hfl & _ & _ & _ & Hrest). change (fr_ok FR_OK) with true. cbn [negb]. cbv iota. set (x1 := mk_work (wd_vol x) (d_name fn (wd_dp x)) lfn1).
  destruct (tr_dir _ Htr _ _ _ Edir) as [Ht Hl]. assert (dir_at x1 t its) as D1 by (split; [exact Hf|exact Ht|exact Hl]).
  destruct (find_laid cfuel dfuel x1 t its w (get fn NSFLAG) D1 Hf1 eq_refl Hw Hdf) as (fr & v2 & d2 & E2 & P2 & [K1 K2] & R2). rewrite (m_bind_Ok _ _ _ _ _ E2), bind_dp. cbn [x1 wd_vol wd_dp wd_lfn d_fn d_name d_obj] in *.
  rewrite (bind_dlift _ _ _ (get fn NSFLAG)) by (rewrite K1; apply rd_in; rewrite (proj1 Hf1); unfold NSFLAG; lia). fold (is_last fn) in Hfl. rewrite find_obj_items in R2. assert (is_last fn = has (get fn NSFLAG) NS_LAST) as Elast by done. rewrite <- Elast.
  assert (sclust (d_obj d2) = sc) as Sc2 by (apply (same_place_sclust (wd_dp x) d2); exact K2). assert (kin (wd_dp x) d2) as Kin2 by (unfold kin; destruct d2 as [[] ? ? ? ? ? ?], (wd_dp x) as [[] ? ? ? ? ? ?]; cbn in K2 |- *; congruence).
  destruct (find_obj fn w its 0) as [[i it]|] eqn:Efo.
  - destruct (find_obj_split _ _ _ _ _ _ Efo) as (its1 & its2 & Eits & Ei & Hb & Hfirst). rewrite Z.add_0_l in Ei. destruct it as [e|e|long ls s0]; [done|done|]. destruct R2 as (-> & A2 & Ea & Bk & W2). change (fr_ok FR_OK) with true. cbn [negb]. cbv iota.
    assert (slot v2 t (i + zlen ls) = s0) as Hslot.
    { rewrite Ei. apply (item_slot (wd_vol x) v2 sc t its1 long ls s0 its2); [done|done|done|by rewrite <- Eits|]. rewrite <- Ei. apply (as_in _ _ _ _ A2). }
    assert (at_slot (v_geo v2) t d2 (i + zlen ls)) as A2' by (by rewrite (peeked_geo _ _ P2)).
    assert (blk_ofs d2 = match long with Some _ => 32 * i | None => NO_BLOCK end) as Bk' by (rewrite Bk; unfold block_of; rewrite (st_nolfn _ _ Hfl); by destruct long).
    destruct (is_last fn) eqn:El; rewrite ?El.
    + exists FR_OK, v2, d2, lfn1. split; [reflexivity|]. split; [done|]. split; [done|]. split; [by rewrite K1|]. split; [done|]. split; [done|]. split; [done|]. split; [done|]. split; [done|]. split; [done|]. split; [done|]. split; [done|]. exists t, its1, its2, long, ls, s0. split; [by rewrite <- Eits|]. done.
    + destruct (has (attr_of s0) AM_DIR) eqn:Ed; rewrite Ea, Ed; cbn [negb]; [|eexists _, _, _, _; split; [reflexivity|]; split; [done|]; split; [done|]; split; [by rewrite K1|]; done].
      rewrite bind_dgeo, bind_dwnd. cbn [wd_vol wd_dp wd_lfn]. pose proof (as_ptr _ _ _ _ A2') as Ep. pose proof (as_dir _ _ _ _ A2') as Edi. pose proof (as_in _ _ _ _ A2') as Hin. assert (dptr d2 mod SS = d_dir d2) as -> by (rewrite Ep, Edi; unfold SS; dlia).
      pose proof (vo_win _ (fo_vol _ (proj1 P2))) as Hwin. rewrite (bind_dlift _ _ _ (start_of (v_geo v2) s0)).
      2: { rewrite (ld_clust_slot (v_geo v2)); [rewrite (win_slot v2 t d2 _ A2' W2), Hslot; done|apply Hwin|apply Hwin|rewrite Edi; dlia]. }
      rewrite bind_set_dp. cbn [wd_vol wd_dp wd_lfn]. rewrite (peeked_geo _ _ P2). destruct (Hrest eq_refl) as (s' & Hs' & Hlen & _).
      destruct (IH (mk_work v2 (d_start (start_of (x_geo x) s0) d2) lfn1) p' s' r Hs') as (fr & v3 & d3 & lfn3 & E3 & P3 & Hu3 & Hf3 & K3 & R3); cbn [wd_vol wd_dp wd_lfn d_obj d_start obj_sclust sclust d_fn].
      * lia.
      * by apply (tree_peeked (wd_vol x)).
      * apply (tr_sub _ Htr sc t its long ls s0 Edir); [rewrite Eits; set_solver|done].
      * done.
      * by rewrite K1.
      * cbn [wd_vol wd_dp wd_lfn d_obj d_start obj_sclust sclust] in *. rewrite (peeked_geo _ _ P2) in R3. exists fr, v3, d3, lfn3. split; [exact E3|]. split; [by eapply peeked_trans|]. split; [done|]. split; [done|]. split; [|exact R3].
        unfold kin in *. rewrite K3, <- Kin2. done.
  - subst fr. change (fr_ok FR_NO_FILE) with false. cbn [negb]. cbv iota. rewrite bool_decide_true by done. cbn [andb]. exists (if negb (is_last fn) then FR_NO_PATH else FR_NO_FILE), v2, d2, lfn1. split; [reflexivity|]. split; [done|]. split; [done|]. split; [by rewrite K1|]. split; [done|].
    destruct (is_last fn) eqn:El; rewrite ?El in *; cbn [negb arrived]; [|done]. split; [done|]. split; [done|]. split; [done|]. split; [done|]. split; [done|]. split; [done|]. exists t, its. split; [done|]. by apply (find_obj_none _ _ _ 0).
Qed.

(** Where a whole path leads, from the root. *)
Definition resolve (g : geometry) (path : list Z) : place :=
  match skip_seps path with
  | Ok p => if IsTerminator (get p 0) then Origin else walk g (length p) 0 p
  | _ => Lost
  end.

Lemma follow_path_ok cfuel dfuel x path s r : 65536 <= Z.of_nat dfuel -> string_at path s r -> tree (wd_vol x) -> units (wd_lfn x) -> fname (d_fn (wd_dp x)) ->
  exists fr v' d' lfn', follow_path cfuel dfuel path x = Ok (fr, mk_work v' d' lfn') /\ peeked (wd_vol x) v' /\ units lfn' /\ fname (d_fn d') /\ kin (wd_dp x) d' /\
    arrived (resolve (x_geo x) path) fr v' d' lfn'.
Proof.
  intros Hdf [-> Fs] Htr Hu Hfn. destruct (skip_seps_ok r s Fs) as (s' & Es & Hs' & Hl & _). unfold follow_path, resolve. rewrite (bind_dlift _ _ _ _ Es), Es, bind_set_dp.
  rewrite (bind_dlift _ _ _ (get (s' ++ 0 :: r) 0)) by (apply rd_in; rewrite length_app; cbn [length]; lia). destruct (IsTerminator _).
  - rewrite bind_dp. cbn [wd_dp d_fn d_start]. destruct (set_flag (d_fn (wd_dp x)) NS_NONAME Hfn) as (fn & E & Hf & Fl & _); [unfold is_byte, NS_NONAME; lia|]. rewrite (bind_dlift _ _ _ _ E), bind_set_dp. cbn [wd_vol wd_dp wd_lfn].
    destruct (tr_root _ Htr) as [[t its] Ed]. destruct (tr_dir _ Htr _ _ _ Ed) as [Ht _]. pose proof (vo_geo _ (fo_vol _ (tr_fat _ Htr))) as Hg.
    destruct (dir_sdi_ok (mk_work (wd_vol x) (d_name fn (d_start 0 (wd_dp x))) (wd_lfn x)) t 0) as (v' & d' & E' & P & A & S); cbn [wd_vol wd_dp wd_lfn].
    + apply Htr.
    + exact Ht.
    + pose proof (dsects_nonneg _ _ _ (fo_vol _ (tr_fat _ Htr)) Ht). unfold nslots. lia.
    + change (32 * 0) with 0 in E'. pose proof S as (So & Sf & _). exists FR_OK, v', d', (wd_lfn x). split; [exact E'|]. cbn [wd_vol wd_dp wd_lfn] in *. split; [exact P|]. split; [done|]. rewrite Sf. split; [done|].
      split; [unfold kin, d_start, d_attr in *; cbn [d_obj] in *; by rewrite So|]. split; [done|]. split; [by rewrite Sf|]. split; [by rewrite So|]. exists t, its. split; [done|]. by rewrite (peeked_geo _ _ P).
  - destruct (follow_loop_ok cfuel dfuel Hdf (length (s' ++ 0 :: r)) (mk_work (wd_vol x) (d_start 0 (wd_dp x)) (wd_lfn x)) (s' ++ 0 :: r) s' r Hs') as (fr & v' & d' & lfn' & E & R); [rewrite length_app; cbn [length]; lia|done|apply Htr|done|done|].
    exists fr, v', d', lfn'. exact (conj E R).
Qed.

End Walk.

(** ** A path is resolved segment by segment *)

Section Claims.
Context {D : Type} `{BlockLaws D}.
#[local] Set Default Proof Using "Type*".

(** C17: on a volume whose directories hold the objects [dirs] tells, a path
    leads [follow_path] where the abstract walk leads: to the root, to the
    entry of the object (with its attribute and the start of its entries), to
    the directory where the last name is missing (with the name ready to be
    registered), or to the error: a name that is not allowed, or a segment
    before the last that is missing or no directory. It always ends, and
    nothing on the volume changes. *)
Theorem follow_path_exact (dirs : Z -> option (dtable * list item)) (cfuel dfuel : nat) (x : work_dir D) (path s r : list Z) :
  65536 <= Z.of_nat dfuel -> string_at path s r -> tree dirs (wd_vol x) -> units (wd_lfn x) -> fname (d_fn (wd_dp x)) ->
  exists fr v' d' lfn', follow_path cfuel dfuel path x = Ok (fr, mk_work v' d' lfn') /\ peeked (wd_vol x) v' /\ units lfn' /\
    arrived dirs (resolve dirs (fs_geo (v_fs (wd_vol x))) path) fr v' d' lfn'.
Proof.
  intros Hdf Hs Htr Hu Hfn. destruct (follow_path_ok dirs cfuel dfuel x path s r Hdf Hs Htr Hu Hfn) as (fr & v' & d' & lfn' & E & P & Hu' & _ & _ & A). by exists fr, v', d', lfn'.
Qed.

End Claims.

(** *** Concrete runs: the path [Long name.text]. *)

Definition demo_file_path : list Z := enc_name (demo_name 76) ++ [0].

Definition demo_dirs (its : list item) (sc : Z) : option (dtable * list item) := if sc =? 0 then Some (Static, its) else None.

Lemma demo_string : string_at demo_file_path (demo_name 76) [].
Proof. split; [vm_compute; reflexivity|]. vm_compute. repeat constructor. Qed.

(** The root directory with one plain file. *)
Lemma demo_tree v fl w fn ls : fat_ok v -> table_at v 0 Static -> laid [new_item fl w fn ls] (slots v Static) -> tree (demo_dirs [new_item fl w fn ls]) v.
Proof.
  intros Hf Ht Hl. pose proof Hl as ([([Ls _] & _) _]%Forall_cons & _). split; [done|by eexists| |].
  - intros sc t its E. unfold demo_dirs in E. destruct (Z.eqb_spec sc 0) as [->|]; [|done]. by injection E as <- <-.
  - intros sc t its long ls' s E Hin Hd. unfold demo_dirs in E. destruct (sc =? 0); [|done]. injection E as <- <-. apply list_elem_of_singleton in Hin. injection Hin as -> -> ->. exfalso. unfold sfn_entry in Ls. rewrite length_app in Ls. cbn [length replicate] in Ls.
    unfold attr_of, sfn_entry, DIR_Attr in Hd. rewrite get_app_r in Hd by lia. replace (11 - zlen (take 11 fn)) with 0 in Hd by lia. discriminate Hd.
Qed.

Lemma demo_resolve g fn ls its : chosen its demo_fn (wd_lfn demo_dir) fn ->
  resolve (demo_dirs [new_item 7 (demo_name 76) fn ls]) g demo_file_path = There 0 (demo_name 76) demo_fn 0 (new_item 7 (demo_name 76) fn ls).
Proof.
  intros Hch. unfold resolve. assert (skip_seps demo_file_path = Ok demo_file_path) as -> by (vm_compute; reflexivity). assert (IsTerminator (get demo_file_path 0) = false) as -> by (vm_compute; reflexivity).
  assert (length demo_file_path = S 14) as -> by (vm_compute; reflexivity). cbn [walk]. assert (parse demo_file_path = Some (demo_name 76, demo_fn, [])) as -> by (vm_compute; reflexivity). cbn [demo_dirs Z.eqb find_obj].
  change (get demo_fn NSFLAG) with 7. destruct demo_fn_ok as (Hfn & _ & _). rewrite (new_bears fn demo_fn _ 7 ls its (wd_lfn demo_dir)) by done. done.
Qed.

Lemma follow_path_exact_witness :
  exists x1 x2, dir_register ncf df demo_dir = Ok (FR_OK, x1) /\ follow_path ncf df demo_file_path (looking demo_fn x1) = Ok (FR_OK, x2) /\ blk_ofs (wd_dp x2) = 0.
Proof.
  destruct demo_registered as (v1 & d1 & fn & ls & E1 & G1 & S1 & F1 & T1 & L1 & Hch & _). destruct demo_fn_ok as (Hfn & _ & _). set (x1 := mk_work v1 d1 (wd_lfn demo_dir)).
  destruct (follow_path_exact (demo_dirs [new_item 7 (demo_name 76) fn ls]) ncf df (looking demo_fn x1) demo_file_path (demo_name 76) [] (proj2 demo_dir_fuel) demo_string) as (fr & v' & d' & lfn' & E & _ & _ & A).
  - by apply demo_tree.
  - split; [done|]. apply (nm_units _ _ demo_dir_named).
  - done.
  - rewrite (demo_resolve _ fn ls _ Hch) in A. destruct A as (-> & _ & _ & _ & _ & _ & _ & t & its1 & its2 & long & ls' & s & _ & _ & _ & _ & Eit & _ & _ & B & _). injection Eit as <- <- <-. exists x1, (mk_work v' d' lfn'). exact (conj E1 (conj E B)).
Defined.
