(* ===== verification/FatList.v ===== *)
(** * FatList: reading directories (ff.c)

    [f_opendir] resolves the path of a directory, [f_readdir] delivers its
    objects one after the other with the names the programs see. *)

From Stdlib Require Import ZArith Lia Bool.
From stdpp Require Import base list list_numbers sets.
From S2P Require Import Prelude CLib Hw Ata FatUni Fat FatChain FatFile FatRead FatSync FatLfn FatDir FatTable FatScan FatItems FatGrow FatEdit FatReg FatObj FatMount FatName FatApi FatWalk.
From stdpp Require Import options.

(** The objects that are delivered, in their order. *)
Abbreviation catalogue its := (List.filter delivered its).

Lemma next_item_spec its : forall i, match next_item its i with
  | Some (k, it, rest) => exists its1, its = its1 ++ it :: rest /\ k = i + zlen (raws its1) /\ delivered it = true /\ catalogue its = it :: catalogue rest
  | None => catalogue its = []
  end.
Proof.
  induction its as [|it its IH]; intros i; [done|]. cbn [next_item List.filter]. destruct (delivered it) eqn:Ed; [exists []; cbn; split; [done|]; split; [lia|done]|].
  specialize (IH (i + zlen (raw it))). destruct (next_item its (i + zlen (raw it))) as [[[k it'] rest]|]; [|done]. destruct IH as (its1 & -> & -> & Hd & Ec). exists (it :: its1). split; [done|]. cbn [fmap list_fmap concat]. rewrite length_app. split; [lia|done].
Qed.

Lemma raws_nil its : raws its = [] -> its = [].
Proof. destruct its as [|it its]; [done|]. cbn [fmap list_fmap concat]. intros E. apply app_eq_nil in E as [E _]. by destruct it as [| |long [|]]. Qed.

(** The description of an object as the caller sees it. *)
Definition described (fno : FILINFO) (it : item) : Prop :=
  match it with
  | Named long _ s => exists r, fi_name fno = shown_name long s ++ 0 :: r /\ fi_attr fno = attr_of s /\ fi_size fno = le32 s DIR_FileSize /\ fi_time fno = le16 s DIR_ModTime /\ fi_date fno = le16 s (DIR_ModTime + 2)
  | _ => False
  end.

Definition info_ok (fno : FILINFO) : Prop := zlen (fi_name fno) = 256 /\ zlen (fi_alt fno) = 13.

Lemma status_named last fl : status_ok last fl -> has fl NS_NONAME = false.
Proof.
  intros Hs. pose proof (st_dot _ _ Hs) as E. unfold has, truth in *. apply negb_false_iff, Z.eqb_eq in E. apply negb_false_iff, Z.eqb_eq. change NS_NONAME with (Z.land (NS_DOT + NS_NONAME) NS_NONAME). by rewrite Z.land_assoc, E.
Qed.

Section Listing.
Context {D : Type} `{BlockLaws D}.
#[local] Set Default Proof Using "Type*".

Abbreviation v_geo v := (fs_geo (v_fs v)).
Abbreviation x_geo x := (v_geo (wd_vol x)).

(** The directory object has [rest] still to deliver: it points to the slot
    behind the other objects, or it has passed the end. *)
Definition reads_on (g : geometry) (d : DIR) (t : dtable) (its rest : list item) : Prop :=
  (exists its1, its = its1 ++ rest /\ at_slot g t d (zlen (raws its1))) \/ (rest = [] /\ d_sect d = 0).

(** At the end the name is empty. *)
Lemma read_end cfuel fno x : d_sect (wd_dp x) = 0 -> info_ok fno ->
  exists fno' d', (d ← dp; w ← dvol wnd; lfn ← lfnbuf; fno ← lift (get_fileinfo d (win w) lfn fno); r ← dir_next cfuel false; mret (if bool_decide (r = FR_NO_FILE) then FR_OK else r, fno)) x = Ok ((FR_OK, fno'), mk_work (wd_vol x) d' (wd_lfn x)) /\
    d_sect d' = 0 /\ same_dp (wd_dp x) d' /\ info_ok fno' /\ get (fi_name fno') 0 = 0.
Proof.
  intros E0 [Ln La]. rewrite bind_dp, bind_dwnd, bind_lfnbuf. unfold get_fileinfo. rewrite wr_in by lia. rewrite bind_Ok, E0. cbn [Z.eqb]. rewrite (bind_dlift _ _ _ _ eq_refl).
  assert (exists d', dir_next cfuel false x = Ok (FR_NO_FILE, mk_work (wd_vol x) d' (wd_lfn x)) /\ d_sect d' = 0 /\ same_dp (wd_dp x) d') as (d' & E & Hd & S).
  { unfold dir_next. rewrite bind_dp, bind_dgeo. cbv zeta. destruct (MAX_DIR <=? _); cbn [when].
    - rewrite bind_set_dp, bind_dp. cbn [wd_dp d_sect d_sec Z.eqb]. eexists. split; [reflexivity|done].
    - unfold skip. rewrite bind_dret, bind_dp, E0. cbn [Z.eqb]. exists (wd_dp x). split; [by destruct x|done]. }
  rewrite (m_bind_Ok _ _ _ _ _ E). eexists _, d'. split; [reflexivity|]. split; [done|]. split; [done|]. unfold info_ok. cbn [fi_name fi_alt]. rewrite length_insert. split; [done|]. by rewrite get_insert_eq by lia.
Qed.

(** One call delivers the next object, or an empty name at the end. *)
Lemma read_item_ok cfuel dfuel fno x t its rest : dir_at x t its -> reads_on (x_geo x) (wd_dp x) t its rest -> units (wd_lfn x) -> info_ok fno -> 65536 <= Z.of_nat dfuel ->
  exists fno' v' d' lfn' rest', read_item cfuel dfuel fno x = Ok ((FR_OK, fno'), mk_work v' d' lfn') /\ peeked (wd_vol x) v' /\ units lfn' /\ same_place (wd_dp x) d' /\ info_ok fno' /\
    reads_on (v_geo v') d' t its rest' /\ catalogue rest' = tail (catalogue rest) /\ match catalogue rest with [] => get (fi_name fno') 0 = 0 | it :: _ => described fno' it end.
Proof.
  intros Hda Hcur Hu Hfno Hdf. pose proof Hda as [Hf Ht Hl]. unfold read_item. destruct Hcur as [(its1 & -> & Ha)|[-> E0]].
  - destruct (dir_read_next cfuel dfuel x t its1 rest Hda Ha Hu Hdf) as (fr & v1 & d1 & lfn1 & E & Hu1 & (P1 & [K1 K2] & R) & Hn). rewrite (m_bind_Ok _ _ _ _ _ E). set (i := zlen (raws its1)) in *. pose proof (next_item_spec rest i) as Hx. pose proof (peeked_geo _ _ P1) as G1.
    destruct (next_item rest i) as [[[k it] rest']|].
    + destruct Hx as (its2 & -> & -> & Hdel & Ecat). rewrite Ecat. destruct it as [e|e|long ls s]; [done|done|]. cbn [read_result] in R. destruct R as (-> & A1 & Ea & Bk & W1). rewrite (bool_decide_false (FR_OK = FR_NO_FILE)) by done. cbv zeta iota. change (fr_ok FR_OK) with true. cbv iota.
      rewrite bind_dp, bind_dwnd, bind_lfnbuf. cbn [wd_vol wd_dp wd_lfn]. pose proof (vo_win _ (fo_vol _ (proj1 P1))) as Hwin. assert (i + zlen (raws its2) = zlen (raws (its1 ++ its2))) as Ek by (rewrite raws_app, length_app; lia). rewrite Ek in A1, Bk.
      assert (at_slot (v_geo v1) t d1 (zlen (raws (its1 ++ its2)) + zlen ls)) as A1' by (by rewrite G1). rewrite app_assoc in Hda, Hl |- *.
      assert (slot v1 t (zlen (raws (its1 ++ its2)) + zlen ls) = s) as Hs by (apply (item_slot (wd_vol x) v1 _ t (its1 ++ its2) long ls s rest' Hf P1 Ht Hl); apply (as_in _ _ _ _ A1)).
      pose proof (dir_at_peeked x v1 d1 lfn1 t _ Hda P1 K2) as Hda1. pose proof Hda1 as [Hf1 Ht1 Hl1]. cbn [wd_vol wd_dp] in *. destruct (sect_nonzero (mk_work v1 d1 lfn1) t _ Hf1 Ht1 A1') as [Hnz _]. cbn [wd_dp] in Hnz.
      destruct (get_fileinfo_ok d1 (win (fs_win (v_fs v1))) lfn1 fno long s) as (fno' & r & Ef & Hdesc).
      * apply Hwin.
      * rewrite (as_dir _ _ _ _ A1'). dlia.
      * rewrite (win_slot v1 t d1 _ A1' W1). exact Hs.
      * apply Hwin.
      * lia.
      * apply Hfno.
      * apply Hfno.
      * destruct long; [split; [rewrite Bk; unfold NO_BLOCK; lia|done]|done].
      * rewrite (bind_dlift _ _ _ _ Ef). destruct Hdesc as (Nm & At & Sz & Tm & Dt & L1 & L2). set (k := zlen (raws (its1 ++ its2)) + zlen ls) in *.
        assert (exists v2 d2 r2, dir_next cfuel false (mk_work v1 d1 lfn1) = Ok (r2, mk_work v2 d2 lfn1) /\ (if bool_decide (r2 = FR_NO_FILE) then FR_OK else r2) = FR_OK /\ peeked v1 v2 /\ same_dp d1 d2 /\
          reads_on (v_geo v2) d2 t ((its1 ++ its2) ++ Named long ls s :: rest') rest') as (v2 & d2 & r2 & E2 & Er & P2 & S2 & C2).
        { assert (zlen (raws ((its1 ++ its2) ++ [Named long ls s])) = k + 1) as Ek1 by (rewrite raws_app, length_app; cbn [fmap list_fmap concat raw]; rewrite app_nil_r, length_app; cbn [length]; lia).
          destruct (decide (k + 1 < nslots (v_geo v1) t)) as [Hlt|Hge].
          - destruct (dir_next_ok cfuel false (mk_work v1 d1 lfn1) t k Hf1 Ht1 A1' Hlt) as (v2 & d2 & E2 & P2 & A2 & S2). cbn [wd_vol wd_dp wd_lfn] in *. exists v2, d2, FR_OK. split; [exact E2|]. split; [done|]. split; [done|]. split; [done|].
            left. exists ((its1 ++ its2) ++ [Named long ls s]). split; [by rewrite <- (app_assoc (its1 ++ its2) [_] rest')|]. rewrite (peeked_geo _ _ P2), Ek1. exact A2.
          - pose proof (as_in _ _ _ _ A1') as Hin. destruct (dir_next_end cfuel false (mk_work v1 d1 lfn1) t k (or_introl eq_refl) Hf1 Ht1 A1') as (v2 & d2 & E2 & P2 & Z2 & S2); cbn [wd_vol wd_dp wd_lfn] in *; [lia|].
            exists v2, d2, FR_NO_FILE. split; [exact E2|]. split; [done|]. split; [done|]. split; [done|]. right. split; [|done]. destruct Hl1 as (_ & z & Ez & _). apply raws_nil. apply length_zero_iff_nil.
            apply (f_equal length) in Ez. rewrite length_slots in Ez by lia. replace ((its1 ++ its2) ++ Named long ls s :: rest') with (((its1 ++ its2) ++ [Named long ls s]) ++ rest') in Ez by (by rewrite <- (app_assoc (its1 ++ its2) [_] rest')). rewrite raws_app, !(length_app (raws _ ++ raws _)), (length_app (raws _)) in Ez. lia. }
        rewrite (m_bind_Ok _ _ _ _ _ E2), Er. exists fno', v2, d2, lfn1, rest'. split; [reflexivity|]. split; [by eapply peeked_trans|]. split; [done|]. split; [unfold same_place, d_attr in *; destruct S2 as (-> & _); exact K2|]. split; [done|]. split; [exact C2|]. split; [done|]. exists r. done.
    + rewrite Hx. cbn [read_result] in R. subst fr. rewrite bool_decide_true by done. cbv zeta. change (fr_ok FR_OK) with true. cbv iota.
      destruct (read_end cfuel fno (mk_work v1 d1 lfn1) Hn Hfno) as (fno' & d2 & E2 & Z2 & S2 & Hi & Hz). cbn [wd_vol wd_dp wd_lfn] in *. exists fno', v1, d2, lfn1, []. split; [exact E2|]. split; [done|]. split; [done|]. split; [unfold same_place, d_attr in *; destruct S2 as (-> & _); exact K2|]. split; [done|]. split; [by right|]. done.
  - assert (dir_read cfuel dfuel false x = Ok (FR_NO_FILE, mk_work (wd_vol x) (d_sec 0 (wd_dp x)) (wd_lfn x))) as E by (unfold dir_read; rewrite bind_dp, E0; reflexivity).
    rewrite (m_bind_Ok _ _ _ _ _ E). rewrite bool_decide_true by done. cbv zeta. change (fr_ok FR_OK) with true. cbv iota.
    destruct (read_end cfuel fno (mk_work (wd_vol x) (d_sec 0 (wd_dp x)) (wd_lfn x)) eq_refl Hfno) as (fno' & d2 & E2 & Z2 & S2 & Hi & Hz). cbn [wd_vol wd_dp wd_lfn] in *. exists fno', (wd_vol x), d2, (wd_lfn x), []. split; [exact E2|].
    split; [by apply peeked_refl|]. split; [done|]. split; [unfold same_place, d_attr; destruct S2 as (-> & _); done|]. split; [done|]. split; [by right|]. done.
Qed.

(** ** The functions on a mounted volume *)

Context (dirs : Z -> option (dtable * list item)).

Record ready (a : fatfs D) : Prop := {
  rd_reg : ff_reg (a_ff a) = true;
  rd_tree : tree dirs (ff_vol (a_ff a));
  rd_lfn : units (a_lfn a)
}.

Abbreviation a_vol a := (ff_vol (a_ff a)).
Abbreviation a_geo a := (v_geo (a_vol a)).

(** The state after a step that left the volume alone. *)
Definition seen (a a' : fatfs D) : Prop := ready a' /\ peeked (a_vol a) (a_vol a').

Lemma seen_intro a v' lfn' : ready a -> peeked (a_vol a) v' -> units lfn' -> seen a (mk_fatfs (mk_ff (ff_reg (a_ff a)) (Fsid (a_ff a)) v') lfn').
Proof. intros [Hr Ht Hu] P U. split; [|done]. split; [done|by apply (tree_peeked dirs (a_vol a))|done]. Qed.

Lemma seen_trans a b c : seen a b -> seen b c -> seen a c.
Proof. intros [_ P1] [R2 P2]. split; [done|]. by eapply peeked_trans. Qed.

(** The volume is found, without a look at the disk. *)
Lemma mount_ready a path rest mode : ready a -> get_ldnumber path = Ok (0, rest) -> onff (mount_volume path mode) a = Ok ((FR_OK, rest), a).
Proof.
  intros [Hr Ht _] El. pose proof (fo_vol _ (tr_fat _ _ Ht)) as Hv. unfold onff, mount_volume. rewrite El. unfold lift. erewrite m_bind_Ok; [|reflexivity]. cbv beta iota. change (0 <? 0) with false. cbv iota.
  erewrite m_bind_Ok; [|reflexivity]. rewrite Hr. cbn [negb]. cbv iota zeta. erewrite m_bind_Ok; [|reflexivity]. erewrite m_bind_Ok; [|reflexivity]. cbn [ff_vol]. rewrite (bd_ready_init _ (vo_ready _ Hv)).
  assert (fs_type (a_geo a) =? 0 = false) as ->. { destruct (go_type _ _ (vo_geo _ Hv)) as [E|[E|E]]; by rewrite E. }
  cbn [negb andb]. change (truth (Z.land 0 STA_NOINIT)) with false. change (truth (Z.land 0 STA_PROTECT)) with false. rewrite andb_false_r. cbn [negb]. by destruct a as [[? ? [? ?]] ?].
Qed.

(** What [f_opendir] makes of a place: the directory or the error. *)
Inductive opening := Fails (r : FRESULT) | Opens (sc : Z).

Definition dir_place (g : geometry) (pl : place) : opening :=
  match pl with
  | Origin => Opens 0
  | There _ _ _ _ (Named _ _ s) => if has (attr_of s) AM_DIR then Opens (start_of g s) else Fails FR_NO_PATH
  | BadName => Fails FR_INVALID_NAME
  | _ => Fails FR_NO_PATH
  end.

(** An open directory, with what it has still to deliver. *)
Record opened (a : fatfs D) (d : DIR) (sc : Z) (its rest : list item) : Prop := {
  od_fs : o_fs (d_obj d) = true;
  od_id : o_id (d_obj d) = fs_id (a_geo a);
  od_start : sclust (d_obj d) = sc;
  od_dir : exists t, dirs sc = Some (t, its) /\ reads_on (a_geo a) d t its rest
}.

Lemma kin_fs d d' : kin d d' -> o_fs (d_obj d') = o_fs (d_obj d).
Proof. unfold kin. destruct d as [[] ? ? ? ? ? ?], d' as [[] ? ? ? ? ? ?]. intros E. by injection E. Qed.

Lemma kin_trans d1 d2 d3 : kin d1 d2 -> kin d2 d3 -> kin d1 d3.
Proof. unfold kin. congruence. Qed.

(** The directory object at the start of its directory. *)
Lemma open_at x t its sc : tree dirs (wd_vol x) -> dirs sc = Some (t, its) -> sclust (d_obj (wd_dp x)) = sc ->
  exists v' d', dir_sdi 0 x = Ok (FR_OK, mk_work v' d' (wd_lfn x)) /\ peeked (wd_vol x) v' /\ same_dp (wd_dp x) d' /\ reads_on (v_geo v') d' t its its.
Proof.
  intros Htr Ed Es. destruct (tr_dir _ _ Htr _ _ _ Ed) as [Ht _]. pose proof (tr_fat _ _ Htr) as Hf. destruct (dir_sdi_ok x t 0 Hf) as (v' & d' & E & P & A & S); [by rewrite Es| |].
  - pose proof (dsects_nonneg _ _ _ (fo_vol _ Hf) Ht). unfold nslots. lia.
  - exists v', d'. split; [exact E|]. split; [done|]. split; [done|]. left. exists []. split; [done|]. by rewrite (peeked_geo _ _ P).
Qed.

Lemma open_dir_ok cfuel dfuel x path s r : 65536 <= Z.of_nat dfuel -> string_at path s r -> tree dirs (wd_vol x) -> units (wd_lfn x) -> fname (d_fn (wd_dp x)) ->
  exists fr v' d' lfn', open_dir cfuel dfuel path x = Ok (fr, mk_work v' d' lfn') /\ peeked (wd_vol x) v' /\ units lfn' /\
    match dir_place (x_geo x) (resolve dirs (x_geo x) path) with
    | Fails e => (if bool_decide (fr = FR_NO_FILE) then FR_NO_PATH else fr) = e /\ fr_ok fr = false
    | Opens sc => fr = FR_OK /\ o_fs (d_obj d') = o_fs (d_obj (wd_dp x)) /\ o_id (d_obj d') = fs_id (x_geo x) /\ sclust (d_obj d') = sc /\ exists t its, dirs sc = Some (t, its) /\ reads_on (v_geo v') d' t its its
    end.
Proof.
  intros Hdf Hs Htr Hu Hfn. destruct (follow_path_ok dirs cfuel dfuel x path s r Hdf Hs Htr Hu Hfn) as (fr & v1 & d1 & lfn1 & E & P & Hu1 & Hf1 & K & A). unfold open_dir. rewrite (m_bind_Ok _ _ _ _ _ E). pose proof (peeked_geo _ _ P) as G1. pose proof (tree_peeked dirs _ _ Htr P) as Htr1.
  assert (rd (d_fn d1) NSFLAG = Ok (get (d_fn d1) NSFLAG)) as Er by (apply rd_in; rewrite (proj1 Hf1); unfold NSFLAG; lia).
  assert (forall d2 sc, kin d1 d2 -> sclust (d_obj d2) = sc -> is_Some (dirs sc) -> exists v' d' t its, (_ ← set_dp (d_onobj (obj_id (fs_id (x_geo x)))); dir_sdi 0) (mk_work v1 d2 lfn1) = Ok (FR_OK, mk_work v' d' lfn1) /\ peeked (wd_vol x) v' /\
    o_fs (d_obj d') = o_fs (d_obj (wd_dp x)) /\ o_id (d_obj d') = fs_id (x_geo x) /\ sclust (d_obj d') = sc /\ dirs sc = Some (t, its) /\ reads_on (v_geo v') d' t its its) as Hend.
  { intros d2 sc K2 Es [[t its] Ed]. rewrite bind_set_dp. cbn [wd_vol wd_dp wd_lfn]. destruct (open_at (mk_work v1 (d_onobj (obj_id (fs_id (x_geo x))) d2) lfn1) t its sc Htr1 Ed Es) as (v' & d' & E' & P' & (So & _) & C). exists v', d', t, its. split; [exact E'|]. cbn [wd_vol wd_dp wd_lfn] in *.
    split; [by eapply peeked_trans|]. rewrite So. cbn [d_obj d_onobj obj_id o_fs o_id sclust]. split; [rewrite (kin_fs _ _ K2); by apply kin_fs|]. done. }
  destruct (resolve dirs (x_geo x) path) as [| | | |sc w fn|sc w fn i it]; cbn [dir_place arrived] in *.
  - destruct A as (-> & Fl & Es & t & its & Ed & _). change (fr_ok FR_OK) with true. cbv iota. rewrite bind_dp, bind_dgeo, (bind_dlift _ _ _ _ Er). cbn [wd_vol wd_dp wd_lfn]. rewrite Fl, G1. change (has NS_NONAME NS_NONAME) with true. cbv iota. rewrite bind_dret. change (fr_ok FR_OK) with true. cbv iota.
    destruct (Hend d1 0 eq_refl Es (ltac:(by eexists))) as (v' & d' & t' & its' & E' & P' & O1 & O2 & O3 & O4 & O5). exists FR_OK, v', d', lfn1. split; [exact E'|]. split; [done|]. split; [done|]. split; [done|]. split; [done|]. split; [done|]. split; [done|]. by exists t', its'.
  - subst fr. exists FR_INVALID_NAME, v1, d1, lfn1. done.
  - subst fr. exists FR_NO_PATH, v1, d1, lfn1. done.
  - done.
  - destruct A as (-> & _). exists FR_NO_FILE, v1, d1, lfn1. done.
  - destruct A as (-> & Es & Efn & Hw & Hst & _ & W & t & its1 & its2 & long & ls & s0 & Ed & Ei & _ & _ & -> & A & Ea & Bk & Sl). change (fr_ok FR_OK) with true. cbv iota. rewrite bind_dp, bind_dgeo, (bind_dlift _ _ _ _ Er). cbn [wd_vol wd_dp wd_lfn]. rewrite Efn, Ea, G1. rewrite (status_named _ _ Hst).
    destruct (has (attr_of s0) AM_DIR) eqn:Edir.
    + pose proof (vo_win _ (fo_vol _ (proj1 P))) as Hwin.
      assert (ld_clust (x_geo x) (win (fs_win (v_fs v1))) (d_dir d1) = Ok (start_of (x_geo x) s0)) as Ecl.
      { rewrite ld_clust_slot; [|apply Hwin|apply Hwin|rewrite (as_dir _ _ _ _ A); dlia]. by rewrite (win_slot v1 t d1 _ A W), Sl. }
      destruct (Hend (d_start (start_of (x_geo x) s0) d1) (start_of (x_geo x) s0)) as (v' & d' & t' & its' & E' & P' & O1 & O2 & O3 & O4 & O5); [done|done|apply (tr_sub _ _ Htr sc t _ long ls s0 Ed); [set_solver|done]|].
      erewrite m_bind_Ok; [|rewrite bind_dwnd; cbn [wd_vol]; rewrite (bind_dlift _ _ _ _ Ecl), bind_set_dp; reflexivity]. change (fr_ok FR_OK) with true. cbv iota. cbn [wd_vol wd_dp wd_lfn].
      exists FR_OK, v', d', lfn1. split; [exact E'|]. split; [done|]. split; [done|]. split; [done|]. split; [done|]. split; [done|]. split; [done|]. by exists t', its'.
    + rewrite bind_dret. exists FR_NO_PATH, v1, d1, lfn1. done.
Qed.

Lemma bind_with_dir {A B} d (m : M (work_dir D) A) (k : A * DIR -> M (fatfs D) B) a r v' d' lfn' :
  m (mk_work (a_vol a) d (a_lfn a)) = Ok (r, mk_work v' d' lfn') -> (with_dir d m ≫= k) a = k (r, d') (mk_fatfs (mk_ff (ff_reg (a_ff a)) (Fsid (a_ff a)) v') lfn').
Proof. intros E. eapply m_bind_Ok. unfold with_dir. by rewrite E. Qed.

Lemma f_opendir_ok cfuel dfuel a d path rest s r : 65536 <= Z.of_nat dfuel -> ready a -> get_ldnumber path = Ok (0, rest) -> string_at rest s r -> fname (d_fn d) ->
  exists fr d' a', f_opendir cfuel dfuel d path a = Ok ((fr, d'), a') /\ seen a a' /\
    match dir_place (a_geo a) (resolve dirs (a_geo a) rest) with
    | Fails e => fr = e /\ o_fs (d_obj d') = false
    | Opens sc => fr = FR_OK /\ exists its, opened a' d' sc its its
    end.
Proof.
  intros Hdf Hr El Hs Hfn. pose proof Hr as [_ Htr Hu]. unfold f_opendir. rewrite (m_bind_Ok _ _ _ _ _ (mount_ready a path rest 0 Hr El)). cbn [fst snd]. change (fr_ok FR_OK) with true. cbv iota.
  destruct (open_dir_ok cfuel dfuel (mk_work (a_vol a) (d_onobj (obj_fs true) d) (a_lfn a)) rest s r Hdf Hs Htr Hu Hfn) as (fr & v' & d' & lfn' & E & P & Hu' & R). cbn [wd_vol wd_dp wd_lfn] in *.
  pose proof (seen_intro a v' lfn' Hr P Hu') as Hsn. set (a' := mk_fatfs _ _) in Hsn. set (fr' := if bool_decide (fr = FR_NO_FILE) then FR_NO_PATH else fr).
  exists fr', (if fr_ok fr' then d' else d_onobj (obj_fs false) d'), a'. split; [|split; [done|]].
  - erewrite m_bind_Ok; [|rewrite (bind_with_dir _ _ _ _ _ _ _ _ E); reflexivity]. done.
  - destruct (dir_place _ _) as [e|sc].
    + destruct R as [Ee Ef]. fold fr' in Ee. split; [done|]. assert (fr_ok fr' = false) as -> by (unfold fr'; destruct (bool_decide _); done). done.
    + destruct R as (-> & O1 & O2 & O3 & t & its & Ed & C). change fr' with FR_OK. change (fr_ok FR_OK) with true. cbv iota. split; [done|]. exists its. pose proof (peeked_geo _ _ P) as G. split; cbn [a' a_ff ff_vol]; [by rewrite O1|by rewrite O2, G|done|]. exists t. done.
Qed.

Lemma f_readdir_ok cfuel dfuel a d sc its rest fno : 65536 <= Z.of_nat dfuel -> ready a -> opened a d sc its rest -> info_ok fno ->
  exists d' fno' a' rest', f_readdir cfuel dfuel d (Some fno) a = Ok ((FR_OK, d', Some fno'), a') /\ seen a a' /\ opened a' d' sc its rest' /\ info_ok fno' /\
    catalogue rest' = tail (catalogue rest) /\ match catalogue rest with [] => get (fi_name fno') 0 = 0 | it :: _ => described fno' it end.
Proof.
  intros Hdf Hr [O1 O2 O3 (t & Ed & C)] Hi. pose proof Hr as [_ Htr Hu]. pose proof (tr_fat _ _ Htr) as Hf. unfold f_readdir.
  assert (validate_dir (d_obj d) a = Ok (FR_OK, a)) as Ev.
  { unfold validate_dir. erewrite m_bind_Ok; [|reflexivity]. erewrite m_bind_Ok; [|reflexivity]. cbn [a_ff ff_vol]. rewrite O1, O2, Z.eqb_refl. unfold bd_noinit. rewrite (bd_ready_init _ (vo_ready _ (fo_vol _ Hf))).
    destruct (go_type _ _ (vo_geo _ (fo_vol _ Hf))) as [E|[E|E]]; rewrite E; by destruct a as [[? ? [? ?]] ?]. }
  rewrite (m_bind_Ok _ _ _ _ _ Ev). change (fr_ok FR_OK) with true. cbv iota. destruct (tr_dir _ _ Htr _ _ _ Ed) as [Ht Hl].
  destruct (read_item_ok cfuel dfuel fno (mk_work (a_vol a) d (a_lfn a)) t its rest) as (fno' & v' & d' & lfn' & rest' & E & P & Hu' & S & Hi' & C' & Ec & Hd); [split; [done|cbn [wd_vol wd_dp]; by rewrite O3|done]|done|done|done|done|].
  rewrite (bind_with_dir _ _ _ _ _ _ _ _ E). cbn [fst snd wd_vol] in *. eexists d', fno', _, rest'. split; [reflexivity|]. split; [by apply seen_intro|]. split; [|done]. pose proof (peeked_geo _ _ P) as G. cbn [wd_dp] in S.
  split; cbn [a_ff ff_vol]; [|rewrite G| |by exists t]; destruct d as [[] ? ? ? ? ? ?], d' as [[] ? ? ? ? ? ?]; injection S; cbn in *; congruence.
Qed.

(** A program that reads [n] descriptions from an open directory. *)
Fixpoint read_names (cfuel dfuel n : nat) (d : DIR) (fno : FILINFO) : M (fatfs D) (FRESULT * list FILINFO) :=
  match n with
  | O => mret (FR_OK, [])
  | S n =>
      x ← f_readdir cfuel dfuel d (Some fno);
      match x with
      | (FR_OK, d, Some fno) => y ← read_names cfuel dfuel n d fno; mret (y.1, fno :: y.2)
      | (r, _, _) => mret (r, [])
      end
  end.

Lemma read_names_ok cfuel dfuel : 65536 <= Z.of_nat dfuel -> forall its0 rest, let n := length (catalogue rest) in forall a d sc fno, ready a -> opened a d sc its0 rest -> info_ok fno ->
  exists infos last a', read_names cfuel dfuel (S n) d fno a = Ok ((FR_OK, infos ++ [last]), a') /\ seen a a' /\ Forall2 described infos (catalogue rest) /\ get (fi_name last) 0 = 0.
Proof.
  intros Hdf its0 rest n. remember (catalogue rest) as os eqn:Eos. revert rest n Eos. induction os as [|it os IH]; intros rest n Eos a d sc fno Hr Ho Hi;
    destruct (f_readdir_ok cfuel dfuel a d sc its0 rest fno Hdf Hr Ho Hi) as (d' & fno' & a' & rest' & E & Hs & Ho' & Hi' & Ec & Hd); cbn [read_names]; rewrite (m_bind_Ok _ _ _ _ _ E); cbv iota beta; rewrite <- Eos in Ec, Hd.
  - eexists [], fno', a'. split; [reflexivity|]. done.
  - destruct (IH rest' (eq_sym Ec) a' d' sc fno') as (infos & last & a2 & E2 & Hs2 & F2 & Hl); [apply Hs|done|done|]. cbn [length] in n. rewrite (m_bind_Ok _ _ _ _ _ E2). exists (fno' :: infos), last, a2. split; [reflexivity|].
    split; [by eapply seen_trans|]. split; [by apply Forall2_cons|done].
Qed.

(** ** Claims *)

(** C16: opening a directory by its path and reading it delivers all its
    objects but the dot entries, in the order of the directory, each with the
    name a program sees (its long name in the code page, or the short one in
    the case it was given), attribute, size and time, and then an empty name.
    A path that leads to no directory, or a name that is not allowed, gives
    the error code for it and an object that later calls refuse. *)
Theorem directory_listed (cfuel dfuel : nat) (a : fatfs D) (d : DIR) (path rest s r : list Z) (fno : FILINFO) :
  65536 <= Z.of_nat dfuel -> ready a -> get_ldnumber path = Ok (0, rest) -> string_at rest s r -> fname (d_fn d) -> info_ok fno ->
  exists fr d' a', f_opendir cfuel dfuel d path a = Ok ((fr, d'), a') /\
    match dir_place (a_geo a) (resolve dirs (a_geo a) rest) with
    | Fails e => fr = e /\ o_fs (d_obj d') = false
    | Opens sc => fr = FR_OK /\ exists t its infos last a'', dirs sc = Some (t, its) /\
        read_names cfuel dfuel (S (length (catalogue its))) d' fno a' = Ok ((FR_OK, infos ++ [last]), a'') /\ Forall2 described infos (catalogue its) /\ get (fi_name last) 0 = 0
    end.
Proof.
  intros Hdf Hr El Hs Hfn Hi. destruct (f_opendir_ok cfuel dfuel a d path rest s r Hdf Hr El Hs Hfn) as (fr & d' & a' & E & [Hr' _] & R). exists fr, d', a'. split; [exact E|]. destruct (dir_place _ _) as [e|sc]; [done|]. destruct R as (-> & its & Ho). split; [done|].
  destruct (od_dir _ _ _ _ _ Ho) as (t & Ed & _). destruct (read_names_ok cfuel dfuel Hdf its its a' d' sc fno Hr' Ho Hi) as (infos & last & a2 & E2 & _ & F & Hl). by exists t, its, infos, last, a2.
Qed.

End Listing.

(** *** Concrete runs: the root directory with the file [Long name.text]. *)

Definition demo_root : list Z := [47; 0].
Definition demo_api (v : vol ram) : fatfs ram := mk_fatfs (mk_ff true 1 v) (replicate 256 0).
Definition blank_info : FILINFO := mk_filinfo 0 0 0 0 (replicate 13 0) (replicate 256 0).

Lemma blank_info_ok : info_ok blank_info.
Proof. done. Qed.

Lemma demo_ready v its : tree (demo_dirs its) v -> ready (demo_dirs its) (demo_api v).
Proof. intros Ht. split; [done|exact Ht|]. split; [apply length_replicate|]. apply Forall_replicate. lia. Qed.

Lemma demo_shown s : shown_name (Some (demo_name 76)) s = demo_name 76.
Proof. unfold shown_name. assert (long_text (demo_name 76) = demo_name 76) as -> by (vm_compute; reflexivity). done. Qed.

Lemma directory_listed_witness :
  exists x1 d' a' info last a'', dir_register ncf df demo_dir = Ok (FR_OK, x1) /\ f_opendir ncf df (wd_dp demo_dir) demo_root (demo_api (wd_vol x1)) = Ok ((FR_OK, d'), a') /\
    read_names ncf df 2 d' blank_info a' = Ok ((FR_OK, [info; last]), a'') /\ take 15 (fi_name info) = demo_name 76 ++ [0] /\ get (fi_name last) 0 = 0.
Proof.
  destruct demo_registered as (v1 & d1 & fn & ls & E1 & G1 & S1 & F1 & T1 & L1 & Hch & H0). destruct demo_fn_ok as (Hfn & _ & _). pose proof (demo_tree v1 7 (demo_name 76) fn ls F1 T1 L1) as Htr. pose proof L1 as ([([Ls _] & _) _]%Forall_cons & _).
  destruct (directory_listed (demo_dirs [new_item 7 (demo_name 76) fn ls]) ncf df (demo_api v1) (wd_dp demo_dir) demo_root demo_root [47] [] blank_info (proj2 demo_dir_fuel) (demo_ready _ _ Htr) eq_refl) as (fr & d' & a' & E & R).
  - split; [done|]. apply Forall_singleton. lia.
  - exact Hfn.
  - exact blank_info_ok.
  - change (resolve _ _ demo_root) with Origin in R. destruct R as (-> & t & its & infos & last & a2 & Ed & E2 & F2 & Hl). injection Ed as <- <-.
    assert (catalogue [new_item 7 (demo_name 76) fn ls] = [new_item 7 (demo_name 76) fn ls]) as Ecat.
    { cbn [List.filter new_item delivered]. assert (get (sfn_entry fn) 0 =? 46 = false) as ->; [|done]. apply Z.eqb_neq. unfold sfn_entry. destruct fn as [|c fn]; [destruct H0 as [H0|H0]; discriminate H0|]. change (get (take 11 (c :: fn) ++ _) 0) with (get (c :: fn) 0). lia. }
    rewrite Ecat in E2, F2. pose proof (Forall2_length _ _ _ F2) as Lf. destruct infos as [|info [|i2 infos]]; [discriminate Lf| |discriminate Lf].
    apply Forall2_cons in F2 as [(rr & En & _) _]. change (has 7 NS_LFN) with true in En. cbv iota in En. rewrite demo_shown in En.
    exists (mk_work v1 d1 (wd_lfn demo_dir)), d', a', info, last, a2. refine (conj E1 (conj E (conj E2 (conj _ Hl)))). rewrite En. reflexivity.
Defined.
