(* ===== verification/FatOpen.v ===== *)
(** * FatOpen: opening files by their path (ff.c)

    [f_open] resolves the path and fills the file object from the directory
    entry; the object is then one [f_read] and the other functions on files
    work on. *)

From Stdlib Require Import ZArith Lia Bool.
From stdpp Require Import base list list_numbers sets.
From S2P Require Import Prelude CLib Hw Ata FatUni Fat FatChain FatFile FatRead FatWrite FatSync FatLfn FatDir FatTable FatScan FatItems FatGrow FatEdit FatReg FatObj FatMount FatName FatApi FatWalk FatList.
From stdpp Require Import options.

(** The size in a directory entry. *)
Definition size_of (s : list Z) : Z := le32 s DIR_FileSize.

Section Opening.
Context {D : Type} `{BlockLaws D}.
#[local] Set Default Proof Using "Type*".

Abbreviation v_geo v := (fs_geo (v_fs v)).
Abbreviation nent v := (n_fatent (v_geo v)).
Abbreviation x_geo x := (v_geo (wd_vol x)).

(** No cluster of [l] belongs to a directory. *)
Definition clear_of (dirs : Z -> option (dtable * list item)) (l : list Z) : Prop := forall sc t its c, dirs sc = Some (t, its) -> c ∈ l -> ~ on_table t c.

(** The file of the entry [s] has the clusters [l]. *)
Record holds (dirs : Z -> option (dtable * list item)) (v : vol D) (s l : list Z) : Prop := {
  ho_chain : chain v (start_of (v_geo v) s) l;
  ho_size : size_of s <= 512 * nsec (v_geo v) l;
  ho_clear : clear_of dirs l
}.

(** Byte [k] of a file with clusters [l], as the volume has it. *)
Definition vbyte (v : vol D) (l : list Z) (k : Z) : Z := get (vsec v (fsect (v_geo v) l (k / 512))) (k mod 512).

(** The clusters of two files share no sector. *)
Lemma files_apart g size l m i j : geo_ok g size -> in_range g l -> in_range g m -> (forall c, c ∈ l -> c ∉ m) -> 0 <= i < nsec g l -> 0 <= j < nsec g m -> fsect g l i <> fsect g m j.
Proof.
  intros Hg Hl Hm Ha Hi Hj E. destruct (fsect_data _ _ Hg l i Hl Hi) as [_ Ei]. destruct (fsect_data _ _ Hg m j Hm Hj) as [_ Ej]. pose proof (csize_small _ _ Hg). destruct (index_in _ _ Hg l i Hi) as [Ii Mi]. destruct (index_in _ _ Hg m j Hj) as [Ij Mj]. rewrite Ei, Ej in E.
  destruct (Z.div_mod_unique (csize g) (get l (i / csize g) - 2) (get m (j / csize g) - 2) (i mod csize g) (j mod csize g)) as [Eq _]; [lia|lia|lia|].
  apply (Ha _ (get_in l _ Ii)). assert (get l (i / csize g) = get m (j / csize g)) as -> by lia. by apply get_in.
Qed.

(** The clusters of a file and of a directory share no sector. *)
Lemma apart_sectors v sc t l i j : vol_ok v -> table_at v sc t -> in_range (v_geo v) l -> (forall c, c ∈ l -> ~ on_table t c) -> 0 <= i < nsec (v_geo v) l -> 0 <= j < dsects (v_geo v) t ->
  fsect (v_geo v) l i <> dsect (v_geo v) t j.
Proof.
  intros Hv Ht Hl Ha Hi Hj. pose proof (vo_geo v Hv) as Hg. destruct t as [|m]; cbn [dsects dsect on_table] in *; [|apply (files_apart _ _ _ _ i j Hg Hl (table_range _ _ _ Ht)); done].
  destruct (fsect_data _ _ Hg l i Hl Hi) as [Hd _]. unfold data_sector in Hd. destruct Ht as (_ & _ & [_ _ R3]). lia.
Qed.

(** No directory lies on the FSInfo sector. *)
Lemma dsect_info v sc t j : vol_ok v -> table_at v sc t -> 0 <= j < dsects (v_geo v) t -> dsect (v_geo v) t j <> volbase (v_geo v) + 1.
Proof.
  intros Hv Ht Hj. pose proof (vo_geo v Hv) as Hg. pose proof (go_base _ _ Hg). destruct (geo_fat _ _ Hg) as (F1 & F2 & F3 & _). destruct t as [|l]; cbn [dsects dsect] in *.
  - destruct Ht as (_ & _ & [_ B1 _]). destruct (go_fats _ _ Hg) as [E|E]; rewrite E in B1; lia.
  - destruct (fsect_data _ _ Hg l j (table_range v sc l Ht) Hj) as [Hd _]. unfold data_sector in Hd. lia.
Qed.

Lemma size_range s : Forall is_byte s -> 0 <= size_of s < 4294967296.
Proof.
  intros Hb. unfold size_of, le32. pose proof (get_byte s DIR_FileSize Hb). pose proof (get_byte s (DIR_FileSize + 1) Hb). pose proof (get_byte s (DIR_FileSize + 2) Hb). pose proof (get_byte s (DIR_FileSize + 3) Hb). lia.
Qed.

(** The file object made from the entry in the window. *)
Definition new_fil (g : geometry) (mode : Z) (f : FIL) (d : DIR) (sect : Z) (s : list Z) : FIL :=
  mk_fil (mk_obj true (fs_id g) (o_attr (f_obj f)) (o_stat (f_obj f)) (start_of g s) (size_of s)) mode FR_OK 0 (clust f) 0 sect (d_dir d) (replicate 512 0).

(** The object is one the functions on files accept. *)
Record usable (x : open_file D) (l : list Z) : Prop := {
  us_core : core x l;
  us_placed : placed x l;
  us_live : live x;
  us_dir : dir_ok x l
}.

Lemma new_fil_usable dirs v sc t its d k mode f s l : fat_ok v -> dirs sc = Some (t, its) -> table_at v sc t -> at_slot (v_geo v) t d k -> winsect (fs_win (v_fs v)) = d_sect d -> slot_data s -> holds dirs v s l -> has mode FA_DIRTY = false ->
  usable (mk_open v (new_fil (v_geo v) mode f d (d_sect d) s)) l.
Proof.
  intros Hf Hdir Ht A W [_ Bs] [Hch Hsz Hap] Hm. pose proof (fo_vol _ Hf) as Hv. pose proof (vo_geo v Hv) as Hg. pose proof (size_range s Bs) as Hs. pose proof (chain_range _ _ _ Hch) as Hr. destruct A as [Hin _ Es Ed _].
  assert (0 <= k / 16 < dsects (v_geo v) t) as Hj by (unfold nslots in Hin; dlia). destruct (dsect_ok v sc t (k / 16) Hv Ht Hj) as (R1 & R2 & R3).
  assert (forall j, 0 <= j < nsec (v_geo v) l -> fsect (v_geo v) l j <> d_sect d) as Hno by (intros j Hj'; rewrite Es; apply (apart_sectors v sc t); [done|done|done|intros c Hc; by apply (Hap sc t its)|done|done]).
  split.
  - split; cbn [of_vol of_fil new_fil f_obj sclust objsize f_sect f_buf f_flag]; [done|done|done|by left|split; [apply length_replicate|apply Forall_replicate; unfold is_byte; lia]|done|congruence|]. intros j Hj'. rewrite W. by apply Hno.
  - split; cbn [of_vol of_fil new_fil f_obj sclust objsize f_sect fptr]; [lia|lia|done].
  - done.
  - split; cbn [of_vol of_fil new_fil dir_sect dir_ptr]; rewrite ?Es; [done|done|by apply (dsect_info v sc)|intros j Hj'; rewrite <- Es; by apply Hno|rewrite Ed; dlia].
Qed.

Lemma holds_peeked dirs v v' s l : fat_ok v -> peeked v v' -> holds dirs v s l -> holds dirs v' s l.
Proof.
  intros Hf P [Hc Hs Ha]. pose proof (peeked_geo _ _ P) as G. split; rewrite ?G; [|done|done]. destruct l as [|c l]; [done|]. cbn [chain] in *. rewrite G. eapply links_ext; [|exact Hc]. intros y _. symmetry. by apply peeked_entry.
Qed.

Lemma vbyte_peeked v v' l k : fat_ok v -> peeked v v' -> in_range (v_geo v) l -> 0 <= k < 512 * nsec (v_geo v) l -> vbyte v' l k = vbyte v l k.
Proof.
  intros Hf P Hl Hk. pose proof P as (_ & (G & _ & V) & _). unfold vbyte. rewrite G. f_equal. apply V. pose proof (vo_geo _ (fo_vol _ Hf)) as Hg. apply data_reachable; [apply Hf|]. apply (fsect_data _ _ Hg l (k / 512) Hl). dlia.
Qed.

(** The size field of the entry in the window. *)
Lemma ld_size b dir : length b = 512%nat -> Forall is_byte b -> 0 <= dir <= 480 -> ld_dword b (dir + DIR_FileSize) = Ok (size_of (entry_at b dir)).
Proof.
  intros L B Hd. unfold DIR_FileSize in *. rewrite ld_dword_ok by (done || lia). unfold size_of, le32, DIR_FileSize. rewrite !(entry_get b dir L Hd) by lia. by rewrite !Z.add_assoc.
Qed.

(** Opening without creating: the result by the place. *)
Definition plain_result (mode : Z) (pl : place) : FRESULT :=
  match pl with
  | Origin | BadName => FR_INVALID_NAME
  | There _ _ _ _ (Named _ _ s) => if has (attr_of s) AM_DIR then FR_NO_FILE else if has mode FA_WRITE && has (attr_of s) AM_RDO then FR_DENIED else FR_OK
  | Missing _ _ _ => FR_NO_FILE
  | _ => FR_NO_PATH
  end.

(** The directory object and the window are at slot [k], which holds [s]. *)
Record entry_here (v : vol D) (d : DIR) (sc : Z) (t : dtable) (k : Z) (s : list Z) : Prop := {
  eh_table : table_at v sc t;
  eh_slot : at_slot (v_geo v) t d k;
  eh_entry : slot v t k = s;
  eh_win : winsect (fs_win (v_fs v)) = d_sect d;
  eh_data : slot_data s
}.

Lemma open_fil_ok v d lfn sc t k s mode f : fat_ok v -> entry_here v d sc t k s -> let mode' := if has mode FA_CREATE_ALWAYS then Z.lor mode FA_MODIFIED else mode in has mode' FA_SEEKEND = false ->
  open_fil mode f (mk_work v d lfn) = Ok ((FR_OK, new_fil (v_geo v) mode' f d (d_sect d) s), mk_work v d lfn).
Proof.
  intros Hf [Ht A Sl W _] mode' Hm. pose proof (vo_win _ (fo_vol _ Hf)) as Hwin. unfold open_fil. rewrite bind_dp, bind_dgeo, bind_dwnd. cbn [wd_vol wd_dp wd_lfn]. fold mode'. assert (0 <= d_dir d <= 480) as Hd by (rewrite (as_dir _ _ _ _ A); dlia).
  rewrite (bind_dlift _ _ _ (start_of (v_geo v) s)) by (rewrite ld_clust_slot; [by rewrite (win_slot v t d k A W), Sl|apply Hwin|apply Hwin|done]).
  rewrite (bind_dlift _ _ _ (size_of s)) by (rewrite ld_size; [by rewrite (win_slot v t d k A W), Sl|apply Hwin|apply Hwin|done]). cbv zeta. rewrite Hm. cbn [andb]. by rewrite W.
Qed.

(** A fresh file object shows the bytes of the volume. *)
Lemma fresh_byte v l f k : vol_ok v -> in_range (v_geo v) l -> f_sect f = 0 -> 0 <= k < 512 * nsec (v_geo v) l -> fbyte (mk_open v f) l k = vbyte v l k.
Proof.
  intros Hv Hl Hs Hk. pose proof (vo_geo v Hv) as Hg. unfold fbyte, vbyte, fsec. cbn [of_vol of_fil]. rewrite Hs. destruct (fsect_data _ _ Hg l (k / 512) Hl) as [Hd _]; [dlia|]. pose proof (data_nonzero _ _ Hg _ Hd). by rewrite (proj2 (Z.eqb_neq _ 0)) by lia.
Qed.

Context (dirs : Z -> option (dtable * list item)).

(** The place of a file that was found. *)
Lemma arrived_there v d lfn fr sc w fn i it : tree dirs v -> arrived dirs (There sc w fn i it) fr v d lfn ->
  fr = FR_OK /\ d_fn d = fn /\ sclust (d_obj d) = sc /\ status_ok true (get fn NSFLAG) /\ named w lfn /\ bears fn w (get fn NSFLAG) it = true /\
  exists t its1 its2 long ls s, dirs sc = Some (t, its1 ++ it :: its2) /\ Forall (fun it => bears fn w (get fn NSFLAG) it = false) its1 /\ it = Named long ls s /\ o_attr (d_obj d) = attr_of s /\ entry_here v d sc t (zlen (raws its1) + zlen ls) s.
Proof.
  intros Htr (-> & Es & Ef & Hw & Hst & _ & W & t & its1 & its2 & long & ls & s & Ed & Ei0 & Hb & Hfirst & Ei & A & Ea & _ & Sl). rewrite Ei0 in *. split; [done|]. split; [done|]. split; [done|]. split; [done|]. split; [done|]. split; [done|].
  exists t, its1, its2, long, ls, s. split; [done|]. split; [done|]. split; [done|]. split; [done|].
  destruct (tr_dir _ _ Htr _ _ _ Ed) as [Ht [Hits _]]. split; [done|done|done|done|]. apply Forall_app in Hits as [_ Hits]. apply Forall_cons in Hits as [Hit _]. subst it. apply Hit.
Qed.

Lemma open_path_plain cfuel dfuel x path s r mode f : 65536 <= Z.of_nat dfuel -> string_at path s r -> tree dirs (wd_vol x) -> units (wd_lfn x) -> fname (d_fn (wd_dp x)) -> 1 <= mode <= 3 ->
  exists fr f' v' d' lfn', open_path cfuel dfuel path mode f x = Ok ((fr, f'), mk_work v' d' lfn') /\ peeked (wd_vol x) v' /\ units lfn' /\ fr = plain_result mode (resolve dirs (x_geo x) path) /\
    match resolve dirs (x_geo x) path with
    | There sc _ _ _ (Named long ls s) => fr = FR_OK -> exists t its k, dirs sc = Some (t, its) /\ entry_here v' d' sc t k s /\ f' = new_fil (v_geo v') mode f d' (d_sect d') s
    | _ => True
    end.
Proof.
  intros Hdf Hs Htr Hu Hfn Hm. destruct (follow_path_ok dirs cfuel dfuel x path s r Hdf Hs Htr Hu Hfn) as (fr & v1 & d1 & lfn1 & E & P & Hu1 & Hf1 & _ & A). unfold open_path. rewrite (m_bind_Ok _ _ _ _ _ E), bind_dp. cbn [wd_dp].
  rewrite (bind_dlift _ _ _ (get (d_fn d1) NSFLAG)) by (apply rd_in; rewrite (proj1 Hf1); unfold NSFLAG; lia). cbv zeta.
  assert (has mode (FA_CREATE_ALWAYS + FA_OPEN_ALWAYS + FA_CREATE_NEW) = false /\ has mode FA_CREATE_ALWAYS = false /\ has mode FA_SEEKEND = false) as (M1 & M2 & M3) by (assert (mode = 1 \/ mode = 2 \/ mode = 3) as [->|[->| ->]] by lia; done).
  assert (forall r0, open_entry cfuel dfuel r0 mode (mk_work v1 d1 lfn1) = Ok ((if fr_ok r0 then if has (o_attr (d_obj d1)) AM_DIR then FR_NO_FILE else if has mode FA_WRITE && has (o_attr (d_obj d1)) AM_RDO then FR_DENIED else FR_OK else r0, mode), mk_work v1 d1 lfn1)) as Eo
    by (intros r0; unfold open_entry; rewrite M1, bind_dp; done).
  rewrite (m_bind_Ok _ _ _ _ _ (Eo _)). cbn [fst snd]. destruct (resolve dirs (x_geo x) path) as [| | | |sc w fn|sc w fn i it].
  - destruct A as (-> & Fl & _). rewrite Fl. change (fr_ok FR_OK && has NS_NONAME NS_NONAME) with true. cbv iota. eexists _, f, v1, d1, lfn1. split; [reflexivity|]. done.
  - cbn [arrived] in A. subst fr. eexists _, f, v1, d1, lfn1. split; [reflexivity|]. done.
  - cbn [arrived] in A. subst fr. eexists _, f, v1, d1, lfn1. split; [reflexivity|]. done.
  - done.
  - destruct A as (-> & _). eexists _, f, v1, d1, lfn1. split; [reflexivity|]. done.
  - destruct (arrived_there _ _ _ _ _ _ _ _ _ (tree_peeked dirs _ _ Htr P) A) as (-> & Ef & _ & Hst & _ & _ & t & its1 & its2 & long & ls & s0 & Ed & _ & -> & Ea & Hen). rewrite Ef, (status_named _ _ Hst), andb_false_r. change (fr_ok FR_OK) with true. cbv iota. rewrite Ea. cbn [plain_result].
    destruct (has (attr_of s0) AM_DIR); [eexists _, f, v1, d1, lfn1; split; [reflexivity|]; done|]. destruct (has mode FA_WRITE && has (attr_of s0) AM_RDO); [eexists _, f, v1, d1, lfn1; split; [reflexivity|]; done|].
    change (fr_ok FR_OK) with true. cbv iota. pose proof (open_fil_ok v1 d1 lfn1 sc t _ s0 mode f (proj1 P) Hen) as Eof. cbv zeta in Eof. rewrite M2 in Eof. rewrite (Eof M3). eexists _, _, v1, d1, lfn1. split; [reflexivity|]. split; [done|]. split; [done|]. split; [done|]. intros _. by exists t, (its1 ++ Named long ls s0 :: its2), (zlen (raws its1) + zlen ls).
Qed.

Abbreviation a_vol a := (ff_vol (a_ff a)).
Abbreviation a_geo a := (v_geo (a_vol a)).

Lemma f_open_plain cfuel dfuel a d f path rest s r mode : 65536 <= Z.of_nat dfuel -> ready dirs a -> get_ldnumber path = Ok (0, rest) -> string_at rest s r -> fname (d_fn d) -> 1 <= mode <= 3 ->
  exists fr f' a', f_open cfuel dfuel d f path mode a = Ok ((fr, f'), a') /\ seen dirs a a' /\ fr = plain_result mode (resolve dirs (a_geo a) rest) /\
    match resolve dirs (a_geo a) rest with
    | There sc _ _ _ (Named long ls s) => fr = FR_OK -> exists t its k d', dirs sc = Some (t, its) /\ entry_here (a_vol a') d' sc t k s /\ f' = new_fil (a_geo a') mode f d' (d_sect d') s
    | _ => True
    end.
Proof.
  intros Hdf Hr El Hs Hfn Hm. pose proof Hr as [_ Htr Hu]. unfold f_open. assert (Z.land mode (FA_READ + FA_WRITE + FA_CREATE_ALWAYS + FA_CREATE_NEW + FA_OPEN_ALWAYS + FA_SEEKEND) = mode) as Em by (assert (mode = 1 \/ mode = 2 \/ mode = 3) as [->|[->| ->]] by lia; done).
  cbv zeta. rewrite Em. rewrite (m_bind_Ok _ _ _ _ _ (mount_ready dirs a path rest mode Hr El)). cbn [fst snd]. change (fr_ok FR_OK) with true. cbv iota.
  destruct (open_path_plain cfuel dfuel (mk_work (a_vol a) (d_onobj (obj_fs true) d) (a_lfn a)) rest s r mode f Hdf Hs Htr Hu Hfn Hm) as (fr & f' & v' & d' & lfn' & E & P & Hu' & Ef & R). cbn [wd_vol wd_dp wd_lfn] in *.
  pose proof (seen_intro dirs a v' lfn' Hr P Hu') as Hsn. set (a' := mk_fatfs _ _) in Hsn. exists fr, (if fr_ok fr then f' else fil_obj (obj_fs false (f_obj f')) f'), a'. split; [|split; [done|split; [done|]]].
  - erewrite m_bind_Ok; [|rewrite (bind_with_dir _ _ _ _ _ _ _ _ E); reflexivity]. done.
  - destruct (resolve _ _ _) as [| | | | |sc w fn i [e|e|long ls s0]]; try done. intros E0. destruct (R E0) as (t & its & k & Ed & He & Ef'). exists t, its, k, d'. rewrite E0. done.
Qed.

Lemma open_read_ok (cfuel dfuel : nat) (a : fatfs D) (d : DIR) (f : FIL) (path rest s r : list Z) :
  65536 <= Z.of_nat dfuel -> ready dirs a -> get_ldnumber path = Ok (0, rest) -> string_at rest s r -> fname (d_fn d) ->
  let pl := resolve dirs (a_geo a) rest in
  exists fr f' a', f_open cfuel dfuel d f path FA_READ a = Ok ((fr, f'), a') /\ fr = plain_result FA_READ pl /\
    match pl with
    | There sc _ _ _ (Named _ _ e) => fr = FR_OK ->
        forall l fuel buff btr, holds dirs (a_vol a) e l -> 0 <= btr < 4294967296 -> let n := Z.min btr (size_of e) in n <= zlen buff -> (Z.to_nat n < fuel)%nat ->
          exists buff' x', f_read fuel buff btr (mk_open (a_vol a') f') = Ok ((FR_OK, n, buff'), x') /\ length buff' = length buff /\
            (forall i, 0 <= i < n -> get buff' i = vbyte (a_vol a) l i) /\ (forall i, n <= i -> get buff' i = get buff i) /\ usable x' l /\ fptr (of_fil x') = n
    | _ => True
    end.
Proof.
  intros Hdf Hr El Hs Hfn pl. pose proof Hr as [_ Htr _]. pose proof (tr_fat _ _ Htr) as Hf. destruct (f_open_plain cfuel dfuel a d f path rest s r FA_READ Hdf Hr El Hs Hfn ltac:(unfold FA_READ; lia)) as (fr & f' & a' & E & [_ P] & Ef & R). fold pl in Ef, R. exists fr, f', a'. split; [exact E|]. split; [done|].
  destruct pl as [| | | | |sc w fn i [e|e|long ls s0]]; try done. intros E0. destruct (R E0) as (t & its & k & d' & Ed & [Ht A Sl W Hda] & ->). intros l fuel buff btr Hh Hb n Hn Hfu. pose proof P as (Hf' & _).
  pose proof (new_fil_usable dirs _ sc t its d' k FA_READ f s0 l Hf' Ed Ht A W Hda (holds_peeked _ _ _ _ _ Hf P Hh) eq_refl) as [U1 U2 U3 U4]. set (x := mk_open _ _) in *. pose proof (size_range s0 (proj2 Hda)) as Hsz.
  assert (n = Z.min btr (objsize (f_obj (of_fil x)) - fptr (of_fil x))) as En by (cbn [x of_fil new_fil f_obj objsize fptr]; lia).
  destruct (f_read_ok fuel x l buff btr U1 U2 U3 eq_refl Hb) as (b & x' & Er & K & Pl & S & F & [L Rd]); [by rewrite <- En|by rewrite <- En|]. rewrite <- En in *. exists b, x'. split; [exact Er|]. split; [done|]. cbn [x of_fil new_fil fptr] in F, Rd.
  pose proof (chain_range _ _ _ (ho_chain _ _ _ _ Hh)) as Hl. pose proof (ho_size _ _ _ _ Hh) as Hs'. pose proof (peeked_geo _ _ P) as G.
  split; [|split; [|split; [|lia]]].
  - intros j Hj. rewrite Rd by lia. rewrite (proj2 (Z.leb_le 0 j)), (proj2 (Z.ltb_lt j (0 + n))) by lia. cbn [andb]. replace (0 + (j - 0)) with j by lia. unfold x. rewrite fresh_byte; [apply vbyte_peeked; [done|done|done|lia]|apply Hf'|by rewrite G|done|rewrite G; lia].
  - intros j Hj. rewrite Rd by lia. rewrite (proj2 (Z.ltb_ge j (0 + n))) by lia. by rewrite andb_false_r.
  - split; [done|done|by eapply live_same|]. destruct U4 as [D1 D2 D3 D4 D5]. pose proof (sf_dir _ _ _ S) as [S1 S2]. pose proof (sf_geo _ _ _ S) as S3. split; rewrite ?S1, ?S2, ?S3; try done. unfold reachable in *. rewrite (sf_dev _ _ _ S), S3. done.
Qed.

End Opening.
