(* ===== verification/FatTree.v ===== *)
(** * FatTree: changes of the directory tree

    What a change of one directory, or of the clusters of files, leaves of the
    other directories; objects renewed in place; paths after a change of the
    directory they end in. *)

From Stdlib Require Import ZArith Lia Bool.
From stdpp Require Import base list list_numbers sets.
From S2P Require Import Prelude CLib Hw Ata FatUni Fat FatChain FatFile FatRead FatWrite FatSync FatLfn FatDir FatTable FatScan FatItems FatGrow FatEdit FatReg FatObj FatMount FatName FatApi FatWalk FatList FatOpen.
From stdpp Require Import options.

(** No cluster belongs to two directories. *)
Definition apart (dirs : Z -> option (dtable * list item)) : Prop :=
  forall sc1 t1 its1 sc2 t2 its2 c, dirs sc1 = Some (t1, its1) -> dirs sc2 = Some (t2, its2) -> sc1 <> sc2 -> on_table t1 c -> ~ on_table t2 c.

(** The directory [sc] replaced. *)
Definition dirs_set (dirs : Z -> option (dtable * list item)) (sc : Z) (t : dtable) (its : list item) (k : Z) : option (dtable * list item) :=
  if k =? sc then Some (t, its) else dirs k.

Lemma dirs_set_cases dirs sc t its k x : dirs_set dirs sc t its k = Some x -> (k = sc /\ x = (t, its)) \/ (k <> sc /\ dirs k = Some x).
Proof. unfold dirs_set. destruct (Z.eqb_spec k sc) as [->|Hne]; [intros E; injection E as <-; by left|by right]. Qed.

Lemma dirs_set_mono dirs sc t its k : is_Some (dirs k) -> is_Some (dirs_set dirs sc t its k).
Proof. intros Hk. unfold dirs_set. destruct (k =? sc); [by eexists|done]. Qed.

(** The same table with other objects. *)
Lemma apart_same dirs sc t its its' : dirs sc = Some (t, its) -> apart dirs -> apart (dirs_set dirs sc t its').
Proof.
  intros Ed Ha k1 t1 i1 k2 t2 i2 c E1 E2 Hne. apply dirs_set_cases in E1 as [[-> E1]|[N1 E1]]; apply dirs_set_cases in E2 as [[-> E2]|[N2 E2]]; [done| | |by apply (Ha k1 t1 i1 k2 t2 i2)].
  - injection E1 as -> ->. by apply (Ha sc t its k2 t2 i2).
  - injection E2 as -> ->. by apply (Ha k1 t1 i1 sc t its).
Qed.

Lemma clear_same dirs sc t its its' l : dirs sc = Some (t, its) -> clear_of dirs l -> clear_of (dirs_set dirs sc t its') l.
Proof. intros Ed Hc k t2 i2 c E. apply dirs_set_cases in E as [[-> E]|[_ E]]; [injection E as -> ->; by apply (Hc sc t its)|by apply (Hc k t2 i2)]. Qed.

(** The short entry of an object renewed under the same name. *)
Lemma laid_update its1 long ls s s' its2 es : laid (its1 ++ Named long ls s :: its2) es -> item_ok (Named long ls s') ->
  laid (its1 ++ Named long ls s' :: its2) (<[Z.to_nat (zlen (raws its1) + zlen ls) := s']> es).
Proof.
  intros (Hits & z & -> & Hz) Hs'. split; [apply Forall_app in Hits as [F1 F2]; apply Forall_cons in F2 as [_ F2]; apply Forall_app; split; [done|by apply Forall_cons]|]. exists z. split; [|done].
  rewrite !raws_app. cbn [fmap list_fmap concat raw]. rewrite <- !app_assoc. replace (Z.to_nat (zlen (raws its1) + zlen ls)) with (length (raws its1) + length ls)%nat by lia. rewrite insert_app_r. f_equal.
  rewrite <- (Nat.add_0_r (length ls)), insert_app_r. done.
Qed.

(** The name decides which object is found. *)
Lemma bears_renamed fn w fl long ls s ls' s' : take 11 s' = take 11 s -> bears fn w fl (Named long ls' s') = bears fn w fl (Named long ls s).
Proof. intros E. unfold bears, short_match. by rewrite E. Qed.

Lemma find_obj_at fn w its1 it its2 : forall i, Forall (fun it => bears fn w (get fn NSFLAG) it = false) its1 -> bears fn w (get fn NSFLAG) it = true -> find_obj fn w (its1 ++ it :: its2) i = Some (i + zlen (raws its1), it).
Proof.
  induction its1 as [|it1 its1 IH]; intros i F Hb; cbn [app find_obj]; [rewrite Hb; do 2 f_equal; cbn; lia|]. apply Forall_cons in F as [H1 F]. rewrite H1, IH by done. cbn [fmap list_fmap concat]. rewrite length_app. do 2 f_equal. lia.
Qed.

(** ** Paths after a change *)

(** The directories in which the segments before the last are looked up. *)
Fixpoint passed (dirs : Z -> option (dtable * list item)) (g : geometry) (fuel : nat) (sc : Z) (path : list Z) : list Z :=
  match fuel, parse path, dirs sc with
  | S fuel, Some (w, fn, p), Some (_, its) =>
      if is_last fn then []
      else sc :: match find_obj fn w its 0 with
                 | Some (_, Named _ _ s) => if has (attr_of s) AM_DIR then passed dirs g fuel (start_of g s) p else []
                 | _ => []
                 end
  | _, _, _ => []
  end.

Definition passed_by (dirs : Z -> option (dtable * list item)) (g : geometry) (path : list Z) : list Z :=
  match skip_seps path with Ok p => passed dirs g (length p) 0 p | _ => [] end.

(** The directory and the name a path ends in. *)
Definition ends_in (pl : place) (sc : Z) (w fn : list Z) : Prop := pl = Missing sc w fn \/ exists i it, pl = There sc w fn i it.

Definition found_in (sc : Z) (w fn : list Z) (its : list item) : place := match find_obj fn w its 0 with Some (i, it) => There sc w fn i it | None => Missing sc w fn end.

Lemma walk_set dirs g sc t' its' w fn : forall fuel sc0 path, sc ∉ passed dirs g fuel sc0 path -> ends_in (walk dirs g fuel sc0 path) sc w fn -> walk (dirs_set dirs sc t' its') g fuel sc0 path = found_in sc w fn its'.
Proof.
  induction fuel as [|fuel IH]; intros sc0 path Hp Hw; [by destruct Hw as [?|(? & ? & ?)]|]. cbn [walk passed] in *. destruct (parse path) as [[[w1 fn1] p]|]; [|destruct (dirs sc0); by destruct Hw as [?|(? & ? & ?)]].
  destruct (dirs sc0) as [[t its]|] eqn:Ed; [|by destruct Hw as [?|(? & ? & ?)]]. destruct (is_last fn1) eqn:El.
  - assert (sc0 = sc /\ w1 = w /\ fn1 = fn) as (-> & -> & ->) by (destruct (find_obj fn1 w1 its 0) as [[i it]|]; destruct Hw as [Hw|(? & ? & Hw)]; try discriminate; by injection Hw as -> -> ->).
    unfold dirs_set at 1. rewrite Z.eqb_refl. unfold found_in. by destruct (find_obj fn w its' 0) as [[i it]|].
  - apply not_elem_of_cons in Hp as [Hne Hp]. unfold dirs_set at 1. rewrite (proj2 (Z.eqb_neq sc0 sc)) by congruence. rewrite Ed. destruct (find_obj fn1 w1 its 0) as [[i it]|]; [|by destruct Hw as [?|(? & ? & ?)]].
    destruct it as [e|e|long ls s]; [by destruct Hw as [?|(? & ? & ?)]..|]. destruct (has (attr_of s) AM_DIR); [|by destruct Hw as [?|(? & ? & ?)]]. by apply IH.
Qed.

Lemma resolve_set dirs g sc t' its' w fn path : sc ∉ passed_by dirs g path -> ends_in (resolve dirs g path) sc w fn -> resolve (dirs_set dirs sc t' its') g path = found_in sc w fn its'.
Proof.
  unfold passed_by, resolve. destruct (skip_seps path) as [p| | |]; [|intros _ Hw; by destruct Hw as [?|(? & ? & ?)]..]. intros Hp. destruct (IsTerminator (get p 0)); [intros Hw; by destruct Hw as [?|(? & ? & ?)]|]. by apply walk_set.
Qed.

(** The directory where the name is missing is one of the tree. *)
Lemma resolve_missing dirs g path sc w fn : resolve dirs g path = Missing sc w fn -> is_Some (dirs sc).
Proof.
  unfold resolve. destruct (skip_seps path) as [p| | |]; [|done..]. destruct (IsTerminator (get p 0)); [done|]. generalize 0 as sc0. generalize (length p) as n. intros n. revert p. induction n as [|n IH]; intros p sc0; [done|]. cbn [walk].
  destruct (parse p) as [[[w0 fn0] p0]|]; [|by destruct (dirs sc0)]. destruct (dirs sc0) as [[t its]|] eqn:Ed; [|done]. destruct (find_obj fn0 w0 its 0) as [[i it]|].
  - destruct (is_last fn0); [done|]. destruct it as [e|e|long ls s]; [done|done|]. destruct (has (attr_of s) AM_DIR); [apply IH|done].
  - destruct (is_last fn0); [|done]. intros E. injection E as -> _ _. rewrite Ed. by eexists.
Qed.

(** Paths depend on the objects of the directories only. *)
Lemma resolve_ext d1 d2 g path : (forall k, d1 k = d2 k) -> resolve d1 g path = resolve d2 g path.
Proof.
  intros He. unfold resolve. destruct (skip_seps path) as [q| | |]; [|done..]. destruct (IsTerminator (get q 0)); [done|]. generalize 0 as sc0. generalize (length q) as n. intros n. revert q. induction n as [|n IH]; intros q sc0; [done|]. cbn [walk]. rewrite He.
  destruct (parse q) as [[[w0 fn0] p0]|]; [|done]. destruct (d2 sc0) as [[t0 its0]|]; [|done]. destruct (find_obj fn0 w0 its0 0) as [[i it]|]; [|done]. destruct (is_last fn0); [done|]. destruct it as [e|e|l0 ls0 s0]; [done|done|]. destruct (has (attr_of s0) AM_DIR); [apply IH|done].
Qed.

Section Tree.
Context {D : Type} `{BlockLaws D}.
#[local] Set Default Proof Using "Type*".

Abbreviation v_geo v := (fs_geo (v_fs v)).
Abbreviation nent v := (n_fatent (v_geo v)).

(** A directory whose clusters and sectors are as before. *)
Lemma kept_dir v v' sc t : fat_ok v -> v_geo v' = v_geo v -> table_at v sc t -> (forall c, on_table t c -> entry v' c = entry v c) ->
  (forall j, 0 <= j < dsects (v_geo v) t -> vsec v' (dsect (v_geo v) t j) = vsec v (dsect (v_geo v) t j)) -> table_at v' sc t /\ slots v' t = slots v t.
Proof.
  intros Hf G Ht He Hv. split.
  - destruct t as [|l]; cbn [table_at] in *; rewrite G; [done|]. destruct Ht as [Hne Hl]. split; [done|]. eapply links_ext; [|exact Hl]. intros c Hc. symmetry. by apply He.
  - unfold slots. rewrite G. apply list_fmap_ext. intros i k Hk. apply lookup_seqZ in Hk as [-> Hi]. unfold slot. rewrite G, Hv; [done|]. unfold nslots in Hi. dlia.
Qed.

(** Everything of the directories for which [P] holds is as before. *)
Record steady (dirs : Z -> option (dtable * list item)) (P : Z -> Prop) (v v' : vol D) : Prop := {
  sy_fat : fat_ok v';
  sy_geo : v_geo v' = v_geo v;
  sy_size : bd_size (v_dev v') = bd_size (v_dev v);
  sy_entry : forall sc t its c, dirs sc = Some (t, its) -> P sc -> on_table t c -> entry v' c = entry v c;
  sy_frame : forall sc t its j, dirs sc = Some (t, its) -> P sc -> 0 <= j < dsects (v_geo v) t -> vsec v' (dsect (v_geo v) t j) = vsec v (dsect (v_geo v) t j)
}.

Lemma steady_trans dirs P v1 v2 v3 : steady dirs P v1 v2 -> steady dirs P v2 v3 -> steady dirs P v1 v3.
Proof.
  intros [F1 G1 Z1 E1 V1] [F2 G2 Z2 E2 V2]. split; [done|congruence|congruence| |].
  - intros sc t its c Ed Hp Hc. by rewrite (E2 sc t its), (E1 sc t its).
  - intros sc t its j Ed Hp Hj. rewrite G1 in V2. by rewrite (V2 sc t its), (V1 sc t its).
Qed.

Lemma tree_keep dirs v v' : tree dirs v -> steady dirs (fun _ => True) v v' -> tree dirs v'.
Proof.
  intros [Hf Hr Hd Hs] [F G Zs E V]. split; [done|done| |].
  - intros sc t its Ed. destruct (Hd _ _ _ Ed) as [Ht Hl]. destruct (kept_dir v v' sc t Hf G Ht) as [Ht' Hsl]; [intros c; by apply (E sc t its)|intros j; by apply (V sc t its)|]. split; [done|]. by rewrite Hsl.
  - rewrite G. exact Hs.
Qed.

(** One directory is new, or has a new table and new objects. *)
Lemma tree_put dirs v v' sc t' its' : tree dirs v -> steady dirs (fun k => k <> sc) v v' -> table_at v' sc t' -> laid its' (slots v' t') ->
  (forall long ls s, Named long ls s ∈ its' -> has (attr_of s) AM_DIR = true -> is_Some (dirs_set dirs sc t' its' (start_of (v_geo v) s))) -> tree (dirs_set dirs sc t' its') v'.
Proof.
  intros [Hf Hr Hd Hs] [F G Zs E V] Ht' Hl' Hsub. pose proof (dirs_set_mono dirs sc t' its') as Hmono. split; [done|by apply Hmono| |].
  - intros k t its Ek. apply dirs_set_cases in Ek as [[-> Ex]|[Hne Ek]]; [by injection Ex as -> ->|]. destruct (Hd _ _ _ Ek) as [Ht Hl]. destruct (kept_dir v v' k t Hf G Ht) as [Ht2 Hsl]; [intros c; by apply (E k t its)|intros j; by apply (V k t its)|]. split; [done|]. by rewrite Hsl.
  - rewrite G. intros k t its long ls s Ek Hin Had. apply dirs_set_cases in Ek as [[-> Ex]|[Hne Ek]]; [injection Ex as -> ->; by apply (Hsub long ls)|]. by apply Hmono, (Hs k t its long ls).
Qed.

(** The subdirectories of the changed directory were there. *)
Lemma tree_set dirs v v' sc t' its' : tree dirs v -> steady dirs (fun k => k <> sc) v v' -> is_Some (dirs sc) -> table_at v' sc t' -> laid its' (slots v' t') ->
  (forall long ls s, Named long ls s ∈ its' -> has (attr_of s) AM_DIR = true -> is_Some (dirs (start_of (v_geo v) s))) -> tree (dirs_set dirs sc t' its') v'.
Proof.
  intros Htr Hsy _ Ht Hl Hsub. apply (tree_put dirs v); [done|done|done|done|]. intros long ls s Hin Had. apply dirs_set_mono. by apply (Hsub long ls).
Qed.

(** The table [t'] of one directory and another directory share no sector. *)
Lemma tables_apart v v' sc t' sc2 t2 i j : vol_ok v -> v_geo v' = v_geo v -> table_at v' sc t' -> table_at v sc2 t2 -> sc2 <> sc -> (forall c, on_table t2 c -> ~ on_table t' c) ->
  0 <= i < dsects (v_geo v) t2 -> 0 <= j < dsects (v_geo v) t' -> dsect (v_geo v) t2 i <> dsect (v_geo v) t' j.
Proof.
  intros Hv G Ht' Ht2 Hne Ha Hi Hj. destruct t' as [|m]; cbn [dsects dsect] in *.
  - destruct t2 as [|m2]; [destruct Ht' as [-> _], Ht2 as [-> _]; done|]. cbn [table_at] in Ht'. rewrite G in Ht'. apply (apart_sectors v sc Static m2 i j); [done|exact Ht'|by eapply table_range|done|done|done].
  - pose proof (table_range _ _ _ Ht') as Hm. rewrite G in Hm. intros E. symmetry in E. revert E. apply (apart_sectors v sc2 t2 m j i); [done|done|done|intros c Hc Hon; by apply (Ha c)|done|done].
Qed.

(** A change of one directory leaves the others alone. *)
Lemma changed_steady dirs v v' sc t t' its : tree dirs v -> apart dirs -> dirs sc = Some (t, its) -> changed sc t t' v v' ->
  steady dirs (fun k => k <> sc) v v' /\ (forall its', apart (dirs_set dirs sc t' its')).
Proof.
  intros Htr Hap Ed C. pose proof C as [F G Zs Ht' Hext He Hfr]. pose proof (tr_fat _ _ Htr) as Hf.
  assert (forall k t2 its2 c, dirs k = Some (t2, its2) -> k <> sc -> on_table t2 c -> ~ on_table t' c) as Hd.
  { intros k t2 its2 c Ek Hne Hc Hc'. destruct (tr_dir _ _ Htr _ _ _ Ek) as [Ht2 _]. destruct (on_used _ _ _ _ Hf Ht2 Hc) as [_ Hu]. destruct Hext as [->|(l & r & -> & -> & Hr)]; [by apply (Hap k t2 its2 sc t its c)|].
    cbn [on_table] in Hc'. apply elem_of_app in Hc' as [Hc'|Hc']; [by apply (Hap k t2 its2 sc (Clusters l) its c)|]. rewrite Forall_forall in Hr. by specialize (Hr c Hc'). }
  split; [split; [done|done|done| |]|].
  - intros k t2 its2 c Ek Hne Hc. destruct (tr_dir _ _ Htr _ _ _ Ek) as [Ht2 _]. destruct (on_used _ _ _ _ Hf Ht2 Hc) as [Hrg _]. destruct (He c Hrg) as [Hon|]; [|done]. by destruct (Hd k t2 its2 c Ek Hne Hc).
  - intros k t2 its2 j Ek Hne Hj. destruct (tr_dir _ _ Htr _ _ _ Ek) as [Ht2 _]. destruct (dsect_ok _ _ _ _ (fo_vol _ Hf) Ht2 Hj) as (R1 & R2 & _). apply Hfr; [done|done|]. intros j' Hj'.
    apply (tables_apart v v' sc t' k t2); [apply Hf|done|done|done|done|intros c; by apply (Hd k t2 its2)|done|done].
  - intros its' k1 t1 i1 k2 t2 i2 c E1 E2 Hne Hc1 Hc2. apply dirs_set_cases in E1 as [[-> E1]|[N1 E1]]; apply dirs_set_cases in E2 as [[-> E2]|[N2 E2]].
    + done.
    + injection E1 as -> ->. by apply (Hd k2 t2 i2 c).
    + injection E2 as -> ->. by apply (Hd k1 t1 i1 c).
    + by apply (Hap k1 t1 i1 k2 t2 i2 c).
Qed.

(** A change of the clusters [l], which belong to no directory. *)
Lemma clear_steady dirs P v v' l : tree dirs v -> clear_of dirs l -> in_range (v_geo v) l -> fat_ok v' -> v_geo v' = v_geo v -> bd_size (v_dev v') = bd_size (v_dev v) ->
  (forall c, 2 <= c < nent v -> c ∉ l -> entry v' c = entry v c) ->
  (forall s, reachable v s -> ~ in_table (v_geo v) s -> (forall j, 0 <= j < nsec (v_geo v) l -> s <> fsect (v_geo v) l j) -> (forall sc t its j, dirs sc = Some (t, its) -> ~ P sc -> 0 <= j < dsects (v_geo v) t -> s <> dsect (v_geo v) t j) -> s <> volbase (v_geo v) + 1 -> vsec v' s = vsec v s) ->
  apart dirs -> steady dirs P v v'.
Proof.
  intros Htr Hcl Hl F G Zs He Hv Hap. pose proof (tr_fat _ _ Htr) as Hf. split; [done|done|done| |].
  - intros sc t its c Ed _ Hc. destruct (tr_dir _ _ Htr _ _ _ Ed) as [Ht _]. destruct (on_used _ _ _ _ Hf Ht Hc) as [Hr _]. apply He; [done|]. intros Hin. by apply (Hcl sc t its c).
  - intros sc t its j Ed Hp Hj. destruct (tr_dir _ _ Htr _ _ _ Ed) as [Ht _]. destruct (dsect_ok _ _ _ _ (fo_vol _ Hf) Ht Hj) as (R1 & R2 & _). apply Hv; [done|done| | |].
    + intros i Hi E. symmetry in E. revert E. apply (apart_sectors v sc t l i j); [apply Hf|done|done|intros c Hc; by apply (Hcl sc t its)|done|done].
    + intros sc2 t2 its2 i Ed2 Hnp Hi. destruct (tr_dir _ _ Htr _ _ _ Ed2) as [Ht2 _]. assert (sc2 <> sc) as Hne by (intros ->; done). intros E. symmetry in E. revert E.
      apply (tables_apart v v sc t sc2 t2); [apply Hf|done|done|done|done|intros c Hc Hc'; by apply (Hap sc2 t2 its2 sc t its c)|done|done].
    + by apply (dsect_info v sc); [apply Hf|..].
Qed.

Lemma tree_ext dirs dirs' v : (forall k, dirs' k = dirs k) -> tree dirs v -> tree dirs' v.
Proof.
  intros E [Hf Hr Hd Hs]. split; [done|by rewrite E| |].
  - intros sc t its Ek. rewrite E in Ek. by apply Hd.
  - intros sc t its long ls s Ek. rewrite E in Ek. rewrite E. by apply (Hs sc t its long ls).
Qed.

Lemma apart_ext dirs dirs' : (forall k, dirs' k = dirs k) -> apart dirs -> apart dirs'.
Proof. intros E Ha sc1 t1 i1 sc2 t2 i2 c E1 E2. rewrite E in E1, E2. by apply (Ha sc1 t1 i1 sc2 t2 i2). Qed.

Lemma clear_ext dirs dirs' l : (forall k, dirs' k = dirs k) -> clear_of dirs l -> clear_of dirs' l.
Proof. intros E Hc sc t its c Ek. rewrite E in Ek. by apply (Hc sc t its). Qed.

Lemma dirs_set_set dirs sc t its t' its' k : dirs_set (dirs_set dirs sc t its) sc t' its' k = dirs_set dirs sc t' its' k.
Proof. unfold dirs_set. by destruct (k =? sc). Qed.

(** The clusters and the bytes of a file are as before. *)
Record same_content (dirs dirs' : Z -> option (dtable * list item)) (v v' : vol D) (s l : list Z) : Prop := {
  sn_holds : holds dirs' v' s l;
  sn_bytes : forall k, 0 <= k < 512 * nsec (v_geo v) l -> vbyte v' l k = vbyte v l k
}.

Lemma same_content_intro dirs dirs' v v' s l : fat_ok v -> holds dirs v s l -> v_geo v' = v_geo v -> (forall c, c ∈ l -> 2 <= c < nent v -> entry v c <> 0 -> entry v' c = entry v c) ->
  (forall j, 0 <= j < nsec (v_geo v) l -> vsec v' (fsect (v_geo v) l j) = vsec v (fsect (v_geo v) l j)) -> clear_of dirs' l -> same_content dirs dirs' v v' s l.
Proof.
  intros Hf [Hc Hs _] G He Hv Hcl. pose proof (chain_range _ _ _ Hc) as Hr. split.
  - split; [|by rewrite G|done]. rewrite G. destruct l as [|c0 l]; [done|]. cbn [chain] in *. rewrite G. eapply links_ext; [|exact Hc]. intros c Hin. symmetry. pose proof (links_used _ _ _ _ Hf Hc Hin). apply He; [done|by apply Hr|lia].
  - intros k Hk. unfold vbyte. rewrite G, Hv; [done|]. dlia.
Qed.

Lemma same_content_trans d1 d2 d3 v1 v2 v3 s l : v_geo v2 = v_geo v1 -> same_content d1 d2 v1 v2 s l -> same_content d2 d3 v2 v3 s l -> same_content d1 d3 v1 v3 s l.
Proof. intros G [H1 B1] [H2 B2]. split; [done|]. intros k Hk. rewrite B2 by (by rewrite G). by apply B1. Qed.

(** Files after a change of a directory. *)
Lemma changed_content dirs v v' sc t t' its its' s l : tree dirs v -> dirs sc = Some (t, its) -> changed sc t t' v v' -> holds dirs v s l -> same_content dirs (dirs_set dirs sc t' its') v v' s l.
Proof.
  intros Htr Ed C Hh. pose proof C as [F G Zs Ht' Hext He Hfr]. pose proof (tr_fat _ _ Htr) as Hf. pose proof (ho_chain _ _ _ _ Hh) as Hc. pose proof (chain_range _ _ _ Hc) as Hr. pose proof (ho_clear _ _ _ _ Hh) as Hcl.
  assert (forall c, c ∈ l -> ~ on_table t' c) as Hno.
  { intros c Hin Hon. destruct Hext as [->|(m & r & -> & -> & Hfree)]; [by apply (Hcl sc t its c)|]. cbn [on_table] in Hon. apply elem_of_app in Hon as [Hon|Hon]; [by apply (Hcl sc (Clusters m) its c)|].
    rewrite Forall_forall in Hfree. specialize (Hfree c Hon). destruct l as [|c0 l0]; [set_solver|]. pose proof (links_used _ _ _ _ Hf Hc Hin). lia. }
  apply same_content_intro; [done|done|done| | |].
  - intros c Hin Hrg _. destruct (He c Hrg) as [Hon|]; [|done]. by destruct (Hno c Hin).
  - intros j Hj. pose proof (vo_geo _ (fo_vol _ Hf)) as Hg. destruct (fsect_data _ _ Hg l j Hr Hj) as [Hd _]. apply Hfr; [apply data_reachable; [apply Hf|done]|by eapply data_not_table|]. intros i Hi. rewrite <- G in Hi |- *. rewrite <- G in Hr, Hj.
    apply (apart_sectors v' sc t' l j i); [apply F|done|done|done|done|done].
  - intros k t2 its2 c Ek Hin. apply dirs_set_cases in Ek as [[-> Ex]|[_ Ek]]; [injection Ex as -> ->; by apply Hno|by apply (Hcl k t2 its2)].
Qed.

(** The tree and the files are kept. *)
Record kept (dirs : Z -> option (dtable * list item)) (v : vol D) (dirs' : Z -> option (dtable * list item)) (v' : vol D) : Prop := {
  kp_tree : tree dirs' v';
  kp_apart : apart dirs';
  kp_geo : v_geo v' = v_geo v;
  kp_files : forall s2 l2, holds dirs v s2 l2 -> same_content dirs dirs' v v' s2 l2
}.

Lemma kept_trans d1 v1 d2 v2 d3 v3 : kept d1 v1 d2 v2 -> kept d2 v2 d3 v3 -> kept d1 v1 d3 v3.
Proof. intros [T1 A1 G1 F1] [T2 A2 G2 F2]. split; [done|done|congruence|]. intros s l Hh. pose proof (F1 s l Hh) as S1. eapply same_content_trans; [exact G1|exact S1|]. apply F2, S1. Qed.

Lemma kept_ext dirs v dirs1 dirs2 v' : (forall k, dirs2 k = dirs1 k) -> kept dirs v dirs1 v' -> kept dirs v dirs2 v'.
Proof.
  intros E [T A G F]. split; [by eapply tree_ext|by eapply apart_ext|done|]. intros s l Hh. destruct (F s l Hh) as [[C S L] B]. split; [|done]. split; [done|done|by eapply clear_ext].
Qed.

Lemma kept_peeked dirs v v' : tree dirs v -> apart dirs -> peeked v v' -> kept dirs v dirs v'.
Proof.
  intros Htr Hap P. pose proof (tr_fat _ _ Htr) as Hf. split; [by apply (tree_peeked dirs v)|done|by apply peeked_geo|]. intros s l Hh. split; [by apply (holds_peeked dirs v)|]. intros k Hk. apply vbyte_peeked; [done|done|by eapply chain_range, Hh|done].
Qed.

End Tree.
