(* ===== verification/FatCreate.v ===== *)
(** * FatCreate: files created and written by their path (ff.c)

    [f_open] with FA_CREATE_ALWAYS registers the object or empties the one that
    is there; [f_write] and [f_close] then store its content, which [f_open]
    by the same path and [f_read] deliver. *)

From Stdlib Require Import ZArith Lia Bool.
From stdpp Require Import base list list_numbers sets.
From S2P Require Import Prelude CLib Hw Ata FatUni Fat FatChain FatFile FatRead FatWrite FatSync FatLfn FatDir FatTable FatScan FatItems FatGrow FatEdit FatReg FatObj FatMount FatName FatApi FatWalk FatList FatOpen FatTree.
From stdpp Require Import options.

(** ** The entry of a new file *)

(** The entry [s'] bears the name of [s] and is no volume label. *)
Record renewed (s s' : list Z) : Prop := {
  rn_data : slot_data s';
  rn_name : forall i, 0 <= i < 11 -> get s' i = get s i;
  rn_vol : has (attr_of s') AM_VOL = false
}.

Lemma renewed_take s s' : slot_data s -> renewed s s' -> take 11 s' = take 11 s.
Proof.
  intros [L _] [[L' _] N _]. apply get_eq_ext; [rewrite !length_take; lia|]. intros i Hi. rewrite length_take in Hi. rewrite !get_take by lia. apply N. lia.
Qed.

Lemma renewed_item long ls s s' : item_ok (Named long ls s) -> renewed s s' -> item_ok (Named long ls s').
Proof.
  intros ([L B] & N0 & N1 & _ & Fl & Hl) [[L' B'] N V]. cbn [item_ok]. rewrite (N 0) by lia. split; [done|]. split; [done|]. split; [done|]. split; [done|]. split; [done|].
  assert (sfn_sum s' = sfn_sum s) as ->; [|done]. unfold sfn_sum, sum_sfn. rewrite (sum_loop_ext 11 s' s 0 0); [done|]. intros k Hk. rewrite !rd_in by lia. rewrite N by lia. done.
Qed.

(** The entry of an empty file. *)
Record empty_entry (g : geometry) (s : list Z) : Prop := {
  em_start : start_of g s = 0;
  em_size : size_of s = 0;
  em_attr : get s DIR_Attr = AM_ARC
}.

Lemma ld_clust_only g b b' dir lo hi : sector_data b -> sector_data b' -> only lo hi b b' -> 0 <= dir -> dir + 32 <= 512 -> hi <= dir + 20 \/ (dir + 22 <= lo /\ hi <= dir + 26) \/ dir + 28 <= lo -> ld_clust g b' dir = ld_clust g b dir.
Proof.
  intros [L B] [L' B'] O Hd Hl Hlo. unfold ld_clust, DIR_FstClusLO, DIR_FstClusHI. rewrite (ld_word_ok b (dir + 26)), (ld_word_ok b' (dir + 26)), (ld_word_ok b (dir + 20)), (ld_word_ok b' (dir + 20)) by (done || lia).
  rewrite (le16_only _ _ _ _ (dir + 26) O), (le16_only _ _ _ _ (dir + 20) O) by lia. done.
Qed.

(** What [new_entry] makes of a sector. *)
Lemma new_entry_ok g tm dir b : sector_data b -> 0 <= dir <= 480 -> 0 <= tm < 4294967296 ->
  exists b', new_entry g tm dir b = Ok (start_of g (entry_at b dir), b') /\ sector_data b' /\ only dir (dir + 32) b b' /\ renewed (entry_at b dir) (entry_at b' dir) /\ empty_entry g (entry_at b' dir).
Proof.
  intros Hb Hd Htm. unfold new_entry, DIR_CrtTime, DIR_ModTime, DIR_Attr, DIR_FileSize.
  destruct (st_dword_field b (dir + 14) tm Hb) as (b1 & E1 & S1 & _ & O1); [lia|lia|done|]. rewrite E1, bind_Ok.
  destruct (st_dword_field b1 (dir + 22) tm S1) as (b2 & E2 & S2 & _ & O2); [lia|lia|done|]. rewrite E2, bind_Ok.
  rewrite (ld_clust_only g b1 b2 dir _ _ S1 S2 O2), (ld_clust_only g b b1 dir _ _ Hb S1 O1) by lia. rewrite (ld_clust_slot g b dir (proj1 Hb) (proj2 Hb) Hd), bind_Ok.
  destruct (wr_byte b2 (dir + 11) AM_ARC S2) as (b3 & E3 & S3 & V3 & O3); [lia|unfold is_byte, AM_ARC; lia|]. rewrite E3, bind_Ok.
  destruct (st_clust_ok g b3 dir 0 S3) as (b4 & E4 & S4 & V4 & O4 & _); [lia|lia|lia|right; lia|]. rewrite E4, bind_Ok.
  destruct (st_dword_field b4 (dir + 28) 0 S4) as (b5 & E5 & S5 & V5 & O5); [lia|lia|lia|]. rewrite E5, bind_Ok. exists b5. split; [done|]. split; [done|].
  assert (only dir (dir + 32) b b5) as O by (intros j Hj Hn; rewrite O5, O4, O3, O2, O1 by lia; done). split; [done|]. pose proof (entry_len b5 dir (proj1 S5) Hd) as L5.
  assert (get (entry_at b5 dir) 11 = AM_ARC) as Ha by (rewrite (entry_get b5 dir (proj1 S5) Hd), O5, O4 by lia; done). split; split.
  - split; [done|]. unfold entry_at. apply Forall_take, Forall_drop, S5.
  - intros i Hi. rewrite (entry_get b5 dir (proj1 S5) Hd), (entry_get b dir (proj1 Hb) Hd) by lia. rewrite O5, O4, O3, O2, O1 by lia. done.
  - unfold attr_of, DIR_Attr. rewrite Ha. done.
  - pose proof (ld_clust_slot g b5 dir (proj1 S5) (proj2 S5) Hd) as Es. rewrite (ld_clust_only g b4 b5 dir _ _ S4 S5 O5), V4 in Es by lia. by injection Es.
  - pose proof (ld_size b5 dir (proj1 S5) (proj2 S5) Hd) as Es. unfold DIR_FileSize in Es. rewrite ld_dword_ok in Es by (apply S5 || (rewrite (proj1 S5); lia) || lia). rewrite V5 in Es. by injection Es.
  - exact Ha.
Qed.

(** The short entry as it is registered: no attribute, no cluster. *)
Lemma sfn_entry_blank g fn : slot_data (sfn_entry fn) -> attr_of (sfn_entry fn) = 0 /\ start_of g (sfn_entry fn) = 0.
Proof.
  intros [L B]. assert (zlen (take 11 fn) = 11) as Lt by (unfold sfn_entry in L; rewrite length_app in L; cbn [length replicate] in L; lia).
  assert (forall i, 13 <= i < 32 -> get (sfn_entry fn) i = 0) as Hz.
  { intros i Hi. unfold sfn_entry. rewrite get_app_r by lia. rewrite Lt. change (0 :: ?a :: ?r) with ([0; a] ++ r). rewrite get_app_r by (cbn [length]; lia). apply get_zeros. }
  split; [unfold attr_of, DIR_Attr, sfn_entry; rewrite get_app_r by lia; by rewrite Lt|]. unfold start_of, ld_clust, DIR_FstClusLO, DIR_FstClusHI. rewrite (ld_word_ok _ (0 + 26)), (ld_word_ok _ (0 + 20)) by (done || lia). rewrite !bind_Ok. unfold le16. rewrite !Hz by lia. by destruct (fs_type g =? FS_FAT32).
Qed.

(** The archive attribute leaves the others alone. *)
Lemma attr_archived s s' m : get s' DIR_Attr = Z.lor (get s DIR_Attr) AM_ARC -> m = AM_VOL \/ m = AM_DIR \/ m = AM_RDO -> has (attr_of s') m = has (attr_of s) m.
Proof.
  intros E Hm. unfold has, attr_of. rewrite E, !Z.land_lor_distr_l. replace (Z.land (Z.land AM_ARC AM_MASK) m) with 0 by (destruct Hm as [->|[->| ->]]; done). by rewrite Z.lor_0_r.
Qed.

Section Creating.
Context {D : Type} `{BlockLaws D}.
#[local] Set Default Proof Using "Type*".

Abbreviation v_geo v := (fs_geo (v_fs v)).
Abbreviation nent v := (n_fatent (v_geo v)).
Abbreviation x_geo x := (v_geo (wd_vol x)).

(** The slot was renewed and the clusters [l] were freed; nothing else changed. *)
Record emptied (v : vol D) (sc : Z) (t : dtable) (k : Z) (s' l : list Z) (v' : vol D) : Prop := {
  et_fat : fat_ok v';
  et_geo : v_geo v' = v_geo v;
  et_size : bd_size (v_dev v') = bd_size (v_dev v);
  et_table : table_at v' sc t;
  et_slots : slots v' t = <[Z.to_nat k := s']> (slots v t);
  et_free : forall c, c ∈ l -> entry v' c = 0;
  et_entry : forall c, 2 <= c < nent v -> c ∉ l -> entry v' c = entry v c;
  et_frame : forall s, reachable v s -> ~ in_table (v_geo v) s -> s <> dsect (v_geo v) t (k / 16) -> vsec v' s = vsec v s
}.

Lemma fat_ok_last v c : fat_ok v -> 0 <= c < 4294967296 -> fat_ok (mk_vol (mk_fs (v_geo v) (fs_win (v_fs v)) (mk_alloc c (free_clst (fs_alloc (v_fs v))) (fsi_flag (fs_alloc (v_fs v))))) (v_dev v)).
Proof. intros [Hv Ho [[A1 A2] A3]] Hc. split; [by apply vol_ok_alc|done|]. split; [done|]. exact A3. Qed.

(** Writing the slot: the window holds the sector. *)
Lemma slot_written v d sc t k s b' : fat_ok v -> entry_here v d sc t k s -> sector_data b' -> only (d_dir d) (d_dir d + 32) (win (fs_win (v_fs v))) b' ->
  let v' := with_window b' v in emptied v sc t k (entry_at b' (d_dir d)) [] v' /\ winsect (fs_win (v_fs v')) = d_sect d /\ changed sc t t v v'.
Proof.
  intros Hf [Ht A Es W _] Hb Ho v'. pose proof (as_in _ _ _ _ A) as Hi. pose proof (as_dir _ _ _ _ A) as Ed. pose proof (as_sect _ _ _ _ A) as Esec. rewrite Ed in *.
  assert (0 <= k / 16 < dsects (v_geo v) t) as Hj by (unfold nslots in Hi; dlia). destruct (dsect_ok _ _ t (k / 16) (fo_vol _ Hf) Ht Hj) as (Hr & Hnt & _). rewrite <- Esec, <- W in Hr, Hnt.
  destruct (put_slot v sc t k b' Hf Ht Hi) as [C Sl]; [congruence|done|done|]. destruct (poke_window v b' Hf Hr Hnt Hb) as (F & E & V). split; [|split; [exact W|exact C]].
  split; [done|done|done|apply C|done|set_solver|intros c Hc _; by apply E|]. intros s0 _ _ Hne. rewrite V, W, Esec. by rewrite (proj2 (Z.eqb_neq _ _) Hne).
Qed.

Lemma chain_start v s l : fat_ok v -> chain v s l -> (s = 0 /\ l = []) \/ (s <> 0 /\ l <> [] /\ links (nent v) (entry v) s l).
Proof. intros Hf Hc. destruct l as [|c l]; [by left|right]. cbn [chain] in Hc. pose proof Hc as (-> & Hr & _). split; [lia|done]. Qed.

Lemma overwrite_ok cfuel dirs v d lfn sc t its k s l : tree dirs v -> dirs sc = Some (t, its) -> entry_here v d sc t k s -> chain v (start_of (v_geo v) s) l -> clear_of dirs l -> (Z.to_nat (nent v) <= cfuel)%nat ->
  exists v' s', overwrite cfuel (mk_work v d lfn) = Ok (FR_OK, mk_work v' d lfn) /\ emptied v sc t k s' l v' /\ renewed s s' /\ empty_entry (v_geo v) s' /\ winsect (fs_win (v_fs v')) = d_sect d.
Proof.
  intros Htr Edir Hst Hch Hcl Hcf. pose proof (tr_fat _ _ Htr) as Hf. pose proof Hst as [Ht A Es W _]. pose proof (vo_win _ (fo_vol _ Hf)) as Hwin. assert (0 <= d_dir d <= 480) as Hd by (rewrite (as_dir _ _ _ _ A); dlia).
  unfold overwrite. rewrite bind_dp, bind_dgeo, bind_dwnd. cbn [wd_vol wd_dp wd_lfn]. destruct (new_entry_ok (v_geo v) get_fattime (d_dir d) (win (fs_win (v_fs v)))) as (b & Eb & Hb & Ho & Hren & Hem); [split; apply Hwin|done|apply tm_fits|].
  rewrite (win_slot v t d k A W), Es in Eb, Hren. rewrite (bind_dlift _ _ _ _ Eb). cbn [fst snd]. destruct (slot_written v d sc t k s b Hf Hst Hb Ho) as [E1 [W1 C1]]. set (v1 := with_window b v) in *. set (s' := entry_at b (d_dir d)) in *.
  rewrite (bind_dvol _ _ (mk_work v d lfn) tt v1) by reflexivity. cbn [wd_vol wd_dp wd_lfn]. destruct (chain_start v _ l Hf Hch) as [[-> ->]|(Hs0 & Hne & Hl)].
  - cbn [Z.eqb negb]. exists v1, s'. split; [reflexivity|]. done.
  - rewrite (proj2 (Z.eqb_neq _ 0) Hs0). cbn [negb]. set (c0 := start_of (v_geo v) s) in *. pose proof E1 as [F1 G1 Z1 T1 S1 _ En1 Fr1]. pose proof (chain_range _ _ _ Hch) as Hr.
    assert (links (nent v1) (entry v1) c0 l) as Hl1 by (rewrite G1; eapply links_ext; [|exact Hl]; intros c Hc; symmetry; apply En1; [by apply Hr|set_solver]).
    destruct (remove_chain_ok cfuel v1 c0 l 0 F1 Hl1 Hne) as (v2 & E2 & F2 & (G2 & Z2 & V2 & _) & _ & En2); [by rewrite G1|by left|]. rewrite (bind_dvol _ _ (mk_work v1 d lfn) _ _ E2). change (fr_ok FR_OK) with true. cbv iota. cbn [wd_vol wd_dp wd_lfn].
    assert (0 <= k / 16 < dsects (v_geo v) t) as Hj by (pose proof (as_in _ _ _ _ A) as Hi; unfold nslots in Hi; dlia). destruct (dsect_ok _ _ t (k / 16) (fo_vol _ Hf) Ht Hj) as (Hrd & Hnt & _).
    rewrite W, (as_sect _ _ _ _ A). destruct (move_window_peek v2 (dsect (v_geo v) t (k / 16)) F2) as (v3 & E3 & (F3 & (G3 & Z3 & V3) & A3) & W3 & _); [unfold reachable in *; rewrite G2, G1, Z2, Z1; done|]. rewrite (bind_dvol _ _ (mk_work v2 d lfn) _ _ E3). cbn [wd_vol wd_dp wd_lfn].
    assert (0 <= u32 (c0 - 1) < 4294967296) as Hu by apply u32_bound. set (v4 := mk_vol (mk_fs (v_geo v3) (fs_win (v_fs v3)) (mk_alloc (u32 (c0 - 1)) (free_clst (fs_alloc (v_fs v3))) (fsi_flag (fs_alloc (v_fs v3))))) (v_dev v3)).
    rewrite (bind_dvol _ _ (mk_work v3 d lfn) tt v4) by reflexivity. cbn [wd_vol wd_dp wd_lfn]. exists v4, s'. split; [reflexivity|].
    assert (forall s0, reachable v s0 -> ~ in_table (v_geo v) s0 -> vsec v4 s0 = vsec v1 s0) as Hvs.
    { intros s0 Hs Hn. change (vsec v4 s0) with (vsec v3 s0). rewrite V3, V2; [done|unfold reachable in *; by rewrite G1, Z1|by rewrite G1|unfold reachable in *; by rewrite G2, G1, Z2, Z1]. }
    assert (forall c, 2 <= c < nent v -> entry v4 c = if bool_decide (c ∈ l) then 0 else entry v c) as Hen.
    { intros c Hc. change (entry v4 c) with (entry v3 c). rewrite (peeked_entry v2 v3) by (done || (split; [done|split; [done|done]])). rewrite En2 by (by rewrite G1). rewrite (proj2 (Z.eqb_neq c 0)) by lia. rewrite En1 by (done || set_solver). done. }
    assert (table_at v4 sc t /\ slots v4 t = slots v1 t) as [T4 S4].
    { apply (kept_dir v1 v4 sc t F1); [cbn; congruence|done| |].
      - intros c Hc. destruct (on_used _ _ _ _ Hf Ht Hc) as [Hrg _]. rewrite Hen by done. rewrite bool_decide_false by (intros Hin; by apply (Hcl sc t its c)). symmetry. apply En1; [done|set_solver].
      - intros j Hj'. rewrite G1 in Hj' |- *. destruct (dsect_ok _ _ t j (fo_vol _ Hf) Ht Hj') as (R1 & R2 & _). by apply Hvs. }
    split; [|split; [done|split; [done|exact W3]]]. split; [by apply fat_ok_last|cbn; congruence|cbn; congruence|done|by rewrite S4| | |].
    + intros c Hc. rewrite Hen by (by apply Hr). by rewrite bool_decide_true.
    + intros c Hc Hn. rewrite Hen by done. by rewrite bool_decide_false.
    + intros s0 Hs Hn Hn2. rewrite Hvs by done. by apply Fr1.
Qed.

Lemma empty_plain g s : empty_entry g s -> has (attr_of s) AM_DIR = false /\ has (attr_of s) AM_RDO = false.
Proof. intros [_ _ Ea]. unfold attr_of. by rewrite Ea. Qed.

(** The directory [sc] has the object [Named long ls s'] behind [its1], and the
    directory object stands at it. *)
Record created (dirs : Z -> option (dtable * list item)) (v v' : vol D) (d' : DIR) (sc : Z) (l0 : list Z) (t' : dtable) (its1 its2 : list item) (long : option (list Z)) (ls : list (list Z)) (s' : list Z) : Prop := {
  cr_tree : tree (dirs_set dirs sc t' (its1 ++ Named long ls s' :: its2)) v';
  cr_apart : apart (dirs_set dirs sc t' (its1 ++ Named long ls s' :: its2));
  cr_geo : v_geo v' = v_geo v;
  cr_empty : empty_entry (v_geo v) s';
  cr_at : entry_here v' d' sc t' (zlen (raws its1) + zlen ls) s';
  cr_others : forall s2 l2, holds dirs v s2 l2 -> (forall c, c ∈ l2 -> c ∉ l0) -> same_content dirs (dirs_set dirs sc t' (its1 ++ Named long ls s' :: its2)) v v' s2 l2
}.

Lemma emptied_created dirs v v' d sc t its1 its2 long ls s s' l : let k := zlen (raws its1) + zlen ls in tree dirs v -> apart dirs -> dirs sc = Some (t, its1 ++ Named long ls s :: its2) -> entry_here v d sc t k s ->
  chain v (start_of (v_geo v) s) l -> clear_of dirs l -> emptied v sc t k s' l v' -> renewed s s' -> empty_entry (v_geo v) s' -> winsect (fs_win (v_fs v')) = d_sect d -> created dirs v v' d sc l t its1 its2 long ls s'.
Proof.
  intros k Htr Hap Ed [Ht A Es W _] Hch Hcl [F G Zs T Sl Fr En V] Hren Hem W'. pose proof (tr_fat _ _ Htr) as Hf. pose proof (as_in _ _ _ _ A) as Hi. assert (0 <= k / 16 < dsects (v_geo v) t) as Hj by (unfold nslots in Hi; dlia).
  destruct (tr_dir _ _ Htr _ _ _ Ed) as [_ Hl]. pose proof Hl as ([_ [Hit _]%Forall_cons]%Forall_app & _). pose proof (renewed_item _ _ _ _ Hit Hren) as Hit'. destruct (empty_plain _ _ Hem) as [Hnd _].
  assert (forall s2 l2, holds dirs v s2 l2 -> (forall c, c ∈ l2 -> c ∉ l) -> same_content dirs (dirs_set dirs sc t (its1 ++ Named long ls s' :: its2)) v v' s2 l2) as Hothers.
  { intros s2 l2 Hh Hdis. pose proof (chain_range _ _ _ (ho_chain _ _ _ _ Hh)) as Hr. apply same_content_intro; [done|done|done| | |eapply clear_same; [exact Ed|apply Hh]].
    - intros c Hc Hrg _. by apply En; [|apply Hdis].
    - intros j Hj'. destruct (fsect_data _ _ (vo_geo _ (fo_vol _ Hf)) l2 j Hr Hj') as [Hd _]. apply V; [apply data_reachable; [apply Hf|done]|by eapply data_not_table; [apply (vo_geo _ (fo_vol _ Hf))|]|].
      apply (apart_sectors v sc t l2 j (k / 16)); [apply Hf|done|done|intros c Hc; by apply (ho_clear _ _ _ _ Hh sc t _ c Ed)|done|done]. }
  split; [|by eapply apart_same|done|done| |done].
  - apply (tree_set dirs v).
    + done.
    + apply (clear_steady _ _ _ _ l); [done|done|by eapply chain_range|done|done|done|done| |done]. intros s0 Hs Hn _ Hd _. apply V; [done|done|]. apply (Hd sc t _ (k / 16) Ed); [by intros Hc|done].
    + by eexists.
    + done.
    + rewrite Sl. by apply (laid_update its1 long ls s).
    + intros long2 ls2 s2 Hin Had. apply elem_of_app in Hin as [Hin|Hin]; [by apply (tr_sub _ _ Htr sc t _ long2 ls2 s2 Ed); [set_solver|]|]. apply elem_of_cons in Hin as [Hin|Hin]; [injection Hin as -> -> ->; congruence|]. by apply (tr_sub _ _ Htr sc t _ long2 ls2 s2 Ed); [set_solver|].
  - split; [done|by rewrite G| |done|apply Hren]. assert (slots v' t !! Z.to_nat k = Some s') as Lk by (rewrite Sl; apply list_lookup_insert_eq; rewrite length_slots by lia; lia). rewrite lookup_slots in Lk by (rewrite G; lia). rewrite Z2Nat.id in Lk by lia. by injection Lk.
Qed.

(** Registering an object: it takes the place of a gap, or there is no room. *)
Lemma register_slot cfuel dfuel dirs v d lfn sc t its w fn : tree dirs v -> apart dirs -> dirs sc = Some (t, its) -> sclust (d_obj d) = sc -> d_fn d = fn -> storable fn -> status_ok true (get fn NSFLAG) -> named w lfn -> (2 * Z.to_nat (nent v) <= cfuel)%nat -> 65536 <= Z.of_nat dfuel ->
  exists fr v1 d1 t', dir_register cfuel dfuel (mk_work v d lfn) = Ok (fr, mk_work v1 d1 lfn) /\ changed sc t t' v v1 /\ same_place d d1 /\
    ((fr = FR_DENIED /\ kept dirs v (dirs_set dirs sc t' its) v1) \/
     (fr = FR_OK /\ exists its1 gs its2 long ls s, its = its1 ++ (Gone <$> gs) ++ its2 /\ (zlen gs = zlen (raw (Named long ls s)) \/ its2 = []) /\ kept dirs v (dirs_set dirs sc t' (its1 ++ Named long ls s :: its2)) v1 /\
        entry_here v1 d1 sc t' (zlen (raws its1) + zlen ls) s /\ start_of (v_geo v) s = 0 /\ bears fn w (get fn NSFLAG) (Named long ls s) = true)).
Proof.
  intros Htr Hap Ed Esc Efn Hsn Hst Hw Hcf Hdf. pose proof (tr_fat _ _ Htr) as Hf. destruct (tr_dir _ _ Htr _ _ _ Ed) as [Ht Hl].
  destruct (register_laid cfuel dfuel (mk_work v d lfn) t its w) as (fr & v1 & d1 & t' & E & C & S & R); cbn [wd_vol wd_dp wd_lfn]; rewrite ?Efn; [split; cbn [wd_vol wd_dp]; [done|by rewrite Esc|done]|done|apply (st_dot _ _ Hst)|done|done|done|].
  cbn [wd_vol wd_dp wd_lfn] in *. rewrite Efn, Esc in *. exists fr, v1, d1, t'. split; [exact E|]. split; [done|]. split; [done|]. destruct (changed_steady dirs v v1 sc t t' _ Htr Hap Ed C) as [Hsy Hap1].
  assert (forall its', laid its' (slots v1 t') -> (forall long2 ls2 s2, Named long2 ls2 s2 ∈ its' -> has (attr_of s2) AM_DIR = true -> Named long2 ls2 s2 ∈ its) -> kept dirs v (dirs_set dirs sc t' its') v1) as Hkept.
  { intros its' L1 Hin'. split; [|apply Hap1|apply C|intros s2 l2 Hh; by apply (changed_content dirs v v1 sc t t' its its' s2 l2 Htr Ed C)]. apply (tree_set dirs v); [done|done|by eexists|apply C|exact L1|]. intros long2 ls2 s2 Hin2 Had. apply (tr_sub _ _ Htr sc t its long2 ls2 s2 Ed); [by apply Hin'|done]. }
  destruct R as [(fn' & Hch & [(-> & its1 & gs & its2 & ls & [[Eg Hgap] _] & L1 & A1 & W1)|(-> & L1 & _)])|(-> & L1 & _)]; [right|left; split; [done|by apply Hkept]..]. split; [done|].
  set (fl := get fn NSFLAG) in *. pose proof (new_bears fn' fn w fl ls _ _ Hch eq_refl (st_nolfn _ _ Hst) (st_loss _ _ Hst) (proj1 Hsn)) as Hbn. unfold new_item in L1, Hbn. set (long := if has fl NS_LFN then Some w else None) in *. exists its1, gs, its2, long, ls, (sfn_entry fn').
  pose proof L1 as ([_ [(Hsd & _ & _ & _ & _ & Hlong) _]%Forall_cons]%Forall_app & _). destruct (sfn_entry_blank (v_geo v) fn' Hsd) as [Hat Hs0]. pose proof (as_in _ _ _ _ A1) as Hin. split; [done|]. split; [|split; [|split; [|done]]].
  - destruct Hgap as [Hg|[Hg _]]; [left|by right]. rewrite Hg. cbn [raw]. rewrite length_app. cbn [length]. unfold obj_slots, long in *. destruct (has fl NS_LFN); [|subst ls; cbn; lia]. destruct Hlong as [Hwn Hes]. apply entry_set_len in Hes. rewrite Hes. unfold n_entries. destruct Hwn as [_ ?]. dlia.
  - apply Hkept; [exact L1|]. subst its. intros long2 ls2 s2 Hin2 Had. apply elem_of_app in Hin2 as [Hin2|Hin2]; [set_solver|]. apply elem_of_cons in Hin2 as [Hin2|Hin2]; [injection Hin2 as -> -> ->; rewrite Hat in Had; discriminate Had|set_solver].
  - split; [apply C|done| |done|done]. apply (item_slot v1 v1 sc t' its1 long ls _ its2); [apply C|apply peeked_refl, C|apply C|exact L1|lia].
Qed.

Lemma register_created cfuel dfuel dirs v d lfn sc t its w fn : tree dirs v -> apart dirs -> dirs sc = Some (t, its) -> sclust (d_obj d) = sc -> d_fn d = fn -> storable fn -> status_ok true (get fn NSFLAG) -> named w lfn ->
  Forall (fun it => bears fn w (get fn NSFLAG) it = false) its -> (2 * Z.to_nat (nent v) <= cfuel)%nat -> 65536 <= Z.of_nat dfuel ->
  exists fr v1 d1 t', dir_register cfuel dfuel (mk_work v d lfn) = Ok (fr, mk_work v1 d1 lfn) /\
    ((fr = FR_DENIED /\ kept dirs v (dirs_set dirs sc t' its) v1) \/
     (fr = FR_OK /\ exists its1 its2 long ls s, kept dirs v (dirs_set dirs sc t' (its1 ++ Named long ls s :: its2)) v1 /\ entry_here v1 d1 sc t' (zlen (raws its1) + zlen ls) s /\
        start_of (v_geo v) s = 0 /\ bears fn w (get fn NSFLAG) (Named long ls s) = true /\ Forall (fun it => bears fn w (get fn NSFLAG) it = false) its1)).
Proof.
  intros Htr Hap Ed Esc Efn Hsn Hst Hw Hnone Hcf Hdf. destruct (register_slot cfuel dfuel dirs v d lfn sc t its w fn Htr Hap Ed Esc Efn Hsn Hst Hw Hcf Hdf) as (fr & v1 & d1 & t' & E & _ & _ & R). exists fr, v1, d1, t'. split; [exact E|].
  destruct R as [R|(-> & its1 & gs & its2 & long & ls & s & -> & _ & K & Hen & Hs0 & Hb)]; [by left|right]. split; [done|]. apply Forall_app in Hnone as [B1 _]. by exists its1, its2, long, ls, s.
Qed.

(** ** Opening with FA_CREATE_ALWAYS *)

(** The clusters the file has before it is emptied. *)
Definition old_clusters (dirs : Z -> option (dtable * list item)) (v : vol D) (pl : place) (l0 : list Z) : Prop :=
  match pl with There _ _ _ _ (Named _ _ s) => has (attr_of s) (AM_RDO + AM_DIR) = false -> holds dirs v s l0 | _ => l0 = [] end.

Definition create_result (pl : place) (fr : FRESULT) : Prop :=
  match pl with
  | Origin | BadName => fr = FR_INVALID_NAME
  | Missing _ _ _ => fr = FR_OK \/ fr = FR_DENIED
  | There _ _ _ _ (Named _ _ s) => fr = if has (attr_of s) (AM_RDO + AM_DIR) then FR_DENIED else FR_OK
  | _ => fr = FR_NO_PATH
  end.

(** The file was made: its entry is the one the path leads to. *)
Definition made (dirs : Z -> option (dtable * list item)) (v v' : vol D) (d' : DIR) (pl : place) (l0 : list Z) (mode : Z) (f f' : FIL) : Prop :=
  exists sc w fn t' its1 its2 long ls s', ends_in pl sc w fn /\ created dirs v v' d' sc l0 t' its1 its2 long ls s' /\ bears fn w (get fn NSFLAG) (Named long ls s') = true /\
    Forall (fun it => bears fn w (get fn NSFLAG) it = false) its1 /\ f' = new_fil (v_geo v') (Z.lor mode FA_MODIFIED) f d' (d_sect d') s'.

Lemma created_trans dirs v v1 v' d' sc t' its1 its2 long ls s s' : let dirs1 := dirs_set dirs sc t' (its1 ++ Named long ls s :: its2) in
  v_geo v1 = v_geo v -> (forall s2 l2, holds dirs v s2 l2 -> same_content dirs dirs1 v v1 s2 l2) -> created dirs1 v1 v' d' sc [] t' its1 its2 long ls s' -> created dirs v v' d' sc [] t' its1 its2 long ls s'.
Proof.
  intros dirs1 G Ho [T A G' Em At Oth]. assert (forall k, dirs_set dirs sc t' (its1 ++ Named long ls s' :: its2) k = dirs_set dirs1 sc t' (its1 ++ Named long ls s' :: its2) k) as Ex by (intros k; symmetry; apply dirs_set_set).
  split; [by eapply tree_ext|by eapply apart_ext|congruence|by rewrite <- G|done|]. intros s2 l2 Hh Hd. pose proof (Ho s2 l2 Hh) as S1. destruct (Oth s2 l2 (sn_holds _ _ _ _ _ _ S1) Hd) as [H2 B2]. eapply same_content_trans; [exact G|exact S1|]. split; [|done].
  destruct H2 as [C2 Z2 L2]. split; [done|done|by eapply clear_ext].
Qed.

Lemma open_entry_new cfuel dfuel dirs v d lfn sc t its w fn mode : tree dirs v -> apart dirs -> dirs sc = Some (t, its) -> sclust (d_obj d) = sc -> d_fn d = fn -> storable fn -> status_ok true (get fn NSFLAG) -> named w lfn ->
  Forall (fun it => bears fn w (get fn NSFLAG) it = false) its -> (2 * Z.to_nat (nent v) <= cfuel)%nat -> 65536 <= Z.of_nat dfuel -> mode = 10 \/ mode = 11 ->
  exists fr v' d', open_entry cfuel dfuel FR_NO_FILE mode (mk_work v d lfn) = Ok ((fr, mode), mk_work v' d' lfn) /\ (fr = FR_OK \/ fr = FR_DENIED) /\
    (fr = FR_OK -> exists t' its1 its2 long ls s', created dirs v v' d' sc [] t' its1 its2 long ls s' /\ bears fn w (get fn NSFLAG) (Named long ls s') = true /\ Forall (fun it => bears fn w (get fn NSFLAG) it = false) its1).
Proof.
  intros Htr Hap Ed Esc Efn Hsn Hst Hw Hnone Hcf Hdf Hm. destruct (register_created cfuel dfuel dirs v d lfn sc t its w fn Htr Hap Ed Esc Efn Hsn Hst Hw Hnone Hcf Hdf) as (fr & v1 & d1 & t' & E & R). unfold open_entry.
  assert (has mode (FA_CREATE_ALWAYS + FA_OPEN_ALWAYS + FA_CREATE_NEW) = true /\ has mode FA_CREATE_ALWAYS = true /\ Z.lor mode FA_CREATE_ALWAYS = mode) as (-> & M2 & M3) by (destruct Hm as [->| ->]; done). cbv iota. change (fr_ok FR_NO_FILE) with false. cbn [negb]. rewrite bool_decide_true by done.
  erewrite m_bind_Ok; [|erewrite m_bind_Ok; [|exact E]; reflexivity]. cbv iota beta. rewrite M3, M2, andb_true_r. destruct R as [(-> & _)|(-> & its1 & its2 & long & ls & s & [Htr1 Hap1 G1 Ho] & Hat & Hs0 & Hb & Hfirst)]; [exists FR_DENIED, v1, d1; split; [reflexivity|]; split; [by right|done]|].
  change (fr_ok FR_OK) with true. cbv iota. pose proof (eh_data _ _ _ _ _ _ Hat) as Hsd. set (dirs1 := dirs_set dirs sc t' _) in *.
  assert (dirs1 sc = Some (t', its1 ++ Named long ls s :: its2)) as Ed1 by (unfold dirs1, dirs_set; by rewrite Z.eqb_refl). assert (chain v1 (start_of (v_geo v1) s) []) as Hch by (by rewrite G1).
  assert (clear_of dirs1 []) as Hcl by (intros k0 t0 i0 c0 _ Hc0; set_solver).
  destruct (overwrite_ok cfuel dirs1 v1 d1 lfn sc t' _ _ s [] Htr1 Ed1 Hat Hch Hcl) as (v2 & s' & E2 & Hem & Hren & Hee & W2); [rewrite G1; lia|]. rewrite (m_bind_Ok _ _ _ _ _ E2). exists FR_OK, v2, d1. split; [reflexivity|]. split; [by left|]. intros _.
  pose proof (emptied_created dirs1 v1 v2 d1 sc t' its1 its2 long ls s s' [] Htr1 Hap1 Ed1 Hat Hch Hcl Hem Hren Hee W2) as Hcr. exists t', its1, its2, long, ls, s'. split; [by apply (created_trans dirs v v1 v2 d1 sc t' its1 its2 long ls s s')|].
  split; [|done]. rewrite <- Hb. apply bears_renamed. by apply renewed_take.
Qed.

Lemma open_path_create cfuel dfuel dirs x path s r mode f l0 : 65536 <= Z.of_nat dfuel -> (2 * Z.to_nat (nent (wd_vol x)) <= cfuel)%nat -> string_at path s r -> tree dirs (wd_vol x) -> apart dirs -> units (wd_lfn x) -> fname (d_fn (wd_dp x)) -> mode = 10 \/ mode = 11 ->
  let pl := resolve dirs (x_geo x) path in old_clusters dirs (wd_vol x) pl l0 ->
  exists fr f' v' d' lfn', open_path cfuel dfuel path mode f x = Ok ((fr, f'), mk_work v' d' lfn') /\ units lfn' /\ create_result pl fr /\ (fr = FR_OK -> made dirs (wd_vol x) v' d' pl l0 mode f f').
Proof.
  intros Hdf Hcf Hs Htr Hap Hu Hfn Hm pl Hold. destruct (follow_path_ok dirs cfuel dfuel x path s r Hdf Hs Htr Hu Hfn) as (fr & v1 & d1 & lfn1 & E & P & Hu1 & Hf1 & _ & A). fold pl in A. unfold open_path. rewrite (m_bind_Ok _ _ _ _ _ E), bind_dp. cbn [wd_dp].
  rewrite (bind_dlift _ _ _ (get (d_fn d1) NSFLAG)) by (apply rd_in; rewrite (proj1 Hf1); unfold NSFLAG; lia). cbv zeta. pose proof (peeked_geo _ _ P) as G1. pose proof (tree_peeked dirs _ _ Htr P) as Htr1. pose proof (tr_fat _ _ Htr) as Hf.
  assert (has mode (FA_CREATE_ALWAYS + FA_OPEN_ALWAYS + FA_CREATE_NEW) = true /\ has mode FA_CREATE_ALWAYS = true /\ has mode FA_CREATE_NEW = false /\ has (Z.lor mode FA_MODIFIED) FA_SEEKEND = false) as (M1 & M2 & M3 & M4) by (destruct Hm as [->| ->]; done).
  assert (forall r0, fr_ok r0 = false -> r0 <> FR_NO_FILE -> open_entry cfuel dfuel r0 mode (mk_work v1 d1 lfn1) = Ok ((r0, Z.lor mode FA_CREATE_ALWAYS), mk_work v1 d1 lfn1)) as Herr.
  { intros r0 Hr0 Hr1. unfold open_entry. rewrite M1. cbv iota. rewrite Hr0. cbn [negb]. rewrite bool_decide_false by done. erewrite m_bind_Ok; [|reflexivity]. cbv iota beta. by rewrite Hr0. }
  assert (forall v' d' sc w fn t' its1 its2 long ls s', ends_in pl sc w fn -> created dirs v1 v' d' sc l0 t' its1 its2 long ls s' -> bears fn w (get fn NSFLAG) (Named long ls s') = true -> Forall (fun it => bears fn w (get fn NSFLAG) it = false) its1 ->
    exists f', open_fil mode f (mk_work v' d' lfn1) = Ok ((FR_OK, f'), mk_work v' d' lfn1) /\ made dirs (wd_vol x) v' d' pl l0 mode f f') as Hdone.
  { intros v' d' sc w fn t' its1 its2 long ls s' He [T Ap G' Em At Oth] Hb Hfirst. pose proof (open_fil_ok v' d' lfn1 sc t' _ s' mode f (tr_fat _ _ T) At) as Eof. cbv zeta in Eof. rewrite M2 in Eof. eexists. split; [exact (Eof M4)|].
    exists sc, w, fn, t', its1, its2, long, ls, s'. split; [done|]. split; [|done]. split; [done|done|congruence|by rewrite <- G1|done|]. intros s2 l2 Hh Hd. destruct (Oth s2 l2 (holds_peeked _ _ _ _ _ Hf P Hh) Hd) as [H2 B2]. split; [done|]. intros k Hk. rewrite B2 by (by rewrite G1).
    apply vbyte_peeked; [done|done|by eapply chain_range, Hh|done]. }
  destruct pl as [| | | |sc w fn|sc w fn i it] eqn:Epl; cbn [create_result old_clusters] in *.
  - destruct A as (-> & Fl & _). rewrite Fl. change (fr_ok FR_OK && has NS_NONAME NS_NONAME) with true. cbv iota. rewrite (m_bind_Ok _ _ _ _ _ (Herr FR_INVALID_NAME eq_refl ltac:(done))). eexists _, f, v1, d1, lfn1. split; [reflexivity|]. done.
  - cbn [arrived] in A. subst fr. change (fr_ok FR_INVALID_NAME && _) with false. cbv iota. rewrite (m_bind_Ok _ _ _ _ _ (Herr FR_INVALID_NAME eq_refl ltac:(done))). eexists _, f, v1, d1, lfn1. split; [reflexivity|]. done.
  - cbn [arrived] in A. subst fr. change (fr_ok FR_NO_PATH && _) with false. cbv iota. rewrite (m_bind_Ok _ _ _ _ _ (Herr FR_NO_PATH eq_refl ltac:(done))). eexists _, f, v1, d1, lfn1. split; [reflexivity|]. done.
  - done.
  - destruct A as (-> & Esc & Efn & Hw & Hsn & Hst & t & its & Ed & Hnone). change (fr_ok FR_NO_FILE && _) with false. cbv iota. subst l0.
    destruct (open_entry_new cfuel dfuel dirs v1 d1 lfn1 sc t its w fn mode Htr1 Hap Ed Esc Efn Hsn Hst Hw Hnone) as (fr & v2 & d2 & E2 & Hfr & R); [by rewrite G1|done|done|]. rewrite (m_bind_Ok _ _ _ _ _ E2). cbn [fst snd].
    destruct Hfr as [->| ->]; [|eexists _, f, v2, d2, lfn1; split; [reflexivity|]; split; [done|]; split; [by right|done]]. change (fr_ok FR_OK) with true. cbv iota. destruct (R eq_refl) as (t' & its1 & its2 & long & ls & s' & Hcr & Hb & Hfirst).
    destruct (Hdone v2 d2 sc w fn t' its1 its2 long ls s') as (f' & Ef & Hmade); [by left|done|done|done|]. exists FR_OK, f', v2, d2, lfn1. split; [exact Ef|]. split; [done|]. split; [by left|done].
  - destruct (arrived_there dirs _ _ _ _ _ _ _ _ _ Htr1 A) as (-> & Ef & Esc & Hst & Hw & Hb & t & its1 & its2 & long & ls & s0 & Ed & Hfirst & -> & Ea & Hen). rewrite Ef, (status_named _ _ Hst), andb_false_r. cbv iota.
    assert (open_entry cfuel dfuel FR_OK mode (mk_work v1 d1 lfn1) = if has (attr_of s0) (AM_RDO + AM_DIR) then Ok ((FR_DENIED, mode), mk_work v1 d1 lfn1) else (r ← overwrite cfuel; mret (r, mode)) (mk_work v1 d1 lfn1)) as Eoe.
    { unfold open_entry. rewrite M1. change (fr_ok FR_OK) with true. cbn [negb]. cbv iota. erewrite m_bind_Ok; [|rewrite bind_dp; reflexivity]. cbv iota beta. cbn [wd_dp]. rewrite Ea, M3, M2, andb_true_r. by destruct (has (attr_of s0) (AM_RDO + AM_DIR)). }
    destruct (has (attr_of s0) (AM_RDO + AM_DIR)) eqn:Eat.
    + rewrite (m_bind_Ok _ _ _ _ _ Eoe). eexists _, f, v1, d1, lfn1. split; [reflexivity|]. done.
    + pose proof (holds_peeked _ _ _ _ _ Hf P (Hold eq_refl)) as [Hc1 _ Hcl].
      destruct (overwrite_ok cfuel dirs v1 d1 lfn1 sc t _ _ s0 l0 Htr1 Ed Hen Hc1 Hcl) as (v2 & s' & E2 & Hem & Hren & Hee & W2); [rewrite G1; lia|]. rewrite (m_bind_Ok _ _ _ _ _ E2) in Eoe. rewrite (m_bind_Ok _ _ _ _ _ Eoe). cbn [fst snd]. change (fr_ok FR_OK) with true. cbv iota.
      pose proof (emptied_created dirs v1 v2 d1 sc t its1 its2 long ls s0 s' l0 Htr1 Hap Ed Hen Hc1 Hcl Hem Hren Hee W2) as Hcr.
      destruct (Hdone v2 d1 sc w fn t its1 its2 long ls s') as (f' & Ef' & Hmade); [right; by eexists _, _|done|rewrite <- Hb; apply bears_renamed; apply renewed_take; [apply Hen|done]|done|]. exists FR_OK, f', v2, d1, lfn1. split; [exact Ef'|]. done.
Qed.

(** ** Writing and closing within the tree *)

Abbreviation o_geo x := (v_geo (of_vol x)).

(** Clusters a file took were free, so no directory has them. *)
Lemma write_tree dirs l x l' x' : tree dirs (of_vol x) -> apart dirs -> clear_of dirs l -> ext_file l x l' x' -> core x' l' -> tree dirs (of_vol x') /\ clear_of dirs l'.
Proof.
  intros Htr Hap Hcl Ex K. pose proof (tr_fat _ _ Htr) as Hf. destruct Ex as [_ _ _ G Zs Fresh Tb Fr].
  assert (clear_of dirs l') as Hcl'. { intros sc t its c Ed Hin Hon. destruct (Fresh c Hin) as [Hl|[_ Hz]]; [by apply (Hcl sc t its c)|]. destruct (tr_dir _ _ Htr _ _ _ Ed) as [Ht _]. destruct (on_used _ _ _ _ Hf Ht Hon) as [_ Hu]. done. }
  split; [|done]. apply (tree_keep dirs (of_vol x)); [done|]. apply (clear_steady _ _ _ _ l'); [done|done|rewrite <- G; eapply chain_range, (co_chain x' l' K)|apply (co_vol x' l' K)|done|done|done| |done]. intros s Hs Hn Hj _ _. by apply Fr.
Qed.

(** The entry of the open file. *)
Record filed (dirs : Z -> option (dtable * list item)) (x : open_file D) (sc : Z) (t : dtable) (its1 its2 : list item) (long : option (list Z)) (ls : list (list Z)) (s : list Z) : Prop := {
  fd_dir : dirs sc = Some (t, its1 ++ Named long ls s :: its2);
  fd_file : has (attr_of s) AM_DIR = false;
  fd_in : zlen (raws its1) + zlen ls < nslots (o_geo x) t;
  fd_sect : dir_sect (of_fil x) = dsect (o_geo x) t ((zlen (raws its1) + zlen ls) / 16);
  fd_ptr : dir_ptr (of_fil x) = 32 * ((zlen (raws its1) + zlen ls) mod 16)
}.

(** Where the entry lies, the other functions can update it. *)
Lemma filed_dir_ok dirs x l sc t its1 its2 long ls s : tree dirs (of_vol x) -> clear_of dirs l -> in_range (o_geo x) l -> filed dirs x sc t its1 its2 long ls s -> dir_ok x l.
Proof.
  intros Htr Hcl Hl [Ed Hfile Hin Es Ep]. pose proof (tr_fat _ _ Htr) as Hf. destruct (tr_dir _ _ Htr _ _ _ Ed) as [Ht _]. set (k := zlen (raws its1) + zlen ls) in *. assert (0 <= k / 16 < dsects (o_geo x) t) as Hj by (unfold nslots in Hin; dlia).
  destruct (dsect_ok _ _ t (k / 16) (fo_vol _ Hf) Ht Hj) as (R1 & R2 & _). split; rewrite ?Es; [done|done|by apply (dsect_info _ sc); [apply Hf|..]| |rewrite Ep; dlia].
  intros j Hj'. apply (apart_sectors _ sc t l j); [apply Hf|done|done|intros c Hc; by apply (Hcl sc t _ c Ed)|done|done].
Qed.

(** What [f_close] does to the volume: the entry is updated, the bytes of the
    file are stored, everything else is as before. *)
Lemma close_entry dirs x l sc t its1 its2 long ls s : let k := zlen (raws its1) + zlen ls in let g := o_geo x in tree dirs (of_vol x) -> core x l -> clear_of dirs l -> live x -> has (f_flag (of_fil x)) FA_MODIFIED = true -> filed dirs x sc t its1 its2 long ls s ->
  exists v' f' s', f_close x = Ok (FR_OK, mk_open v' f') /\ fat_ok v' /\ v_geo v' = g /\ bd_size (v_dev v') = bd_size (v_dev (of_vol x)) /\ (forall c, 2 <= c < n_fatent g -> entry v' c = entry (of_vol x) c) /\
    slots v' t = <[Z.to_nat k := s']> (slots (of_vol x) t) /\ renewed s s' /\ get s' DIR_Attr = Z.lor (get s DIR_Attr) AM_ARC /\ size_of s' = objsize (f_obj (of_fil x)) /\ start_of g s' = sclust (f_obj (of_fil x)) /\
    (forall k, 0 <= k < 512 * nsec g l -> vbyte v' l k = fbyte x l k) /\
    (forall s0, reachable (of_vol x) s0 -> ~ in_table g s0 -> s0 <> dsect g t (k / 16) -> s0 <> volbase g + 1 -> (forall j, 0 <= j < nsec g l -> s0 <> fsect g l j) -> vsec v' s0 = vsec (of_vol x) s0).
Proof.
  intros k g. subst g. intros Htr Hc Hcl Hv Hm Hfd. pose proof (chain_range _ _ _ (co_chain x l Hc)) as Hl. pose proof (filed_dir_ok dirs x l _ _ _ _ _ _ _ Htr Hcl Hl Hfd) as Hd. pose proof Hfd as [Ed Hfile Hin Es Ep]. pose proof (tr_fat _ _ Htr) as Hf. pose proof (fo_vol _ Hf) as Hvo.
  destruct (f_close_ok x l Hc Hd Hv Hm) as (v' & f' & E & _ & F & _ & G & Zd & T & On & B & C & S & O & Fr & At). destruct (tr_dir _ _ Htr _ _ _ Ed) as [Ht Hlaid]. fold k in Hin, Es, Ep. assert (0 <= k < nslots (o_geo x) t) as Hk by lia.
  assert (0 <= k / 16 < dsects (o_geo x) t) as Hj by (unfold nslots in Hk; dlia). destruct (dsect_ok _ _ t (k / 16) Hvo Ht Hj) as (R1 & R2 & _). rewrite Es, Ep in *. set (sec := dsect (o_geo x) t (k / 16)) in *. set (dir := 32 * (k mod 16)) in *. assert (0 <= dir <= 480) as Hdir by (unfold dir; dlia).
  rewrite !(On sec) in C, S, At by apply R1. assert (sector_data (vsec v' sec)) as Hb by (apply vsec_ok; [apply F|unfold reachable in R1; rewrite Zd; apply R1]). assert (sector_data (vsec (of_vol x) sec)) as Hb0 by (apply vsec_ok; [done|apply R1]).
  set (s' := entry_at (vsec v' sec) dir). assert (entry_at (vsec (of_vol x) sec) dir = s) as Es0. { pose proof (item_slot (of_vol x) (of_vol x) sc t its1 long ls s its2 Hf (peeked_refl _ Hf) Ht Hlaid Hin) as Esl. exact Esl. }
  assert (forall i, 0 <= i < 32 -> get s' i = get (vsec v' sec) (dir + i)) as Gs' by (intros i Hi; apply (entry_get _ dir (proj1 Hb) Hdir); done). assert (forall i, 0 <= i < 32 -> get s i = get (vsec (of_vol x) sec) (dir + i)) as Gs by (intros i Hi; rewrite <- Es0; apply (entry_get _ dir (proj1 Hb0) Hdir); done).
  assert (get s' DIR_Attr = Z.lor (get s DIR_Attr) AM_ARC) as Hattr by (rewrite Gs', Gs by (unfold DIR_Attr; lia); exact At).
  pose proof Hlaid as ([_ [Hit _]%Forall_cons]%Forall_app & _). pose proof Hit as (_ & _ & _ & Hvol & _).
  assert (renewed s s') as Hren.
  { split; [split; [apply (entry_len _ dir (proj1 Hb) Hdir)|apply Forall_take, Forall_drop, Hb]| |rewrite (attr_archived s s') by (done || by left); done]. intros i Hi. rewrite Gs', Gs by lia. rewrite <- (On sec) by apply R1. apply O; lia. }
  assert (only dir (dir + 32) (vsec (of_vol x) sec) (vsec v' sec)) as Ho by (intros j Hj0 Hn; rewrite <- (On sec) by apply R1; apply O; lia).
  assert (forall s0, reachable (of_vol x) s0 -> ~ in_table (o_geo x) s0 -> s0 <> sec -> s0 <> volbase (o_geo x) + 1 -> (forall j, 0 <= j < nsec (o_geo x) l -> s0 <> fsect (o_geo x) l j) -> vsec v' s0 = vsec (of_vol x) s0) as Fr' by (intros s0 Q1 Q2 Q3 Q4 Q5; rewrite <- (On s0) by apply Q1; by apply Fr).
  exists v', f', s'. split; [exact E|]. split; [done|]. split; [done|]. split; [done|]. split; [exact T|]. split; [|split; [done|split; [done|split; [|split; [|split; [|exact Fr']]]]]].
  - apply (slots_edit (of_vol x) v' sc t k (vsec v' sec)); [done|done|done|done|apply Hb|exact Ho|done|]. intros j Hj' Hne. destruct (dsect_ok _ _ t j Hvo Ht Hj') as (Q1 & Q2 & _). apply Fr'; [done|done| |by apply (dsect_info _ sc)|].
    + intros Eq. apply (dsect_inj (of_vol x) sc) in Eq; done.
    + intros i Hi Eq. symmetry in Eq. revert Eq. apply (apart_sectors (of_vol x) sc t l i j); [done|done|done|intros c Hcc; by apply (Hcl sc t _ c Ed)|done|done].
  - pose proof (ld_size (vsec v' sec) dir (proj1 Hb) (proj2 Hb) Hdir) as Ez. rewrite ld_dword_ok in Ez by (apply Hb || (rewrite (proj1 Hb); unfold DIR_FileSize; lia) || (unfold DIR_FileSize; lia)). injection Ez as Ez. unfold s'. congruence.
  - pose proof (ld_clust_slot (o_geo x) (vsec v' sec) dir (proj1 Hb) (proj2 Hb) Hdir) as Ez. fold s' in Ez. congruence.
  - intros i Hi. rewrite <- B by done. unfold vbyte. rewrite G. rewrite On; [done|]. pose proof (vo_geo _ Hvo) as Hg. destruct (fsect_data _ _ Hg l (i / 512) Hl) as [Hds _]; [dlia|]. apply (data_reachable (of_vol x)); done.
Qed.

Lemma close_tree dirs x l sc t its1 its2 long ls s : tree dirs (of_vol x) -> apart dirs -> core x l -> clear_of dirs l -> live x -> has (f_flag (of_fil x)) FA_MODIFIED = true -> filed dirs x sc t its1 its2 long ls s ->
  exists v' f' s', let dirs' := dirs_set dirs sc t (its1 ++ Named long ls s' :: its2) in
    f_close x = Ok (FR_OK, mk_open v' f') /\ tree dirs' v' /\ apart dirs' /\ v_geo v' = o_geo x /\ (full (of_vol x) -> full v') /\ renewed s s' /\ get s' DIR_Attr = Z.lor (get s DIR_Attr) AM_ARC /\ size_of s' = objsize (f_obj (of_fil x)) /\ holds dirs' v' s' l /\
    (forall k, 0 <= k < 512 * nsec (o_geo x) l -> vbyte v' l k = fbyte x l k) /\
    (forall s2 l2, holds dirs (of_vol x) s2 l2 -> (forall c, c ∈ l2 -> c ∉ l) -> same_content dirs dirs' (of_vol x) v' s2 l2).
Proof.
  intros Htr Hap Hc Hcl Hv Hm Hfd. destruct (close_entry dirs x l sc t its1 its2 long ls s Htr Hc Hcl Hv Hm Hfd) as (v' & f' & s' & E & F & G & Zd & T & Sl & Hren & Hat & Hsz & Hst & By & Fr). pose proof Hfd as [Ed Hfile Hin Es Ep]. pose proof (tr_fat _ _ Htr) as Hf. set (k := zlen (raws its1) + zlen ls) in *.
  destruct (tr_dir _ _ Htr _ _ _ Ed) as [Ht Hlaid]. pose proof Hlaid as ([_ [Hit _]%Forall_cons]%Forall_app & _). pose proof (chain_range _ _ _ (co_chain x l Hc)) as Hl. assert (0 <= k / 16 < dsects (o_geo x) t) as Hj by (unfold nslots in Hin; dlia).
  exists v', f', s'. cbv zeta. split; [exact E|]. split; [|split; [by eapply apart_same|split; [done|split; [intros Hfl c Hcr; rewrite G in Hcr; rewrite T by done; by apply Hfl|split; [done|split; [done|split; [done|split; [|split; [done|]]]]]]]]].
  - apply (tree_set dirs (of_vol x)); [done| |by eexists| | |].
    + apply (clear_steady _ _ _ _ l); [done|done|done|done|done|done|intros c Hr _; by apply T| |done]. intros s0 Q1 Q2 Q3 Q4 Q5. apply Fr; [done|done| |done|done]. apply (Q4 sc t _ (k / 16) Ed); [by intros Q|done].
    + destruct t as [|m]; cbn [table_at] in *; rewrite G; [done|]. destruct Ht as [Hne Hlk]. split; [done|]. eapply links_ext; [|exact Hlk]. intros c Hin2. symmetry. apply T. exact (links_range _ _ _ _ _ Hlk Hin2).
    + rewrite Sl. apply (laid_update its1 long ls s); [done|by apply renewed_item with s].
    + intros long2 ls2 s2 Hin2 Had. apply elem_of_app in Hin2 as [Hin2|Hin2]; [by apply (tr_sub _ _ Htr sc t _ long2 ls2 s2 Ed); [set_solver|]|]. apply elem_of_cons in Hin2 as [Hin2|Hin2]; [|by apply (tr_sub _ _ Htr sc t _ long2 ls2 s2 Ed); [set_solver|]].
      injection Hin2 as -> -> ->. rewrite (attr_archived s s') in Had by (done || (right; by left)). congruence.
  - split; [|rewrite Hsz, G; apply (co_size x l Hc)|by eapply clear_same]. rewrite G, Hst. pose proof (co_chain x l Hc) as Hch. destruct l as [|c0 l]; [done|]. cbn [chain] in *. rewrite G. eapply links_ext; [|exact Hch]. intros c Hin2. symmetry. apply T. by apply Hl.
  - intros s2 l2 Hh Hdis. pose proof (chain_range _ _ _ (ho_chain _ _ _ _ Hh)) as Hr. apply same_content_intro; [done|done|done|intros c _ Hr2 _; by apply T| |eapply clear_same; [exact Ed|apply Hh]].
    intros j Hj'. pose proof (vo_geo _ (fo_vol _ Hf)) as Hg. destruct (fsect_data _ _ Hg l2 j Hr Hj') as [Hd _]. apply Fr; [apply data_reachable; [apply Hf|done]|by eapply data_not_table| | |].
    + apply (apart_sectors (of_vol x) sc t l2 j (k / 16)); [apply Hf|done|done|intros c Hcc; by apply (ho_clear _ _ _ _ Hh sc t _ c Ed)|done|done].
    + pose proof (go_base _ _ Hg). destruct (geo_fat _ _ Hg) as (F1 & F2 & F3 & _). unfold data_sector in Hd. lia.
    + intros i Hi. apply (files_apart _ _ l2 l j i Hg); done.
Qed.

(** Other files while a file is written. *)
Lemma write_content dirs l x l' x' s2 l2 : tree dirs (of_vol x) -> core x' l' -> ext_file l x l' x' -> holds dirs (of_vol x) s2 l2 -> (forall c, c ∈ l2 -> c ∉ l) -> same_content dirs dirs (of_vol x) (of_vol x') s2 l2 /\ (forall c, c ∈ l2 -> c ∉ l').
Proof.
  intros Htr K [_ _ _ G Zs Fresh Tb Fr] Hh Hd. pose proof (tr_fat _ _ Htr) as Hf. pose proof (ho_chain _ _ _ _ Hh) as Hc. pose proof (chain_range _ _ _ Hc) as Hr.
  assert (forall c, c ∈ l2 -> c ∉ l') as Hd'. { intros c Hin Hin'. destruct (Fresh c Hin') as [Hl|[_ Hz]]; [by apply (Hd c)|]. destruct l2 as [|c0 l2]; [set_solver|]. pose proof (links_used _ _ _ _ Hf Hc Hin). lia. }
  split; [|done]. apply same_content_intro; [done|done|done|intros c Hin Hrg _; by apply Tb; [|apply Hd']| |apply Hh]. intros j Hj. pose proof (vo_geo _ (fo_vol _ Hf)) as Hg. destruct (fsect_data _ _ Hg l2 j Hr Hj) as [Hds _].
  apply Fr; [apply data_reachable; [apply Hf|done]|by eapply data_not_table|]. intros i Hi. apply (files_apart _ _ l2 l' j i Hg); [done| |done|done|done]. rewrite <- G. eapply chain_range, (co_chain x' l' K).
Qed.

Abbreviation a_vol a := (ff_vol (a_ff a)).
Abbreviation a_geo a := (v_geo (a_vol a)).

Lemma f_open_create cfuel dfuel dirs a d f path rest s r mode l0 : 65536 <= Z.of_nat dfuel -> (2 * Z.to_nat (nent (a_vol a)) <= cfuel)%nat -> ready dirs a -> apart dirs -> get_ldnumber path = Ok (0, rest) -> string_at rest s r -> fname (d_fn d) -> mode = 10 \/ mode = 11 ->
  let pl := resolve dirs (a_geo a) rest in old_clusters dirs (a_vol a) pl l0 ->
  exists fr f' a', f_open cfuel dfuel d f path mode a = Ok ((fr, f'), a') /\ ff_reg (a_ff a') = true /\ units (a_lfn a') /\ create_result pl fr /\ (fr = FR_OK -> exists d', made dirs (a_vol a) (a_vol a') d' pl l0 mode f f').
Proof.
  intros Hdf Hcf Hr Hap El Hs Hfn Hm pl Hold. pose proof Hr as [Hreg Htr Hu]. unfold f_open. assert (Z.land mode (FA_READ + FA_WRITE + FA_CREATE_ALWAYS + FA_CREATE_NEW + FA_OPEN_ALWAYS + FA_SEEKEND) = mode) as Em by (destruct Hm as [->| ->]; done).
  cbv zeta. rewrite Em. rewrite (m_bind_Ok _ _ _ _ _ (mount_ready dirs a path rest mode Hr El)). cbn [fst snd]. change (fr_ok FR_OK) with true. cbv iota.
  destruct (open_path_create cfuel dfuel dirs (mk_work (a_vol a) (d_onobj (obj_fs true) d) (a_lfn a)) rest s r mode f l0 Hdf Hcf Hs Htr Hap Hu Hfn Hm Hold) as (fr & f' & v' & d' & lfn' & E & Hu' & Hres & R). cbn [wd_vol wd_dp wd_lfn] in *.
  eexists fr, (if fr_ok fr then f' else fil_obj (obj_fs false (f_obj f')) f'), _. split; [erewrite m_bind_Ok; [|rewrite (bind_with_dir _ _ _ _ _ _ _ _ E); reflexivity]; reflexivity|]. cbn [a_ff a_lfn ff_reg ff_vol]. split; [done|]. split; [done|]. split; [done|].
  intros E0. exists d'. subst fr. change (fr_ok FR_OK) with true. cbv iota. by apply R.
Qed.

(** The file object of a new file. *)
Lemma made_usable dirs v v' d' pl l0 mode f f' : mode = 10 \/ mode = 11 -> made dirs v v' d' pl l0 mode f f' ->
  exists sc w fn t its1 its2 long ls s, let dirs' := dirs_set dirs sc t (its1 ++ Named long ls s :: its2) in ends_in pl sc w fn /\ created dirs v v' d' sc l0 t its1 its2 long ls s /\ bears fn w (get fn NSFLAG) (Named long ls s) = true /\ Forall (fun it => bears fn w (get fn NSFLAG) it = false) its1 /\
    usable (mk_open v' f') [] /\ filed dirs' (mk_open v' f') sc t its1 its2 long ls s /\ has (f_flag f') FA_WRITE = true /\ has (f_flag f') FA_MODIFIED = true /\ fptr f' = 0 /\ objsize (f_obj f') = 0.
Proof.
  intros Hm (sc & w & fn & t & its1 & its2 & long & ls & s & He & Hcr & Hb & Hfirst & ->). exists sc, w, fn, t, its1, its2, long, ls, s. set (dirs' := dirs_set dirs sc t _). split; [done|]. split; [done|]. split; [done|]. split; [done|]. destruct Hcr as [T Ap G [Es Ez Ea] Hat Oth]. pose proof Hat as [Ht A Sl W Hsd].
  assert (dirs' sc = Some (t, its1 ++ Named long ls s :: its2)) as Ed by (unfold dirs', dirs_set; by rewrite Z.eqb_refl). assert (holds dirs' v' s []) as Hh by (split; [by rewrite G|rewrite Ez; unfold nsec; cbn [length]; lia|intros k0 t0 i0 c0 _ Hc0; set_solver]).
  assert (has (Z.lor mode FA_MODIFIED) FA_DIRTY = false /\ has (Z.lor mode FA_MODIFIED) FA_WRITE = true /\ has (Z.lor mode FA_MODIFIED) FA_MODIFIED = true) as (M1 & M2 & M3) by (destruct Hm as [->| ->]; done).
  split; [by apply (new_fil_usable dirs' v' sc t _ d' _ _ f s [] (tr_fat _ _ T) Ed Ht A W Hsd Hh)|]. split; [|done]. split; cbn [of_vol of_fil new_fil dir_sect dir_ptr]; [done|unfold attr_of; by rewrite Ea|apply A|apply A|apply A].
Qed.

(** The state of the functions with the volume of an open file. *)
Definition with_vol (a : fatfs D) (v : vol D) : fatfs D := mk_fatfs (mk_ff (ff_reg (a_ff a)) (Fsid (a_ff a)) v) (a_lfn a).

(** Writing to a new file and closing it. *)
Lemma store_close_ok cfuel fuel dirs v v' d' pl l0 mode f f' data : (2 * Z.to_nat (nent v) <= cfuel)%nat -> mode = 10 \/ mode = 11 -> made dirs v v' d' pl l0 mode f f' -> Forall is_byte data -> zlen data < 4294967296 -> (length data < fuel)%nat ->
  exists sc w fn t its1 its2 long ls s n x1 x2 l, let dirs' := dirs_set dirs sc t (its1 ++ Named long ls s :: its2) in ends_in pl sc w fn /\ bears fn w (get fn NSFLAG) (Named long ls s) = true /\ Forall (fun it => bears fn w (get fn NSFLAG) it = false) its1 /\
    f_write cfuel fuel data (zlen data) (mk_open v' f') = Ok ((FR_OK, n), x1) /\ (n = zlen data \/ full (of_vol x1)) /\ 0 <= n <= zlen data /\ f_close x1 = Ok (FR_OK, x2) /\ tree dirs' (of_vol x2) /\ apart dirs' /\ o_geo x2 = v_geo v /\ (full (of_vol x1) -> full (of_vol x2)) /\
    has (attr_of s) AM_DIR = false /\ has (attr_of s) AM_RDO = false /\ size_of s = n /\ holds dirs' (of_vol x2) s l /\ (forall k, 0 <= k < n -> vbyte (of_vol x2) l k = get data k) /\
    (forall s2 l2, holds dirs v s2 l2 -> (forall c, c ∈ l2 -> c ∉ l0) -> same_content dirs dirs' v (of_vol x2) s2 l2).
Proof.
  intros Hcf Hm Hmade Hby Hlen Hfu. destruct (made_usable dirs v v' d' pl l0 mode f f' Hm Hmade) as (sc & w & fn & t & its1 & its2 & long & ls & s & He & [T Ap G Hem Hat Oth] & Hb & Hfirst & [Uc Up Ul _] & Hfd & Mw & Mm & Fp & Fz). set (dirs1 := dirs_set dirs sc t (its1 ++ Named long ls s :: its2)) in *.
  set (x := mk_open v' f') in *. destruct (f_write_ok cfuel fuel x [] data (zlen data) Uc Up Ul Mw) as (n & x1 & l & E1 & Hn & Hfull & Wr); [lia|lia|done|cbn [x of_vol]; by rewrite G|lia|]. cbn [x of_fil] in Hn, Hfull. rewrite Fp in Hn, Hfull. rewrite Z.min_l in Hn, Hfull by lia.
  destruct Wr as [K1 P1 Ex Pt Sz By]. cbn [x of_fil] in Pt, Sz, By. rewrite Fp, Fz in *. assert (clear_of dirs1 []) as Hcl0 by (intros k0 t0 i0 c0 _ Hc0; set_solver). destruct (write_tree dirs1 [] x l x1 T Ap Hcl0 Ex K1) as [T1 Hcl1].
  pose proof (ef_geo _ _ _ _ Ex) as G1. cbn [x of_vol] in G1. destruct (modified_ok x1 l K1 P1) as [K1' P1']. pose proof (live_ext _ _ _ _ Ul Ex) as V1. pose proof (ef_ident _ _ _ _ Ex) as I. unfold ident in I. cbn [x of_fil] in I. injection I as _ _ _ I4 I5.
  assert (filed dirs1 (touched x1) sc t its1 its2 long ls s) as Hfd1. { destruct Hfd as [Q1 Q2 Q3 Q4 Q5]. cbn [x of_vol of_fil] in *. split; cbn [touched of_vol of_fil fil_flag dir_sect dir_ptr]; rewrite ?G1, ?I4, ?I5; done. }
  destruct (close_tree dirs1 (touched x1) l sc t its1 its2 long ls s T1 Ap K1' Hcl1 V1) as (v2 & f2 & s' & E2 & T2 & Ap2 & G2 & Hfl2 & Hren & Hat2 & Hsz & Hh & By2 & Oth2); [cbn [touched of_fil fil_flag f_flag]; rewrite has_modified; by rewrite orb_true_r|done|].
  cbn [touched of_vol of_fil fil_flag f_obj] in *. exists sc, w, fn, t, its1, its2, long, ls, s', n, (touched x1), (mk_open v2 f2), l. cbv zeta.
  assert (forall k, dirs_set dirs sc t (its1 ++ Named long ls s' :: its2) k = dirs_set dirs1 sc t (its1 ++ Named long ls s' :: its2) k) as Exx by (intros k; symmetry; apply dirs_set_set). pose proof (eh_data _ _ _ _ _ _ Hat) as Hsd.
  split; [done|]. split; [rewrite <- Hb; apply bears_renamed; by apply renewed_take|]. split; [done|]. split; [exact E1|]. split; [done|]. split; [done|]. split; [exact E2|]. cbn [of_vol]. split; [by eapply tree_ext|]. split; [by eapply apart_ext|]. split; [congruence|]. split; [exact Hfl2|].
  split; [rewrite (attr_archived s s') by (done || (right; by left)); by apply (empty_plain _ _ Hem)|]. split; [rewrite (attr_archived s s') by (done || (by do 2 right)); by apply (empty_plain _ _ Hem)|]. split; [rewrite Hsz; lia|]. split; [destruct Hh as [C2 Z2 L2]; split; [done|done|by eapply clear_ext]|]. destruct (co_size x1 l K1) as [_ Hns]. split.
  - intros k Hk. rewrite By2 by lia. change (fbyte (touched x1) l k) with (fbyte x1 l k). rewrite By by lia. rewrite (proj2 (Z.leb_le 0 k)), (proj2 (Z.ltb_lt k _)) by lia. cbn [andb]. f_equal. lia.
  - intros s2 l2 Hh2 Hd2. pose proof (Oth s2 l2 Hh2 Hd2) as S1. destruct (write_content dirs1 [] x l x1 s2 l2 T K1 Ex (sn_holds _ _ _ _ _ _ S1)) as [S2 Hd3]; [set_solver|]. pose proof (Oth2 s2 l2 (sn_holds _ _ _ _ _ _ S2) Hd3) as S3.
    pose proof (same_content_trans _ _ _ _ _ _ _ _ G S1 S2) as S12. destruct (same_content_trans dirs dirs1 _ v (of_vol x1) v2 s2 l2 ltac:(congruence) S12 S3) as [[C2 Z2 L2] B2]. split; [|done]. split; [done|done|by eapply clear_ext].
Qed.

(** ** Claims *)

(** C12: [f_open] for reading by a path and [f_read] of [btr] bytes deliver the
    first bytes of the file the path names, as the volume holds them in the
    clusters of the file, as many as asked for or as the entry's size allows.
    A path that names no file gives the error code for it. *)
Theorem file_read_by_path (dirs : Z -> option (dtable * list item)) (cfuel dfuel : nat) (a : fatfs D) (d : DIR) (f : FIL) (path rest s r : list Z) :
  65536 <= Z.of_nat dfuel -> ready dirs a -> get_ldnumber path = Ok (0, rest) -> string_at rest s r -> fname (d_fn d) ->
  let pl := resolve dirs (a_geo a) rest in
  exists fr f' a', f_open cfuel dfuel d f path FA_READ a = Ok ((fr, f'), a') /\ fr = plain_result FA_READ pl /\
    match pl with
    | There sc _ _ _ (Named _ _ e) => fr = FR_OK ->
        forall l fuel buff btr, holds dirs (a_vol a) e l -> 0 <= btr < 4294967296 -> let n := Z.min btr (size_of e) in n <= zlen buff -> (Z.to_nat n < fuel)%nat ->
          exists buff' x', f_read fuel buff btr (mk_open (a_vol a') f') = Ok ((FR_OK, n, buff'), x') /\ length buff' = length buff /\
            (forall i, 0 <= i < n -> get buff' i = vbyte (a_vol a) l i) /\ (forall i, n <= i -> get buff' i = get buff i) /\ usable x' l /\ fptr (of_fil x') = n
    | _ => True
    end.
Proof. exact (open_read_ok dirs cfuel dfuel a d f path rest s r). Qed.

(** C11: a file that is created, or emptied, by its path, written and closed is
    there: the bytes [f_write] accepted (all of them, unless no cluster is
    free) are on the volume; [f_open] by the same path and [f_read] deliver
    exactly them. The directories stay well formed, every other file keeps its
    clusters and its content. If the file cannot be opened the result tells
    why: a bad name or path, a read-only object or a directory, or no room for
    the entry. The path may pass the directory the file is in only at its end,
    so that the new name cannot be taken for one of the earlier segments. *)
Theorem file_stored_by_path (cfuel dfuel fuel : nat) (dirs : Z -> option (dtable * list item)) (a : fatfs D) (d d2 : DIR) (f f2 : FIL) (path rest s r l0 data : list Z) :
  65536 <= Z.of_nat dfuel -> (2 * Z.to_nat (n_fatent (a_geo a)) <= cfuel)%nat -> (length data < fuel)%nat -> ready dirs a -> apart dirs -> get_ldnumber path = Ok (0, rest) -> string_at rest s r -> fname (d_fn d) -> fname (d_fn d2) ->
  let pl := resolve dirs (a_geo a) rest in old_clusters dirs (a_vol a) pl l0 -> (forall sc w fn, ends_in pl sc w fn -> sc ∉ passed_by dirs (a_geo a) rest) -> Forall is_byte data -> zlen data < 4294967296 ->
  exists fr f1 a1, f_open cfuel dfuel d f path (FA_WRITE + FA_CREATE_ALWAYS) a = Ok ((fr, f1), a1) /\ create_result pl fr /\
    (fr = FR_OK -> exists n x1 x2 f3 a3 dirs',
       f_write cfuel fuel data (zlen data) (mk_open (a_vol a1) f1) = Ok ((FR_OK, n), x1) /\ 0 <= n <= zlen data /\ (n = zlen data \/ full (of_vol x1)) /\
       f_close x1 = Ok (FR_OK, x2) /\ ready dirs' (with_vol a1 (of_vol x2)) /\ apart dirs' /\
       f_open cfuel dfuel d2 f2 path FA_READ (with_vol a1 (of_vol x2)) = Ok ((FR_OK, f3), a3) /\
       (forall buff, n <= zlen buff < 4294967296 -> exists buff' x3, f_read fuel buff (zlen buff) (mk_open (a_vol a3) f3) = Ok ((FR_OK, n, buff'), x3) /\ take (Z.to_nat n) buff' = take (Z.to_nat n) data) /\
       (forall s2 l2, holds dirs (a_vol a) s2 l2 -> (forall c, c ∈ l2 -> c ∉ l0) -> same_content dirs dirs' (a_vol a) (of_vol x2) s2 l2)).
Proof.
  intros Hdf Hcf Hfu Hr Hap El Hs Hfn Hfn2 pl Hold Hpass Hby Hlen.
  destruct (f_open_create cfuel dfuel dirs a d f path rest s r 10 l0 Hdf Hcf Hr Hap El Hs Hfn (or_introl eq_refl) Hold) as (fr & f1 & a1 & E1 & Hreg1 & Hu1 & Hres & R1). exists fr, f1, a1. split; [exact E1|]. split; [done|]. intros E0. destruct (R1 E0) as (d' & Hmade).
  destruct (store_close_ok cfuel fuel dirs (a_vol a) (a_vol a1) d' pl l0 10 f f1 data Hcf (or_introl eq_refl) Hmade Hby Hlen Hfu) as (sc & w & fn & t & its1 & its2 & long & ls & s' & n & x1 & x2 & l & He & Hb & Hfirst & E2 & Hfull & Hn & E3 & T & Ap & G & _ & Hnd & _ & Hsz & Hh & By & Oth).
  set (dirs' := dirs_set dirs sc t (its1 ++ Named long ls s' :: its2)) in *. set (a2 := with_vol a1 (of_vol x2)). assert (ready dirs' a2) as Hr2 by (by split).
  assert (resolve dirs' (a_geo a2) rest = There sc w fn (zlen (raws its1)) (Named long ls s')) as Hres2. { cbn [a2 with_vol a_ff ff_vol]. rewrite G. unfold dirs'. rewrite (resolve_set dirs _ sc t _ w fn rest (Hpass sc w fn He) He). unfold found_in. by rewrite find_obj_at. }
  destruct (open_read_ok dirs' cfuel dfuel a2 d2 f2 path rest s r Hdf Hr2 El Hs Hfn2) as (fr3 & f3 & a3 & E4 & Hf3 & R3). rewrite Hres2 in Hf3, R3. cbn [plain_result] in Hf3. rewrite Hnd in Hf3. change (has FA_READ FA_WRITE && _) with false in Hf3. cbv iota in Hf3. subst fr3.
  exists n, x1, x2, f3, a3, dirs'. split; [exact E2|]. split; [done|]. split; [done|]. split; [exact E3|]. split; [done|]. split; [done|]. split; [exact E4|]. split; [|exact Oth]. intros buff Hbuf.
  destruct (R3 eq_refl l fuel buff (zlen buff) Hh) as (b & x3 & E5 & Lb & Rd & _); [lia|lia|lia|]. rewrite Hsz, Z.min_r in E5, Rd by lia. exists b, x3. split; [exact E5|].
  apply get_eq_ext; [rewrite !length_take; lia|]. intros i Hi. rewrite length_take in Hi. rewrite !get_take by lia. rewrite Rd by lia. apply By. lia.
Qed.

End Creating.

(** *** Concrete runs: [Long name.text] is created in the empty root directory. *)

Definition demo_text : list Z := [72; 105; 33].

Lemma demo_empty_tree : tree (demo_dirs []) demo_vol.
Proof.
  destruct demo_dir_at as [F T L]. split; [exact F|by eexists| |].
  - intros sc t its E. unfold demo_dirs in E. destruct (Z.eqb_spec sc 0) as [->|]; [|discriminate E]. injection E as <- <-. split; [exact T|exact L].
  - intros sc t its long ls s E Hin. unfold demo_dirs in E. destruct (sc =? 0); [|discriminate E]. injection E as <- <-. by apply elem_of_nil in Hin.
Qed.

Lemma demo_apart its : apart (demo_dirs its).
Proof. intros sc1 t1 i1 sc2 t2 i2 c E1 E2 Hne. unfold demo_dirs in *. destruct (Z.eqb_spec sc1 0), (Z.eqb_spec sc2 0); congruence. Qed.

Lemma demo_missing : resolve (demo_dirs []) (fs_geo (v_fs demo_vol)) demo_file_path = Missing 0 (demo_name 76) demo_fn.
Proof. vm_compute. reflexivity. Qed.

Lemma demo_passed sc : sc ∉ passed_by (demo_dirs []) (fs_geo (v_fs demo_vol)) demo_file_path.
Proof. assert (passed_by (demo_dirs []) (fs_geo (v_fs demo_vol)) demo_file_path = []) as -> by (vm_compute; reflexivity). apply not_elem_of_nil. Qed.

Definition demo_open := f_open ncf df (wd_dp demo_dir) (of_fil demo_file) demo_file_path (FA_WRITE + FA_CREATE_ALWAYS) (demo_api demo_vol).

Lemma demo_open_result fr f a : demo_open = Ok ((fr, f), a) -> fr = FR_OK.
Proof.
  assert (match demo_open with Ok ((r, _), _) => r | _ => FR_INT_ERR end = FR_OK) as Er by (vm_compute; reflexivity). intros E. by rewrite E in Er.
Qed.

(** A file is created, written and closed. *)
Definition stored_run {F} (o : res ((FRESULT * F) * fatfs ram)) (w : F -> fatfs ram -> res ((FRESULT * Z) * open_file ram)) (c : open_file ram -> res (FRESULT * open_file ram)) : res (fatfs ram) :=
  x ← o; y ← w x.1.2 x.2; z ← c y.2; Ok (with_vol x.2 (of_vol z.2)).

Lemma stored_run_ok {F} o w c r (f : F) a p x1 q x2 : o = Ok ((r, f), a) -> w f a = Ok (p, x1) -> c x1 = Ok (q, x2) -> stored_run o w c = Ok (with_vol a (of_vol x2)).
Proof. intros -> E1 E2. unfold stored_run. cbn. rewrite E1. cbn. by rewrite E2. Qed.

Definition demo_run : res (fatfs ram) := stored_run demo_open (fun f a => f_write ncf 4 demo_text 3 (mk_open (ff_vol (a_ff a)) f)) f_close.

(** The volume with the file on it. *)
Lemma demo_stored : exists a1 v2 dirs' sc w fn i long ls s n l, (apart dirs' /\ fs_geo (v_fs v2) = fs_geo (v_fs demo_vol) /\ has (attr_of s) AM_RDO = false /\ demo_run = Ok (with_vol a1 v2)) /\ ready dirs' (with_vol a1 v2) /\ resolve dirs' (fs_geo (v_fs v2)) demo_file_path = There sc w fn i (Named long ls s) /\ has (attr_of s) AM_DIR = false /\
  size_of s = n /\ holds dirs' v2 s l /\ 0 <= n <= 3 /\ forall k, 0 <= k < n -> vbyte v2 l k = get demo_text k.
Proof.
  destruct demo_fn_ok as (Hfn & _ & _). destruct demo_dir_fuel as [Hcf Hdf].
  assert (old_clusters (demo_dirs []) demo_vol (resolve (demo_dirs []) (fs_geo (v_fs demo_vol)) demo_file_path) []) as Hold by (rewrite demo_missing; reflexivity).
  destruct (f_open_create ncf df (demo_dirs []) (demo_api demo_vol) (wd_dp demo_dir) (of_fil demo_file) demo_file_path demo_file_path (demo_name 76) [] 10 [] Hdf Hcf (demo_ready _ _ demo_empty_tree) (demo_apart []) eq_refl demo_string Hfn (or_introl eq_refl) Hold) as (fr & f1 & a1 & E1 & Hreg & Hu & _ & R).
  destruct (R (demo_open_result _ _ _ E1)) as (d' & Hmade). assert (Forall is_byte demo_text) as Hby by (repeat (apply Forall_cons; split; [unfold is_byte; lia|]); apply Forall_nil_2).
  destruct (store_close_ok ncf 4 _ _ _ d' _ [] 10 _ f1 demo_text Hcf (or_introl eq_refl) Hmade Hby ltac:(cbn; lia) ltac:(cbn; lia)) as (sc & w & fn & t & its1 & its2 & long & ls & s & n & x1 & x2 & l & He & Hb & Hfirst & E2 & _ & Hn & E3 & T & Ap & G & _ & Hnd & Hro & Hsz & Hh & By & _).
  exists a1, (of_vol x2), (dirs_set (demo_dirs []) sc t (its1 ++ Named long ls s :: its2)), sc, w, fn, (zlen (raws its1)), long, ls, s, n, l. split; [exact (conj Ap (conj G (conj Hro (stored_run_ok demo_open (fun f a => f_write ncf 4 demo_text 3 (mk_open (ff_vol (a_ff a)) f)) f_close _ _ _ _ _ _ _ E1 E2 E3))))|]. split; [split; [exact Hreg|exact T|exact Hu]|]. split; [|exact (conj Hnd (conj Hsz (conj Hh (conj Hn By))))].
  rewrite G. rewrite (resolve_set (demo_dirs []) _ sc t _ w fn demo_file_path); [|apply demo_passed|exact He]. unfold found_in. rewrite find_obj_at by done. done.
Qed.

Lemma file_read_by_path_witness :
  exists a dirs' n f1 a1 buff' x1, ready dirs' a /\ f_open ncf df (wd_dp demo_dir) (of_fil demo_file) demo_file_path FA_READ a = Ok ((FR_OK, f1), a1) /\ f_read 4 (replicate 8 0) 8 (mk_open (ff_vol (a_ff a1)) f1) = Ok ((FR_OK, n, buff'), x1) /\
    forall k, 0 <= k < n -> get buff' k = get demo_text k.
Proof.
  destruct demo_stored as (a1 & v2 & dirs' & sc & w & fn & i & long & ls & s & n & l & _ & Hr & Hres & Hnd & Hsz & Hh & Hn & By). destruct demo_fn_ok as (Hfn & _ & _).
  destruct (file_read_by_path dirs' ncf df (with_vol a1 v2) (wd_dp demo_dir) (of_fil demo_file) demo_file_path demo_file_path (demo_name 76) [] (proj2 demo_dir_fuel) Hr eq_refl demo_string Hfn) as (fr & f1 & a2 & E & Hf & R).
  cbn [with_vol a_ff ff_vol] in Hf, R. rewrite Hres in Hf, R. cbn [plain_result] in Hf. rewrite Hnd in Hf. change (has FA_READ FA_WRITE && _) with false in Hf. cbv iota in Hf. subst fr.
  destruct (R eq_refl l 4%nat (replicate 8 0) 8 Hh) as (buff' & x1 & E2 & _ & Rd & _); [lia|rewrite Hsz; change (zlen (replicate 8 0)) with 8; lia|lia|]. rewrite Hsz, Z.min_r in E2, Rd by lia.
  exists (with_vol a1 v2), dirs', n, f1, a2, buff', x1. refine (conj Hr (conj E (conj E2 _))). intros k Hk. rewrite Rd by exact Hk. apply By. exact Hk.
Defined.

Lemma file_stored_by_path_witness :
  exists f1 a1 n x1 x2 f3 a3 buff' x3, demo_open = Ok ((FR_OK, f1), a1) /\ f_write ncf 4 demo_text 3 (mk_open (ff_vol (a_ff a1)) f1) = Ok ((FR_OK, n), x1) /\ f_close x1 = Ok (FR_OK, x2) /\
    f_open ncf df (wd_dp demo_dir) (of_fil demo_file) demo_file_path FA_READ (with_vol a1 (of_vol x2)) = Ok ((FR_OK, f3), a3) /\ f_read 4 (replicate 8 0) 8 (mk_open (ff_vol (a_ff a3)) f3) = Ok ((FR_OK, n, buff'), x3) /\ take (Z.to_nat n) buff' = take (Z.to_nat n) demo_text.
Proof.
  destruct demo_fn_ok as (Hfn & _ & _). destruct demo_dir_fuel as [Hcf Hdf].
  destruct (file_stored_by_path ncf df 4 (demo_dirs []) (demo_api demo_vol) (wd_dp demo_dir) (wd_dp demo_dir) (of_fil demo_file) (of_fil demo_file) demo_file_path demo_file_path (demo_name 76) [] [] demo_text) as (fr & f1 & a1 & E1 & _ & R).
  - exact Hdf.
  - exact Hcf.
  - cbn. lia.
  - apply demo_ready, demo_empty_tree.
  - apply demo_apart.
  - reflexivity.
  - exact demo_string.
  - exact Hfn.
  - exact Hfn.
  - change (fs_geo _) with (fs_geo (v_fs demo_vol)). rewrite demo_missing. reflexivity.
  - intros sc w fn _. apply demo_passed.
  - repeat (apply Forall_cons; split; [unfold is_byte; lia|]). apply Forall_nil_2.
  - cbn. lia.
  - pose proof (demo_open_result fr f1 a1 E1) as E0. rewrite E0 in E1. destruct (R E0) as (n & x1 & x2 & f3 & a3 & dirs' & E2 & Hn & _ & E3 & _ & _ & E4 & Rd & _).
    destruct (Rd (replicate 8 0)) as (buff' & x3 & E5 & Ht); [change (zlen demo_text) with 3 in Hn; change (zlen (replicate 8 0)) with 8; lia|]. exists f1, a1, n, x1, x2, f3, a3, buff', x3. exact (conj E1 (conj E2 (conj E3 (conj E4 (conj E5 Ht))))).
Defined.
