(* ===== verification/FatUnlink.v ===== *)
(** * FatUnlink: removing objects by their path (ff.c)

    [f_unlink] deletes a file or an empty directory: its entries, its clusters,
    and, for a directory, its place in the tree. *)

From Stdlib Require Import ZArith Lia Bool.
From stdpp Require Import base list list_numbers sets.
From S2P Require Import Prelude CLib Hw Ata FatUni Fat FatChain FatFile FatRead FatWrite FatSync FatLfn FatDir FatTable FatScan FatItems FatGrow FatEdit FatReg FatObj FatMount FatName FatApi FatWalk FatList FatOpen FatTree FatCreate.
From stdpp Require Import options.

(** ** A directory taken out of the tree *)

Definition dirs_del (dirs : Z -> option (dtable * list item)) (sc : Z) (k : Z) : option (dtable * list item) := if k =? sc then None else dirs k.

(** No entry of another directory leads to [sc]. *)
Definition unreferenced (dirs : Z -> option (dtable * list item)) (g : geometry) (sc : Z) : Prop :=
  forall k t its long ls s, dirs k = Some (t, its) -> k <> sc -> Named long ls s ∈ its -> has (attr_of s) AM_DIR = true -> start_of g s <> sc.

Lemma dirs_del_cases dirs sc k x : dirs_del dirs sc k = Some x -> k <> sc /\ dirs k = Some x.
Proof. unfold dirs_del. by destruct (Z.eqb_spec k sc). Qed.

Lemma dirs_del_ne dirs sc k : k <> sc -> dirs_del dirs sc k = dirs k.
Proof. intros Hne. unfold dirs_del. by rewrite (proj2 (Z.eqb_neq k sc) Hne). Qed.

Lemma apart_del dirs sc : apart dirs -> apart (dirs_del dirs sc).
Proof. intros Ha k1 t1 i1 k2 t2 i2 c [_ E1]%dirs_del_cases [_ E2]%dirs_del_cases. by apply (Ha k1 t1 i1 k2 t2 i2). Qed.

Lemma clear_del dirs sc l : clear_of dirs l -> clear_of (dirs_del dirs sc) l.
Proof. intros Hc k t its c [_ E]%dirs_del_cases. by apply (Hc k t its). Qed.

(** Its clusters belong to no other directory. *)
Lemma table_clear dirs sc l its : apart dirs -> dirs sc = Some (Clusters l, its) -> clear_of (dirs_del dirs sc) l.
Proof. intros Ha Ed k t its2 c [Hne E]%dirs_del_cases Hin Hon. by apply (Ha k t its2 sc (Clusters l) its c E Ed Hne). Qed.

(** Paths in trees that differ in a directory nothing leads to. *)
Lemma walk_agree dirs dirs' g sc : (forall k, k <> sc -> dirs' k = dirs k) -> unreferenced dirs g sc -> forall fuel sc0 path, sc0 <> sc -> walk dirs' g fuel sc0 path = walk dirs g fuel sc0 path /\ passed dirs' g fuel sc0 path = passed dirs g fuel sc0 path.
Proof.
  intros Hd Hu. induction fuel as [|fuel IH]; intros sc0 path Hne; [done|]. cbn [walk passed]. rewrite (Hd sc0 Hne). destruct (parse path) as [[[w fn] p]|]; [|done]. destruct (dirs sc0) as [[t its]|] eqn:Ed; [|done].
  destruct (find_obj fn w its 0) as [[i it]|] eqn:Ef; [|done]. destruct (is_last fn); [done|]. destruct it as [e|e|long ls s]; [done|done|]. destruct (has (attr_of s) AM_DIR) eqn:Ea; [|done].
  destruct (find_obj_split _ _ _ _ _ _ Ef) as (its1 & its2 & -> & _). destruct (IH (start_of g s) p) as [-> ->]; [|done]. apply (Hu sc0 t _ long ls s Ed Hne); [set_solver|done].
Qed.

Lemma resolve_agree dirs dirs' g sc path : (forall k, k <> sc -> dirs' k = dirs k) -> unreferenced dirs g sc -> sc <> 0 -> resolve dirs' g path = resolve dirs g path /\ passed_by dirs' g path = passed_by dirs g path.
Proof.
  intros Hd Hu Hne. unfold resolve, passed_by. destruct (skip_seps path) as [p| | |]; [|done..]. destruct (walk_agree dirs dirs' g sc Hd Hu (length p) 0 p ltac:(done)) as [-> ->]. done.
Qed.

Lemma resolve_del dirs g sc path : unreferenced dirs g sc -> sc <> 0 -> resolve (dirs_del dirs sc) g path = resolve dirs g path.
Proof. intros Hu Hne. apply (resolve_agree dirs _ g sc path); [apply dirs_del_ne|done|done]. Qed.

(** The entry that begins at slot [i] of [sc] is the only one that leads to
    the directory [sub], apart from those within it. *)
Definition sole (dirs : Z -> option (dtable * list item)) (g : geometry) (sc i sub : Z) : Prop :=
  sub <> 0 /\ sub <> sc /\
  forall k t its1 long ls s its2, dirs k = Some (t, its1 ++ Named long ls s :: its2) -> k <> sub -> has (attr_of s) AM_DIR = true -> start_of g s = sub -> k = sc /\ zlen (raws its1) = i.

Lemma sole_removed dirs g sc sub t its1 it its2 gs : sole dirs g sc (zlen (raws its1)) sub -> dirs sc = Some (t, its1 ++ it :: its2) -> (0 < length (raw it))%nat ->
  unreferenced (dirs_set dirs sc t (its1 ++ (Gone <$> gs) ++ its2)) g sub.
Proof.
  intros (_ & _ & Ho) Ed Hraw k t2 its long ls s E Hne Hin Ha Es. apply dirs_set_cases in E as [[-> E]|[Hk E]].
  - injection E as -> ->. apply elem_of_app in Hin as [Hin|Hin]; [|apply elem_of_app in Hin as [Hin|Hin]].
    + apply list_elem_of_split in Hin as (a & b & ->). rewrite <- app_assoc in Ed. destruct (Ho sc t a long ls s _ Ed Hne Ha Es) as [_ E]. rewrite raws_app, length_app in E. cbn [fmap list_fmap concat raw] in E. rewrite !length_app in E. cbn [length] in E. lia.
    + apply list_elem_of_fmap in Hin as (e & E & _). discriminate E.
    + apply list_elem_of_split in Hin as (a & b & ->). replace (its1 ++ it :: a ++ Named long ls s :: b) with ((its1 ++ it :: a) ++ Named long ls s :: b) in Ed by (by rewrite <- app_assoc).
      destruct (Ho sc t _ long ls s b Ed Hne Ha Es) as [_ E]. rewrite raws_app, length_app in E. cbn [fmap list_fmap concat] in E. rewrite length_app in E. lia.
  - apply list_elem_of_split in Hin as (a & b & ->). by destruct (Ho k t2 a long ls s b E Hne Ha Es).
Qed.

Section Removing.
Context {D : Type} `{BlockLaws D}.
#[local] Set Default Proof Using "Type*".

Abbreviation v_geo v := (fs_geo (v_fs v)).
Abbreviation nent v := (n_fatent (v_geo v)).
Abbreviation x_geo x := (v_geo (wd_vol x)).

Lemma tree_del dirs v sc : tree dirs v -> sc <> 0 -> unreferenced dirs (v_geo v) sc -> tree (dirs_del dirs sc) v.
Proof.
  intros [Hf Hr Hd Hs] Hne Hu. split; [done|by rewrite dirs_del_ne| |].
  - intros k t its [_ E]%dirs_del_cases. by apply Hd.
  - intros k t its long ls s [Hk E]%dirs_del_cases Hin Ha. rewrite dirs_del_ne; [by apply (Hs k t its long ls)|]. by apply (Hu k t its long ls).
Qed.

Lemma holds_del dirs v sc s l : holds dirs v s l -> holds (dirs_del dirs sc) v s l.
Proof. intros [Hc Hs Hl]. split; [done|done|by apply clear_del]. Qed.

(** The table lost the clusters [l]; the directories and the files without
    such clusters are as before. *)
Record freed (dirs : Z -> option (dtable * list item)) (l : list Z) (v v' : vol D) : Prop := {
  fr_tree : tree dirs v';
  fr_geo : v_geo v' = v_geo v;
  fr_free : forall c, c ∈ l -> entry v' c = 0;
  fr_entry : forall c, 2 <= c < nent v -> c ∉ l -> entry v' c = entry v c;
  fr_files : forall s2 l2, holds dirs v s2 l2 -> (forall c, c ∈ l2 -> c ∉ l) -> same_content dirs dirs v v' s2 l2
}.

(** A step that changes the clusters [l] in the table and the FSInfo sector. *)
Lemma freed_intro dirs l v v' : tree dirs v -> apart dirs -> clear_of dirs l -> in_range (v_geo v) l -> fat_ok v' -> v_geo v' = v_geo v -> bd_size (v_dev v') = bd_size (v_dev v) -> (forall c, c ∈ l -> entry v' c = 0) ->
  (forall c, 2 <= c < nent v -> c ∉ l -> entry v' c = entry v c) -> (forall s, reachable v s -> ~ in_table (v_geo v) s -> s <> volbase (v_geo v) + 1 -> vsec v' s = vsec v s) -> freed dirs l v v'.
Proof.
  intros Htr Hap Hcl Hl F G Zs Fr En V. pose proof (tr_fat _ _ Htr) as Hf. split; [|done|done|done|].
  - apply (tree_keep dirs v); [done|]. apply (clear_steady _ _ _ _ l); [done|done|done|done|done|done|done| |done]. intros s Q1 Q2 _ _ Q5. by apply V.
  - intros s2 l2 Hh Hd. pose proof (chain_range _ _ _ (ho_chain _ _ _ _ Hh)) as Hr. apply same_content_intro; [done|done|done|intros c Hin Hc _; by apply En; [|apply Hd]| |apply Hh].
    intros j Hj. pose proof (vo_geo _ (fo_vol _ Hf)) as Hg. destruct (fsect_data _ _ Hg l2 j Hr Hj) as [Hds _]. apply V; [apply data_reachable; [apply Hf|done]|by eapply data_not_table|].
    pose proof (go_base _ _ Hg). destruct (geo_fat _ _ Hg) as (F1 & F2 & F3 & _). unfold data_sector in Hds. lia.
Qed.

Lemma free_chain_ok cfuel dirs v s0 l : tree dirs v -> apart dirs -> clear_of dirs l -> chain v s0 l -> (Z.to_nat (nent v) <= cfuel)%nat ->
  exists v', (if negb (s0 =? 0) then remove_chain cfuel s0 0 else mret FR_OK) v = Ok (FR_OK, v') /\ freed dirs l v v'.
Proof.
  intros Htr Hap Hcl Hch Hcf. pose proof (tr_fat _ _ Htr) as Hf. destruct (chain_start v s0 l Hf Hch) as [[-> ->]|(Hs & Hne & Hl)].
  - exists v. split; [done|]. apply freed_intro; try done; [apply (chain_range v 0); exact Hch|set_solver].
  - rewrite (proj2 (Z.eqb_neq s0 0) Hs). cbn [negb]. destruct (remove_chain_ok cfuel v s0 l 0 Hf Hl Hne Hcf (or_introl eq_refl)) as (v' & E & F & (G & Zs & V & _) & _ & En). exists v'. split; [exact E|]. pose proof (chain_range _ _ _ Hch) as Hr.
    apply freed_intro; try done.
    + intros c Hc. rewrite En by (by apply Hr). by rewrite bool_decide_true.
    + intros c Hc Hn. rewrite En by done. rewrite bool_decide_false by done. by rewrite (proj2 (Z.eqb_neq c 0)) by lia.
    + intros s Q1 Q2 _. by apply V.
Qed.

Lemma sync_tree dirs v : tree dirs v -> apart dirs -> exists v', sync_fs v = Ok (FR_OK, v') /\ freed dirs [] v v' /\ truth (wflag (fs_win (v_fs v'))) = false.
Proof.
  intros Htr Hap. pose proof (tr_fat _ _ Htr) as Hf. destruct (sync_fs_ok v (fo_vol _ Hf) (proj1 (fo_alloc _ Hf))) as (v' & E & Hv & G & Zs & L & Fc & W & _ & V). destruct (synced v v' Hf Hv G Zs L Fc V) as [F En]. exists v'. split; [exact E|]. split; [|done].
  apply freed_intro; try done.
  - intros k t its c _ Hc. set_solver.
  - split; [apply NoDup_nil_2|]. set_solver.
  - set_solver.
  - intros s Q1 _ Q3. apply V; [done|]. intros (_ & _ & E'). done.
Qed.

Lemma freed_trans dirs l v1 v2 v3 : freed dirs l v1 v2 -> freed dirs [] v2 v3 -> (forall c, c ∈ l -> 2 <= c < nent v1) -> freed dirs l v1 v3.
Proof.
  intros [T1 G1 F1 E1 C1] [T2 G2 F2 E2 C2] Hl. split; [done|congruence| | |].
  - intros c Hc. rewrite E2; [by apply F1|rewrite G1; by apply Hl|set_solver].
  - intros c Hc Hn. rewrite E2; [by apply E1|by rewrite G1|set_solver].
  - intros s2 l2 Hh Hd. pose proof (C1 s2 l2 Hh Hd) as S1. eapply same_content_trans; [exact G1|exact S1|]. apply C2; [apply S1|set_solver].
Qed.

(** ** Empty directories *)

Lemma bind_other_dir {A B} d (m : M (work_dir D) A) (k : A * DIR -> M (work_dir D) B) x a v' d' lfn' :
  m (mk_work (wd_vol x) d (wd_lfn x)) = Ok (a, mk_work v' d' lfn') -> (other_dir d m ≫= k) x = k (a, d') (mk_work v' (wd_dp x) lfn').
Proof. intros E. apply m_bind_Ok. unfold other_dir. by rewrite E. Qed.

Definition verdict (its : list item) : FRESULT := match catalogue its with [] => FR_OK | _ => FR_DENIED end.

Lemma check_empty_ok cfuel dfuel dirs v d lfn sdj sub t its : tree dirs v -> dirs sub = Some (t, its) -> units lfn -> 65536 <= Z.of_nat dfuel ->
  exists v' lfn', check_empty cfuel dfuel sdj sub (mk_work v d lfn) = Ok (verdict its, mk_work v' d lfn') /\ peeked v v' /\ units lfn'.
Proof.
  intros Htr Ed Hu Hdf. pose proof (tr_fat _ _ Htr) as Hf. destruct (tr_dir _ _ Htr _ _ _ Ed) as [Ht Hl]. set (d0 := d_start sub (d_onobj (obj_fs true) sdj)).
  destruct (dir_sdi_ok (mk_work v d0 lfn) t 0 Hf Ht) as (v1 & d1 & E1 & P1 & A1 & S1); [pose proof (dsects_nonneg _ _ _ (fo_vol _ Hf) Ht); unfold nslots; cbn [wd_vol]; lia|]. cbn [wd_vol wd_dp wd_lfn] in *. change (32 * 0) with 0 in E1. pose proof (peeked_geo _ _ P1) as G1.
  assert (dir_at (mk_work v1 d1 lfn) t ([] ++ its)) as Hda. { split; cbn [wd_vol wd_dp app]; [apply P1|destruct S1 as (-> & _); by apply (peeked_table v)|by rewrite (slots_peeked _ _ _ _ Hf P1 Ht)]. }
  destruct (dir_read_next cfuel dfuel (mk_work v1 d1 lfn) t [] its Hda) as (fr & v2 & d2 & lfn2 & E2 & Hu2 & (P2 & _ & R) & _); [cbn [wd_vol wd_dp]; by rewrite G1|done|done|]. cbn [wd_vol wd_dp wd_lfn] in *.
  assert (match fr with FR_OK => FR_DENIED | FR_NO_FILE => FR_OK | r => r end = verdict its) as Ev.
  { unfold verdict. pose proof (next_item_spec its (zlen (raws []))) as Hx. destruct (next_item its (zlen (raws []))) as [[[k it] rest]|]; [|rewrite Hx; cbn [read_result] in R; by subst fr].
    destruct Hx as (its1 & _ & _ & Hdel & ->). destruct it as [e|e|long ls s]; [done|done|]. cbn [read_result] in R. by destruct R as (-> & _). }
  exists v2, lfn2. split; [|split; [by eapply peeked_trans|done]]. unfold check_empty. erewrite bind_other_dir; [reflexivity|]. cbn [wd_vol wd_dp wd_lfn]. fold d0.
  rewrite (m_bind_Ok _ _ _ _ _ E1). change (fr_ok FR_OK) with true. cbv iota. rewrite (m_bind_Ok _ _ _ _ _ E2). by rewrite Ev.
Qed.

(** ** The object the path names *)

Definition unlink_result (dirs : Z -> option (dtable * list item)) (g : geometry) (pl : place) : FRESULT :=
  match pl with
  | Origin | BadName => FR_INVALID_NAME
  | Missing _ _ _ => FR_NO_FILE
  | There _ _ _ _ (Named _ _ s) =>
      if has (attr_of s) AM_RDO then FR_DENIED
      else if has (attr_of s) AM_DIR then match dirs (start_of g s) with Some (_, its) => verdict its | None => FR_OK end
      else FR_OK
  | _ => FR_NO_PATH
  end.

(** The clusters of the object, and that nothing else leads to a directory. *)
Definition removable (dirs : Z -> option (dtable * list item)) (v : vol D) (pl : place) (l : list Z) : Prop :=
  match pl with
  | There sc _ _ i (Named _ _ s) =>
      if has (attr_of s) AM_DIR then sole dirs (v_geo v) sc i (start_of (v_geo v) s) /\ exists its, dirs (start_of (v_geo v) s) = Some (Clusters l, its)
      else holds dirs v s l
  | _ => True
  end.

(** The object is gone with its clusters [l]; everything else is as before. *)
Record removed (dirs dirs' : Z -> option (dtable * list item)) (l : list Z) (v v' : vol D) : Prop := {
  rm_tree : tree dirs' v';
  rm_apart : apart dirs';
  rm_geo : v_geo v' = v_geo v;
  rm_free : forall c, 2 <= c < nent v -> entry v' c = 0 <-> c ∈ l \/ entry v c = 0;
  rm_files : forall s2 l2, holds dirs v s2 l2 -> (forall c, c ∈ l2 -> c ∉ l) -> same_content dirs dirs' v v' s2 l2
}.

(** The tree without the object: its entries are deleted, and a directory is
    not in the tree any more. *)
Definition without (dirs : Z -> option (dtable * list item)) (g : geometry) (sc : Z) (t : dtable) (its : list item) (s : list Z) : Z -> option (dtable * list item) :=
  if has (attr_of s) AM_DIR then dirs_del (dirs_set dirs sc t its) (start_of g s) else dirs_set dirs sc t its.

(** The entries of the object are deleted: what is left to remove. *)
Lemma entries_removed dirs v v1 sc t its1 long ls s its2 gs l w fn : let its' := its1 ++ (Gone <$> gs) ++ its2 in let dirs' := without dirs (v_geo v) sc t its' s in
  tree dirs v -> apart dirs -> dirs sc = Some (t, its1 ++ Named long ls s :: its2) -> removable dirs v (There sc w fn (zlen (raws its1)) (Named long ls s)) l -> changed sc t t v v1 -> laid its' (slots v1 t) ->
  tree dirs' v1 /\ apart dirs' /\ clear_of dirs' l /\ chain v1 (start_of (v_geo v) s) l /\ (forall s2 l2, holds dirs v s2 l2 -> same_content dirs dirs' v v1 s2 l2).
Proof.
  intros its' dirs' Htr Hap Ed Hrm C Hl. pose proof (tr_fat _ _ Htr) as Hf. destruct (changed_steady dirs v v1 sc t t _ Htr Hap Ed C) as [Hsy Hap1]. specialize (Hap1 its'). pose proof (ch_geo _ _ _ _ _ C) as G.
  assert (tree (dirs_set dirs sc t its') v1) as Htr1.
  { apply (tree_set dirs v); [done|done|by eexists|apply C|exact Hl|]. intros long2 ls2 s2 Hin Had. apply (tr_sub _ _ Htr sc t _ long2 ls2 s2 Ed); [|done]. unfold its' in Hin. apply elem_of_app in Hin as [Hin|Hin]; [set_solver|]. apply elem_of_app in Hin as [Hin|Hin]; [|set_solver]. apply list_elem_of_fmap in Hin as (e & E & _). discriminate E. }
  assert (forall s2 l2, holds dirs v s2 l2 -> same_content dirs (dirs_set dirs sc t its') v v1 s2 l2) as Hfiles by (intros s2 l2 Hh; by apply (changed_content dirs v v1 sc t t _ its' s2 l2 Htr Ed C)).
  unfold dirs', without. cbn [removable] in Hrm. destruct (has (attr_of s) AM_DIR) eqn:Edir.
  - destruct Hrm as [Hso (its3 & Ed3)]. pose proof Hso as (Hs0 & Hsc & _). set (sub := start_of (v_geo v) s) in *. assert (unreferenced (dirs_set dirs sc t its') (v_geo v1) sub) as Hun. { rewrite G. apply (sole_removed dirs _ sc sub t its1 (Named long ls s) its2 gs Hso Ed). cbn [raw]. rewrite length_app. cbn. lia. }
    assert (dirs_set dirs sc t its' sub = Some (Clusters l, its3)) as Ed4 by (unfold dirs_set; by rewrite (proj2 (Z.eqb_neq sub sc) Hsc)).
    split; [by apply tree_del|]. split; [by apply apart_del|]. split; [by apply (table_clear _ sub l its3)|]. split.
    + destruct (tr_dir _ _ Htr1 _ _ _ Ed4) as [[Hne Hlk] _]. destruct l as [|c l]; [done|]. cbn [chain]. unfold head_of in Hlk. rewrite (proj2 (Z.eqb_neq sub 0) Hs0), ?andb_false_r in Hlk. exact Hlk.
    + intros s2 l2 Hh. destruct (Hfiles s2 l2 Hh) as [H1 B1]. split; [by apply holds_del|done].
  - split; [done|]. split; [done|]. destruct (Hfiles s l Hrm) as [[C1 _ L1] _]. split; [done|]. split; [by rewrite <- G|done].
Qed.

Lemma remove_object cfuel dfuel dirs v d lfn sc t its1 long ls s its2 l w fn : let i := zlen (raws its1) in let dclst := start_of (v_geo v) s in
  tree dirs v -> apart dirs -> dirs sc = Some (t, its1 ++ Named long ls s :: its2) -> removable dirs v (There sc w fn i (Named long ls s)) l ->
  sclust (d_obj d) = sc -> at_slot (v_geo v) t d (i + zlen ls) -> blk_ofs d = match long with Some _ => 32 * i | None => NO_BLOCK end -> 65536 <= Z.of_nat dfuel -> (Z.to_nat (nent v) <= cfuel)%nat ->
  exists gs v' d', (r ← dir_remove cfuel dfuel; r ← (if fr_ok r && negb (dclst =? 0) then dvol (remove_chain cfuel dclst 0) else mret r); if fr_ok r then dvol sync_fs else mret r) (mk_work v d lfn) = Ok (FR_OK, mk_work v' d' lfn) /\
    removed dirs (without dirs (v_geo v) sc t (its1 ++ (Gone <$> gs) ++ its2) s) l v v' /\ truth (wflag (fs_win (v_fs v'))) = false.
Proof.
  intros i dclst Htr Hap Ed Hrm Esc A Bk Hdf Hcf. pose proof (tr_fat _ _ Htr) as Hf. destruct (tr_dir _ _ Htr _ _ _ Ed) as [Ht Hl].
  destruct (remove_laid cfuel dfuel (mk_work v d lfn) t its1 long ls s its2) as (v1 & d1 & E1 & C1 & _ & L1); cbn [wd_vol wd_dp wd_lfn]; [split; cbn [wd_vol wd_dp]; [done|by rewrite Esc|done]|done|done|done|]. cbn [wd_vol wd_dp wd_lfn] in *. rewrite Esc in C1.
  set (gs := erased <$> raw (Named long ls s)) in *. destruct (entries_removed dirs v v1 sc t its1 long ls s its2 gs l w fn Htr Hap Ed Hrm C1 L1) as (T1 & A1 & Cl1 & Ch1 & F1). pose proof (ch_geo _ _ _ _ _ C1) as G1.
  set (dirs' := without _ _ _ _ _ _) in *. fold dclst in Ch1. destruct (free_chain_ok cfuel dirs' v1 dclst l T1 A1 Cl1 Ch1) as (v2 & E2 & Fr2); [by rewrite G1|]. destruct (sync_tree dirs' v2 (fr_tree _ _ _ _ Fr2) A1) as (v3 & E3 & Fr3 & W3).
  pose proof (chain_range _ _ _ Ch1) as [_ Hr]. pose proof (freed_trans dirs' l v1 v2 v3 Fr2 Fr3 Hr) as [T3 G3 Z3 En3 Fi3]. exists gs, v3, d1. split; [|split; [|done]].
  - rewrite (m_bind_Ok _ _ _ _ _ E1). change (fr_ok FR_OK) with true. cbn [andb]. assert ((if negb (dclst =? 0) then dvol (remove_chain cfuel dclst 0) else mret FR_OK) (mk_work v1 d1 lfn) = Ok (FR_OK, mk_work v2 d1 lfn)) as E2'.
    { destruct (negb (dclst =? 0)); [unfold dvol; cbn [wd_vol wd_dp wd_lfn]; by rewrite E2|]. injection E2 as <-. done. }
    rewrite (m_bind_Ok _ _ _ _ _ E2'). change (fr_ok FR_OK) with true. cbv iota. unfold dvol. cbn [wd_vol wd_dp wd_lfn]. by rewrite E3.
  - split; [done|done|congruence| |].
    + intros c Hc. destruct (decide (c ∈ l)) as [Hin|Hn]; [split; [by left|intros _; by apply Z3]|]. rewrite En3 by (rewrite ?G1; done). split; [intros E; right|intros [E|E]; [done|]].
      * destruct (ch_entry _ _ _ _ _ C1 c Hc) as [Hon|E']; [|congruence]. destruct (on_used v1 sc t c) as [_ Hu]; [apply C1|apply C1|done|done].
      * destruct (ch_entry _ _ _ _ _ C1 c Hc) as [Hon|E']; [|congruence]. destruct (on_used v sc t c) as [_ Hu]; [done|done|done|done].
    + intros s2 l2 Hh Hd. pose proof (F1 s2 l2 Hh) as S1. eapply same_content_trans; [exact G1|exact S1|]. apply Fi3; [apply S1|done].
Qed.

Lemma removable_peeked dirs v v' pl l : fat_ok v -> peeked v v' -> removable dirs v pl l -> removable dirs v' pl l.
Proof. intros Hf P. destruct pl as [| | | | |sc w fn i [e|e|long ls s]]; try done. cbn [removable]. rewrite (peeked_geo _ _ P). destruct (has (attr_of s) AM_DIR); [done|]. by apply holds_peeked. Qed.

Lemma removed_peeked dirs dirs' l v v1 v' : fat_ok v -> peeked v v1 -> removed dirs dirs' l v1 v' -> removed dirs dirs' l v v'.
Proof.
  intros Hf P [T A G F Fi]. pose proof (peeked_geo _ _ P) as G1. rewrite G1 in F. split; [done|done|congruence| |].
  - intros c Hc. rewrite F by done. by rewrite (peeked_entry v v1 c Hf P).
  - intros s2 l2 Hh Hd. destruct (Fi s2 l2 (holds_peeked _ _ _ _ _ Hf P Hh) Hd) as [H2 B2]. split; [done|]. intros k Hk. rewrite B2 by (by rewrite G1). apply vbyte_peeked; [done|done|by eapply chain_range, Hh|done].
Qed.

(** Where the path leads when the object is gone. *)
Lemma resolve_without dirs v sc t its1 long ls s its2 gs l w fn path : let pl := There sc w fn (zlen (raws its1)) (Named long ls s) in
  dirs sc = Some (t, its1 ++ Named long ls s :: its2) -> removable dirs v pl l -> resolve dirs (v_geo v) path = pl -> sc ∉ passed_by dirs (v_geo v) path ->
  Forall (fun it => bears fn w (get fn NSFLAG) it = false) (its1 ++ its2) -> resolve (without dirs (v_geo v) sc t (its1 ++ (Gone <$> gs) ++ its2) s) (v_geo v) path = Missing sc w fn.
Proof.
  intros pl Ed Hrm Epl Hp [F1 F2]%Forall_app. set (its' := its1 ++ (Gone <$> gs) ++ its2). assert (resolve (dirs_set dirs sc t its') (v_geo v) path = Missing sc w fn) as E.
  { rewrite (resolve_set dirs _ sc t its' w fn path Hp); [|right; by eexists _, _]. unfold found_in. destruct (find_obj fn w its' 0) as [[i it]|] eqn:Ef; [|done]. destruct (find_obj_split _ _ _ _ _ _ Ef) as (a & b & Eits & _ & Hb & _).
    assert (Forall (fun it => bears fn w (get fn NSFLAG) it = false) its') as Fn by (apply Forall_app; split; [done|]; apply Forall_app; split; [apply Forall_fmap, Forall_forall; done|done]). rewrite Eits in Fn. apply Forall_app in Fn as [_ [Fn _]%Forall_cons]. congruence. }
  unfold without. cbn [removable pl] in Hrm. destruct (has (attr_of s) AM_DIR); [|done]. destruct Hrm as [Hso _]. rewrite resolve_del; [done| |apply Hso]. apply (sole_removed dirs _ sc _ t its1 (Named long ls s)); [done|done|]. cbn [raw]. rewrite length_app. cbn. lia.
Qed.

(** What became of the object at the end of the path. *)
Definition unlinked (dirs : Z -> option (dtable * list item)) (g : geometry) (l : list Z) (pl : place) (v v' : vol D) (dirs' : Z -> option (dtable * list item)) : Prop :=
  exists sc w fn t its1 long ls s its2 gs, let it := Named long ls s in pl = There sc w fn (zlen (raws its1)) it /\ dirs sc = Some (t, its1 ++ it :: its2) /\ Forall (fun it => bears fn w (get fn NSFLAG) it = false) its1 /\
    dirs' = without dirs g sc t (its1 ++ (Gone <$> gs) ++ its2) s /\ removed dirs dirs' l v v' /\ truth (wflag (fs_win (v_fs v'))) = false.

Lemma unlink_path_ok cfuel dfuel dirs x sdj path s r l : 65536 <= Z.of_nat dfuel -> (Z.to_nat (nent (wd_vol x)) <= cfuel)%nat -> string_at path s r -> tree dirs (wd_vol x) -> apart dirs -> units (wd_lfn x) -> fname (d_fn (wd_dp x)) ->
  let pl := resolve dirs (x_geo x) path in let fr := unlink_result dirs (x_geo x) pl in (fr = FR_OK -> removable dirs (wd_vol x) pl l) ->
  exists v' d' lfn', unlink_path cfuel dfuel sdj path x = Ok (fr, mk_work v' d' lfn') /\ units lfn' /\ (fr <> FR_OK -> peeked (wd_vol x) v') /\ (fr = FR_OK -> exists dirs', unlinked dirs (x_geo x) l pl (wd_vol x) v' dirs').
Proof.
  intros Hdf Hcf Hs Htr Hap Hu Hfn pl fr Hrm. destruct (follow_path_ok dirs cfuel dfuel x path s r Hdf Hs Htr Hu Hfn) as (fr1 & v1 & d1 & lfn1 & E & P & Hu1 & Hf1 & _ & A). fold pl in A. unfold unlink_path. rewrite (m_bind_Ok _ _ _ _ _ E). pose proof (tr_fat _ _ Htr) as Hf.
  assert (rd (d_fn d1) NSFLAG = Ok (get (d_fn d1) NSFLAG)) as Er by (apply rd_in; rewrite (proj1 Hf1); unfold NSFLAG; lia). pose proof (peeked_geo _ _ P) as G1.
  destruct pl as [| | | |sc w fn|sc w fn i it] eqn:Epl; unfold fr in *; cbn [unlink_result] in *.
  - destruct A as (-> & Fl & _). change (fr_ok FR_OK) with true. cbv iota. rewrite bind_dp, bind_dgeo, (bind_dlift _ _ _ _ Er), Fl. exists v1, d1, lfn1. done.
  - cbn [arrived] in A. subst fr1. exists v1, d1, lfn1. done.
  - cbn [arrived] in A. subst fr1. exists v1, d1, lfn1. done.
  - done.
  - destruct A as (-> & _). exists v1, d1, lfn1. done.
  - destruct A as (-> & Es & Efn & Hw & Hst & _ & W & t & its1 & its2 & long & ls & s0 & Ed & Ei & Hb & Hfirst & -> & A & Ea & Bk & Sl). change (fr_ok FR_OK) with true. cbv iota. rewrite bind_dp, bind_dgeo, (bind_dlift _ _ _ _ Er). cbn [wd_vol wd_dp wd_lfn]. rewrite Efn, (status_named _ _ Hst), Ea, G1. cbv iota zeta.
    destruct (has (attr_of s0) AM_RDO); [exists v1, d1, lfn1; done|]. change (fr_ok FR_OK) with true. cbv iota. pose proof (vo_win _ (fo_vol _ (proj1 P))) as Hwin. set (sub := start_of (x_geo x) s0) in *.
    assert (ld_clust (x_geo x) (win (fs_win (v_fs v1))) (d_dir d1) = Ok sub) as Ecl. { rewrite ld_clust_slot; [|apply Hwin|apply Hwin|rewrite (as_dir _ _ _ _ A); dlia]. by rewrite (win_slot v1 t d1 _ A W), Sl. }
    assert (exists v2 lfn2 r, (if has (attr_of s0) AM_DIR then check_empty cfuel dfuel sdj sub else mret FR_OK) (mk_work v1 d1 lfn1) = Ok (r, mk_work v2 d1 lfn2) /\ peeked v1 v2 /\ units lfn2 /\ r = fr) as (v2 & lfn2 & r2 & E2 & P2 & Hu2 & Er2).
    { unfold fr. destruct (has (attr_of s0) AM_DIR) eqn:Edir; [|exists v1, lfn1, FR_OK; split; [reflexivity|]; split; [apply peeked_refl, P|done]].
      destruct (tr_sub _ _ Htr sc t _ long ls s0 Ed ltac:(set_solver) Edir) as [[t3 its3] Ed3]. fold sub in Ed3. rewrite Ed3. destruct (check_empty_ok cfuel dfuel dirs v1 d1 lfn1 sdj sub t3 its3 (tree_peeked dirs _ _ Htr P) Ed3 Hu1 Hdf) as (v2 & lfn2 & E2 & P2 & Hu2). by exists v2, lfn2, (verdict its3). }
    erewrite m_bind_Ok; [|rewrite bind_dwnd; cbn [wd_vol]; rewrite (bind_dlift _ _ _ _ Ecl), (m_bind_Ok _ _ _ _ _ E2); reflexivity]. cbv iota beta. fold fr. rewrite Er2. pose proof (peeked_trans _ _ _ P P2) as P12. pose proof (peeked_geo _ _ P12) as G2.
    destruct (fr_ok fr) eqn:Eok; [|exists v2, d1, lfn2; split; [reflexivity|]; split; [done|]; split; [done|]; intros E0; unfold fr in Eok, E0; rewrite E0 in Eok; done].
    assert (fr = FR_OK) as Efr by (destruct fr; try done). rewrite Efr. fold fr in Hrm. specialize (Hrm Efr).
    destruct (remove_object cfuel dfuel dirs v2 d1 lfn2 sc t its1 long ls s0 its2 l w fn) as (gs & v3 & d3 & E3 & Hrd & W3).
    { by apply (tree_peeked dirs (wd_vol x)). } { done. } { done. } { rewrite <- Ei. by apply (removable_peeked dirs (wd_vol x)). } { done. } { rewrite G2, <- G1, <- Ei. exact A. } { by rewrite <- Ei. } { done. } { by rewrite G2. }
    rewrite G2 in E3, Hrd. fold sub in E3. exists v3, d3, lfn2. split; [exact E3|]. split; [done|]. split; [done|]. intros _. eexists. exists sc, w, fn, t, its1, long, ls, s0, its2, gs. cbv zeta. split; [by rewrite Ei|]. split; [done|]. split; [done|]. split; [reflexivity|]. split; [|done].
    by apply (removed_peeked dirs _ l (wd_vol x) v2 v3).
Qed.

(** ** Claims *)

Abbreviation a_vol a := (ff_vol (a_ff a)).
Abbreviation a_geo a := (v_geo (a_vol a)).

(** C13: [f_unlink] removes the file or the empty directory a path names: its
    entries are deleted, exactly its clusters become free, nothing is left
    unsaved, the tree of directories stays well formed without it, every other
    file keeps its clusters and its content, and opening the same path finds
    nothing, unless a second object had the name. Otherwise the volume is as
    before and the result tells why: a bad name or path, no such object, a
    read-only one, or a directory that is not empty. For a directory, no other
    entry leads to it. *)
Theorem f_unlink_exact (cfuel dfuel : nat) (dirs : Z -> option (dtable * list item)) (a : fatfs D) (d sdj d2 : DIR) (f2 : FIL) (path rest s r l : list Z) :
  65536 <= Z.of_nat dfuel -> (Z.to_nat (n_fatent (a_geo a)) <= cfuel)%nat -> ready dirs a -> apart dirs -> get_ldnumber path = Ok (0, rest) -> string_at rest s r -> fname (d_fn d) -> fname (d_fn d2) ->
  let pl := resolve dirs (a_geo a) rest in let fr := unlink_result dirs (a_geo a) pl in
  (fr = FR_OK -> removable dirs (a_vol a) pl l) -> (forall sc w fn, ends_in pl sc w fn -> sc ∉ passed_by dirs (a_geo a) rest) ->
  exists a', f_unlink cfuel dfuel d sdj path a = Ok (fr, a') /\ (fr <> FR_OK -> seen dirs a a') /\
    (fr = FR_OK -> exists dirs' sc w fn t its1 it its2 gs, pl = There sc w fn (zlen (raws its1)) it /\ dirs sc = Some (t, its1 ++ it :: its2) /\ dirs' sc = Some (t, its1 ++ (Gone <$> gs) ++ its2) /\
       ready dirs' a' /\ removed dirs dirs' l (a_vol a) (a_vol a') /\ truth (wflag (fs_win (v_fs (a_vol a')))) = false /\
       (Forall (fun it => bears fn w (get fn NSFLAG) it = false) its2 -> exists f3 a3, f_open cfuel dfuel d2 f2 path FA_READ a' = Ok ((FR_NO_FILE, f3), a3))).
Proof.
  intros Hdf Hcf Hr Hap El Hs Hfn Hfn2 pl fr Hrm Hpass. pose proof Hr as [Hreg Htr Hu]. unfold f_unlink. rewrite (m_bind_Ok _ _ _ _ _ (mount_ready dirs a path rest FA_WRITE Hr El)). cbn [fst snd]. change (fr_ok FR_OK) with true. cbv iota.
  destruct (unlink_path_ok cfuel dfuel dirs (mk_work (a_vol a) (d_onobj (obj_fs true) d) (a_lfn a)) sdj rest s r l Hdf Hcf Hs Htr Hap Hu Hfn Hrm) as (v' & d' & lfn' & E & Hu' & Hkeep & Hdone). cbn [wd_vol wd_dp wd_lfn] in *. fold pl fr in E, Hkeep, Hdone.
  eexists. split; [rewrite (bind_with_dir _ _ _ _ _ _ _ _ E); reflexivity|]. split; [intros Hne; by apply seen_intro; [|apply Hkeep|]|].
  intros E0. destruct (Hdone E0) as (dirs' & sc & w & fn & t & its1 & long & ls & s0 & its2 & gs & Epl & Ed & Hfirst & Ed' & Rm & W). set (a' := mk_fatfs _ _). assert (ready dirs' a') as Hr' by (split; [done|apply Rm|done]). specialize (Hrm E0). rewrite Epl in Hrm.
  exists dirs', sc, w, fn, t, its1, (Named long ls s0), its2, gs. split; [done|]. split; [done|]. split; [|split; [done|split; [done|split; [done|]]]].
  - subst dirs'. unfold without. cbn [removable] in Hrm. destruct (has (attr_of s0) AM_DIR); [rewrite dirs_del_ne by (destruct Hrm as [(_ & Hne & _) _]; congruence)|]; unfold dirs_set; by rewrite Z.eqb_refl.
  - intros Hnone. assert (resolve dirs' (a_geo a') rest = Missing sc w fn) as Er.
    { cbn [a' a_ff ff_vol]. rewrite (rm_geo _ _ _ _ _ Rm), Ed'. apply (resolve_without dirs (a_vol a) sc t its1 long ls s0 its2 gs l w fn rest); [done|done|exact Epl|apply (Hpass sc w fn); rewrite Epl; right; by eexists _, _|by apply Forall_app]. }
    destruct (f_open_plain dirs' cfuel dfuel a' d2 f2 path rest s r FA_READ Hdf Hr' El Hs Hfn2 ltac:(unfold FA_READ; lia)) as (fr3 & f3 & a3 & E3 & _ & Ef & _). rewrite Er in Ef. cbn [plain_result] in Ef. subst fr3. exists f3, a3. exact E3.
Qed.

End Removing.

(** *** A concrete run: the file [Long name.text] is removed. *)

Lemma passed_demo dirs g sc : sc ∉ passed_by dirs g demo_file_path.
Proof.
  assert (passed_by dirs g demo_file_path = []) as ->; [|apply not_elem_of_nil]. unfold passed_by. assert (skip_seps demo_file_path = Ok demo_file_path) as -> by (vm_compute; reflexivity). assert (exists n, length demo_file_path = S n) as [n ->] by (by eexists). cbn [passed].
  assert (parse demo_file_path = Some (demo_name 76, demo_fn, [])) as -> by (vm_compute; reflexivity). assert (is_last demo_fn = true) as -> by (vm_compute; reflexivity). by destruct (dirs 0) as [[t its]|].
Qed.

Lemma f_unlink_exact_witness :
  exists a a' dirs' (l : list Z), ready dirs' a' /\ (forall c, c ∈ l -> 2 <= c < n_fatent (fs_geo (v_fs (ff_vol (a_ff a)))) -> entry (ff_vol (a_ff a')) c = 0) /\ f_unlink ncf df (wd_dp demo_dir) (wd_dp demo_dir) demo_file_path a = Ok (FR_OK, a').
Proof.
  destruct demo_stored as (a1 & v2 & dirs & sc & w & fn & i & long & ls & s & n & l & (Hap & G & Hro & _) & Hr & Hres & Hnd & Hsz & Hh & Hn & By). destruct demo_fn_ok as (Hfn & _ & _). destruct demo_dir_fuel as [Hcf Hdf].
  assert (unlink_result dirs (fs_geo (v_fs v2)) (resolve dirs (fs_geo (v_fs v2)) demo_file_path) = FR_OK) as Er by (rewrite Hres; cbn [unlink_result]; by rewrite Hro, Hnd).
  destruct (f_unlink_exact ncf df dirs (with_vol a1 v2) (wd_dp demo_dir) (wd_dp demo_dir) (wd_dp demo_dir) (of_fil demo_file) demo_file_path demo_file_path (demo_name 76) [] l) as (a' & E & _ & R).
  - exact Hdf.
  - cbn [with_vol a_ff ff_vol]. rewrite G. refine (Nat.le_trans _ _ _ _ Hcf). apply Nat.le_mul_l. discriminate.
  - exact Hr.
  - exact Hap.
  - reflexivity.
  - exact demo_string.
  - exact Hfn.
  - exact Hfn.
  - intros _. cbn [with_vol a_ff ff_vol]. rewrite Hres. cbn [removable]. rewrite Hnd. exact Hh.
  - intros sc0 w0 fn0 _. apply passed_demo.
  - cbn [with_vol a_ff ff_vol] in E, R. rewrite Er in E, R. destruct (R eq_refl) as (dirs' & _ & _ & _ & _ & _ & _ & _ & _ & _ & _ & _ & Hr' & Rm & _). exists (with_vol a1 v2), a', dirs', l. split; [exact Hr'|]. split; [|exact E].
    intros c Hc Hrange. apply (rm_free _ _ _ _ _ Rm c Hrange). by left.
Defined.
