(* ===== verification/FatMkdir.v ===== *)
(** * FatMkdir: creating directories (ff.c)

    [f_mkdir] takes a free cluster, fills it with the two dot entries, and
    registers the new directory in the one the path ends in. *)

From Stdlib Require Import ZArith Lia Bool.
From stdpp Require Import base list list_numbers sets.
From S2P Require Import Prelude CLib Hw Ata FatUni Fat FatChain FatFile FatRead FatWrite FatSync FatLfn FatDir FatTable FatScan FatItems FatGrow FatEdit FatReg FatObj FatMount FatName FatApi FatWalk FatList FatOpen FatTree FatCreate FatUnlink.
From stdpp Require Import options.

(** ** The dot entries *)

(** The entry is a directory at cluster [cl] whose name starts with a dot. *)
Record dot_entry (g : geometry) (cl : Z) (s : list Z) : Prop := {
  dt_data : slot_data s;
  dt_name : get s 0 = 46;
  dt_attr : get s DIR_Attr = AM_DIR;
  dt_start : start_of g s = cl
}.

Lemma dot_item g cl s : dot_entry g cl s -> item_ok (Named None [] s) /\ delivered (Named None [] s) = false.
Proof.
  intros [Hd Hn Ha _]. cbn [item_ok delivered]. rewrite Hn. split; [|done]. split; [done|]. split; [lia|]. split; [unfold DDEM; lia|]. split; [|done]. unfold attr_of. by rewrite Ha.
Qed.

Lemma entry_data b dir : sector_data b -> 0 <= dir <= 480 -> slot_data (entry_at b dir).
Proof. intros [L B] Hd. split; [by apply entry_len|]. unfold entry_at. by apply Forall_take, Forall_drop. Qed.

Lemma ld_clust_ext g b b' dir : sector_data b -> sector_data b' -> 0 <= dir -> dir + 32 <= 512 -> (forall j, dir <= j < dir + 32 -> get b' j = get b j) -> ld_clust g b' dir = ld_clust g b dir.
Proof.
  intros [L B] [L' B'] Hd Hl E. unfold ld_clust, DIR_FstClusLO, DIR_FstClusHI. rewrite (ld_word_ok b (dir + 26)), (ld_word_ok b' (dir + 26)), (ld_word_ok b (dir + 20)), (ld_word_ok b' (dir + 20)) by (done || lia). unfold le16. rewrite !E by lia. done.
Qed.

(** What [dot_entries] makes of a cleared sector. *)
Lemma dot_entries_ok g tm dcl pcl : 0 <= tm < 4294967296 -> 0 <= dcl < 4294967296 -> 0 <= pcl < 4294967296 -> fs_type g = FS_FAT32 \/ (dcl < 65536 /\ pcl < 65536) ->
  exists b', dot_entries g tm dcl pcl (replicate 512 0) = Ok b' /\ sector_data b' /\ dot_entry g dcl (entry_at b' 0) /\ dot_entry g pcl (entry_at b' 32) /\ (forall j, 64 <= j -> get b' j = 0).
Proof.
  intros Htm Hd Hp Hty. pose proof zero_sector as Hz. unfold dot_entries, DIR_Name, DIR_ModTime, SZDIRE.
  destruct (store_ok (replicate 512 0) 0 (replicate 11 32)) as (b1 & E1 & L1 & G1); [lia|cbn; lia|]. rewrite E1, bind_Ok. assert (sector_data b1) as S1.
  { apply (sector_of_get (replicate 512 0)); [done|done|]. intros j Hj. rewrite G1 by lia. destruct (_ && _); [apply get_byte, Forall_replicate; unfold is_byte; lia|apply get_byte, Hz]. }
  destruct (wr_byte b1 0 46 S1) as (b2 & E2 & S2 & V2 & O2); [lia|unfold is_byte; lia|]. rewrite E2, bind_Ok. destruct (wr_byte b2 DIR_Attr AM_DIR S2) as (b3 & E3 & S3 & V3 & O3); [unfold DIR_Attr; lia|unfold is_byte, AM_DIR; lia|]. rewrite E3, bind_Ok. unfold DIR_Attr in *.
  destruct (st_dword_field b3 22 tm S3) as (b4 & E4 & S4 & _ & O4); [lia|lia|done|]. rewrite E4, bind_Ok. destruct (st_clust_ok g b4 0 dcl S4) as (b5 & E5 & S5 & V5 & O5 & _); [lia|lia|done|destruct Hty as [?|[? _]]; [by left|by right]|]. rewrite E5, bind_Ok.
  destruct (fetch_ok b5 0 32) as (e & E6 & L6 & G6); [lia|lia|rewrite (proj1 S5); lia|]. rewrite E6, bind_Ok. destruct (store_ok b5 32 e) as (b6 & E7 & L7 & G7); [lia|rewrite (proj1 S5); lia|]. rewrite E7, bind_Ok. assert (sector_data b6) as S6.
  { apply (sector_of_get b5); [done|done|]. intros j Hj. rewrite G7 by lia. destruct (Z.leb_spec 32 j), (Z.ltb_spec j (32 + zlen e)); cbn [andb]; try apply get_byte, S5. rewrite G6 by lia. apply get_byte, S5. }
  destruct (wr_byte b6 33 46 S6) as (b7 & E8 & S7 & V7 & O7); [lia|unfold is_byte; lia|]. change (32 + 1) with 33. rewrite E8, bind_Ok. destruct (st_clust_ok g b7 32 pcl S7) as (b8 & E9 & S8 & V8 & O8 & _); [lia|lia|done|destruct Hty as [?|[_ ?]]; [by left|by right]|].
  exists b8. split; [exact E9|]. split; [done|].
  assert (forall j, 0 <= j < 32 -> get b8 j = get b5 j) as Lo. { intros j Hj. rewrite O8, O7, G7 by lia. by rewrite (proj2 (Z.leb_gt 32 j)) by lia. }
  assert (forall j, 0 <= j < 20 -> j <> 1 -> get b8 (32 + j) = get b5 j) as Hi. { intros j Hj Hne. rewrite O8, O7, G7 by lia. rewrite (proj2 (Z.leb_le 32 _)), (proj2 (Z.ltb_lt _ _)) by lia. cbn [andb]. rewrite G6 by lia. f_equal. lia. }
  assert (get b5 0 = 46 /\ get b5 11 = AM_DIR) as [N0 N11] by (split; [rewrite O5, O4, O3 by lia; done|rewrite O5, O4 by lia; done]).
  split; [|split].
  - split; [by apply entry_data|rewrite (entry_get b8 0 (proj1 S8)) by lia; by rewrite Z.add_0_l, Lo by lia|unfold DIR_Attr; rewrite (entry_get b8 0 (proj1 S8)) by lia; by rewrite Z.add_0_l, Lo by lia|].
    pose proof (ld_clust_slot g b8 0 (proj1 S8) (proj2 S8) ltac:(lia)) as Es. rewrite (ld_clust_ext g b5 b8 0 S5 S8) in Es by (lia || exact Lo). rewrite V5 in Es. by injection Es.
  - split; [by apply entry_data|rewrite (entry_get b8 32 (proj1 S8)) by lia; by rewrite Hi by lia|unfold DIR_Attr; rewrite (entry_get b8 32 (proj1 S8)) by lia; by rewrite Hi by lia|].
    pose proof (ld_clust_slot g b8 32 (proj1 S8) (proj2 S8) ltac:(lia)) as Es. rewrite V8 in Es. by injection Es.
  - intros j Hj. rewrite O8, O7, G7 by lia. rewrite (proj2 (Z.ltb_ge j (32 + zlen e))), andb_false_r by lia. rewrite O5, O4, O3, O2, G1 by lia. rewrite (proj2 (Z.ltb_ge j (0 + zlen (replicate 11 32)))), andb_false_r by (cbn; lia). apply get_zeros.
Qed.

Section Making.
Context {D : Type} `{BlockLaws D}.
#[local] Set Default Proof Using "Type*".

Abbreviation v_geo v := (fs_geo (v_fs v)).
Abbreviation nent v := (n_fatent (v_geo v)).
Abbreviation x_geo x := (v_geo (wd_vol x)).

(** ** A new directory *)

(** Directories begin at the root or at a cluster of the volume. *)
Lemma dir_range dirs v sc : tree dirs v -> is_Some (dirs sc) -> sc = 0 \/ 2 <= sc < nent v.
Proof.
  intros Htr [[t its] Ed]. destruct (tr_dir _ _ Htr _ _ _ Ed) as [Ht _]. destruct t as [|l]; [left; apply Ht|]. destruct (Z.eq_dec sc 0) as [->|Hne]; [by left|right]. destruct Ht as [Hn Hl]. unfold head_of in Hl. rewrite (proj2 (Z.eqb_neq sc 0) Hne) in Hl. cbn [andb] in Hl.
  destruct l as [|c l]; [done|]. destruct Hl as (-> & Hr & _). done.
Qed.

Lemma cluster_fits v c : vol_ok v -> c = 0 \/ 2 <= c < nent v -> 0 <= c < 4294967296 /\ (fs_type (v_geo v) = FS_FAT32 \/ c < 65536).
Proof.
  intros Hv Hc. pose proof (vo_geo _ Hv) as Hg. pose proof (go_ents _ _ Hg) as He. unfold fat_max in He. destruct (go_type _ _ Hg) as [E|[E|E]]; rewrite E in *; cbn in He; (split; [lia|]); [right; lia|right; lia|by left].
Qed.

(** A free cluster belongs to no directory and begins none. *)
Lemma free_cluster dirs v c : tree dirs v -> 2 <= c -> entry v c = 0 -> dirs c = None /\ clear_of dirs [c].
Proof.
  intros Htr Hc Hz. pose proof (tr_fat _ _ Htr) as Hf. assert (forall k t its, dirs k = Some (t, its) -> ~ on_table t c) as Hno.
  { intros k t its Ed Hon. destruct (tr_dir _ _ Htr _ _ _ Ed) as [Ht _]. by destruct (on_used _ _ _ _ Hf Ht Hon). }
  split; [|intros k t its y Ed Hy; apply list_elem_of_singleton in Hy as ->; by apply (Hno k t its)]. destruct (dirs c) as [[t its]|] eqn:Ed; [|done]. destruct (Hno c t its Ed). destruct (tr_dir _ _ Htr _ _ _ Ed) as [Ht _].
  destruct t as [|l]; [destruct Ht as [-> _]; lia|]. destruct Ht as [Hn Hl]. unfold head_of in Hl. rewrite (proj2 (Z.eqb_neq c 0)) in Hl by lia. cbn [andb] in Hl. destruct l as [|c' l]; [done|]. destruct Hl as (-> & _). cbn [on_table]. set_solver.
Qed.

Lemma apart_put dirs sc t its : apart dirs -> (forall k t2 its2 c, dirs k = Some (t2, its2) -> k <> sc -> on_table t2 c -> ~ on_table t c) -> apart (dirs_set dirs sc t its).
Proof.
  intros Ha Hd k1 t1 i1 k2 t2 i2 c E1 E2 Hne Hc1 Hc2. apply dirs_set_cases in E1 as [[-> E1]|[N1 E1]]; apply dirs_set_cases in E2 as [[-> E2]|[N2 E2]].
  - done.
  - injection E1 as -> ->. by apply (Hd k2 t2 i2 c).
  - injection E2 as -> ->. by apply (Hd k1 t1 i1 c).
  - by apply (Ha k1 t1 i1 k2 t2 i2 c).
Qed.

(** The sectors of one cluster. *)
Lemma one_cluster v c j : vol_ok v -> 2 <= c < nent v -> 0 <= j < csize (v_geo v) -> in_range (v_geo v) [c] /\ nsec (v_geo v) [c] = csize (v_geo v) /\ fsect (v_geo v) [c] j = clst2sect (v_geo v) c + j.
Proof.
  intros Hv Hc Hj. split; [split; [apply NoDup_singleton|]; intros y Hy; by apply list_elem_of_singleton in Hy as ->|]. split; [unfold nsec; cbn [length]; lia|]. unfold fsect. rewrite (Z.div_small j), (Z.mod_small j) by lia. done.
Qed.

(** A cluster that holds the two dot entries and nothing else. *)
Lemma dots_laid v c b dot dotdot : fat_ok v -> table_at v c (Clusters [c]) -> 2 <= c < nent v -> sector_data b -> (forall j, 64 <= j -> get b j = 0) -> entry_at b 0 = dot -> entry_at b 32 = dotdot ->
  item_ok (Named None [] dot) -> item_ok (Named None [] dotdot) -> (forall j, 0 <= j < csize (v_geo v) -> vsec v (clst2sect (v_geo v) c + j) = if j =? 0 then b else replicate 512 0) ->
  laid [Named None [] dot; Named None [] dotdot] (slots v (Clusters [c])).
Proof.
  intros Hf Ht Hc Hb Hz E0 E1 I0 I1 Hv. pose proof (vo_geo _ (fo_vol _ Hf)) as Hg. pose proof (csize_small _ _ Hg) as Hcs. set (t := Clusters [c]).
  assert (dsects (v_geo v) t = csize (v_geo v)) as En by (cbn [t dsects]; unfold nsec; cbn [length]; lia). assert (2 <= nslots (v_geo v) t) as Hn by (unfold nslots; rewrite En; lia).
  assert (forall k, 0 <= k < nslots (v_geo v) t -> slot v t k = entry_at (if k / 16 =? 0 then b else replicate 512 0) (32 * (k mod 16))) as Hsl.
  { intros k Hk. assert (0 <= k / 16 < csize (v_geo v)) as Hj by (unfold nslots in Hk; dlia). unfold slot. cbn [t dsect]. destruct (one_cluster v c (k / 16) (fo_vol _ Hf) Hc Hj) as (_ & _ & ->). rewrite Hv by done. done. }
  split; [by repeat (apply Forall_cons; split; [done|])|]. exists (drop 2 (slots v t)). cbn [fmap list_fmap concat raw app]. split.
  - rewrite <- (take_drop 2 (slots v t)) at 1. change (dot :: dotdot :: drop 2 (slots v t)) with ([dot; dotdot] ++ drop 2 (slots v t)). f_equal. apply list_eq. intros k. destruct (decide (k < 2)%nat) as [Hk|Hk]; [|rewrite !lookup_ge_None_2; [done|cbn; lia|rewrite length_take; lia]].
    rewrite lookup_take_lt by done. rewrite lookup_slots by lia. rewrite Hsl by lia. assert (k = 0 \/ k = 1)%nat as [->| ->] by lia; [exact (f_equal Some E0)|exact (f_equal Some E1)].
  - apply Forall_lookup_2. intros k e Ek. rewrite lookup_drop in Ek. assert (2 + k < Z.to_nat (nslots (v_geo v) t))%nat as Hk by (apply lookup_lt_Some in Ek; by rewrite length_slots in Ek by lia). rewrite lookup_slots in Ek by done. injection Ek as <-. change (S (S k)) with (2 + k)%nat. rewrite Hsl by lia.
    assert (2 <= Z.of_nat (2 + k)) as Hi by lia. set (i := Z.of_nat (2 + k)) in *. clearbody i. assert (0 <= 32 * (i mod 16) <= 480) as Hd by dlia. destruct (Z.eqb_spec (i / 16) 0) as [Ei|Ei].
    + split; [exact (entry_data b _ Hb Hd)|]. rewrite (entry_get b _ (proj1 Hb) Hd) by lia. apply Hz. dlia.
    + split; [exact (entry_data _ _ zero_sector Hd)|]. rewrite (entry_get _ _ (proj1 zero_sector) Hd) by lia. apply get_zeros.
Qed.

(** The tree with a new directory at [c], which nothing leads to yet. *)
Record founded (dirs : Z -> option (dtable * list item)) (v : vol D) (c : Z) (dots : list item) (v' : vol D) : Prop := {
  fd_range : 2 <= c < nent v;
  fd_zero : entry v c = 0;
  fd_new : dirs c = None;
  fd_tree : tree (dirs_set dirs c (Clusters [c]) dots) v';
  fd_apart : apart (dirs_set dirs c (Clusters [c]) dots);
  fd_geo : v_geo v' = v_geo v;
  fd_empty : catalogue dots = [];
  fd_files : forall s2 l2, holds dirs v s2 l2 -> same_content dirs (dirs_set dirs c (Clusters [c]) dots) v v' s2 l2
}.

Lemma win_put_ok (v : vol D) f b : f (win (fs_win (v_fs v))) = Ok b -> win_put f v = Ok (tt, with_window b v).
Proof. intros E. unfold win_put. rewrite bind_wnd, E. reflexivity. Qed.

(** The new cluster with its dot entries. *)
Lemma found_dir dirs v c v1 v2 v3 pcl b : tree dirs v -> apart dirs -> is_Some (dirs pcl) -> data_step v v1 -> appended v 0 c v1 -> fat_ok v2 -> v_geo v2 = v_geo v -> bd_size (v_dev v2) = bd_size (v_dev v) -> (forall y, entry v2 y = entry v1 y) ->
  (forall s, reachable v s -> vsec v2 s = if (clst2sect (v_geo v) c <=? s) && (s <? clst2sect (v_geo v) c + csize (v_geo v)) then replicate 512 0 else vsec v1 s) -> winsect (fs_win (v_fs v2)) = clst2sect (v_geo v) c ->
  sector_data b -> dot_entry (v_geo v) c (entry_at b 0) -> dot_entry (v_geo v) pcl (entry_at b 32) -> (forall j, 64 <= j -> get b j = 0) -> v3 = with_window b v2 ->
  founded dirs v c [Named None [] (entry_at b 0); Named None [] (entry_at b 32)] v3.
Proof.
  intros Htr Hap Hp (G1 & Z1 & V1 & _) (Hc & Hz & _ & En1) F2 G2 Z2 En2 V2 W2 Hb D0 D1 Hz0 ->. pose proof (tr_fat _ _ Htr) as Hf. pose proof (vo_geo _ (fo_vol _ Hf)) as Hg. pose proof (csize_small _ _ Hg) as Hcs. destruct (free_cluster dirs v c Htr ltac:(lia) Hz) as [Hnone Hclear].
  destruct (dot_item _ _ _ D0) as [I0 L0]. destruct (dot_item _ _ _ D1) as [I1 L1]. set (dots := [Named None [] (entry_at b 0); Named None [] (entry_at b 32)]). set (v3 := with_window b v2).
  destruct (clst2sect_ok _ _ Hg c Hc) as (_ & Ds & _). assert (reachable v2 (winsect (fs_win (v_fs v2)))) as Hr by (rewrite W2; apply data_reachable; [apply F2|by rewrite G2]). assert (~ in_table (v_geo v2) (winsect (fs_win (v_fs v2)))) as Hnt by (rewrite W2, G2; by eapply data_not_table).
  destruct (poke_window v2 b F2 Hr Hnt Hb) as (F3 & En3 & V3). fold v3 in F3, En3, V3. assert (v_geo v3 = v_geo v) as G3 by exact G2. assert (bd_size (v_dev v3) = bd_size (v_dev v)) as Z3 by exact Z2.
  assert (forall y, 2 <= y < nent v -> entry v3 y = if y =? c then fat_max (v_geo v) else entry v y) as En. { intros y Hy. rewrite En3 by (by rewrite G2). rewrite En2, En1 by done. by rewrite (proj2 (Z.eqb_neq y 0)) by lia. }
  destruct (one_cluster v c 0 (fo_vol _ Hf) Hc ltac:(lia)) as (Hrange & Hns & _).
  assert (forall s, reachable v s -> ~ in_table (v_geo v) s -> (forall j, 0 <= j < nsec (v_geo v) [c] -> s <> fsect (v_geo v) [c] j) -> vsec v3 s = vsec v s) as Fr.
  { intros s Q1 Q2 Q3. assert (~ (clst2sect (v_geo v) c <= s < clst2sect (v_geo v) c + csize (v_geo v))) as Hout. { intros Hin. destruct (one_cluster v c (s - clst2sect (v_geo v) c) (fo_vol _ Hf) Hc ltac:(lia)) as (_ & _ & Es). apply (Q3 (s - clst2sect (v_geo v) c)); [rewrite Hns; lia|rewrite Es; lia]. }
    rewrite V3, W2, (proj2 (Z.eqb_neq s _)) by lia. rewrite V2 by done. destruct (Z.leb_spec (clst2sect (v_geo v) c) s), (Z.ltb_spec s (clst2sect (v_geo v) c + csize (v_geo v))); cbn [andb]; try lia; by apply V1. }
  assert (forall j, 0 <= j < csize (v_geo v) -> vsec v3 (clst2sect (v_geo v) c + j) = if j =? 0 then b else replicate 512 0) as Vc.
  { intros j Hj. rewrite V3, W2. destruct (Z.eqb_spec j 0) as [->|Hne]; [by rewrite Z.add_0_r, Z.eqb_refl|]. rewrite (proj2 (Z.eqb_neq _ _)) by lia. destruct (one_cluster v c j (fo_vol _ Hf) Hc Hj) as (_ & _ & Es). destruct (fsect_data _ _ Hg [c] j Hrange) as [Hd _]; [by rewrite Hns|].
    rewrite V2 by (rewrite <- Es; apply data_reachable; [apply Hf|done]). by rewrite (proj2 (Z.leb_le _ _)), (proj2 (Z.ltb_lt _ _)) by lia. }
  assert (table_at v3 c (Clusters [c])) as Ht3. { split; [done|]. rewrite G3. unfold head_of. rewrite (proj2 (Z.eqb_neq c 0)) by lia. cbn [andb links]. split; [done|]. split; [done|]. rewrite En, Z.eqb_refl by done. destruct (nent_bound _ (fo_vol _ Hf)) as [_ Hm]. lia. }
  assert (forall k t its y, dirs k = Some (t, its) -> k <> c -> on_table t y -> ~ on_table (Clusters [c]) y) as Hoff by (intros k t its y Ed _ Hon Hy; cbn [on_table] in Hy; apply list_elem_of_singleton in Hy as ->; by apply (Hclear k t its c); [|set_solver|]).
  split; [done|done|done| | |done| |].
  - apply (tree_put dirs v); [done| |done| |].
    + apply (clear_steady _ _ _ _ [c]); [done|done|done|done|done|done| | |done].
      * intros y Hy Hn. rewrite En by done. rewrite (proj2 (Z.eqb_neq y c)) by set_solver. done.
      * intros s Q1 Q2 Q3 _ _. by apply Fr.
    + apply (dots_laid v3 c b); try done; rewrite ?G3; done.
    + intros long ls s Hin _. unfold dots in Hin. assert (s = entry_at b 0 \/ s = entry_at b 32) as [->| ->] by (apply elem_of_cons in Hin as [Hin|Hin]; [injection Hin as -> -> ->; by left|]; apply list_elem_of_singleton in Hin; injection Hin as -> -> ->; by right).
      * rewrite (dt_start _ _ _ D0). unfold dirs_set. rewrite Z.eqb_refl. by eexists.
      * rewrite (dt_start _ _ _ D1). by apply dirs_set_mono.
  - by apply apart_put.
  - unfold dots. cbn [List.filter]. by rewrite L0, L1.
  - intros s2 l2 Hh. pose proof (chain_range _ _ _ (ho_chain _ _ _ _ Hh)) as Hr2. assert (c ∉ l2) as Hn2. { intros Hin. destruct l2 as [|c0 l2]; [set_solver|]. pose proof (links_used _ _ _ _ Hf (ho_chain _ _ _ _ Hh) Hin). lia. }
    apply same_content_intro; [done|done|done| | |].
    + intros y Hin Hy _. rewrite En by done. by rewrite (proj2 (Z.eqb_neq y c)) by (intros ->; done).
    + intros j Hj. destruct (fsect_data _ _ Hg l2 j Hr2 Hj) as [Hd _]. apply Fr; [apply data_reachable; [apply Hf|done]|by eapply data_not_table|]. intros i Hi. apply (files_apart _ _ l2 [c] j i Hg); [done|done|set_solver|done|done].
    + intros k t its y Ek Hy. apply dirs_set_cases in Ek as [[-> Ex]|[_ Ek]]; [injection Ex as -> ->; cbn [on_table]; set_solver|by apply (ho_clear _ _ _ _ Hh k t its)].
Qed.

(** Taking the cluster: there is none, or the new directory is there. *)
Lemma new_dir_ok cfuel dirs v pcl tm : tree dirs v -> apart dirs -> is_Some (dirs pcl) -> (2 * Z.to_nat (nent v) <= cfuel)%nat -> 0 <= tm < 4294967296 ->
  exists c v1, create_chain cfuel 0 v = Ok (c, v1) /\
    ((c = 0 /\ full v /\ peeked v v1) \/
     (2 <= c < nent v /\ exists v2 v3 dots, dir_clear c v1 = Ok (FR_OK, v2) /\ win_put (dot_entries (v_geo v) tm c pcl) v2 = Ok (tt, v3) /\ founded dirs v c dots v3)).
Proof.
  intros Htr Hap Hp Hcf Htm. pose proof (tr_fat _ _ Htr) as Hf. destruct (create_chain_ok cfuel v 0 Hf (or_introl eq_refl) Hcf) as (c & v1 & E1 & F1 & S1 & [(? & _)|(_ & Hst)]); [done|]. exists c, v1. split; [exact E1|].
  destruct Hst as [(-> & Hfull & L)|(Hc & _ & Ha)]; [left; split; [done|]; split; [done|by apply looked_peeked]|right]. pose proof Ha as (Hcr & _). split; [done|]. pose proof S1 as (G1 & Z1 & _).
  destruct (dir_clear_ok v1 c F1) as (v2 & E2 & F2 & G2 & Z2 & _ & En2 & V2 & W2 & Wz); [by rewrite G1|]. destruct (cluster_fits v c (fo_vol _ Hf) (or_intror Hcr)) as [B1 T1]. destruct (cluster_fits v pcl (fo_vol _ Hf) (dir_range dirs v pcl Htr Hp)) as [B2 T2].
  destruct (dot_entries_ok (v_geo v) tm c pcl Htm B1 B2) as (b & Eb & Hb & D0 & D1 & Hz); [destruct T1 as [?|?]; [by left|]; destruct T2 as [?|?]; [by left|by right]|].
  exists v2, (with_window b v2). eexists. split; [exact E2|]. split; [apply win_put_ok; by rewrite Wz|]. rewrite G1 in *. apply (found_dir dirs v c v1 v2 (with_window b v2) pcl b); try done; try congruence.
  intros s Hs. apply V2. unfold reachable in *. by rewrite G1, Z1.
Qed.

(** ** Its entry *)

(** What [dir_entry] makes of a sector. *)
Lemma dir_entry_ok g tm dcl dir b : sector_data b -> 0 <= dir <= 480 -> 0 <= tm < 4294967296 -> 0 <= dcl < 4294967296 -> fs_type g = FS_FAT32 \/ dcl < 65536 ->
  exists b', dir_entry g tm dcl dir b = Ok b' /\ sector_data b' /\ only dir (dir + 32) b b' /\ renewed (entry_at b dir) (entry_at b' dir) /\ start_of g (entry_at b' dir) = dcl /\ get (entry_at b' dir) DIR_Attr = AM_DIR.
Proof.
  intros Hb Hd Htm Hc Ht. unfold dir_entry, DIR_ModTime, DIR_Attr. destruct (st_dword_field b (dir + 22) tm Hb) as (b1 & E1 & S1 & _ & O1); [lia|lia|done|]. rewrite E1, bind_Ok.
  destruct (st_clust_ok g b1 dir dcl S1) as (b2 & E2 & S2 & V2 & O2 & _); [lia|lia|done|done|]. rewrite E2, bind_Ok. destruct (wr_byte b2 (dir + 11) AM_DIR S2) as (b3 & E3 & S3 & V3 & O3); [lia|unfold is_byte, AM_DIR; lia|].
  exists b3. split; [exact E3|]. split; [done|]. split; [intros j Hj Hn; rewrite O3, O2, O1 by lia; done|]. assert (get (entry_at b3 dir) 11 = AM_DIR) as Ha by (rewrite (entry_get b3 dir (proj1 S3) Hd) by lia; done). split; [|split; [|done]].
  - split; [by apply entry_data| |unfold attr_of, DIR_Attr; by rewrite Ha]. intros i Hi. rewrite (entry_get b3 dir (proj1 S3) Hd), (entry_get b dir (proj1 Hb) Hd) by lia. rewrite O3, O2, O1 by lia. done.
  - pose proof (ld_clust_slot g b3 dir (proj1 S3) (proj2 S3) Hd) as Es. rewrite (ld_clust_only g b2 b3 dir _ _ S2 S3 O3), V2 in Es by lia. by injection Es.
Qed.

(** An entry renewed in the window. *)
Lemma renew_entry dirs v d sc t its1 long ls s its2 b : let s' := entry_at b (d_dir d) in let dirs' := dirs_set dirs sc t (its1 ++ Named long ls s' :: its2) in
  tree dirs v -> apart dirs -> dirs sc = Some (t, its1 ++ Named long ls s :: its2) -> entry_here v d sc t (zlen (raws its1) + zlen ls) s -> sector_data b -> only (d_dir d) (d_dir d + 32) (win (fs_win (v_fs v))) b -> renewed s s' ->
  (has (attr_of s') AM_DIR = true -> is_Some (dirs (start_of (v_geo v) s'))) ->
  tree dirs' (with_window b v) /\ apart dirs' /\ (forall s2 l2, holds dirs v s2 l2 -> same_content dirs dirs' v (with_window b v) s2 l2).
Proof.
  intros s' dirs' Htr Hap Ed Hen Hb Ho Hren Hsub. pose proof (tr_fat _ _ Htr) as Hf. destruct (slot_written v d sc t _ s b Hf Hen Hb Ho) as ([_ _ _ _ Sl _ _ _] & _ & C). fold s' in Sl. destruct (tr_dir _ _ Htr _ _ _ Ed) as [_ Hl]. pose proof Hl as ([_ [Hit _]%Forall_cons]%Forall_app & _).
  destruct (changed_steady dirs v _ sc t t _ Htr Hap Ed C) as [Hsy Hap1]. split; [|split; [apply Hap1|]].
  - apply (tree_set dirs v); [done|done|by eexists|apply C| |].
    + rewrite Sl. apply (laid_update its1 long ls s); [done|by apply (renewed_item long ls s)].
    + intros long2 ls2 s2 Hin Had. apply elem_of_app in Hin as [Hin|Hin]; [by apply (tr_sub _ _ Htr sc t _ long2 ls2 s2 Ed); [set_solver|]|]. apply elem_of_cons in Hin as [Hin|Hin]; [injection Hin as -> -> ->; by apply Hsub|]. by apply (tr_sub _ _ Htr sc t _ long2 ls2 s2 Ed); [set_solver|].
  - intros s2 l2 Hh. by apply (changed_content dirs v _ sc t t _ _ s2 l2 Htr Ed C).
Qed.

(** Taking away the directory that could not be registered. *)
Lemma unfound_ok cfuel dirs dirs1 v v' c dots : tree dirs v -> dirs c = None -> 2 <= c -> tree dirs1 v' -> apart dirs1 -> v_geo v' = v_geo v -> (exists t, dirs1 c = Some (t, dots) /\ t = Clusters [c]) -> (forall k t its, dirs1 k = Some (t, its) -> k <> c -> exists t0, dirs k = Some (t0, its)) -> (Z.to_nat (nent v) <= cfuel)%nat ->
  exists v'', remove_chain cfuel c 0 v' = Ok (FR_OK, v'') /\ freed (dirs_del dirs1 c) [c] v' v''.
Proof.
  intros Htr Hn Hc T1 A1 G1 (t & Ec & ->) Hsame Hcf. pose proof (tr_fat _ _ T1) as Hf1. assert (unreferenced dirs1 (v_geo v') c) as Hun.
  { rewrite G1. intros k t its long ls s Ek Hne Hin Had Es. destruct (Hsame k t its Ek Hne) as [t0 Ek0]. pose proof (tr_sub _ _ Htr k t0 its long ls s Ek0 Hin Had) as [x Ex]. rewrite Es in Ex. congruence. }
  pose proof (tree_del dirs1 v' c T1 ltac:(lia) Hun) as T2. destruct (tr_dir _ _ T1 _ _ _ Ec) as [[_ Hl] _]. unfold head_of in Hl. rewrite (proj2 (Z.eqb_neq c 0)) in Hl by lia. cbn [andb] in Hl.
  destruct (free_chain_ok cfuel (dirs_del dirs1 c) v' c [c] T2 (apart_del _ _ A1) (table_clear dirs1 c [c] dots A1 Ec)) as (v2 & E2 & Fr); [exact Hl|by rewrite G1|]. rewrite (proj2 (Z.eqb_neq c 0)) in E2 by lia. by exists v2.
Qed.

Lemma unreferenced_new dirs v c : tree dirs v -> dirs c = None -> unreferenced dirs (v_geo v) c.
Proof. intros Htr Hn k t its long ls s Ek _ Hin Had Es. pose proof (tr_sub _ _ Htr k t its long ls s Ek Hin Had) as [x Ex]. rewrite Es in Ex. congruence. Qed.

(** ** The path of the directory *)

Definition mkdir_result (pl : place) (fr : FRESULT) : Prop :=
  match pl with
  | BadName => fr = FR_INVALID_NAME
  | Missing _ _ _ => fr = FR_OK \/ fr = FR_DENIED
  | Origin | There _ _ _ _ _ => fr = FR_EXIST
  | _ => fr = FR_NO_PATH
  end.

Lemma kept_freed dirs v v' : tree dirs v -> apart dirs -> freed dirs [] v v' -> kept dirs v dirs v'.
Proof. intros Htr Hap [T G _ _ F]. split; [done|done|done|]. intros s l Hh. apply F; [done|set_solver]. Qed.

(** The new directory [c], with no objects, is what the path leads to. *)
Record mkdir_done (dirs : Z -> option (dtable * list item)) (v : vol D) (sc : Z) (w fn : list Z) (c : Z) (s : list Z) (dirs' : Z -> option (dtable * list item)) (v' : vol D) : Prop := {
  md_kept : kept dirs v dirs' v';
  md_range : 2 <= c < nent v;
  md_zero : entry v c = 0;
  md_none : dirs c = None;
  md_dir : exists dots t its1 its2 long ls, catalogue dots = [] /\ (forall k, dirs' k = dirs_set (dirs_set dirs c (Clusters [c]) dots) sc t (its1 ++ Named long ls s :: its2) k) /\ bears fn w (get fn NSFLAG) (Named long ls s) = true /\ Forall (fun it => bears fn w (get fn NSFLAG) it = false) its1;
  md_start : start_of (v_geo v) s = c;
  md_attr : get s DIR_Attr = AM_DIR
}.

Lemma mkdir_register cfuel dfuel dirs v c dots v1 d lfn sc t its w fn tm : tree dirs v -> apart dirs -> founded dirs v c dots v1 -> dirs sc = Some (t, its) -> sclust (d_obj d) = sc -> d_fn d = fn -> storable fn -> status_ok true (get fn NSFLAG) -> named w lfn ->
  Forall (fun it => bears fn w (get fn NSFLAG) it = false) its -> (2 * Z.to_nat (nent v) <= cfuel)%nat -> 65536 <= Z.of_nat dfuel -> 0 <= tm < 4294967296 ->
  exists fr v' d', (r ← dir_register cfuel dfuel; if fr_ok r then (d ← dp; _ ← dvol (win_put (dir_entry (v_geo v) tm c (d_dir d))); dvol sync_fs) else _ ← dvol (remove_chain cfuel c 0); mret r) (mk_work v1 d lfn) = Ok (fr, mk_work v' d' lfn) /\
    ((fr = FR_OK /\ truth (wflag (fs_win (v_fs v'))) = false /\ exists s dirs', mkdir_done dirs v sc w fn c s dirs' v') \/ (fr = FR_DENIED /\ exists dirs', kept dirs v dirs' v' /\ forall k, snd <$> dirs' k = snd <$> dirs k)).
Proof.
  intros Htr Hap [Hc Hz Hn T1 A1 G1 Hempty F1] Ed Esc Efn Hsn Hst Hw Hnone Hcf Hdf Htm. set (dirs1 := dirs_set dirs c (Clusters [c]) dots) in *. assert (sc <> c) as Hne by (intros ->; congruence). assert (dirs1 sc = Some (t, its)) as Ed1 by (unfold dirs1, dirs_set; by rewrite (proj2 (Z.eqb_neq sc c) Hne)).
  assert (dirs1 c = Some (Clusters [c], dots)) as Ec1 by (unfold dirs1, dirs_set; by rewrite Z.eqb_refl).
  destruct (register_created cfuel dfuel dirs1 v1 d lfn sc t its w fn T1 A1 Ed1 Esc Efn Hsn Hst Hw Hnone) as (fr & v2 & d2 & t' & E2 & R); [by rewrite G1|done|]. rewrite (m_bind_Ok _ _ _ _ _ E2). assert (kept dirs v dirs1 v1) as K1 by (by split). destruct R as [(-> & K2)|(-> & its1 & its2 & long & ls & s & K2 & Hen & _ & Hb & Hfirst)]; cycle 1.
  - change (fr_ok FR_OK) with true. cbv iota. pose proof (eh_data _ _ _ _ _ _ Hen) as Hsd. pose proof K2 as [T2 A2 G2 F2]. set (dirs2 := dirs_set dirs1 sc t' (its1 ++ Named long ls s :: its2)) in *.
    pose proof Hen as [Ht A Es W _]. pose proof (tr_fat _ _ T2) as Hf2. pose proof (vo_win _ (fo_vol _ Hf2)) as Hwin. assert (0 <= d_dir d2 <= 480) as Hd by (rewrite (as_dir _ _ _ _ A); dlia). destruct (cluster_fits v c (fo_vol _ (tr_fat _ _ Htr)) (or_intror Hc)) as [B1 B2].
    destruct (dir_entry_ok (v_geo v) tm c (d_dir d2) (win (fs_win (v_fs v2)))) as (b & Eb & Sb & Ob & Hren & Hstart & Hat); [split; apply Hwin|done|done|done|done|]. rewrite (win_slot v2 t' d2 _ A W), Es in Hren. assert (dirs2 sc = Some (t', its1 ++ Named long ls s :: its2)) as Ed2 by (unfold dirs2, dirs_set; by rewrite Z.eqb_refl).
    destruct (renew_entry dirs2 v2 d2 sc t' its1 long ls s its2 b T2 A2 Ed2 Hen Sb Ob Hren) as (T3 & A3 & F3). { intros _. rewrite G2, G1, Hstart. apply dirs_set_mono. rewrite Ec1. by eexists. }
    set (s' := entry_at b (d_dir d2)) in *. set (dirs3 := dirs_set dirs2 sc t' (its1 ++ Named long ls s' :: its2)) in *. assert (kept dirs2 v2 dirs3 (with_window b v2)) as K3 by done. destruct (sync_tree dirs3 _ T3 A3) as (v4 & E4 & Fr4 & W4). pose proof (kept_freed dirs3 _ v4 T3 A3 Fr4) as K4.
    exists FR_OK, v4, d2. rewrite bind_dp. cbn [wd_dp]. rewrite (bind_dvol _ _ (mk_work v2 d2 lfn) _ _ (win_put_ok _ _ _ Eb)). cbn [wd_vol wd_dp wd_lfn]. split; [unfold dvol; cbn [wd_vol wd_dp wd_lfn]; by rewrite E4|]. left. split; [done|]. split; [done|]. exists s', (dirs_set dirs1 sc t' (its1 ++ Named long ls s' :: its2)).
    split; [|done|done|done| |done|done].
    + apply (kept_ext _ _ dirs3); [intros k; symmetry; apply dirs_set_set|]. exact (kept_trans _ _ _ _ _ _ K1 (kept_trans _ _ _ _ _ _ K2 (kept_trans _ _ _ _ _ _ K3 K4))).
    + exists dots, t', its1, its2, long, ls. split; [done|]. split; [done|]. split; [|done]. rewrite <- Hb. apply bears_renamed. by apply renewed_take.
  - change (fr_ok FR_DENIED) with false. cbv iota. pose proof K2 as [T2 A2 G2 F2]. set (dirs2 := dirs_set dirs1 sc t' its) in *.
    assert (dirs2 c = Some (Clusters [c], dots)) as Ec2 by (unfold dirs2, dirs_set; by rewrite (proj2 (Z.eqb_neq c sc)) by congruence).
    destruct (unfound_ok cfuel dirs dirs2 v v2 c dots Htr Hn ltac:(lia) T2 A2 ltac:(congruence)) as (v3 & E3 & Fr3); [by eexists| |lia|].
    { intros k t0 its0 Ek Hk. apply dirs_set_cases in Ek as [[-> Ex]|[_ Ek]]; [injection Ex as -> ->; by eexists|]. apply dirs_set_cases in Ek as [[-> _]|[_ Ek]]; [done|by eexists]. }
    exists FR_DENIED, v3, d2. rewrite (bind_dvol _ _ (mk_work v2 d2 lfn) _ _ E3). split; [reflexivity|]. right. split; [done|]. exists (dirs_del dirs2 c). split.
    + destruct (kept_trans _ _ _ _ _ _ K1 K2) as [_ _ G12 F12]. destruct Fr3 as [T3 G3 _ _ F3]. split; [done|by apply apart_del|congruence|]. intros s2 l2 Hh. pose proof (F12 s2 l2 Hh) as [H2 B2]. destruct (F3 s2 l2 (holds_del _ _ _ _ _ H2)) as [H3 B3].
      { intros y Hy Hin. apply list_elem_of_singleton in Hin as ->. by apply (ho_clear _ _ _ _ H2 c _ _ c Ec2 Hy); cbn [on_table]; set_solver. } split; [done|]. intros k Hk. rewrite B3 by (by rewrite G12). by apply B2.
    + intros k. unfold dirs_del. destruct (Z.eqb_spec k c) as [->|Hk]; [by rewrite Hn|]. unfold dirs2, dirs1, dirs_set. rewrite (proj2 (Z.eqb_neq k c) Hk). destruct (Z.eqb_spec k sc) as [->|]; [by rewrite Ed|done].
Qed.

Lemma bind_same {A B} (m m' : M (work_dir D) A) (k : A -> M (work_dir D) B) x x' : m x = m' x' -> (m ≫= k) x = (m' ≫= k) x'.
Proof. intros E. unfold mbind, M_bind. by rewrite E. Qed.

Lemma mkdir_path_ok cfuel dfuel dirs x path s r : 65536 <= Z.of_nat dfuel -> (2 * Z.to_nat (nent (wd_vol x)) <= cfuel)%nat -> string_at path s r -> tree dirs (wd_vol x) -> apart dirs -> units (wd_lfn x) -> fname (d_fn (wd_dp x)) ->
  let pl := resolve dirs (x_geo x) path in
  exists fr v' d' lfn', mkdir_path cfuel dfuel path x = Ok (fr, mk_work v' d' lfn') /\ units lfn' /\ mkdir_result pl fr /\ (fr <> FR_OK -> exists dirs', kept dirs (wd_vol x) dirs' v' /\ forall k, snd <$> dirs' k = snd <$> dirs k) /\
    (fr = FR_OK -> exists sc w fn c s dirs', pl = Missing sc w fn /\ truth (wflag (fs_win (v_fs v'))) = false /\ mkdir_done dirs (wd_vol x) sc w fn c s dirs' v').
Proof.
  intros Hdf Hcf Hs Htr Hap Hu Hfn pl. destruct (follow_path_ok dirs cfuel dfuel x path s r Hdf Hs Htr Hu Hfn) as (fr & v1 & d1 & lfn1 & E & P & Hu1 & Hf1 & _ & A). fold pl in A. unfold mkdir_path. rewrite (m_bind_Ok _ _ _ _ _ E). cbv zeta. pose proof (kept_peeked dirs _ _ Htr Hap P) as K.
  assert (exists dirs', kept dirs (wd_vol x) dirs' v1 /\ forall k, snd <$> dirs' k = snd <$> dirs k) as Hsame by (by exists dirs).
  destruct pl as [| | | |sc w fn|sc w fn i it] eqn:Epl; cbn [mkdir_result arrived] in *.
  - destruct A as (-> & _). exists FR_EXIST, v1, d1, lfn1. done.
  - subst fr. exists FR_INVALID_NAME, v1, d1, lfn1. done.
  - subst fr. exists FR_NO_PATH, v1, d1, lfn1. done.
  - done.
  - destruct A as (-> & Esc & Efn & Hw & Hsn & Hst & t & its & Ed & Hnone). change (fr_ok FR_NO_FILE) with false. cbv iota. rewrite bool_decide_true by done. rewrite bind_dgeo. cbn [wd_vol]. pose proof (kp_tree _ _ _ _ K) as Htr1. pose proof (peeked_geo _ _ P) as G1.
    destruct (new_dir_ok cfuel dirs v1 sc get_fattime Htr1 Hap) as (c & v2 & E2 & Hcase); [by rewrite Ed; eexists|by rewrite G1|apply tm_fits|]. rewrite (bind_dvol _ _ (mk_work v1 d1 lfn1) _ _ E2). cbn [wd_vol wd_dp wd_lfn]. destruct Hcase as [(-> & Hfull & P2)|(Hc & v3 & v4 & dots & E3 & E4 & Hfd)].
    + change (0 =? DISK_ERROR) with false. change (0 =? 1) with false. change (0 =? 0) with true. cbv iota. change (fr_ok FR_DENIED) with false. cbv iota. rewrite bind_dret. change (fr_ok FR_DENIED) with false. cbv iota.
      assert (remove_chain cfuel 0 0 v2 = Ok (FR_INT_ERR, v2)) as E3 by reflexivity. rewrite (bind_dvol _ _ (mk_work v2 d1 lfn1) _ _ E3). exists FR_DENIED, v2, d1, lfn1. split; [reflexivity|]. split; [done|]. split; [by right|]. split; [|done]. intros _. exists dirs. split; [|done].
      exact (kept_trans _ _ _ _ _ _ K (kept_peeked dirs v1 v2 Htr1 Hap P2)).
    + destruct (nent_bound _ (fo_vol _ (tr_fat _ _ Htr1))) as [Hb _]. rewrite (proj2 (Z.eqb_neq c DISK_ERROR)), (proj2 (Z.eqb_neq c 1)), (proj2 (Z.eqb_neq c 0)) by (unfold DISK_ERROR; lia). change (fr_ok FR_OK) with true. cbv iota.
      rewrite (bind_same _ (dir_register cfuel dfuel) _ (mk_work v2 d1 lfn1) (mk_work v4 d1 lfn1)).
      2: { rewrite (bind_dvol _ _ (mk_work v2 d1 lfn1) _ _ E3). change (fr_ok FR_OK) with true. cbv iota. rewrite bind_dp. cbn [wd_vol wd_dp wd_lfn]. rewrite Esc. rewrite (bind_dvol _ _ (mk_work v3 d1 lfn1) _ _ E4). reflexivity. }
      destruct (mkdir_register cfuel dfuel dirs v1 c dots v4 d1 lfn1 sc t its w fn get_fattime Htr1 Hap Hfd Ed Esc Efn Hsn Hst Hw Hnone) as (fr & v5 & d5 & E5 & R); [by rewrite G1|done|apply tm_fits|]. exists fr, v5, d5, lfn1. split; [exact E5|]. split; [done|]. destruct R as [(-> & W & s0 & dirs' & [M1 M2 M3 M4 M5 M6 M7])|(-> & dirs' & K5 & Hsn5)].
      * split; [by left|]. split; [done|]. intros _. exists sc, w, fn, c, s0, dirs'. split; [done|]. split; [done|]. rewrite G1 in *. split; [exact (kept_trans _ _ _ _ _ _ K M1)|done| |done|done|done|done]. by rewrite <- (peeked_entry _ _ c (tr_fat _ _ Htr) P).
      * split; [by right|]. split; [|done]. intros _. exists dirs'. split; [exact (kept_trans _ _ _ _ _ _ K K5)|done].
  - destruct A as (-> & _). exists FR_EXIST, v1, d1, lfn1. done.
Qed.

Lemma mkdir_resolve dirs v sc w fn c s dirs' v' path : tree dirs v -> mkdir_done dirs v sc w fn c s dirs' v' -> resolve dirs (v_geo v) path = Missing sc w fn -> sc ∉ passed_by dirs (v_geo v) path ->
  exists i long ls dots, resolve dirs' (v_geo v) path = There sc w fn i (Named long ls s) /\ dirs' c = Some (Clusters [c], dots) /\ catalogue dots = [].
Proof.
  intros Htr [K Hc Hz Hn (dots & t & its1 & its2 & long & ls & Hcat & Hd & Hb & Hfirst) Hs Ha] Hres Hp. exists (zlen (raws its1)), long, ls, dots. set (dirs1 := dirs_set dirs c (Clusters [c]) dots) in *. pose proof (unreferenced_new dirs v c Htr Hn) as Hun.
  destruct (resolve_agree dirs dirs1 (v_geo v) c path) as [R1 P1]; [intros k Hk; unfold dirs1, dirs_set; by rewrite (proj2 (Z.eqb_neq k c) Hk)|done|lia|].
  rewrite (resolve_ext _ _ _ _ Hd). rewrite (resolve_set dirs1 _ sc t _ w fn path); [|by rewrite P1|left; by rewrite R1]. unfold found_in. rewrite find_obj_at by done. rewrite Z.add_0_l. split; [done|]. split; [|done]. rewrite Hd. unfold dirs_set at 1. destruct (Z.eqb_spec c sc) as [->|]; [|unfold dirs1, dirs_set; by rewrite Z.eqb_refl].
  exfalso. destruct (resolve_missing dirs (v_geo v) path sc w fn Hres) as [x Ex]. congruence.
Qed.

Abbreviation a_vol a := (ff_vol (a_ff a)).
Abbreviation a_geo a := (v_geo (a_vol a)).

(** ** Claims *)

(** C14: [f_mkdir] creates the directory a path names where there is no such
    object: it takes one free cluster; the path then leads to a directory with
    nothing to list, which [f_opendir] opens; nothing is left unsaved. The
    directories stay well formed and every file keeps its clusters and its
    content. Otherwise all directories hold the same objects as before, and the
    result tells why: a bad name or path, an object of that name, or no room
    for the directory or its entry. *)
Theorem f_mkdir_exact (cfuel dfuel : nat) (dirs : Z -> option (dtable * list item)) (a : fatfs D) (d d2 : DIR) (fno : FILINFO) (path rest s r : list Z) :
  65536 <= Z.of_nat dfuel -> (2 * Z.to_nat (n_fatent (a_geo a)) <= cfuel)%nat -> ready dirs a -> apart dirs -> get_ldnumber path = Ok (0, rest) -> string_at rest s r -> fname (d_fn d) -> fname (d_fn d2) -> info_ok fno ->
  let pl := resolve dirs (a_geo a) rest in (forall sc w fn, ends_in pl sc w fn -> sc ∉ passed_by dirs (a_geo a) rest) ->
  exists fr a', f_mkdir cfuel dfuel d path a = Ok (fr, a') /\ mkdir_result pl fr /\
    (exists dirs', ready dirs' a' /\ kept dirs (a_vol a) dirs' (a_vol a') /\
      (fr <> FR_OK -> forall k, snd <$> dirs' k = snd <$> dirs k) /\
      (fr = FR_OK -> exists sc w fn c i long ls e dots d3 a3 d4 fno' a4,
         resolve dirs' (a_geo a) rest = There sc w fn i (Named long ls e) /\ has (attr_of e) AM_DIR = true /\ start_of (a_geo a) e = c /\ entry (a_vol a) c = 0 /\ dirs c = None /\ dirs' c = Some (Clusters [c], dots) /\ catalogue dots = [] /\
         truth (wflag (fs_win (v_fs (a_vol a')))) = false /\
         f_opendir cfuel dfuel d2 path a' = Ok ((FR_OK, d3), a3) /\ f_readdir cfuel dfuel d3 (Some fno) a3 = Ok ((FR_OK, d4, Some fno'), a4) /\ get (fi_name fno') 0 = 0)).
Proof.
  intros Hdf Hcf Hr Hap El Hs Hfn Hfn2 Hi pl Hpass. pose proof Hr as [Hreg Htr Hu]. unfold f_mkdir. rewrite (m_bind_Ok _ _ _ _ _ (mount_ready dirs a path rest FA_WRITE Hr El)). cbn [fst snd]. change (fr_ok FR_OK) with true. cbv iota.
  destruct (mkdir_path_ok cfuel dfuel dirs (mk_work (a_vol a) (d_onobj (obj_fs true) d) (a_lfn a)) rest s r Hdf Hcf Hs Htr Hap Hu Hfn) as (fr & v' & d' & lfn' & E & Hu' & Hres & Hno & Hok). cbn [wd_vol wd_dp wd_lfn] in *. fold pl in Hres, Hok.
  eexists fr, _. split; [rewrite (bind_with_dir _ _ _ _ _ _ _ _ E); reflexivity|]. split; [done|]. set (a' := mk_fatfs _ _). destruct (decide (fr = FR_OK)) as [E0|E0].
  2: { destruct (Hno E0) as (dirs' & K & Hsame). exists dirs'. split; [split; [done|apply K|done]|]. split; [done|]. split; [by intros _|done]. }
  destruct (Hok E0) as (sc & w & fn & c & e & dirs' & Epl & W & Hmd). exists dirs'. pose proof (md_kept _ _ _ _ _ _ _ _ _ Hmd) as K. assert (ready dirs' a') as Hr' by (split; [done|apply K|done]). split; [done|]. split; [done|]. split; [done|]. intros _.
  destruct (mkdir_resolve dirs (a_vol a) sc w fn c e dirs' v' rest Htr Hmd Epl) as (i & long & ls & dots & Er & Ec & Hcat); [apply (Hpass sc w fn); rewrite Epl; by left|]. destruct Hmd as [_ Hc Hz Hn _ Hst Hat].
  assert (has (attr_of e) AM_DIR = true) as Hdir by (unfold attr_of; by rewrite Hat). assert (a_geo a' = a_geo a) as Ga by apply K.
  destruct (f_opendir_ok dirs' cfuel dfuel a' d2 path rest s r Hdf Hr' El Hs Hfn2) as (fr3 & d3 & a3 & E3 & [Hr3 _] & R3). rewrite Ga, Er in R3. cbn [dir_place] in R3. rewrite Hdir, Hst in R3. destruct R3 as (-> & its & Ho). pose proof (od_dir _ _ _ _ _ _ Ho) as (t & Ed & _). rewrite Ec in Ed. injection Ed as <- <-.
  destruct (f_readdir_ok dirs' cfuel dfuel a3 d3 c dots dots fno Hdf Hr3 Ho Hi) as (d4 & fno' & a4 & rest' & E4 & _ & _ & _ & _ & Hd). rewrite Hcat in Hd.
  exists sc, w, fn, c, i, long, ls, e, dots, d3, a3, d4, fno', a4. repeat (split; [done || exact E3 || exact E4|]). done.
Qed.

End Making.

(** *** A concrete run: the directory [Long name.text] is created in the empty
    root directory. *)

Definition demo_mkdir := f_mkdir ncf df (wd_dp demo_dir) demo_file_path (demo_api demo_vol).

Lemma demo_mkdir_result fr a : demo_mkdir = Ok (fr, a) -> fr = FR_OK.
Proof. assert (match demo_mkdir with Ok (r, _) => r | _ => FR_INT_ERR end = FR_OK) as Er by (vm_compute; reflexivity). intros E. by rewrite E in Er. Qed.

Definition blank_info : FILINFO := mk_filinfo 0 0 0 0 (replicate 13 0) (replicate 256 0).

Lemma f_mkdir_exact_witness :
  exists a1 d3 a3 d4 fno a4, demo_mkdir = Ok (FR_OK, a1) /\ f_opendir ncf df (wd_dp demo_dir) demo_file_path a1 = Ok ((FR_OK, d3), a3) /\ f_readdir ncf df d3 (Some blank_info) a3 = Ok ((FR_OK, d4, Some fno), a4) /\ get (fi_name fno) 0 = 0.
Proof.
  destruct demo_fn_ok as (Hfn & _ & _). destruct demo_dir_fuel as [Hcf Hdf].
  destruct (f_mkdir_exact ncf df (demo_dirs []) (demo_api demo_vol) (wd_dp demo_dir) (wd_dp demo_dir) blank_info demo_file_path demo_file_path (demo_name 76) []) as (fr & a1 & E1 & _ & dirs' & _ & _ & _ & R).
  - exact Hdf.
  - exact Hcf.
  - apply demo_ready, demo_empty_tree.
  - apply demo_apart.
  - reflexivity.
  - exact demo_string.
  - exact Hfn.
  - exact Hfn.
  - exact (conj eq_refl eq_refl).
  - intros sc w fn _. apply passed_demo.
  - pose proof (demo_mkdir_result fr a1 E1) as E0. rewrite E0 in E1. destruct (R E0) as (sc & w & fn & c & i & long & ls & e & dots & d3 & a3 & d4 & fno & a4 & _ & _ & _ & _ & _ & _ & _ & _ & E3 & E4 & Hn).
    exists a1, d3, a3, d4, fno, a4. exact (conj E1 (conj E3 (conj E4 Hn))).
Defined.
