(* ===== verification/FatRename.v ===== *)
(** * FatRename: renaming an object within its directory (ff.c)

    [f_rename] registers the new name, copies the rest of the entry to it and
    deletes the old entries. The theorem is about two paths that end in one
    directory, as those of the file manager do. *)

From Stdlib Require Import ZArith Lia Bool.
From stdpp Require Import base list list_numbers sets.
From S2P Require Import Prelude CLib Hw Ata FatUni Fat FatChain FatFile FatRead FatWrite FatSync FatLfn FatDir FatTable FatScan FatItems FatGrow FatEdit FatReg FatObj FatMount FatName FatApi FatWalk FatList FatOpen FatTree FatCreate FatUnlink FatMkdir.
From stdpp Require Import options.

(** ** The copied entry *)

Lemma start_of_ext g s s' : slot_data s -> slot_data s' -> (forall j, 20 <= j < 28 -> get s' j = get s j) -> start_of g s' = start_of g s.
Proof.
  intros [L B] [L' B'] E. unfold start_of, ld_clust, DIR_FstClusLO, DIR_FstClusHI. rewrite (ld_word_ok s (0 + 26)), (ld_word_ok s' (0 + 26)), (ld_word_ok s (0 + 20)), (ld_word_ok s' (0 + 20)) by (done || lia). unfold le16. rewrite !E by lia. done.
Qed.

(** The entry [s'] bears another name but is the entry of the same object. *)
Record same_object (g : geometry) (s s' : list Z) : Prop := {
  so_start : start_of g s' = start_of g s;
  so_size : size_of s' = size_of s;
  so_attr : get s' DIR_Attr = if has (get s DIR_Attr) AM_DIR then get s DIR_Attr else Z.lor (get s DIR_Attr) AM_ARC
}.

Lemma same_object_dir g s s' m : same_object g s s' -> m = AM_VOL \/ m = AM_DIR \/ m = AM_RDO -> has (attr_of s') m = has (attr_of s) m.
Proof. intros [_ _ Ha] Hm. destruct (has (get s DIR_Attr) AM_DIR); [unfold attr_of; by rewrite Ha|by apply attr_archived]. Qed.

Lemma archive_byte a : is_byte a -> is_byte (Z.lor a AM_ARC).
Proof.
  intros Ha. assert (Z.lor a AM_ARC < 2 ^ 8 /\ 0 <= Z.lor a AM_ARC) as [? ?]; [|unfold is_byte; lia]. unfold is_byte in Ha. split; [|apply Z.lor_nonneg; unfold AM_ARC; lia].
  destruct (Z.eq_dec (Z.lor a AM_ARC) 0) as [->|Hne]; [lia|]. apply Z.log2_lt_pow2; [apply Z.le_neq; split; [apply Z.lor_nonneg; unfold AM_ARC; lia|done]|]. rewrite Z.log2_lor by (unfold AM_ARC; lia). apply Z.max_lub_lt; [|done].
  destruct (Z.eq_dec a 0) as [->|Hn0]; [done|]. apply Z.log2_lt_pow2; lia.
Qed.

(** What [moved_entry] makes of a sector. *)
Lemma moved_entry_ok g s dir b : slot_data s -> has (attr_of s) AM_VOL = false -> sector_data b -> 0 <= dir <= 480 ->
  exists b', moved_entry s dir b = Ok b' /\ sector_data b' /\ only dir (dir + 32) b b' /\ renewed (entry_at b dir) (entry_at b' dir) /\ same_object g s (entry_at b' dir).
Proof.
  intros [L B] Hv Hb Hd. unfold moved_entry, SZDIRE. destruct (fetch_ok s 13 (32 - 13)) as (e & E1 & L1 & G1); [lia|lia|lia|]. rewrite E1, bind_Ok. destruct (store_ok b (dir + 13) e) as (b1 & E2 & L2 & G2); [lia|rewrite (proj1 Hb); lia|]. rewrite E2, bind_Ok.
  assert (sector_data b1) as S1. { apply (sector_of_get b); [done|done|]. intros j Hj. rewrite G2 by lia. destruct (Z.leb_spec (dir + 13) j), (Z.ltb_spec j (dir + 13 + zlen e)); cbn [andb]; try apply get_byte, Hb. rewrite G1 by lia. by apply get_byte. }
  rewrite (rd_in s DIR_Attr) by (unfold DIR_Attr; lia). rewrite bind_Ok. set (a := if negb (has (get s DIR_Attr) AM_DIR) then Z.lor (get s DIR_Attr) AM_ARC else get s DIR_Attr). pose proof (get_byte s DIR_Attr B) as Hab.
  assert (is_byte a) as Ha by (unfold a; destruct (negb _); [by apply archive_byte|done]). destruct (wr_byte b1 (dir + DIR_Attr) a S1) as (b2 & E3 & S2 & V2 & O2); [unfold DIR_Attr; lia|done|]. exists b2. split; [exact E3|]. split; [done|]. unfold DIR_Attr in V2, O2.
  assert (forall j, 13 <= j < 32 -> get b2 (dir + j) = get s j) as Hhi. { intros j Hj. rewrite O2, G2 by lia. rewrite (proj2 (Z.leb_le _ _)), (proj2 (Z.ltb_lt _ _)) by lia. cbn [andb]. rewrite G1 by lia. f_equal. lia. }
  assert (forall j, 0 <= j < 13 -> j <> 11 -> get b2 (dir + j) = get b (dir + j)) as Hlo. { intros j Hj Hne. rewrite O2, G2 by lia. by rewrite (proj2 (Z.leb_gt (dir + 13) _)) by lia. }
  assert (same_object g s (entry_at b2 dir)) as Hso.
  { split.
    - apply start_of_ext; [done|by apply entry_data|]. intros j Hj. rewrite (entry_get b2 dir (proj1 S2) Hd) by lia. apply Hhi. lia.
    - unfold size_of, le32, DIR_FileSize. rewrite !(entry_get b2 dir (proj1 S2) Hd) by lia. rewrite !Hhi by lia. done.
    - unfold DIR_Attr at 1. rewrite (entry_get b2 dir (proj1 S2) Hd), V2 by lia. unfold a. by destruct (has (get s DIR_Attr) AM_DIR). }
  split; [|split; [|done]].
  - intros j Hj Hn. rewrite O2, G2 by lia. destruct (Z.leb_spec (dir + 13) j), (Z.ltb_spec j (dir + 13 + zlen e)); cbn [andb]; (done || lia).
  - split; [by apply entry_data| |rewrite (same_object_dir g s) by (done || by left); done]. intros i Hi. rewrite (entry_get b2 dir (proj1 S2) Hd), (entry_get b dir (proj1 Hb) Hd) by lia. apply Hlo; lia.
Qed.

(** ** The list of objects *)

Definition is_named (it : item) : bool := match it with Named _ _ _ => true | _ => false end.
Abbreviation named_items its := (List.filter is_named its).

Lemma named_app a b : named_items (a ++ b) = named_items a ++ named_items b.
Proof. induction a as [|it a IH]; [done|]. cbn [app List.filter]. rewrite IH. by destruct (is_named it). Qed.

Lemma named_gone gs : named_items (Gone <$> gs) = [].
Proof. by induction gs. Qed.

Lemma named_in it its : is_named it = true -> it ∈ its <-> it ∈ named_items its.
Proof.
  intros Hn. induction its as [|x its IH]; [done|]. cbn [List.filter]. destruct (is_named x) eqn:Ex; [rewrite !elem_of_cons; by rewrite IH|]. rewrite elem_of_cons, IH. split; [intros [->|?]; [congruence|done]|by right].
Qed.

(** An object stays where it is when another one takes the place of a gap. *)
Lemma gap_keep its1 gs its2 new a old b : its1 ++ (Gone <$> gs) ++ its2 = a ++ old :: b -> is_named old = true -> is_named new = true -> zlen gs = zlen (raw new) \/ its2 = [] ->
  exists a' b', its1 ++ new :: its2 = a' ++ old :: b' /\ zlen (raws a') = zlen (raws a) /\ named_items (a' ++ b') ≡ₚ new :: named_items (a ++ b).
Proof.
  intros E Ho Hn Hg. assert (named_items (its1 ++ its2) = named_items (a ++ old :: b)) as Eo by (rewrite <- E, !named_app, named_gone; done). assert (exists a' b', its1 ++ new :: its2 = a' ++ old :: b' /\ zlen (raws a') = zlen (raws a)) as (a' & b' & E' & Hz).
  { destruct (List.app_eq_app _ _ _ _ E) as [l [[-> El]|[-> El]]].
    - destruct l as [|x l]; cbn [app] in El.
      + destruct gs as [|e gs]; cbn [fmap list_fmap app] in El; [|injection El as -> _; done]. destruct Hg as [Hg|Hg]; [|by subst its2]. destruct new as [e|e|lo ls s]; [done|done|]. cbn [raw] in Hg. rewrite length_app in Hg. cbn [length] in Hg. lia.
      + injection El as <- ->. exists a, (l ++ new :: its2). split; [by rewrite <- app_assoc|done].
    - destruct (List.app_eq_app _ _ _ _ El) as [m [[Em Eb]|[-> Eb]]].
      + destruct m as [|x m]; cbn [app] in Eb.
        * rewrite app_nil_r in Em. subst l. exists (its1 ++ [new]), b. rewrite <- Eb, <- app_assoc. split; [done|]. destruct Hg as [Hg|Hg]; [|by subst its2]. rewrite !raws_app, !length_app, raws_gone. cbn [fmap list_fmap concat]. rewrite app_nil_r. lia.
        * injection Eb as <- _. assert (old ∈ (Gone <$> gs)) as Hin by (rewrite Em; set_solver). apply list_elem_of_fmap in Hin as (e & -> & _). done.
      + exists (its1 ++ new :: m), b. split; [rewrite <- app_assoc; cbn [app]; by rewrite <- Eb|]. destruct Hg as [Hg|Hg]; [|subst its2; by destruct m]. rewrite !raws_app, !length_app, raws_gone. cbn [fmap list_fmap concat]. rewrite length_app. lia. }
  exists a', b'. split; [done|]. split; [done|]. apply (Permutation_cons_inv (a := old)). transitivity (named_items (its1 ++ new :: its2)).
  - rewrite E', !named_app. cbn [List.filter]. rewrite Ho. apply Permutation_middle.
  - rewrite (named_app its1). cbn [List.filter]. rewrite Hn. rewrite <- Permutation_middle, <- named_app, Eo, named_app. cbn [List.filter]. rewrite Ho, named_app, <- Permutation_middle. apply Permutation_swap.
Qed.

(** The new object is the one found when no other bears the name. *)
Lemma find_renamed fn w its new others : named_items its ≡ₚ new :: named_items others -> is_named new = true -> bears fn w (get fn NSFLAG) new = true -> Forall (fun it => bears fn w (get fn NSFLAG) it = false) others -> exists i, find_obj fn w its 0 = Some (i, new).
Proof.
  intros Hp Hn Hb Ho. destruct (find_obj fn w its 0) as [[i it]|] eqn:Ef.
  - destruct (find_obj_split _ _ _ _ _ _ Ef) as (a & b & Eits & _ & Hbi & _). exists i. do 2 f_equal. assert (is_named it = true) as Hni by (by destruct it). assert (it ∈ named_items its) as Hin by (apply (proj1 (named_in it its Hni)); rewrite Eits; apply elem_of_app; right; apply elem_of_cons; by left). rewrite Hp in Hin. apply elem_of_cons in Hin as [->|Hin]; [done|].
    apply (proj2 (named_in it others Hni)) in Hin. rewrite Forall_forall in Ho. specialize (Ho it Hin). congruence.
  - pose proof (find_obj_none _ _ _ _ Ef) as Hnone. assert (new ∈ its) as Hin by (apply (proj2 (named_in new its Hn)); rewrite Hp; apply elem_of_cons; by left). rewrite Forall_forall in Hnone. specialize (Hnone new Hin). cbn beta in Hnone. congruence.
Qed.

Section Renaming.
Context {D : Type} `{BlockLaws D}.
#[local] Set Default Proof Using "Type*".

Abbreviation v_geo v := (fs_geo (v_fs v)).
Abbreviation nent v := (n_fatent (v_geo v)).
Abbreviation x_geo x := (v_geo (wd_vol x)).

(** A directory object keeps its place when the directory grows. *)
Lemma slot_grown v v' sc t t' d k : fat_ok v -> changed sc t t' v v' -> at_slot (v_geo v) t d k -> at_slot (v_geo v') t' d k.
Proof.
  intros Hf C [Hi Hp Hs Hd Hc]. pose proof (vo_geo _ (fo_vol _ Hf)) as Hg. rewrite (ch_geo _ _ _ _ _ C). assert (0 <= k / 16 < dsects (v_geo v) t) as Hj by (unfold nslots in Hi; dlia). destruct (ext_dsects v v' sc t t' (k / 16) _ Hg C Hj) as [Hj' Ej].
  split; [unfold nslots in *; dlia|done|by rewrite Ej|done|]. destruct (ch_ext _ _ _ _ _ C) as [->|(l & r & -> & -> & _)]; [done|]. rewrite Hc. cbn [dsects] in Hj. destruct (index_in _ _ Hg l (k / 16) Hj) as [Hx _]. symmetry. apply get_app_l. done.
Qed.

(** The new name with the rest of the entry, beside the old one. *)
Definition doubled (dirs : Z -> option (dtable * list item)) (v : vol D) (sc : Z) (t : dtable) (its : list item) (w fn s : list Z) (t' : dtable) (its1 : list item) (gs : list (list Z)) (its2 : list item) (new : item) (v' : vol D) : Prop :=
  its = its1 ++ (Gone <$> gs) ++ its2 /\ (zlen gs = zlen (raw new) \/ its2 = []) /\ kept dirs v (dirs_set dirs sc t' (its1 ++ new :: its2)) v' /\ bears fn w (get fn NSFLAG) new = true /\
  exists long ls s', new = Named long ls s' /\ same_object (v_geo v) s s'.

Lemma copy_entry cfuel dfuel dirs v dj dn lfn sc t its s w fn k : tree dirs v -> apart dirs -> dirs sc = Some (t, its) -> sclust (d_obj dj) = sc -> at_slot (v_geo v) t dj k -> slot_data s -> has (attr_of s) AM_VOL = false -> (has (attr_of s) AM_DIR = true -> is_Some (dirs (start_of (v_geo v) s))) ->
  sclust (d_obj dn) = sc -> d_fn dn = fn -> storable fn -> status_ok true (get fn NSFLAG) -> named w lfn -> (2 * Z.to_nat (nent v) <= cfuel)%nat -> 65536 <= Z.of_nat dfuel ->
  exists fr v' d', (r ← dir_register cfuel dfuel; if fr_ok r then move_entry s dj else mret r) (mk_work v dn lfn) = Ok (fr, mk_work v' d' lfn) /\
    ((fr = FR_DENIED /\ exists t', kept dirs v (dirs_set dirs sc t' its) v') \/ (fr = FR_OK /\ exists t' its1 gs its2 new, doubled dirs v sc t its w fn s t' its1 gs its2 new v' /\ at_slot (v_geo v') t' dj k)).
Proof.
  intros Htr Hap Ed Edj A Hsd Hvol Hsub Edn Efn Hsn Hst Hw Hcf Hdf. pose proof (tr_fat _ _ Htr) as Hf. destruct (register_slot cfuel dfuel dirs v dn lfn sc t its w fn Htr Hap Ed Edn Efn Hsn Hst Hw Hcf Hdf) as (fr & v1 & d1 & t' & E & C & Sp & R). rewrite (m_bind_Ok _ _ _ _ _ E).
  destruct R as [(-> & K)|(-> & its1 & gs & its2 & long & ls & s1 & Eits & Hgap & K & Hen & _ & Hb)].
  - exists FR_DENIED, v1, d1. split; [reflexivity|]. left. split; [done|]. by exists t'.
  - change (fr_ok FR_OK) with true. cbv iota. unfold move_entry. rewrite bind_dp, bind_dgeo. cbn [wd_vol wd_dp wd_lfn]. pose proof K as [T1 A1 G1 F1]. pose proof Hen as [_ As Es W Hd1]. pose proof (vo_win _ (fo_vol _ (tr_fat _ _ T1))) as Hwin. assert (0 <= d_dir d1 <= 480) as Hd by (rewrite (as_dir _ _ _ _ As); dlia).
    destruct (moved_entry_ok (v_geo v) s (d_dir d1) (win (fs_win (v_fs v1))) Hsd Hvol) as (b & Eb & Sb & Ob & Hren & Hso); [split; apply Hwin|done|]. rewrite (win_slot v1 t' d1 _ As W), Es in Hren. set (s' := entry_at b (d_dir d1)) in *. set (dirs1 := dirs_set dirs sc t' (its1 ++ Named long ls s1 :: its2)) in *.
    assert (dirs1 sc = Some (t', its1 ++ Named long ls s1 :: its2)) as Ed1 by (unfold dirs1, dirs_set; by rewrite Z.eqb_refl).
    destruct (renew_entry dirs1 v1 d1 sc t' its1 long ls s1 its2 b T1 A1 Ed1 Hen Sb Ob Hren) as (T2 & A2 & F2). { fold s'. intros Hdir. rewrite G1, (so_start _ _ _ Hso). apply dirs_set_mono, Hsub. rewrite <- Hdir. symmetry. apply (same_object_dir _ _ _ _ Hso). by right; left. }
    fold s' in T2, A2, F2. rewrite (bind_dvol _ _ (mk_work v1 d1 lfn) _ _ (win_put_ok _ _ _ Eb)), bind_dwnd. cbn [wd_vol wd_dp wd_lfn with_window v_fs fs_win win]. rewrite (bind_dlift _ _ _ (get b (d_dir d1 + DIR_Attr))) by (apply rd_in; rewrite (proj1 Sb); unfold DIR_Attr; lia).
    rewrite Edj, (same_place_sclust _ _ Sp), Edn, Z.eqb_refl. cbn [negb]. rewrite andb_false_r. exists FR_OK, (with_window b v1), d1. split; [reflexivity|]. right. split; [done|]. exists t', its1, gs, its2, (Named long ls s'). split; [|exact (slot_grown v v1 sc t t' dj k Hf C A)].
    split; [done|]. split; [destruct Hgap as [Hg|Hg]; [left|by right]; rewrite Hg; cbn [raw]; by rewrite !length_app|]. split; [|split; [rewrite <- Hb; apply bears_renamed; by apply renewed_take|by exists long, ls, s']]. apply (kept_ext _ _ (dirs_set dirs1 sc t' (its1 ++ Named long ls s' :: its2))); [intros k0; symmetry; apply dirs_set_set|].
    apply (kept_trans _ _ _ _ _ _ K). by split.
Qed.

(** Deleting the old entries. *)
Lemma drop_entry cfuel dfuel dirs v dj lfn sc t a long ls s b : let i := zlen (raws a) in tree dirs v -> apart dirs -> dirs sc = Some (t, a ++ Named long ls s :: b) -> sclust (d_obj dj) = sc -> at_slot (v_geo v) t dj (i + zlen ls) ->
  blk_ofs dj = match long with Some _ => 32 * i | None => NO_BLOCK end -> 65536 <= Z.of_nat dfuel ->
  exists gs v' d', (r ← dir_remove cfuel dfuel; if fr_ok r then dvol sync_fs else mret r) (mk_work v dj lfn) = Ok (FR_OK, mk_work v' d' lfn) /\ kept dirs v (dirs_set dirs sc t (a ++ (Gone <$> gs) ++ b)) v' /\ truth (wflag (fs_win (v_fs v'))) = false.
Proof.
  intros i Htr Hap Ed Esc A Bk Hdf. pose proof (tr_fat _ _ Htr) as Hf. destruct (tr_dir _ _ Htr _ _ _ Ed) as [Ht Hl].
  destruct (remove_laid cfuel dfuel (mk_work v dj lfn) t a long ls s b) as (v1 & d1 & E1 & C & _ & L1); cbn [wd_vol wd_dp wd_lfn]; [split; cbn [wd_vol wd_dp]; [done|by rewrite Esc|done]|done|done|done|]. cbn [wd_vol wd_dp wd_lfn] in *. rewrite Esc in C. set (gs := erased <$> raw (Named long ls s)) in *. set (its' := a ++ (Gone <$> gs) ++ b) in *.
  destruct (changed_steady dirs v v1 sc t t _ Htr Hap Ed C) as [Hsy Hap1]. assert (kept dirs v (dirs_set dirs sc t its') v1) as K1.
  { split; [|apply Hap1|apply C|intros s2 l2 Hh; by apply (changed_content dirs v v1 sc t t _ its' s2 l2 Htr Ed C)]. apply (tree_set dirs v); [done|done|by eexists|apply C|exact L1|]. intros long2 ls2 s2 Hin Had. apply (tr_sub _ _ Htr sc t _ long2 ls2 s2 Ed); [|done].
    unfold its' in Hin. apply elem_of_app in Hin as [Hin|Hin]; [set_solver|]. apply elem_of_app in Hin as [Hin|Hin]; [|set_solver]. apply list_elem_of_fmap in Hin as (e & E & _). discriminate E. }
  destruct (sync_tree _ v1 (kp_tree _ _ _ _ K1) (kp_apart _ _ _ _ K1)) as (v2 & E2 & Fr & W). exists gs, v2, d1. split; [|split; [|done]].
  - rewrite (m_bind_Ok _ _ _ _ _ E1). change (fr_ok FR_OK) with true. cbv iota. unfold dvol. cbn [wd_vol wd_dp wd_lfn]. by rewrite E2.
  - apply (kept_trans _ _ _ _ _ _ K1). apply kept_freed; [apply K1|apply K1|done].
Qed.

(** ** The two paths *)

Definition rename_result (pl pl2 : place) (fr : FRESULT) : Prop :=
  match pl with
  | Origin | BadName => fr = FR_INVALID_NAME
  | Missing _ _ _ => fr = FR_NO_FILE
  | There sc _ _ i (Named _ ls _) =>
      match pl2 with
      | BadName => fr = FR_INVALID_NAME
      | Origin => fr = FR_EXIST \/ fr = FR_INVALID_NAME
      | Missing _ _ _ => fr = FR_OK \/ fr = FR_DENIED
      | There sc2 _ _ i2 (Named _ ls2 _) => if (sc2 =? sc) && (i2 + zlen ls2 =? i + zlen ls) then fr = FR_OK \/ fr = FR_DENIED else fr = FR_EXIST
      | _ => fr = FR_NO_PATH
      end
  | _ => fr = FR_NO_PATH
  end.

(** The object of the first path bears the name of the second. *)
Record renamed (dirs : Z -> option (dtable * list item)) (v : vol D) (pl pl2 : place) (sc : Z) (others : list item) (s w fn : list Z) (new : item) (s' : list Z) (dirs' : Z -> option (dtable * list item)) (v' : vol D) : Prop := {
  rn_old : exists t a long ls b w0 fn0, pl = There sc w0 fn0 (zlen (raws a)) (Named long ls s) /\ dirs sc = Some (t, a ++ Named long ls s :: b) /\ others = a ++ b;
  rn_new : exists long ls, new = Named long ls s';
  rn_ends : ends_in pl2 sc w fn;
  rn_dirs : exists t its, (forall k, dirs' k = dirs_set dirs sc t its k) /\ named_items its ≡ₚ new :: named_items others;
  rn_bears : bears fn w (get fn NSFLAG) new = true;
  rn_same : same_object (v_geo v) s s';
  rn_free : pl2 = Missing sc w fn -> Forall (fun it => bears fn w (get fn NSFLAG) it = false) others;
  rn_kept : kept dirs v dirs' v';
  rn_saved : truth (wflag (fs_win (v_fs v'))) = false
}.

Lemma register_nameless cfuel dfuel x : fname (d_fn (wd_dp x)) -> get (d_fn (wd_dp x)) NSFLAG = NS_NONAME -> dir_register cfuel dfuel x = Ok (FR_INVALID_NAME, x).
Proof. intros Hf E. unfold dir_register. rewrite bind_dp, (bind_dlift _ _ _ (get (d_fn (wd_dp x)) NSFLAG)) by (apply rd_in; rewrite (proj1 Hf); unfold NSFLAG; lia). by rewrite E. Qed.

(** The object found by the first path gets the name of the second. *)
Lemma give_name cfuel dfuel dirs v dj dn lfn sc t a long ls s b w0 fn0 w fn pl pl2 : let i := zlen (raws a) in let it := Named long ls s in
  tree dirs v -> apart dirs -> dirs sc = Some (t, a ++ it :: b) -> pl = There sc w0 fn0 i it -> ends_in pl2 sc w fn -> (pl2 = Missing sc w fn -> Forall (fun it => bears fn w (get fn NSFLAG) it = false) (a ++ it :: b)) ->
  sclust (d_obj dj) = sc -> at_slot (v_geo v) t dj (i + zlen ls) -> blk_ofs dj = match long with Some _ => 32 * i | None => NO_BLOCK end ->
  sclust (d_obj dn) = sc -> d_fn dn = fn -> storable fn -> status_ok true (get fn NSFLAG) -> named w lfn -> (2 * Z.to_nat (nent v) <= cfuel)%nat -> 65536 <= Z.of_nat dfuel ->
  exists fr v1 dn1, (r ← dir_register cfuel dfuel; if fr_ok r then move_entry s dj else mret r) (mk_work v dn lfn) = Ok (fr, mk_work v1 dn1 lfn) /\
    ((fr = FR_DENIED /\ exists dirs', kept dirs v dirs' v1 /\ forall k, snd <$> dirs' k = snd <$> dirs k) \/
     (fr = FR_OK /\ exists v2 d2, (r ← dir_remove cfuel dfuel; if fr_ok r then dvol sync_fs else mret r) (mk_work v1 dj lfn) = Ok (FR_OK, mk_work v2 d2 lfn) /\ exists new s' dirs', renamed dirs v pl pl2 sc (a ++ b) s w fn new s' dirs' v2)).
Proof.
  intros i it Htr Hap Ed Epl He Hfree Edj A Bk Edn Efn Hsn Hst Hw Hcf Hdf. destruct (tr_dir _ _ Htr _ _ _ Ed) as [Ht Hl]. pose proof Hl as ([_ [(Hsd & _ & _ & Hvol & _) _]%Forall_cons]%Forall_app & _).
  destruct (copy_entry cfuel dfuel dirs v dj dn lfn sc t _ s w fn (i + zlen ls) Htr Hap Ed Edj A Hsd Hvol) as (fr & v1 & d1 & E1 & R); [intros Hdir; apply (tr_sub _ _ Htr sc t _ long ls s Ed); [set_solver|done]|done|done|done|done|done|done|done|].
  exists fr, v1, d1. split; [exact E1|]. destruct R as [(-> & t' & K)|(-> & t' & its1 & gs & its2 & new & (Eits & Hgap & K & Hb & long2 & ls2 & s2 & -> & Hso) & A1)].
  - left. split; [done|]. exists (dirs_set dirs sc t' (a ++ it :: b)). split; [done|]. intros k. unfold dirs_set. destruct (Z.eqb_spec k sc) as [->|]; [by rewrite Ed|done].
  - right. split; [done|]. destruct (gap_keep its1 gs its2 (Named long2 ls2 s2) a it b (eq_sym Eits) eq_refl eq_refl Hgap) as (a' & b' & E' & Hz & Hp). rewrite E' in K. set (dirs1 := dirs_set dirs sc t' (a' ++ it :: b')) in *.
    assert (dirs1 sc = Some (t', a' ++ Named long ls s :: b')) as Ed1 by (unfold dirs1, dirs_set; by rewrite Z.eqb_refl). fold i in Hz.
    destruct (drop_entry cfuel dfuel dirs1 v1 dj lfn sc t' a' long ls s b' (kp_tree _ _ _ _ K) (kp_apart _ _ _ _ K) Ed1 Edj) as (gs2 & v2 & d2 & E2 & K2 & W2); [by rewrite Hz|by rewrite Hz|done|].
    exists v2, d2. split; [exact E2|]. set (its' := a' ++ (Gone <$> gs2) ++ b') in *. exists (Named long2 ls2 s2), s2, (dirs_set dirs sc t' its'). split.
    + by exists t, a, long, ls, b, w0, fn0.
    + by exists long2, ls2.
    + done.
    + exists t', its'. split; [done|]. rewrite <- Hp. unfold its'. by rewrite !named_app, named_gone.
    + done.
    + done.
    + intros Em. specialize (Hfree Em). apply Forall_app in Hfree as [F1 [_ F2]%Forall_cons]. by apply Forall_app.
    + apply (kept_ext _ _ (dirs_set dirs1 sc t' its')); [intros k; symmetry; apply dirs_set_set|]. exact (kept_trans _ _ _ _ _ _ K K2).
    + done.
Qed.

Lemma renamed_peeked dirs v v1 pl pl2 sc others s w fn new s' dirs' v' : tree dirs v -> apart dirs -> peeked v v1 -> renamed dirs v1 pl pl2 sc others s w fn new s' dirs' v' -> renamed dirs v pl pl2 sc others s w fn new s' dirs' v'.
Proof.
  intros Htr Hap P [R1 R2 R3 R4 R5 R6 R7 R8 R9]. rewrite (peeked_geo _ _ P) in R6. split; try done. exact (kept_trans _ _ _ _ _ _ (kept_peeked dirs v v1 Htr Hap P) R8).
Qed.

(** The directories hold the same objects. *)
Definition untouched (dirs : Z -> option (dtable * list item)) (v v' : vol D) : Prop := exists dirs', kept dirs v dirs' v' /\ forall k, snd <$> dirs' k = snd <$> dirs k.

Lemma rename_path_ok cfuel dfuel dirs x path_old path_new s1 r1 s2 r2 : 65536 <= Z.of_nat dfuel -> (2 * Z.to_nat (nent (wd_vol x)) <= cfuel)%nat -> string_at path_old s1 r1 -> string_at path_new s2 r2 -> tree dirs (wd_vol x) -> apart dirs -> units (wd_lfn x) -> fname (d_fn (wd_dp x)) ->
  let pl := resolve dirs (x_geo x) path_old in let pl2 := resolve dirs (x_geo x) path_new in (forall sc w fn sc2 w2 fn2, ends_in pl sc w fn -> ends_in pl2 sc2 w2 fn2 -> sc2 = sc) ->
  exists fr v' d' lfn', rename_path cfuel dfuel path_old path_new x = Ok (fr, mk_work v' d' lfn') /\ units lfn' /\ rename_result pl pl2 fr /\ (fr <> FR_OK -> untouched dirs (wd_vol x) v') /\
    (fr = FR_OK -> exists sc others s w fn new s' dirs', renamed dirs (wd_vol x) pl pl2 sc others s w fn new s' dirs' v').
Proof.
  intros Hdf Hcf Hs1 Hs2 Htr Hap Hu Hfn pl pl2 Hdir. destruct (follow_path_ok dirs cfuel dfuel x path_old s1 r1 Hdf Hs1 Htr Hu Hfn) as (fr & v1 & d1 & lfn1 & E & P & Hu1 & Hf1 & _ & A). fold pl in A. unfold rename_path. rewrite (m_bind_Ok _ _ _ _ _ E), bind_dp. cbn [wd_dp].
  rewrite (bind_dlift _ _ _ (get (d_fn d1) NSFLAG)) by (apply rd_in; rewrite (proj1 Hf1); unfold NSFLAG; lia). cbv zeta. pose proof (peeked_geo _ _ P) as G1. pose proof (kept_peeked dirs _ _ Htr Hap P) as K1. assert (untouched dirs (wd_vol x) v1) as Hun by (by exists dirs).
  destruct pl as [| | | |sc w fn|sc w fn i it] eqn:Epl; cbn [rename_result arrived] in *; rewrite <- ?Epl.
  - destruct A as (-> & Fl & _). rewrite Fl. exists FR_INVALID_NAME, v1, d1, lfn1. done.
  - subst fr. exists FR_INVALID_NAME, v1, d1, lfn1. done.
  - subst fr. exists FR_NO_PATH, v1, d1, lfn1. done.
  - done.
  - destruct A as (-> & _). exists FR_NO_FILE, v1, d1, lfn1. done.
  - destruct A as (-> & Es & Efn & Hw & Hst & _ & W & t & a & b & long & ls & s0 & Ed & Ei & Hb & Hfirst & -> & A & Ea & Bk & Sl). rewrite Efn, (st_dot _ _ Hst), andb_false_r. change (fr_ok FR_OK) with true. cbv iota. rewrite bind_dwnd. cbn [wd_vol].
    pose proof (vo_win _ (fo_vol _ (proj1 P))) as Hwin. assert (0 <= d_dir d1 <= 480) as Hd by (rewrite (as_dir _ _ _ _ A); dlia).
    assert (fetch (win (fs_win (v_fs v1))) (d_dir d1) SZDIRE = Ok s0) as Ef. { rewrite <- Sl, <- (win_slot v1 t d1 _ A W). unfold fetch, SZDIRE. rewrite (proj2 (Z.leb_le 0 _)), (proj2 (Z.leb_le _ (zlen _))) by (rewrite ?(proj1 (conj (wo_len _ Hwin) I)); lia). done. }
    rewrite (bind_dlift _ _ _ _ Ef). destruct (follow_path_ok dirs cfuel dfuel (mk_work v1 d1 lfn1) path_new s2 r2 Hdf Hs2 (kp_tree _ _ _ _ K1) Hu1 Hf1) as (fr2 & v2 & d2 & lfn2 & E2 & P2 & Hu2 & Hf2 & _ & A2). cbn [wd_vol wd_dp wd_lfn] in *. rewrite G1 in A2. fold pl2 in A2.
    pose proof (peeked_trans _ _ _ P P2) as P12. pose proof (peeked_geo _ _ P12) as G2. pose proof (kept_peeked dirs _ _ Htr Hap P12) as K2. assert (untouched dirs (wd_vol x) v2) as Hun2 by (by exists dirs).
    match goal with |- context [other_dir d1 ?m] => set (inner := m) end.
    assert (inner (mk_work v1 d1 lfn1) = let r := if fr_ok fr2 then if (sclust (d_obj d2) =? sclust (d_obj d1)) && (dptr d2 =? dptr d1) then FR_NO_FILE else FR_EXIST else fr2 in
      if bool_decide (r = FR_NO_FILE) then (r ← dir_register cfuel dfuel; if fr_ok r then move_entry s0 d1 else mret r) (mk_work v2 d2 lfn2) else Ok (r, mk_work v2 d2 lfn2)) as Hinner.
    { unfold inner. rewrite (m_bind_Ok _ _ _ _ _ E2), bind_dp. cbn [wd_dp]. cbv zeta. by destruct (bool_decide _). }
    assert (forall r, inner (mk_work v1 d1 lfn1) = Ok (r, mk_work v2 d2 lfn2) -> fr_ok r = false -> (y ← other_dir d1 inner; if fr_ok y.1 then r ← dir_remove cfuel dfuel; if fr_ok r then dvol sync_fs else mret r else mret y.1) (mk_work v1 d1 lfn1) = Ok (r, mk_work v2 d1 lfn2)) as Hstop.
    { intros r Er Hr. rewrite (bind_other_dir d1 inner _ (mk_work v1 d1 lfn1) _ _ _ _ Er). cbn [fst]. rewrite Hr. reflexivity. }
    assert (forall w2 fn2, ends_in pl2 sc w2 fn2 -> (pl2 = Missing sc w2 fn2 -> Forall (fun it => bears fn2 w2 (get fn2 NSFLAG) it = false) (a ++ Named long ls s0 :: b)) -> sclust (d_obj d2) = sc -> d_fn d2 = fn2 -> storable fn2 -> status_ok true (get fn2 NSFLAG) -> named w2 lfn2 ->
      inner (mk_work v1 d1 lfn1) = (r ← dir_register cfuel dfuel; if fr_ok r then move_entry s0 d1 else mret r) (mk_work v2 d2 lfn2) ->
      exists fr v' d', (y ← other_dir d1 inner; if fr_ok y.1 then r ← dir_remove cfuel dfuel; if fr_ok r then dvol sync_fs else mret r else mret y.1) (mk_work v1 d1 lfn1) = Ok (fr, mk_work v' d' lfn2) /\ (fr = FR_OK \/ fr = FR_DENIED) /\ (fr <> FR_OK -> untouched dirs (wd_vol x) v') /\
        (fr = FR_OK -> exists sc others s w fn new s' dirs', renamed dirs (wd_vol x) pl pl2 sc others s w fn new s' dirs' v')) as Hgo.
    { intros w2 fn2 He Hfree Es2 Ef2 Hsn2 Hst2 Hw2 Ein. assert (at_slot (v_geo v2) t d1 (zlen (raws a) + zlen ls)) as A' by (rewrite G2, <- G1, <- Ei; exact A).
      destruct (give_name cfuel dfuel dirs v2 d1 d2 lfn2 sc t a long ls s0 b w fn w2 fn2 pl pl2 (kp_tree _ _ _ _ K2) Hap Ed) as (fr & v3 & d3 & E3 & R); [by rewrite Epl, Ei|done|done|done|done|by rewrite Bk, Ei|done|done|done|done|done|by rewrite G2|done|]. rewrite E3 in Ein. exists fr.
      destruct R as [(-> & dirs' & K3 & Hsame)|(-> & v4 & d4 & E4 & new & s' & dirs' & Rn)].
      - exists v3, d1. split; [rewrite (bind_other_dir d1 inner _ (mk_work v1 d1 lfn1) _ _ _ _ Ein); reflexivity|]. split; [by right|]. split; [|done]. intros _. exists dirs'. split; [exact (kept_trans _ _ _ _ _ _ K2 K3)|done].
      - exists v4, d4. split; [rewrite (bind_other_dir d1 inner _ (mk_work v1 d1 lfn1) _ _ _ _ Ein); exact E4|]. split; [by left|]. split; [done|]. intros _. exists sc, (a ++ b), s0, w2, fn2, new, s', dirs'. by apply (renamed_peeked dirs (wd_vol x) v2). }
    destruct pl2 as [| | | |sc2 w2 fn2|sc2 w2 fn2 i2 it2] eqn:Epl2; cbn [arrived] in A2; rewrite <- ?Epl2.
    + destruct A2 as (-> & Fl2 & _). change (fr_ok FR_OK) with true in Hinner. cbv iota zeta in Hinner. destruct ((sclust (d_obj d2) =? sclust (d_obj d1)) && (dptr d2 =? dptr d1)).
      * rewrite bool_decide_true in Hinner by done. rewrite (m_bind_Ok _ _ _ _ _ (register_nameless cfuel dfuel (mk_work v2 d2 lfn2) Hf2 Fl2)) in Hinner. change (fr_ok FR_INVALID_NAME) with false in Hinner. cbv iota in Hinner. exists FR_INVALID_NAME, v2, d1, lfn2. split; [by apply Hstop|]. split; [done|]. split; [by right|done].
      * exists FR_EXIST, v2, d1, lfn2. split; [by apply Hstop|]. split; [done|]. split; [by left|done].
    + subst fr2. exists FR_INVALID_NAME, v2, d1, lfn2. split; [by apply Hstop|]. done.
    + subst fr2. exists FR_NO_PATH, v2, d1, lfn2. split; [by apply Hstop|]. done.
    + done.
    + destruct A2 as (-> & Es2 & Ef2 & Hw2 & Hsn2 & Hst2 & t2 & its2 & Ed2 & Hnone). assert (sc2 = sc) as Esc by (apply (Hdir sc w fn sc2 w2 fn2); [right; by eexists _, _|by left]). rewrite Esc in *. rewrite Ed in Ed2. injection Ed2 as <- <-.
      destruct (Hgo w2 fn2) as (fr & v' & d' & E' & Hfr & Hno & Hok); [by left|done|done|done|done|done|done|by rewrite Hinner|]. exists fr, v', d', lfn2. split; [exact E'|]. split; [done|]. split; [done|]. split; [exact Hno|]. intros E0. destruct (Hok E0) as (sc' & others & s' & w' & fn' & new & s4 & dirs' & Rn). exists sc', others, s', w', fn', new, s4, dirs'. rewrite ?Epl2. exact Rn.
    + destruct A2 as (-> & Es2 & Ef2 & Hw2 & Hst2 & Hsn2 & _ & t2 & a2 & b2 & long2 & ls2 & s3 & Ed2 & Ei2 & _ & _ & -> & A2 & _). assert (sc2 = sc) as Esc by (apply (Hdir sc w fn sc2 w2 fn2); right; by eexists _, _). rewrite Esc in *. change (fr_ok FR_OK) with true in Hinner. cbv iota zeta in Hinner.
      rewrite Es, Es2 in Hinner. rewrite (as_ptr _ _ _ _ A), (as_ptr _ _ _ _ A2) in Hinner. rewrite Z.eqb_refl in Hinner |- *. cbn [andb] in Hinner |- *. destruct (Z.eqb_spec (i2 + zlen ls2) (i + zlen ls)) as [Eq|Hne].
      * rewrite Eq, Z.eqb_refl in Hinner. rewrite bool_decide_true in Hinner by done. destruct (Hgo w2 fn2) as (fr & v' & d' & E' & Hfr & Hno & Hok); [right; by eexists _, _|done|done|done|done|done|done|done|]. exists fr, v', d', lfn2. split; [exact E'|]. split; [done|]. split; [done|]. split; [exact Hno|]. intros E0. destruct (Hok E0) as (sc' & others & s' & w' & fn' & new & s4 & dirs' & Rn). exists sc', others, s', w', fn', new, s4, dirs'. rewrite ?Epl2. exact Rn.
      * rewrite (proj2 (Z.eqb_neq (32 * (i2 + zlen ls2)) _)) in Hinner by lia. rewrite bool_decide_false in Hinner by done. exists FR_EXIST, v2, d1, lfn2. split; [by apply Hstop|]. done.
Qed.

Abbreviation a_vol a := (ff_vol (a_ff a)).
Abbreviation a_geo a := (v_geo (a_vol a)).

(** ** Claims *)

(** C15: [f_rename] of two paths that end in the same directory gives the object
    of the first the name of the second: the directory holds the other objects
    and one with the new name, the same first cluster, size and attributes (a
    file gets the archive attribute); a file keeps its content, every other
    file too; nothing is left unsaved. If no other object bears the new name,
    the second path leads to it; the name of the object itself, in other case,
    say, is no obstacle. Otherwise all directories hold the same objects, and
    the result tells why: a bad name or path, no such object, another object
    of the new name, or no room for its entries. *)
Theorem f_rename_exact (cfuel dfuel : nat) (dirs : Z -> option (dtable * list item)) (a : fatfs D) (d : DIR) (path_old path_new old new s1 r1 s2 r2 : list Z) (n : Z) :
  65536 <= Z.of_nat dfuel -> (2 * Z.to_nat (n_fatent (a_geo a)) <= cfuel)%nat -> ready dirs a -> apart dirs -> get_ldnumber path_old = Ok (0, old) -> get_ldnumber path_new = Ok (n, new) -> string_at old s1 r1 -> string_at new s2 r2 -> fname (d_fn d) ->
  let pl := resolve dirs (a_geo a) old in let pl2 := resolve dirs (a_geo a) new in (forall sc w fn sc2 w2 fn2, ends_in pl sc w fn -> ends_in pl2 sc2 w2 fn2 -> sc2 = sc) ->
  exists fr a' dirs', f_rename cfuel dfuel d path_old path_new a = Ok (fr, a') /\ rename_result pl pl2 fr /\ ready dirs' a' /\ kept dirs (a_vol a) dirs' (a_vol a') /\
    (fr <> FR_OK -> forall k, snd <$> dirs' k = snd <$> dirs k) /\
    (fr = FR_OK -> exists sc others e w fn it e', renamed dirs (a_vol a) pl pl2 sc others e w fn it e' dirs' (a_vol a') /\
       (forall l, holds dirs (a_vol a) e l -> holds dirs' (a_vol a') e' l /\ forall k, 0 <= k < 512 * nsec (a_geo a) l -> vbyte (a_vol a') l k = vbyte (a_vol a) l k) /\
       (pl2 = Missing sc w fn \/ Forall (fun it => bears fn w (get fn NSFLAG) it = false) others -> sc ∉ passed_by dirs (a_geo a) new -> exists i, resolve dirs' (a_geo a) new = There sc w fn i it)).
Proof.
  intros Hdf Hcf Hr Hap El1 El2 Hs1 Hs2 Hfn pl pl2 Hdir. pose proof Hr as [Hreg Htr Hu]. unfold f_rename. rewrite El2. unfold lift. erewrite m_bind_Ok; [|reflexivity]. rewrite (m_bind_Ok _ _ _ _ _ (mount_ready dirs a path_old old FA_WRITE Hr El1)). cbn [fst snd]. change (fr_ok FR_OK) with true. cbv iota.
  destruct (rename_path_ok cfuel dfuel dirs (mk_work (a_vol a) (d_onobj (obj_fs true) d) (a_lfn a)) old new s1 r1 s2 r2 Hdf Hcf Hs1 Hs2 Htr Hap Hu Hfn Hdir) as (fr & v' & d' & lfn' & E & Hu' & Hres & Hno & Hok). cbn [wd_vol wd_dp wd_lfn] in *. fold pl pl2 in Hres, Hok.
  set (a' := mk_fatfs (mk_ff (ff_reg (a_ff a)) (Fsid (a_ff a)) v') lfn'). assert (forall dirs', kept dirs (a_vol a) dirs' v' -> ready dirs' a') as Hrd by (intros dirs' K; split; [done|apply K|done]). exists fr, a'.
  destruct (decide (fr = FR_OK)) as [E0|E0]; [destruct (Hok E0) as (sc & others & e & w & fn & it & e' & dirs' & Rn); pose proof (rn_kept _ _ _ _ _ _ _ _ _ _ _ _ _ Rn) as K|destruct (Hno E0) as (dirs' & K & Hsame)];
    exists dirs'; (split; [by rewrite (bind_with_dir _ _ _ _ _ _ _ _ E)|]); (split; [done|]); (split; [by apply Hrd|]); (split; [done|]); [split; [done|]|by split].
  intros _. exists sc, others, e, w, fn, it, e'. split; [done|]. destruct (rn_same _ _ _ _ _ _ _ _ _ _ _ _ _ Rn) as [Est Esz _]. split.
  - intros l Hh. destruct (kp_files _ _ _ _ K e l Hh) as [[C S L] B]. split; [change (holds dirs' v' e' l)|exact B]. pose proof (kp_geo _ _ _ _ K) as G. split; [|by rewrite Esz|done]. rewrite G in C |- *. by rewrite Est.
  - intros Hoth Hp. destruct (rn_dirs _ _ _ _ _ _ _ _ _ _ _ _ _ Rn) as (t & its & Hd & Hperm). destruct (rn_new _ _ _ _ _ _ _ _ _ _ _ _ _ Rn) as (long & ls & Eit).
    destruct (find_renamed fn w its it others Hperm) as [i Ei]; [by rewrite Eit|apply Rn|destruct Hoth as [Hm|Hm]; [by apply Rn|done]|]. exists i. rewrite (resolve_ext _ _ _ _ Hd), (resolve_set dirs _ sc t its w fn new Hp (rn_ends _ _ _ _ _ _ _ _ _ _ _ _ _ Rn)). unfold found_in. by rewrite Ei.
Qed.

End Renaming.

(** *** A concrete run: [Long name.text] becomes [B.TXT]. *)

Definition demo_new_path : list Z := [66; 46; 84; 88; 84; 0].

Definition demo_rename := x ← demo_run; f_rename ncf df (wd_dp demo_dir) demo_file_path demo_new_path x.

Lemma demo_rename_result fr a : demo_rename = Ok (fr, a) -> fr = FR_OK.
Proof. assert (match demo_rename with Ok (r, _) => r | _ => FR_INT_ERR end = FR_OK) as Er by (vm_compute; reflexivity). intros E. by rewrite E in Er. Qed.

(** A path of one segment ends in the root directory. *)
Lemma ends_root dirs g path w fn q sc w' fn' : skip_seps path = Ok path -> parse path = Some (w, fn, q) -> is_last fn = true -> ends_in (resolve dirs g path) sc w' fn' -> sc = 0.
Proof.
  intros Es Ep El. unfold resolve. rewrite Es. destruct (IsTerminator (get path 0)); [by intros [?|(? & ? & ?)]|]. destruct (length path) as [|n]; [by intros [?|(? & ? & ?)]|]. cbn [walk]. rewrite Ep. destruct (dirs 0) as [[t its]|]; [|by intros [?|(? & ? & ?)]]. rewrite El.
  destruct (find_obj fn w its 0) as [[i it]|]; intros [E|(i' & it' & E)]; (discriminate E || by injection E as <- _ _).
Qed.

Lemma f_rename_exact_witness :
  exists a a' dirs' e e', demo_run = Ok a /\ f_rename ncf df (wd_dp demo_dir) demo_file_path demo_new_path a = Ok (FR_OK, a') /\ ready dirs' a' /\ size_of e' = size_of e.
Proof.
  destruct demo_stored as (a1 & v2 & dirs & sc & w & fn & i & long & ls & s & n & l & (Hap & G & Hro & Erun) & Hr & Hres & Hnd & Hsz & Hh & Hn & By). destruct demo_fn_ok as (Hfn & _ & _). destruct demo_dir_fuel as [Hcf Hdf].
  destruct (f_rename_exact ncf df dirs (with_vol a1 v2) (wd_dp demo_dir) demo_file_path demo_new_path demo_file_path demo_new_path (demo_name 76) [] [66; 46; 84; 88; 84] [] 0) as (fr & a' & dirs' & E & _ & Hr' & _ & _ & R).
  - exact Hdf.
  - cbn [with_vol a_ff ff_vol]. rewrite G. exact Hcf.
  - exact Hr.
  - exact Hap.
  - reflexivity.
  - reflexivity.
  - exact demo_string.
  - split; [reflexivity|]. repeat (apply Forall_cons; split; [lia|]). apply Forall_nil_2.
  - exact Hfn.
  - intros sc1 w1 fn1 sc2 w2 fn2 He1 He2. assert (sc1 = 0) as -> by (apply (ends_root _ _ demo_file_path (demo_name 76) demo_fn [] sc1 w1 fn1) in He1; [done|vm_compute; reflexivity..]).
    assert (exists w3 fn3 q3, parse demo_new_path = Some (w3, fn3, q3) /\ is_last fn3 = true) as (w3 & fn3 & q3 & Ep & El) by (eexists _, _, _; split; vm_compute; reflexivity). apply (ends_root _ _ demo_new_path w3 fn3 q3 sc2 w2 fn2) in He2; [done|vm_compute; reflexivity|exact Ep|exact El].
  - assert (fr = FR_OK) as E0 by (apply (demo_rename_result fr a'); unfold demo_rename; rewrite Erun, bind_Ok; exact E). rewrite E0 in E. destruct (R E0) as (sc1 & others & e & w1 & fn1 & it & e' & Rn & _). exists (with_vol a1 v2), a', dirs', e, e'. split; [exact Erun|]. split; [exact E|]. split; [exact Hr'|]. apply (so_size _ _ _ (rn_same _ _ _ _ _ _ _ _ _ _ _ _ _ Rn)).
Defined.
