(* ===== verification/FatDisk.v ===== *)
(** * FatDisk: FatFs over the PIO disk driver

    diskio.c promises FatFs the contract [BlockLaws] (Fat). Here the driver of
    Ata discharges it for every drive that behaves as an ATA PIO automaton,
    whatever its latencies, so the theorems on files proved against the
    contract hold of the driver FatFs is linked with. *)

From Stdlib Require Import ZArith Lia Bool.
From stdpp Require Import base list list_numbers.
From S2P Require Import Prelude Hw Irq Ata Fat FatChain FatFile FatRead FatWrite.
From stdpp Require Import options.

(** ** Bytes and words *)

(** The 512 bytes of a sector of words. *)
Definition sector_bytes (ws : list Z) : list Z := map (word_byte ws) (seqZ 0 512).

Lemma sector_bytes_get ws i : 0 <= i < 512 -> get (sector_bytes ws) i = word_byte ws i.
Proof.
  intros Hi. unfold get, sector_bytes. rewrite nth_lookup, list_lookup_fmap, lookup_seqZ_lt by lia. cbn. f_equal. lia.
Qed.

Lemma sector_bytes_length ws : length (sector_bytes ws) = 512%nat.
Proof. unfold sector_bytes. by rewrite length_map, length_seqZ. Qed.

Lemma word_byte_bound ws i : sector_ok ws -> 0 <= i < 512 -> is_byte (word_byte ws i).
Proof.
  intros [Hl Hw] Hi. assert (word_ok (get ws (i / 2))) as Hb.
  { unfold get. rewrite nth_lookup. destruct (lookup_lt_is_Some_2 ws (Z.to_nat (i / 2))) as [w E]; [dlia|]. rewrite E. cbn.
    by eapply Forall_lookup_1. }
  unfold word_byte, is_byte, word_ok in *. destruct (Z.even i); dlia.
Qed.

Lemma sector_bytes_ok ws : sector_ok ws -> Forall is_byte (sector_bytes ws).
Proof.
  intros Hw. apply Forall_forall. intros b Hb. apply list_elem_of_fmap in Hb as (i & -> & Hi). apply elem_of_seqZ in Hi.
  apply word_byte_bound; [done|lia].
Qed.

Lemma get_is_byte buff i : Forall is_byte buff -> is_byte (get buff i).
Proof.
  intros Hb. unfold get. rewrite nth_lookup. destruct (buff !! Z.to_nat i) as [b|] eqn:E; cbn; [by eapply Forall_lookup_1|].
  unfold is_byte. lia.
Qed.

(** The words of a buffer hold its bytes. *)
Lemma buf_words_byte n off buff i :
  Forall is_byte buff -> 0 <= i < 2 * Z.of_nat n -> word_byte (buf_words n off buff) i = get buff (off + i).
Proof.
  intros Hb. revert off i. induction n as [|n IH]; intros off i Hi; [lia|]. cbn [buf_words]. rewrite word_byte_cons by lia.
  pose proof (get_is_byte buff off Hb) as B0. pose proof (get_is_byte buff (off + 1) Hb) as B1. unfold is_byte in *.
  destruct (Z.eqb_spec i 0) as [->|]; [rewrite Z.add_0_r; dlia|]. destruct (Z.eqb_spec i 1) as [->|]; [dlia|].
  rewrite IH by lia. f_equal. lia.
Qed.

Lemma buf_words_ok n off buff : Forall is_byte buff -> Forall word_ok (buf_words n off buff).
Proof.
  intros Hb. revert off. induction n as [|n IH]; intros off; cbn [buf_words]; [done|]. constructor; [|apply IH].
  pose proof (get_is_byte buff off Hb). pose proof (get_is_byte buff (off + 1) Hb). unfold is_byte, word_ok in *. lia.
Qed.

Lemma sector_bytes_words off buff :
  Forall is_byte buff -> 0 <= off -> off + 512 <= zlen buff ->
  sector_bytes (buf_words 256 off buff) = take 512 (drop (Z.to_nat off) buff).
Proof.
  intros Hb Ho Hl. apply get_eq_ext; [rewrite sector_bytes_length, length_take, length_drop; lia|].
  intros i Hi. rewrite sector_bytes_length in Hi. rewrite sector_bytes_get, buf_words_byte by (done || lia).
  rewrite get_take, get_drop by lia. f_equal. lia.
Qed.

(** ** The driver as a block device *)

Section Device.
Context {A : Type} `{AtaDrive A}.

(** Drive 0, with [pf] bounding the waits. [bd_read] hands over the sectors as
    the driver leaves them in a caller's buffer. *)
Definition ata_dev (pf : nat) : BlockDev (irq_state A) := {|
  bd_read s n := disk_read pf 0 (replicate (Z.to_nat (512 * n)) 0) s n;
  bd_write data s n := disk_write pf 0 data s n;
  bd_sync := mret (disk_ioctl 0 0).1;
  bd_status _ := disk_status 0;
  bd_init := disk_initialize 0
|}.

(** An idle drive with a latency the waits outlast and a well-formed medium. *)
Definition drive_ready (pf : nat) (s : irq_state A) : Prop :=
  idle (view (s_dev s)) /\ (a_delay (view (s_dev s)) + 1 < pf)%nat /\
  forall k, 0 <= k < 268435456 -> sector_ok (a_disk (view (s_dev s)) k).

Definition drive_sector (s : irq_state A) (k : Z) : list Z := sector_bytes (a_disk (view (s_dev s)) k).

Lemma drive_read pf s sec n :
  drive_ready pf s -> 0 <= sec -> 0 < n -> sec + n <= 268435456 ->
  exists data s', disk_read pf 0 (replicate (Z.to_nat (512 * n)) 0) sec n s = Ok ((RES_OK, data), s') /\ zlen data = 512 * n /\
    (forall k, 0 <= k < n -> take 512 (drop (Z.to_nat (512 * k)) data) = drive_sector s (sec + k)) /\
    drive_ready pf s' /\ drive_sector s' = drive_sector s.
Proof.
  intros (Hid & Hf & Hd) Hs Hn He. set (buff := replicate (Z.to_nat (512 * n)) 0).
  assert (zlen buff = 512 * n) as Hb by (unfold buff; rewrite length_replicate; lia).
  destruct (run_disk_read_loop pf (Z.to_nat n) (view (s_dev s)) (ide_interrupt_fired s) sec 0 buff)
    as (a' & f' & R & Hid' & Hd' & Hn'); rewrite ?Z2Nat.id by lia; try done; try lia; [intros k Hk; apply Hd; lia|].
  destruct (R s) as (s' & E & [Hv _] & _); [done|]. cbn [fst] in Hv. subst a'.
  exists (put_sectors (a_disk (view (s_dev s))) (Z.to_nat n) sec 0 buff), s'.
  split; [unfold disk_read; cbn [Z.eqb negb]; by rewrite (m_bind_Ok _ _ _ _ _ E)|].
  split; [by rewrite put_sectors_length|]. split; [|split; [|unfold drive_sector; by rewrite Hd']].
  - intros k Hk. unfold drive_sector. apply get_eq_ext.
    { rewrite sector_bytes_length, length_take, length_drop, put_sectors_length. lia. }
    intros i Hi. rewrite length_take in Hi. rewrite get_take, get_drop, sector_bytes_get by lia.
    rewrite put_sectors_get; rewrite ?Z2Nat.id by lia; [|intros j Hj; apply Hd; lia|lia|lia|lia].
    rewrite (proj2 (Z.leb_le _ _)), (proj2 (Z.ltb_lt _ _)) by lia. cbn [andb].
    replace ((512 * k + i - 0) / 512) with k by dlia. f_equal. dlia.
  - split; [done|]. rewrite Hn', Hd'. by split.
Qed.

Lemma drive_write pf s data sec n :
  drive_ready pf s -> 0 <= sec -> 0 < n -> sec + n <= 268435456 -> zlen data = 512 * n -> Forall is_byte data ->
  exists s', disk_write pf 0 data sec n s = Ok (RES_OK, s') /\ drive_ready pf s' /\
    forall t, drive_sector s' t = if (sec <=? t) && (t <? sec + n) then take 512 (drop (Z.to_nat (512 * (t - sec))) data) else drive_sector s t.
Proof.
  intros (Hid & Hf & Hd) Hs Hn He Hl Hb.
  destruct (run_disk_write_loop pf (Z.to_nat n) (view (s_dev s)) (ide_interrupt_fired s) sec 0 data)
    as (a' & f' & R & Hid' & Hd' & Hn'); rewrite ?Z2Nat.id by lia; try done; try lia.
  destruct (R s) as (s' & E & [Hv _] & _); [done|]. cbn [fst] in Hv. subst a'. exists s'.
  split; [unfold disk_write; cbn [Z.eqb negb]; by rewrite (m_bind_Ok _ _ _ _ _ E)|].
  unfold overwritten in Hd'. split.
  - split; [done|]. rewrite Hn'. split; [done|]. intros k Hk. rewrite Hd'. destruct (_ && _); [|by apply Hd].
    split; [apply buf_words_length|by apply buf_words_ok].
  - intros t. unfold drive_sector. rewrite Hd', Z2Nat.id by lia. destruct (Z.leb_spec sec t), (Z.ltb_spec t (sec + n)); cbn [andb]; try done.
    rewrite sector_bytes_words by (done || lia). do 2 f_equal.
Qed.

Lemma drive_init pf s : drive_ready pf s -> exists s', disk_initialize 0 s = Ok (0, s') /\ drive_ready pf s' /\ drive_sector s' = drive_sector s.
Proof.
  intros ([Hp Hq] & Hf & Hd). destruct (view (s_dev s)) as [c l m h dr p i n k] eqn:Ev. cbn [a_phase a_irq a_delay a_disk] in *. subst p i.
  assert (run (disk_initialize 0) (mk_ata c l m h dr Idle false n k, ide_interrupt_fired s) 0 (mk_ata c l m h dr Idle false n k, ide_interrupt_fired s)) as R.
  { unfold disk_initialize. cbn [Z.eqb negb]. eapply run_bind; [apply run_outb; [lia|unfold is_byte; lia|done]|].
    eapply run_bind; [by apply run_status|apply run_ret]. }
  destruct (R s) as (s' & E & [Hv _] & _); [by split|]. cbn [fst] in Hv. exists s'. split; [exact E|]. unfold drive_ready, drive_sector. by rewrite Hv, Ev.
Qed.

#[local] Instance ata_laws (pf : nat) : @BlockLaws (irq_state A) (ata_dev pf).
Proof.
  refine (@Build_BlockLaws _ (ata_dev pf) (drive_ready pf) (fun _ => 268435456) drive_sector _ _ _ _ _ _).
  - done.
  - intros s Hr. destruct (drive_init pf s Hr) as (s' & E & R & S). by exists s'.
  - intros s k (_ & _ & Hd) Hk. split; [apply sector_bytes_length|by apply sector_bytes_ok, Hd].
  - intros s sec n Hr Hs Hn He. destruct (drive_read pf s sec n Hr Hs Hn He) as (data & s' & E & L & B & R & S). by exists data, s'.
  - intros s data sec n Hr Hs Hn He Hl Hb. destruct (drive_write pf s data sec n Hr Hs Hn He Hl Hb) as (s' & E & R & S). by exists s'.
  - intros s Hr. by exists s.
Defined.

End Device.

(** ** Files on the disk *)

Section Files.
Context {A : Type} `{AtaDrive A} (pf : nat).
#[local] Instance this_dev : BlockDev (irq_state A) := ata_dev pf.
#[local] Instance this_laws : BlockLaws (irq_state A) := ata_laws pf.
#[local] Set Default Proof Using "Type*".

(** C10: through the whole stack, FatFs over the interrupt-driven PIO driver,
    for every latency of the drive that the waits outlast: what [f_write]
    accepted, at any position of a file whose chain and cached sector are
    consistent with the table, is what [f_read] delivers after [f_lseek] back
    to that position, byte for byte, none of the three calls failing. All bytes
    were accepted unless the file would reach 4 GiB or no cluster is free, and
    the drive is idle again. *)
Theorem ata_file_roundtrip (cfuel fuel : nat) (x : open_file (irq_state A)) (l wbuff buff : list Z) (btw : Z) :
  core x l -> placed x l -> live x -> has (f_flag (of_fil x)) FA_WRITE = true -> has (f_flag (of_fil x)) FA_READ = true ->
  0 <= btw < 4294967296 -> btw <= zlen wbuff -> btw <= zlen buff -> Forall is_byte wbuff ->
  (2 * Z.to_nat (n_fatent (fs_geo (v_fs (of_vol x)))) <= cfuel)%nat -> (Z.to_nat btw < fuel)%nat ->
  exists n x1 x2 buff' x3,
    f_write cfuel fuel wbuff btw x = Ok ((FR_OK, n), x1) /\
    (n = Z.min btw (4294967295 - fptr (of_fil x)) \/ full (of_vol x1)) /\
    f_lseek cfuel cfuel (fptr (of_fil x)) x1 = Ok (FR_OK, x2) /\
    f_read fuel buff n x2 = Ok ((FR_OK, n, buff'), x3) /\
    take (Z.to_nat n) buff' = take (Z.to_nat n) wbuff /\ drive_ready pf (v_dev (of_vol x3)).
Proof.
  intros Hc Hp Hv Hw Hr Hb Hlw Hlb Hby Hcf Hfu. exact (write_then_read cfuel fuel x l wbuff buff btw Hc Hp Hv Hw Hr Hb Hlw Hlb Hby Hcf Hfu).
Qed.

End Files.

(** *** Concrete run: 1700 bytes to an erased drive with a latency of seven polls. *)

Definition erased_drive : irq_state ata :=
  mk_irq Keyboard.kbd_boot Mouse.mouse_boot (mk_video None 1024 768 4096) 0 1
    (mk_ata 0 0 0 0 0 Idle false 7 (fun _ => replicate 256 0)).

Lemma erased_ready : drive_ready 20 erased_drive.
Proof.
  split; [by split|]. split; [cbn; lia|]. intros k _. cbn [erased_drive s_dev view ata_self a_disk].
  split; [by rewrite length_replicate|]. apply Forall_replicate. unfold word_ok. lia.
Qed.

Lemma erased_sector k : drive_sector erased_drive k = replicate 512 0.
Proof. reflexivity. Qed.

Lemma erased_count n x' : @f_write _ (ata_dev 20) cf rf demo_data 1700 (fresh_file erased_drive) = Ok ((FR_OK, n), x') -> n = 1700.
Proof.
  assert (match @f_write _ (ata_dev 20) cf rf demo_data 1700 (fresh_file erased_drive) with Ok (r, _) => r.2 | _ => 0 end = 1700) as E by (vm_compute; reflexivity).
  intros Hw. rewrite Hw in E. exact E.
Qed.

Lemma ata_file_roundtrip_witness :
  exists x1 x2 buff' x3,
    @f_write _ (ata_dev 20) cf rf demo_data 1700 (fresh_file erased_drive) = Ok ((FR_OK, 1700), x1) /\
    @f_lseek _ (ata_dev 20) cf cf 0 x1 = Ok (FR_OK, x2) /\
    @f_read _ (ata_dev 20) rf (replicate 1700 7) 1700 x2 = Ok ((FR_OK, 1700, buff'), x3) /\
    take (Z.to_nat 1700) buff' = take (Z.to_nat 1700) demo_data.
Proof.
  destruct (@fresh_file_ok _ (ata_dev 20) (ata_laws 20) erased_drive erased_ready ltac:(cbn; lia) (fun k _ => erased_sector k)) as (K & P & V).
  destruct (ata_file_roundtrip 20 cf rf (fresh_file erased_drive) [] demo_data (replicate 1700 7) 1700 K P V)
    as (n & x1 & x2 & b & x3 & E1 & _ & E2 & E3 & R & _);
    [exact eq_refl|exact eq_refl|lia|apply demo_len|rewrite length_replicate; lia|apply demo_data_ok|apply demo_fuel|apply demo_fuel|].
  pose proof (erased_count _ _ E1) as En. rewrite En in E1, E3, R.
  exists x1, x2, b, x3. split; [exact E1|]. split; [exact E2|]. split; [exact E3|exact R].
Defined.
