(* ===== verification/Nic.v ===== *)
(** * Nic: the RTL8139 driver and its lwIP glue (rtl8139.c, netif_driver.c)

    The receive buffer is DMA memory: it is part of the state, and what the
    card has put there is a hypothesis of the theorems. The card's registers
    and the PCI configuration ports are reached through a device; lwIP is a
    parameter ([LwIP]). Log lines are not modelled. *)

From Stdlib Require Import ZArith Lia Bool.
From stdpp Require Import base list.
From S2P Require Import Prelude Hw.
From stdpp Require Import options.

Definition RTL8139_VENDOR_ID : Z := 4332.
Definition RTL8139_DEVICE_ID : Z := 33081.
Definition REG_MAC0 : Z := 0.
Definition REG_TXSTATUS0 : Z := 16.
Definition REG_TXADDR0 : Z := 32.
Definition REG_RBSTART : Z := 48.
Definition REG_COMMAND : Z := 55.
Definition REG_CAPR : Z := 56.
Definition REG_IMR : Z := 60.
Definition REG_RCR : Z := 68.
Definition REG_CONFIG1 : Z := 82.

Definition RX_BYTES : Z := 8192 + 16 + 1518.

Record nic_state (D : Type) := mk_nic {
  io_base : Z; rx_buffer : list Z; rx_offset : Z;
  tx_buffers : list (list Z); tx_counter : Z; mac_address : list Z; n_dev : D
}.
Arguments mk_nic {D}.
Arguments io_base {D}. Arguments rx_buffer {D}. Arguments rx_offset {D}. Arguments tx_buffers {D}.
Arguments tx_counter {D}. Arguments mac_address {D}. Arguments n_dev {D}.

#[global] Instance nic_dev D : HasDev (nic_state D) D := {
  dev := n_dev;
  set_dev d s := mk_nic (io_base s) (rx_buffer s) (rx_offset s) (tx_buffers s) (tx_counter s)
                        (mac_address s) d
}.

(** [memcpy] between two distinct objects. *)
Definition blit (dst : list Z) (d : Z) (src : list Z) (s n : Z) : res (list Z) :=
  for_up (Z.to_nat n) 0 (fun i b => v ← rd src (s + i); wr b (d + i) v) dst.

Section Driver.
Context {D : Type} `{Ports D}.
(** Bus addresses of the static buffers. *)
Context (rx_addr : Z) (tx_addr : Z -> Z).
Abbreviation NM := (M (nic_state D)).

Definition set_io_base (v : Z) : NM unit := modify (fun s =>
  mk_nic v (rx_buffer s) (rx_offset s) (tx_buffers s) (tx_counter s) (mac_address s) (n_dev s)).
Definition set_rx_offset (v : Z) : NM unit := modify (fun s =>
  mk_nic (io_base s) (rx_buffer s) v (tx_buffers s) (tx_counter s) (mac_address s) (n_dev s)).
Definition set_tx (b : list (list Z)) (c : Z) : NM unit := modify (fun s =>
  mk_nic (io_base s) (rx_buffer s) (rx_offset s) b c (mac_address s) (n_dev s)).
Definition set_mac (m : list Z) : NM unit := modify (fun s =>
  mk_nic (io_base s) (rx_buffer s) (rx_offset s) (tx_buffers s) (tx_counter s) m (n_dev s)).

(** ** PCI configuration space *)

Definition pci_address (bus slot func offset : Z) : Z :=
  u32 (Z.lor (Z.lor (Z.lor (Z.lor (Z.shiftl bus 16) (Z.shiftl slot 11)) (Z.shiftl func 8))
                    (Z.land offset 252)) 2147483648).

Definition pci_read_config (bus slot func offset : Z) : NM Z :=
  _ ← outl 3320 (pci_address bus slot func offset);
  val ← inl 3324;
  if offset =? 16 then mret val
  else mret (Z.land (Z.shiftr val (Z.land offset 2 * 8)) 65535).

Definition pci_write_config_dword (bus slot func offset val : Z) : NM unit :=
  _ ← outl 3320 (pci_address bus slot func offset);
  outl 3324 val.

(** [while (inb(...) & 0x10) { timeout++; if (timeout > 1000000) return 0; }];
    [false] is the time-out. *)
Fixpoint reset_wait (fuel : nat) (port : Z) : NM bool :=
  match fuel with
  | O => mret false
  | S f => v ← inb port; if Z.land v 16 =? 0 then mret true else reset_wait f port
  end.

Fixpoint read_mac (n : nat) (i port : Z) : NM unit :=
  match n with
  | O => skip
  | S n =>
      v ← inb (port + i);
      mac ← gets mac_address;
      mac ← lift (wr mac i v);
      _ ← set_mac mac;
      read_mac n (i + 1) port
  end.

(** The body of the scan once the card is found. *)
Definition bring_up (bus slot : Z) : NM Z :=
  bar0 ← pci_read_config bus slot 0 16;
  let io := Z.land bar0 4294967292 in
  _ ← set_io_base io;
  if (io =? 0) || (io =? 65532) then mret 0
  else
    pci_cmd ← pci_read_config bus slot 0 4;
    _ ← pci_write_config_dword bus slot 0 4 (Z.lor pci_cmd 4);
    _ ← outb (io + REG_CONFIG1) 0;
    _ ← outb (io + REG_COMMAND) 16;
    ok ← reset_wait (Z.to_nat 1000001) (io + REG_COMMAND);
    if negb ok then mret 0
    else
      _ ← read_mac 6 0 (io + REG_MAC0);
      _ ← outl (io + REG_RBSTART) rx_addr;
      _ ← outw (io + REG_IMR) 0;
      _ ← outl (io + REG_RCR) 143;
      _ ← outb (io + REG_COMMAND) 12;
      mret 1.

(** The slots of a bus; [None] means go on with the next bus. *)
Fixpoint scan_slots (n : nat) (bus slot : Z) : NM (option Z) :=
  match n with
  | O => mret None
  | S n =>
      vendor ← pci_read_config bus slot 0 0;
      device ← pci_read_config bus slot 0 2;
      if (vendor =? RTL8139_VENDOR_ID) && (device =? RTL8139_DEVICE_ID)
      then r ← bring_up bus slot; mret (Some r)
      else scan_slots n bus (slot + 1)
  end.

Fixpoint scan_buses (n : nat) (bus : Z) : NM Z :=
  match n with
  | O => mret 0
  | S n =>
      r ← scan_slots 32 bus 0;
      match r with Some v => mret v | None => scan_buses n (bus + 1) end
  end.

Definition init_rtl8139 : NM Z := scan_buses 256 0.

(** ** Transmission *)

Definition nic_transmit_packet (buffer : option (list Z)) (length : Z) : NM unit :=
  io ← gets io_base;
  if (io =? 0) || (io =? 65532) then skip
  else match buffer with
  | None => skip
  | Some buf =>
      if (1536 <? length) || (length =? 0) then skip
      else
        c ← gets tx_counter;
        bufs ← gets tx_buffers;
        slot ← lift (or_fault (bufs !! Z.to_nat c));
        slot' ← lift (blit slot 0 buf 0 length);
        _ ← set_tx (<[Z.to_nat c := slot']> bufs) c;
        _ ← outl (u32 (io + REG_TXADDR0 + c * 4)) (tx_addr c);
        _ ← outl (u32 (io + REG_TXSTATUS0 + c * 4)) (Z.land length 8191);
        _ ← set_tx (<[Z.to_nat c := slot']> bufs) (u8 ((c + 1) mod 4));
        skip
  end.

(** ** Reception *)

(** A little-endian 16-bit word of the receive buffer. *)
Definition rd16 (b : list Z) (i : Z) : res Z :=
  lo ← rd b i; hi ← rd b (i + 1); Ok (lo + hi * 256).

(** [rx_offset = (offset + length + 4 + 3) & ~3], wrapped at 8192. *)
Definition next_offset (offset length : Z) : Z :=
  let o := Z.land (u32 (offset + length + 4 + 3)) 4294967292 in
  if 8192 <=? o then u32 (o - 8192) else o.

(** Returns the length and the caller's buffer. [length - 4] is an [int];
    [memcpy] takes it as a 32-bit [size_t]. *)
Definition nic_poll_received_packet (buffer : list Z) : NM (Z * list Z) :=
  io ← gets io_base;
  if io =? 0 then mret (0, buffer)
  else
    cmd ← inb (io + REG_COMMAND);
    if truth (Z.land cmd 1) then mret (0, buffer)
    else
      offset ← gets rx_offset;
      rx ← gets rx_buffer;
      status ← lift (rd16 rx offset);
      length ← lift (rd16 rx (offset + 2));
      if truth (Z.land status 1) then
        buffer ← lift (blit buffer 0 rx (offset + 4) (u32 (length - 4)));
        let o := next_offset offset length in
        _ ← set_rx_offset o;
        _ ← outw (io + REG_CAPR) (u32 (o - 16));
        mret (u32 (length - 4), buffer)
      else
        let length := if (length =? 0) || (1536 <? length) then 64 else length in
        let o := next_offset offset length in
        _ ← set_rx_offset o;
        _ ← outw (io + REG_CAPR) (u32 (o - 16));
        mret (0, buffer).

(** ** The lwIP glue *)

(** Concatenate a pbuf chain into the 1518-byte frame, dropping the excess. *)
Fixpoint gather (chain : list (list Z)) (acc : list Z) : list Z :=
  match chain with
  | [] => acc
  | q :: r => gather r (fold_left (fun acc b => if zlen acc <? 1518 then acc ++ [b] else acc) q acc)
  end.

Definition low_level_output (p : list (list Z)) : NM unit :=
  let tx_buffer := gather p [] in
  nic_transmit_packet (Some tx_buffer) (zlen tx_buffer).

End Driver.

(** The calls the glue makes into lwIP; [None] is a failed allocation, and the
    boolean of [netif_input] is [ERR_OK]. *)
Class LwIP (N : Type) := {
  pbuf : Type;
  pbuf_alloc : Z -> N -> option pbuf * N;
  pbuf_take : pbuf -> list Z -> N -> N;
  netif_input : pbuf -> N -> bool * N;
  pbuf_free : pbuf -> N -> N
}.

Section Glue.
Context {D N : Type} `{Ports D} `{LwIP N}.

(** Handing one frame to the stack. *)
Definition deliver (frame : list Z) (packet_len : Z) (n : N) : N :=
  let '(p, n) := pbuf_alloc packet_len n in
  match p with
  | None => n
  | Some p =>
      let n := pbuf_take p (take (Z.to_nat packet_len) frame) n in
      let '(ok, n) := netif_input p n in
      if ok then n else pbuf_free p n
  end.

Fixpoint poll_loop (fuel : nat) (packet_len : Z) (rx_temp_buffer : list Z) (n : N)
  : M (nic_state D) (list Z * N) :=
  match fuel with
  | O => lift NoFuel
  | S f =>
      if 0 <? packet_len then
        let n := deliver rx_temp_buffer packet_len n in
        '(len, buf) ← nic_poll_received_packet rx_temp_buffer;
        poll_loop f len buf n
      else mret (rx_temp_buffer, n)
  end.

Definition netif_driver_poll (fuel : nat) (rx_temp_buffer : list Z) (n : N)
  : M (nic_state D) (list Z * N) :=
  '(len, buf) ← nic_poll_received_packet rx_temp_buffer;
  poll_loop fuel len buf n.

End Glue.

(** [netif_driver_init]: the interface record it fills in; the flags are
    BROADCAST 2, LINK_UP 4, ETHARP 8, ETHERNET 16. *)
Record netif := mk_netif { nif_name : list Z; nif_mtu : Z; nif_flags : Z; hwaddr_len : Z; hwaddr : list Z }.

Definition netif_driver_init (mac : list Z) (nif : netif) : res netif :=
  hw ← for_up 6 0 (fun i h => v ← rd mac i; wr h i v) (hwaddr nif);
  Ok (mk_netif [101; 110] 1500 (Z.lor (Z.lor (Z.lor 2 8) 4) (Z.lor (Z.lor 2 8) 16)) 6 hw).

(** ** Copying *)

Lemma blit_spec dst d src s n :
  0 <= d -> 0 <= s -> 0 <= n -> d + n <= zlen dst -> s + n <= zlen src ->
  exists dst', blit dst d src s n = Ok dst' /\ length dst' = length dst /\
    forall i, 0 <= i -> get dst' i = if (d <=? i) && (i <? d + n) then get src (s + (i - d)) else get dst i.
Proof.
  intros Hd Hs Hn Hld Hls. unfold blit.
  destruct (for_up_inv (fun k b => length b = length dst /\ forall i, 0 <= i ->
      get b i = if (d <=? i) && (i <? d + k) then get src (s + (i - d)) else get dst i)
    (Z.to_nat n) 0 (fun i b => v ← rd src (s + i); wr b (d + i) v) dst) as (dst' & E & Hl & Hg).
  - intros k b Hk [Hl Hg]. rewrite rd_in by lia. rewrite bind_Ok, wr_in by lia.
    eexists. split; [done|]. split; [by rewrite length_insert|]. intros i Hi.
    destruct (Z.eqb_spec i (d + k)) as [->|N].
    + rewrite get_insert_eq by lia. replace (s + (d + k - d)) with (s + k) by lia.
      destruct (Z.leb_spec d (d + k)), (Z.ltb_spec (d + k) (d + (k + 1))); try lia. done.
    + rewrite get_insert_ne, Hg by lia.
      destruct (Z.leb_spec d i), (Z.ltb_spec i (d + k)), (Z.ltb_spec i (d + (k + 1))); simpl; done || lia.
  - split; [done|]. intros i Hi. destruct (Z.leb_spec d i), (Z.ltb_spec i (d + 0)); simpl; done || lia.
  - exists dst'. split; [done|]. split; [done|]. intros i Hi. rewrite Hg by done.
    by rewrite Z.add_0_l, Z2Nat.id by lia.
Qed.

Lemma blit_prefix dst src s n :
  0 <= s -> 0 <= n <= zlen dst -> s + n <= zlen src ->
  exists dst', blit dst 0 src s n = Ok dst' /\ length dst' = length dst /\
    take (Z.to_nat n) dst' = take (Z.to_nat n) (drop (Z.to_nat s) src).
Proof.
  intros Hs Hn Hl. destruct (blit_spec dst 0 src s n) as (dst' & E & Hlen & Hg); [lia..|].
  exists dst'. split; [done|]. split; [done|]. apply get_eq_ext.
  - rewrite !length_take, length_drop. lia.
  - intros i Hi. rewrite length_take in Hi. unfold get. rewrite !nth_lookup, !lookup_take, lookup_drop.
    rewrite !decide_True by lia. specialize (Hg i ltac:(lia)). unfold get in Hg. rewrite !nth_lookup in Hg.
    destruct (Z.leb_spec 0 i), (Z.ltb_spec i (0 + n)); try lia. simpl in Hg.
    replace (Z.to_nat s + Z.to_nat i)%nat with (Z.to_nat (s + (i - 0))) by lia. done.
Qed.

(** ** Transmission *)

Record tx_ok {D} (s : nic_state D) : Prop := {
  tk_len : length (tx_buffers s) = 4%nat;
  tk_slots : Forall (fun b => length b = 1536%nat) (tx_buffers s);
  tk_counter : 0 <= tx_counter s < 4
}.

(** [nic_transmit_packet] puts an acceptable packet (1 to 1536 bytes, card present)
    into the transmit slot selected by the counter, gives the card that
    slot's address and then the length, and moves on to the next of the
    four slots, leaving the other slots alone; any other request changes
    nothing. *)
Theorem transmit_round_robin {D : Type} `{Ports D} (tx_addr : Z -> Z) (buf : list Z) (len : Z)
  (s : nic_state D) :
  tx_ok s -> 0 <= len <= zlen buf ->
  if (io_base s =? 0) || (io_base s =? 65532) || (1536 <? len) || (len =? 0)
  then nic_transmit_packet tx_addr (Some buf) len s = Ok (tt, s)
  else exists s' slot, nic_transmit_packet tx_addr (Some buf) len s = Ok (tt, s') /\ tx_ok s' /\
    tx_counter s' = (tx_counter s + 1) mod 4 /\
    tx_buffers s' = <[Z.to_nat (tx_counter s) := slot]> (tx_buffers s) /\
    take (Z.to_nat len) slot = take (Z.to_nat len) buf /\
    rx_offset s' = rx_offset s /\
    n_dev s' = p_outl (u16 (u32 (io_base s + REG_TXSTATUS0 + tx_counter s * 4))) (u32 (Z.land len 8191))
                 (p_outl (u16 (u32 (io_base s + REG_TXADDR0 + tx_counter s * 4))) (u32 (tx_addr (tx_counter s)))
                    (n_dev s)).
Proof.
  intros [Hl Hs Hc] Hlen. unfold nic_transmit_packet, mbind, M_bind, gets.
  destruct ((io_base s =? 0) || (io_base s =? 65532)); [done|]. simpl orb.
  destruct ((1536 <? len) || (len =? 0)) eqn:Eb; [done|].
  apply orb_false_iff in Eb as [E1 E2]. apply Z.ltb_ge in E1. apply Z.eqb_neq in E2.
  destruct (lookup_lt_is_Some_2 (tx_buffers s) (Z.to_nat (tx_counter s))) as [slot Eslot]; [lia|].
  rewrite Eslot. cbn [or_fault lift].
  assert (length slot = 1536%nat) as Hsl by (by eapply (Forall_lookup_1 _ _ _ _ Hs Eslot)).
  destruct (blit_prefix slot buf 0 len) as (slot' & -> & Hl' & Ht); [lia|lia|lia|]. cbn [lift].
  eexists _, slot'. split; [reflexivity|]. simpl.
  assert (u8 ((tx_counter s + 1) mod 4) = (tx_counter s + 1) mod 4) as -> by (apply u8_small; dlia).
  split; [split; simpl; [by rewrite length_insert|apply Forall_insert; [done|lia]|dlia]|].
  rewrite drop_0 in Ht. done.
Qed.

(** A card that records 32-bit writes. *)
Definition demo_nic : nic_state tape :=
  mk_nic 49152 (replicate 9726 0) 0 (replicate 4 (replicate 1536 0)) 3 (replicate 6 0) (mk_tape [] []).

Lemma transmit_round_robin_witness :
  exists s', nic_transmit_packet (fun c => 1000 + c) (Some [1; 2; 3]) 3 demo_nic = Ok (tt, s') /\
    tx_counter s' = 0 /\ t_log (n_dev s') = [(49196, 1003); (49180, 3)].
Proof.
  assert (tx_ok demo_nic) as Hok.
  { split; simpl; [done| |lia]. repeat (constructor; [done|]). constructor. }
  destruct (transmit_round_robin (fun c => 1000 + c) [1; 2; 3] 3 demo_nic Hok ltac:(simpl; lia))
    as (s' & slot & E & _ & Hc & _ & _ & _ & Hd).
  exists s'. split; [exact E|]. split; [rewrite Hc; reflexivity|]. rewrite Hd. reflexivity.
Defined.

(** [low_level_output] transmits the payload of a pbuf chain in order, cut to 1518 bytes. *)
Theorem low_level_output_frame {D : Type} `{Ports D} (tx_addr : Z -> Z) (chain : list (list Z)) :
  low_level_output (D := D) tx_addr chain =
  nic_transmit_packet tx_addr (Some (take 1518 (mjoin chain))) (Z.min 1518 (zlen (mjoin chain))).
Proof.
  unfold low_level_output.
  assert (forall (q acc : list Z), (length acc <= 1518)%nat ->
    fold_left (fun acc b => if zlen acc <? 1518 then acc ++ [b] else acc) q acc = take 1518 (acc ++ q)) as K.
  { intros q. induction q as [|b q IH]; intros acc Hl; simpl.
    - rewrite app_nil_r, take_ge by lia. done.
    - destruct (Z.ltb_spec (zlen acc) 1518).
      + rewrite IH by (rewrite length_app; simpl; lia). by rewrite <- app_assoc.
      + rewrite IH by lia. rewrite !take_app_le by lia. done. }
  assert (forall (ch : list (list Z)) (acc : list Z), (length acc <= 1518)%nat -> gather ch acc = take 1518 (acc ++ mjoin ch)) as G.
  { intros ch. induction ch as [|q r IH]; intros acc Hl; simpl.
    - rewrite app_nil_r, take_ge by lia. done.
    - rewrite K, IH by (rewrite ?length_take; lia). rewrite app_assoc.
      destruct (decide (length (acc ++ q) <= 1518)%nat).
      + by rewrite (take_ge (acc ++ q)) by lia.
      + rewrite (take_app_le (take _ _)), (take_app_le (acc ++ q)) by (rewrite ?length_take; lia).
        by rewrite take_take, Nat.min_id. }
  rewrite G by (simpl; lia). cbn [app]. f_equal. rewrite length_take. lia.
Qed.

(** ** Reception *)

(** The receive side of the card at [io]: bit 0 of the command register is the
    buffer-empty flag, and writing CAPR releases one packet. *)
Class RtlRing (D : Type) `{Ports D} (io : Z) := {
  avail : D -> nat;
  ring_cmd : forall d, let r := p_inb (u16 (io + 55)) d in
    (truth (Z.land (u8 r.1) 1) = true <-> avail d = O) /\ avail r.2 = avail d;
  ring_capr : forall v d, avail (p_outw (u16 (io + 56)) v d) = Nat.pred (avail d)
}.

(** A good packet [p] at [off]: status word, length including the CRC, data. *)
Definition packet_at (rx : list Z) (off : Z) (p : list Z) : Prop :=
  0 <= off < 8192 /\ off mod 4 = 0 /\ 0 < zlen p <= 1518 /\
  truth (Z.land (get rx off + get rx (off + 1) * 256) 1) = true /\
  get rx (off + 2) + get rx (off + 3) * 256 = zlen p + 4 /\
  take (length p) (drop (Z.to_nat (off + 4)) rx) = p.

(** The packets the card has queued, from the read offset on. *)
Inductive queued (rx : list Z) : Z -> list (list Z) -> Prop :=
| queued_nil off : 0 <= off < 8192 -> off mod 4 = 0 -> queued rx off []
| queued_cons off p ps : packet_at rx off p ->
    queued rx (next_offset off (zlen p + 4)) ps -> queued rx off (p :: ps).

Lemma queued_cons_inv rx off p ps :
  queued rx off (p :: ps) -> packet_at rx off p /\ queued rx (next_offset off (zlen p + 4)) ps.
Proof. intros Hq. by inversion Hq. Qed.

Lemma queued_nil_inv rx off : queued rx off [] -> 0 <= off < 8192 /\ off mod 4 = 0.
Proof. intros Hq. by inversion Hq. Qed.

(** The advance to the next packet is the aligned length, modulo the ring. *)
Lemma next_offset_spec off len :
  0 <= off < 8192 -> off mod 4 = 0 -> 0 <= len <= 1536 ->
  0 <= next_offset off len < 8192 /\ next_offset off len mod 4 = 0 /\
  next_offset off len = (off + (len + 7) / 4 * 4) mod 8192.
Proof.
  intros Ho Hm Hl. unfold next_offset. rewrite (u32_small (off + len + 4 + 3)) by lia.
  assert (Z.land (off + len + 4 + 3) 4294967292 = 4 * ((off + len + 4 + 3) / 4)) as ->.
  { apply (land_clear_low _ 2 32); [lia|]. change (2 ^ 32) with 4294967296. lia. }
  destruct (Z.leb_spec 8192 (4 * ((off + len + 4 + 3) / 4))).
  - rewrite u32_small by dlia. dlia.
  - dlia.
Qed.

Section Receive.
#[local] Set Default Proof Using "Type".
Context {D : Type} `{Ports D} (io : Z) `{!RtlRing D io}.

Lemma poll_empty (s : nic_state D) buf :
  io_base s = io -> avail (n_dev s) = O ->
  exists s', nic_poll_received_packet buf s = Ok ((0, buf), s') /\ avail (n_dev s') = O /\
    rx_offset s' = rx_offset s /\ rx_buffer s' = rx_buffer s /\ io_base s' = io.
Proof.
  intros Hio Hav. unfold nic_poll_received_packet, mbind, M_bind, gets. rewrite Hio.
  destruct (io =? 0); [by exists s|]. unfold inb. change (dev s) with (n_dev s).
  destruct (ring_cmd (n_dev s)) as [He Hk]. change (io + REG_COMMAND) with (io + 55).
  rewrite (proj2 He) by done. eexists. split; [reflexivity|]. simpl. by rewrite Hk.
Qed.

Lemma poll_packet (s : nic_state D) buf (p : list Z) (ps : list (list Z)) :
  io_base s = io -> io <> 0 -> avail (n_dev s) = S (length ps) -> zlen (rx_buffer s) = RX_BYTES ->
  zlen buf = 2048 -> packet_at (rx_buffer s) (rx_offset s) p ->
  exists s' buf', nic_poll_received_packet buf s = Ok ((zlen p, buf'), s') /\
    zlen buf' = 2048 /\ take (length p) buf' = p /\ io_base s' = io /\ avail (n_dev s') = length ps /\
    rx_buffer s' = rx_buffer s /\ rx_offset s' = next_offset (rx_offset s) (zlen p + 4).
Proof.
  intros Hio Hnz Hav Hrx Hbuf (Ho & Hm & Hp & Hst & Hlen & Hdata).
  unfold RX_BYTES in Hrx. unfold nic_poll_received_packet, mbind, M_bind, gets. rewrite Hio.
  destruct (Z.eqb_spec io 0); [done|]. unfold inb. change (dev s) with (n_dev s).
  destruct (ring_cmd (n_dev s)) as [He Hk]. change (io + REG_COMMAND) with (io + 55).
  destruct (truth (Z.land (u8 _) 1)); [destruct He as [He _]; specialize (He eq_refl); lia|].
  cbn [rx_offset rx_buffer set_dev nic_dev io_base].
  unfold rd16. rewrite !rd_in by lia. rewrite !bind_Ok. cbn [lift].
  replace (rx_offset s + 2 + 1) with (rx_offset s + 3) by lia. rewrite Hst, Hlen.
  replace (u32 (zlen p + 4 - 4)) with (zlen p) by (rewrite u32_small by lia; lia).
  destruct (blit_prefix buf (rx_buffer s) (rx_offset s + 4) (zlen p)) as (buf' & -> & Hl & Ht); [lia..|].
  cbn [lift]. eexists _, buf'. split; [reflexivity|]. simpl. split; [lia|].
  rewrite Nat2Z.id in Ht. split; [congruence|]. split; [done|].
  split; [|done]. change (io + REG_CAPR) with (io + 56). rewrite ring_capr, Hk, Hav. done.
Qed.

Context {N : Type} `{LwIP N}.

Lemma deliver_prefix frame (p : list Z) (n : N) :
  take (length p) frame = p -> deliver frame (zlen p) n = deliver p (zlen p) n.
Proof.
  intros Ht. unfold deliver. rewrite Nat2Z.id, Ht. by rewrite (take_ge p (length p)) by lia.
Qed.

Lemma poll_loop_drains ps : forall (s : nic_state D) p buf fuel (n : N),
  io_base s = io -> io <> 0 -> avail (n_dev s) = length ps -> zlen (rx_buffer s) = RX_BYTES ->
  zlen buf = 2048 -> queued (rx_buffer s) (rx_offset s) ps -> (length ps + 1 < fuel)%nat ->
  take (length p) buf = p -> 0 < zlen p ->
  exists s' buf', poll_loop fuel (zlen p) buf n s =
      Ok ((buf', fold_left (fun n p => deliver p (zlen p) n) (p :: ps) n), s') /\
    avail (n_dev s') = O /\ queued (rx_buffer s) (rx_offset s') [] /\
    rx_buffer s' = rx_buffer s /\ io_base s' = io /\ zlen buf' = 2048.
Proof.
  induction ps as [|q ps IH]; intros s p buf fuel n Hio Hnz Hav Hrx Hbuf Hq Hf Ht Hp;
    (destruct fuel as [|[|fuel]]; [simpl in Hf; lia|simpl in Hf; lia|]); cbn [poll_loop];
    (destruct (Z.ltb_spec 0 (zlen p)); [|lia]); cbv zeta; rewrite (deliver_prefix buf p n Ht).
  - destruct (poll_empty s buf Hio Hav) as (s' & E & Ha & Ho & Hr & Hi).
    rewrite (m_bind_Ok _ _ _ _ _ E). exists s', buf. split; [reflexivity|]. split; [done|].
    by rewrite Ho.
  - destruct (queued_cons_inv _ _ _ _ Hq) as [Hpk Hrest].
    destruct (poll_packet s buf q ps) as (s1 & buf1 & E & Hl1 & Ht1 & Hio1 & Ha1 & Hr1 & Ho1); try done.
    rewrite (m_bind_Ok _ _ _ _ _ E). destruct Hpk as (_ & _ & Hq0 & _).
    destruct (IH s1 q buf1 (S fuel) (deliver p (zlen p) n)) as (s2 & buf2 & E2 & Ha2 & Hq2 & Hr2 & Hi2 & Hb2);
      rewrite ?Hr1, ?Ho1; try done; [simpl in Hf; lia|lia|].
    exists s2, buf2. split; [exact E2|]. split; [done|]. rewrite Hr1 in Hq2, Hr2. done.
Qed.

End Receive.

(** A driver that can be polled: no card, or one whose queued packets [pkts]
    are well formed. *)
Definition pollable {D} `{Ports D} (fuel : nat) (buf : list Z) (s : nic_state D) : Prop :=
  (0 < fuel)%nat /\ (io_base s = 0 \/
   exists io (R : RtlRing D io) pkts, io_base s = io /\ io <> 0 /\ zlen (rx_buffer s) = RX_BYTES /\ zlen buf = 2048 /\
     avail (n_dev s) = length pkts /\ queued (rx_buffer s) (rx_offset s) pkts /\ (length pkts < fuel)%nat).

Lemma drain_ok {D N : Type} `{Ports D} (io : Z) `{!RtlRing D io} `{LwIP N}
  (fuel : nat) (buf : list Z) (n : N) (s : nic_state D) (pkts : list (list Z)) :
  io_base s = io -> io <> 0 -> zlen (rx_buffer s) = RX_BYTES -> zlen buf = 2048 ->
  avail (n_dev s) = length pkts -> queued (rx_buffer s) (rx_offset s) pkts ->
  (length pkts < fuel)%nat ->
  exists s' buf', netif_driver_poll fuel buf n s =
      Ok ((buf', fold_left (fun n p => deliver p (zlen p) n) pkts n), s') /\
    avail (n_dev s') = O /\ queued (rx_buffer s) (rx_offset s') [] /\ rx_buffer s' = rx_buffer s /\ io_base s' = io /\ zlen buf' = 2048.
Proof.
  intros Hio Hnz Hrx Hbuf Hav Hq Hf. unfold netif_driver_poll. destruct pkts as [|p ps].
  - destruct (poll_empty io s buf Hio Hav) as (s' & E & Ha & Ho & Hr & Hi). rewrite (m_bind_Ok _ _ _ _ _ E).
    destruct fuel as [|fuel]; [simpl in Hf; lia|]. exists s', buf. split; [reflexivity|]. split; [done|].
    by rewrite Ho.
  - destruct (queued_cons_inv _ _ _ _ Hq) as [Hpk Hrest].
    destruct (poll_packet io s buf p ps) as (s1 & buf1 & E & Hl1 & Ht1 & Hio1 & Ha1 & Hr1 & Ho1);
      try done.
    rewrite (m_bind_Ok _ _ _ _ _ E). destruct Hpk as (_ & _ & Hp0 & _).
    destruct (poll_loop_drains io ps s1 p buf1 fuel n) as (s2 & buf2 & E2 & Ha2 & Hq2 & Hr2 & Hi2 & Hb2);
      rewrite ?Hr1, ?Ho1; try done; [simpl in Hf; lia|lia|].
    exists s2, buf2. split; [exact E2|]. split; [done|]. rewrite Hr1 in Hq2, Hr2. done.
Qed.

(** Polling returns and leaves a driver that can be polled again. *)
Lemma poll_again {D N : Type} `{Ports D} `{LwIP N} (fuel : nat) (buf : list Z) (n : N) (s : nic_state D) : pollable fuel buf s ->
  exists buf' n' s', netif_driver_poll fuel buf n s = Ok ((buf', n'), s') /\ pollable fuel buf' s'.
Proof.
  intros [Hf [E0|(io & R & pkts & Hio & Hnz & Hrx & Hb & Hav & Hq & Hl)]].
  - destruct fuel as [|f]; [lia|]. exists buf, n, s. split; [|split; [lia|by left]]. unfold netif_driver_poll, nic_poll_received_packet, mbind, M_bind, gets. by rewrite E0.
  - destruct (drain_ok io fuel buf n s pkts Hio Hnz Hrx Hb Hav Hq Hl) as (s' & buf' & E & Ha & Hq' & Hr' & Hi' & Hb'). eexists buf', _, s'. split; [exact E|].
    split; [done|]. right. exists io, R, []. rewrite Hr'. by split_and!.
Qed.

(** [netif_driver_poll] drains the receive ring: each packet the card has
    queued is handed to lwIP exactly once, in order and with exactly its
    bytes, the card is told after each one, and the read offset ends aligned
    inside the 8 KB ring. *)
Theorem netif_driver_poll_drains {D N : Type} `{Ports D} (io : Z) `{!RtlRing D io} `{LwIP N}
  (fuel : nat) (buf : list Z) (n : N) (s : nic_state D) (pkts : list (list Z)) :
  io_base s = io -> io <> 0 -> zlen (rx_buffer s) = RX_BYTES -> zlen buf = 2048 ->
  avail (n_dev s) = length pkts -> queued (rx_buffer s) (rx_offset s) pkts ->
  (length pkts < fuel)%nat ->
  exists s' buf', netif_driver_poll fuel buf n s =
      Ok ((buf', fold_left (fun n p => deliver p (zlen p) n) pkts n), s') /\
    avail (n_dev s') = O /\ 0 <= rx_offset s' < 8192 /\ rx_offset s' mod 4 = 0.
Proof.
  intros Hio Hnz Hrx Hbuf Hav Hq Hf. destruct (drain_ok io fuel buf n s pkts Hio Hnz Hrx Hbuf Hav Hq Hf) as (s' & buf' & E & Ha & Hq' & _).
  exists s', buf'. split; [exact E|]. split; [done|]. by apply queued_nil_inv in Hq'.
Qed.

(** *** A concrete card and stack *)

Record card := mk_card { queued_packets : nat }.
#[global] Instance card_ports : Ports card := {
  p_inb port d := (if port =? 49207 then if (queued_packets d =? 0)%nat then 1 else 0 else 0, d);
  p_outb _ _ d := d; p_inw _ d := (0, d);
  p_outw port _ d := if port =? 49208 then mk_card (Nat.pred (queued_packets d)) else d;
  p_inl _ d := (0, d); p_outl _ _ d := d
}.
#[global] Instance card_ring : RtlRing card 49152.
Proof.
  refine {| avail := queued_packets |}.
  - intros [n]. simpl. destruct n; simpl; split; done.
  - done.
Defined.

(** A stack that keeps the frames it is given. *)
Record frames := mk_frames { scratch_frame : list Z; accepted : list (list Z) }.
#[global] Instance frames_lwip : LwIP frames := {
  pbuf := unit;
  pbuf_alloc _ n := (Some tt, n);
  pbuf_take _ b n := mk_frames b (accepted n);
  netif_input _ n := (true, mk_frames [] (accepted n ++ [scratch_frame n]));
  pbuf_free _ n := n
}.

(** One packet of three bytes at offset 8188, its data past the ring's end. *)
Definition demo_rx : list Z :=
  replicate 8188 0 ++ [1; 0; 7; 0; 10; 20; 30] ++ replicate 1531 0.

Lemma netif_driver_poll_drains_witness :
  exists s' buf', netif_driver_poll 5 (replicate 2048 0) (mk_frames [] [])
      (mk_nic 49152 demo_rx 8188 [] 0 [] (mk_card 1)) = Ok ((buf', mk_frames [] [[10; 20; 30]]), s') /\
    rx_offset s' mod 4 = 0.
Proof.
  destruct (netif_driver_poll_drains 49152 5 (replicate 2048 0) (mk_frames [] [])
    (mk_nic 49152 demo_rx 8188 [] 0 [] (mk_card 1)) [[10; 20; 30]]) as (s' & buf' & E & _ & _ & Hm).
  - reflexivity.
  - discriminate.
  - vm_compute. reflexivity.
  - rewrite length_replicate. reflexivity.
  - reflexivity.
  - apply queued_cons.
    + unfold packet_at. vm_compute. repeat split; try reflexivity; discriminate.
    + apply queued_nil; vm_compute; [split; [discriminate|reflexivity]|reflexivity].
  - simpl. lia.
  - exists s', buf'. split; [exact E|exact Hm].
Defined.

(** ** The PCI scan *)

(** Mechanism #1: a dword selected through 0xCF8 is read through 0xCFC. *)
Class PciBus (D : Type) `{Ports D} := {
  pci_cfg : D -> Z -> Z;
  pci_sel : D -> Z;
  pci_select : forall a d, pci_sel (p_outl 3320 a d) = a /\ pci_cfg (p_outl 3320 a d) = pci_cfg d;
  pci_data : forall d, let r := p_inl 3324 d in
    u32 r.1 = pci_cfg d (pci_sel d) /\ pci_cfg r.2 = pci_cfg d
}.

Section Scan.
#[local] Set Default Proof Using "Type".
Context {D : Type} `{PciBus D} (rx_addr : Z).

(** Same driver variables and configuration space; the selected dword may differ. *)
Definition same_nic (s s' : nic_state D) : Prop :=
  exists d, s' = set_dev d s /\ pci_cfg d = pci_cfg (n_dev s).

Lemma same_nic_refl s : same_nic s s.
Proof. exists (n_dev s). by destruct s. Qed.

Lemma same_nic_trans s1 s2 s3 : same_nic s1 s2 -> same_nic s2 s3 -> same_nic s1 s3.
Proof. intros (d & -> & E1) (d' & -> & E2). exists d'. simpl in *. split; [done|congruence]. Qed.

(** The id words of a slot. *)
Definition is_card (cfg : Z -> Z) (bus slot : Z) : bool :=
  let v := cfg (pci_address bus slot 0 0) in
  (Z.land v 65535 =? RTL8139_VENDOR_ID) && (Z.land (Z.shiftr v 16) 65535 =? RTL8139_DEVICE_ID).

Lemma pci_read_half bus slot offset s :
  offset = 0 \/ offset = 2 ->
  exists s', pci_read_config bus slot 0 offset s =
      Ok (Z.land (Z.shiftr (pci_cfg (n_dev s) (pci_address bus slot 0 0)) (offset * 8)) 65535, s') /\
    same_nic s s'.
Proof.
  intros Ho. unfold pci_read_config, mbind, M_bind, outl, inl. change (u16 3320) with 3320.
  change (u16 3324) with 3324. cbn [dev set_dev nic_dev n_dev].
  assert (pci_address bus slot 0 offset = pci_address bus slot 0 0) as -> by (destruct Ho as [-> | ->]; done).
  rewrite (u32_small (pci_address _ _ _ _)) by apply u32_bound.
  destruct (pci_select (pci_address bus slot 0 0) (n_dev s)) as [S1 S2].
  destruct (pci_data (p_outl 3320 (pci_address bus slot 0 0) (n_dev s))) as [V1 V2].
  rewrite V1, S1, S2. eexists. split; [destruct Ho as [-> | ->]; reflexivity|].
  eexists. split; [reflexivity|]. congruence.
Qed.

Lemma scan_slots_spec n bus slot s :
  (exists k s', (k < n)%nat /\ is_card (pci_cfg (n_dev s)) bus (slot + Z.of_nat k) = true /\
     (forall j, (j < k)%nat -> is_card (pci_cfg (n_dev s)) bus (slot + Z.of_nat j) = false) /\
     same_nic s s' /\
     scan_slots rx_addr n bus slot s =
       (r ← bring_up rx_addr bus (slot + Z.of_nat k); mret (Some r)) s') \/
  (exists s', (forall j, (j < n)%nat -> is_card (pci_cfg (n_dev s)) bus (slot + Z.of_nat j) = false) /\
     same_nic s s' /\ scan_slots rx_addr n bus slot s = Ok (None, s')).
Proof.
  revert slot s. induction n as [|n IH]; intros slot s.
  { right. exists s. split; [lia|]. split; [apply same_nic_refl|done]. }
  cbn [scan_slots].
  destruct (pci_read_half bus slot 0 s) as (s1 & E1 & R1); [by left|].
  destruct (pci_read_half bus slot 2 s1) as (s2 & E2 & R2); [by right|].
  rewrite (m_bind_Ok _ _ _ _ _ E1), (m_bind_Ok _ _ _ _ _ E2).
  assert (pci_cfg (n_dev s1) = pci_cfg (n_dev s)) as C1 by (by destruct R1 as (? & -> & ?)).
  assert (pci_cfg (n_dev s2) = pci_cfg (n_dev s)) as C2
    by (destruct R2 as (? & -> & ?); simpl; congruence).
  rewrite C1. change (0 * 8) with 0. change (2 * 8) with 16. rewrite Z.shiftr_0_r.
  fold (is_card (pci_cfg (n_dev s)) bus slot).
  pose proof (same_nic_trans _ _ _ R1 R2) as R.
  destruct (is_card (pci_cfg (n_dev s)) bus slot) eqn:Ec.
  - left. exists O, s2. rewrite Z.add_0_r. split; [lia|]. split; [done|]. split; [lia|]. done.
  - assert (forall j, slot + Z.of_nat (S j) = slot + 1 + Z.of_nat j) as Hs by (intros; lia).
    destruct (IH (slot + 1) s2) as [(k & s' & Hk & Hc & Hb & Hr & E)|(s' & Hb & Hr & E)]; rewrite C2 in *.
    + left. exists (S k), s'. rewrite Hs. split; [lia|]. split; [done|].
      split; [|split; [by eapply same_nic_trans|done]].
      intros [|j] Hj; [by rewrite Z.add_0_r|]. rewrite Hs. apply Hb. lia.
    + right. exists s'. split; [|split; [by eapply same_nic_trans|done]].
      intros [|j] Hj; [by rewrite Z.add_0_r|]. rewrite Hs. apply Hb. lia.
Qed.

End Scan.

Lemma scan_buses_none {D : Type} `{PciBus D} (rx_addr : Z) n bus (s : nic_state D) :
  (forall b k, bus <= b < bus + Z.of_nat n -> (k < 32)%nat ->
     is_card (pci_cfg (n_dev s)) b (0 + Z.of_nat k) = false) ->
  exists s', scan_buses rx_addr n bus s = Ok (0, s') /\ same_nic s s'.
Proof.
  revert bus s. induction n as [|n IH]; intros bus s Hn; cbn [scan_buses].
  { exists s. split; [done|apply same_nic_refl]. }
  destruct (scan_slots_spec rx_addr 32 bus 0 s) as [(k & s' & Hk & Hc & _)|(s' & _ & Hr & E)].
  { rewrite Hn in Hc by lia. done. }
  rewrite (m_bind_Ok _ _ _ _ _ E).
  destruct (IH (bus + 1) s') as (s2 & E2 & R2).
  - destruct Hr as (d & -> & Ed). simpl. rewrite Ed. intros b k Hb Hk. apply Hn; lia.
  - exists s2. split; [exact E2|]. by eapply same_nic_trans.
Qed.

Lemma scan_buses_first {D : Type} `{PciBus D} (rx_addr : Z) n bus0 (s : nic_state D) b k :
  bus0 <= b < bus0 + Z.of_nat n -> (k < 32)%nat ->
  is_card (pci_cfg (n_dev s)) b (Z.of_nat k) = true ->
  (forall b' k', bus0 <= b' -> (k' < 32)%nat -> b' < b \/ (b' = b /\ (k' < k)%nat) ->
     is_card (pci_cfg (n_dev s)) b' (Z.of_nat k') = false) ->
  exists s', same_nic s s' /\ scan_buses rx_addr n bus0 s = bring_up rx_addr b (Z.of_nat k) s'.
Proof.
  revert bus0 s. induction n as [|n IH]; intros bus0 s Hb Hk Hc Hf; [lia|]. cbn [scan_buses].
  destruct (scan_slots_spec rx_addr 32 bus0 0 s) as [(j & s' & Hj & Hcj & Hbj & Hr & E)|(s' & Hno & Hr & E)].
  - rewrite Z.add_0_l in Hcj. assert (b = bus0 /\ j = k) as [-> ->].
    { destruct (decide (b = bus0)) as [->|]; [split; [done|]|rewrite Hf in Hcj by lia; done].
      destruct (decide (j < k)%nat); [rewrite Hf in Hcj by lia; done|].
      destruct (decide (k < j)%nat); [|lia]. specialize (Hbj k ltac:(lia)). rewrite Z.add_0_l in Hbj. congruence. }
    exists s'. split; [done|]. unfold mbind at 1, M_bind at 1. rewrite E, Z.add_0_l.
    unfold mbind, M_bind. by destruct (bring_up _ _ _ _) as [[v s2]| | |].
  - rewrite (m_bind_Ok _ _ _ _ _ E). destruct Hr as (d & -> & Ed).
    assert (b <> bus0) by (intros ->; specialize (Hno k Hk); rewrite Z.add_0_l in Hno; congruence).
    destruct (IH (bus0 + 1) (set_dev d s)) as (s2 & R2 & E2); [lia|done|by simpl; rewrite Ed| |].
    + simpl. rewrite Ed. intros b' k' Hb' Hk' Hlt. apply Hf; [lia|done|done].
    + exists s2. split; [|done]. eapply same_nic_trans; [|exact R2]. by exists d.
Qed.

(** The PCI scan visits all 256 buses and 32 slots in order: with no RTL8139
    present it returns 0 and leaves the driver's variables alone; otherwise
    it brings up exactly the first one in bus/slot order. *)
Theorem init_rtl8139_scan {D : Type} `{PciBus D} (rx_addr : Z) (s : nic_state D) :
  ((forall b k, 0 <= b < 256 -> (k < 32)%nat -> is_card (pci_cfg (n_dev s)) b (Z.of_nat k) = false) ->
     exists s', init_rtl8139 rx_addr s = Ok (0, s') /\ same_nic s s') /\
  (forall b k, 0 <= b < 256 -> (k < 32)%nat -> is_card (pci_cfg (n_dev s)) b (Z.of_nat k) = true ->
     (forall b' k', 0 <= b' -> (k' < 32)%nat -> b' < b \/ (b' = b /\ (k' < k)%nat) ->
        is_card (pci_cfg (n_dev s)) b' (Z.of_nat k') = false) ->
     exists s', same_nic s s' /\ init_rtl8139 rx_addr s = bring_up rx_addr b (Z.of_nat k) s').
Proof.
  split.
  - intros Hn. apply scan_buses_none. intros b k Hb Hk. rewrite Z.add_0_l. by apply Hn.
  - intros b k Hb Hk Hc Hf. by apply scan_buses_first.
Qed.

(** A configuration space with one card, at bus 0, slot 3. *)
Record pci_space := mk_pci { ps_sel : Z; ps_bar : Z }.
Definition ps_cfg (d : pci_space) (a : Z) : Z :=
  if a =? pci_address 0 3 0 0 then 33081 * 65536 + 4332
  else if a =? pci_address 0 3 0 16 then ps_bar d else 4294967295.
#[global] Instance pci_space_ports : Ports pci_space := {
  p_inb _ d := (0, d); p_outb _ _ d := d; p_inw _ d := (0, d); p_outw _ _ d := d;
  p_inl port d := (if port =? 3324 then ps_cfg d (ps_sel d) else 0, d);
  p_outl port v d := if port =? 3320 then mk_pci v (ps_bar d) else d
}.
#[global] Instance pci_space_bus : PciBus pci_space.
Proof.
  refine {| pci_cfg := fun d a => u32 (ps_cfg d a); pci_sel := ps_sel |}; done.
Defined.

Lemma init_rtl8139_scan_witness :
  exists s', init_rtl8139 0 (mk_nic 0 [] 0 [] 0 (replicate 6 7) (mk_pci 0 49153)) =
    bring_up 0 0 3 s' /\ io_base s' = 0.
Proof.
  destruct (proj2 (init_rtl8139_scan 0 (mk_nic 0 [] 0 [] 0 (replicate 6 7) (mk_pci 0 49153))) 0 3%nat)
    as (s' & (d & -> & _) & E).
  - lia.
  - lia.
  - vm_compute. reflexivity.
  - intros b' k' Hb Hk Hlt. assert (b' = 0 /\ (k' < 3)%nat) as [-> Hk'] by lia.
    destruct k' as [|[|[|k']]]; [vm_compute; reflexivity..|lia].
  - eexists. split; [exact E|reflexivity].
Defined.
