(* ===== verification/Fs.v ===== *)
(** * Fs: what the programs rely on of FatFs

    The applications reach the disk through the FatFs entry points. This file
    states them as an interface: the operations over an abstract volume [V]
    ([FatFs]) and the promises the callers' theorems use ([FatFsLaws] on files,
    [DirLaws] on directories), with two small in-memory volumes as instances.
    Result code 0 is FR_OK. *)

From Stdlib Require Import ZArith Lia Bool.
From stdpp Require Import base list gmap.
From S2P Require Import Prelude.
From stdpp Require Import options.

Definition FR_OK : Z := 0.
Definition FA_READ : Z := 1.
Definition FA_WRITE : Z := 2.
Definition FA_CREATE_ALWAYS : Z := 8.

(** A directory entry as the programs see it: [fname] and the AM_DIR bit. *)
Record FILINFO := mk_filinfo { fname : list Z; is_dir : bool; fsize : Z }.

Class FatFs (V : Type) := {
  FIL : Type;
  DIR : Type;
  f_open : list Z -> Z -> V -> Z * FIL * V;
  f_size : FIL -> V -> Z;
  (** [f_read h n]: code and the bytes read *)
  f_read : FIL -> Z -> V -> Z * list Z * V;
  (** [f_write h data]: code and the number of bytes written *)
  f_write : FIL -> list Z -> V -> Z * Z * V;
  f_lseek : FIL -> Z -> V -> V;
  f_close : FIL -> V -> V;
  f_opendir : list Z -> V -> Z * DIR * V;
  (** an empty [fname] is the end of the directory *)
  f_readdir : DIR -> V -> Z * FILINFO * V;
  f_closedir : DIR -> V -> V;
  f_unlink : list Z -> V -> Z * V;
  f_rename : list Z -> list Z -> V -> Z * V;
  f_mkdir : list Z -> V -> Z * V
}.

(** Regular files: [file v p] is the content of [p]; [pos v h] the file and
    offset an open handle refers to. *)
Class FatFsLaws (V : Type) `{FatFs V} := {
  file : V -> list Z -> option (list Z);
  pos : V -> FIL -> option (list Z * Z);
  (** handles opened for reading only *)
  reading : V -> FIL -> Prop;
  (** opening for reading *)
  open_read : forall p v, let '(r, h, v') := f_open p FA_READ v in
    (forall q, file v' q = file v q) /\
    match file v p with
    | Some _ => r = FR_OK /\ pos v' h = Some (p, 0) /\ reading v' h
    | None => r <> FR_OK
    end;
  (** creating (truncating) a file may fail, for want of a directory entry.
      Nothing is said of other names: they may name the same file, in other
      case, say *)
  open_create : forall p v, let '(r, h, v') := f_open p (Z.lor FA_WRITE FA_CREATE_ALWAYS) v in
    r = FR_OK -> pos v' h = Some (p, 0) /\ file v' p = Some [];
  size_law : forall h v p k c, pos v h = Some (p, k) -> file v p = Some c -> f_size h v = zlen c;
  read_law : forall h n v p k c, pos v h = Some (p, k) -> file v p = Some c -> 0 <= n -> 0 <= k ->
    let '(r, data, v') := f_read h n v in
    (forall q, file v' q = file v q) /\ (reading v h -> reading v' h) /\
    (r = FR_OK -> data = take (Z.to_nat n) (drop (Z.to_nat k) c) /\ pos v' h = Some (p, k + zlen data));
  (** no call delivers more than was asked for *)
  read_bound : forall h n v, 0 <= n -> zlen ((f_read h n v).1.2) <= n;
  (** what is delivered are bytes, and the size of a file is a 32-bit number *)
  read_bytes : forall h n v, Forall is_byte ((f_read h n v).1.2);
  size_bound : forall v p c, file v p = Some c -> zlen c < 4294967296;
  (** writing at the end of a file; a full disk shows in the count *)
  write_law : forall h data v p c, pos v h = Some (p, zlen c) -> file v p = Some c ->
    let '(r, bw, v') := f_write h data v in
    r = FR_OK -> 0 <= bw <= zlen data /\ file v' p = Some (c ++ take (Z.to_nat bw) data) /\
      pos v' h = Some (p, zlen c + bw);
  (** seeking inside the file *)
  seek_law : forall h n v p k c, pos v h = Some (p, k) -> file v p = Some c -> 0 <= n <= zlen c ->
    (forall q, file (f_lseek h n v) q = file v q) /\ pos (f_lseek h n v) h = Some (p, n);
  (** seeking past the end of a file opened for reading stops at its end *)
  seek_end : forall h n v p k c, reading v h -> pos v h = Some (p, k) -> file v p = Some c -> zlen c < n ->
    (forall q, file (f_lseek h n v) q = file v q) /\ pos (f_lseek h n v) h = Some (p, zlen c);
  close_law : forall h v q, file (f_close h v) q = file v q
}.

(** A medium on which reading an open file succeeds. *)
Definition media_ok (V : Type) `{FatFsLaws V} : Prop :=
  forall h n v p k c, pos v h = Some (p, k) -> file v p = Some c -> (f_read h n v).1.1 = FR_OK.

(** Opening a file that is not there fails and leaves the volume alone. *)
Lemma open_missing {V} `{FatFsLaws V} p v :
  file v p = None -> exists r h v', f_open p FA_READ v = (r, h, v') /\ (r =? FR_OK) = false /\ forall q, file v' q = file v q.
Proof.
  intros Hf. pose proof (open_read p v) as L. destruct (f_open p FA_READ v) as [[r h] v']. rewrite Hf in L.
  destruct L as [Hq Hr]. exists r, h, v'. split; [done|]. split; [by apply Z.eqb_neq|done].
Qed.

(** Reading from an open file on such a medium. *)
Lemma read_ok {V} `{FatFsLaws V} h n v p k c :
  media_ok V -> pos v h = Some (p, k) -> file v p = Some c -> 0 <= n -> 0 <= k ->
  exists v', f_read h n v = (FR_OK, take (Z.to_nat n) (drop (Z.to_nat k) c), v') /\
    (forall q, file v' q = file v q) /\
    pos v' h = Some (p, k + zlen (take (Z.to_nat n) (drop (Z.to_nat k) c))).
Proof.
  intros Hm Hp Hf Hn Hk. pose proof (Hm h n v p k c Hp Hf) as Hr.
  pose proof (read_law h n v p k c Hp Hf Hn Hk) as L.
  destruct (f_read h n v) as [[r data] v']. simpl in Hr. destruct L as (Lf & _ & Ld).
  destruct (Ld Hr) as [-> Lp]. subst r. by exists v'.
Qed.

(** Opening an existing file. *)
Lemma open_ok {V} `{FatFsLaws V} p v c :
  file v p = Some c ->
  exists h v', f_open p FA_READ v = (FR_OK, h, v') /\ pos v' h = Some (p, 0) /\
    (forall q, file v' q = file v q).
Proof.
  intros Hf. pose proof (open_read p v) as L. destruct (f_open p FA_READ v) as [[r h] v'].
  rewrite Hf in L. destruct L as (Lf & -> & Lp & _). by exists h, v'.
Qed.

(** The handle of such a file is one for reading, and stays one. *)
Lemma opened_reading {V} `{FatFsLaws V} p v h v' : f_open p FA_READ v = (FR_OK, h, v') -> reading v' h.
Proof.
  intros E. pose proof (open_read p v) as L. rewrite E in L. destruct L as [_ L]. destruct (file v p); [apply L|done].
Qed.

Lemma read_reading {V} `{FatFsLaws V} h n v p k c r data v' :
  pos v h = Some (p, k) -> file v p = Some c -> 0 <= n -> 0 <= k -> f_read h n v = (r, data, v') -> reading v h -> reading v' h.
Proof. intros Hp Hf Hn Hk E. pose proof (read_law h n v p k c Hp Hf Hn Hk) as L. rewrite E in L. apply L. Qed.

(** Seeking in a file opened for reading. *)
Lemma seek_clipped {V} `{FatFsLaws V} h n v p k c :
  reading v h -> pos v h = Some (p, k) -> file v p = Some c -> 0 <= n ->
  (forall q, file (f_lseek h n v) q = file v q) /\ pos (f_lseek h n v) h = Some (p, Z.min n (zlen c)).
Proof.
  intros Hr Hp Hf Hn. destruct (Z.le_gt_cases n (zlen c)) as [Hl|Hl].
  - rewrite Z.min_l by done. by apply (seek_law h n v p k c).
  - rewrite Z.min_r by lia. by apply (seek_end h n v p k c).
Qed.

(** Directories: [listing v p] are the entries of the directory [p], in the
    order in which they are delivered; [stream v d] those an open directory
    has still to deliver. A path that is no directory (a file, say) cannot be
    opened as one. *)
Class DirLaws (V : Type) `{FatFs V} := {
  listing : V -> list Z -> option (list FILINFO);
  stream : V -> DIR -> option (list FILINFO);
  opendir_law : forall p v, let '(r, d, v') := f_opendir p v in
    (forall q, listing v' q = listing v q) /\
    match listing v p with
    | Some l => r = FR_OK /\ stream v' d = Some l
    | None => r <> FR_OK
    end;
  readdir_law : forall d v l, stream v d = Some l -> let '(r, e, v') := f_readdir d v in
    (forall q, listing v' q = listing v q) /\
    (r = FR_OK -> match l with
                  | [] => fname e = [] /\ stream v' d = Some []
                  | x :: l' => e = x /\ stream v' d = Some l'
                  end);
  closedir_law : forall d v q, listing (f_closedir d v) q = listing v q;
  (** delivered names are non-empty strings *)
  name_law : forall v p l, listing v p = Some l ->
    Forall (fun e => fname e <> [] /\ Forall (fun c => c <> 0) (fname e)) l
}.

(** A medium on which reading an open directory succeeds. *)
Definition dir_media_ok (V : Type) `{DirLaws V} : Prop :=
  forall d v l, stream v d = Some l -> (f_readdir d v).1.1 = FR_OK.

Lemma readdir_ok {V} `{DirLaws V} d v l :
  dir_media_ok V -> stream v d = Some l ->
  exists e v', f_readdir d v = (FR_OK, e, v') /\ (forall q, listing v' q = listing v q) /\
    match l with [] => fname e = [] | x :: l' => e = x /\ stream v' d = Some l' end.
Proof.
  intros Hm Hs. pose proof (Hm d v l Hs) as Hr. pose proof (readdir_law d v l Hs) as L.
  destruct (f_readdir d v) as [[r e] v']. simpl in Hr. subst r. destruct L as [Lq Ll].
  exists e, v'. split; [done|]. split; [done|]. specialize (Ll eq_refl). by destruct l as [|x l]; destruct Ll.
Qed.

(** [f_read] into a buffer at its start: the bytes delivered overwrite a prefix. *)
Definition read_into (buf data : list Z) : res (list Z) :=
  if zlen data <=? zlen buf then Ok (data ++ drop (length data) buf) else Fault.

Lemma read_into_ok buf data :
  zlen data <= zlen buf -> read_into buf data = Ok (data ++ drop (length data) buf).
Proof. intros Hl. unfold read_into. destruct (Z.leb_spec (zlen data) (zlen buf)); [done|lia]. Qed.

Lemma read_into_length (buf data : list Z) :
  zlen data <= zlen buf -> length (data ++ drop (length data) buf) = length buf.
Proof. intros Hl. rewrite length_app, length_drop. lia. Qed.

(** ** An in-memory volume *)

Record memfs := mk_memfs {
  m_files : gmap (list Z) (list Z);
  m_pos : gmap nat (list Z * Z);
  m_next : nat
}.

(** A file holds bytes, and fewer than 2^32 of them. *)
Definition storable (c : list Z) : bool := forallb (fun b => (0 <=? b) && (b <? 256)) c && (zlen c <? 4294967296).

Definition mem_file (v : memfs) (p : list Z) : option (list Z) :=
  c ← m_files v !! p; if storable c then Some c else None.

Definition mem_open (p : list Z) (mode : Z) (v : memfs) : Z * nat * memfs :=
  let h := m_next v in
  if mode =? FA_READ then
    match mem_file v p with
    | Some _ => (FR_OK, h, mk_memfs (m_files v) (<[h := (p, 0)]> (m_pos v)) (S h))
    | None => (4, h, v)
    end
  else (FR_OK, h, mk_memfs (<[p := []]> (m_files v)) (<[h := (p, 0)]> (m_pos v)) (S h)).

Definition mem_read (h : nat) (n : Z) (v : memfs) : Z * list Z * memfs :=
  match m_pos v !! h with
  | None => (9, [], v)
  | Some (p, k) =>
      match mem_file v p with
      | None => (9, [], v)
      | Some c =>
          let data := take (Z.to_nat n) (drop (Z.to_nat k) c) in
          (FR_OK, data, mk_memfs (m_files v) (<[h := (p, k + zlen data)]> (m_pos v)) (m_next v))
      end
  end.

Definition mem_write (h : nat) (data : list Z) (v : memfs) : Z * Z * memfs :=
  match m_pos v !! h with
  | None => (9, 0, v)
  | Some (p, k) =>
      match mem_file v p with
      | None => (9, 0, v)
      | Some c =>
          let c' := take (Z.to_nat k) c ++ data ++ drop (Z.to_nat (k + zlen data)) c in
          if storable c' then
            (FR_OK, zlen data, mk_memfs (<[p := c']> (m_files v)) (<[h := (p, k + zlen data)]> (m_pos v)) (m_next v))
          else (1, 0, v)
      end
  end.

Definition mem_pos (v : memfs) (h : nat) : option (list Z * Z) := m_pos v !! h.

Definition mem_lseek (h : nat) (k : Z) (v : memfs) : memfs :=
  match mem_pos v h with
  | Some (p, _) => mk_memfs (m_files v) (<[h := (p, Z.min k (zlen (default [] (mem_file v p))))]> (m_pos v)) (m_next v)
  | None => v
  end.

Definition mem_size (h : nat) (v : memfs) : Z :=
  match m_pos v !! h with
  | Some (p, _) => match mem_file v p with Some c => zlen c | None => 0 end
  | None => 0
  end.

Lemma mem_file_storable v p c : mem_file v p = Some c -> Forall is_byte c /\ zlen c < 4294967296.
Proof.
  unfold mem_file. destruct (m_files v !! p) as [c0|]; [|done]. cbn [mbind option_bind]. destruct (storable c0) eqn:E; [|done].
  intros [= ->]. unfold storable in E. apply andb_prop in E as [E1 E2]. apply Z.ltb_lt in E2. split; [|done].
  apply List.Forall_forall. intros b Hb. rewrite List.forallb_forall in E1. specialize (E1 b Hb). unfold is_byte. lia.
Qed.

Lemma mem_file_same v v' p : m_files v' = m_files v -> mem_file v' p = mem_file v p.
Proof. unfold mem_file. by intros ->. Qed.

#[global] Instance mem_fatfs : FatFs memfs := {
  FIL := nat; DIR := unit;
  f_open := mem_open;
  f_size := mem_size;
  f_read := mem_read;
  f_write := mem_write;
  f_lseek := mem_lseek;
  f_close h v := mk_memfs (m_files v) (delete h (m_pos v)) (m_next v);
  f_opendir _ v := (4, tt, v);
  f_readdir _ v := (4, mk_filinfo [] false 0, v);
  f_closedir _ v := v;
  f_unlink p v := (FR_OK, mk_memfs (delete p (m_files v)) (m_pos v) (m_next v));
  f_rename p q v := match m_files v !! p with
                    | Some c => (FR_OK, mk_memfs (<[q := c]> (delete p (m_files v))) (m_pos v) (m_next v))
                    | None => (4, v)
                    end;
  f_mkdir _ v := (FR_OK, v)
}.

#[global] Instance mem_fatfs_laws : FatFsLaws memfs.
Proof.
  refine {| file := mem_file; pos := mem_pos; reading := fun _ _ => True |}.
  - intros p v. change (f_open p FA_READ v) with (mem_open p FA_READ v). unfold mem_open.
    change (FA_READ =? FA_READ) with true. cbv iota.
    destruct (mem_file v p); [|done].
    split; [done|]. unfold mem_pos. cbn [m_pos]. by rewrite lookup_insert_eq.
  - intros p v. change (f_open p (Z.lor FA_WRITE FA_CREATE_ALWAYS) v)
      with (FR_OK, m_next v, mk_memfs (<[p := []]> (m_files v)) (<[m_next v := (p, 0)]> (m_pos v)) (S (m_next v))).
    cbv iota. intros _. unfold mem_pos, mem_file. cbn [m_files m_pos]. by rewrite !lookup_insert_eq.
  - intros h v p k c Hp Hc. change (mem_size h v = zlen c). unfold mem_size. fold (mem_pos v h). by rewrite Hp, Hc.
  - intros h n v p k c Hp Hc Hn Hk. change (f_read h n v) with (mem_read h n v). unfold mem_read.
    fold (mem_pos v h). rewrite Hp, Hc. split; [done|]. split; [done|]. intros _. unfold mem_pos. cbn [m_pos]. by rewrite lookup_insert_eq.
  - intros h n v Hn. revert h. change (forall h : nat, zlen (mem_read h n v).1.2 <= n). intros h. unfold mem_read.
    destruct (m_pos v !! h) as [[p k]|]; [|simpl; lia].
    destruct (mem_file v p) as [c|]; cbn [fst snd]; [|simpl; lia].
    pose proof (length_take (drop (Z.to_nat k) c) (Z.to_nat n)). lia.
  - intros h n v. revert h. change (forall h : nat, Forall is_byte (mem_read h n v).1.2). intros h. unfold mem_read.
    destruct (m_pos v !! h) as [[p k]|]; [|constructor]. destruct (mem_file v p) as [c|] eqn:E; cbn [fst snd]; [|constructor].
    apply Forall_take, Forall_drop. by apply (mem_file_storable v p).
  - intros v p c Hc. by apply (mem_file_storable v p).
  - intros h data v p c Hp Hc. change (f_write h data v) with (mem_write h data v). unfold mem_write.
    fold (mem_pos v h). rewrite Hp, Hc. rewrite !Nat2Z.id, take_ge by lia. rewrite (drop_ge c) by lia. rewrite app_nil_r.
    destruct (storable (c ++ data)) eqn:E; [|done]. unfold mem_pos, mem_file. cbn [m_files m_pos]. intros _. split; [lia|].
    rewrite !lookup_insert_eq, Nat2Z.id, (take_ge data) by lia. cbn [mbind option_bind]. by rewrite E.
  - intros h n v p k c Hp Hc Hn. change (f_lseek h n v) with (mem_lseek h n v). unfold mem_lseek.
    rewrite Hp, Hc. split; [done|]. unfold mem_pos. cbn [m_pos]. rewrite lookup_insert_eq. unfold default. cbn [from_option id]. rewrite Z.min_l by lia. done.
  - intros h n v p k c _ Hp Hc Hn. change (f_lseek h n v) with (mem_lseek h n v). unfold mem_lseek.
    rewrite Hp, Hc. split; [done|]. unfold mem_pos. cbn [m_pos]. rewrite lookup_insert_eq. unfold default. cbn [from_option id]. rewrite Z.min_r by lia. done.
  - done.
Defined.

Lemma mem_media_ok : media_ok memfs.
Proof.
  intros h n v p k c Hp Hc. change (f_read h n v) with (mem_read h n v). unfold mem_read.
  fold (mem_pos v h). change (mem_pos v h = Some (p, k)) in Hp. change (mem_file v p = Some c) in Hc.
  by rewrite Hp, Hc.
Qed.

(** It has no directories to list. *)
#[global] Instance mem_dir_laws : DirLaws memfs.
Proof. by refine {| listing := fun (_ : memfs) _ => None; stream := fun (_ : memfs) _ => None |}. Defined.

Lemma mem_dir_media_ok : dir_media_ok memfs.
Proof. by intros d v l Hl. Qed.

(** ** A volume of directories *)

(** Every directory's entries and the open streams. *)
Record dirfs := mk_dirfs { d_dirs : gmap (list Z) (list FILINFO); d_open : gmap nat (list FILINFO); d_next : nat }.

Definition dir_readdir (d : nat) (v : dirfs) : Z * FILINFO * dirfs :=
  match d_open v !! d with
  | Some (x :: l) => (FR_OK, x, mk_dirfs (d_dirs v) (<[d := l]> (d_open v)) (d_next v))
  | Some [] => (FR_OK, mk_filinfo [] false 0, v)
  | None => (9, mk_filinfo [] false 0, v)
  end.

Definition named (e : FILINFO) : bool := negb (bool_decide (fname e = [])) && forallb (fun c => negb (c =? 0)) (fname e).

(** The entries with proper names. *)
Definition dir_listing (v : dirfs) (p : list Z) : option (list FILINFO) :=
  List.filter named <$> d_dirs v !! p.

Definition dir_opendir (p : list Z) (v : dirfs) : Z * nat * dirfs :=
  match dir_listing v p with
  | Some l => (FR_OK, d_next v, mk_dirfs (d_dirs v) (<[d_next v := l]> (d_open v)) (S (d_next v)))
  | None => (5, d_next v, v)
  end.

#[global] Instance dirfs_fatfs : FatFs dirfs := {
  FIL := unit; DIR := nat;
  f_open _ _ v := (4, tt, v);
  f_size _ _ := 0;
  f_read _ _ v := (9, [], v);
  f_write _ _ v := (9, 0, v);
  f_lseek _ _ v := v;
  f_close _ v := v;
  f_opendir := dir_opendir;
  f_readdir := dir_readdir;
  f_closedir d v := mk_dirfs (d_dirs v) (delete d (d_open v)) (d_next v);
  f_unlink p v := (FR_OK, mk_dirfs (delete p (d_dirs v)) (d_open v) (d_next v));
  f_rename _ _ v := (4, v);
  f_mkdir p v := (FR_OK, mk_dirfs (<[p := []]> (d_dirs v)) (d_open v) (d_next v))
}.

Definition dir_stream (v : dirfs) (d : nat) : option (list FILINFO) := d_open v !! d.

#[global] Instance dirfs_laws : DirLaws dirfs.
Proof.
  refine {| listing := dir_listing; stream := dir_stream |}.
  - intros p v. change (f_opendir p v) with (dir_opendir p v). unfold dir_opendir.
    destruct (dir_listing v p) as [l|] eqn:E; [|done].
    split; [done|]. split; [done|]. unfold dir_stream. simpl. by rewrite lookup_insert_eq.
  - intros d v l Hl. unfold dir_stream in *. change (f_readdir d v) with (dir_readdir d v). unfold dir_readdir. rewrite Hl.
    destruct l as [|x l]; [done|]. split; [done|]. intros _. split; [done|]. simpl. by rewrite lookup_insert_eq.
  - done.
  - intros v p l. unfold dir_listing. destruct (d_dirs v !! p) as [l0|]; [|done]. simpl. intros [= <-].
    apply List.Forall_forall. intros e He. apply List.filter_In in He as [_ He]. unfold named in He.
    apply andb_prop in He as [H1 H2]. split; [by intros E; rewrite bool_decide_eq_true_2 in H1|].
    rewrite List.forallb_forall in H2. apply List.Forall_forall. intros c Hc E. specialize (H2 c Hc). subst c. done.
Defined.

Lemma dirfs_media_ok : dir_media_ok dirfs.
Proof.
  intros d v l Hl. change (f_readdir d v) with (dir_readdir d v). unfold dir_readdir.
  change (dir_stream v d = Some l) in Hl. unfold dir_stream in Hl. rewrite Hl. by destruct l.
Qed.
