(* ===== verification/Cursor.v ===== *)
(** * Cursor: static and animated cursors (cursor_loader.c, ani_loader.c)

    Both loaders parse untrusted files. A pointer into the file buffer is an
    index into it; index arithmetic on 32-bit offsets wraps as on the machine,
    and an access outside the buffer is [Fault]. Log lines are not modelled. *)

From Stdlib Require Import ZArith Lia Bool.
From stdpp Require Import base list.
From S2P Require Import Prelude Gfx Render Fs.
From stdpp Require Import options.

(** [b[base + off]] for a pointer [b + base] and an unsigned offset. *)
Definition rdp (b : list Z) (base off : Z) : res Z := rd b (i32 (base + off)).

Definition read_le16 (b : list Z) (base off : Z) : res Z :=
  b0 ← rdp b base off; b1 ← rdp b base (off + 1);
  Ok (u16 (Z.lor b0 (Z.shiftl b1 8))).

Definition read_le32 (b : list Z) (base off : Z) : res Z :=
  b0 ← rdp b base off; b1 ← rdp b base (off + 1); b2 ← rdp b base (off + 2); b3 ← rdp b base (off + 3);
  Ok (u32 (Z.lor (Z.lor (Z.lor b0 (Z.shiftl b1 8)) (Z.shiftl b2 16)) (Z.shiftl b3 24))).

(** ** The static cursor (cursor_loader.c) *)

Definition MAX_CURSOR_W : Z := 32.
Definition MAX_CURSOR_H : Z := 32.

Record cursor := mk_cursor {
  cursor_pixels : list Z; c_width : Z; c_height : Z; hotspot_x : Z; hotspot_y : Z
}.

Definition cursor_boot : cursor := mk_cursor (replicate 4096 0) 0 0 0 0.

Section Loader.
Context {V : Type} `{FatFs V}.

(** [header0] and [bmi0] are the uninitialised stack arrays; read errors are ignored. *)
Definition load_system_cursor (path header0 bmi0 : list Z) (c : cursor) (v : V) : res (cursor * V) :=
  let '(r, file, v) := f_open path FA_READ v in
  if negb (r =? FR_OK) then Ok (c, v)
  else
    let '(_, data, v) := f_read file 22 v in
    header ← read_into header0 data;
    type ← read_le16 header 0 2;
    if negb (type =? 2) then Ok (c, f_close file v)
    else
      h6 ← rd header 6; h7 ← rd header 7;
      let w := if truth h6 then h6 else 256 in
      let h := if truth h7 then h7 else 256 in
      hx ← read_le16 header 0 10;
      hy ← read_le16 header 0 12;
      data_offset ← read_le32 header 0 18;
      let v := f_lseek file data_offset v in
      let '(_, data, v) := f_read file 40 v in
      bmi_header ← read_into bmi0 data;
      bpp ← read_le16 bmi_header 0 14;
      '(pixels, v) ←
        (if bpp =? 32 then
           let '(_, data, v) := f_read file (u32 (w * h * 4)) v in
           p ← read_into (cursor_pixels c) data; Ok (p, v)
         else if bpp =? 24 then
           let '(_, data, v) := f_read file (u32 (w * h * 3)) v in
           p ← read_into (cursor_pixels c) data; Ok (p, v)
         else Ok (cursor_pixels c, v));
      Ok (mk_cursor pixels w h hx hy, f_close file v).

End Loader.

(** Magenta or zero alpha is transparent. *)
Definition see_through (b g r a : Z) : bool :=
  ((r =? 255) && (g =? 0) && (b =? 255)) || (a =? 0).

Definition draw_custom_cursor (gfx_width gfx_height mouse_x mouse_y : Z) (c : cursor)
  (back_buffer : list Z) : res (list Z) :=
  if (c_width c =? 0) || (c_height c =? 0) then Ok back_buffer
  else
    let start_x := mouse_x - hotspot_x c in
    let start_y := mouse_y - hotspot_y c in
    for_rect 0 0 (c_width c) (c_height c) (fun x y bb =>
      let scr_x := i32 (start_x + x) in
      let scr_y := i32 (start_y + y) in
      if (scr_x <? 0) || (i32 gfx_width <=? scr_x) || (scr_y <? 0) || (i32 gfx_height <=? scr_y)
      then Ok bb
      else
        let bmp_y := u32 (c_height c - 1 - y) in
        let idx := u32 (u32 (bmp_y * c_width c + x) * 4) in
        b ← rd (cursor_pixels c) idx;
        g ← rd (cursor_pixels c) (idx + 1);
        r ← rd (cursor_pixels c) (idx + 2);
        a ← rd (cursor_pixels c) (idx + 3);
        if see_through b g r a then Ok bb
        else wr bb (scr_y * i32 gfx_width + scr_x) (pack r g b)) back_buffer.

(** ** Animated cursors (ani_loader.c) *)

Definition ANI_MAX_FRAMES : Z := 16.
Definition ANI_MAX_CURSOR_W : Z := 32.
Definition ANI_MAX_CURSOR_H : Z := 32.
Definition ani_speed_percentage : Z := 1600.

Record ani_frame := mk_frame {
  duration_jiffies : Z; f_width : Z; f_height : Z; f_hotspot_x : Z; f_hotspot_y : Z; pixels : list Z
}.

Record ani := mk_ani {
  ani_frames : list ani_frame; ani_frame_count : Z; ani_active : bool;
  ani_current_frame : Z; ani_frame_start_tick : Z
}.

Definition frame_zero : ani_frame := mk_frame 0 0 0 0 0 (replicate 4096 0).
Definition ani_boot : ani := mk_ani (replicate 16 frame_zero) 0 false 0 0.

Definition jiffies_to_ticks (jiffies : Z) : Z :=
  if jiffies =? 0 then 0
  else
    let adjusted := u32 (jiffies * 100) / ani_speed_percentage in
    let adjusted := if adjusted =? 0 then 1 else adjusted in
    let ticks := u32 (adjusted * 18 + 30) / 60 in
    if ticks =? 0 then 1 else ticks.

(** Copying one source pixel of [bpp/8] bytes to four destination bytes. *)
Definition copy_pixel (file_data : list Z) (base pixel_start src_idx bytes dst_idx : Z) (px : list Z)
  : res (list Z) :=
  b ← rdp file_data base (u32 (pixel_start + src_idx));
  px ← wr px dst_idx b;
  g ← rdp file_data base (u32 (pixel_start + src_idx + 1));
  px ← wr px (dst_idx + 1) g;
  r ← rdp file_data base (u32 (pixel_start + src_idx + 2));
  px ← wr px (dst_idx + 2) r;
  a ← (if bytes =? 4 then rdp file_data base (u32 (pixel_start + src_idx + 3)) else Ok 255);
  wr px (dst_idx + 3) a.

(** The bottom-up rows of the DIB become top-down rows of the frame. *)
Definition copy_pixels (file_data : list Z) (base pixel_start row_stride bytes cw ch : Z) (px : list Z)
  : res (list Z) :=
  for_up (Z.to_nat ch) 0 (fun y px =>
    let src_row := ch - 1 - y in
    for_up (Z.to_nat cw) 0 (fun x px =>
      copy_pixel file_data base pixel_start (src_row * row_stride + x * bytes) bytes ((y * cw + x) * 4) px)
      px) px.

(** The cleared pixel array of a frame. *)
Definition zero_pixels : list Z := replicate (Z.to_nat (ANI_MAX_CURSOR_W * ANI_MAX_CURSOR_H * 4)) 0.

(** [parse_cur_frame] on the .cur image at [file_data + base]; the result flag
    and the updated frame. *)
Definition parse_cur_frame (file_data : list Z) (base cur_size : Z) (frame : ani_frame)
  : res (bool * ani_frame) :=
  if cur_size <? 22 then Ok (false, frame)
  else
    type ← read_le16 file_data base 2;
    if negb (type =? 2) then Ok (false, frame)
    else
      c6 ← rdp file_data base 6; c7 ← rdp file_data base 7;
      let cw := if truth c6 then c6 else 256 in
      let ch := if truth c7 then c7 else 256 in
      hx ← read_le16 file_data base 10;
      hy ← read_le16 file_data base 12;
      data_offset ← read_le32 file_data base 18;
      let cw := if ANI_MAX_CURSOR_W <? cw then ANI_MAX_CURSOR_W else cw in
      let ch := if ANI_MAX_CURSOR_H <? ch then ANI_MAX_CURSOR_H else ch in
      let frame := mk_frame (duration_jiffies frame) cw ch (i16 hx) (i16 hy) (pixels frame) in
      if cur_size <? u32 (data_offset + 40) then Ok (false, frame)
      else
        dib_header_size ← read_le32 file_data base data_offset;
        if dib_header_size <? 40 then Ok (false, frame)
        else
          bpp ← read_le16 file_data base (data_offset + 14);
          let pixel_start := u32 (data_offset + dib_header_size) in
          if cur_size <? pixel_start then Ok (false, frame)
          else
            let bytes_per_pixel := (bpp + 7) / 8 in
            let row_stride := Z.land (u32 (cw * bytes_per_pixel + 3)) 4294967292 in
            let pixel_bytes := u32 (row_stride * ch) in
            if cur_size <? u32 (pixel_start + pixel_bytes) then Ok (false, frame)
            else
              let px := zero_pixels in
              if bpp =? 32 then
                px ← copy_pixels file_data base pixel_start row_stride 4 cw ch px;
                Ok (true, mk_frame (duration_jiffies frame) cw ch (i16 hx) (i16 hy) px)
              else if bpp =? 24 then
                px ← copy_pixels file_data base pixel_start row_stride 3 cw ch px;
                Ok (true, mk_frame (duration_jiffies frame) cw ch (i16 hx) (i16 hy) px)
              else Ok (false, mk_frame (duration_jiffies frame) cw ch (i16 hx) (i16 hy) px).

Definition ani_init (a : ani) : ani := mk_ani (ani_frames a) 0 false 0 0.

(** An "icon" chunk: parse into the next free frame. *)
Definition load_icon (file_data : list Z) (base size anih_rate : Z) (a : ani) : res ani :=
  frame ← or_fault (ani_frames a !! Z.to_nat (ani_frame_count a));
  r ← parse_cur_frame file_data base size frame;
  let '(ok, frame) := (r : bool * ani_frame) in
  let frame := if ok then mk_frame anih_rate (f_width frame) (f_height frame) (f_hotspot_x frame)
                                   (f_hotspot_y frame) (pixels frame) else frame in
  let frames := <[Z.to_nat (ani_frame_count a) := frame]> (ani_frames a) in
  Ok (mk_ani frames (if ok then ani_frame_count a + 1 else ani_frame_count a) (ani_active a)
             (ani_current_frame a) (ani_frame_start_tick a)).

(** Does the four-byte id at [off] read [s]? *)
Definition id_is (file_data : list Z) (off : Z) (s : list Z) : res bool :=
  c0 ← rdp file_data off 0; c1 ← rdp file_data off 1; c2 ← rdp file_data off 2; c3 ← rdp file_data off 3;
  Ok (bool_decide ([c0; c1; c2; c3] = s)).

Definition ID_anih : list Z := [97; 110; 105; 104].
Definition ID_seq : list Z := [115; 101; 113; 32].
Definition ID_LIST : list Z := [76; 73; 83; 84].
Definition ID_icon : list Z := [105; 99; 111; 110].

(** [end = off + 8 + size; if (end & 1) end++;] *)
Definition chunk_end (off size : Z) : Z :=
  let e := u32 (off + 8 + size) in if truth (Z.land e 1) then u32 (e + 1) else e.

(** The sub-chunk loop of a LIST. *)
Fixpoint list_loop (fuel : nat) (file_data : list Z) (sub_offset list_end anih_rate : Z) (a : ani)
  : res ani :=
  match fuel with
  | O => NoFuel
  | S f =>
      if (u32 (sub_offset + 8) <=? list_end) && (ani_frame_count a <? ANI_MAX_FRAMES) then
        icon ← id_is file_data sub_offset ID_icon;
        sub_size ← read_le32 file_data sub_offset 4;
        a ← (if (icon : bool) then load_icon file_data (u32 (sub_offset + 8)) sub_size anih_rate a else Ok a);
        list_loop f file_data (chunk_end sub_offset sub_size) list_end anih_rate a
      else Ok a
  end.

(** The reads of a "seq " chunk into a 256-entry buffer that is never used. *)
Definition read_seq (file_data : list Z) (offset chunk_size : Z) : res unit :=
  let seq_count := Z.min 256 (chunk_size / 4) in
  for_up (Z.to_nat seq_count) 0 (fun i u => _ ← read_le32 file_data offset (8 + i * 4); Ok u) tt.

(** The chunk loop of [ani_load]. *)
Fixpoint chunk_loop (fuel : nat) (file_data : list Z) (file_size offset anih_rate : Z) (a : ani)
  : res ani :=
  match fuel with
  | O => NoFuel
  | S f =>
      if u32 (offset + 8) <=? file_size then
        is_anih ← id_is file_data offset ID_anih;
        is_seq ← id_is file_data offset ID_seq;
        is_list ← id_is file_data offset ID_LIST;
        is_icon ← id_is file_data offset ID_icon;
        chunk_size ← read_le32 file_data offset 4;
        '(anih_rate, a) ←
          (if (is_anih : bool) then
             if (36 <=? chunk_size) && (u32 (offset + 8 + 36) <=? file_size) then
               rate ← read_le32 file_data offset 28;
               Ok (if rate =? 0 then 60 else rate, a)
             else Ok (anih_rate, a)
           else if (is_seq : bool) then _ ← read_seq file_data offset chunk_size; Ok (anih_rate, a)
           else if (is_list : bool) then
             a ← list_loop f file_data (u32 (offset + 8 + 4)) (chunk_end offset chunk_size) anih_rate a;
             Ok (anih_rate, a)
           else if (is_icon : bool) then
             if ani_frame_count a <? ANI_MAX_FRAMES then
               a ← load_icon file_data (u32 (offset + 8)) chunk_size anih_rate a; Ok (anih_rate, a)
             else Ok (anih_rate, a)
           else Ok (anih_rate, a));
        let offset := chunk_end offset chunk_size in
        if file_size <=? offset then Ok a
        else chunk_loop f file_data file_size offset anih_rate a
      else Ok a
  end.

(** [ani_load] from the point where the whole file is in the buffer. *)
Definition ani_parse (fuel : nat) (file_data : list Z) (file_size : Z) (a : ani) : res (Z * ani) :=
  if file_size <? 12 then Ok (0, a)
  else
    riff ← id_is file_data 0 [82; 73; 70; 70];
    if negb riff then Ok (0, a)
    else
      acon ← id_is file_data 8 [65; 67; 79; 78];
      if negb acon then Ok (0, a)
      else
        a ← chunk_loop fuel file_data file_size 12 60 a;
        Ok (if ani_frame_count a =? 0 then 0 else 1, a).

Definition ANI_FILE_BUF : Z := 65536.

Section AniLoad.
Context {V : Type} `{FatFs V}.

(** [ani_file_buf] is static: it keeps the bytes of earlier loads. *)
Definition ani_load (fuel : nat) (path ani_file_buf : list Z) (a : ani) (v : V)
  : res (Z * list Z * ani * V) :=
  let a := ani_init a in
  let '(r, file, v) := f_open path FA_READ v in
  if negb (r =? FR_OK) then Ok (0, ani_file_buf, a, v)
  else
    let file_size := u32 (f_size file v) in
    if ANI_FILE_BUF <? file_size then Ok (0, ani_file_buf, a, f_close file v)
    else
      let '(r, data, v) := f_read file file_size v in
      buf ← read_into ani_file_buf data;
      if negb (r =? FR_OK) || negb (zlen data =? file_size) then Ok (0, buf, a, f_close file v)
      else
        '(ret, a) ← ani_parse fuel buf file_size a;
        Ok (ret, buf, a, f_close file v).

End AniLoad.

Definition ani_play (timer_ticks : Z) (a : ani) : ani :=
  if ani_frame_count a =? 0 then a
  else mk_ani (ani_frames a) (ani_frame_count a) true 0 timer_ticks.

Definition ani_stop (a : ani) : ani :=
  mk_ani (ani_frames a) (ani_frame_count a) false 0 (ani_frame_start_tick a).

Definition frame_ticks (a : ani) (i : Z) : res Z :=
  f ← or_fault (ani_frames a !! Z.to_nat i); Ok (jiffies_to_ticks (duration_jiffies f)).

(** The search for the frame whose interval contains [mod_elapsed]. *)
Fixpoint find_frame (n : nat) (i accum mod_elapsed : Z) (a : ani) : res Z :=
  match n with
  | O => Ok (ani_frame_count a - 1)
  | S n =>
      d ← frame_ticks a i;
      let accum := u32 (accum + d) in
      if mod_elapsed <? accum then Ok i else find_frame n (i + 1) accum mod_elapsed a
  end.

Definition ani_update (current_tick : Z) (a : ani) : res (Z * ani) :=
  if negb (ani_active a) || (ani_frame_count a =? 0) then Ok (0, a)
  else
    let elapsed := u32 (current_tick - ani_frame_start_tick a) in
    total ← for_up (Z.to_nat (ani_frame_count a)) 0 (fun i t =>
              d ← frame_ticks a i; Ok (u32 (t + d))) 0;
    cur ← (if total =? 0 then Ok 0
           else find_frame (Z.to_nat (ani_frame_count a)) 0 0 (elapsed mod total) a);
    Ok (1, mk_ani (ani_frames a) (ani_frame_count a) (ani_active a) cur (ani_frame_start_tick a)).

Definition draw_frame (gfx_width gfx_height start_x start_y : Z) (frame : ani_frame) (back_buffer : list Z)
  : res (list Z) :=
  for_rect 0 0 (f_width frame) (f_height frame) (fun x y bb =>
    let scr_x := i32 (start_x + x) in
    let scr_y := i32 (start_y + y) in
    if (scr_x <? 0) || (i32 gfx_width <=? scr_x) || (scr_y <? 0) || (i32 gfx_height <=? scr_y)
    then Ok bb
    else
      let idx := u32 (u32 (y * f_width frame + x) * 4) in
      b ← rd (pixels frame) idx;
      g ← rd (pixels frame) (idx + 1);
      r ← rd (pixels frame) (idx + 2);
      a ← rd (pixels frame) (idx + 3);
      if see_through b g r a then Ok bb
      else wr bb (scr_y * i32 gfx_width + scr_x) (pack r g b)) back_buffer.

Definition ani_draw (gfx_width gfx_height m_x m_y : Z) (a : ani) (back_buffer : list Z)
  : res (list Z) :=
  if negb (ani_active a) || (ani_frame_count a =? 0) then Ok back_buffer
  else
    frame ← or_fault (ani_frames a !! Z.to_nat (ani_current_frame a));
    if (f_width frame =? 0) || (f_height frame =? 0) then Ok back_buffer
    else draw_frame gfx_width gfx_height (m_x - f_hotspot_x frame) (m_y - f_hotspot_y frame)
           frame back_buffer.

Definition ani_is_active (a : ani) : bool := ani_active a.

(** Pushing the back buffer out to the framebuffer, row by row. *)
Definition push_buffer (gw gh gp : Z) (bb fb : list Z) : res (list Z) :=
  for_rect 0 0 gw gh (fun x y fb =>
    v ← rd bb (u32 (u32 (y * gw) + x)); wr fb (u32 (u32 (y * (gp / 4)) + x)) v) fb.

Record delay_state := mk_delay {
  d_ani : ani; d_bb : list Z; d_fb : list Z;
  last_frame_draw : Z; last_mouse_x : Z; last_mouse_y : Z; last_frame_idx : Z
}.

(** The waiting loop of [ani_delay_ticks]. [clock k] is the value the [k]-th
    read of [timer_ticks] returns; an iteration makes up to four. [mouse n]
    is the pointer in iteration [n]. *)
Fixpoint delay_loop (fuel n : nat) (clock : nat -> Z) (mouse : nat -> Z * Z)
  (start ticks gw gh gp : Z) (s : delay_state) : res delay_state :=
  match fuel with
  | O => NoFuel
  | S f =>
      if u32 (clock (4 * n)%nat - start) <? ticks then
        r ← ani_update (clock (4 * n + 1)%nat) (d_ani s);
        let a := (r : Z * ani).2 in
        let '(mx, my) := mouse n in
        s' ← (if negb (clock (4 * n + 2)%nat =? last_frame_draw s) then
                if negb (mx =? last_mouse_x s) || negb (my =? last_mouse_y s) ||
                   negb (ani_current_frame a =? last_frame_idx s) then
                  bb ← ani_draw gw gh mx my a (d_bb s);
                  fb ← push_buffer gw gh gp bb (d_fb s);
                  Ok (mk_delay a bb fb (clock (4 * n + 3)%nat) mx my (ani_current_frame a))
                else Ok (mk_delay a (d_bb s) (d_fb s) (last_frame_draw s) (last_mouse_x s) (last_mouse_y s) (last_frame_idx s))
              else Ok (mk_delay a (d_bb s) (d_fb s) (last_frame_draw s) (last_mouse_x s) (last_mouse_y s) (last_frame_idx s)));
        delay_loop f (S n) clock mouse start ticks gw gh gp s'
      else Ok s
  end.

(** The plain wait when no animation is active. *)
Fixpoint spin_wait (fuel n : nat) (clock : nat -> Z) (start ticks : Z) : res unit :=
  match fuel with
  | O => NoFuel
  | S f => if u32 (clock n - start) <? ticks then spin_wait f (S n) clock start ticks else Ok tt
  end.

(** [ani_delay_ticks]: [start] and the restart time are the first two reads. *)
Definition ani_delay_ticks (fuel : nat) (clock : nat -> Z) (mouse : nat -> Z * Z) (start restart ticks gw gh gp : Z)
  (a : ani) (bb fb : list Z) : res (ani * list Z * list Z) :=
  let a := if ani_active a
           then mk_ani (ani_frames a) (ani_frame_count a) (ani_active a) (ani_current_frame a) restart else a in
  if negb (ani_active a) || (ani_frame_count a =? 0) then
    _ ← spin_wait fuel 0 clock start ticks; Ok (a, bb, fb)
  else
    s ← delay_loop fuel 0 clock mouse start ticks gw gh gp (mk_delay a bb fb 0 (-1) (-1) (-1));
    Ok (d_ani s, d_bb s, d_fb s).

(** ** Reading little-endian fields *)

Lemma rdp_in b base off :
  0 <= base + off < zlen b -> zlen b <= 65536 -> rdp b base off = Ok (get b (base + off)).
Proof. intros Hi Hl. unfold rdp. rewrite i32_small by lia. by apply rd_in. Qed.

Lemma read_le16_in b base off :
  Forall is_byte b -> 0 <= base + off -> base + off + 2 <= zlen b -> zlen b <= 65536 ->
  read_le16 b base off = Ok (le16 b (base + off)).
Proof.
  intros Hb Hi Hl Hz. unfold read_le16. rewrite !rdp_in by lia. rewrite !bind_Ok.
  pose proof (get_byte b (base + off) Hb). pose proof (get_byte b (base + off + 1) Hb).
  unfold le16. replace (base + (off + 1)) with (base + off + 1) by lia.
  rewrite (lor_disjoint_add _ _ 8) by lia. rewrite u16_small by lia. done.
Qed.

Lemma read_le32_in b base off :
  Forall is_byte b -> 0 <= base + off -> base + off + 4 <= zlen b -> zlen b <= 65536 ->
  read_le32 b base off = Ok (le32 b (base + off)).
Proof.
  intros Hb Hi Hl Hz. unfold read_le32. rewrite !rdp_in by lia. rewrite !bind_Ok.
  pose proof (get_byte b (base + off) Hb). pose proof (get_byte b (base + off + 1) Hb).
  pose proof (get_byte b (base + off + 2) Hb). pose proof (get_byte b (base + off + 3) Hb).
  unfold le32. replace (base + (off + 1)) with (base + off + 1) by lia.
  replace (base + (off + 2)) with (base + off + 2) by lia. replace (base + (off + 3)) with (base + off + 3) by lia.
  rewrite (lor_disjoint_add _ _ 8) by lia.
  rewrite (lor_disjoint_add _ _ 16) by (change (2 ^ 16) with 65536; lia).
  rewrite (lor_disjoint_add _ _ 24) by (change (2 ^ 24) with 16777216; change (2 ^ 16) with 65536; change (2 ^ 8) with 256; lia).
  change (2 ^ 24) with 16777216. change (2 ^ 16) with 65536. change (2 ^ 8) with 256.
  rewrite u32_small by lia. done.
Qed.

(** ** Copying the pixels *)

Section Copy.
#[local] Set Default Proof Using "All".
Context (b : list Z) (base ps stride bytes cw ch : Z).
Context (Hcw : 0 < cw <= 32) (Hch : 0 < ch <= 32) (Hbytes : bytes = 4 \/ bytes = 3).
Context (Hb : zlen b <= 65536) (Hbase : 0 <= base) (Hps : 0 <= ps).
Context (Hstride : cw * bytes <= stride <= 160) (Hfit : base + ps + stride * ch <= zlen b).

(** Byte [k] of pixel (x, y) of the frame. *)
Definition frame_byte (y x k : Z) : Z :=
  if (k =? 3) && (bytes =? 3) then 255 else get b (base + ps + (ch - 1 - y) * stride + x * bytes + k).

Definition copied (q : Z) (px : list Z) : Prop :=
  length px = 4096%nat /\
  forall y x k, 0 <= x < cw -> 0 <= y < ch -> 0 <= k < 4 -> y * cw + x < q ->
    get px ((y * cw + x) * 4 + k) = frame_byte y x k.

Lemma copy_pixel_step px y x :
  0 <= x < cw -> 0 <= y < ch -> copied (y * cw + x) px ->
  exists px', copy_pixel b base ps ((ch - 1 - y) * stride + x * bytes) bytes ((y * cw + x) * 4) px = Ok px' /\
    copied (y * cw + x + 1) px'.
Proof.
  intros Hx Hy [Hl Hg]. unfold copy_pixel. set (s := (ch - 1 - y) * stride + x * bytes).
  assert (y * cw + x < 1024) as Hq by nia. assert (0 <= y * cw + x) as Hq0 by nia.
  assert (0 <= s /\ s + bytes <= stride * ch) as Hs by (unfold s; destruct Hbytes as [E | E]; rewrite E in *; nia).
  rewrite !(u32_small (ps + s)), !(u32_small (ps + s + 1)), !(u32_small (ps + s + 2)) by lia.
  set (q := y * cw + x) in *. assert (bytes = 4 \/ bytes = 3) as Hb3 by done.
  rewrite (rdp_in b base (ps + s)) by lia. rewrite bind_Ok, wr_in by lia. rewrite bind_Ok.
  rewrite (rdp_in b base (ps + s + 1)) by lia. rewrite bind_Ok, wr_in by (rewrite ?length_insert; lia). rewrite bind_Ok.
  rewrite (rdp_in b base (ps + s + 2)) by lia. rewrite bind_Ok, wr_in by (rewrite ?length_insert; lia). rewrite bind_Ok.
  assert ((if bytes =? 4 then rdp b base (u32 (ps + s + 3)) else Ok 255) = Ok (frame_byte y x 3)) as ->.
  { unfold frame_byte. simpl ((3 =? 3) && _). destruct Hb3 as [E | E]; rewrite E in *; simpl; [|done].
    rewrite u32_small, rdp_in by lia. unfold s. f_equal. f_equal. lia. }
  rewrite bind_Ok, wr_in by (rewrite ?length_insert; lia). eexists. split; [done|].
  split; [by rewrite !length_insert|]. intros y' x' k Hx' Hy' Hk Hlt.
  destruct (decide (y' * cw + x' = q)) as [E|N].
  - destruct (pix_index_inj cw x' y' x y Hx' Hx E) as [-> ->]. fold q.
    assert (forall j, j < 3 -> frame_byte y x j = get b (base + (ps + s + j))) as F.
    { intros j Hj. unfold frame_byte. destruct (Z.eqb_spec j 3); [lia|]. simpl. f_equal. unfold s. lia. }
    assert (k = 0 \/ k = 1 \/ k = 2 \/ k = 3) as [-> | [-> | [-> | ->]]] by lia.
    + rewrite 3!get_insert_ne by lia. rewrite Z.add_0_r, get_insert_eq by lia. rewrite F by lia. f_equal; lia.
    + rewrite 2!get_insert_ne, get_insert_eq by (rewrite ?length_insert; lia). rewrite F by lia. f_equal; lia.
    + rewrite get_insert_ne, get_insert_eq by (rewrite ?length_insert; lia). rewrite F by lia. f_equal; lia.
    + rewrite get_insert_eq by (rewrite ?length_insert; lia). done.
  - assert (0 <= y' * cw + x') by nia. rewrite !get_insert_ne by lia. apply Hg; [done..|lia].
Qed.

Lemma copy_pixels_spec px :
  length px = 4096%nat ->
  exists px', copy_pixels b base ps stride bytes cw ch px = Ok px' /\ copied (ch * cw) px'.
Proof.
  intros Hl. unfold copy_pixels.
  match goal with |- context [for_up _ _ ?f _] =>
    destruct (for_up_inv (fun y px' => copied (y * cw) px') (Z.to_nat ch) 0 f px) as (px' & E & HI) end.
  - intros y px1 Hy HI. cbv zeta.
    match goal with |- context [for_up _ _ ?f _] =>
      destruct (for_up_inv (fun x px' => copied (y * cw + x) px') (Z.to_nat cw) 0 f px1) as (px2 & E2 & HI2) end.
    + intros x px2 Hx HI2. rewrite Z.add_assoc. apply copy_pixel_step; [lia|lia|done].
    + by rewrite Z.add_0_r.
    + exists px2. split; [done|]. replace ((y + 1) * cw) with (y * cw + (0 + Z.of_nat (Z.to_nat cw))) by lia. done.
  - split; [done|]. intros y x k Hx Hy Hk Hlt. nia.
  - exists px'. split; [done|]. by rewrite Z.add_0_l, Z2Nat.id in HI by lia.
Qed.

End Copy.

(** ** Parsing a frame *)

Definition clamp32 (z : Z) : Z := Z.min 32 (if z =? 0 then 256 else z).

Lemma clamp_dim z : 0 <= z < 256 ->
  (let c := if truth z then z else 256 in if 32 <? c then 32 else c) = clamp32 z /\ 0 < clamp32 z <= 32.
Proof. intros Hz. unfold clamp32, truth. destruct (Z.eqb_spec z 0); simpl; zcases; lia. Qed.

Lemma row_stride_spec cw bytes :
  0 < cw <= 32 -> 0 <= bytes <= 8192 ->
  Z.land (u32 (cw * bytes + 3)) 4294967292 = 4 * ((cw * bytes + 3) / 4).
Proof.
  intros Hc Hb. rewrite u32_small by nia. apply (land_clear_low _ 2 32); [lia|].
  change (2 ^ 32) with 4294967296. nia.
Qed.

Lemma stride_bounds cw bytes :
  0 < cw <= 32 -> bytes = 4 \/ bytes = 3 -> cw * bytes <= 4 * ((cw * bytes + 3) / 4) <= 160.
Proof. intros Hc Hb. assert (cw * bytes <= 128) by (destruct Hb; subst; lia). dlia. Qed.

(** The fields of the .cur image at [base]. *)
Definition cur_offset (b : list Z) (base : Z) : Z := le32 b (base + 18).
Definition cur_bpp (b : list Z) (base : Z) : Z := le16 b (base + (cur_offset b base + 14)).
Definition cur_pixels (b : list Z) (base : Z) : Z :=
  u32 (cur_offset b base + le32 b (base + cur_offset b base)).

Lemma zero_pixels_length : length zero_pixels = 4096%nat.
Proof. unfold zero_pixels. by rewrite length_replicate. Qed.

(** The copy of a whole frame of 3 or 4 bytes per pixel. *)
Lemma copy_frame b base ps bytes cw ch cur_size :
  0 < cw <= 32 -> 0 < ch <= 32 -> bytes = 4 \/ bytes = 3 -> zlen b <= 65536 -> 0 <= base -> 0 <= ps ->
  base + cur_size <= zlen b -> ps + 4 * ((cw * bytes + 3) / 4) * ch <= cur_size ->
  exists px, copy_pixels b base ps (4 * ((cw * bytes + 3) / 4)) bytes cw ch zero_pixels = Ok px /\ length px = 4096%nat /\
    forall y x k, 0 <= x < cw -> 0 <= y < ch -> 0 <= k < 4 ->
      get px ((y * cw + x) * 4 + k) = frame_byte b base ps (4 * ((cw * bytes + 3) / 4)) bytes ch y x k.
Proof.
  intros Hw Hh Hby Hz Hbase Hps Hc Hfit.
  destruct (copy_pixels_spec b base ps _ bytes cw ch Hw Hh Hby Hz Hbase Hps (stride_bounds cw bytes Hw Hby) ltac:(lia)
    zero_pixels zero_pixels_length) as (px & E & Hl & Hg).
  exists px. split; [exact E|]. split; [exact Hl|]. intros y x k Hx Hy Hk. apply Hg; [done..|nia].
Qed.

(** For a frame image that lies inside the file buffer and whose data
    offset does not wrap, [parse_cur_frame] never leaves the buffer; when
    it accepts the image the frame is at most 32x32 and holds the image's
    pixels right side up, with full opacity where the source has no alpha. *)
Theorem parse_cur_frame_correct (b : list Z) (base cur_size : Z) (frame : ani_frame) :
  Forall is_byte b -> zlen b <= 65536 -> 0 <= base -> 0 <= cur_size -> base + cur_size <= zlen b ->
  cur_offset b base < 4294967256 ->
  exists ok frame', parse_cur_frame b base cur_size frame = Ok (ok, frame') /\
    (ok = true ->
       0 < f_width frame' <= 32 /\ 0 < f_height frame' <= 32 /\ length (pixels frame') = 4096%nat /\
       (cur_bpp b base = 32 \/ cur_bpp b base = 24) /\
       let bytes := cur_bpp b base / 8 in
       forall y x k, 0 <= x < f_width frame' -> 0 <= y < f_height frame' -> 0 <= k < 4 ->
         get (pixels frame') ((y * f_width frame' + x) * 4 + k) =
           frame_byte b base (cur_pixels b base) (4 * ((f_width frame' * bytes + 3) / 4)) bytes
             (f_height frame') y x k).
Proof.
  intros Hb Hz Hbase Hc0 Hc Hwrap. unfold parse_cur_frame.
  destruct (Z.ltb_spec cur_size 22); [by eexists _, _|].
  rewrite (read_le16_in b base 2), bind_Ok by (done || lia). destruct (negb _); [by eexists _, _|].
  rewrite (rdp_in b base 6), (rdp_in b base 7), !bind_Ok by lia.
  rewrite (read_le16_in b base 10), bind_Ok by (done || lia).
  rewrite (read_le16_in b base 12), bind_Ok by (done || lia).
  rewrite (read_le32_in b base 18), bind_Ok by (done || lia). fold (cur_offset b base).
  destruct (clamp_dim (get b (base + 6)) (get_byte b _ Hb)) as [Ew Hw].
  destruct (clamp_dim (get b (base + 7)) (get_byte b _ Hb)) as [Eh Hh].
  cbv zeta in Ew, Eh |- *. unfold ANI_MAX_CURSOR_W, ANI_MAX_CURSOR_H. rewrite Ew, Eh.
  set (cw := clamp32 _) in *. set (ch := clamp32 (get b (base + 7))) in *.
  pose proof (le32_bound b (base + 18) Hb) as Ho. fold (cur_offset b base) in Ho. set (off := cur_offset b base) in *.
  rewrite (u32_small (off + 40)) by lia.
  destruct (Z.ltb_spec cur_size (off + 40)); [by eexists _, _|].
  rewrite (read_le32_in b base off), bind_Ok by (done || lia).
  destruct (_ <? 40); [by eexists _, _|].
  rewrite (read_le16_in b base (off + 14)), bind_Ok by (done || lia).
  change (le16 b (base + (off + 14))) with (cur_bpp b base).
  change (u32 (off + le32 b (base + off))) with (cur_pixels b base).
  assert (0 <= cur_bpp b base < 65536) as Hbpp by (by apply le16_bound).
  assert (0 <= cur_pixels b base < 4294967296) as Hps by apply u32_bound.
  set (bpp := cur_bpp b base) in *. set (ps := cur_pixels b base) in *.
  destruct (Z.ltb_spec cur_size ps); [by eexists _, _|].
  rewrite row_stride_spec by dlia. set (stride := 4 * _).
  assert (0 <= (bpp + 7) / 8 <= 8192) as Hby by dlia.
  assert (0 <= stride <= 262148) as Hst.
  { unfold stride. assert (0 <= cw * ((bpp + 7) / 8) <= 262144) as HH by nia. revert HH.
    generalize (cw * ((bpp + 7) / 8)). intros z Hz'. dlia. }
  rewrite (u32_small (stride * ch)) by nia.
  rewrite (u32_small (ps + stride * ch)) by nia.
  destruct (Z.ltb_spec cur_size (ps + stride * ch)); [by eexists _, _|].
  destruct (Z.eqb_spec bpp 32) as [E32|N32]; [|destruct (Z.eqb_spec bpp 24) as [E24|N24]; [|by eexists _, _]].
  - assert (stride = 4 * ((cw * 4 + 3) / 4)) as Es by (unfold stride; rewrite E32; done). rewrite Es in *.
    destruct (copy_frame b base ps 4 cw ch cur_size) as (px & -> & Hl & Hg); [auto; lia..|].
    rewrite bind_Ok. eexists _, _. split; [reflexivity|]. intros _. cbn [f_width f_height pixels]. rewrite E32. auto 10.
  - assert (stride = 4 * ((cw * 3 + 3) / 4)) as Es by (unfold stride; rewrite E24; done). rewrite Es in *.
    destruct (copy_frame b base ps 3 cw ch cur_size) as (px & -> & Hl & Hg); [auto; lia..|].
    rewrite bind_Ok. eexists _, _. split; [reflexivity|]. intros _. cbn [f_width f_height pixels]. rewrite E24. auto 10.
Qed.

(** A 1x1 32-bit cursor image. *)
Definition tiny_cur : list Z :=
  [0; 0; 2; 0; 1; 0] ++ [1; 1; 0; 0; 5; 0; 6; 0; 44; 0; 0; 0; 22; 0; 0; 0] ++
  ([40; 0; 0; 0] ++ replicate 10 0 ++ [32; 0] ++ replicate 24 0) ++ [10; 20; 30; 40].

Lemma parse_cur_frame_correct_witness :
  exists frame', parse_cur_frame tiny_cur 0 66 frame_zero = Ok (true, frame') /\
    get (pixels frame') 2 = 30 /\ f_width frame' = 1.
Proof.
  destruct (parse_cur_frame_correct tiny_cur 0 66 frame_zero) as (ok & frame' & E & Hg).
  - repeat (constructor; [unfold is_byte; lia|]). constructor.
  - simpl. lia.
  - lia.
  - lia.
  - simpl. lia.
  - vm_compute. reflexivity.
  - assert (ok = true /\ f_width frame' = 1 /\ f_height frame' = 1) as (-> & Ew & Eh).
    { vm_compute in E. injection E as <- <-. done. }
    exists frame'. split; [exact E|]. split; [|exact Ew].
    destruct (Hg eq_refl) as (_ & _ & _ & _ & G). specialize (G 0 0 2). rewrite Ew, Eh in G.
    etransitivity; [apply G; lia|]. vm_compute. reflexivity.
Defined.

(** ** Playback *)

Definition frame_dur (a : ani) (i : nat) : Z :=
  match ani_frames a !! i with Some f => jiffies_to_ticks (duration_jiffies f) | None => 0 end.

(** The tick at which frame [i] starts within a cycle. *)
Definition frame_start (a : ani) (i : nat) : Z := foldr (fun k acc => frame_dur a k + acc) 0 (seq 0 i).

Lemma frame_start_S a i : frame_start a (S i) = frame_start a i + frame_dur a i.
Proof.
  unfold frame_start. rewrite seq_S, foldr_app. simpl. generalize (seq 0 i). intros l.
  rewrite Z.add_0_r. induction l as [|k l IH]; simpl; lia.
Qed.

Lemma jiffies_to_ticks_bound j :
  0 <= j < 4294967296 -> 0 <= jiffies_to_ticks j < 1000000 /\ (j <> 0 -> 0 < jiffies_to_ticks j).
Proof.
  intros Hj. unfold jiffies_to_ticks, ani_speed_percentage. destruct (Z.eqb_spec j 0); [lia|].
  pose proof (u32_bound (j * 100)). set (u := u32 (j * 100)) in *.
  set (adj := if u / 1600 =? 0 then 1 else u / 1600).
  assert (1 <= adj <= 2684355) as Hadj by (unfold adj; destruct (Z.eqb_spec (u / 1600) 0); dlia).
  rewrite u32_small by lia. destruct (Z.eqb_spec ((adj * 18 + 30) / 60) 0); dlia.
Qed.

(** A loaded animation: every frame has a duration. *)
Record ani_ok (a : ani) : Prop := {
  ao_count : 0 <= ani_frame_count a <= 16;
  ao_frames : (Z.to_nat (ani_frame_count a) <= length (ani_frames a))%nat;
  ao_dur : forall i f, ani_frames a !! i = Some f -> 0 <= duration_jiffies f < 4294967296;
  ao_pos : forall i f, ani_frames a !! i = Some f -> Z.of_nat i < ani_frame_count a -> duration_jiffies f <> 0
}.

Lemma frame_ticks_dur a i :
  ani_ok a -> 0 <= i < ani_frame_count a ->
  frame_ticks a i = Ok (frame_dur a (Z.to_nat i)) /\ 0 < frame_dur a (Z.to_nat i) < 1000000.
Proof.
  intros [Hc Hl Hd Hp] Hi. unfold frame_ticks, frame_dur.
  destruct (lookup_lt_is_Some_2 (ani_frames a) (Z.to_nat i)) as [f Ef]; [lia|].
  rewrite Ef. cbn [or_fault]. rewrite bind_Ok. split; [done|].
  destruct (jiffies_to_ticks_bound (duration_jiffies f) (Hd _ _ Ef)) as [B P].
  split; [apply P, (Hp _ _ Ef); lia|lia].
Qed.

Lemma frame_start_bound a i :
  ani_ok a -> Z.of_nat i <= ani_frame_count a -> Z.of_nat i <= frame_start a i <= 1000000 * Z.of_nat i.
Proof.
  intros Ha. induction i as [|i IH]; intros Hi; [done|]. rewrite frame_start_S.
  destruct (frame_ticks_dur a (Z.of_nat i) Ha) as [_ B]; [lia|]. rewrite Nat2Z.id in B. lia.
Qed.

Lemma find_frame_spec a n i m :
  ani_ok a -> (i + n = Z.to_nat (ani_frame_count a))%nat ->
  frame_start a i <= m < frame_start a (i + n) ->
  exists j, (i <= j < i + n)%nat /\ find_frame n (Z.of_nat i) (frame_start a i) m a = Ok (Z.of_nat j) /\
    frame_start a j <= m < frame_start a (S j).
Proof.
  intros Ha. revert i. induction n as [|n IH]; intros i Hn Hm; [rewrite Nat.add_0_r in Hm; lia|].
  cbn [find_frame]. pose proof (ao_count _ Ha).
  destruct (frame_ticks_dur a (Z.of_nat i) Ha) as [E B]; [lia|]. rewrite Nat2Z.id in *.
  rewrite E, bind_Ok. pose proof (frame_start_bound a i Ha ltac:(lia)).
  rewrite u32_small by lia. rewrite <- frame_start_S.
  destruct (Z.ltb_spec m (frame_start a (S i))).
  - exists i. split; [lia|]. split; [done|lia].
  - destruct (IH (S i)) as (j & Hj & Ej & Bj); [lia|replace (S i + n)%nat with (i + S n)%nat by lia; lia|].
    exists j. split; [lia|]. split; [|done]. rewrite <- Ej. f_equal. lia.
Qed.

Lemma ani_update_aux (a : ani) (now : Z) :
  ani_ok a -> ani_active a = true -> 0 < ani_frame_count a ->
  let n := Z.to_nat (ani_frame_count a) in
  let phase := u32 (now - ani_frame_start_tick a) mod frame_start a n in
  exists i, (i < n)%nat /\
    ani_update now a = Ok (1, mk_ani (ani_frames a) (ani_frame_count a) true (Z.of_nat i) (ani_frame_start_tick a)) /\
    frame_start a i <= phase < frame_start a (S i).
Proof.
  intros Ha Hact Hc n phase. unfold ani_update. rewrite Hact. simpl negb. simpl orb.
  destruct (Z.eqb_spec (ani_frame_count a) 0); [lia|]. fold n. pose proof (ao_count _ Ha).
  assert (for_up n 0 (fun i t => d ← frame_ticks a i; Ok (u32 (t + d))) 0 = Ok (frame_start a n)) as ->.
  { destruct (for_up_inv (fun i t => t = frame_start a (Z.to_nat i)) n 0
      (fun i t => d ← frame_ticks a i; Ok (u32 (t + d))) 0) as (t & -> & ->); [| done |by rewrite Z.add_0_l, Nat2Z.id].
    intros i t Hi ->. destruct (frame_ticks_dur a i Ha) as [E B]; [lia|]. rewrite E, bind_Ok.
    eexists. split; [done|]. pose proof (frame_start_bound a (Z.to_nat i) Ha ltac:(lia)).
    replace (Z.to_nat (i + 1)) with (S (Z.to_nat i)) by lia. rewrite frame_start_S, u32_small by lia. done. }
  rewrite bind_Ok. pose proof (frame_start_bound a n Ha ltac:(lia)).
  destruct (Z.eqb_spec (frame_start a n) 0); [lia|]. fold phase.
  destruct (find_frame_spec a n 0 phase Ha ltac:(lia)) as (j & Hj & Ej & Bj).
  { change (frame_start a 0) with 0. simpl (0 + n)%nat. apply Z.mod_pos_bound. lia. }
  change (find_frame n 0 0 phase a = Ok (Z.of_nat j)) in Ej. rewrite Ej, bind_Ok. exists j. split; [lia|done].
Qed.

(** While an animation plays, [ani_update] succeeds and selects the frame
    whose interval, in a cycle of the frames' durations laid end to end,
    contains the ticks elapsed since the start modulo the cycle length. *)
Theorem ani_update_selects (a : ani) (now : Z) :
  ani_ok a -> ani_active a = true -> 0 < ani_frame_count a ->
  let n := Z.to_nat (ani_frame_count a) in
  let phase := u32 (now - ani_frame_start_tick a) mod frame_start a n in
  exists i, (i < n)%nat /\
    ani_update now a = Ok (1, mk_ani (ani_frames a) (ani_frame_count a) true (Z.of_nat i) (ani_frame_start_tick a)) /\
    frame_start a i <= phase < frame_start a (S i).
Proof. apply ani_update_aux. Qed.

Definition demo_ani : ani :=
  mk_ani [mk_frame 60 1 1 0 0 []; mk_frame 320 1 1 0 0 []] 2 true 0 100.

Lemma demo_ani_ok : ani_ok demo_ani.
Proof.
  split; simpl; [lia|lia| |]; intros [|[|i]] f; simpl; intros [= <-] || intros [=]; simpl; lia.
Qed.

Lemma ani_update_selects_witness :
  exists i, ani_update 105 demo_ani = Ok (1, mk_ani (ani_frames demo_ani) 2 true (Z.of_nat i) 100) /\ (i < 2)%nat.
Proof.
  destruct (ani_update_selects demo_ani 105 demo_ani_ok eq_refl eq_refl) as (i & Hi & E & _).
  exists i. split; [exact E|exact Hi].
Defined.

(** ** The static loader *)


Lemma le16_take n b i : 0 <= i -> i + 2 <= Z.of_nat n -> le16 (take n b) i = le16 b i.
Proof. intros H0 H1. unfold le16. by rewrite !get_take by lia. Qed.

Lemma le32_take n b i : 0 <= i -> i + 4 <= Z.of_nat n -> le32 (take n b) i = le32 b i.
Proof. intros H0 H1. unfold le32. by rewrite !get_take by lia. Qed.

(** Filling an array of exactly the bytes requested. *)
Lemma read_into_exact buf data : length data = length buf -> read_into buf data = Ok data.
Proof. intros E. rewrite read_into_ok by lia. by rewrite E, drop_all, app_nil_r. Qed.

(** [data] read into the start of [buf]. *)
Definition over (data buf : list Z) : list Z := data ++ drop (length data) buf.

Lemma over_ok buf data : zlen data <= zlen buf -> Forall is_byte data -> Forall is_byte buf ->
  read_into buf data = Ok (over data buf) /\ length (over data buf) = length buf /\ Forall is_byte (over data buf).
Proof.
  intros Hl Hd Hb. unfold over. split; [by apply read_into_ok|]. split; [rewrite length_app, length_drop; lia|].
  apply Forall_app. split; [done|by apply Forall_drop].
Qed.

(** A dimension byte of the directory entry: 0 stands for 256. *)
Definition cursor_dim (b : Z) : Z := if b =? 0 then 256 else b.

(** The bytes per pixel that are read for a colour depth. *)
Definition pixel_bytes (bpp : Z) : Z := if bpp =? 32 then 4 else if bpp =? 24 then 3 else 0.

(** What the loader makes of a file [c]: the header (the bytes of a short file
    followed by what the array held), the bitmap header at the offset it
    names (or at the end of the file), and as many bytes of pixels as the
    dimensions ask for and the file has. *)
Definition cur_header (c header0 : list Z) : list Z := over (take 22 c) header0.
Definition cur_start (c header0 : list Z) : Z := Z.min (le32 (cur_header c header0) 18) (zlen c).
Definition cur_bmi (c header0 bmi0 : list Z) : list Z := over (take 40 (drop (Z.to_nat (cur_start c header0)) c)) bmi0.
Definition cur_w (c header0 : list Z) : Z := cursor_dim (get (cur_header c header0) 6).
Definition cur_h (c header0 : list Z) : Z := cursor_dim (get (cur_header c header0) 7).
Definition cur_data (c header0 bmi0 : list Z) : list Z :=
  take (Z.to_nat (cur_w c header0 * cur_h c header0 * pixel_bytes (le16 (cur_bmi c header0 bmi0) 14)))
    (drop (Z.to_nat (cur_start c header0 + 40)) c).

(** C33: on a readable volume and for every file of bytes, short or not, the
    cursor loader does the following. A missing file or one whose type is not
    2 changes nothing. Otherwise it takes the dimensions (0 standing for 256)
    and the hotspot, and reads the pixels (4 bytes each for a depth of 32, 3
    for 24, none for any other) that the dimensions ask for and the file has
    to the start of the 4096-byte pixel array, without a check: it returns
    exactly when they fit, and otherwise writes past the array. *)
Theorem load_system_cursor_exact {V : Type} `{FatFsLaws V} (path header0 bmi0 : list Z) (old : cursor) (v : V) :
  media_ok V -> (forall c, file v path = Some c -> Forall is_byte c) ->
  length header0 = 22%nat -> Forall is_byte header0 -> length bmi0 = 40%nat -> Forall is_byte bmi0 -> zlen (cursor_pixels old) = 4096 ->
  let returns x := exists v', load_system_cursor path header0 bmi0 old v = Ok (x, v') /\ (forall q, file v' q = file v q) in
  match file v path with
  | None => returns old
  | Some c =>
      if le16 (cur_header c header0) 2 =? 2 then
        if zlen (cur_data c header0 bmi0) <=? 4096
        then returns (mk_cursor (over (cur_data c header0 bmi0) (cursor_pixels old)) (cur_w c header0) (cur_h c header0)
                        (le16 (cur_header c header0) 10) (le16 (cur_header c header0) 12))
        else load_system_cursor path header0 bmi0 old v = Fault
      else returns old
  end.
Proof.
  intros Hm Hby Hh0 Hbh Hb0 Hbb Hp returns. unfold returns, load_system_cursor. destruct (file v path) as [c|] eqn:Hf.
  2: { destruct (open_missing path v Hf) as (r & h & v' & -> & -> & Hq). cbn [negb]. by exists v'. }
  specialize (Hby c eq_refl). destruct (open_ok path v c Hf) as (fh & v1 & E1 & P1 & F1). pose proof (opened_reading path v fh v1 E1) as R1.
  destruct (read_ok fh 22 v1 path 0 c Hm P1 ltac:(by rewrite F1) ltac:(lia) ltac:(lia)) as (v2 & E2 & F2 & P2).
  pose proof (read_reading fh 22 v1 path 0 c _ _ v2 P1 ltac:(by rewrite F1) ltac:(lia) ltac:(lia) E2 R1) as R2.
  rewrite drop_0 in E2, P2. change (Z.to_nat 22) with 22%nat in E2, P2. rewrite E1. change (negb (FR_OK =? FR_OK)) with false. cbv iota. rewrite E2.
  destruct (over_ok header0 (take 22 c)) as (-> & Lh & Bh); [rewrite length_take; lia|by apply Forall_take|done|]. fold (cur_header c header0) in Lh, Bh |- *.
  set (hdr := cur_header c header0) in *. rewrite bind_Ok, (read_le16_in hdr 0 2), bind_Ok by (done || lia). change (0 + 2) with 2.
  destruct (Z.eqb_spec (le16 hdr 2) 2) as [Hty|Hty]; cbn [negb]; [|eexists; split; [reflexivity|]; intros q; by rewrite close_law, F2, F1].
  pose proof (le32_bound hdr 18 Bh) as Ho. pose proof (get_byte hdr 6 Bh). pose proof (get_byte hdr 7 Bh).
  rewrite (rd_in _ 6), bind_Ok by lia. rewrite (rd_in _ 7), bind_Ok by lia. cbv zeta.
  rewrite (read_le16_in hdr 0 10), bind_Ok by (done || lia). rewrite (read_le16_in hdr 0 12), bind_Ok by (done || lia).
  rewrite (read_le32_in hdr 0 18), bind_Ok by (done || lia). change (0 + 10) with 10. change (0 + 12) with 12. change (0 + 18) with 18.
  destruct (seek_clipped fh (le32 hdr 18) v2 path _ c R2 P2 ltac:(by rewrite F2, F1) ltac:(lia)) as [F3 P3].
  unfold cur_data, cur_bmi. fold (cur_start c header0) in P3. set (off := cur_start c header0) in *.
  assert (0 <= off <= zlen c) as Hoff by (unfold off, cur_start; fold hdr; lia).
  destruct (read_ok fh 40 _ path off c Hm P3 ltac:(by rewrite F3, F2, F1) ltac:(lia) ltac:(lia)) as (v4 & E4 & F4 & P4). rewrite E4.
  set (raw := take (Z.to_nat 40) (drop (Z.to_nat off) c)) in *. assert (length raw <= 40)%nat as Hraw by (unfold raw; rewrite length_take; lia).
  destruct (over_ok bmi0 raw) as (-> & Lb & Bb); [lia|by apply Forall_take, Forall_drop|done|]. rewrite bind_Ok.
  change (take 40 (drop (Z.to_nat off) c)) with raw. set (bmi := over raw bmi0) in *. rewrite (read_le16_in bmi 0 14), bind_Ok by (done || lia). change (0 + 14) with 14.
  assert (forall b, (if truth b then b else 256) = cursor_dim b) as Hdim by (intros b; unfold truth, cursor_dim; by destruct (b =? 0)). rewrite !Hdim. change (cursor_dim (get hdr 6)) with (cur_w c header0). change (cursor_dim (get hdr 7)) with (cur_h c header0).
  assert (0 < cur_w c header0 <= 256 /\ 0 < cur_h c header0 <= 256) as [Hw Hh] by (unfold cur_w, cur_h, cursor_dim; fold hdr; split; destruct (Z.eqb_spec (get hdr 6) 0), (Z.eqb_spec (get hdr 7) 0); lia).
  set (w := cur_w c header0) in *. set (h := cur_h c header0) in *.
  assert (forall n, 0 <= n -> exists v5, f_read fh n v4 = (FR_OK, take (Z.to_nat n) (drop (Z.to_nat (off + 40)) c), v5) /\ forall q, file v5 q = file v4 q) as Hread.
  { intros n Hn. destruct (read_ok fh n v4 path _ c Hm P4 ltac:(by rewrite F4, F3, F2, F1) Hn ltac:(lia)) as (v5 & E5 & F5 & _). exists v5. split; [|done]. rewrite E5. do 3 f_equal.
    destruct (decide (length raw = 40%nat)) as [->|Hs]; [f_equal; lia|]. unfold raw in Hs |- *. rewrite length_take, length_drop in Hs |- *. rewrite !drop_ge by lia. done. }
  assert (0 <= w * h <= 65536) as Hwh by nia. unfold pixel_bytes.
  assert (forall v' n, (forall q, file v' q = file v4 q) -> f_read fh n v4 = (FR_OK, take (Z.to_nat n) (drop (Z.to_nat (off + 40)) c), v') -> let data := take (Z.to_nat n) (drop (Z.to_nat (off + 40)) c) in
    if zlen data <=? 4096 then exists v'', (x ← (p ← read_into (cursor_pixels old) data; Ok (p, v')); let '(px, v) := x : list Z * V in Ok (mk_cursor px w h (le16 hdr 10) (le16 hdr 12), f_close fh v)) =
        Ok (mk_cursor (over data (cursor_pixels old)) w h (le16 hdr 10) (le16 hdr 12), v'') /\ (forall q, file v'' q = file v q)
      else (x ← (p ← read_into (cursor_pixels old) data; Ok (p, v')); let '(px, v) := x : list Z * V in Ok (mk_cursor px w h (le16 hdr 10) (le16 hdr 12), f_close fh v)) = Fault) as Hend.
  { intros v' n Hq _ data. unfold read_into. rewrite Hp. destruct (zlen data <=? 4096); [|done]. rewrite !bind_Ok. eexists. split; [reflexivity|]. intros q. by rewrite close_law, Hq, F4, F3, F2, F1. }
  destruct (Z.eqb_spec (le16 bmi 14) 32).
  - destruct (Hread (w * h * 4) ltac:(lia)) as (v5 & E5 & F5). rewrite (u32_small (w * h * 4)) by lia. rewrite E5. apply (Hend v5 _ F5 E5).
  - destruct (Z.eqb_spec (le16 bmi 14) 24).
    + destruct (Hread (w * h * 3) ltac:(lia)) as (v5 & E5 & F5). rewrite (u32_small (w * h * 3)) by lia. rewrite E5. apply (Hend v5 _ F5 E5).
    + rewrite Z.mul_0_r. cbn [Z.to_nat take length]. rewrite !bind_Ok. eexists. split; [unfold over; cbn [length app]; rewrite drop_0; reflexivity|]. intros q. by rewrite close_law, F4, F3, F2, F1.
Qed.

(** A cursor file of the given dimensions. *)
Definition cur_file (w h : Z) : list Z :=
  [0; 0; 2; 0; 1; 0] ++ [w; h; 0; 0; 5; 0; 6; 0; 44; 0; 0; 0; 22; 0; 0; 0] ++
  ([40; 0; 0; 0] ++ replicate 10 0 ++ [32; 0] ++ replicate 24 0) ++ replicate (Z.to_nat (w * h * 4)) 9.

Definition cur_volume (w h : Z) : memfs := mk_memfs {[ [99] := cur_file w h ]} ∅ 0.

(** Run at a 40x40 cursor: the array is overrun. *)
Lemma load_system_cursor_exact_witness :
  load_system_cursor [99] (replicate 22 0) (replicate 40 0) cursor_boot (cur_volume 40 40) = Fault.
Proof.
  assert (Forall is_byte (cur_file 40 40)) as Hc.
  { unfold cur_file. rewrite !Forall_app. split_and!; try (apply Forall_replicate; unfold is_byte; lia);
      repeat (constructor; [unfold is_byte; lia|]); constructor. }
  assert (file (cur_volume 40 40) [99] = Some (cur_file 40 40)) as Hf by reflexivity.
  assert (forall n, Forall is_byte (replicate n 0)) as H0 by (intros n; apply Forall_replicate; unfold is_byte; lia).
  pose proof (load_system_cursor_exact [99] (replicate 22 0) (replicate 40 0) cursor_boot (cur_volume 40 40) mem_media_ok
    ltac:(intros c Ec; rewrite Hf in Ec; injection Ec as <-; exact Hc) eq_refl (H0 _) eq_refl (H0 _) eq_refl) as T.
  cbv zeta in T. rewrite Hf in T.
  assert ((le16 (cur_header (cur_file 40 40) (replicate 22 0)) 2 =? 2) = true) as E1 by (vm_compute; reflexivity).
  assert ((zlen (cur_data (cur_file 40 40) (replicate 22 0) (replicate 40 0)) <=? 4096) = false) as E2 by (vm_compute; reflexivity).
  rewrite E1, E2 in T. exact T.
Defined.

(** ** A chunk the loop cannot pass *)

Lemma id_is_in b off s :
  0 <= off -> off + 4 <= zlen b -> zlen b <= 65536 ->
  id_is b off s = Ok (bool_decide ([get b off; get b (off + 1); get b (off + 2); get b (off + 3)] = s)).
Proof. intros H0 H1 Hz. unfold id_is. rewrite !rdp_in by lia. rewrite !bind_Ok. by rewrite Z.add_0_r. Qed.

(** The id of a chunk none of the branches of [ani_load] handles. *)
Definition unknown_chunk (b : list Z) (off : Z) : Prop :=
  forall s, s ∈ [ID_anih; ID_seq; ID_LIST; ID_icon] ->
    [get b off; get b (off + 1); get b (off + 2); get b (off + 3)] <> s.

(** The chunk walk of [ani_load] computes the next offset modulo 2^32: a
    chunk of unknown kind whose size field is 0xFFFFFFF8 is its own
    successor, and the loader never returns from such a file, however many
    iterations it is given. *)
Theorem ani_chunk_hang (b : list Z) (file_size off rate : Z) (a : ani) (fuel : nat) :
  Forall is_byte b -> zlen b <= 65536 -> file_size <= zlen b ->
  0 <= off -> off + 8 <= file_size -> off mod 2 = 0 ->
  unknown_chunk b off -> le32 b (off + 4) = 4294967288 ->
  chunk_loop fuel b file_size off rate a = NoFuel.
Proof.
  intros Hb Hz Hfs H0 H1 Hev Hun Hsz. revert rate a.
  induction fuel as [|fuel IH]; intros rate a; [done|]. cbn [chunk_loop].
  rewrite (u32_small (off + 8)) by lia. destruct (Z.leb_spec (off + 8) file_size); [|lia].
  assert (forall s, s ∈ [ID_anih; ID_seq; ID_LIST; ID_icon] -> id_is b off s = Ok false) as Hid.
  { intros s Hs. rewrite id_is_in by lia. rewrite bool_decide_eq_false_2; [done|]. by apply Hun. }
  rewrite !Hid by (rewrite !elem_of_cons; tauto). rewrite !bind_Ok.
  rewrite read_le32_in, Hsz, !bind_Ok by (done || lia).
  assert (chunk_end off 4294967288 = off) as ->.
  { unfold chunk_end. replace (u32 (off + 8 + 4294967288)) with off.
    - change 1 with (Z.ones 1) at 1. rewrite Z.land_ones by lia. change (2 ^ 1) with 2. by rewrite Hev.
    - unfold u32, wrap. change (2 ^ 32) with 4294967296. dlia. }
  destruct (Z.leb_spec file_size off); [lia|]. apply IH.
Qed.

Definition hang_file : list Z :=
  [82; 73; 70; 70; 12; 0; 0; 0; 65; 67; 79; 78] ++ [74; 85; 78; 75; 248; 255; 255; 255].

Lemma ani_chunk_hang_witness : ani_parse 1000 hang_file 20 ani_boot = NoFuel.
Proof.
  assert (chunk_loop 1000 hang_file 20 12 60 ani_boot = NoFuel) as E.
  { apply ani_chunk_hang.
    - repeat (constructor; [unfold is_byte; lia|]). constructor.
    - simpl. lia.
    - simpl. lia.
    - lia.
    - lia.
    - reflexivity.
    - intros s Hs. repeat (apply elem_of_cons in Hs as [-> | Hs]; [discriminate|]).
      by apply not_elem_of_nil in Hs.
    - reflexivity. }
  unfold ani_parse. rewrite E. reflexivity.
Defined.

(** ** Drawing a frame *)

(** The colour a frame pixel leaves on the screen. *)
Definition frame_shade (fr : ani_frame) (x y bg : Z) : Z :=
  let i := (y * f_width fr + x) * 4 in
  let b := get (pixels fr) i in let g := get (pixels fr) (i + 1) in
  let r := get (pixels fr) (i + 2) in let a := get (pixels fr) (i + 3) in
  if see_through b g r a then bg else pack r g b.

Record frame_ok (fr : ani_frame) : Prop := {
  fo_w : 0 < f_width fr <= 32; fo_h : 0 < f_height fr <= 32; fo_len : length (pixels fr) = 4096%nat;
  fo_hx : -32768 <= f_hotspot_x fr < 32768; fo_hy : -32768 <= f_hotspot_y fr < 32768
}.

Lemma draw_frame_painted W H fr sx sy bb :
  screen_ok W H -> W * H <= zlen bb -> frame_ok fr -> -65536 <= sx < 65536 -> -65536 <= sy < 65536 ->
  exists bb', draw_frame W H sx sy fr bb = Ok bb' /\
    painted W H (in_screen W H) (fun x y => frame_shade fr (x - sx) (y - sy))
      (in_rect sx sy (f_width fr) (f_height fr)) bb bb'.
Proof.
  intros HS Hl [Hw Hh Hp _ _] Hx Hy. unfold draw_frame.
  set (body := fun px py bb => if negb (in_screen W H px py) then Ok bb else
      let idx := u32 (u32 ((py - sy) * f_width fr + (px - sx)) * 4) in
      b ← rd (pixels fr) idx; g ← rd (pixels fr) (idx + 1); r ← rd (pixels fr) (idx + 2); a ← rd (pixels fr) (idx + 3);
      if see_through b g r a then Ok bb else wr bb (py * i32 W + px) (pack r g b)).
  destruct (for_rect_painted W H (in_screen W H) (fun x y => frame_shade fr (x - sx) (y - sy)) body
    sx sy (f_width fr) (f_height fr) bb) as (bb' & E & P); [| |done|].
  - intros px py b1 HR Hl1. unfold body. destruct (in_screen W H px py) eqn:Ein; [|done]. simpl negb. cbv iota.
    apply (in_screen_spec _ _ _ _ HS) in Ein as [Ex Ey].
    assert (0 <= px - sx < f_width fr /\ 0 <= py - sy < f_height fr) as [Ax Ay].
    { revert HR. unfold in_rect. zcases; simpl; intros; done || lia. }
    pose proof (pix_index_bound W H px py Ex Ey). pose proof (pix_index_bound _ _ _ _ Ax Ay).
    assert (f_width fr * f_height fr <= 1024) by nia.
    rewrite (u32_small ((py - sy) * f_width fr + (px - sx))) by lia. rewrite u32_small by lia. cbv zeta.
    rewrite (rd_in (pixels fr) (_ * 4)), bind_Ok by lia.
    rewrite (rd_in (pixels fr) (_ * 4 + 1)), bind_Ok by lia.
    rewrite (rd_in (pixels fr) (_ * 4 + 2)), bind_Ok by lia.
    rewrite (rd_in (pixels fr) (_ * 4 + 3)), bind_Ok by lia.
    unfold frame_shade. destruct (see_through _ _ _ _); [by rewrite (list_insert_pix W H)|].
    rewrite i32_small by (destruct HS; lia). apply wr_in. lia.
  - intros px py Ein. by apply (in_screen_spec _ _ _ _ HS) in Ein.
  - exists bb'. split; [|done]. rewrite <- E, <- (for_rect_shift sx sy). unfold for_rect.
    apply for_up_ext. intros y b1 Hy1. apply for_up_ext. intros x b2 Hx1. unfold body.
    rewrite !(i32_small (sx + x)), !(i32_small (sy + y)) by lia.
    replace (sx + x - sx) with x by lia. replace (sy + y - sy) with y by lia.
    replace (negb (in_screen W H (sx + x) (sy + y))) with
      ((sx + x <? 0) || (i32 W <=? sx + x) || (sy + y <? 0) || (i32 H <=? sy + y)); [done|].
    unfold in_screen. zcases; simpl; done || lia.
Qed.

(** ** What the loader leaves *)

(** A loaded animation: every frame has a duration and can be drawn. *)
Record ani_loaded (a : ani) : Prop := {
  al_ok : ani_ok a;
  al_frames : forall i f, ani_frames a !! i = Some f -> Z.of_nat i < ani_frame_count a -> frame_ok f
}.

(** Playing, stopping and updating change only the position. *)
Definition same_frames (a a' : ani) : Prop := ani_frames a' = ani_frames a /\ ani_frame_count a' = ani_frame_count a.

#[global] Instance same_frames_trans : Transitive same_frames.
Proof. intros a b c [E1 E2] [E3 E4]. split; congruence. Qed.

#[global] Instance same_frames_refl : Reflexive same_frames.
Proof. by intros a. Qed.

Lemma play_same t a : same_frames a (ani_play t a).
Proof. unfold ani_play. by destruct (_ =? 0). Qed.

Lemma stop_same a : same_frames a (ani_stop a).
Proof. done. Qed.

Lemma update_same t a r a' : ani_update t a = Ok (r, a') -> same_frames a a'.
Proof. unfold ani_update. destruct (_ || _); [by intros [= _ <-]|]. intros Hu. by inv_ok. Qed.

Lemma same_loaded a a' : same_frames a a' -> ani_loaded a -> ani_loaded a'.
Proof. intros [E1 E2] [[? ? ? ?] ?]. split; [split|]; rewrite ?E1, ?E2; done. Qed.

Section Loaded.
Context (b : list Z) (Hb : Forall is_byte b).
#[local] Set Default Proof Using "All".

Lemma rdp_byte base off x : rdp b base off = Ok x -> is_byte x.
Proof. unfold rdp. intros Hx. apply rd_Ok_inv in Hx as [_ <-]. unfold is_byte. by apply get_byte. Qed.

Lemma copy_pixel_length base ps src bytes dst px px' : copy_pixel b base ps src bytes dst px = Ok px' -> length px' = length px.
Proof.
  unfold copy_pixel. intros Hc. inv_ok. repeat match goal with H : wr _ _ _ = Ok _ |- _ => apply wr_length in H end. congruence.
Qed.

Lemma copy_pixels_length base ps stride bytes cw ch px px' : copy_pixels b base ps stride bytes cw ch px = Ok px' -> length px' = length px.
Proof.
  unfold copy_pixels. intros Hc. apply (for_up_keeps (fun p => length p = length px) _ _ _ _ _) in Hc; [done| |done].
  intros y p1 p2 H1 H2. apply (for_up_keeps (fun p => length p = length px) _ _ _ _ _) in H2; [done| |done].
  intros x p3 p4 H3 H4. apply copy_pixel_length in H4. congruence.
Qed.

Lemma clamped c : is_byte c -> 0 < (if 32 <? (if truth c then c else 256) then 32 else if truth c then c else 256) <= 32.
Proof. unfold is_byte, truth. intros Hc. destruct (Z.eqb_spec c 0); cbn [negb]; zcases; lia. Qed.

(** An accepted image gives a frame that can be drawn. *)
Lemma parse_cur_frame_ok base size frame ok frame' :
  parse_cur_frame b base size frame = Ok (ok, frame') -> duration_jiffies frame' = duration_jiffies frame /\ (ok = true -> frame_ok frame').
Proof.
  unfold parse_cur_frame. intros Hp. destruct (_ <? 22); [by injection Hp as <- <-|]. inv_ok.
  destruct (negb _); [by injection Hp as <- <-|]. inv_ok.
  match goal with H : rdp _ _ 6 = Ok ?c |- _ => apply rdp_byte, clamped in H end.
  match goal with H : rdp _ _ 7 = Ok ?c |- _ => apply rdp_byte, clamped in H end.
  cbv zeta in Hp. unfold ANI_MAX_CURSOR_W, ANI_MAX_CURSOR_H in Hp.
  match goal with H : 0 < ?x <= 32, H' : 0 < ?y <= 32 |- _ => set (cw := x) in *; set (ch := y) in * end.
  destruct (_ <? u32 _); [by injection Hp as <- <-|]. inv_ok. destruct (_ <? 40); [by injection Hp as <- <-|]. inv_ok.
  destruct (_ <? u32 _); [by injection Hp as <- <-|]. destruct (_ <? u32 _); [by injection Hp as <- <-|].
  destruct (_ =? 32).
  - inv_ok. split; [done|]. intros _. match goal with H : copy_pixels _ _ _ _ _ _ _ _ = Ok _ |- _ => apply copy_pixels_length in H end.
    split; cbn [f_width f_height f_hotspot_x f_hotspot_y pixels]; [done|done|by rewrite <- zero_pixels_length|apply i16_bound..].
  - destruct (_ =? 24); [|by injection Hp as <- <-]. inv_ok. split; [done|]. intros _.
    match goal with H : copy_pixels _ _ _ _ _ _ _ _ = Ok _ |- _ => apply copy_pixels_length in H end.
    split; cbn [f_width f_height f_hotspot_x f_hotspot_y pixels]; [done|done|by rewrite <- zero_pixels_length|apply i16_bound..].
Qed.

Lemma load_icon_loaded base size rate a a' :
  ani_loaded a -> 0 < rate < 4294967296 -> ani_frame_count a < 16 -> load_icon b base size rate a = Ok a' -> ani_loaded a'.
Proof.
  intros [[Hc Hl Hd Hp] Hf] Hr Hlt Hi. unfold load_icon in Hi. apply bind_Ok_inv in Hi as (fr & Hfr & Hi).
  destruct (ani_frames a !! Z.to_nat (ani_frame_count a)) as [f0|] eqn:E0; [|done]. injection Hfr as ->.
  apply bind_Ok_inv in Hi as ([ok fr'] & Hpar & Hi). cbv beta iota zeta in Hi. injection Hi as <-.
  destruct (parse_cur_frame_ok _ _ _ _ _ Hpar) as [Edur Hok]. apply lookup_lt_Some in E0 as Hlt0.
  set (k := Z.to_nat (ani_frame_count a)) in *. set (fr1 := if ok then _ else fr').
  assert (forall i f, <[k := fr1]> (ani_frames a) !! i = Some f -> (i = k /\ f = fr1) \/ (i <> k /\ ani_frames a !! i = Some f)) as Hlk.
  { intros i f Hi. destruct (decide (i = k)) as [->|Hne]; [|right; by rewrite list_lookup_insert_ne in Hi].
    left. rewrite list_lookup_insert_eq in Hi by done. by injection Hi as <-. }
  assert (duration_jiffies fr1 = if ok then rate else duration_jiffies fr) as Edur1 by (unfold fr1; by destruct ok).
  pose proof (Hd _ _ E0) as Hd0.
  split; [split|]; cbn [ani_frames ani_frame_count].
  - destruct ok; lia.
  - rewrite length_insert. destruct ok; lia.
  - intros i f Hi. destruct (Hlk i f Hi) as [[-> ->]|[_ Hi']]; [|by apply (Hd i)]. rewrite Edur1. destruct ok; lia.
  - intros i f Hi Hlt1. destruct (Hlk i f Hi) as [[-> ->]|[Hne Hi']].
    + rewrite Edur1. destruct ok; [lia|]. exfalso. unfold k in Hlt1. lia.
    + apply (Hp i f Hi'). destruct ok; [|done]. unfold k in Hne. lia.
  - intros i f Hi Hlt1. destruct (Hlk i f Hi) as [[-> ->]|[Hne Hi']].
    + unfold fr1. destruct ok; [|exfalso; unfold k in Hlt1; lia]. destruct (Hok eq_refl) as [? ? ? ? ?]. by split.
    + apply (Hf i f Hi'). destruct ok; [|done]. unfold k in Hne. lia.
Qed.

Lemma list_loop_loaded fuel : forall off e rate a a',
  ani_loaded a -> 0 < rate < 4294967296 -> list_loop fuel b off e rate a = Ok a' -> ani_loaded a'.
Proof.
  induction fuel as [|fuel IH]; intros off e rate a a' Ha Hr Hl; [done|]. cbn [list_loop] in Hl.
  destruct ((_ <=? e) && (ani_frame_count a <? ANI_MAX_FRAMES)) eqn:E; [|by injection Hl as <-].
  apply andb_prop in E as [_ E]. apply Z.ltb_lt in E. inv_ok. eapply IH; [|done|exact Hl].
  match goal with H : (if ?c then load_icon _ _ _ _ _ else _) = Ok _ |- _ => destruct c; [by eapply load_icon_loaded|by injection H as <-] end.
Qed.

Lemma chunk_loop_loaded fuel : forall size off rate a a',
  ani_loaded a -> 0 < rate < 4294967296 -> chunk_loop fuel b size off rate a = Ok a' -> ani_loaded a'.
Proof.
  induction fuel as [|fuel IH]; intros size off rate a a' Ha Hr Hl; [done|]. cbn [chunk_loop] in Hl.
  destruct (_ <=? size); [|by injection Hl as <-]. apply bind_Ok_inv in Hl as (anih & _ & Hl). apply bind_Ok_inv in Hl as (sq & _ & Hl).
  apply bind_Ok_inv in Hl as (lst & _ & Hl). apply bind_Ok_inv in Hl as (icon & _ & Hl). apply bind_Ok_inv in Hl as (csize & _ & Hl).
  apply bind_Ok_inv in Hl as ([rate' a1] & Hs & Hl). assert (ani_loaded a1 /\ 0 < rate' < 4294967296) as [Ha1 Hr1].
  { destruct anih.
    - destruct (_ && _); [|by injection Hs as <- <-]. apply bind_Ok_inv in Hs as (r & Hr0 & Hs). injection Hs as <- <-. split; [done|].
      unfold read_le32 in Hr0. inv_ok. match goal with |- context [u32 ?z] => pose proof (u32_bound z); destruct (Z.eqb_spec (u32 z) 0); lia end.
    - destruct sq; [apply bind_Ok_inv in Hs as (u & _ & Hs); by injection Hs as <- <-|].
      destruct lst; [apply bind_Ok_inv in Hs as (a2 & Hs2 & Hs); injection Hs as <- <-; split; [by eapply list_loop_loaded|done]|].
      destruct icon; [|by injection Hs as <- <-].
      destruct (ani_frame_count a <? ANI_MAX_FRAMES) eqn:E; [|by injection Hs as <- <-]. apply Z.ltb_lt in E.
      apply bind_Ok_inv in Hs as (a2 & Hs2 & Hs). injection Hs as <- <-. split; [by eapply load_icon_loaded|done]. }
  cbv beta iota zeta in Hl. destruct (size <=? _); [by injection Hl as <-|]. by eapply IH.
Qed.

Lemma ani_parse_loaded fuel size a r a' : ani_loaded a -> ani_parse fuel b size a = Ok (r, a') -> ani_loaded a'.
Proof.
  intros Ha Hp. unfold ani_parse in Hp. destruct (_ <? 12); [by injection Hp as _ <-|]. inv_ok. destruct (negb _); [by injection Hp as _ <-|].
  inv_ok. destruct (negb _); [by injection Hp as _ <-|]. inv_ok. eapply chunk_loop_loaded; [exact Ha| |done]. lia.
Qed.

End Loaded.

Lemma ani_boot_loaded : ani_loaded (ani_init ani_boot).
Proof.
  split; [split|]; cbn [ani_init ani_boot ani_frames ani_frame_count].
  - lia.
  - cbn. lia.
  - intros i f Hf. apply lookup_replicate in Hf as [-> _]. cbn. lia.
  - lia.
  - lia.
Qed.

(** Loading an animation in place of none, from any file, leaves one that plays. *)
Lemma ani_load_loaded {V : Type} `{FatFsLaws V} fuel path buf a (v : V) r buf' a' v' :
  Forall is_byte buf -> ani_loaded (ani_init a) -> ani_load fuel path buf a v = Ok (r, buf', a', v') -> ani_loaded a'.
Proof.
  intros Hb Ha Hl. unfold ani_load in Hl. cbv zeta in Hl. destruct (f_open path FA_READ v) as [[r1 h] v1].
  destruct (negb _); [by injection Hl as _ _ <- _|]. destruct (_ <? _); [by injection Hl as _ _ <- _|].
  pose proof (read_bytes h (u32 (f_size h v1)) v1) as Hd. destruct (f_read h _ v1) as [[r2 data] v2]. cbn [fst snd] in Hd.
  apply bind_Ok_inv in Hl as (b' & Hri & Hl). assert (Forall is_byte b') as Hb'.
  { unfold read_into in Hri. destruct (_ <=? _); [|done]. injection Hri as <-. apply Forall_app. split; [done|by apply Forall_drop]. }
  destruct (_ || _); [by injection Hl as _ _ <- _|]. apply bind_Ok_inv in Hl as ([r3 a3] & Hp & Hl). cbv beta iota in Hl. injection Hl as _ _ <- _.
  by eapply ani_parse_loaded.
Qed.

(** ** The cursors that can be drawn *)

(** A cursor picture inside its array. *)
Record cursor_ok (c : cursor) : Prop := {
  co_w : 0 < c_width c <= 256; co_h : 0 < c_height c <= 256; co_len : c_width c * c_height c * 4 <= zlen (cursor_pixels c);
  co_hx : 0 <= hotspot_x c < 65536; co_hy : 0 <= hotspot_y c < 65536
}.

(** No cursor was loaded, or one inside its array. *)
Definition cursor_drawable (c : cursor) : Prop := (c_width c = 0 \/ c_height c = 0) \/ cursor_ok c.

Lemma read_le16_bound b base off x : read_le16 b base off = Ok x -> 0 <= x < 65536.
Proof. unfold read_le16. intros Hx. inv_ok. apply u16_bound. Qed.

Lemma read_into_keeps buf data b : Forall is_byte buf -> Forall is_byte data -> read_into buf data = Ok b -> Forall is_byte b /\ length b = length buf.
Proof.
  intros Hb Hd Hr. unfold read_into in Hr. destruct (Z.leb_spec (zlen data) (zlen buf)); [|done]. injection Hr as <-.
  split; [apply Forall_app; split; [done|by apply Forall_drop]|]. rewrite length_app, length_drop. lia.
Qed.

(** Whatever the file, a loaded cursor keeps its array and has dimensions of
    at most 256; it can be drawn if those fit the array. *)
Lemma load_cursor_drawable {V : Type} `{FatFsLaws V} path header0 bmi0 (v : V) c v' :
  Forall is_byte header0 -> Forall is_byte bmi0 -> load_system_cursor path header0 bmi0 cursor_boot v = Ok (c, v') ->
  c_width c * c_height c * 4 <= 4096 -> cursor_drawable c.
Proof.
  intros Hh Hm Hl Hfit. unfold load_system_cursor in Hl. destruct (f_open path FA_READ v) as [[r1 h] v1].
  destruct (negb _); [injection Hl as <- _; left; by left|].
  pose proof (read_bytes h 22 v1) as Hd. destruct (f_read h 22 v1) as [[r2 data] v2]. cbn [fst snd] in Hd.
  apply bind_Ok_inv in Hl as (header & Hri & Hl). destruct (read_into_keeps _ _ _ Hh Hd Hri) as [Hhb _].
  apply bind_Ok_inv in Hl as (ty & _ & Hl). destruct (negb _); [injection Hl as <- _; left; by left|].
  apply bind_Ok_inv in Hl as (h6 & H6 & Hl). apply bind_Ok_inv in Hl as (h7 & H7 & Hl).
  apply bind_Ok_inv in Hl as (hx & Hx & Hl). apply bind_Ok_inv in Hl as (hy & Hy & Hl). apply bind_Ok_inv in Hl as (off & _ & Hl).
  cbv zeta in Hl. destruct (f_read h 40 _) as [[r3 d3] v3]. apply bind_Ok_inv in Hl as (bmi & _ & Hl).
  apply bind_Ok_inv in Hl as (bpp & _ & Hl). apply bind_Ok_inv in Hl as ([px v4] & Hpx & Hl). cbv beta iota in Hl. injection Hl as <- _.
  apply rd_Ok_inv in H6 as [_ <-]. apply rd_Ok_inv in H7 as [_ <-]. apply read_le16_bound in Hx, Hy.
  pose proof (get_byte header 6 Hhb). pose proof (get_byte header 7 Hhb). right.
  assert (length px = 4096%nat) as Hlen.
  { assert (forall d p, read_into (cursor_pixels cursor_boot) d = Ok p -> length p = 4096%nat) as Hri2.
    { intros d p Hp. unfold read_into in Hp. destruct (Z.leb_spec (zlen d) (zlen (cursor_pixels cursor_boot))) as [Hle|]; [|done].
      injection Hp as <-. by rewrite read_into_length. }
    destruct (bpp =? 32); [|destruct (bpp =? 24); [|by injection Hpx as <- _]].
    - destruct (f_read h _ v3) as [[r5 d5] v5]. apply bind_Ok_inv in Hpx as (p & Hp & Hpx). injection Hpx as <- _. by apply (Hri2 d5).
    - destruct (f_read h _ v3) as [[r5 d5] v5]. apply bind_Ok_inv in Hpx as (p & Hp & Hpx). injection Hpx as <- _. by apply (Hri2 d5). }
  cbn [c_width c_height] in Hfit. split; cbn [c_width c_height cursor_pixels hotspot_x hotspot_y]; [| |rewrite Hlen; exact Hfit|exact Hx|exact Hy];
    unfold truth; match goal with |- context [?x =? 0] => destruct (Z.eqb_spec x 0) end; cbn [negb]; lia.
Qed.

(** [ani_draw] copies exactly the visible, opaque pixels of the current frame to the back
    buffer, placed so that the hot spot is at the pointer; transparent and
    off-screen pixels leave the buffer unchanged and nothing is written
    outside it. *)
Theorem ani_draw_exact (W H mx my : Z) (a : ani) (fr : ani_frame) (bb : list Z) :
  screen_ok W H -> W * H <= zlen bb -> ani_active a = true -> ani_frame_count a <> 0 ->
  ani_frames a !! Z.to_nat (ani_current_frame a) = Some fr -> frame_ok fr ->
  -32768 <= mx < 32768 -> -32768 <= my < 32768 ->
  exists bb', ani_draw W H mx my a bb = Ok bb' /\ length bb' = length bb /\
    forall px py, 0 <= px < W -> 0 <= py < H ->
      let x := px - (mx - f_hotspot_x fr) in let y := py - (my - f_hotspot_y fr) in
      pix W bb' px py =
        if (0 <=? x) && (x <? f_width fr) && (0 <=? y) && (y <? f_height fr)
        then frame_shade fr x y (pix W bb px py) else pix W bb px py.
Proof.
  intros HS Hl Hact Hc Hfr Hok Hmx Hmy. unfold ani_draw. rewrite Hact. simpl negb. simpl orb.
  destruct (Z.eqb_spec (ani_frame_count a) 0); [done|]. rewrite Hfr. cbn [or_fault]. rewrite bind_Ok.
  destruct (draw_frame_painted W H fr (mx - f_hotspot_x fr) (my - f_hotspot_y fr) bb HS Hl Hok)
    as (bb' & E & L & P & _); [destruct Hok; lia..|]. destruct Hok as [Hw Hh _ _ _].
  destruct (Z.eqb_spec (f_width fr) 0); [lia|]. destruct (Z.eqb_spec (f_height fr) 0); [lia|]. simpl orb. cbv iota.
  exists bb'. split; [exact E|]. split; [exact L|]. intros px py Hx Hy.
  set (x := px - (mx - f_hotspot_x fr)). set (y := py - (my - f_hotspot_y fr)). rewrite P by done.
  rewrite (proj2 (in_screen_spec W H px py HS)), andb_true_r by done.
  replace (in_rect _ _ _ _ px py) with ((0 <=? x) && (x <? f_width fr) && (0 <=? y) && (y <? f_height fr)); [done|].
  unfold in_rect, x, y. zcases; simpl; done || lia.
Qed.

Definition demo_frame : ani_frame := mk_frame 60 1 1 0 0 ([1; 2; 3; 255] ++ replicate (Z.to_nat 4092) 0).

Lemma ani_draw_exact_witness :
  exists bb', ani_draw 4 4 2 1 (mk_ani [demo_frame] 1 true 0 0) fb_demo = Ok bb' /\
    pix 4 bb' 2 1 = pack 3 2 1 /\ pix 4 bb' 0 0 = 0.
Proof.
  destruct (ani_draw_exact 4 4 2 1 (mk_ani [demo_frame] 1 true 0 0) demo_frame fb_demo)
    as (bb' & E & _ & P).
  - exact screen_ok_demo.
  - vm_compute. discriminate.
  - reflexivity.
  - discriminate.
  - reflexivity.
  - split; [simpl; lia|simpl; lia|vm_compute; reflexivity|simpl; lia|simpl; lia].
  - lia.
  - lia.
  - exists bb'. split; [exact E|]. split; (etransitivity; [apply P; lia|vm_compute; reflexivity]).
Defined.
