(* ===== verification/Theme.v ===== *)
(** * Theme: the colour configuration (kernel.c)

    [theme_save_to_disk] prints the theme to a small text file and
    [theme_load_from_disk] parses it; [apply_theme_to_nuklear] turns it into
    style colours. A [char*] walking the read buffer is the suffix it points
    to. A run of digits above the range of int is [Fault] (the accumulation
    in strtol overflows). *)

From Stdlib Require Import ZArith Lia Bool String.
From stdpp Require Import base list.
From S2P Require Import Prelude CLib Gfx Fs.
From stdpp Require Import options.

Record theme := mk_theme {
  win_r : Z; win_g : Z; win_b : Z; win_a : Z;
  title_r : Z; title_g : Z; title_b : Z; title_a : Z;
  btn_r : Z; btn_g : Z; btn_b : Z; btn_a : Z;
  th_bg_r : Z; th_bg_g : Z; th_bg_b : Z;
  use_transparency : Z; round_corners : Z
}.

(** [current_theme] and the wallpaper colour copied from it. *)
Record theme_state := mk_ts { current_theme : theme; bg_r : Z; bg_g : Z; bg_b : Z }.

Definition conf_path : list Z := lit "0:/color.conf".

Definition theme_format : list Z :=
  bytes "trans=%d" ++ [10] ++ bytes "win=%d,%d,%d,%d" ++ [10] ++ bytes "title=%d,%d,%d,%d" ++ [10] ++
  bytes "btn=%d,%d,%d,%d" ++ [10] ++ bytes "bg=%d,%d,%d" ++ [10; 0].

Definition theme_args (t : theme) : list varg :=
  VInt <$> [use_transparency t; win_r t; win_g t; win_b t; win_a t;
            title_r t; title_g t; title_b t; title_a t;
            btn_r t; btn_g t; btn_b t; btn_a t; th_bg_r t; th_bg_g t; th_bg_b t].

(** ** Parsing *)

(** [strncmp(p, key, strlen(key)) == 0] *)
Definition starts (p key : list Z) : res bool :=
  r ← strncmp p (key ++ [0]) (zlen key); Ok (r =? 0).

(** [if ( *p == ',') p++;] *)
Definition comma (p : list Z) : res (list Z) :=
  match p with [] => Fault | c :: r => if c =? 44 then Ok r else Ok p end.

Definition nums3 (p : list Z) : res (Z * Z * Z * list Z) :=
  x ← strtol p; p1 ← comma x.2; y ← strtol p1; p2 ← comma y.2; z ← strtol p2;
  Ok (x.1, y.1, z.1, z.2).

Definition nums4 (p : list Z) : res (Z * Z * Z * Z * list Z) :=
  x ← strtol p; p1 ← comma x.2; y ← strtol p1; p2 ← comma y.2; z ← strtol p2; p3 ← comma z.2;
  w ← strtol p3;
  Ok (x.1, y.1, z.1, w.1, w.2).

Definition set_trans (v : Z) (t : theme) : theme :=
  let '(mk_theme a b c d e f g h i j k l m n o _ q) := t in mk_theme a b c d e f g h i j k l m n o v q.
Definition set_win (r g b a : Z) (t : theme) : theme :=
  let '(mk_theme _ _ _ _ e f g' h i j k l m n o p q) := t in mk_theme r g b a e f g' h i j k l m n o p q.
Definition set_title (r g b a : Z) (t : theme) : theme :=
  let '(mk_theme x y z w _ _ _ _ i j k l m n o p q) := t in mk_theme x y z w r g b a i j k l m n o p q.
Definition set_btn (r g b a : Z) (t : theme) : theme :=
  let '(mk_theme x y z w e f g' h _ _ _ _ m n o p q) := t in mk_theme x y z w e f g' h r g b a m n o p q.
Definition set_bg (r g b : Z) (t : theme) : theme :=
  let '(mk_theme x y z w e f g' h i j k l _ _ _ p q) := t in mk_theme x y z w e f g' h i j k l r g b p q.

(** The [if]/[else if] chain on one line. *)
Definition theme_key (p : list Z) (t : theme) : res (list Z * theme) :=
  m ← starts p (bytes "trans=");
  if (m : bool) then x ← strtol (drop 6 p); Ok (x.2, set_trans x.1 t) else
  m ← starts p (bytes "win=");
  if (m : bool) then x ← nums4 (drop 4 p); let '(r, g, b, a, q) := (x : Z * Z * Z * Z * list Z) in Ok (q, set_win r g b a t) else
  m ← starts p (bytes "title=");
  if (m : bool) then x ← nums4 (drop 6 p); let '(r, g, b, a, q) := (x : Z * Z * Z * Z * list Z) in Ok (q, set_title r g b a t) else
  m ← starts p (bytes "btn=");
  if (m : bool) then x ← nums4 (drop 4 p); let '(r, g, b, a, q) := (x : Z * Z * Z * Z * list Z) in Ok (q, set_btn r g b a t) else
  m ← starts p (bytes "bg=");
  if (m : bool) then x ← nums3 (drop 3 p); let '(r, g, b, q) := (x : Z * Z * Z * list Z) in Ok (q, set_bg r g b t)
  else Ok (p, t).

(** To the end of the line, and past the newline. *)
Fixpoint to_eol (p : list Z) : res (list Z) :=
  match p with
  | [] => Fault
  | c :: r => if c =? 0 then Ok p else if c =? 10 then Ok r else to_eol r
  end.

Fixpoint theme_loop (fuel : nat) (p : list Z) (t : theme) : res theme :=
  match fuel with
  | O => NoFuel
  | S f =>
      match p with
      | [] => Fault
      | c :: _ =>
          if c =? 0 then Ok t
          else x ← theme_key p t; q ← to_eol x.1; theme_loop f q x.2
      end
  end.

Definition theme_default (t : theme) : theme :=
  mk_theme 45 45 45 220 30 30 30 240 60 60 60 255 0 42 54 0 (round_corners t).

Section Disk.
Context {V : Type} `{FatFs V}.

(** [write_buffer] is uninitialised stack memory of 256 bytes. *)
Definition theme_save_to_disk (write_buffer : list Z) (s : theme_state) (v : V) : res V :=
  x ← mini_snprintf (Some write_buffer) 256 theme_format (theme_args (current_theme s));
  let buf := match x.1 with Some b => b | None => [] end in
  let '(r, file, v) := f_open conf_path (Z.lor FA_WRITE FA_CREATE_ALWAYS) v in
  if r =? FR_OK then
    let '(_, _, v) := f_write file (take (Z.to_nat x.2) buf) v in Ok (f_close file v)
  else Ok v.

Definition theme_load_from_disk (s : theme_state) (v : V) : res (theme_state * V) :=
  let t := theme_default (current_theme s) in
  let '(r, file, v) := f_open conf_path FA_READ v in
  x ← (if r =? FR_OK then
         let '(_, data, v) := f_read file 255 v in
         buf ← read_into (replicate 256 0) data;
         t ← theme_loop 257 buf t;
         Ok (t, f_close file v)
       else Ok (t, v));
  let '(t, v) := (x : theme * V) in
  Ok (mk_ts t (th_bg_r t) (th_bg_g t) (th_bg_b t), v).

End Disk.

(** ** Style *)

(** The style fields [apply_theme_to_nuklear] assigns; rounding radii and
    sizes in pixels. Every style item it writes is a plain colour. *)
Record nk_style := mk_style {
  window_rounding : Z; button_rounding : Z;
  window_background : rgba; window_fixed_background : rgba;
  header_normal : rgba; header_active : rgba; header_label_normal : rgba; header_label_active : rgba;
  button_normal : rgba; button_hover : rgba; button_active : rgba;
  slider_cursor_size : Z * Z;
  slider_cursor_normal : rgba; slider_cursor_hover : rgba; slider_cursor_active : rgba
}.

(** Nuklear's [nk_rgba] clamps each component to a byte. *)
Definition nk_rgba (r g b a : Z) : rgba :=
  let c z := Z.max 0 (Z.min 255 z) in mk_rgba (c r) (c g) (c b) (c a).
Definition nk_rgb (r g b : Z) : rgba := nk_rgba r g b 255.

Definition apply_theme_to_nuklear (t : theme) : nk_style :=
  let wa := u8 (if truth (use_transparency t) then win_a t else 255) in
  let ta := u8 (if truth (use_transparency t) then title_a t else 255) in
  let ba := u8 (if truth (use_transparency t) then btn_a t else 255) in
  let c_win := nk_rgba (win_r t) (win_g t) (win_b t) wa in
  let c_title := nk_rgba (title_r t) (title_g t) (title_b t) ta in
  let c_btn := nk_rgba (btn_r t) (btn_g t) (btn_b t) ba in
  let hov z := if 255 <? i32 (z + 25) then 255 else i32 (z + 25) in
  let c_btn_hover := nk_rgba (hov (btn_r t)) (hov (btn_g t)) (hov (btn_b t)) ba in
  mk_style (if truth (round_corners t) then 10 else 0) (if truth (round_corners t) then 6 else 0)
    c_win c_win c_title c_title (nk_rgb 255 255 255) (nk_rgb 255 255 255)
    c_btn c_btn_hover c_btn_hover
    (12, 24) (nk_rgb 200 200 200) (nk_rgb 255 255 255) (nk_rgb 140 180 240).

(** ** The file's text *)

(** [n] followed by the rest of the text. *)
Definition theme_text (t : theme) (rest : list Z) : list Z :=
  bytes "trans=" ++ decimal (use_transparency t) ++ 10 ::
  bytes "win=" ++ decimal (win_r t) ++ 44 :: decimal (win_g t) ++ 44 :: decimal (win_b t) ++ 44 :: decimal (win_a t) ++ 10 ::
  bytes "title=" ++ decimal (title_r t) ++ 44 :: decimal (title_g t) ++ 44 :: decimal (title_b t) ++ 44 :: decimal (title_a t) ++ 10 ::
  bytes "btn=" ++ decimal (btn_r t) ++ 44 :: decimal (btn_g t) ++ 44 :: decimal (btn_b t) ++ 44 :: decimal (btn_a t) ++ 10 ::
  bytes "bg=" ++ decimal (th_bg_r t) ++ 44 :: decimal (th_bg_g t) ++ 44 :: decimal (th_bg_b t) ++ 10 :: rest.

Record theme_ok (t : theme) : Prop := {
  to_vals : Forall is_byte [use_transparency t; win_r t; win_g t; win_b t; win_a t;
    title_r t; title_g t; title_b t; title_a t; btn_r t; btn_g t; btn_b t; btn_a t;
    th_bg_r t; th_bg_g t; th_bg_b t]
}.

(** The components as C integers: what [strtol] delivers. *)
Definition theme_ints (t : theme) : Prop :=
  Forall nat31 [use_transparency t; win_r t; win_g t; win_b t; win_a t;
    title_r t; title_g t; title_b t; title_a t; btn_r t; btn_g t; btn_b t; btn_a t;
    th_bg_r t; th_bg_g t; th_bg_b t].

Lemma byte_nat31 v : is_byte v -> nat31 v.
Proof. unfold is_byte, nat31. lia. Qed.

Lemma theme_ok_ints t : theme_ok t -> theme_ints t.
Proof. intros [Hv]. eapply Forall_impl; [exact Hv|apply byte_nat31]. Qed.

Lemma theme_renders t : theme_ints t -> render theme_format (theme_args t) = Some (theme_text t []).
Proof.
  intros Hv. unfold theme_ints in Hv. rewrite !Forall_cons in Hv. destruct_and!.
  let f := eval vm_compute in theme_format in change theme_format with f.
  unfold theme_args. cbn [fmap list_fmap render Z.eqb Pos.eqb orb].
  rewrite !show_nat31 by done. cbn [mbind option_bind app]. unfold theme_text.
  repeat match goal with |- context [bytes ?s] => let b := eval vm_compute in (bytes s) in change (bytes s) with b end.
  cbn [app]. reflexivity.
Qed.

(** ** Any file *)

(** A run of digits whose value is no [int]. *)
Definition long_number (p : list Z) : Prop :=
  exists a ds b, p = a ++ ds ++ b /\ Forall (fun c => is_digit (i8 c)) ds /\ 2147483647 < dec_value (i8 <$> ds).

Lemma long_number_suffix p q : q `suffix_of` p -> long_number q -> long_number p.
Proof. intros [k ->] (a & ds & b & -> & Hd & Hv). exists (k ++ a), ds, b. by rewrite <- app_assoc. Qed.

(** [x] is read from the text [p], or a number in it is too long. *)
Definition reads {A} (p : list Z) (x : res A) (P : A -> Prop) : Prop :=
  (exists a, x = Ok a /\ P a) \/ (x = Fault /\ long_number p).

(** A later position in a string. *)
Definition later (p q : list Z) : Prop := 0 ∈ q /\ q `suffix_of` p.

Lemma later_trans p q r : later p q -> later q r -> later p r.
Proof. intros [_ H1] [H2 H3]. split; [done|]. by etrans. Qed.

Lemma reads_bind {A B} p q (x : res A) (f : A -> res B) P Q :
  q `suffix_of` p -> reads q x P -> (forall a, P a -> reads p (f a) Q) -> reads p (x ≫= f) Q.
Proof.
  intros Hs [(a & -> & Ha)|[-> Hl]] Hf; [rewrite bind_Ok; by apply Hf|]. right. split; [done|]. by eapply long_number_suffix.
Qed.

Lemma strtol_loop_reads p : forall acc done_, 0 ∈ p -> Forall (fun c => is_digit (i8 c)) done_ ->
  acc = dec_value (i8 <$> done_) -> nat31 acc ->
  (exists r q, strtol_loop p acc = Ok (r, q) /\ nat31 r /\ later p q) \/
  (strtol_loop p acc = Fault /\ long_number (done_ ++ p)).
Proof.
  induction p as [|c p IH]; intros acc done_ Hz Hd Ha Hn; [by apply not_elem_of_nil in Hz|]. cbn [strtol_loop].
  destruct ((48 <=? i8 c) && (i8 c <=? 57)) eqn:E.
  - rewrite andb_true_iff, !Z.leb_le in E. assert (0 ∈ p) as Hp.
    { apply elem_of_cons in Hz as [<-|Hz]; [|done]. exfalso. change (i8 0) with 0 in E. lia. }
    assert (Forall (fun c => is_digit (i8 c)) (done_ ++ [c])) as Hd' by (apply Forall_app; split; [done|by constructor]).
    assert (acc * 10 + (i8 c - 48) = dec_value (i8 <$> (done_ ++ [c]))) as Ha'.
    { rewrite fmap_app. cbn [fmap list_fmap]. rewrite dec_value_app. by rewrite Ha. }
    unfold nat31 in Hn. destruct (Z.leb_spec (acc * 10 + (i8 c - 48)) 2147483647) as [Hle|Hgt].
    + destruct (IH _ _ Hp Hd' Ha' ltac:(unfold nat31; lia)) as [(r & q & -> & Hr & Hq & Hs)|[-> Hl]].
      * left. exists r, q. split; [done|]. split; [done|]. split; [done|]. by apply suffix_cons_r.
      * right. split; [done|]. by rewrite <- app_assoc in Hl.
    + right. split; [done|]. exists [], (done_ ++ [c]), p. split; [by rewrite <- app_assoc|]. split; [done|]. by rewrite <- Ha'.
  - left. exists acc, (c :: p). split; [done|]. split; [done|]. split; [done|]. reflexivity.
Qed.

Lemma strtol_reads p : 0 ∈ p -> reads p (strtol p) (fun x => nat31 x.1 /\ later p x.2).
Proof.
  intros Hz. destruct (strtol_loop_reads p 0 [] Hz ltac:(constructor) eq_refl ltac:(unfold nat31; lia)) as [(r & q & E & Hr & Hq)|[E Hl]].
  - left. exists (r, q). done.
  - right. done.
Qed.

Lemma comma_later p : 0 ∈ p -> exists q, comma p = Ok q /\ later p q.
Proof.
  destruct p as [|c p]; intros Hz; [by apply not_elem_of_nil in Hz|]. cbn [comma]. destruct (Z.eqb_spec c 44) as [->|_].
  - exists p. split; [done|]. apply elem_of_cons in Hz as [?|Hz]; [done|]. split; [done|]. by apply suffix_cons_r.
  - exists (c :: p). split; [done|]. split; [done|]. reflexivity.
Qed.

(** One number of a list, with the comma after it. *)
Lemma number_reads {B} p p0 (f : Z -> list Z -> res B) Q :
  later p p0 -> (forall n q, nat31 n -> later p q -> reads p (f n q) Q) ->
  reads p (x ← strtol p0; q ← comma x.2; f x.1 q) Q.
Proof.
  intros [Hz Hs] Hf. apply (reads_bind p p0 _ _ _ _ Hs (strtol_reads p0 Hz)). intros [n q] [Hn [Hq Hqs]]. cbn [fst snd] in *.
  destruct (comma_later q Hq) as (q' & -> & Hq'). rewrite bind_Ok. apply Hf; [done|].
  eapply later_trans; [|exact Hq']. split; [done|]. by etrans.
Qed.

Lemma last_reads {B} p p0 (f : Z -> list Z -> res B) Q :
  later p p0 -> (forall n q, nat31 n -> later p q -> reads p (f n q) Q) -> reads p (x ← strtol p0; f x.1 x.2) Q.
Proof.
  intros [Hz Hs] Hf. apply (reads_bind p p0 _ _ _ _ Hs (strtol_reads p0 Hz)). intros [n q] [Hn [Hq Hqs]]. cbn [fst snd] in *.
  apply Hf; [done|]. split; [done|]. by etrans.
Qed.

Lemma nums4_reads p : 0 ∈ p ->
  reads p (nums4 p) (fun x => let '(a, b, c, d, q) := x in nat31 a /\ nat31 b /\ nat31 c /\ nat31 d /\ later p q).
Proof.
  intros Hz. unfold nums4. apply (number_reads p p (fun a p1 => y ← strtol p1; p2 ← comma y.2; z ← strtol p2; p3 ← comma z.2;
    w ← strtol p3; Ok (a, y.1, z.1, w.1, w.2))); [by split|]. intros a p1 Ha H1.
  apply (number_reads p p1 (fun b p2 => z ← strtol p2; p3 ← comma z.2; w ← strtol p3; Ok (a, b, z.1, w.1, w.2))); [done|]. intros b p2 Hb H2.
  apply (number_reads p p2 (fun c p3 => w ← strtol p3; Ok (a, b, c, w.1, w.2))); [done|]. intros c p3 Hc H3.
  apply (last_reads p p3 (fun d q => Ok (a, b, c, d, q))); [done|]. intros d q Hd Hq. left. eexists. split; [reflexivity|]. done.
Qed.

Lemma nums3_reads p : 0 ∈ p ->
  reads p (nums3 p) (fun x => let '(a, b, c, q) := x in nat31 a /\ nat31 b /\ nat31 c /\ later p q).
Proof.
  intros Hz. unfold nums3. apply (number_reads p p (fun a p1 => y ← strtol p1; p2 ← comma y.2; z ← strtol p2; Ok (a, y.1, z.1, z.2))); [by split|].
  intros a p1 Ha H1. apply (number_reads p p1 (fun b p2 => z ← strtol p2; Ok (a, b, z.1, z.2))); [done|]. intros b p2 Hb H2.
  apply (last_reads p p2 (fun c q => Ok (a, b, c, q))); [done|]. intros c q Hc Hq. left. eexists. split; [reflexivity|]. done.
Qed.

(** A key is compared without leaving the string, and skipped when it is there. *)
Lemma strncmp_loop_total key p s : 0 ∈ p -> Forall (fun c => is_byte c /\ c <> 0) key -> Forall is_byte p ->
  exists r, strncmp_loop (length key) p (key ++ s) = Ok r /\ (r = 0 -> exists q, p = key ++ q).
Proof.
  intros Hz Hk. revert p Hz. induction Hk as [|k key [Hb Hk] _ IH]; intros p Hz Hp; [exists 0; split; [done|]; by exists p|].
  destruct p as [|c p]; [by apply not_elem_of_nil in Hz|]. apply Forall_cons in Hp as [Hc Hp]. cbn [length app strncmp_loop].
  destruct (negb (c =? k) || (c =? 0)) eqn:E.
  - eexists. split; [reflexivity|]. intros Hr. exfalso. assert (c <> k) as Hne.
    { destruct (Z.eqb_spec c k) as [->|]; [|done]. destruct (Z.eqb_spec k 0); done. }
    assert (i8 c <> i8 k).
    { intros Hi. apply Hne. unfold i8, swrap, is_byte in *. cbv zeta in Hi. revert Hi. change (2 ^ 8) with 256. change (2 ^ (8 - 1)) with 128.
      rewrite !Z.mod_small by lia. destruct (Z.ltb_spec c 128), (Z.ltb_spec k 128); lia. }
    destruct (Z.ltb_spec (i8 c) (i8 k)); [done|]. destruct (Z.ltb_spec (i8 k) (i8 c)); [done|]. lia.
  - rewrite orb_false_iff, negb_false_iff, Z.eqb_eq, Z.eqb_neq in E. destruct E as [-> _].
    apply elem_of_cons in Hz as [<-|Hz]; [done|]. destruct (IH p Hz Hp) as (r & -> & Hr). exists r. split; [done|].
    intros E. destruct (Hr E) as [q ->]. by exists q.
Qed.

Lemma starts_total p key : 0 ∈ p -> Forall is_byte p -> Forall (fun c => is_byte c /\ c <> 0) key -> key <> [] ->
  exists m, starts p key = Ok m /\ (m = true -> later p (drop (length key) p) /\ (length (drop (length key) p) < length p)%nat).
Proof.
  intros Hz Hp Hk Hne. unfold starts, strncmp. rewrite Nat2Z.id. destruct (strncmp_loop_total key p [0] Hz Hk Hp) as (r & -> & Hr).
  rewrite bind_Ok. eexists. split; [reflexivity|]. intros E. apply Z.eqb_eq in E. destruct (Hr E) as [q ->].
  rewrite drop_app_length. apply elem_of_app in Hz as [Hz|Hz].
  - exfalso. rewrite Forall_forall in Hk. by destruct (Hk 0 Hz).
  - split; [split; [done|by exists key]|]. rewrite length_app. destruct key; [done|]. cbn. lia.
Qed.

(** Zeros after the text add no number. *)
Lemma long_number_zeros data n : long_number (data ++ replicate n 0) -> long_number data.
Proof.
  intros (a & ds & b & E & Hd & Hv). assert (exists c, data = a ++ ds ++ c) as [c ->]; [|by exists a, ds, c].
  assert (length (a ++ ds) <= length data)%nat as Hl.
  { destruct (decide (length (a ++ ds) <= length data)%nat) as [|Hgt]; [done|]. exfalso.
    destruct ds as [|d ds] using rev_ind; [cbn in Hv; lia|]. clear IHds.
    apply Forall_app in Hd as [_ Hd]. apply Forall_cons in Hd as [Hd _].
    assert ((data ++ replicate n 0) !! (length (a ++ ds)) = Some d) as Hd1.
    { rewrite E. replace (a ++ (ds ++ [d]) ++ b) with ((a ++ ds) ++ d :: b) by (by rewrite <- !app_assoc).
      by rewrite lookup_app_r, Nat.sub_diag by lia. }
    rewrite lookup_app_r in Hd1 by (rewrite !length_app in Hgt; cbn [length] in Hgt; rewrite length_app; lia). apply lookup_replicate in Hd1 as [-> _].
    unfold is_digit in Hd. change (i8 0) with 0 in Hd. lia. }
  exists (drop (length (a ++ ds)) data). rewrite app_assoc in E. rewrite app_assoc.
  apply (f_equal (take (length (a ++ ds)))) in E. rewrite take_app_length, take_app_le in E by done.
  etransitivity; [symmetry; apply (take_drop (length (a ++ ds)))|]. by rewrite E.
Qed.

(** The key of a line: the position moves on, unless no key matched. *)
Definition key_read (p : list Z) (t : theme) (x : list Z * theme) : Prop :=
  theme_ints x.2 /\ later p x.1 /\ (x.1 = p \/ (length x.1 < length p)%nat).

(** A matched key followed by its numbers. *)
Lemma after_key {A} p k t (x : res A) (f : A -> res (list Z * theme)) (P : A -> Prop) :
  later p (drop k p) /\ (length (drop k p) < length p)%nat -> reads (drop k p) x P ->
  (forall a, P a -> exists q t', f a = Ok (q, t') /\ theme_ints t' /\ later (drop k p) q) ->
  reads p (x ≫= f) (key_read p t).
Proof.
  intros [Hl Hlen] Hx Hf. apply (reads_bind p (drop k p) _ _ _ _ (proj2 Hl) Hx). intros a Ha.
  destruct (Hf a Ha) as (q & t' & -> & Ht & Hq). left. exists (q, t'). split; [done|]. split; [done|]. split; [by eapply later_trans|].
  right. destruct Hq as [_ Hs]. apply suffix_length in Hs. cbn [fst]. lia.
Qed.

Ltac key_bytes :=
  match goal with |- Forall _ ?k => let b := eval vm_compute in k in change k with b end;
  repeat (constructor; [unfold is_byte; lia|]); constructor.

Lemma theme_key_reads p t : 0 ∈ p -> Forall is_byte p -> theme_ints t -> reads p (theme_key p t) (key_read p t).
Proof.
  intros Hz Hp Ht. unfold theme_key. pose proof Ht as Ht0. unfold theme_ints in Ht0. rewrite !Forall_cons in Ht0.
  destruct t as [a0 a1 a2 a3 a4 a5 a6 a7 a8 a9 a10 a11 a12 a13 a14 a15 a16]. cbn in Ht0. destruct_and!.
  destruct (starts_total p (bytes "trans=") Hz Hp ltac:(key_bytes) ltac:(done)) as ([] & -> & Hm); rewrite bind_Ok; cbv iota; [specialize (Hm eq_refl)|clear Hm].
  { apply (after_key p 6 _ _ _ _ Hm (strtol_reads _ (proj1 (proj1 Hm)))). intros [n q] [Hn Hq]. cbn [fst snd] in *. eexists _, _. split; [reflexivity|].
    split; [|exact Hq]. unfold theme_ints. rewrite !Forall_cons. cbn. auto 20. }
  destruct (starts_total p (bytes "win=") Hz Hp ltac:(key_bytes) ltac:(done)) as ([] & -> & Hm); rewrite bind_Ok; cbv iota; [specialize (Hm eq_refl)|clear Hm].
  { apply (after_key p 4 _ _ _ _ Hm (nums4_reads _ (proj1 (proj1 Hm)))). intros [[[[n1 n2] n3] n4] q] (N1 & N2 & N3 & N4 & Hq). eexists _, _. split; [reflexivity|].
    split; [|exact Hq]. unfold theme_ints. rewrite !Forall_cons. cbn. auto 20. }
  destruct (starts_total p (bytes "title=") Hz Hp ltac:(key_bytes) ltac:(done)) as ([] & -> & Hm); rewrite bind_Ok; cbv iota; [specialize (Hm eq_refl)|clear Hm].
  { apply (after_key p 6 _ _ _ _ Hm (nums4_reads _ (proj1 (proj1 Hm)))). intros [[[[n1 n2] n3] n4] q] (N1 & N2 & N3 & N4 & Hq). eexists _, _. split; [reflexivity|].
    split; [|exact Hq]. unfold theme_ints. rewrite !Forall_cons. cbn. auto 20. }
  destruct (starts_total p (bytes "btn=") Hz Hp ltac:(key_bytes) ltac:(done)) as ([] & -> & Hm); rewrite bind_Ok; cbv iota; [specialize (Hm eq_refl)|clear Hm].
  { apply (after_key p 4 _ _ _ _ Hm (nums4_reads _ (proj1 (proj1 Hm)))). intros [[[[n1 n2] n3] n4] q] (N1 & N2 & N3 & N4 & Hq). eexists _, _. split; [reflexivity|].
    split; [|exact Hq]. unfold theme_ints. rewrite !Forall_cons. cbn. auto 20. }
  destruct (starts_total p (bytes "bg=") Hz Hp ltac:(key_bytes) ltac:(done)) as ([] & -> & Hm); rewrite bind_Ok; cbv iota; [specialize (Hm eq_refl)|clear Hm].
  { apply (after_key p 3 _ _ _ _ Hm (nums3_reads _ (proj1 (proj1 Hm)))). intros [[[n1 n2] n3] q] (N1 & N2 & N3 & Hq). eexists _, _. split; [reflexivity|].
    split; [|exact Hq]. unfold theme_ints. rewrite !Forall_cons. cbn. auto 20. }
  left. eexists. split; [reflexivity|]. split; [exact Ht|]. split; [split; [done|reflexivity]|by left].
Qed.

Lemma to_eol_later p : 0 ∈ p -> exists q, to_eol p = Ok q /\ later p q /\ (head p <> Some 0 -> (length q < length p)%nat).
Proof.
  induction p as [|c p IH]; intros Hz; [by apply not_elem_of_nil in Hz|]. cbn [to_eol]. destruct (Z.eqb_spec c 0) as [->|Hc].
  - exists (0 :: p). split; [done|]. split; [split; [done|reflexivity]|]. by intros Hn.
  - assert (0 ∈ p) as Hp by (by apply elem_of_cons in Hz as [?|?]).
    destruct (Z.eqb_spec c 10) as [->|_].
    + exists p. split; [done|]. split; [split; [done|by apply suffix_cons_r]|]. cbn. lia.
    + destruct (IH Hp) as (q & -> & [Hq Hs] & _). exists q. split; [done|]. split; [split; [done|by apply suffix_cons_r]|].
      intros _. apply suffix_length in Hs. cbn. lia.
Qed.

Lemma theme_loop_reads fuel : forall p t, (length p < fuel)%nat -> 0 ∈ p -> Forall is_byte p -> theme_ints t ->
  reads p (theme_loop fuel p t) theme_ints.
Proof.
  induction fuel as [|fuel IH]; intros p t Hf Hz Hp Ht; [lia|]. cbn [theme_loop]. destruct p as [|c p]; [by apply not_elem_of_nil in Hz|].
  destruct (Z.eqb_spec c 0) as [->|Hc]; [left; by exists t|].
  apply (reads_bind _ (c :: p) _ _ (key_read (c :: p) t)); [reflexivity|by apply theme_key_reads|]. intros [q t'] (Ht' & [Hq Hs] & Hlen). cbn [fst snd] in *.
  destruct (to_eol_later q Hq) as (q' & -> & [Hq' Hs'] & Hlen'). rewrite bind_Ok.
  assert (q' `suffix_of` c :: p) as Hs2 by (by etrans).
  assert (length q' < length (c :: p))%nat as Hl.
  { destruct Hlen as [->|Hl]; [apply Hlen'; cbn; congruence|]. apply suffix_length in Hs'. lia. }
  assert (Forall is_byte q') as Hb by (destruct Hs2 as [k E]; rewrite E in Hp; by apply Forall_app in Hp as [_ Hp]).
  destruct (IH q' t' ltac:(lia) Hq' Hb Ht') as [Hok|[E Hn]]; [by left|]. right. split; [done|]. by eapply long_number_suffix.
Qed.

Lemma default_ints t : theme_ints (theme_default t).
Proof. unfold theme_ints. cbn. repeat (constructor; [unfold nat31; lia|]). constructor. Qed.

(** What [theme_load_from_disk] reads of the configuration file. *)
Definition conf_data {V} `{FatFs V} (v : V) : list Z :=
  let '(r, h, v) := f_open conf_path FA_READ v in if r =? FR_OK then (f_read h 255 v).1.2 else [].

(** Loading the theme returns, with all components non-negative C integers,
    unless a number in the file is no [int]. *)
Lemma theme_load_cases {V} `{FatFsLaws V} s (v : V) :
  (exists t v', theme_load_from_disk s v = Ok (mk_ts t (th_bg_r t) (th_bg_g t) (th_bg_b t), v') /\ theme_ints t) \/
  (theme_load_from_disk s v = Fault /\ long_number (conf_data v)).
Proof.
  unfold theme_load_from_disk, conf_data. destruct (f_open conf_path FA_READ v) as [[r h] v1].
  destruct (r =? FR_OK); [|left; eexists _, _; split; [reflexivity|apply default_ints]].
  pose proof (read_bound h 255 v1 ltac:(lia)) as Hl. pose proof (read_bytes h 255 v1) as Hb.
  destruct (f_read h 255 v1) as [[r2 data] v2]. cbn [fst snd] in *.
  rewrite read_into_ok by (rewrite length_replicate; lia). rewrite bind_Ok. rewrite drop_replicate.
  set (buf := data ++ replicate (256 - length data) 0).
  assert (reads buf (theme_loop 257 buf (theme_default (current_theme s))) theme_ints) as [(t & -> & Ht)|[-> Hn]].
  { apply theme_loop_reads; [| | |apply default_ints].
    - unfold buf. rewrite length_app, length_replicate. lia.
    - unfold buf. apply elem_of_app. right. apply elem_of_replicate. split; [done|lia].
    - apply Forall_app. split; [done|]. apply Forall_replicate. unfold is_byte. lia. }
  - rewrite !bind_Ok. left. eexists _, _. split; [reflexivity|done].
  - right. split; [done|]. by apply (long_number_zeros data (256 - length data)).
Qed.

(** ** Round trip *)

Lemma strtol_byte v c rest : is_byte v -> c = 10 \/ c = 44 -> strtol (decimal v ++ c :: rest) = Ok (v, c :: rest).
Proof.
  intros Hv Hc. unfold is_byte in Hv. apply strtol_decimal; [lia|].
  rewrite i8_small by lia. unfold is_digit. lia.
Qed.

Lemma nums4_bytes a b c d rest :
  is_byte a -> is_byte b -> is_byte c -> is_byte d ->
  nums4 (decimal a ++ 44 :: decimal b ++ 44 :: decimal c ++ 44 :: decimal d ++ 10 :: rest) =
  Ok (a, b, c, d, 10 :: rest).
Proof.
  intros Ha Hb Hc Hd. unfold nums4. rewrite strtol_byte by auto. rewrite bind_Ok. cbn [comma fst snd Z.eqb Pos.eqb].
  rewrite bind_Ok, strtol_byte by auto. rewrite bind_Ok. cbn [comma fst snd Z.eqb Pos.eqb].
  rewrite bind_Ok, strtol_byte by auto. rewrite bind_Ok. cbn [comma fst snd Z.eqb Pos.eqb].
  rewrite bind_Ok, strtol_byte by auto. done.
Qed.

Lemma nums3_bytes a b c rest :
  is_byte a -> is_byte b -> is_byte c ->
  nums3 (decimal a ++ 44 :: decimal b ++ 44 :: decimal c ++ 10 :: rest) = Ok (a, b, c, 10 :: rest).
Proof.
  intros Ha Hb Hc. unfold nums3. rewrite strtol_byte by auto. rewrite bind_Ok. cbn [comma fst snd Z.eqb Pos.eqb].
  rewrite bind_Ok, strtol_byte by auto. rewrite bind_Ok. cbn [comma fst snd Z.eqb Pos.eqb].
  rewrite bind_Ok, strtol_byte by auto. done.
Qed.

Lemma starts_here key p : Forall (fun c => c <> 0) key -> starts (key ++ p) key = Ok true.
Proof.
  intros Hk. unfold starts, strncmp. rewrite Nat2Z.id.
  assert (strncmp_loop (length key) (key ++ p) (key ++ [0]) = Ok 0) as ->; [|done].
  induction Hk as [|c k Hc _ IH]; [done|]. cbn [length app strncmp_loop].
  rewrite Z.eqb_refl. destruct (Z.eqb_spec c 0); [done|]. exact IH.
Qed.

(** One line, key by key. *)
Lemma key_trans v rest t :
  is_byte v -> theme_key (bytes "trans=" ++ decimal v ++ 10 :: rest) t = Ok (10 :: rest, set_trans v t).
Proof.
  intros Hv. unfold theme_key. rewrite starts_here, bind_Ok by (repeat constructor; done).
  rewrite (drop_app_length' (bytes "trans=") _ 6) by done. by rewrite strtol_byte by auto.
Qed.

Lemma key_win a b c d rest t :
  is_byte a -> is_byte b -> is_byte c -> is_byte d ->
  theme_key (bytes "win=" ++ decimal a ++ 44 :: decimal b ++ 44 :: decimal c ++ 44 :: decimal d ++ 10 :: rest) t =
  Ok (10 :: rest, set_win a b c d t).
Proof.
  intros Ha Hb Hc Hd. unfold theme_key. change (starts (bytes "win=" ++ ?x) (bytes "trans=")) with (@Ok bool false).
  rewrite bind_Ok, starts_here, bind_Ok by (repeat constructor; done).
  rewrite (drop_app_length' (bytes "win=") _ 4) by done. by rewrite nums4_bytes.
Qed.

Lemma key_title a b c d rest t :
  is_byte a -> is_byte b -> is_byte c -> is_byte d ->
  theme_key (bytes "title=" ++ decimal a ++ 44 :: decimal b ++ 44 :: decimal c ++ 44 :: decimal d ++ 10 :: rest) t =
  Ok (10 :: rest, set_title a b c d t).
Proof.
  intros Ha Hb Hc Hd. unfold theme_key. change (starts (bytes "title=" ++ ?x) (bytes "trans=")) with (@Ok bool false).
  change (starts (bytes "title=" ++ ?x) (bytes "win=")) with (@Ok bool false).
  rewrite !bind_Ok, starts_here, bind_Ok by (repeat constructor; done).
  rewrite (drop_app_length' (bytes "title=") _ 6) by done. by rewrite nums4_bytes.
Qed.

Lemma key_btn a b c d rest t :
  is_byte a -> is_byte b -> is_byte c -> is_byte d ->
  theme_key (bytes "btn=" ++ decimal a ++ 44 :: decimal b ++ 44 :: decimal c ++ 44 :: decimal d ++ 10 :: rest) t =
  Ok (10 :: rest, set_btn a b c d t).
Proof.
  intros Ha Hb Hc Hd. unfold theme_key. change (starts (bytes "btn=" ++ ?x) (bytes "trans=")) with (@Ok bool false).
  change (starts (bytes "btn=" ++ ?x) (bytes "win=")) with (@Ok bool false).
  change (starts (bytes "btn=" ++ ?x) (bytes "title=")) with (@Ok bool false).
  rewrite !bind_Ok, starts_here, bind_Ok by (repeat constructor; done).
  rewrite (drop_app_length' (bytes "btn=") _ 4) by done. by rewrite nums4_bytes.
Qed.

Lemma key_bg a b c rest t :
  is_byte a -> is_byte b -> is_byte c ->
  theme_key (bytes "bg=" ++ decimal a ++ 44 :: decimal b ++ 44 :: decimal c ++ 10 :: rest) t =
  Ok (10 :: rest, set_bg a b c t).
Proof.
  intros Ha Hb Hc. unfold theme_key. change (starts (bytes "bg=" ++ ?x) (bytes "trans=")) with (@Ok bool false).
  change (starts (bytes "bg=" ++ ?x) (bytes "win=")) with (@Ok bool false).
  change (starts (bytes "bg=" ++ ?x) (bytes "title=")) with (@Ok bool false).
  change (starts (bytes "bg=" ++ ?x) (bytes "btn=")) with (@Ok bool false).
  rewrite !bind_Ok, starts_here, bind_Ok by (repeat constructor; done).
  rewrite (drop_app_length' (bytes "bg=") _ 3) by done. by rewrite nums3_bytes.
Qed.

(** A line that [theme_key] understands advances the loop by one line. *)
Lemma theme_loop_line fuel p t rest t' :
  theme_key p t = Ok (10 :: rest, t') -> (exists c q, p = c :: q /\ c <> 0) ->
  theme_loop (S fuel) p t = theme_loop fuel rest t'.
Proof.
  intros E (c & q & -> & Hc). cbn [theme_loop]. destruct (Z.eqb_spec c 0); [done|].
  rewrite E, bind_Ok. cbn [fst snd to_eol Z.eqb Pos.eqb]. by rewrite bind_Ok.
Qed.

Lemma theme_parses fuel t t0 rest :
  theme_ok t ->
  theme_loop (S (S (S (S (S (S fuel)))))) (theme_text t (0 :: rest)) t0 =
  Ok (mk_theme (win_r t) (win_g t) (win_b t) (win_a t) (title_r t) (title_g t) (title_b t) (title_a t)
       (btn_r t) (btn_g t) (btn_b t) (btn_a t) (th_bg_r t) (th_bg_g t) (th_bg_b t)
       (use_transparency t) (round_corners t0)).
Proof.
  intros [Hv]. rewrite !Forall_cons in Hv. destruct_and!. unfold theme_text.
  erewrite theme_loop_line; [|by apply key_trans|by eexists _, _].
  erewrite theme_loop_line; [|by apply key_win|by eexists _, _].
  erewrite theme_loop_line; [|by apply key_title|by eexists _, _].
  erewrite theme_loop_line; [|by apply key_btn|by eexists _, _].
  erewrite theme_loop_line; [|by apply key_bg|by eexists _, _].
  by destruct t0.
Qed.

Lemma decimal_length v : is_byte v -> (length (decimal v) <= 3)%nat.
Proof.
  intros Hv. unfold is_byte in Hv. unfold decimal. destruct (v =? 0); [simpl; lia|].
  rewrite length_rev. apply (rdigits_length 11 v 3). change (10 ^ Z.of_nat 3) with 1000. lia.
Qed.

Lemma theme_text_length t : theme_ok t -> (length (theme_text t []) <= 100)%nat.
Proof.
  intros [Hv]. rewrite !Forall_cons in Hv. destruct_and!. unfold theme_text.
  repeat (rewrite length_app || cbn [length]).
  repeat match goal with H : is_byte ?x |- _ => apply decimal_length in H end.
  repeat match goal with |- context [length (bytes ?s)] =>
    let n := eval vm_compute in (length (bytes s)) in change (length (bytes s)) with n end.
  lia.
Qed.

Lemma theme_text_app t a b : theme_text t (a ++ b) = theme_text t a ++ b.
Proof.
  unfold theme_text.
  repeat (rewrite <- app_assoc || rewrite <- app_comm_cons). done.
Qed.

(** Saving a theme whose components are 0..255 on a volume that accepts the
    file, and loading it back into any earlier theme, restores every saved
    component (the corner rounding flag is not saved and keeps its value)
    and updates the wallpaper colour. *)
Theorem theme_roundtrip {V : Type} `{FatFsLaws V} (wb : list Z) (s s0 : theme_state) (v v1 : V) (h : FIL) :
  media_ok V -> length wb = 256%nat -> theme_ok (current_theme s) ->
  f_open conf_path (Z.lor FA_WRITE FA_CREATE_ALWAYS) v = (FR_OK, h, v1) ->
  (f_write h (theme_text (current_theme s) []) v1).1 = (FR_OK, zlen (theme_text (current_theme s) [])) ->
  let t := current_theme s in
  exists v2 v3, theme_save_to_disk wb s v = Ok v2 /\
    theme_load_from_disk s0 v2 = Ok (mk_ts
      (mk_theme (win_r t) (win_g t) (win_b t) (win_a t) (title_r t) (title_g t) (title_b t) (title_a t)
         (btn_r t) (btn_g t) (btn_b t) (btn_a t) (th_bg_r t) (th_bg_g t) (th_bg_b t)
         (use_transparency t) (round_corners (current_theme s0)))
      (th_bg_r t) (th_bg_g t) (th_bg_b t), v3).
Proof.
  intros Hm Hwb Hok Hopen Hwr t. pose proof (theme_text_length _ Hok) as Hlen.
  set (text := theme_text (current_theme s) []) in *.
  pose proof (open_create conf_path v) as Lo. rewrite Hopen in Lo. destruct (Lo eq_refl) as (P1 & F1).
  pose proof (write_law h text v1 conf_path [] P1 F1) as Lw.
  destruct (f_write h text v1) as [[r bw] v2] eqn:Ew. cbn [fst] in Hwr.
  assert (r = FR_OK /\ bw = zlen text) as [-> ->] by (split; congruence).
  destruct (Lw eq_refl) as (_ & F2 & _). rewrite Nat2Z.id, (firstn_all text) in F2. cbn [app] in F2.
  exists (f_close h v2).
  assert (file (f_close h v2) conf_path = Some text) as F3 by (by rewrite close_law).
  destruct (open_ok conf_path _ text F3) as (h3 & v4 & E4 & P4 & F4).
  destruct (read_ok h3 255 v4 conf_path 0 text Hm P4 ltac:(by rewrite F4) ltac:(lia) ltac:(lia)) as (v5 & E5 & _ & _).
  rewrite drop_0, (take_ge text (Z.to_nat 255)) in E5 by lia. exists (f_close h3 v5). split.
  - unfold theme_save_to_disk.
    rewrite (mini_snprintf_render wb 256 _ _ text ltac:(lia) (theme_renders _ (theme_ok_ints _ Hok))). rewrite bind_Ok.
    cbn [fst snd]. rewrite Hopen. change (FR_OK =? FR_OK) with true. cbv iota.
    rewrite (take_ge text) by lia. rewrite Nat2Z.id. unfold filled.
    rewrite <- app_assoc, (take_app_length text), Ew. done.
  - unfold theme_load_from_disk. rewrite E4. change (FR_OK =? FR_OK) with true. cbv iota. rewrite E5.
    rewrite read_into_ok by (rewrite length_replicate; lia). rewrite bind_Ok, drop_replicate.
    assert (exists k, (256 - length text = S k)%nat) as [k ->] by (exists (255 - length text)%nat; lia).
    cbn [replicate]. unfold text. rewrite <- theme_text_app. cbn [app].
    change 257%nat with (S (S (S (S (S (S 251)))))). rewrite theme_parses by done. rewrite !bind_Ok. done.
Qed.

Definition demo_theme : theme_state :=
  mk_ts (mk_theme 1 2 3 4 5 6 7 8 9 10 11 255 13 0 15 1 1) 0 0 0.

Lemma theme_roundtrip_witness :
  exists v2 v3, theme_save_to_disk (replicate 256 7) demo_theme (mk_memfs ∅ ∅ 0) = Ok v2 /\
    theme_load_from_disk (mk_ts (theme_default (current_theme demo_theme)) 0 0 0) v2 =
      Ok (mk_ts (current_theme demo_theme) 13 0 15, v3).
Proof.
  destruct (theme_roundtrip (replicate 256 7) demo_theme
    (mk_ts (theme_default (current_theme demo_theme)) 0 0 0) (mk_memfs ∅ ∅ 0)
    (mem_open conf_path 10 (mk_memfs ∅ ∅ 0)).2 (0%nat : @FIL memfs mem_fatfs)) as (v2 & v3 & E1 & E2).
  - exact mem_media_ok.
  - reflexivity.
  - split. repeat (constructor; [unfold is_byte; simpl; lia|]). constructor.
  - reflexivity.
  - vm_compute. reflexivity.
  - exists v2, v3. split; [exact E1|exact E2].
Defined.
