(* ===== verification/NetMon.v ===== *)
(** * NetMon: the background ping monitor (kernel.c)

    [update_network_monitor] runs once per frame; replies arrive through
    [ping_recv_cb]. lwIP's allocation of the packet may fail, which is an
    input here; the echo requests handed to [raw_sendto] are recorded. *)

From Stdlib Require Import ZArith Lia Bool.
From stdpp Require Import base list.
From S2P Require Import Prelude.
From stdpp Require Import options.

(** ** The Internet checksum *)

(** [while (count > 1) { sum += *ptr++; count -= 2; }] and the odd byte. *)
Fixpoint sum_words (b : list Z) (sum : Z) : Z :=
  match b with
  | lo :: hi :: r => sum_words r (u32 (sum + (lo + hi * 256)))
  | [lo] => u32 (sum + lo)
  | [] => sum
  end.

(** [while (sum >> 16) sum = (sum & 0xFFFF) + (sum >> 16);] *)
Fixpoint fold_sum (fuel : nat) (sum : Z) : res Z :=
  match fuel with
  | O => NoFuel
  | S f => if truth (Z.shiftr sum 16) then fold_sum f (u32 (Z.land sum 65535 + Z.shiftr sum 16)) else Ok sum
  end.

(** [addr] holds [count] bytes; three foldings always suffice. *)
Definition icmp_checksum (addr : list Z) : res Z :=
  s ← fold_sum 4 (sum_words addr 0); Ok (u16 (Z.lnot s)).

(** ** The monitor *)

Inductive net_status := NET_STATUS_UNKNOWN | NET_STATUS_CONNECTED | NET_STATUS_DISCONNECTED.

Record monitor := mk_mon {
  current_net_status : net_status; last_ping_tick : Z; pings_sent : Z; pings_received : Z;
  ping_pcb : bool; last_status_print_tick : Z; last_packet_sent_tick : Z; wait_start : Z;
  echo_log : list Z
}.

Definition mon_boot : monitor := mk_mon NET_STATUS_UNKNOWN 0 0 0 false 0 0 0 [].

(** [ping_recv_cb] on a packet of [len] bytes with the given ICMP type; the
    packet is freed and consumed. *)
Definition ping_recv_cb (len type : Z) (m : monitor) : monitor :=
  if 20 + 8 <=? len then
    if type =? 0 then
      mk_mon (current_net_status m) (last_ping_tick m) (pings_sent m) (i32 (pings_received m + 1))
        (ping_pcb m) (last_status_print_tick m) (last_packet_sent_tick m) (wait_start m) (echo_log m)
    else m
  else m.

(** [send_ping_packet]; the log receives the sequence number of the request. *)
Definition send_ping_packet (alloc_ok : bool) (m : monitor) : monitor :=
  if negb alloc_ok then m
  else mk_mon (current_net_status m) (last_ping_tick m) (i32 (pings_sent m + 1)) (pings_received m)
         (ping_pcb m) (last_status_print_tick m) (last_packet_sent_tick m) (wait_start m)
         (echo_log m ++ [u16 (pings_sent m + 1)]).

Definition set_print (t : Z) (m : monitor) : monitor :=
  mk_mon (current_net_status m) (last_ping_tick m) (pings_sent m) (pings_received m) (ping_pcb m) t
    (last_packet_sent_tick m) (wait_start m) (echo_log m).

(** The end of a batch. *)
Definition conclude (st : net_status) (now : Z) (m : monitor) : monitor :=
  mk_mon st now 0 (pings_received m) (ping_pcb m) (last_status_print_tick m) (last_packet_sent_tick m) 0 (echo_log m).

Definition update_network_monitor (now : Z) (alloc_ok : bool) (m : monitor) : monitor :=
  let m := if ping_pcb m then m
           else mk_mon (current_net_status m) (last_ping_tick m) (pings_sent m) (pings_received m) true
                  (last_status_print_tick m) (last_packet_sent_tick m) (wait_start m) (echo_log m) in
  let ms_since_last_batch :=
    if last_ping_tick m =? 0 then 999999 else u32 (u32 (now - last_ping_tick m) * 1000) / 18 in
  if pings_sent m =? 0 then
    let m := if negb (last_ping_tick m =? 0) && (18 <=? u32 (now - last_status_print_tick m))
             then set_print now m else m in
    if (15000 <=? ms_since_last_batch) || (last_ping_tick m =? 0) then
      send_ping_packet alloc_ok
        (mk_mon (current_net_status m) (last_ping_tick m) (pings_sent m) 0 (ping_pcb m)
           (last_status_print_tick m) (last_packet_sent_tick m) (wait_start m) (echo_log m))
    else m
  else if pings_sent m <? 4 then
    if 15 <? u32 (now - last_packet_sent_tick m) then
      let m := send_ping_packet alloc_ok m in
      mk_mon (current_net_status m) (last_ping_tick m) (pings_sent m) (pings_received m) (ping_pcb m)
        (last_status_print_tick m) now (wait_start m) (echo_log m)
    else m
  else if wait_start m =? 0 then
    mk_mon (current_net_status m) (last_ping_tick m) (pings_sent m) (pings_received m) (ping_pcb m)
      (last_status_print_tick m) (last_packet_sent_tick m) now (echo_log m)
  else
    let m := if 5 <=? u32 (now - last_status_print_tick m) then set_print now m else m in
    if pings_received m =? 4 then conclude NET_STATUS_CONNECTED now m
    else if 100 <? u32 (now - wait_start m) then conclude NET_STATUS_DISCONNECTED now m
    else m.

(** ** Checksum theory *)

Lemma fold_step f s :
  0 <= s < 4294967296 ->
  fold_sum (S f) s = if s <? 65536 then Ok s else fold_sum f (s mod 65536 + s / 65536).
Proof.
  intros Hs. cbn [fold_sum]. rewrite land_65535, Z.shiftr_div_pow2 by lia. change (2 ^ 16) with 65536.
  unfold truth. destruct (Z.eqb_spec (s / 65536) 0), (Z.ltb_spec s 65536); simpl negb; cbv iota;
    [done|dlia|dlia|]. rewrite u32_small by dlia. done.
Qed.

Lemma fold_residue s :
  65536 <= s < 4294967296 ->
  let s' := s mod 65536 + s / 65536 in 0 < s' < 131071 /\ s' mod 65535 = s mod 65535.
Proof.
  intros Hs. cbv zeta. split; [dlia|].
  replace (s mod 65536 + s / 65536) with (s + - (s / 65536) * 65535) by dlia. apply Z.mod_add. lia.
Qed.

(** Folding keeps the residue modulo 65535 and reaches 16 bits in two steps;
    the result is 0 only for the sum 0. *)
Lemma fold_sum_spec s :
  0 <= s < 4294967296 ->
  exists r, fold_sum 4 s = Ok r /\ 0 <= r < 65536 /\ r mod 65535 = s mod 65535 /\ (r = 0 <-> s = 0).
Proof.
  intros Hs. rewrite fold_step by lia. destruct (Z.ltb_spec s 65536); [exists s; split; [done|]; split; [lia|done]|].
  destruct (fold_residue s ltac:(lia)) as [B1 M1]. set (s1 := s mod 65536 + s / 65536) in *. clearbody s1.
  rewrite fold_step by lia. destruct (Z.ltb_spec s1 65536); [exists s1; split; [done|]; split; [lia|]; split; [done|lia]|].
  destruct (fold_residue s1 ltac:(lia)) as [B2 M2].
  assert (s1 mod 65536 + s1 / 65536 < 65536) as B3 by dlia.
  set (s2 := s1 mod 65536 + s1 / 65536) in *. clearbody s2.
  rewrite fold_step by lia. destruct (Z.ltb_spec s2 65536); [|lia].
  exists s2. split; [done|]. split; [lia|]. split; [congruence|lia].
Qed.

(** The exact sum of the little-endian words of an even-length buffer. *)
Fixpoint word_sum (b : list Z) : Z :=
  match b with lo :: hi :: r => lo + hi * 256 + word_sum r | [lo] => lo | [] => 0 end.

Lemma pair_ind (P : list Z -> Prop) :
  P [] -> (forall a, P [a]) -> (forall a b l, P l -> P (a :: b :: l)) -> forall l, P l.
Proof.
  intros H0 H1 H2. fix IH 1. intros [|a [|b l]]; [exact H0|apply H1|apply H2, IH].
Qed.

Lemma word_sum_bound b : Forall is_byte b -> 0 <= word_sum b <= 65535 * zlen b.
Proof.
  unfold is_byte. induction b as [|a|a b l IH] using pair_ind; intros Hb; cbn [word_sum length].
  - lia.
  - inversion Hb; subst. lia.
  - rewrite !Forall_cons in Hb. destruct Hb as (Ha & Hb & Hl). specialize (IH Hl). lia.
Qed.

Lemma sum_words_exact b s :
  Forall is_byte b -> 0 <= s -> s + 65535 * zlen b < 4294967296 -> sum_words b s = s + word_sum b.
Proof.
  unfold is_byte. revert s. induction b as [|a|a b l IH] using pair_ind; intros s Hb Hs Hl;
    cbn [sum_words word_sum length] in *.
  - lia.
  - inversion Hb; subst. rewrite u32_small by lia. done.
  - rewrite !Forall_cons in Hb. destruct Hb as (Ha & Hb & Hr).
    rewrite u32_small by lia. rewrite IH by (done || lia). lia.
Qed.

Lemma word_sum_app a b : Nat.Even (length a) -> word_sum (a ++ b) = word_sum a + word_sum b.
Proof.
  intros He. revert He. induction a as [|x|x y l IH] using pair_ind; intros He; cbn [app word_sum].
  - lia.
  - destruct He as [k Hk]. simpl in Hk. lia.
  - rewrite IH; [lia|]. destruct He as [k Hk]. exists (k - 1)%nat. simpl in Hk. lia.
Qed.

(** The checksum [icmp_checksum] computes over a packet whose (even-aligned)
    checksum field is zero, once stored in that field, makes the whole
    packet's checksum zero, which is how a receiver accepts it. *)
Theorem icmp_checksum_verifies (a b : list Z) :
  Forall is_byte a -> Forall is_byte b -> Nat.Even (length a) -> zlen a + zlen b <= 65000 ->
  exists c, icmp_checksum (a ++ 0 :: 0 :: b) = Ok c /\
    icmp_checksum (a ++ c mod 256 :: c / 256 :: b) = Ok 0.
Proof.
  intros Ha Hb He Hl. pose proof (word_sum_bound a Ha). pose proof (word_sum_bound b Hb).
  assert (forall lo hi, is_byte lo -> is_byte hi ->
    sum_words (a ++ lo :: hi :: b) 0 = word_sum a + (lo + hi * 256) + word_sum b) as S.
  { intros lo hi Hlo Hhi. rewrite sum_words_exact; [| |lia|].
    - rewrite word_sum_app by done. cbn [word_sum]. lia.
    - apply Forall_app. split; [done|]. constructor; [done|]. by constructor.
    - rewrite length_app. cbn [length]. lia. }
  unfold icmp_checksum. rewrite S by (unfold is_byte; lia).
  set (t := word_sum a + (0 + 0 * 256) + word_sum b).
  destruct (fold_sum_spec t) as (r & -> & Br & Mr & Zr); [unfold t; lia|]. rewrite bind_Ok.
  assert (u16 (Z.lnot r) = 65535 - r) as ->.
  { unfold Z.lnot, u16, wrap. change (2 ^ 16) with 65536. unfold Z.pred. dlia. }
  exists (65535 - r). split; [done|].
  rewrite S by (unfold is_byte; dlia).
  replace ((65535 - r) mod 256 + (65535 - r) / 256 * 256) with (65535 - r) by dlia.
  destruct (fold_sum_spec (word_sum a + (65535 - r) + word_sum b)) as (r2 & -> & Br2 & Mr2 & Zr2); [unfold t in *; lia|].
  rewrite bind_Ok. assert (r2 = 65535) as ->; [|done].
  replace (word_sum a + (65535 - r) + word_sum b) with (t - r + 1 * 65535) in * by (unfold t; lia).
  rewrite Z.mod_add in Mr2 by lia. rewrite Zminus_mod, Mr, Z.sub_diag, Z.mod_0_l in Mr2 by lia.
  destruct (decide (r2 = 0)) as [E|N]; [|dlia].
  apply Zr2 in E. assert (t = 0 /\ r = 65535) as [Et Er] by (unfold t in *; lia).
  apply Zr in Et. lia.
Qed.

Lemma icmp_checksum_verifies_witness :
  exists c, icmp_checksum ([8; 0] ++ 0 :: 0 :: [187; 170; 0; 1]) = Ok c /\
    icmp_checksum ([8; 0] ++ c mod 256 :: c / 256 :: [187; 170; 0; 1]) = Ok 0.
Proof.
  apply icmp_checksum_verifies.
  - repeat (constructor; [unfold is_byte; lia|]). constructor.
  - repeat (constructor; [unfold is_byte; lia|]). constructor.
  - exists 1%nat. reflexivity.
  - simpl. lia.
Defined.

(** ** The monitor as a state machine *)

(** One event: a frame at time [now], or a packet handed to the callback. *)
Inductive mon_step : monitor -> monitor -> Prop :=
| step_frame m now ok : 0 < now < 4294967296 -> mon_step m (update_network_monitor now ok m)
| step_reply m len type : 0 <= len < 65536 -> mon_step m (ping_recv_cb len type m).

Inductive mon_reach : monitor -> Prop :=
| reach_boot : mon_reach mon_boot
| reach_step m m' : mon_reach m -> mon_step m m' -> mon_reach m'.

(** At most four requests are outstanding in a batch, they carry consecutive
    sequence numbers, and the deadline runs only after the fourth. *)
Record mon_ok (m : monitor) : Prop := {
  mo_sent : 0 <= pings_sent m <= 4;
  mo_wait : wait_start m <> 0 -> pings_sent m = 4;
  mo_log : exists prev, echo_log m = prev ++ (Z.of_nat <$> seq 1 (Z.to_nat (pings_sent m)))
}.

Lemma mon_ok_send ok m :
  mon_ok m -> pings_sent m < 4 -> wait_start m = 0 -> mon_ok (send_ping_packet ok m).
Proof.
  intros [Hs Hw (prev & Hl)] Hlt Hw0. unfold send_ping_packet. destruct ok; simpl; [|by split; eauto].
  rewrite i32_small, u16_small by lia. split; cbn [pings_sent wait_start echo_log]; [lia|done|].
  exists prev. rewrite Hl, <- app_assoc. f_equal.
  replace (Z.to_nat (pings_sent m + 1)) with (S (Z.to_nat (pings_sent m))) by lia.
  rewrite seq_S, fmap_app. simpl. do 2 f_equal. lia.
Qed.

Lemma mon_ok_mono m m' :
  mon_ok m -> pings_sent m' = pings_sent m -> wait_start m' = wait_start m \/ pings_sent m = 4 ->
  echo_log m' = echo_log m -> mon_ok m'.
Proof.
  intros [Hs Hw Hl] E1 E2 E3. split; rewrite ?E1, ?E3; [done| |done].
  intros Hn. destruct E2 as [E2|E2]; [rewrite E2 in Hn; auto|done].
Qed.

Lemma mon_ok_conclude st now m : mon_ok m -> mon_ok (conclude st now m).
Proof.
  intros [_ _ (prev & Hl)]. split; simpl; [lia|done|]. exists (echo_log m). by rewrite app_nil_r.
Qed.

Lemma update_ok now ok m : mon_ok m -> mon_ok (update_network_monitor now ok m).
Proof.
  intros Hm. unfold update_network_monitor.
  set (m0 := if ping_pcb m then m else _).
  assert (mon_ok m0) as H0.
  { unfold m0. destruct (ping_pcb m); [done|]. eapply mon_ok_mono; [exact Hm|done|by left|done]. }
  clearbody m0. clear Hm m. cbv zeta. pose proof (mo_sent _ H0).
  destruct (Z.eqb_spec (pings_sent m0) 0) as [E0|N0].
  - match goal with |- context [if ?b then set_print now m0 else m0] => set (m1 := if b then set_print now m0 else m0) end.
    assert (mon_ok m1 /\ pings_sent m1 = 0 /\ last_ping_tick m1 = last_ping_tick m0) as (H1 & E1 & _).
    { unfold m1. destruct (_ && _); [|done]. split; [|done]. eapply mon_ok_mono; [exact H0|done|by left|done]. }
    clearbody m1. destruct (_ || _); [|done].
    assert (wait_start m1 = 0) as Ew by (destruct (decide (wait_start m1 = 0)); [done|]; pose proof (mo_wait _ H1); lia).
    apply mon_ok_send; [|simpl; lia|exact Ew]. eapply mon_ok_mono; [exact H1|done|by left|done].
  - assert (pings_sent m0 <> 4 -> wait_start m0 = 0) as Ew
      by (intros; destruct (decide (wait_start m0 = 0)); [done|]; pose proof (mo_wait _ H0); lia).
    destruct (Z.ltb_spec (pings_sent m0) 4).
    + destruct (15 <? _); [|done]. pose proof (mon_ok_send ok m0 H0 ltac:(lia) (Ew ltac:(lia))) as HS.
      eapply mon_ok_mono; [exact HS|done|by left|done].
    + destruct (Z.eqb_spec (wait_start m0) 0).
      { eapply mon_ok_mono; [exact H0|done|right; lia|done]. }
      match goal with |- context [if ?b then set_print now m0 else m0] => set (m1 := if b then set_print now m0 else m0) end.
      assert (mon_ok m1) as HM.
      { unfold m1. destruct (_ <=? _); [|done]. eapply mon_ok_mono; [exact H0|done|by left|done]. }
      clearbody m1. destruct (_ =? 4); [by apply mon_ok_conclude|]. destruct (100 <? _); [by apply mon_ok_conclude|done].
Qed.

Lemma reach_ok m : mon_reach m -> mon_ok m.
Proof.
  induction 1 as [|m m' _ IH Hst].
  - split; simpl; [lia|done|]. by exists [].
  - destruct Hst as [m now ok _|m len type _]; [by apply update_ok|].
    unfold ping_recv_cb. destruct (_ <=? len); [|done]. destruct (type =? 0); [|done].
    eapply mon_ok_mono; [exact IH|done|by left|done].
Qed.

(** In every reachable state of the ping monitor a batch has at most four
    requests, numbered consecutively from 1, and a frame changes the
    reported network status only after the fourth request: to "connected"
    exactly when four replies were counted, to "disconnected" only when they
    were not and more than 100 ticks have passed since the batch was
    complete. *)
Theorem monitor_verdicts (m : monitor) (now : Z) (ok : bool) :
  mon_reach m -> let m' := update_network_monitor now ok m in
  mon_ok m' /\
  (current_net_status m' <> current_net_status m ->
     pings_sent m = 4 /\ wait_start m <> 0 /\ pings_sent m' = 0 /\
     ((current_net_status m' = NET_STATUS_CONNECTED /\ pings_received m = 4) \/
      (current_net_status m' = NET_STATUS_DISCONNECTED /\ pings_received m <> 4 /\
       100 < u32 (now - wait_start m)))).
Proof.
  intros Hr m'. pose proof (reach_ok m Hr) as Hok. split; [by apply update_ok|].
  unfold m', update_network_monitor.
  set (m0 := if ping_pcb m then m else _).
  assert (current_net_status m0 = current_net_status m /\ pings_sent m0 = pings_sent m /\
    pings_received m0 = pings_received m /\ wait_start m0 = wait_start m) as (S0 & P0 & R0 & W0)
    by (unfold m0; by destruct (ping_pcb m)).
  rewrite <- S0, <- P0, <- R0, <- W0. pose proof (mo_sent _ Hok) as Hs. rewrite <- P0 in Hs.
  clearbody m0. clear m' Hr Hok S0 P0 R0 W0 m. cbv zeta.
  destruct (Z.eqb_spec (pings_sent m0) 0) as [E0|N0].
  { destruct (_ && _); destruct (_ || _); unfold send_ping_packet; destruct ok; simpl; done. }
  destruct (Z.ltb_spec (pings_sent m0) 4).
  { destruct (15 <? _); [|done]. unfold send_ping_packet. destruct ok; simpl; done. }
  destruct (Z.eqb_spec (wait_start m0) 0); [done|].
  match goal with |- context [if ?b then set_print now m0 else m0] => set (m1 := if b then set_print now m0 else m0) end.
  assert (current_net_status m1 = current_net_status m0 /\ pings_received m1 = pings_received m0 /\
    wait_start m1 = wait_start m0) as (S1 & R1 & W1) by (unfold m1; by destruct (_ <=? _)).
  rewrite R1, W1. clearbody m1.
  destruct (Z.eqb_spec (pings_received m0) 4).
  - intros _. simpl. split; [lia|]. split; [done|]. split; [done|]. by left.
  - destruct (Z.ltb_spec 100 (u32 (now - wait_start m0))).
    + intros _. simpl. split; [lia|]. split; [done|]. split; [done|]. by right.
    + rewrite S1. done.
Qed.

(** A monitor that has heard four replies. *)
Definition demo_mon : monitor :=
  ping_recv_cb 28 0 (ping_recv_cb 28 0 (ping_recv_cb 28 0 (ping_recv_cb 28 0
    (update_network_monitor 90 true (update_network_monitor 60 true (update_network_monitor 40 true
      (update_network_monitor 20 true (update_network_monitor 10 true mon_boot)))))))).

Lemma monitor_verdicts_witness :
  mon_reach demo_mon /\
  current_net_status (update_network_monitor 95 true demo_mon) = NET_STATUS_CONNECTED /\
  pings_sent demo_mon = 4 /\ mon_ok (update_network_monitor 95 true demo_mon).
Proof.
  assert (mon_reach demo_mon) as Hr.
  { unfold demo_mon. repeat (eapply reach_step; [|apply step_reply; lia]).
    repeat (eapply reach_step; [|apply step_frame; lia]). constructor. }
  destruct (monitor_verdicts demo_mon 95 true Hr) as [Hok Hv].
  split; [exact Hr|]. split; [vm_compute; reflexivity|]. split; [|exact Hok].
  apply Hv. vm_compute. discriminate.
Defined.
