(* ===== verification/Ui.v ===== *)
(** * Ui: what the windows of the desktop exchange with Nuklear

    The applications are immediate-mode programs: in every frame they ask
    Nuklear what happened to their widgets and change their own state. The
    answers of one frame are inputs of the models (any answer is possible);
    what a program tells Nuklear in return, the window it focuses and the
    reset of the active window, is logged. *)

From Stdlib Require Import ZArith Lia Bool String.
From stdpp Require Import base list.
From S2P Require Import Prelude CLib.
From stdpp Require Import options.

(** A window rectangle; the programs only store and hand back rectangles. *)
Record nk_rect := mk_rect { r_x : Z; r_y : Z; r_w : Z; r_h : Z }.

(** The answers about one window: [nk_begin], [nk_window_get_bounds],
    [nk_window_has_focus], [nk_window_is_hovered], [nk_window_is_hidden]. *)
Record win_in := mk_win {
  w_begin : bool; w_bounds : nk_rect; w_focus : bool; w_hovered : bool; w_hidden : bool
}.

(** [nk_window_set_focus(ctx, w)], [ctx->active = 0], [nk_popup_close(ctx)] and
    [nk_window_show(ctx, w, NK_SHOWN)]. *)
Inductive ui_event := SetFocus (w : list Z) | Deactivate | PopupClose | WindowShow (w : list Z).

(** The pointer lock of the desktop ([*active_drag_window_id]) and the log. *)
Record desk := mk_desk { drag : Z; ui_log : list ui_event }.

Definition say (e : ui_event) (d : desk) : desk := mk_desk (drag d) (ui_log d ++ [e]).
Definition lock (id : Z) (d : desk) : desk := mk_desk id (ui_log d).

(** Releasing the lock when a dialog closes and handing the focus back. *)
Definition release (w : list Z) (d : desk) : desk := say (SetFocus w) (say Deactivate (lock 0 d)).

(** The end of a window: the owner of the focus (or of the lock) takes a free
    lock on a click; a hovered window takes focus and lock unless a widget is
    active. *)
Definition route (id : Z) (holds : bool) (name : list Z) (w : win_in) (clicked : Z) (any_active : bool) (d : desk) : desk :=
  if w_focus w || holds then
    if truth clicked && (drag d =? 0) then lock id d else d
  else if w_hovered w && truth clicked && (drag d =? 0) then
    if negb any_active then say (SetFocus name) (lock id d) else d
  else d.

(** ** Strings in fixed arrays *)

(** [while (src[j]) dest[i++] = src[j++];] *)
Fixpoint copy_str (src dest : list Z) (i : Z) : res (list Z * Z) :=
  match src with
  | [] => Fault
  | c :: r => if c =? 0 then Ok (dest, i) else d ← wr dest i c; copy_str r d (i + 1)
  end.

(** ... followed by [dest[i] = '\0']. *)
Definition copy_term (src dest : list Z) (i : Z) : res (list Z) :=
  x ← copy_str src dest i; wr x.1 x.2 0.

(** [nk_edit_string_zero_terminated] leaves the edited text [t] and its
    terminator in [buf]. *)
Definition edit_field (buf t : list Z) : res (list Z) :=
  if zlen t <? zlen buf then Ok (filled buf (t ++ [0])) else Fault.

(** [holds buf n str]: the [n]-byte array [buf] contains the C string [str]. *)
Definition holds (buf : list Z) (n : Z) (str : list Z) : Prop :=
  zlen buf = n /\ until_nul buf = Some str.

Lemma filled_prefix (buf w u : list Z) :
  buf = w ++ u -> filled buf w = buf.
Proof. intros ->. unfold filled. by rewrite drop_app_length. Qed.

Lemma filled_length (buf w : list Z) : zlen w <= zlen buf -> length (filled buf w) = length buf.
Proof. intros Hw. unfold filled. rewrite length_app, length_drop. lia. Qed.

Lemma holds_filled buf n str :
  zlen buf = n -> Forall (fun c => c <> 0) str -> zlen str < n -> holds (filled buf (str ++ [0])) n str.
Proof.
  intros Hb Hs Hl. split; [rewrite filled_length; [done|rewrite length_app; simpl; lia]|].
  unfold filled. rewrite <- app_assoc. by apply until_nul_lit.
Qed.

Lemma until_nul_nz s str : until_nul s = Some str -> Forall (fun c => c <> 0) str.
Proof. intros H. apply until_nul_cstr in H as (rest & _ & Hf). done. Qed.

Lemma until_nul_split s str : until_nul s = Some str -> exists rest, s = str ++ 0 :: rest.
Proof. intros H. apply until_nul_cstr in H as (rest & Hs & _). eauto. Qed.

Lemma holds_len buf n str : holds buf n str -> zlen str < n.
Proof.
  intros [Hl Hu]. apply until_nul_split in Hu as [rest ->]. rewrite length_app in Hl. simpl in Hl. lia.
Qed.

Lemma copy_str_filled src str dest w :
  until_nul src = Some str -> zlen w + zlen str <= zlen dest ->
  copy_str src (filled dest w) (zlen w) = Ok (filled dest (w ++ str), zlen (w ++ str)).
Proof.
  revert str w. induction src as [|c src IH]; intros str w Hs Hl; [done|]. cbn [until_nul] in Hs. cbn [copy_str].
  destruct (c =? 0); [injection Hs as <-; by rewrite app_nil_r|].
  destruct (until_nul src) as [t|]; [|done]. injection Hs as <-. cbn [length] in Hl.
  rewrite filled_wr by lia. rewrite bind_Ok.
  replace (zlen w + 1) with (zlen (w ++ [c])) by (rewrite length_app; simpl; lia).
  rewrite (IH t) by (done || rewrite length_app; simpl; lia). by rewrite <- app_assoc.
Qed.

Lemma copy_term_filled src str dest w :
  until_nul src = Some str -> zlen w + zlen str < zlen dest ->
  copy_term src (filled dest w) (zlen w) = Ok (filled dest (w ++ str ++ [0])).
Proof.
  intros Hs Hl. unfold copy_term. rewrite (copy_str_filled src str) by (done || lia). rewrite bind_Ok. cbn [fst snd].
  rewrite filled_wr by (rewrite length_app; lia). by rewrite <- app_assoc.
Qed.

(** Copying a string to the start of an array. *)
Lemma copy_term_holds src str dest n :
  until_nul src = Some str -> zlen dest = n -> zlen str < n ->
  exists d, copy_term src dest 0 = Ok d /\ holds d n str.
Proof.
  intros Hs Hd Hl. eexists. split.
  - change dest with (filled dest []) at 1. change 0 with (zlen (@nil Z)).
    apply (copy_term_filled src str); [done|simpl; lia].
  - simpl. apply holds_filled; [done|by eapply until_nul_nz|done].
Qed.

Lemma edit_field_holds buf t n :
  zlen buf = n -> zlen t < n -> Forall (fun c => c <> 0) t ->
  exists b, edit_field buf t = Ok b /\ holds b n t.
Proof.
  intros Hb Ht Hz. unfold edit_field. rewrite Hb. destruct (Z.ltb_spec (zlen t) n); [|lia].
  eexists. split; [done|]. by apply holds_filled.
Qed.

(** [strncpy] of a string shorter than the limit: the string and zeros. *)
Lemma zero_fill k : forall dest w, zlen w + Z.of_nat k <= zlen dest ->
  for_up k (zlen w) (fun j d => wr d j 0) (filled dest w) = Ok (filled dest (w ++ replicate k 0)).
Proof.
  induction k as [|k IH]; intros dest w Hl; cbn [for_up replicate]; [by rewrite app_nil_r|].
  rewrite filled_wr, bind_Ok by lia. replace (zlen w + 1) with (zlen (w ++ [0])) by (rewrite length_app; cbn; lia).
  rewrite IH by (rewrite length_app; cbn; lia). by rewrite <- app_assoc.
Qed.

Lemma strncpy_filled n : forall src str dest w, until_nul src = Some str -> (length str < n)%nat -> zlen w + Z.of_nat n <= zlen dest ->
  strncpy_loop n src (filled dest w) (zlen w) = Ok (filled dest (w ++ str ++ replicate (n - length str) 0)).
Proof.
  induction n as [|n IH]; intros src str dest w Hs Hn Hl; [lia|]. destruct src as [|c src]; [done|]. cbn [until_nul] in Hs. cbn [strncpy_loop].
  destruct (c =? 0); cbn [negb].
  - injection Hs as <-. rewrite zero_fill by lia. by rewrite Nat.sub_0_r.
  - destruct (until_nul src) as [t|] eqn:Et; [|done]. injection Hs as <-. cbn [length] in Hn |- *.
    rewrite filled_wr, bind_Ok by lia. replace (zlen w + 1) with (zlen (w ++ [c])) by (rewrite length_app; cbn; lia).
    rewrite (IH src t) by (done || lia || rewrite length_app; cbn; lia). rewrite <- app_assoc. cbn [app]. by rewrite Nat.sub_succ.
Qed.

Lemma strncpy_holds dest src str n : until_nul src = Some str -> zlen str < n -> n <= zlen dest ->
  exists d, strncpy dest src n = Ok d /\ holds d (zlen dest) str.
Proof.
  intros Hs Hn Hl. unfold strncpy. pose proof (strncpy_filled (Z.to_nat n) src str dest [] Hs ltac:(lia) ltac:(cbn; lia)) as E.
  change (filled dest []) with dest in E. change (zlen []) with 0 in E. rewrite E. eexists. split; [reflexivity|]. cbn [app].
  assert (Z.to_nat n - length str = S (Z.to_nat n - length str - 1))%nat as -> by lia. cbn [replicate]. split.
  - rewrite filled_length; [done|]. rewrite length_app. cbn [length]. rewrite length_replicate. lia.
  - unfold filled. rewrite <- app_assoc. cbn [app]. apply until_nul_lit. by eapply until_nul_nz.
Qed.

Lemma holds_strlen buf n str : holds buf n str -> n <= 65536 -> strlen buf = Ok (zlen str).
Proof.
  intros Hh Hn. pose proof (holds_len _ _ _ Hh). destruct Hh as [Hl Hu].
  unfold strlen. rewrite (strlen_cstr_aux buf str 0) by (done || lia). done.
Qed.

Lemma holds_get buf n str i : holds buf n str -> 0 <= i < zlen str -> get buf i = get str i.
Proof. intros [_ Hu] Hi. apply until_nul_split in Hu as [rest ->]. by apply get_app_l. Qed.

(** A string array seen as an array filled with its string. *)
Lemma holds_as_filled buf n str : holds buf n str -> filled buf str = buf.
Proof. intros [_ Hu]. apply until_nul_split in Hu as [rest Hs]. by apply (filled_prefix _ _ (0 :: rest)). Qed.

(** Cutting a string by writing a terminator into it. *)
Lemma wr_trunc buf n str k :
  holds buf n str -> 0 <= k <= zlen str ->
  exists b, wr buf k 0 = Ok b /\ holds b n (take (Z.to_nat k) str).
Proof.
  intros Hh Hk. pose proof (holds_len _ _ _ Hh) as Hlt. pose proof (until_nul_nz _ _ (proj2 Hh)) as Hz.
  destruct Hh as [Hl Hu]. rewrite wr_in by lia. eexists. split; [done|].
  split; [by rewrite length_insert|]. apply until_nul_cstr.
  apply until_nul_split in Hu as [rest ->].
  exists (drop (S (Z.to_nat k)) (str ++ 0 :: rest)). split.
  - rewrite insert_take_drop by (rewrite length_app; simpl; lia). f_equal. apply take_app_le. lia.
  - by apply Forall_take.
Qed.

(** Writing past the end of the array. *)
Lemma copy_term_overflow src str dest w :
  until_nul src = Some str -> zlen w <= zlen dest -> zlen dest <= zlen w + zlen str ->
  copy_term src (filled dest w) (zlen w) = Fault.
Proof.
  unfold copy_term. revert str w. induction src as [|c src IH]; intros str w Hs Hw Hl; [done|].
  cbn [until_nul] in Hs. cbn [copy_str]. destruct (c =? 0).
  - injection Hs as <-. rewrite bind_Ok. cbn [fst snd length] in *. apply wr_out. rewrite filled_length by lia. lia.
  - destruct (until_nul src) as [t|]; [|done]. injection Hs as <-. cbn [length] in Hl.
    destruct (decide (zlen w = zlen dest)) as [E|N].
    + rewrite wr_out; [done|]. rewrite filled_length by lia. lia.
    + rewrite filled_wr by lia. rewrite bind_Ok.
      replace (zlen w + 1) with (zlen (w ++ [c])) by (rewrite length_app; simpl; lia).
      apply (IH t); [done|rewrite length_app; simpl; lia..].
Qed.

(** The last element of a non-empty string. *)
Lemma get_last_in (a c : list Z) : c <> [] -> get (a ++ c) (zlen (a ++ c) - 1) ∈ c.
Proof.
  intros Hc. destruct c as [|x c] using rev_ind; [done|]. clear IHc. unfold get.
  rewrite app_assoc, length_app. cbn [length].
  replace (Z.to_nat _) with (length (a ++ c)) by lia. rewrite nth_middle. apply elem_of_app. right. constructor.
Qed.
