(* ===== verification/Explorer.v ===== *)
(** * Explorer: the file manager (explorer.c)

    Paths live in fixed arrays and are edited in place; the directory listing
    is an array of 32 entries. [render_file_explorer] runs once per frame
    with Nuklear's answers as input and works on the FatFs interface of Fs.
    The log lines sent to the serial port are not part of the state. *)

From Stdlib Require Import ZArith Lia Bool String.
From stdpp Require Import base list.
From S2P Require Import Prelude CLib Fs Ui.
From stdpp Require Import options.

Definition MAX_FILES_PER_DIR : Z := 32.
Definition MAX_FILENAME_LEN : Z := 64.

Record FileEntry := mk_entry { name : list Z; size : Z; is_directory : Z }.

(** The directory view. *)
Record nav := mk_nav {
  current_dir_items : list FileEntry; current_item_count : Z;
  current_path : list Z; explorer_needs_refresh : Z
}.

(** The context menu. *)
Record cmenu := mk_menu {
  show_context_menu : Z; context_menu_pos : Z * Z; context_target_idx : Z; target_item_name : list Z
}.

(** The modal dialogs. *)
Record dialogs := mk_dialogs {
  show_rename_dialog : Z; show_delete_dialog : Z; show_mkdir_dialog : Z; op_input_buffer : list Z
}.

Record explorer := mk_explorer {
  file_explorer_active : Z; file_explorer_minimized : Z;
  ex_nav : nav; ex_menu : cmenu; ex_dlg : dialogs; bounds_file_explorer : nk_rect
}.

Definition entry0 : FileEntry := mk_entry (replicate 64 0) 0 0.

Definition explorer_boot : explorer :=
  mk_explorer 0 0
    (mk_nav (replicate 32 entry0) 0 (filled (replicate 128 0) (bytes "0:")) 1)
    (mk_menu 0 (0, 0) (-1) (replicate 64 0))
    (mk_dialogs 0 0 0 (replicate 64 0))
    (mk_rect 120 90 500 350).

(** ** Paths *)

(** The last occurrence of [ch], as an index. *)
Fixpoint mini_strrchr (str : list Z) (ch : Z) (i : Z) (last : option Z) : res (option Z) :=
  match str with
  | [] => Fault
  | c :: r => if c =? 0 then Ok last else mini_strrchr r ch (i + 1) (if c =? ch then Some i else last)
  end.

Definition build_full_path (out_buf base name : list Z) : res (list Z) :=
  x ← copy_str base out_buf 0;
  c ← rd base (x.2 - 1);
  y ← (if negb (c =? 58) then b ← wr x.1 x.2 47; Ok (b, x.2 + 1) else Ok x);
  copy_term name y.1 y.2.

(** [while (i > 2 && path[i] != '/') i--;] *)
Fixpoint last_slash (fuel : nat) (path : list Z) (i : Z) : res Z :=
  match fuel with
  | O => NoFuel
  | S f =>
      if 2 <? i then c ← rd path i; if negb (c =? 47) then last_slash f path (i - 1) else Ok i
      else Ok i
  end.

Definition explorer_go_up (path : list Z) : res (list Z) :=
  len ← strlen path;
  if len <=? 2 then Ok path
  else
    c ← rd path (len - 1);
    x ← (if c =? 47 then p ← wr path (len - 1) 0; Ok (p, len - 1) else Ok (path, len));
    let '(path, len) := (x : list Z * Z) in
    i ← last_slash (S (length path)) path (len - 1);
    c ← rd path i;
    if c =? 47 then if i =? 2 then wr path 3 0 else wr path i 0
    else Ok path.

(** The click on a directory: its name is appended to [current_path]. *)
Definition enter_directory (path name : list Z) : res (list Z) :=
  len ← strlen path;
  c1 ← (if len =? 2 then rd path 1 else Ok 0);
  x ← (if (len =? 2) && (c1 =? 58) then p ← wr path len 47; Ok (p, len + 1)
       else if 0 <? len then
         c ← rd path (len - 1);
         if negb (c =? 47) && negb (c =? 58) then p ← wr path len 47; Ok (p, len + 1) else Ok (path, len)
       else Ok (path, len));
  copy_term name x.1 x.2.

(** The label of an entry, in a zeroed 90-byte array. *)
Definition display_name (e : FileEntry) : res (list Z) :=
  x ← copy_str (lit (if truth (is_directory e) then "[DIR]  " else "[FILE] ")) (replicate 90 0) 0;
  y ← copy_str (name e) x.1 x.2; Ok y.1.

(** ** Directory operations *)

Section Volume.
Context {V : Type} `{FatFs V}.

(** [for (n = 0; n < MAX_FILENAME_LEN - 1 && fname[n] != 0; n++) ...] and the
    terminator, with [k] = MAX_FILENAME_LEN - 1 - n; [fname] is the rest of
    the name, without its terminator. *)
Fixpoint copy_name (k : nat) (fname item : list Z) (n : Z) : res (list Z) :=
  match k, fname with
  | S k, c :: r => if negb (c =? 0) then d ← wr item n c; copy_name k r d (n + 1) else wr item n 0
  | _, _ => wr item n 0
  end.

Fixpoint populate_loop (fuel : nat) (dir : DIR) (items : list FileEntry) (count : Z) (v : V)
  : res (list FileEntry * Z * V) :=
  match fuel with
  | O => NoFuel
  | S f =>
      if count <? MAX_FILES_PER_DIR then
        let '(r, fno, v) := f_readdir dir v in
        if negb (r =? FR_OK) then Ok (items, count, v)
        else if get (fname fno) 0 =? 0 then Ok (items, count, v)
        else if (get (fname fno) 0 =? 46) && (get (fname fno) 1 =? 0) then populate_loop f dir items count v
        else
          item ← or_fault (items !! Z.to_nat count);
          n ← copy_name 63 (fname fno) (name item) 0;
          let item := mk_entry n (fsize fno) (if is_dir fno then 1 else 0) in
          populate_loop f dir (<[Z.to_nat count := item]> items) (count + 1) v
      else Ok (items, count, v)
  end.

Definition populate_directory (fuel : nat) (s : nav) (v : V) : res (nav * V) :=
  match until_nul (current_path s) with
  | None => Fault
  | Some path =>
      let '(r, dir, v) := f_opendir path v in
      if negb (r =? FR_OK) then
        Ok (mk_nav (current_dir_items s) 0 (current_path s) (explorer_needs_refresh s), v)
      else
        x ← populate_loop fuel dir (current_dir_items s) 0 v;
        let '(items, count, v) := (x : list FileEntry * Z * V) in
        Ok (mk_nav items count (current_path s) (explorer_needs_refresh s), f_closedir dir v)
  end.

Definition explorer_trigger_refresh (s : nav) : nav :=
  mk_nav (current_dir_items s) (current_item_count s) (current_path s) 1.

(** The loop of [empty_and_delete_dir] over the entries of one directory;
    [self] is the recursive call and [sub_path] a fresh 256-byte array. *)
Fixpoint empty_loop (self : list Z -> V -> res (Z * V)) (path : list Z) (dir : DIR) (k : nat) (v : V) : res (Z * V) :=
  match k with
  | O => NoFuel
  | S k =>
      let '(r, fno, v) := f_readdir dir v in
      if negb (r =? FR_OK) || (get (fname fno) 0 =? 0) then Ok (r, v)
      else if get (fname fno) 0 =? 46 then empty_loop self path dir k v
      else
        sub ← build_full_path (replicate 256 0) path (fname fno ++ [0]);
        y ← (if is_dir fno then self sub v
             else match until_nul sub with None => Fault | Some q => Ok (f_unlink q v) end);
        if negb (y.1 =? FR_OK) then Ok y else empty_loop self path dir k y.2
  end.

(** [fuel] bounds the entries read and the nesting together. *)
Fixpoint empty_and_delete_dir (fuel : nat) (path : list Z) (v : V) : res (Z * V) :=
  match fuel with
  | O => NoFuel
  | S f =>
      match until_nul path with
      | None => Fault
      | Some p =>
          let '(r, dir, v) := f_opendir p v in
          if negb (r =? FR_OK) then Ok (r, v)
          else
            x ← empty_loop (empty_and_delete_dir f) path dir fuel v;
            let v := f_closedir dir x.2 in
            if x.1 =? FR_OK then Ok (f_unlink p v) else Ok (x.1, v)
      end
  end.

End Volume.

(** ** The frame *)

(** One modal dialog: its window, the edited text and its two buttons. *)
Record dlg_in := mk_dlg_in { d_win : win_in; d_text : list Z; d_ok : bool; d_cancel : bool }.

(** Nuklear's answers in one frame, the mouse state of the kernel, and the
    contents of the two uninitialised 256-byte path arrays. *)
Record ex_in := mk_ex_in {
  right_clicked : bool; left_clicked : bool; over_menu : bool;
  mouse_left_clicked : Z; mouse_x : Z; mouse_y : Z; any_active : bool;
  in_main : win_in; b_up : bool; b_refresh : bool; g_begin : bool;
  item_clicked : Z -> bool; item_hovered : Z -> bool; over_group : bool;
  in_menu : win_in; b_rename : bool; b_delete : bool; b_new : bool;
  in_rename : dlg_in; in_delete : dlg_in; in_mkdir : dlg_in;
  stack_a : list Z; stack_b : list Z
}.

Definition W_EXPLORER : list Z := bytes "File Explorer".

Section Frame.
Context {V : Type} `{FatFs V}.
Context (fuel : nat) (i : ex_in).

Definition set_nav (n : nav) (s : explorer) : explorer :=
  mk_explorer (file_explorer_active s) (file_explorer_minimized s) n (ex_menu s) (ex_dlg s) (bounds_file_explorer s).
Definition set_menu (m : cmenu) (s : explorer) : explorer :=
  mk_explorer (file_explorer_active s) (file_explorer_minimized s) (ex_nav s) m (ex_dlg s) (bounds_file_explorer s).
Definition set_dlg (d : dialogs) (s : explorer) : explorer :=
  mk_explorer (file_explorer_active s) (file_explorer_minimized s) (ex_nav s) (ex_menu s) d (bounds_file_explorer s).

Definition set_path (p : list Z) (n : nav) : nav :=
  mk_nav (current_dir_items n) (current_item_count n) p 1.
Definition hide_menu (m : cmenu) : cmenu :=
  mk_menu 0 (context_menu_pos m) (context_target_idx m) (target_item_name m).

(** One row of the listing; the boolean is [item_hovered_this_frame]. *)
Definition item_row (k : Z) (st : nav * cmenu * bool) : res (nav * cmenu * bool) :=
  let '(n, m, hov) := st in
  e ← or_fault (current_dir_items n !! Z.to_nat k);
  _ ← display_name e;
  n ← (if item_clicked i k && truth (is_directory e)
       then p ← enter_directory (current_path n) (name e); Ok (set_path p n) else Ok n);
  if item_hovered i k then
    m ← (if right_clicked i
         then t ← copy_term (name e) (target_item_name m) 0;
              Ok (mk_menu 1 (mouse_x i, mouse_y i) k t)
         else Ok m);
    Ok (n, m, true)
  else Ok (n, m, hov).

(** The body of the main window. *)
Definition main_body (s : explorer) : res explorer :=
  let s := mk_explorer (file_explorer_active s) (file_explorer_minimized s) (ex_nav s) (ex_menu s) (ex_dlg s) (w_bounds (in_main i)) in
  n ← (if b_up i then p ← explorer_go_up (current_path (ex_nav s)); Ok (set_path p (ex_nav s)) else Ok (ex_nav s));
  let n := if b_refresh i then explorer_trigger_refresh n else n in
  if g_begin i then
    x ← for_up (Z.to_nat (current_item_count n)) 0 item_row (n, ex_menu s, false);
    let '(n, m, hov) := (x : nav * cmenu * bool) in
    let m := if negb hov && right_clicked i && over_group i
             then mk_menu 1 (mouse_x i, mouse_y i) (-1) (target_item_name m) else m in
    Ok (set_menu m (set_nav n s))
  else Ok (set_nav n s).

(** The floating context menu. *)
Definition context_menu (s : explorer) : res explorer :=
  let m := ex_menu s in
  if truth (show_context_menu m) && w_begin (in_menu i) then
    if negb (context_target_idx m =? -1) then
      s ← (if b_rename i then
             b ← copy_term (target_item_name m) (op_input_buffer (ex_dlg s)) 0;
             Ok (set_menu (hide_menu m)
                   (set_dlg (mk_dialogs 1 (show_delete_dialog (ex_dlg s)) (show_mkdir_dialog (ex_dlg s)) b) s))
           else Ok s);
      if b_delete i then
        let d := ex_dlg s in
        Ok (set_menu (hide_menu m) (set_dlg (mk_dialogs (show_rename_dialog d) 1 (show_mkdir_dialog d) (op_input_buffer d)) s))
      else Ok s
    else if b_new i then
      let d := ex_dlg s in
      b ← wr (op_input_buffer d) 0 0;
      Ok (set_menu (hide_menu m) (set_dlg (mk_dialogs (show_rename_dialog d) (show_delete_dialog d) 1 b) s))
    else Ok s
  else Ok s.

(** What a dialog leaves behind: state, desktop and volume, and whether the
    handler returned early. *)
Record outcome := mk_out { o_st : explorer; o_desk : desk; o_vol : V; o_ret : bool }.

(** The three dialogs share their shape: [edit] updates the input field,
    [commit] is the OK action and [close] clears the dialog's flag. *)
Definition dialog (shown : Z) (di : dlg_in) (edit : explorer -> res explorer)
  (commit : explorer -> V -> res V) (close : explorer -> explorer) (o : outcome) : res outcome :=
  if o_ret o then Ok o
  else if negb (truth shown) then Ok o
  else
    let '(mk_out s d v _) := o in
    s ← (if w_begin (d_win di) then edit s else Ok s);
    if w_begin (d_win di) && d_ok di then
      v ← commit s v;
      Ok (mk_out (close (set_nav (explorer_trigger_refresh (ex_nav s)) s)) (release W_EXPLORER d) v true)
    else if w_begin (d_win di) && d_cancel di then Ok (mk_out (close s) (release W_EXPLORER d) v true)
    else
      let d := if w_focus (d_win di) && truth (mouse_left_clicked i) then lock 7 d else d in
      if w_hidden (d_win di) then Ok (mk_out (close s) (release W_EXPLORER d) v true)
      else Ok (mk_out s d v false).

Definition edit_input (di : dlg_in) (s : explorer) : res explorer :=
  let d := ex_dlg s in
  b ← edit_field (op_input_buffer d) (d_text di);
  Ok (set_dlg (mk_dialogs (show_rename_dialog d) (show_delete_dialog d) (show_mkdir_dialog d) b) s).

(** The path of [n] under the current directory, in a given stack array. *)
Definition full_path (stack n : list Z) (s : explorer) : res (list Z) :=
  b ← build_full_path stack (current_path (ex_nav s)) n; or_fault (until_nul b).

Definition rename_dialog (o : outcome) : res outcome :=
  dialog (show_rename_dialog (ex_dlg (o_st o))) (in_rename i) (edit_input (in_rename i))
    (fun s v => path_old ← full_path (stack_a i) (target_item_name (ex_menu s)) s;
                path_new ← full_path (stack_b i) (op_input_buffer (ex_dlg s)) s;
                Ok (f_rename path_old path_new v).2)
    (fun s => let d := ex_dlg s in set_dlg (mk_dialogs 0 (show_delete_dialog d) (show_mkdir_dialog d) (op_input_buffer d)) s) o.

Definition delete_dialog (o : outcome) : res outcome :=
  dialog (show_delete_dialog (ex_dlg (o_st o))) (in_delete i) (fun s => Ok s)
    (fun s v => path_del ← build_full_path (stack_a i) (current_path (ex_nav s)) (target_item_name (ex_menu s));
                x ← empty_and_delete_dir fuel path_del v; Ok x.2)
    (fun s => let d := ex_dlg s in set_dlg (mk_dialogs (show_rename_dialog d) 0 (show_mkdir_dialog d) (op_input_buffer d)) s) o.

Definition mkdir_dialog (o : outcome) : res outcome :=
  dialog (show_mkdir_dialog (ex_dlg (o_st o))) (in_mkdir i) (edit_input (in_mkdir i))
    (fun s v => path_make ← full_path (stack_a i) (op_input_buffer (ex_dlg s)) s;
                Ok (f_mkdir path_make v).2)
    (fun s => let d := ex_dlg s in set_dlg (mk_dialogs (show_rename_dialog d) (show_delete_dialog d) 0 (op_input_buffer d)) s) o.

(** The listing is read again when something asked for it. *)
Definition refresh_view (s : explorer) (v : V) : res (explorer * V) :=
  if truth (explorer_needs_refresh (ex_nav s)) then
    y ← populate_directory fuel (ex_nav s) v;
    let n := y.1 in
    Ok (set_nav (mk_nav (current_dir_items n) (current_item_count n) (current_path n) 0) s, y.2)
  else Ok (s, v).

Definition render_file_explorer (s : explorer) (d : desk) (v : V) : res outcome :=
  if negb (truth (file_explorer_active s)) || truth (file_explorer_minimized s) then Ok (mk_out s d v false)
  else
    x ← refresh_view s v;
    let '(s, v) := (x : explorer * V) in
    let s := if truth (show_context_menu (ex_menu s)) && left_clicked i && negb (over_menu i)
             then set_menu (hide_menu (ex_menu s)) s else s in
    s ← (if w_begin (in_main i) then main_body s else Ok s);
    let d := route 3 ((drag d =? 3) || (drag d =? 6) || (drag d =? 7)) W_EXPLORER (in_main i)
               (mouse_left_clicked i) (any_active i) d in
    let s := if w_hidden (in_main i)
             then mk_explorer 0 (file_explorer_minimized s) (ex_nav s) (hide_menu (ex_menu s)) (ex_dlg s) (bounds_file_explorer s)
             else s in
    s ← context_menu s;
    o ← rename_dialog (mk_out s d v false);
    o ← delete_dialog o;
    mkdir_dialog o.

End Frame.

(** ** Navigation as a stack of directory names *)

Definition good_char (c : Z) : Prop := c <> 0 /\ c <> 47 /\ c <> 58.
Definition good_name (d : list Z) : Prop := d <> [] /\ Forall good_char d.

(** The path of the directory reached by the names [cs] from the root. *)
Definition path_of (cs : list (list Z)) : list Z := [48; 58] ++ concat (cons 47 <$> cs).

(** The two spellings of the root, and one of every other directory. *)
Definition represents (cs : list (list Z)) (p : list Z) : Prop :=
  p = path_of cs \/ (cs = [] /\ p = [48; 58; 47]).

Lemma path_of_snoc cs d : path_of (cs ++ [d]) = path_of cs ++ 47 :: d.
Proof.
  unfold path_of. rewrite fmap_app, concat_app. simpl. rewrite app_nil_r. done.
Qed.

Lemma path_of_length cs : Forall good_name cs -> 2 <= zlen (path_of cs) /\ (zlen (path_of cs) = 2 -> cs = []).
Proof.
  intros _. destruct cs as [|c cs]; [done|]. unfold path_of. simpl. split; [lia|]. rewrite length_app. lia.
Qed.

Lemma path_of_last cs d :
  good_name d -> good_char (get (path_of (cs ++ [d])) (zlen (path_of (cs ++ [d])) - 1)).
Proof.
  intros [Hd Hc]. rewrite path_of_snoc, cons_middle, app_assoc.
  rewrite Forall_forall in Hc. apply Hc, get_last_in. done.
Qed.

Lemma list_snoc_cases {A} (l : list A) : l = [] \/ exists l' x, l = l' ++ [x].
Proof. destruct l as [|x l _] using rev_ind; eauto. Qed.

(** Appending a name once the separator is in place. *)
Lemma append_name buf q nm d :
  zlen buf = 128 -> zlen q <= 128 -> until_nul nm = Some d ->
  copy_term nm (filled buf q) (zlen q) =
  if zlen (q ++ d) <? 128 then Ok (filled buf ((q ++ d) ++ [0])) else Fault.
Proof.
  intros Hb Hq Hn. rewrite length_app. destruct (Z.ltb_spec (Z.of_nat (length q + length d)) 128).
  - rewrite (copy_term_filled nm d) by (done || lia). by rewrite app_assoc.
  - apply (copy_term_overflow nm d); [done|lia..].
Qed.

(** A click on the directory [d]: the path of the child, or an overrun of
    the array when it does not fit. *)
Lemma enter_spec buf cs p nm d :
  holds buf 128 p -> represents cs p -> Forall good_name cs -> until_nul nm = Some d ->
  enter_directory buf nm =
  if zlen (path_of (cs ++ [d])) <? 128 then Ok (filled buf (path_of (cs ++ [d]) ++ [0])) else Fault.
Proof.
  intros Hh Hr Hg Hn. pose proof (holds_len _ _ _ Hh) as Hl. pose proof (holds_as_filled _ _ _ Hh) as Hf.
  unfold enter_directory. rewrite (holds_strlen _ _ _ Hh) by lia. rewrite bind_Ok.
  assert (wr buf (zlen p) 47 = Ok (filled buf (p ++ [47]))) as Hw
    by (rewrite <- Hf at 1; apply filled_wr; rewrite (proj1 Hh); lia).
  assert (forall k, 0 <= k < zlen p -> rd buf k = Ok (get p k)) as Hrd
    by (intros k Hk; rewrite rd_in by (rewrite (proj1 Hh); lia); f_equal; by apply (holds_get _ _ _ _ Hh)).
  rewrite path_of_snoc. destruct Hr as [->|[-> ->]].
  - replace (path_of cs ++ 47 :: d) with ((path_of cs ++ [47]) ++ d) by (by rewrite <- app_assoc).
    rewrite <- append_name with (nm := nm); [|apply Hh|rewrite length_app; cbn [length]; lia|done].
    replace (zlen (path_of cs ++ [47])) with (zlen (path_of cs) + 1) by (rewrite length_app; cbn [length]; lia).
    destruct (list_snoc_cases cs) as [->|(cs' & c & ->)].
    + rewrite (Hrd 1) by (simpl; lia). change (zlen (path_of [])) with 2 in *. cbn [Z.eqb Pos.eqb]. rewrite bind_Ok. change (get (path_of []) 1 =? 58) with true. cbn [andb]. rewrite Hw. done.
    + apply Forall_app in Hg as [Hg' Hc]. apply Forall_cons_1 in Hc as [Hc _].
      destruct (path_of_last cs' c Hc) as (_ & L1 & L2).
      assert (2 < zlen (path_of (cs' ++ [c]))).
      { rewrite path_of_snoc, length_app. pose proof (path_of_length cs' Hg'). simpl. lia. }
      destruct (Z.eqb_spec (zlen (path_of (cs' ++ [c]))) 2); [lia|]. rewrite bind_Ok. cbn [andb].
      destruct (Z.ltb_spec 0 (zlen (path_of (cs' ++ [c])))); [|lia]. rewrite Hrd by lia. rewrite bind_Ok.
      destruct (Z.eqb_spec (get (path_of (cs' ++ [c])) (zlen (path_of (cs' ++ [c])) - 1)) 47); [done|].
      destruct (Z.eqb_spec (get (path_of (cs' ++ [c])) (zlen (path_of (cs' ++ [c])) - 1)) 58); [done|].
      cbn [negb andb]. rewrite Hw, !bind_Ok. done.
  - change (path_of [] ++ 47 :: d) with ([48; 58; 47] ++ d).
    rewrite <- append_name with (nm := nm); [|apply Hh|done|done].
    change (zlen [48; 58; 47]) with 3 in *. cbn [Z.eqb Pos.eqb]. rewrite bind_Ok. cbn [andb Z.ltb Z.compare].
    rewrite Hrd by lia. rewrite bind_Ok. simpl. rewrite Hf. done.
Qed.

(** The search for the last separator. *)
Lemma last_slash_spec fuel path i k :
  2 <= k <= i -> i < zlen path -> get path k = 47 -> (forall j, k < j <= i -> get path j <> 47) ->
  i - k < Z.of_nat fuel -> last_slash fuel path i = Ok k.
Proof.
  revert i. induction fuel as [|f IH]; intros i Hk Hi Hs Hn Hf; [lia|]. cbn [last_slash].
  destruct (Z.ltb_spec 2 i); [|f_equal; lia]. rewrite rd_in by lia. rewrite bind_Ok.
  destruct (decide (i = k)) as [->|N]; [by rewrite Hs|].
  destruct (Z.eqb_spec (get path i) 47) as [E|_]; [by destruct (Hn i ltac:(lia))|]. simpl.
  apply IH; [lia..|done| |lia]. intros j Hj. apply Hn. lia.
Qed.

Lemma go_up_spec buf cs p :
  holds buf 128 p -> represents cs p -> Forall good_name cs ->
  exists buf' p', explorer_go_up buf = Ok buf' /\ holds buf' 128 p' /\ represents (removelast cs) p'.
Proof.
  intros Hh Hr Hg. pose proof (holds_len _ _ _ Hh) as Hl. unfold explorer_go_up.
  rewrite (holds_strlen _ _ _ Hh) by lia. rewrite bind_Ok.
  destruct Hr as [->|[-> ->]].
  - destruct (list_snoc_cases cs) as [->|(cs' & c & ->)].
    { exists buf, (path_of []). split; [done|]. split; [done|]. by left. }
    apply Forall_app in Hg as [Hg' Hc]. apply Forall_cons_1 in Hc as [Hc _].
    destruct (path_of_last cs' c Hc) as (_ & L1 & _). destruct (path_of_length cs' Hg') as [P2 PE].
    rewrite removelast_last. rewrite path_of_snoc in *. set (q := path_of cs') in *.
    assert (zlen (q ++ 47 :: c) = zlen q + 1 + zlen c) as El by (rewrite length_app; simpl; lia).
    assert (0 < zlen c) by (destruct Hc; destruct c; simpl; [done|lia]).
    assert (forall j, 0 <= j < zlen (q ++ 47 :: c) -> get buf j = get (q ++ 47 :: c) j) as Hget
      by (intros; by apply (holds_get _ _ _ _ Hh)).
    assert (get buf (zlen q) = 47) as Hk.
    { rewrite Hget by lia. rewrite get_app_r by lia. by rewrite Z.sub_diag. }
    assert (forall j, zlen q < j <= zlen (q ++ 47 :: c) - 1 -> get buf j <> 47) as Hno.
    { intros j Hj. rewrite Hget by lia. rewrite get_app_r by lia.
      destruct Hc as [_ Hc]. unfold get. replace (Z.to_nat (j - zlen q)) with (S (Z.to_nat (j - zlen q - 1))) by lia.
      cbn [nth]. rewrite Forall_forall in Hc. apply Hc. apply list_elem_of_In, nth_In. lia. }
    destruct (Z.leb_spec (zlen (q ++ 47 :: c)) 2); [lia|]. rewrite rd_in by (rewrite (proj1 Hh); lia). rewrite bind_Ok.
    rewrite (Hget (zlen (q ++ 47 :: c) - 1) ltac:(lia)). destruct (Z.eqb_spec (get (q ++ 47 :: c) (zlen (q ++ 47 :: c) - 1)) 47); [done|].
    rewrite bind_Ok. rewrite (last_slash_spec _ _ _ (zlen q)); [|lia|rewrite (proj1 Hh); lia|done|done|pose proof (proj1 Hh); lia].
    rewrite bind_Ok, rd_in by (rewrite (proj1 Hh); lia). rewrite bind_Ok, Hk. cbn [Z.eqb Pos.eqb].
    destruct (Z.eqb_spec (zlen q) 2) as [E|N].
    + destruct (wr_trunc buf 128 _ 3 Hh ltac:(lia)) as (b & Hw & Hb). exists b, [48; 58; 47]. split; [done|].
      assert (cs' = []) as -> by auto. split; [exact Hb|]. by right.
    + destruct (wr_trunc buf 128 _ (zlen q) Hh ltac:(lia)) as (b & Hw & Hb). exists b, q. split; [done|].
      rewrite Nat2Z.id, take_app_length in Hb. split; [done|]. by left.
  - change (zlen [48; 58; 47]) with 3 in *. cbn [Z.leb Z.compare].
    rewrite rd_in by (rewrite (proj1 Hh); lia). rewrite bind_Ok, (holds_get _ _ _ _ Hh) by (simpl; lia).
    change (get [48; 58; 47] (3 - 1) =? 47) with true. cbv iota.
    destruct (wr_trunc buf 128 _ 2 Hh ltac:(simpl; lia)) as (b & Hw & Hb). change (3 - 1) with 2. rewrite Hw, !bind_Ok.
    change (take (Z.to_nat 2) [48; 58; 47]) with [48; 58] in Hb.
    exists b, [48; 58]. split; [|split; [done|by left]].
    change (2 - 1) with 1. cbv beta iota. assert (last_slash (S (length b)) b 1 = Ok 1) as -> by done. rewrite bind_Ok, rd_in by (rewrite (proj1 Hb); lia).
    rewrite bind_Ok, (holds_get _ _ _ _ Hb) by (simpl; lia). done.
Qed.

(** C34: the path array implements a stack of directory names: a click on the
    directory [d] makes it the path of the child [cs ++ [d]] (and overruns the
    array exactly when that path needs more than 127 bytes), and ".." makes it
    the path of the parent, the root staying the root, in either of its two
    spellings. *)
Theorem navigation_refines (buf : list Z) (cs : list (list Z)) (p nm d : list Z) :
  holds buf 128 p -> represents cs p -> Forall good_name cs -> good_name d -> until_nul nm = Some d ->
  (if zlen (path_of (cs ++ [d])) <? 128
   then exists buf', enter_directory buf nm = Ok buf' /\ holds buf' 128 (path_of (cs ++ [d]))
   else enter_directory buf nm = Fault) /\
  (exists buf' p', explorer_go_up buf = Ok buf' /\ holds buf' 128 p' /\ represents (removelast cs) p').
Proof.
  intros Hh Hr Hg Hd Hn. split; [|by apply (go_up_spec _ _ p)].
  rewrite (enter_spec buf cs p nm d) by done.
  destruct (Z.ltb_spec (zlen (path_of (cs ++ [d]))) 128); [|done]. eexists. split; [done|].
  apply holds_filled; [apply Hh| |done]. unfold path_of. apply Forall_app. split; [by repeat constructor|].
  apply Forall_concat, Forall_fmap, Forall_app. unfold good_name, good_char in *.
  split; [|apply Forall_singleton].
  - eapply Forall_impl; [exact Hg|]. intros x [_ Hx]. constructor; [done|]. eapply Forall_impl; [exact Hx|tauto].
  - constructor; [done|]. eapply Forall_impl; [apply Hd|tauto].
Qed.

Lemma navigation_refines_witness :
  exists buf' p', explorer_go_up (filled (replicate 128 0) (bytes "0:/DOCS")) = Ok buf' /\
    holds buf' 128 p' /\ represents [] p'.
Proof.
  refine (proj2 (navigation_refines (filled (replicate 128 0) (bytes "0:/DOCS")) [bytes "DOCS"]
    (bytes "0:/DOCS") (lit "SUB") (bytes "SUB") _ _ _ _ _)).
  - split; vm_compute; reflexivity.
  - left. vm_compute. reflexivity.
  - constructor; [|constructor]. split; [vm_compute; discriminate|]. vm_compute bytes. unfold good_char. repeat (constructor; [lia|]). constructor.
  - split; [vm_compute; discriminate|]. vm_compute bytes. unfold good_char. repeat (constructor; [lia|]). constructor.
  - vm_compute. reflexivity.
Defined.

(** ** The listing *)

(** Well-formed arrays: 32 entries with 64-byte names, of which the first
    [current_item_count] hold strings. *)
Record nav_ok (n : nav) : Prop := {
  no_items : length (current_dir_items n) = 32%nat;
  no_names : Forall (fun e => zlen (name e) = 64) (current_dir_items n);
  no_count : 0 <= current_item_count n <= 32;
  no_strs : forall k e, Z.of_nat k < current_item_count n -> current_dir_items n !! k = Some e ->
    exists str, until_nul (name e) = Some str
}.

(** An entry of the view shows an entry of the directory: names are cut to
    63 bytes. *)
Definition shows (e : FileEntry) (f : FILINFO) : Prop :=
  holds (name e) 64 (take 63 (fname f)) /\ size e = fsize f /\ is_directory e = if is_dir f then 1 else 0.

(** The entries that are listed: the first [room] other than ".". *)
Definition not_dot (f : FILINFO) : bool := negb (bool_decide (fname f = [46])).
Definition listed (room : nat) (l : list FILINFO) : list FILINFO := take room (List.filter not_dot l).

Lemma copy_name_spec k nm item w :
  Forall (fun c => c <> 0) nm -> zlen w + Z.of_nat k < zlen item ->
  copy_name k nm (filled item w) (zlen w) = Ok (filled item (w ++ take k nm ++ [0])).
Proof.
  revert nm w. induction k as [|k IH]; intros nm w Hn Hl.
  - destruct nm; simpl; rewrite filled_wr by lia; done.
  - destruct nm as [|c nm]; cbn [copy_name take]; [rewrite filled_wr by lia; done|].
    inversion Hn; subst. destruct (Z.eqb_spec c 0); [done|]. cbn [negb].
    rewrite filled_wr by lia. rewrite bind_Ok.
    replace (zlen w + 1) with (zlen (w ++ [c])) by (rewrite length_app; simpl; lia).
    rewrite IH; [|done|rewrite length_app; simpl; lia]. by rewrite <- app_assoc.
Qed.

Lemma copy_name_holds nm item :
  Forall (fun c => c <> 0) nm -> zlen item = 64 ->
  exists d, copy_name 63 nm item 0 = Ok d /\ holds d 64 (take 63 nm).
Proof.
  intros Hn Hi. pose proof (copy_name_spec 63 nm item [] Hn ltac:(simpl; lia)) as Hc.
  change (filled item []) with item in Hc. change (zlen (@nil Z)) with 0 in Hc. cbn [app] in Hc.
  eexists. split; [exact Hc|]. apply holds_filled; [done|by apply Forall_take|rewrite length_take; lia].
Qed.

(** The tests of the loop on a delivered name. *)
Lemma dot_test (f : FILINFO) :
  fname f <> [] -> Forall (fun c => c <> 0) (fname f) ->
  (get (fname f) 0 =? 0) = false /\
  ((get (fname f) 0 =? 46) && (get (fname f) 1 =? 0)) = negb (not_dot f).
Proof.
  intros Hne Hz. unfold not_dot, get. rewrite negb_involutive. destruct (fname f) as [|c nm]; [done|].
  inversion Hz as [|? ? Hc Hr]; subst. change (Z.to_nat 0) with 0%nat. change (Z.to_nat 1) with 1%nat. cbn [nth].
  split; [by apply Z.eqb_neq|]. destruct nm as [|c2 nm]; cbn [nth].
  - rewrite andb_true_r. destruct (Z.eqb_spec c 46) as [->|N]; [done|].
    rewrite bool_decide_eq_false_2; [done|]. by intros [= ->].
  - inversion Hr; subst. destruct (Z.eqb_spec c2 0); [done|]. rewrite andb_false_r, bool_decide_eq_false_2; [done|].
    by intros [=].
Qed.

Section Listing.
#[local] Set Default Proof Using "All".
Context {V : Type} `{DirLaws V}.
Context (Hmedia : dir_media_ok V).

Lemma populate_loop_spec l : forall fuel dir items c v,
  stream v dir = Some l -> length items = 32%nat -> Forall (fun e => zlen (name e) = 64) items ->
  Forall (fun e => fname e <> [] /\ Forall (fun c => c <> 0) (fname e)) l ->
  (c <= 32)%nat -> (length l < fuel)%nat ->
  exists items' v', populate_loop fuel dir items (Z.of_nat c) v =
      Ok (items', Z.of_nat (c + length (listed (32 - c) l)), v') /\
    length items' = 32%nat /\ Forall (fun e => zlen (name e) = 64) items' /\
    (forall q, listing v' q = listing v q) /\
    (forall j, (j < c)%nat -> items' !! j = items !! j) /\
    (forall j f, listed (32 - c) l !! j = Some f -> exists e, items' !! (c + j)%nat = Some e /\ shows e f).
Proof.
  induction l as [|x l IH]; intros fuel dir items c v Hs Hi Hn Hl Hc Hf;
    (destruct fuel as [|fuel]; [cbn [length] in Hf; lia|]); cbn [populate_loop].
  all: unfold MAX_FILES_PER_DIR; destruct (Z.ltb_spec (Z.of_nat c) 32);
    [|exists items, v; replace (32 - c)%nat with 0%nat by lia; unfold listed; rewrite take_0, Nat.add_0_r; done].
  all: destruct (readdir_ok dir v _ Hmedia Hs) as (e & v1 & -> & Hq & Hd).
  - rewrite Hd. exists items, v1. unfold listed. cbn [List.filter]. rewrite take_nil. cbn [length]. rewrite Nat.add_0_r. done.
  - destruct Hd as [-> Hs1]. inversion Hl as [|? ? [Hne Hz] Hl']; subst.
    destruct (dot_test x Hne Hz) as [-> ->]. cbn [Z.eqb negb FR_OK]. cbn [length] in Hf.
    unfold listed. cbn [List.filter]. destruct (not_dot x); cbn [negb].
    + destruct (lookup_lt_is_Some_2 items c) as [it Hit]; [lia|]. rewrite Nat2Z.id, Hit. cbn [or_fault]. rewrite bind_Ok.
      assert (zlen (name it) = 64) as Hl64 by (apply (Forall_lookup_1 _ _ _ _ Hn Hit)).
      destruct (copy_name_holds (fname x) (name it) Hz Hl64) as (d & -> & Hd). rewrite bind_Ok.
      set (it' := mk_entry d (fsize x) _).
      replace (Z.of_nat c + 1) with (Z.of_nat (S c)) by lia.
      destruct (IH fuel dir (<[c := it']> items) (S c) v1) as (items' & v' & Hrun & L1 & L2 & L3 & L4 & L5);
        [done|by rewrite length_insert|apply Forall_insert; [done|apply Hd]|done|lia|lia|].
      exists items', v'. replace (32 - c)%nat with (S (32 - S c)) by lia. cbn [take length].
      rewrite Hrun. unfold listed. split; [do 3 f_equal; lia|]. split; [done|]. split; [done|].
      split; [intros q; by rewrite L3|]. split.
      * intros j Hj. rewrite L4 by lia. apply list_lookup_insert_ne. lia.
      * intros [|j] f Hj.
        -- injection Hj as <-. exists it'. rewrite Nat.add_0_r, L4 by lia. rewrite list_lookup_insert_eq by lia.
           split; [done|]. split; [apply Hd|done].
        -- destruct (L5 j f Hj) as (e & He & Hsh). exists e. split; [|done]. rewrite <- He. f_equal. lia.
    + destruct (IH fuel dir items c v1) as (items' & v' & Hrun & L1 & L2 & L3 & L4 & L5); [done..|lia|].
      exists items', v'. split; [done|]. split; [done|]. split; [done|]. split; [|done]. intros q. by rewrite L3.
Qed.

Lemma populate_spec (s : nav) (v : V) (p : list Z) (l : list FILINFO) (fuel : nat) :
  nav_ok s -> holds (current_path s) 128 p -> listing v p = Some l -> (length l < fuel)%nat ->
  exists s' v', populate_directory fuel s v = Ok (s', v') /\
    nav_ok s' /\ current_path s' = current_path s /\
    current_item_count s' = zlen (listed 32 l) /\
    (forall j f, listed 32 l !! j = Some f ->
       exists e, current_dir_items s' !! j = Some e /\ shows e f) /\
    (forall q, listing v' q = listing v q).
Proof.
  intros [Hi Hn Hc Hs] [_ Hp] Hl Hf. unfold populate_directory. rewrite Hp.
  pose proof (opendir_law p v) as L. destruct (f_opendir p v) as [[r dir] v1]. rewrite Hl in L.
  destruct L as (Lq & -> & Hst). cbn [Z.eqb negb FR_OK].
  destruct (populate_loop_spec l fuel dir (current_dir_items s) 0 v1 Hst Hi Hn (name_law v p l Hl) ltac:(lia) Hf)
    as (items' & v' & Hrun & L1 & L2 & L3 & _ & L5). change (Z.of_nat 0) with 0 in Hrun. rewrite Hrun, bind_Ok.
  change (32 - 0)%nat with 32%nat in *. cbn [Nat.add] in *.
  eexists _, _. split; [done|]. cbn [current_path current_item_count current_dir_items].
  split; [|split; [done|]; split; [done|]; split; [exact L5|]; intros q; by rewrite closedir_law, L3].
  assert (length (listed 32 l) <= 32)%nat by (unfold listed; rewrite length_take; lia).
  split; cbn [current_path current_item_count current_dir_items]; [done|done|lia|].
  intros k e Hk He. destruct (lookup_lt_is_Some_2 (listed 32 l) k) as [f Hf']; [lia|].
  destruct (L5 k f Hf') as (e' & He' & [_ Hu] & _). rewrite He in He'. injection He' as <-. eauto.
Qed.

(** On a readable directory [populate_directory] returns and the view
    shows, in order, the first 32 entries other than ".", each with its name
    cut to 63 bytes and terminated, its size and its kind; the path and the
    volume's directories are unchanged. *)
Theorem populate_directory_lists (s : nav) (v : V) (p : list Z) (l : list FILINFO) (fuel : nat) :
  nav_ok s -> holds (current_path s) 128 p -> listing v p = Some l -> (length l < fuel)%nat ->
  exists s' v', populate_directory fuel s v = Ok (s', v') /\
    nav_ok s' /\ current_path s' = current_path s /\
    current_item_count s' = zlen (listed 32 l) /\
    (forall j f, listed 32 l !! j = Some f ->
       exists e, current_dir_items s' !! j = Some e /\ shows e f) /\
    (forall q, listing v' q = listing v q).
Proof. apply populate_spec. Qed.

End Listing.

(** A directory of three entries, the first of them ".". *)
Definition demo_dir : dirfs :=
  mk_dirfs {[ bytes "0:" := [mk_filinfo (bytes ".") true 0; mk_filinfo (bytes "NOTES.TXT") false 41;
                             mk_filinfo (bytes "SUB") true 0] ]} ∅ 0.

Lemma nav_ok_boot : nav_ok (ex_nav explorer_boot).
Proof.
  split; cbn [explorer_boot ex_nav current_dir_items current_item_count].
  - by rewrite length_replicate.
  - apply Forall_replicate. done.
  - lia.
  - lia.
Qed.

Lemma populate_directory_lists_witness :
  exists s' v', populate_directory 10 (ex_nav explorer_boot) demo_dir = Ok (s', v') /\
    current_item_count s' = 2.
Proof.
  destruct (populate_directory_lists dirfs_media_ok (ex_nav explorer_boot) demo_dir (bytes "0:")
    [mk_filinfo (bytes ".") true 0; mk_filinfo (bytes "NOTES.TXT") false 41; mk_filinfo (bytes "SUB") true 0] 10)
    as (s' & v' & Hr & _ & _ & Hc & _).
  - exact nav_ok_boot.
  - split; vm_compute; reflexivity.
  - vm_compute. reflexivity.
  - simpl. lia.
  - exists s', v'. split; [exact Hr|]. rewrite Hc. reflexivity.
Defined.

(** ** Safety of a frame *)

(** The arrays hold strings and the path is not empty. *)
Record ex_ok (s : explorer) : Prop := {
  eo_nav : nav_ok (ex_nav s);
  eo_path : exists p, holds (current_path (ex_nav s)) 128 p /\ p <> [];
  eo_target : exists t, holds (target_item_name (ex_menu s)) 64 t;
  eo_input : exists t, holds (op_input_buffer (ex_dlg s)) 64 t
}.

(** The path of the entry [d] of the directory [p], as FatFs receives it. *)
Definition full_name (p d : list Z) : list Z := p ++ (if get p (zlen p - 1) =? 58 then [] else [47]) ++ d.

(** [build_full_path] into a 256-byte array: the path when it has at most 255
    bytes, and an overrun otherwise. *)
Lemma build_full_path_exact out base N p nm d :
  zlen out = 256 -> holds base N p -> N <= 256 -> p <> [] -> until_nul nm = Some d ->
  if zlen (full_name p d) <? 256 then exists b, build_full_path out base nm = Ok b /\ holds b 256 (full_name p d)
  else build_full_path out base nm = Fault.
Proof.
  intros Ho Hb HN Hp Hn. pose proof (holds_len _ _ _ Hb) as Hl. pose proof (proj1 Hb) as Hbl.
  assert (0 < zlen p) as Hp0 by (destruct p; [done|simpl; lia]).
  pose proof (until_nul_nz _ _ (proj2 Hb)) as Hz. pose proof (until_nul_nz _ _ Hn) as Hzd.
  set (sep := if get p (zlen p - 1) =? 58 then [] else [47]). change (full_name p d) with (p ++ sep ++ d).
  assert (Forall (fun c => c <> 0) sep /\ zlen (p ++ sep) <= 256) as [Hsz Hsl]
    by (unfold sep; rewrite length_app; destruct (_ =? 58); split; [constructor|simpl; lia|by repeat constructor|simpl; lia]).
  assert (build_full_path out base nm = copy_term nm (filled out (p ++ sep)) (zlen (p ++ sep))) as ->.
  { unfold build_full_path. change out with (filled out []) at 1. change 0 with (zlen (@nil Z)) at 1.
    rewrite (copy_str_filled base p) by (apply Hb || simpl; lia). rewrite bind_Ok. cbn [app fst snd].
    rewrite rd_in by lia. rewrite bind_Ok, (holds_get _ _ _ _ Hb) by lia.
    unfold sep. destruct (_ =? 58); cbn [negb]; [by rewrite bind_Ok, app_nil_r|]. rewrite filled_wr by lia. rewrite !bind_Ok. cbn [fst snd]. f_equal. rewrite length_app. simpl. lia. }
  rewrite app_assoc. destruct (Z.ltb_spec (zlen ((p ++ sep) ++ d)) 256) as [Hf|Hf]; rewrite length_app in Hf.
  - rewrite (copy_term_filled nm d) by (done || lia). eexists. split; [done|]. rewrite (app_assoc (p ++ sep)).
    apply holds_filled; [done|by rewrite !Forall_app|rewrite length_app; lia].
  - apply (copy_term_overflow nm d); [done|lia..].
Qed.

Lemma build_full_path_ok out base p nm d :
  zlen out = 256 -> holds base 128 p -> p <> [] -> until_nul nm = Some d -> zlen d < 64 ->
  exists b, build_full_path out base nm = Ok b /\ holds b 256 (full_name p d).
Proof.
  intros Ho Hb Hp Hn Hd. pose proof (holds_len _ _ _ Hb) as Hl. pose proof (build_full_path_exact out base 128 p nm d Ho Hb ltac:(lia) Hp Hn) as E.
  rewrite (proj2 (Z.ltb_lt _ _)) in E; [done|]. unfold full_name. rewrite !length_app. destruct (_ =? 58); simpl; lia.
Qed.

Lemma full_name_ne p d : p <> [] -> full_name p d <> [].
Proof. intros Hp. unfold full_name. by destruct p. Qed.

Lemma last_slash_total fuel path i :
  1 <= i < zlen path -> i < Z.of_nat fuel ->
  exists k, last_slash fuel path i = Ok k /\ k <= i /\ (2 <= k \/ k = i).
Proof.
  revert i. induction fuel as [|f IH]; intros i Hi Hf; [lia|]. cbn [last_slash].
  destruct (Z.ltb_spec 2 i); [|exists i; split; [done|lia]]. rewrite rd_in by lia. rewrite bind_Ok.
  destruct (negb _); [|exists i; split; [done|lia]].
  destruct (IH (i - 1)) as (k & Hk & Hle & Hc); [lia..|]. exists k. split; [done|lia].
Qed.

Lemma take_nonempty (p : list Z) k : p <> [] -> 0 < k -> take (Z.to_nat k) p <> [].
Proof. intros Hp Hk. destruct p; [done|]. destruct (Z.to_nat k) eqn:E; [lia|done]. Qed.

Lemma go_up_total buf p :
  holds buf 128 p -> p <> [] ->
  exists buf' p', explorer_go_up buf = Ok buf' /\ holds buf' 128 p' /\ p' <> [] /\ zlen p' <= zlen p.
Proof.
  intros Hh Hp. pose proof (holds_len _ _ _ Hh) as Hl. unfold explorer_go_up.
  rewrite (holds_strlen _ _ _ Hh) by lia. rewrite bind_Ok.
  destruct (Z.leb_spec (zlen p) 2); [by exists buf, p|]. rewrite rd_in by (rewrite (proj1 Hh); lia). rewrite bind_Ok.
  assert (exists b len, (if get buf (zlen p - 1) =? 47 then p0 ← wr buf (zlen p - 1) 0; Ok (p0, zlen p - 1) else Ok (buf, zlen p)) = Ok (b, len) /\
    exists p1, holds b 128 p1 /\ zlen p1 = len /\ p1 <> [] /\ 2 <= len <= zlen p) as (b & len & -> & p1 & H1 & El & Hp1 & Hlen).
  { destruct (get buf (zlen p - 1) =? 47).
    - destruct (wr_trunc buf 128 p (zlen p - 1) Hh ltac:(lia)) as (b & -> & Hb). rewrite bind_Ok.
      exists b, (zlen p - 1). split; [done|]. exists (take (Z.to_nat (zlen p - 1)) p).
      split; [done|]. split; [rewrite length_take; lia|]. split; [apply take_nonempty; [done|lia]|lia].
    - exists buf, (zlen p). split; [done|]. exists p. split; [done|]. split; [done|]. split; [done|lia]. }
  rewrite bind_Ok. cbv iota. pose proof (proj1 H1) as Hb1.
  destruct (last_slash_total (S (length b)) b (len - 1)) as (k & -> & Hk & Hc); [lia..|]. rewrite bind_Ok.
  rewrite rd_in by lia. rewrite bind_Ok.
  destruct (get b k =? 47); [|by exists b, p1; rewrite El; split_and!; [..|lia]].
  destruct (Z.eqb_spec k 2).
  - destruct (wr_trunc b 128 p1 3 H1 ltac:(lia)) as (b' & -> & Hb'). exists b', (take (Z.to_nat 3) p1).
    split; [done|]. split; [done|]. split; [apply take_nonempty; [done|lia]|rewrite length_take; lia].
  - destruct (wr_trunc b 128 p1 k H1 ltac:(lia)) as (b' & -> & Hb'). exists b', (take (Z.to_nat k) p1).
    split; [done|]. split; [done|]. split; [apply take_nonempty; [done|lia]|rewrite length_take; lia].
Qed.

(** The path of the child [d] of the directory [p], as a click writes it. *)
Definition child (p d : list Z) : list Z :=
  let last := get p (zlen p - 1) in
  p ++ (if (zlen p =? 2) && (last =? 58) || negb ((last =? 47) || (last =? 58)) then [47] else []) ++ d.

(** A click on a directory: the path of the child when it has at most 127
    bytes, and an overrun of the array otherwise. *)
Lemma enter_exact buf p nm d :
  holds buf 128 p -> p <> [] -> until_nul nm = Some d ->
  if zlen (child p d) <? 128 then exists buf', enter_directory buf nm = Ok buf' /\ holds buf' 128 (child p d)
  else enter_directory buf nm = Fault.
Proof.
  intros Hh Hp Hn. pose proof (holds_len _ _ _ Hh) as Hl. unfold enter_directory. rewrite (holds_strlen _ _ _ Hh) by lia. rewrite bind_Ok.
  pose proof (proj1 Hh) as Hb. pose proof (until_nul_nz _ _ (proj2 Hh)) as Hz. pose proof (until_nul_nz _ _ Hn) as Hzd.
  assert (0 < zlen p) as Hp0 by (destruct p; [done|simpl; lia]).
  assert (wr buf (zlen p) 47 = Ok (filled buf (p ++ [47]))) as Hw
    by (rewrite <- (holds_as_filled _ _ _ Hh) at 1; apply filled_wr; lia).
  assert (rd buf (zlen p - 1) = Ok (get p (zlen p - 1))) as Hr by (rewrite rd_in by lia; f_equal; apply (holds_get _ _ _ _ Hh); lia).
  set (sep := if (zlen p =? 2) && (get p (zlen p - 1) =? 58) || negb ((get p (zlen p - 1) =? 47) || (get p (zlen p - 1) =? 58)) then [47] else []).
  assert (Forall (fun c => c <> 0) sep /\ zlen (p ++ sep) <= 128) as [Hsz Hsl]
    by (unfold sep; rewrite length_app; destruct (_ || _); split; [by repeat constructor|simpl; lia|constructor|simpl; lia]).
  match goal with |- if _ then exists b, ?m = Ok b /\ _ else _ =>
    assert (m = copy_term nm (filled buf (p ++ sep)) (zlen (p ++ sep))) as -> end.
  { assert (zlen (p ++ [47]) = zlen p + 1) as E1 by (rewrite length_app; simpl; lia).
    assert (exists c1, (if zlen p =? 2 then rd buf 1 else Ok 0) = Ok c1 /\ (zlen p = 2 -> c1 = get p (zlen p - 1))) as (c1 & -> & Hc1).
    { destruct (Z.eqb_spec (zlen p) 2) as [E2|]; [|by exists 0; split; [|lia]]. exists (get p (zlen p - 1)). split; [|done]. rewrite <- Hr. by rewrite E2. }
    rewrite bind_Ok. unfold sep. destruct (Z.eqb_spec (zlen p) 2) as [E2|N2]; cbn [andb orb].
    - rewrite <- (Hc1 E2). destruct (Z.eqb_spec c1 58) as [E3|N3]; cbn [andb orb]; [by rewrite Hw, bind_Ok, E1|].
      rewrite (proj2 (Z.ltb_lt 0 _)), Hr by lia. rewrite bind_Ok, <- (Hc1 E2), (proj2 (Z.eqb_neq c1 58) N3), orb_false_r, andb_true_r.
      destruct (c1 =? 47); cbn [negb]; [rewrite app_nil_r, (holds_as_filled _ _ _ Hh); done|by rewrite Hw, bind_Ok, E1].
    - rewrite (proj2 (Z.ltb_lt 0 _)), Hr by lia. rewrite bind_Ok, <- negb_orb. destruct ((get p (zlen p - 1) =? 47) || (get p (zlen p - 1) =? 58)); cbn [negb]; [rewrite app_nil_r, (holds_as_filled _ _ _ Hh); done|by rewrite Hw, bind_Ok, E1]. }
  rewrite (append_name buf (p ++ sep) nm d) by done. change (child p d) with (p ++ sep ++ d). rewrite <- app_assoc.
  destruct (Z.ltb_spec (zlen (p ++ sep ++ d)) 128); [|done]. eexists. split; [done|]. apply holds_filled; [done| |done]. by rewrite !Forall_app.
Qed.

Lemma child_ne p d : p <> [] -> child p d <> [].
Proof. intros Hp. unfold child. by destruct p. Qed.

(** What a frame may assume of Nuklear and of the stack: edited texts fit
    their field (Nuklear is told its size), the path arrays have 256 bytes,
    and one click presses one button. *)
Definition text_ok (t : list Z) : Prop := zlen t < 64 /\ Forall (fun c => c <> 0) t.

Record in_ok (i : ex_in) : Prop := {
  io_rename : text_ok (d_text (in_rename i));
  io_mkdir : text_ok (d_text (in_mkdir i));
  io_a : zlen (stack_a i) = 256;
  io_b : zlen (stack_b i) = 256;
  io_click : forall j k, item_clicked i j = true -> item_clicked i k = true -> j = k
}.

Lemma display_name_ok e str : until_nul (name e) = Some str -> zlen str < 64 -> exists b, display_name e = Ok b.
Proof.
  intros Hn Hl. unfold display_name. set (pre := if truth (is_directory e) then _ else _).
  assert (exists w, until_nul (lit pre) = Some w /\ zlen w = 7) as (w & Hw & Lw)
    by (unfold pre; destruct (truth _); eexists; (split; [reflexivity|reflexivity])).
  clearbody pre. change (replicate 90 0) with (filled (replicate 90 0) []) at 1. change 0 with (zlen (@nil Z)) at 2.
  rewrite (copy_str_filled _ w) by (done || rewrite length_replicate; simpl; lia). rewrite bind_Ok. cbn [app fst snd].
  rewrite (copy_str_filled _ str) by (done || rewrite length_replicate; lia). rewrite bind_Ok. eauto.
Qed.

(** The directory entry that is clicked in this frame, in the listing [n], has
    a path under [q] that does not fit the 128-byte array. *)
Definition too_deep (i : ex_in) (n : nav) (q : list Z) : Prop :=
  exists k e d, 0 <= k < current_item_count n /\ item_clicked i k = true /\ current_dir_items n !! Z.to_nat k = Some e /\
    truth (is_directory e) = true /\ until_nul (name e) = Some d /\ 128 <= zlen (child q d).

Section Rows.
#[local] Set Default Proof Using "All".
Context (i : ex_in) (Hin : in_ok i) (n0 : nav) (Hnav : nav_ok n0) (q : list Z).

(** The state of the row loop before row [k]: the path is [q] until a row is
    clicked. *)
Definition row_inv (k : Z) (st : nav * cmenu * bool) : Prop :=
  let '(n, m, _) := st in
  current_dir_items n = current_dir_items n0 /\ current_item_count n = current_item_count n0 /\
  (exists t, holds (target_item_name m) 64 t) /\
  exists p, holds (current_path n) 128 p /\ p <> [] /\ (p = q \/ exists j, j < k /\ item_clicked i j = true).

Lemma item_row_cases k st :
  0 <= k < current_item_count n0 -> row_inv k st ->
  (exists st', item_row i k st = Ok st' /\ row_inv (k + 1) st') \/ (item_row i k st = Fault /\ too_deep i n0 q).
Proof.
  destruct st as [[n m] hov]. intros Hk (Ei & Ec & [t Ht] & p & Hp & Hne & Hroom).
  destruct (lookup_lt_is_Some_2 (current_dir_items n0) (Z.to_nat k)) as [e He].
  { rewrite (no_items _ Hnav). pose proof (no_count _ Hnav). lia. }
  destruct (no_strs _ Hnav (Z.to_nat k) e ltac:(lia) He) as [d Hd].
  assert (zlen (name e) = 64) as Hl64 by (apply (Forall_lookup_1 _ _ _ _ (no_names _ Hnav) He)).
  assert (zlen d < 64) as Hdl by (apply (holds_len (name e)); done).
  unfold item_row. rewrite Ei, He. cbn [or_fault]. rewrite bind_Ok.
  destruct (display_name_ok e d Hd Hdl) as [lbl ->]. rewrite bind_Ok.
  set (click := if item_clicked i k && truth (is_directory e)
      then p0 ← enter_directory (current_path n) (name e); Ok (set_path p0 n) else Ok n).
  assert ((exists n1, click = Ok n1 /\
    current_dir_items n1 = current_dir_items n0 /\ current_item_count n1 = current_item_count n0 /\
    exists p, holds (current_path n1) 128 p /\ p <> [] /\ (p = q \/ exists j, j < k + 1 /\ item_clicked i j = true)) \/
    (click = Fault /\ too_deep i n0 q)) as [(n1 & -> & E1 & E2 & P1)|[-> Hdeep]]; [| |right; by split].
  { subst click. destruct (item_clicked i k) eqn:Ek; cbn [andb].
    - destruct (truth (is_directory e)) eqn:Et.
      + destruct Hroom as [->|(j & Hj & Ej)]; [|pose proof (io_click _ Hin j k Ej Ek); lia].
        pose proof (enter_exact _ q (name e) d Hp Hne Hd) as He'. destruct (Z.ltb_spec (zlen (child q d)) 128) as [Hs|Hs].
        * destruct He' as (b & -> & Hb). left. rewrite bind_Ok. exists (set_path b n). split; [done|]. split; [done|]. split; [done|].
          exists (child q d). split; [done|]. split; [by apply child_ne|]. right. exists k. split; [lia|done].
        * right. rewrite He'. split; [done|]. by exists k, e, d.
      + left. exists n. split; [done|]. split; [done|]. split; [done|]. exists p. split; [done|]. split; [done|].
        right. exists k. split; [lia|done].
    - left. exists n. split; [done|]. split; [done|]. split; [done|]. exists p. split; [done|]. split; [done|].
      destruct Hroom as [?|(j & ? & ?)]; [by left|]. right. exists j. split; [lia|done]. }
  left. rewrite bind_Ok. destruct (item_hovered i k); [|eexists; split; [done|]; split_and!; eauto].
  destruct (right_clicked i).
  - destruct (copy_term_holds (name e) d (target_item_name m) 64 Hd (proj1 Ht) Hdl) as (b & -> & Hb). rewrite !bind_Ok.
    eexists; split; [done|]. split_and!; eauto.
  - rewrite bind_Ok. eexists; split; [done|]. split_and!; eauto.
Qed.

Lemma rows_cases n : forall k st, 0 <= k -> k + Z.of_nat n <= current_item_count n0 -> row_inv k st ->
  (exists st', for_up n k (item_row i) st = Ok st' /\ row_inv (k + Z.of_nat n) st') \/ (for_up n k (item_row i) st = Fault /\ too_deep i n0 q).
Proof.
  induction n as [|n IH]; intros k st Hk Hn Hi; cbn [for_up].
  - left. exists st. split; [done|]. by replace (k + Z.of_nat 0) with k by lia.
  - destruct (item_row_cases k st) as [(st1 & -> & H1)|[-> Hd]]; [lia|done| |by right]. rewrite bind_Ok.
    replace (k + Z.of_nat (S n)) with (k + 1 + Z.of_nat n) by lia. apply IH; [lia|lia|done].
Qed.

End Rows.

Lemma nav_ok_same n n' :
  nav_ok n -> current_dir_items n' = current_dir_items n -> current_item_count n' = current_item_count n -> nav_ok n'.
Proof. intros [? ? ? ?] E1 E2. split; rewrite ?E1, ?E2; done. Qed.

(** The path the rows are shown under: that of the parent after "..". *)
Definition row_path (i : ex_in) (p q : list Z) : Prop := if b_up i then zlen q <= zlen p else q = p.

Lemma main_body_cases i s p :
  in_ok i -> ex_ok s -> holds (current_path (ex_nav s)) 128 p ->
  (exists s', main_body i s = Ok s' /\ ex_ok s') \/
  (main_body i s = Fault /\ g_begin i = true /\ exists q, row_path i p q /\ too_deep i (ex_nav s) q).
Proof.
  intros Hin [Hn (p0 & Hp & Hne) Ht Hi] Hp'. unfold main_body. cbn [ex_nav ex_menu].
  assert (p0 = p) as -> by (destruct Hp, Hp'; congruence). clear Hp'.
  assert (exists n1, (if b_up i then p0 ← explorer_go_up (current_path (ex_nav s)); Ok (set_path p0 (ex_nav s)) else Ok (ex_nav s)) = Ok n1 /\
    current_dir_items n1 = current_dir_items (ex_nav s) /\ current_item_count n1 = current_item_count (ex_nav s) /\
    exists q, holds (current_path n1) 128 q /\ q <> [] /\ row_path i p q) as (n1 & -> & I1 & C1 & q & Hq & Hne1 & Hr1).
  { unfold row_path. destruct (b_up i).
    - destruct (go_up_total _ p Hp Hne) as (b & p' & -> & Hb & Hne' & Hle). rewrite bind_Ok.
      exists (set_path b (ex_nav s)). split; [done|]. split; [done|]. split; [done|]. by exists p'.
    - exists (ex_nav s). split; [done|]. split; [done|]. split; [done|]. by exists p. }
  rewrite bind_Ok. set (n2 := if b_refresh i then explorer_trigger_refresh n1 else n1).
  assert (current_dir_items n2 = current_dir_items (ex_nav s) /\ current_item_count n2 = current_item_count (ex_nav s) /\ current_path n2 = current_path n1) as (I2 & C2 & Ep2)
    by (unfold n2; destruct (b_refresh i); done).
  assert (nav_ok n2) as Hn2 by (by apply (nav_ok_same (ex_nav s))).
  clearbody n2. destruct (g_begin i).
  - pose proof (no_count _ Hn2) as Hc.
    destruct (rows_cases i Hin n2 Hn2 q (Z.to_nat (current_item_count n2)) 0 (n2, ex_menu s, false))
      as [([[n3 m3] hov] & -> & Ei & Ec & Ht3 & p3 & Hp3 & Hne3 & _)|[-> (k & e & dd & Hd)]]; [lia|lia| | |].
    { split; [done|]. split; [done|]. split; [done|]. exists q. rewrite Ep2. split; [done|]. split; [done|]. by left. }
    + left. rewrite bind_Ok. eexists. split; [done|].
      split; cbn [ex_nav ex_menu ex_dlg set_nav set_menu];
        [by apply (nav_ok_same n2)|by exists p3|by destruct (_ && _)|done].
    + right. split; [done|]. split; [done|]. exists q. split; [done|]. exists k, e, dd. by rewrite <- I2, <- C2.
  - left. eexists. split; [done|]. split; cbn [ex_nav ex_menu ex_dlg set_nav]; [done|exists q; by rewrite Ep2|done|done].
Qed.

Lemma context_menu_ok i s : ex_ok s -> exists s', context_menu i s = Ok s' /\ ex_ok s'.
Proof.
  intros [Hn Hp [t Ht] [u Hu]]. unfold context_menu.
  destruct (truth (show_context_menu (ex_menu s)) && _); [|exists s; split; [done|]; split; eauto].
  destruct (negb _).
  - assert (exists s1, (if b_rename i then
        b ← copy_term (target_item_name (ex_menu s)) (op_input_buffer (ex_dlg s)) 0;
        Ok (set_menu (hide_menu (ex_menu s)) (set_dlg (mk_dialogs 1 (show_delete_dialog (ex_dlg s)) (show_mkdir_dialog (ex_dlg s)) b) s))
        else Ok s) = Ok s1 /\ ex_ok s1) as (s1 & -> & H1).
    { destruct (b_rename i); [|exists s; split; [done|]; split; eauto].
      destruct (copy_term_holds _ t (op_input_buffer (ex_dlg s)) 64 (proj2 Ht) (proj1 Hu) (holds_len _ _ _ Ht)) as (b & -> & Hb).
      rewrite bind_Ok. eexists. split; [done|]. split; simpl; eauto. }
    rewrite bind_Ok. destruct (b_delete i); [|eauto]. destruct H1 as [? ? ? ?].
    eexists. split; [done|]. split; simpl; eauto.
  - destruct (b_new i); [|exists s; split; [done|]; split; eauto].
    destruct (wr_trunc _ 64 u 0 Hu ltac:(lia)) as (b & -> & Hb). rewrite bind_Ok.
    eexists. split; [done|]. split; simpl; eauto.
Qed.

Section FrameSafety.
#[local] Set Default Proof Using "All".
Context {V : Type} `{DirLaws V}.
Context (Hmedia : dir_media_ok V) (fuel : nat) (i : ex_in) (Hin : in_ok i).

(** A dialog either ends by itself, and does not touch the volume unless it
    ends the handler, or does what its OK action does. *)
Lemma dialog_cases shown di edit (commit : explorer -> V -> res V) close o :
  (forall s, ex_ok s -> exists s', edit s = Ok s' /\ ex_ok s') -> (forall s, ex_ok s -> ex_ok (close s)) -> ex_ok (o_st o) ->
  (exists o', dialog i shown di edit commit close o = Ok o' /\ ex_ok (o_st o') /\ (o_ret o' = false -> o_vol o' = o_vol o)) \/
  (o_ret o = false /\ truth shown = true /\ w_begin (d_win di) = true /\ d_ok di = true /\ exists s' k, ex_ok s' /\
     dialog i shown di edit commit close o = (v' ← commit s' (o_vol o); Ok (k v')) /\ forall v', ex_ok (o_st (k v')) /\ o_ret (k v') = true).
Proof.
  intros He Hcl Ho. unfold dialog. destruct (o_ret o) eqn:Er; [eauto|]. destruct (truth shown) eqn:Es; cbn [negb]; [|eauto].
  destruct o as [s d v r]. cbn [o_st] in Ho.
  assert (exists s', (if w_begin (d_win di) then edit s else Ok s) = Ok s' /\ ex_ok s') as (s' & -> & Hs')
    by (destruct (w_begin _); eauto).
  rewrite bind_Ok. destruct (w_begin (d_win di) && d_ok di) eqn:E.
  - right. apply andb_true_iff in E as [E1 E2]. do 4 (split; [done|]).
    exists s', (fun v' => mk_out (close (set_nav (explorer_trigger_refresh (ex_nav s')) s')) (release W_EXPLORER d) v' true).
    split; [done|]. split; [done|]. intros v'. split; [|done]. apply Hcl. destruct Hs'. split; simpl; eauto. by apply (nav_ok_same (ex_nav s')).
  - left. destruct (_ && d_cancel di); [eexists; split; [done|]; split; [by apply Hcl|done]|].
    destruct (w_hidden _); eexists; (split; [done|]); split; [by apply Hcl|done|done|done].
Qed.

Lemma dialog_ok shown di edit (commit : explorer -> V -> res V) close o :
  (forall s, ex_ok s -> exists s', edit s = Ok s' /\ ex_ok s') ->
  (forall s v, ex_ok s -> exists v', commit s v = Ok v') ->
  (forall s, ex_ok s -> ex_ok (close s)) -> ex_ok (o_st o) ->
  exists o', dialog i shown di edit commit close o = Ok o' /\ ex_ok (o_st o') /\ (o_ret o' = false -> o_vol o' = o_vol o).
Proof.
  intros He Hc Hcl Ho. destruct (dialog_cases shown di edit commit close o He Hcl Ho) as [?|(_ & _ & _ & _ & s' & k & Hs' & -> & Hk)]; [done|].
  destruct (Hc s' (o_vol o) Hs') as [v' ->]. rewrite bind_Ok. destruct (Hk v') as [K1 K2]. exists (k v'). split; [done|]. split; [done|]. by rewrite K2.
Qed.

Lemma edit_input_ok di s : text_ok (d_text di) -> ex_ok s -> exists s', edit_input di s = Ok s' /\ ex_ok s'.
Proof.
  intros [Hl Hz] [Hn Hp Ht [u Hu]]. unfold edit_input.
  destruct (edit_field_holds (op_input_buffer (ex_dlg s)) (d_text di) 64 (proj1 Hu) Hl Hz) as (b & -> & Hb).
  rewrite bind_Ok. eexists. split; [done|]. split; simpl; eauto.
Qed.

Lemma full_path_ok stack nm n s :
  zlen stack = 256 -> holds nm 64 n -> ex_ok s ->
  exists p, holds (current_path (ex_nav s)) 128 p /\ full_path stack nm s = Ok (full_name p n).
Proof.
  intros Hs Hn [_ (p & Hp & Hne) _ _]. exists p. split; [done|]. unfold full_path.
  destruct (build_full_path_ok stack _ p nm n Hs Hp Hne (proj2 Hn) (holds_len _ _ _ Hn)) as (b & -> & Hb).
  rewrite bind_Ok, (proj2 Hb). done.
Qed.

Lemma refresh_view_ok s v p :
  ex_ok s -> holds (current_path (ex_nav s)) 128 p ->
  (forall l, listing v p = Some l -> (length l < fuel)%nat) ->
  exists s1 v1, refresh_view fuel s v = Ok (s1, v1) /\ ex_ok s1 /\ holds (current_path (ex_nav s1)) 128 p /\ forall q, listing v1 q = listing v q.
Proof.
  intros Hok Hp Hfuel. unfold refresh_view. destruct (truth _); [|by exists s, v].
  destruct Hok as [Hn (q & Hq & Hne) Ht Hi]. assert (q = p) as -> by (destruct Hp, Hq; congruence).
  assert (exists n v', populate_directory fuel (ex_nav s) v = Ok (n, v') /\ nav_ok n /\ current_path n = current_path (ex_nav s) /\
    forall q, listing v' q = listing v q) as (n & v' & -> & Hn' & Ep & Eq).
  { destruct (listing v p) as [l|] eqn:El.
    - destruct (populate_spec Hmedia (ex_nav s) v p l fuel Hn Hp El (Hfuel l eq_refl)) as (n & v' & ? & ? & ? & _ & _ & ?).
      by exists n, v'.
    - unfold populate_directory. rewrite (proj2 Hp). pose proof (opendir_law p v) as L.
      destruct (f_opendir p v) as [[r dd] v']. rewrite El in L. destruct L as [Lq Hr].
      destruct (Z.eqb_spec r FR_OK); [done|]. cbn [negb]. eexists _, _. split; [done|]. split; [|done].
      destruct Hn as [? ? ? ?]. split; cbn [current_dir_items current_item_count]; [done|done|lia|lia]. }
  rewrite bind_Ok. cbn [fst snd]. eexists _, _. split; [done|]. cbn [set_nav ex_nav current_path]. rewrite Ep. split; [|done].
  split; cbn [set_nav ex_nav ex_menu ex_dlg current_path]; rewrite ?Ep; eauto. by apply (nav_ok_same n).
Qed.

Lemma rename_dialog_ok o : ex_ok (o_st o) -> exists o', rename_dialog i o = Ok o' /\ ex_ok (o_st o') /\ (o_ret o' = false -> o_vol o' = o_vol o).
Proof.
  intros Ho. apply dialog_ok; [|intros s' v' Hs'|intros s' [? ? ? ?]; split; simpl; eauto|done].
  - intros s' Hs'. apply edit_input_ok; [apply Hin|done].
  - pose proof Hs' as [_ _ [t Ht] [u Hu]].
    destruct (full_path_ok (stack_a i) _ t s' (io_a _ Hin) Ht Hs') as (q1 & _ & ->).
    destruct (full_path_ok (stack_b i) _ u s' (io_b _ Hin) Hu Hs') as (q2 & _ & ->). rewrite !bind_Ok. eauto.
Qed.

Lemma mkdir_dialog_ok o : ex_ok (o_st o) -> exists o', mkdir_dialog i o = Ok o' /\ ex_ok (o_st o').
Proof.
  intros Ho. destruct (dialog_ok (show_mkdir_dialog (ex_dlg (o_st o))) (in_mkdir i) (edit_input (in_mkdir i))
    (fun s v => path_make ← full_path (stack_a i) (op_input_buffer (ex_dlg s)) s; Ok (f_mkdir path_make v).2)
    (fun s => let d := ex_dlg s in set_dlg (mk_dialogs (show_rename_dialog d) (show_delete_dialog d) 0 (op_input_buffer d)) s) o) as (o' & E & K & _);
    [|intros s' v' Hs'|intros s' [? ? ? ?]; split; simpl; eauto|done|by exists o'].
  - intros s' Hs'. apply edit_input_ok; [apply Hin|done].
  - pose proof Hs' as [_ _ _ [u Hu]].
    destruct (full_path_ok (stack_a i) _ u s' (io_a _ Hin) Hu Hs') as (q1 & _ & ->). rewrite bind_Ok. eauto.
Qed.

(** *** Deleting *)

(** An entry of a directory [p] below [root], read while it is emptied, has a
    path that does not fit the 256-byte [sub_path]. *)
Definition overlong (root : list Z) : Prop :=
  exists p v0 dir v1 v2 e v3, root `prefix_of` p /\ zlen p < 256 /\ f_opendir p v0 = (FR_OK, dir, v1) /\
    f_readdir dir v2 = (FR_OK, e, v3) /\ 256 <= zlen (full_name p (fname e)).

Lemma until_nul_prefix (l : list Z) : exists d, until_nul (l ++ [0]) = Some d /\ zlen d <= zlen l.
Proof.
  induction l as [|c l (d & E & Hd)]; cbn [app until_nul].
  - exists []. split; [reflexivity|simpl; lia].
  - rewrite E. destruct (c =? 0); [exists []; split; [reflexivity|simpl; lia]|]. exists (c :: d). split; [reflexivity|cbn [length]; lia].
Qed.

(** A result, too little fuel, or an overrun by an overlong name. *)
Definition returns {A} (root : list Z) (x : res A) : Prop := (exists a, x = Ok a) \/ x = NoFuel \/ (x = Fault /\ overlong root).

Lemma empty_loop_cases root self path p v0 dir v1 k : holds path 256 p -> p <> [] -> root `prefix_of` p -> f_opendir p v0 = (FR_OK, dir, v1) ->
  (forall sub q v, holds sub 256 q -> q <> [] -> root `prefix_of` q -> returns root (self sub v)) -> forall v, returns root (empty_loop self path dir k v).
Proof.
  intros Hp Hne Hpre Ho IH. induction k as [|k IHk]; intros v2; [by right; left|]. cbn [empty_loop].
  destruct (f_readdir dir v2) as [[r2 e] v3] eqn:Er. destruct (Z.eqb_spec r2 FR_OK) as [->|]; cbn [negb orb]; [|left; eauto].
  destruct (get (fname e) 0 =? 0); [left; eauto|]. destruct (get (fname e) 0 =? 46); [apply IHk|].
  destruct (until_nul_prefix (fname e)) as (d & Ed & Ld).
  pose proof (build_full_path_exact (replicate 256 0) path 256 p (fname e ++ [0]) d eq_refl Hp ltac:(lia) Hne Ed) as Eb.
  destruct (Z.ltb_spec (zlen (full_name p d)) 256) as [Hs|Hs].
  - destruct Eb as (sub & -> & Hsub). rewrite bind_Ok.
    assert (returns root (if is_dir e then self sub v3 else match until_nul sub with None => Fault | Some q => Ok (f_unlink q v3) end))
      as [[y ->]|[->|[-> Hov]]].
    { destruct (is_dir e); [|rewrite (proj2 Hsub); left; eauto]. apply (IH sub (full_name p d)); [done|by apply full_name_ne|].
      unfold full_name. by apply prefix_app_r. }
    + rewrite bind_Ok. destruct (negb (y.1 =? FR_OK)); [left; eauto|apply IHk].
    + by right; left.
    + by right; right.
  - right; right. rewrite Eb. split; [done|]. exists p, v0, dir, v1, v2, e, v3. split; [done|]. split; [by apply (holds_len path)|]. split; [done|].
    split; [done|]. revert Hs. unfold full_name. rewrite !length_app. lia.
Qed.

(** [empty_and_delete_dir] of any path. *)
Lemma delete_cases root f : forall path p v, holds path 256 p -> p <> [] -> root `prefix_of` p -> returns root (empty_and_delete_dir f path v).
Proof.
  induction f as [|f IH]; intros path p v Hp Hne Hpre; [by right; left|]. cbn [empty_and_delete_dir]. rewrite (proj2 Hp).
  destruct (f_opendir p v) as [[r dir] v1] eqn:Ho. destruct (Z.eqb_spec r FR_OK) as [->|]; cbn [negb]; [|left; eauto].
  destruct (empty_loop_cases root (empty_and_delete_dir f) path p v dir v1 (S f) Hp Hne Hpre Ho IH v1) as [[x ->]|[->|[-> Hov]]]; [|by right; left|by right; right].
  rewrite bind_Ok. left. cbv zeta. destruct (x.1 =? FR_OK); eauto.
Qed.

(** What is not a directory is refused, so the deletion returns. *)
Lemma delete_other f path p v : holds path 256 p -> listing v p = None -> exists x, empty_and_delete_dir (S f) path v = Ok x.
Proof.
  intros [_ Hp] Hl. cbn [empty_and_delete_dir]. rewrite Hp. pose proof (opendir_law p v) as L.
  destruct (f_opendir p v) as [[r d] v']. rewrite Hl in L. destruct L as [_ Hr].
  destruct (Z.eqb_spec r FR_OK); [done|]. eauto.
Qed.

(** A confirmed deletion of a directory of the volume that the frame does not
    survive: the fuel is used up, or a path below it is too long. *)
Definition deletes (x : res (outcome (V:=V))) (v : V) : Prop :=
  w_begin (d_win (in_delete i)) = true /\ d_ok (in_delete i) = true /\
  exists p t, zlen p < 128 /\ zlen t < 64 /\ listing v (full_name p t) <> None /\ (x = NoFuel \/ (x = Fault /\ overlong (full_name p t))).

Lemma delete_dialog_cases o : (0 < fuel)%nat -> ex_ok (o_st o) ->
  (exists o', delete_dialog fuel i o = Ok o' /\ ex_ok (o_st o')) \/ (o_ret o = false /\ deletes (delete_dialog fuel i o) (o_vol o)).
Proof.
  intros Hf Ho. unfold delete_dialog.
  match goal with |- context [dialog i ?sh ?di ?ed ?co ?cl o] =>
    destruct (dialog_cases sh di ed co cl o) as [(o' & E & K & _)|(Hr & _ & Hb & Hk & s' & k & Hs' & -> & Hko)] end;
    [eauto|intros s' [? ? ? ?]; split; simpl; eauto|done|left; eauto|].
  pose proof Hs' as [_ (p & Hp & Hne) [t Ht] _]. pose proof (holds_len _ _ _ Hp) as Lp. pose proof (holds_len _ _ _ Ht) as Lt.
  destruct (build_full_path_ok (stack_a i) _ p _ t (io_a _ Hin) Hp Hne (proj2 Ht) Lt) as (b & -> & Hpb). rewrite bind_Ok.
  destruct fuel as [|f] eqn:Ef; [lia|]. destruct (listing (o_vol o) (full_name p t)) as [l|] eqn:El.
  - destruct (delete_cases (full_name p t) (S f) b _ (o_vol o) Hpb) as [[x ->]|[->|[-> Hov]]]; [by apply full_name_ne|reflexivity| | |].
    + left. rewrite !bind_Ok. destruct (Hko x.2). eauto.
    + right. split; [done|]. split; [done|]. split; [done|]. exists p, t. rewrite El. split_and!; [done|done|done|by left].
    + right. split; [done|]. split; [done|]. split; [done|]. exists p, t. rewrite El. split_and!; [done|done|done|by right].
  - destruct (delete_other f b _ (o_vol o) Hpb El) as [x ->]. left. rewrite !bind_Ok. destruct (Hko x.2). eauto.
Qed.

(** The row that is clicked enters a directory too deep for the array. *)
Definition enters_too_deep (s : explorer) (v : V) (p : list Z) : Prop :=
  exists s1 v1 q, refresh_view fuel s v = Ok (s1, v1) /\ row_path i p q /\ too_deep i (ex_nav s1) q.

Lemma frame_cases (s : explorer) (d : desk) (v : V) (p : list Z) :
  ex_ok s -> holds (current_path (ex_nav s)) 128 p -> (0 < fuel)%nat -> (forall l, listing v p = Some l -> (length l < fuel)%nat) ->
  let x := render_file_explorer fuel i s d v in
  (exists o, x = Ok o /\ ex_ok (o_st o)) \/ (x = Fault /\ enters_too_deep s v p) \/ deletes x v.
Proof.
  intros Hok Hp Hf0 Hfuel x. subst x. unfold render_file_explorer. destruct (_ || _); [eauto|].
  destruct (refresh_view_ok s v p Hok Hp Hfuel) as (s1 & v1 & Er & H1 & P1 & Hq). rewrite Er, bind_Ok. cbv beta iota zeta.
  match goal with |- context [if w_begin _ then main_body i ?x else Ok ?x] => set (s2 := x) end.
  assert (ex_ok s2 /\ ex_nav s2 = ex_nav s1) as [H2 N2].
  { unfold s2. destruct (_ && _ && _); [|done]. split; [|done]. destruct H1. split; simpl; eauto. }
  clearbody s2.
  assert ((exists s3, (if w_begin (in_main i) then main_body i s2 else Ok s2) = Ok s3 /\ ex_ok s3) \/
    ((if w_begin (in_main i) then main_body i s2 else Ok s2) = Fault /\ enters_too_deep s v p)) as [(s3 & -> & H3)|[-> Hd]]; [| |by right; left].
  { destruct (w_begin _); [|eauto]. destruct (main_body_cases i s2 p Hin H2) as [?|(-> & _ & q & Hq1 & Hq2)]; [by rewrite N2|by left|].
    right. split; [done|]. rewrite N2 in Hq2. by exists s1, v1, q. }
  rewrite bind_Ok. match goal with |- context [context_menu i ?x] => set (s4 := x) end.
  assert (ex_ok s4) as H4 by (unfold s4; destruct (w_hidden _); [destruct H3; split; simpl; eauto|done]).
  clearbody s4. destruct (context_menu_ok i s4 H4) as (s5 & -> & H5). rewrite bind_Ok.
  match goal with |- context [rename_dialog i ?x] => destruct (rename_dialog_ok x H5) as (o1 & -> & K1 & V1) end.
  rewrite bind_Ok. cbn [o_vol] in V1. destruct (delete_dialog_cases o1 Hf0 K1) as [(o2 & -> & K2)|(Hr & D1 & D2 & p' & t & L1 & L2 & D3 & D4)].
  - rewrite bind_Ok. left. by apply mkdir_dialog_ok.
  - right; right. split; [done|]. split; [done|]. rewrite (V1 Hr), Hq in D3. exists p', t. split; [done|]. split; [done|]. split; [done|].
    destruct D4 as [->|[-> Hov]]; [by left|by right].
Qed.


End FrameSafety.

(** A frame in which the first entry of the listing is clicked. *)
Definition quiet_win : win_in := mk_win true (mk_rect 0 0 10 10) false false false.
Definition quiet_dlg : dlg_in := mk_dlg_in quiet_win [] false false.
Definition demo_in : ex_in :=
  mk_ex_in false true false 1 200 150 false quiet_win false false true (fun k => k =? 0) (fun k => k =? 0) false
    quiet_win false false false quiet_dlg quiet_dlg quiet_dlg
    (replicate (Z.to_nat 256) 0) (replicate (Z.to_nat 256) 0).

Definition demo_explorer : explorer :=
  mk_explorer 1 0 (ex_nav explorer_boot) (ex_menu explorer_boot) (ex_dlg explorer_boot) (bounds_file_explorer explorer_boot).

Lemma demo_in_ok : in_ok demo_in.
Proof.
  split; cbn [demo_in in_rename in_mkdir quiet_dlg d_text stack_a stack_b item_clicked]; try done.
  intros j k Hj Hk. lia.
Qed.

Lemma explorer_boot_ok : ex_ok explorer_boot.
Proof.
  split.
  - exact nav_ok_boot.
  - exists (bytes "0:"). split; [split; vm_compute; reflexivity|vm_compute; discriminate].
  - exists []. split; vm_compute; reflexivity.
  - exists []. split; vm_compute; reflexivity.
Qed.

Lemma demo_explorer_ok : ex_ok demo_explorer.
Proof. destruct explorer_boot_ok as [? ? ? ?]. by split. Qed.


(** ** Deleting a file *)

(** "Delete" on a regular file does not delete it:
    [empty_and_delete_dir] tries to open the path as a directory, reports
    that error and never calls [f_unlink]. *)
Theorem delete_file_kept {V : Type} `{DirLaws V} (f : nat) (path p : list Z) (v : V) :
  holds path 256 p -> listing v p = None ->
  exists r, empty_and_delete_dir (S f) path v = Ok (r, (f_opendir p v).2) /\ r <> FR_OK.
Proof.
  intros [_ Hp] Hl. cbn [empty_and_delete_dir]. rewrite Hp. pose proof (opendir_law p v) as L.
  destruct (f_opendir p v) as [[r d] v']. rewrite Hl in L. destruct L as [_ Hr].
  destruct (Z.eqb_spec r FR_OK); [done|]. by exists r.
Qed.

Lemma delete_file_kept_witness :
  exists r, empty_and_delete_dir 5 (filled (replicate (Z.to_nat 256) 0) (bytes "0:NOTES.TXT")) demo_dir =
    Ok (r, (f_opendir (bytes "0:NOTES.TXT") demo_dir).2) /\ r <> FR_OK.
Proof.
  apply (delete_file_kept 4 (filled (replicate (Z.to_nat 256) 0) (bytes "0:NOTES.TXT")) (bytes "0:NOTES.TXT") demo_dir).
  - split; vm_compute; reflexivity.
  - vm_compute. reflexivity.
Defined.
