(* ===== verification/Browser.v ===== *)
(** * Browser: the web page viewer (naobrowse.c)

    One global browser: the URL fields, the page being received, the text
    made from it, a history of ten addresses and a ring of log lines. lwIP's
    HTTP client is the environment: it may refuse a request, delivers the
    body in chunks and reports the outcome. Uninitialised stack arrays are
    the parameter [stack]. *)

From Stdlib Require Import ZArith Lia Bool String.
From stdpp Require Import base list.
From S2P Require Import Prelude CLib Ui.
From stdpp Require Import options.

Definition MAX_URL_LEN : Z := 128.
Definition MAX_PAGE_STORAGE : Z := 16384.
Definition HISTORY_DEPTH : Z := 10.
Definition DEBUG_LINE_COUNT : Z := 25.
Definition DEBUG_LINE_LEN : Z := 96.

(** The page: [raw_html_buffer], [rendered_text] and [content_len]. *)
Record page := mk_page { raw_html_buffer : list Z; rendered_text : list Z; content_len : Z }.

(** [history], [history_count], [current_history_idx]. *)
Record hist := mk_hist { history : list (list Z); history_count : Z; current_history_idx : Z }.

(** [debug_console], [debug_write_ptr]. *)
Record dbg := mk_dbg { debug_console : list (list Z); debug_write_ptr : Z }.

Record browser := mk_browser {
  url_input : list Z; current_url : list Z; br_page : page; br_hist : hist;
  is_loading : Z; is_active : Z; br_dbg : dbg
}.

Definition zeros (n : Z) : list Z := replicate (Z.to_nat n) 0.

(** The structure after [memset(&browser_instance, 0, ...)]. *)
Definition browser_zero : browser :=
  mk_browser (zeros 128) (zeros 128) (mk_page (zeros 16384) (zeros 16384) 0)
    (mk_hist (replicate 10 (zeros 128)) 0 0) 0 0 (mk_dbg (replicate 25 (zeros 96)) 0).

Definition set_page (p : page) (b : browser) : browser :=
  mk_browser (url_input b) (current_url b) p (br_hist b) (is_loading b) (is_active b) (br_dbg b).
Definition set_hist (h : hist) (b : browser) : browser :=
  mk_browser (url_input b) (current_url b) (br_page b) h (is_loading b) (is_active b) (br_dbg b).
Definition set_loading (l : Z) (b : browser) : browser :=
  mk_browser (url_input b) (current_url b) (br_page b) (br_hist b) l (is_active b) (br_dbg b).
Definition set_input (u : list Z) (b : browser) : browser :=
  mk_browser u (current_url b) (br_page b) (br_hist b) (is_loading b) (is_active b) (br_dbg b).
Definition set_dbg (d : dbg) (b : browser) : browser :=
  mk_browser (url_input b) (current_url b) (br_page b) (br_hist b) (is_loading b) (is_active b) d.
Definition set_rendered (t : list Z) (b : browser) : browser :=
  set_page (mk_page (raw_html_buffer (br_page b)) t (content_len (br_page b))) b.

(** ** The log *)

Definition log_line (msg : list Z) (d : dbg) : res dbg :=
  let idx := debug_write_ptr d in
  line ← or_fault (debug_console d !! Z.to_nat idx);
  line ← strncpy line msg (DEBUG_LINE_LEN - 1);
  line ← wr line (DEBUG_LINE_LEN - 1) 0;
  Ok (mk_dbg (<[Z.to_nat idx := line]> (debug_console d)) (Z.rem (idx + 1) DEBUG_LINE_COUNT)).

Definition naobrowse_log (msg : list Z) (b : browser) : res browser :=
  d ← log_line msg (br_dbg b); Ok (set_dbg d b).

(** The lines drawn in the console pane, oldest first. *)
Fixpoint console_loop (n : nat) (i : Z) (d : dbg) : res (list (list Z)) :=
  match n with
  | O => Ok []
  | S n =>
      line ← or_fault (debug_console d !! Z.to_nat (Z.rem (debug_write_ptr d + i) DEBUG_LINE_COUNT));
      c ← rd line 0;
      rest ← console_loop n (i + 1) d;
      Ok (if negb (c =? 0) then line :: rest else rest)
  end.

Definition console_lines (d : dbg) : res (list (list Z)) := console_loop (Z.to_nat DEBUG_LINE_COUNT) 0 d.

(** ** The tag stripper *)

(** The three tags that break a line, at the position [p]. *)
Definition breaks_line (p : list Z) : res bool :=
  a ← strncmp p (lit "<p>") 3;
  if a =? 0 then Ok true else
  a ← strncmp p (lit "<br>") 4;
  if a =? 0 then Ok true else
  a ← strncmp p (lit "</div>") 6;
  Ok (a =? 0).

Fixpoint strip_loop (fuel : nat) (raw : list Z) (len src_idx : Z) (text : list Z) (dest_idx : Z) (inside_tag : bool)
  : res (list Z * Z) :=
  match fuel with
  | O => NoFuel
  | S f =>
      if (src_idx <? len) && (dest_idx <? MAX_PAGE_STORAGE - 2) then
        c ← rd raw src_idx;
        if c =? 60 then
          br ← breaks_line (drop (Z.to_nat src_idx) raw);
          x ← (if (br : bool) then t ← wr text dest_idx 10; Ok (t, dest_idx + 1) else Ok (text, dest_idx));
          strip_loop f raw len (src_idx + 1) x.1 x.2 true
        else if c =? 62 then strip_loop f raw len (src_idx + 1) text dest_idx false
        else
          x ← (if negb inside_tag then t ← wr text dest_idx c; Ok (t, dest_idx + 1) else Ok (text, dest_idx));
          strip_loop f raw len (src_idx + 1) x.1 x.2 inside_tag
      else Ok (text, dest_idx)
  end.

Definition naobrowse_render_engine_parse (b : browser) : res browser :=
  b ← naobrowse_log (lit "Parser engine triggered: Stripping tags...") b;
  let p := br_page b in
  text ← memset (rendered_text p) 0 0 MAX_PAGE_STORAGE;
  x ← strip_loop (S (Z.to_nat (content_len p))) (raw_html_buffer p) (content_len p) 0 text 0 false;
  text ← wr x.1 x.2 0;
  naobrowse_log (lit "Parser finished preparing text layer structure.") (set_rendered text b).

Section Net.
Context (stack : Z -> list Z).

(** [mini_snprintf(buf, sizeof(buf), ...); naobrowse_log(buf);] on a stack array. *)
Definition log_fmt (size : Z) (fmt : list Z) (args : list varg) (b : browser) : res browser :=
  x ← mini_snprintf (Some (stack size)) size fmt args;
  naobrowse_log (match x.1 with Some m => m | None => [] end) b.

(** [pbuf_copy_partial] of the whole chunk to [dst + at]. *)
Fixpoint pbuf_copy (chunk dst : list Z) (at_ : Z) : res (list Z) :=
  match chunk with [] => Ok dst | c :: r => d ← wr dst at_ c; pbuf_copy r d (at_ + 1) end.

(** The body callback on a packet with the bytes [chunk] ([tot_len] of them). *)
Definition naobrowse_http_body_cb (chunk : option (list Z)) (b : browser) : res browser :=
  match chunk with
  | None => Ok b
  | Some data =>
      let chunk_len := u16 (zlen data) in
      b ← log_fmt 64 (lit "lwIP Body CB: Received chunk segment of %d bytes") [VInt chunk_len] b;
      let p := br_page b in
      if u32 (content_len p + chunk_len) <? MAX_PAGE_STORAGE - 1 then
        raw ← pbuf_copy data (raw_html_buffer p) (content_len p);
        let n := u32 (content_len p + chunk_len) in
        raw ← wr raw n 0;
        Ok (set_page (mk_page raw (rendered_text p) n) b)
      else naobrowse_log (lit "CRITICAL ERROR: Incoming HTML exceeds allocated buffer size limits!") b
  end.

Definition naobrowse_http_result_cb (httpc_result rx_content_len err : Z) (b : browser) : res browser :=
  b ← naobrowse_log (lit "lwIP Callback Alert: TCP Handshake cycle complete!") b;
  b ← (if httpc_result =? 0 then
         b ← log_fmt 96 (lit "SUCCESS! Received HTTP 200/OK. Transferred: %u bytes") [VInt rx_content_len] b;
         naobrowse_render_engine_parse b
       else
         b ← log_fmt 96 (lit "FAIL: HTTP Connection Refused. Result: %d, lwIP Error: %d") [VInt httpc_result; VInt err] b;
         t ← strcpy (rendered_text (br_page b)) (lit "Error: Could not reach target web host.");
         Ok (set_rendered t b));
  Ok (set_loading 0 b).

(** ** Navigation *)

(** [save_to_history]: a new address cuts off what lies ahead; a full history
    stays as it is. *)
Definition remember (url : list Z) (h : hist) : res hist :=
  let count := if current_history_idx h <? history_count h - 1 then current_history_idx h + 1 else history_count h in
  if count <? HISTORY_DEPTH then
    slot ← or_fault (history h !! Z.to_nat count);
    slot ← strcpy slot url;
    Ok (mk_hist (<[Z.to_nat count := slot]> (history h)) (count + 1) count)
  else Ok (mk_hist (history h) count (current_history_idx h)).

(** [error] is the answer of [httpc_get_file]. The request always goes to
    10.0.2.2, port 80, path "/". *)
Definition naobrowse_navigate_to (url : list Z) (save_to_history : bool) (error : Z) (b : browser) : res browser :=
  b ← log_fmt 128 (lit "Dispatcher action: routing request path to: '%s'") [VStr (Some url)] b;
  raw ← memset (raw_html_buffer (br_page b)) 0 0 MAX_PAGE_STORAGE;
  cur ← strcpy (current_url b) url;
  let b := mk_browser (url_input b) cur (mk_page raw (rendered_text (br_page b)) 0) (br_hist b) 1 (is_active b) (br_dbg b) in
  b ← (if save_to_history then
         b ← naobrowse_log (lit "Saving URL endpoint trace to history backstack...") b;
         h ← remember url (br_hist b); Ok (set_hist h b)
       else Ok b);
  b ← naobrowse_log (lit "Binding internal routing table target to QEMU Gateway IP: 10.0.2.2") b;
  b ← naobrowse_log (lit "Invoking asynchronous lwIP network socket routine: httpc_get_file()...") b;
  if negb (error =? 0) then
    b ← log_fmt 64 (lit "lwIP Immediate Error: Request could not be queued. Code: %d") [VInt error] b;
    t ← strcpy (rendered_text (br_page b)) (lit "NETWORK ROUTING DISPATCH FAILURE: Unreachable Gateway");
    Ok (set_rendered t (set_loading 0 b))
  else naobrowse_log (lit "SYN Packet queued in TX descriptor ring successfully. Handshake completed!") b.

Definition WELCOME : list Z :=
  bytes "Welcome to NaoBrowse!" ++ [10] ++ bytes "Type an IP Address above to search the web layout network paths." ++ [0].

Definition init_naobrowse : res browser :=
  u ← strcpy (url_input browser_zero) (lit "10.0.2.2");
  t ← strcpy (rendered_text (br_page browser_zero)) WELCOME;
  let b := mk_browser u (current_url browser_zero) (mk_page (raw_html_buffer (br_page browser_zero)) t 0)
             (mk_hist (history (br_hist browser_zero)) 0 (-1)) 0 1 (mk_dbg (debug_console (br_dbg browser_zero)) 0) in
  b ← naobrowse_log (lit "NaoBrowse Subsystem initialized successfully.") b;
  naobrowse_log (lit "Awaiting user entry interaction loop...") b.

(** ** The frame *)

(** Nuklear's answers in one frame and lwIP's to the requests it makes. *)
Record br_in := mk_br_in {
  bi_begin : bool; bi_back : bool; bi_fwd : bool; bi_text : list Z; bi_go : bool;
  bi_console : bool; bi_err_back : Z; bi_err_fwd : Z; bi_err_go : Z
}.

(** One of the two history buttons: [step] is -1 or 1. *)
Definition history_button (msg : list Z) (step error : Z) (b : browser) : res browser :=
  b ← naobrowse_log msg b;
  let h := br_hist b in
  let idx := current_history_idx h + step in
  let b := set_hist (mk_hist (history h) (history_count h) idx) b in
  if idx <? 0 then Fault else
  url ← or_fault (history h !! Z.to_nat idx);
  u ← strcpy (url_input b) url;
  naobrowse_navigate_to u false error (set_input u b).

(** The "Go" button. *)
Definition go_button (error : Z) (b : browser) : res browser :=
  b ← naobrowse_log (lit "UI Control Action: 'Go' Button Clicked.") b;
  let p := br_page b in
  naobrowse_navigate_to (url_input b) true error
    (set_page (mk_page (raw_html_buffer p) (rendered_text p) 0) (set_loading 1 b)).

(** A frame; a disabled button is never reported as pressed. *)
Definition render_naobrowse (i : br_in) (b : browser) : res browser :=
  if negb (truth (is_active b)) then Ok b
  else if negb (bi_begin i) then Ok b
  else
    let back_active := 0 <? current_history_idx (br_hist b) in
    b ← (if back_active && bi_back i
         then history_button (lit "UI Control Action: Back Button Clicked.") (-1) (bi_err_back i) b else Ok b);
    let fwd_active := current_history_idx (br_hist b) <? history_count (br_hist b) - 1 in
    b ← (if fwd_active && bi_fwd i
         then history_button (lit "UI Control Action: Forward Button Clicked.") 1 (bi_err_fwd i) b else Ok b);
    u ← edit_field (url_input b) (bi_text i);
    let b := set_input u b in
    b ← (if bi_go i then go_button (bi_err_go i) b else Ok b);
    _ ← (if bi_console i then console_lines (br_dbg b) else Ok []);
    Ok b.

End Net.

(** ** Strings and the log *)

Lemma strcpy_filled src str dest w :
  until_nul src = Some str -> zlen w + zlen str < zlen dest ->
  strcpy_loop src (filled dest w) (zlen w) = Ok (filled dest (w ++ str ++ [0])).
Proof.
  revert str w. induction src as [|c src IH]; intros str w Hs Hl; [done|]. cbn [until_nul] in Hs. cbn [strcpy_loop].
  destruct (Z.eqb_spec c 0) as [->|Hc].
  - injection Hs as <-. cbn [length] in Hl. rewrite filled_wr by lia. done.
  - destruct (until_nul src) as [t|]; [|done]. injection Hs as <-. cbn [length] in Hl.
    rewrite filled_wr by lia. rewrite bind_Ok.
    replace (zlen w + 1) with (zlen (w ++ [c])) by (rewrite length_app; simpl; lia).
    rewrite (IH t) by (done || rewrite length_app; simpl; lia). by rewrite <- app_assoc.
Qed.

Lemma strcpy_holds src str dest n :
  until_nul src = Some str -> zlen dest = n -> zlen str < n ->
  exists d, strcpy dest src = Ok d /\ holds d n str.
Proof.
  intros Hs Hd Hl. eexists. split; [exact (strcpy_filled src str dest [] Hs ltac:(simpl; lia))|].
  apply holds_filled; [done|by eapply until_nul_nz|done].
Qed.

Lemma strncpy_length n : forall src str dest i,
  until_nul src = Some str -> 0 <= i -> i + Z.of_nat n <= zlen dest ->
  exists d, strncpy_loop n src dest i = Ok d /\ length d = length dest.
Proof.
  induction n as [|n IH]; intros src str dest i Hs Hi Hl; cbn [strncpy_loop]; [eauto|].
  destruct src as [|c src]; [done|]. cbn [until_nul] in Hs. destruct (c =? 0); cbn [negb].
  - destruct (for_up_inv (fun j d => length d = length dest) (S n) i (fun j d => wr d j 0) dest) as (d & Hr & Hd);
      [|done|by exists d]. intros j d Hj Hd. rewrite wr_in by lia. eexists. split; [done|]. by rewrite length_insert.
  - destruct (until_nul src) as [t|] eqn:Et; [|done]. rewrite wr_in by lia. rewrite bind_Ok.
    destruct (IH src t (<[Z.to_nat i:=c]> dest) (i + 1) Et) as (d & Hr & Hd); [lia|rewrite length_insert; lia|].
    exists d. split; [done|]. by rewrite Hd, length_insert.
Qed.

Record dbg_ok (d : dbg) : Prop := {
  do_lines : length (debug_console d) = 25%nat;
  do_len : Forall (fun l => zlen l = 96) (debug_console d);
  do_ptr : 0 <= debug_write_ptr d < 25
}.

Lemma log_line_ok msg str d : until_nul msg = Some str -> dbg_ok d -> exists d', log_line msg d = Ok d' /\ dbg_ok d'.
Proof.
  intros Hm [Hl Hf Hp]. unfold log_line, DEBUG_LINE_LEN, DEBUG_LINE_COUNT.
  destruct (lookup_lt_is_Some_2 (debug_console d) (Z.to_nat (debug_write_ptr d))) as [line Hline]; [lia|].
  rewrite Hline. cbn [or_fault]. rewrite bind_Ok. pose proof (Forall_lookup_1 _ _ _ _ Hf Hline) as H96. simpl in H96.
  destruct (strncpy_length (Z.to_nat (96 - 1)) msg str line 0 Hm) as (l1 & E1 & L1); [lia|lia|].
  unfold strncpy. rewrite E1, bind_Ok, wr_in by lia. rewrite bind_Ok. eexists. split; [done|].
  split; cbn [debug_console debug_write_ptr].
  - by rewrite length_insert.
  - apply Forall_insert; [done|]. rewrite length_insert. lia.
  - rewrite Z.rem_mod_nonneg by lia. apply Z.mod_pos_bound. lia.
Qed.

Lemma naobrowse_log_ok msg str b :
  until_nul msg = Some str -> dbg_ok (br_dbg b) -> exists d, naobrowse_log msg b = Ok (set_dbg d b) /\ dbg_ok d.
Proof.
  intros Hm Hd. unfold naobrowse_log. destruct (log_line_ok msg str _ Hm Hd) as (d & -> & Hd').
  rewrite bind_Ok. eauto.
Qed.

(** Logging a literal. *)
Lemma log_lit (s : string) b :
  (exists str, until_nul (lit s) = Some str) -> dbg_ok (br_dbg b) ->
  exists d, naobrowse_log (lit s) b = Ok (set_dbg d b) /\ dbg_ok d.
Proof. intros [str Hs]. by apply (naobrowse_log_ok _ str). Qed.

Lemma memset_zero m n : zlen m = n -> memset m 0 0 n = Ok (zeros n).
Proof.
  intros Hm. destruct (memset_spec_aux m 0 0 n) as (m' & -> & Hl & Hg); [lia..|]. f_equal.
  unfold zeros. apply get_eq_ext; [rewrite length_replicate; lia|]. intros i Hi. rewrite Hg by lia.
  destruct (Z.leb_spec 0 i); [|lia]. destruct (Z.ltb_spec i (0 + n)); [|lia]. cbn [andb].
  unfold get. by rewrite nth_repeat || (rewrite nth_lookup, lookup_replicate_2 by lia).
Qed.

(** Formatted text has no terminator inside. *)
Lemma show_int_nz signed z t : show_int signed z = Some t -> Forall (fun c => c <> 0) t.
Proof.
  unfold show_int. destruct signed.
  - destruct (_ =? _); [done|]. destruct (_ <? 0); intros [= <-]; [constructor; [done|]|]; apply decimal_nonzero.
  - destruct (_ <? 0); intros [= <-]; [constructor|apply decimal_nonzero].
Qed.

Lemma render_nz p args out : render p args = Some out -> Forall (fun c => c <> 0) out.
Proof.
  remember (length p) as n eqn:En. assert (length p <= n)%nat as Hn by lia. clear En. revert p args out Hn.
  induction n as [|n IH]; intros p args out Hn Hr; (destruct p as [|c p]; [done|]); cbn [length] in Hn; [lia|].
  cbn [render] in Hr. destruct (Z.eqb_spec c 0); [by injection Hr as <-|]. destruct (c =? 37).
  - destruct p as [|f p]; [done|]. cbn [length] in Hn. destruct (Z.eqb_spec f 0); [by injection Hr as <-|].
    destruct (f =? 115).
    + destruct args as [|[z|s] args]; [done|done|]. destruct (until_nul _) as [t|] eqn:Et; [|done]. cbn [mbind option_bind] in Hr.
      destruct (render p args) as [r|] eqn:Er; [|done]. injection Hr as <-. apply Forall_app.
      split; [by eapply until_nul_nz|]. by apply (IH p args); [lia|].
    + destruct (_ || _).
      * destruct args as [|[z|s] args]; [done| |done]. destruct (show_int _ z) as [t|] eqn:Et; [|done]. cbn [mbind option_bind] in Hr.
        destruct (render p args) as [r|] eqn:Er; [|done]. injection Hr as <-. apply Forall_app.
        split; [by eapply show_int_nz|]. by apply (IH p args); [lia|].
      * destruct (render p args) as [r|] eqn:Er; [|done]. injection Hr as <-. constructor; [done|]. by apply (IH p args); [lia|].
  - destruct (render p args) as [r|] eqn:Er; [|done]. injection Hr as <-. constructor; [done|]. by apply (IH p args); [lia|].
Qed.

Section Stack.
#[local] Set Default Proof Using "All".
Context (stack : Z -> list Z) (Hstack : forall n, 0 <= n -> zlen (stack n) = n).

Lemma log_fmt_ok size fmt args out b :
  0 < size -> render fmt args = Some out -> dbg_ok (br_dbg b) ->
  exists d, log_fmt stack size fmt args b = Ok (set_dbg d b) /\ dbg_ok d.
Proof.
  intros Hs Hr Hd. pose proof (render_nz _ _ _ Hr) as Hz. unfold log_fmt.
  pose proof (mini_snprintf_render (stack size) size fmt args out ltac:(rewrite Hstack; lia) Hr) as E. cbv zeta in E.
  rewrite E, bind_Ok. cbn [fst].
  apply (naobrowse_log_ok _ (take (Z.to_nat (size - 1)) out)); [|done].
  unfold filled. rewrite <- app_assoc. apply until_nul_lit. by apply Forall_take.
Qed.


(** *** Receiving a page *)

(** The bytes received so far, terminated, in the 16 KB array. *)
Record receiving (p : page) (html : list Z) : Prop := {
  rc_raw : exists rest, raw_html_buffer p = html ++ 0 :: rest;
  rc_size : zlen (raw_html_buffer p) = 16384;
  rc_len : content_len p = zlen html;
  rc_fit : zlen html < 16383;
  rc_text : zlen (rendered_text p) = 16384
}.

(** A chunk is kept whole or dropped. *)
Definition accept (html chunk : list Z) : list Z :=
  if zlen html + zlen chunk <? 16383 then html ++ chunk else html.

Lemma pbuf_copy_filled chunk dst w :
  zlen w + zlen chunk <= zlen dst -> pbuf_copy chunk (filled dst w) (zlen w) = Ok (filled dst (w ++ chunk)).
Proof.
  revert w. induction chunk as [|c r IH]; intros w Hl; cbn [pbuf_copy]; [by rewrite app_nil_r|]. cbn [length] in Hl.
  rewrite filled_wr by lia. rewrite bind_Ok.
  replace (zlen w + 1) with (zlen (w ++ [c])) by (rewrite length_app; simpl; lia).
  rewrite IH by (rewrite length_app; simpl; lia). by rewrite <- app_assoc.
Qed.

Lemma body_cb_ok chunk html b :
  zlen chunk < 65536 -> receiving (br_page b) html -> dbg_ok (br_dbg b) ->
  exists p d, naobrowse_http_body_cb stack (Some chunk) b = Ok (set_page p (set_dbg d b)) /\
    receiving p (accept html chunk) /\ dbg_ok d.
Proof.
  intros Hc [[rest Hraw] Hsz Hlen Hfit Htx] Hd. unfold naobrowse_http_body_cb. rewrite u16_small by lia.
  assert (exists out, render (lit "lwIP Body CB: Received chunk segment of %d bytes") [VInt (zlen chunk)] = Some out) as [out Ho].
  { let f := eval vm_compute in (lit "lwIP Body CB: Received chunk segment of %d bytes") in
      change (lit "lwIP Body CB: Received chunk segment of %d bytes") with f.
    cbn [render Z.eqb Pos.eqb orb]. unfold show_int. rewrite i32_small by lia.
    destruct (Z.eqb_spec (zlen chunk) (-2147483648)); [lia|]. destruct (zlen chunk <? 0); cbn [mbind option_bind]; eauto. }
  destruct (log_fmt_ok 64 _ _ out b ltac:(lia) Ho Hd) as (d & -> & Hd'). rewrite bind_Ok. cbn [br_page set_dbg]. rewrite Hlen.
  rewrite u32_small by lia. unfold MAX_PAGE_STORAGE, accept. change (16384 - 1) with 16383.
  destruct (Z.ltb_spec (zlen html + zlen chunk) 16383).
  - rewrite <- (filled_prefix (raw_html_buffer (br_page b)) html (0 :: rest) Hraw).
    rewrite pbuf_copy_filled by lia. rewrite bind_Ok.
    replace (zlen html + zlen chunk) with (zlen (html ++ chunk)) by (rewrite length_app; lia).
    rewrite filled_wr by (rewrite length_app; lia). rewrite bind_Ok. eexists _, d. split; [done|]. split; [|done].
    split; cbn [raw_html_buffer content_len rendered_text]; [|rewrite filled_length; [done|]|done| |done].
    + eexists. unfold filled. rewrite <- app_assoc. done.
    + rewrite !length_app. simpl. lia.
    + rewrite length_app. lia.
  - destruct (log_lit "CRITICAL ERROR: Incoming HTML exceeds allocated buffer size limits!" (set_dbg d b)) as (d2 & -> & Hd2);
      [by eexists|done|].
    exists (br_page b), d2. split; [done|]. split; [|done]. split; eauto.
Qed.

End Stack.

(** ** The text of a page *)

Definition TAG_P : list Z := bytes "<p>".
Definition TAG_BR : list Z := bytes "<br>".
Definition TAG_DIV : list Z := bytes "</div>".

Definition breaks (h : list Z) : bool :=
  bool_decide (TAG_P `prefix_of` h) || bool_decide (TAG_BR `prefix_of` h) || bool_decide (TAG_DIV `prefix_of` h).

(** What a reader sees of [h]: the characters outside tags, and a newline for
    each paragraph, line break and closing division. *)
Fixpoint strip (inside : bool) (h : list Z) : list Z :=
  match h with
  | [] => []
  | c :: r =>
      if c =? 60 then (if breaks h then [10] else []) ++ strip true r
      else if c =? 62 then strip false r
      else (if inside then [] else [c]) ++ strip inside r
  end.

Lemma i8_inj a b : is_byte a -> is_byte b -> i8 a = i8 b -> a = b.
Proof.
  unfold is_byte, i8, swrap. change (2 ^ 8) with 256. change (2 ^ (8 - 1)) with 128. intros Ha Hb.
  rewrite !Z.mod_small by lia. destruct (Z.ltb_spec a 128), (Z.ltb_spec b 128); lia.
Qed.

Lemma strncmp_key key : forall h rest,
  Forall (fun c => is_byte c /\ c <> 0) key -> Forall is_byte h ->
  exists r, strncmp (h ++ 0 :: rest) (key ++ [0]) (zlen key) = Ok r /\ (r =? 0) = bool_decide (key `prefix_of` h).
Proof.
  unfold strncmp. assert (forall a b, is_byte a -> is_byte b -> a <> b ->
    ((if i8 a <? i8 b then -1 else if i8 b <? i8 a then 1 else 0) =? 0) = false) as Hcmp.
  { intros a b Ha Hb Hab. pose proof (fun E => Hab (i8_inj a b Ha Hb E)).
    destruct (Z.ltb_spec (i8 a) (i8 b)); [done|]. destruct (Z.ltb_spec (i8 b) (i8 a)); [done|lia]. }
  induction key as [|k key IH]; intros h rest Hk Hh; rewrite Nat2Z.id in *.
  - exists 0. split; [done|]. rewrite bool_decide_eq_true_2; [done|]. apply prefix_nil.
  - inversion Hk as [|? ? [Hkb Hk0] Hk']; subst. destruct h as [|x h]; cbn [length app strncmp_loop].
    + destruct (Z.eqb_spec 0 k); [lia|]. cbn [negb orb]. eexists. split; [done|].
      rewrite Hcmp by (done || unfold is_byte; lia). rewrite bool_decide_eq_false_2; [done|]. apply prefix_nil_not.
    + inversion Hh; subst. destruct (Z.eqb_spec x k) as [->|Hne]; cbn [negb orb].
      * destruct (Z.eqb_spec k 0); [done|]. destruct (IH h rest Hk' ltac:(done)) as (r & Hr & Er). exists r.
        split; [done|]. rewrite Er. apply bool_decide_ext. split; [apply prefix_cons|apply prefix_cons_inv_2].
      * eexists. split; [done|]. rewrite Hcmp by done. rewrite bool_decide_eq_false_2; [done|].
        intros Hp. by apply prefix_cons_inv_1 in Hp.
Qed.

Lemma breaks_line_ok h rest : Forall is_byte h -> breaks_line (h ++ 0 :: rest) = Ok (breaks h).
Proof.
  intros Hh. unfold breaks_line, breaks.
  assert (forall k, k = TAG_P \/ k = TAG_BR \/ k = TAG_DIV -> Forall (fun c => is_byte c /\ c <> 0) k) as Hk.
  { unfold is_byte. intros k [-> | [-> | ->]]; match goal with |- Forall _ ?k => let b := eval vm_compute in k in change k with b end;
      repeat (constructor; [lia|]); constructor. }
  destruct (strncmp_key TAG_P h rest (Hk TAG_P ltac:(auto)) Hh) as (a & E1 & Ea).
  destruct (strncmp_key TAG_BR h rest (Hk TAG_BR ltac:(auto)) Hh) as (b & E2 & Eb).
  destruct (strncmp_key TAG_DIV h rest (Hk TAG_DIV ltac:(auto)) Hh) as (c & E3 & Ec).
  change (strncmp (h ++ 0 :: rest) (lit "<p>") 3 = Ok a) in E1. change (strncmp (h ++ 0 :: rest) (lit "<br>") 4 = Ok b) in E2.
  change (strncmp (h ++ 0 :: rest) (lit "</div>") 6 = Ok c) in E3.
  rewrite E1, bind_Ok, Ea. destruct (bool_decide (TAG_P `prefix_of` h)); [done|].
  rewrite E2, bind_Ok, Eb. destruct (bool_decide (TAG_BR `prefix_of` h)); [done|].
  rewrite E3, bind_Ok, Ec. done.
Qed.

Lemma strip_length inside h : (length (strip inside h) <= length h)%nat.
Proof.
  revert inside. induction h as [|c r IH]; intros inside; cbn [strip length]; [lia|].
  destruct (c =? 60); [|destruct (c =? 62)].
  - rewrite length_app. specialize (IH true). destruct (breaks _); simpl; lia.
  - specialize (IH false). lia.
  - rewrite length_app. specialize (IH inside). destruct inside; simpl; lia.
Qed.

Lemma strip_loop_spec h : forall fuel done rest text w inside,
  Forall is_byte h -> zlen text = 16384 -> zlen w + zlen h <= 16382 -> (length h < fuel)%nat ->
  strip_loop fuel (done ++ h ++ 0 :: rest) (zlen (done ++ h)) (zlen done) (filled text w) (zlen w) inside =
  Ok (filled text (w ++ strip inside h), zlen (w ++ strip inside h)).
Proof.
  induction h as [|c r IH]; intros fuel dn rest text w inside Hh Ht Hl Hf;
    (destruct fuel as [|fuel]; [cbn [length] in Hf; lia|]); cbn [strip_loop strip length] in *.
  - rewrite !app_nil_r. destruct (Z.ltb_spec (zlen dn) (zlen dn)); [lia|]. done.
  - inversion Hh; subst.
    destruct (Z.ltb_spec (zlen dn) (zlen (dn ++ c :: r))); [|rewrite length_app in *; simpl in *; lia].
    unfold MAX_PAGE_STORAGE. destruct (Z.ltb_spec (zlen w) (16384 - 2)); [|lia]. cbn [andb].
    rewrite rd_in by (rewrite !length_app; simpl; lia). rewrite bind_Ok, get_app_r, Z.sub_diag by lia.
    change (get ((c :: r) ++ 0 :: rest) 0) with c.
    assert (forall t, fuel = fuel -> strip_loop fuel (dn ++ (c :: r) ++ 0 :: rest) (zlen (dn ++ c :: r)) (zlen dn + 1) t = 
      strip_loop fuel ((dn ++ [c]) ++ r ++ 0 :: rest) (zlen ((dn ++ [c]) ++ r)) (zlen (dn ++ [c])) t) as Hshift.
    { intros t _. rewrite <- !app_assoc. cbn [app]. do 2 f_equal. rewrite length_app. simpl. lia. }
    assert (zlen w + 1 = zlen (w ++ [c]) /\ zlen w + 1 = zlen (w ++ [10])) as [W1 W2] by (rewrite !length_app; simpl; lia).
    destruct (c =? 60).
    + rewrite Nat2Z.id, drop_app_length.
      rewrite (breaks_line_ok (c :: r)) by done. rewrite bind_Ok.
      destruct (breaks (c :: r)); cbn [app].
      * rewrite filled_wr by lia. rewrite !bind_Ok. cbn [fst snd]. rewrite Hshift by done. rewrite W2.
        rewrite IH by (done || lia). by rewrite <- app_assoc.
      * rewrite bind_Ok. cbn [fst snd]. rewrite Hshift by done. rewrite IH by (done || lia). done.
    + destruct (c =? 62); [rewrite Hshift by done; rewrite IH by (done || lia); done|].
      destruct inside; cbn [negb app].
      * rewrite bind_Ok. cbn [fst snd]. rewrite Hshift by done. rewrite IH by (done || lia). done.
      * rewrite filled_wr by lia. rewrite !bind_Ok. cbn [fst snd]. rewrite Hshift by done. rewrite W1.
        rewrite IH by (done || lia). by rewrite <- app_assoc.
Qed.

(** ** The history as a list of addresses *)

(** [hist_rep h us]: the first [history_count] slots hold the addresses [us]
    and the cursor points into them (at -1 before the first). *)
Record hist_rep (h : hist) (us : list (list Z)) : Prop := {
  hr_slots : length (history h) = 10%nat;
  hr_len : Forall (fun s => zlen s = 128) (history h);
  hr_count : history_count h = zlen us;
  hr_max : zlen us <= 10;
  hr_idx : -1 <= current_history_idx h < zlen us;
  hr_start : us <> [] -> 0 <= current_history_idx h;
  hr_urls : forall j u, us !! j = Some u -> exists s, history h !! j = Some s /\ holds s 128 u
}.

(** Visiting [u] at cursor [k]: what lies ahead is forgotten; with ten
    addresses up to the cursor nothing is recorded. *)
Definition visit (u : list Z) (us : list (list Z)) (k : Z) : list (list Z) * Z :=
  let us' := take (Z.to_nat (k + 1)) us in
  if zlen us' <? 10 then (us' ++ [u], zlen us') else (us', k).

Lemma remember_ok url u h us :
  hist_rep h us -> holds url 128 u ->
  exists h', remember url h = Ok h' /\ hist_rep h' (visit u us (current_history_idx h)).1 /\
    current_history_idx h' = (visit u us (current_history_idx h)).2.
Proof.
  intros [Hs Hl Hc Hm Hi Hst Hu] Hurl. set (k := current_history_idx h) in *. unfold remember, visit. fold k.
  set (us' := take (Z.to_nat (k + 1)) us).
  assert (zlen us' = k + 1) as El by (unfold us'; rewrite length_take; lia).
  assert ((if k <? history_count h - 1 then k + 1 else history_count h) = zlen us') as ->.
  { rewrite Hc. destruct (Z.ltb_spec k (zlen us - 1)); [lia|]. destruct us; [|specialize (Hst ltac:(done)); lia]. simpl in *. lia. }
  assert (forall j v, us' !! j = Some v -> exists s, history h !! j = Some s /\ holds s 128 v) as Hu'.
  { intros j v Hj. apply Hu. unfold us' in Hj. by apply lookup_take_Some in Hj as [? _]. }
  unfold HISTORY_DEPTH. destruct (Z.ltb_spec (zlen us') 10) as [Hlt|Hge].
  - rewrite Nat2Z.id. destruct (lookup_lt_is_Some_2 (history h) (length us')) as [slot Hslot]; [lia|].
    rewrite Hslot. cbn [or_fault]. rewrite bind_Ok.
    pose proof (Forall_lookup_1 _ _ _ _ Hl Hslot) as H128. simpl in H128.
    destruct (strcpy_holds url u slot 128 (proj2 Hurl) H128 (holds_len _ _ _ Hurl)) as (d & -> & Hd). rewrite bind_Ok.
    eexists. split; [done|]. cbn [fst snd]. split; [|done].
    split; cbn [history history_count current_history_idx]; rewrite ?length_insert, ?length_app; cbn [length]; try lia; try done.
    + apply Forall_insert; [done|apply Hd].
    + intros j v Hj. apply lookup_app_Some in Hj as [Hj|[Hj Hv]].
      * destruct (Hu' j v Hj) as (s & Hs' & Hh). exists s. split; [|done]. rewrite list_lookup_insert_ne; [done|].
        apply lookup_lt_Some in Hj. lia.
      * apply list_lookup_singleton_Some in Hv as [Ej <-]. exists d. replace j with (length us') by lia.
        rewrite list_lookup_insert_eq by lia. done.
  - eexists. split; [done|]. cbn [fst snd]. split; [|done].
    split; cbn [history history_count current_history_idx]; try done; try lia.
Qed.

(** ** The whole browser *)

Record br_rep (b : browser) (us : list (list Z)) (cur : list Z) : Prop := {
  bp_input : exists t, holds (url_input b) 128 t;
  bp_cur : holds (current_url b) 128 cur;
  bp_hist : hist_rep (br_hist b) us;
  bp_raw : zlen (raw_html_buffer (br_page b)) = 16384;
  bp_text : zlen (rendered_text (br_page b)) = 16384;
  bp_dbg : dbg_ok (br_dbg b)
}.

Lemma zeros_length n : 0 <= n -> zlen (zeros n) = n.
Proof. intros Hn. unfold zeros. rewrite length_replicate. lia. Qed.

(** An emptied page. *)
Lemma receiving_zero t : zlen t = 16384 -> receiving (mk_page (zeros 16384) t 0) [].
Proof.
  intros Ht. split; cbn [raw_html_buffer rendered_text content_len length].
  - eexists. reflexivity.
  - by apply zeros_length.
  - reflexivity.
  - lia.
  - exact Ht.
Qed.

Definition err_ok (e : Z) : Prop := -128 <= e < 128.

Lemma show_small z : -2147483648 < z < 2147483648 -> exists t, show_int true z = Some t.
Proof.
  intros Hz. unfold show_int. rewrite i32_small by lia. destruct (Z.eqb_spec z (-2147483648)); [lia|].
  destruct (z <? 0); eauto.
Qed.

Section Navigate.
#[local] Set Default Proof Using "All".
Context (stack : Z -> list Z) (Hstack : forall n, 0 <= n -> zlen (stack n) = n).

Lemma log_nav url u b :
  until_nul url = Some u -> dbg_ok (br_dbg b) ->
  exists d, log_fmt stack 128 (lit "Dispatcher action: routing request path to: '%s'") [VStr (Some url)] b = Ok (set_dbg d b) /\ dbg_ok d.
Proof.
  intros Hu Hd.
  assert (exists out, render (lit "Dispatcher action: routing request path to: '%s'") [VStr (Some url)] = Some out) as [out Ho].
  { let f := eval vm_compute in (lit "Dispatcher action: routing request path to: '%s'") in
      change (lit "Dispatcher action: routing request path to: '%s'") with f.
    cbn [render Z.eqb Pos.eqb orb]. rewrite Hu. cbn [mbind option_bind]. eauto. }
  by apply (log_fmt_ok stack Hstack 128 _ _ out).
Qed.

Lemma log_err e b :
  err_ok e -> dbg_ok (br_dbg b) ->
  exists d, log_fmt stack 64 (lit "lwIP Immediate Error: Request could not be queued. Code: %d") [VInt e] b = Ok (set_dbg d b) /\ dbg_ok d.
Proof.
  intros He Hd. destruct (show_small e) as [t Ht]; [unfold err_ok in He; lia|].
  assert (exists out, render (lit "lwIP Immediate Error: Request could not be queued. Code: %d") [VInt e] = Some out) as [out Ho].
  { let f := eval vm_compute in (lit "lwIP Immediate Error: Request could not be queued. Code: %d") in
      change (lit "lwIP Immediate Error: Request could not be queued. Code: %d") with f.
    cbn [render Z.eqb Pos.eqb orb]. rewrite Ht. cbn [mbind option_bind]. eauto. }
  by apply (log_fmt_ok stack Hstack 64 _ _ out).
Qed.

(** Navigation: the address becomes current, the page is emptied, and the
    history changes as [visit] says when it is to be recorded. *)
Lemma navigate_ok url u save e b us cur :
  br_rep b us cur -> holds url 128 u -> err_ok e ->
  exists b', naobrowse_navigate_to stack url save e b = Ok b' /\
    br_rep b' (if save then (visit u us (current_history_idx (br_hist b))).1 else us) u /\
    current_history_idx (br_hist b') = (if save then (visit u us (current_history_idx (br_hist b))).2 else current_history_idx (br_hist b)) /\
    url_input b' = url_input b /\ is_active b' = is_active b /\ receiving (br_page b') [].
Proof.
  intros [Hin Hcur Hh Hraw Htx Hd] Hurl He. unfold naobrowse_navigate_to.
  destruct (log_nav url u b (proj2 Hurl) Hd) as (d1 & -> & Hd1). rewrite bind_Ok. cbn [set_dbg br_page current_url].
  unfold MAX_PAGE_STORAGE. rewrite memset_zero, bind_Ok by done.
  destruct (strcpy_holds url u (current_url b) 128 (proj2 Hurl) (proj1 Hcur) (holds_len _ _ _ Hurl)) as (c & -> & Hc).
  rewrite bind_Ok. cbn [url_input br_hist is_active br_dbg].
  set (b1 := mk_browser _ _ _ _ _ _ _).
  assert (exists h d, (if save then b ← naobrowse_log (lit "Saving URL endpoint trace to history backstack...") b1;
      h ← remember url (br_hist b); Ok (set_hist h b) else Ok b1) = Ok (set_hist h (set_dbg d b1)) /\ dbg_ok d /\
      hist_rep h (if save then (visit u us (current_history_idx (br_hist b))).1 else us) /\
      current_history_idx h = (if save then (visit u us (current_history_idx (br_hist b))).2 else current_history_idx (br_hist b)))
    as (h & d2 & -> & Hd2 & Hh2 & Hk2).
  { destruct save; [|by exists (br_hist b), d1].
    destruct (log_lit "Saving URL endpoint trace to history backstack..." b1) as (d2 & -> & Hd2); [by eexists|done|].
    rewrite bind_Ok. destruct (remember_ok url u (br_hist b) us Hh Hurl) as (h & Hr & Hh' & Hk). cbn [set_dbg br_hist b1].
    rewrite Hr, bind_Ok. by exists h, d2. }
  rewrite bind_Ok.
  destruct (log_lit "Binding internal routing table target to QEMU Gateway IP: 10.0.2.2" (set_hist h (set_dbg d2 b1))) as (d3 & -> & Hd3);
    [by eexists|done|]. rewrite bind_Ok.
  match goal with |- context [naobrowse_log (lit "Invoking asynchronous lwIP network socket routine: httpc_get_file()...") ?x] =>
    destruct (log_lit "Invoking asynchronous lwIP network socket routine: httpc_get_file()..." x) as (d4 & -> & Hd4) end;
    [by eexists|done|]. rewrite bind_Ok.
  pose proof (zeros_length 16384 ltac:(lia)) as Hz.
  destruct (negb (e =? 0)).
  - match goal with |- context [log_fmt stack 64 _ _ ?x] => destruct (log_err e x He Hd4) as (d5 & -> & Hd5) end.
    rewrite bind_Ok. cbn [b1 set_dbg set_hist br_page rendered_text].
    destruct (strcpy_holds (lit "NETWORK ROUTING DISPATCH FAILURE: Unreachable Gateway") (bytes "NETWORK ROUTING DISPATCH FAILURE: Unreachable Gateway")
      (rendered_text (br_page b)) 16384) as (t & -> & Ht); [reflexivity|done|vm_compute; reflexivity|]. rewrite bind_Ok.
    eexists. split; [reflexivity|]. split; [split; [exact Hin|exact Hc|exact Hh2|exact Hz|apply Ht|exact Hd5]|].
    split; [exact Hk2|]. split; [reflexivity|]. split; [reflexivity|]. apply receiving_zero, Ht.
  - match goal with |- context [naobrowse_log ?m ?x] => destruct (log_lit "SYN Packet queued in TX descriptor ring successfully. Handshake completed!" x)
      as (d5 & -> & Hd5) end; [by eexists|done|].
    eexists. split; [reflexivity|]. split; [split; [exact Hin|exact Hc|exact Hh2|exact Hz|exact Htx|exact Hd5]|].
    split; [exact Hk2|]. split; [reflexivity|]. split; [reflexivity|]. apply receiving_zero, Htx.
Qed.

Lemma history_button_ok msg str step e b us cur u :
  br_rep b us cur -> until_nul msg = Some str -> err_ok e ->
  0 <= current_history_idx (br_hist b) + step -> us !! Z.to_nat (current_history_idx (br_hist b) + step) = Some u ->
  exists b', history_button stack msg step e b = Ok b' /\ br_rep b' us u /\
    current_history_idx (br_hist b') = current_history_idx (br_hist b) + step.
Proof.
  intros Hb Hm He H0 Hu. pose proof Hb as [[t Hin] Hcur Hh Hraw Htx Hd]. unfold history_button.
  destruct (naobrowse_log_ok msg str b Hm Hd) as (d & -> & Hd'). rewrite bind_Ok. cbn [set_dbg br_hist].
  destruct (Z.ltb_spec (current_history_idx (br_hist b) + step) 0); [lia|].
  destruct (hr_urls _ _ Hh _ _ Hu) as (slot & Hslot & Hs). rewrite Hslot. cbn [or_fault]. rewrite bind_Ok.
  cbn [set_hist set_dbg url_input].
  destruct (strcpy_holds slot u (url_input b) 128 (proj2 Hs) (proj1 Hin) (holds_len _ _ _ Hs)) as (x & -> & Hx). rewrite bind_Ok.
  match goal with |- context [naobrowse_navigate_to stack x false e ?b1] =>
    destruct (navigate_ok x u false e b1 us cur) as (b' & Hr & Hb' & Hk & _) end.
  - split; cbn [set_input set_hist set_dbg url_input current_url br_page br_hist br_dbg]; [eauto|exact Hcur| |exact Hraw|exact Htx|exact Hd'].
    destruct Hh as [? ? ? ? ? ? ?]. apply lookup_lt_Some in Hu.
    split; cbn [history history_count current_history_idx]; try done; lia.
  - exact Hx.
  - exact He.
  - exists b'. split; [exact Hr|]. split; [exact Hb'|exact Hk].
Qed.

End Navigate.

(** The abstract browser: addresses visited, cursor and current address. A
    frame applies the pressed buttons in the order of the window. *)
Definition press (step : Z) (allowed pressed : bool) (st : list (list Z) * Z * list Z) : list (list Z) * Z * list Z :=
  let '(us, k, cur) := st in
  if allowed && pressed
  then (us, k + step, match us !! Z.to_nat (k + step) with Some u => u | None => [] end) else st.

Definition frame_spec (i : br_in) (st : list (list Z) * Z * list Z) : list (list Z) * Z * list Z :=
  let '(us1, k1, cur1) := press (-1) (0 <? st.1.2) (bi_back i) st in
  let '(us2, k2, cur2) := press 1 (k1 <? zlen us1 - 1) (bi_fwd i) (us1, k1, cur1) in
  if bi_go i then (visit (bi_text i) us2 k2, bi_text i) else (us2, k2, cur2).

Definition br_state (b : browser) (st : list (list Z) * Z * list Z) : Prop :=
  let '(us, k, cur) := st in br_rep b us cur /\ current_history_idx (br_hist b) = k.

Record br_in_ok (i : br_in) : Prop := {
  ri_text : zlen (bi_text i) < 128 /\ Forall (fun c => c <> 0) (bi_text i);
  ri_errs : err_ok (bi_err_back i) /\ err_ok (bi_err_fwd i) /\ err_ok (bi_err_go i)
}.

Lemma console_loop_ok d : dbg_ok d -> forall n i, 0 <= i -> exists l, console_loop n i d = Ok l.
Proof.
  intros [Hl Hf Hp] n. induction n as [|n IH]; intros i Hi; cbn [console_loop]; [eauto|]. unfold DEBUG_LINE_COUNT.
  pose proof (Z.mod_pos_bound (debug_write_ptr d + i) 25 ltac:(lia)). rewrite Z.rem_mod_nonneg by lia.
  destruct (lookup_lt_is_Some_2 (debug_console d) (Z.to_nat ((debug_write_ptr d + i) mod 25))) as [line Hline]; [lia|].
  rewrite Hline. cbn [or_fault]. rewrite bind_Ok. pose proof (Forall_lookup_1 _ _ _ _ Hf Hline) as H96. simpl in H96.
  rewrite rd_in by lia. rewrite bind_Ok. destruct (IH (i + 1)) as [l ->]; [lia|]. rewrite bind_Ok. eauto.
Qed.

Section Frames.
#[local] Set Default Proof Using "All".
Context (stack : Z -> list Z) (Hstack : forall n, 0 <= n -> zlen (stack n) = n).

Lemma button_ok (allowed pressed : bool) msg str step e b us k cur :
  br_state b (us, k, cur) -> until_nul msg = Some str -> err_ok e ->
  (allowed = true -> 0 <= k + step < zlen us) ->
  exists b', (if allowed && pressed then history_button stack msg step e b else Ok b) = Ok b' /\
    br_state b' (press step allowed pressed (us, k, cur)).
Proof.
  intros [Hb Hk] Hm He Hal. unfold press. destruct (allowed && pressed) eqn:E; [|by exists b].
  apply andb_prop in E as [-> _]. specialize (Hal eq_refl).
  destruct (lookup_lt_is_Some_2 us (Z.to_nat (k + step))) as [u Hu]; [lia|]. rewrite Hu. subst k.
  destruct (history_button_ok stack Hstack msg str step e b us cur u Hb Hm He ltac:(lia) Hu) as (b' & Hr & Hb' & Hk').
  exists b'. split; [exact Hr|]. split; [exact Hb'|exact Hk'].
Qed.

Lemma go_ok (go : bool) e u txt b us k cur :
  br_state b (us, k, cur) -> holds u 128 txt -> err_ok e ->
  exists b', (if go then go_button stack e (set_input u b) else Ok (set_input u b)) = Ok b' /\
    br_state b' (if go then (visit txt us k, txt) else (us, k, cur)).
Proof.
  intros [[_ Hcur Hh Hraw Htx Hd] Hk] Hu He. destruct go.
  - unfold go_button.
    destruct (log_lit "UI Control Action: 'Go' Button Clicked." (set_input u b)) as (d & -> & Hd'); [by eexists|exact Hd|].
    rewrite bind_Ok. cbv zeta. cbn [set_dbg set_input url_input br_page].
    match goal with |- context [naobrowse_navigate_to stack u true _ ?x] =>
      destruct (navigate_ok stack Hstack u txt true e x us cur) as (b3 & Hr & Hb3 & Hk3 & _) end;
      [split; cbn; [eauto|exact Hcur|exact Hh|exact Hraw|exact Htx|exact Hd']|exact Hu|exact He|].
    exists b3. split; [exact Hr|]. cbn in Hb3, Hk3. rewrite Hk in *. destruct (visit txt us k) as [us3 k3].
    split; [exact Hb3|exact Hk3].
  - eexists. split; [reflexivity|]. split; [|exact Hk]. split; cbn; [eauto|exact Hcur|exact Hh|exact Hraw|exact Htx|exact Hd].
Qed.

(** C36: for every combination of button presses and every answer of lwIP, a
    frame of the browser returns and acts on the history as the abstract
    browser does: back and forward move the cursor inside the visited
    addresses and load the address there, "Go" forgets the addresses ahead
    and appends the typed one (unless ten precede it). *)
Theorem browser_history_refines (i : br_in) (b : browser) (us : list (list Z)) (k : Z) (cur : list Z) :
  br_state b (us, k, cur) -> br_in_ok i -> is_active b <> 0 -> bi_begin i = true ->
  exists b', render_naobrowse stack i b = Ok b' /\ br_state b' (frame_spec i (us, k, cur)).
Proof.
  intros Hst [[Ht Htz] (E1 & E2 & E3)] Ha Hbg. unfold render_naobrowse.
  assert (truth (is_active b) = true) as -> by (unfold truth; by destruct (Z.eqb_spec (is_active b) 0)).
  rewrite Hbg. cbn [negb]. unfold frame_spec. cbn [fst snd].
  pose proof Hst as [Hb Hk]. pose proof (hr_idx _ _ (bp_hist _ _ _ Hb)) as Hi. rewrite Hk in *.
  destruct (button_ok (0 <? k) (bi_back i) (lit "UI Control Action: Back Button Clicked.") (bytes "UI Control Action: Back Button Clicked.")
    (-1) (bi_err_back i) b us k cur Hst eq_refl E1 ltac:(lia)) as (b1 & -> & Hst1). rewrite bind_Ok.
  destruct (press (-1) (0 <? k) (bi_back i) (us, k, cur)) as [[us1 k1] cur1]. pose proof Hst1 as [Hb1 Hk1].
  pose proof (hr_idx _ _ (bp_hist _ _ _ Hb1)) as Hi1. rewrite Hk1, (hr_count _ _ (bp_hist _ _ _ Hb1)) in *.
  destruct (button_ok (k1 <? zlen us1 - 1) (bi_fwd i) (lit "UI Control Action: Forward Button Clicked.") (bytes "UI Control Action: Forward Button Clicked.")
    1 (bi_err_fwd i) b1 us1 k1 cur1 Hst1 eq_refl E2 ltac:(lia)) as (b2 & -> & Hst2). rewrite bind_Ok.
  destruct (press 1 (k1 <? zlen us1 - 1) (bi_fwd i) (us1, k1, cur1)) as [[us2 k2] cur2]. destruct Hst2 as [Hb2 Hk2].
  destruct (bp_input _ _ _ Hb2) as [t Hin].
  destruct (edit_field_holds (url_input b2) (bi_text i) 128 (proj1 Hin) Ht Htz) as (u & -> & Hu). rewrite bind_Ok.
  destruct (go_ok (bi_go i) (bi_err_go i) u (bi_text i) b2 us2 k2 cur2 (conj Hb2 Hk2) Hu E3) as (b3 & -> & Hst3).
  rewrite bind_Ok. destruct (if bi_go i then _ else _) as [[us4 k4] cur4].
  assert (exists l, (if bi_console i then console_lines (br_dbg b3) else Ok []) = Ok l) as [l ->].
  { destruct (bi_console i); [|eauto]. apply console_loop_ok; [apply Hst3|lia]. }
  rewrite bind_Ok. exists b3. split; [reflexivity|exact Hst3].
Qed.

End Frames.

(** ** Loading a page *)

(** The callbacks of one transfer: the chunks of the body in order, then the
    result. *)
Fixpoint receive (stack : Z -> list Z) (chunks : list (list Z)) (b : browser) : res browser :=
  match chunks with
  | [] => Ok b
  | c :: r => b ← naobrowse_http_body_cb stack (Some c) b; receive stack r b
  end.

Definition load_page (stack : Z -> list Z) (url : list Z) (chunks : list (list Z)) (rx err : Z) (b : browser) : res browser :=
  b ← naobrowse_navigate_to stack url true 0 b;
  b ← receive stack chunks b;
  naobrowse_http_result_cb stack 0 rx err b.

Section Load.
#[local] Set Default Proof Using "All".
Context (stack : Z -> list Z) (Hstack : forall n, 0 <= n -> zlen (stack n) = n).

Lemma receive_ok chunks : forall html b,
  Forall (fun c => zlen c < 65536) chunks -> receiving (br_page b) html -> dbg_ok (br_dbg b) ->
  exists b', receive stack chunks b = Ok b' /\ receiving (br_page b') (fold_left accept chunks html) /\ dbg_ok (br_dbg b') /\
    current_url b' = current_url b.
Proof.
  induction chunks as [|c r IH]; intros html b Hc Hr Hd; cbn [receive fold_left]; [eauto|].
  inversion Hc; subst. destruct (body_cb_ok stack Hstack c html b ltac:(done) Hr Hd) as (p & d & -> & Hp & Hd').
  rewrite bind_Ok. destruct (IH (accept html c) (set_page p (set_dbg d b)) ltac:(done) Hp Hd') as (b' & Hb' & Hr' & Hd2 & Hu).
  exists b'. split; [exact Hb'|]. split; [exact Hr'|]. split; [exact Hd2|exact Hu].
Qed.

Lemma parse_ok html b :
  receiving (br_page b) html -> Forall is_byte html -> dbg_ok (br_dbg b) ->
  exists d, naobrowse_render_engine_parse b =
    Ok (set_dbg d (set_rendered (filled (zeros 16384) (strip false html ++ [0])) b)) /\ dbg_ok d.
Proof.
  intros [[rest Hraw] Hsz Hlen Hfit Htx] Hby Hd. unfold naobrowse_render_engine_parse.
  destruct (log_lit "Parser engine triggered: Stripping tags..." b) as (d1 & -> & Hd1); [by eexists|exact Hd|].
  rewrite bind_Ok. cbn [set_dbg br_page]. unfold MAX_PAGE_STORAGE. rewrite memset_zero, bind_Ok by exact Htx.
  rewrite Hlen, Hraw.
  pose proof (strip_loop_spec html (S (Z.to_nat (zlen html))) [] rest (zeros 16384) [] false Hby
    (zeros_length 16384 ltac:(lia)) ltac:(cbn [length]; lia) ltac:(lia)) as Hs.
  cbn [app length] in Hs. change (filled (zeros 16384) []) with (zeros 16384) in Hs. change (Z.of_nat 0) with 0 in Hs.
  rewrite Hs, bind_Ok. cbn [fst snd]. pose proof (strip_length false html).
  rewrite filled_wr by (rewrite zeros_length; lia). rewrite bind_Ok.
  match goal with |- context [naobrowse_log _ ?x] =>
    destruct (log_lit "Parser finished preparing text layer structure." x) as (d2 & -> & Hd2) end; [by eexists|exact Hd1|].
  eexists. split; [|exact Hd2]. reflexivity.
Qed.

Lemma result_ok rx err html b :
  receiving (br_page b) html -> Forall is_byte html -> dbg_ok (br_dbg b) ->
  exists b', naobrowse_http_result_cb stack 0 rx err b = Ok b' /\
    rendered_text (br_page b') = filled (zeros 16384) (strip false html ++ [0]) /\
    is_loading b' = 0 /\ current_url b' = current_url b.
Proof.
  intros Hr Hby Hd. unfold naobrowse_http_result_cb.
  destruct (log_lit "lwIP Callback Alert: TCP Handshake cycle complete!" b) as (d1 & -> & Hd1); [by eexists|exact Hd|].
  rewrite bind_Ok. cbn [Z.eqb].
  assert (exists out, render (lit "SUCCESS! Received HTTP 200/OK. Transferred: %u bytes") [VInt rx] = Some out) as [out Ho].
  { let f := eval vm_compute in (lit "SUCCESS! Received HTTP 200/OK. Transferred: %u bytes") in
      change (lit "SUCCESS! Received HTTP 200/OK. Transferred: %u bytes") with f.
    cbn [render Z.eqb Pos.eqb orb]. unfold show_int. cbn [mbind option_bind]. eauto. }
  destruct (log_fmt_ok stack Hstack 96 _ _ out (set_dbg d1 b) ltac:(lia) Ho Hd1) as (d2 & -> & Hd2). rewrite bind_Ok.
  match goal with |- context [naobrowse_render_engine_parse ?x] => destruct (parse_ok html x Hr Hby Hd2) as (d3 & -> & Hd3) end.
  rewrite !bind_Ok. eexists. split; [reflexivity|]. split; [reflexivity|]. split; reflexivity.
Qed.

Lemma accept_bytes chunks : forall html,
  Forall is_byte html -> Forall (Forall is_byte) chunks -> Forall is_byte (fold_left accept chunks html).
Proof.
  induction chunks as [|c r IH]; intros html Hh Hc; cbn [fold_left]; [done|]. inversion Hc; subst. apply IH; [|done].
  unfold accept. destruct (_ <? _); [by apply Forall_app|done].
Qed.

(** Loading a page that arrives in any number of chunks returns, makes the
    address current and shows exactly the text of the received bytes: the
    characters outside tags in order, with a newline for each paragraph, line
    break and closing division. A chunk that would overflow the 16 KB store
    is dropped whole. *)
Theorem page_rendered (b : browser) (us : list (list Z)) (cur url u : list Z) (chunks : list (list Z)) (rx err : Z) :
  br_rep b us cur -> holds url 128 u ->
  Forall (fun c => zlen c < 65536) chunks -> Forall (Forall is_byte) chunks ->
  exists b', load_page stack url chunks rx err b = Ok b' /\
    rendered_text (br_page b') = filled (zeros 16384) (strip false (fold_left accept chunks []) ++ [0]) /\
    is_loading b' = 0 /\ holds (current_url b') 128 u.
Proof.
  intros Hb Hu Hc Hby. unfold load_page.
  destruct (navigate_ok stack Hstack url u true 0 b us cur Hb Hu ltac:(unfold err_ok; lia)) as (b1 & -> & Hb1 & _ & _ & _ & Hr1).
  rewrite bind_Ok. destruct (receive_ok chunks [] b1 Hc Hr1 (bp_dbg _ _ _ Hb1)) as (b2 & -> & Hr2 & Hd2 & Hu2). rewrite bind_Ok.
  destruct (result_ok rx err _ b2 Hr2 (accept_bytes chunks [] ltac:(done) Hby) Hd2) as (b3 & Hrun & Ht & Hl & Hu3).
  exists b3. split; [exact Hrun|]. split; [exact Ht|]. split; [exact Hl|]. rewrite Hu3, Hu2. apply (bp_cur _ _ _ Hb1).
Qed.

End Load.

(** ** Witnesses *)

(** The start state with its log ring. *)
Definition browser_demo : browser :=
  mk_browser (zeros 128) (zeros 128) (mk_page (zeros 16384) (zeros 16384) 0)
    (mk_hist (replicate 10 (zeros 128)) 0 (-1)) 0 1 (mk_dbg (replicate 25 (zeros 96)) 0).

Lemma browser_demo_rep : br_rep browser_demo [] [].
Proof.
  split; cbn [browser_demo url_input current_url br_hist br_page br_dbg raw_html_buffer rendered_text].
  - exists []. split; vm_compute; reflexivity.
  - split; vm_compute; reflexivity.
  - split; cbn [history history_count current_history_idx length]; try lia; try done. apply Forall_replicate. by apply zeros_length.
  - by apply zeros_length.
  - by apply zeros_length.
  - split; cbn [debug_console debug_write_ptr]; [done| |lia]. apply Forall_replicate. by apply zeros_length.
Qed.

Lemma page_rendered_witness :
  exists b', load_page zeros (filled (zeros 128) (lit "10.0.2.2")) [bytes "<p>Hel"; bytes "lo<br>"] 12 0 browser_demo = Ok b' /\
    rendered_text (br_page b') = filled (zeros 16384) (10 :: bytes "Hello" ++ [10; 0]) /\ is_loading b' = 0.
Proof.
  destruct (page_rendered zeros zeros_length browser_demo [] [] (filled (zeros 128) (lit "10.0.2.2")) (bytes "10.0.2.2")
    [bytes "<p>Hel"; bytes "lo<br>"] 12 0) as (b' & Hr & Ht & Hl & _).
  - exact browser_demo_rep.
  - split; vm_compute; reflexivity.
  - repeat (constructor; [vm_compute; reflexivity|]). constructor.
  - repeat (constructor; [match goal with |- Forall _ ?k => let b := eval vm_compute in k in change k with b end;
      unfold is_byte; repeat (constructor; [lia|]); constructor|]). constructor.
  - exists b'. split; [exact Hr|]. split; [|exact Hl]. rewrite Ht. f_equal.
Defined.

Definition demo_go : br_in := mk_br_in true false false (bytes "10.0.2.2") true true 0 0 0.

Lemma browser_history_refines_witness :
  exists b', render_naobrowse zeros demo_go browser_demo = Ok b' /\
    br_state b' ([bytes "10.0.2.2"], 0, bytes "10.0.2.2").
Proof.
  apply (browser_history_refines zeros zeros_length demo_go browser_demo [] (-1) []).
  - split; [exact browser_demo_rep|reflexivity].
  - split; cbn [demo_go bi_text bi_err_back bi_err_fwd bi_err_go].
    + split; [vm_compute; reflexivity|]. match goal with |- Forall _ ?k => let b := eval vm_compute in k in change k with b end.
      repeat (constructor; [lia|]). constructor.
    + unfold err_ok. lia.
  - discriminate.
  - reflexivity.
Defined.
