(* ===== verification/Edit.v ===== *)
(** * Edit: the text editor (naoedit.c)

    The editor delays file operations without blocking: pressing OK starts a
    wait during which the busy cursor is animated, and a later frame performs
    the operation, 30 ticks after it was confirmed. The state of the animated
    cursor is the one of Cursor. *)

From Stdlib Require Import ZArith Lia Bool String.
From stdpp Require Import base list gmap.
From S2P Require Import Prelude CLib Fs Cursor Ui.
From stdpp Require Import options.

Definition MAX_TEXT_LEN : Z := 4096.

(** The document: [text_buffer], [text_len]. *)
Record doc := mk_doc { text_buffer : list Z; text_len : Z }.

(** The dialogs and the pending operation. *)
Record ops := mk_ops {
  filepath_buffer : list Z; show_open_dialog : Z; show_save_dialog : Z;
  file_op_state : Z; file_op_start_tick : Z
}.

(** [alert_state], [alert_message]. *)
Record alert := mk_alert { alert_state : Z; alert_message : list Z }.

Record editor := mk_editor {
  naoedit_active : Z; naoedit_minimized : Z; ed_doc : doc; ed_ops : ops; ed_alert : alert;
  bounds_naoedit : nk_rect; ed_ani : ani
}.

Definition editor_boot (a : ani) : editor :=
  mk_editor 0 0
    (mk_doc (filled (replicate (Z.to_nat MAX_TEXT_LEN) 0)
               (bytes "Welcome to NaoEdit!" ++ [10] ++ bytes "Type your text here...")) 41)
    (mk_ops (filled (replicate 128 0) (bytes "0:/NOTES.TXT")) 0 0 0 0)
    (mk_alert 0 (replicate 64 0)) (mk_rect 100 80 450 350) a.

Definition set_doc (d : doc) (e : editor) : editor :=
  mk_editor (naoedit_active e) (naoedit_minimized e) d (ed_ops e) (ed_alert e) (bounds_naoedit e) (ed_ani e).
Definition set_ops (o : ops) (e : editor) : editor :=
  mk_editor (naoedit_active e) (naoedit_minimized e) (ed_doc e) o (ed_alert e) (bounds_naoedit e) (ed_ani e).
Definition set_alert (a : alert) (e : editor) : editor :=
  mk_editor (naoedit_active e) (naoedit_minimized e) (ed_doc e) (ed_ops e) a (bounds_naoedit e) (ed_ani e).
Definition set_ani (a : ani) (e : editor) : editor :=
  mk_editor (naoedit_active e) (naoedit_minimized e) (ed_doc e) (ed_ops e) (ed_alert e) (bounds_naoedit e) a.
Definition set_op (st : Z) (o : ops) : ops :=
  mk_ops (filepath_buffer o) (show_open_dialog o) (show_save_dialog o) st (file_op_start_tick o).
Definition set_shown (op sv : Z) (o : ops) : ops :=
  mk_ops (filepath_buffer o) op sv (file_op_state o) (file_op_start_tick o).

(** [alert_state = st] and the copy of the message. *)
Definition raise_alert (st : Z) (msg : list Z) (e : editor) : res editor :=
  m ← copy_term msg (alert_message (ed_alert e)) 0;
  Ok (set_alert (mk_alert st m) e).

Section Files.
Context {V : Type} `{FatFs V}.

Definition execute_actual_open (path : list Z) (e : editor) (v : V) : res (editor * V) :=
  let '(fr, fp, v) := f_open path FA_READ v in
  if fr =? FR_OK then
    let '(fr, data, v) := f_read fp (MAX_TEXT_LEN - 1) v in
    buf ← read_into (text_buffer (ed_doc e)) data;
    e ← (if fr =? FR_OK then
           buf ← wr buf (zlen data) 0;
           Ok (set_alert (mk_alert 0 (alert_message (ed_alert e))) (set_doc (mk_doc buf (zlen data)) e))
         else raise_alert 2 (lit "Failed to read file data.") (set_doc (mk_doc buf (text_len (ed_doc e))) e));
    Ok (e, f_close fp v)
  else
    e ← raise_alert 2 (lit "File not found / Invalid path.") e; Ok (e, v).

Definition execute_actual_save (path : list Z) (e : editor) (v : V) : res (editor * V) :=
  let '(fr, fp, v) := f_open path (Z.lor FA_WRITE FA_CREATE_ALWAYS) v in
  if fr =? FR_OK then
    let '(fr, _, v) := f_write fp (take (Z.to_nat (text_len (ed_doc e))) (text_buffer (ed_doc e))) v in
    e ← (if fr =? FR_OK then raise_alert 1 (lit "File written securely to disk.") e
         else raise_alert 2 (lit "Storage write cycle failed.") e);
    Ok (e, f_close fp v)
  else
    e ← raise_alert 2 (lit "Cannot open path for writing.") e; Ok (e, v).

(** The pending operation, once 30 ticks have passed. *)
Definition due (timer_ticks : Z) (o : ops) : bool :=
  negb (file_op_state o =? 0) && (30 <=? u32 (timer_ticks - file_op_start_tick o)).

Definition delay_handler (timer_ticks : Z) (e : editor) (v : V) : res (editor * V) :=
  if due timer_ticks (ed_ops e) then
    let e := set_ani (ani_stop (ed_ani e)) e in
    path ← or_fault (until_nul (filepath_buffer (ed_ops e)));
    x ← (if file_op_state (ed_ops e) =? 1 then execute_actual_open path e v
         else if file_op_state (ed_ops e) =? 2 then execute_actual_save path e v
         else Ok (e, v));
    Ok (set_ops (set_op 0 (ed_ops x.1)) x.1, x.2)
  else Ok (e, v).

(** ** The frame *)

(** Nuklear's answers in one frame. *)
Record ed_in := mk_ed_in {
  ei_ticks : Z; ei_clicked : Z; ei_any_active : bool; ei_main : win_in;
  ei_menu : bool; ei_open : bool; ei_save : bool;
  ei_path : list Z; ei_ok : bool; ei_cancel : bool; ei_text : list Z;
  ei_alert : win_in; ei_alert_ok : bool
}.

(** The File menu. *)
Definition file_menu (i : ed_in) (o : ops) : ops :=
  if ei_menu i then
    let o := if ei_open i && (file_op_state o =? 0) then set_shown 1 0 o else o in
    if ei_save i && (file_op_state o =? 0) then set_shown 0 1 o else o
  else o.

(** The path field with its OK and Cancel buttons. *)
Definition path_fields (i : ed_in) (e : editor) : res editor :=
  let o := ed_ops e in
  if truth (show_open_dialog o) || truth (show_save_dialog o) then
    b ← edit_field (filepath_buffer o) (ei_path i);
    let o := mk_ops b (show_open_dialog o) (show_save_dialog o) (file_op_state o) (file_op_start_tick o) in
    let e := set_ops o e in
    let e :=
      if ei_ok i then
        let e := if file_op_state o =? 0
                 then set_ops (mk_ops b (show_open_dialog o) (show_save_dialog o)
                                 (if truth (show_open_dialog o) then 1 else 2) (ei_ticks i))
                        (set_ani (ani_play (ei_ticks i) (ed_ani e)) e)
                 else e in
        set_ops (set_shown 0 0 (ed_ops e)) e
      else e in
    Ok (if ei_cancel i then set_ops (set_shown 0 0 (ed_ops e)) e else e)
  else Ok e.

(** The body of the main window. *)
Definition edit_body (i : ed_in) (e : editor) : res editor :=
  let e := mk_editor (naoedit_active e) (naoedit_minimized e) (ed_doc e) (ed_ops e) (ed_alert e) (w_bounds (ei_main i)) (ed_ani e) in
  let e := set_ops (file_menu i (ed_ops e)) e in
  e ← path_fields i e;
  t ← edit_field (text_buffer (ed_doc e)) (ei_text i);
  n ← strlen t;
  Ok (set_doc (mk_doc t n) e).

Definition W_EDIT : list Z := bytes "NaoEdit".
Definition W_ALERT : list Z := bytes "NaoEdit Alert".

(** The alert window. *)
Definition alert_window (i : ed_in) (e : editor) (d : desk) : editor * desk :=
  let hide := set_alert (mk_alert 0 (alert_message (ed_alert e))) e in
  if negb (alert_state (ed_alert e) =? 0) then
    if w_begin (ei_alert i) && ei_alert_ok i then (hide, release W_EDIT d)
    else
      let d := route 5 (drag d =? 5) W_ALERT (ei_alert i) (ei_clicked i) false d in
      if w_hidden (ei_alert i) then (hide, release W_EDIT d) else (e, d)
  else (e, d).

Definition render_naoedit (i : ed_in) (e : editor) (d : desk) (v : V) : res (editor * desk * V) :=
  if negb (truth (naoedit_active e)) || truth (naoedit_minimized e) then Ok (e, d, v)
  else
    x ← delay_handler (ei_ticks i) e v;
    e ← (if w_begin (ei_main i) then edit_body i x.1 else Ok x.1);
    let d := route 4 (drag d =? 4) W_EDIT (ei_main i) (ei_clicked i) (ei_any_active i) d in
    let e := if w_hidden (ei_main i)
             then mk_editor 0 (naoedit_minimized e) (ed_doc e) (set_op 0 (ed_ops e)) (mk_alert 0 (alert_message (ed_alert e)))
                    (bounds_naoedit e) (ani_stop (ed_ani e))
             else e in
    let '(e, d) := alert_window i e d in
    Ok (e, d, x.2).

End Files.

(** ** The animation *)

Section Animation.
Context {V : Type} `{FatFs V}.

Lemma raise_keeps st m e e' : raise_alert st m e = Ok e' -> ed_ani e' = ed_ani e.
Proof. unfold raise_alert. intros Hr. by inv_ok. Qed.

Lemma open_keeps path e (v : V) e' v' : execute_actual_open path e v = Ok (e', v') -> ed_ani e' = ed_ani e.
Proof.
  unfold execute_actual_open. destruct (f_open path _ v) as [[r h] v1]. destruct (_ =? _).
  - destruct (f_read h _ v1) as [[r2 data] v2]. intros Hr. apply bind_Ok_inv in Hr as (b & _ & Hr). apply bind_Ok_inv in Hr as (e1 & H1 & Hr).
    injection Hr as <- _. destruct (_ =? _); [|by apply raise_keeps in H1]. apply bind_Ok_inv in H1 as (b2 & _ & H1). by injection H1 as <-.
  - intros Hr. apply bind_Ok_inv in Hr as (e1 & H1 & Hr). injection Hr as <- _. by apply raise_keeps in H1.
Qed.

Lemma save_keeps path e (v : V) e' v' : execute_actual_save path e v = Ok (e', v') -> ed_ani e' = ed_ani e.
Proof.
  unfold execute_actual_save. destruct (f_open path _ v) as [[r h] v1]. destruct (_ =? _).
  - destruct (f_write h _ v1) as [[r2 n] v2]. intros Hr. apply bind_Ok_inv in Hr as (e1 & H1 & Hr). injection Hr as <- _.
    destruct (_ =? _); by apply raise_keeps in H1.
  - intros Hr. apply bind_Ok_inv in Hr as (e1 & H1 & Hr). injection Hr as <- _. by apply raise_keeps in H1.
Qed.

Lemma delay_keeps t e (v : V) e' v' : delay_handler t e v = Ok (e', v') -> same_frames (ed_ani e) (ed_ani e').
Proof.
  unfold delay_handler. destruct (due _ _); [|by intros [= <- _]]. intros Hd. apply bind_Ok_inv in Hd as (p & _ & Hd).
  apply bind_Ok_inv in Hd as ([e1 v1] & He & Hd). injection Hd as <- _. cbn [fst set_ops ed_ani].
  transitivity (ani_stop (ed_ani e)); [apply stop_same|]. destruct (_ =? 1); [apply open_keeps in He; by rewrite He|].
  destruct (_ =? 2); [apply save_keeps in He; by rewrite He|]. by injection He as <- _.
Qed.

Lemma body_keeps i e e' : edit_body i e = Ok e' -> same_frames (ed_ani e) (ed_ani e').
Proof.
  unfold edit_body. cbv zeta. intros Hb. apply bind_Ok_inv in Hb as (e1 & Hp & Hb). apply bind_Ok_inv in Hb as (t & _ & Hb).
  apply bind_Ok_inv in Hb as (n & _ & Hb). injection Hb as <-. cbn [set_doc ed_ani]. unfold path_fields in Hp.
  destruct (_ || _); [|by injection Hp as <-]. apply bind_Ok_inv in Hp as (b & _ & Hp). injection Hp as <-.
  cbn [set_ops set_ani ed_ani ed_ops file_op_state]. destruct (ei_ok i); [destruct (_ =? 0)|]; destruct (ei_cancel i); cbn [set_ops set_ani ed_ani]; reflexivity || apply play_same.
Qed.

Lemma alert_keeps i e d : ed_ani (alert_window i e d).1 = ed_ani e.
Proof. unfold alert_window. destruct (negb _); [|done]. destruct (_ && _); [done|]. by destruct (w_hidden _). Qed.

(** A frame of the editor changes the position in the animation at most. *)
Lemma edit_keeps_ani i e d (v : V) e' d' v' : render_naoedit i e d v = Ok (e', d', v') -> same_frames (ed_ani e) (ed_ani e').
Proof.
  unfold render_naoedit. destruct (_ || _); [by intros [= <- _ _]|]. intros Hr. apply bind_Ok_inv in Hr as ([e1 v1] & Hd & Hr).
  apply bind_Ok_inv in Hr as (e2 & Hb & Hr). cbn [fst snd] in *. apply delay_keeps in Hd. cbv zeta in Hr.
  assert (same_frames (ed_ani e1) (ed_ani e2)) as H2 by (destruct (w_begin _); [by apply body_keeps in Hb|by injection Hb as <-]).
  match type of Hr with (let '(_, _) := alert_window i ?x ?y in _) = _ => pose proof (alert_keeps i x y) as H3; destruct (alert_window i x y) as [e3 d3] end.
  injection Hr as <- _ _. cbn [fst] in H3. rewrite H3. transitivity (ed_ani e1); [done|]. transitivity (ed_ani e2); [done|]. by destruct (w_hidden _).
Qed.

End Animation.

(** ** Well-formed editors *)

(** The last byte of the text array stays 0; while an operation is pending
    [text_len] is the length of the text and the path field is closed. *)
Record ed_ok (e : editor) : Prop := {
  ok_text : zlen (text_buffer (ed_doc e)) = 4096;
  ok_last : get (text_buffer (ed_doc e)) 4095 = 0;
  ok_path : exists p, holds (filepath_buffer (ed_ops e)) 128 p;
  ok_msg : zlen (alert_message (ed_alert e)) = 64;
  ok_op : 0 <= file_op_state (ed_ops e) <= 2;
  ok_shut : file_op_state (ed_ops e) <> 0 -> show_open_dialog (ed_ops e) = 0 /\ show_save_dialog (ed_ops e) = 0;
  ok_len : file_op_state (ed_ops e) <> 0 -> exists t, until_nul (text_buffer (ed_doc e)) = Some t /\ text_len (ed_doc e) = zlen t
}.

Record ed_in_ok (i : ed_in) : Prop := {
  eo_text : zlen (ei_text i) <= 4094 /\ Forall (fun c => c <> 0) (ei_text i);
  eo_path : zlen (ei_path i) < 128 /\ Forall (fun c => c <> 0) (ei_path i)
}.

Lemma raise_alert_ok st s str e :
  until_nul (lit s) = Some str -> zlen str < 64 -> zlen (alert_message (ed_alert e)) = 64 ->
  exists m, raise_alert st (lit s) e = Ok (set_alert (mk_alert st m) e) /\ zlen m = 64.
Proof.
  intros Hs Hl Hm. unfold raise_alert.
  destruct (copy_term_holds (lit s) str (alert_message (ed_alert e)) 64 Hs Hm Hl) as (m & -> & Hh). rewrite bind_Ok.
  exists m. split; [done|apply Hh].
Qed.

Lemma until_nul_some (l : list Z) : forall i, 0 <= i < zlen l -> get l i = 0 -> exists t, until_nul l = Some t.
Proof.
  induction l as [|c l IH]; intros i Hi Hg; cbn [length] in Hi; [lia|]. cbn [until_nul].
  destruct (Z.eqb_spec c 0); [eauto|]. destruct (decide (i = 0)) as [->|Hn]; [done|].
  destruct (IH (i - 1)) as [t ->]; [lia| |by eexists].
  unfold get in *. replace (Z.to_nat i) with (S (Z.to_nat (i - 1))) in Hg by lia. done.
Qed.

Lemma filled_get buf w i : zlen w <= i < zlen buf -> get (filled buf w) i = get buf i.
Proof.
  intros Hi. unfold filled. rewrite get_app_r by lia. unfold get. rewrite !nth_lookup, lookup_drop. do 2 f_equal. lia.
Qed.

Section Ops.
#[local] Set Default Proof Using "All".
Context {V : Type} `{FatFsLaws V}.

(** Loading: the document is replaced, everything else but the alert kept. *)
Lemma open_total p e (v : V) :
  ed_ok e -> exists t a v', execute_actual_open p e v = Ok (set_alert a (set_doc t e), v') /\
    zlen (text_buffer t) = 4096 /\ get (text_buffer t) 4095 = 0 /\ zlen (alert_message a) = 64.
Proof.
  intros [Ht Hz _ Hm _ _ _]. unfold execute_actual_open. destruct (f_open p FA_READ v) as [[fr fp] v1].
  destruct (fr =? FR_OK).
  - pose proof (read_bound fp (MAX_TEXT_LEN - 1) v1 ltac:(unfold MAX_TEXT_LEN; lia)) as Hb.
    destruct (f_read fp (MAX_TEXT_LEN - 1) v1) as [[r data] v2]. cbn [fst snd] in Hb. unfold MAX_TEXT_LEN in Hb.
    rewrite read_into_ok by lia. rewrite bind_Ok. fold (filled (text_buffer (ed_doc e)) data).
    assert (length (filled (text_buffer (ed_doc e)) data) = length (text_buffer (ed_doc e))) as Hl by (apply filled_length; lia).
    destruct (r =? FR_OK).
    + rewrite filled_wr by lia. rewrite !bind_Ok. eexists (mk_doc _ _), (mk_alert _ _), _. split; [reflexivity|]. cbn [text_buffer alert_message].
      split; [rewrite filled_length; [done|rewrite length_app; simpl; lia]|]. split; [|done].
      destruct (decide (zlen data = 4095)) as [E|N].
      * unfold filled. rewrite <- app_assoc, get_app_r by lia. replace (4095 - zlen data) with 0 by lia. done.
      * rewrite filled_get; [done|rewrite length_app; simpl; lia].
    + destruct (raise_alert_ok 2 "Failed to read file data." (bytes "Failed to read file data.")
        (set_doc (mk_doc (filled (text_buffer (ed_doc e)) data) (text_len (ed_doc e))) e)) as (m & -> & Hm');
        [reflexivity|vm_compute; reflexivity|done|].
      rewrite bind_Ok. eexists _, _, _. split; [reflexivity|]. cbn [text_buffer alert_message].
      split; [lia|]. split; [|done]. rewrite filled_get by lia. done.
  - destruct (raise_alert_ok 2 "File not found / Invalid path." (bytes "File not found / Invalid path.") e) as (m & -> & Hm');
      [reflexivity|vm_compute; reflexivity|done|].
    rewrite bind_Ok. exists (ed_doc e), (mk_alert 2 m), v1. split; [by destruct e|]. done.
Qed.

Lemma save_total p e (v : V) :
  ed_ok e -> exists a v', execute_actual_save p e v = Ok (set_alert a e, v') /\ zlen (alert_message a) = 64.
Proof.
  intros [_ _ _ Hm _ _ _]. unfold execute_actual_save. destruct (f_open p _ v) as [[fr fp] v1].
  destruct (fr =? FR_OK).
  - destruct (f_write fp _ v1) as [[r bw] v2]. destruct (r =? FR_OK).
    + destruct (raise_alert_ok 1 "File written securely to disk." (bytes "File written securely to disk.") e) as (m & -> & Hm');
        [reflexivity|vm_compute; reflexivity|done|]. rewrite bind_Ok. eauto.
    + destruct (raise_alert_ok 2 "Storage write cycle failed." (bytes "Storage write cycle failed.") e) as (m & -> & Hm');
        [reflexivity|vm_compute; reflexivity|done|]. rewrite bind_Ok. eauto.
  - destruct (raise_alert_ok 2 "Cannot open path for writing." (bytes "Cannot open path for writing.") e) as (m & -> & Hm');
      [reflexivity|vm_compute; reflexivity|done|]. rewrite bind_Ok. eauto.
Qed.

Lemma delay_handler_ok ticks e (v : V) :
  ed_ok e ->
  exists e1 v1, delay_handler ticks e v = Ok (e1, v1) /\ ed_ok e1 /\
    (due ticks (ed_ops e) = false -> e1 = e /\ v1 = v) /\
    (due ticks (ed_ops e) = true -> file_op_state (ed_ops e1) = 0 /\
       exists p x, until_nul (filepath_buffer (ed_ops e)) = Some p /\
         (if file_op_state (ed_ops e) =? 1 then execute_actual_open p (set_ani (ani_stop (ed_ani e)) e) v
          else execute_actual_save p (set_ani (ani_stop (ed_ani e)) e) v) = Ok (x, v1)).
Proof.
  intros Hok. unfold delay_handler. destruct (due ticks (ed_ops e)) eqn:Hdue; [|by exists e, v].
  pose proof Hok as [Ht Hz [p Hp] Hm Hop Hsh Hl]. cbn [set_ani ed_ops]. rewrite (proj2 Hp). cbn [or_fault]. rewrite bind_Ok.
  assert (ed_ok (set_ani (ani_stop (ed_ani e)) e)) as Hok' by (split; cbn; eauto).
  destruct (Z.eqb_spec (file_op_state (ed_ops e)) 1) as [E1|N1].
  - destruct (open_total p _ v Hok') as (t & a & v1 & E & Ht' & Hz' & Hm'). rewrite E, bind_Ok. eexists _, _. split; [reflexivity|].
    split; [split; cbn; eauto; lia|]. split; [done|]. intros _. split; [done|]. by eexists p, _.
  - destruct (Z.eqb_spec (file_op_state (ed_ops e)) 2) as [E2|N2].
    2: { unfold due in Hdue. apply andb_prop in Hdue as [Hd _]. destruct (Z.eqb_spec (file_op_state (ed_ops e)) 0); [done|lia]. }
    destruct (save_total p _ v Hok') as (a & v1 & E & Hm'). rewrite E, bind_Ok. eexists _, _. split; [reflexivity|].
    split; [split; cbn; eauto; lia|]. split; [done|]. intros _. split; [done|]. by eexists p, _.
Qed.

(** The operation in progress. *)
Definition pending (o : ops) : Z * Z * list Z := (file_op_state o, file_op_start_tick o, filepath_buffer o).

Lemma file_menu_ok i o :
  filepath_buffer (file_menu i o) = filepath_buffer o /\ file_op_state (file_menu i o) = file_op_state o /\
  file_op_start_tick (file_menu i o) = file_op_start_tick o /\
  (file_op_state o <> 0 -> file_menu i o = o).
Proof.
  unfold file_menu. destruct (ei_menu i); [|done]. destruct (Z.eqb_spec (file_op_state o) 0) as [E|E].
  - destruct (ei_open i), (ei_save i); cbn [andb set_shown file_op_state]; rewrite ?E; cbn; split_and!; done || (intros N; by destruct N).
  - rewrite !andb_false_r. destruct (Z.eqb_spec (file_op_state o) 0); [done|]. rewrite andb_false_r. done.
Qed.

Lemma path_fields_ok i e :
  ed_in_ok i -> (exists p, holds (filepath_buffer (ed_ops e)) 128 p) -> 0 <= file_op_state (ed_ops e) <= 2 ->
  (file_op_state (ed_ops e) <> 0 -> show_open_dialog (ed_ops e) = 0 /\ show_save_dialog (ed_ops e) = 0) ->
  exists e', path_fields i e = Ok e' /\ ed_doc e' = ed_doc e /\ ed_alert e' = ed_alert e /\
    (exists p, holds (filepath_buffer (ed_ops e')) 128 p) /\ 0 <= file_op_state (ed_ops e') <= 2 /\
    (file_op_state (ed_ops e') <> 0 -> show_open_dialog (ed_ops e') = 0 /\ show_save_dialog (ed_ops e') = 0) /\
    (file_op_state (ed_ops e) <> 0 -> ed_ops e' = ed_ops e).
Proof.
  intros [_ [Hpl Hpz]] [p Hp] Hop Hsh. unfold path_fields.
  destruct (truth (show_open_dialog (ed_ops e)) || truth (show_save_dialog (ed_ops e))) eqn:Eb.
  2: { exists e. split; [done|]. split_and!; eauto; lia. }
  assert (file_op_state (ed_ops e) = 0) as E0.
  { destruct (decide (file_op_state (ed_ops e) = 0)) as [?|N]; [done|]. destruct (Hsh N) as [S1 S2]. by rewrite S1, S2 in Eb. }
  destruct (edit_field_holds (filepath_buffer (ed_ops e)) (ei_path i) 128 (proj1 Hp) Hpl Hpz) as (b & -> & Hb). rewrite bind_Ok.
  cbn [set_ops ed_ops file_op_state]. rewrite E0. cbn [Z.eqb].
  destruct (ei_ok i), (ei_cancel i); cbn [set_ops set_ani set_shown ed_ops ed_ani show_open_dialog show_save_dialog filepath_buffer file_op_state file_op_start_tick].
  all: eexists; split; [reflexivity|]; cbn; split_and!; eauto; try done; try lia.
  all: destruct (truth _); lia.
Qed.

Lemma edit_body_ok i e :
  ed_in_ok i -> ed_ok e ->
  exists e', edit_body i e = Ok e' /\ ed_ok e' /\
    (file_op_state (ed_ops e) <> 0 -> pending (ed_ops e') = pending (ed_ops e)).
Proof.
  intros Hi [Ht Hz Hp Hm Hop Hsh Hl]. unfold edit_body. cbn [ed_ops].
  destruct (file_menu_ok i (ed_ops e)) as (M1 & M2 & _ & M4).
  match goal with |- context [path_fields i ?x] => destruct (path_fields_ok i x Hi) as (e1 & -> & D1 & A1 & Hp' & Hop' & Hsh' & Hsame) end.
  { cbn. by rewrite M1. }
  { cbn. by rewrite M2. }
  { cbn. intros N. rewrite M2 in N. rewrite M4 by done. by apply Hsh. }
  rewrite bind_Ok. cbn [set_ops ed_doc ed_alert] in D1, A1. rewrite D1. pose proof (eo_text _ Hi) as [Htl Htz].
  destruct (edit_field_holds (text_buffer (ed_doc e)) (ei_text i) 4096 Ht ltac:(lia) Htz) as (b & Hb & Hh).
  rewrite Hb, bind_Ok, (holds_strlen _ _ _ Hh), bind_Ok by lia.
  eexists. split; [reflexivity|]. cbn in Hsame. split.
  - split; cbn [set_doc ed_doc ed_ops ed_alert text_buffer text_len]; [apply Hh| |done|by rewrite A1|done|done|].
    + unfold edit_field in Hb. destruct (_ <? _); [|done]. injection Hb as <-.
      rewrite filled_get; [done|rewrite length_app; simpl; lia].
    + intros _. exists (ei_text i). split; [apply Hh|done].
  - intros N. cbn. rewrite (Hsame ltac:(by rewrite M2)), M4 by done. done.
Qed.

Lemma alert_window_ok i e d :
  ed_ok e -> exists e' d', alert_window i e d = (e', d') /\ ed_ok e' /\ ed_ops e' = ed_ops e.
Proof.
  intros Hok. pose proof Hok as [? ? ? ? ? ? ?]. unfold alert_window. destruct (negb _); [|by eexists _, _].
  destruct (_ && _); [eexists _, _; split; [reflexivity|]; split; [split; cbn; eauto|done]|].
  destruct (w_hidden (ei_alert i)); eexists _, _; (split; [reflexivity|]); (split; [|done]); [split; cbn; eauto|done].
Qed.

Lemma edit_frame_aux (i : ed_in) (e : editor) (d : desk) (v : V) :
  ed_ok e -> ed_in_ok i -> naoedit_active e <> 0 -> naoedit_minimized e = 0 ->
  exists e' d' v', render_naoedit i e d v = Ok (e', d', v') /\ ed_ok e' /\
    (due (ei_ticks i) (ed_ops e) = false -> v' = v /\
       (file_op_state (ed_ops e) <> 0 -> w_hidden (ei_main i) = false -> pending (ed_ops e') = pending (ed_ops e))) /\
    (due (ei_ticks i) (ed_ops e) = true ->
       exists p x, until_nul (filepath_buffer (ed_ops e)) = Some p /\
         (if file_op_state (ed_ops e) =? 1 then execute_actual_open p (set_ani (ani_stop (ed_ani e)) e) v
          else execute_actual_save p (set_ani (ani_stop (ed_ani e)) e) v) = Ok (x, v')).
Proof.
  intros Hok Hi Ha Hmin. unfold render_naoedit.
  assert (truth (naoedit_active e) = true) as -> by (unfold truth; by destruct (Z.eqb_spec (naoedit_active e) 0)).
  rewrite Hmin. cbn [truth negb orb Z.eqb].
  destruct (delay_handler_ok (ei_ticks i) e v Hok) as (e1 & v1 & -> & Hok1 & Hno & Hyes). rewrite bind_Ok. cbn [fst snd].
  assert (exists e2, (if w_begin (ei_main i) then edit_body i e1 else Ok e1) = Ok e2 /\ ed_ok e2 /\
    (file_op_state (ed_ops e1) <> 0 -> pending (ed_ops e2) = pending (ed_ops e1))) as (e2 & -> & Hok2 & Hpend).
  { destruct (w_begin (ei_main i)); [by apply edit_body_ok|by exists e1]. }
  rewrite bind_Ok. set (d1 := route _ _ _ _ _ _ _).
  match goal with |- context [alert_window i ?x d1] => set (e3 := x) end.
  assert (ed_ok e3 /\ (w_hidden (ei_main i) = false -> ed_ops e3 = ed_ops e2)) as [Hok3 H3].
  { unfold e3. destruct (w_hidden _); [|done]. split; [|done]. destruct Hok2 as [? ? ? ? ? ? ?]. split; cbn; eauto; lia. }
  clearbody e3 d1.
  destruct (alert_window_ok i e3 d1 Hok3) as (e4 & d4 & -> & Hok4 & H4).
  exists e4, d4, v1. split; [reflexivity|]. split; [exact Hok4|]. split.
  - intros Hd. destruct (Hno Hd) as [-> ->]. split; [done|]. intros N Hh. rewrite H4, (H3 Hh). by apply Hpend.
  - intros Hd. destruct (Hyes Hd) as (_ & p & x & Hp & Hx). by exists p, x.
Qed.

Lemma due_spec t o : due t o = true <-> file_op_state o <> 0 /\ 30 <= (t - file_op_start_tick o) mod 4294967296.
Proof.
  unfold due, u32, wrap. change (2 ^ 32) with 4294967296. rewrite andb_true_iff, negb_true_iff, Z.eqb_neq, Z.leb_le. done.
Qed.


End Ops.

(** ** Witnesses *)

Definition demo_editor : editor :=
  let e := editor_boot ani_boot in
  mk_editor 1 0 (mk_doc (text_buffer (ed_doc e)) 42)
    (mk_ops (filepath_buffer (ed_ops e)) 0 0 2 100) (ed_alert e) (bounds_naoedit e) (ed_ani e).

Definition demo_text : list Z := bytes "Welcome to NaoEdit!" ++ [10] ++ bytes "Type your text here...".

Lemma demo_editor_ok : ed_ok demo_editor.
Proof.
  split.
  - vm_compute. reflexivity.
  - vm_compute. reflexivity.
  - exists (bytes "0:/NOTES.TXT"). split; vm_compute; reflexivity.
  - reflexivity.
  - simpl. lia.
  - intros _. split; reflexivity.
  - intros _. exists demo_text. split; vm_compute; reflexivity.
Qed.

Definition demo_ed_in (ticks : Z) : ed_in :=
  let w := mk_win true (mk_rect 100 80 450 350) true false false in
  mk_ed_in ticks 0 false w false false false [] false false demo_text w false.

