(* ===== verification/FatEditor.v ===== *)
(** * FatEditor: the editor on the FatFs of the repository (naoedit.c, ff.c)

    The applications are modelled over the interface [FatFs] of Fs. Here the
    interface is the modelled FatFs itself: a [drive] is the file system with
    the file and directory objects of its callers, and every operation of the
    interface is the corresponding function of FatApi and FatFile. A call that
    did not return would clear [dr_sound]. On such a drive a text saved by the
    editor is what the editor opens again. *)

From Stdlib Require Import ZArith Lia Bool String.
From stdpp Require Import base list list_numbers.
From S2P Require Import Fs Cursor Ui Edit.
From S2P Require Import Prelude CLib Hw Ata FatUni Fat FatChain FatFile FatRead FatWrite FatSync FatLfn FatDir FatTable FatScan FatItems FatGrow FatEdit FatReg FatObj FatMount FatName FatApi FatWalk FatList FatOpen FatTree FatCreate.
From stdpp Require Import options.

(** ** The interface *)

(** The numbers of the result codes. *)
Definition fr_code (r : FRESULT) : Z :=
  match r with
  | FR_OK => 0 | FR_DISK_ERR => 1 | FR_INT_ERR => 2 | FR_NOT_READY => 3 | FR_NO_FILE => 4 | FR_NO_PATH => 5 | FR_INVALID_NAME => 6
  | FR_DENIED => 7 | FR_EXIST => 8 | FR_INVALID_OBJECT => 9 | FR_WRITE_PROTECTED => 10 | FR_INVALID_DRIVE => 11 | FR_NOT_ENABLED => 12
  | FR_NO_FILESYSTEM => 13 | FR_MKFS_ABORTED => 14 | FR_TIMEOUT => 15 | FR_LOCKED => 16 | FR_NOT_ENOUGH_CORE => 17
  | FR_TOO_MANY_OPEN_FILES => 18 | FR_INVALID_PARAMETER => 19
  end.

Lemma fr_code_ok r : (fr_code r =? 0) = fr_ok r.
Proof. by destruct r. Qed.

(** The file system, the FIL and DIR objects its callers have declared (a
    handle is an index) and whether every call so far has returned. *)
Record drive (D : Type) := mk_drive { dr_fs : fatfs D; dr_files : list FatFile.FIL; dr_dirs : list FatDir.DIR; dr_sound : bool }.
Arguments mk_drive {D} _ _ _ _.
Arguments dr_fs {D} _.
Arguments dr_files {D} _.
Arguments dr_dirs {D} _.
Arguments dr_sound {D} _.

Section Drive.
Context {D : Type} `{BlockDev D}.
(** Fuel, and the contents of objects that have not been written yet. *)
Context (cfuel dfuel fuel : nat) (d0 : FatDir.DIR) (f0 : FatFile.FIL) (i0 : FatName.FILINFO).

Definition unsound (v : drive D) : drive D := mk_drive (dr_fs v) (dr_files v) (dr_dirs v) false.

(** A call that takes a path or a directory. *)
Definition api_call {A} (m : M (fatfs D) A) (bad : A) (v : drive D) : A * drive D :=
  match m (dr_fs v) with
  | Ok (a, s) => (a, mk_drive s (dr_files v) (dr_dirs v) (dr_sound v))
  | _ => (bad, unsound v)
  end.

(** A call on an open file. *)
Definition file_call {A} (m : M (open_file D) A) (bad : A) (h : nat) (v : drive D) : A * drive D :=
  match dr_files v !! h with
  | Some f =>
      match m (mk_open (ff_vol (a_ff (dr_fs v))) f) with
      | Ok (a, x) => (a, mk_drive (with_vol (dr_fs v) (of_vol x)) (<[h := of_fil x]> (dr_files v)) (dr_dirs v) (dr_sound v))
      | _ => (bad, unsound v)
      end
  | None => (bad, unsound v)
  end.

Definition dr_open (path : list Z) (mode : Z) (v : drive D) : Z * nat * drive D :=
  let '(x, v') := api_call (FatApi.f_open cfuel dfuel d0 f0 (path ++ [0]) mode) (FR_INT_ERR, f0) v in
  (fr_code x.1, length (dr_files v'), mk_drive (dr_fs v') (dr_files v' ++ [x.2]) (dr_dirs v') (dr_sound v')).

Definition dr_read (h : nat) (n : Z) (v : drive D) : Z * list Z * drive D :=
  let '(x, v') := file_call (FatFile.f_read fuel (replicate (Z.to_nat n) 0) n) (FR_INT_ERR, 0, []) h v in
  (fr_code x.1.1, take (Z.to_nat x.1.2) x.2, v').

Definition dr_write (h : nat) (data : list Z) (v : drive D) : Z * Z * drive D :=
  let '(x, v') := file_call (FatFile.f_write cfuel fuel data (zlen data)) (FR_INT_ERR, 0) h v in (fr_code x.1, x.2, v').

Definition dr_opendir (path : list Z) (v : drive D) : Z * nat * drive D :=
  let '(x, v') := api_call (FatApi.f_opendir cfuel dfuel d0 (path ++ [0])) (FR_INT_ERR, d0) v in
  (fr_code x.1, length (dr_dirs v'), mk_drive (dr_fs v') (dr_files v') (dr_dirs v' ++ [x.2]) (dr_sound v')).

(** The entry as the applications see it. *)
Definition shown (i : FatName.FILINFO) : Fs.FILINFO :=
  Fs.mk_filinfo (default [] (until_nul (fi_name i))) (has (fi_attr i) AM_DIR) (fi_size i).

Definition dr_readdir (h : nat) (v : drive D) : Z * Fs.FILINFO * drive D :=
  let d := default d0 (dr_dirs v !! h) in
  let '(x, v') := api_call (FatApi.f_readdir cfuel dfuel d (Some i0)) (FR_INT_ERR, d, None) v in
  (fr_code x.1.1, shown (default i0 x.2), mk_drive (dr_fs v') (dr_files v') (<[h := x.1.2]> (dr_dirs v')) (dr_sound v')).

Definition dr_closedir (h : nat) (v : drive D) : drive D :=
  let d := default d0 (dr_dirs v !! h) in
  let '(x, v') := api_call (FatApi.f_closedir d) (FR_INT_ERR, d) v in mk_drive (dr_fs v') (dr_files v') (<[h := x.2]> (dr_dirs v')) (dr_sound v').

#[local] Instance drive_fatfs : FatFs (drive D) := {
  FIL := nat;
  DIR := nat;
  f_open := dr_open;
  f_size h v := match dr_files v !! h with Some f => objsize (f_obj f) | None => 0 end;
  f_read := dr_read;
  f_write := dr_write;
  f_lseek h n v := (file_call (FatFile.f_lseek cfuel fuel n) FR_INT_ERR h v).2;
  f_close h v := (file_call FatFile.f_close FR_INT_ERR h v).2;
  f_opendir := dr_opendir;
  f_readdir := dr_readdir;
  f_closedir := dr_closedir;
  f_unlink p v := let '(r, v') := api_call (FatApi.f_unlink cfuel dfuel d0 d0 (p ++ [0])) FR_INT_ERR v in (fr_code r, v');
  f_rename p q v := let '(r, v') := api_call (FatApi.f_rename cfuel dfuel d0 (p ++ [0]) (q ++ [0])) FR_INT_ERR v in (fr_code r, v');
  f_mkdir p v := let '(r, v') := api_call (FatApi.f_mkdir cfuel dfuel d0 (p ++ [0])) FR_INT_ERR v in (fr_code r, v')
}.

(** ** Calls that return *)

Lemma api_call_ok {A} (m : M (fatfs D) A) bad v a s : m (dr_fs v) = Ok (a, s) -> api_call m bad v = (a, mk_drive s (dr_files v) (dr_dirs v) (dr_sound v)).
Proof. intros E. unfold api_call. by rewrite E. Qed.

Lemma file_call_ok {A} (m : M (open_file D) A) bad h v f a x : dr_files v !! h = Some f -> m (mk_open (ff_vol (a_ff (dr_fs v))) f) = Ok (a, x) ->
  file_call m bad h v = (a, mk_drive (with_vol (dr_fs v) (of_vol x)) (<[h := of_fil x]> (dr_files v)) (dr_dirs v) (dr_sound v)).
Proof. intros Ef E. unfold file_call. by rewrite Ef, E. Qed.

(** What saving does when the calls succeed, on the drive [v]. *)
Lemma save_run p e v t f1 a1 n x1 x2 : zlen (alert_message (ed_alert e)) = 64 -> until_nul (text_buffer (ed_doc e)) = Some t -> Edit.text_len (ed_doc e) = zlen t ->
  FatApi.f_open cfuel dfuel d0 f0 (p ++ [0]) 10 (dr_fs v) = Ok ((FR_OK, f1), a1) ->
  FatFile.f_write cfuel fuel t (zlen t) (mk_open (ff_vol (a_ff a1)) f1) = Ok ((FR_OK, n), x1) -> FatFile.f_close x1 = Ok (FR_OK, x2) ->
  exists m fs, execute_actual_save p e v = Ok (set_alert (mk_alert 1 m) e, mk_drive (with_vol a1 (of_vol x2)) fs (dr_dirs v) (dr_sound v)).
Proof.
  intros Hm Hu Hl E1 E2 E3. unfold execute_actual_save. cbn [Fs.f_open Fs.f_write Fs.f_close drive_fatfs]. unfold dr_open, dr_write.
  change (Z.lor Fs.FA_WRITE Fs.FA_CREATE_ALWAYS) with 10. rewrite (api_call_ok _ _ _ _ _ E1). cbn [fst snd fr_code dr_fs dr_files dr_dirs dr_sound]. change (0 =? Fs.FR_OK) with true. cbv iota.
  destruct (until_nul_split _ _ Hu) as [rest ->]. rewrite Hl, Nat2Z.id, take_app_length.
  erewrite file_call_ok; [|cbn [dr_files]; by apply list_lookup_middle|exact E2]. cbn [fst snd fr_code dr_fs dr_files dr_dirs dr_sound]. change (0 =? Fs.FR_OK) with true. cbv iota.
  destruct (raise_alert_ok 1 "File written securely to disk." (bytes "File written securely to disk.") e eq_refl ltac:(vm_compute; reflexivity) Hm) as (m & -> & _). rewrite bind_Ok.
  erewrite file_call_ok; [|cbn [dr_files]; apply list_lookup_insert_eq; rewrite length_app; cbn [length]; lia|destruct x1; exact E3].
  eexists _, _. reflexivity.
Qed.

Lemma save_refused p e v fr f1 a1 : zlen (alert_message (ed_alert e)) = 64 -> fr <> FR_OK ->
  FatApi.f_open cfuel dfuel d0 f0 (p ++ [0]) 10 (dr_fs v) = Ok ((fr, f1), a1) ->
  exists m fs, execute_actual_save p e v = Ok (set_alert (mk_alert 2 m) e, mk_drive a1 fs (dr_dirs v) (dr_sound v)).
Proof.
  intros Hm Hn E1. unfold execute_actual_save. cbn [Fs.f_open Fs.f_write Fs.f_close drive_fatfs]. unfold dr_open.
  change (Z.lor Fs.FA_WRITE Fs.FA_CREATE_ALWAYS) with 10. rewrite (api_call_ok _ _ _ _ _ E1). cbn [fst snd dr_fs dr_files dr_dirs dr_sound].
  change Fs.FR_OK with 0. rewrite fr_code_ok. unfold fr_ok. rewrite bool_decide_false by done.
  destruct (raise_alert_ok 2 "Cannot open path for writing." (bytes "Cannot open path for writing.") e eq_refl ltac:(vm_compute; reflexivity) Hm) as (m & -> & _). rewrite bind_Ok.
  eexists _, _. reflexivity.
Qed.

(** What opening does when the calls succeed. *)
Lemma open_run p e v f1 a1 n buff x1 x2 : zlen (text_buffer (ed_doc e)) = 4096 -> 0 <= n <= 4095 -> zlen buff = 4095 -> Forall (fun c => c <> 0) (take (Z.to_nat n) buff) ->
  FatApi.f_open cfuel dfuel d0 f0 (p ++ [0]) 1 (dr_fs v) = Ok ((FR_OK, f1), a1) ->
  FatFile.f_read fuel (replicate (Z.to_nat 4095) 0) 4095 (mk_open (ff_vol (a_ff a1)) f1) = Ok ((FR_OK, n, buff), x1) -> FatFile.f_close x1 = Ok (FR_OK, x2) ->
  exists e' fs, execute_actual_open p e v = Ok (e', mk_drive (with_vol a1 (of_vol x2)) fs (dr_dirs v) (dr_sound v)) /\
    alert_state (ed_alert e') = 0 /\ until_nul (text_buffer (ed_doc e')) = Some (take (Z.to_nat n) buff) /\ Edit.text_len (ed_doc e') = n.
Proof.
  intros Ht Hn Hb Hz E1 E2 E3. unfold execute_actual_open. cbn [Fs.f_open Fs.f_read Fs.f_close drive_fatfs]. unfold dr_open, dr_read, MAX_TEXT_LEN.
  change Fs.FA_READ with 1. rewrite (api_call_ok _ _ _ _ _ E1). cbn [fst snd fr_code dr_fs dr_files dr_dirs dr_sound]. change (0 =? Fs.FR_OK) with true. cbv iota. change (4096 - 1) with 4095.
  erewrite file_call_ok; [|cbn [dr_files]; by apply list_lookup_middle|exact E2]. cbn [fst snd fr_code dr_fs dr_files dr_dirs dr_sound]. change (0 =? Fs.FR_OK) with true. cbv iota.
  set (data := take (Z.to_nat n) buff) in *. assert (zlen data = n) as Ld by (unfold data; rewrite length_take; lia).
  rewrite read_into_ok by lia. rewrite bind_Ok. fold (filled (text_buffer (ed_doc e)) data). rewrite filled_wr by lia. rewrite !bind_Ok.
  erewrite file_call_ok; [|cbn [dr_files]; apply list_lookup_insert_eq; rewrite length_app; cbn [length]; lia|destruct x1; exact E3].
  eexists _, _. split; [reflexivity|]. cbn. split; [done|]. split; [|done]. unfold filled. rewrite <- app_assoc. by apply until_nul_lit.
Qed.

End Drive.

(** ** The editor's files *)

Section Editing.
Context {D : Type} `{BlockLaws D}.
#[local] Set Default Proof Using "Type*".
Abbreviation a_vol a := (ff_vol (a_ff a)).
Abbreviation a_geo a := (fs_geo (v_fs (a_vol a))).

(** What is left of a string behind the drive number is a string. *)
Lemma find_colon_rest l : forall n c m rest, find_colon n l = Ok (c, m, rest) -> exists pre, l = pre ++ c :: rest.
Proof.
  induction l as [|x l IH]; intros n c m rest; cbn [find_colon]; [done|]. destruct (_ && _).
  - intros E. destruct (IH _ _ _ _ E) as [pre ->]. by exists (x :: pre).
  - intros [= -> _ ->]. by exists [].
Qed.

Lemma ldnumber_string p k rest : Forall (fun c => 0 < c < 256) p -> get_ldnumber (p ++ [0]) = Ok (k, rest) -> exists s, string_at rest s [].
Proof.
  intros Hp. assert (string_at (p ++ [0]) p []) as Hs0 by done. unfold get_ldnumber. destruct (find_colon 0 (p ++ [0])) as [[[c m] r]| | |] eqn:Ec; try done. rewrite bind_Ok.
  destruct (Z.eqb_spec (i8 c) 58) as [Hc|]; [|intros [= _ <-]; eauto]. destruct (rd (p ++ [0]) 0) as [tp| | |]; try done. rewrite bind_Ok. cbv zeta.
  destruct (1 <=? _); [intros [= _ <-]; eauto|]. intros [= _ <-]. destruct (find_colon_rest _ _ _ _ _ Ec) as [pre Ep].
  destruct r as [|x r _] using rev_ind.
  - apply app_inj_tail in Ep as [_ <-]. done.
  - change (pre ++ c :: r ++ [x]) with (pre ++ (c :: r) ++ [x]) in Ep. rewrite app_assoc in Ep. apply app_inj_tail in Ep as [-> <-]. exists r. split; [done|]. by apply Forall_app in Hp as [_ [_ Hr]%Forall_cons].
Qed.

(** Closing a file that is in order succeeds, changed or not. *)
Lemma close_usable (x : open_file D) l : usable x l -> exists x', FatFile.f_close x = Ok (FR_OK, x').
Proof.
  intros [Uc _ Ul Ud]. destruct (has (f_flag (of_fil x)) FA_MODIFIED) eqn:Em.
  - destruct (f_close_ok x l Uc Ud Ul Em) as (v' & f' & E & _). eauto.
  - pose proof Ul as (U1 & U2 & _). pose proof (validate_ok x (fo_vol _ (co_vol x l Uc)) U1 U2) as Ev. unfold FatFile.f_close.
    rewrite (m_bind_Ok f_sync _ x FR_OK x); [|unfold f_sync; rewrite (m_bind_Ok _ _ _ _ _ Ev); change (fr_ok FR_OK) with true; cbv iota; rewrite bind_fil, Em; reflexivity].
    change (fr_ok FR_OK) with true. cbv iota. rewrite (m_bind_Ok _ _ _ _ _ Ev). eexists. reflexivity.
Qed.

(** C38: on a drive with the modelled FatFs, saving a text under any path and
    opening that path again. Saving returns. Either it reports an error, and
    then FatFs could not open the file (a bad name or path, a read-only object
    or a directory, no room for the entry); or it reports success, and opening
    the path afterwards, in any editor, reports none and yields the text that
    was saved, with its length, or only a prefix of it, and that only when no
    cluster of the volume is free any more (which the code does not tell the
    user). Every other file keeps its content. *)
Theorem saved_text_reopened (cfuel dfuel fuel : nat) (d0 : FatDir.DIR) (f0 : FatFile.FIL) (i0 : FatName.FILINFO)
  (dirs : Z -> option (dtable * list item)) (v : drive D) (p rest l0 t : list Z) (e e2 : editor) :
  65536 <= Z.of_nat dfuel -> (2 * Z.to_nat (n_fatent (a_geo (dr_fs v))) <= cfuel)%nat -> (4096 <= fuel)%nat -> fname (d_fn d0) ->
  ready dirs (dr_fs v) -> apart dirs -> Forall (fun c => 0 < c < 256) p -> get_ldnumber (p ++ [0]) = Ok (0, rest) ->
  let pl := resolve dirs (a_geo (dr_fs v)) rest in
  old_clusters dirs (a_vol (dr_fs v)) pl l0 -> (forall sc w fn, ends_in pl sc w fn -> sc ∉ passed_by dirs (a_geo (dr_fs v)) rest) ->
  ed_ok e -> ed_ok e2 -> until_nul (text_buffer (ed_doc e)) = Some t -> Edit.text_len (ed_doc e) = zlen t -> Forall is_byte t ->
  let F := drive_fatfs cfuel dfuel fuel d0 f0 i0 in
  exists e1 v1, execute_actual_save p e v = Ok (e1, v1) /\ dr_sound v1 = dr_sound v /\
    ((alert_state (ed_alert e1) = 2 /\ exists fr, create_result pl fr /\ fr <> FR_OK) \/
     (alert_state (ed_alert e1) = 1 /\ create_result pl FR_OK /\ exists n e3 v3 dirs',
        0 <= n <= zlen t /\ (n = zlen t \/ full (a_vol (dr_fs v1))) /\
        execute_actual_open p e2 v1 = Ok (e3, v3) /\ dr_sound v3 = dr_sound v /\ alert_state (ed_alert e3) = 0 /\
        until_nul (text_buffer (ed_doc e3)) = Some (take (Z.to_nat n) t) /\ Edit.text_len (ed_doc e3) = n /\
        ready dirs' (dr_fs v1) /\ apart dirs' /\
        (forall s2 l2, holds dirs (a_vol (dr_fs v)) s2 l2 -> (forall c, c ∈ l2 -> c ∉ l0) -> same_content dirs dirs' (a_vol (dr_fs v)) (a_vol (dr_fs v1)) s2 l2))).
Proof.
  intros Hdf Hcf Hfu Hfn Hr Hap Hp El pl Hold Hpass [Ht _ _ Hmsg _ _ _] [Ht2 _ _ _ _ _ _] Hu Hlen Hby Hi.
  destruct (ldnumber_string p 0 rest Hp El) as [s Hs]. assert (zlen t < 4096) as Hlt by (apply (Ui.holds_len (text_buffer (ed_doc e))); done). set (a := dr_fs v) in *.
  destruct (f_open_create cfuel dfuel dirs a d0 f0 (p ++ [0]) rest s [] 10 l0 Hdf Hcf Hr Hap El Hs Hfn (or_introl eq_refl) Hold) as (fr & f1 & a1 & E1 & Hreg1 & Hu1 & Hres & R1). fold pl in Hres, R1.
  destruct (decide (fr = FR_OK)) as [->|Hne].
  2: { destruct (save_refused cfuel dfuel fuel d0 f0 i0 p e v fr f1 a1 Hmsg Hne E1) as (m & fs & Es). eexists _, _. split; [exact Es|]. split; [done|]. left. split; [done|]. by exists fr. }
  destruct (R1 eq_refl) as (d' & Hmade).
  destruct (store_close_ok cfuel fuel dirs (a_vol a) (a_vol a1) d' pl l0 10 f0 f1 t Hcf (or_introl eq_refl) Hmade Hby ltac:(lia) ltac:(lia)) as (sc & w & fn & td & its1 & its2 & long & ls & s' & n & x1 & x2 & l & He & Hb & Hfirst & E2 & Hfull & Hn & E3 & T & Ap & G & Hfl & Hnd & _ & Hsz & Hh & By & Oth).
  destruct (save_run cfuel dfuel fuel d0 f0 i0 p e v t f1 a1 n x1 x2 Hmsg Hu Hlen E1 E2 E3) as (m & fs & Es). eexists _, _. split; [exact Es|]. split; [done|]. right. split; [done|]. split; [done|].
  set (dirs' := dirs_set dirs sc td (its1 ++ Named long ls s' :: its2)) in *. set (a2 := with_vol a1 (of_vol x2)) in *. assert (ready dirs' a2) as Hr2 by (by split).
  assert (resolve dirs' (a_geo a2) rest = There sc w fn (zlen (raws its1)) (Named long ls s')) as Hres2. { cbn [a2 with_vol a_ff ff_vol]. rewrite G. unfold dirs'. rewrite (resolve_set dirs _ sc td _ w fn rest (Hpass sc w fn He) He). unfold found_in. by rewrite find_obj_at. }
  destruct (open_read_ok dirs' cfuel dfuel a2 d0 f0 (p ++ [0]) rest s [] Hdf Hr2 El Hs Hfn) as (fr3 & f3 & a3 & E4 & Hf3 & R3). rewrite Hres2 in Hf3, R3. cbn [plain_result] in Hf3. rewrite Hnd in Hf3. change (has FA_READ FA_WRITE && _) with false in Hf3. cbv iota in Hf3. subst fr3.
  destruct (R3 eq_refl l fuel (replicate (Z.to_nat 4095) 0) 4095 Hh) as (b & x3 & E5 & Lb & Rd & _ & Us & _); [lia|rewrite length_replicate; lia|lia|]. rewrite Hsz, Z.min_r in E5, Rd by lia. rewrite length_replicate in Lb.
  destruct (close_usable x3 l Us) as [x4 E6].
  assert (take (Z.to_nat n) b = take (Z.to_nat n) t) as Etk.
  { apply get_eq_ext; [rewrite !length_take; lia|]. intros k Hk. rewrite length_take in Hk. rewrite !get_take by lia. rewrite Rd by lia. apply By. lia. }
  destruct (open_run cfuel dfuel fuel d0 f0 i0 p e2 (mk_drive a2 fs (dr_dirs v) (dr_sound v)) f3 a3 n b x3 x4 Ht2) as (e3 & fs3 & Eo & A3 & U3 & L3); [lia|lia|rewrite Etk; apply Forall_take; by eapply until_nul_nz|exact E4|exact E5|exact E6|].
  eexists n, e3, _, dirs'. split; [done|]. split; [destruct Hfull as [?|?]; [by left|right; by apply Hfl]|]. split; [exact Eo|]. split; [done|]. split; [done|]. rewrite <- Etk. split; [done|]. split; [done|]. split; [done|]. split; [done|exact Oth].
Qed.

End Editing.

(** *** A concrete run: the editor's text is saved in the empty root directory *)

#[local] Instance demo_fatfs : FatFs (drive ram) := drive_fatfs ncf df (Z.to_nat 4096) (wd_dp demo_dir) (of_fil demo_file) (FatName.mk_filinfo 0 0 0 0 [] []).

Definition demo_drive : drive ram := mk_drive (demo_api demo_vol) [] [] true.

Lemma demo_save_alert : match execute_actual_save (demo_name 76) Edit.demo_editor demo_drive with Ok (e, _) => alert_state (ed_alert e) | _ => 0 end = 1.
Proof. vm_compute. reflexivity. Qed.

Lemma demo_text_bytes : Forall is_byte Edit.demo_text.
Proof. match goal with |- Forall _ ?k => let b := eval vm_compute in k in change k with b end. unfold is_byte. repeat (constructor; [lia|]). constructor. Qed.

Lemma saved_text_reopened_witness :
  exists e1 v1 n e3 v3, execute_actual_save (demo_name 76) Edit.demo_editor demo_drive = Ok (e1, v1) /\ alert_state (ed_alert e1) = 1 /\
    (n = 42 \/ full (ff_vol (a_ff (dr_fs v1)))) /\ execute_actual_open (demo_name 76) Edit.demo_editor v1 = Ok (e3, v3) /\ dr_sound v3 = true /\
    until_nul (text_buffer (ed_doc e3)) = Some (take (Z.to_nat n) Edit.demo_text).
Proof.
  destruct demo_fn_ok as (Hfn & _ & _). destruct demo_dir_fuel as [Hcf Hdf].
  destruct (saved_text_reopened ncf df (Z.to_nat 4096) (wd_dp demo_dir) (of_fil demo_file) (FatName.mk_filinfo 0 0 0 0 [] []) (demo_dirs []) demo_drive (demo_name 76) demo_file_path [] Edit.demo_text Edit.demo_editor Edit.demo_editor)
    as (e1 & v1 & E1 & S1 & R).
  - exact Hdf.
  - exact Hcf.
  - lia.
  - exact Hfn.
  - apply demo_ready, demo_empty_tree.
  - apply demo_apart.
  - repeat (constructor; [lia|]). constructor.
  - reflexivity.
  - change (fs_geo _) with (fs_geo (v_fs demo_vol)). rewrite demo_missing. reflexivity.
  - intros sc w fn _. apply demo_passed.
  - exact demo_editor_ok.
  - exact demo_editor_ok.
  - vm_compute. reflexivity.
  - vm_compute. reflexivity.
  - exact demo_text_bytes.
  - pose proof demo_save_alert as Ha. change (execute_actual_save (demo_name 76) Edit.demo_editor demo_drive = Ok (e1, v1)) in E1. rewrite E1 in Ha.
    destruct R as [[Hb _]|(_ & _ & n & e3 & v3 & dirs' & _ & Hfl & E3 & S3 & _ & U3 & _)]; [congruence|]. exists e1, v1, n, e3, v3.
    split; [exact E1|]. split; [exact Ha|]. split; [exact Hfl|]. split; [exact E3|]. split; [rewrite S3; reflexivity|exact U3].
Defined.
