(* ===== verification/Image.v ===== *)
(** * Image: the decoder's memory arena and picture loading (kernel.c)

    stb_image allocates from a 4 MB array that is emptied before each
    picture. The decoder itself is an interface ([Decoder]); the code around
    it reads the file into the arena, decodes it and turns the bytes into
    pixels. Arena memory is sparse: bytes never written are 0. *)

From Stdlib Require Import ZArith Lia Bool String.
From stdpp Require Import base list gmap.
From S2P Require Import Prelude CLib Gfx Fs.
From stdpp Require Import options.

(** ** The arena *)

Definition STB_ARENA_SIZE : Z := 4 * 1024 * 1024.

Record arena := mk_arena { stb_arena : gmap Z Z; stb_arena_offset : Z }.

Definition arena_boot : arena := mk_arena ∅ 0.

Definition arena_rd (a : arena) (i : Z) : res Z :=
  if (0 <=? i) && (i <? STB_ARENA_SIZE) then Ok (default 0 (stb_arena a !! i)) else Fault.
Definition arena_wr (i c : Z) (a : arena) : res arena :=
  if (0 <=? i) && (i <? STB_ARENA_SIZE) then Ok (mk_arena (<[i := c]> (stb_arena a)) (stb_arena_offset a)) else Fault.

(** [stb_arena_offset = 0;] *)
Definition arena_reset (a : arena) : arena := mk_arena (stb_arena a) 0.

(** A pointer into the arena is its offset; [None] is NULL. *)
Definition stbi_malloc_arena (size : Z) (a : arena) : option Z * arena :=
  let size := Z.land (u32 (size + 3)) 4294967292 in
  if STB_ARENA_SIZE <? u32 (stb_arena_offset a + size) then (None, a)
  else (Some (stb_arena_offset a), mk_arena (stb_arena a) (u32 (stb_arena_offset a + size))).

Definition stbi_free_arena (ptr : option Z) (a : arena) : arena := a.

(** [memcpy(new_ptr, old_ptr, n)] inside the arena. *)
Definition arena_copy (dst src n : Z) (a : arena) : res arena :=
  for_up (Z.to_nat n) 0 (fun i a => c ← arena_rd a (src + i); arena_wr (dst + i) c a) a.

Definition stbi_realloc_sized_arena (old_ptr : option Z) (old_size new_size : Z) (a : arena) : res (option Z * arena) :=
  if new_size <=? old_size then Ok (old_ptr, a)
  else
    let '(new_ptr, a) := stbi_malloc_arena new_size a in
    match new_ptr with
    | None => Ok (None, a)
    | Some q =>
        match old_ptr with
        | Some p => if 0 <? old_size then a ← arena_copy q p old_size a; Ok (Some q, a) else Ok (Some q, a)
        | None => Ok (Some q, a)
        end
    end.

(** ** The decoder *)

(** A decoded picture: width, height and four bytes per pixel, top row first
    unless the flip flag was set. *)
Record picture := mk_picture { p_w : Z; p_h : Z; p_bytes : list Z }.

(** [stbi_load_from_memory] with [desired_channels] = 4, under the flip flag:
    it may fail, and it allocates from the arena. *)
Class Decoder := {
  decode : bool -> list Z -> arena -> option picture * arena
}.

(** Byte [c] (0..3 = r, g, b, a) of the pixel in column [x] of row [y]. *)
Definition chan (p : picture) (x y c : Z) : Z := get (p_bytes p) ((y * p_w p + x) * 4 + c).

(** What the documentation of stb_image promises: pictures have four bytes
    per pixel within the decoder's limits, and the flip flag reverses the
    order of the rows. *)
Class DecoderLaws `{Decoder} := {
  decode_size : forall f d a p, (decode f d a).1 = Some p ->
    0 < p_w p /\ 0 < p_h p /\ p_w p * p_h p * 4 < 2147483648 /\
    zlen (p_bytes p) = p_w p * p_h p * 4 /\ Forall is_byte (p_bytes p);
  decode_flip : forall d a p, (decode false d a).1 = Some p ->
    exists q, (decode true d a).1 = Some q /\ p_w q = p_w p /\ p_h q = p_h p /\
      forall x y c, 0 <= x < p_w p -> 0 <= y < p_h p -> 0 <= c < 4 -> chan q x y c = chan p x (p_h p - 1 - y) c;
  decode_fails : forall d a, (decode false d a).1 = None -> (decode true d a).1 = None
}.

(** ** Pixels *)

(** [for (y ...) for (x ...)] over any loop state. *)
Definition for_grid {S} (w h : Z) (body : Z -> Z -> S -> res S) (s : S) : res S :=
  for_up (Z.to_nat h) 0 (fun y s => for_up (Z.to_nat w) 0 (fun x s => body x y s) s) s.

(** [(a << 24) | (r << 16) | (g << 8) | b] *)
Definition argb (r g b a : Z) : Z :=
  Z.lor (Z.lor (Z.lor (Z.shiftl a 24) (Z.shiftl r 16)) (Z.shiftl g 8)) b.

(** One pixel of the conversion loop: the source bytes are in row [y], the
    destination is in row [h - 1 - y]. *)
Definition convert_pixel (w h : Z) (decoded : list Z) (x y : Z) (out : list Z) : res (Z * list Z) :=
  let target_y := (h - 1) - y in
  let src_idx := (y * w + x) * 4 in
  let dest_idx := target_y * w + x in
  r ← rd decoded (src_idx + 0); g ← rd decoded (src_idx + 1);
  b ← rd decoded (src_idx + 2); a ← rd decoded (src_idx + 3);
  out ← wr out dest_idx (argb r g b a);
  Ok (a, out).

(** The loops of [naoview_load_image] and of the boot picture. *)
Definition convert (w h : Z) (decoded out : list Z) : res (list Z) :=
  for_grid w h (fun x y out => z ← convert_pixel w h decoded x y out; Ok z.2) out.

(** The loops of [load_image_via_stb], which also add up the alpha values. *)
Definition convert_sum (w h : Z) (decoded out : list Z) : res (Z * list Z) :=
  for_grid w h (fun x y (s : Z * list Z) =>
    z ← convert_pixel w h decoded x y s.2; Ok (u32 (s.1 + z.1), z.2)) (0, out).

(** [for (i = 0; i < n; i++) out[i] |= 0xFF000000;] *)
Definition make_opaque (n : Z) (out : list Z) : res (list Z) :=
  for_up (Z.to_nat n) 0 (fun i out => p ← rd out i; wr out i (Z.lor p 4278190080)) out.

(** ** Loading *)

(** The decoder's flip flag and the arena. *)
Record stb := mk_stb { stb_flip : bool; stb_mem : arena }.

Definition set_flip (f : bool) (s : stb) : stb := mk_stb f (stb_mem s).

(** [f_read] into the arena at [ptr]. *)
Fixpoint arena_store (ptr : Z) (data : list Z) (a : arena) : res arena :=
  match data with [] => Ok a | c :: r => a ← arena_wr ptr c a; arena_store (ptr + 1) r a end.

(** Opening and reading a whole file into the arena. *)
Inductive slurped := NotFound | BadRead | Loaded (ptr size : Z).

Section Load.
Context {V : Type} `{FatFs V} `{Decoder}.

Definition slurp (path : list Z) (s : stb) (v : V) : res (slurped * stb * V) :=
  let '(r, file, v) := f_open path FA_READ v in
  if negb (r =? FR_OK) then Ok (NotFound, s, v)
  else
    let file_size := f_size file v in
    let '(ptr, a) := stbi_malloc_arena file_size (stb_mem s) in
    match ptr with
    | None => Ok (BadRead, mk_stb (stb_flip s) a, f_close file v)
    | Some p =>
        let '(r, data, v) := f_read file file_size v in
        a ← arena_store p data a;
        let s := mk_stb (stb_flip s) a in
        if negb (r =? FR_OK) || negb (zlen data =? file_size) then Ok (BadRead, s, f_close file v)
        else Ok (Loaded p file_size, s, f_close file v)
    end.

(** The bytes at a pointer into the arena. *)
Definition arena_bytes (a : arena) (ptr n : Z) : list Z :=
  (fun i => default 0 (stb_arena a !! (ptr + Z.of_nat i))) <$> seq 0 (Z.to_nat n).

(** [stbi_load_from_memory(ptr, size, ...)] under the current flip flag. *)
Definition stbi_load_from_memory (ptr size : Z) (s : stb) : option picture * stb :=
  let '(p, a) := decode (stb_flip s) (arena_bytes (stb_mem s) ptr size) (stb_mem s) in
  (p, mk_stb (stb_flip s) a).

(** An image handle: dimensions of a loaded picture, or none. *)
Definition nk_image := option (Z * Z).

Definition load_image_via_stb (path out_pixel_buffer : list Z) (expected_w expected_h : Z) (s : stb) (v : V)
  : res (nk_image * list Z * stb * V) :=
  let s := mk_stb (stb_flip s) (arena_reset (stb_mem s)) in
  x ← slurp path s v;
  let '(l, s, v) := (x : slurped * stb * V) in
  match l with
  | NotFound | BadRead => Ok (None, out_pixel_buffer, s, v)
  | Loaded ptr file_size =>
      let '(p, s) := stbi_load_from_memory ptr file_size (set_flip true s) in
      match p with
      | None => Ok (None, out_pixel_buffer, s, v)
      | Some p =>
          let width := p_w p in let height := p_h p in
          if negb (width =? expected_w) || negb (height =? expected_h) then Ok (None, out_pixel_buffer, s, v)
          else
            let total_pixels := i32 (width * height) in
            let s := set_flip false s in
            z ← convert_sum width height (p_bytes p) out_pixel_buffer;
            if total_pixels =? 0 then Fault else
            out ← (if z.1 / u32 total_pixels <? 5 then make_opaque total_pixels z.2 else Ok z.2);
            Ok (Some (width, height), out, s, v)
      end
  end.

(** The boot picture: at most 1024 x 768 pixels. *)
Definition BOOT_IMG_MAX_W : Z := 1024.
Definition BOOT_IMG_MAX_H : Z := 768.

Definition load_boot_image (boot_img_pixels : list Z) (s : stb) (v : V) : res (Z * Z * list Z * stb * V) :=
  let s := mk_stb (stb_flip s) (arena_reset (stb_mem s)) in
  x ← slurp (bytes "0:/boot.png") s v;
  let '(l, s, v) := (x : slurped * stb * V) in
  match l with
  | NotFound | BadRead => Ok (0, 0, boot_img_pixels, s, v)
  | Loaded ptr boot_fsize =>
      let '(p, s) := stbi_load_from_memory ptr boot_fsize (set_flip true s) in
      match p with
      | Some p =>
          if (0 <? p_w p) && (0 <? p_h p) && (p_w p <=? BOOT_IMG_MAX_W) && (p_h p <=? BOOT_IMG_MAX_H) then
            out ← convert (p_w p) (p_h p) (p_bytes p) boot_img_pixels;
            Ok (p_w p, p_h p, out, set_flip false s, v)
          else Ok (0, 0, boot_img_pixels, s, v)
      | None => Ok (0, 0, boot_img_pixels, s, v)
      end
  end.

End Load.

(** ** The arena hands out disjoint regions *)

Lemma land_mask4 z : 0 <= z < 4294967296 -> Z.land z 4294967292 = 4 * (z / 4).
Proof. intros Hz. apply (land_clear_low z 2 32); lia. Qed.

Lemma malloc_arena_spec size a :
  0 <= size <= 4294967292 -> 0 <= stb_arena_offset a <= STB_ARENA_SIZE ->
  let size' := 4 * ((size + 3) / 4) in
  stbi_malloc_arena size a =
  if stb_arena_offset a + size' <=? STB_ARENA_SIZE
  then (Some (stb_arena_offset a), mk_arena (stb_arena a) (stb_arena_offset a + size'))
  else if 4294967296 <=? stb_arena_offset a + size'
  then (Some (stb_arena_offset a), mk_arena (stb_arena a) (stb_arena_offset a + size' - 4294967296)) else (None, a).
Proof.
  unfold stbi_malloc_arena, STB_ARENA_SIZE. intros Hs Ho. cbv zeta. rewrite (u32_small (size + 3)) by lia.
  rewrite land_mask4 by lia. set (n := 4 * ((size + 3) / 4)).
  assert (size <= n <= size + 3) by (unfold n; dlia). clearbody n.
  destruct (Z.leb_spec (stb_arena_offset a + n) (4 * 1024 * 1024)).
  - rewrite !u32_small by lia. destruct (Z.ltb_spec (4 * 1024 * 1024) (stb_arena_offset a + n)); [lia|done].
  - destruct (Z.leb_spec 4294967296 (stb_arena_offset a + n)).
    + assert (u32 (stb_arena_offset a + n) = stb_arena_offset a + n - 4294967296) as ->.
      { unfold u32, wrap. change (2 ^ 32) with 4294967296. symmetry. apply Z.mod_unique with 1; lia. }
      destruct (Z.ltb_spec (4 * 1024 * 1024) (stb_arena_offset a + n - 4294967296)); [lia|done].
    + rewrite u32_small by lia. destruct (Z.ltb_spec (4 * 1024 * 1024) (stb_arena_offset a + n)); [done|lia].
Qed.

(** A sequence of requests since the last reset and the regions granted; no
    request is larger than [max]. *)
Inductive arena_run (max : Z) : arena -> list (Z * Z) -> Prop :=
| run_reset a : arena_run max (arena_reset a) []
| run_malloc a rs size p a' : arena_run max a rs -> 0 <= size < 4294967296 -> size <= max ->
    stbi_malloc_arena size a = (p, a') -> arena_run max a' (match p with Some q => (q, size) :: rs | None => rs end)
| run_write a rs i c a' : arena_run max a rs -> arena_wr i c a = Ok a' -> arena_run max a' rs.

(** The largest request whose sum with any offset stays below 2^32. *)
Definition ARENA_LIMIT : Z := 4290772988.

(** [regions lim rs]: aligned, inside [0, lim) and one below the other. *)
Fixpoint regions (lim : Z) (rs : list (Z * Z)) : Prop :=
  match rs with
  | [] => True
  | (p, n) :: r => 0 <= p /\ p mod 4 = 0 /\ 0 <= n /\ p + n <= lim /\ regions p r
  end.

Lemma arena_run_regions max a rs :
  max <= ARENA_LIMIT -> arena_run max a rs -> 0 <= stb_arena_offset a <= STB_ARENA_SIZE /\ stb_arena_offset a mod 4 = 0 /\ regions (stb_arena_offset a) rs.
Proof.
  intros Hmax. unfold ARENA_LIMIT in Hmax. induction 1 as [a|a rs size p a' _ IH Hs Hle Hm|a rs i c a' _ IH Hw].
  - cbn. unfold STB_ARENA_SIZE. split; [lia|]. done.
  - destruct IH as (Ho & Hal & Hr). rewrite malloc_arena_spec in Hm by (unfold STB_ARENA_SIZE in *; lia).
    revert Hm. set (n := 4 * ((size + 3) / 4)). assert (size <= n <= size + 3 /\ n mod 4 = 0) as [Hn Hn4] by (unfold n; dlia).
    clearbody n. destruct (Z.leb_spec (stb_arena_offset a + n) STB_ARENA_SIZE).
    + intros [= <- <-]. cbn [stb_arena_offset]. split; [lia|]. split; [dlia|]. cbn [regions]. split_and!; [lia|done|lia|lia|done].
    + destruct (Z.leb_spec 4294967296 (stb_arena_offset a + n)); [unfold STB_ARENA_SIZE in *; lia|]. by intros [= <- <-].
  - unfold arena_wr in Hw. destruct (_ && _); [|done]. injection Hw as <-. exact IH.
Qed.

Lemma regions_in lim rs p n : regions lim rs -> (p, n) ∈ rs -> 0 <= p /\ p mod 4 = 0 /\ 0 <= n /\ p + n <= lim.
Proof.
  revert lim. induction rs as [|[q m] r IH]; intros lim Hr Hin; [by apply elem_of_nil in Hin|].
  cbn in Hr. destruct Hr as (H0 & H1 & H2 & H3 & H4). apply elem_of_cons in Hin as [[= -> ->]|Hin]; [done|].
  destruct (IH q H4 Hin) as (? & ? & ? & ?). split_and!; [done..|lia].
Qed.

Lemma regions_disjoint lim rs i j p n q m :
  regions lim rs -> rs !! i = Some (p, n) -> rs !! j = Some (q, m) -> i <> j -> p + n <= q \/ q + m <= p.
Proof.
  revert lim i j. induction rs as [|[a k] r IH]; intros lim i j Hr Hi Hj Hne; [done|].
  cbn in Hr. destruct Hr as (_ & _ & _ & _ & Hr). destruct i as [|i], j as [|j]; [done| | |].
  - injection Hi as -> ->. change (r !! j = Some (q, m)) in Hj. apply list_elem_of_lookup_2 in Hj. pose proof (regions_in _ _ _ _ Hr Hj). lia.
  - injection Hj as -> ->. change (r !! i = Some (p, n)) in Hi. apply list_elem_of_lookup_2 in Hi. pose proof (regions_in _ _ _ _ Hr Hi). lia.
  - eapply IH; [done|exact Hi|exact Hj|congruence].
Qed.

(** The regions are 4-byte aligned, inside the array and pairwise disjoint. *)
Definition regions_safe (rs : list (Z * Z)) : Prop :=
  (forall p n, (p, n) ∈ rs -> 0 <= p /\ p mod 4 = 0 /\ p + n <= STB_ARENA_SIZE) /\
  (forall i j p n q m, rs !! i = Some (p, n) -> rs !! j = Some (q, m) -> i <> j -> p + n <= q \/ q + m <= p).

(** A request for the whole array and then one of [ARENA_LIMIT] + 1 bytes: the
    sum wraps to 0, and the second request is granted too. *)
Lemma arena_wraps max : ARENA_LIMIT < max -> arena_run max (mk_arena ∅ 0) [(STB_ARENA_SIZE, ARENA_LIMIT + 1); (0, STB_ARENA_SIZE)].
Proof.
  intros Hm. unfold ARENA_LIMIT, STB_ARENA_SIZE in *.
  apply (run_malloc max (mk_arena ∅ 4194304) [(0, 4194304)] 4290772989 (Some 4194304)); [|lia|lia|reflexivity].
  apply (run_malloc max (arena_reset arena_boot) [] 4194304 (Some 0)); [constructor|lia|lia|reflexivity].
Qed.

(** C40: after a reset, in every sequence of requests of at most 4290772988
    bytes (the 4 MB below 4 GiB excepted), the regions the arena hands out are
    4-byte aligned, lie inside the 4 MB array and are pairwise disjoint. The
    bound is exact: when larger requests are allowed, some sequence is handed
    a region outside the array, because the sum with the offset wraps. *)
Theorem arena_regions_safe (max : Z) :
  (forall a rs, arena_run max a rs -> regions_safe rs) <-> max <= 4290772988.
Proof.
  split; [intros Hall|intros Hm a rs Hr].
  - destruct (Z.le_gt_cases max 4290772988) as [|Hm]; [done|]. destruct (Hall _ _ (arena_wraps max Hm)) as [Hin _].
    destruct (Hin STB_ARENA_SIZE (ARENA_LIMIT + 1)) as (_ & _ & Hx); [by left|]. unfold ARENA_LIMIT in Hx. lia.
  - destruct (arena_run_regions max a rs Hm Hr) as (Ho & _ & Hreg). split.
    + intros p n Hin. destruct (regions_in _ _ _ _ Hreg Hin) as (? & ? & ? & ?). split_and!; [done..|lia].
    + intros i j p n q m. by apply (regions_disjoint (stb_arena_offset a)).
Qed.

(** ** Growing a block keeps its content *)

Lemma arena_copy_spec dst src n a :
  0 <= n -> 0 <= src -> 0 <= dst -> src + n <= STB_ARENA_SIZE -> dst + n <= STB_ARENA_SIZE ->
  src + n <= dst ->
  exists a', arena_copy dst src n a = Ok a' /\ stb_arena_offset a' = stb_arena_offset a /\
    (forall i, stb_arena a' !! i = if decide (dst <= i < dst + n) then Some (default 0 (stb_arena a !! (src + (i - dst)))) else stb_arena a !! i).
Proof.
  intros Hn Hs Hd Hls Hld Hdis. unfold arena_copy.
  destruct (for_up_inv (fun k a' => stb_arena_offset a' = stb_arena_offset a /\
      (forall i, stb_arena a' !! i = if decide (dst <= i < dst + k) then Some (default 0 (stb_arena a !! (src + (i - dst)))) else stb_arena a !! i))
    (Z.to_nat n) 0 (fun i a => c ← arena_rd a (src + i); arena_wr (dst + i) c a) a) as (a' & Hr & HI).
  - intros k a1 Hk [Ho Hget]. unfold arena_rd, arena_wr.
    destruct (Z.leb_spec 0 (src + k)); [|lia]. destruct (Z.ltb_spec (src + k) STB_ARENA_SIZE); [|lia]. cbn [andb]. rewrite bind_Ok.
    destruct (Z.leb_spec 0 (dst + k)); [|lia]. destruct (Z.ltb_spec (dst + k) STB_ARENA_SIZE); [|lia]. cbn [andb].
    eexists. split; [done|]. cbn [stb_arena stb_arena_offset]. split; [done|]. intros i.
    destruct (decide (i = dst + k)) as [->|Hne].
    + rewrite lookup_insert_eq, (decide_True (P := dst <= dst + k < dst + (k + 1))) by lia.
      rewrite Hget, decide_False by lia. do 4 f_equal. lia.
    + rewrite lookup_insert_ne by done. rewrite Hget. destruct (decide (dst <= i < dst + k)).
      * by rewrite decide_True by lia.
      * by rewrite decide_False by lia.
  - split; [done|]. intros i. by rewrite decide_False by lia.
  - exists a'. split; [done|]. replace (0 + Z.of_nat (Z.to_nat n)) with n in HI by lia. done.
Qed.

(** Growing a block of the arena either fails without changing anything
    or returns a new aligned block above everything handed out before, whose
    first bytes are those of the old block; no other byte changes. *)
Theorem realloc_keeps_content (p old_size new_size : Z) (a : arena) (rs : list (Z * Z)) :
  arena_run ARENA_LIMIT a rs -> (p, old_size) ∈ rs -> old_size < new_size <= ARENA_LIMIT ->
  stbi_realloc_sized_arena (Some p) old_size new_size a = Ok (None, a) \/
  exists q a', stbi_realloc_sized_arena (Some p) old_size new_size a = Ok (Some q, a') /\
    q = stb_arena_offset a /\ q + new_size <= STB_ARENA_SIZE /\
    (forall i, 0 <= i < old_size -> default 0 (stb_arena a' !! (q + i)) = default 0 (stb_arena a !! (p + i))) /\
    (forall i, ~ (q <= i < q + old_size) -> stb_arena a' !! i = stb_arena a !! i).
Proof.
  intros Hrun Hin Hsz. destruct (arena_run_regions ARENA_LIMIT a rs ltac:(done) Hrun) as (Ho & _ & Hreg).
  destruct (regions_in _ _ _ _ Hreg Hin) as (Hp0 & _ & Hn0 & Hpn). unfold stbi_realloc_sized_arena.
  destruct (Z.leb_spec new_size old_size); [lia|]. unfold ARENA_LIMIT in Hsz. rewrite malloc_arena_spec by lia. cbv zeta.
  set (n := 4 * ((new_size + 3) / 4)). assert (new_size <= n <= new_size + 3) by (unfold n; dlia). clearbody n.
  destruct (Z.leb_spec (stb_arena_offset a + n) STB_ARENA_SIZE).
  2: { left. destruct (Z.leb_spec 4294967296 (stb_arena_offset a + n)); [unfold STB_ARENA_SIZE in *; lia|done]. }
  right. set (q := stb_arena_offset a) in *. destruct (Z.ltb_spec 0 old_size) as [Hpos|Hz].
  - destruct (arena_copy_spec q p old_size (mk_arena (stb_arena a) (q + n))) as (a' & -> & _ & Hget); [lia..|].
    rewrite bind_Ok. exists q, a'. split; [done|]. split; [done|]. split; [lia|]. cbn [stb_arena] in Hget. split.
    + intros i Hi. rewrite Hget, decide_True by lia. cbn. do 2 f_equal. lia.
    + intros i Hi. by rewrite Hget, decide_False.
  - exists q, (mk_arena (stb_arena a) (q + n)). split; [done|]. split; [done|]. split; [lia|]. split; [intros i; lia|done].
Qed.

Lemma realloc_keeps_content_witness :
  stbi_realloc_sized_arena (Some 0) 3 9 (mk_arena {[1 := 7]} 4) = Ok (None, mk_arena {[1 := 7]} 4) \/
  exists q a', stbi_realloc_sized_arena (Some 0) 3 9 (mk_arena {[1 := 7]} 4) = Ok (Some q, a') /\
    q = 4 /\ default 0 (stb_arena a' !! (q + 1)) = 7.
Proof.
  destruct (realloc_keeps_content 0 3 9 (mk_arena {[1 := 7]} 4) [(0, 3)]) as [Hn|(q & a' & Hr & Hq & _ & Hc & _)].
  - apply (run_write _ (mk_arena ∅ 4) [(0, 3)] 1 7); [|reflexivity].
    apply (run_malloc _ (arena_reset arena_boot) [] 3 (Some 0)); [constructor|lia|unfold ARENA_LIMIT; lia|reflexivity].
  - constructor.
  - unfold ARENA_LIMIT. lia.
  - by left.
  - right. exists q, a'. split; [exact Hr|]. split; [exact Hq|]. rewrite (Hc 1) by lia. reflexivity.
Defined.

(** ** Converting pixels *)

(** Raster-order invariants of the nested loops. *)
Lemma grid_inv {S : Type} (I : Z -> Z -> S -> Prop) w h body s :
  0 <= w -> 0 <= h ->
  (forall x y s, 0 <= x < w -> 0 <= y < h -> I y x s -> exists s', body x y s = Ok s' /\ I y (x + 1) s') ->
  (forall y s, 0 <= y < h -> I y w s -> I (y + 1) 0 s) ->
  I 0 0 s -> exists s', for_grid w h body s = Ok s' /\ I h 0 s'.
Proof.
  intros Hw Hh Hstep Hrow H0. unfold for_grid.
  destruct (for_up_inv (fun y s => I y 0 s) (Z.to_nat h) 0 (fun y s => for_up (Z.to_nat w) 0 (fun x s => body x y s) s) s)
    as (s' & Hr & HI); [|done|].
  - intros y s1 Hy HI.
    destruct (for_up_inv (fun x s => I y x s) (Z.to_nat w) 0 (fun x s => body x y s) s1) as (s2 & Hr2 & HI2); [|done|].
    + intros x s2 Hx. apply Hstep; lia.
    + exists s2. split; [done|]. apply Hrow; [lia|]. replace w with (0 + Z.of_nat (Z.to_nat w)) at 1 by lia. done.
  - exists s'. split; [done|]. replace h with (0 + Z.of_nat (Z.to_nat h)) at 1 by lia. done.
Qed.

(** The pixels before ([y], [x]) in raster order. *)
Definition before (y x py px : Z) : Prop := py < y \/ (py = y /\ px < x).

Definition rgba_at (p : picture) (x y : Z) : Z := argb (chan p x y 0) (chan p x y 1) (chan p x y 2) (chan p x y 3).

Section Convert.
#[local] Set Default Proof Using "All".
Context (p : picture).
Context (Hw : 0 < p_w p) (Hh : 0 < p_h p) (Hb : zlen (p_bytes p) = p_w p * p_h p * 4).

(** The rows written so far, upside down. *)
Definition converted (out0 : list Z) (y x : Z) (out : list Z) : Prop :=
  length out = length out0 /\
  (forall px py, 0 <= px < p_w p -> 0 <= py < p_h p -> before y x py px ->
     get out ((p_h p - 1 - py) * p_w p + px) = rgba_at p px py) /\
  (forall j, p_w p * p_h p <= j -> get out j = get out0 j).

Lemma converted_row out0 y out : converted out0 y (p_w p) out -> converted out0 (y + 1) 0 out.
Proof.
  intros (Hl & Hp & Ho). split; [done|]. split; [|done]. intros px py Hx Hy Hbf. apply Hp; [done|done|].
  unfold before in *. lia.
Qed.

Lemma converted_start out0 : converted out0 0 0 out0.
Proof. split; [done|]. split; [|done]. intros px py Hx Hy Hbf. unfold before in Hbf. lia. Qed.

Lemma convert_pixel_ok out0 x y out :
  p_w p * p_h p <= zlen out0 -> 0 <= x < p_w p -> 0 <= y < p_h p -> converted out0 y x out ->
  exists out', convert_pixel (p_w p) (p_h p) (p_bytes p) x y out = Ok (chan p x y 3, out') /\ converted out0 y (x + 1) out'.
Proof.
  intros Hlen Hx Hy (Hl & Hp & Ho). pose proof (pix_index_bound (p_w p) (p_h p) x y Hx Hy) as Hi.
  pose proof (pix_index_bound (p_w p) (p_h p) x (p_h p - 1 - y) Hx ltac:(lia)) as Hd.
  unfold convert_pixel. rewrite !rd_in by lia. rewrite !bind_Ok.
  replace (p_h p - 1 - y) with ((p_h p - 1) - y) in * by lia. rewrite wr_in by lia. rewrite bind_Ok.
  eexists. split; [reflexivity|]. split; [by rewrite length_insert|]. split.
  - intros px py Hpx Hpy Hbf. destruct (decide (px = x /\ py = y)) as [[-> ->]|Hne].
    + rewrite get_insert_eq by lia. done.
    + pose proof (pix_index_bound (p_w p) (p_h p) px (p_h p - 1 - py) Hpx ltac:(lia)) as Hq.
      rewrite get_insert_ne; [|lia|lia|].
      * apply Hp; [done|done|]. unfold before in *. lia.
      * intros E. apply pix_index_inj in E; [lia|lia|lia].
  - intros j Hj. rewrite get_insert_ne by lia. by apply Ho.
Qed.

Lemma convert_ok out :
  p_w p * p_h p <= zlen out ->
  exists out', convert (p_w p) (p_h p) (p_bytes p) out = Ok out' /\ converted out (p_h p) 0 out'.
Proof.
  intros Hlen. apply (grid_inv (converted out)); [lia|lia| |intros; by apply converted_row|apply converted_start].
  intros x y o Hx Hy HI. destruct (convert_pixel_ok out x y o Hlen Hx Hy HI) as (o' & -> & HI'). rewrite bind_Ok. eauto.
Qed.

End Convert.

(** ** The mean alpha *)

Fixpoint sum_upto (n : nat) (f : Z -> Z) : Z :=
  match n with O => 0 | S n' => sum_upto n' f + f (Z.of_nat n') end.

Lemma sum_upto_ext n f g : (forall i, 0 <= i < Z.of_nat n -> f i = g i) -> sum_upto n f = sum_upto n g.
Proof.
  induction n as [|n IH]; intros Hfg; cbn [sum_upto]; [done|]. rewrite Hfg by lia. f_equal. apply IH. intros. apply Hfg. lia.
Qed.

Lemma sum_upto_shift n f : sum_upto (S n) f = f 0 + sum_upto n (fun i => f (i + 1)).
Proof.
  induction n as [|n IH]; [cbn [sum_upto]; change (Z.of_nat 0) with 0; lia|]. cbn [sum_upto] in *. rewrite IH.
  replace (Z.of_nat n + 1) with (Z.of_nat (S n)) by lia. lia.
Qed.

Lemma sum_upto_rev n f : sum_upto n (fun i => f (Z.of_nat n - 1 - i)) = sum_upto n f.
Proof.
  induction n as [|n IH]; [done|]. rewrite sum_upto_shift. cbn [sum_upto]. rewrite <- IH.
  replace (Z.of_nat (S n) - 1 - 0) with (Z.of_nat n) by lia. rewrite Z.add_comm. f_equal.
  apply sum_upto_ext. intros i Hi. f_equal. lia.
Qed.

Lemma sum_upto_bound n f k : (forall i, 0 <= i < Z.of_nat n -> 0 <= f i <= k) -> 0 <= sum_upto n f <= k * Z.of_nat n.
Proof.
  induction n as [|n IH]; intros Hf; cbn [sum_upto]; [lia|]. specialize (IH ltac:(intros; apply Hf; lia)).
  pose proof (Hf (Z.of_nat n) ltac:(lia)). lia.
Qed.

Definition row_alpha (p : picture) (y : Z) : Z := sum_upto (Z.to_nat (p_w p)) (fun x => chan p x y 3).
Definition alpha_sum (p : picture) : Z := sum_upto (Z.to_nat (p_h p)) (row_alpha p).

Lemma pic_chan_byte p x y c :
  0 <= x < p_w p -> 0 <= y < p_h p -> 0 <= c < 4 -> zlen (p_bytes p) = p_w p * p_h p * 4 -> Forall is_byte (p_bytes p) ->
  is_byte (chan p x y c).
Proof.
  intros Hx Hy Hc Hl Hf. pose proof (pix_index_bound (p_w p) (p_h p) x y Hx Hy). unfold chan, get.
  apply (proj1 (Forall_forall is_byte (p_bytes p)) Hf). apply list_elem_of_In, nth_In. lia.
Qed.

Section Sum.
#[local] Set Default Proof Using "All".
Context (p : picture).
Context (Hw : 0 < p_w p) (Hh : 0 < p_h p) (Hb : zlen (p_bytes p) = p_w p * p_h p * 4) (Hf : Forall is_byte (p_bytes p)).
Context (Hsmall : p_w p * p_h p <= 16777216).

(** The sum of the alphas before ([y], [x]). *)
Definition alpha_before (y x : Z) : Z :=
  sum_upto (Z.to_nat y) (row_alpha p) + sum_upto (Z.to_nat x) (fun px => chan p px y 3).

Lemma row_alpha_bound y : 0 <= y < p_h p -> 0 <= row_alpha p y <= 255 * p_w p.
Proof.
  intros Hy. unfold row_alpha. pose proof (sum_upto_bound (Z.to_nat (p_w p)) (fun x => chan p x y 3) 255) as Hs.
  rewrite Z2Nat.id in Hs by lia. apply Hs. intros i Hi. pose proof (pic_chan_byte p i y 3 ltac:(lia) Hy ltac:(lia) Hb Hf) as Hc.
  unfold is_byte in Hc. lia.
Qed.

Lemma alpha_before_bound y x : 0 <= x <= p_w p -> 0 <= y < p_h p -> 0 <= alpha_before y x <= 255 * (p_w p * p_h p).
Proof.
  intros Hx Hy. unfold alpha_before.
  pose proof (sum_upto_bound (Z.to_nat y) (row_alpha p) (255 * p_w p)) as H1. rewrite Z2Nat.id in H1 by lia.
  specialize (H1 ltac:(intros i Hi; apply row_alpha_bound; lia)).
  pose proof (sum_upto_bound (Z.to_nat x) (fun px => chan p px y 3) 255) as H2. rewrite Z2Nat.id in H2 by lia.
  assert (forall i, 0 <= i < x -> 0 <= chan p i y 3 <= 255) as Hc.
  { intros i Hi. pose proof (pic_chan_byte p i y 3 ltac:(lia) Hy ltac:(lia) Hb Hf) as Hc. unfold is_byte in Hc. lia. }
  specialize (H2 Hc). nia.
Qed.

Lemma convert_sum_ok out :
  p_w p * p_h p <= zlen out ->
  exists out', convert_sum (p_w p) (p_h p) (p_bytes p) out = Ok (alpha_sum p, out') /\ converted p out (p_h p) 0 out'.
Proof.
  intros Hlen.
  destruct (grid_inv (fun y x (s : Z * list Z) => s.1 = alpha_before y x /\ converted p out y x s.2) (p_w p) (p_h p)
    (fun x y (s : Z * list Z) => z ← convert_pixel (p_w p) (p_h p) (p_bytes p) x y s.2; Ok (u32 (s.1 + z.1), z.2)) (0, out))
    as ([t o] & Hr & Ht & Hc); [lia|lia| | | |].
  - intros x y [t o] Hx Hy [Ht HI]. cbn [fst snd] in *.
    destruct (convert_pixel_ok p Hw Hh Hb out x y o Hlen Hx Hy HI) as (o' & -> & HI'). rewrite bind_Ok. cbn [fst snd].
    eexists. split; [reflexivity|]. cbn [fst snd]. split; [|done].
    assert (t + chan p x y 3 = alpha_before y (x + 1)) as E.
    { rewrite Ht. unfold alpha_before. replace (Z.to_nat (x + 1)) with (S (Z.to_nat x)) by lia. cbn [sum_upto].
      rewrite Z2Nat.id by lia. lia. }
    rewrite E. pose proof (alpha_before_bound y (x + 1) ltac:(lia) Hy). apply u32_small. lia.
  - intros y [t o] Hy [Ht HI]. cbn [fst snd] in *. split; [|by apply converted_row].
    rewrite Ht. unfold alpha_before. replace (Z.to_nat (y + 1)) with (S (Z.to_nat y)) by lia. change (Z.to_nat 0) with 0%nat. cbn [sum_upto].
    rewrite Z2Nat.id by lia. change (row_alpha p y) with (sum_upto (Z.to_nat (p_w p)) (fun px => chan p px y 3)). lia.
  - split; [done|]. apply converted_start; done.
  - exists o. unfold convert_sum. rewrite Hr. cbn [fst snd] in *. split; [|done]. rewrite Ht. unfold alpha_before, alpha_sum.
    cbn. rewrite Z.add_0_r. done.
Qed.

End Sum.

Lemma argb_opaque r g b a : is_byte a -> Z.lor (argb r g b a) 4278190080 = argb r g b 255.
Proof.
  intros Ha. unfold argb. change 4278190080 with (Z.shiftl 255 24).
  rewrite (Z.lor_comm _ (Z.shiftl 255 24)), !Z.lor_assoc. do 3 f_equal.
  rewrite <- Z.shiftl_lor. f_equal. unfold is_byte in Ha.
  apply Z.bits_inj'. intros i Hi. rewrite Z.lor_spec. change 255 with (Z.ones 8).
  destruct (Z.ltb_spec i 8); [by rewrite Z.ones_spec_low by lia|]. rewrite Z.ones_spec_high by lia.
  rewrite <- (Z.mod_small a (2 ^ 8)) by (change (2 ^ 8) with 256; lia). by rewrite Z.mod_pow2_bits_high by lia.
Qed.

Lemma make_opaque_ok n out :
  0 <= n <= zlen out ->
  exists out', make_opaque n out = Ok out' /\ length out' = length out /\
    (forall i, 0 <= i < n -> get out' i = Z.lor (get out i) 4278190080) /\ (forall i, n <= i -> get out' i = get out i).
Proof.
  intros Hn. unfold make_opaque.
  destruct (for_up_inv (fun k o => length o = length out /\
      (forall i, 0 <= i < k -> get o i = Z.lor (get out i) 4278190080) /\ (forall i, k <= i -> get o i = get out i))
    (Z.to_nat n) 0 (fun i out => p ← rd out i; wr out i (Z.lor p 4278190080)) out) as (o & Hr & HI).
  - intros k o Hk (Hl & Hlo & Hhi). rewrite rd_in by lia. rewrite bind_Ok, wr_in by lia. eexists. split; [done|].
    split; [by rewrite length_insert|]. split.
    + intros i Hi. destruct (decide (i = k)) as [->|Hne]; [rewrite get_insert_eq by lia; by rewrite Hhi by lia|].
      rewrite get_insert_ne by lia. apply Hlo. lia.
    + intros i Hi. rewrite get_insert_ne by lia. apply Hhi. lia.
  - split; [done|]. split; [lia|done].
  - exists o. split; [done|]. replace (0 + Z.of_nat (Z.to_nat n)) with n in HI by lia. done.
Qed.

(** ** Reading the file *)

Lemma arena_store_spec data : forall ptr a,
  0 <= ptr -> ptr + zlen data <= STB_ARENA_SIZE ->
  exists a', arena_store ptr data a = Ok a' /\ stb_arena_offset a' = stb_arena_offset a /\
    forall i, stb_arena a' !! i = if decide (ptr <= i < ptr + zlen data) then Some (get data (i - ptr)) else stb_arena a !! i.
Proof.
  induction data as [|c r IH]; intros ptr a Hp Hl; cbn [arena_store].
  - exists a. split; [done|]. split; [done|]. intros i. by rewrite decide_False by (cbn; lia).
  - cbn [length] in Hl. unfold arena_wr. destruct (Z.leb_spec 0 ptr); [|lia].
    destruct (Z.ltb_spec ptr STB_ARENA_SIZE); [|lia]. cbn [andb]. rewrite bind_Ok.
    destruct (IH (ptr + 1) (mk_arena (<[ptr:=c]> (stb_arena a)) (stb_arena_offset a))) as (a' & Hr & Ho & Hg); [lia|lia|].
    exists a'. split; [done|]. split; [done|]. intros i. rewrite Hg. cbn [stb_arena length].
    destruct (decide (i = ptr)) as [->|Hne].
    + rewrite decide_False by lia. rewrite lookup_insert_eq, decide_True by lia. by rewrite Z.sub_diag.
    + rewrite lookup_insert_ne by done. destruct (decide (ptr + 1 <= i < ptr + 1 + zlen r)).
      * rewrite decide_True by lia. unfold get. replace (Z.to_nat (i - ptr)) with (S (Z.to_nat (i - (ptr + 1)))) by lia. done.
      * by rewrite decide_False by lia.
Qed.

Lemma slurp_missing {V} `{FatFsLaws V} path s (v : V) :
  file v path = None -> exists v', slurp path s v = Ok (NotFound, s, v') /\ forall q, file v' q = file v q.
Proof.
  intros Hf. destruct (open_missing path v Hf) as (r & h & v' & E & Hr & Hq). exists v'. unfold slurp. rewrite E, Hr. done.
Qed.

(** The bytes stored at the start of the arena are read back. *)
Lemma arena_bytes_stored c a (m : gmap Z Z) :
  (forall i, stb_arena a !! i = if decide (0 <= i < 0 + zlen c) then Some (get c (i - 0)) else m !! i) -> arena_bytes a 0 (zlen c) = c.
Proof.
  intros Hg.
  unfold arena_bytes. apply get_eq_ext; [rewrite length_fmap, length_seq; lia|]. intros i Hi.
  rewrite length_fmap, length_seq in Hi. unfold get at 1. rewrite nth_lookup, list_lookup_fmap, lookup_seq_lt by lia.
  cbn. rewrite Hg, decide_True by lia. cbn. f_equal. lia.
Qed.

(** The file [c] at [path], read into a reset arena. *)
Lemma slurp_ok {V} `{FatFsLaws V} path c s (v : V) :
  media_ok V -> file v path = Some c -> zlen c <= STB_ARENA_SIZE ->
  stb_arena_offset (stb_mem s) = 0 ->
  exists a v', slurp path s v = Ok (Loaded 0 (zlen c), mk_stb (stb_flip s) a, v') /\
    arena_bytes a 0 (zlen c) = c /\ stb_arena_offset a = 4 * ((zlen c + 3) / 4).
Proof.
  intros Hm Hf Hl Ho. unfold slurp. destruct (open_ok path v c Hf) as (h & v1 & -> & Hp & Hq).
  change (FR_OK =? FR_OK) with true. cbn [negb].
  rewrite (size_law h v1 path 0 c Hp ltac:(by rewrite Hq)).
  rewrite malloc_arena_spec by (unfold STB_ARENA_SIZE in *; lia). rewrite Ho.
  set (n := 4 * ((zlen c + 3) / 4)). assert (n <= STB_ARENA_SIZE) by (unfold n, STB_ARENA_SIZE in *; dlia).
  destruct (Z.leb_spec (0 + n) STB_ARENA_SIZE); [|lia].
  destruct (read_ok h (zlen c) v1 path 0 c Hm Hp ltac:(by rewrite Hq) ltac:(lia) ltac:(lia)) as (v2 & -> & _ & _).
  rewrite Nat2Z.id, drop_0, firstn_all.
  destruct (arena_store_spec c 0 (mk_arena (stb_arena (stb_mem s)) (0 + n))) as (a & -> & Ha & Hg); [lia|lia|].
  rewrite bind_Ok. change (FR_OK =? FR_OK) with true. rewrite Z.eqb_refl. cbn [negb orb].
  exists a, (f_close h v2). split; [done|]. split; [|rewrite Ha; cbn [stb_arena_offset]; lia].
  by apply (arena_bytes_stored c a (stb_arena (stb_mem s))).
Qed.

(** Reading any file into a reset arena, on any medium. *)
Lemma slurp_cases {V} `{FatFsLaws V} path s (v : V) :
  stb_arena_offset (stb_mem s) = 0 ->
  (exists r s' v', slurp path s v = Ok (r, s', v') /\ (r = NotFound \/ r = BadRead)) \/
  (exists c a v', slurp path s v = Ok (Loaded 0 (zlen c), mk_stb (stb_flip s) a, v') /\ file v path = Some c /\ zlen c <= STB_ARENA_SIZE /\
     arena_bytes a 0 (zlen c) = c /\ stb_arena_offset a = 4 * ((zlen c + 3) / 4)) \/
  (exists c, file v path = Some c /\ 4294967292 < zlen c).
Proof.
  intros Ho. destruct (file v path) as [c|] eqn:Hf; [|destruct (slurp_missing path s v Hf) as (v' & E & _); left; eexists _, _, _; split; [exact E|by left]].
  destruct (Z.le_gt_cases (zlen c) 4294967292) as [Hc|Hc]; [|do 2 right; by exists c].
  unfold slurp. destruct (open_ok path v c Hf) as (h & v1 & -> & Hp & Hq).
  change (FR_OK =? FR_OK) with true. cbn [negb]. rewrite (size_law h v1 path 0 c Hp ltac:(by rewrite Hq)).
  rewrite malloc_arena_spec by (unfold STB_ARENA_SIZE in *; lia). rewrite Ho.
  set (n := 4 * ((zlen c + 3) / 4)). assert (zlen c <= n <= 4294967292) by (unfold n; dlia).
  destruct (Z.leb_spec (0 + n) STB_ARENA_SIZE).
  2: { destruct (Z.leb_spec 4294967296 (0 + n)); [lia|]. left. eexists _, _, _. split; [reflexivity|by right]. }
  pose proof (read_bound h (zlen c) v1 ltac:(lia)) as Hrb.
  pose proof (read_law h (zlen c) v1 path 0 c Hp ltac:(by rewrite Hq) ltac:(lia) ltac:(lia)) as L.
  destruct (f_read h (zlen c) v1) as [[r data] v2]. cbn [fst snd] in Hrb. destruct L as (_ & _ & L).
  destruct (arena_store_spec data 0 (mk_arena (stb_arena (stb_mem s)) (0 + n))) as (a & -> & Ha & Hg); [lia|lia|]. rewrite bind_Ok.
  destruct (Z.eqb_spec r FR_OK) as [Hr|Hr]; cbn [negb orb]; [|left; eexists _, _, _; split; [reflexivity|by right]].
  destruct (L Hr) as [-> _]. rewrite Nat2Z.id, drop_0, firstn_all in *. rewrite Z.eqb_refl. cbn [negb].
  right. left. exists c, a, (f_close h v2). split; [done|]. split; [done|]. split; [lia|]. split; [|rewrite Ha; cbn [stb_arena_offset]; lia].
  by apply (arena_bytes_stored c a (stb_arena (stb_mem s))).
Qed.

(** The picture a decoder yields for the file [c] whatever the arena holds. *)
Definition decodes `{Decoder} (c : list Z) (p : picture) : Prop :=
  forall a, stb_arena_offset a = 4 * ((zlen c + 3) / 4) -> (decode false c a).1 = Some p.

(** Decoding with the flip flag set, seen through the unflipped picture. *)
Lemma decode_flipped `{DecoderLaws} c p a :
  decodes c p -> stb_arena_offset a = 4 * ((zlen c + 3) / 4) ->
  exists q a', decode true c a = (Some q, a') /\ p_w q = p_w p /\ p_h q = p_h p /\ 0 < p_w q /\ 0 < p_h q /\
    p_w q * p_h q * 4 < 2147483648 /\ zlen (p_bytes q) = p_w q * p_h q * 4 /\ Forall is_byte (p_bytes q) /\
    (forall x y, 0 <= x < p_w p -> 0 <= y < p_h p -> rgba_at q x y = rgba_at p x (p_h p - 1 - y)) /\
    (forall x y, 0 <= x < p_w p -> 0 <= y < p_h p -> chan q x y 3 = chan p x (p_h p - 1 - y) 3).
Proof.
  intros Hd Ho. destruct (decode_flip c a p (Hd a Ho)) as (q & Hq & Ew & Eh & Hc).
  destruct (decode_size true c a q Hq) as (W & H1 & H2 & H3 & H4). destruct (decode true c a) as [q' a'] eqn:E. cbn [fst] in Hq. subst q'.
  exists q, a'. split_and!; try done.
  - intros x y Hx Hy. unfold rgba_at. by rewrite !Hc by lia.
  - intros x y Hx Hy. by rewrite Hc by lia.
Qed.

Lemma alpha_sum_flip (p q : picture) :
  p_w q = p_w p -> p_h q = p_h p -> 0 < p_h p ->
  (forall x y, 0 <= x < p_w p -> 0 <= y < p_h p -> chan q x y 3 = chan p x (p_h p - 1 - y) 3) ->
  alpha_sum q = alpha_sum p.
Proof.
  intros Ew Eh Hh Hc. unfold alpha_sum. rewrite Eh, <- (sum_upto_rev (Z.to_nat (p_h p)) (row_alpha p)).
  apply sum_upto_ext. intros y Hy. rewrite Z2Nat.id in * by lia. unfold row_alpha. rewrite Ew.
  apply sum_upto_ext. intros x Hx. apply Hc; lia.
Qed.

(** The pixel shown for ([x], [y]): nearly transparent pictures (mean alpha
    below 5) are made opaque. *)
Definition shown_pixel (p : picture) (x y : Z) : Z :=
  argb (chan p x y 0) (chan p x y 1) (chan p x y 2)
    (if alpha_sum p / (p_w p * p_h p) <? 5 then 255 else chan p x y 3).

(** A picture file of the expected dimensions is loaded upright: the flip
    of the decoder and the reversed rows of the conversion cancel, so the
    word at row [y], column [x] of the output is the pixel of the picture
    there (made opaque when the mean alpha is below 5); the rest of the
    buffer is untouched and the flip flag is cleared again. *)
Theorem load_image_upright {V : Type} `{FatFsLaws V} `{DecoderLaws} (path out c : list Z) (p : picture) (s : stb) (v : V) :
  media_ok V -> file v path = Some c -> zlen c <= STB_ARENA_SIZE -> decodes c p ->
  p_w p * p_h p <= 16777216 -> p_w p * p_h p <= zlen out ->
  exists out' s' v', load_image_via_stb path out (p_w p) (p_h p) s v = Ok (Some (p_w p, p_h p), out', s', v') /\
    length out' = length out /\ stb_flip s' = false /\
    (forall x y, 0 <= x < p_w p -> 0 <= y < p_h p -> get out' (y * p_w p + x) = shown_pixel p x y) /\
    (forall j, p_w p * p_h p <= j -> get out' j = get out j).
Proof.
  intros Hm Hf Hl Hd Hsm Hout. unfold load_image_via_stb.
  destruct (slurp_ok path c (mk_stb (stb_flip s) (arena_reset (stb_mem s))) v Hm Hf Hl eq_refl) as (a & v1 & -> & Ha & Ho).
  rewrite bind_Ok. cbv beta iota zeta. unfold stbi_load_from_memory. cbn [set_flip stb_flip stb_mem]. rewrite Ha.
  destruct (decode_flipped c p a Hd Ho) as (q & a' & -> & Ew & Eh & Hw & Hh & Hmax & Hb & Hby & Hpix & Hal). cbn [set_flip stb_flip stb_mem].
  pose proof (alpha_sum_flip p q Ew Eh ltac:(lia) Hal) as Es. rewrite <- Ew, <- Eh in *. rewrite !Z.eqb_refl. cbn [negb orb].
  destruct (convert_sum_ok q Hw Hh Hb Hby ltac:(lia) out ltac:(lia)) as (o1 & -> & L1 & P1 & R1). rewrite bind_Ok. cbn [fst snd].
  rewrite i32_small by lia. destruct (Z.eqb_spec (p_w q * p_h q) 0); [lia|]. rewrite u32_small by lia. rewrite Es.
  assert (forall x y, 0 <= x < p_w q -> 0 <= y < p_h q -> get o1 (y * p_w q + x) = rgba_at p x y) as Pix.
  { intros x y Hx Hy. pose proof (P1 x (p_h q - 1 - y) Hx ltac:(lia) ltac:(left; lia)) as E.
    rewrite Hpix in E by lia. replace (p_h q - 1 - (p_h q - 1 - y)) with y in E by lia. done. }
  unfold shown_pixel. rewrite <- Ew, <- Eh. destruct (alpha_sum p / (p_w q * p_h q) <? 5).
  - destruct (make_opaque_ok (p_w q * p_h q) o1) as (o2 & -> & L2 & P2 & R2); [lia|]. rewrite bind_Ok.
    eexists _, _, _. split; [reflexivity|]. split; [by rewrite L2|]. split; [done|]. split.
    + intros x y Hx Hy. pose proof (pix_index_bound _ _ x y Hx Hy). rewrite P2 by lia. rewrite Pix by done. unfold rgba_at. apply argb_opaque.
      replace (chan p x y 3) with (chan q x (p_h q - 1 - y) 3) by (rewrite Hal by lia; f_equal; lia).
      apply pic_chan_byte; [lia|lia|lia|done|done].
    + intros j Hj. rewrite R2 by lia. by apply R1.
  - rewrite bind_Ok. eexists _, _, _. split; [reflexivity|]. split; [done|]. split; [done|]. split; [exact Pix|exact R1].
Qed.

(** ** A concrete decoder *)

(** Files of the form width, height, pixels; rows are reversed on request. *)
Definition flip_rows (w h : Z) (px : list Z) : list Z :=
  (fun k => let k := Z.of_nat k in get px ((h - 1 - k / (4 * w)) * (4 * w) + k mod (4 * w))) <$> seq 0 (Z.to_nat (w * h * 4)).

Definition raw_picture (f : bool) (d : list Z) : option picture :=
  match d with
  | w :: h :: px =>
      if (0 <? w) && (0 <? h) && (w * h * 4 <? 2147483648) && (zlen px =? w * h * 4) && forallb (fun c => (0 <=? c) && (c <? 256)) px
      then Some (mk_picture w h (if f then flip_rows w h px else px)) else None
  | _ => None
  end.

#[global] Instance raw_decoder : Decoder := { decode f d a := (raw_picture f d, a) }.

Lemma flip_rows_chan w h px x y c :
  0 < w -> 0 <= x < w -> 0 <= y < h -> 0 <= c < 4 ->
  get (flip_rows w h px) ((y * w + x) * 4 + c) = get px (((h - 1 - y) * w + x) * 4 + c).
Proof.
  intros Hw Hx Hy Hc. pose proof (pix_index_bound w h x y Hx Hy). unfold flip_rows, get at 1.
  rewrite nth_lookup, list_lookup_fmap, lookup_seq_lt by lia.
  cbn [fmap option_fmap option_map default from_option id Nat.add]. cbv zeta. rewrite Z2Nat.id by lia.
  replace ((y * w + x) * 4 + c) with (y * (4 * w) + (x * 4 + c)) by lia.
  rewrite Z.div_add_l, Z.div_small, Z.add_0_r by lia.
  rewrite (Z.add_comm (y * (4 * w)) (x * 4 + c)), Z.mod_add, Z.mod_small by lia. f_equal. lia.
Qed.

Lemma flip_rows_bytes w h px : 0 < w -> 0 < h -> zlen px = w * h * 4 -> Forall is_byte px -> Forall is_byte (flip_rows w h px).
Proof.
  intros Hw Hh Hl Hf. unfold flip_rows. apply Forall_fmap, Forall_forall. intros k Hk. apply elem_of_seq in Hk. cbn.
  pose proof (Z.mod_pos_bound (Z.of_nat k) (4 * w) ltac:(lia)).
  assert (0 <= Z.of_nat k / (4 * w) < h).
  { split; [apply Z.div_pos; lia|]. apply Z.div_lt_upper_bound; lia. }
  unfold get. apply (proj1 (Forall_forall is_byte px) Hf). apply list_elem_of_In, nth_In. nia.
Qed.

#[global] Instance raw_decoder_laws : DecoderLaws.
Proof.
  assert (forall f d p, raw_picture f d = Some p -> exists w h px, d = w :: h :: px /\ 0 < w /\ 0 < h /\ w * h * 4 < 2147483648 /\
    zlen px = w * h * 4 /\ Forall is_byte px /\ p = mk_picture w h (if f then flip_rows w h px else px) /\
    raw_picture (negb f) d = Some (mk_picture w h (if negb f then flip_rows w h px else px))) as Hinv.
  { intros f d p Hp. destruct d as [|w [|h px]]; [done..|]. unfold raw_picture in *.
    destruct ((0 <? w) && _ && _ && _ && _) eqn:E; [|done]. injection Hp as <-. rewrite !andb_true_iff in E.
    destruct E as ((((E1 & E2) & E3) & E4) & E5). exists w, h, px. split_and!; try lia; try done.
    rewrite List.forallb_forall in E5. apply Forall_forall. intros c Hc. apply list_elem_of_In in Hc. specialize (E5 c Hc). unfold is_byte. lia. }
  split; cbn [decode raw_decoder fst].
  - intros f d a p Hp. destruct (Hinv f d p Hp) as (w & h & px & -> & Hw & Hh & Hm & Hl & Hb & -> & _). cbn [p_w p_h p_bytes].
    split_and!; [done..| |]; destruct f; [|done| |done].
    + unfold flip_rows. rewrite length_fmap, length_seq. lia.
    + by apply flip_rows_bytes.
  - intros d a p Hp. destruct (Hinv false d p Hp) as (w & h & px & -> & Hw & Hh & Hm & Hl & Hb & -> & Hq).
    eexists. split; [exact Hq|]. cbn [p_w p_h]. split; [done|]. split; [done|]. intros x y c Hx Hy Hc. by apply flip_rows_chan.
  - intros d a Hn. destruct (raw_picture true d) as [q|] eqn:E; [|done].
    destruct (Hinv true d q E) as (w & h & px & _ & _ & _ & _ & _ & _ & _ & Hq). cbn [negb] in Hq. congruence.
Qed.

(** A 2 x 2 picture file. *)
Definition demo_pic : list Z := [2; 2; 1;2;3;255; 4;5;6;255; 7;8;9;255; 10;11;12;255].
Definition demo_vol : memfs := mk_memfs {[ bytes "0:/a.png" := demo_pic ]} ∅ 0.

Lemma load_image_upright_witness :
  exists out' s' v', load_image_via_stb (bytes "0:/a.png") (replicate 5 0) 2 2 (mk_stb true arena_boot) demo_vol =
      Ok (Some (2, 2), out', s', v') /\ get out' 1 = argb 4 5 6 255 /\ get out' 2 = argb 7 8 9 255.
Proof.
  destruct (load_image_upright (bytes "0:/a.png") (replicate 5 0) demo_pic (mk_picture 2 2 (drop 2 demo_pic)) (mk_stb true arena_boot) demo_vol)
    as (out' & s' & v' & Hr & _ & _ & Hp & _).
  - exact mem_media_ok.
  - reflexivity.
  - vm_compute. discriminate.
  - intros a Ha. reflexivity.
  - vm_compute. discriminate.
  - vm_compute. discriminate.
  - exists out', s', v'. split; [exact Hr|]. split.
    + etransitivity; [apply (Hp 1 0); cbn; lia|]. vm_compute. reflexivity.
    + etransitivity; [apply (Hp 0 1); cbn; lia|]. vm_compute. reflexivity.
Defined.
