(* ===== verification/View.v ===== *)
(** * View: the image viewer (naoview.c)

    The viewer keeps one decoded picture in a block of the kernel heap (Mm);
    the file is read and decoded through Image. A pointer to pixels is the
    heap address with the words stored there. *)

From Stdlib Require Import ZArith Lia Bool String.
From stdpp Require Import base list gmap.
From S2P Require Import Prelude CLib Mm Gfx Fs Ui Image.
From stdpp Require Import options.

Inductive naoview_status := NAOVIEW_STATUS_OK | NAOVIEW_STATUS_ERR_NOT_FOUND | NAOVIEW_STATUS_ERR_BAD_FORMAT.

#[global] Instance naoview_status_eq_dec : EqDecision naoview_status.
Proof. solve_decision. Defined.

(** The loaded picture: [naoview_pixels], [naoview_width], [naoview_height]
    and the handle of [naoview_img]. *)
Record shown := mk_shown {
  naoview_pixels : option (Z * list Z); naoview_width : Z; naoview_height : Z; naoview_img : option (Z * Z)
}.

Record view := mk_view {
  naoview_active : Z; naoview_minimized : Z; naoview_show_open_dialog : Z;
  naoview_alert : naoview_status; naoview_current_file : list Z; vw_shown : shown; bounds_naoview : nk_rect
}.

Definition no_picture : shown := mk_shown None 0 0 None.

Definition view_boot : view :=
  mk_view 0 0 0 NAOVIEW_STATUS_OK (filled (replicate 128 0) (bytes "0:/")) no_picture (mk_rect 150 100 400 400).

Definition set_shown (p : shown) (w : view) : view :=
  mk_view (naoview_active w) (naoview_minimized w) (naoview_show_open_dialog w) (naoview_alert w) (naoview_current_file w) p (bounds_naoview w).
Definition set_status (a : naoview_status) (w : view) : view :=
  mk_view (naoview_active w) (naoview_minimized w) (naoview_show_open_dialog w) a (naoview_current_file w) (vw_shown w) (bounds_naoview w).
Definition set_dialog (d : Z) (w : view) : view :=
  mk_view (naoview_active w) (naoview_minimized w) d (naoview_alert w) (naoview_current_file w) (vw_shown w) (bounds_naoview w).
Definition set_file (f : list Z) (w : view) : view :=
  mk_view (naoview_active w) (naoview_minimized w) (naoview_show_open_dialog w) (naoview_alert w) f (vw_shown w) (bounds_naoview w).

(** What the viewer shares with the rest of the kernel: heap, decoder, disk. *)
Record world (V : Type) := mk_world { w_heap_st : mm_state; w_stb : stb; w_vol : V }.
Arguments mk_world {V} _ _ _.
Arguments w_heap_st {V} _.
Arguments w_stb {V} _.
Arguments w_vol {V} _.

Section Viewer.
Context {V : Type} `{FatFs V} `{Decoder}.
(** The address of the heap array and the words found in fresh memory. *)
Context (base : Z) (fresh : Z -> Z -> list Z).

Definition naoview_close_image (w : view) (k : world V) : res (view * world V) :=
  st ← (match naoview_pixels (vw_shown w) with
        | Some (p, _) => kfree base p (w_heap_st k)
        | None => Ok (w_heap_st k)
        end);
  Ok (set_shown no_picture w, mk_world st (w_stb k) (w_vol k)).

Definition set_stb (s : stb) (k : world V) : world V := mk_world (w_heap_st k) s (w_vol k).

(** The returned integer is 1 for success. *)
Definition naoview_load_image (path : list Z) (w : view) (k : world V) : res (Z * view * world V) :=
  x ← naoview_close_image w k;
  let '(w, k) := (x : view * world V) in
  let w := set_status NAOVIEW_STATUS_OK w in
  let s := mk_stb (stb_flip (w_stb k)) (arena_reset (stb_mem (w_stb k))) in
  x ← slurp path s (w_vol k);
  let '(l, s, v) := (x : slurped * stb * V) in
  match l with
  | NotFound => Ok (0, set_status NAOVIEW_STATUS_ERR_NOT_FOUND w, mk_world (w_heap_st k) s v)
  | BadRead => Ok (0, set_status NAOVIEW_STATUS_ERR_BAD_FORMAT w, mk_world (w_heap_st k) s v)
  | Loaded ptr file_size =>
      let '(p, s) := stbi_load_from_memory ptr file_size (set_flip true s) in
      match p with
      | None => Ok (0, set_status NAOVIEW_STATUS_ERR_BAD_FORMAT w, mk_world (w_heap_st k) (set_flip false s) v)
      | Some p =>
          let width := p_w p in let height := p_h p in
          x ← kmalloc base (u32 (i32 (width * height * 4))) (w_heap_st k);
          let '(st, px) := (x : mm_state * Z) in
          if px =? 0 then Ok (0, w, mk_world st (set_flip false s) v)
          else
            out ← convert width height (p_bytes p) (fresh px (width * height));
            Ok (1, set_shown (mk_shown (Some (px, out)) width height (Some (width, height))) w,
                mk_world st (set_flip false s) v)
      end
  end.

Definition naoview_open_file (path : list Z) (w : view) (k : world V) : res (Z * view * world V) :=
  f ← strncpy (naoview_current_file w) path 127;
  let w := mk_view 1 0 (naoview_show_open_dialog w) (naoview_alert w) f (vw_shown w) (bounds_naoview w) in
  p ← or_fault (until_nul f);
  naoview_load_image p w k.

(** ** The frame *)

Record vw_in := mk_vw_in {
  vi_clicked : Z; vi_any_active : bool; vi_main : win_in; vi_menu : bool; vi_open : bool; vi_close : bool;
  vi_popup : bool; vi_path : list Z; vi_load : bool; vi_cancel : bool;
  vi_alert : bool; vi_alert_ok : bool;
  vi_info : list Z; vi_target : list Z
}.

(** The File menu. *)
Definition view_menu (i : vw_in) (w : view) (k : world V) : res (view * world V) :=
  if vi_menu i then
    let w := if vi_open i then set_status NAOVIEW_STATUS_OK (set_dialog 1 w) else w in
    if vi_close i then
      x ← naoview_close_image w k;
      f ← strncpy (naoview_current_file x.1) (lit "0:/") 127;
      Ok (set_status NAOVIEW_STATUS_OK (set_file f x.1), x.2)
    else Ok (w, k)
  else Ok (w, k).

(** The line above the picture, in the uninitialised array [vi_info]. *)
Definition info_line (i : vw_in) (w : view) : res unit :=
  match naoview_pixels (vw_shown w), naoview_img (vw_shown w) with
  | Some _, Some _ =>
      _ ← mini_snprintf (Some (vi_info i)) 140 (lit "Source: %s [%dx%d]")
            [VStr (Some (naoview_current_file w)); VInt (naoview_width (vw_shown w)); VInt (naoview_height (vw_shown w))];
      Ok tt
  | _, _ => Ok tt
  end.

(** The open prompt. *)
Definition open_prompt (i : vw_in) (w : view) (k : world V) (d : desk) : res (view * world V * desk) :=
  if truth (naoview_show_open_dialog w) then
    if vi_popup i then
      f ← edit_field (naoview_current_file w) (vi_path i);
      let w := set_file f w in
      x ← (if vi_load i then
             p ← or_fault (until_nul f);
             y ← naoview_load_image p w k;
             let '(_, w, k) := (y : Z * view * world V) in
             if bool_decide (naoview_alert w = NAOVIEW_STATUS_OK) then Ok (set_dialog 0 w, k, say PopupClose d) else Ok (w, k, d)
           else Ok (w, k, d));
      let '(w, k, d) := (x : view * world V * desk) in
      if vi_cancel i then Ok (set_dialog 0 w, k, say PopupClose d) else Ok (w, k, d)
    else Ok (set_dialog 0 w, k, d)
  else Ok (w, k, d).

(** The error window, with its label in the uninitialised array [vi_target]. *)
Definition error_window (i : vw_in) (w : view) (d : desk) : res (view * desk) :=
  if bool_decide (naoview_alert w = NAOVIEW_STATUS_OK) then Ok (w, d)
  else if vi_alert i then
    _ ← mini_snprintf (Some (vi_target i)) 160 (lit "Path: %s") [VStr (Some (naoview_current_file w))];
    if vi_alert_ok i then Ok (set_status NAOVIEW_STATUS_OK w, say PopupClose d) else Ok (w, d)
  else Ok (set_status NAOVIEW_STATUS_OK w, d).

(** The routing of the kernel's own windows and of the viewer: the owner takes
    the lock on every click. *)
Definition route_greedy (id : Z) (name : list Z) (w : win_in) (clicked : Z) (any_active : bool) (d : desk) : desk :=
  if w_focus w || (drag d =? id) then if truth clicked then lock id d else d
  else if w_hovered w && truth clicked && (drag d =? 0) then
    if negb any_active then say (SetFocus name) (lock id d) else d
  else d.

Definition W_VIEW : list Z := bytes "NaoView - Image Viewer".

Definition render_naoview (i : vw_in) (w : view) (k : world V) (d : desk) : res (view * world V * desk) :=
  if negb (truth (naoview_active w)) || truth (naoview_minimized w) then Ok (w, k, d)
  else
    x ← (if w_begin (vi_main i) then
           let w := mk_view (naoview_active w) (naoview_minimized w) (naoview_show_open_dialog w) (naoview_alert w)
                      (naoview_current_file w) (vw_shown w) (w_bounds (vi_main i)) in
           x ← view_menu i w k;
           _ ← info_line i x.1;
           y ← open_prompt i x.1 x.2 d;
           let '(w, k, d) := (y : view * world V * desk) in
           z ← error_window i w d; Ok (z.1, k, z.2)
         else Ok (w, k, d));
    let '(w, k, d) := (x : view * world V * desk) in
    let d := route_greedy 5 W_VIEW (vi_main i) (vi_clicked i) (vi_any_active i) d in
    if w_hidden (vi_main i) then
      x ← naoview_close_image (mk_view 0 (naoview_minimized w) (naoview_show_open_dialog w) (naoview_alert w)
                                 (naoview_current_file w) (vw_shown w) (bounds_naoview w)) k;
      Ok (x.1, x.2, d)
    else Ok (w, k, d).

End Viewer.

(** ** What the viewer holds of the heap *)

(** [owns base l w st]: the heap is [l] with at most one more block, which
    holds the pixels of the picture shown. *)
Definition owns (base : Z) (l : list block) (w : view) (st : mm_state) : Prop :=
  match naoview_pixels (vw_shown w) with
  | None => vw_shown w = no_picture /\ heap_repr base st l
  | Some (p, out) => exists n l', 0 <= n /\ a_alloc n l = Some (p, l') /\ heap_repr base st l' /\
      zlen out = naoview_width (vw_shown w) * naoview_height (vw_shown w) /\ zlen out * 4 <= n /\
      naoview_img (vw_shown w) = Some (naoview_width (vw_shown w), naoview_height (vw_shown w))
  end.

Section Owner.
Context {V : Type} `{FatFs V} `{DecoderLaws}.
Context (base : Z) (fresh : Z -> Z -> list Z) (l : list block).
Context (fresh_len : forall a n, 0 <= n -> zlen (fresh a n) = n).
Context (calm : no_adjacent_free l) (tiled : tiles base (base + HEAP_BYTES) l).
#[local] Set Default Proof Using "All".

(** Closing always succeeds and gives the block back. *)
Lemma close_restores w (k : world V) :
  owns base l w (w_heap_st k) ->
  exists st, naoview_close_image base w k = Ok (set_shown no_picture w, mk_world st (w_stb k) (w_vol k)) /\
    heap_repr base st l.
Proof.
  unfold owns, naoview_close_image. destruct (naoview_pixels (vw_shown w)) as [[p out]|].
  - intros (n & l' & Hn & Ha & Hr & _). destruct (a_alloc_new n l p l' Hn Ha) as (b & Hb & <- & _).
    destruct (kfree_refines_aux base _ _ b Hr Hb) as (st & -> & Hr'). rewrite bind_Ok. exists st. split; [done|].
    destruct (a_alloc_free n _ _ _ _ _ tiled Hn calm Ha) as [E _]. by rewrite E in Hr'.
  - intros [_ Hr]. exists (w_heap_st k). rewrite bind_Ok. done.
Qed.

(** The picture [p], converted into a fresh block. *)
Lemma store_picture st (p : picture) :
  heap_repr base st l -> 0 < p_w p -> 0 < p_h p -> p_w p * p_h p * 4 < 2147483648 ->
  zlen (p_bytes p) = p_w p * p_h p * 4 ->
  match a_alloc (ALIGN (p_w p * p_h p * 4)) l with
  | None => kmalloc base (u32 (i32 (p_w p * p_h p * 4))) st = Spin
  | Some (a, l') => exists st' out, kmalloc base (u32 (i32 (p_w p * p_h p * 4))) st = Ok (st', a) /\ a <> 0 /\
      convert (p_w p) (p_h p) (p_bytes p) (fresh a (p_w p * p_h p)) = Ok out /\
      (forall x y, 0 <= x < p_w p -> 0 <= y < p_h p ->
         get out ((p_h p - 1 - y) * p_w p + x) = rgba_at p x y) /\
      forall w, owns base l (set_shown (mk_shown (Some (a, out)) (p_w p) (p_h p) (Some (p_w p, p_h p))) w) st'
  end.
Proof.
  intros Hr Hw Hh Hm Hb. assert (0 < p_w p * p_h p) by nia. rewrite i32_small, u32_small by lia.
  pose proof (kmalloc_refines_aux base st l (p_w p * p_h p * 4) Hr ltac:(lia)) as Hk.
  pose proof (ALIGN_ge (p_w p * p_h p * 4) ltac:(lia)) as HA.
  destruct (a_alloc _ l) as [[a l']|] eqn:Ha; [|exact Hk]. destruct Hk as (st' & Hk & Hr').
  destruct (convert_ok p Hw Hh Hb (fresh a (p_w p * p_h p))) as (out & Hc & Hl & Hp & _); [rewrite fresh_len by lia; lia|].
  pose proof (fresh_len a (p_w p * p_h p) ltac:(lia)) as Hf.
  exists st', out. split_and!; [done| |done| |].
  - destruct (a_alloc_new (ALIGN (p_w p * p_h p * 4)) l a l' ltac:(lia) Ha) as (b & Hin & <- & _). destruct Hr' as (_ & Hpos & _ & _ & Ht).
    destruct (tiles_elem _ _ _ _ Ht Hin). unfold HDR. lia.
  - intros x y Hx Hy. apply Hp; [done|done|]. unfold before. lia.
  - intros w. cbn. exists (ALIGN (p_w p * p_h p * 4)), l'. split_and!; [lia|done|done|lia|lia|done].
Qed.

(** Loading keeps the ownership, whatever the file holds. *)
Lemma load_owns path w (k : world V) r w' k' :
  owns base l w (w_heap_st k) -> naoview_load_image base fresh path w k = Ok (r, w', k') ->
  owns base l w' (w_heap_st k').
Proof.
  intros Ho. unfold naoview_load_image. destruct (close_restores w k Ho) as (st & -> & Hr). rewrite bind_Ok. cbv beta iota zeta.
  cbn [w_heap_st w_stb w_vol]. destruct (slurp path _ (w_vol k)) as [[[s0 s] v]| | |]; [|done..]. rewrite bind_Ok. cbv beta iota zeta.
  destruct s0 as [| |ptr n]; [by intros [= _ <- <-]..|].
  unfold stbi_load_from_memory. cbn [set_flip stb_flip stb_mem].
  destruct (decode true _ _) as [[p|] a'] eqn:Hd; [|by intros [= _ <- <-]].
  destruct (decode_size true _ _ p ltac:(by rewrite Hd)) as (Hw & Hh & Hm & Hb & _).
  pose proof (store_picture st p Hr Hw Hh Hm Hb) as Hs. cbv zeta.
  destruct (a_alloc _ l) as [[a l']|]; [|by rewrite Hs].
  destruct Hs as (st' & out & -> & Ha & Hc & _ & Hown). rewrite bind_Ok. cbv beta iota.
  destruct (Z.eqb_spec a 0); [done|]. rewrite Hc, bind_Ok. intros [= _ <- <-]. apply Hown.
Qed.

Lemma owns_shown w w' st : vw_shown w' = vw_shown w -> owns base l w st -> owns base l w' st.
Proof. unfold owns. by intros ->. Qed.

Lemma closed_owns w st : heap_repr base st l -> owns base l (set_shown no_picture w) st.
Proof. done. Qed.

Lemma menu_owns i w (k : world V) w' k' :
  owns base l w (w_heap_st k) -> view_menu base i w k = Ok (w', k') -> owns base l w' (w_heap_st k').
Proof.
  intros Ho. unfold view_menu. destruct (vi_menu i); [|by intros [= <- <-]]. cbv zeta.
  set (w1 := if vi_open i then _ else w). assert (owns base l w1 (w_heap_st k)) as Ho1 by (unfold w1; destruct (vi_open i); exact Ho).
  destruct (vi_close i); [|by intros [= <- <-]].
  destruct (close_restores w1 k Ho1) as (st & -> & Hr). rewrite bind_Ok. intros Hf. inv_ok. by apply closed_owns.
Qed.

Lemma prompt_owns i w (k : world V) d w' k' d' :
  owns base l w (w_heap_st k) -> open_prompt base fresh i w k d = Ok (w', k', d') -> owns base l w' (w_heap_st k').
Proof.
  intros Ho. unfold open_prompt. destruct (truth _); [|by intros [= <- <- _]]. destruct (vi_popup i); [|by intros [= <- <- _]].
  intros Hf. apply bind_Ok_inv in Hf as (f & _ & Hf). cbv zeta in Hf. apply bind_Ok_inv in Hf as ([[w1 k1] d1] & Hl & Hf).
  assert (owns base l w1 (w_heap_st k1)) as Ho1.
  { destruct (vi_load i); [|by injection Hl as <- <- _]. apply bind_Ok_inv in Hl as (p & _ & Hl).
    apply bind_Ok_inv in Hl as ([[r w2] k2] & Hl & Hx). pose proof (load_owns _ (set_file f w) _ _ _ _ Ho Hl).
    case_bool_decide; by injection Hx as <- <- _. }
  cbv beta iota in Hf. destruct (vi_cancel i); by injection Hf as <- <- _.
Qed.

Lemma alert_owns i w st d w' d' :
  owns base l w st -> error_window i w d = Ok (w', d') -> owns base l w' st.
Proof.
  intros Ho. unfold error_window. case_bool_decide; [by intros [= <- _]|]. destruct (vi_alert i); [|by intros [= <- _]].
  intros Hf. apply bind_Ok_inv in Hf as (r & _ & Hf). destruct (vi_alert_ok i); by injection Hf as <- _.
Qed.

(** One frame keeps the ownership. *)
Lemma frame_owns i w (k : world V) d w' k' d' :
  owns base l w (w_heap_st k) -> render_naoview base fresh i w k d = Ok (w', k', d') -> owns base l w' (w_heap_st k').
Proof.
  intros Ho. unfold render_naoview. destruct (_ || _); [by intros [= <- <- _]|].
  intros Hf. apply bind_Ok_inv in Hf as ([[w1 k1] d1] & Hb & Hf).
  assert (owns base l w1 (w_heap_st k1)) as Ho1.
  { destruct (w_begin _); [|by injection Hb as <- <- _]. apply bind_Ok_inv in Hb as ([w2 k2] & Hm & Hb).
    apply bind_Ok_inv in Hb as (u & _ & Hb). apply bind_Ok_inv in Hb as ([[w3 k3] d3] & Hp & Hb).
    apply bind_Ok_inv in Hb as ([w4 d4] & Ha & Hb). injection Hb as <- <- _.
    eapply alert_owns; [|exact Ha]. eapply prompt_owns; [|exact Hp]. eapply menu_owns; [|exact Hm]. exact Ho. }
  cbv beta iota zeta in Hf. destruct (w_hidden _); [|by injection Hf as <- <- _].
  apply bind_Ok_inv in Hf as ([w5 k5] & Hc & Hf). injection Hf as <- <- _.
  destruct (close_restores (mk_view 0 (naoview_minimized w1) (naoview_show_open_dialog w1) (naoview_alert w1)
     (naoview_current_file w1) (vw_shown w1) (bounds_naoview w1)) k1 Ho1) as (st & E & Hr).
  rewrite E in Hc. injection Hc as <- <-. by apply closed_owns.
Qed.

End Owner.

(** A session of the viewer: frames and calls of [naoview_open_file], with
    anything happening to the other windows and to the disk in between. *)
Inductive session {V} `{FatFs V} `{Decoder} (base : Z) (fresh : Z -> Z -> list Z) : view * world V -> view * world V -> Prop :=
| session_refl x : session base fresh x x
| session_frame x w k i d w' k' d' : session base fresh x (w, k) ->
    render_naoview base fresh i w k d = Ok (w', k', d') -> session base fresh x (w', k')
| session_open x w k path r w' k' : session base fresh x (w, k) ->
    naoview_open_file base fresh path w k = Ok (r, w', k') -> session base fresh x (w', k')
| session_disk x w k v s : session base fresh x (w, k) -> session base fresh x (w, mk_world (w_heap_st k) s v).

Lemma session_owns {V} `{FatFs V} `{DecoderLaws} base fresh l x y :
  (forall a n, 0 <= n -> zlen (fresh a n) = n) -> no_adjacent_free l -> tiles base (base + HEAP_BYTES) l ->
  session base fresh x y -> owns base l x.1 (w_heap_st x.2) -> owns base l y.1 (w_heap_st (y.2 : world V)).
Proof.
  intros Hf Hna Ht Hs Hx. induction Hs as [|x w k i d w' k' d' _ IH Hr|x w k path r w' k' _ IH Hr|x w k v s _ IH]; [done| | |by apply IH].
  - eapply (frame_owns base fresh l Hf Hna Ht); [|exact Hr]. by apply IH.
  - unfold naoview_open_file in Hr. apply bind_Ok_inv in Hr as (f & _ & Hr). cbv zeta in Hr.
    apply bind_Ok_inv in Hr as (p & _ & Hr). eapply (load_owns base fresh l Hf Hna Ht); [|exact Hr]. by apply IH.
Qed.

(** C7: the viewer never leaks: after any session that starts with no picture
    (frames with any user input, calls of [naoview_open_file], good or bad),
    closing the picture succeeds and gives the heap exactly the blocks it had
    before; while a picture is shown its pixels fit the block that holds them. *)
Theorem viewer_no_leak {V : Type} `{FatFs V} `{DecoderLaws} (base : Z) (fresh : Z -> Z -> list Z) (l : list block)
    (w0 : view) (k0 : world V) (w : view) (k : world V) :
  (forall a n, 0 <= n -> zlen (fresh a n) = n) -> no_adjacent_free l -> heap_repr base (w_heap_st k0) l ->
  vw_shown w0 = no_picture -> session base fresh (w0, k0) (w, k) ->
  (exists st, naoview_close_image base w k = Ok (set_shown no_picture w, mk_world st (w_stb k) (w_vol k)) /\
     heap_repr base st l) /\
  (forall p out, naoview_pixels (vw_shown w) = Some (p, out) ->
     zlen out = naoview_width (vw_shown w) * naoview_height (vw_shown w) /\
     exists l' b, heap_repr base (w_heap_st k) l' /\ b ∈ l' /\ baddr b + HDR = p /\ bfree b = false /\ zlen out * 4 <= bsize b).
Proof.
  intros Hf Hna Hr Hnone Hs. pose proof Hr as (_ & _ & _ & _ & Ht).
  assert (owns base l w (w_heap_st k)) as Ho.
  { apply (session_owns base fresh l (w0, k0) (w, k) Hf Hna Ht Hs). cbn [fst snd]. unfold owns. rewrite Hnone. done. }
  split; [by apply (close_restores base fresh)|]. intros p out Hp. unfold owns in Ho. rewrite Hp in Ho.
  destruct Ho as (n & l' & Hn & Ha & Hr' & Hl & Hfit & _). split; [done|].
  destruct (a_alloc_new n l p l' Hn Ha) as (b & Hb & Hbp & Hbf & Hbs & _). exists l', b. split_and!; [done..|lia].
Qed.

(** A picture file that the decoder accepts and the heap has room for is
    shown upright: the call returns 1, every pixel of the stored picture is
    the pixel of the file at the same column and row, no alert is raised and
    the decoder's flip flag is cleared again. *)
Theorem viewer_shows_picture {V : Type} `{FatFsLaws V} `{DecoderLaws} (base : Z) (fresh : Z -> Z -> list Z) (l : list block)
    (path c : list Z) (p : picture) (w : view) (k : world V) :
  (forall a n, 0 <= n -> zlen (fresh a n) = n) -> no_adjacent_free l -> owns base l w (w_heap_st k) ->
  tiles base (base + HEAP_BYTES) l ->
  media_ok V -> file (w_vol k) path = Some c -> zlen c <= STB_ARENA_SIZE -> decodes c p ->
  a_alloc (ALIGN (p_w p * p_h p * 4)) l <> None ->
  exists w' k' a out, naoview_load_image base fresh path w k = Ok (1, w', k') /\
    vw_shown w' = mk_shown (Some (a, out)) (p_w p) (p_h p) (Some (p_w p, p_h p)) /\
    naoview_alert w' = NAOVIEW_STATUS_OK /\ stb_flip (w_stb k') = false /\
    (forall x y, 0 <= x < p_w p -> 0 <= y < p_h p -> get out (y * p_w p + x) = rgba_at p x y).
Proof.
  intros Hfr Hna Ho Ht Hm Hf Hl Hd Hroom. unfold naoview_load_image.
  destruct (close_restores base fresh l Hfr Hna Ht w k Ho) as (st & -> & Hr). rewrite bind_Ok. cbv beta iota zeta.
  cbn [w_heap_st w_stb w_vol].
  destruct (slurp_ok path c (mk_stb (stb_flip (w_stb k)) (arena_reset (stb_mem (w_stb k)))) (w_vol k) Hm Hf Hl eq_refl)
    as (a & v1 & -> & Ha & Hoff).
  rewrite bind_Ok. cbv beta iota zeta. unfold stbi_load_from_memory. cbn [set_flip stb_flip stb_mem]. rewrite Ha.
  destruct (decode_flipped c p a Hd Hoff) as (q & a' & -> & Ew & Eh & Hw & Hh & Hmax & Hb & _ & Hpix & _).
  pose proof (store_picture base fresh l Hfr Hna Ht st q Hr Hw Hh Hmax Hb) as Hs. rewrite <- Ew, <- Eh in *.
  destruct (a_alloc _ l) as [[addr l']|]; [|done]. destruct Hs as (st' & out & -> & Hnz & Hc & Hp & _).
  rewrite bind_Ok. cbv beta iota. destruct (Z.eqb_spec addr 0); [done|]. rewrite Hc, bind_Ok.
  eexists _, _, addr, out. split; [reflexivity|]. split_and!; [done..|]. intros x y Hx Hy.
  pose proof (Hp x (p_h q - 1 - y) Hx ltac:(lia)) as E. rewrite Hpix in E by lia.
  replace (p_h q - 1 - (p_h q - 1 - y)) with y in E by lia. done.
Qed.

(** The decoder rejects the file [c]. *)
Definition rejects `{Decoder} (c : list Z) : Prop :=
  forall a, stb_arena_offset a = 4 * ((zlen c + 3) / 4) -> (decode false c a).1 = None.

(** Reading a file that is larger than the arena. *)
Lemma slurp_large {V} `{FatFsLaws V} path c s (v : V) :
  file v path = Some c -> STB_ARENA_SIZE < zlen c <= 4290000000 -> stb_arena_offset (stb_mem s) = 0 ->
  exists v', slurp path s v = Ok (BadRead, s, v').
Proof.
  intros Hf Hl Ho. unfold slurp. destruct (open_ok path v c Hf) as (h & v1 & -> & Hp & Hq).
  change (FR_OK =? FR_OK) with true. cbn [negb]. rewrite (size_law h v1 path 0 c Hp ltac:(by rewrite Hq)).
  rewrite malloc_arena_spec by (unfold STB_ARENA_SIZE in *; lia). rewrite Ho.
  set (n := 4 * ((zlen c + 3) / 4)). assert (zlen c <= n <= zlen c + 3) by (unfold n; dlia). clearbody n.
  destruct (Z.leb_spec (0 + n) STB_ARENA_SIZE); [lia|]. destruct (Z.leb_spec 4294967296 (0 + n)); [lia|].
  eexists. by destruct s.
Qed.

(** How opening fails: a missing file raises "not found"; a file larger
    than the decoder's arena or rejected by the decoder raises "bad format".
    In each case the call returns 0, no picture is shown and its block has
    been given back; but when the heap has no room for the pixels the call
    does not return (the allocator spins) although the code tests for NULL. *)
Theorem viewer_load_errors {V : Type} `{FatFsLaws V} `{DecoderLaws} (base : Z) (fresh : Z -> Z -> list Z) (l : list block)
    (path : list Z) (w : view) (k : world V) :
  (forall a n, 0 <= n -> zlen (fresh a n) = n) -> no_adjacent_free l -> owns base l w (w_heap_st k) ->
  tiles base (base + HEAP_BYTES) l -> media_ok V ->
  let failed e := exists w' k', naoview_load_image base fresh path w k = Ok (0, w', k') /\
    naoview_alert w' = e /\ vw_shown w' = no_picture /\ heap_repr base (w_heap_st k') l in
  match file (w_vol k) path with
  | None => failed NAOVIEW_STATUS_ERR_NOT_FOUND
  | Some c =>
      (STB_ARENA_SIZE < zlen c <= 4290000000 \/ (zlen c <= STB_ARENA_SIZE /\ rejects c) ->
       failed NAOVIEW_STATUS_ERR_BAD_FORMAT) /\
      (forall p, zlen c <= STB_ARENA_SIZE -> decodes c p -> a_alloc (ALIGN (p_w p * p_h p * 4)) l = None ->
       naoview_load_image base fresh path w k = Spin)
  end.
Proof.
  intros Hfr Hna Ho Ht Hm failed. unfold failed, naoview_load_image.
  destruct (close_restores base fresh l Hfr Hna Ht w k Ho) as (st & -> & Hr). rewrite bind_Ok. cbv beta iota zeta.
  cbn [w_heap_st w_stb w_vol]. set (s := mk_stb _ _).
  destruct (file (w_vol k) path) as [c|] eqn:Hf.
  - split; [intros [Hl|[Hl Hrj]]|intros p Hl Hd Hroom].
    + destruct (slurp_large path c s (w_vol k) Hf Hl eq_refl) as (v1 & ->). rewrite bind_Ok. by eexists _, _.
    + destruct (slurp_ok path c s (w_vol k) Hm Hf Hl eq_refl) as (a & v1 & -> & Ha & Hoff).
      rewrite bind_Ok. cbv beta iota zeta. unfold stbi_load_from_memory. cbn [set_flip stb_flip stb_mem]. rewrite Ha.
      pose proof (decode_fails c a (Hrj a Hoff)) as E. destruct (decode true c a) as [q a']. cbn [fst] in E. subst q. by eexists _, _.
    + destruct (slurp_ok path c s (w_vol k) Hm Hf Hl eq_refl) as (a & v1 & -> & Ha & Hoff).
      rewrite bind_Ok. cbv beta iota zeta. unfold stbi_load_from_memory. cbn [set_flip stb_flip stb_mem]. rewrite Ha.
      destruct (decode_flipped c p a Hd Hoff) as (q & a' & -> & Ew & Eh & Hw & Hh & Hmax & Hb & _).
      pose proof (store_picture base fresh l Hfr Hna Ht st q Hr Hw Hh Hmax Hb) as Hs. rewrite <- Ew, <- Eh in *.
      rewrite Hroom in Hs. by rewrite Hs.
  - destruct (slurp_missing path s (w_vol k) Hf) as (v1 & -> & _). rewrite bind_Ok. by eexists _, _.
Qed.

(** ** Frames always return *)

(** The viewer's path array holds a string; a picture has dimensions. *)
Record view_ok (w : view) : Prop := {
  vo_file : exists p, holds (naoview_current_file w) 128 p;
  vo_dims : naoview_pixels (vw_shown w) = None \/ (nat31 (naoview_width (vw_shown w)) /\ nat31 (naoview_height (vw_shown w)))
}.

(** The edited path is a string that fits; the two arrays have their sizes. *)
Record vw_in_ok (i : vw_in) : Prop := {
  vk_path : zlen (vi_path i) < 128 /\ Forall (fun c => c <> 0) (vi_path i);
  vk_info : zlen (vi_info i) = 140; vk_target : zlen (vi_target i) = 160
}.

Lemma view_boot_ok : view_ok view_boot.
Proof. split; [exists (bytes "0:/"); split; vm_compute; reflexivity|by left]. Qed.

(** Formatting a string and two dimensions. *)
Lemma info_renders f p x y : until_nul f = Some p -> nat31 x -> nat31 y ->
  exists o, render (lit "Source: %s [%dx%d]") [VStr (Some f); VInt x; VInt y] = Some o.
Proof.
  intros Hp Hx Hy. match goal with |- context [lit ?s] => let b := eval vm_compute in (lit s) in change (lit s) with b end.
  cbn [render Z.eqb Pos.eqb orb]. rewrite Hp. cbn [mbind option_bind]. rewrite !show_nat31 by done. cbn [mbind option_bind]. eauto.
Qed.

Lemma target_renders f p : until_nul f = Some p -> exists o, render (lit "Path: %s") [VStr (Some f)] = Some o.
Proof.
  intros Hp. match goal with |- context [lit ?s] => let b := eval vm_compute in (lit s) in change (lit s) with b end.
  cbn [render Z.eqb Pos.eqb orb]. rewrite Hp. cbn [mbind option_bind]. eauto.
Qed.

Section Returns.
Context {V : Type} `{FatFsLaws V} `{DecoderLaws}.
Context (base : Z) (fresh : Z -> Z -> list Z) (l : list block).
Context (fresh_len : forall a n, 0 <= n -> zlen (fresh a n) = n).
Context (calm : no_adjacent_free l) (tiled : tiles base (base + HEAP_BYTES) l).
#[local] Set Default Proof Using "All".

(** Files the viewer cannot open: one of (nearly) 4 GiB, and one whose
    pixels the heap has no room for. *)
Definition unopenable (path : list Z) (v : V) : Prop :=
  exists c, file v path = Some c /\
    (4294967292 < zlen c \/
     exists a p, stb_arena_offset a = 4 * ((zlen c + 3) / 4) /\ (decode true c a).1 = Some p /\ a_alloc (ALIGN (p_w p * p_h p * 4)) l = None).

Lemma load_cases path w (k : world V) :
  owns base l w (w_heap_st k) -> view_ok w ->
  (exists r w' k', naoview_load_image base fresh path w k = Ok (r, w', k') /\ view_ok w') \/ unopenable path (w_vol k).
Proof.
  intros Ho [Hfile _]. unfold naoview_load_image. destruct (close_restores base fresh l fresh_len calm tiled w k Ho) as (st & -> & Hr).
  rewrite bind_Ok. cbv beta iota zeta. cbn [w_heap_st w_stb w_vol].
  assert (forall e, view_ok (set_status e (set_status NAOVIEW_STATUS_OK (set_shown no_picture w)))) as Hst by (intros e; split; [exact Hfile|by left]).
  destruct (slurp_cases path (mk_stb (stb_flip (w_stb k)) (arena_reset (stb_mem (w_stb k)))) (w_vol k) eq_refl)
    as [(r & s' & v' & -> & Hx)|[(c & a & v' & -> & Hf & Hl & Hb & Hoff)|(c & Hf & Hc)]].
  - rewrite bind_Ok. left. destruct Hx as [-> | ->]; eexists _, _, _; (split; [reflexivity|apply Hst]).
  - rewrite bind_Ok. cbv beta iota zeta. unfold stbi_load_from_memory. cbn [set_flip stb_flip stb_mem]. rewrite Hb.
    destruct (decode true c a) as [[p|] a'] eqn:Hd; [|left; eexists _, _, _; split; [reflexivity|apply Hst]].
    destruct (decode_size true c a p ltac:(by rewrite Hd)) as (Hw & Hh & Hm & Hbb & _).
    pose proof (store_picture base fresh l fresh_len calm tiled st p Hr Hw Hh Hm Hbb) as Hs. cbv zeta.
    destruct (a_alloc _ l) as [[ad l']|] eqn:Ha.
    + destruct Hs as (st' & out & -> & Hnz & Hc & _). rewrite bind_Ok. cbv beta iota. destruct (Z.eqb_spec ad 0); [done|].
      rewrite Hc, bind_Ok. left. eexists _, _, _. split; [reflexivity|]. split; [exact Hfile|]. right. cbn. unfold nat31. nia.
    + right. exists c. split; [done|]. right. exists a, p. split; [done|]. split; [by rewrite Hd|done].
  - right. exists c. split; [done|]. by left.
Qed.

Lemma menu_returns i w (k : world V) :
  owns base l w (w_heap_st k) -> view_ok w ->
  exists w' k', view_menu base i w k = Ok (w', k') /\ view_ok w' /\ w_vol k' = w_vol k.
Proof.
  intros Ho Hv. unfold view_menu. destruct (vi_menu i); [|by exists w, k]. cbv zeta.
  set (w1 := if vi_open i then _ else w).
  assert (owns base l w1 (w_heap_st k) /\ view_ok w1) as [Ho1 Hv1] by (unfold w1; destruct (vi_open i); (split; [exact Ho|]); destruct Hv as [? ?]; by split).
  destruct (vi_close i); [|by exists w1, k].
  destruct (close_restores base fresh l fresh_len calm tiled w1 k Ho1) as (st & -> & Hr). rewrite bind_Ok. cbn [fst snd].
  destruct Hv1 as [(p & Hp & _) _]. destruct (strncpy_holds (naoview_current_file w1) (lit "0:/") (bytes "0:/") 127) as (f & Hs & Hf).
  - reflexivity.
  - vm_compute. reflexivity.
  - rewrite Hp. lia.
  - change (naoview_current_file (set_shown no_picture w1)) with (naoview_current_file w1). rewrite Hs, bind_Ok.
    eexists _, _. split; [reflexivity|]. split; [|done]. split; [|by left]. exists (bytes "0:/"). by rewrite Hp in Hf.
Qed.

Lemma info_returns i w : view_ok w -> vw_in_ok i -> info_line i w = Ok tt.
Proof.
  intros [(p & _ & Hp) Hd] [_ Hi _]. unfold info_line. destruct (naoview_pixels (vw_shown w)) as [px|]; [|done].
  destruct (naoview_img (vw_shown w)); [|done]. destruct Hd as [?|[Hx Hy]]; [done|].
  destruct (info_renders _ p _ _ Hp Hx Hy) as (o & Ho). rewrite (mini_snprintf_render _ 140 _ _ o) by (done || lia). by rewrite bind_Ok.
Qed.

Lemma prompt_cases i w (k : world V) d :
  owns base l w (w_heap_st k) -> view_ok w -> vw_in_ok i ->
  (exists w' k' d', open_prompt base fresh i w k d = Ok (w', k', d') /\ view_ok w') \/
  (vi_popup i = true /\ vi_load i = true /\ unopenable (vi_path i) (w_vol k)).
Proof.
  intros Ho Hv [[Hpl Hpz] _ _]. unfold open_prompt. destruct (truth _); [|left; by eexists _, _, _].
  destruct (vi_popup i); [|left; eexists _, _, _; split; [reflexivity|]; destruct Hv as [? ?]; by split].
  destruct (vo_file w Hv) as (p & Hp & _).
  destruct (edit_field_holds (naoview_current_file w) (vi_path i) 128 Hp Hpl Hpz) as (f & -> & Hf). rewrite bind_Ok. cbv zeta.
  assert (view_ok (set_file f w)) as Hv1 by (split; [by exists (vi_path i)|apply Hv]).
  destruct (vi_load i).
  - rewrite (proj2 Hf). cbn [or_fault]. rewrite bind_Ok.
    destruct (load_cases (vi_path i) (set_file f w) k Ho Hv1) as [(r & w2 & k2 & -> & Hv2)|Hu]; [|by right].
    left. rewrite bind_Ok. cbv beta iota.
    case_bool_decide; rewrite bind_Ok; cbv beta iota; destruct (vi_cancel i); (eexists _, _, _; split; [reflexivity|]; destruct Hv2 as [? ?]; by split).
  - left. rewrite bind_Ok. cbv beta iota. destruct (vi_cancel i); (eexists _, _, _; split; [reflexivity|]; destruct Hv1 as [? ?]; by split).
Qed.

Lemma alert_returns i w d : view_ok w -> vw_in_ok i -> exists w' d', error_window i w d = Ok (w', d') /\ view_ok w'.
Proof.
  intros Hv [_ _ Ht]. unfold error_window. case_bool_decide; [by eexists _, _|]. destruct Hv as [(p & Hp & Hu) Hd].
  assert (view_ok w) as Hv by (split; [by exists p|done]). assert (view_ok (set_status NAOVIEW_STATUS_OK w)) as Hv' by (by split; [exists p|]).
  destruct (vi_alert i); [|by eexists _, _]. destruct (target_renders _ p Hu) as (o & Ho).
  rewrite (mini_snprintf_render _ 160 _ _ o) by (done || lia). rewrite bind_Ok. destruct (vi_alert_ok i); by eexists _, _.
Qed.

(** A frame that returns keeps the arrays, whatever was opened. *)
Lemma close_keeps w (k : world V) w' k' : naoview_close_image base w k = Ok (w', k') -> w' = set_shown no_picture w.
Proof. unfold naoview_close_image. intros Hc. apply bind_Ok_inv in Hc as (st & _ & Hc). by injection Hc as <- _. Qed.

Lemma load_keeps path w (k : world V) r w' k' : naoview_load_image base fresh path w k = Ok (r, w', k') -> view_ok w -> view_ok w'.
Proof.
  intros Hl [Hfile _]. unfold naoview_load_image in Hl. apply bind_Ok_inv in Hl as ([w1 k1] & Hc & Hl). apply close_keeps in Hc as ->.
  cbv beta iota zeta in Hl. apply bind_Ok_inv in Hl as ([[x s] v] & _ & Hl). cbv beta iota in Hl.
  assert (forall e, view_ok (set_status e (set_status NAOVIEW_STATUS_OK (set_shown no_picture w)))) as Hst by (intros e; split; [exact Hfile|by left]).
  destruct x as [| |ptr n]; [injection Hl as _ <- _; apply Hst..|]. unfold stbi_load_from_memory in Hl.
  destruct (decode _ _ _) as [[p|] a'] eqn:Hd; [|injection Hl as _ <- _; apply Hst].
  destruct (decode_size _ _ _ p ltac:(by rewrite Hd)) as (Hw & Hh & Hm & _). cbv zeta in Hl.
  apply bind_Ok_inv in Hl as ([st px] & _ & Hl). cbv beta iota in Hl. destruct (px =? 0); [injection Hl as _ <- _; split; [exact Hfile|by left]|].
  apply bind_Ok_inv in Hl as (out & _ & Hl). injection Hl as _ <- _. split; [exact Hfile|]. right. cbn. unfold nat31. nia.
Qed.

Lemma prompt_keeps i w (k : world V) d w' k' d' : vw_in_ok i -> open_prompt base fresh i w k d = Ok (w', k', d') -> view_ok w -> view_ok w'.
Proof.
  intros [[Hpl Hpz] _ _] Hp Hv. unfold open_prompt in Hp. destruct (truth _); [|by injection Hp as <- _ _].
  destruct (vi_popup i); [|injection Hp as <- _ _; destruct Hv as [? ?]; by split].
  destruct (vo_file w Hv) as (p & Hpp & _).
  destruct (edit_field_holds (naoview_current_file w) (vi_path i) 128 Hpp Hpl Hpz) as (f & Ef & Hf). rewrite Ef, bind_Ok in Hp. cbv zeta in Hp.
  assert (view_ok (set_file f w)) as Hv1 by (split; [by exists (vi_path i)|apply Hv]).
  apply bind_Ok_inv in Hp as ([[w1 k1] d1] & Hl & Hp). assert (view_ok w1) as Hv2.
  { destruct (vi_load i); [|by injection Hl as <- _ _]. apply bind_Ok_inv in Hl as (q & _ & Hl). apply bind_Ok_inv in Hl as ([[r w2] k2] & Hl & Hx).
    apply load_keeps in Hl; [|done]. cbv beta iota in Hx. case_bool_decide; injection Hx as <- _ _; [destruct Hl as [? ?]; by split|done]. }
  cbv beta iota in Hp. destruct (vi_cancel i); injection Hp as <- _ _; [destruct Hv2 as [? ?]; by split|done].
Qed.

Lemma view_frame_keeps i w (k : world V) d w' k' d' :
  owns base l w (w_heap_st k) -> vw_in_ok i -> render_naoview base fresh i w k d = Ok (w', k', d') -> view_ok w -> view_ok w'.
Proof.
  intros Ho Hi Hr Hv. unfold render_naoview in Hr. destruct (_ || _); [by injection Hr as <- _ _|].
  apply bind_Ok_inv in Hr as ([[w1 k1] d1] & Hb & Hr). assert (view_ok w1) as Hv1.
  { destruct (w_begin _); [|by injection Hb as <- _ _]. cbv zeta in Hb. apply bind_Ok_inv in Hb as ([w2 k2] & Hm & Hb).
    set (w0 := mk_view _ _ _ _ _ _ _) in Hm. assert (view_ok w0) as Hv0 by (destruct Hv as [? ?]; by split).
    destruct (menu_returns i w0 k Ho Hv0) as (w2' & k2' & Hm' & Hv2 & _). rewrite Hm in Hm'. injection Hm' as <- <-. cbn [fst snd] in Hb.
    apply bind_Ok_inv in Hb as (u & _ & Hb). apply bind_Ok_inv in Hb as ([[w3 k3] d3] & Hp & Hb). apply prompt_keeps in Hp; [|done|done].
    cbv beta iota in Hb. destruct (alert_returns i w3 d3 Hp Hi) as (w4 & d4 & Ha & Hv4). rewrite Ha, bind_Ok in Hb. by injection Hb as <- _ _. }
  cbv beta iota zeta in Hr. destruct (w_hidden _); [|by injection Hr as <- _ _]. apply bind_Ok_inv in Hr as ([w5 k5] & Hc & Hr).
  apply close_keeps in Hc as ->. injection Hr as <- _ _. destruct Hv1 as [? _]. split; [done|by left].
Qed.

(** The user has the viewer open a file it cannot open. *)
Definition opens_bad (i : vw_in) (w : view) (v : V) : Prop :=
  truth (naoview_active w) = true /\ truth (naoview_minimized w) = false /\ w_begin (vi_main i) = true /\
  vi_popup i = true /\ vi_load i = true /\ unopenable (vi_path i) v.

Lemma view_returns i w (k : world V) d :
  owns base l w (w_heap_st k) -> view_ok w -> vw_in_ok i ->
  (exists w' k' d', render_naoview base fresh i w k d = Ok (w', k', d') /\ view_ok w') \/ opens_bad i w (w_vol k).
Proof.
  intros Ho Hv Hi. unfold render_naoview, opens_bad. destruct (truth (naoview_active w)); cbn [negb orb]; [|left; by eexists _, _, _].
  destruct (truth (naoview_minimized w)); [left; by eexists _, _, _|].
  assert (forall w1 (k1 : world V) (d1 : desk), owns base l w1 (w_heap_st k1) -> view_ok w1 ->
    exists w' k' d', (if w_hidden (vi_main i) then
      x ← naoview_close_image base (mk_view 0 (naoview_minimized w1) (naoview_show_open_dialog w1) (naoview_alert w1)
            (naoview_current_file w1) (vw_shown w1) (bounds_naoview w1)) k1;
      Ok (x.1, x.2, d1) else Ok (w1, k1, d1)) = Ok (w', k', d') /\ view_ok w') as Hend.
  { intros w1 k1 d1 Ho1 Hv1. destruct (w_hidden _); [|by eexists _, _, _].
    destruct (close_restores base fresh l fresh_len calm tiled (mk_view 0 (naoview_minimized w1) (naoview_show_open_dialog w1) (naoview_alert w1)
      (naoview_current_file w1) (vw_shown w1) (bounds_naoview w1)) k1 Ho1) as (st & -> & _). rewrite bind_Ok.
    eexists _, _, _. split; [reflexivity|]. destruct Hv1 as [? _]. split; [done|by left]. }
  destruct (w_begin (vi_main i)); [|rewrite bind_Ok; left; by apply Hend].
  set (w0 := mk_view _ _ _ _ _ _ _). assert (owns base l w0 (w_heap_st k)) as Ho0 by exact Ho. assert (view_ok w0) as Hv0 by (destruct Hv as [? ?]; by split).
  destruct (menu_returns i w0 k Ho0 Hv0) as (w1 & k1 & Hm & Hv1 & Hvol). pose proof (menu_owns base fresh l fresh_len calm tiled _ _ _ _ _ Ho0 Hm) as Ho1.
  rewrite Hm, bind_Ok. cbn [fst snd]. rewrite info_returns, bind_Ok by done.
  destruct (prompt_cases i w1 k1 d Ho1 Hv1 Hi) as [(w2 & k2 & d2 & Hp & Hv2)|(E1 & E2 & Hu)]; [|right; by rewrite <- Hvol].
  pose proof (prompt_owns base fresh l fresh_len calm tiled _ _ _ _ _ _ _ Ho1 Hp) as Ho2. rewrite Hp, bind_Ok. cbv beta iota.
  destruct (alert_returns i w2 d2 Hv2 Hi) as (w3 & d3 & Ha & Hv3). pose proof (alert_owns base fresh l fresh_len calm tiled _ _ _ _ _ _ Ho2 Ha) as Ho3.
  rewrite Ha, !bind_Ok. cbn [fst snd]. left. by apply Hend.
Qed.

(** A frame of the viewer returns, or the user had it open such a file. *)
Lemma view_frame_cases i w (k : world V) d :
  owns base l w (w_heap_st k) -> view_ok w -> vw_in_ok i ->
  (exists w' k' d', render_naoview base fresh i w k d = Ok (w', k', d') /\ view_ok w') \/
  ((forall x, render_naoview base fresh i w k d <> Ok x) /\ opens_bad i w (w_vol k)).
Proof.
  intros Ho Hv Hi. destruct (render_naoview base fresh i w k d) as [[[w' k'] d']| | |] eqn:E.
  - left. exists w', k', d'. split; [done|]. by eapply view_frame_keeps.
  - right. split; [done|]. destruct (view_returns i w k d Ho Hv Hi) as [(? & ? & ? & E' & _)|?]; [by rewrite E in E'|done].
  - right. split; [done|]. destruct (view_returns i w k d Ho Hv Hi) as [(? & ? & ? & E' & _)|?]; [by rewrite E in E'|done].
  - right. split; [done|]. destruct (view_returns i w k d Ho Hv Hi) as [(? & ? & ? & E' & _)|?]; [by rewrite E in E'|done].
Qed.

End Returns.

(** ** Witnesses *)

Definition w_fresh (a n : Z) : list Z := replicate (Z.to_nat n) 0.

Lemma w_fresh_len : forall a n, 0 <= n -> zlen (w_fresh a n) = n.
Proof. intros a n Hn. unfold w_fresh. rewrite length_replicate. lia. Qed.

Definition w_world : world memfs := mk_world w_heap (mk_stb false arena_boot) demo_vol.

Lemma w_owns : owns w_base w_blocks view_boot (w_heap_st w_world).
Proof. split; [done|exact w_heap_repr]. Qed.

Lemma w_tiles : tiles w_base (w_base + HEAP_BYTES) w_blocks.
Proof. exact (proj2 (proj2 (proj2 (proj2 w_heap_repr)))). Qed.

Lemma viewer_shows_picture_witness :
  exists w' k' a out, naoview_load_image w_base w_fresh (bytes "0:/a.png") view_boot w_world = Ok (1, w', k') /\
    naoview_pixels (vw_shown w') = Some (a, out) /\ get out 1 = argb 4 5 6 255 /\ get out 2 = argb 7 8 9 255.
Proof.
  destruct (viewer_shows_picture w_base w_fresh w_blocks (bytes "0:/a.png") demo_pic (mk_picture 2 2 (drop 2 demo_pic)) view_boot w_world)
    as (w' & k' & a & out & Hr & Hs & _ & _ & Hp).
  - exact w_fresh_len.
  - exact I.
  - exact w_owns.
  - exact w_tiles.
  - exact mem_media_ok.
  - reflexivity.
  - vm_compute. discriminate.
  - intros a Ha. reflexivity.
  - vm_compute. discriminate.
  - exists w', k', a, out. split; [exact Hr|]. rewrite Hs. split; [reflexivity|]. split.
    + etransitivity; [apply (Hp 1 0); cbn; lia|]. vm_compute. reflexivity.
    + etransitivity; [apply (Hp 0 1); cbn; lia|]. vm_compute. reflexivity.
Defined.

Lemma viewer_load_errors_witness :
  exists w' k', naoview_load_image w_base w_fresh (bytes "0:/none.png") view_boot w_world = Ok (0, w', k') /\
    naoview_alert w' = NAOVIEW_STATUS_ERR_NOT_FOUND.
Proof.
  destruct (viewer_load_errors w_base w_fresh w_blocks (bytes "0:/none.png") view_boot w_world
    w_fresh_len I w_owns w_tiles mem_media_ok) as (w' & k' & Hr & Ha & _).
  exists w', k'. split; [exact Hr|exact Ha].
Defined.

(** The viewer with the picture opened. *)
Definition w_after : view * world memfs :=
  match naoview_open_file w_base w_fresh (lit "0:/a.png") view_boot w_world with
  | Ok (_, w, k) => (w, k)
  | _ => (view_boot, w_world)
  end.

Lemma viewer_no_leak_witness :
  naoview_width (vw_shown w_after.1) = 2 /\
  exists st, naoview_close_image w_base w_after.1 w_after.2 =
      Ok (set_shown no_picture w_after.1, mk_world st (w_stb w_after.2) (w_vol w_after.2)) /\
    heap_repr w_base st w_blocks.
Proof.
  split; [vm_compute; reflexivity|].
  apply (viewer_no_leak w_base w_fresh w_blocks view_boot w_world w_after.1 w_after.2 w_fresh_len I w_heap_repr eq_refl).
  apply (session_open w_base w_fresh _ view_boot w_world (lit "0:/a.png") 1); [apply session_refl|].
  vm_compute. reflexivity.
Defined.
