(* ===== verification/Boot.v ===== *)
(** * Boot: the boot screen (boot_screen.h)

    The screen is drawn straight into the frame buffer, without clipping, and
    paced by the timer. The volatile tick counter is a stream of readings
    [clock : nat -> Z]; a position in it is threaded through the waits. *)

From Stdlib Require Import ZArith Lia Bool String.
From stdpp Require Import base list.
From S2P Require Import Prelude CLib Font Gfx.
From stdpp Require Import options.

(** ** Drawing primitives *)

Definition boot_draw_rect (fb : list Z) (x y w h color pitch : Z) : res (list Z) :=
  for_rect x y w h (fun xx yy fb => putpixel fb xx yy color pitch) fb.

(** [str] is the memory from the pointer on. *)
Fixpoint boot_draw_string (fb : list Z) (x y : Z) (str : list Z) (color pitch : Z) : res (list Z) :=
  match str with
  | [] => Fault
  | c :: r =>
      if c =? 0 then Ok fb
      else fb ← draw_char fb x y c color pitch; boot_draw_string fb (x + 8) y r color pitch
  end.

Definition fill_width (width progress_pct : Z) : Z := Z.quot ((width - 4) * progress_pct) 100.

Definition boot_draw_progress_bar (fb : list Z) (x y width height progress_pct pitch : Z) : res (list Z) :=
  let border_color := 11184810 in let bg_color := 3355443 in let fill_color := 4500223 in
  fb ← boot_draw_rect fb x y width height border_color pitch;
  fb ← boot_draw_rect fb (x + 2) (y + 2) (width - 4) (height - 4) bg_color pitch;
  let fill_w := fill_width width progress_pct in
  if 0 <? fill_w then boot_draw_rect fb (x + 2) (y + 2) fill_w (height - 4) fill_color pitch else Ok fb.

Definition boot_draw_image (fb : list Z) (img_x img_y : Z) (pixels : list Z) (img_w img_h pitch : Z) : res (list Z) :=
  for_rect 0 0 img_w img_h (fun px py fb =>
    pixel ← rd pixels (py * img_w + px);
    let a := Z.land (Z.shiftr pixel 24) 255 in
    if a <? 10 then Ok fb else putpixel fb (img_x + px) (img_y + py) pixel pitch) fb.

(** ** The screen *)

(** [char pct_str[8]] *)
Definition pct_str (pct : Z) : list Z :=
  if pct =? 100 then [49; 48; 48; 37; 0]
  else if 10 <=? pct then [Z.quot pct 10 + 48; Z.rem pct 10 + 48; 37; 0]
  else [pct + 48; 37; 0].

Definition stages : list (list Z) :=
  [lit "Initializing system..."; lit "Loading drivers..."; lit "Mounting storage...";
   lit "Starting network..."; lit "Preparing desktop..."].

(** [while ((int)timer_ticks < (int)target) { if ((int)(timer_ticks - target) > 1000) break; }]
    from reading [n] on; the next reading is returned. *)
Fixpoint wait_ticks (fuel : nat) (clock : nat -> Z) (target : Z) (n : nat) : res nat :=
  match fuel with
  | O => NoFuel
  | S fuel =>
      if i32 (clock n) <? i32 target then
        if 1000 <? i32 (u32 (clock (S n) - target)) then Ok (S (S n)) else wait_ticks fuel clock target (S (S n))
      else Ok (S n)
  end.

Definition BOOT_BG : Z := 1710638.
Definition bar_width : Z := 320.
Definition bar_height : Z := 22.

(** The message shown when there is no picture. *)
Definition boot_message (fb : list Z) (screen_w screen_h pitch : Z) : res (list Z * Z) :=
  let title := lit "FATAL: 0:/boot.png Corrupt  Missing" in
  text_len ← strlen title;
  let title_x := Z.quot (screen_w - text_len * 8) 2 in
  let title_y := Z.quot screen_h 2 - 40 in
  fb ← boot_draw_string fb title_x title_y title 4500223 pitch;
  fb ← boot_draw_string fb title_x (title_y + 20) (lit "Corrupt.") 11184810 pitch;
  Ok (fb, title_y + 60).

(** The picture or the message; the result includes the bar's row. *)
Definition boot_title (fb : list Z) (screen_w screen_h pitch : Z) (boot_img : option (list Z)) (boot_img_w boot_img_h : Z)
  : res (list Z * Z) :=
  match boot_img with
  | Some img =>
      if (0 <? boot_img_w) && (0 <? boot_img_h) then
        let img_x := Z.quot (screen_w - boot_img_w) 2 in
        let img_y := Z.quot (screen_h - boot_img_h - bar_height - 80) 2 in
        let img_y := if img_y <? 10 then 10 else img_y in
        fb ← boot_draw_image fb img_x img_y img boot_img_w boot_img_h pitch;
        Ok (fb, img_y + boot_img_h + 30)
      else boot_message fb screen_w screen_h pitch
  | None => boot_message fb screen_w screen_h pitch
  end.

(** One percentage: the bar, the number, the stage and the wait. *)
Definition boot_step (fuel : nat) (clock : nat -> Z) (bar_x bar_y pitch pct : Z) (s : list Z * nat) : res (list Z * nat) :=
  let '(fb, n) := s in
  fb ← boot_draw_progress_bar fb bar_x bar_y bar_width bar_height pct pitch;
  fb ← boot_draw_rect fb (bar_x + bar_width + 10) bar_y 50 bar_height BOOT_BG pitch;
  fb ← boot_draw_string fb (bar_x + bar_width + 12) (bar_y + Z.quot (bar_height - 8) 2) (pct_str pct) 16777215 pitch;
  let num_stages := zlen stages in
  let stage_idx := Z.quot (pct * num_stages) 100 in
  let stage_idx := if num_stages <=? stage_idx then num_stages - 1 else stage_idx in
  fb ← boot_draw_rect fb bar_x (bar_y + bar_height + 5) bar_width 14 BOOT_BG pitch;
  stage ← or_fault (stages !! Z.to_nat stage_idx);
  status_len ← strlen stage;
  let status_x := bar_x + Z.quot (bar_width - status_len * 8) 2 in
  fb ← boot_draw_string fb status_x (bar_y + bar_height + 5) stage 11184810 pitch;
  let target_wait := if 90 <=? pct then 2 else 1 in
  let timeout_ticks := u32 (clock n + target_wait) in
  n ← wait_ticks fuel clock timeout_ticks (S n);
  Ok (fb, n).

Definition show_boot_screen (fuel : nat) (clock : nat -> Z) (gfx_framebuffer : list Z) (gfx_width gfx_height gfx_pitch : Z)
    (boot_img : option (list Z)) (boot_img_w boot_img_h : Z) (n : nat) : res (list Z * nat) :=
  let screen_w := i32 gfx_width in let screen_h := i32 gfx_height in let pitch := gfx_pitch in
  fb ← boot_draw_rect gfx_framebuffer 0 0 screen_w screen_h BOOT_BG pitch;
  let bar_x := Z.quot (screen_w - bar_width) 2 in
  x ← boot_title fb screen_w screen_h pitch boot_img boot_img_w boot_img_h;
  let '(fb, bar_y) := (x : list Z * Z) in
  s ← for_up 101 0 (boot_step fuel clock bar_x bar_y pitch) (fb, n);
  let '(fb, n) := (s : list Z * nat) in
  let pause_target := u32 (clock n + 5) in
  n ← wait_ticks fuel clock pause_target (S n);
  fb ← boot_draw_rect fb 0 0 screen_w screen_h BOOT_BG pitch;
  Ok (fb, n).

(** ** The frame buffer keeps its size *)

Section SameSize.
Context (n : nat).

(** A drawing operation that returns leaves the length as it was. *)
Definition sized (f : list Z -> res (list Z)) : Prop := forall fb fb', length fb = n -> f fb = Ok fb' -> length fb' = n.

Lemma putpixel_sized x y c pitch : sized (fun fb => putpixel fb x y c pitch).
Proof. intros fb fb' Hl Hp. unfold putpixel in Hp. destruct (_ =? 0); [|done]. apply wr_length in Hp. congruence. Qed.

Lemma for_rect_sized x y w h body : (forall x y, sized (body x y)) -> sized (for_rect x y w h body).
Proof.
  intros Hb fb fb' Hl Hr. apply (for_up_keeps (fun f => length f = n)) in Hr; [done| |done].
  intros yy f f' Hf Hr'. apply (for_up_keeps (fun f => length f = n)) in Hr'; [done| |done]. intros xx g g' Hg. by apply Hb.
Qed.

Lemma draw_rect_sized x y w h c pitch : sized (fun fb => boot_draw_rect fb x y w h c pitch).
Proof. apply for_rect_sized. intros. apply putpixel_sized. Qed.

Lemma draw_char_sized x y c color pitch : sized (fun fb => draw_char fb x y c color pitch).
Proof.
  intros fb fb' Hl Hr. unfold draw_char in Hr. destruct (_ <? _); [by injection Hr as <-|].
  apply (for_up_keeps (fun f => length f = n)) in Hr; [done| |done]. intros row f f' Hf Hr'. apply bind_Ok_inv in Hr' as (rd & _ & Hr').
  apply (for_up_keeps (fun f => length f = n)) in Hr'; [done| |done]. intros col g g' Hg Hb. destruct (truth _); [|by injection Hb as <-].
  by eapply putpixel_sized.
Qed.

Lemma draw_string_sized color pitch str : forall x y, sized (fun fb => boot_draw_string fb x y str color pitch).
Proof.
  induction str as [|c r IH]; intros x y fb fb' Hl Hr; [done|]. cbn [boot_draw_string] in Hr. destruct (c =? 0); [by injection Hr as <-|].
  apply bind_Ok_inv in Hr as (f & H1 & Hr). eapply IH; [|exact Hr]. by eapply draw_char_sized.
Qed.

Lemma progress_sized x y w h pct pitch : sized (fun fb => boot_draw_progress_bar fb x y w h pct pitch).
Proof.
  intros fb fb' Hl Hr. unfold boot_draw_progress_bar in Hr. apply bind_Ok_inv in Hr as (f1 & H1 & Hr). apply bind_Ok_inv in Hr as (f2 & H2 & Hr).
  apply draw_rect_sized in H1; [|done]. apply draw_rect_sized in H2; [|done]. destruct (_ <? _); [by eapply draw_rect_sized|by injection Hr as <-].
Qed.

Lemma image_sized x y px w h pitch : sized (fun fb => boot_draw_image fb x y px w h pitch).
Proof.
  apply for_rect_sized. intros xx yy fb fb' Hl Hr. apply bind_Ok_inv in Hr as (p & _ & Hr). cbv zeta in Hr. destruct (_ <? 10); [by injection Hr as <-|].
  by eapply putpixel_sized.
Qed.

Lemma title_sized fb W H pitch img w h fb' y : length fb = n -> boot_title fb W H pitch img w h = Ok (fb', y) -> length fb' = n.
Proof.
  intros Hl Hr. assert (boot_message fb W H pitch = Ok (fb', y) -> length fb' = n) as Hmsg.
  { intros Hm. unfold boot_message in Hm. apply bind_Ok_inv in Hm as (tl & _ & Hm). apply bind_Ok_inv in Hm as (f1 & H1 & Hm).
    apply bind_Ok_inv in Hm as (f2 & H2 & Hm). injection Hm as <- _. apply draw_string_sized in H1; [|done]. by eapply draw_string_sized. }
  unfold boot_title in Hr. destruct img as [px|]; [|by apply Hmsg]. destruct (_ && _); [|by apply Hmsg].
  apply bind_Ok_inv in Hr as (f1 & H1 & Hr). injection Hr as <- _. by eapply image_sized.
Qed.

Lemma step_sized fuel clock x y pitch pct s s' : length s.1 = n -> boot_step fuel clock x y pitch pct s = Ok s' -> length s'.1 = n.
Proof.
  destruct s as [fb m]. cbn [fst]. intros Hl Hr. unfold boot_step in Hr. apply bind_Ok_inv in Hr as (f1 & H1 & Hr). apply bind_Ok_inv in Hr as (f2 & H2 & Hr).
  apply bind_Ok_inv in Hr as (f3 & H3 & Hr). apply bind_Ok_inv in Hr as (f4 & H4 & Hr). apply bind_Ok_inv in Hr as (stage & _ & Hr).
  apply bind_Ok_inv in Hr as (sl & _ & Hr). apply bind_Ok_inv in Hr as (f5 & H5 & Hr). apply bind_Ok_inv in Hr as (m' & _ & Hr). injection Hr as <-. cbn [fst].
  apply progress_sized in H1; [|done]. apply draw_rect_sized in H2; [|done]. apply draw_string_sized in H3; [|done]. apply draw_rect_sized in H4; [|done].
  by eapply draw_string_sized.
Qed.

Lemma show_sized fuel clock fb W H pitch img w h m fb' m' :
  length fb = n -> show_boot_screen fuel clock fb W H pitch img w h m = Ok (fb', m') -> length fb' = n.
Proof.
  intros Hl Hr. unfold show_boot_screen in Hr. cbv zeta in Hr. apply bind_Ok_inv in Hr as (f1 & H1 & Hr). apply draw_rect_sized in H1; [|done].
  apply bind_Ok_inv in Hr as ([f2 y] & H2 & Hr). apply title_sized in H2; [|done]. cbv beta iota in Hr.
  apply bind_Ok_inv in Hr as ([f3 m3] & H3 & Hr). apply (for_up_keeps (fun s : list Z * nat => length s.1 = n)) in H3; [|intros k s s' Hs; by apply step_sized|done].
  cbv beta iota in Hr. apply bind_Ok_inv in Hr as (m4 & _ & Hr). apply bind_Ok_inv in Hr as (f4 & H4 & Hr). injection Hr as <- _.
  by eapply draw_rect_sized.
Qed.

End SameSize.

(** ** Rectangles on the screen *)

Section Screen.
(** [P] is the number of words in a line of the frame buffer. *)
Context (P H : Z) (HS : screen_ok P H).
#[local] Set Default Proof Using "All".

Definition inside (x y w h : Z) : Prop := 0 <= x /\ x + w <= P /\ 0 <= y /\ y + h <= H.

(** The outcome of a drawing operation that fills one rectangle. *)
Definition fills (x y w h color : Z) (fb fb' : list Z) : Prop :=
  length fb' = length fb /\
  (forall px py, 0 <= px < P -> 0 <= py < H ->
     pix P fb' px py = if in_rect x y w h px py then color else pix P fb px py) /\
  (forall i, P * H <= i -> get fb' i = get fb i).

Lemma boot_rect_ok fb x y w h color :
  inside x y w h -> P * H <= zlen fb ->
  exists fb', boot_draw_rect fb x y w h color (u32 (P * 4)) = Ok fb' /\ fills x y w h color fb fb'.
Proof.
  intros Hin Hlen. unfold boot_draw_rect.
  destruct (for_rect_painted P H (fun px py => in_rect x y w h px py) (fun _ _ _ => color)
    (fun xx yy fb => putpixel fb xx yy color (u32 (P * 4))) x y w h fb) as (fb' & Hr & Hl & Hp & Ho).
  - intros px py f HR Hf. rewrite HR. unfold in_rect, inside in *. rewrite !andb_true_iff in HR.
    apply putpixel_screen with (H := H); [done|lia|lia|done].
  - intros px py HR. unfold in_rect, inside in *. rewrite !andb_true_iff in HR. lia.
  - done.
  - exists fb'. split; [done|]. split; [done|]. split; [|done]. intros px py Hx Hy. rewrite Hp by done. by rewrite andb_diag.
Qed.

(** Drawing operations that may touch any pixel but keep the buffer's size. *)
Lemma draw_char_ok fb x y c color :
  inside x y 8 8 -> P * H <= zlen fb ->
  exists fb', draw_char fb x y c color (u32 (P * 4)) = Ok fb' /\ length fb' = length fb.
Proof.
  intros Hin Hlen. unfold draw_char. destruct (Z.ltb_spec 127 (u8 c)) as [|Hc]; [eauto|].
  apply (for_up_inv (fun _ f => length f = length fb)); [|done]. intros row f Hrow Hf.
  pose proof (u8_bound c). destruct (font_row_ok (u8 c) row ltac:(lia) ltac:(lia)) as (d & ->). rewrite bind_Ok.
  destruct (for_up_inv (fun _ g => length g = length fb) 8 0 (fun col fb0 =>
     if truth (Z.land d (Z.shiftr 128 col)) then putpixel fb0 (x + col) (y + row) color (u32 (P * 4)) else Ok fb0) f) as (g & -> & Hg); [|done|eauto].
  intros col g Hcol Hg. destruct (truth _); [|eauto]. unfold inside in Hin.
  rewrite (putpixel_screen P H) by (done || lia). eexists. split; [done|]. by rewrite length_insert.
Qed.

Lemma boot_string_ok str y color : forall s fb x,
  until_nul s = Some str -> inside x y (8 * zlen str) 8 -> P * H <= zlen fb ->
  exists fb', boot_draw_string fb x y s color (u32 (P * 4)) = Ok fb' /\ length fb' = length fb.
Proof.
  induction str as [|c str IH]; intros s fb x Hs Hin Hlen; destruct s as [|d s]; cbn [until_nul] in Hs; try done.
  - destruct (d =? 0) eqn:E; [|by destruct (until_nul s)]. cbn [boot_draw_string]. rewrite E. eauto.
  - destruct (d =? 0) eqn:E; [done|]. destruct (until_nul s) as [t|] eqn:Ht; [|done]. injection Hs as -> ->.
    cbn [boot_draw_string]. rewrite E. cbn [length] in Hin. unfold inside in Hin.
    destruct (draw_char_ok fb x y c color) as (f1 & -> & L1); [unfold inside; lia|done|]. rewrite bind_Ok.
    destruct (IH s f1 (x + 8) Ht) as (f2 & -> & L2); [unfold inside; lia|by rewrite L1|]. exists f2. split; [done|congruence].
Qed.

Lemma boot_image_ok fb x y pixels w h :
  inside x y w h -> 0 <= w -> 0 <= h -> w * h <= zlen pixels -> P * H <= zlen fb ->
  exists fb', boot_draw_image fb x y pixels w h (u32 (P * 4)) = Ok fb' /\ length fb' = length fb.
Proof.
  intros Hin Hw Hh Hpx Hlen. unfold boot_draw_image, for_rect.
  apply (for_up_inv (fun _ f => length f = length fb)); [|done]. intros py f Hpy Hf.
  apply (for_up_inv (fun _ f => length f = length fb)); [|done]. intros px g Hx Hg.
  pose proof (pix_index_bound w h px py ltac:(lia) ltac:(lia)). rewrite rd_in by lia. rewrite bind_Ok.
  destruct (_ <? 10); [eauto|]. unfold inside in Hin.
  rewrite (putpixel_screen P H) by (done || lia). eexists. split; [done|]. by rewrite length_insert.
Qed.

Lemma fill_width_bound width pct : 4 <= width -> 0 <= pct <= 100 -> 0 <= fill_width width pct <= width - 4.
Proof.
  intros Hw Hp. unfold fill_width. rewrite Z.quot_div_nonneg by nia. split; [apply Z.div_pos; nia|].
  apply Z.div_le_upper_bound; nia.
Qed.

Lemma progress_bar_spec fb x y w h pct :
  inside x y w h -> 4 <= w -> 4 <= h -> 0 <= pct <= 100 -> P * H <= zlen fb ->
  exists fb', boot_draw_progress_bar fb x y w h pct (u32 (P * 4)) = Ok fb' /\ length fb' = length fb /\
    forall px py, 0 <= px < P -> 0 <= py < H ->
      pix P fb' px py =
        if in_rect (x + 2) (y + 2) (fill_width w pct) (h - 4) px py then 4500223
        else if in_rect (x + 2) (y + 2) (w - 4) (h - 4) px py then 3355443
        else if in_rect x y w h px py then 11184810 else pix P fb px py.
Proof.
  intros Hin Hw Hh Hp Hlen. pose proof (fill_width_bound w pct Hw Hp) as Hf. unfold boot_draw_progress_bar. cbv zeta.
  destruct (boot_rect_ok fb x y w h 11184810 Hin Hlen) as (f1 & -> & L1 & P1 & _). rewrite bind_Ok. unfold inside in Hin.
  destruct (boot_rect_ok f1 (x + 2) (y + 2) (w - 4) (h - 4) 3355443) as (f2 & -> & L2 & P2 & _);
    [unfold inside; lia|by rewrite L1|]. rewrite bind_Ok.
  destruct (Z.ltb_spec 0 (fill_width w pct)).
  - destruct (boot_rect_ok f2 (x + 2) (y + 2) (fill_width w pct) (h - 4) 4500223) as (f3 & -> & L3 & P3 & _);
      [unfold inside; lia|by rewrite L2, L1|]. exists f3. split; [done|]. split; [congruence|].
    intros px py Hx Hy. by rewrite P3, P2, P1 by done.
  - exists f2. split; [done|]. split; [congruence|]. intros px py Hx Hy. rewrite P2, P1 by done.
    replace (in_rect (x + 2) (y + 2) (fill_width w pct) (h - 4) px py) with false; [done|].
    symmetry. unfold in_rect. apply not_true_iff_false. rewrite !andb_true_iff. lia.
Qed.

End Screen.

(** ** The timer *)

(** A timer that is running: between two readings the 32-bit counter shows at
    most one more tick, and it never stops. *)
Record running (c : nat -> Z) : Prop := {
  run_pos : forall n, 0 <= c n;
  run_step : forall n, c n <= c (S n) <= c n + 1;
  run_on : forall k, exists n, k <= c n
}.

Definition counter (c : nat -> Z) (n : nat) : Z := u32 (c n).

Lemma i32_u32 z : i32 (u32 z) = i32 z.
Proof. unfold i32, u32, swrap, wrap. by rewrite Z.mod_mod by lia. Qed.

Section Waits.
Context (c : nat -> Z) (Hc : running c).
#[local] Set Default Proof Using "All".

Lemma run_mono n m : (n <= m)%nat -> c n <= c m.
Proof. induction 1 as [|m _ IH]; [lia|]. pose proof (run_step c Hc m). lia. Qed.

(** Enough fuel for every wait that ends by the tick [c N]. *)
Lemma tick_wait_ends N target fuel : forall n,
  target <= c N -> (N + 2 < n + 2 * fuel)%nat -> (0 < fuel)%nat -> c n <= target + 1 -> target + 2 < 2147483648 -> 0 <= target ->
  exists n', wait_ticks fuel (counter c) target n = Ok n' /\ target <= c n' <= target + 2.
Proof.
  induction fuel as [|fuel IH]; intros n HN Hf Hz Hn Ht H0; [lia|]. cbn [wait_ticks]. unfold counter.
  pose proof (run_pos c Hc n). pose proof (run_step c Hc n). pose proof (run_step c Hc (S n)).
  rewrite (u32_small (c n)), (u32_small (c (S n))), (i32_small (c n)), (i32_small target) by lia.
  destruct (Z.ltb_spec (c n) target) as [Hlt|Hge].
  - assert (i32 (u32 (c (S n) - target)) = c (S n) - target) as ->.
    { rewrite i32_u32. apply i32_small. lia. }
    destruct (Z.ltb_spec 1000 (c (S n) - target)); [lia|].
    assert (n < N)%nat as HnN by (apply Nat.nle_gt; intros Hle; pose proof (run_mono N n Hle); lia).
    apply IH; lia.
  - exists (S n). split; [done|]. lia.
Qed.

End Waits.

(** ** The whole screen *)

Section Show.
Context (P H W : Z) (HS : screen_ok P H) (HW : 440 <= W <= P) (HH : 122 <= H).
Context (c : nat -> Z) (Hc : running c) (N fuel : nat) (Hfuel : (N + 2 < 2 * fuel)%nat).
#[local] Set Default Proof Using "All".

(** The picture handed over fits the screen together with the bar. *)
Definition picture_fits (img : option (list Z)) (w h : Z) : Prop :=
  match img with
  | Some px => 0 < w <= W /\ 0 < h /\ h + 81 <= H /\ w * h <= zlen px
  | None => True
  end.

(** The bar, the number to its right and the line below it. *)
Definition bar_fits (x y : Z) : Prop := 0 <= x /\ x + 380 <= P /\ 0 <= y /\ y + 41 <= H.

Lemma boot_title_ok fb img w h :
  picture_fits img w h -> P * H <= zlen fb ->
  exists fb' y, boot_title fb W H (u32 (P * 4)) img w h = Ok (fb', y) /\ length fb' = length fb /\
    bar_fits (Z.quot (W - bar_width) 2) y.
Proof.
  intros Hfit Hlen. unfold bar_fits, bar_width. rewrite Z.quot_div_nonneg by lia.
  assert (exists fb' y, boot_message fb W H (u32 (P * 4)) = Ok (fb', y) /\ length fb' = length fb /\
    (0 <= (W - 320) / 2 /\ (W - 320) / 2 + 380 <= P /\ 0 <= y /\ y + 41 <= H)) as Hmsg.
  { unfold boot_message. cbv zeta. set (t := lit "FATAL: 0:/boot.png Corrupt  Missing").
    assert (strlen t = Ok 35) as -> by reflexivity. rewrite bind_Ok. cbv zeta. rewrite !Z.quot_div_nonneg by lia.
    destruct (boot_string_ok P H HS (bytes "FATAL: 0:/boot.png Corrupt  Missing") (H / 2 - 40) 4500223 t fb ((W - 35 * 8) / 2)
      eq_refl) as (f1 & -> & L1); [|done|].
    { unfold inside. change (zlen (bytes "FATAL: 0:/boot.png Corrupt  Missing")) with 35. dlia. }
    rewrite bind_Ok.
    destruct (boot_string_ok P H HS (bytes "Corrupt.") (H / 2 - 40 + 20) 11184810 (lit "Corrupt.") f1 ((W - 35 * 8) / 2)
      eq_refl) as (f2 & -> & L2); [|by rewrite L1|].
    { unfold inside. change (zlen (bytes "Corrupt.")) with 8. dlia. }
    rewrite bind_Ok. eexists _, _. split; [done|]. split; [congruence|]. dlia. }
  unfold boot_title. destruct img as [px|]; [|exact Hmsg]. destruct ((0 <? w) && (0 <? h)) eqn:E; [|exact Hmsg].
  cbn [picture_fits] in Hfit. destruct Hfit as (Hw & Hh & Hfit & Hpx). cbv zeta. unfold bar_height. rewrite (Z.quot_div_nonneg (W - w)) by lia.
  set (y0 := Z.quot (H - h - 22 - 80) 2). set (y := if y0 <? 10 then 10 else y0).
  assert (10 <= y /\ y + h + 71 <= H) as [Hy1 Hy2].
  { unfold y. destruct (Z.ltb_spec y0 10); [lia|]. clear Hmsg Hpx E. unfold y0 in *. clear y0 y. dlia. }
  clearbody y. destruct (boot_image_ok P H HS fb ((W - w) / 2) y px w h) as (f1 & -> & L1); [unfold inside; dlia|lia|lia|done|done|].
  rewrite bind_Ok. eexists _, _. split; [done|]. split; [done|]. dlia.
Qed.

(** The text of the percentage and of the stage fits its area. *)
Lemma pct_str_ok pct : 0 <= pct <= 100 -> exists t, until_nul (pct_str pct) = Some t /\ zlen t <= 4.
Proof.
  intros Hp. unfold pct_str. destruct (Z.eqb_spec pct 100); [eexists; split; [reflexivity|cbn; lia]|].
  destruct (Z.leb_spec 10 pct); cbn [until_nul].
  - pose proof (Z.quot_pos pct 10 ltac:(lia) ltac:(lia)). pose proof (Z.rem_nonneg pct 10 ltac:(lia) ltac:(lia)).
    destruct (Z.eqb_spec (Z.quot pct 10 + 48) 0); [lia|]. destruct (Z.eqb_spec (Z.rem pct 10 + 48) 0); [lia|].
    eexists. split; [reflexivity|cbn; lia].
  - destruct (Z.eqb_spec (pct + 48) 0); [lia|]. eexists. split; [reflexivity|cbn; lia].
Qed.

Lemma stage_ok i : 0 <= i < 5 ->
  exists s t, stages !! Z.to_nat i = Some s /\ until_nul s = Some t /\ strlen s = Ok (zlen t) /\ zlen t <= 40.
Proof.
  intros Hi. assert (i = 0 \/ i = 1 \/ i = 2 \/ i = 3 \/ i = 4) as [-> |[-> |[-> |[-> | ->]]]] by lia;
    (eexists _, _; split_and!; [reflexivity|reflexivity|reflexivity|vm_compute; discriminate]).
Qed.

Lemma wait_ok k n :
  1 <= k <= 5 -> c n + k + 2 < 2147483648 -> c n + k <= c N ->
  exists n', wait_ticks fuel (counter c) (u32 (counter c n + k)) (S n) = Ok n' /\ c n + k <= c n' <= c n + k + 2.
Proof.
  intros Hk Hn HN. pose proof (run_pos c Hc n). pose proof (run_step c Hc n). unfold counter at 2.
  rewrite (u32_small (c n)), (u32_small (c n + k)) by lia. apply (tick_wait_ends c Hc N); lia.
Qed.

Lemma boot_step_ok x y pct fb n :
  bar_fits x y -> 0 <= pct <= 100 -> P * H <= zlen fb -> c n + 4 < 2147483648 -> c n + 2 <= c N ->
  exists fb' n', boot_step fuel (counter c) x y (u32 (P * 4)) pct (fb, n) = Ok (fb', n') /\ length fb' = length fb /\
    c n + (if 90 <=? pct then 2 else 1) <= c n' <= c n + 4.
Proof.
  intros (Hx & Hx' & Hy & Hy') Hp Hlen Hn HN. unfold boot_step, bar_width, bar_height. cbv zeta.
  destruct (progress_bar_spec P H HS fb x y 320 22 pct) as (f1 & -> & L1 & _); [unfold inside; lia|lia|lia|done|done|]. rewrite bind_Ok.
  destruct (boot_rect_ok P H HS f1 (x + 320 + 10) y 50 22 BOOT_BG) as (f2 & -> & L2 & _); [unfold inside; lia|by rewrite L1|]. rewrite bind_Ok.
  destruct (pct_str_ok pct Hp) as (t & Ht & Hl). change (Z.quot (22 - 8) 2) with 7.
  destruct (boot_string_ok P H HS t (y + 7) 16777215 (pct_str pct) f2 (x + 320 + 12) Ht) as (f3 & -> & L3); [unfold inside; lia|by rewrite L2, L1|].
  rewrite bind_Ok. change (zlen stages) with 5. rewrite (Z.quot_div_nonneg (pct * 5)) by lia.
  destruct (boot_rect_ok P H HS f3 x (y + 22 + 5) 320 14 BOOT_BG) as (f4 & -> & L4 & _); [unfold inside; lia|by rewrite L3, L2, L1|]. rewrite bind_Ok.
  set (i := if 5 <=? pct * 5 / 100 then _ else _).
  assert (0 <= i < 5) as Hi by (unfold i; destruct (Z.leb_spec 5 (pct * 5 / 100)); dlia).
  destruct (stage_ok i Hi) as (s & u & -> & Hu & Hsl & Hul). cbn [or_fault]. rewrite bind_Ok, Hsl, bind_Ok.
  rewrite Z.quot_div_nonneg by lia.
  destruct (boot_string_ok P H HS u (y + 22 + 5) 11184810 s f4 (x + (320 - zlen u * 8) / 2) Hu) as (f5 & -> & L5);
    [unfold inside; clear - Hx Hx' Hy Hy' Hul; dlia|by rewrite L4, L3, L2, L1|]. rewrite bind_Ok.
  set (k := if 90 <=? pct then 2 else 1). assert (1 <= k <= 2) by (unfold k; destruct (90 <=? pct); lia).
  destruct (wait_ok k n) as (n' & -> & Hw); [lia|lia|lia|]. rewrite bind_Ok. exists f5, n'.
  split; [done|]. split; [congruence|]. lia.
Qed.

(** Ticks waited before percentage [i]. *)
Definition waited (i : Z) : Z := i + Z.max 0 (i - 90).

Lemma show_ok fb img w h n :
  picture_fits img w h -> P * H <= zlen fb -> c n + 1000 < 2147483648 -> c n + 1000 <= c N ->
  exists fb' n', show_boot_screen fuel (counter c) fb W H (u32 (P * 4)) img w h n = Ok (fb', n') /\
    length fb' = length fb /\ c n + 117 <= c n' <= c n + 411 /\
    (forall x y, 0 <= x < W -> 0 <= y < H -> pix P fb' x y = BOOT_BG).
Proof.
  intros Hfit Hlen Hn HN. pose proof HS as (HP & HH' & _). unfold show_boot_screen. rewrite !i32_small by lia. cbv zeta.
  assert (inside P H 0 0 W H) as Hin by (unfold inside; lia).
  destruct (boot_rect_ok P H HS fb 0 0 W H BOOT_BG Hin Hlen) as (f1 & -> & L1 & _). rewrite bind_Ok.
  destruct (boot_title_ok f1 img w h Hfit ltac:(by rewrite L1)) as (f2 & y & -> & L2 & Hbar). rewrite bind_Ok. cbv beta iota.
  destruct (for_up_inv (fun i (s : list Z * nat) => length (fst s) = length fb /\ c n + waited i <= c (snd s) <= c n + 4 * i)
    101 0 (boot_step fuel (counter c) (Z.quot (W - bar_width) 2) y (u32 (P * 4))) (f2, n)) as ([f3 n3] & Hr & L3 & Hw).
  - intros i [f m] Hi (Hl & Hm). cbn [fst snd] in *.
    destruct (boot_step_ok (Z.quot (W - bar_width) 2) y i f m Hbar ltac:(lia) ltac:(by rewrite Hl) ltac:(lia) ltac:(lia))
      as (f' & m' & -> & Hl' & Hm'). eexists. split; [reflexivity|]. cbn [fst snd]. split; [congruence|].
    unfold waited in *. destruct (Z.leb_spec 90 i); lia.
  - cbn [fst snd]. split; [congruence|]. unfold waited. lia.
  - rewrite Hr, bind_Ok. cbn [fst snd] in *. cbv beta iota. unfold waited in Hw.
    destruct (wait_ok 5 n3) as (n4 & -> & Hw4); [lia|lia|lia|]. rewrite bind_Ok.
    destruct (boot_rect_ok P H HS f3 0 0 W H BOOT_BG Hin ltac:(by rewrite L3)) as (f4 & -> & L4 & P4 & _). rewrite bind_Ok.
    exists f4, n4. split; [done|]. split; [congruence|]. split; [lia|]. intros px py Hx Hy. rewrite P4 by lia.
    replace (in_rect 0 0 W H px py) with true; [done|]. symmetry. unfold in_rect. rewrite !andb_true_iff. lia.
Qed.

End Show.

(** Fuel for the waits exists because the timer runs. *)
Lemma boot_screen_ends (P H W : Z) (c : nat -> Z) (fb : list Z) (img : option (list Z)) (w h : Z) (n : nat) :
  screen_ok P H -> 440 <= W <= P -> 122 <= H -> P * H <= zlen fb -> picture_fits H W img w h ->
  running c -> c n + 1000 < 2147483648 ->
  exists fuel0, forall fuel, (fuel0 <= fuel)%nat ->
    exists fb' n', show_boot_screen fuel (counter c) fb W H (u32 (P * 4)) img w h n = Ok (fb', n') /\
      length fb' = length fb /\ c n + 117 <= c n' /\
      (forall x y, 0 <= x < W -> 0 <= y < H -> pix P fb' x y = BOOT_BG).
Proof.
  intros HS HW HH Hlen Hfit Hc Hn. destruct (run_on c Hc (c n + 1000)) as (N & HN). exists (N + 2)%nat. intros fuel Hf.
  destruct (show_ok P H W HS HW HH c Hc N fuel ltac:(lia) fb img w h n Hfit Hlen Hn HN) as (fb' & n' & Hr & Hl & Hw & Hp).
  exists fb', n'. split; [exact Hr|]. split; [exact Hl|]. split; [lia|exact Hp].
Qed.

(** The boot screen always finishes: on a screen of at least 440 x 122
    pixels (any line pitch of whole words) and with a picture that fits, as
    long as the timer runs, [show_boot_screen] makes no access outside the
    frame buffer and returns after at least 117 ticks with the visible screen
    cleared to the background colour. *)
Theorem boot_screen_finishes (P H W : Z) (c : nat -> Z) (fb : list Z) (img : option (list Z)) (w h : Z) (n : nat) :
  screen_ok P H -> 440 <= W <= P -> 122 <= H -> P * H <= zlen fb -> picture_fits H W img w h ->
  running c -> c n + 1000 < 2147483648 ->
  exists fuel0, forall fuel, (fuel0 <= fuel)%nat ->
    exists fb' n', show_boot_screen fuel (counter c) fb W H (u32 (P * 4)) img w h n = Ok (fb', n') /\
      length fb' = length fb /\ c n + 117 <= c n' /\
      (forall x y, 0 <= x < W -> 0 <= y < H -> pix P fb' x y = BOOT_BG).
Proof. apply boot_screen_ends. Qed.

(** The progress bar is drawn exactly: with [pct] percent, the first
    [fill_width] columns of the inner area have the fill colour, the rest of
    it the background colour, the two-pixel frame the border colour, and no
    other pixel of the screen changes; the filled part never exceeds the inner
    area and grows with the percentage. *)
Theorem progress_bar_exact (P H : Z) (fb : list Z) (x y w h pct : Z) :
  screen_ok P H -> inside P H x y w h -> 4 <= w -> 4 <= h -> 0 <= pct <= 100 -> P * H <= zlen fb ->
  (exists fb', boot_draw_progress_bar fb x y w h pct (u32 (P * 4)) = Ok fb' /\ length fb' = length fb /\
    forall px py, 0 <= px < P -> 0 <= py < H ->
      pix P fb' px py =
        if in_rect (x + 2) (y + 2) (fill_width w pct) (h - 4) px py then 4500223
        else if in_rect (x + 2) (y + 2) (w - 4) (h - 4) px py then 3355443
        else if in_rect x y w h px py then 11184810 else pix P fb px py) /\
  0 <= fill_width w pct <= w - 4 /\ fill_width w 100 = w - 4 /\
  (forall q, 0 <= q <= pct -> fill_width w q <= fill_width w pct).
Proof.
  intros HS Hin Hw Hh Hp Hlen. split; [by apply progress_bar_spec|]. split; [by apply (fill_width_bound P H HS)|].
  split; [unfold fill_width; by rewrite Z.quot_mul by lia|]. intros q Hq. unfold fill_width.
  rewrite !Z.quot_div_nonneg by nia. apply Z.div_le_mono; nia.
Qed.

(** ** Witnesses *)

Lemma clock_running : running Z.of_nat.
Proof. split; [lia|lia|]. intros k. exists (Z.to_nat k). lia. Qed.

Lemma boot_screen_finishes_witness :
  exists fuel0, forall fuel, (fuel0 <= fuel)%nat ->
    exists fb' n', show_boot_screen fuel (counter Z.of_nat) (replicate (Z.to_nat 55000) 0) 440 122 (u32 (450 * 4)) (Some (replicate 12 0)) 4 3 7 = Ok (fb', n') /\
      pix 450 fb' 439 121 = BOOT_BG.
Proof.
  destruct (boot_screen_finishes 450 122 440 Z.of_nat (replicate (Z.to_nat 55000) 0) (Some (replicate 12 0)) 4 3 7) as (f0 & Hf).
  - unfold screen_ok. lia.
  - lia.
  - lia.
  - rewrite length_replicate. lia.
  - cbn [picture_fits]. rewrite length_replicate. lia.
  - exact clock_running.
  - lia.
  - exists f0. intros fuel Hfuel. destruct (Hf fuel Hfuel) as (fb' & n' & Hr & _ & _ & Hp).
    exists fb', n'. split; [exact Hr|]. apply Hp; lia.
Defined.

Lemma progress_bar_exact_witness :
  exists fb', boot_draw_progress_bar (replicate 96 0) 1 1 10 6 50 (u32 (12 * 4)) = Ok fb' /\
    pix 12 fb' 5 4 = 4500223 /\ pix 12 fb' 6 4 = 3355443 /\ pix 12 fb' 0 0 = 0.
Proof.
  destruct (progress_bar_exact 12 8 (replicate 96 0) 1 1 10 6 50) as [(fb' & Hr & _ & Hp) _].
  - unfold screen_ok. lia.
  - unfold inside. lia.
  - lia.
  - lia.
  - lia.
  - rewrite length_replicate. lia.
  - exists fb'. split; [exact Hr|]. rewrite !Hp by lia. vm_compute. auto.
Defined.
