(* ===== verification/Shutdown.v ===== *)
(** * Shutdown: the shutdown sequence (kernel.c)

    The screen is cleared, the picture 0:/shutdown.png is drawn in its middle,
    and the processor halts: the result is the state in which it halts. *)

From Stdlib Require Import ZArith Lia Bool String.
From stdpp Require Import base list gmap.
From S2P Require Import Prelude CLib Mm Gfx Render Fs Image.
From stdpp Require Import options.

(** [for (i = lo; i < lo + n; i++) { if (stop(i)) break; body }] *)
Fixpoint for_until {S : Type} (n : nat) (lo : Z) (stop : Z -> bool) (body : Z -> S -> res S) (s : S) : res S :=
  match n with
  | O => Ok s
  | Datatypes.S n => if stop lo then Ok s else s ← body lo s; for_until n (lo + 1) stop body s
  end.

Definition clear_screen (gfx_width gfx_height : Z) (gfx_framebuffer : list Z) : res (list Z) :=
  for_up (Z.to_nat (u32 (gfx_width * gfx_height))) 0 (fun i fb => wr fb i 0) gfx_framebuffer.

(** The picture in the middle of the screen, rows in reverse. *)
Definition draw_splash (gfx_width gfx_height : Z) (p : picture) (gfx_framebuffer : list Z) : res (list Z) :=
  let width := p_w p in let height := p_h p in
  let start_x := Z.quot (i32 gfx_width - width) 2 in
  let start_y := Z.quot (i32 gfx_height - height) 2 in
  let start_x := if start_x <? 0 then 0 else start_x in
  let start_y := if start_y <? 0 then 0 else start_y in
  for_until (Z.to_nat height) 0 (fun y => i32 gfx_height <=? start_y + y) (fun y fb =>
    let scr_y := start_y + y in
    let src_y := height - 1 - y in
    for_until (Z.to_nat width) 0 (fun x => i32 gfx_width <=? start_x + x) (fun x fb =>
      let scr_x := start_x + x in
      let pixel_idx := (src_y * width + x) * 4 in
      r ← rd (p_bytes p) (pixel_idx + 0); g ← rd (p_bytes p) (pixel_idx + 1); b ← rd (p_bytes p) (pixel_idx + 2);
      wr fb (u32 (u32 (scr_y * gfx_width) + scr_x)) (pack r g b)) fb) gfx_framebuffer.

(** The state in which the processor halts. *)
Record halted (V : Type) := mk_halted { h_fb : list Z; h_heap : mm_state; h_stb : stb; h_vol : V }.
Arguments mk_halted {V} _ _ _ _.
Arguments h_fb {V} _.
Arguments h_heap {V} _.
Arguments h_stb {V} _.
Arguments h_vol {V} _.

Section Sequence.
Context {V : Type} `{FatFs V} `{Decoder}.
Context (base gfx_width gfx_height : Z).

Definition sys_shutdown (gfx_framebuffer : list Z) (heap : mm_state) (s : stb) (v : V) : res (halted V) :=
  fb ← clear_screen gfx_width gfx_height gfx_framebuffer;
  let '(fr, fp, v) := f_open (bytes "0:/shutdown.png") FA_READ v in
  if fr =? FR_OK then
    let file_size := f_size fp v in
    x ← kmalloc base file_size heap;
    let '(heap, png_disk_buffer) := (x : mm_state * Z) in
    if negb (png_disk_buffer =? 0) then
      let '(fr, data, v) := f_read fp file_size v in
      y ← (if (fr =? FR_OK) && (zlen data =? file_size) then
             let s := mk_stb (stb_flip s) (arena_reset (stb_mem s)) in
             let '(p, a) := decode (stb_flip s) data (stb_mem s) in
             let s := mk_stb (stb_flip s) a in
             match p with
             | Some p => fb ← draw_splash gfx_width gfx_height p fb; Ok (fb, s)
             | None => Ok (fb, s)
             end
           else Ok (fb, s));
      heap ← kfree base png_disk_buffer heap;
      Ok (mk_halted y.1 heap y.2 (f_close fp v))
    else Ok (mk_halted fb heap s (f_close fp v))
  else Ok (mk_halted fb heap s v).

End Sequence.

(** ** Loops that break at the screen edge *)

Lemma for_until_up {S} n lo bound k (body : Z -> S -> res S) s :
  for_until n lo (fun i => bound <=? k + i) body s =
  for_up (Z.to_nat (Z.min (Z.of_nat n) (bound - k - lo))) lo body s.
Proof.
  revert lo s. induction n as [|n IH]; intros lo s; cbn [for_until].
  - replace (Z.to_nat _) with 0%nat by lia. done.
  - destruct (Z.leb_spec bound (k + lo)).
    + replace (Z.to_nat _) with 0%nat by lia. done.
    + replace (Z.to_nat (Z.min (Z.of_nat (Datatypes.S n)) (bound - k - lo)))
        with (Datatypes.S (Z.to_nat (Z.min (Z.of_nat n) (bound - k - (lo + 1))))) by lia.
      cbn [for_up]. destruct (body lo s) as [s'| | |]; [|done..]. rewrite !bind_Ok. apply IH.
Qed.

(** Where a picture of extent [n] starts on a screen of extent [N]. *)
Definition centred (N n : Z) : Z := Z.max 0 (Z.quot (N - n) 2).

Lemma centred_bound N n : 0 < N -> 0 < n -> 0 <= centred N n < N /\ (n <= N -> centred N n + n <= N).
Proof. intros HN Hn. unfold centred. dlia. Qed.

Section Splash.
Context (W H : Z) (HS : screen_ok W H) (p : picture).
Context (Hw : 0 < p_w p) (Hh : 0 < p_h p) (Hb : zlen (p_bytes p) = p_w p * p_h p * 4).
#[local] Set Default Proof Using "All".

Definition splash_x : Z := centred W (p_w p).
Definition splash_y : Z := centred H (p_h p).

(** The colour of the screen pixel ([x], [y]) of the splash. *)
Definition splash_pixel (x y : Z) : Z :=
  let px := x - splash_x in let py := p_h p - 1 - (y - splash_y) in
  pack (chan p px py 0) (chan p px py 1) (chan p px py 2).

Definition splash_body (x y : Z) (fb : list Z) : res (list Z) :=
  let pixel_idx := ((p_h p - 1 - (y - splash_y)) * p_w p + (x - splash_x)) * 4 in
  r ← rd (p_bytes p) (pixel_idx + 0); g ← rd (p_bytes p) (pixel_idx + 1); b ← rd (p_bytes p) (pixel_idx + 2);
  wr fb (u32 (u32 (y * W) + x)) (pack r g b).

(** The visible part of the splash. *)
Definition vis_w : Z := Z.min (p_w p) (W - splash_x).
Definition vis_h : Z := Z.min (p_h p) (H - splash_y).

Lemma start_centred N n : (if Z.quot (N - n) 2 <? 0 then 0 else Z.quot (N - n) 2) = centred N n.
Proof. unfold centred. destruct (Z.ltb_spec (Z.quot (N - n) 2) 0); lia. Qed.

Lemma draw_splash_loop fb : draw_splash W H p fb = for_rect splash_x splash_y vis_w vis_h splash_body fb.
Proof.
  pose proof HS as (HW & HH & _). unfold draw_splash. cbv zeta. rewrite !i32_small by lia. rewrite !start_centred.
  fold splash_x splash_y. rewrite <- (for_rect_shift splash_x splash_y vis_w vis_h splash_body fb). unfold for_rect.
  rewrite for_until_up. replace (Z.min (Z.of_nat (Z.to_nat (p_h p))) (H - splash_y - 0)) with vis_h by (unfold vis_h; lia).
  apply for_up_ext. intros y s Hy. rewrite for_until_up.
  replace (Z.min (Z.of_nat (Z.to_nat (p_w p))) (W - splash_x - 0)) with vis_w by (unfold vis_w; lia).
  apply for_up_ext. intros x s' Hx. unfold splash_body. cbv zeta.
  replace (splash_x + x - splash_x) with x by lia. replace (splash_y + y - splash_y) with y by lia. done.
Qed.

Lemma splash_in x y : in_rect splash_x splash_y vis_w vis_h x y = true ->
  0 <= x < W /\ 0 <= y < H /\ 0 <= x - splash_x < p_w p /\ 0 <= y - splash_y < p_h p.
Proof.
  pose proof HS as (HW & HH & _). unfold in_rect, vis_w, vis_h, splash_x, splash_y. rewrite !andb_true_iff.
  pose proof (centred_bound W (p_w p)). pose proof (centred_bound H (p_h p)). lia.
Qed.

Lemma draw_splash_painted fb :
  W * H <= zlen fb ->
  exists fb', draw_splash W H p fb = Ok fb' /\ length fb' = length fb /\
    (forall x y, 0 <= x < W -> 0 <= y < H ->
       pix W fb' x y = if in_rect splash_x splash_y vis_w vis_h x y then splash_pixel x y else pix W fb x y) /\
    (forall i, W * H <= i -> get fb' i = get fb i).
Proof.
  intros Hlen. rewrite draw_splash_loop.
  destruct (for_rect_painted W H (in_rect splash_x splash_y vis_w vis_h) (fun x y _ => splash_pixel x y)
    splash_body splash_x splash_y vis_w vis_h fb) as (fb' & Hr & Hl & Hp & Ho).
  - intros x y f HR Hf. rewrite HR. destruct (splash_in x y HR) as (Hx & Hy & Hpx & Hpy).
    destruct (screen_index W H x y HS Hx Hy) as [E _]. unfold splash_body. cbv zeta. rewrite E.
    pose proof (pix_index_bound (p_w p) (p_h p) (x - splash_x) (p_h p - 1 - (y - splash_y)) Hpx ltac:(lia)).
    pose proof (pix_index_bound W H x y Hx Hy). rewrite !rd_in, !bind_Ok by lia. rewrite wr_in by lia. done.
  - intros x y HR. destruct (splash_in x y HR) as (Hx & Hy & _). done.
  - done.
  - exists fb'. split; [done|]. split; [done|]. split; [|done]. intros x y Hx Hy. rewrite Hp by done. by rewrite andb_diag.
Qed.

End Splash.

Lemma clear_screen_ok W H fb :
  screen_ok W H -> W * H <= zlen fb ->
  exists fb', clear_screen W H fb = Ok fb' /\ length fb' = length fb /\
    (forall i, 0 <= i < W * H -> get fb' i = 0) /\ (forall i, W * H <= i -> get fb' i = get fb i).
Proof.
  intros (HW & HH & HM) Hlen. unfold clear_screen. assert (0 < W * H) by nia. rewrite u32_small by lia.
  destruct (for_up_inv (fun k f => length f = length fb /\ (forall i, 0 <= i < k -> get f i = 0) /\
      (forall i, k <= i -> get f i = get fb i)) (Z.to_nat (W * H)) 0 (fun i fb => wr fb i 0) fb) as (fb' & Hr & HI).
  - intros k f Hk (Hl & Hz & Ho). rewrite wr_in by lia. eexists. split; [done|]. split; [by rewrite length_insert|]. split.
    + intros i Hi. destruct (decide (i = k)) as [->|Hne]; [by rewrite get_insert_eq by lia|].
      rewrite get_insert_ne by lia. apply Hz. lia.
    + intros i Hi. rewrite get_insert_ne by lia. apply Ho. lia.
  - split; [done|]. split; [lia|done].
  - exists fb'. split; [done|]. replace (0 + Z.of_nat (Z.to_nat (W * H))) with (W * H) in HI by lia. done.
Qed.

(** A block taken from the heap for the file and given back. *)
Lemma borrow base st l n :
  heap_repr base st l -> no_adjacent_free l -> 0 <= n <= 4294967288 -> a_alloc (ALIGN n) l <> None ->
  exists st1 p st2, kmalloc base n st = Ok (st1, p) /\ p <> 0 /\ kfree base p st1 = Ok st2 /\ heap_repr base st2 l.
Proof.
  intros Hr Hna Hn Hroom. pose proof (kmalloc_refines_aux base st l n Hr Hn) as Hk. pose proof (ALIGN_ge n Hn).
  destruct (a_alloc (ALIGN n) l) as [[p l']|] eqn:Ha; [|done]. destruct Hk as (st1 & Hk & Hr1).
  destruct (a_alloc_new (ALIGN n) l p l' ltac:(lia) Ha) as (b & Hb & <- & _).
  destruct (kfree_refines_aux base st1 l' b Hr1 Hb) as (st2 & Hf & Hr2).
  pose proof Hr as (_ & Hpos & _ & _ & Ht). destruct (a_alloc_free (ALIGN n) _ _ _ _ _ Ht ltac:(lia) Hna Ha) as [E _]. rewrite E in Hr2.
  exists st1, (baddr b + HDR), st2. split_and!; [done| |done|done].
  pose proof Hr1 as (_ & _ & _ & _ & Ht1). destruct (tiles_elem _ _ _ _ Ht1 Hb). unfold HDR. lia.
Qed.

(** The picture the decoder delivers for the splash, if any. *)
Definition splash_of {V} `{FatFsLaws V} `{Decoder} (s : stb) (v : V) : option picture :=
  c ← file v (bytes "0:/shutdown.png"); (decode (stb_flip s) c (arena_reset (stb_mem s))).1.

(** The shutdown sequence reaches the halt and leaves the screen exactly
    as follows: black, with the visible part of the decoded shutdown picture
    in the middle when there is one, its rows in reverse order; the heap block
    used for the file has been given back. *)
Theorem shutdown_screen_exact {V : Type} `{FatFsLaws V} `{DecoderLaws} (base W Ht : Z) (l : list block)
    (fb : list Z) (heap : mm_state) (s : stb) (v : V) :
  screen_ok W Ht -> W * Ht <= zlen fb -> heap_repr base heap l -> no_adjacent_free l -> media_ok V ->
  (forall c, file v (bytes "0:/shutdown.png") = Some c -> zlen c <= 4294967288 /\ a_alloc (ALIGN (zlen c)) l <> None) ->
  exists h, sys_shutdown base W Ht fb heap s v = Ok h /\ heap_repr base (h_heap h) l /\ length (h_fb h) = length fb /\
    (forall x y, 0 <= x < W -> 0 <= y < Ht -> pix W (h_fb h) x y =
       match splash_of s v with
       | Some p => if in_rect (splash_x W p) (splash_y Ht p) (vis_w W p) (vis_h Ht p) x y then splash_pixel W Ht p x y else 0
       | None => 0
       end) /\
    (forall i, W * Ht <= i -> get (h_fb h) i = get fb i).
Proof.
  intros HS Hlen Hr Hna Hm Hroom. unfold sys_shutdown, splash_of.
  destruct (clear_screen_ok W Ht fb HS Hlen) as (f1 & -> & L1 & Z1 & O1). rewrite bind_Ok.
  assert (forall x y, 0 <= x < W -> 0 <= y < Ht -> pix W f1 x y = 0) as P1
    by (intros x y Hx Hy; apply Z1; by apply pix_index_bound).
  destruct (file v (bytes "0:/shutdown.png")) as [c|] eqn:Hf; cbn [mbind option_bind].
  - destruct (Hroom c eq_refl) as [Hc Ha]. destruct (open_ok _ v c Hf) as (h & v1 & -> & Hp & Hq).
    change (FR_OK =? FR_OK) with true. cbv iota. rewrite (size_law h v1 _ 0 c Hp ltac:(by rewrite Hq)).
    destruct (borrow base heap l (zlen c) Hr Hna ltac:(lia) Ha) as (st1 & q & st2 & -> & Hnz & Hfree & Hr2). rewrite bind_Ok. cbv beta iota.
    destruct (Z.eqb_spec q 0); [done|]. cbn [negb].
    destruct (read_ok h (zlen c) v1 _ 0 c Hm Hp ltac:(by rewrite Hq) ltac:(lia) ltac:(lia)) as (v2 & -> & _ & _).
    rewrite Nat2Z.id, drop_0, firstn_all, !Z.eqb_refl. cbn [andb stb_flip stb_mem].
    destruct (decode (stb_flip s) c (arena_reset (stb_mem s))) as [[p|] a] eqn:Hd; cbn [fst].
    + destruct (decode_size _ c _ p ltac:(by rewrite Hd)) as (Hw & Hh & _ & Hb & _).
      destruct (draw_splash_painted W Ht HS p Hw Hh Hb f1 ltac:(by rewrite L1)) as (f2 & -> & L2 & P2 & O2).
      rewrite !bind_Ok. cbn [fst snd]. rewrite Hfree, bind_Ok. eexists. split; [reflexivity|]. cbn [h_fb h_heap].
      split; [done|]. split; [congruence|]. split.
      * intros x y Hx Hy. rewrite P2 by done. by rewrite P1 by done.
      * intros i Hi. rewrite O2 by done. by apply O1.
    + rewrite bind_Ok. cbn [fst snd]. rewrite Hfree, bind_Ok. eexists. split; [reflexivity|]. cbn [h_fb h_heap]. done.
  - pose proof (open_read (bytes "0:/shutdown.png") v) as L. destruct (f_open _ FA_READ v) as [[r h] v1]. rewrite Hf in L.
    destruct L as [_ L]. destruct (Z.eqb_spec r FR_OK); [done|]. eexists. split; [reflexivity|]. cbn [h_fb h_heap]. done.
Qed.

(** The shutdown picture cannot be held: it is a file of (nearly) 4 GiB, or
    the heap has no block for it and the allocator spins. *)
Definition splash_stuck {V} `{FatFsLaws V} (l : list block) (v : V) : Prop :=
  exists c, file v (bytes "0:/shutdown.png") = Some c /\ (4294967288 < zlen c \/ a_alloc (ALIGN (zlen c)) l = None).

(** Otherwise the sequence reaches the halt, on any medium. *)
Lemma shutdown_cases {V : Type} `{FatFsLaws V} `{DecoderLaws} (base W Ht : Z) (l : list block) fb heap s (v : V) :
  screen_ok W Ht -> W * Ht <= zlen fb -> heap_repr base heap l -> no_adjacent_free l ->
  (exists h, sys_shutdown base W Ht fb heap s v = Ok h /\ heap_repr base (h_heap h) l) \/ splash_stuck l v.
Proof.
  intros HS Hlen Hr Hna. unfold sys_shutdown, splash_stuck. destruct (clear_screen_ok W Ht fb HS Hlen) as (f1 & -> & L1 & _). rewrite bind_Ok.
  destruct (file v (bytes "0:/shutdown.png")) as [c|] eqn:Hf.
  2: { destruct (open_missing _ v Hf) as (r & h & v1 & -> & -> & _). left. eexists. split; [reflexivity|]. exact Hr. }
  destruct (Z.le_gt_cases (zlen c) 4294967288) as [Hc|Hc]; [|right; exists c; split; [done|by left]].
  destruct (a_alloc (ALIGN (zlen c)) l) as [[ad l']|] eqn:Ha; [|right; exists c; split; [done|by right]]. left.
  destruct (open_ok _ v c Hf) as (h & v1 & -> & Hp & Hq). change (FR_OK =? FR_OK) with true. cbv iota.
  rewrite (size_law h v1 _ 0 c Hp ltac:(by rewrite Hq)).
  destruct (borrow base heap l (zlen c) Hr Hna ltac:(lia) ltac:(by rewrite Ha)) as (st1 & q & st2 & -> & Hnz & Hfree & Hr2). rewrite bind_Ok. cbv beta iota.
  destruct (Z.eqb_spec q 0); [done|]. cbn [negb]. destruct (f_read h (zlen c) v1) as [[r data] v2].
  assert (forall f2 (s2 : stb), exists h0, (heap ← kfree base q st1; Ok (mk_halted f2 heap s2 (f_close h v2))) = Ok h0 /\ heap_repr base (h_heap h0) l) as Hend
    by (intros f2 s2; rewrite Hfree, bind_Ok; by eexists).
  destruct (_ && _); [|rewrite bind_Ok; cbn [fst snd]; apply Hend]. cbn [stb_flip stb_mem].
  destruct (decode (stb_flip s) data (arena_reset (stb_mem s))) as [[p|] a] eqn:Hd; [|rewrite bind_Ok; cbn [fst snd]; apply Hend].
  destruct (decode_size _ data _ p ltac:(by rewrite Hd)) as (Hw & Hh & _ & Hb & _).
  destruct (draw_splash_painted W Ht HS p Hw Hh Hb f1 ltac:(by rewrite L1)) as (f2 & -> & _). rewrite !bind_Ok. cbn [fst snd]. apply Hend.
Qed.

(** ** Witness *)

Definition splash_vol : memfs := mk_memfs {[ bytes "0:/shutdown.png" := demo_pic ]} ∅ 0.

Lemma shutdown_screen_exact_witness :
  exists h, sys_shutdown w_base 4 4 (replicate 16 7) w_heap (mk_stb false arena_boot) splash_vol = Ok h /\
    pix 4 (h_fb h) 1 1 = pack 7 8 9 /\ pix 4 (h_fb h) 2 2 = pack 4 5 6 /\ pix 4 (h_fb h) 0 0 = 0.
Proof.
  destruct (shutdown_screen_exact w_base 4 4 w_blocks (replicate 16 7) w_heap (mk_stb false arena_boot) splash_vol)
    as (h & Hr & _ & _ & Hp & _).
  - unfold screen_ok. lia.
  - cbn. lia.
  - exact w_heap_repr.
  - exact I.
  - exact mem_media_ok.
  - intros c Hc. assert (c = demo_pic) as -> by (revert Hc; vm_compute; congruence). split; [vm_compute; discriminate|vm_compute; discriminate].
  - exists h. split; [exact Hr|]. rewrite !Hp by lia. vm_compute. auto.
Defined.
