(* ===== verification/Shell.v ===== *)
(** * Shell: the desktop shell (kernel.c)

    The shell owns the launcher, which opens a queued program after an
    animated delay, the taskbar, the start menu, the system monitor and the
    theme mixer; it shares with the three programs of Explorer, Edit and View
    their [active] and [minimized] flags. The animated cursor is the one kept
    with the editor ([ed_ani]). *)

From Stdlib Require Import ZArith Lia Bool String.
From stdpp Require Import base list.
From S2P Require Import Prelude CLib Mm Irq Gfx Fs Cursor Theme NetMon Ui Explorer Edit Image View.
From stdpp Require Import options.
Import Irq.Keyboard.

(** ** State *)

Definition APP_LAUNCH_NONE : Z := 0.
Definition APP_LAUNCH_SYS_MONITOR : Z := 1.
Definition APP_LAUNCH_THEME_MIXER : Z := 2.
Definition APP_LAUNCH_FILE_EXPLORER : Z := 3.
Definition APP_LAUNCH_NAOEDIT : Z := 4.
Definition APP_LAUNCH_NAOVIEW : Z := 5.
Definition ANIMATION_DELAY_TICKS : Z := 18.

Record shell := mk_shell {
  start_menu_open : Z;
  sys_monitor_active : Z; sys_monitor_minimized : Z; color_mixer_active : Z; color_mixer_minimized : Z;
  pending_app_launch : Z; pending_app_start_tick : Z;
  bounds_sys_monitor : nk_rect; bounds_theme_mixer : nk_rect
}.

Definition shell_boot : shell := mk_shell 0 0 0 0 0 APP_LAUNCH_NONE 0 (mk_rect 50 50 400 300) (mk_rect 80 70 350 400).

(** The shell with the programs it starts. *)
Record apps := mk_apps { a_shell : shell; a_explorer : explorer; a_editor : editor; a_view : view }.

Definition set_shell (s : shell) (a : apps) : apps := mk_apps s (a_explorer a) (a_editor a) (a_view a).
Definition set_explorer (e : explorer) (a : apps) : apps := mk_apps (a_shell a) e (a_editor a) (a_view a).
Definition set_editor (e : editor) (a : apps) : apps := mk_apps (a_shell a) (a_explorer a) e (a_view a).
Definition set_view (w : view) (a : apps) : apps := mk_apps (a_shell a) (a_explorer a) (a_editor a) w.

Definition set_start (o : Z) (s : shell) : shell :=
  mk_shell o (sys_monitor_active s) (sys_monitor_minimized s) (color_mixer_active s) (color_mixer_minimized s)
    (pending_app_launch s) (pending_app_start_tick s) (bounds_sys_monitor s) (bounds_theme_mixer s).
Definition set_monitor (a m : Z) (s : shell) : shell :=
  mk_shell (start_menu_open s) a m (color_mixer_active s) (color_mixer_minimized s)
    (pending_app_launch s) (pending_app_start_tick s) (bounds_sys_monitor s) (bounds_theme_mixer s).
Definition set_mixer (a m : Z) (s : shell) : shell :=
  mk_shell (start_menu_open s) (sys_monitor_active s) (sys_monitor_minimized s) a m
    (pending_app_launch s) (pending_app_start_tick s) (bounds_sys_monitor s) (bounds_theme_mixer s).
Definition set_pending (p t : Z) (s : shell) : shell :=
  mk_shell (start_menu_open s) (sys_monitor_active s) (sys_monitor_minimized s) (color_mixer_active s) (color_mixer_minimized s)
    p t (bounds_sys_monitor s) (bounds_theme_mixer s).

(** The flags of the programs kept elsewhere. *)
Definition explorer_flags (a m : Z) (e : explorer) : explorer :=
  mk_explorer a m (ex_nav e) (ex_menu e) (ex_dlg e) (bounds_file_explorer e).
Definition editor_flags (a m : Z) (e : editor) : editor :=
  mk_editor a m (ed_doc e) (ed_ops e) (ed_alert e) (bounds_naoedit e) (ed_ani e).
Definition view_flags (a m : Z) (w : view) : view :=
  mk_view a m (naoview_show_open_dialog w) (naoview_alert w) (naoview_current_file w) (vw_shown w) (bounds_naoview w).

Definition W_MONITOR : list Z := bytes "System Monitor".
Definition W_MIXER : list Z := bytes "Color Mixer".

(** ** The launcher *)

Definition show_focus (w : list Z) (d : desk) : desk := say (SetFocus w) (say (WindowShow w) d).

(** The [switch] on [pending_app_launch]. *)
Definition launch (app : Z) (a : apps) (d : desk) : apps * desk :=
  if app =? APP_LAUNCH_SYS_MONITOR then (set_shell (set_monitor 1 0 (a_shell a)) a, show_focus W_MONITOR d)
  else if app =? APP_LAUNCH_THEME_MIXER then (set_shell (set_mixer 1 0 (a_shell a)) a, show_focus W_MIXER d)
  else if app =? APP_LAUNCH_FILE_EXPLORER then
    let e := explorer_flags 1 0 (a_explorer a) in
    (set_explorer (set_nav (explorer_trigger_refresh (ex_nav e)) e) a, show_focus W_EXPLORER d)
  else if app =? APP_LAUNCH_NAOEDIT then (set_editor (editor_flags 1 0 (a_editor a)) a, show_focus W_EDIT d)
  else if app =? APP_LAUNCH_NAOVIEW then (set_view (view_flags 1 0 (a_view a)) a, show_focus W_VIEW d)
  else (a, d).

(** The handler at the top of a frame. The volatile [timer_ticks] is read up
    to three times: for the start, by [ani_play] and for the comparison. *)
Definition launch_handler (t0 t1 t2 : Z) (a : apps) (d : desk) : apps * desk :=
  let s := a_shell a in
  if negb (pending_app_launch s =? APP_LAUNCH_NONE) then
    let a := if pending_app_start_tick s =? 0
             then set_editor (Edit.set_ani (ani_play t1 (ed_ani (a_editor a))) (a_editor a))
                    (set_shell (set_pending (pending_app_launch s) t0 s) a)
             else a in
    if ANIMATION_DELAY_TICKS <=? u32 (t2 - pending_app_start_tick (a_shell a)) then
      let a := set_editor (Edit.set_ani (ani_stop (ed_ani (a_editor a))) (a_editor a)) a in
      let '(a, d) := launch (pending_app_launch (a_shell a)) a d in
      (set_shell (set_pending APP_LAUNCH_NONE 0 (a_shell a)) a, d)
    else (a, d)
  else (a, d).

(** ** Keyboard input *)

(** What the frame tells Nuklear: a backspace key stroke or a character. *)
Inductive key_event := KeyBackspace | KeyChar (c : Z).

(** [while ((incoming_char = keyboard_pop_char()) != 0) ...] *)
Fixpoint drain_keys (fuel : nat) (k : kbd) : res (list key_event * kbd) :=
  match fuel with
  | O => NoFuel
  | S fuel =>
      x ← keyboard_pop_char k;
      let '(c, k) := (x : Z * kbd) in
      if negb (c =? 0) then
        y ← drain_keys fuel k;
        Ok ((if c =? 8 then KeyBackspace else KeyChar c) :: y.1, y.2)
      else Ok ([], k)
  end.

(** [if (!mouse_left_clicked) active_drag_window_id = 0;] *)
Definition drop_lock (clicked : Z) (d : desk) : desk := if truth clicked then d else lock 0 d.

(** ** The taskbar *)

(** [nk_begin] of the taskbar, its START button and the buttons of the five
    programs. *)
Record tb_in := mk_tb_in {
  tb_begin : bool; tb_start : bool; tb_monitor : bool; tb_mixer : bool; tb_explorer : bool; tb_edit : bool; tb_view : bool
}.

(** [x = !x] *)
Definition lnot (z : Z) : Z := if truth z then 0 else 1.

Definition shell_of (f : shell -> shell) (a : apps) : apps := set_shell (f (a_shell a)) a.

Definition active_flags (a : apps) : list Z :=
  [sys_monitor_active (a_shell a); color_mixer_active (a_shell a); file_explorer_active (a_explorer a);
   naoedit_active (a_editor a); naoview_active (a_view a)].

(** [cols], [occupied_width] and [blank_spacer]: whole numbers throughout. *)
Definition taskbar_cols (a : apps) : Z := 3 + zlen (filter (fun z => truth z = true) (active_flags a)).
Definition blank_spacer (gfx_width : Z) (a : apps) : Z :=
  let occupied_width := 80 + 64 + 110 * zlen (filter (fun z => truth z = true) (active_flags a)) in
  let total_gaps_width := (taskbar_cols a - 1) * 4 in
  let blank := gfx_width - occupied_width - total_gaps_width - 8 in
  if blank <? 10 then 10 else blank.

(** The widths handed to [nk_layout_row_push], in order. *)
Definition taskbar_row (gfx_width : Z) (a : apps) : list Z :=
  [80] ++ ((fun _ => 110) <$> filter (fun z => truth z = true) (active_flags a)) ++ [blank_spacer gfx_width a; 64].

Definition taskbar (i : tb_in) (a : apps) : apps :=
  if tb_begin i then
    let a := if tb_start i then shell_of (fun s => set_start (lnot (start_menu_open s)) s) a else a in
    let a := if truth (sys_monitor_active (a_shell a)) && tb_monitor i
             then shell_of (fun s => set_monitor (sys_monitor_active s) (lnot (sys_monitor_minimized s)) s) a else a in
    let a := if truth (color_mixer_active (a_shell a)) && tb_mixer i
             then shell_of (fun s => set_mixer (color_mixer_active s) (lnot (color_mixer_minimized s)) s) a else a in
    let e := a_explorer a in
    let a := if truth (file_explorer_active e) && tb_explorer i
             then set_explorer (explorer_flags (file_explorer_active e) (lnot (file_explorer_minimized e)) e) a else a in
    let e := a_editor a in
    let a := if truth (naoedit_active e) && tb_edit i
             then set_editor (editor_flags (naoedit_active e) (lnot (naoedit_minimized e)) e) a else a in
    let w := a_view a in
    if truth (naoview_active w) && tb_view i
    then set_view (view_flags (naoview_active w) (lnot (naoview_minimized w)) w) a else a
  else a.

(** [target_icon]: the picture, or a red square when it was not loaded. *)
Definition target_icon (st : net_status) (img_connected img_noconnect : nk_image) : nk_image :=
  match st with NET_STATUS_CONNECTED => img_connected | _ => img_noconnect end.

(** ** The start menu *)

Record sm_in := mk_sm_in {
  sm_begin : bool; sm_monitor : bool; sm_mixer : bool; sm_explorer : bool; sm_edit : bool; sm_view : bool;
  sm_restart : bool; sm_shutdown : bool
}.

(** What the menu leads to; restart and shutdown do not come back. *)
Inductive menu_out := Stay (s : shell) | Restart | Shutdown.

(** One program button. *)
Definition queue (pressed : bool) (app : Z) (s : shell) : shell :=
  if pressed && (pending_app_launch s =? APP_LAUNCH_NONE)
  then set_start 0 (set_pending app (pending_app_start_tick s) s) else s.

Definition start_menu (i : sm_in) (s : shell) : menu_out :=
  if truth (start_menu_open s) && sm_begin i then
    let s := queue (sm_monitor i) APP_LAUNCH_SYS_MONITOR s in
    let s := queue (sm_mixer i) APP_LAUNCH_THEME_MIXER s in
    let s := queue (sm_explorer i) APP_LAUNCH_FILE_EXPLORER s in
    let s := queue (sm_edit i) APP_LAUNCH_NAOEDIT s in
    let s := queue (sm_view i) APP_LAUNCH_NAOVIEW s in
    if sm_restart i then Restart else if sm_shutdown i then Shutdown else Stay s
  else Stay s.

(** ** The launcher over frames *)

(** The pending launch and its start tick. *)
Definition launcher (a : apps) : Z * Z := (pending_app_launch (a_shell a), pending_app_start_tick (a_shell a)).

(** One frame as the launcher sees it: the handler, the taskbar, the start
    menu, and then windows that leave the launcher alone. *)
Inductive shell_frame (t : Z * Z * Z) : apps -> apps -> Prop :=
| shell_frame_intro a d i j a1 d1 s2 a' :
    launch_handler t.1.1 t.1.2 t.2 a d = (a1, d1) -> start_menu j (a_shell (taskbar i a1)) = Stay s2 ->
    launcher a' = (pending_app_launch s2, pending_app_start_tick s2) -> shell_frame t a a'.

Inductive shell_frames : list (Z * Z * Z) -> apps -> apps -> Prop :=
| frames_nil a : shell_frames [] a a
| frames_cons t ts a b c : shell_frame t a b -> shell_frames ts b c -> shell_frames (t :: ts) a c.

(** The program [app] is open on the desktop. *)
Definition opened (app : Z) (a : apps) : Prop :=
  (app = APP_LAUNCH_SYS_MONITOR -> sys_monitor_active (a_shell a) = 1 /\ sys_monitor_minimized (a_shell a) = 0) /\
  (app = APP_LAUNCH_THEME_MIXER -> color_mixer_active (a_shell a) = 1 /\ color_mixer_minimized (a_shell a) = 0) /\
  (app = APP_LAUNCH_FILE_EXPLORER -> file_explorer_active (a_explorer a) = 1 /\ file_explorer_minimized (a_explorer a) = 0 /\
     explorer_needs_refresh (ex_nav (a_explorer a)) = 1) /\
  (app = APP_LAUNCH_NAOEDIT -> naoedit_active (a_editor a) = 1 /\ naoedit_minimized (a_editor a) = 0) /\
  (app = APP_LAUNCH_NAOVIEW -> naoview_active (a_view a) = 1 /\ naoview_minimized (a_view a) = 0).

Lemma launch_opens app a d : opened app (launch app a d).1 /\
  launcher (launch app a d).1 = launcher a.
Proof.
  unfold launch, opened, APP_LAUNCH_SYS_MONITOR, APP_LAUNCH_THEME_MIXER, APP_LAUNCH_FILE_EXPLORER, APP_LAUNCH_NAOEDIT, APP_LAUNCH_NAOVIEW.
  destruct (Z.eqb_spec app 1); [split; [split_and!; intros; done || lia|done]|].
  destruct (Z.eqb_spec app 2); [split; [split_and!; intros; done || lia|done]|].
  destruct (Z.eqb_spec app 3); [split; [split_and!; intros; done || lia|done]|].
  destruct (Z.eqb_spec app 4); [split; [split_and!; intros; done || lia|done]|].
  destruct (Z.eqb_spec app 5); [split; [split_and!; intros; done || lia|done]|].
  split; [split_and!; intros; lia|done].
Qed.

(** The start tick after the handler's first step. *)
Definition started (s t0 : Z) : Z := if s =? 0 then t0 else s.

Lemma handler_waits t0 t1 t2 a d app s :
  launcher a = (app, s) -> app <> 0 -> u32 (t2 - started s t0) < 18 ->
  launcher (launch_handler t0 t1 t2 a d).1 = (app, started s t0).
Proof.
  unfold launcher, launch_handler, started. intros [= <- <-] Hp Ht.
  destruct (Z.eqb_spec (pending_app_launch (a_shell a)) APP_LAUNCH_NONE); [done|]. cbn [negb].
  unfold ANIMATION_DELAY_TICKS. destruct (pending_app_start_tick (a_shell a) =? 0) eqn:E; cbn;
    [destruct (Z.leb_spec 18 (u32 (t2 - t0)))|destruct (Z.leb_spec 18 (u32 (t2 - pending_app_start_tick (a_shell a))))];
    done || lia.
Qed.

Lemma handler_launches t0 t1 t2 a d app s :
  launcher a = (app, s) -> app <> 0 -> 18 <= u32 (t2 - started s t0) ->
  opened app (launch_handler t0 t1 t2 a d).1 /\ launcher (launch_handler t0 t1 t2 a d).1 = (0, 0).
Proof.
  unfold launcher at 1, started. intros [= <- <-] Hp Ht. unfold launch_handler.
  destruct (Z.eqb_spec (pending_app_launch (a_shell a)) APP_LAUNCH_NONE); [done|]. cbn [negb]. unfold ANIMATION_DELAY_TICKS.
  set (a1 := if pending_app_start_tick (a_shell a) =? 0 then _ else a).
  assert (pending_app_launch (a_shell a1) = pending_app_launch (a_shell a) /\
    18 <= u32 (t2 - pending_app_start_tick (a_shell a1))) as [Ep Es]
    by (revert Ht; unfold a1; destruct (pending_app_start_tick (a_shell a) =? 0); intros Ht; split; [reflexivity|exact Ht|reflexivity|exact Ht]).
  destruct (Z.leb_spec 18 (u32 (t2 - pending_app_start_tick (a_shell a1)))); [|lia].
  set (a2 := set_editor _ a1). change (pending_app_launch (a_shell a2)) with (pending_app_launch (a_shell a1)). rewrite Ep.
  destruct (launch_opens (pending_app_launch (a_shell a)) a2 d) as [Ho _].
  destruct (launch (pending_app_launch (a_shell a)) a2 d) as [a3 d3]. cbn [fst] in *. split; [exact Ho|done].
Qed.

Lemma handler_idle t0 t1 t2 a d : pending_app_launch (a_shell a) = 0 -> launch_handler t0 t1 t2 a d = (a, d).
Proof. intros Hp. unfold launch_handler. by rewrite Hp. Qed.

Lemma taskbar_launcher i a : launcher (taskbar i a) = launcher a.
Proof.
  unfold taskbar. destruct (tb_begin i); [|done]. cbv zeta.
  repeat match goal with |- context [if ?b then _ else _] => destruct b end; reflexivity.
Qed.

(** A queue button writes nothing while a launch is pending. *)
Lemma queue_pending b app s : pending_app_launch s <> 0 -> queue b app s = s.
Proof. intros Hp. unfold queue. destruct (Z.eqb_spec (pending_app_launch s) APP_LAUNCH_NONE); [done|]. by rewrite andb_false_r. Qed.

Lemma menu_pending j s s' : pending_app_launch s <> 0 -> start_menu j s = Stay s' -> s' = s.
Proof.
  intros Hp. unfold start_menu. destruct (_ && _); [|congruence]. cbv zeta.
  rewrite (queue_pending (sm_monitor j)), (queue_pending (sm_mixer j)), (queue_pending (sm_explorer j)), (queue_pending (sm_edit j)), (queue_pending (sm_view j)) by done.
  destruct (sm_restart j); [done|]. destruct (sm_shutdown j); [done|]. congruence.
Qed.

(** While the delay runs, a frame keeps the pending launch. *)
Lemma frame_waits t a a' app s :
  shell_frame t a a' -> launcher a = (app, s) -> app <> 0 -> u32 (t.2 - started s t.1.1) < 18 ->
  launcher a' = (app, started s t.1.1).
Proof.
  intros [a0 d i j a1 d1 s2 a'' Hh Hm Hl] Ha Hp Ht. pose proof (handler_waits t.1.1 t.1.2 t.2 a0 d app s Ha Hp Ht) as E.
  rewrite Hh in E. cbn [fst] in E. rewrite <- (taskbar_launcher i a1) in E. unfold launcher in E. injection E as E1 E2.
  rewrite Hl, (menu_pending j (a_shell (taskbar i a1)) s2) by (done || by rewrite E1). congruence.
Qed.

(** C8: a queued program is always opened: from the frame that first sees the
    request (at tick [s]) on, the request can neither be lost nor replaced
    while fewer than 18 ticks have passed, and the first frame that runs 18 or
    more ticks after [s] opens exactly that program, shown and not minimized,
    and is ready for the next request. *)
Theorem launch_liveness (app s t1 t2 : Z) (ts : list (Z * Z * Z)) (a b : apps) (t : Z * Z * Z) (d : desk) :
  launcher a = (app, 0) -> app <> APP_LAUNCH_NONE -> s <> 0 ->
  shell_frames ((s, t1, t2) :: ts) a b -> Forall (fun u => u32 (u.2 - s) < ANIMATION_DELAY_TICKS) ((s, t1, t2) :: ts) ->
  launcher b = (app, s) /\
  (ANIMATION_DELAY_TICKS <= u32 (t.2 - s) ->
   opened app (launch_handler t.1.1 t.1.2 t.2 b d).1 /\
   launcher (launch_handler t.1.1 t.1.2 t.2 b d).1 = (APP_LAUNCH_NONE, 0)).
Proof.
  unfold APP_LAUNCH_NONE, ANIMATION_DELAY_TICKS. intros Ha Hp Hs Hf Ht.
  assert (forall us x y, shell_frames us x y -> Forall (fun u => u32 (u.2 - s) < 18) us -> launcher x = (app, s) -> launcher y = (app, s)) as Hrun.
  { intros us x y. induction 1 as [|u us x y z Hu _ IH]; intros HF Hx; [done|]. apply Forall_cons in HF as [H1 H2].
    assert (started s u.1.1 = s) as Es by (unfold started; by destruct (Z.eqb_spec s 0)).
    apply IH; [done|]. rewrite <- Es. apply (frame_waits u x y app s Hu Hx Hp). by rewrite Es. }
  inversion Hf as [|u us x y z Hu Hrest]; subst. apply Forall_cons in Ht as [H1 H2]. cbn [snd] in H1.
  assert (launcher b = (app, s)) as Hb.
  { apply (Hrun ts y b Hrest H2). exact (frame_waits (s, t1, t2) a y app 0 Hu Ha Hp H1). }
  split; [done|]. intros Hlate. apply (handler_launches t.1.1 t.1.2 t.2 b d app s Hb Hp).
  unfold started. by destruct (Z.eqb_spec s 0).
Qed.

(** The launcher between frames: a known program or none, and no clock
    without a request. *)
Definition launcher_ok (a : apps) : Prop :=
  0 <= pending_app_launch (a_shell a) <= 5 /\ (pending_app_launch (a_shell a) = 0 -> pending_app_start_tick (a_shell a) = 0).

Definition s_ok (s : shell) : Prop :=
  0 <= pending_app_launch s <= 5 /\ (pending_app_launch s = 0 -> pending_app_start_tick s = 0).

Lemma queue_ok b app s : 1 <= app <= 5 -> s_ok s -> s_ok (queue b app s).
Proof. intros Ha [H1 H2]. unfold queue. destruct (_ && _); [|done]. split; cbn; lia. Qed.

Lemma menu_ok j s s' : s_ok s -> start_menu j s = Stay s' -> s_ok s'.
Proof.
  intros Hs. unfold start_menu. destruct (_ && _); [|by intros [= <-]]. cbv zeta.
  destruct (sm_restart j); [done|]. destruct (sm_shutdown j); [done|]. intros [= <-].
  repeat apply queue_ok; try done; unfold APP_LAUNCH_SYS_MONITOR, APP_LAUNCH_THEME_MIXER, APP_LAUNCH_FILE_EXPLORER, APP_LAUNCH_NAOEDIT, APP_LAUNCH_NAOVIEW; lia.
Qed.

Lemma launcher_ok_eq a b : launcher a = launcher b -> launcher_ok b -> launcher_ok a.
Proof. unfold launcher, launcher_ok. intros [= -> ->]. done. Qed.

Lemma handler_keeps_ok t0 t1 t2 a d : launcher_ok a -> launcher_ok (launch_handler t0 t1 t2 a d).1.
Proof.
  intros Ha. destruct (Z.eq_dec (pending_app_launch (a_shell a)) 0) as [E|N]; [by rewrite handler_idle|].
  destruct (launcher a) as [app s] eqn:El. assert (app <> 0) as Hp by (unfold launcher in El; congruence).
  destruct (Z.lt_ge_cases (u32 (t2 - started s t0)) 18) as [Hlt|Hge].
  - pose proof (handler_waits t0 t1 t2 a d app s El Hp Hlt) as E. unfold launcher, launcher_ok in *.
    injection E as -> ->. injection El as <- <-. destruct Ha. split; [done|]. by intros ?.
  - destruct (handler_launches t0 t1 t2 a d app s El Hp Hge) as [_ E]. unfold launcher, launcher_ok in *. injection E as -> ->. lia.
Qed.

Lemma frames_keep_ok ts a b : shell_frames ts a b -> launcher_ok a -> launcher_ok b.
Proof.
  induction 1 as [|t ts a b c [a0 d i j a1 d1 s2 a' Hh Hm Hl] _ IH]; intros Ha; [done|]. apply IH.
  pose proof (handler_keeps_ok t.1.1 t.1.2 t.2 a0 d Ha) as H1. rewrite Hh in H1. cbn [fst] in H1.
  pose proof (launcher_ok_eq (taskbar i a1) a1 (taskbar_launcher i a1) H1) as H2.
  pose proof (menu_ok j _ s2 H2 Hm) as H3. unfold launcher in Hl. injection Hl as E1 E2. unfold launcher_ok. rewrite E1, E2. exact H3.
Qed.

(** Over any number of frames from boot, with any clicks, the launcher
    holds at most one request, it is one of the five programs, the clock only
    runs while a request is pending, and the request is dropped only by
    opening the program: a frame in which fewer than 18 ticks have passed
    since the start keeps it. *)
Theorem launcher_invariant (ts : list (Z * Z * Z)) (e : explorer) (ed : editor) (w : view) (a b : apps) (t : Z * Z * Z) :
  shell_frames ts (mk_apps shell_boot e ed w) a ->
  launcher_ok a /\
  (shell_frame t a b -> pending_app_launch (a_shell a) <> APP_LAUNCH_NONE ->
   u32 (t.2 - started (pending_app_start_tick (a_shell a)) t.1.1) < ANIMATION_DELAY_TICKS ->
   pending_app_launch (a_shell b) = pending_app_launch (a_shell a)).
Proof.
  intros Hf. split; [apply (frames_keep_ok _ _ _ Hf); done|]. intros Hb Hp Ht.
  pose proof (frame_waits t a b _ _ Hb eq_refl Hp Ht) as E. unfold launcher in E. by injection E.
Qed.

(** ** Keyboard input is delivered completely *)

Definition to_key (c : Z) : key_event := if c =? 8 then KeyBackspace else KeyChar c.

Lemma drain_ring fuel k :
  kbd_ok k -> Forall (fun c => c <> 0) (ring k) -> (length (ring k) < fuel)%nat ->
  exists k', drain_keys fuel k = Ok (to_key <$> ring k, k') /\ kbd_ok k' /\ ring k' = [] /\ shift_pressed k' = shift_pressed k.
Proof.
  revert k. induction fuel as [|fuel IH]; intros k Hk Hz Hf; [lia|]. cbn [drain_keys].
  destruct (pop_spec k Hk) as (k1 & -> & Hk1 & Hr & Hs). rewrite bind_Ok. cbv beta iota.
  destruct (ring k) as [|c r] eqn:E; cbn [q_pop fst snd] in *.
  - exists k1. done.
  - apply Forall_cons in Hz as [Hc Hz]. destruct (Z.eqb_spec c 0); [done|]. cbn [negb].
    destruct (IH k1 Hk1 ltac:(by rewrite Hr) ltac:(rewrite Hr; cbn in Hf; lia)) as (k2 & -> & Hk2 & Hr2 & Hs2).
    rewrite bind_Ok. cbn [fst snd]. exists k2. rewrite Hr. split; [done|]. split_and!; congruence.
Qed.

(** The characters of the layout are never 0. *)
Lemma key_of_nonzero sc : is_byte sc -> match key_of sc with KChar p s => p <> 0 /\ s <> 0 | _ => True end.
Proof.
  intros Hb. unfold is_byte in Hb. unfold key_of. destruct (_ || _); [done|]. destruct (_ || _); [done|].
  destruct (Z.ltb_spec sc 58); [|done]. pose proof (tables_agree sc ltac:(lia)) as T.
  destruct (Z.eqb_spec (get scancode_to_ascii_normal sc) 0); [done|].
  destruct (Z.eqb_spec (get scancode_to_ascii_shift sc) 0); [done|]. done.
Qed.

Lemma spec_queue_nonzero evs : forall sh q, Forall event_ok evs -> Forall (fun c => c <> 0) q ->
  Forall (fun c => c <> 0) (spec_run evs sh q).2.2.
Proof.
  assert (forall c q, c <> 0 -> Forall (fun c => c <> 0) q -> Forall (fun c => c <> 0) (q_push c q)) as Hpush.
  { intros c q Hc Hq. unfold q_push. destruct (decide _); [|done]. apply Forall_app. split; [done|]. by repeat constructor. }
  induction evs as [|[sc|] evs IH]; intros sh q He Hq; [done| |]; apply Forall_cons in He as [H1 H2]; cbn [spec_run].
  - pose proof (key_of_nonzero sc H1) as Hk. destruct (key_of sc) as [b|p s|]; [by apply IH| |by apply IH].
    apply IH; [done|]. apply Hpush; [|done]. destruct Hk, sh; assumption.
  - destruct (q_pop q) as [c q'] eqn:Eq. assert (Forall (fun c => c <> 0) q') as Hq'.
    { destruct q; cbn in Eq; injection Eq as <- <-; [done|by apply Forall_cons in Hq as [_ ?]]. }
    cbn [fst snd]. pose proof (IH sh q' H2 Hq') as Hr. destruct (spec_run evs sh q') as [out st]. exact Hr.
Qed.

(** One frame delivers all keyboard input: after any interleaving of key
    presses and reads, the input loop of the frame ends within 32 reads,
    hands Nuklear exactly the queued characters in order (a backspace as a key
    stroke) and leaves the queue empty. *)
Theorem drain_delivers (evs : list kevent) :
  Forall event_ok evs ->
  exists out k k', kbd_run evs kbd_boot = Ok (out, k) /\
    drain_keys 32 k = Ok (to_key <$> (spec_run evs false []).2.2, k') /\ ring k' = [] /\ kbd_ok k'.
Proof.
  intros He. destruct (kbd_run_spec evs kbd_boot kbd_boot_ok He) as (k & Hr & Hk & Hq).
  change (shift_pressed kbd_boot) with false in *. change (ring kbd_boot) with (@nil Z) in *.
  pose proof (spec_queue_nonzero evs false [] He ltac:(constructor)) as Hz. rewrite Hq in Hz |- *. cbn [snd] in *.
  assert (length (ring k) < 32)%nat as Hl.
  { rewrite ring_length. unfold ring_len. pose proof (Z.mod_pos_bound (keyboard_head k - keyboard_tail k) 32). lia. }
  destruct (drain_ring 32 k Hk Hz Hl) as (k' & Hd & Hk' & Hr' & _). eexists _, k, k'. split; [exact Hr|]. done.
Qed.

(** ** The taskbar row *)

(** The taskbar row is laid out consistently: as many widths are pushed as
    columns were announced, and unless the spacer has shrunk to its minimum
    the widths, the gaps between them and the margin fill the screen exactly. *)
Theorem taskbar_row_fits (gfx_width : Z) (a : apps) :
  zlen (taskbar_row gfx_width a) = taskbar_cols a /\
  (10 < blank_spacer gfx_width a ->
   foldr Z.add 0 (taskbar_row gfx_width a) + (taskbar_cols a - 1) * 4 + 8 = gfx_width).
Proof.
  unfold taskbar_row, blank_spacer, taskbar_cols. set (l := filter _ (active_flags a)). clearbody l.
  rewrite !length_app, length_fmap. cbn [length]. split; [lia|]. cbv zeta.
  destruct (Z.ltb_spec (gfx_width - (80 + 64 + 110 * zlen l) - (3 + zlen l - 1) * 4 - 8) 10); [lia|]. intros _.
  assert (forall m rest, foldr Z.add 0 (((fun _ : Z => 110) <$> m) ++ rest) = 110 * zlen m + foldr Z.add 0 rest) as Hsum.
  { induction m as [|x m IH]; intros rest; [cbn; lia|]. cbn [fmap list_fmap app foldr length].
    change (list_fmap Z Z (fun _ : Z => 110) m) with ((fun _ : Z => 110) <$> m). rewrite IH. lia. }
  cbn [app foldr]. rewrite Hsum. cbn [foldr]. lia.
Qed.

(** ** Witnesses *)

Definition w_apps : apps := mk_apps shell_boot explorer_boot (editor_boot ani_boot) view_boot.
Definition w_queued : apps := set_shell (set_start 0 (set_pending APP_LAUNCH_NAOVIEW 0 (a_shell w_apps))) w_apps.
Definition w_menu : sm_in := mk_sm_in false false false false false false false false.
Definition w_bar : tb_in := mk_tb_in false false false false false false false.

Lemma launch_liveness_witness :
  launcher (set_shell (set_pending 5 100 (a_shell w_queued)) w_queued) = (5, 100) /\
  opened 5 (launch_handler 118 118 118 (set_shell (set_pending 5 100 (a_shell w_queued)) w_queued) (mk_desk 0 [])).1.
Proof.
  destruct (launch_liveness 5 100 100 101 [] w_queued (set_shell (set_pending 5 100 (a_shell w_queued)) w_queued) (118, 118, 118) (mk_desk 0 []))
    as [Hl Ho].
  - reflexivity.
  - discriminate.
  - discriminate.
  - apply (frames_cons _ _ _ (set_shell (set_pending 5 100 (a_shell w_queued)) w_queued)); [|constructor].
    eapply (shell_frame_intro _ _ (mk_desk 0 []) w_bar w_menu); [reflexivity|reflexivity|reflexivity].
  - repeat constructor.
  - split; [exact Hl|]. apply Ho. vm_compute. discriminate.
Defined.

Lemma launcher_invariant_witness : launcher_ok w_apps.
Proof.
  exact (proj1 (launcher_invariant [] explorer_boot (editor_boot ani_boot) view_boot w_apps w_apps (0, 0, 0) (frames_nil w_apps))).
Defined.

Lemma drain_delivers_witness :
  exists out k k', kbd_run [Scan 30; Scan 42; Scan 30; Scan 14] kbd_boot = Ok (out, k) /\
    drain_keys 32 k = Ok ([KeyChar 97; KeyChar 65; KeyBackspace], k').
Proof.
  destruct (drain_delivers [Scan 30; Scan 42; Scan 30; Scan 14]) as (out & k & k' & Hr & Hd & _).
  - repeat constructor; unfold is_byte; lia.
  - exists out, k, k'. split; [exact Hr|exact Hd].
Defined.

Lemma taskbar_row_fits_witness :
  taskbar_row 1024 w_apps = [80; 864; 64] /\
  foldr Z.add 0 (taskbar_row 1024 w_apps) + (taskbar_cols w_apps - 1) * 4 + 8 = 1024.
Proof. split; [vm_compute; reflexivity|]. apply (taskbar_row_fits 1024 w_apps). vm_compute. reflexivity. Defined.
