(* ===== verification/Panels.v ===== *)
(** * Panels: the system monitor and the theme mixer (kernel.c)

    Two windows of the shell: the monitor formats the uptime and the state of
    the heap (Mm), the mixer edits the theme (Theme) with sliders and check
    boxes and saves or reloads it. *)

From Stdlib Require Import ZArith Lia Bool String.
From stdpp Require Import base list.
From S2P Require Import Prelude CLib Mm Gfx Fs Theme Ui View Shell.
From stdpp Require Import options.

(** What both windows ask of the mouse and of Nuklear. *)
Record panel_in := mk_panel_in { pi_win : win_in; pi_clicked : Z; pi_any_active : bool }.

(** ** The system monitor *)

(** A label of 14 characters in an array of 32, followed by a number. *)
Definition stat_line (label : list Z) (value : Z) (num_buf : list Z) : res (list Z * list Z) :=
  num ← mini_itoa value num_buf;
  x ← put_str num (filled (replicate 32 0) label) 14 31;
  s ← wr x.1 x.2 0;
  Ok (s, num).

Definition mem_percent (used_mem total_mem : Z) : Z :=
  if 0 <? total_mem then
    let p := u32 (used_mem * 100) / total_mem in if 100 <? p then 100 else p
  else 0.

Definition mem_format : list Z := lit "Memory Used: %d%% (%d KB / %d KB)".

(** The three lines and the value of the progress bar. *)
Record stats := mk_stats { ticks_str : list Z; secs_str : list Z; mem_str : list Z; percent : Z }.

(** [t0] and [t1] are the two readings of [timer_ticks]; [num_buf] (16 bytes)
    and [mem_buf] (64 bytes) are uninitialised arrays. *)
Definition monitor_stats (base t0 t1 : Z) (num_buf mem_buf : list Z) (heap : mm_state) : res stats :=
  let seconds := t0 / 18 in
  x ← stat_line (bytes "System Ticks: ") t1 num_buf;
  y ← stat_line (bytes "Uptime (Sec): ") seconds x.2;
  used_mem ← get_used_memory base heap;
  let total_mem := get_total_memory in
  let pc := mem_percent used_mem total_mem in
  m ← mini_snprintf (Some mem_buf) 64 mem_format [VInt pc; VInt (used_mem / 1024); VInt (total_mem / 1024)];
  Ok (mk_stats x.1 y.1 (match m.1 with Some b => b | None => [] end) pc).

Record sysmon_in := mk_sysmon_in { si_panel : panel_in; si_t0 : Z; si_t1 : Z; si_num : list Z; si_mem : list Z }.

Definition set_bounds_monitor (r : nk_rect) (s : shell) : shell :=
  mk_shell (start_menu_open s) (sys_monitor_active s) (sys_monitor_minimized s) (color_mixer_active s) (color_mixer_minimized s)
    (pending_app_launch s) (pending_app_start_tick s) r (bounds_theme_mixer s).
Definition set_bounds_mixer (r : nk_rect) (s : shell) : shell :=
  mk_shell (start_menu_open s) (sys_monitor_active s) (sys_monitor_minimized s) (color_mixer_active s) (color_mixer_minimized s)
    (pending_app_launch s) (pending_app_start_tick s) (bounds_sys_monitor s) r.

(** The window; what it shows is part of the result. *)
Definition sys_monitor (base : Z) (i : sysmon_in) (heap : mm_state) (s : shell) (d : desk) : res (shell * desk * option stats) :=
  let p := si_panel i in
  if truth (sys_monitor_active s) && negb (truth (sys_monitor_minimized s)) then
    x ← (if w_begin (pi_win p) then
           st ← monitor_stats base (si_t0 i) (si_t1 i) (si_num i) (si_mem i) heap;
           Ok (set_bounds_monitor (w_bounds (pi_win p)) s, Some st)
         else Ok (s, None));
    let '(s, st) := (x : shell * option stats) in
    let d := route_greedy 1 W_MONITOR (pi_win p) (pi_clicked p) (pi_any_active p) d in
    Ok ((if w_hidden (pi_win p) then set_monitor 0 (sys_monitor_minimized s) s else s), d, st)
  else Ok (s, d, None).

(** ** The theme mixer *)

(** The values the check boxes and sliders hold after the frame; a widget
    reports a change when its value differs. *)
Record mixer_in := mk_mixer_in {
  xi_panel : panel_in; xi_trans : Z; xi_round : Z;
  xi_bg : Z * Z * Z; xi_win : Z * Z * Z * Z; xi_title : Z * Z * Z * Z; xi_btn : Z * Z * Z * Z;
  xi_label : list Z; xi_save : bool; xi_reload : bool; xi_stack : list Z
}.

Definition set_round (v : Z) (t : theme) : theme :=
  let '(mk_theme a b c d e f g h i j k l m n o p _) := t in mk_theme a b c d e f g h i j k l m n o p v.

(** [changed |= nk_slider_int(...)] *)
Definition slider_moved (new old : Z) : bool := negb (new =? old).

(** One category: the label and its sliders, the fourth only with transparency. *)
Definition category_label (name : string) (t : theme) (rgb : Z * Z * Z) (a : Z) (label_buffer : list Z) : res (list Z) :=
  let '(r, g, b) := rgb in
  x ← (if truth (use_transparency t)
       then mini_snprintf (Some label_buffer) 48 (lit (String.append name " [R:%d G:%d B:%d] Alpha:%d (0-255)")) [VInt r; VInt g; VInt b; VInt a]
       else mini_snprintf (Some label_buffer) 48 (lit (String.append name " [R:%d G:%d B:%d] Opaque")) [VInt r; VInt g; VInt b]);
  Ok (match x.1 with Some b => b | None => [] end).

(** The sliders of a category: new values, old values. *)
Definition sliders (trans : bool) (new : Z * Z * Z * Z) (r g b a : Z) : Z * Z * Z * Z * bool :=
  let '(nr, ng, nb, na) := new in
  (nr, ng, nb, if trans then na else a, slider_moved nr r || slider_moved ng g || slider_moved nb b || (trans && slider_moved na a)).

(** The widgets from the check boxes to the last slider: the theme and
    [changed]. *)
Definition mixer_widgets (i : mixer_in) (t : theme) : res (theme * bool) :=
  let c1 := slider_moved (xi_trans i) (use_transparency t) in
  let t := set_trans (xi_trans i) t in
  let c2 := slider_moved (xi_round i) (round_corners t) in
  let t := set_round (xi_round i) t in
  x ← mini_snprintf (Some (xi_label i)) 48 (lit "Wallpaper [R:%d G:%d B:%d]") [VInt (th_bg_r t); VInt (th_bg_g t); VInt (th_bg_b t)];
  let lb := match x.1 with Some b => b | None => [] end in
  let '(r, g, b) := xi_bg i in
  let c3 := slider_moved r (th_bg_r t) || slider_moved g (th_bg_g t) || slider_moved b (th_bg_b t) in
  let t := set_bg r g b t in
  let trans := truth (use_transparency t) in
  lb ← category_label "UI Window" t (win_r t, win_g t, win_b t) (win_a t) lb;
  let '(r, g, b, a, c4) := sliders trans (xi_win i) (win_r t) (win_g t) (win_b t) (win_a t) in
  let t := set_win r g b a t in
  lb ← category_label "Header Bar" t (title_r t, title_g t, title_b t) (title_a t) lb;
  let '(r, g, b, a, c5) := sliders trans (xi_title i) (title_r t) (title_g t) (title_b t) (title_a t) in
  let t := set_title r g b a t in
  lb ← category_label "Buttons" t (btn_r t, btn_g t, btn_b t) (btn_a t) lb;
  let '(r, g, b, a, c6) := sliders trans (xi_btn i) (btn_r t) (btn_g t) (btn_b t) (btn_a t) in
  let t := set_btn r g b a t in
  Ok (t, c1 || c2 || c3 || c4 || c5 || c6).

(** [if (changed) ...]: wallpaper and style follow the theme. *)
Definition retheme (t : theme) (changed : bool) (ts : theme_state) (style : nk_style) : theme_state * nk_style :=
  if changed then (mk_ts t (th_bg_r t) (th_bg_g t) (th_bg_b t), apply_theme_to_nuklear t)
  else (mk_ts t (bg_r ts) (bg_g ts) (bg_b ts), style).

Section Mixer.
Context {V : Type} `{FatFs V}.

(** The body of the window. *)
Definition mixer_body (i : mixer_in) (ts : theme_state) (style : nk_style) (v : V) : res (theme_state * nk_style * V) :=
  x ← mixer_widgets i (current_theme ts);
  let '(t, changed) := (x : theme * bool) in
  let '(ts, style) := retheme t changed ts style in
  v ← (if xi_save i then theme_save_to_disk (xi_stack i) ts v else Ok v);
  if xi_reload i then
    y ← theme_load_from_disk ts v; Ok (y.1, apply_theme_to_nuklear (current_theme y.1), y.2)
  else Ok (ts, style, v).

Definition theme_mixer (i : mixer_in) (ts : theme_state) (style : nk_style) (v : V) (s : shell) (d : desk)
  : res (theme_state * nk_style * V * shell * desk) :=
  let p := xi_panel i in
  if truth (color_mixer_active s) && negb (truth (color_mixer_minimized s)) then
    x ← (if w_begin (pi_win p) then
           y ← mixer_body i ts style v; Ok (y, set_bounds_mixer (w_bounds (pi_win p)) s)
         else Ok (ts, style, v, s));
    let '(ts, style, v, s) := (x : theme_state * nk_style * V * shell) in
    let d := route_greedy 2 W_MIXER (pi_win p) (pi_clicked p) (pi_any_active p) d in
    Ok (ts, style, v, (if w_hidden (pi_win p) then set_mixer 0 (color_mixer_minimized s) s else s), d)
  else Ok (ts, style, v, s, d).

End Mixer.

(** ** What the monitor shows *)

Lemma until_nul_filled buf str : Forall (fun c => c <> 0) str -> until_nul (filled buf (str ++ [0])) = Some str.
Proof. intros Hs. unfold filled. rewrite <- app_assoc. by apply until_nul_lit. Qed.

Lemma stat_line_ok label v num :
  zlen label = 14 -> Forall (fun c => c <> 0) label -> 0 <= v < 4294967296 -> zlen num = 16 ->
  exists s n, stat_line label v num = Ok (s, n) /\ until_nul s = Some (label ++ decimal v) /\ zlen n = 16.
Proof.
  intros Hl Hz Hv Hn. unfold stat_line. rewrite mini_itoa_filled by lia. rewrite bind_Ok.
  pose proof (decimal_length32 v Hv) as Hd.
  pose proof (put_str_emitted (replicate 32 0) 31 ltac:(cbn; lia) (filled num (decimal v ++ [0])) (decimal v) label
    (until_nul_filled _ _ (decimal_nonzero v)) ltac:(lia)) as He.
  unfold emitted in He. rewrite take_ge in He by (rewrite length_app; lia). rewrite <- Hl, He, bind_Ok. cbn [fst snd].
  rewrite filled_wr by (rewrite length_app; cbn; lia). rewrite bind_Ok. eexists _, _. split; [reflexivity|]. split.
  - apply until_nul_filled, Forall_app. split; [done|apply decimal_nonzero].
  - rewrite filled_length by (rewrite length_app; cbn; lia). done.
Qed.

(** Evaluate a format string against its arguments. *)
Ltac render_format :=
  match goal with |- context [render ?f _] => let b := eval vm_compute in f in change f with b end;
  cbn [render Z.eqb Pos.eqb orb mbind option_bind].

Definition mem_text (pc used : Z) : list Z :=
  bytes "Memory Used: " ++ decimal pc ++ bytes "% (" ++ decimal used ++ bytes " KB / 4096 KB)".

Lemma mem_renders pc used :
  0 <= pc < 2147483648 -> 0 <= used < 2147483648 ->
  render mem_format [VInt pc; VInt used; VInt (get_total_memory / 1024)] = Some (mem_text pc used).
Proof.
  intros Hp Hu. change (get_total_memory / 1024) with 4096. render_format. rewrite !show_nat31 by (unfold nat31; lia).
  cbn [mbind option_bind]. unfold mem_text.
  repeat match goal with |- context [bytes ?s] => let b := eval vm_compute in (bytes s) in change (bytes s) with b end.
  change (decimal 4096) with [52; 48; 57; 54]. cbn [app]. rewrite <- ?app_assoc. reflexivity.
Qed.

Lemma mem_percent_exact used : 0 <= used <= get_total_memory ->
  mem_percent used get_total_memory = used * 100 / get_total_memory /\ 0 <= used * 100 / get_total_memory <= 100.
Proof.
  unfold mem_percent, get_total_memory. intros Hu. rewrite u32_small by lia. cbn [Z.ltb].
  assert (0 <= used * 100 / (4 * 1024 * 1024) <= 100) by dlia.
  change (0 <? 4 * 1024 * 1024) with true. cbv iota zeta. destruct (Z.ltb_spec 100 (used * 100 / (4 * 1024 * 1024))); lia.
Qed.

(** The system monitor shows the truth: for any heap, its lines are
    exactly the tick count, the uptime in seconds and the memory in use in
    percent and in KB (no number is cut and no intermediate value overflows),
    and the progress bar never exceeds 100. *)
Theorem monitor_stats_exact (base t0 t1 : Z) (num_buf mem_buf : list Z) (heap : mm_state) (l : list block) :
  heap_repr base heap l -> 0 <= t0 < 4294967296 -> 0 <= t1 < 4294967296 -> zlen num_buf = 16 -> zlen mem_buf = 64 ->
  exists s, monitor_stats base t0 t1 num_buf mem_buf heap = Ok s /\
    until_nul (ticks_str s) = Some (bytes "System Ticks: " ++ decimal t1) /\
    until_nul (secs_str s) = Some (bytes "Uptime (Sec): " ++ decimal (t0 / 18)) /\
    percent s = a_used l * 100 / get_total_memory /\ 0 <= percent s <= 100 /\
    until_nul (mem_str s) = Some (mem_text (percent s) (a_used l / 1024)).
Proof.
  intros Hr H0 H1 Hn Hm. unfold monitor_stats.
  destruct (stat_line_ok (bytes "System Ticks: ") t1 num_buf eq_refl ltac:(repeat constructor; done) H1 Hn) as (s1 & n1 & -> & E1 & Hn1).
  rewrite bind_Ok. cbn [fst snd].
  destruct (stat_line_ok (bytes "Uptime (Sec): ") (t0 / 18) n1 eq_refl ltac:(repeat constructor; done) ltac:(dlia) Hn1) as (s2 & n2 & -> & E2 & _).
  rewrite bind_Ok. cbn [fst snd]. destruct (used_memory_aux base heap l Hr) as [-> _]. rewrite bind_Ok.
  pose proof Hr as (_ & _ & _ & _ & Ht). destruct (used_plus_free _ _ _ Ht) as [_ Hu].
  assert (0 <= a_used l <= get_total_memory) as Hu' by (unfold get_total_memory, HEAP_BYTES in *; lia).
  destruct (mem_percent_exact _ Hu') as [Ep Bp]. rewrite Ep.
  assert (0 <= a_used l / 1024 <= 4096) as Hk by (unfold get_total_memory in Hu'; dlia).
  rewrite (mini_snprintf_render mem_buf 64 mem_format _ (mem_text (a_used l * 100 / get_total_memory) (a_used l / 1024)))
    by (lia || apply mem_renders; lia). rewrite bind_Ok. cbn [fst].
  eexists. split; [reflexivity|]. cbn [ticks_str secs_str mem_str percent]. split_and!; [done|done|done|lia|lia|].
  pose proof (decimal_length32 (a_used l * 100 / get_total_memory) ltac:(lia)).
  pose proof (decimal_length32 (a_used l / 1024) ltac:(lia)).
  assert (Forall (fun c => c <> 0) (mem_text (a_used l * 100 / get_total_memory) (a_used l / 1024))) as Hnz.
  { unfold mem_text. rewrite !Forall_app. split_and!; try apply decimal_nonzero; by repeat constructor. }
  rewrite take_ge by (unfold mem_text; rewrite !length_app; cbn [length bytes]; cbn; lia). by apply until_nul_filled.
Qed.

Lemma monitor_stats_total base t0 t1 num_buf mem_buf heap l :
  heap_repr base heap l -> 0 <= t0 < 4294967296 -> 0 <= t1 < 4294967296 -> zlen num_buf = 16 -> zlen mem_buf = 64 ->
  exists s, monitor_stats base t0 t1 num_buf mem_buf heap = Ok s.
Proof. intros Hr H0 H1 Hn Hm. destruct (monitor_stats_exact base t0 t1 num_buf mem_buf heap l Hr H0 H1 Hn Hm) as (s & Hs & _). by exists s. Qed.

(** ** The mixer keeps theme, wallpaper and style together *)

(** The drawn wallpaper and Nuklear's style are those of the current theme. *)
Definition in_sync (ts : theme_state) (style : nk_style) : Prop :=
  let t := current_theme ts in
  bg_r ts = th_bg_r t /\ bg_g ts = th_bg_g t /\ bg_b ts = th_bg_b t /\ style = apply_theme_to_nuklear t.

(** The theme the widgets describe: hidden alpha sliders keep their value. *)
Definition mixed (i : mixer_in) (t : theme) : theme :=
  let '(r, g, b) := xi_bg i in
  let '(wr_, wg, wb, wa) := xi_win i in let '(tr, tg, tb, ta) := xi_title i in let '(br, bg, bb, ba) := xi_btn i in
  let alpha new old := if truth (xi_trans i) then new else old in
  mk_theme wr_ wg wb (alpha wa (win_a t)) tr tg tb (alpha ta (title_a t)) br bg bb (alpha ba (btn_a t))
    r g b (xi_trans i) (xi_round i).

Definition quad (P : Z -> Prop) (x : Z * Z * Z * Z) : Prop := let '(r, g, b, a) := x in P r /\ P g /\ P b /\ P a.

(** Check boxes and sliders deliver bytes; the two stack arrays have their sizes. *)
Record mixer_in_ok (i : mixer_in) : Prop := {
  mi_trans : is_byte (xi_trans i);
  mi_bg : let '(r, g, b) := xi_bg i in is_byte r /\ is_byte g /\ is_byte b;
  mi_win : quad is_byte (xi_win i); mi_title : quad is_byte (xi_title i); mi_btn : quad is_byte (xi_btn i);
  mi_label : zlen (xi_label i) = 48; mi_stack : zlen (xi_stack i) = 256
}.

Lemma snprintf_len buf size fmt args out :
  0 < size <= zlen buf -> render fmt args = Some out ->
  exists b n, mini_snprintf (Some buf) size fmt args = Ok (Some b, n) /\ zlen b = zlen buf.
Proof.
  intros Hs Hr. rewrite (mini_snprintf_render buf size fmt args out) by done. eexists _, _. split; [reflexivity|].
  rewrite filled_length; [done|]. rewrite length_app, length_take. cbn. lia.
Qed.

Lemma category_label_ok name t r g b a lb :
  name = "UI Window"%string \/ name = "Header Bar"%string \/ name = "Buttons"%string ->
  nat31 r -> nat31 g -> nat31 b -> nat31 a -> zlen lb = 48 ->
  exists lb', category_label name t (r, g, b) a lb = Ok lb' /\ zlen lb' = 48.
Proof.
  intros Hn Hr Hg Hb Ha Hl. unfold category_label.
  set (f1 := lit (String.append name " [R:%d G:%d B:%d] Alpha:%d (0-255)")).
  set (f2 := lit (String.append name " [R:%d G:%d B:%d] Opaque")).
  assert (exists o, render f1 [VInt r; VInt g; VInt b; VInt a] = Some o) as [o1 E1].
  { unfold f1. destruct Hn as [-> |[-> | ->]]; render_format; rewrite !show_nat31 by done; cbn [mbind option_bind]; eauto. }
  assert (exists o, render f2 [VInt r; VInt g; VInt b] = Some o) as [o2 E2].
  { unfold f2. destruct Hn as [-> |[-> | ->]]; render_format; rewrite !show_nat31 by done; cbn [mbind option_bind]; eauto. }
  destruct (truth _).
  - destruct (snprintf_len lb 48 f1 _ o1 ltac:(lia) E1) as (x & n & -> & Hx). rewrite bind_Ok. cbn [fst]. eauto with lia.
  - destruct (snprintf_len lb 48 f2 _ o2 ltac:(lia) E2) as (x & n & -> & Hx). rewrite bind_Ok. cbn [fst]. eauto with lia.
Qed.

Lemma slider_still a b : slider_moved a b = false -> a = b.
Proof. unfold slider_moved. rewrite negb_false_iff. apply Z.eqb_eq. Qed.

Lemma theme_int_fields t : theme_ints t ->
  (nat31 (use_transparency t) /\ nat31 (win_r t) /\ nat31 (win_g t) /\ nat31 (win_b t) /\ nat31 (win_a t)) /\
  (nat31 (title_r t) /\ nat31 (title_g t) /\ nat31 (title_b t) /\ nat31 (title_a t)) /\
  (nat31 (btn_r t) /\ nat31 (btn_g t) /\ nat31 (btn_b t) /\ nat31 (btn_a t)) /\
  (nat31 (th_bg_r t) /\ nat31 (th_bg_g t) /\ nat31 (th_bg_b t)).
Proof. unfold theme_ints. intros Hv. rewrite !Forall_cons in Hv. tauto. Qed.

Lemma mixed_ints i t : mixer_in_ok i -> theme_ints t -> theme_ints (mixed i t).
Proof.
  intros Hi Ht. destruct (theme_int_fields t Ht) as ((_ & _ & _ & _ & Wa) & (_ & _ & _ & Ta) & (_ & _ & _ & Ba) & _).
  destruct Hi as [Htr Hbg Hw Hti Hbt _ _]. unfold mixed, quad in *.
  destruct (xi_bg i) as [[r g] b], (xi_win i) as [[[w1 w2] w3] w4], (xi_title i) as [[[t1 t2] t3] t4], (xi_btn i) as [[[b1 b2] b3] b4].
  destruct_and!. unfold theme_ints. destruct (truth (xi_trans i)); rewrite !Forall_cons; cbn; split_and!; done || by apply byte_nat31 || apply Forall_nil_2.
Qed.

Lemma mixer_widgets_ok i t :
  mixer_in_ok i -> theme_ints t ->
  exists changed, mixer_widgets i t = Ok (mixed i t, changed).
Proof.
  intros Hi Ht. destruct (theme_int_fields t Ht) as ((W0 & W1 & W2 & W3 & W4) & (T1 & T2 & T3 & T4) & (B1 & B2 & B3 & B4) & (G1 & G2 & G3)).
  destruct Hi as [Htr Hbg Hw Hti Hbt Hlb _]. destruct i as [pnl tr rnd [[r g] b] [[[w1 w2] w3] w4] [[[t1 t2] t3] t4] [[[b1 b2] b3] b4] lb0 sv rl stk].
  destruct t as [a0 a1 a2 a3 a4 a5 a6 a7 a8 a9 a10 a11 a12 a13 a14 a15 a16].
  cbn [xi_trans xi_round xi_bg xi_win xi_title xi_btn xi_label quad use_transparency win_r win_g win_b win_a
    title_r title_g title_b title_a btn_r btn_g btn_b btn_a th_bg_r th_bg_g th_bg_b] in *. destruct_and!.
  assert (exists o, render (lit "Wallpaper [R:%d G:%d B:%d]") [VInt a12; VInt a13; VInt a14] = Some o) as [o Ho].
  { render_format. rewrite !show_nat31 by done. cbn [mbind option_bind]. eauto. }
  unfold mixer_widgets. cbn [xi_trans xi_round xi_bg xi_win xi_title xi_btn xi_label set_trans set_round th_bg_r th_bg_g th_bg_b use_transparency round_corners].
  destruct (snprintf_len lb0 48 _ _ o ltac:(lia) Ho) as (lb & n & -> & Hl). rewrite bind_Ok. cbn [fst set_bg win_r win_g win_b win_a use_transparency].
  destruct (category_label_ok "UI Window" (mk_theme a0 a1 a2 a3 a4 a5 a6 a7 a8 a9 a10 a11 r g b tr rnd) a0 a1 a2 a3 lb) as (l1 & -> & L1); [auto|done|done|done|done|lia|].
  rewrite bind_Ok. cbn [sliders set_win title_r title_g title_b title_a].
  match goal with |- context [category_label "Header Bar" ?t _ _ _] => destruct (category_label_ok "Header Bar" t a4 a5 a6 a7 l1) as (l2 & -> & L2); [auto|done|done|done|done|lia|] end.
  rewrite bind_Ok. cbn [sliders set_title btn_r btn_g btn_b btn_a].
  match goal with |- context [category_label "Buttons" ?t _ _ _] => destruct (category_label_ok "Buttons" t a8 a9 a10 a11 l2) as (l3 & -> & L3); [auto|done|done|done|done|lia|] end.
  rewrite bind_Ok. cbn [sliders set_btn]. eexists. reflexivity.
Qed.

(** A frame of the widgets that returns: nothing changed means the same theme. *)
Lemma mixer_widgets_inv i t t' changed :
  mixer_widgets i t = Ok (t', changed) -> t' = mixed i t /\ (changed = false -> mixed i t = t).
Proof.
  unfold mixer_widgets, mixed.
  destruct i as [pnl tr rnd [[r g] b] [[[w1 w2] w3] w4] [[[t1 t2] t3] t4] [[[b1 b2] b3] b4] lb0 sv rl stk].
  destruct t as [a0 a1 a2 a3 a4 a5 a6 a7 a8 a9 a10 a11 a12 a13 a14 a15 a16].
  cbn [xi_trans xi_round xi_bg xi_win xi_title xi_btn xi_label set_trans set_round set_bg use_transparency round_corners win_r win_g win_b win_a
    th_bg_r th_bg_g th_bg_b title_a btn_a]. intros Hw.
  apply bind_Ok_inv in Hw as (x1 & _ & Hw). apply bind_Ok_inv in Hw as (x2 & _ & Hw). cbn [sliders set_win title_r title_g title_b title_a] in Hw.
  apply bind_Ok_inv in Hw as (x3 & _ & Hw). cbn [sliders set_title btn_r btn_g btn_b btn_a] in Hw.
  apply bind_Ok_inv in Hw as (x4 & _ & Hw). cbn [sliders set_btn] in Hw. injection Hw as <- <-. split; [done|].
  rewrite !orb_false_iff. intros Hc. destruct_and!.
  repeat match goal with H : slider_moved _ _ = false |- _ => apply slider_still in H; subst end.
  destruct (truth _); cbn [andb] in *;
    repeat match goal with H : slider_moved _ _ = false |- _ => apply slider_still in H; subst end; reflexivity.
Qed.

Section MixerBody.
Context {V : Type} `{FatFs V}.

Lemma theme_load_sync ts (v : V) ts' v' :
  theme_load_from_disk ts v = Ok (ts', v') -> in_sync ts' (apply_theme_to_nuklear (current_theme ts')).
Proof.
  unfold theme_load_from_disk. destruct (f_open _ _ _) as [[r h] v1]. intros Hl. apply bind_Ok_inv in Hl as ([t v2] & _ & Hl).
  injection Hl as <- _. done.
Qed.

Lemma theme_save_ok wb ts (v : V) : theme_ints (current_theme ts) -> zlen wb = 256 -> exists v', theme_save_to_disk wb ts v = Ok v'.
Proof.
  intros Ht Hw. unfold theme_save_to_disk.
  destruct (snprintf_len wb 256 _ _ _ ltac:(lia) (theme_renders _ Ht)) as (b & n & -> & _). rewrite bind_Ok. cbn [fst snd].
  destruct (f_open _ _ _) as [[r h] v1]. destruct (_ =? _); [|eauto]. destruct (f_write _ _ _) as [[r2 n2] v2]. eauto.
Qed.

Lemma retheme_sync t changed ts style :
  in_sync ts style -> (changed = false -> t = current_theme ts) -> in_sync (retheme t changed ts style).1 (retheme t changed ts style).2.
Proof.
  intros Hs Hsame. unfold retheme. destruct changed; cbn [fst snd]; [repeat split|].
  unfold in_sync. cbn [current_theme bg_r bg_g bg_b]. rewrite Hsame by done. exact Hs.
Qed.

#[local] Opaque mixer_widgets.

Lemma mixer_body_sync i ts style (v : V) ts' style' v' :
  in_sync ts style -> mixer_body i ts style v = Ok (ts', style', v') -> in_sync ts' style'.
Proof.
  intros Hs Hb. unfold mixer_body in Hb. apply bind_Ok_inv in Hb as ([t changed] & Hw & Hb).
  assert (changed = false -> t = current_theme ts) as Hsame by (destruct (mixer_widgets_inv _ _ _ _ Hw) as [-> Hsame]; exact Hsame).
  clear Hw. cbv beta iota in Hb. pose proof (retheme_sync t changed ts style Hs Hsame) as S1.
  destruct (retheme t changed ts style) as [ts1 st1]. cbn [fst snd] in S1.
  apply bind_Ok_inv in Hb as (v1 & _ & Hb). destruct (xi_reload i); [|by injection Hb as <- <- _].
  apply bind_Ok_inv in Hb as ([ts2 v2] & Hl & Hb). injection Hb as <- <- _. by eapply theme_load_sync.
Qed.

(** The mixer keeps the desktop consistent: whatever the user does in a
    frame, the theme afterwards is the one the widgets describe (a hidden
    alpha slider keeps its value) and the wallpaper colour and Nuklear's style
    are those of that theme; the frame always returns unless the theme is
    reloaded, and after a reload the style is that of the loaded theme. *)
Theorem mixer_in_sync (i : mixer_in) (ts : theme_state) (style : nk_style) (v : V) :
  mixer_in_ok i -> theme_ints (current_theme ts) -> in_sync ts style ->
  (xi_reload i = false ->
   exists ts' style' v', mixer_body i ts style v = Ok (ts', style', v') /\
     current_theme ts' = mixed i (current_theme ts) /\ theme_ints (current_theme ts') /\ in_sync ts' style' /\
     (xi_save i = false -> v' = v)) /\
  (forall ts' style' v', mixer_body i ts style v = Ok (ts', style', v') -> in_sync ts' style').
Proof.
  intros Hi Ht Hs. split; [|intros ts' style' v'; by apply mixer_body_sync].
  intros Hrl. destruct (mixer_widgets_ok i _ Hi Ht) as (changed & Hw). pose proof (mixed_ints i _ Hi Ht) as Hm.
  assert (exists ts' style' v', mixer_body i ts style v = Ok (ts', style', v') /\
    current_theme ts' = mixed i (current_theme ts) /\ (xi_save i = false -> v' = v)) as (ts' & style' & v' & Hb & Hc & Hv).
  { unfold mixer_body. rewrite Hw, bind_Ok, Hrl. cbv beta iota.
    assert (current_theme (retheme (mixed i (current_theme ts)) changed ts style).1 = mixed i (current_theme ts)) as Ez by (by destruct changed).
    destruct (retheme _ changed ts style) as [ts1 st1]. cbn [fst] in Ez.
    destruct (xi_save i).
    - destruct (theme_save_ok (xi_stack i) ts1 v) as (v' & ->); [by rewrite Ez|apply Hi|]. rewrite bind_Ok. by exists ts1, st1, v'.
    - rewrite bind_Ok. by exists ts1, st1, v. }
  exists ts', style', v'. split; [done|]. split; [done|]. split; [by rewrite Hc|]. split; [by eapply mixer_body_sync|done].
Qed.

End MixerBody.

(** ** Frames of the two windows *)

(** Readings of the timer and the arrays of the monitor. *)
Record sysmon_in_ok (i : sysmon_in) : Prop := {
  so_t0 : 0 <= si_t0 i < 4294967296; so_t1 : 0 <= si_t1 i < 4294967296; so_num : zlen (si_num i) = 16; so_mem : zlen (si_mem i) = 64
}.

Lemma monitor_returns base i heap l s d :
  sysmon_in_ok i -> heap_repr base heap l -> exists s' d' st, sys_monitor base i heap s d = Ok (s', d', st).
Proof.
  intros [H0 H1 Hn Hm] Hr. unfold sys_monitor. destruct (_ && _); [|by eexists _, _, _]. destruct (w_begin _); [|rewrite bind_Ok; by eexists _, _, _].
  destruct (monitor_stats_total base (si_t0 i) (si_t1 i) (si_num i) (si_mem i) heap l Hr H0 H1 Hn Hm) as (st & ->).
  rewrite !bind_Ok. by eexists _, _, _.
Qed.

Section MixerFrame.
Context {V : Type} `{FatFsLaws V}.
#[local] Set Default Proof Using "Type*".

(** The mixer runs and its theme is reloaded from a file, as the preceding
    save left it, that holds a number too large for an [int]. *)
Definition bad_reload (i : mixer_in) (ts : theme_state) (v : V) (s : shell) : Prop :=
  truth (color_mixer_active s) = true /\ truth (color_mixer_minimized s) = false /\ w_begin (pi_win (xi_panel i)) = true /\ xi_reload i = true /\
  exists v1, (if xi_save i then exists ts1, current_theme ts1 = mixed i (current_theme ts) /\ theme_save_to_disk (xi_stack i) ts1 v = Ok v1
              else v1 = v) /\ long_number (conf_data v1).

#[local] Opaque mixer_widgets.

Lemma mixer_body_cases i ts style (v : V) :
  mixer_in_ok i -> theme_ints (current_theme ts) ->
  (exists ts' style' v', mixer_body i ts style v = Ok (ts', style', v') /\ theme_ints (current_theme ts')) \/
  (mixer_body i ts style v = Fault /\ xi_reload i = true /\
   exists v1, (if xi_save i then exists ts1, current_theme ts1 = mixed i (current_theme ts) /\ theme_save_to_disk (xi_stack i) ts1 v = Ok v1
               else v1 = v) /\ long_number (conf_data v1)).
Proof.
  intros Hi Ht. destruct (mixer_widgets_ok i _ Hi Ht) as (changed & Hw). pose proof (mixed_ints i _ Hi Ht) as Hm.
  unfold mixer_body. rewrite Hw, bind_Ok. cbv beta iota.
  assert (current_theme (retheme (mixed i (current_theme ts)) changed ts style).1 = mixed i (current_theme ts)) as Ez by (by destruct changed).
  destruct (retheme _ changed ts style) as [ts1 st1]. cbn [fst] in Ez.
  assert (exists v1, (if xi_save i then theme_save_to_disk (xi_stack i) ts1 v else Ok v) = Ok v1 /\
    (if xi_save i then exists ts1, current_theme ts1 = mixed i (current_theme ts) /\ theme_save_to_disk (xi_stack i) ts1 v = Ok v1 else v1 = v)) as (v1 & -> & Hsave).
  { destruct (xi_save i); [|by exists v]. destruct (theme_save_ok (xi_stack i) ts1 v) as (v1 & Hv); [by rewrite Ez|apply Hi|].
    exists v1. split; [done|]. by exists ts1. }
  rewrite bind_Ok. destruct (xi_reload i); [|left; eexists _, _, _; split; [reflexivity|by rewrite Ez]].
  destruct (theme_load_cases ts1 v1) as [(t & v2 & -> & Hti)|[-> Hl]].
  - rewrite bind_Ok. left. eexists _, _, _. split; [reflexivity|done].
  - right. split; [done|]. split; [done|]. by exists v1.
Qed.

Lemma mixer_cases i ts style (v : V) s d :
  mixer_in_ok i -> theme_ints (current_theme ts) ->
  (exists ts' style' v' s' d', theme_mixer i ts style v s d = Ok (ts', style', v', s', d') /\ theme_ints (current_theme ts')) \/
  (theme_mixer i ts style v s d = Fault /\ bad_reload i ts v s).
Proof.
  intros Hi Ht. unfold theme_mixer, bad_reload. destruct (truth (color_mixer_active s)); cbn [andb]; [|left; by eexists _, _, _, _, _].
  destruct (truth (color_mixer_minimized s)); cbn [negb]; [left; by eexists _, _, _, _, _|].
  destruct (w_begin _); [|rewrite bind_Ok; left; by eexists _, _, _, _, _].
  destruct (mixer_body_cases i ts style v Hi Ht) as [(ts1 & st1 & v1 & -> & H1)|(-> & Hr & Hv)]; [|by right].
  rewrite !bind_Ok. cbv beta iota. left. by eexists _, _, _, _, _.
Qed.

End MixerFrame.

(** ** Witnesses *)

Lemma monitor_stats_exact_witness :
  exists s, monitor_stats w_base 36 37 (replicate 16 9) (replicate 64 9) w_heap = Ok s /\
    until_nul (ticks_str s) = Some (bytes "System Ticks: 37") /\ until_nul (secs_str s) = Some (bytes "Uptime (Sec): 2") /\
    until_nul (mem_str s) = Some (bytes "Memory Used: 0% (0 KB / 4096 KB)").
Proof.
  destruct (monitor_stats_exact w_base 36 37 (replicate 16 9) (replicate 64 9) w_heap w_blocks)
    as (s & Hr & Ht & Hs & Hp & _ & Hm).
  - exact w_heap_repr.
  - lia.
  - lia.
  - reflexivity.
  - reflexivity.
  - exists s. split; [exact Hr|]. rewrite Ht, Hs, Hm, Hp. vm_compute. auto.
Defined.

Definition demo_mixer : mixer_in :=
  mk_mixer_in (mk_panel_in (mk_win true (mk_rect 0 0 1 1) true true false) 0 false) 0 1 (1, 2, 3) (4, 5, 6, 7)
    (8, 9, 10, 11) (12, 13, 14, 15) (replicate 48 7) true false (replicate (Z.to_nat 256) 7).

Lemma demo_mixer_ok : mixer_in_ok demo_mixer.
Proof. split; cbn [demo_mixer xi_trans xi_bg xi_win xi_title xi_btn xi_label xi_stack quad]; unfold is_byte; rewrite ?length_replicate; lia. Qed.

Lemma demo_theme_ints : theme_ints (current_theme demo_theme).
Proof. unfold theme_ints. cbn. repeat (constructor; [unfold nat31; lia|]). constructor. Qed.

Lemma mixer_in_sync_witness :
  exists ts' style' v', mixer_body demo_mixer (mk_ts (current_theme demo_theme) 13 0 15)
      (apply_theme_to_nuklear (current_theme demo_theme)) (mk_memfs ∅ ∅ 0) = Ok (ts', style', v') /\
    win_a (current_theme ts') = 4 /\ bg_b ts' = 3.
Proof.
  destruct (proj1 (mixer_in_sync demo_mixer (mk_ts (current_theme demo_theme) 13 0 15)
    (apply_theme_to_nuklear (current_theme demo_theme)) (mk_memfs ∅ ∅ 0) demo_mixer_ok
    demo_theme_ints ltac:(repeat split))) as (ts' & style' & v' & Hr & Ht & _ & (_ & _ & Hb & _) & _).
  - reflexivity.
  - exists ts', style', v'. split; [exact Hr|]. rewrite Hb, Ht. split; reflexivity.
Defined.
