(* ===== verification/Desktop.v ===== *)
(** * Desktop: one frame of the main loop (kernel.c)

    The frame runs the launcher, clears the back buffer, serves the network,
    reads the keyboard, runs the taskbar, the start menu and all windows,
    replays Nuklear's drawing commands, draws the cursors and copies the back
    buffer to the screen. What the outside contributes to a frame (timer
    readings, mouse, Nuklear's answers and its command list, replies of the
    network stack) is the record [frame_in]. The second half has the invariant
    of the whole desktop, the cases in which a frame does not return, and the
    theorem that all others keep the invariant. *)

From Stdlib Require Import ZArith Lia Bool String.
From stdpp Require Import base list.
From S2P Require Import Prelude CLib Mm Hw Irq Gfx Render Nic Fs Cursor Theme NetMon Ui Explorer Edit Image View Shutdown Shell Panels.
From stdpp Require Import options.
Import Irq.Keyboard.

(** ** Drawing *)

(** [current_bg_color] and the loops that fill the back buffer. *)
Definition fill_background (gfx_width gfx_height : Z) (ts : theme_state) (back_buffer : list Z) : res (list Z) :=
  let back_pitch := u32 (gfx_width * 4) in
  let current_bg_color := u32 (pack (bg_r ts) (bg_g ts) (bg_b ts)) in
  for_rect 0 0 gfx_width gfx_height (fun x y bb => putpixel bb x y current_bg_color back_pitch) back_buffer.

(** [gfx_framebuffer[y * (gfx_pitch/4) + x] = back_buffer[y * gfx_width + x]] *)
Definition present (gfx_width gfx_height gfx_pitch : Z) (back_buffer gfx_framebuffer : list Z) : res (list Z) :=
  for_rect 0 0 gfx_width gfx_height (fun x y fb =>
    p ← rd back_buffer (u32 (u32 (y * gfx_width) + x)); wr fb (u32 (u32 (y * (gfx_pitch / 4)) + x)) p) gfx_framebuffer.

Section Draw.
Context {F : Type} {FO : FloatOps F}.
Context (gfx_width gfx_height : Z).

(** The drawing on the cleared back buffer: commands, cursor, animated cursor. *)
Definition paint (header_r header_g : Z) (cmds : list nk_command) (tick mouse_x mouse_y : Z)
    (c : cursor) (a : ani) (back_buffer : list Z) : res (ani * list Z) :=
  x ← nk_os_render_target gfx_width gfx_height header_r header_g cmds back_buffer;
  bb ← draw_custom_cursor gfx_width gfx_height mouse_x mouse_y c x.2;
  y ← ani_update tick a;
  bb ← ani_draw gfx_width gfx_height mouse_x mouse_y y.2 bb;
  Ok (y.2, bb).

End Draw.

(** ** The network in a frame *)

(** Calls into lwIP made by the main loop. *)
Class LwIPLoop (N : Type) := {
  sys_check_timeouts : N -> N;
  dhcp_supplied_address : N -> bool
}.

Record net (D N : Type) := mk_net {
  n_nic : nic_state D; n_stack : N; n_rx : list Z; n_if : netif; dhcp_logged : Z; n_mon : monitor
}.
Arguments mk_net {D N} _ _ _ _ _ _.
Arguments n_nic {D N} _.
Arguments n_stack {D N} _.
Arguments n_rx {D N} _.
Arguments n_if {D N} _.
Arguments dhcp_logged {D N} _.
Arguments n_mon {D N} _.

Section Network.
Context {D N : Type} `{Ports D} `{LwIP N} `{LwIPLoop N}.

(** ICMP packets the stack hands to [ping_recv_cb] meanwhile, as length and type. *)
Definition replies (ps : list (Z * Z)) (m : monitor) : monitor :=
  fold_left (fun m p => ping_recv_cb p.1 p.2 m) ps m.

(** [netif_driver_poll(&my_netif); sys_check_timeouts();] *)
Definition poll_network (fuel : nat) (ps : list (Z * Z)) (n : net D N) : res (net D N) :=
  x ← netif_driver_poll fuel (n_rx n) (n_stack n) (n_nic n);
  let '((rx, st), nic) := (x : (list Z * N) * nic_state D) in
  Ok (mk_net nic (sys_check_timeouts st) rx (n_if n) (dhcp_logged n) (replies ps (n_mon n))).

(** The block guarded by the link state. *)
Definition network_step (fuel : nat) (tick : Z) (alloc_ok : bool) (ps : list (Z * Z)) (n : net D N) : res (net D N) :=
  if truth (Z.land (nif_flags (n_if n)) 4) then
    n ← poll_network fuel ps n;
    let logged := if negb (truth (dhcp_logged n)) && dhcp_supplied_address (n_stack n) then 1 else dhcp_logged n in
    Ok (mk_net (n_nic n) (n_stack n) (n_rx n) (n_if n) logged (update_network_monitor tick alloc_ok (n_mon n)))
  else Ok n.

End Network.

(** ** The whole frame *)

Record frame_in := mk_frame_in {
  (** readings of [timer_ticks]: three by the launcher, one by the network
      monitor, one by [ani_update] *)
  fi_t0 : Z; fi_t1 : Z; fi_t2 : Z; fi_tnet : Z; fi_tani : Z;
  fi_alloc : bool; fi_replies : list (Z * Z); fi_replies' : list (Z * Z);
  fi_mouse_x : Z; fi_mouse_y : Z; fi_clicked : Z;
  fi_tb : tb_in; fi_sm : sm_in; fi_sys : sysmon_in; fi_mix : mixer_in; fi_ex : ex_in; fi_ed : ed_in; fi_vw : vw_in;
  (** the command list Nuklear leaves for this frame *)
  fi_cmds : list nk_command
}.

Record desktop (V D N : Type) := mk_desktop {
  k_apps : apps; k_theme : theme_state; k_style : nk_style; k_world : world V; k_desk : desk; k_kbd : kbd;
  k_net : net D N; k_cursor : cursor; back_buffer : list Z; k_screen : list Z
}.
Arguments mk_desktop {V D N} _ _ _ _ _ _ _ _ _ _.
Arguments k_apps {V D N} _.
Arguments k_theme {V D N} _.
Arguments k_style {V D N} _.
Arguments k_world {V D N} _.
Arguments k_desk {V D N} _.
Arguments k_kbd {V D N} _.
Arguments k_net {V D N} _.
Arguments k_cursor {V D N} _.
Arguments back_buffer {V D N} _.
Arguments k_screen {V D N} _.

(** How a frame ends. *)
Inductive frame_out (V D N : Type) := Running (keys : list key_event) (k : desktop V D N) | Restarted | Halted (h : halted V).
Arguments Running {V D N} _ _.
Arguments Restarted {V D N}.
Arguments Halted {V D N} _.

Section Frame.
Context {V D N F : Type} `{FatFs V} `{Decoder} `{Ports D} `{LwIP N} `{LwIPLoop N} {FO : FloatOps F}.
(** Heap address, fresh heap words, fuel of the device and directory loops,
    and the video mode. *)
Context (base : Z) (fresh : Z -> Z -> list Z) (fuel : nat) (gfx_width gfx_height gfx_pitch : Z).

(** The windows after the start menu, in the order of the loop. *)
Definition windows (i : frame_in) (k : desktop V D N) : res (desktop V D N) :=
  let a := k_apps k in let w := k_world k in
  x ← sys_monitor base (fi_sys i) (w_heap_st w) (a_shell a) (k_desk k);
  let '(s, d, _) := (x : shell * desk * option stats) in
  x ← theme_mixer (fi_mix i) (k_theme k) (k_style k) (w_vol w) s d;
  let '(ts, style, v, s, d) := (x : theme_state * nk_style * V * shell * desk) in
  o ← render_file_explorer fuel (fi_ex i) (a_explorer a) d v;
  x ← render_naoedit (fi_ed i) (a_editor a) (o_desk o) (o_vol o);
  let '(ed, d, v) := (x : editor * desk * V) in
  x ← render_naoview base fresh (fi_vw i) (a_view a) (mk_world (w_heap_st w) (w_stb w) v) d;
  let '(vw, w, d) := (x : view * world V * desk) in
  Ok (mk_desktop (mk_apps s (o_st o) ed vw) ts style w d (k_kbd k) (k_net k) (k_cursor k) (back_buffer k) (k_screen k)).

(** From the replay of the commands to the end of the frame. *)
Definition finish_frame (i : frame_in) (k : desktop V D N) : res (desktop V D N) :=
  let a := k_apps k in
  x ← paint gfx_width gfx_height (c_r (header_normal (k_style k))) (c_g (header_normal (k_style k)))
        (fi_cmds i) (fi_tani i) (fi_mouse_x i) (fi_mouse_y i) (k_cursor k) (ed_ani (a_editor a)) (back_buffer k);
  let '(an, bb) := (x : ani * list Z) in
  n ← poll_network fuel (fi_replies' i) (k_net k);
  fb ← present gfx_width gfx_height gfx_pitch bb (k_screen k);
  Ok (mk_desktop (set_editor (Edit.set_ani an (a_editor a)) a) (k_theme k) (k_style k) (k_world k) (k_desk k) (k_kbd k) n
        (k_cursor k) bb fb).

Definition desktop_frame (i : frame_in) (k : desktop V D N) : res (frame_out V D N) :=
  let '(a, d) := launch_handler (fi_t0 i) (fi_t1 i) (fi_t2 i) (k_apps k) (k_desk k) in
  bb ← fill_background gfx_width gfx_height (k_theme k) (back_buffer k);
  n ← network_step fuel (fi_tnet i) (fi_alloc i) (fi_replies i) (k_net k);
  x ← drain_keys 32 (k_kbd k);
  let '(keys, kb) := (x : list key_event * kbd) in
  let d := drop_lock (fi_clicked i) d in
  let a := taskbar (fi_tb i) a in
  match start_menu (fi_sm i) (a_shell a) with
  | Restart => Ok Restarted
  | Shutdown =>
      h ← sys_shutdown base gfx_width gfx_height (k_screen k) (w_heap_st (k_world k)) (w_stb (k_world k)) (w_vol (k_world k));
      Ok (Halted h)
  | Stay s =>
      k ← windows i (mk_desktop (set_shell s a) (k_theme k) (k_style k) (k_world k) d kb n (k_cursor k) bb (k_screen k));
      k ← finish_frame i k;
      Ok (Running keys k)
  end.

End Frame.

(** ** What a frame puts on the screen *)

Lemma present_ok W H P bb fb pitch :
  screen_ok W H -> screen_ok P H -> W <= P -> pitch / 4 = P -> W * H <= zlen bb -> P * H <= zlen fb ->
  exists fb', present W H pitch bb fb = Ok fb' /\ length fb' = length fb /\
    (forall x y, 0 <= x < P -> 0 <= y < H -> pix P fb' x y = if x <? W then pix W bb x y else pix P fb x y) /\
    (forall i, P * H <= i -> get fb' i = get fb i).
Proof.
  intros HS HP HW Hp Hbb Hfb. unfold present. rewrite Hp. pose proof HS as (W0 & H0 & _).
  destruct (for_rect_painted P H (in_rect 0 0 W H) (fun x y _ => pix W bb x y)
    (fun x y fb => p ← rd bb (u32 (u32 (y * W) + x)); wr fb (u32 (u32 (y * P) + x)) p) 0 0 W H fb) as (fb' & Hr & Hl & Hq & Ho).
  - intros x y f HR Hf. rewrite HR. unfold in_rect in HR. rewrite !andb_true_iff in HR.
    destruct (screen_index W H x y HS ltac:(lia) ltac:(lia)) as [-> _]. destruct (screen_index P H x y HP ltac:(lia) ltac:(lia)) as [-> _].
    pose proof (pix_index_bound W H x y ltac:(lia) ltac:(lia)). pose proof (pix_index_bound P H x y ltac:(lia) ltac:(lia)).
    rewrite rd_in, bind_Ok by lia. apply wr_in. lia.
  - intros x y HR. unfold in_rect in HR. rewrite !andb_true_iff in HR. lia.
  - done.
  - exists fb'. split; [done|]. split; [done|]. split; [|done]. intros x y Hx Hy. rewrite Hq by done. rewrite andb_diag.
    replace (in_rect 0 0 W H x y) with (x <? W); [done|]. unfold in_rect. zcases; cbn; done || lia.
Qed.

(** The colour of the wallpaper. *)
Definition wallpaper (ts : theme_state) : Z := u32 (pack (bg_r ts) (bg_g ts) (bg_b ts)).

Lemma fill_ok W H ts bb :
  screen_ok W H -> W * H <= zlen bb ->
  exists bb', fill_background W H ts bb = Ok bb' /\ length bb' = length bb /\
    (forall x y, 0 <= x < W -> 0 <= y < H -> pix W bb' x y = wallpaper ts).
Proof.
  intros HS Hbb. unfold fill_background. cbv zeta. fold (wallpaper ts). pose proof HS as (W0 & H0 & _).
  destruct (for_rect_painted W H (in_rect 0 0 W H) (fun _ _ _ => wallpaper ts)
    (fun x y bb => putpixel bb x y (wallpaper ts) (u32 (W * 4))) 0 0 W H bb) as (bb' & Hr & Hl & Hp & _).
  - intros x y f HR Hf. rewrite HR. unfold in_rect in HR. rewrite !andb_true_iff in HR. apply putpixel_screen with (H := H); lia || done.
  - intros x y HR. unfold in_rect in HR. rewrite !andb_true_iff in HR. lia.
  - done.
  - exists bb'. split; [done|]. split; [done|]. intros x y Hx Hy. rewrite Hp, andb_diag by done.
    replace (in_rect 0 0 W H x y) with true; [done|]. unfold in_rect. symmetry. rewrite !andb_true_iff. lia.
Qed.

(** The body of the cursor loop. *)
Definition cursor_body (W H : Z) (c : cursor) (sx sy x y : Z) (bb : list Z) : res (list Z) :=
  let scr_x := i32 (sx + x) in let scr_y := i32 (sy + y) in
  if (scr_x <? 0) || (i32 W <=? scr_x) || (scr_y <? 0) || (i32 H <=? scr_y) then Ok bb
  else
    let bmp_y := u32 (c_height c - 1 - y) in let idx := u32 (u32 (bmp_y * c_width c + x) * 4) in
    b ← rd (cursor_pixels c) idx; g ← rd (cursor_pixels c) (idx + 1);
    r ← rd (cursor_pixels c) (idx + 2); a ← rd (cursor_pixels c) (idx + 3);
    if see_through b g r a then Ok bb else wr bb (scr_y * i32 W + scr_x) (pack r g b).

Lemma cursor_body_framed W H c sx sy x y :
  screen_ok W H -> cursor_ok c -> -131072 <= sx < 131072 -> -131072 <= sy < 131072 -> 0 <= x < c_width c -> 0 <= y < c_height c ->
  framed W H (in_rect sx sy (c_width c) (c_height c)) (cursor_body W H c sx sy x y).
Proof.
  intros HS [Hw Hh Hl _ _] Hsx Hsy Hx Hy g Hg. pose proof HS as (W0 & H0 & _). unfold cursor_body. cbv zeta.
  rewrite (i32_small (sx + x)), (i32_small (sy + y)), (i32_small W), (i32_small H) by lia.
  destruct (_ || _) eqn:E; [exists g; split; [done|apply frame_refl]|]. rewrite !orb_false_iff, !Z.ltb_ge, !Z.leb_gt in E.
  pose proof (pix_index_bound (c_width c) (c_height c) x (c_height c - 1 - y) ltac:(lia) ltac:(lia)).
  pose proof (Z.mul_le_mono_nonneg (c_width c) 256 (c_height c) 256 ltac:(lia) ltac:(lia) ltac:(lia) ltac:(lia)).
  rewrite (u32_small (c_height c - 1 - y)) by lia. set (k := (c_height c - 1 - y) * c_width c + x) in *.
  rewrite (u32_small k), (u32_small (k * 4)) by lia.
  rewrite (rd_in (cursor_pixels c) (k * 4)), bind_Ok by lia. rewrite (rd_in (cursor_pixels c) (k * 4 + 1)), bind_Ok by lia.
  rewrite (rd_in (cursor_pixels c) (k * 4 + 2)), bind_Ok by lia. rewrite (rd_in (cursor_pixels c) (k * 4 + 3)), bind_Ok by lia.
  destruct (see_through _ _ _ _); [exists g; split; [done|apply frame_refl]|].
  pose proof (pix_index_bound W H (sx + x) (sy + y) ltac:(lia) ltac:(lia)).
  rewrite wr_in by lia. eexists. split; [reflexivity|]. split; [by rewrite length_insert|]. split.
  - intros px py Hpx Hpy HR. unfold pix. apply get_insert_ne; [lia|apply (pix_index_bound W H px py Hpx Hpy)|]. intros Heq.
    destruct (pix_index_inj W (sx + x) (sy + y) px py ltac:(lia) ltac:(lia) ltac:(lia)) as [<- <-].
    unfold in_rect in HR. revert HR. zcases; cbn; done || lia.
  - intros i Hi. apply get_insert_ne; lia.
Qed.

(** The static cursor changes only its own rectangle. *)
Lemma cursor_framed W H mx my c :
  screen_ok W H -> cursor_ok c -> -32768 <= mx < 32768 -> -32768 <= my < 32768 ->
  framed W H (in_rect (mx - hotspot_x c) (my - hotspot_y c) (c_width c) (c_height c)) (draw_custom_cursor W H mx my c).
Proof.
  intros HS Hc Hmx Hmy fb Hfb. pose proof Hc as [Hw Hh _ Hx Hy]. unfold draw_custom_cursor.
  destruct (Z.eqb_spec (c_width c) 0); [lia|]. destruct (Z.eqb_spec (c_height c) 0); [lia|]. cbn [orb]. cbv iota.
  set (sx := mx - hotspot_x c). set (sy := my - hotspot_y c).
  change (exists fb', for_rect 0 0 (c_width c) (c_height c) (cursor_body W H c sx sy) fb = Ok fb' /\
    frame W H (in_rect sx sy (c_width c) (c_height c)) fb fb').
  unfold for_rect.
  destruct (for_up_inv (fun _ f => frame W H (in_rect sx sy (c_width c) (c_height c)) fb f) (Z.to_nat (c_height c)) 0
    (fun y f => for_up (Z.to_nat (c_width c)) 0 (fun x f => cursor_body W H c sx sy x y f) f) fb) as (fb' & Hr & HI);
    [|apply frame_refl|by exists fb'].
  intros y f Hy1 Hf. destruct (for_up_inv (fun _ g => frame W H (in_rect sx sy (c_width c) (c_height c)) fb g) (Z.to_nat (c_width c)) 0
    (fun x f => cursor_body W H c sx sy x y f) f) as (g & Hg & HIg); [|done|by exists g].
  intros x g Hx1 Hg. destruct (cursor_body_framed W H c sx sy x y HS Hc ltac:(lia) ltac:(lia) ltac:(lia) ltac:(lia) g) as (g' & -> & Hg');
    [by rewrite (proj1 Hg)|]. exists g'. split; [done|]. by apply (frame_trans _ _ _ _ g).
Qed.

(** Where the frames of a playing animation may draw. *)
Definition ani_region (a : ani) (mx my x y : Z) : bool :=
  ani_active a && existsb (fun f => in_rect (mx - f_hotspot_x f) (my - f_hotspot_y f) (f_width f) (f_height f) x y) (ani_frames a).

Lemma ani_framed W H tick mx my a :
  screen_ok W H -> ani_loaded a -> -32768 <= mx < 32768 -> -32768 <= my < 32768 ->
  exists r a', ani_update tick a = Ok (r, a') /\ framed W H (ani_region a mx my) (ani_draw W H mx my a').
Proof.
  intros HS [Ha Hf] Hmx Hmy. pose proof (ao_count a Ha) as Hc.
  destruct (negb (ani_active a) || (ani_frame_count a =? 0)) eqn:E.
  - exists 0, a. split; [unfold ani_update; by rewrite E|]. intros fb _. exists fb. split; [unfold ani_draw; by rewrite E|apply frame_refl].
  - apply orb_false_iff in E as [E1 E2]. apply negb_false_iff in E1. apply Z.eqb_neq in E2.
    destruct (ani_update_aux a tick Ha E1 ltac:(lia)) as (i & Hi & Hu & _). eexists _, _. split; [exact Hu|]. intros fb Hfb.
    destruct (lookup_lt_is_Some_2 (ani_frames a) i) as [f Ef]; [pose proof (ao_frames a Ha); lia|].
    pose proof (Hf i f Ef ltac:(lia)) as Hok. pose proof Hok as [Hw Hh _ Hhx Hhy].
    unfold ani_draw. cbn [ani_active ani_frame_count ani_frames ani_current_frame negb orb].
    destruct (Z.eqb_spec (ani_frame_count a) 0); [lia|]. rewrite Nat2Z.id, Ef. cbn [or_fault]. rewrite bind_Ok.
    destruct (Z.eqb_spec (f_width f) 0); [lia|]. destruct (Z.eqb_spec (f_height f) 0); [lia|]. cbn [orb].
    destruct (draw_frame_painted W H f (mx - f_hotspot_x f) (my - f_hotspot_y f) fb HS Hfb Hok ltac:(lia) ltac:(lia)) as (fb' & Hr & Hl & Hp & Ho).
    exists fb'. split; [done|]. split; [done|]. split; [|done]. intros x y Hx Hy HR. rewrite Hp by done.
    unfold ani_region in HR. rewrite E1 in HR. cbn [andb] in HR.
    assert (in_rect (mx - f_hotspot_x f) (my - f_hotspot_y f) (f_width f) (f_height f) x y = false) as ->; [|done].
    apply not_true_iff_false. intros Ht. apply not_true_iff_false in HR. apply HR. apply existsb_exists.
    exists f. split; [|done]. apply list_elem_of_In. by eapply list_elem_of_lookup_2.
Qed.

(** The pixels something may be drawn on in a frame. *)
Definition covered (W H : Z) (cmds : list nk_command) (c : cursor) (a : ani) (mx my x y : Z) : bool :=
  visible (mk_scissor 0 0 W H) cmds x y ||
  in_rect (mx - hotspot_x c) (my - hotspot_y c) (c_width c) (c_height c) x y || ani_region a mx my x y.

(** C6: what a frame shows: clearing, replaying any well-formed command list,
    drawing both cursors and presenting all return without an access outside
    the buffers; then the visible screen equals the back buffer pixel for
    pixel, whatever the line pitch, the words between the end of a line and
    the pitch are untouched, and a pixel under no clip rectangle and no cursor
    has the wallpaper colour. *)
Theorem frame_screen_exact {F : Type} {FO : FloatOps F} (W H P pitch hr hg tick mx my : Z) (cmds : list nk_command)
    (ts : theme_state) (c : cursor) (a : ani) (bb fb : list Z) :
  screen_ok W H -> screen_ok P H -> W <= P -> pitch / 4 = P -> W * H <= zlen bb -> P * H <= zlen fb ->
  forallb command_ok cmds = true -> cursor_ok c -> ani_loaded a -> -32768 <= mx < 32768 -> -32768 <= my < 32768 ->
  exists bb1 a' bb2 fb', fill_background W H ts bb = Ok bb1 /\ paint W H hr hg cmds tick mx my c a bb1 = Ok (a', bb2) /\
    present W H pitch bb2 fb = Ok fb' /\ length fb' = length fb /\
    (forall x y, 0 <= x < P -> 0 <= y < H -> pix P fb' x y = if x <? W then pix W bb2 x y else pix P fb x y) /\
    (forall x y, 0 <= x < W -> 0 <= y < H -> covered W H cmds c a mx my x y = false -> pix P fb' x y = wallpaper ts).
Proof.
  intros HS HP HW Hp Hbb Hfb Hcmds Hcur Hani Hmx Hmy. destruct (fill_ok W H ts bb HS Hbb) as (bb1 & Hfill & L1 & P1).
  destruct (render_target_aux W H hr hg cmds bb1 HS ltac:(by rewrite L1) Hcmds) as (s' & b2 & Hren & L2 & P2 & _).
  destruct (cursor_framed W H mx my c HS Hcur Hmx Hmy b2) as (b3 & Hdc & L3 & P3 & _); [by rewrite L2, L1|].
  destruct (ani_framed W H tick mx my a HS Hani Hmx Hmy) as (r & a' & Hau & Had).
  destruct (Had b3) as (b4 & Hda & L4 & P4 & _); [by rewrite L3, L2, L1|].
  destruct (present_ok W H P b4 fb pitch HS HP HW Hp) as (fb' & Hpr & L5 & P5 & _); [by rewrite L4, L3, L2, L1|done|].
  exists bb1, a', b4, fb'. split; [done|]. split; [unfold paint; by rewrite Hren, bind_Ok; cbn [snd]; rewrite Hdc, bind_Ok, Hau, bind_Ok; cbn [snd]; rewrite Hda, bind_Ok|].
  split; [done|]. split; [done|]. split; [done|]. intros x y Hx Hy Hcov. unfold covered in Hcov. rewrite !orb_false_iff in Hcov.
  destruct Hcov as [[C1 C2] C3]. rewrite P5 by lia. destruct (Z.ltb_spec x W); [|lia]. rewrite P4, P3, P2 by done. by apply P1.
Qed.

(** ** The desktop over frames *)

(** The invariant of the desktop, [l] being the heap without the viewer's
    picture: every program and every shared structure is well formed. *)
Record desktop_ok {V D N} (base : Z) (l : list block) (k : desktop V D N) : Prop := {
  dk_launcher : launcher_ok (k_apps k);
  dk_explorer : ex_ok (a_explorer (k_apps k));
  dk_editor : ed_ok (a_editor (k_apps k));
  dk_ani : ani_loaded (ed_ani (a_editor (k_apps k)));
  dk_view : owns base l (a_view (k_apps k)) (w_heap_st (k_world k)) /\ view_ok (a_view (k_apps k));
  dk_theme : in_sync (k_theme k) (k_style k) /\ theme_ints (current_theme (k_theme k));
  dk_cursor : cursor_drawable (k_cursor k);
  dk_kbd : kbd_ok (k_kbd k) /\ Forall (fun c => c <> 0) (ring (k_kbd k));
  dk_mon : mon_ok (n_mon (k_net k))
}.

(** The machine the frame runs on: the video mode, both buffers, and a network
    driver that is idle or has whole packets queued. *)
Record machine_ok {V D N} `{Ports D} (fuel : nat) (W Ht P pitch : Z) (k : desktop V D N) : Prop := {
  mo_screen : screen_ok W Ht; mo_lines : screen_ok P Ht; mo_width : W <= P; mo_pitch : pitch / 4 = P;
  mo_back : W * Ht <= zlen (back_buffer k); mo_front : P * Ht <= zlen (k_screen k);
  mo_nic : pollable fuel (n_rx (k_net k)) (n_nic (k_net k))
}.

(** What holds of the answers of Nuklear, of the uninitialised arrays and of
    the mouse in any frame. *)
Record frame_in_ok (i : frame_in) : Prop := {
  fo_sys : sysmon_in_ok (fi_sys i); fo_mix : mixer_in_ok (fi_mix i); fo_ex : in_ok (fi_ex i); fo_ed : ed_in_ok (fi_ed i); fo_vw : vw_in_ok (fi_vw i);
  fo_cmds : forallb command_ok (fi_cmds i) = true;
  fo_x : -32768 <= fi_mouse_x i < 32768; fo_y : -32768 <= fi_mouse_y i < 32768
}.

(** *** The parts of a frame *)

(** What the launcher and the taskbar leave alone in the programs. *)
Record kept (a a' : apps) : Prop := {
  kp_ex : ex_ok (a_explorer a) -> ex_ok (a_explorer a'); kp_ed : ed_ok (a_editor a) -> ed_ok (a_editor a');
  kp_ani : same_frames (ed_ani (a_editor a)) (ed_ani (a_editor a'));
  kp_vw : vw_shown (a_view a') = vw_shown (a_view a); kp_view : view_ok (a_view a) -> view_ok (a_view a')
}.

#[local] Instance kept_refl : Reflexive kept.
Proof. intros a. by split. Qed.

#[local] Instance kept_trans : Transitive kept.
Proof. intros a b c [? ? ? ? ?] [? ? ? ? ?]. split; [auto|auto|by etransitivity|congruence|auto]. Qed.

Lemma set_ani_ok a e : ed_ok e -> ed_ok (Edit.set_ani a e).
Proof. intros [? ? ? ? ? ? ?]. by split. Qed.

Lemma editor_flags_ok a m e : ed_ok e -> ed_ok (editor_flags a m e).
Proof. intros [? ? ? ? ? ? ?]. by split. Qed.

Lemma shell_kept f a : kept a (shell_of f a).
Proof. by split. Qed.

Lemma set_shell_kept s a : kept a (set_shell s a).
Proof. by split. Qed.

Lemma ani_kept an a : same_frames (ed_ani (a_editor a)) an -> kept a (set_editor (Edit.set_ani an (a_editor a)) a).
Proof. intros Hs. split; [done|apply set_ani_ok|exact Hs|done|done]. Qed.

Lemma editor_kept x y a : kept a (set_editor (editor_flags x y (a_editor a)) a).
Proof. split; [done|apply editor_flags_ok|done|done|done]. Qed.

Lemma view_kept x y a : kept a (set_view (view_flags x y (a_view a)) a).
Proof. split; [done..|]. intros [? ?]. by split. Qed.

Lemma explorer_kept x y a : kept a (set_explorer (explorer_flags x y (a_explorer a)) a).
Proof. split; [|done..]. intros [? ? ? ?]. by split. Qed.

Lemma refresh_kept x y a :
  kept a (set_explorer (Explorer.set_nav (explorer_trigger_refresh (ex_nav (explorer_flags x y (a_explorer a)))) (explorer_flags x y (a_explorer a))) a).
Proof. split; [|done..]. intros [Hn ? ? ?]. split; cbn; eauto. by apply (nav_ok_same (ex_nav (a_explorer a))). Qed.

Lemma launch_kept app a d : kept a (launch app a d).1.
Proof.
  unfold launch. repeat match goal with |- context [if ?b then _ else _] => destruct b end; cbn [fst];
    [apply set_shell_kept|apply set_shell_kept|apply refresh_kept|apply editor_kept|apply view_kept|reflexivity].
Qed.

Lemma handler_kept t0 t1 t2 a d : kept a (launch_handler t0 t1 t2 a d).1.
Proof.
  unfold launch_handler. destruct (negb _); [|reflexivity]. cbv zeta.
  set (a1 := if pending_app_start_tick (a_shell a) =? 0 then _ else a).
  assert (kept a a1) as H1.
  { unfold a1. destruct (_ =? 0); [|reflexivity]. transitivity (set_shell (set_pending (pending_app_launch (a_shell a)) t0 (a_shell a)) a); [apply set_shell_kept|].
    apply (ani_kept _ (set_shell _ a)). apply play_same. }
  clearbody a1. destruct (_ <=? _); [|exact H1]. set (a2 := set_editor _ a1).
  assert (kept a a2) as H2 by (etransitivity; [exact H1|apply ani_kept, stop_same]). clearbody a2.
  pose proof (launch_kept (pending_app_launch (a_shell a2)) a2 d) as H3. destruct (launch _ a2 d) as [a3 d3]. cbn [fst] in *.
  etransitivity; [exact H2|]. etransitivity; [exact H3|]. apply set_shell_kept.
Qed.

Lemma kept_if (b : bool) a a' : kept a a' -> kept a (if b then a' else a).
Proof. by destruct b. Qed.

Lemma taskbar_kept i a : kept a (taskbar i a).
Proof.
  unfold taskbar. destruct (tb_begin i); [|reflexivity]. cbv zeta.
  do 6 (match goal with |- kept a (let _ := _ in _) => cbv zeta | _ => idtac end).
  etransitivity; [|apply kept_if, view_kept]. etransitivity; [|apply kept_if, editor_kept]. etransitivity; [|apply kept_if, explorer_kept].
  etransitivity; [|apply kept_if, shell_kept]. etransitivity; [|apply kept_if, shell_kept]. apply kept_if, shell_kept.
Qed.

Lemma monitor_keeps base i heap s d s' d' st :
  sys_monitor base i heap s d = Ok (s', d', st) ->
  pending_app_launch s' = pending_app_launch s /\ pending_app_start_tick s' = pending_app_start_tick s /\
  color_mixer_active s' = color_mixer_active s /\ color_mixer_minimized s' = color_mixer_minimized s.
Proof.
  unfold sys_monitor. destruct (_ && _); [|by intros [= <- _ _]]. intros Hm. apply bind_Ok_inv in Hm as ([s1 st1] & Hb & Hm).
  assert (pending_app_launch s1 = pending_app_launch s /\ pending_app_start_tick s1 = pending_app_start_tick s /\
    color_mixer_active s1 = color_mixer_active s /\ color_mixer_minimized s1 = color_mixer_minimized s) as Hs1.
  { destruct (w_begin _); [|by injection Hb as <- _]. apply bind_Ok_inv in Hb as (x & _ & Hb). by injection Hb as <- _. }
  injection Hm as <- _ _. destruct (w_hidden _); exact Hs1.
Qed.

#[local] Opaque mixer_body.

Lemma mixer_launcher {V} `{FatFs V} i ts style (v : V) s d ts' style' v' s' d' :
  theme_mixer i ts style v s d = Ok (ts', style', v', s', d') -> in_sync ts style ->
  in_sync ts' style' /\ pending_app_launch s' = pending_app_launch s /\ pending_app_start_tick s' = pending_app_start_tick s.
Proof.
  unfold theme_mixer. intros Hm Hs. destruct (_ && _); [|by injection Hm as <- <- _ <- _].
  apply bind_Ok_inv in Hm as ([[[ts1 st1] v1] s1] & Hb & Hm).
  assert (in_sync ts1 st1 /\ pending_app_launch s1 = pending_app_launch s /\ pending_app_start_tick s1 = pending_app_start_tick s) as Hs1.
  { destruct (w_begin _); [|by injection Hb as <- <- _ <-]. apply bind_Ok_inv in Hb as ([[ts2 st2] v2] & Hy & Hb). injection Hb as <- <- _ <-.
    split; [|done]. by eapply mixer_body_sync. }
  cbv beta iota in Hm. injection Hm as <- <- _ <- _. destruct (w_hidden _); exact Hs1.
Qed.

Lemma edit_returns {V} `{FatFsLaws V} i e d (v : V) :
  ed_ok e -> ed_in_ok i -> exists e' d' v', render_naoedit i e d v = Ok (e', d', v') /\ ed_ok e' /\ same_frames (ed_ani e) (ed_ani e').
Proof.
  intros He Hi. assert (exists e' d' v', render_naoedit i e d v = Ok (e', d', v') /\ ed_ok e') as (e' & d' & v' & Hr & He').
  { destruct (negb (truth (naoedit_active e)) || truth (naoedit_minimized e)) eqn:E.
    - unfold render_naoedit. rewrite E. by eexists _, _, _.
    - apply orb_false_iff in E as [E1 E2]. apply negb_false_iff in E1. unfold truth in E1, E2. apply negb_false_iff in E2.
      destruct (edit_frame_aux i e d v He Hi) as (e1 & d1 & v1 & Hr1 & He1 & _); [intros Ha; by rewrite Ha in E1|by apply Z.eqb_eq|].
      by exists e1, d1, v1. }
  exists e', d', v'. split; [done|]. split; [done|]. by eapply edit_keeps_ani.
Qed.

Lemma replies_ok ps m : mon_ok m -> mon_ok (replies ps m).
Proof.
  unfold replies. revert m. induction ps as [|p ps IH]; intros m Hm; [done|]. cbn [fold_left]. apply IH.
  unfold ping_recv_cb. destruct (_ <=? _); [|done]. destruct (_ =? 0); [|done]. eapply mon_ok_mono; [exact Hm|done|by left|done].
Qed.

Section NetworkParts.
Context {D N : Type} `{Ports D} `{LwIP N} `{LwIPLoop N}.

Lemma poll_returns fuel ps (n : net D N) : pollable fuel (n_rx n) (n_nic n) ->
  exists n', poll_network fuel ps n = Ok n' /\ pollable fuel (n_rx n') (n_nic n') /\ (mon_ok (n_mon n) -> mon_ok (n_mon n')).
Proof.
  intros Hp. unfold poll_network. destruct (poll_again fuel (n_rx n) (n_stack n) (n_nic n) Hp) as (buf & st & s' & -> & Hp').
  rewrite bind_Ok. cbv beta iota. eexists. split; [reflexivity|]. split; [exact Hp'|]. apply replies_ok.
Qed.

Lemma network_returns fuel t al ps (n : net D N) : pollable fuel (n_rx n) (n_nic n) ->
  exists n', network_step fuel t al ps n = Ok n' /\ pollable fuel (n_rx n') (n_nic n') /\ (mon_ok (n_mon n) -> mon_ok (n_mon n')).
Proof.
  intros Hp. unfold network_step. destruct (truth _); [|by exists n]. destruct (poll_returns fuel ps n Hp) as (n1 & -> & Hp1 & Hm1).
  rewrite bind_Ok. eexists. split; [reflexivity|]. split; [exact Hp1|]. intros Hm. cbn [n_mon]. by apply update_ok, Hm1.
Qed.

End NetworkParts.

Lemma scancode_keeps_nonzero sc kb kb' :
  kbd_ok kb -> Forall (fun c => c <> 0) (ring kb) -> is_byte sc -> keyboard_scancode sc kb = Ok kb' ->
  kbd_ok kb' /\ Forall (fun c => c <> 0) (ring kb').
Proof.
  intros Hk Hz Hb Hs. destruct (scancode_spec sc kb Hk Hb) as (kb1 & Hs1 & Hk1 & Hm). rewrite Hs in Hs1. injection Hs1 as <-.
  split; [done|]. pose proof (key_of_nonzero sc Hb) as Hn. destruct (key_of sc) as [b|p s|].
  - destruct Hm as [_ ->]. done.
  - destruct Hm as [_ ->]. unfold q_push. destruct (decide _); [|done]. apply Forall_app. split; [done|].
    constructor; [|constructor]. destruct Hn, (shift_pressed kb); assumption.
  - by subst.
Qed.

(** Drawing returns: commands, cursor and animation. *)
Lemma paint_returns {F : Type} {FO : FloatOps F} W H hr hg cmds tick mx my c a bb :
  screen_ok W H -> W * H <= zlen bb -> forallb command_ok cmds = true -> cursor_drawable c -> ani_loaded a ->
  -32768 <= mx < 32768 -> -32768 <= my < 32768 ->
  exists a' bb', paint W H hr hg cmds tick mx my c a bb = Ok (a', bb') /\ length bb' = length bb /\ same_frames a a'.
Proof.
  intros HS Hbb Hcmds Hcur Hani Hmx Hmy. unfold paint.
  destruct (render_target_aux W H hr hg cmds bb HS Hbb Hcmds) as (s' & b2 & -> & L2 & _). rewrite bind_Ok. cbn [snd].
  assert (exists b3, draw_custom_cursor W H mx my c b2 = Ok b3 /\ length b3 = length b2) as (b3 & -> & L3).
  { destruct Hcur as [Hz|Hcur].
    - exists b2. split; [|done]. unfold draw_custom_cursor. destruct Hz as [-> | ->]; [done|]. by rewrite orb_true_r.
    - destruct (cursor_framed W H mx my c HS Hcur Hmx Hmy b2) as (b3 & Hdc & L3 & _); [by rewrite L2|]. by exists b3. }
  rewrite bind_Ok. destruct (ani_framed W H tick mx my a HS Hani Hmx Hmy) as (r & a' & Hau & Had). rewrite Hau, bind_Ok. cbn [snd].
  destruct (Had b3) as (b4 & -> & L4 & _); [by rewrite L3, L2|]. rewrite bind_Ok. exists a', b4. split; [done|].
  split; [congruence|]. by eapply update_same.
Qed.

Section Frames.
Context {V D N F : Type} `{HFS : FatFs V} `{!FatFsLaws V} `{!DirLaws V} `{DecoderLaws} `{Ports D} `{LwIP N} `{LwIPLoop N} {FO : FloatOps F}.
Context (base : Z) (fresh : Z -> Z -> list Z) (fuel : nat) (W Ht P pitch : Z) (l : list block).
Context (fresh_len : forall a n, 0 <= n -> zlen (fresh a n) = n) (calm : no_adjacent_free l).
Context (tiled : tiles base (base + HEAP_BYTES) l).
(** Directories can be read and have fewer entries than the fuel (FAT: at most 65536). *)
Context (readable : dir_media_ok V) (short : forall (v : V) p es, listing v p = Some es -> (length es < fuel)%nat).
#[local] Set Default Proof Using "All".
#[local] Opaque theme_mixer render_file_explorer render_naoedit render_naoview sys_monitor.

(** *** What can keep a frame from returning *)

(** Volume and desk when the explorer runs: after the monitor and the mixer. *)
Definition at_explorer (i : frame_in) (a : apps) (d : desk) (th : theme_state) (sty : nk_style) (w : world V) (v : V) (d' : desk) : Prop :=
  exists s1 d1 st ts style s, sys_monitor base (fi_sys i) (w_heap_st w) (a_shell a) d = Ok (s1, d1, st) /\
    theme_mixer (fi_mix i) th sty (w_vol w) s1 d1 = Ok (ts, style, v, s, d').

(** The volume when the viewer runs: after the explorer and the editor. *)
Definition at_viewer (i : frame_in) (a : apps) (d : desk) (th : theme_state) (sty : nk_style) (w : world V) (v : V) : Prop :=
  exists v1 d1 o e d2, at_explorer i a d th sty w v1 d1 /\ render_file_explorer fuel (fi_ex i) (a_explorer a) d1 v1 = Ok o /\
    render_naoedit (fi_ed i) (a_editor a) (o_desk o) (o_vol o) = Ok (e, d2, v).

(** The windows of a frame do not all return: the theme is reloaded from a
    file with a number too large for an [int]; the explorer enters a directory
    too deep for its path, or deletes a directory too deep or too large for the
    fuel; the viewer opens a picture the heap has no room for, or a file of
    (nearly) 4 GiB. *)
Inductive windows_stuck (i : frame_in) (a : apps) (d : desk) (th : theme_state) (sty : nk_style) (w : world V) : Prop :=
| stuck_theme : bad_reload (fi_mix i) th (w_vol w) (a_shell a) -> windows_stuck i a d th sty w
| stuck_enter v d1 p : at_explorer i a d th sty w v d1 -> holds (current_path (ex_nav (a_explorer a))) 128 p ->
    enters_too_deep fuel (fi_ex i) (a_explorer a) v p -> windows_stuck i a d th sty w
| stuck_delete v d1 : at_explorer i a d th sty w v d1 ->
    deletes (fi_ex i) (render_file_explorer fuel (fi_ex i) (a_explorer a) d1 v) v -> windows_stuck i a d th sty w
| stuck_view v : at_viewer i a d th sty w v -> opens_bad l (fi_vw i) (a_view a) v -> windows_stuck i a d th sty w.

(** A frame is blocked: its windows are, or the shutdown picture cannot be held. *)
Definition frame_blocked (i : frame_in) (k : desktop V D N) : Prop :=
  let '(a, d) := launch_handler (fi_t0 i) (fi_t1 i) (fi_t2 i) (k_apps k) (k_desk k) in
  let a := taskbar (fi_tb i) a in
  match start_menu (fi_sm i) (a_shell a) with
  | Restart => False
  | Shutdown => exists l', heap_repr base (w_heap_st (k_world k)) l' /\ splash_stuck l' (w_vol (k_world k))
  | Stay s => windows_stuck i (set_shell s a) (drop_lock (fi_clicked i) d) (k_theme k) (k_style k) (k_world k)
  end.

(** The blocks of the heap, the picture's included. *)
Lemma owned_heap w st : owns base l w st -> exists l', heap_repr base st l' /\ no_adjacent_free l'.
Proof.
  unfold owns. destruct (naoview_pixels (vw_shown w)) as [[p out]|]; [|intros [_ Hr]; by exists l].
  intros (n & l' & _ & Ha & Hr & _). exists l'. split; [done|]. by destruct (a_alloc_no_adjacent n l p l' calm Ha).
Qed.

Lemma windows_cases i (k : desktop V D N) :
  desktop_ok base l k -> frame_in_ok i -> (0 < fuel)%nat ->
  (exists k', windows base fresh fuel i k = Ok k' /\ desktop_ok base l k' /\ launcher (k_apps k') = launcher (k_apps k) /\
     k_net k' = k_net k /\ back_buffer k' = back_buffer k /\ k_screen k' = k_screen k) \/
  ((forall k', windows base fresh fuel i k <> Ok k') /\ windows_stuck i (k_apps k) (k_desk k) (k_theme k) (k_style k) (k_world k)).
Proof.
  intros [Hl Hx He Ha [Hv Hv2] [Ht1 Ht2] Hc Hk Hm] [Isys Imix Iex Ied Ivw _ _ _] Hf0. unfold windows.
  destruct (owned_heap _ _ Hv) as (lh & Hrh & _).
  destruct (monitor_returns base (fi_sys i) (w_heap_st (k_world k)) lh (a_shell (k_apps k)) (k_desk k) Isys Hrh) as (s1 & d1 & st1 & Hmon).
  destruct (monitor_keeps _ _ _ _ _ _ _ _ Hmon) as (M1 & M2 & M3 & M4). rewrite Hmon, bind_Ok. cbv beta iota.
  destruct (mixer_cases (fi_mix i) (k_theme k) (k_style k) (w_vol (k_world k)) s1 d1 Imix Ht2) as [(ts2 & sty2 & v2 & s2 & d2 & Hmix & Ht2')|[Hmix Hbad]].
  2: { right. split; [by rewrite Hmix|]. apply stuck_theme. unfold bad_reload in *. by rewrite <- M3, <- M4. }
  destruct (mixer_launcher _ _ _ _ _ _ _ _ _ _ _ Hmix Ht1) as (Hs & X1 & X2). rewrite Hmix, bind_Ok. cbv beta iota.
  assert (at_explorer i (k_apps k) (k_desk k) (k_theme k) (k_style k) (k_world k) v2 d2) as Hat by (by eexists _, _, _, _, _, _).
  destruct (Explorer.eo_path _ Hx) as (p & Hp & _).
  pose proof (frame_cases readable fuel (fi_ex i) Iex (a_explorer (k_apps k)) d2 v2 p Hx Hp Hf0 (short v2 p)) as Hex. cbv zeta in Hex.
  destruct Hex as [(o & Ho & Hx')|[[Hxe Hdeep]|Hdel]]; [|right; split; [by rewrite Hxe|by apply (stuck_enter _ _ _ _ _ _ v2 d2 p)]|].
  2: { right. split; [|by apply (stuck_delete _ _ _ _ _ _ v2 d2)]. destruct Hdel as (_ & _ & p' & t & _ & _ & _ & [-> |[-> _]]); done. }
  rewrite Ho, bind_Ok. destruct (edit_returns (fi_ed i) (a_editor (k_apps k)) (o_desk o) (o_vol o) He Ied) as (e3 & d3 & v3 & Hed & He3 & Ha3).
  rewrite Hed, bind_Ok. cbv beta iota.
  destruct (view_frame_cases base fresh l fresh_len calm tiled (fi_vw i) (a_view (k_apps k)) (mk_world (w_heap_st (k_world k)) (w_stb (k_world k)) v3) d3 Hv Hv2 Ivw)
    as [(w4 & k4 & d4 & Hvw & Hv4)|[Hne Hbad]].
  2: { right. split; [|apply (stuck_view _ _ _ _ _ _ v3); [by exists v2, d2, o, e3, d3|exact Hbad]].
    intros k' Hk'. apply bind_Ok_inv in Hk' as (x & Hx2 & _). by apply (Hne x). }
  pose proof (frame_owns base fresh l fresh_len calm tiled _ _ (mk_world (w_heap_st (k_world k)) (w_stb (k_world k)) v3) _ _ _ _ Hv Hvw) as Ho4. rewrite Hvw, bind_Ok. cbv beta iota.
  left. eexists. split; [reflexivity|]. assert (launcher (mk_apps s2 (o_st o) e3 w4) = launcher (k_apps k)) as El by (unfold launcher; cbn [a_shell]; congruence).
  split; [|by split_and!]. split; cbn [k_apps k_world k_theme k_style k_kbd k_net k_cursor a_explorer a_editor a_view]; try done.
  - by apply (launcher_ok_eq _ (k_apps k)).
  - by apply (same_loaded _ _ Ha3).
Qed.

Lemma finish_returns i (k : desktop V D N) :
  desktop_ok base l k -> machine_ok fuel W Ht P pitch k -> frame_in_ok i ->
  exists k', finish_frame fuel W Ht pitch i k = Ok k' /\ desktop_ok base l k' /\ machine_ok fuel W Ht P pitch k' /\ launcher (k_apps k') = launcher (k_apps k).
Proof.
  intros [Hl Hx He Ha Hv Ht' Hc Hk Hm] [S1 S2 HW Hp Hb Hf Hn] [_ _ _ _ _ Icmd Ix Iy]. unfold finish_frame.
  destruct (paint_returns W Ht (c_r (header_normal (k_style k))) (c_g (header_normal (k_style k))) (fi_cmds i) (fi_tani i) (fi_mouse_x i) (fi_mouse_y i)
    (k_cursor k) (ed_ani (a_editor (k_apps k))) (back_buffer k) S1 Hb Icmd Hc Ha Ix Iy) as (an & bb & -> & Lb & Han). rewrite bind_Ok. cbv beta iota.
  destruct (poll_returns fuel (fi_replies' i) (k_net k) Hn) as (n & -> & Hn' & Hm'). rewrite bind_Ok.
  destruct (present_ok W Ht P bb (k_screen k) pitch S1 S2 HW Hp) as (fb & -> & Lf & _); [by rewrite Lb|done|]. rewrite bind_Ok.
  eexists. split; [reflexivity|]. split; [|split; [|reflexivity]].
  - split; cbn [k_apps k_world k_theme k_style k_kbd k_net k_cursor a_explorer a_editor a_view set_editor Edit.set_ani ed_ani]; try done.
    + by apply set_ani_ok.
    + by apply (same_loaded _ _ Han).
    + by apply Hm'.
  - split; cbn [back_buffer k_screen k_net]; try done; [by rewrite Lb|by rewrite Lf].
Qed.

(** What a frame leaves when it returns. *)
Definition frame_result (i : frame_in) (k : desktop V D N) (o : frame_out V D N) : Prop :=
  match o with
  | Running keys k' => desktop_ok base l k' /\ machine_ok fuel W Ht P pitch k' /\
      shell_frame (fi_t0 i, fi_t1 i, fi_t2 i) (k_apps k) (k_apps k') /\ keys = to_key <$> ring (k_kbd k)
  | Restarted => True
  | Halted h => exists l', heap_repr base (h_heap h) l'
  end.

Lemma frame_progress i (k : desktop V D N) :
  desktop_ok base l k -> machine_ok fuel W Ht P pitch k -> frame_in_ok i ->
  (exists o, desktop_frame base fresh fuel W Ht pitch i k = Ok o /\ frame_result i k o) \/
  (frame_blocked i k /\ forall keys k', desktop_frame base fresh fuel W Ht pitch i k <> Ok (Running keys k')).
Proof.
  intros Hok Hmach Hi. pose proof Hok as [Hl Hx He Ha [Hv Hv2] Ht' Hc [Hk1 Hk2] Hm]. pose proof Hmach as [S1 S2 HW Hp Hb Hf Hn].
  unfold desktop_frame, frame_blocked.
  pose proof (handler_kept (fi_t0 i) (fi_t1 i) (fi_t2 i) (k_apps k) (k_desk k)) as K1.
  pose proof (handler_keeps_ok (fi_t0 i) (fi_t1 i) (fi_t2 i) (k_apps k) (k_desk k) Hl) as E3.
  destruct (launch_handler (fi_t0 i) (fi_t1 i) (fi_t2 i) (k_apps k) (k_desk k)) as [a1 d1] eqn:Eh. cbn [fst] in K1, E3.
  destruct (fill_ok W Ht (k_theme k) (back_buffer k) S1 Hb) as (bb & -> & Lb & _). rewrite bind_Ok.
  destruct (network_returns fuel (fi_tnet i) (fi_alloc i) (fi_replies i) (k_net k) Hn) as (n & -> & Hn' & Hm'). rewrite bind_Ok.
  destruct (drain_ring 32 (k_kbd k) Hk1 Hk2) as (kb & -> & Hkb & Hr & _).
  { rewrite ring_length. unfold ring_len. pose proof (Z.mod_pos_bound (keyboard_head (k_kbd k) - keyboard_tail (k_kbd k)) 32). lia. }
  rewrite bind_Ok. cbv beta iota zeta. assert (kept (k_apps k) (taskbar (fi_tb i) a1)) as K2 by (etransitivity; [exact K1|apply taskbar_kept]).
  pose proof (launcher_ok_eq (taskbar (fi_tb i) a1) a1 (taskbar_launcher _ _) E3) as E4.
  destruct (start_menu (fi_sm i) (a_shell (taskbar (fi_tb i) a1))) as [s| |] eqn:Em; [|left; by eexists|].
  - set (k1 := mk_desktop _ _ _ _ _ _ _ _ _ _).
    assert (desktop_ok base l k1) as Hok1.
    { destruct K2 as [X1 X2 X3 X4 X5]. split; cbn [k1 k_apps k_world k_theme k_style k_kbd k_net k_cursor a_explorer a_editor a_view set_shell a_shell].
      - exact (menu_ok _ _ _ E4 Em).
      - by apply X1.
      - by apply X2.
      - by apply (same_loaded _ _ X3).
      - split; [by apply (owns_shown base fresh l fresh_len calm tiled (a_view (k_apps k)))|by apply X5].
      - exact Ht'.
      - exact Hc.
      - split; [done|]. rewrite Hr. constructor.
      - by apply Hm'. }
    assert (machine_ok fuel W Ht P pitch k1) as Hmach1 by (split; cbn [k1 back_buffer k_screen k_net]; try done; by rewrite Lb).
    destruct (windows_cases i k1 Hok1 Hi (proj1 Hn)) as [(k2 & Hw & Hok2 & El & En & Eb & Es)|[Hne Hst]].
    2: { right. split; [exact Hst|]. intros keys k' Hk'. apply bind_Ok_inv in Hk' as (k2 & Hw & _). by apply (Hne k2). }
    rewrite Hw, bind_Ok. assert (machine_ok fuel W Ht P pitch k2) as Hmach2 by (destruct Hmach1; split; rewrite ?En, ?Eb, ?Es; done).
    destruct (finish_returns i k2 Hok2 Hmach2 Hi) as (k3 & -> & Hok3 & Hmach3 & El3). rewrite bind_Ok. left. eexists. split; [reflexivity|].
    split; [exact Hok3|]. split; [exact Hmach3|]. split; [|reflexivity].
    eapply (shell_frame_intro _ _ (k_desk k) (fi_tb i) (fi_sm i)); [exact Eh|exact Em|]. rewrite El3, El. reflexivity.
  - destruct (owned_heap _ _ Hv) as (lh & Hrh & Hna).
    destruct (shutdown_cases base W Ht lh (k_screen k) (w_heap_st (k_world k)) (w_stb (k_world k)) (w_vol (k_world k)) S1) as [(h & -> & Hh)|Hst];
      [pose proof S1 as (? & ? & _); nia|done|done| |right].
    2: { split; [by exists lh|]. intros keys k' Hk'. by apply bind_Ok_inv in Hk' as (h & _ & Hk'). }
    rewrite bind_Ok. left. eexists. split; [reflexivity|]. by exists lh.
Qed.

(** *** Runs *)

Definition with_kbd (kb : kbd) (k : desktop V D N) : desktop V D N :=
  mk_desktop (k_apps k) (k_theme k) (k_style k) (k_world k) (k_desk k) kb (k_net k) (k_cursor k) (back_buffer k) (k_screen k).
Definition with_nic (nic : nic_state D) (k : desktop V D N) : desktop V D N :=
  let n := k_net k in
  mk_desktop (k_apps k) (k_theme k) (k_style k) (k_world k) (k_desk k) (k_kbd k)
    (mk_net nic (n_stack n) (n_rx n) (n_if n) (dhcp_logged n) (n_mon n)) (k_cursor k) (back_buffer k) (k_screen k).

(** Frames with any input; between them keys are pressed (IRQ 1) and the card
    stores packets. The list holds the launcher's timer readings. *)
Inductive desk_run : list (Z * Z * Z) -> desktop V D N -> desktop V D N -> Prop :=
| run_done k : desk_run [] k k
| run_key sc kb ts k k' : is_byte sc -> keyboard_scancode sc (k_kbd k) = Ok kb -> desk_run ts (with_kbd kb k) k' -> desk_run ts k k'
| run_card nic ts k k' : pollable fuel (n_rx (k_net k)) nic -> desk_run ts (with_nic nic k) k' -> desk_run ts k k'
| run_frame i keys ts k k1 k' : frame_in_ok i -> desktop_frame base fresh fuel W Ht pitch i k = Ok (Running keys k1) ->
    desk_run ts k1 k' -> desk_run ((fi_t0 i, fi_t1 i, fi_t2 i) :: ts) k k'.

Lemma desk_run_ok ts k k' : desk_run ts k k' -> desktop_ok base l k -> machine_ok fuel W Ht P pitch k ->
  desktop_ok base l k' /\ machine_ok fuel W Ht P pitch k' /\ shell_frames ts (k_apps k) (k_apps k').
Proof.
  induction 1 as [k|sc kb ts k k' Hb Hs _ IH|nic ts k k' Hp _ IH|i keys ts k k1 k' Hi Hf _ IH]; intros Hok Hm.
  - split; [done|]. split; [done|constructor].
  - destruct Hok as [Hl Hx He Ha Hv Ht' Hc [Hk1 Hk2] Hmon]. destruct (scancode_keeps_nonzero sc _ _ Hk1 Hk2 Hb Hs) as [K1 K2].
    apply IH; [by split|]. destruct Hm. by split.
  - destruct Hok. apply IH; [by split|]. destruct Hm. by split.
  - destruct (frame_progress i k Hok Hm Hi) as [(o & Ho & Hres)|[_ Hne]]; [|by destruct (Hne keys k1)]. rewrite Hf in Ho. injection Ho as <-.
    destruct Hres as (Hok1 & Hm1 & Hs & _). destruct (IH Hok1 Hm1) as (R1 & R2 & R3). split; [done|]. split; [done|]. by eapply frames_cons.
Qed.

End Frames.


(** ** Witnesses *)

#[global] Instance frames_loop : LwIPLoop frames := { sys_check_timeouts n := n; dhcp_supplied_address _ := false }.

Definition w_ts : theme_state := mk_ts (current_theme demo_theme) 13 0 15.

(** A desktop of 4 x 4 pixels with the editor open, the viewer queued and a
    packet waiting in the card. *)
Definition w_desktop : desktop memfs card frames :=
  mk_desktop (mk_apps (set_pending 5 0 shell_boot) explorer_boot demo_editor view_boot) w_ts (apply_theme_to_nuklear (current_theme w_ts))
    (mk_world w_heap (mk_stb false arena_boot) (mk_memfs ∅ ∅ 0)) (mk_desk 0 []) kbd_boot
    (mk_net (mk_nic 49152 demo_rx 8188 [] 0 [] (mk_card 1)) (mk_frames [] []) (replicate (Z.to_nat 2048) 0) (mk_netif [] 0 0 0 []) 0 mon_boot)
    cursor_boot (replicate 16 0) (replicate 24 0).

Definition w_win : win_in := mk_win true (mk_rect 0 0 1 1) false false false.
Definition w_panel : panel_in := mk_panel_in w_win 0 false.
Definition w_dlg : dlg_in := mk_dlg_in w_win [] false false.
Definition w_frame_in (t : Z) : frame_in :=
  mk_frame_in t t t t t true [] [] 1 1 0 w_bar w_menu (mk_sysmon_in w_panel t t (replicate 16 9) (replicate 64 9))
    demo_mixer
    (mk_ex_in false false false 0 0 0 false w_win false false false (fun _ => false) (fun _ => false) false w_win false false false
       w_dlg w_dlg w_dlg (replicate (Z.to_nat 256) 0) (replicate (Z.to_nat 256) 0))
    (demo_ed_in t)
    (mk_vw_in 0 false w_win false false false false [] false false false false (replicate (Z.to_nat 140) 0) (replicate (Z.to_nat 160) 0))
    [].

Definition w_next (t : Z) (k : desktop memfs card frames) : desktop memfs card frames :=
  match desktop_frame w_base w_fresh 3 4 4 24 (w_frame_in t) k with Ok (Running _ k') => k' | _ => k end.

Lemma demo_ed_in_ok t : ed_in_ok (demo_ed_in t).
Proof.
  split; cbn [demo_ed_in ei_text ei_path].
  - split; [vm_compute; discriminate|].
    match goal with |- Forall _ ?k => let b := eval vm_compute in k in change k with b end. repeat (constructor; [lia|]). constructor.
  - split; [vm_compute; reflexivity|constructor].
Qed.

Lemma w_frame_in_ok t : 0 <= t < 4294967296 -> frame_in_ok (w_frame_in t).
Proof.
  intros Ht. split; cbn [w_frame_in fi_sys fi_mix fi_ex fi_ed fi_vw fi_cmds fi_mouse_x fi_mouse_y].
  - split; cbn [si_t0 si_t1 si_num si_mem]; rewrite ?length_replicate; lia.
  - exact demo_mixer_ok.
  - split; cbn [in_rename in_mkdir w_dlg d_text stack_a stack_b item_clicked]; rewrite ?length_replicate; done.
  - apply demo_ed_in_ok.
  - split; cbn [vi_path vi_info vi_target]; rewrite ?length_replicate; [split; [done|constructor]|lia|lia].
  - reflexivity.
  - lia.
  - lia.
Qed.

Lemma w_desktop_ok : desktop_ok w_base w_blocks w_desktop.
Proof.
  split.
  - split; cbn; lia.
  - exact explorer_boot_ok.
  - exact demo_editor_ok.
  - exact ani_boot_loaded.
  - split; [exact w_owns|exact view_boot_ok].
  - split; [repeat split|exact demo_theme_ints].
  - left. by left.
  - split; [exact kbd_boot_ok|]. vm_compute. constructor.
  - apply reach_ok. constructor.
Qed.

Lemma demo_pollable : pollable 3 (replicate (Z.to_nat 2048) 0) (mk_nic 49152 demo_rx 8188 [] 0 [] (mk_card 1)).
Proof.
  split; [lia|]. right. exists 49152, card_ring, [[10; 20; 30]]. split; [done|]. split; [done|]. split; [vm_compute; reflexivity|].
  split; [by rewrite length_replicate|]. split; [done|]. split; [|cbn; lia]. apply queued_cons.
  - unfold packet_at. vm_compute. repeat split; try reflexivity; discriminate.
  - apply queued_nil; vm_compute; [split; [discriminate|reflexivity]|reflexivity].
Qed.

Lemma w_machine_ok : machine_ok 3 4 4 6 24 w_desktop.
Proof.
  split; [unfold screen_ok; lia|unfold screen_ok; lia|lia|reflexivity|cbn; lia|cbn; lia|exact demo_pollable].
Qed.


Definition w_cursor : cursor := mk_cursor (replicate 4 255) 1 1 0 0.

Lemma frame_screen_exact_witness :
  exists bb1 a' bb2 fb', fill_background 4 4 w_ts (replicate 16 0) = Ok bb1 /\
    paint 4 4 0 0 [NK_COMMAND_SCISSOR 0 0 2 2; NK_COMMAND_RECT_FILLED 0 0 0 4 4 (mk_rgba 1 2 3 255)] 5 3 3 w_cursor ani_boot bb1 = Ok (a', bb2) /\
    present 4 4 24 bb2 (replicate 24 9) = Ok fb' /\ pix 6 fb' 2 2 = pack 13 0 15 /\ pix 6 fb' 5 0 = 9.
Proof.
  destruct (frame_screen_exact 4 4 6 24 0 0 5 3 3 [NK_COMMAND_SCISSOR 0 0 2 2; NK_COMMAND_RECT_FILLED 0 0 0 4 4 (mk_rgba 1 2 3 255)]
    w_ts w_cursor ani_boot (replicate 16 0) (replicate 24 9)) as (bb1 & a' & bb2 & fb' & H1 & H2 & H3 & _ & Hp & Hw).
  - unfold screen_ok. lia.
  - unfold screen_ok. lia.
  - lia.
  - reflexivity.
  - cbn. lia.
  - cbn. lia.
  - reflexivity.
  - split; cbn; lia.
  - split; [split; cbn [ani_boot ani_frame_count ani_frames]; [lia|rewrite length_replicate; lia|intros i f Hf|intros; lia]|cbn [ani_boot ani_frame_count]; intros; lia].
    apply list_elem_of_lookup_2 in Hf. apply elem_of_replicate in Hf as [-> _]. cbn [frame_zero duration_jiffies]. lia.
  - lia.
  - lia.
  - exists bb1, a', bb2, fb'. split; [exact H1|]. split; [exact H2|]. split; [exact H3|]. split.
    + rewrite Hw; [reflexivity|lia|lia|reflexivity].
    + rewrite Hp by lia. reflexivity.
Defined.
