(* ===== verification/Start.v ===== *)
(** * Start: from power-on to the main loop (kernel.c, gui.c)

    [kernel_main] up to its endless loop: serial line, descriptor tables,
    controllers, the widget library, the boot picture and boot screen, theme,
    cursors, icons, network card and network interface, in the order of the
    source. The result is the state in which the first frame of Desktop runs.
    [nk_init], [f_mount] and lwIP are parameters. The invariant of the frames
    holds in that state, whatever files the disk has. *)

From Stdlib Require Import ZArith Lia Bool String.
From stdpp Require Import base list gmap.
From S2P Require Import Prelude CLib Mm Hw Cpu Irq Serial Gfx Render Backend Nic Fs Cursor Theme NetMon Ui Explorer Edit Image View Boot Shell Panels Desktop.
From stdpp Require Import options.
Import Irq.Keyboard.

(** ** What the boot loader hands over *)

Record multiboot_info := mk_mb {
  mb_flags : Z; framebuffer_addr : Z; framebuffer_pitch : Z; framebuffer_width : Z; framebuffer_height : Z
}.

(** ** Nuklear's initialisation *)

(** [struct nk_user_font]: line height and width of a text. *)
Record nk_user_font := mk_font { font_height : Z; font_width : Z -> Z }.

(** [nk_init] allocates through the two hooks and reports success. *)
Definition init_nk_backend (nk_init : mm_state -> Z * mm_state) (heap : mm_state) : res (nk_user_font * mm_state) :=
  let nk_font := mk_font 8 os_font_get_text_width in
  let '(ok, heap) := nk_init heap in
  if truth ok then Ok (nk_font, heap) else Spin.

(** ** Static storage *)

Definition nic_boot {D} (d : D) : nic_state D :=
  mk_nic 0 (replicate (Z.to_nat RX_BYTES) 0) 0 (replicate 4 (replicate 1536 0)) 0 (replicate 6 0) d.

Definition netif_boot : netif := mk_netif (replicate 2 0) 0 0 0 (replicate 6 0).

Definition theme_boot : theme_state := mk_ts (mk_theme 0 0 0 0 0 0 0 0 0 0 0 0 0 0 0 0 0) 0 42 54.

(** [back_buffer], [boot_img_pixels] and the two icons. *)
Definition back_buffer_boot : list Z := replicate (Z.to_nat (1024 * 768)) 0.
Definition boot_pixels_boot : list Z := replicate (Z.to_nat (BOOT_IMG_MAX_W * BOOT_IMG_MAX_H)) 0.
Definition icon_boot : list Z := replicate (Z.to_nat (64 * 64)) 0.

(** ** lwIP at start-up *)

(** [netif_add] sets the interface up from scratch and calls the driver's
    initialisation on it. *)
Class LwIPBoot (N : Type) := {
  lwip_init : N -> N;
  netif_add : (netif -> res netif) -> netif -> N -> res (netif * N);
  netif_set_default : netif -> N -> N;
  netif_set_up : netif -> N -> netif * N;
  netif_set_link_up : netif -> N -> netif * N;
  dhcp_start : netif -> N -> N
}.

Section Start.
Context {V D N : Type} `{FatFs V} `{Decoder} `{Ports D} `{LwIP N} `{LwIPBoot N}.
(** Vendored initialisers. *)
Context (nk_init : mm_state -> Z * mm_state) (f_mount : V -> Z * V).

(** The network part, after the card's driver. *)
Definition start_network (nic : nic_state D) (stack : N) : res (net D N) :=
  let stack := lwip_init stack in
  x ← netif_add (netif_driver_init (mac_address nic)) netif_boot stack;
  let '(my_netif, stack) := (x : netif * N) in
  let stack := netif_set_default my_netif stack in
  hw ← blit (hwaddr my_netif) 0 (mac_address nic) 0 6;
  let my_netif := mk_netif (nif_name my_netif) (nif_mtu my_netif) (nif_flags my_netif) 6 hw in
  let '(my_netif, stack) := netif_set_up my_netif stack in
  let '(my_netif, stack) := netif_set_link_up my_netif stack in
  let stack := dhcp_start my_netif stack in
  Ok (mk_net nic stack (replicate 2048 0) my_netif 0 mon_boot).

(** What the files on the disk decide: boot picture, theme, cursors, icons. *)
Record files := mk_files {
  fl_theme : theme_state; fl_style : nk_style; fl_cursor : cursor; fl_ani : ani;
  img_connected : nk_image; img_noconnect : nk_image; fl_stb : stb; fl_vol : V
}.

(** [header0] and [bmi0] are the uninitialised arrays of the cursor loader. *)
Definition load_files (fuel : nat) (header0 bmi0 : list Z) (s : stb) (v : V) : res files :=
  x ← theme_load_from_disk theme_boot v;
  let '(ts, v) := (x : theme_state * V) in
  let style := apply_theme_to_nuklear (current_theme ts) in
  x ← load_system_cursor (bytes "0:/arrow.cur") header0 bmi0 cursor_boot v;
  let '(c, v) := (x : cursor * V) in
  x ← ani_load fuel (bytes "0:/arrow_load.ani") (replicate (Z.to_nat ANI_FILE_BUF) 0) (ani_init ani_boot) v;
  let '(_, _, a, v) := (x : Z * list Z * ani * V) in
  x ← load_image_via_stb (bytes "0:/connected.png") icon_boot 64 64 s v;
  let '(img1, _, s, v) := (x : nk_image * list Z * stb * V) in
  x ← load_image_via_stb (bytes "0:/noconnect.png") icon_boot 64 64 s v;
  let '(img2, _, s, v) := (x : nk_image * list Z * stb * V) in
  Ok (mk_files ts style c a img1 img2 s v).

(** The environment of the start: addresses of the tables and of the receive
    buffer, stub addresses, the tick counter, buffers, the frame buffer's
    content and the scancodes that arrive meanwhile. *)
Record start_in := mk_start_in {
  si_gdt : Z; si_idt : Z; si_stubs : stubs; si_rx : Z; si_clock : nat -> Z;
  si_header : list Z; si_bmi : list Z; si_fb : list Z; si_keys : list Z
}.

Record booted := mk_started {
  st_desktop : desktop V D N; st_gdt : gdt_ptr * list gdt_entry; st_idt : idt_ptr * list idt_entry;
  st_font : nk_user_font; st_img : nk_image * nk_image
}.

(** Key presses (IRQ 1) during the start. *)
Fixpoint press_all (scs : list Z) (k : kbd) : res kbd :=
  match scs with [] => Ok k | sc :: r => k ← keyboard_scancode sc k; press_all r k end.

Definition kernel_start (fuel : nat) (i : start_in) (mbinfo : multiboot_info) (d : D) (v : V) (stack : N) : res booted :=
  x ← init_serial (nic_boot d);
  gdt ← init_gdt (si_gdt i);
  if Z.land (mb_flags mbinfo) (Z.shiftl 1 11) =? 0 then Spin
  else
    let gfx_width := framebuffer_width mbinfo in
    let gfx_height := framebuffer_height mbinfo in
    let gfx_pitch := framebuffer_pitch mbinfo in
    x ← init_idt (si_stubs i) (si_idt i) (replicate 256 idt_zero) x.2;
    let '(idt, nic) := (x : (idt_ptr * list idt_entry) * nic_state D) in
    y ← init_nk_backend nk_init mm_boot;
    let '(nk_font, heap) := (y : nk_user_font * mm_state) in
    let v := (f_mount v).2 in
    y ← load_boot_image boot_pixels_boot (mk_stb false arena_boot) v;
    let '(boot_img_w, boot_img_h, boot_img_pixels, s, v) := (y : Z * Z * list Z * stb * V) in
    z ← show_boot_screen fuel (si_clock i) (si_fb i) gfx_width gfx_height gfx_pitch
          (if 0 <? boot_img_w then Some boot_img_pixels else None) boot_img_w boot_img_h 0;
    fl ← load_files fuel (si_header i) (si_bmi i) s v;
    x ← init_rtl8139 (si_rx i) nic;
    n ← start_network x.2 stack;
    kb ← press_all (si_keys i) kbd_boot;
    Ok (mk_started
      (mk_desktop (mk_apps shell_boot explorer_boot (editor_boot (fl_ani fl)) view_boot) (fl_theme fl) (fl_style fl)
         (mk_world heap (fl_stb fl) (fl_vol fl)) (mk_desk 0 []) kb n (fl_cursor fl)
         back_buffer_boot z.1)
      gdt idt nk_font (img_connected fl, img_noconnect fl)).

End Start.

(** ** The invariant at the first frame *)

Lemma editor_boot_ok a : ed_ok (editor_boot a).
Proof.
  split.
  - vm_compute. reflexivity.
  - vm_compute. reflexivity.
  - exists (bytes "0:/NOTES.TXT"). split; vm_compute; reflexivity.
  - reflexivity.
  - cbn. lia.
  - intros Hn. by destruct Hn.
  - intros Hn. by destruct Hn.
Qed.

Lemma press_all_ok scs : forall kb,
  kbd_ok kb -> Forall (fun c => c <> 0) (ring kb) -> Forall is_byte scs ->
  exists kb', press_all scs kb = Ok kb' /\ kbd_ok kb' /\ Forall (fun c => c <> 0) (ring kb').
Proof.
  induction scs as [|sc scs IH]; intros kb Hk Hz Hb; [by exists kb|]. apply Forall_cons in Hb as [Hb Hbs].
  destruct (scancode_spec sc kb Hk Hb) as (kb1 & Hs & _). destruct (scancode_keeps_nonzero sc kb kb1 Hk Hz Hb Hs) as [K1 K2].
  cbn [press_all]. rewrite Hs, bind_Ok. by apply IH.
Qed.

(** A heap in use is a list of blocks, no two free ones side by side. *)
Lemma heap_in_use base st live :
  0 < base -> base + HEAP_BYTES < 4294967296 -> reach base st live -> truth (mm_initialized st) = true ->
  exists l, heap_repr base st l /\ no_adjacent_free l.
Proof.
  intros Hb Hlt Hr Hi. destruct (hist_ok_step _ _ _ Hb Hlt Hr) as [[Hn _]|(l & Hl & Hna & _)]; [congruence|by exists l].
Qed.

Section PowerOn.
#[local] Set Default Proof Using "Type*".
Context {V D N : Type} `{FatFsLaws V} `{DecoderLaws} `{Ports D} `{LwIP N} `{LwIPBoot N}.
Context (nk_init : mm_state -> Z * mm_state) (f_mount : V -> Z * V).

Lemma start_network_mon (nic : nic_state D) (stack : N) n : start_network nic stack = Ok n -> n_mon n = mon_boot.
Proof.
  unfold start_network. intros Hn. apply bind_Ok_inv in Hn as ([nif st] & _ & Hn). cbv beta iota zeta in Hn.
  apply bind_Ok_inv in Hn as (hw & _ & Hn). cbv zeta in Hn. destruct (netif_set_up _ _) as [n1 s1]. destruct (netif_set_link_up _ _) as [n2 s2].
  injection Hn as <-. done.
Qed.

(** Whatever files the disk holds: the theme has components and its style, the
    animation plays, and the cursor can be drawn if its picture fits the array. *)
Lemma load_files_ok fuel h b s (v : V) fl : load_files fuel h b s v = Ok fl ->
  in_sync (fl_theme fl) (fl_style fl) /\ theme_ints (current_theme (fl_theme fl)) /\ ani_loaded (fl_ani fl) /\
  (Forall is_byte h -> Forall is_byte b -> c_width (fl_cursor fl) * c_height (fl_cursor fl) * 4 <= 4096 -> cursor_drawable (fl_cursor fl)).
Proof.
  unfold load_files. intros Hl. apply bind_Ok_inv in Hl as ([ts v1] & Ht & Hl). cbv beta iota zeta in Hl.
  apply bind_Ok_inv in Hl as ([c v2] & Hc & Hl). cbv beta iota zeta in Hl.
  apply bind_Ok_inv in Hl as ([[[r b'] a] v3] & Ha & Hl). cbv beta iota zeta in Hl.
  apply bind_Ok_inv in Hl as ([[[i1 o1] s1] v4] & _ & Hl). cbv beta iota zeta in Hl.
  apply bind_Ok_inv in Hl as ([[[i2 o2] s2] v5] & _ & Hl). injection Hl as <-. cbn [fl_theme fl_style fl_ani fl_cursor].
  split; [by apply (theme_load_sync _ _ _ _ Ht)|]. split.
  - destruct (theme_load_cases theme_boot v) as [(t & v' & E & Hi)|[E _]]; rewrite Ht in E; [by injection E as -> _|done].
  - split; [|intros Hh Hb Hf; by apply (load_cursor_drawable _ _ _ _ _ _ Hh Hb Hc)]. eapply ani_load_loaded; [| |exact Ha].
    + apply Forall_replicate. unfold is_byte. lia.
    + exact ani_boot_loaded.
Qed.

#[local] Opaque back_buffer_boot boot_pixels_boot nic_boot editor_boot init_serial init_idt load_boot_image show_boot_screen load_files init_rtl8139 start_network.

(** The state of the first frame, from what the steps of the start return. *)
Lemma kernel_start_ok fuel i mb (d : D) (v : V) (stack : N) st base l :
  kernel_start nk_init f_mount fuel i mb d v stack = Ok st -> heap_repr base (nk_init mm_boot).2 l -> Forall is_byte (si_keys i) ->
  (Forall is_byte (si_header i) /\ Forall is_byte (si_bmi i) \/ k_cursor (st_desktop st) = cursor_boot) ->
  c_width (k_cursor (st_desktop st)) * c_height (k_cursor (st_desktop st)) * 4 <= 4096 ->
  desktop_ok base l (st_desktop st) /\ length (k_screen (st_desktop st)) = length (si_fb i) /\ back_buffer (st_desktop st) = back_buffer_boot.
Proof.
  intros Hs Hr Hk Hcur Hfit. unfold kernel_start in Hs. apply bind_Ok_inv in Hs as (x1 & _ & Hs). apply bind_Ok_inv in Hs as (g & _ & Hs).
  destruct (_ =? 0); [done|]. cbv zeta in Hs. apply bind_Ok_inv in Hs as ([idt nic] & _ & Hs). cbv beta iota in Hs.
  apply bind_Ok_inv in Hs as ([fo heap] & Hnk & Hs). cbv beta iota zeta in Hs.
  apply bind_Ok_inv in Hs as ([[[[bw bh] px] s] v1] & _ & Hs). cbv beta iota in Hs.
  apply bind_Ok_inv in Hs as ([fb nt] & Hshow & Hs). apply bind_Ok_inv in Hs as (fl & Hfl & Hs). apply bind_Ok_inv in Hs as (x2 & _ & Hs).
  apply bind_Ok_inv in Hs as (n & Hn & Hs). apply bind_Ok_inv in Hs as (kb & Hkb & Hs). injection Hs as <-.
  assert (heap = (nk_init mm_boot).2) as ->.
  { unfold init_nk_backend in Hnk. destruct (nk_init mm_boot) as [ok h]. destruct (truth ok); [|done]. injection Hnk as _ <-. done. }
  destruct (press_all_ok (si_keys i) kbd_boot kbd_boot_ok ltac:(vm_compute; constructor) Hk) as (kb' & Hkb' & K1 & K2).
  rewrite Hkb in Hkb'. injection Hkb' as <-. destruct (load_files_ok _ _ _ _ _ _ Hfl) as (T1 & T2 & A1 & C1).
  cbn [st_desktop k_cursor k_screen back_buffer fst] in Hcur, Hfit |- *. split; [|split; [|done]].
  2: { by apply (show_sized (length (si_fb i)) _ _ _ _ _ _ _ _ _ _ _ _ eq_refl Hshow). }
  split; cbn [st_desktop k_apps k_world k_theme k_style k_kbd k_net k_cursor a_explorer a_editor a_view].
  - unfold launcher_ok. cbn [a_shell shell_boot pending_app_launch pending_app_start_tick]. unfold APP_LAUNCH_NONE. lia.
  - exact explorer_boot_ok.
  - apply editor_boot_ok.
  - exact A1.
  - split; [split; [reflexivity|exact Hr]|exact view_boot_ok].
  - by split.
  - destruct Hcur as [[Hh Hb]|Hc]; [by apply C1|]. rewrite Hc. left. by left.
  - done.
  - rewrite (start_network_mon _ _ _ Hn). apply reach_ok. constructor.
Qed.

End PowerOn.

(** The video mode the boot loader reports ([P] words to a line), the frame
    buffer behind it, and the compiled-in size of the back buffer. *)
Record video_ok (P : Z) (mb : multiboot_info) (i : start_in) : Prop := {
  vd_screen : screen_ok (framebuffer_width mb) (framebuffer_height mb); vd_lines : screen_ok P (framebuffer_height mb);
  vd_width : framebuffer_width mb <= P; vd_pitch : framebuffer_pitch mb / 4 = P;
  vd_back : framebuffer_width mb * framebuffer_height mb <= 1024 * 768; vd_front : P * framebuffer_height mb <= zlen (si_fb i)
}.

Lemma video_machine {V D N} `{Ports D} P mb i fuel (k : desktop V D N) :
  video_ok P mb i -> length (k_screen k) = length (si_fb i) -> back_buffer k = back_buffer_boot -> pollable fuel (n_rx (k_net k)) (n_nic (k_net k)) ->
  machine_ok fuel (framebuffer_width mb) (framebuffer_height mb) P (framebuffer_pitch mb) k.
Proof.
  intros [? ? ? ? Hb Hf] Es Eb Hp. split; try done; [|by rewrite Es]. rewrite Eb. unfold back_buffer_boot. rewrite length_replicate. lia.
Qed.


(** ** Starting from a bare disk *)

(** Configuration space is reached through the ports from 0xCF8 on only. *)
Class PciQuiet (D : Type) `{PciBus D} := {
  quiet_inb : forall p d, p < 3320 -> pci_cfg (p_inb p d).2 = pci_cfg d;
  quiet_outb : forall p v d, p < 3320 -> pci_cfg (p_outb p v d) = pci_cfg d
}.

Section Bare.
Context {D : Type} `{PciQuiet D}.
#[local] Set Default Proof Using "All".

(** Computations that return and touch neither the network driver's variables
    nor configuration space. *)
Definition calm {A} (m : M (nic_state D) A) : Prop := forall s, exists a s', m s = Ok (a, s') /\ same_nic s s'.

Lemma calm_bind {A B} (m : M (nic_state D) A) (f : A -> M (nic_state D) B) : calm m -> (forall a, calm (f a)) -> calm (m ≫= f).
Proof.
  intros Hm Hf s. destruct (Hm s) as (a & s1 & E1 & R1). destruct (Hf a s1) as (b & s2 & E2 & R2).
  exists b, s2. rewrite (m_bind_Ok _ _ _ _ _ E1). split; [done|]. by eapply same_nic_trans.
Qed.

Lemma calm_ret {A} (a : A) : calm (mret a).
Proof. intros s. exists a, s. split; [done|apply same_nic_refl]. Qed.

Lemma calm_lift {A} (r : res A) a : r = Ok a -> calm (lift r).
Proof. intros ->. apply calm_ret. Qed.

Lemma calm_inb p : 0 <= p < 3320 -> calm (inb p).
Proof.
  intros Hp s. eexists _, _. split; [reflexivity|]. eexists. split; [reflexivity|]. cbn [dev nic_dev].
  apply quiet_inb. rewrite u16_small; lia.
Qed.

Lemma calm_outb p v : 0 <= p < 3320 -> calm (outb p v).
Proof.
  intros Hp s. eexists _, _. split; [reflexivity|]. eexists. split; [reflexivity|]. cbn [dev nic_dev].
  apply quiet_outb. rewrite u16_small; lia.
Qed.

Lemma calm_poll t ready : calm (mouse_poll t ready).
Proof.
  induction t as [|t IH]; [apply calm_ret|]. cbn [mouse_poll]. apply calm_bind; [apply calm_inb; lia|]. intros st. destruct (ready st); [apply calm_ret|done].
Qed.

Lemma calm_wait type : calm (mouse_wait type).
Proof. unfold mouse_wait. destruct (_ =? _); apply calm_poll. Qed.

Ltac calm_steps := repeat lazymatch goal with
  | |- calm (_ ≫= _) => apply calm_bind; [|intros ?]
  | |- calm (inb _) => apply calm_inb; lia
  | |- calm (outb _ _) => apply calm_outb; lia
  | |- calm (mouse_wait _) => apply calm_wait
  | |- calm _ => apply calm_ret
  end.

Lemma calm_serial : calm init_serial.
Proof. unfold init_serial, COM1. calm_steps. Qed.

Lemma calm_pic : calm pic_remap.
Proof. unfold pic_remap. calm_steps. Qed.

Lemma calm_mouse : calm init_mouse.
Proof. unfold init_mouse, mouse_write, mouse_read. cbv zeta. calm_steps. Qed.

Lemma init_idt_calm st addr s : Forall (fun a => 0 <= a < 4294967296) [isr0 st; isr3 st; irq0 st; irq1 st; irq12 st; irq14 st] ->
  exists t s', init_idt st addr (replicate 256 idt_zero) s = Ok (t, s') /\ same_nic s s'.
Proof.
  intros Ha. destruct (idt_tables st (replicate 256 idt_zero) (length_replicate 256 _) Ha) as (t1 & t2 & E1 & E2 & _).
  destruct (calm_pic s) as (u & s1 & Ep & R1). destruct (calm_mouse s1) as (u' & s2 & Em & R2).
  exists (idt_pointer addr, t2), s2. unfold init_idt. rewrite E1. rewrite (m_bind_Ok (lift (Ok t1)) _ s t1 s eq_refl).
  rewrite (m_bind_Ok _ _ _ _ _ Ep), E2. rewrite (m_bind_Ok (lift (Ok t2)) _ _ t2 _ eq_refl), (m_bind_Ok _ _ _ _ _ Em).
  split; [done|]. by eapply same_nic_trans.
Qed.

End Bare.

(** [netif_add] sets the fields of a fresh interface and calls [init] once. *)
Class LwIPBootLaws (N : Type) `{LwIPBoot N} := {
  netif_add_law : forall init nif n, exists nif0 n', zlen (hwaddr nif0) = zlen (hwaddr nif) /\
    netif_add init nif n = (x ← init nif0; Ok (x, n'))
}.

Section Network.
Context {D N : Type} `{Ports D} `{LwIPBootLaws N}.
#[local] Set Default Proof Using "All".

Lemma driver_init_ok mac nif : zlen mac = 6 -> zlen (hwaddr nif) = 6 ->
  exists nif', netif_driver_init mac nif = Ok nif' /\ zlen (hwaddr nif') = 6.
Proof.
  intros Hm Hh. unfold netif_driver_init.
  destruct (for_up_inv (fun _ h => zlen h = 6) 6 0 (fun i h => v ← rd mac i; wr h i v) (hwaddr nif)) as (hw & E & Hl).
  - intros i h Hi Hl. rewrite rd_in by lia. rewrite bind_Ok, wr_in by lia. eexists. split; [reflexivity|]. unfold zlen in *. by rewrite length_insert.
  - done.
  - rewrite E, bind_Ok. eexists. split; [reflexivity|exact Hl].
Qed.

Lemma start_network_ok (nic : nic_state D) (stack : N) : zlen (mac_address nic) = 6 ->
  exists n, start_network nic stack = Ok n /\ n_nic n = nic.
Proof.
  intros Hm. unfold start_network. cbv zeta.
  destruct (netif_add_law (netif_driver_init (mac_address nic)) netif_boot (lwip_init stack)) as (nif0 & n1 & Hl & ->).
  destruct (driver_init_ok (mac_address nic) nif0 Hm) as (nif1 & -> & Hl1); [by rewrite Hl|]. rewrite !bind_Ok. cbv beta iota.
  destruct (blit_spec (hwaddr nif1) 0 (mac_address nic) 0 6) as (hw & -> & _); [lia..|]. rewrite bind_Ok.
  destruct (netif_set_up _ _) as [n2 s2]. destruct (netif_set_link_up _ _) as [n3 s3]. by eexists.
Qed.

End Network.

(** The files the start looks for. *)
Definition start_paths : list (list Z) :=
  [bytes "0:/boot.png"; conf_path; bytes "0:/arrow.cur"; bytes "0:/arrow_load.ani"; bytes "0:/connected.png"; bytes "0:/noconnect.png"].

Section NoFiles.
Context {V : Type} `{FatFsLaws V} `{Decoder}.

(** None of them is on the disk. *)
Definition bare (v : V) : Prop := forall p, p ∈ start_paths -> file v p = None.

Lemma bare_same v v' : bare v -> (forall q, file v' q = file v q) -> bare v'.
Proof. intros Hv Hq p Hp. rewrite Hq. by apply Hv. Qed.

Definition reset_stb (s : stb) : stb := mk_stb (stb_flip s) (arena_reset (stb_mem s)).

Lemma no_boot_image px s (v : V) : bare v -> exists v', load_boot_image px s v = Ok (0, 0, px, reset_stb s, v') /\ bare v'.
Proof.
  intros Hv. unfold load_boot_image. fold (reset_stb s).
  destruct (slurp_missing (bytes "0:/boot.png") (reset_stb s) v) as (v' & -> & Hq); [apply Hv; by left|].
  exists v'. split; [done|]. by eapply bare_same.
Qed.

Lemma no_image path px w h s (v : V) : bare v -> path ∈ start_paths ->
  exists v', load_image_via_stb path px w h s v = Ok (None, px, reset_stb s, v') /\ bare v'.
Proof.
  intros Hv Hp. unfold load_image_via_stb. fold (reset_stb s).
  destruct (slurp_missing path (reset_stb s) v) as (v' & -> & Hq); [by apply Hv|]. exists v'. split; [done|]. by eapply bare_same.
Qed.

(** The theme without a file. *)
Definition plain_theme : theme_state :=
  let t := theme_default (current_theme theme_boot) in mk_ts t (th_bg_r t) (th_bg_g t) (th_bg_b t).

Lemma no_files fuel h b s (v : V) : bare v ->
  exists s' v', load_files fuel h b s v =
    Ok (mk_files plain_theme (apply_theme_to_nuklear (current_theme plain_theme)) cursor_boot (ani_init ani_boot) None None s' v').
Proof.
  intros Hv. unfold load_files, theme_load_from_disk, load_system_cursor, ani_load.
  destruct (open_missing conf_path v) as (r1 & h1 & v1 & -> & -> & Q1); [apply Hv; right; by left|]. apply (bare_same v v1 Hv) in Q1.
  rewrite !bind_Ok. cbv beta iota zeta.
  destruct (open_missing (bytes "0:/arrow.cur") v1) as (r2 & h2 & v2 & -> & -> & Q2); [apply Q1; do 2 right; by left|]. apply (bare_same v1 v2 Q1) in Q2.
  cbn [negb]. rewrite bind_Ok. cbv beta iota zeta.
  destruct (open_missing (bytes "0:/arrow_load.ani") v2) as (r3 & h3 & v3 & -> & -> & Q3); [apply Q2; do 3 right; by left|]. apply (bare_same v2 v3 Q2) in Q3.
  cbn [negb]. rewrite bind_Ok. cbv beta iota zeta.
  destruct (no_image (bytes "0:/connected.png") icon_boot 64 64 s v3 Q3) as (v4 & -> & Q4); [do 4 right; by left|]. rewrite bind_Ok. cbv beta iota zeta.
  destruct (no_image (bytes "0:/noconnect.png") icon_boot 64 64 (reset_stb s) v4 Q4) as (v5 & -> & _); [do 5 right; by left|]. rewrite bind_Ok. cbv beta iota zeta.
  by eexists _, _.
Qed.

End NoFiles.

(** ** The start as a whole *)

Lemma flag_bit f : (Z.land f (Z.shiftl 1 11) =? 0) = negb (Z.testbit f 11).
Proof.
  change (Z.shiftl 1 11) with (2 ^ 11). destruct (Z.testbit f 11) eqn:E; cbn [negb].
  - apply Z.eqb_neq. intros Hz. assert (Z.testbit (Z.land f (2 ^ 11)) 11 = false) as Hb by (by rewrite Hz, Z.bits_0).
    rewrite Z.land_spec, E, Z.pow2_bits_true in Hb by lia. done.
  - apply Z.eqb_eq. apply Z.bits_inj'. intros n Hn. rewrite Z.land_spec, Z.bits_0, Z.pow2_bits_eqb by lia.
    destruct (Z.eqb_spec 11 n) as [<-|_]; [by rewrite E|by rewrite andb_false_r].
Qed.

(** A screen that carries the boot screen, the frame buffer behind it and a
    timer that runs. *)
Record boot_video (P W Ht : Z) (mb : multiboot_info) (i : start_in) (c : nat -> Z) : Prop := {
  bv_screen : screen_ok P Ht;
  bv_width : 440 <= W <= P;
  bv_height : 122 <= Ht;
  bv_mode : framebuffer_width mb = W /\ framebuffer_height mb = Ht /\ framebuffer_pitch mb = u32 (P * 4);
  bv_buffer : P * Ht <= zlen (si_fb i);
  bv_timer : running c;
  bv_clock : si_clock i = counter c;
  bv_early : c 0%nat + 1000 < 2147483648
}.

Definition no_rtl8139 {D} `{PciBus D} (d : D) : Prop :=
  forall b k, 0 <= b < 256 -> (k < 32)%nat -> is_card (pci_cfg d) b (Z.of_nat k) = false.

Lemma same_nic_vars {D} `{PciBus D} (s s' : nic_state D) : same_nic s s' ->
  mac_address s' = mac_address s /\ io_base s' = io_base s /\ pci_cfg (n_dev s') = pci_cfg (n_dev s).
Proof. intros (d & -> & E). done. Qed.

Section Cold.
Context {V D N : Type} `{FatFsLaws V} `{DecoderLaws} `{PciQuiet D} `{LwIP N} `{LwIPBootLaws N}.
Context (nk_init : mm_state -> Z * mm_state) (f_mount : V -> Z * V).
#[local] Set Default Proof Using "Type*".
#[local] Opaque back_buffer_boot boot_pixels_boot nic_boot editor_boot init_serial init_gdt init_idt load_boot_image show_boot_screen
  load_files init_rtl8139 start_network.

Lemma cold_start_runs P W Ht mb i c (d : D) (v : V) (stack : N) :
  boot_video P W Ht mb i c -> Z.testbit (mb_flags mb) 11 = true ->
  Forall (fun a => 0 <= a < 4294967296) [isr0 (si_stubs i); isr3 (si_stubs i); irq0 (si_stubs i); irq1 (si_stubs i); irq12 (si_stubs i); irq14 (si_stubs i)] ->
  truth (nk_init mm_boot).1 = true -> bare (f_mount v).2 -> no_rtl8139 d -> Forall is_byte (si_keys i) ->
  exists fuel0, forall fuel, (fuel0 <= fuel)%nat ->
    exists st, kernel_start nk_init f_mount fuel i mb d v stack = Ok st /\
      k_theme (st_desktop st) = plain_theme /\ k_cursor (st_desktop st) = cursor_boot /\ st_img st = (None, None) /\
      io_base (n_nic (k_net (st_desktop st))) = 0 /\
      (forall x y, 0 <= x < W -> 0 <= y < Ht -> pix P (k_screen (st_desktop st)) x y = BOOT_BG).
Proof.
  intros [HS HW HH (E1 & E2 & E3) Hlen Hc Hcl Hn] Hfl Hst Hnk Hv Hno Hk.
  destruct (boot_screen_ends P Ht W c (si_fb i) None 0 0 0 HS HW HH Hlen I Hc Hn) as (fuel0 & Hshow). exists fuel0. intros fuel Hf.
  destruct (Hshow fuel Hf) as (fb & n' & Hsh & _ & _ & Hpix).
  destruct (calm_serial (nic_boot d)) as (u & s1 & Hser & R1). destruct (init_gdt_flat (si_gdt i)) as (g & Hg & _).
  destruct (init_idt_calm (si_stubs i) (si_idt i) s1 Hst) as (t & s2 & Hidt & R2).
  destruct (no_boot_image boot_pixels_boot (mk_stb false arena_boot) _ Hv) as (v1 & Hbi & Hv1).
  destruct (no_files fuel (si_header i) (si_bmi i) (reset_stb (mk_stb false arena_boot)) v1 Hv1) as (s' & v2 & Hfi).
  pose proof (same_nic_trans _ _ _ R1 R2) as R. destruct (same_nic_vars _ _ R) as (_ & _ & C2).
  destruct (scan_buses_none (si_rx i) 256 0 s2) as (s3 & Hscan & R3).
  { intros b k Hb Hk'. rewrite Z.add_0_l, C2. by apply Hno. }
  destruct (same_nic_vars _ _ (same_nic_trans _ _ _ R R3)) as (M3 & I3 & _).
  destruct (start_network_ok s3 stack) as (n & Hnet & Hnic); [by rewrite M3|].
  destruct (press_all_ok (si_keys i) kbd_boot kbd_boot_ok ltac:(vm_compute; constructor) Hk) as (kb & Hkb & _).
  destruct (nk_init mm_boot) as [ok heap] eqn:Enk. cbn [fst] in Hnk.
  eexists. unfold kernel_start. rewrite Hser, bind_Ok, Hg, bind_Ok, flag_bit, Hfl. cbn [negb snd]. cbv zeta.
  rewrite Hidt, bind_Ok. cbv beta iota. unfold init_nk_backend. rewrite Enk, Hnk, bind_Ok.
  cbv beta iota zeta. rewrite Hbi, bind_Ok. cbv beta iota. change (0 <? 0) with false. cbv iota.
  rewrite E1, E2, E3, Hcl, Hsh, bind_Ok, Hfi, bind_Ok. change (init_rtl8139 (si_rx i)) with (scan_buses (si_rx i) 256 0).
  rewrite Hscan, bind_Ok. cbn [snd]. rewrite Hnet, bind_Ok, Hkb, bind_Ok. split; [reflexivity|].
  cbn [st_desktop k_theme k_cursor st_img fl_theme fl_cursor img_connected img_noconnect k_net k_screen fst]. rewrite Hnic.
  split; [reflexivity|]. split; [reflexivity|]. split; [reflexivity|]. split; [|exact Hpix]. rewrite I3. reflexivity.
Qed.

End Cold.

(** C39: the machine starts from a bare disk: with a graphics mode of at least
    440 x 122 pixels, a running timer, no network card, none of the optional
    files on the disk and any keys pressed meanwhile, [kernel_main] reaches its
    main loop (enough fuel exists) with the default theme, no cursor picture,
    no icons, a cleared screen and a well-formed desktop; without a graphics
    mode from the boot loader it stops before touching the screen. *)
Theorem cold_start {V D N : Type} `{FatFsLaws V} `{DecoderLaws} `{PciQuiet D} `{LwIP N} `{LwIPBootLaws N}
    (nk_init : mm_state -> Z * mm_state) (f_mount : V -> Z * V) (base : Z) (l : list block)
    (P W Ht : Z) (mb : multiboot_info) (i : start_in) (c : nat -> Z) (d : D) (v : V) (stack : N) :
  boot_video P W Ht mb i c ->
  Forall (fun a => 0 <= a < 4294967296) [isr0 (si_stubs i); isr3 (si_stubs i); irq0 (si_stubs i); irq1 (si_stubs i); irq12 (si_stubs i); irq14 (si_stubs i)] ->
  truth (nk_init mm_boot).1 = true -> heap_repr base (nk_init mm_boot).2 l ->
  bare (f_mount v).2 -> no_rtl8139 d -> Forall is_byte (si_keys i) ->
  if Z.testbit (mb_flags mb) 11 then
    exists fuel0, forall fuel, (fuel0 <= fuel)%nat ->
      exists st, kernel_start nk_init f_mount fuel i mb d v stack = Ok st /\ desktop_ok base l (st_desktop st) /\
        k_theme (st_desktop st) = plain_theme /\ k_cursor (st_desktop st) = cursor_boot /\ st_img st = (None, None) /\
        (forall x y, 0 <= x < W -> 0 <= y < Ht -> pix P (k_screen (st_desktop st)) x y = BOOT_BG)
  else forall fuel, kernel_start nk_init f_mount fuel i mb d v stack = Spin.
Proof.
  intros Hbv Hst Hnk Hr Hv Hno Hk. destruct (Z.testbit (mb_flags mb) 11) eqn:E.
  - destruct (cold_start_runs nk_init f_mount P W Ht mb i c d v stack Hbv E Hst Hnk Hv Hno Hk) as (f0 & Hf). exists f0. intros fuel Hfuel.
    destruct (Hf fuel Hfuel) as (st & Hs & Hth & Hcu & Him & _ & Hpx). exists st. split; [exact Hs|].
    split; [|auto]. destruct (kernel_start_ok _ _ _ _ _ _ _ _ _ _ _ Hs Hr Hk) as (Hok & _); [by right|by rewrite Hcu|exact Hok].
  - intros fuel. unfold kernel_start. destruct (calm_serial (nic_boot d)) as (u & s1 & -> & _).
    destruct (init_gdt_flat (si_gdt i)) as (g & -> & _). rewrite !bind_Ok, flag_bit, E. reflexivity.
Qed.

(** ** Witnesses *)

(** A bus on which nothing answers. *)
Record empty_bus := mk_empty { eb_sel : Z }.
#[global] Instance empty_bus_ports : Ports empty_bus := {
  p_inb _ d := (255, d); p_outb _ _ d := d; p_inw _ d := (65535, d); p_outw _ _ d := d;
  p_inl port d := (4294967295, d); p_outl port v d := if port =? 3320 then mk_empty v else d
}.
#[global] Instance empty_bus_pci : PciBus empty_bus.
Proof. by refine {| pci_cfg := fun (_ : empty_bus) (_ : Z) => 4294967295; pci_sel := eb_sel |}. Defined.
#[global] Instance empty_bus_quiet : PciQuiet empty_bus.
Proof. by split. Qed.

#[global] Instance frames_boot : LwIPBoot frames := {
  lwip_init n := mk_frames [] [];
  netif_add init nif n := x ← init (mk_netif (nif_name nif) 0 0 0 (hwaddr nif)); Ok (x, n);
  netif_set_default _ n := n;
  netif_set_up nif n := (mk_netif (nif_name nif) (nif_mtu nif) (Z.lor (nif_flags nif) 1) (hwaddr_len nif) (hwaddr nif), n);
  netif_set_link_up nif n := (mk_netif (nif_name nif) (nif_mtu nif) (Z.lor (nif_flags nif) 4) (hwaddr_len nif) (hwaddr nif), n);
  dhcp_start _ n := n
}.

#[global] Instance frames_boot_laws : LwIPBootLaws frames.
Proof. split. intros init nif n. exists (mk_netif (nif_name nif) 0 0 0 (hwaddr nif)), n. by split. Qed.

Definition w_mb : multiboot_info := mk_mb 2048 0 (u32 (450 * 4)) 440 122.
Definition w_fb : list Z := replicate (Z.to_nat 55000) 0.
Definition w_start : start_in := mk_start_in 4096 8192 (mk_stubs 1 2 3 4 5 6) 0 (counter Z.of_nat) [] [] w_fb [30; 48].
Definition w_nk_init (st : mm_state) : Z * mm_state :=
  match kmalloc w_base 100 st with Ok (st, _) => (1, st) | _ => (0, st) end.
Definition w_mount (v : memfs) : Z * memfs := (0, v).
Definition w_disk : memfs := mk_memfs ∅ ∅ 0.

Lemma w_boot_video : boot_video 450 440 122 w_mb w_start Z.of_nat.
Proof.
  split; cbn [w_mb w_start framebuffer_width framebuffer_height framebuffer_pitch si_fb si_clock].
  - unfold screen_ok. lia.
  - lia.
  - lia.
  - done.
  - unfold w_fb. rewrite length_replicate. lia.
  - exact clock_running.
  - reflexivity.
  - lia.
Qed.

Lemma w_stubs_ok : Forall (fun a => 0 <= a < 4294967296) [1; 2; 3; 4; 5; 6].
Proof. repeat (constructor; [lia|]). constructor. Qed.

Lemma w_keys_ok : Forall is_byte (si_keys w_start).
Proof. repeat (constructor; [unfold is_byte; lia|]). constructor. Qed.

Lemma w_no_card s : no_rtl8139 (mk_empty s).
Proof. intros b k _ _. reflexivity. Qed.

Lemma w_bare : bare (w_mount w_disk).2.
Proof. intros p _. change (mem_file w_disk p = None). unfold mem_file, w_disk. cbn [m_files]. by rewrite lookup_empty. Qed.

Lemma w_nk_init_heap : w_nk_init mm_boot = (1, w_heap1).
Proof. vm_compute. reflexivity. Qed.

Lemma cold_start_witness :
  exists fuel st, kernel_start w_nk_init w_mount fuel w_start w_mb (mk_empty 0) w_disk (mk_frames [] []) = Ok st /\
    k_theme (st_desktop st) = plain_theme /\ pix 450 (k_screen (st_desktop st)) 439 121 = BOOT_BG.
Proof.
  destruct (cold_start w_nk_init w_mount w_base [mk_block w_base 104 false; mk_block (w_base + 116) (HEAP_BYTES - 128) true]
    450 440 122 w_mb w_start Z.of_nat (mk_empty 0) w_disk (mk_frames [] [])) as (f0 & Hf).
  - exact w_boot_video.
  - exact w_stubs_ok.
  - rewrite w_nk_init_heap. reflexivity.
  - rewrite w_nk_init_heap. exact w_heap1_repr.
  - exact w_bare.
  - apply w_no_card.
  - exact w_keys_ok.
  - destruct (Hf f0 (le_n f0)) as (st & Hs & _ & Hth & _ & _ & Hp). exists f0, st. split; [exact Hs|]. split; [exact Hth|]. apply Hp; lia.
Defined.

Lemma w_video_ok : video_ok 450 w_mb w_start.
Proof.
  split; cbn [w_mb w_start framebuffer_width framebuffer_height framebuffer_pitch si_fb];
    [unfold screen_ok; lia|unfold screen_ok; lia|lia|reflexivity|lia|unfold w_fb; rewrite length_replicate; lia].
Qed.

